(* ===== verification/_CoqProject ===== *)
-Q . S2P
Prelude.v
SnvmState.v
EseData.v
IsoT1.v
SecStar.v
IsoCard.v
SnvmFacts.v
EseDataFacts.v
IsoLink.v
IsoExchange.v
StarExchange.v
T1Inv.v
IsoTimeout.v
SnvmProps.v
Bus.v
Sm5714Battery.v
Sm5714Facts.v
Sm5714Props.v
Sm5440Direct.v
Sm5440Facts.v
Sm5440Props.v
Sm5714Usbpd.v
Sm5714UsbpdProps.v
Dw9808.v
Dw9808Props.v
Double.v
Autofocus.v
AutofocusProps.v
Wacom.v
WacomProps.v
Fts1ba90a.v
FtsProps.v
FtsPower.v
Hi1337Tables.v
Hi1337.v
Hi1337Props.v
Ps5169.v
Ps5169Props.v
EgisEl721.v
EgisProps.v
Ana38407.v
Ana38407Props.v
GlinkSpss.v
GlinkSpssProps.v
SpHlosHeap.v
SpHlosHeapProps.v
SpssUtils.v
SpssUtilsProps.v
QcomSpss.v
QcomSpssProps.v
Spcom.v
SpcomMsg.v
SpcomDev.v
SpcomFacts.v
SpcomClients.v
SpcomShare.v
SpcomMatch.v
SpcomAnswer.v
K250a.v
K250aProps.v
AndroidShim.v
AndroidShimProps.v
EseMemory.v
K250aPlatform.v
ChargeShare.v
