(* ===== verification/Prelude.v ===== *)
(** * The drivers of the Galaxy Tab S9 Wi-Fi (gts9wifi), verified

    The repository is a Fedora port to the Samsung Galaxy Tab S9 (SM-X710).  Its
    own code is a set of Linux drivers, src/kernel/files/, and two programs of user
    space, src/tools/.  This library is a shallow embedding of that C code: a function
    of the source is a function here, under its own name, in a state monad whose
    results are a value with the new state, a fault (a wild, freed or
    out-of-bounds access) or exhausted fuel.

    ** The parts and their files

    - Prelude: record update, the kernel's integers and macros, the monad [M],
      its weakest preconditions ([wp] total, [wlp] partial, [wsafe] without
      faults), [respects] (a relation every run respects) and [returns], each with
      its tactic ([resp], [rets]).
    - Bus: drivers of devices on a bus.  A [machine] is the driver's structure,
      the world (the environment, an arbitrary type behind a type class) and a
      ghost log of what the driver did to hardware and kernel.  [Smbus] is the
      kernel's SMBus interface; [audit] replays a log into an account, and [vc]
      is the weakest precondition of code in terms of the structure and an
      account, for any world.
    - The secure element, snvm/: SnvmState (heap, structures), EseData
      (protocol/ese_data.c, hal/ese_hal.c, ese_i2c.c, ese_spi.c), IsoT1
      (protocol/ese_iso7816_t1.c), SecStar (sec_star.c).  sec_star calls the T=1
      protocol, which calls the HAL; responses are collected in the packet list.
      IsoCard is the other end, a card that follows ISO 7816-3; SnvmFacts,
      EseDataFacts, IsoLink, IsoExchange, StarExchange, T1Inv and IsoTimeout run
      the driver against it, against any environment, and against silence.  K250a
      (sec_k250a.c) is the board below sec_star: supply, reset, module; K250aProps
      puts the two together.  EseMemory (protocol/ese_memory.c) and K250aPlatform
      (the rest of sec_k250a.c) are configurations this tablet does not build: the
      allocator that lists its blocks, the device that only switches supply and
      clocks.
    - The secure processor, spu/: GlinkSpss (qcom_glink_spss.c, the rings it shares
      with the tablet), SpHlosHeap (qcom_sp_hlos_heap.c, the buffers both see),
      SpssUtils (spss_utils.c and qcom_spss_irq.c, its events), QcomSpss
      (qcom_spss.c, starting and stopping it), and the channels to its applications,
      spcom.c: Spcom (device, channels, packets that arrive), SpcomMsg (messages,
      shared buffers), SpcomDev (files, requests, life of the device).  SpcomFacts
      has its operations as one type with the tactic that takes a relation through
      all of them, SpcomClients, SpcomShare, SpcomMatch and SpcomAnswer its invariants.
      AndroidShim (tools/gts9u-android-shim.c) is what its daemons in user space
      take for Android.
    - Charging: Sm5714Battery (sm5714_battery.c: charger, fuel gauge, USB switch),
      Sm5440Direct (sm5440_direct.c: the charge pump, a client of the former) and
      Sm5714Usbpd (sm5714_usbpd.c: the USB-PD transport, which switches the
      former's OTG boost).  ChargeShare gives the pump the SM5714 driver itself as
      its environment.
    - The USB-C redriver: Ps5169 (ps5169.c).
    - The camera: Hi1337 and Hi1337Tables (hi1337_gts9u.c and its register
      tables), Dw9808 (dw9808_vcm.c, the lens), Autofocus
      (tools/gts9wifi-autofocus.c, a user of both through V4L2) on Double (the
      C type double as IEEE 754 binary64).
    - Input: Fts1ba90a (fts1ba90a.c, touch), Wacom (wacom-wez01.c, pen, which
      silences the touchscreen through a flag).
    - The fingerprint reader: EgisEl721 (egis_el721.c), and the panel whose light it
      works by, switched by user space: Ana38407 (panel-samsung-ana38407.c).

    A record of the model is a structure of the source (fields that only hold
    kernel objects are left out), a type class (SnvmEnv, BatEnv, DcEnv, PumpEnv, PdEnv,
    VcmEnv, AfEnv, PenEnv, TouchEnv, CamEnv, RedriverEnv, SensorEnv, PanelEnv,
    HeapEnv, UtilsEnv, SpssEnv, TreeEnv, SpcomEnv, K250aEnv, PlatformEnv, Kmalloc,
    ShimEnv) is the code the drivers call but the repository does not hold.  Its
    answers are unconstrained unless a theorem names a law; each law is what the
    kernel documents.  [static]
    helpers cut out of a long C function (an exit label, a loop, a case) are
    definitions of their own, named after what they do.

    ** What the theorems show

    - Secure element (SnvmProps C1, C2, C13, C30-C32; K250aProps C8, C28): a write
      of a chain of commands and the read of the responses against a conforming card
      (the device refines the card's function), the T=1 exchange below it, bounds of
      every reachable protocol state, the packet list's round trip, a silent card, a
      failed send; the element is powered while it is open, and the module that adds
      it to the tablet takes everything away again.
    - Secure processor: answers match requests (SpcomAnswer C3), the lock of a shared
      channel follows its transaction (SpcomShare C4), the table of a channel's
      clients and its counter agree (SpcomClients C14); shared page frames stay out of
      the pool until they are back (SpHlosHeapProps C7); a pipe is a queue of bytes in any order its stores are
      seen (GlinkSpssProps C9); events are what waiters saw, no notification of the
      interrupt is lost (SpssUtilsProps C15, C16); probe, remove and start give back
      what they take (QcomSpssProps C17, C27); the daemons' log says what they asked
      for, in bounds, and its numbers read back (AndroidShimProps C18, C40).
    - Charger (Sm5714Props C5, C29): the path to the pack is closed only behind a
      lowered input limit, it is open while the boost is on.
    - Direct charger (Sm5440Props C6, C34): the pack is handed over and always handed
      back, every poll returns.  Both drivers together (ChargeShare C33): while the
      pump is active only three calls, which do not ask who has the pack, can close
      the charger's path behind it, and two of them are shown to.
    - USB-PD (Sm5714UsbpdProps C35, C36): the power role swap in place, messages on
      the wire.
    - Camera (Hi1337Props C10, C26; Dw9808Props C25; AutofocusProps C23, C24): rails,
      clock, GPIOs and registrations are held exactly while needed on every error
      path, the sensor is told to stream last, the lens is walked down to rest and up
      again in bounded steps (but for the positions its own initialisation writes), the
      search terminates at a peak, exposure stays in range within ten rounds.
    - Panel and fingerprint (Ana38407Props C11; EgisProps C12, C39): the panel shows
      what was asked and leaves the fingerprint light in time, the reader's structure
      outlives its users in any interleaving, its hardware is untouched until asked.
    - Pen, touch (WacomProps C21, C37; FtsProps C22, C38; FtsPower C19): coherent
      reports, ranges, the pen silences fingers, power and interrupt balanced.
    - Redriver (Ps5169Props C20): its registers and the direction of its lanes are those
      of the mode and of the port's role.

    Several of them show defects of the code, which the theorem then states as
    the code has them (the failed send that keeps a freed command, the silence
    timer that is shut down for good, a resume that fails with the interrupt
    disabled, controls left behind by probe, a probe that returns success after it
    freed everything, a close that keeps a channel's lock, one that loses count of its
    clients, an initialisation that throws the lens, an int logged as 64 bits).
    Further properties are proved in the same files as lemmas: charge limits,
    register codes and gauge conversions, hysteresis, negotiated currents, round trips of coordinates
    and of the OTG boost, the checksum, the branches of a read, the registration of
    the transport, the list of the tracking allocator, the balance of open and
    release in K250aPlatform.

    ** Fuel and bounds

    Only unbounded loops take fuel.  RAMP_FUEL (Dw9808, 4098) exceeds the 4096
    steps a ramp of 16-bit positions can have; REFINE_FUEL (Autofocus, 1031)
    exceeds the moves of a search over 0..1023 plus its halvings; WALK_FUEL
    (Sm5440Direct, 14) covers the walk from 5 A down to 1.8 A in steps of 250 mA:
    that they suffice is part of C25, C24 and C34.  The T=1 receive loop takes
    its fuel as an argument; C1, C2 and C32 say how much is enough.  tx_tries (SpcomMsg)
    is the number of turns of the transmit loop, whose time grows by 100 ms each;
    vformat_loop (AndroidShim) takes one turn per byte of the format, put_digits one
    per bit of a 64-bit number, which C18 shows enough.  Loops with a constant number
    of turns in the source have it here.  A lock of spcom.c that is never given is
    exhausted fuel: such a call does not return.

    ** Not modelled

    Locks, outside spcom.c (an operation that holds the driver's lock is one step;
    where two sections of one function can be interleaved, as in the removal of the
    fingerprint reader, they are two steps), messages to the kernel log,
    device-managed allocation, and the DMA and timing of transfers.  Of the
    source: code that no configuration reaches (the wake lock of snvm_wakelock.h, the
    internal pull-ups of sec_k250a.c), tables of function pointers (the theorems name
    the functions), and everything that is not C: device trees, patches, specs and
    shell scripts.  Nothing else of the C code is left. *)
From stdpp Require Export base decidable list gmap relations.
From Stdlib Require Export ZArith Lia.

#[global] Open Scope Z_scope.

(** ** Record update

    [r <| f := v |>] is the assignment [r->f = v] of the C code.  A record type
    declares its constructor applied to its own projections as an instance of
    [Eta]; the setter of a field is computed from it. *)

Class Eta (R : Type) := eta_of : R → R.
Class Setter {R E : Type} (getter : R → E) := over_field : (E → E) → R → R.

Ltac build_setter :=
  lazymatch goal with
  | |- @Setter ?R ?E ?g =>
      let f := fresh "f" in
      let r := fresh "r" in
      unfold Setter; intros f r;
      let e := constr:(_ : Eta R) in
      let e := eval red in e in
      let e := eval cbv beta in (e r) in
      lazymatch eval pattern (g r) in e with
      | ?k _ => let t := eval cbv beta in (k (f (g r))) in exact t
      end
  end.
#[global] Hint Extern 0 (Setter _) => build_setter : typeclass_instances.

Declare Scope upd_scope.
Notation "r <| p ::= f |>" :=
  (over_field (getter := p) f r)
  (at level 1, left associativity, p at next level, f at level 99) : upd_scope.
Notation "r <| p := v |>" :=
  (over_field (getter := p) (fun _ => v) r)
  (at level 1, left associativity, p at next level, v at level 99) : upd_scope.
Notation "r <| p .: q := v |>" :=
  (over_field (getter := p) (over_field (getter := q) (fun _ => v)) r)
  (at level 1, left associativity, p at next level, q at next level,
   v at level 99) : upd_scope.
Notation "r <| p .: q .: s := v |>" :=
  (over_field (getter := p)
     (over_field (getter := q) (over_field (getter := s) (fun _ => v))) r)
  (at level 1, left associativity, p at next level, q at next level,
   s at next level, v at level 99) : upd_scope.
#[global] Open Scope upd_scope.

(** ** Fixed-width integers and the kernel's integer macros *)

(** Conversion to [uint8_t], [uint16_t], [uint32_t] and to [int]. *)
Definition u8 (z : Z) : Z := z mod 256.
Definition u16 (z : Z) : Z := z mod 65536.
Definition u32 (z : Z) : Z := z mod 4294967296.
Definition s8 (z : Z) : Z := (z + 128) mod 256 - 128.
Definition s32 (z : Z) : Z := (z + 2147483648) mod 4294967296 - 2147483648.

Definition is_u8 (z : Z) : Prop := 0 <= z < 256.
Definition is_u16 (z : Z) : Prop := 0 <= z < 65536.
Definition is_u32 (z : Z) : Prop := 0 <= z < 4294967296.

(** [BIT(n)], [GENMASK(h, l)], [clamp], [DIV_ROUND_UP] of the kernel headers.
    C's division truncates, hence [Z.quot]. *)
Definition BIT (n : Z) : Z := Z.shiftl 1 n.
Definition GENMASK (h l : Z) : Z := Z.shiftl (Z.ones (h - l + 1)) l.
Definition clamp (v lo hi : Z) : Z := Z.min (Z.max v lo) hi.
Definition DIV_ROUND_UP (n d : Z) : Z := Z.quot (n + d - 1) d.

(** [if (x & mask)] *)
Definition testm (x mask : Z) : bool := negb (Z.land x mask =? 0).

Lemma testm_pow2 x i : 0 <= i → testm x (2 ^ i) = Z.testbit x i.
Proof.
  intros Hi. unfold testm. destruct (Z.testbit x i) eqn:Hb.
  - apply negb_true_iff, Z.eqb_neq. intros H0.
    assert (Z.testbit (Z.land x (2 ^ i)) i = false) as H1 by (by rewrite H0, Z.bits_0).
    rewrite Z.land_spec, Hb, Z.pow2_bits_true in H1 by done. done.
  - apply negb_false_iff, Z.eqb_eq. apply Z.bits_inj'. intros j Hj.
    rewrite Z.land_spec, Z.bits_0, Z.pow2_bits_eqb by done.
    destruct (Z.eqb_spec i j) as [<-|]; [by rewrite Hb|by rewrite andb_false_r].
Qed.

(** The error numbers the drivers return. *)
Definition EIO := 5.
Definition E2BIG := 7.
Definition EAGAIN := 11.
Definition ENOMEM := 12.
Definition EFAULT := 14.
Definition EBUSY := 16.
Definition ENODEV := 19.
Definition EINVAL := 22.
Definition ENOTTY := 25.
Definition ENOSPC := 28.
Definition ERANGE := 34.
Definition ENODATA := 61.
Definition ENOLINK := 67.
Definition EOPNOTSUPP := 95.
Definition ETIMEDOUT := 110.
Definition EPROBE_DEFER := 517.

(** ** Stateful code

    A C function is a function from the machine state to an outcome: it
    returns, it runs into undefined behaviour of the memory it touches
    ([Fault]: a wild, freed or out-of-bounds access), or the fuel given to an
    unbounded loop is used up ([NoFuel]). *)

Inductive outcome (A : Type) : Type :=
  | Ret (a : A)
  | Fault
  | NoFuel.
Arguments Ret {A} a.
Arguments Fault {A}.
Arguments NoFuel {A}.

Definition M (S A : Type) : Type := S → outcome (A * S).

#[global] Instance M_ret {S} : MRet (M S) := fun A a s => Ret (a, s).
#[global] Instance M_bind {S} : MBind (M S) := fun A B f m s =>
  match m s with
  | Ret (a, s') => f a s'
  | Fault => Fault
  | NoFuel => NoFuel
  end.

Definition fault {S A} : M S A := fun _ => Fault.
Definition nofuel {S A} : M S A := fun _ => NoFuel.
Definition get {S} : M S S := fun s => Ret (s, s).
Definition gets {S A} (f : S → A) : M S A := fun s => Ret (f s, s).
Definition modify {S} (f : S → S) : M S unit := fun s => Ret (tt, f s).
Definition skip {S} : M S unit := mret tt.

(** [x = c; if (x < 0) return x; k]: the kernel's error propagation. *)
Definition ret_if_neg {S} (m : M S Z) (k : Z → M S Z) : M S Z :=
  x ← m; if x <? 0 then mret x else k x.
(** [x = c; if (x) return x; k] *)
Definition ret_if_nz {S} (m : M S Z) (k : M S Z) : M S Z :=
  x ← m; if x =? 0 then k else mret x.

Notation "x ←? m ; k" := (ret_if_neg m (fun x => k))
  (at level 20, m at level 100, k at level 200, only parsing).
Notation "m ?; k" := (ret_if_nz m k)
  (at level 100, k at level 200, right associativity, only parsing).

(** A [for] loop over at most [n] iterations whose body may leave early with a
    result ([Some]). *)
Fixpoint for_upto {S R} (n : nat) (i : Z) (body : Z → M S (option R))
    : M S (option R) :=
  match n with
  | O => mret None
  | S n' =>
      r ← body i;
      match r with
      | Some v => mret (Some v)
      | None => for_upto n' (i + 1) body
      end
  end.

(** ** Proof rules *)

Section rules.
Context {S : Type}.

Lemma bind_ret {A B} (m : M S A) (f : A → M S B) s a s' :
  m s = Ret (a, s') → (m ≫= f) s = f a s'.
Proof. intros H. unfold mbind, M_bind. by rewrite H. Qed.

Lemma bind_fault {A B} (m : M S A) (f : A → M S B) s :
  m s = Fault → (m ≫= f) s = Fault.
Proof. intros H. unfold mbind, M_bind. by rewrite H. Qed.

Lemma bind_inv {A B} (m : M S A) (f : A → M S B) s r :
  (m ≫= f) s = Ret r →
  ∃ a s', m s = Ret (a, s') ∧ f a s' = Ret r.
Proof.
  unfold mbind, M_bind. destruct (m s) as [[a s']| |]; try done.
  intros H. by exists a, s'.
Qed.

Lemma bind_assoc {A B C} (m : M S A) (f : A → M S B) (g : B → M S C) s :
  ((m ≫= f) ≫= g) s = (m ≫= (fun a => f a ≫= g)) s.
Proof. unfold mbind, M_bind. by destruct (m s) as [[a s']| |]. Qed.

(** The branches of [if (x) c; else k]. *)
Lemma if_nz {A} (x : Z) (c k : M S A) s r :
  (if negb (x =? 0) then c else k) s = r → (x = 0 ∧ k s = r) ∨ (x ≠ 0 ∧ c s = r).
Proof. destruct (Z.eqb_spec x 0); cbn; auto. Qed.

(** Weakest preconditions: [wp] is total (the code returns), [wlp] speaks of
    the runs that return. *)
Definition wp {A} (m : M S A) (Q : A → S → Prop) (s : S) : Prop :=
  match m s with Ret (a, s') => Q a s' | _ => False end.
Definition wlp {A} (m : M S A) (Q : A → S → Prop) (s : S) : Prop :=
  match m s with Ret (a, s') => Q a s' | _ => True end.

Lemma wp_bind {A B} (m : M S A) (f : A → M S B) Q s :
  wp m (fun a s' => wp (f a) Q s') s → wp (m ≫= f) Q s.
Proof. unfold wp, mbind, M_bind. by destruct (m s) as [[a s']| |]. Qed.

Lemma wlp_bind {A B} (m : M S A) (f : A → M S B) Q s :
  wlp m (fun a s' => wlp (f a) Q s') s → wlp (m ≫= f) Q s.
Proof. unfold wlp, mbind, M_bind. by destruct (m s) as [[a s']| |]. Qed.

Lemma wlp_mono {A} (m : M S A) (P Q : A → S → Prop) s :
  wlp m P s → (∀ a s', P a s' → Q a s') → wlp m Q s.
Proof. unfold wlp. destruct (m s) as [[a s']| |]; eauto. Qed.

Lemma wp_mono {A} (m : M S A) (P Q : A → S → Prop) s :
  wp m P s → (∀ a s', P a s' → Q a s') → wp m Q s.
Proof. unfold wp. destruct (m s) as [[a s']| |]; eauto. Qed.

Lemma wp_ret_eq {A} (m : M S A) Q s a s' :
  m s = Ret (a, s') → Q a s' → wp m Q s.
Proof. unfold wp. by intros ->. Qed.

(** Partial correctness without faults: only the fuel may run out. *)
Definition wsafe {A} (m : M S A) (Q : A → S → Prop) (s : S) : Prop :=
  match m s with Ret (a, s') => Q a s' | Fault => False | NoFuel => True end.

Lemma wsafe_bind {A B} (m : M S A) (f : A → M S B) Q s :
  wsafe m (fun a s' => wsafe (f a) Q s') s → wsafe (m ≫= f) Q s.
Proof. unfold wsafe, mbind, M_bind. by destruct (m s) as [[a s']| |]. Qed.

Lemma wsafe_mono {A} (m : M S A) (P Q : A → S → Prop) s :
  wsafe m P s → (∀ a s', P a s' → Q a s') → wsafe m Q s.
Proof. unfold wsafe. destruct (m s) as [[a s']| |]; eauto. Qed.

(** A pre-order (or an invariant seen as one) that every run of [m] that
    returns respects. *)
Definition respects {A} (R : S → S → Prop) (m : M S A) : Prop :=
  ∀ s a s', m s = Ret (a, s') → R s s'.

Context (R : S → S → Prop) `{!PreOrder R}.

Lemma respects_ret {A} (a : A) : respects R (mret a).
Proof. intros s a' s' [= <- <-]. reflexivity. Qed.
Lemma respects_gets {A} (f : S → A) : respects R (gets f).
Proof. intros s a' s' [= <- <-]. reflexivity. Qed.
Lemma respects_get : respects R get.
Proof. intros s a' s' [= <- <-]. reflexivity. Qed.
Lemma respects_skip : respects R skip.
Proof. apply respects_ret. Qed.
Lemma respects_fault {A} : respects R (fault : M S A).
Proof. intros s a s'. done. Qed.
Lemma respects_nofuel {A} : respects R (nofuel : M S A).
Proof. intros s a s'. done. Qed.
Lemma respects_modify f : (∀ s, R s (f s)) → respects R (modify f).
Proof. intros H s a s' [= <- <-]. apply H. Qed.
Lemma respects_bind {A B} (m : M S A) (f : A → M S B) :
  respects R m → (∀ a, respects R (f a)) → respects R (m ≫= f).
Proof.
  intros Hm Hf s b s' H. apply bind_inv in H as (a & s1 & H1 & H2).
  transitivity s1; [by eapply Hm | by eapply Hf].
Qed.
(** The same when the continuation relies on what [m] returns. *)
Lemma respects_bind_val {A B} (P : A → Prop) (m : M S A) (f : A → M S B) :
  (∀ s a s', m s = Ret (a, s') → P a) →
  respects R m → (∀ a, P a → respects R (f a)) → respects R (m ≫= f).
Proof.
  intros HP Hm Hf s b s' H. apply bind_inv in H as (a & s1 & H1 & H2).
  transitivity s1; [by eapply Hm | eapply Hf; [by eapply HP | done]].
Qed.
Lemma respects_if {A} (b : bool) (m1 m2 : M S A) :
  respects R m1 → respects R m2 → respects R (if b then m1 else m2).
Proof. by destruct b. Qed.
Lemma respects_neg (m : M S Z) k :
  respects R m → (∀ x, respects R (k x)) → respects R (ret_if_neg m k).
Proof.
  intros Hm Hk. apply respects_bind; [done|]. intros x.
  apply respects_if; [apply respects_ret | apply Hk].
Qed.
Lemma respects_nz (m k : M S Z) :
  respects R m → respects R k → respects R (ret_if_nz m k).
Proof.
  intros Hm Hk. apply respects_bind; [done|]. intros x.
  apply respects_if; [done | apply respects_ret].
Qed.
Lemma respects_for {V} n i (body : Z → M S (option V)) :
  (∀ j, respects R (body j)) → respects R (for_upto n i body).
Proof.
  intros Hb. revert i. induction n as [|n IH]; intros i; simpl.
  - apply respects_ret.
  - apply respects_bind; [apply Hb|]. intros [v|]; [apply respects_ret | apply IH].
Qed.
End rules.

(** *** Code that always returns *)

Section returns.
Context {S : Type}.
Definition returns {A} (c : M S A) : Prop := ∀ s, ∃ a s', c s = Ret (a, s').

Lemma returns_bind {A B} (c : M S A) (k : A → M S B) :
  returns c → (∀ a, returns (k a)) → returns (c ≫= k).
Proof.
  intros Hc Hk s. destruct (Hc s) as (a & s1 & H1). destruct (Hk a s1) as (b & s2 & H2).
  exists b, s2. by rewrite (bind_ret _ _ _ _ _ H1).
Qed.
Lemma returns_ret {A} (x : A) : returns (mret x).
Proof. intros s. by eexists _, _. Qed.
Lemma returns_gets {A} (f : S → A) : returns (gets f).
Proof. intros s. by eexists _, _. Qed.
Lemma returns_modify f : returns (modify f).
Proof. intros s. by eexists _, _. Qed.
Lemma returns_neg (m : M S Z) k :
  returns m → (∀ x, returns (k x)) → returns (ret_if_neg m k).
Proof.
  intros Hm Hk. apply returns_bind; [done|]. intros x.
  destruct (x <? 0); [apply returns_ret|apply Hk].
Qed.
Lemma returns_nz (m k : M S Z) : returns m → returns k → returns (ret_if_nz m k).
Proof.
  intros Hm Hk. apply returns_bind; [done|]. intros x.
  destruct (x =? 0); [done|apply returns_ret].
Qed.
Lemma returns_for {V} n i (body : Z → M S (option V)) :
  (∀ j, returns (body j)) → returns (for_upto n i body).
Proof.
  intros Hb. revert i. induction n as [|n IH]; intros i; simpl; [apply returns_ret|].
  apply returns_bind; [apply Hb|]. intros [v|]; [apply returns_ret|apply IH].
Qed.
End returns.

(** What every step preserves holds after any number of steps. *)
Lemma rtc_keeps {A} (R : relation A) (P : A → Prop) x y :
  (∀ a b, R a b → P a → P b) → rtc R x y → P x → P y.
Proof. induction 2; eauto. Qed.

Create HintDb resp.
#[export] Hint Resolve respects_ret respects_gets respects_get respects_skip
  respects_fault respects_nofuel : resp.

(** [resp] splits a program along its structure and leaves the atomic
    state changes. *)
Ltac resp_step :=
  lazymatch goal with
  | |- PreOrder _ => typeclasses eauto
  | |- ∀ _, _ => intros ?
  | |- respects _ (mret _) => apply respects_ret
  | |- respects _ (gets _) => apply respects_gets
  | |- respects _ get => apply respects_get
  | |- respects _ skip => apply respects_skip
  | |- respects _ fault => apply respects_fault
  | |- respects _ nofuel => apply respects_nofuel
  | |- respects _ (for_upto _ _ _) => apply respects_for
  | |- respects _ (ret_if_neg _ _) => apply respects_neg
  | |- respects _ (ret_if_nz _ _) => apply respects_nz
  | |- respects _ (_ ≫= _) => apply respects_bind
  | |- respects _ (if ?b then _ else _) => destruct b
  | |- respects _ (match ?x with _ => _ end) => destruct x
  | |- respects _ (let '_ := ?x in _) => destruct x
  end.
Ltac resp := repeat (first [ solve [eauto 2 with resp] | resp_step ]).
(** The function at the head of an application: what to unfold next. *)
Ltac term_head t := lazymatch t with ?f _ => term_head f | _ => t end.

(** [rets] does the same for [returns]. *)
Create HintDb rets.
#[export] Hint Resolve returns_ret returns_gets returns_modify : rets.
Ltac rets_step :=
  lazymatch goal with
  | |- ∀ _, _ => intros ?
  | |- returns skip => apply returns_ret
  | |- returns (for_upto _ _ _) => apply returns_for
  | |- returns (ret_if_neg _ _) => apply returns_neg
  | |- returns (ret_if_nz _ _) => apply returns_nz
  | |- returns (_ ≫= _) => apply returns_bind
  | |- returns (if ?b then _ else _) => destruct b
  | |- returns (match ?x with _ => _ end) => destruct x
  | |- returns (let '_ := ?x in _) => destruct x
  end.
Ltac rets := repeat (first [ solve [eauto 2 with rets] | rets_step ]).

(** Run the next statement of a program whose result is known. *)
Ltac run_with H := erewrite bind_ret by (exact H); cbv beta.
