(* ===== verification/SnvmState.v ===== *)
(** The machine state of the secure-element (SNVM) stack: byte buffers in a
    heap, the structures of [ese_iso7816_t1.h], [ese_data.h] and [sec_star.h],
    and the interface to the world outside the sources. *)
From S2P Require Import Prelude.

(** ** Byte buffers

    A buffer is a block of bytes; a pointer is a block with an offset.  Blocks
    come from [kzalloc] (or are stack variables) and go with [kfree]. *)

Inductive ptr := NULL | Ptr (b : Z) (o : Z).

#[export] Instance ptr_eq_dec : EqDecision ptr.
Proof. solve_decision. Defined.

Definition ptr_add (p : ptr) (n : Z) : ptr :=
  match p with NULL => NULL | Ptr b o => Ptr b (o + n) end.
Definition is_null (p : ptr) : bool :=
  match p with NULL => true | Ptr _ _ => false end.

Record heap := mkHeap { blocks : gmap Z (list Z); next_block : Z }.
#[export] Instance eta_heap : Eta heap := fun h => mkHeap (blocks h) (next_block h).

(** Read [n] bytes at [p]; [None] outside a live block. *)
Definition read_bytes (h : heap) (p : ptr) (n : Z) : option (list Z) :=
  match p with
  | NULL => None
  | Ptr b o =>
      match blocks h !! b with
      | Some l =>
          if (0 <=? o) && (0 <=? n) && (o + n <=? Z.of_nat (length l))
          then Some (take (Z.to_nat n) (drop (Z.to_nat o) l))
          else None
      | None => None
      end
  end.

(** [l] with [bs] written over the bytes from offset [o] on. *)
Definition splice (o : nat) (bs l : list Z) : list Z :=
  take o l ++ bs ++ drop (o + length bs) l.

Definition write_bytes (h : heap) (p : ptr) (bs : list Z) : option heap :=
  match p with
  | NULL => None
  | Ptr b o =>
      match blocks h !! b with
      | Some l =>
          if (0 <=? o) && (o + Z.of_nat (length bs) <=? Z.of_nat (length l))
          then Some (h <| blocks := <[b := splice (Z.to_nat o) bs l]> (blocks h) |>)
          else None
      | None => None
      end
  end.

(** ** [ese_error.h] *)

Definition ESESTATUS_SUCCESS := 0x00.
Definition ESESTATUS_FAILED := 0x01.
Definition ESESTATUS_INVALID_DEVICE := 0x05.
Definition ESESTATUS_INVALID_BUFFER := 0x30.
Definition ESESTATUS_NOT_ENOUGH_MEMORY := 0x31.
Definition ESESTATUS_MEMORY_ALLOCATION_FAIL := 0x32.
Definition ESESTATUS_INVALID_FORMAT := 0x53.
Definition ESESTATUS_INVALID_FRAME := 0x54.
Definition ESESTATUS_SEND_FAILED := 0x60.
Definition ESESTATUS_INVALID_SEND_LENGTH := 0x63.
Definition ESESTATUS_INVALID_RECEIVE_LENGTH := 0x64.

(** ** [ese_data.h]: a list of packets

    The head's own packet carries the total size; the nodes behind [next] are
    the Rocq list [nodes]. *)

Record data_packet := mkPacket { pk_data : ptr; pk_size : Z }.
Record data_list := mkList { head_size : Z; nodes : list data_packet }.
#[export] Instance eta_data_list : Eta data_list :=
  fun d => mkList (head_size d) (nodes d).

(** [ese_protocol.h] *)
Record ese_data := mkData { ed_data : ptr; ed_size : Z }.
#[export] Instance eta_ese_data : Eta ese_data := fun d => mkData (ed_data d) (ed_size d).

(** ** [ese_iso7816_t1.h] *)

Definition SFRAME_RESYNCH_REQ := 0x00.
Definition SFRAME_RESYNCH_RSP := 0x20.
Definition SFRAME_ABORT_REQ := 0x02.
Definition SFRAME_ABORT_RES := 0x22.
Definition SFRAME_WTX_REQ := 0x03.
Definition SFRAME_WTX_RSP := 0x23.

Definition RFRAME_ERROR_NO := 0.
Definition RFRAME_ERROR_PARITY := 1.
Definition RFRAME_ERROR_OTHER := 2.
Definition RFRAME_ERROR_SOF_MISSED := 3.
Definition RFRAME_ERROR_UNDEFINED := 4.

Inductive frame_type :=
  | FRAME_IFRAME | FRAME_SFRAME | FRAME_RFRAME | FRAME_INVALID | FRAME_UNKNOWN.
#[export] Instance frame_type_eq_dec : EqDecision frame_type.
Proof. solve_decision. Defined.

Inductive state_e :=
  | STATE_IDLE | STATE_SEND_IFRAME | STATE_SEND_RFRAME | STATE_SEND_SFRAME.
#[export] Instance state_e_eq_dec : EqDecision state_e.
Proof. solve_decision. Defined.

Record iframe_info := mkI {
  i_data : ptr; i_offset : Z; i_total_size : Z; i_send_size : Z;
  i_chain : Z; i_seq_no : Z }.
#[export] Instance eta_iframe : Eta iframe_info := fun r =>
  mkI (i_data r) (i_offset r) (i_total_size r) (i_send_size r) (i_chain r) (i_seq_no r).

Record sframe_info := mkS { s_data : ptr; s_send_size : Z; s_type : Z }.
#[export] Instance eta_sframe : Eta sframe_info := fun r =>
  mkS (s_data r) (s_send_size r) (s_type r).

Record rframe_info := mkR { r_seq_no : Z; r_error : Z }.
#[export] Instance eta_rframe : Eta rframe_info := fun r =>
  mkR (r_seq_no r) (r_error r).

Record frame_info := mkF {
  iframe : iframe_info; rframe : rframe_info; sframe : sframe_info;
  f_type : frame_type }.
#[export] Instance eta_frame : Eta frame_info := fun r =>
  mkF (iframe r) (rframe r) (sframe r) (f_type r).

Record iso7816_t1 := mkT1 {
  last_tx : frame_info; next_tx : frame_info; last_rx : frame_info;
  recv_data : data_list;
  proc_buf : ptr; cur_buf : ptr; cur_size : Z;
  wtx_counter : Z; timeout_counter : Z; rnack_counter : Z; recovery_counter : Z;
  last_frame : frame_type; state : state_e;
  send_address : Z; receive_address : Z }.
#[export] Instance eta_t1 : Eta iso7816_t1 := fun r =>
  mkT1 (last_tx r) (next_tx r) (last_rx r) (recv_data r) (proc_buf r) (cur_buf r)
       (cur_size r) (wtx_counter r) (timeout_counter r) (rnack_counter r)
       (recovery_counter r) (last_frame r) (state r) (send_address r)
       (receive_address r).

Definition PROTOCOL_HEADER_SIZE := 3.
Definition PROTOCOL_LRC_SIZE := 1.
Definition PROTOCOL_ADDRESS_POLLING_COUNT := 100%nat.
Definition PROTOCOL_TIMEOUT_RETRY_COUNT := 3.
Definition PROTOCOL_SEND_SIZE := 254.
Definition PROTOCOL_CHAINING := 0x20.
Definition PROTOCOL_S_BLOCK_REQ := 0xC0.
Definition PROTOCOL_S_BLOCK_RSP := 0xE0.
Definition PROTOCOL_FRAME_RETRY_COUNT := 3.
Definition PROTOCOL_MAX_RNACK_RETRY_LIMIT := 2.
Definition RFRAME_PROTOCOL_SIZE := 4.
Definition APDU_HEADER_SIZE := 5.
Definition APDU_P3_OFFSET := 4.

(** ** [ese_hal.c] and [sec_star.h] *)

Inductive hal_type := ESE_HAL_I2C | ESE_HAL_SPI.
#[export] Instance hal_type_eq_dec : EqDecision hal_type.
Proof. solve_decision. Defined.

(** [struct ese_hal_s]: whether [client] is set, and which pair of transfer
    functions [send]/[receive] point to. *)
Record ese_hal := mkHal { hal_client : bool; hal_fns : option hal_type }.

Record sec_star := mkStar {
  star_hal : option ese_hal;
  star_protocol : bool;
  rsp : ptr;
  rsp_size : Z;
  access : Z;
  direct : Z }.
#[export] Instance eta_star : Eta sec_star := fun r =>
  mkStar (star_hal r) (star_protocol r) (rsp r) (rsp_size r) (access r) (direct r).

(** ** The world outside the sources

    The kernel's allocator, the I2C and SPI transfer functions (with the secure
    element behind them), the board's power hooks and the user's buffers.  Each
    answers from and updates a world state of an arbitrary type. *)

Class SnvmEnv (W : Type) := {
  alloc_ok : Z → W → bool * W;
  i2c_master_send : list Z → W → Z * W;
  i2c_master_recv : Z → W → (Z * list Z) * W;
  spi_write : list Z → W → Z * W;
  spi_read : Z → W → (Z * list Z) * W;
  usleep : Z → W → W;
  dev_power_on : W → Z * W;
  dev_power_off : W → Z * W;
  dev_reset : W → Z * W;
  misc_register : W → Z * W;
  copy_from_user : Z → W → (Z * list Z) * W;
  copy_to_user : list Z → W → Z * W;
  get_user_int : W → option Z * W;
}.

Record snvm (W : Type) := mkSnvm {
  hp : heap; world : W; proto : iso7816_t1; star : sec_star }.
Arguments mkSnvm {W}.
Arguments hp {W}.
Arguments world {W}.
Arguments proto {W}.
Arguments star {W}.
#[export] Instance eta_snvm W : Eta (snvm W) := fun r =>
  mkSnvm (hp r) (world r) (proto r) (star r).

Section mem.
Context {W : Type} `{!SnvmEnv W}.
Abbreviation M := (M (snvm W)).

(** Ask the world. *)
Definition env {A} (f : W → A * W) : M A := fun m =>
  let '(a, w) := f (world m) in Ret (a, m <| world := w |>).

Definition mod_t1 (f : iso7816_t1 → iso7816_t1) : M unit :=
  modify (fun m => m <| proto ::= f |>).
Definition get_t1 : M iso7816_t1 := gets proto.
Definition mod_star (f : sec_star → sec_star) : M unit :=
  modify (fun m => m <| star ::= f |>).
Definition get_star : M sec_star := gets star.

Definition load (p : ptr) (n : Z) : M (list Z) := fun m =>
  match read_bytes (hp m) p n with
  | Some bs => Ret (bs, m)
  | None => Fault
  end.

(** A store truncates to [uint8_t]. *)
Definition store (p : ptr) (bs : list Z) : M unit := fun m =>
  match write_bytes (hp m) p (u8 <$> bs) with
  | Some h => Ret (tt, m <| hp := h |>)
  | None => Fault
  end.

Definition load8 (p : ptr) (i : Z) : M Z :=
  bs ← load (ptr_add p i) 1;
  match bs with [b] => mret b | _ => fault end.
Definition store8 (p : ptr) (i : Z) (v : Z) : M unit := store (ptr_add p i) [v].

Definition memcpy (dst src : ptr) (n : Z) : M unit :=
  bs ← load src n; store dst bs.

(** [PROTOCOL_UDELAY(x)] is [usleep_range(x, x + 100)]. *)
Definition udelay (x : Z) : M unit := env (fun w => (tt, usleep x w)).

(** A new block holding [bs]. *)
Definition new_block (bs : list Z) : M ptr := fun m =>
  let b := next_block (hp m) in
  Ret (Ptr b 0, m <| hp := mkHeap (<[b := bs]> (blocks (hp m))) (b + 1) |>).

(** [ESE_MALLOC] and [ESE_FREE] of [ese_memory.h]: [kzalloc] and [kfree]. *)
Definition ESE_MALLOC (size : Z) : M ptr :=
  ok ← env (alloc_ok size);
  if (ok : bool) then new_block (replicate (Z.to_nat size) 0) else mret NULL.

Definition ESE_FREE (p : ptr) : M unit :=
  match p with
  | NULL => skip
  | Ptr b o => fun m =>
      match blocks (hp m) !! b with
      | Some _ =>
          if o =? 0
          then Ret (tt, m <| hp .: blocks := delete b (blocks (hp m)) |>)
          else Fault
      | None => Fault
      end
  end.

(** An allocation of a node of the packet list: only its success matters. *)
Definition malloc_node : M bool := env (alloc_ok 24).
End mem.
