(* ===== verification/EseData.v ===== *)
(** [snvm/protocol/ese_data.c] and [snvm/hal/ese_hal.c], [ese_i2c.c],
    [ese_spi.c]: the packet list in which a chained response is collected, and
    the transport below the protocol. *)
From S2P Require Import Prelude SnvmState.

Section ese_data.
Context {W : Type} `{!SnvmEnv W}.
Abbreviation M := (M (snvm W)).

(** ** The packet list

    The functions take the list head by address, which is never null at their
    call sites, and return the updated head.  The [data] field of the head's
    own packet is written but never read, so the head keeps only its size. *)

(** The loop of [_ese_data_get_from_list]: copy every packet behind the
    previous one; the offset is a [uint32_t]. *)
Fixpoint copy_nodes (l : list data_packet) (data : ptr) (offset : Z) : M Z :=
  match l with
  | [] => mret offset
  | n :: l' =>
      memcpy (ptr_add data offset) (pk_data n) (pk_size n);;
      copy_nodes l' data (u32 (offset + pk_size n))
  end.

Definition ese_data_get_from_list (head : data_list) (data : ptr)
    (data_size : Z) : M (Z * Z) :=
  if is_null data then mret (-1, data_size)
  else
    offset ← copy_nodes (nodes head) data 0;
    mret (0, offset).

Fixpoint free_nodes (l : list data_packet) : M unit :=
  match l with
  | [] => skip
  | n :: l' => ESE_FREE (pk_data n);; free_nodes l'
  end.

Definition ese_data_delete_list (head : data_list) : M (Z * data_list) :=
  free_nodes (nodes head);;
  mret (0, mkList 0 []).

Definition ese_data_init (head : data_list) : Z * data_list :=
  (ESESTATUS_SUCCESS, mkList 0 []).

Definition append_node (head : data_list) (n : data_packet) : data_list :=
  mkList (u32 (head_size head + pk_size n)) (nodes head ++ [n]).

Definition ese_data_store (head : data_list) (data : ptr) (data_size : Z)
    (copy : bool) : M (Z * data_list) :=
  ok ← malloc_node;
  if negb ok then mret (ESESTATUS_MEMORY_ALLOCATION_FAIL, head)
  else if copy then
    p ← ESE_MALLOC data_size;
    if is_null p then mret (ESESTATUS_MEMORY_ALLOCATION_FAIL, head)
    else
      memcpy p data data_size;;
      mret (ESESTATUS_SUCCESS, append_node head (mkPacket p data_size))
  else
    mret (ESESTATUS_SUCCESS, append_node head (mkPacket data data_size)).

(** [out] holds [*data] and [*data_size] before the call, [None] when the
    caller passes null pointers; the result carries the status, the list head
    and the two out-parameters after the call. *)
Definition ese_data_get (head : data_list) (out : option ese_data)
    : M (Z * data_list * option ese_data) :=
  match out with
  | None =>
      '(_, head') ← ese_data_delete_list head;
      mret (ESESTATUS_SUCCESS, head', None)
  | Some _ =>
      if head_size head =? 0
      then mret (ESESTATUS_INVALID_BUFFER, head, Some (mkData NULL 0))
      else
        tmp_buf ← ESE_MALLOC (head_size head);
        if is_null tmp_buf then
          '(_, head') ← ese_data_delete_list head;
          mret (ESESTATUS_MEMORY_ALLOCATION_FAIL, head', out)
        else
          '(r, total_size) ← ese_data_get_from_list head tmp_buf 0;
          if negb (r =? 0) then
            ESE_FREE tmp_buf;;
            '(_, head') ← ese_data_delete_list head;
            mret (ESESTATUS_INVALID_BUFFER, head', out)
          else if negb (total_size =? head_size head) then
            ESE_FREE tmp_buf;;
            '(_, head') ← ese_data_delete_list head;
            mret (ESESTATUS_INVALID_BUFFER, head', out)
          else
            '(_, head') ← ese_data_delete_list head;
            mret (ESESTATUS_SUCCESS, head', Some (mkData tmp_buf total_size))
  end.

Definition ese_data_delete (head : data_list) : M (Z * data_list) :=
  free_nodes (nodes head);;
  mret (0, mkList 0 []).

(** ** The transport *)

Definition ese_i2c_send (buf : ptr) (size : Z) : M Z :=
  bs ← load buf size;
  ret ← env (i2c_master_send bs);
  if ret <? 0 then mret ret else mret (s32 size).

(** The bytes the bus delivers are stored even when the transfer is reported
    as failed. *)
Definition ese_i2c_receive (buf : ptr) (size : Z) : M Z :=
  '(ret, bs) ← env (i2c_master_recv size);
  store buf (take (Z.to_nat size) bs);;
  if ret <? 0 then mret ret else mret (s32 size).

Definition ese_spi_send (buf : ptr) (size : Z) : M Z :=
  bs ← load buf size;
  ret ← env (spi_write bs);
  if ret <? 0 then mret ret else mret (s32 size).

Definition ese_spi_receive (buf : ptr) (size : Z) : M Z :=
  '(ret, bs) ← env (spi_read size);
  store buf (take (Z.to_nat size) bs);;
  if ret <? 0 then mret ret else mret (s32 size).

Definition ese_hal_send (ctx : option ese_hal) (buf : ptr) (size : Z) : M Z :=
  match ctx with
  | Some (mkHal true (Some k)) =>
      if is_null buf || (size =? 0) then mret (- EINVAL)
      else
        ret ← match k with
              | ESE_HAL_I2C => ese_i2c_send buf size
              | ESE_HAL_SPI => ese_spi_send buf size
              end;
        if ret <? 0 then mret ret else mret (s32 size)
  | _ => mret (- EINVAL)
  end.

Definition ese_hal_receive (ctx : option ese_hal) (buf : ptr) (size : Z) : M Z :=
  match ctx with
  | Some (mkHal true (Some k)) =>
      if is_null buf || (size =? 0) then mret (- EINVAL)
      else
        ret ← match k with
              | ESE_HAL_I2C => ese_i2c_receive buf size
              | ESE_HAL_SPI => ese_spi_receive buf size
              end;
        if ret <? 0 then mret ret else mret (s32 size)
  | _ => mret (- EINVAL)
  end.

Definition ese_hal_init (type : Z) (client : bool) : M (option ese_hal) :=
  if negb client then mret None
  else
    ok ← env (alloc_ok 24);
    if negb ok then mret None
    else if type =? 0 then mret (Some (mkHal client (Some ESE_HAL_I2C)))
    else if type =? 1 then mret (Some (mkHal client (Some ESE_HAL_SPI)))
    else mret None.
End ese_data.
