(* ===== verification/IsoT1.v ===== *)
(** [snvm/protocol/ese_iso7816_t1.c]: the ISO 7816 T=1 block protocol between
    the driver and the secure element. *)
From S2P Require Import Prelude SnvmState EseData.

(** [ESE_BIT(val, bit)] *)
Definition ESE_BIT (val bit : Z) : Z := Z.land (Z.shiftr val bit) 1.

(** The loop of [iso7816_t1_compute_lrc] over the bytes it reads. *)
Definition lrc (l : list Z) : Z := u8 (foldl Z.lxor 0 l).

(** The frame-type specific updates of the protocol structure. *)

Definition iso7816_t1_reset_params (p : iso7816_t1) : iso7816_t1 :=
  let p := p <| state := STATE_IDLE |> in
  let p := p <| last_rx .: f_type := FRAME_INVALID |> in
  let p := p <| next_tx .: f_type := FRAME_INVALID |> in
  let p := p <| next_tx .: iframe .: i_data := NULL |> in
  let p := p <| last_tx .: f_type := FRAME_INVALID |> in
  let p := p <| last_tx .: iframe .: i_data := NULL |> in
  let p := p <| next_tx .: iframe .: i_seq_no := 1 |> in
  let p := p <| last_rx .: iframe .: i_seq_no := 1 |> in
  let p := p <| last_tx .: iframe .: i_seq_no := 1 |> in
  let p := p <| next_tx .: sframe .: s_data := NULL |> in
  let p := p <| next_tx .: sframe .: s_send_size := 0 |> in
  let p := p <| recovery_counter := 0 |> in
  let p := p <| timeout_counter := 0 |> in
  let p := p <| wtx_counter := 0 |> in
  let p := p <| last_frame := FRAME_UNKNOWN |> in
  p <| rnack_counter := 0 |>.

Definition iso7816_t1_set_iframe (p : iso7816_t1) : iso7816_t1 :=
  let p := p <| next_tx .: iframe .: i_offset := 0 |> in
  let p := p <| next_tx .: f_type := FRAME_IFRAME |> in
  let p := p <| next_tx .: iframe .: i_seq_no :=
                  Z.lxor (i_seq_no (iframe (last_tx p))) 1 |> in
  let p := p <| state := STATE_SEND_IFRAME |> in
  let total := i_total_size (iframe (next_tx p)) in
  if PROTOCOL_SEND_SIZE <? total then
    let p := p <| next_tx .: iframe .: i_chain := 1 |> in
    let p := p <| next_tx .: iframe .: i_send_size := PROTOCOL_SEND_SIZE |> in
    p <| next_tx .: iframe .: i_total_size := total - PROTOCOL_SEND_SIZE |>
  else
    let p := p <| next_tx .: iframe .: i_send_size := total |> in
    p <| next_tx .: iframe .: i_chain := 0 |>.

Definition iso7816_t1_next_iframe (p : iso7816_t1) : iso7816_t1 :=
  let p := p <| next_tx .: f_type := FRAME_IFRAME |> in
  let p := p <| state := STATE_SEND_IFRAME |> in
  let last := iframe (last_tx p) in
  let p := p <| next_tx .: iframe .: i_seq_no := Z.lxor (i_seq_no last) 1 |> in
  let p := p <| next_tx .: iframe .: i_offset :=
                  u32 (i_offset last + PROTOCOL_SEND_SIZE) |> in
  let p := p <| next_tx .: iframe .: i_data := i_data last |> in
  if PROTOCOL_SEND_SIZE <? i_total_size last then
    let p := p <| next_tx .: iframe .: i_chain := 1 |> in
    let p := p <| next_tx .: iframe .: i_send_size := PROTOCOL_SEND_SIZE |> in
    p <| next_tx .: iframe .: i_total_size := i_total_size last - PROTOCOL_SEND_SIZE |>
  else
    let p := p <| next_tx .: iframe .: i_chain := 0 |> in
    p <| next_tx .: iframe .: i_send_size := i_total_size last |>.

Definition iso7816_t1_finish_recovery (p : iso7816_t1) : iso7816_t1 :=
  let p := p <| state := STATE_IDLE |> in
  p <| recovery_counter := 0 |>.

(** [memcpy(&protocol->next_tx, &protocol->last_tx, sizeof(frame_info_t))] and
    the copy in the other direction. *)
Definition copy_last_to_next (p : iso7816_t1) : iso7816_t1 :=
  p <| next_tx := last_tx p |>.
Definition copy_next_to_last (p : iso7816_t1) : iso7816_t1 :=
  p <| last_tx := next_tx p |>.

(** [next_tx] becomes an R-frame with the given error and is to be sent. *)
Definition set_rframe (err : Z) (p : iso7816_t1) : iso7816_t1 :=
  let p := p <| next_tx .: f_type := FRAME_RFRAME |> in
  let p := p <| next_tx .: rframe .: r_error := err |> in
  p <| state := STATE_SEND_RFRAME |>.

Section t1.
Context {W : Type} `{!SnvmEnv W}.
Abbreviation M := (M (snvm W)).

Definition iso7816_t1_compute_lrc (data : ptr) (offset size : Z) : M Z :=
  bs ← load (ptr_add data offset) size;
  mret (lrc bs).

Definition iso7816_t1_check_lrc (data : ptr) (data_size : Z) : M Z :=
  recv_crc ← load8 data (data_size - 1);
  calc_crc ← iso7816_t1_compute_lrc data 0 (data_size - 1);
  if negb (recv_crc =? calc_crc) then mret ESESTATUS_FAILED
  else mret ESESTATUS_SUCCESS.

Definition hal_send_bytes (bs : list Z) : M Z :=
  b ← new_block (u8 <$> bs);
  s ← get_star;
  ret ← ese_hal_send (star_hal s) b (Z.of_nat (length bs));
  ESE_FREE b;;
  mret ret.

(** The information field of an S-frame: what the [if (data && send_size > 0)]
    block leaves in [buf + PROTOCOL_HEADER_SIZE]. *)
Definition sframe_inf : M (list Z) :=
  p ← get_t1;
  let s := sframe (next_tx p) in
  if negb (is_null (s_data s)) && (0 <? s_send_size s) then
    let n := if 4 <? s_send_size s then 4 else s_send_size s in
    inf ← load (s_data s) n;
    mod_t1 (fun p => p <| next_tx .: sframe .: s_send_size := 0 |>);;
    mret inf
  else mret [].

Definition iso7816_t1_send_sframe : M Z :=
  mod_t1 (fun p => p <| last_frame := FRAME_SFRAME |>);;
  p ← get_t1;
  let type := s_type (sframe (next_tx p)) in
  let pcb_byte :=
    if Z.land type 0x20 =? 0 then u8 (Z.lor PROTOCOL_S_BLOCK_REQ type)
    else Z.lor PROTOCOL_S_BLOCK_RSP (Z.land type 0x0F) in
  inf ← sframe_inf;
  let frame_size := PROTOCOL_HEADER_SIZE + PROTOCOL_LRC_SIZE
                    + Z.of_nat (length inf) in
  let hdr := [send_address p; pcb_byte; Z.of_nat (length inf)] ++ inf in
  ret ← hal_send_bytes (hdr ++ [lrc hdr]);
  if negb (u32 ret =? frame_size) then mret ESESTATUS_SEND_FAILED
  else mret ESESTATUS_SUCCESS.

Definition iso7816_t1_send_rframe : M Z :=
  p ← get_t1;
  let err := r_error (rframe (next_tx p)) in
  (if negb (err =? RFRAME_ERROR_NO) then skip
   else mod_t1 (fun p => p <| last_frame := FRAME_RFRAME |>));;
  let pcb := if negb (err =? RFRAME_ERROR_NO) then u8 (Z.lor 0x80 err) else 0x80 in
  let pcb := u8 (Z.lor pcb
               (Z.shiftl (Z.lxor (i_seq_no (iframe (last_rx p))) 1) 4)) in
  let hdr := [send_address p; pcb; 0] in
  ret ← hal_send_bytes (hdr ++ [lrc hdr]);
  if negb (u32 ret =? RFRAME_PROTOCOL_SIZE) then mret ESESTATUS_SEND_FAILED
  else mret ESESTATUS_SUCCESS.

Definition iso7816_t1_send_iframe : M Z :=
  p ← get_t1;
  let f := iframe (next_tx p) in
  if is_null (proc_buf p) then mret ESESTATUS_NOT_ENOUGH_MEMORY
  else if i_send_size f =? 0 then mret ESESTATUS_INVALID_SEND_LENGTH
  else if is_null (i_data f) then mret ESESTATUS_NOT_ENOUGH_MEMORY
  else
    mod_t1 (fun p => p <| last_frame := FRAME_IFRAME |>);;
    let frame_size := u32 (i_send_size f + PROTOCOL_HEADER_SIZE + PROTOCOL_LRC_SIZE) in
    store8 (proc_buf p) 0 (send_address p);;
    let pcb_byte := if negb (i_chain f =? 0) then PROTOCOL_CHAINING else 0 in
    let pcb_byte := u8 (Z.lor pcb_byte (Z.shiftl (i_seq_no f) 6)) in
    store8 (proc_buf p) 1 pcb_byte;;
    store8 (proc_buf p) 2 (i_send_size f);;
    memcpy (ptr_add (proc_buf p) 3) (ptr_add (i_data f) (i_offset f)) (i_send_size f);;
    crc ← iso7816_t1_compute_lrc (proc_buf p) 0 (frame_size - 1);
    store8 (proc_buf p) (frame_size - 1) crc;;
    s ← get_star;
    ret ← ese_hal_send (star_hal s) (proc_buf p) frame_size;
    if negb (u32 ret =? frame_size) then mret ESESTATUS_SEND_FAILED
    else mret ESESTATUS_SUCCESS.

(** *** [iso7816_t1_decode_frame], one definition per kind of frame *)

(** [if (recovery_counter < RETRY) { k; recovery_counter++ } else
    finish_recovery] *)
Definition recover (k : iso7816_t1 → iso7816_t1) (p : iso7816_t1) : iso7816_t1 :=
  if recovery_counter p <? PROTOCOL_FRAME_RETRY_COUNT
  then (k p) <| recovery_counter ::= fun c => u32 (c + 1) |>
  else iso7816_t1_finish_recovery p.

Definition decode_iframe (data : ptr) (data_size pcb_byte : Z) : M Z :=
  mod_t1 (fun p => (p <| wtx_counter := 0 |>) <| last_rx .: f_type := FRAME_IFRAME |>);;
  p ← get_t1;
  if negb (i_seq_no (iframe (last_rx p)) =? ESE_BIT pcb_byte 6) then
    mod_t1 (fun p =>
      let p := p <| recovery_counter := 0 |> in
      let p := p <| last_rx .: iframe .: i_seq_no := ESE_BIT pcb_byte 6 |> in
      if negb (ESE_BIT pcb_byte 5 =? 0) then
        set_rframe RFRAME_ERROR_NO (p <| last_rx .: iframe .: i_chain := 1 |>)
      else
        (p <| last_rx .: iframe .: i_chain := 0 |>) <| state := STATE_IDLE |>);;
    p ← get_t1;
    '(status, head) ← ese_data_store (recv_data p) (ptr_add data 3)
                        (u32 (data_size - 4)) true;
    mod_t1 (fun p => p <| recv_data := head |>);;
    mret (if negb (status =? ESESTATUS_SUCCESS) then status else ESESTATUS_SUCCESS)
  else
    mod_t1 (recover (set_rframe RFRAME_ERROR_OTHER));;
    mret ESESTATUS_SUCCESS.

(** The R-NACK branch with error bits 01 or 10. *)
Definition resend_after_rnack (p : iso7816_t1) : iso7816_t1 :=
  let retransmit_iframe p :=
    let p := copy_last_to_next p in
    let p := p <| state := STATE_SEND_IFRAME |> in
    p <| next_tx .: f_type := FRAME_IFRAME |> in
  let rx_seq := r_seq_no (rframe (last_rx p)) in
  let tx_seq := i_seq_no (iframe (last_tx p)) in
  match f_type (last_tx p) with
  | FRAME_IFRAME => retransmit_iframe p
  | FRAME_RFRAME =>
      if (rx_seq =? tx_seq) && bool_decide (last_frame p = FRAME_IFRAME)
      then retransmit_iframe p
      else if negb (rx_seq =? tx_seq) && bool_decide (last_frame p = FRAME_RFRAME)
      then set_rframe RFRAME_ERROR_NO p
      else set_rframe RFRAME_ERROR_OTHER p
  | FRAME_SFRAME => copy_last_to_next p
  | _ => p
  end.

Definition decode_rframe (pcb_byte : Z) (p : iso7816_t1) : iso7816_t1 :=
  let p := p <| wtx_counter := 0 |> in
  let p := p <| last_rx .: f_type := FRAME_RFRAME |> in
  let p := p <| last_rx .: rframe .: r_seq_no := ESE_BIT pcb_byte 4 |> in
  let b0 := ESE_BIT pcb_byte 0 in
  let b1 := ESE_BIT pcb_byte 1 in
  if (b0 =? 0) && (b1 =? 0) then
    let p := p <| last_rx .: rframe .: r_error := RFRAME_ERROR_NO |> in
    let p := p <| recovery_counter := 0 |> in
    if negb (r_seq_no (rframe (last_rx p)) =? i_seq_no (iframe (last_tx p)))
    then iso7816_t1_next_iframe (p <| state := STATE_SEND_IFRAME |>)
    else p
  else if ((b0 =? 1) && (b1 =? 0)) || ((b0 =? 0) && (b1 =? 1)) then
    let err := if (b0 =? 0) && (b1 =? 1) then RFRAME_ERROR_OTHER
               else RFRAME_ERROR_PARITY in
    let p := p <| last_rx .: rframe .: r_error := err |> in
    recover resend_after_rnack p
  else if (b0 =? 1) && (b1 =? 1) then
    recover (fun p => copy_last_to_next
      (p <| last_rx .: rframe .: r_error := RFRAME_ERROR_SOF_MISSED |>)) p
  else
    recover (fun p => copy_last_to_next
      (p <| last_rx .: rframe .: r_error := RFRAME_ERROR_UNDEFINED |>)) p.

(** [next_tx] becomes the S-frame response of the given type. *)
Definition respond_sframe (req rsp : Z) (p : iso7816_t1) : iso7816_t1 :=
  let p := p <| last_rx .: sframe .: s_type := req |> in
  let p := p <| next_tx .: f_type := FRAME_SFRAME |> in
  let p := p <| next_tx .: sframe .: s_type := rsp |> in
  let p := p <| state := STATE_SEND_SFRAME |> in
  let p := p <| next_tx .: sframe .: s_data := NULL |> in
  p <| next_tx .: sframe .: s_send_size := 0 |>.

(** An S-frame response that ends the exchange. *)
Definition finish_sframe (rsp : Z) (p : iso7816_t1) : iso7816_t1 :=
  let p := p <| last_rx .: sframe .: s_type := rsp |> in
  let p := p <| next_tx .: f_type := FRAME_UNKNOWN |> in
  p <| state := STATE_IDLE |>.

Definition wtx_wait_time (inf : list Z) : Z :=
  match inf with
  | [a; b; c; d] =>
      u32 (Z.lor (Z.lor (Z.lor (Z.shiftl a 24) (Z.shiftl b 16)) (Z.shiftl c 8)) d)
  | _ => 0
  end.

Definition decode_sframe (data : ptr) (data_size pcb_byte : Z) : M unit :=
  let type := Z.land pcb_byte 0x3F in
  mod_t1 (fun p =>
    let p := p <| last_rx .: f_type := FRAME_SFRAME |> in
    if negb (type =? SFRAME_WTX_REQ) then p <| wtx_counter := 0 |> else p);;
  if type =? SFRAME_RESYNCH_REQ then
    mod_t1 (fun p => respond_sframe SFRAME_RESYNCH_REQ SFRAME_RESYNCH_RSP
                       (iso7816_t1_reset_params p))
  else if type =? SFRAME_RESYNCH_RSP then
    mod_t1 (finish_sframe SFRAME_RESYNCH_RSP)
  else if type =? SFRAME_ABORT_REQ then
    mod_t1 (fun p => p <| last_rx .: sframe .: s_type := SFRAME_ABORT_REQ |>)
  else if type =? SFRAME_ABORT_RES then
    mod_t1 (finish_sframe SFRAME_ABORT_RES)
  else if type =? SFRAME_WTX_REQ then
    p ← get_t1;
    if bool_decide (f_type (last_tx p) = FRAME_SFRAME)
       && negb (s_type (sframe (last_tx p)) =? SFRAME_WTX_RSP) then
      mod_t1 (recover copy_last_to_next)
    else
      mod_t1 (fun p => p <| wtx_counter ::= fun c => u32 (c + 1) |>);;
      wait_time ← (if data_size =? 8 then
                     inf ← load (ptr_add data 3) 4;
                     mret (u32 (wtx_wait_time inf * 1000))
                   else mret 0);
      udelay wait_time;;
      mod_t1 (respond_sframe SFRAME_WTX_REQ SFRAME_WTX_RSP)
  else if type =? SFRAME_WTX_RSP then
    mod_t1 (fun p => p <| last_rx .: sframe .: s_type := SFRAME_WTX_RSP |>)
  else skip.

Definition iso7816_t1_decode_frame (data : ptr) (data_size : Z) : M Z :=
  pcb_byte ← load8 data 1;
  if ESE_BIT pcb_byte 7 =? 0 then decode_iframe data data_size pcb_byte
  else if ESE_BIT pcb_byte 6 =? 0 then
    mod_t1 (decode_rframe pcb_byte);; mret ESESTATUS_SUCCESS
  else
    decode_sframe data data_size pcb_byte;; mret ESESTATUS_SUCCESS.

(** *** Receiving a block *)

Definition hal_receive (buf : ptr) (size : Z) : M Z :=
  s ← get_star;
  ret ← ese_hal_receive (star_hal s) buf size;
  mret (u32 ret).

(** The polling loop at the head of [iso7816_t1_process]: [Some status] is
    the [goto error], [None] the [break] on the expected address. *)
Fixpoint poll_address (n : nat) : M (option Z) :=
  match n with
  | O => mret (Some ESESTATUS_INVALID_FRAME)
  | S n' =>
      p ← get_t1;
      ret_size ← hal_receive (proc_buf p) 1;
      if negb (ret_size =? 1) then mret (Some ESESTATUS_INVALID_RECEIVE_LENGTH)
      else
        b ← load8 (proc_buf p) 0;
        if b =? receive_address p then mret None
        else if negb (b =? 0) then mret (Some ESESTATUS_INVALID_FRAME)
        else udelay 1500;; poll_address n'
  end.

(** The part of [iso7816_t1_process] before the [error] label: how many bytes
    of the block are in [proc_buf], and [status]. *)
Definition receive_block : M (Z * Z) :=
  udelay 100;;
  r ← poll_address PROTOCOL_ADDRESS_POLLING_COUNT;
  match r with
  | Some status => mret (0, status)
  | None =>
      p ← get_t1;
      ret_size ← hal_receive (ptr_add (proc_buf p) 1) 2;
      if negb (ret_size =? 2) then mret (1, ESESTATUS_INVALID_RECEIVE_LENGTH)
      else
        len ← load8 (proc_buf p) 2;
        let rec_size := len + 1 in
        ret_size ← hal_receive (ptr_add (proc_buf p) 3) rec_size;
        if negb (ret_size =? rec_size)
        then mret (3, ESESTATUS_INVALID_RECEIVE_LENGTH)
        else mret (3 + ret_size, ESESTATUS_FAILED)
  end.

(** Ask for the block again with an R-NACK, or give up after
    [PROTOCOL_MAX_RNACK_RETRY_LIMIT] of them. *)
Definition rnack_or_idle (err : Z) (p : iso7816_t1) : iso7816_t1 :=
  if rnack_counter p <? PROTOCOL_MAX_RNACK_RETRY_LIMIT then
    let p := p <| last_rx .: f_type := FRAME_INVALID |> in
    let p := set_rframe err p in
    let p := p <| next_tx .: rframe .: r_seq_no :=
               u8 (Z.shiftl (if i_seq_no (iframe (last_rx p)) =? 0 then 1 else 0) 4) |> in
    p <| rnack_counter ::= fun c => u32 (c + 1) |>
  else
    let p := p <| rnack_counter := 0 |> in
    p <| state := STATE_IDLE |>.

(** The same where giving up also clears the timeout counter. *)
Definition rnack_or_idle_to (err : Z) (p : iso7816_t1) : iso7816_t1 :=
  let p' := rnack_or_idle err p in
  if rnack_counter p <? PROTOCOL_MAX_RNACK_RETRY_LIMIT then p'
  else p' <| timeout_counter := 0 |>.

Definition process_no_block (status : Z) (p : iso7816_t1) : iso7816_t1 :=
  if status =? ESESTATUS_INVALID_FRAME then rnack_or_idle_to RFRAME_ERROR_OTHER p
  else if timeout_counter p <? PROTOCOL_TIMEOUT_RETRY_COUNT then
    copy_last_to_next (p <| timeout_counter ::= fun c => u32 (c + 1) |>)
  else (p <| state := STATE_IDLE |>) <| timeout_counter := 0 |>.

Definition iso7816_t1_process : M Z :=
  '(data_size, status) ← receive_block;
  p ← get_t1;
  if 0 <? data_size then
    mod_t1 (fun p => p <| timeout_counter := 0 |>);;
    status ← iso7816_t1_check_lrc (proc_buf p) data_size;
    if status =? ESESTATUS_SUCCESS then
      mod_t1 (fun p => p <| rnack_counter := 0 |>);;
      iso7816_t1_decode_frame (proc_buf p) data_size;;
      mret status
    else
      mod_t1 (rnack_or_idle RFRAME_ERROR_PARITY);;
      mret status
  else if bool_decide (f_type (last_tx p) = FRAME_SFRAME)
       && ((s_type (sframe (last_tx p)) =? SFRAME_WTX_RSP)
           || (s_type (sframe (last_tx p)) =? SFRAME_RESYNCH_RSP)) then
    mod_t1 (rnack_or_idle_to RFRAME_ERROR_OTHER);;
    mret status
  else
    udelay (50 * 1000);;
    mod_t1 (process_no_block status);;
    mret status.

(** *** The interface of the protocol *)

Definition iso7816_t1_send (data : option ese_data) : M Z :=
  p ← get_t1;
  match data with
  | Some d =>
      if bool_decide (state p = STATE_IDLE) then
        mod_t1 (fun p =>
          let p := p <| next_tx .: iframe .: i_data := ed_data d |> in
          let p := p <| next_tx .: iframe .: i_total_size := ed_size d |> in
          iso7816_t1_set_iframe p)
      else skip
  | None => skip
  end;;
  mod_t1 copy_next_to_last;;
  p ← get_t1;
  match state p with
  | STATE_SEND_IFRAME => iso7816_t1_send_iframe
  | STATE_SEND_RFRAME => iso7816_t1_send_rframe
  | STATE_SEND_SFRAME => iso7816_t1_send_sframe
  | STATE_IDLE =>
      mod_t1 (fun p => p <| state := STATE_IDLE |>);;
      mret ESESTATUS_FAILED
  end.

(** The [do ... while (protocol->state != STATE_IDLE)] loop; [inl] is the
    early return on [ESESTATUS_INVALID_DEVICE]. *)
Fixpoint receive_loop (fuel : nat) : M (Z + Z) :=
  match fuel with
  | O => nofuel
  | S fuel' =>
      status ← iso7816_t1_process;
      if status =? ESESTATUS_INVALID_DEVICE then mret (inl status)
      else
        p ← get_t1;
        status ← (if bool_decide (state p = STATE_IDLE) then mret status
                  else
                    status ← iso7816_t1_send None;
                    (if negb (status =? ESESTATUS_SUCCESS)
                     then mod_t1 (fun p => p <| state := STATE_IDLE |>)
                     else skip);;
                    mret status);
        p ← get_t1;
        if bool_decide (state p = STATE_IDLE) then mret (inr status)
        else receive_loop fuel'
  end.

Definition iso7816_t1_receive (fuel : nat) (data : ese_data)
    : M (Z * ese_data) :=
  r ← receive_loop fuel;
  match r with
  | inl status => mret (status, data)
  | inr status =>
      p ← get_t1;
      '(wstatus, head, out) ← ese_data_get (recv_data p) (Some data);
      let data := default data out in
      let status := if negb (wstatus =? ESESTATUS_SUCCESS) then wstatus else status in
      mod_t1 (fun p => ((p <| recv_data := head |>)
                          <| cur_buf := ed_data data |>)
                          <| cur_size := ed_size data |>);;
      mret (status, data)
  end.

Definition sframe_request (type : Z) (data : ptr) (size : Z) : M Z :=
  mod_t1 (fun p =>
    let p := p <| state := STATE_SEND_SFRAME |> in
    let p := p <| next_tx .: f_type := FRAME_SFRAME |> in
    let p := p <| next_tx .: sframe .: s_type := type |> in
    let p := p <| next_tx .: sframe .: s_data := data |> in
    p <| next_tx .: sframe .: s_send_size := size |>);;
  iso7816_t1_send None.

Definition sframe_response (type : Z) : M Z :=
  status ← iso7816_t1_process;
  mod_t1 (fun p => p <| state := STATE_IDLE |>);;
  p ← get_t1;
  if negb (bool_decide (f_type (last_rx p) = FRAME_SFRAME))
     && negb (s_type (sframe (last_rx p)) =? type)
  then mret ESESTATUS_INVALID_FRAME
  else mret status.

Definition iso7816_t1_resync_request : M Z :=
  sframe_request SFRAME_RESYNCH_REQ NULL 0.
Definition iso7816_t1_resync_response : M Z :=
  sframe_response SFRAME_RESYNCH_RSP.

(** [time] is a local variable whose four bytes, least significant first, are
    passed by address; it is gone when the function returns. *)
Definition iso7816_t1_wtx_request (time : Z) : M Z :=
  b ← new_block [u8 time; u8 (Z.shiftr time 8); u8 (Z.shiftr time 16);
                 u8 (Z.shiftr time 24)];
  ret ← sframe_request SFRAME_WTX_REQ b 4;
  ESE_FREE b;;
  mret ret.
Definition iso7816_t1_wtx_response : M Z :=
  sframe_response SFRAME_WTX_RSP.

(** [data] and [le] say whether the caller passes the out-parameter. *)
Definition iso7816_t1_get_data (data le : bool)
    : M (Z * option ese_data * option Z) :=
  p ← get_t1;
  data_size ← (if data then load8 (cur_buf p) APDU_P3_OFFSET else mret 0);
  let out := if data
             then Some (mkData (ptr_add (cur_buf p) APDU_HEADER_SIZE) data_size)
             else None in
  le_out ← (if le then
              v ← load8 (cur_buf p) (if data_size =? 0 then APDU_P3_OFFSET
                                     else APDU_HEADER_SIZE + data_size);
              mret (Some v)
            else mret None);
  mret (ESESTATUS_SUCCESS, out, le_out).

(** The zeroed structure [kzalloc] returns. *)
Definition zero_frame : frame_info :=
  mkF (mkI NULL 0 0 0 0 0) (mkR 0 0) (mkS NULL 0 0) FRAME_IFRAME.
Definition zero_t1 : iso7816_t1 :=
  mkT1 zero_frame zero_frame zero_frame (mkList 0 []) NULL NULL 0 0 0 0 0
       FRAME_IFRAME STATE_IDLE 0 0.

Definition iso7816_t1_init (send_addr receive_addr : Z) : M (option iso7816_t1) :=
  ok ← env (alloc_ok 400);
  if negb ok then mret None
  else
    let p := iso7816_t1_reset_params zero_t1 in
    let p := p <| recv_data := snd (ese_data_init (recv_data p)) |> in
    buf ← ESE_MALLOC 260;
    if is_null buf then mret None
    else
      mret (Some (((p <| proc_buf := buf |>)
                      <| send_address := send_addr |>)
                      <| receive_address := receive_addr |>)).

Definition iso7816_t1_deinit : M unit :=
  p ← get_t1; ESE_FREE (proc_buf p).

Definition iso7816_t1_reset : M unit := mod_t1 iso7816_t1_reset_params.
End t1.
