(* ===== verification/SecStar.v ===== *)
(** [snvm/sec_star.c]: the character device of the secure element.  A write is
    a chain of APDUs, each sent as a T=1 exchange; the collected response waits
    for the next read. *)
From S2P Require Import Prelude SnvmState EseData IsoT1.

Definition APDU_CHAIN_NUM_SIZE := 4.
Definition APDU_CHAIN_SEQ_SIZE := 4.
Definition APDU_CHAIN_CMD_SIZE := 4.
Definition APDU_CHAIN_EXP_SIZE := 4.
Definition APDU_CHAIN_HEADER_SIZE := 12.
Definition APDU_CHAIN_EXP_FLAG := 4.
Definition EXPECTED_RESPONSE_AGAIN := 2.
Definition APDU_CHAIN_MAX_SIZE := 257.
Definition SEND_ADDRESS := 0x12.
Definition RECEIVE_ADDRESS := 0x21.

Definition STAR_MAGIC_CODE := 0x53.
Definition STAR_READ_SIZE := 0x80045300.
Definition STAR_SET_DIRECT := 0x40045301.
Definition STAR_RESET_PROTOCOL := 0x5302.
Definition STAR_RESET_INTERFACE := 0x5303.
Definition IOC_TYPE (cmd : Z) : Z := Z.land (Z.shiftr cmd 8) 0xff.

Definition be32_bytes (l : list Z) : Z :=
  match l with
  | [a; b; c; d] =>
      u32 (Z.lor (Z.lor (Z.lor (Z.shiftl a 24) (Z.shiftl b 16)) (Z.shiftl c 8)) d)
  | _ => 0
  end.

(** How one command of the chain ends: the next command, [goto exit] or
    [goto error]; each with the response list collected so far. *)
Inductive chain_step :=
  | Next (p_cmd : ptr) (cmd_size : Z) (total_rsp : data_list)
  | Exit (total_rsp : data_list)
  | Error (total_rsp : data_list).

Section star.
Context {W : Type} `{!SnvmEnv W}.
Abbreviation M := (M (snvm W)).

(** [BIGENDIAN_TO_UINT32] *)
Definition load_be32 (p : ptr) : M Z := bs ← load p 4; mret (be32_bytes bs).

(** Store the response without its last two bytes, or drop it. *)
Definition store_short (total_rsp : data_list) (rsp_data : ese_data)
    : M (Z * data_list) :=
  if 2 <? ed_size rsp_data
  then ese_data_store total_rsp (ed_data rsp_data) (ed_size rsp_data - 2) false
  else ESE_FREE (ed_data rsp_data);; mret (ESESTATUS_SUCCESS, total_rsp).

(** [rsp_data] does not end in the expected bytes behind [p_cmd]. *)
Definition unexpected (p_cmd : ptr) (expected_size : Z) (rsp_data : ese_data)
    : M bool :=
  let n := u32 (expected_size - APDU_CHAIN_EXP_FLAG) in
  if ed_size rsp_data <? n then mret true
  else
    want ← load (ptr_add p_cmd APDU_CHAIN_EXP_FLAG) n;
    have ← load (ptr_add (ed_data rsp_data) (ed_size rsp_data - n)) n;
    mret (negb (bool_decide (want = have))).

(** The code from the label [again] to the end of the loop body. *)
Fixpoint chain_command (fuel : nat) (last : bool) (cmd_data : ese_data)
    (p_cmd : ptr) (cmd_size expected_size : Z) (rsp_data : ese_data)
    (total_rsp : data_list) : M chain_step :=
  match fuel with
  | O => nofuel
  | S fuel' =>
      st ← iso7816_t1_send (Some cmd_data);
      if negb (st =? ESESTATUS_SUCCESS) then mret (Error total_rsp)
      else
      '(st, rsp_data) ← iso7816_t1_receive fuel' rsp_data;
      if negb (st =? ESESTATUS_SUCCESS) then
        (if negb (is_null (ed_data rsp_data)) then ESE_FREE (ed_data rsp_data) else skip);;
        mret (Error total_rsp)
      else
      let finish p_cmd cmd_size :=
        '(st, total') ←
          (if negb last then store_short total_rsp rsp_data
           else ese_data_store total_rsp (ed_data rsp_data) (ed_size rsp_data) false);
        if negb (st =? ESESTATUS_SUCCESS) then mret (Error total')
        else mret (Next p_cmd cmd_size total') in
      if 0 <? expected_size then
        expected_flag ← load_be32 p_cmd;
        un ← unexpected p_cmd expected_size rsp_data;
        if (un : bool) then
          '(st, total') ← ese_data_store total_rsp (ed_data rsp_data)
                            (ed_size rsp_data) false;
          if negb (st =? ESESTATUS_SUCCESS) then mret (Error total')
          else mret (Exit total')
        else if testm expected_flag EXPECTED_RESPONSE_AGAIN then
          '(st, total') ← store_short total_rsp rsp_data;
          if negb (st =? ESESTATUS_SUCCESS) then mret (Error total')
          else chain_command fuel' last cmd_data p_cmd cmd_size expected_size
                 rsp_data total'
        else finish (ptr_add p_cmd expected_size) (u32 (cmd_size - expected_size))
      else finish p_cmd cmd_size
  end.

(** The body of the [for] loop up to the label [again]. *)
Definition chain_body (fuel : nat) (i chain_num : Z) (p_cmd : ptr)
    (cmd_size : Z) (total_rsp : data_list) : M chain_step :=
  if cmd_size <=? APDU_CHAIN_HEADER_SIZE then mret (Error total_rsp)
  else
    seq ← load_be32 p_cmd;
    let p_cmd := ptr_add p_cmd APDU_CHAIN_SEQ_SIZE in
    if negb (seq =? i) then mret (Error total_rsp)
    else
      data_size ← load_be32 p_cmd;
      let p_cmd := ptr_add p_cmd APDU_CHAIN_CMD_SIZE in
      expected_size ← load_be32 p_cmd;
      let p_cmd := ptr_add p_cmd APDU_CHAIN_EXP_SIZE in
      let cmd_size := cmd_size - APDU_CHAIN_HEADER_SIZE in
      if (cmd_size <? u32 (data_size + expected_size))
         || (u32 (data_size + expected_size) <? data_size)
      then mret (Error total_rsp)
      else
        chain_command fuel (i =? chain_num - 1) (mkData p_cmd data_size)
          (ptr_add p_cmd data_size) (cmd_size - data_size) expected_size
          (mkData NULL 0) total_rsp.

Fixpoint chain_loop (fuel n : nat) (i chain_num : Z) (p_cmd : ptr)
    (cmd_size : Z) (total_rsp : data_list) : M chain_step :=
  match n with
  | O => mret (Exit total_rsp)
  | S n' =>
      r ← chain_body fuel i chain_num p_cmd cmd_size total_rsp;
      match r with
      | Next p_cmd cmd_size total_rsp =>
          chain_loop fuel n' (i + 1) chain_num p_cmd cmd_size total_rsp
      | r => mret r
      end
  end.

(** The result: the return value and, on success, [*rsp] and [*rsp_size]. *)
Definition star_transceive (fuel : nat) (ctx : bool) (cmd : ptr) (cmd_size : Z)
    (out : ese_data) : M (Z * ese_data) :=
  if negb ctx then mret (-1, out)
  else if is_null cmd || (cmd_size =? 0) then mret (-2, out)
  else if cmd_size <? APDU_CHAIN_NUM_SIZE then mret (-3, out)
  else
    chain_num ← load_be32 cmd;
    let p_cmd := ptr_add cmd APDU_CHAIN_NUM_SIZE in
    let cmd_size := cmd_size - APDU_CHAIN_NUM_SIZE in
    if (chain_num =? 0) || (APDU_CHAIN_MAX_SIZE <? chain_num)
    then mret (-4, out)
    else
      let total_rsp := snd (ese_data_init (mkList 0 [])) in
      r ← chain_loop fuel (Z.to_nat chain_num) 0 chain_num p_cmd cmd_size total_rsp;
      match r with
      | Error total_rsp =>
          ese_data_delete total_rsp;;
          mret (-5, out)
      | Exit total_rsp | Next _ _ total_rsp =>
          '(_, _, out') ← ese_data_get total_rsp (Some out);
          mret (0, default out out')
      end.

(** ** The file operations *)

Definition star_dev_open : M Z :=
  s ← get_star;
  if access s =? 0 then
    iso7816_t1_reset;;
    ret ← env dev_power_on;
    if negb (ret =? 0) then mret ret
    else
      mod_star (fun s => s <| access := 1 |>);;
      mret 0
  else mret (- EBUSY).

Definition star_dev_close : M Z :=
  s ← get_star;
  if negb (access s =? 0) then
    ret ← env dev_power_off;
    mod_star (fun s => s <| access := 0 |>);;
    mret ret
  else mret 0.

(** The result of [STAR_READ_SIZE] is the number handed to [put_user]. *)
Definition star_dev_ioctl (cmd : Z) : M (Z * option Z) :=
  if negb (IOC_TYPE cmd =? STAR_MAGIC_CODE) then mret (- ENOTTY, None)
  else if cmd =? STAR_READ_SIZE then
    s ← get_star; mret (0, Some (rsp_size s))
  else if cmd =? STAR_SET_DIRECT then
    v ← env get_user_int;
    mod_star (fun s => s <| direct := default 0 v |>);;
    mret (0, None)
  else if cmd =? STAR_RESET_PROTOCOL then
    iso7816_t1_reset;; mret (0, None)
  else if cmd =? STAR_RESET_INTERFACE then
    env dev_reset;;
    iso7816_t1_reset;; mret (0, None)
  else mret (- EINVAL, None).

(** [star->rsp] is freed and forgotten. *)
Definition drop_rsp : M unit :=
  s ← get_star;
  ESE_FREE (rsp s);;
  mod_star (fun s => (s <| rsp := NULL |>) <| rsp_size := 0 |>).

Definition star_dev_write (fuel : nat) (count : Z) : M Z :=
  if count =? 0 then mret (- EINVAL)
  else
    s ← get_star;
    (if negb (is_null (rsp s)) && (0 <? rsp_size s) then drop_rsp else skip);;
    let cmd_size := u32 count in
    cmd ← ESE_MALLOC cmd_size;
    if is_null cmd then mret (- ENOMEM)
    else
      '(missing, bytes) ← env (copy_from_user cmd_size);
      store cmd (take (Z.to_nat cmd_size) bytes);;
      s ← get_star;
      let done r rsp_data :=
        mod_star (fun s => (s <| rsp := ed_data rsp_data |>)
                             <| rsp_size := ed_size rsp_data |>);;
        ESE_FREE cmd;;
        mret r in
      if 0 <? missing then
        ESE_FREE cmd;; mret (- EFAULT)
      else if 0 <? direct s then
        ret ← ese_hal_send (star_hal s) cmd cmd_size;
        if ret <? 0 then ESE_FREE cmd;; mret (- EIO)
        else done (s32 cmd_size) (mkData NULL 0)
      else
        '(ret, rsp_data) ← star_transceive fuel (star_protocol s) cmd cmd_size
                             (mkData NULL 0);
        if negb (ret =? ESESTATUS_SUCCESS) then ESE_FREE cmd;; mret (- EIO)
        else done (s32 cmd_size) rsp_data.

(** The result carries the bytes handed to [copy_to_user] when it succeeded. *)
Definition star_dev_read (count : Z) : M (Z * list Z) :=
  if count =? 0 then mret (- EINVAL, [])
  else
    s ← get_star;
    if 0 <? direct s then
      tmp ← ESE_MALLOC count;
      if is_null tmp then mret (- ENOMEM, [])
      else
        ret ← ese_hal_receive (star_hal s) tmp (u32 count);
        if ret <? 0 then ESE_FREE tmp;; mret (- EIO, [])
        else
          bs ← load tmp count;
          missing ← env (copy_to_user bs);
          ESE_FREE tmp;;
          mret (if 0 <? missing then (- ENOMEM, []) else (count, bs))
    else if is_null (rsp s) || (rsp_size s =? 0) then mret (- ENOSPC, [])
    else if negb (rsp_size s =? count) then
      drop_rsp;; mret (- E2BIG, [])
    else
      bs ← load (rsp s) (rsp_size s);
      missing ← env (copy_to_user bs);
      drop_rsp;;
      mret (if 0 <? missing then (- ENOMEM, []) else (count, bs)).

(** ** Setting up and tearing down *)

Definition star_open (hal_type : Z) (client : bool) : M bool :=
  ok ← env (alloc_ok 120);
  if negb ok then mret false
  else
    h ← ese_hal_init hal_type client;
    match h with
    | None => mret false
    | Some _ =>
        p ← iso7816_t1_init SEND_ADDRESS RECEIVE_ADDRESS;
        match p with
        | None => mret false
        | Some p =>
            ret ← env misc_register;
            if ret <? 0 then mret false
            else
              mod_t1 (fun _ => p);;
              mod_star (fun _ => mkStar h true NULL 0 0 0);;
              mret true
        end
    end.

Definition star_close : M unit :=
  iso7816_t1_deinit;;
  mod_star (fun s => (s <| star_protocol := false |>) <| star_hal := None |>).
End star.
