(* ===== verification/IsoCard.v ===== *)
(** The other end of the line: a secure element that follows ISO 7816-3 T=1, as
    the specification [ese_iso7816_t1.c] is proved against.  The element itself
    is not part of the sources; it is described by the function [apdu] it
    computes and by the chunk size [ifs] of its responses. *)
From S2P Require Import Prelude SnvmState EseData IsoT1.

Definition NAD_HOST := 0x12.
Definition NAD_CARD := 0x21.

(** A block: address, protocol control byte, length, information, and the byte
    that makes the exclusive-or of the whole block zero. *)
Definition xor_all (l : list Z) : Z := foldl Z.lxor 0 l.
Definition mk_block (nad pcb : Z) (inf : list Z) : list Z :=
  let b := [nad; pcb; Z.of_nat (length inf)] ++ inf in b ++ [xor_all b].

Definition parse_block (bs : list Z) : option (Z * Z * list Z) :=
  match bs with
  | nad :: pcb :: len :: rest =>
      if (len + 1 =? Z.of_nat (length rest)) && (xor_all bs =? 0)
      then Some (nad, pcb, take (Z.to_nat len) rest)
      else None
  | _ => None
  end.

(** [chunks n l]: [l] cut into pieces of [n] elements, the last one shorter;
    [k] pieces at most. *)
Fixpoint chunks (k n : nat) (l : list Z) : list (list Z) :=
  match k with
  | O => []
  | S k' =>
      if (length l <=? n)%nat then [l]
      else take n l :: chunks k' n (drop n l)
  end.
Definition split_chunks (n : nat) (l : list Z) : list (list Z) :=
  chunks (S (length l)) n l.

Record card := mkCard {
  c_ns : Z;                 (* N(S) of the next I-block the card sends *)
  c_nr : Z;                 (* N(S) the card expects *)
  c_acc : list Z;           (* the command received so far *)
  c_resp : list (list Z);   (* the pieces of the response still to be sent *)
  c_out : list Z            (* bytes waiting on the line *) }.
#[export] Instance eta_card : Eta card := fun c =>
  mkCard (c_ns c) (c_nr c) (c_acc c) (c_resp c) (c_out c).

Definition i_pcb (ns : Z) (more : bool) : Z :=
  Z.lor (Z.shiftl ns 6) (if more then 0x20 else 0).
Definition r_pcb (nr err : Z) : Z := Z.lor 0x80 (Z.lor (Z.shiftl nr 4) err).

Section card.
Variable apdu : list Z → list Z.
Variable ifs : nat.

Definition card_next (c : card) : card :=
  match c_resp c with
  | [] => c
  | inf :: rest =>
      let more := negb (length rest =? 0)%nat in
      mkCard (Z.lxor (c_ns c) 1) (c_nr c) (c_acc c) rest
             (mk_block NAD_CARD (i_pcb (c_ns c) more) inf)
  end.

Definition card_iblock (pcb : Z) (inf : list Z) (c : card) : card :=
  if ESE_BIT pcb 6 =? c_nr c then
    let nr := Z.lxor (c_nr c) 1 in
    if ESE_BIT pcb 5 =? 1 then
      mkCard (c_ns c) nr (c_acc c ++ inf) (c_resp c)
             (mk_block NAD_CARD (r_pcb nr 0) [])
    else
      card_next (mkCard (c_ns c) nr []
                   (split_chunks ifs (apdu (c_acc c ++ inf))) [])
  else c <| c_out := mk_block NAD_CARD (r_pcb (c_nr c) 2) [] |>.

Definition card_receive (bs : list Z) (c : card) : card :=
  match parse_block bs with
  | Some (nad, pcb, inf) =>
      if negb (nad =? NAD_HOST) then c
      else if ESE_BIT pcb 7 =? 0 then card_iblock pcb inf c
      else if ESE_BIT pcb 6 =? 0 then
        if ESE_BIT pcb 4 =? c_ns c then card_next c else c
      else c
  | None => c <| c_out := mk_block NAD_CARD (r_pcb (c_nr c) 1) [] |>
  end.

Definition card_read (n : Z) (c : card) : (Z * list Z) * card :=
  if n <=? Z.of_nat (length (c_out c)) then
    ((n, take (Z.to_nat n) (c_out c)), c <| c_out ::= drop (Z.to_nat n) |>)
  else ((- EIO, []), c).
End card.

(** The world of a tablet with such a card: allocations up to the allocator's
    limit succeed, transfers are never lost, and the user's buffer is [w_user]. *)
Record card_world := mkWorld { w_card : card; w_user : list Z }.
#[export] Instance eta_card_world : Eta card_world := fun w =>
  mkWorld (w_card w) (w_user w).

Definition KMALLOC_MAX_SIZE := 4194304.

Section world.
Variable apdu : list Z → list Z.
Variable ifs : nat.

Definition w_send (bs : list Z) (w : card_world) : Z * card_world :=
  (Z.of_nat (length bs), w <| w_card ::= card_receive apdu ifs bs |>).
Definition w_recv (n : Z) (w : card_world) : (Z * list Z) * card_world :=
  let '(r, c) := card_read n (w_card w) in (r, w <| w_card := c |>).

Definition card_env : SnvmEnv card_world := {|
  alloc_ok n w := (n <=? KMALLOC_MAX_SIZE, w);
  i2c_master_send := w_send;
  i2c_master_recv := w_recv;
  spi_write bs w := (0, snd (w_send bs w));
  spi_read n w := let '((r, bs), w) := w_recv n w in ((Z.min r 0, bs), w);
  usleep _ w := w;
  dev_power_on w := (0, w);
  dev_power_off w := (0, w);
  dev_reset w := (0, w);
  misc_register w := (0, w);
  copy_from_user n w := ((0, take (Z.to_nat n) (w_user w)), w);
  copy_to_user _ w := (0, w);
  get_user_int w := (Some 0, w);
|}.
End world.
