(* ===== verification/SnvmFacts.v ===== *)
(** Lemmas on buffers, on the exclusive-or checksum and on the transport: what
    the proofs about the SNVM stack share. *)
From S2P Require Import Prelude SnvmState EseData IsoT1 IsoCard.

(** ** Bytes *)

Ltac all_u8 :=
  repeat first
    [ assumption | apply Forall_nil_2 | apply Forall_cons; split | apply Forall_app; split
    | apply Forall_take | apply Forall_drop ];
  try assumption; try (unfold is_u8; lia).

Lemma u8_id z : is_u8 z → u8 z = z.
Proof. intros ?. by apply Z.mod_small. Qed.

Lemma u32_id z : is_u32 z → u32 z = z.
Proof. intros ?. by apply Z.mod_small. Qed.

Lemma s32_id z : 0 <= z < 2147483648 → s32 z = z.
Proof. intros ?. unfold s32. rewrite Z.mod_small; lia. Qed.

Lemma u8_is_u8 z : is_u8 (u8 z).
Proof. unfold is_u8, u8. apply Z.mod_pos_bound. lia. Qed.

Lemma fmap_u8_id l : Forall is_u8 l → u8 <$> l = l.
Proof.
  induction 1 as [|z l Hz Hl IH]; [done|]. rewrite fmap_cons, IH.
  by rewrite u8_id.
Qed.

Lemma is_u8_lxor a b : is_u8 a → is_u8 b → is_u8 (Z.lxor a b).
Proof.
  intros [Ha1 Ha2] [Hb1 Hb2]. split.
  - apply Z.lxor_nonneg. lia.
  - destruct (decide (Z.lxor a b = 0)) as [->|Hne]; [lia|].
    assert (0 <= Z.lxor a b) by (apply Z.lxor_nonneg; lia).
    apply (Z.log2_lt_pow2 _ 8); [lia|].
    eapply Z.le_lt_trans; [apply Z.log2_lxor; lia|].
    apply Z.max_lub_lt.
    + destruct (decide (a = 0)) as [->|]; [simpl; lia|].
      apply (Z.log2_lt_pow2 _ 8); lia.
    + destruct (decide (b = 0)) as [->|]; [simpl; lia|].
      apply (Z.log2_lt_pow2 _ 8); lia.
Qed.

Lemma foldl_lxor_acc l a : foldl Z.lxor a l = Z.lxor a (foldl Z.lxor 0 l).
Proof.
  revert a. induction l as [|z l IH]; intros a; simpl.
  - by rewrite Z.lxor_0_r.
  - rewrite IH, (IH (Z.lxor 0 z)), Z.lxor_0_l. by rewrite Z.lxor_assoc.
Qed.

Lemma xor_all_app l1 l2 : xor_all (l1 ++ l2) = Z.lxor (xor_all l1) (xor_all l2).
Proof. unfold xor_all. by rewrite foldl_app, foldl_lxor_acc. Qed.

Lemma xor_all_u8 l : Forall is_u8 l → is_u8 (xor_all l).
Proof.
  induction 1 as [|z l Hz Hl IH].
  - unfold xor_all, is_u8. simpl. lia.
  - change (z :: l) with ([z] ++ l). rewrite xor_all_app.
    unfold xor_all at 1. simpl. rewrite Z.lxor_0_l. by apply is_u8_lxor.
Qed.

Lemma lrc_xor_all l : Forall is_u8 l → lrc l = xor_all l.
Proof. intros H. apply u8_id, (xor_all_u8 _ H). Qed.

(** Appending its own checksum makes the exclusive-or of a block zero, and only
    the checksum does. *)
Lemma xor_all_snoc l c : xor_all (l ++ [c]) = 0 ↔ c = xor_all l.
Proof.
  rewrite xor_all_app. unfold xor_all at 2. simpl. rewrite Z.lxor_0_l.
  rewrite Z.lxor_eq_0_iff. split; congruence.
Qed.

Lemma ESE_BIT_01 v b : ESE_BIT v b = 0 ∨ ESE_BIT v b = 1.
Proof.
  unfold ESE_BIT. rewrite (Z.land_ones _ 1) by lia.
  pose proof (Z.mod_pos_bound (Z.shiftr v b) (2 ^ 1) eq_refl) as H.
  change (2 ^ 1) with 2 in *. lia.
Qed.

(** ** Blocks of the heap *)

Definition hset (h : heap) (b : Z) (l : list Z) : heap :=
  mkHeap (<[b := l]> (blocks h)) (next_block h).

Lemma hset_twice h b l1 l2 : hset (hset h b l1) b l2 = hset h b l2.
Proof. unfold hset. simpl. by rewrite insert_insert_eq. Qed.

Lemma hset_lookup h b l : blocks (hset h b l) !! b = Some l.
Proof. apply lookup_insert_eq. Qed.

Lemma hset_lookup_ne h b b' l : b ≠ b' → blocks (hset h b l) !! b' = blocks h !! b'.
Proof. intros ?. by apply lookup_insert_ne. Qed.

(** Blocks from [next_block] on are not in use. *)
Definition heap_wf (h : heap) : Prop := ∀ b, next_block h <= b → blocks h !! b = None.
Definition bump (h : heap) : heap := mkHeap (blocks h) (next_block h + 1).

Lemma heap_wf_live h b l : heap_wf h → blocks h !! b = Some l → b < next_block h.
Proof.
  intros Hwf Hb. destruct (decide (next_block h <= b)) as [Hle|]; [|lia].
  specialize (Hwf b Hle). congruence.
Qed.
Lemma heap_wf_bump h : heap_wf h → heap_wf (bump h).
Proof. intros H b Hb. apply H. cbn in Hb. lia. Qed.
Lemma heap_wf_hset h b l : heap_wf h → b < next_block h → heap_wf (hset h b l).
Proof. intros H Hb b' Hb'. cbn in Hb'. rewrite hset_lookup_ne by lia. by apply H. Qed.

(** A buffer of which [pre] has been written so far, over old content [l]. *)
Definition buf (pre l : list Z) : list Z := pre ++ drop (length pre) l.

Lemma buf_length pre l : (length pre ≤ length l)%nat → length (buf pre l) = length l.
Proof. intros ?. unfold buf. rewrite length_app, length_drop. lia. Qed.

Lemma buf_nil l : buf [] l = l.
Proof. done. Qed.

Lemma take_buf pre l : take (length pre) (buf pre l) = pre.
Proof. unfold buf. by rewrite take_app_length. Qed.

Lemma splice_buf pre bs l :
  (length pre + length bs ≤ length l)%nat →
  splice (length pre) bs (buf pre l) = buf (pre ++ bs) l.
Proof.
  intros H. unfold splice, buf. rewrite take_app_length, <-app_assoc.
  f_equal. f_equal. rewrite drop_app_ge by lia.
  rewrite drop_drop, length_app. f_equal. lia.
Qed.

Section steps.
Context {W : Type} `{!SnvmEnv W}.
Implicit Types (h : heap) (w : W) (p : iso7816_t1) (s : sec_star).

Lemma mod_t1_eq f h w p s :
  mod_t1 f (mkSnvm h w p s) = Ret (tt, mkSnvm h w (f p) s).
Proof. done. Qed.
Lemma get_t1_eq h w p s :
  get_t1 (mkSnvm h w p s) = Ret (p, mkSnvm h w p s).
Proof. done. Qed.
Lemma get_star_eq h w p s :
  get_star (mkSnvm h w p s) = Ret (s, mkSnvm h w p s).
Proof. done. Qed.

End steps.

(** Run the next statement: its result is what lemma [H] says.  The lemma's
    premises are looked up or are arithmetic on buffer lengths. *)
Ltac side :=
  first
    [ eassumption
    | done
    | apply lookup_insert_eq
    | repeat rewrite length_app; simpl length; lia
    | solve [all_u8] ].
Tactic Notation "run" uconstr(H) :=
  erewrite bind_ret by (eapply H; side); cbv beta iota zeta.
Tactic Notation "run_t1" :=
  first [ erewrite bind_ret by (apply mod_t1_eq)
        | erewrite bind_ret by (apply get_t1_eq)
        | erewrite bind_ret by (apply get_star_eq) ]; cbv beta iota zeta.

Section facts.
Context {W : Type} `{!SnvmEnv W}.
Implicit Types (h : heap) (w : W) (p : iso7816_t1) (s : sec_star).

Lemma load_ok h w p s b o n l :
  blocks h !! b = Some l → 0 <= o → 0 <= n → o + n <= Z.of_nat (length l) →
  load (Ptr b o) n (mkSnvm h w p s)
  = Ret (take (Z.to_nat n) (drop (Z.to_nat o) l), mkSnvm h w p s).
Proof.
  intros Hb Ho Hn Hl. unfold load. simpl. rewrite Hb.
  rewrite !(proj2 (Z.leb_le _ _)) by lia. done.
Qed.

Lemma load_prefix h w p s b pre l n :
  blocks h !! b = Some (buf pre l) → n = Z.of_nat (length pre) →
  load (Ptr b 0) n (mkSnvm h w p s) = Ret (pre, mkSnvm h w p s).
Proof.
  intros Hb ->. erewrite load_ok; [|exact Hb|lia|lia|].
  - rewrite drop_0, Nat2Z.id. by rewrite take_buf.
  - unfold buf. rewrite length_app. lia.
Qed.

Lemma load8_ok h w p s b i l v :
  blocks h !! b = Some l → 0 <= i → l !! Z.to_nat i = Some v →
  load8 (Ptr b 0) i (mkSnvm h w p s) = Ret (v, mkSnvm h w p s).
Proof.
  intros Hb Hi Hv. unfold load8, ptr_add. rewrite Z.add_0_l.
  assert (Z.of_nat (length l) > i) by (apply lookup_lt_Some in Hv; lia).
  erewrite bind_ret; [|apply load_ok; [exact Hb|lia|lia|lia]].
  cbv beta. rewrite (drop_S _ _ _ Hv). done.
Qed.

Lemma store_ok h w p s b o bs l :
  blocks h !! b = Some l → 0 <= o →
  o + Z.of_nat (length bs) <= Z.of_nat (length l) → Forall is_u8 bs →
  store (Ptr b o) bs (mkSnvm h w p s)
  = Ret (tt, mkSnvm (hset h b (splice (Z.to_nat o) bs l)) w p s).
Proof.
  intros Hb Ho Hl Hbs. unfold store. simpl. rewrite Hb.
  rewrite fmap_u8_id by done.
  rewrite !(proj2 (Z.leb_le _ _)) by lia. done.
Qed.

Lemma store_buf h w p s b o pre bs l :
  blocks h !! b = Some (buf pre l) → o = Z.of_nat (length pre) →
  (length pre + length bs ≤ length l)%nat → Forall is_u8 bs →
  store (Ptr b o) bs (mkSnvm h w p s)
  = Ret (tt, mkSnvm (hset h b (buf (pre ++ bs) l)) w p s).
Proof.
  intros Hb -> Hl Hbs. erewrite store_ok; [|exact Hb|lia| |done].
  - by rewrite Nat2Z.id, splice_buf.
  - rewrite buf_length by lia. lia.
Qed.

Lemma store8_buf h w p s b i pre v l :
  blocks h !! b = Some (buf pre l) → i = Z.of_nat (length pre) →
  (length pre < length l)%nat → is_u8 v →
  store8 (Ptr b 0) i v (mkSnvm h w p s)
  = Ret (tt, mkSnvm (hset h b (buf (pre ++ [v]) l)) w p s).
Proof.
  intros Hb Hi Hl Hv. unfold store8, ptr_add. apply store_buf; [done|lia|simpl; lia|].
  all_u8.
Qed.

Lemma memcpy_buf h w p s b o pre l db so dl n :
  blocks h !! b = Some (buf pre l) → blocks h !! db = Some dl →
  o = Z.of_nat (length pre) → 0 <= so → 0 <= n →
  so + n <= Z.of_nat (length dl) →
  Z.of_nat (length pre) + n <= Z.of_nat (length l) →
  Forall is_u8 (take (Z.to_nat n) (drop (Z.to_nat so) dl)) →
  memcpy (Ptr b o) (Ptr db so) n (mkSnvm h w p s)
  = Ret (tt, mkSnvm (hset h b
           (buf (pre ++ take (Z.to_nat n) (drop (Z.to_nat so) dl)) l)) w p s).
Proof.
  intros. unfold memcpy.
  erewrite bind_ret by (eapply load_ok; [eassumption|lia..]). cbv beta.
  eapply store_buf; [eassumption|done| |all_u8].
  rewrite length_take, length_drop. lia.
Qed.

Lemma compute_lrc_ok h w p s b pre l n :
  blocks h !! b = Some (buf pre l) → n = Z.of_nat (length pre) →
  iso7816_t1_compute_lrc (Ptr b 0) 0 n (mkSnvm h w p s)
  = Ret (lrc pre, mkSnvm h w p s).
Proof.
  intros. unfold iso7816_t1_compute_lrc, ptr_add. rewrite Z.add_0_l.
  by erewrite bind_ret by (by eapply load_prefix).
Qed.

Lemma ESE_FREE_ok h w p s b l :
  blocks h !! b = Some l →
  ESE_FREE (Ptr b 0) (mkSnvm h w p s)
  = Ret (tt, mkSnvm (mkHeap (delete b (blocks h)) (next_block h)) w p s).
Proof. intros Hb. unfold ESE_FREE. simpl. by rewrite Hb. Qed.

(** The first I-frame of a command. *)
Lemma send_idle h w p s d :
  state p = STATE_IDLE → 
  iso7816_t1_send (Some d) (mkSnvm h w p s)
  = iso7816_t1_send None
      (mkSnvm h w (iso7816_t1_set_iframe
        ((p <| next_tx .: iframe .: i_data := ed_data d |>)
           <| next_tx .: iframe .: i_total_size := ed_size d |>)) s).
Proof.
  intros Hst. unfold iso7816_t1_send at 1. run_t1. rewrite Hst, bool_decide_true by done.
  run_t1. symmetry. unfold iso7816_t1_send. run_t1.
  by erewrite (bind_ret skip) by reflexivity.
Qed.

(** Outside the idle state the command passed is not looked at. *)
Lemma send_busy h w p s d :
  state p ≠ STATE_IDLE →
  iso7816_t1_send (Some d) (mkSnvm h w p s) = iso7816_t1_send None (mkSnvm h w p s).
Proof.
  intros Hst. unfold iso7816_t1_send at 1. run_t1. rewrite bool_decide_false by done.
  symmetry. unfold iso7816_t1_send. by run_t1.
Qed.

Lemma send_iframe_state h w p s :
  state p = STATE_SEND_IFRAME →
  iso7816_t1_send None (mkSnvm h w p s)
  = iso7816_t1_send_iframe (mkSnvm h w (copy_next_to_last p) s).
Proof.
  intros Hst. unfold iso7816_t1_send. run_t1. erewrite bind_ret by reflexivity. cbv beta.
  run_t1. run_t1. change (state (copy_next_to_last p)) with (state p). by rewrite Hst.
Qed.

Lemma send_sframe_state h w p s :
  state p = STATE_SEND_SFRAME →
  iso7816_t1_send None (mkSnvm h w p s)
  = iso7816_t1_send_sframe (mkSnvm h w (copy_next_to_last p) s).
Proof.
  intros Hst. unfold iso7816_t1_send. run_t1. erewrite bind_ret by reflexivity. cbv beta.
  run_t1. run_t1. change (state (copy_next_to_last p)) with (state p). by rewrite Hst.
Qed.
End facts.
