(* ===== verification/EseDataFacts.v ===== *)
(** The packet list: storing a packet appends its bytes in a fresh block, and
    getting the data concatenates all packets into one buffer and frees every
    packet. *)
From S2P Require Import Prelude SnvmState EseData IsoT1 IsoCard SnvmFacts.

(** A list of packets as pairs of a block and its content, the nodes of the C
    list for it, and a heap that holds them on top of [m]. *)
Definition node_of (n : Z * list Z) : data_packet :=
  mkPacket (Ptr n.1 0) (Z.of_nat (length n.2)).
Definition payload (nds : list (Z * list Z)) : list Z := concat nds.*2.
Definition with_nodes (nds : list (Z * list Z)) (m : gmap Z (list Z)) : gmap Z (list Z) :=
  foldl (fun m n => <[n.1 := n.2]> m) m nds.

Lemma with_nodes_snoc nds n m : with_nodes (nds ++ [n]) m = <[n.1 := n.2]> (with_nodes nds m).
Proof. unfold with_nodes. by rewrite foldl_app. Qed.

Lemma with_nodes_insert nds b v m :
  b ∉ nds.*1 → <[b := v]> (with_nodes nds m) = with_nodes nds (<[b := v]> m).
Proof.
  revert m. induction nds as [|n nds IH]; intros m Hb; [done|].
  cbn in Hb. apply not_elem_of_cons in Hb as [Hne Hb]. simpl.
  rewrite IH by done. f_equal. by apply insert_insert_ne.
Qed.

Lemma with_nodes_lookup_ne nds b m : b ∉ nds.*1 → with_nodes nds m !! b = m !! b.
Proof.
  revert m. induction nds as [|n nds IH]; intros m Hb; [done|].
  cbn in Hb. apply not_elem_of_cons in Hb as [Hne Hb]. simpl.
  rewrite IH by done. by apply lookup_insert_ne.
Qed.

Lemma with_nodes_lookup nds n m :
  NoDup nds.*1 → n ∈ nds → with_nodes nds m !! n.1 = Some n.2.
Proof.
  revert m. induction nds as [|n' nds IH]; intros m Hnd Hn; [by apply elem_of_nil in Hn|].
  cbn in Hnd. apply NoDup_cons in Hnd as [Hni Hnd]. simpl.
  apply elem_of_cons in Hn as [->|Hn]; [|by apply IH].
  rewrite with_nodes_lookup_ne by done. apply lookup_insert_eq.
Qed.

Lemma with_nodes_delete nds b c m :
  b ∉ nds.*1 → m !! b = None →
  delete b (with_nodes ((b, c) :: nds) m) = with_nodes nds m.
Proof.
  intros Hb Hm. simpl. rewrite <-with_nodes_insert by done.
  apply delete_insert_id. by rewrite with_nodes_lookup_ne.
Qed.

(** The pieces of block [db] stored one after the other. *)
Fixpoint store_all {W} `{!SnvmEnv W} (head : data_list) (db : Z) (off : Z)
    (sizes : list Z) : M (snvm W) (Z * data_list) :=
  match sizes with
  | [] => mret (ESESTATUS_SUCCESS, head)
  | n :: sizes' =>
      '(st, head) ← ese_data_store head (Ptr db off) n true;
      if negb (st =? ESESTATUS_SUCCESS) then mret (st, head)
      else store_all head db (off + n) sizes'
  end.

Section list.
Context {W : Type} `{!SnvmEnv W}.
Implicit Types (h : heap) (w : W) (p : iso7816_t1) (s : sec_star).

Lemma ESE_MALLOC_ok h w p s n w' :
  alloc_ok n w = (true, w') →
  ESE_MALLOC n (mkSnvm h w p s)
  = Ret (Ptr (next_block h) 0,
         mkSnvm (hset (bump h) (next_block h) (replicate (Z.to_nat n) 0)) w' p s).
Proof.
  intros Ha. unfold ESE_MALLOC, env. cbn [mbind M_bind world].
  unfold mbind, M_bind. cbn. rewrite Ha. done.
Qed.

Lemma malloc_node_ok h w p s w' :
  alloc_ok 24 w = (true, w') →
  malloc_node (mkSnvm h w p s) = Ret (true, mkSnvm h w' p s).
Proof. intros Ha. unfold malloc_node, env. cbn. by rewrite Ha. Qed.

Lemma memcpy_new h w p s b db so dl n :
  blocks h !! b = Some (replicate (Z.to_nat n) 0) → blocks h !! db = Some dl →
  0 <= so → 0 <= n → so + n <= Z.of_nat (length dl) →
  Forall is_u8 (take (Z.to_nat n) (drop (Z.to_nat so) dl)) →
  memcpy (Ptr b 0) (Ptr db so) n (mkSnvm h w p s)
  = Ret (tt, mkSnvm (hset h b (take (Z.to_nat n) (drop (Z.to_nat so) dl))) w p s).
Proof.
  intros Hb Hdb ? ? ? ?.
  erewrite (memcpy_buf _ _ _ _ _ _ [] (replicate (Z.to_nat n) 0));
    [|exact Hb|exact Hdb|done|lia|lia|lia|rewrite length_replicate; simpl; lia|eassumption].
  do 3 f_equal. unfold buf. rewrite app_nil_l, (drop_ge (replicate _ _)), app_nil_r; [done|].
  rewrite length_replicate, length_take, length_drop. lia.
Qed.

(** A packet is copied into a block of its own. *)
Lemma ese_data_store_ok h w p s head db so dl n :
  (∀ n, n <= KMALLOC_MAX_SIZE → alloc_ok n w = (true, w)) → heap_wf h →
  blocks h !! db = Some dl → 0 <= so → 0 <= n <= KMALLOC_MAX_SIZE →
  so + n <= Z.of_nat (length dl) →
  Forall is_u8 (take (Z.to_nat n) (drop (Z.to_nat so) dl)) →
  ese_data_store head (Ptr db so) n true (mkSnvm h w p s)
  = Ret ((ESESTATUS_SUCCESS, append_node head (mkPacket (Ptr (next_block h) 0) n)),
         mkSnvm (hset (bump h) (next_block h)
                      (take (Z.to_nat n) (drop (Z.to_nat so) dl))) w p s).
Proof.
  intros Ha Hwf Hdb ? ? ? ?. unfold ese_data_store.
  erewrite bind_ret by (apply malloc_node_ok, Ha; unfold KMALLOC_MAX_SIZE; lia).
  cbv beta. cbn [negb]. cbv iota.
  erewrite bind_ret by (apply ESE_MALLOC_ok, Ha; lia). cbv beta. cbn [is_null].
  pose proof (heap_wf_live _ _ _ Hwf Hdb).
  erewrite bind_ret.
  2:{ eapply (memcpy_new _ _ _ _ _ db so dl); [apply hset_lookup| |lia..|done].
      rewrite hset_lookup_ne by lia. exact Hdb. }
  cbv beta. by rewrite hset_twice.
Qed.

(** A packet's block may be longer than the packet: the bytes behind it are
    not looked at. *)
Lemma copy_nodes_ok nds h w p s b pre l :
  (∀ n, n ∈ nds →
    n.1 ≠ b ∧ (∃ tl, blocks h !! n.1 = Some (n.2 ++ tl)) ∧ Forall is_u8 n.2) →
  blocks h !! b = Some (buf pre l) →
  (length pre + length (payload nds) ≤ length l)%nat →
  Z.of_nat (length l) < 4294967296 →
  copy_nodes (node_of <$> nds) (Ptr b 0) (Z.of_nat (length pre)) (mkSnvm h w p s)
  = Ret (Z.of_nat (length (pre ++ payload nds)),
         mkSnvm (hset h b (buf (pre ++ payload nds) l)) w p s).
Proof.
  revert h pre. induction nds as [|[nb c] nds IH]; intros h pre Hn Hb Hl Hmax.
  - unfold payload. simpl. rewrite app_nil_r. cbn. do 3 f_equal.
    destruct h as [bl nx]. unfold hset. simpl in *. by rewrite insert_id.
  - destruct (Hn (nb, c)) as (Hne & (tl & Hc) & Hu8); [by left|]. simpl in *.
    unfold payload in *. cbn [fmap list_fmap concat snd] in *.
    rewrite length_app in Hl. simpl pk_data. simpl pk_size.
    change (ptr_add (Ptr b 0) ?x) with (Ptr b (0 + x)). rewrite Z.add_0_l.
    assert (take (Z.to_nat (Z.of_nat (length c))) (drop (Z.to_nat 0) (c ++ tl)) = c) as Htk.
    { by rewrite Nat2Z.id, drop_0, take_app_length. }
    erewrite bind_ret.
    2:{ eapply (memcpy_buf _ _ _ _ _ _ pre l nb 0 (c ++ tl));
          [done|done|done|lia|lia| |lia|by rewrite Htk].
        rewrite length_app. lia. }
    cbv beta. rewrite Htk.
    rewrite u32_id by (unfold is_u32; lia).
    rewrite <-Nat2Z.inj_add, <-length_app.
    rewrite (IH (hset h b (buf (pre ++ c) l))).
    + by rewrite hset_twice, <-app_assoc.
    + intros n Hin. destruct (Hn n) as (? & ? & ?); [by right|].
      rewrite hset_lookup_ne by done. done.
    + apply hset_lookup.
    + rewrite length_app. lia.
    + done.
Qed.

(** The blocks [full] behind the nodes [nds] go. *)
Lemma free_nodes_ok nds full m nb w p s :
  nds.*1 = full.*1 → NoDup full.*1 → (∀ b, b ∈ full.*1 → m !! b = None) →
  free_nodes (node_of <$> nds) (mkSnvm (mkHeap (with_nodes full m) nb) w p s)
  = Ret (tt, mkSnvm (mkHeap m nb) w p s).
Proof.
  revert full m. induction nds as [|[b c] nds IH]; intros full m Heq Hnd Hm;
    (destruct full as [|[b' c'] full]; try done).
  cbn in Heq. injection Heq as <- Heq.
  cbn in Hnd. apply NoDup_cons in Hnd as [Hni Hnd].
  cbn [fmap list_fmap free_nodes node_of pk_data fst snd].
  erewrite bind_ret.
  2:{ eapply ESE_FREE_ok. apply (with_nodes_lookup ((b, c') :: full) (b, c')).
      - cbn. by apply NoDup_cons.
      - by left. }
  cbv beta. cbn [blocks next_block].
  rewrite with_nodes_delete by (done || apply Hm; by left).
  apply IH; [done|done|]. intros b2 Hb2. apply Hm. by right.
Qed.

(** The whole response in one fresh buffer; every packet is gone. *)
Lemma ese_data_get_ok nds full m nb w p s total out :
  (∀ n, n <= KMALLOC_MAX_SIZE → alloc_ok n w = (true, w)) →
  Forall2 (fun n f => n.1 = f.1 ∧ ∃ tl, f.2 = n.2 ++ tl) nds full →
  NoDup full.*1 → (∀ n, n ∈ nds → n.1 < nb ∧ m !! n.1 = None ∧ Forall is_u8 n.2) →
  total = Z.of_nat (length (payload nds)) → 0 < total <= KMALLOC_MAX_SIZE →
  ese_data_get (mkList total (node_of <$> nds)) (Some out)
    (mkSnvm (mkHeap (with_nodes full m) nb) w p s)
  = Ret ((ESESTATUS_SUCCESS, mkList 0 [], Some (mkData (Ptr nb 0) total)),
         mkSnvm (mkHeap (<[nb := payload nds]> m) (nb + 1)) w p s).
Proof.
  intros Ha Hf Hnd Hn Htot Hr. unfold ese_data_get. cbn [head_size].
  assert (nds.*1 = full.*1) as Heq.
  { clear -Hf. induction Hf as [|n f nds full [? ?] ? IH]; [done|]. cbn. by rewrite IH, H. }
  assert (∀ b, b ∈ full.*1 → b < nb ∧ m !! b = None) as Hfull.
  { rewrite <-Heq. intros b (n & -> & Hin)%list_elem_of_fmap. destruct (Hn n Hin). tauto. }
  assert (nb ∉ full.*1) as Hfresh by (intros Hin; destruct (Hfull _ Hin); lia).
  rewrite (proj2 (Z.eqb_neq total 0)) by lia.
  erewrite bind_ret by (apply ESE_MALLOC_ok, Ha; lia). cbv beta. cbn [is_null next_block].
  set (h := hset _ _ _).
  erewrite bind_ret.
  2:{ unfold ese_data_get_from_list. cbn [is_null nodes].
      erewrite bind_ret; [reflexivity|].
      change 0 with (Z.of_nat (length (@nil Z))) at 2.
      apply (copy_nodes_ok nds h w p s nb [] (replicate (Z.to_nat total) 0)).
      - intros n Hin. destruct (Hn n Hin) as (? & ? & ?).
        split_and!; [lia| |done]. unfold h. rewrite hset_lookup_ne by lia.
        apply list_elem_of_lookup in Hin as [i Hi].
        destruct (Forall2_lookup_l _ _ _ _ _ Hf Hi) as (f & Hfi & -> & tl & Htl).
        exists tl. rewrite <-Htl. apply with_nodes_lookup; [done|].
        apply list_elem_of_lookup. by exists i.
      - apply hset_lookup.
      - rewrite length_replicate. simpl. lia.
      - rewrite length_replicate. unfold KMALLOC_MAX_SIZE in *. lia. }
  cbv beta iota. change (negb (0 =? 0)) with false. cbv iota.
  rewrite app_nil_l, Htot, Z.eqb_refl. cbn [negb]. cbv iota.
  unfold h. rewrite hset_twice.
  assert (buf (payload nds) (replicate (Z.to_nat (Z.of_nat (length (payload nds)))) 0)
          = payload nds) as ->.
  { unfold buf. rewrite drop_ge, app_nil_r; [done|]. rewrite length_replicate. lia. }
  unfold ese_data_delete_list, hset, bump. cbn [blocks next_block nodes].
  rewrite with_nodes_insert by done.
  erewrite bind_ret.
  2:{ rewrite (bind_ret _ _ _ tt (mkSnvm (mkHeap (<[nb := payload nds]> m) (nb + 1)) w p s));
      [reflexivity|].
      apply free_nodes_ok; [done|done|].
      intros b Hb. destruct (Hfull _ Hb). by rewrite lookup_insert_ne by lia. }
  done.
Qed.

Lemma store_all_ok bl nb0 w p s db dl sizes : ∀ off nds nb,
  (∀ n, n <= KMALLOC_MAX_SIZE → alloc_ok n w = (true, w)) →
  heap_wf (mkHeap bl nb0) → bl !! db = Some dl → Forall is_u8 dl →
  Z.of_nat (length dl) <= KMALLOC_MAX_SIZE → Forall (fun n => 0 < n) sizes →
  0 <= off → off + foldr Z.add 0 sizes = Z.of_nat (length dl) →
  payload nds = take (Z.to_nat off) dl → nb0 <= nb → NoDup nds.*1 →
  (∀ n, n ∈ nds → nb0 <= n.1 < nb ∧ Forall is_u8 n.2) →
  ∃ nds' nb',
    store_all (mkList off (node_of <$> nds)) db off sizes
      (mkSnvm (mkHeap (with_nodes nds bl) nb) w p s)
    = Ret ((ESESTATUS_SUCCESS, mkList (Z.of_nat (length dl)) (node_of <$> nds')),
           mkSnvm (mkHeap (with_nodes nds' bl) nb') w p s)
    ∧ payload nds' = dl ∧ nb0 <= nb' ∧ NoDup nds'.*1
    ∧ (∀ n, n ∈ nds' → nb0 <= n.1 < nb' ∧ Forall is_u8 n.2).
Proof.
  induction sizes as [|n sizes IH];
    intros off nds nb Ha Hwf Hdb Hu8 Hmax Hpos Hoff Hsum Hpay Hnb Hnd Hr.
  { simpl in Hsum. exists nds, nb. rewrite Hpay, take_ge by lia.
    split_and!; try done. simpl. by replace off with (Z.of_nat (length dl)) by lia. }
  apply Forall_cons in Hpos as [Hn Hpos]. simpl in Hsum.
  assert (0 <= foldr Z.add 0 sizes) as Hge.
  { clear -Hpos. induction Hpos; simpl; lia. }
  assert (∀ b, b < nb0 ∨ nb <= b → b ∉ nds.*1) as Hfr.
  { intros b Hb (x & -> & Hin)%list_elem_of_fmap. destruct (Hr x Hin). lia. }
  pose proof (heap_wf_live _ _ _ Hwf Hdb) as Hdb0. cbn in Hdb0.
  set (c := take (Z.to_nat n) (drop (Z.to_nat off) dl)).
  destruct (IH (off + n) (nds ++ [(nb, c)]) (nb + 1)) as (nds' & nb' & Hrun & Hrest);
    try done; try lia.
  - unfold payload in *. rewrite fmap_app, concat_app, Hpay. cbn. rewrite app_nil_r.
    rewrite Z2Nat.inj_add by lia. apply take_take_drop.
  - rewrite fmap_app. apply NoDup_app. split_and!; [done| |apply NoDup_singleton].
    intros x Hx Hx'%list_elem_of_singleton. subst x. revert Hx. apply Hfr. cbn. lia.
  - intros x [Hx|Hx]%elem_of_app.
    + destruct (Hr x Hx). split; [lia|done].
    + apply list_elem_of_singleton in Hx as ->. cbn. split; [lia|].
      by apply Forall_take, Forall_drop.
  - exists nds', nb'. split; [|done]. simpl store_all. erewrite bind_ret.
    2:{ eapply (ese_data_store_ok _ _ _ _ _ db off dl); [done| | |lia|lia|lia|].
        - intros b Hb. cbn in Hb |- *. rewrite with_nodes_lookup_ne by (apply Hfr; lia).
          apply Hwf. cbn. lia.
        - cbn. by rewrite with_nodes_lookup_ne by (apply Hfr; lia).
        - by apply Forall_take, Forall_drop. }
    cbv beta iota. change (negb (ESESTATUS_SUCCESS =? ESESTATUS_SUCCESS)) with false.
    cbv iota. fold c. rewrite <-Hrun. unfold append_node, hset, bump. cbn [head_size nodes].
    rewrite with_nodes_snoc, fmap_app. cbn [blocks next_block pk_size fst snd].
    rewrite u32_id by (unfold is_u32, KMALLOC_MAX_SIZE in *; lia).
    assert (Z.of_nat (length c) = n) as Hlc.
    { unfold c. rewrite length_take, length_drop. lia. }
    cbn [fmap list_fmap]. unfold node_of. cbn [fst snd]. by rewrite Hlc.
Qed.
End list.
