(* ===== verification/IsoLink.v ===== *)
(** The T=1 driver against a conforming card: one APDU exchange.  The lemmas
    here run the driver's code block by block; the properties they add up to are
    in [SnvmProps]. *)
From S2P Require Import Prelude SnvmState EseData IsoT1 IsoCard SnvmFacts.

(** ** A bus that loses nothing

    Every transfer to the element arrives; [sent bs w] is the world after it. *)
Section tx.
Context {W : Type} `{!SnvmEnv W}.
Variable sent : list Z → W → W.
Hypothesis Hi2c : ∀ bs w, i2c_master_send bs w = (Z.of_nat (length bs), sent bs w).
Hypothesis Hspi : ∀ bs w, spi_write bs w = (0, sent bs w).

Variables (k : hal_type) (s : sec_star).
Hypothesis Hs : star_hal s = Some (mkHal true (Some k)).
Implicit Types (h : heap) (w : W) (p : iso7816_t1).

Lemma hal_send_ok h w p b n pre l :
  blocks h !! b = Some (buf pre l) → n = Z.of_nat (length pre) →
  0 < n < 2147483648 →
  ese_hal_send (star_hal s) (Ptr b 0) n (mkSnvm h w p s)
  = Ret (n, mkSnvm h (sent pre w) p s).
Proof.
  intros Hb Hn Hr. rewrite Hs. unfold ese_hal_send. simpl is_null.
  rewrite orb_false_l, (proj2 (Z.eqb_neq _ _)) by lia.
  assert (∀ r, 0 <= r → (if r <? 0 then mret r else mret (s32 n) : M (snvm W) Z)
      (mkSnvm h (sent pre w) p s)
    = Ret (n, mkSnvm h (sent pre w) p s)) as Hret.
  { intros r ?. rewrite (proj2 (Z.ltb_ge _ _)) by lia. by rewrite s32_id by lia. }
  assert ((match k with
           | ESE_HAL_I2C => ese_i2c_send (Ptr b 0) n
           | ESE_HAL_SPI => ese_spi_send (Ptr b 0) n
           end : M (snvm W) Z) (mkSnvm h w p s) = Ret (n, mkSnvm h (sent pre w) p s)) as Hk.
  { destruct k; unfold ese_i2c_send, ese_spi_send;
      (erewrite bind_ret by (eapply load_prefix; done)); cbv beta;
      (erewrite bind_ret by (unfold env; cbn [world]; rewrite ?Hi2c, ?Hspi; reflexivity));
      cbv beta; apply Hret; lia. }
  erewrite bind_ret by exact Hk. cbv beta. apply Hret. lia.
Qed.

Lemma i_pcb_spec sq ch :
  sq = 0 ∨ sq = 1 → ch = 0 ∨ ch = 1 →
  u8 (Z.lor (if negb (ch =? 0) then PROTOCOL_CHAINING else 0) (Z.shiftl sq 6))
  = i_pcb sq (negb (ch =? 0)).
Proof. by intros [-> | ->] [-> | ->]. Qed.

Lemma i_pcb_u8 sq more : sq = 0 ∨ sq = 1 → is_u8 (i_pcb sq more).
Proof. intros [-> | ->]; destruct more; unfold is_u8; vm_compute; split; congruence. Qed.

Lemma length_mk_block nad pcb inf : length (mk_block nad pcb inf) = (length inf + 4)%nat.
Proof. unfold mk_block. simpl. rewrite length_app. simpl. lia. Qed.

Lemma mk_block_u8 nad pcb inf :
  is_u8 nad → is_u8 pcb → (length inf ≤ 255)%nat → Forall is_u8 inf →
  Forall is_u8 (mk_block nad pcb inf).
Proof.
  intros. unfold mk_block.
  assert (Forall is_u8 ([nad; pcb; Z.of_nat (length inf)] ++ inf)).
  { all_u8. }
  apply Forall_app. split; [done|]. apply Forall_singleton. by apply xor_all_u8.
Qed.

(** One I-block on the line. *)
Lemma send_iframe_ok h w p pb db dofs off tot n ch sq l0 dl :
  proc_buf p = Ptr pb 0 →
  iframe (next_tx p) = mkI (Ptr db dofs) off tot n ch sq →
  blocks h !! pb = Some l0 → length l0 = 260%nat →
  blocks h !! db = Some dl → db ≠ pb →
  0 <= dofs + off → dofs + off + n <= Z.of_nat (length dl) →
  1 <= n <= 254 → Forall is_u8 dl → is_u8 (send_address p) →
  sq = 0 ∨ sq = 1 → ch = 0 ∨ ch = 1 →
  let inf := take (Z.to_nat n) (drop (Z.to_nat (dofs + off)) dl) in
  let F := mk_block (send_address p) (i_pcb sq (negb (ch =? 0))) inf in
  iso7816_t1_send_iframe (mkSnvm h w p s)
  = Ret (ESESTATUS_SUCCESS,
         mkSnvm (hset h pb (buf F l0)) (sent F w)
                (p <| last_frame := FRAME_IFRAME |>) s).
Proof.
  intros Hpb Hf Hb Hl0 Hdb Hne Ho1 Ho2 Hn Hdl Hsa Hsq Hch inf F.
  assert (length inf = Z.to_nat n) as Hinf.
  { unfold inf. rewrite length_take, length_drop. lia. }
  assert (Forall is_u8 inf) as Hinf8 by (by apply Forall_take, Forall_drop).
  assert (Z.of_nat (length inf) = n) as HinfZ by lia.
  assert (u32 (n + PROTOCOL_HEADER_SIZE + PROTOCOL_LRC_SIZE) = n + 4) as Hfs.
  { unfold PROTOCOL_HEADER_SIZE, PROTOCOL_LRC_SIZE. rewrite u32_id; unfold is_u32; lia. }
  unfold iso7816_t1_send_iframe. do 1 run_t1.
  rewrite Hpb, Hf. cbn [is_null i_send_size i_data i_offset i_chain i_seq_no].
  rewrite (proj2 (Z.eqb_neq n 0)) by lia. run_t1.
  rewrite Hfs, i_pcb_spec by done. cbn [ptr_add]. rewrite Z.add_0_l.
  rewrite <-(buf_nil l0) in Hb.
  pose proof (i_pcb_u8 sq (negb (ch =? 0)) Hsq) as Hpcb.
  run store8_buf. run store8_buf. run store8_buf.
  rewrite !hset_twice.
  erewrite bind_ret.
  2:{ eapply (memcpy_buf _ _ _ _ _ _ _ _ db _ dl); [side| |side|lia|lia|lia|simpl; lia|side].
      rewrite hset_lookup_ne by done. exact Hdb. }
  fold inf. cbv beta. rewrite hset_twice.
  set (b := ((([] ++ _) ++ _) ++ _) ++ inf).
  assert (b = [send_address p; i_pcb sq (negb (ch =? 0)); Z.of_nat (length inf)] ++ inf)
    as Hbeq by (unfold b; by rewrite HinfZ).
  assert (Forall is_u8 b) by (rewrite Hbeq; all_u8).
  assert (length b = Z.to_nat n + 3)%nat by (rewrite Hbeq; simpl; lia).
  run compute_lrc_ok.
  rewrite lrc_xor_all by done.
  pose proof (xor_all_u8 b ltac:(done)).
  run store8_buf. rewrite hset_twice.
  assert (b ++ [xor_all b] = F) as -> by (unfold F, mk_block; by rewrite Hbeq).
  assert (length F = Z.to_nat n + 4)%nat by (unfold F; rewrite length_mk_block; lia).
  run_t1. run hal_send_ok.
  rewrite u32_id by (unfold is_u32; lia). by rewrite Z.eqb_refl.
Qed.

(** A frame built in a stack buffer. *)
Lemma hal_send_bytes_ok h w p bs :
  heap_wf h → Forall is_u8 bs → 0 < Z.of_nat (length bs) < 2147483648 →
  hal_send_bytes bs (mkSnvm h w p s)
  = Ret (Z.of_nat (length bs), mkSnvm (bump h) (sent bs w) p s).
Proof.
  intros Hwf Hbs Hl. unfold hal_send_bytes. rewrite fmap_u8_id by done.
  erewrite bind_ret by reflexivity. cbn [hp]. cbv beta.
  set (m := over_field _ _).
  assert (m = mkSnvm (hset (bump h) (next_block h) bs) w p s) as -> by done.
  run_t1.
  erewrite bind_ret.
  2:{ eapply (hal_send_ok _ _ _ _ _ bs []); [|done|lia].
      rewrite hset_lookup. unfold buf. simpl. by rewrite drop_nil, app_nil_r. }
  cbv beta. erewrite bind_ret by (eapply ESE_FREE_ok, hset_lookup). cbv beta.
  unfold hset, bump. simpl. rewrite delete_insert_id by (apply Hwf; lia). done.
Qed.

Lemma r_pcb_spec sq :
  sq = 0 ∨ sq = 1 → u8 (Z.lor 0x80 (Z.shiftl (Z.lxor sq 1) 4)) = r_pcb (Z.lxor sq 1) 0.
Proof. by intros [-> | ->]. Qed.

Lemma r_pcb_u8 sq : sq = 0 ∨ sq = 1 → is_u8 (r_pcb sq 0).
Proof. intros [-> | ->]; unfold is_u8; vm_compute; split; congruence. Qed.

Lemma flip_01 sq : sq = 0 ∨ sq = 1 → Z.lxor sq 1 = 0 ∨ Z.lxor sq 1 = 1.
Proof. intros [-> | ->]; [by right | by left]. Qed.

(** An R-block that acknowledges the last I-block received. *)
Lemma send_rframe_ok h w p :
  heap_wf h → is_u8 (send_address p) →
  r_error (rframe (next_tx p)) = RFRAME_ERROR_NO →
  i_seq_no (iframe (last_rx p)) = 0 ∨ i_seq_no (iframe (last_rx p)) = 1 →
  let F := mk_block (send_address p)
             (r_pcb (Z.lxor (i_seq_no (iframe (last_rx p))) 1) 0) [] in
  iso7816_t1_send_rframe (mkSnvm h w p s)
  = Ret (ESESTATUS_SUCCESS,
         mkSnvm (bump h) (sent F w) (p <| last_frame := FRAME_RFRAME |>) s).
Proof.
  intros Hwf Hsa He Hsq F. unfold iso7816_t1_send_rframe. run_t1. rewrite He.
  change (negb (RFRAME_ERROR_NO =? RFRAME_ERROR_NO)) with false. cbv iota.
  run_t1. rewrite r_pcb_spec by done.
  pose proof (r_pcb_u8 _ (flip_01 _ Hsq)) as Hp.
  set (hdr := [send_address p; _; _]) in *.
  assert (Forall is_u8 hdr) by (unfold hdr; all_u8).
  rewrite lrc_xor_all by done.
  assert (hdr ++ [xor_all hdr] = F) as -> by done.
  erewrite bind_ret.
  2:{ apply hal_send_bytes_ok; [done| |vm_compute; split; congruence].
      apply mk_block_u8; [done|done|simpl; lia|apply Forall_nil_2]. }
  done.
Qed.


(** An S-block response without information. *)
Lemma send_sframe_ok h w p ty :
  heap_wf h → is_u8 (send_address p) → s_data (sframe (next_tx p)) = NULL →
  s_type (sframe (next_tx p)) = ty → Z.land ty 0x20 ≠ 0 →
  is_u8 (Z.lor PROTOCOL_S_BLOCK_RSP (Z.land ty 0x0F)) →
  let F := mk_block (send_address p) (Z.lor PROTOCOL_S_BLOCK_RSP (Z.land ty 0x0F)) [] in
  iso7816_t1_send_sframe (mkSnvm h w p s)
  = Ret (ESESTATUS_SUCCESS,
         mkSnvm (bump h) (sent F w) (p <| last_frame := FRAME_SFRAME |>) s).
Proof.
  intros Hwf Hsa Hd Hty Hrsp Hpcb F. unfold iso7816_t1_send_sframe.
  run_t1. run_t1.
  change (sframe (next_tx (p <| last_frame := FRAME_SFRAME |>))) with (sframe (next_tx p)).
  change (send_address (p <| last_frame := FRAME_SFRAME |>)) with (send_address p).
  rewrite Hty, (proj2 (Z.eqb_neq _ _) Hrsp).
  erewrite bind_ret.
  2:{ unfold sframe_inf. run_t1.
      change (sframe (next_tx (p <| last_frame := FRAME_SFRAME |>))) with (sframe (next_tx p)).
      rewrite Hd. reflexivity. }
  cbv beta zeta. rewrite app_nil_r.
  set (pcb := Z.lor PROTOCOL_S_BLOCK_RSP (Z.land ty 0x0F)) in *. set (hdr := [send_address p; pcb; _]).
  assert (Forall is_u8 hdr). { unfold hdr; cbn [length]; all_u8. }
  rewrite lrc_xor_all by done.
  assert (hdr ++ [xor_all hdr] = F) as -> by done.
  erewrite bind_ret.
  2:{ apply hal_send_bytes_ok; [done| |vm_compute; split; congruence].
      apply mk_block_u8; [done|done|simpl; lia|apply Forall_nil_2]. }
  done.
Qed.
End tx.

(** ** The conforming card *)

Section link.
Variable apdu : list Z → list Z.
Variable ifs : nat.
#[local] Instance link_env : SnvmEnv card_world := card_env apdu ifs.

Variables (k : hal_type) (s : sec_star).
Hypothesis Hs : star_hal s = Some (mkHal true (Some k)).
Implicit Types (h : heap) (w : card_world) (p : iso7816_t1).

Definition card_gets (bs : list Z) (w : card_world) : card_world :=
  w <| w_card ::= card_receive apdu ifs bs |>.
Lemma card_i2c bs w : i2c_master_send bs w = (Z.of_nat (length bs), card_gets bs w).
Proof. done. Qed.
Lemma card_spi bs w : spi_write bs w = (0, card_gets bs w).
Proof. done. Qed.

Lemma hal_receive_ok h w p b o n pre xs ys l :
  c_out (w_card w) = xs ++ ys → n = Z.of_nat (length xs) → 0 < n < 2147483648 →
  blocks h !! b = Some (buf pre l) → o = Z.of_nat (length pre) →
  (length pre + length xs ≤ length l)%nat → Forall is_u8 xs →
  hal_receive (Ptr b o) n (mkSnvm h w p s)
  = Ret (n, mkSnvm (hset h b (buf (pre ++ xs) l)) (w <| w_card .: c_out := ys |>) p s).
Proof.
  intros Hout Hn Hr Hb Ho Hl Hxs.
  assert (card_read n (w_card w)
          = ((n, xs), (w_card w) <| c_out := ys |>)) as Hrd.
  { unfold card_read. rewrite Hout, length_app.
    rewrite (proj2 (Z.leb_le _ _)) by lia.
    rewrite Hn, Nat2Z.id, take_app_length. f_equal.
    destruct (w_card w); cbn in *. unfold over_field. cbn.
    by rewrite Hout, drop_app_length. }
  assert ((match k with
           | ESE_HAL_I2C => ese_i2c_receive (Ptr b o) n
           | ESE_HAL_SPI => ese_spi_receive (Ptr b o) n
           end : M (snvm card_world) Z) (mkSnvm h w p s)
    = Ret (n, mkSnvm (hset h b (buf (pre ++ xs) l)) (w <| w_card .: c_out := ys |>) p s)) as Hk.
  { destruct k; unfold ese_i2c_receive, ese_spi_receive, env;
      (erewrite bind_ret by (cbn; unfold w_recv; rewrite Hrd; reflexivity)); cbv beta iota;
      rewrite Hn, Nat2Z.id, take_ge by lia;
      (erewrite bind_ret by (eapply store_buf; done)); cbv beta;
      rewrite (proj2 (Z.ltb_ge _ _)) by lia; rewrite s32_id by lia; reflexivity. }
  unfold hal_receive. erewrite bind_ret by reflexivity. cbn [star].
  rewrite Hs. unfold ese_hal_receive. simpl is_null.
  rewrite orb_false_l, (proj2 (Z.eqb_neq _ _)) by lia.
  erewrite bind_ret.
  2:{ erewrite bind_ret by exact Hk. cbv beta.
      rewrite (proj2 (Z.ltb_ge _ _)) by lia. rewrite s32_id by lia. reflexivity. }
  cbv beta. rewrite u32_id by (unfold is_u32; lia). done.
Qed.

(** *** Receiving a block *)

Lemma poll_address_ok h w p pb l0 n rest :
  proc_buf p = Ptr pb 0 → blocks h !! pb = Some l0 → length l0 = 260%nat →
  receive_address p = NAD_CARD → c_out (w_card w) = NAD_CARD :: rest →
  poll_address (S n) (mkSnvm h w p s)
  = Ret (None, mkSnvm (hset h pb (buf [NAD_CARD] l0))
                      (w <| w_card .: c_out := rest |>) p s).
Proof.
  intros Hpb Hb Hl Hra Hout. simpl. run_t1. rewrite Hpb.
  rewrite <-(buf_nil l0) in Hb.
  erewrite bind_ret.
  2:{ eapply (hal_receive_ok _ _ _ _ _ _ [] [NAD_CARD]); [exact Hout|done|lia|done|done| |].
      - simpl. lia.
      - all_u8. unfold is_u8, NAD_CARD; lia. }
  cbv beta. rewrite Z.eqb_refl. cbn [negb]. cbv iota.
  erewrite bind_ret by (eapply load8_ok; [apply hset_lookup|lia|done]). cbv beta.
  by rewrite Hra, Z.eqb_refl.
Qed.

Lemma udelay_ok n h w p : udelay n (mkSnvm h w p s) = Ret (tt, mkSnvm h w p s).
Proof. done. Qed.

(** A whole block, read into [proc_buf]. *)
Lemma receive_block_ok h w p pb l0 pcb inf :
  proc_buf p = Ptr pb 0 → blocks h !! pb = Some l0 → length l0 = 260%nat →
  receive_address p = NAD_CARD →
  is_u8 pcb → Forall is_u8 inf → (length inf ≤ 255)%nat →
  c_out (w_card w) = mk_block NAD_CARD pcb inf →
  receive_block (mkSnvm h w p s)
  = Ret ((Z.of_nat (length inf) + 4, ESESTATUS_FAILED),
         mkSnvm (hset h pb (buf (mk_block NAD_CARD pcb inf) l0))
                (w <| w_card .: c_out := [] |>) p s).
Proof.
  intros Hpb Hb Hl Hra Hpcb Hinf Hle Hout.
  unfold receive_block. erewrite bind_ret by apply udelay_ok. cbv beta.
  set (x := xor_all ([NAD_CARD; pcb; Z.of_nat (length inf)] ++ inf)).
  assert (is_u8 x).
  { apply xor_all_u8. all_u8. unfold is_u8, NAD_CARD. lia. }
  change PROTOCOL_ADDRESS_POLLING_COUNT with (S 99).
  erewrite bind_ret.
  2:{ eapply poll_address_ok; [done..|exact Hout]. }
  cbv beta iota. run_t1. rewrite Hpb. cbn [ptr_add]. rewrite !Z.add_0_l.
  erewrite bind_ret.
  2:{ eapply (hal_receive_ok _ _ _ _ _ _ [NAD_CARD] [pcb; Z.of_nat (length inf)] (inf ++ [x]));
        [done|done|lia|apply hset_lookup|done|simpl; lia|all_u8]. }
  cbv beta. change (negb (2 =? 2)) with false. cbv iota. rewrite hset_twice.
  erewrite bind_ret by (eapply load8_ok; [apply hset_lookup|lia|done]). cbv beta zeta.
  erewrite bind_ret.
  2:{ eapply (hal_receive_ok _ _ _ _ _ _ [NAD_CARD; pcb; Z.of_nat (length inf)] (inf ++ [x]) []);
        [by rewrite app_nil_r| |lia|apply hset_lookup|done| |all_u8];
        rewrite length_app; simpl; lia. }
  cbv beta. rewrite Z.eqb_refl. cbn [negb]. cbv iota. rewrite hset_twice.
  replace (3 + (Z.of_nat (length inf) + 1)) with (Z.of_nat (length inf) + 4) by lia.
  done.
Qed.

(** A block whose checksum is right is decoded. *)
Lemma process_block h w p pb l0 pcb inf :
  proc_buf p = Ptr pb 0 → blocks h !! pb = Some l0 → length l0 = 260%nat →
  receive_address p = NAD_CARD →
  is_u8 pcb → Forall is_u8 inf → (length inf ≤ 255)%nat →
  c_out (w_card w) = mk_block NAD_CARD pcb inf →
  iso7816_t1_process (mkSnvm h w p s)
  = (iso7816_t1_decode_frame (Ptr pb 0) (Z.of_nat (length inf) + 4);;
     mret ESESTATUS_SUCCESS)
      (mkSnvm (hset h pb (buf (mk_block NAD_CARD pcb inf) l0))
              (w <| w_card .: c_out := [] |>)
              ((p <| timeout_counter := 0 |>) <| rnack_counter := 0 |>) s).
Proof.
  intros Hpb Hb Hl Hra Hpcb Hinf Hle Hout.
  unfold iso7816_t1_process.
  erewrite bind_ret by (by eapply receive_block_ok). cbv beta iota.
  run_t1. rewrite (proj2 (Z.ltb_lt 0 _)) by lia. run_t1. rewrite Hpb.
  set (b := [NAD_CARD; pcb; Z.of_nat (length inf)] ++ inf).
  assert (Forall is_u8 b).
  { unfold b. all_u8. unfold is_u8, NAD_CARD; lia. }
  assert (mk_block NAD_CARD pcb inf = b ++ [xor_all b]) as Hblk by done.
  assert (length b = length inf + 3)%nat as Hlb by (unfold b; simpl; lia).
  erewrite bind_ret.
  2:{ unfold iso7816_t1_check_lrc.
      erewrite bind_ret.
      2:{ eapply (load8_ok _ _ _ _ _ _ _ (xor_all b)); [apply hset_lookup|lia|].
          rewrite Hblk. unfold buf.
          replace (Z.to_nat _) with (length b) by lia.
          rewrite lookup_app_l by (rewrite length_app; simpl; lia).
          by apply list_lookup_middle. }
      cbv beta. erewrite bind_ret.
      2:{ unfold iso7816_t1_compute_lrc, ptr_add. rewrite Z.add_0_l.
          erewrite bind_ret; [reflexivity|].
          eapply load_ok; [apply hset_lookup|lia|lia|].
          rewrite buf_length by (rewrite length_mk_block; lia). lia. }
      cbv beta. rewrite drop_0, Hblk. unfold buf. rewrite <-app_assoc.
      rewrite take_app_le by lia. rewrite take_ge by lia.
      rewrite lrc_xor_all by done. rewrite Z.eqb_refl. reflexivity. }
  cbv beta. change (ESESTATUS_SUCCESS =? ESESTATUS_SUCCESS) with true. cbv iota.
  run_t1. unfold buf. by rewrite Hblk, <-app_assoc.
Qed.
End link.
