(* ===== verification/IsoExchange.v ===== *)
(** One APDU exchange of the driver with a conforming card: the command goes out
    in chained I-blocks of at most 254 bytes, the response comes back in chained
    I-blocks, and [ese_data_get] delivers it in one buffer. *)
From S2P Require Import Prelude SnvmState EseData IsoT1 IsoCard SnvmFacts.
From S2P Require Import EseDataFacts IsoLink.

(** ** Chunks and blocks *)

Lemma chunks_concat k n l : (0 < n)%nat → (length l < k)%nat → concat (chunks k n l) = l.
Proof.
  revert l. induction k as [|k IH]; intros l Hn Hk; [lia|]. simpl.
  destruct (Nat.leb_spec (length l) n); simpl; [by rewrite app_nil_r|].
  rewrite IH; [apply take_drop|done|]. rewrite length_drop. lia.
Qed.

Lemma chunks_bounds k n l :
  (0 < n)%nat → (0 < length l)%nat →
  Forall (fun c => 0 < length c ≤ n)%nat (chunks k n l).
Proof.
  revert l. induction k as [|k IH]; intros l Hn Hl; [apply Forall_nil_2|]. simpl.
  destruct (Nat.leb_spec (length l) n).
  - apply Forall_singleton. lia.
  - apply Forall_cons. split; [rewrite length_take; lia|].
    apply IH; [done|]. rewrite length_drop. lia.
Qed.

Lemma split_chunks_concat n l : (0 < n)%nat → concat (split_chunks n l) = l.
Proof. intros. apply chunks_concat; lia. Qed.

Lemma split_chunks_cons n l : ∃ c cs, split_chunks n l = c :: cs.
Proof. unfold split_chunks. simpl. destruct (_ <=? _)%nat; eauto. Qed.

Lemma parse_mk_block nad pcb inf : parse_block (mk_block nad pcb inf) = Some (nad, pcb, inf).
Proof.
  unfold mk_block. set (b := [nad; pcb; _] ++ inf).
  assert (xor_all (b ++ [xor_all b]) = 0) as Hx by (by apply xor_all_snoc).
  unfold b in *. simpl app in *. unfold parse_block. rewrite Hx, length_app.
  simpl length. rewrite (proj2 (Z.eqb_eq _ _)) by lia. simpl.
  by rewrite Nat2Z.id, take_app_length.
Qed.

Lemma buf_block nad pcb inf l :
  buf (mk_block nad pcb inf) l
  = [nad; pcb; Z.of_nat (length inf)] ++ inf ++
    xor_all ([nad; pcb; Z.of_nat (length inf)] ++ inf)
    :: drop (length (mk_block nad pcb inf)) l.
Proof. unfold buf. unfold mk_block at 1. by rewrite <-!app_assoc. Qed.

Lemma i_pcb_bits sq more :
  sq = 0 ∨ sq = 1 →
  ESE_BIT (i_pcb sq more) 7 = 0 ∧ ESE_BIT (i_pcb sq more) 6 = sq ∧
  ESE_BIT (i_pcb sq more) 5 = if more then 1 else 0.
Proof. intros [-> | ->]; by destruct more. Qed.

Lemma r_pcb_bits nr :
  nr = 0 ∨ nr = 1 →
  ESE_BIT (r_pcb nr 0) 7 = 1 ∧ ESE_BIT (r_pcb nr 0) 6 = 0 ∧
  ESE_BIT (r_pcb nr 0) 4 = nr ∧ ESE_BIT (r_pcb nr 0) 0 = 0 ∧ ESE_BIT (r_pcb nr 0) 1 = 0.
Proof. by intros [-> | ->]. Qed.

Lemma flip_flip sq : Z.lxor (Z.lxor sq 1) 1 = sq.
Proof. by rewrite Z.lxor_assoc, Z.lxor_nilpotent, Z.lxor_0_r. Qed.

Lemma flip_ne sq : Z.lxor sq 1 ≠ sq.
Proof.
  intros H. assert (Z.lxor sq (Z.lxor sq 1) = Z.lxor sq sq) as H' by (by rewrite H).
  rewrite <-Z.lxor_assoc, Z.lxor_nilpotent in H'. by simpl in H'.
Qed.

(** ** The heap during an exchange

    [base] is the heap before it, [nb0] its first free block and [pb] the
    protocol's buffer, whose content is [l]; the only other blocks are those of
    the received packets. *)
Record exch_heap (nb0 pb : Z) (base : gmap Z (list Z)) (h : heap)
    (nds : list (Z * list Z)) : Prop := {
  eh_buf : ∃ l, length l = 260%nat ∧ blocks h = with_nodes nds (<[pb := l]> base);
  eh_pb : pb < nb0;
  eh_nb : nb0 <= next_block h;
  eh_base : ∀ b, nb0 <= b → base !! b = None;
  eh_nodup : NoDup nds.*1;
  eh_nodes : ∀ n, n ∈ nds → nb0 <= n.1 < next_block h ∧ Forall is_u8 n.2 }.

Section heap.
Variables (nb0 pb : Z) (base : gmap Z (list Z)).

Lemma eh_fresh h nds b : exch_heap nb0 pb base h nds → b < nb0 → b ∉ nds.*1.
Proof.
  intros H Hb (n & -> & Hin)%list_elem_of_fmap.
  destruct (eh_nodes _ _ _ _ _ H n Hin). lia.
Qed.

Lemma eh_wf h nds : exch_heap nb0 pb base h nds → heap_wf h.
Proof.
  intros H b Hb. destruct (eh_buf _ _ _ _ _ H) as (l & _ & ->).
  pose proof (eh_pb _ _ _ _ _ H). pose proof (eh_nb _ _ _ _ _ H).
  rewrite with_nodes_lookup_ne.
  - rewrite lookup_insert_ne by lia. apply (eh_base _ _ _ _ _ H). lia.
  - intros (n & -> & Hin)%list_elem_of_fmap.
    destruct (eh_nodes _ _ _ _ _ H n Hin). lia.
Qed.

Lemma eh_lookup_pb h nds :
  exch_heap nb0 pb base h nds → ∃ l, blocks h !! pb = Some l ∧ length l = 260%nat.
Proof.
  intros H. destruct (eh_buf _ _ _ _ _ H) as (l & Hl & ->). exists l. split; [|done].
  rewrite with_nodes_lookup_ne; [apply lookup_insert_eq|].
  eapply eh_fresh; [done|]. by apply (eh_pb _ _ _ _ _ H).
Qed.

Lemma eh_lookup_base h nds b :
  exch_heap nb0 pb base h nds → b < nb0 → b ≠ pb → blocks h !! b = base !! b.
Proof.
  intros H Hb Hne. destruct (eh_buf _ _ _ _ _ H) as (l & _ & ->).
  rewrite with_nodes_lookup_ne by (by eapply eh_fresh).
  by rewrite lookup_insert_ne.
Qed.

Lemma eh_hset h nds l :
  exch_heap nb0 pb base h nds → length l = 260%nat → exch_heap nb0 pb base (hset h pb l) nds.
Proof.
  intros H Hl. destruct (eh_buf _ _ _ _ _ H) as (l' & Hl' & Hb).
  destruct H; split; cbn; auto. exists l. split; [done|].
  rewrite Hb, with_nodes_insert, insert_insert_eq; [done|].
  eapply (eh_fresh h); [|done]. by split; eauto.
Qed.

Lemma eh_bump h nds : exch_heap nb0 pb base h nds → exch_heap nb0 pb base (bump h) nds.
Proof.
  intros []. split; cbn; auto; [lia|]. intros n Hn.
  destruct (eh_nodes0 n Hn). split; [lia|done].
Qed.

Lemma eh_store h nds c :
  exch_heap nb0 pb base h nds → Forall is_u8 c →
  exch_heap nb0 pb base (hset (bump h) (next_block h) c) (nds ++ [(next_block h, c)]).
Proof.
  intros H Hc. destruct (eh_buf _ _ _ _ _ H) as (l & Hl & Hb).
  assert (next_block h ∉ nds.*1) as Hnew.
  { intros (n & Hn & Hin)%list_elem_of_fmap.
    destruct (eh_nodes _ _ _ _ _ H n Hin). lia. }
  destruct H. split; cbn; auto; [|lia| |].
  - exists l. split; [done|]. by rewrite with_nodes_snoc, Hb.
  - rewrite fmap_app. apply NoDup_app. split_and!; [done| |apply NoDup_singleton].
    intros x Hx Hx'. cbn in Hx'. apply list_elem_of_singleton in Hx'. congruence.
  - intros n [Hn|Hn]%elem_of_app.
    + destruct (eh_nodes0 n Hn). split; [lia|done].
    + apply list_elem_of_singleton in Hn as ->. simpl. split; [lia|done].
Qed.
End heap.

Definition tx_seq (p : iso7816_t1) : Z := i_seq_no (iframe (last_tx p)).
Definition rx_seq (p : iso7816_t1) : Z := i_seq_no (iframe (last_rx p)).
Definition is_bit (z : Z) : Prop := z = 0 ∨ z = 1.

(** The protocol structure is set up, with [proc_buf] in block [pb]. *)
Record t1_ready (pb : Z) (p : iso7816_t1) : Prop := {
  tr_buf : proc_buf p = Ptr pb 0;
  tr_send : send_address p = NAD_HOST;
  tr_recv : receive_address p = NAD_CARD }.

(** Both ends agree on the sequence numbers. *)
Record synced (p : iso7816_t1) (c : card) : Prop := {
  sy_tx : is_bit (tx_seq p);
  sy_rx : is_bit (rx_seq p);
  sy_nr : c_nr c = Z.lxor (tx_seq p) 1;
  sy_ns : c_ns c = Z.lxor (rx_seq p) 1 }.

(** [recv_data] holds exactly the packets [nds]. *)
Definition holds (p : iso7816_t1) (nds : list (Z * list Z)) : Prop :=
  recv_data p = mkList (Z.of_nat (length (payload nds))) (node_of <$> nds).

Section exchange.
Variable apdu : list Z → list Z.
Variable ifs : nat.
#[local] Instance exch_env : SnvmEnv card_world := card_env apdu ifs.
Variables (k : hal_type) (s : sec_star).
Hypothesis Hs : star_hal s = Some (mkHal true (Some k)).
Variables (nb0 pb : Z) (base : gmap Z (list Z)).
Implicit Types (h : heap) (w : card_world) (p : iso7816_t1).

Lemma alloc_card w n : n <= KMALLOC_MAX_SIZE → alloc_ok n w = (true, w).
Proof. intros ?. cbn. by rewrite (proj2 (Z.leb_le _ _)) by lia. Qed.

Lemma u8_NAD_HOST : is_u8 NAD_HOST.
Proof. unfold is_u8, NAD_HOST. lia. Qed.

(** Receiving the next I-block of the response. *)
Lemma process_iblock h w p nds ns more inf :
  exch_heap nb0 pb base h nds → t1_ready pb p → holds p nds →
  is_bit ns → rx_seq p = Z.lxor ns 1 →
  c_out (w_card w) = mk_block NAD_CARD (i_pcb ns more) inf →
  (length inf ≤ 255)%nat → Forall is_u8 inf →
  Z.of_nat (length (payload nds) + length inf) <= KMALLOC_MAX_SIZE →
  ∃ h' p' nds',
    iso7816_t1_process (mkSnvm h w p s)
    = Ret (ESESTATUS_SUCCESS, mkSnvm h' (w <| w_card .: c_out := [] |>) p' s)
    ∧ exch_heap nb0 pb base h' nds' ∧ t1_ready pb p' ∧ holds p' nds'
    ∧ payload nds' = payload nds ++ inf
    ∧ rx_seq p' = ns ∧ iframe (last_tx p') = iframe (last_tx p)
    ∧ iframe (next_tx p') = iframe (next_tx p)
    ∧ state p' = (if more then STATE_SEND_RFRAME else STATE_IDLE)
    ∧ (more = true → r_error (rframe (next_tx p')) = RFRAME_ERROR_NO).
Proof.
  intros Hh Hp Hr Hns Hrx Hout Hlen Hu8 Hmax.
  destruct (eh_lookup_pb _ _ _ _ _ Hh) as (l0 & Hb & Hl0). destruct Hp as [Hpb Hsa Hra].
  pose proof (i_pcb_u8 ns more Hns) as Hpcb.
  destruct (i_pcb_bits ns more Hns) as (H7 & H6 & H5).
  set (blk := mk_block NAD_CARD (i_pcb ns more) inf) in *.
  assert (length blk = length inf + 4)%nat as Hblk by apply length_mk_block.
  assert (Forall is_u8 blk) as Hblk8.
  { apply mk_block_u8; auto. unfold is_u8, NAD_CARD. lia. }
  set (h1 := hset h pb (buf blk l0)).
  assert (exch_heap nb0 pb base h1 nds) as Hh1.
  { apply eh_hset; [done|]. rewrite buf_length; lia. }
  assert (take (Z.to_nat (Z.of_nat (length inf) + 4 - 4)) (drop (Z.to_nat 3) (buf blk l0))
          = inf) as Hinf.
  { replace (Z.to_nat _) with (length inf) by lia.
    unfold blk. rewrite buf_block.
    change (Z.to_nat 3) with (length [NAD_CARD; i_pcb ns more; Z.of_nat (length inf)]).
    by rewrite drop_app_length, take_app_length. }
  exists (hset (bump h1) (next_block h1) inf). eexists. exists (nds ++ [(next_block h1, inf)]).
  split; [|split; [by apply eh_store|]].
  { rewrite (process_block apdu ifs k s Hs _ _ _ pb l0 (i_pcb ns more) inf) by done.
    fold blk. fold h1. unfold iso7816_t1_decode_frame. rewrite bind_assoc.
    erewrite bind_ret.
    2:{ eapply (load8_ok _ _ _ _ _ _ _ (i_pcb ns more)); [apply hset_lookup|lia|done]. }
    cbv beta. rewrite H7. change (0 =? 0) with true. cbv iota.
    unfold decode_iframe. rewrite !bind_assoc. run_t1. rewrite bind_assoc. run_t1.
    cbn. rewrite H6.
    match goal with |- context [negb (?a =? ns)] => change a with (rx_seq p) end.
    rewrite Hrx. rewrite (proj2 (Z.eqb_neq _ _) (flip_ne ns)). cbn [negb]. cbv iota.
    rewrite bind_assoc. run_t1. rewrite bind_assoc. run_t1. rewrite bind_assoc.
    match goal with |- context [ese_data_store ?hd _ _ _] =>
      assert (hd = recv_data p) as -> by (rewrite H5; by destruct more) end.
    erewrite bind_ret.
    2:{ rewrite u32_id by (unfold is_u32, KMALLOC_MAX_SIZE in *; lia).
        eapply (ese_data_store_ok _ _ _ _ _ pb 3 (buf blk l0)).
        - intros. by apply alloc_card.
        - by eapply eh_wf.
        - apply hset_lookup.
        - lia.
        - lia.
        - rewrite buf_length by lia. lia.
        - rewrite Hinf. done. }
    cbv beta iota. rewrite bind_assoc. run_t1. rewrite Hinf.
    replace (Z.of_nat (length inf) + 4 - 4) with (Z.of_nat (length inf)) by lia.
    reflexivity. }
  unfold holds, append_node, payload in *.
  rewrite fmap_app, concat_app. cbn [fmap list_fmap concat fst snd]. rewrite app_nil_r.
  rewrite H5, Hr.
  assert (u32 (Z.of_nat (length (concat nds.*2)) + Z.of_nat (length inf))
          = Z.of_nat (length (concat nds.*2 ++ inf))) as Hsz.
  { rewrite u32_id by (unfold is_u32, KMALLOC_MAX_SIZE in *; lia).
    rewrite length_app. lia. }
  destruct more; split_and!; try done; cbn; by rewrite fmap_app, Hsz.
Qed.

(** Acknowledging it makes the card send the next one. *)
Lemma send_ack h w p nds ns inf rest :
  exch_heap nb0 pb base h nds → t1_ready pb p → is_bit ns → rx_seq p = ns →
  state p = STATE_SEND_RFRAME → r_error (rframe (next_tx p)) = RFRAME_ERROR_NO →
  c_ns (w_card w) = Z.lxor ns 1 → c_resp (w_card w) = inf :: rest →
  iso7816_t1_send None (mkSnvm h w p s)
  = Ret (ESESTATUS_SUCCESS,
         mkSnvm (bump h)
           (w <| w_card := mkCard ns (c_nr (w_card w)) (c_acc (w_card w)) rest
                (mk_block NAD_CARD
                   (i_pcb (Z.lxor ns 1) (negb (length rest =? 0)%nat)) inf) |>)
           ((copy_next_to_last p) <| last_frame := FRAME_RFRAME |>) s).
Proof.
  intros Hh [Hpb Hsa Hra] Hns Hrx Hst Her Hcns Hresp.
  destruct (r_pcb_bits (Z.lxor ns 1)) as (B7 & B6 & B4 & _).
  { by apply flip_01. }
  unfold iso7816_t1_send. run_t1. erewrite bind_ret by reflexivity. cbv beta.
  run_t1. run_t1. change (state (copy_next_to_last p)) with (state p). rewrite Hst.
  set (q := copy_next_to_last p).
  assert (i_seq_no (iframe (last_rx q)) = ns) as Hq by done.
  etransitivity; [apply (send_rframe_ok (card_gets apdu ifs) (card_i2c apdu ifs) (card_spi apdu ifs)
              k s Hs h w q)|].
  { by eapply eh_wf. }
  { change (send_address q) with (send_address p). rewrite Hsa. apply u8_NAD_HOST. }
  { done. }
  { by rewrite Hq. }
  rewrite Hq. change (send_address q) with (send_address p). rewrite Hsa.
  do 3 f_equal. unfold card_gets, over_field. destruct w as [c u]. cbn [w_card w_user] in *. f_equal.
  unfold card_receive. rewrite parse_mk_block, B7, B6, B4, Hcns.
  change (negb (NAD_HOST =? NAD_HOST)) with false. change (1 =? 0) with false. cbv iota.
  rewrite !Z.eqb_refl. unfold card_next. by rewrite Hresp, Hcns, flip_flip.
Qed.

(** One turn of the receive loop that is answered by another frame. *)
Lemma loop_again fuel m h1 w1 p1 h2 w2 p2 :
  iso7816_t1_process m = Ret (ESESTATUS_SUCCESS, mkSnvm h1 w1 p1 s) →
  state p1 ≠ STATE_IDLE →
  iso7816_t1_send None (mkSnvm h1 w1 p1 s) = Ret (ESESTATUS_SUCCESS, mkSnvm h2 w2 p2 s) →
  state p2 ≠ STATE_IDLE →
  receive_loop (S fuel) m = receive_loop fuel (mkSnvm h2 w2 p2 s).
Proof.
  intros Hp H1 Hsend H2. simpl receive_loop. erewrite bind_ret by exact Hp. cbv beta.
  change (ESESTATUS_SUCCESS =? ESESTATUS_INVALID_DEVICE) with false. cbv iota. run_t1.
  rewrite bool_decide_false by done. erewrite bind_ret.
  2:{ erewrite bind_ret by exact Hsend. cbv beta.
      change (negb (ESESTATUS_SUCCESS =? ESESTATUS_SUCCESS)) with false. cbv iota.
      erewrite bind_ret by reflexivity. reflexivity. }
  cbv beta. run_t1. by rewrite bool_decide_false by done.
Qed.

(** The state in which the driver waits for the response block [inf] and
    [rest] is still to come. *)
Record awaiting (w : card_world) (p : iso7816_t1) (inf : list Z)
    (rest : list (list Z)) : Prop := {
  aw_tx : is_bit (tx_seq p);
  aw_rx : is_bit (rx_seq p);
  aw_next : iframe (next_tx p) = iframe (last_tx p);
  aw_nr : c_nr (w_card w) = Z.lxor (tx_seq p) 1;
  aw_ns : c_ns (w_card w) = rx_seq p;
  aw_out : c_out (w_card w)
    = mk_block NAD_CARD (i_pcb (Z.lxor (rx_seq p) 1) (negb (length rest =? 0)%nat)) inf;
  aw_resp : c_resp (w_card w) = rest;
  aw_acc : c_acc (w_card w) = [];
  aw_chunks : Forall (fun c => (length c ≤ 255)%nat ∧ Forall is_u8 c) (inf :: rest) }.

(** The state after an exchange: the packets hold the payload. *)
Record received (h : heap) (w : card_world) (p : iso7816_t1)
    (nds : list (Z * list Z)) : Prop := {
  rc_heap : exch_heap nb0 pb base h nds;
  rc_ready : t1_ready pb p;
  rc_holds : holds p nds;
  rc_synced : synced p (w_card w);
  rc_state : state p = STATE_IDLE;
  rc_out : c_out (w_card w) = [];
  rc_acc : c_acc (w_card w) = [] }.

Lemma receive_chunks rest : ∀ inf h w p nds fuel,
  exch_heap nb0 pb base h nds → t1_ready pb p → holds p nds →
  awaiting w p inf rest →
  Z.of_nat (length (payload nds) + length (concat (inf :: rest))) <= KMALLOC_MAX_SIZE →
  (length rest < fuel)%nat →
  ∃ h' w' p' nds',
    receive_loop fuel (mkSnvm h w p s)
    = Ret (inr ESESTATUS_SUCCESS, mkSnvm h' w' p' s)
    ∧ received h' w' p' nds' ∧ payload nds' = payload nds ++ concat (inf :: rest)
    ∧ w_user w' = w_user w.
Proof.
  induction rest as [|inf' rest IH]; intros inf h w p nds fuel Hh Hp Hr Haw Hmax Hf;
    (destruct fuel as [|fuel]; [simpl in Hf; lia|]);
    destruct Haw as [Htx Hrx Hnext Hnr Hcns Hout Hresp Hacc Hch];
    inversion_clear Hch as [|?? [Hlen Hu8] Hch'];
    cbn [concat] in *; rewrite length_app in Hmax.
  - edestruct (process_iblock h w p nds (Z.lxor (rx_seq p) 1))
      as (h' & p' & nds' & Hrun & Hh' & Hp' & Hr' & Hpay & Hrx' & Hl' & Hn' & Hst & _);
      [done|done|done|by apply flip_01|by rewrite flip_flip|exact Hout|done|done|lia|].
    exists h', (w <| w_card .: c_out := [] |>), p', nds'. split_and!; [|split; try done|..].
    + simpl receive_loop. erewrite bind_ret by exact Hrun. cbv beta.
      change (ESESTATUS_SUCCESS =? ESESTATUS_INVALID_DEVICE) with false. cbv iota.
      run_t1. rewrite Hst, bool_decide_true by done.
      erewrite bind_ret by reflexivity. cbv beta. run_t1.
      by rewrite Hst, bool_decide_true by done.
    + split; unfold tx_seq in *; rewrite ?Hl', ?Hrx'; try done.
      * by apply flip_01.
      * by rewrite flip_flip.
    + by rewrite app_nil_r.
    + done.
  - edestruct (process_iblock h w p nds (Z.lxor (rx_seq p) 1))
      as (h' & p' & nds' & Hrun & Hh' & Hp' & Hr' & Hpay & Hrx' & Hl' & Hn' & Hst & Her);
      [done|done|done|by apply flip_01|by rewrite flip_flip|exact Hout|done|done|lia|].
    cbn in Hst. specialize (Her eq_refl).
    set (w1 := w <| w_card .: c_out := [] |>) in *.
    pose proof (send_ack h' w1 p' nds' _ inf' rest Hh' Hp' (flip_01 _ Hrx) Hrx' Hst Her)
      as Hsend.
    rewrite flip_flip in Hsend. specialize (Hsend Hcns Hresp).
    set (w2 := w1 <| w_card := _ |>) in Hsend.
    set (p2 := (copy_next_to_last p') <| last_frame := FRAME_RFRAME |>) in Hsend.
    assert (iframe (last_tx p2) = iframe (last_tx p)) as Htx2.
    { change (iframe (next_tx p') = iframe (last_tx p)). by rewrite Hn', Hnext. }
    assert (rx_seq p2 = Z.lxor (rx_seq p) 1) as Hrx2 by exact Hrx'.
    destruct (IH inf' (bump h') w2 p2 nds' fuel) as (h3 & w3 & p3 & nds3 & Hrun3 & Hrc & Hpay3 & Hu3).
    + by apply eh_bump.
    + by destruct Hp'; split.
    + exact Hr'.
    + split; unfold tx_seq in *; rewrite ?Htx2, ?Hrx2, ?flip_flip; try done.
      by apply flip_01.
    + rewrite Hpay, length_app. lia.
    + simpl in Hf. lia.
    + exists h3, w3, p3, nds3. split_and!; [|done| |done].
      * erewrite loop_again; [exact Hrun3|exact Hrun|by rewrite Hst|exact Hsend|].
        change (state p' ≠ STATE_IDLE). by rewrite Hst.
      * by rewrite Hpay3, Hpay, <-app_assoc.
Qed.

(** *** Sending the command *)

Variables (db dofs len : Z) (dl : list Z).
Hypotheses (Hdb : base !! db = Some dl) (Hdb_old : db < nb0) (Hdb_pb : db ≠ pb).
Hypotheses (Hdl : Forall is_u8 dl) (Hdofs : 0 <= dofs) (Hlen : 1 <= len)
  (Hin : dofs + len <= Z.of_nat (length dl)) (Hlen32 : len < 4294967040).

(** The command the caller passes. *)
Definition cmd_bytes : list Z := take (Z.to_nat len) (drop (Z.to_nat dofs) dl).

Lemma length_cmd : Z.of_nat (length cmd_bytes) = len.
Proof. unfold cmd_bytes. rewrite length_take, length_drop. lia. Qed.

Lemma cmd_piece off n :
  0 <= off → 0 <= n → off + n <= len →
  take (Z.to_nat n) (drop (Z.to_nat (dofs + off)) dl)
  = take (Z.to_nat n) (drop (Z.to_nat off) cmd_bytes).
Proof.
  intros. unfold cmd_bytes. rewrite skipn_firstn_comm, take_take, drop_drop.
  f_equal; [lia|]. f_equal. lia.
Qed.

(** The acknowledgement of a chained block moves on to the next one. *)
Lemma process_ack h w p nr :
  exch_heap nb0 pb base h [] → t1_ready pb p → is_bit nr → nr ≠ tx_seq p →
  c_out (w_card w) = mk_block NAD_CARD (r_pcb nr 0) [] →
  ∃ h' p',
    iso7816_t1_process (mkSnvm h w p s)
    = Ret (ESESTATUS_SUCCESS, mkSnvm h' (w <| w_card .: c_out := [] |>) p' s)
    ∧ exch_heap nb0 pb base h' [] ∧ t1_ready pb p' ∧ recv_data p' = recv_data p
    ∧ rx_seq p' = rx_seq p ∧ iframe (last_tx p') = iframe (last_tx p)
    ∧ iframe (next_tx p') = iframe (next_tx (iso7816_t1_next_iframe p))
    ∧ state p' = STATE_SEND_IFRAME.
Proof.
  intros Hh [Hpb Hsa Hra] Hnr Hne Hout.
  destruct (eh_lookup_pb _ _ _ _ _ Hh) as (l0 & Hb & Hl0).
  destruct (r_pcb_bits nr Hnr) as (B7 & B6 & B4 & B0 & B1).
  assert (is_u8 (r_pcb nr 0)) as Hpcb by (by apply r_pcb_u8).
  set (blk := mk_block NAD_CARD (r_pcb nr 0) []) in *.
  do 2 eexists. split; [|split].
  { etransitivity; [eapply (process_block apdu ifs k s Hs h w p pb l0 (r_pcb nr 0) []); side|].
    fold blk. unfold iso7816_t1_decode_frame. rewrite bind_assoc.
    erewrite bind_ret.
    2:{ eapply (load8_ok _ _ _ _ _ _ _ (r_pcb nr 0)); [apply hset_lookup|lia|done]. }
    cbv beta. rewrite B7, B6. change (1 =? 0) with false. change (0 =? 0) with true.
    cbv iota. rewrite bind_assoc. run_t1. reflexivity. }
  { apply eh_hset; [done|]. rewrite buf_length; [done|].
    unfold blk. rewrite length_mk_block. simpl. lia. }
  unfold decode_rframe. rewrite B0, B1, B4.
  change ((0 =? 0) && (0 =? 0)) with true. cbv iota.
  match goal with |- context [negb (?a =? ?b)] =>
    change (negb (a =? b)) with (negb (nr =? tx_seq p)) end.
  rewrite (proj2 (Z.eqb_neq nr _) Hne). cbn [negb].
  unfold iso7816_t1_next_iframe. cbn.
  destruct (PROTOCOL_SEND_SIZE <? _); split_and!; done.
Qed.

Lemma card_gets_more w sq inf :
  is_bit sq → c_nr (w_card w) = sq →
  card_gets apdu ifs (mk_block NAD_HOST (i_pcb sq true) inf) w
  = w <| w_card := mkCard (c_ns (w_card w)) (Z.lxor sq 1) (c_acc (w_card w) ++ inf)
           (c_resp (w_card w)) (mk_block NAD_CARD (r_pcb (Z.lxor sq 1) 0) []) |>.
Proof.
  intros Hsq Hnr. destruct (i_pcb_bits sq true Hsq) as (B7 & B6 & B5).
  unfold card_gets, over_field. destruct w as [c u]. cbn [w_card w_user] in *. f_equal.
  unfold card_receive. rewrite parse_mk_block, B7.
  unfold card_iblock. rewrite B6, B5, Hnr, !Z.eqb_refl. done.
Qed.

Lemma card_gets_last w sq inf inf' rest :
  is_bit sq → c_nr (w_card w) = sq →
  split_chunks ifs (apdu (c_acc (w_card w) ++ inf)) = inf' :: rest →
  card_gets apdu ifs (mk_block NAD_HOST (i_pcb sq false) inf) w
  = w <| w_card := mkCard (Z.lxor (c_ns (w_card w)) 1) (Z.lxor sq 1) [] rest
           (mk_block NAD_CARD (i_pcb (c_ns (w_card w)) (negb (length rest =? 0)%nat))
              inf') |>.
Proof.
  intros Hsq Hnr Hch. destruct (i_pcb_bits sq false Hsq) as (B7 & B6 & B5).
  unfold card_gets, over_field. destruct w as [c u]. cbn [w_card w_user] in *. f_equal.
  unfold card_receive. rewrite parse_mk_block, B7.
  unfold card_iblock. rewrite B6, B5, Hnr, !Z.eqb_refl, Hch. done.
Qed.

(** One piece of the command on the line. *)
Lemma send_piece h w p off tot n ch sq :
  exch_heap nb0 pb base h [] → t1_ready pb p → state p = STATE_SEND_IFRAME →
  iframe (next_tx p) = mkI (Ptr db dofs) off tot n ch sq →
  0 <= off → 1 <= n <= 254 → off + n <= len → is_bit sq → is_bit ch →
  ∃ h',
    iso7816_t1_send None (mkSnvm h w p s)
    = Ret (ESESTATUS_SUCCESS,
           mkSnvm h' (card_gets apdu ifs (mk_block NAD_HOST (i_pcb sq (negb (ch =? 0)))
                        (take (Z.to_nat n) (drop (Z.to_nat off) cmd_bytes))) w)
             ((copy_next_to_last p) <| last_frame := FRAME_IFRAME |>) s)
    ∧ exch_heap nb0 pb base h' [].
Proof.
  intros Hh [Hpb Hsa Hra] Hst Hf Hoff Hn Hon Hsq Hchb.
  destruct (eh_lookup_pb _ _ _ _ _ Hh) as (l0 & Hb & Hl0).
  pose proof (eh_lookup_base _ _ _ _ _ _ Hh Hdb_old Hdb_pb) as Hbd. rewrite Hdb in Hbd.
  eexists. split.
  - unfold iso7816_t1_send. run_t1. erewrite bind_ret by reflexivity. cbv beta.
    run_t1. run_t1. change (state (copy_next_to_last p)) with (state p). rewrite Hst.
    set (q := copy_next_to_last p).
    etransitivity.
    { eapply (send_iframe_ok (card_gets apdu ifs) (card_i2c apdu ifs) (card_spi apdu ifs)
              k s Hs h w q pb db dofs off tot n ch sq l0 dl);
        try done; try lia. change (send_address q) with (send_address p). rewrite Hsa.
      apply u8_NAD_HOST. }
    change (send_address q) with (send_address p). rewrite Hsa.
    rewrite cmd_piece by lia. reflexivity.
  - apply eh_hset; [done|]. rewrite buf_length; [done|].
    rewrite length_mk_block, length_take. lia.
Qed.

(** The state in which the driver waits for the acknowledgement of the block
    at [off], and [rem] bytes of the command are still to be sent. *)
Record sending (w : card_world) (p : iso7816_t1) (off rem : Z) : Prop := {
  sd_tx : is_bit (tx_seq p);
  sd_rx : is_bit (rx_seq p);
  sd_frame : iframe (last_tx p) = mkI (Ptr db dofs) off rem 254 1 (tx_seq p);
  sd_next : iframe (next_tx p) = iframe (last_tx p);
  sd_nr : c_nr (w_card w) = Z.lxor (tx_seq p) 1;
  sd_ns : c_ns (w_card w) = Z.lxor (rx_seq p) 1;
  sd_out : c_out (w_card w) = mk_block NAD_CARD (r_pcb (Z.lxor (tx_seq p) 1) 0) [];
  sd_acc : c_acc (w_card w) = take (Z.to_nat (off + 254)) cmd_bytes;
  sd_off : 0 <= off;
  sd_rem : 0 < rem;
  sd_len : off + 254 + rem = len }.

(** The I-frame for the rest of the command from [off] on. *)
Definition piece (off sq : Z) : iframe_info :=
  if 254 <? len - off then mkI (Ptr db dofs) off (len - off - 254) 254 1 sq
  else mkI (Ptr db dofs) off (len - off) (len - off) 0 sq.

Variables (inf0 : list Z) (rest0 : list (list Z)).
Hypothesis Hresp0 : split_chunks ifs (apdu cmd_bytes) = inf0 :: rest0.
Hypothesis Hok0 :
  Forall (fun c => (length c ≤ 255)%nat ∧ Forall is_u8 c) (inf0 :: rest0).

Lemma send_and_wait h w p off sq :
  exch_heap nb0 pb base h [] → t1_ready pb p → state p = STATE_SEND_IFRAME →
  iframe (next_tx p) = piece off sq → 0 <= off < len → is_bit sq → is_bit (rx_seq p) →
  c_nr (w_card w) = sq → c_ns (w_card w) = Z.lxor (rx_seq p) 1 →
  c_acc (w_card w) = take (Z.to_nat off) cmd_bytes →
  ∃ h' w' p',
    iso7816_t1_send None (mkSnvm h w p s)
    = Ret (ESESTATUS_SUCCESS, mkSnvm h' w' p' s)
    ∧ exch_heap nb0 pb base h' [] ∧ t1_ready pb p' ∧ recv_data p' = recv_data p
    ∧ state p' = STATE_SEND_IFRAME ∧ w_user w' = w_user w
    ∧ (254 < len - off ∧ sending w' p' off (len - off - 254)
       ∨ len - off <= 254 ∧ awaiting w' p' inf0 rest0).
Proof.
  intros Hh Hp Hst Hf Hoff Hsq Hrx Hnr Hns Hacc. unfold piece in Hf.
  pose proof length_cmd as Hlc.
  destruct (Z.ltb_spec 254 (len - off)) as [Hlt|Hge].
  - destruct (send_piece h w p off (len - off - 254) 254 1 sq)
      as (h' & Hrun & Hh'); try done; try lia; [by right|].
    change (negb (1 =? 0)) with true in Hrun. rewrite card_gets_more in Hrun by done.
    eexists h', _, _. split; [exact Hrun|]. split_and!; try done; [by destruct Hp; split|].
    left. split; [done|]. split; unfold tx_seq in *; cbn; rewrite ?Hf; cbn; try done; try lia.
    rewrite Hacc, Z2Nat.inj_add by lia. apply take_take_drop.
  - destruct (send_piece h w p off (len - off) (len - off) 0 sq)
      as (h' & Hrun & Hh'); try done; try lia; [by left|].
    change (negb (0 =? 0)) with false in Hrun.
    assert (c_acc (w_card w) ++ take (Z.to_nat (len - off)) (drop (Z.to_nat off) cmd_bytes)
            = cmd_bytes) as Happ.
    { rewrite Hacc, (take_ge (drop _ _)) by (rewrite length_drop; lia). apply take_drop. }
    rewrite (card_gets_last _ _ _ inf0 rest0) in Hrun; [|done|done|by rewrite Happ].
    eexists h', _, _. split; [exact Hrun|]. split_and!; try done; [by destruct Hp; split|].
    right. split; [done|]. split; unfold tx_seq in *; cbn; rewrite ?Hf; cbn; try done.
    + by rewrite Hns, flip_flip.
    + by rewrite Hns.
Qed.

(** The next piece after an acknowledgement. *)
Lemma next_piece w p off rem :
  sending w p off rem →
  iframe (next_tx (iso7816_t1_next_iframe p)) = piece (off + 254) (Z.lxor (tx_seq p) 1).
Proof.
  intros [_ _ Hf Hn _ _ _ _ Hoff Hrem Hl]. unfold iso7816_t1_next_iframe, piece. cbn.
  rewrite Hf. cbn [i_total_size]. change PROTOCOL_SEND_SIZE with 254.
  assert (u32 (off + 254) = off + 254) as Hu by (apply u32_id; unfold is_u32; lia).
  replace (len - (off + 254)) with rem by lia.
  destruct (254 <? rem); cbn; rewrite ?Hn, ?Hf; cbn; by rewrite Hu.
Qed.

Lemma send_chunks m : ∀ h w p off rem,
  exch_heap nb0 pb base h [] → t1_ready pb p → sending w p off rem →
  rem <= 254 * Z.of_nat m →
  ∃ j h' w' p', (j ≤ m)%nat
    ∧ (∀ fuel, receive_loop (j + fuel) (mkSnvm h w p s)
               = receive_loop fuel (mkSnvm h' w' p' s))
    ∧ exch_heap nb0 pb base h' [] ∧ t1_ready pb p' ∧ recv_data p' = recv_data p
    ∧ awaiting w' p' inf0 rest0 ∧ w_user w' = w_user w.
Proof.
  induction m as [|m IH]; intros h w p off rem Hh Hp Hsd Hm;
    [pose proof (sd_rem _ _ _ _ Hsd); lia|].
  pose proof (next_piece _ _ _ _ Hsd) as Hnp.
  destruct Hsd as [Htx Hrx Hf Hnx Hnr Hns Hout Hacc Hoff Hrem Hl].
  destruct (process_ack h w p (Z.lxor (tx_seq p) 1))
    as (h1 & p1 & Hrun & Hh1 & Hp1 & Hr1 & Hrx1 & Hl1 & Hn1 & Hst1);
    [done|done|by apply flip_01|apply flip_ne|done|].
  set (w1 := w <| w_card .: c_out := [] |>) in *.
  destruct (send_and_wait h1 w1 p1 (off + 254) (Z.lxor (tx_seq p) 1))
    as (h2 & w2 & p2 & Hsend & Hh2 & Hp2 & Hr2 & Hst2 & Hu2 & Hcase);
    [done|done|done|by rewrite Hn1|lia|by apply flip_01|by rewrite Hrx1|done| |done|].
  { by rewrite Hrx1. }
  assert (∀ fuel, receive_loop (S fuel) (mkSnvm h w p s)
                  = receive_loop fuel (mkSnvm h2 w2 p2 s)) as Hstep.
  { intros fuel. eapply loop_again; [exact Hrun|by rewrite Hst1|exact Hsend|by rewrite Hst2]. }
  destruct Hcase as [[Hlt Hsd]|[Hge Haw]].
  - destruct (IH h2 w2 p2 (off + 254) (len - (off + 254) - 254))
      as (j & h3 & w3 & p3 & Hj & Hrun3 & Hh3 & Hp3 & Hr3 & Haw3 & Hu3); [done..|lia|].
    exists (S j), h3, w3, p3. split_and!; try done; [lia| | |].
    + intros fuel. simpl plus. by rewrite Hstep.
    + by rewrite Hr3, Hr2.
    + by rewrite Hu3, Hu2.
  - exists 1%nat, h2, w2, p2. split_and!; try done; [lia|by rewrite Hr2].
Qed.
End exchange.

(** The driver between two exchanges: idle, nothing received, and in step with
    the card. *)
Record t1_idle (pb : Z) (p : iso7816_t1) (c : card) : Prop := {
  ti_ready : t1_ready pb p;
  ti_synced : synced p c;
  ti_state : state p = STATE_IDLE;
  ti_recv : recv_data p = mkList 0 [];
  ti_acc : c_acc c = [] }.

Section whole.
Variable apdu : list Z → list Z.
Variable ifs : nat.
#[local] Instance whole_env : SnvmEnv card_world := card_env apdu ifs.
Variables (k : hal_type) (s : sec_star).
Hypothesis Hs : star_hal s = Some (mkHal true (Some k)).

Lemma set_iframe_fields p d :
  let q := iso7816_t1_set_iframe
    ((p <| next_tx .: iframe .: i_data := ed_data d |>)
       <| next_tx .: iframe .: i_total_size := ed_size d |>) in
  state q = STATE_SEND_IFRAME ∧ last_rx q = last_rx p ∧ recv_data q = recv_data p
  ∧ proc_buf q = proc_buf p ∧ send_address q = send_address p
  ∧ receive_address q = receive_address p
  ∧ iframe (next_tx q)
    = (if 254 <? ed_size d
       then mkI (ed_data d) 0 (ed_size d - 254) 254 1 (Z.lxor (tx_seq p) 1)
       else mkI (ed_data d) 0 (ed_size d) (ed_size d) 0 (Z.lxor (tx_seq p) 1))
  ∧ f_type (next_tx q) = FRAME_IFRAME ∧ timeout_counter q = timeout_counter p.
Proof.
  intros q. subst q. unfold iso7816_t1_set_iframe. 
  change PROTOCOL_SEND_SIZE with 254. cbv zeta.
  match goal with |- context [254 <? ?t] => change t with (ed_size d) end.
  destruct (254 <? ed_size d); split_and!; reflexivity.
Qed.

Lemma chunk_ok l inf rest :
  (1 ≤ ifs ≤ 255)%nat → Forall is_u8 l → (0 < length l)%nat →
  split_chunks ifs l = inf :: rest →
  concat (inf :: rest) = l
  ∧ Forall (fun c => (length c ≤ 255)%nat ∧ Forall is_u8 c) (inf :: rest).
Proof.
  intros Hifs Hl Hpos Hch.
  assert (concat (inf :: rest) = l) as Hcat by (rewrite <-Hch; apply split_chunks_concat; lia).
  split; [done|].
  pose proof (chunks_bounds (S (length l)) ifs l ltac:(lia) Hpos) as Hb.
  fold (split_chunks ifs l) in Hb. rewrite Hch in Hb.
  rewrite <-Hcat in Hl. revert Hl Hb. generalize (inf :: rest). clear -Hifs.
  induction l as [|c l IH]; intros Hl Hb; [apply Forall_nil_2|].
  simpl in Hl. apply Forall_app in Hl as [? ?]. inversion_clear Hb.
  apply Forall_cons. split; [split; [lia|done]|auto].
Qed.

(** [ese_data_get] after the loop delivers the payload in one buffer. *)
Lemma get_received nb0 pb base h w p nds out :
  received nb0 pb base h w p nds →
  0 < Z.of_nat (length (payload nds)) <= KMALLOC_MAX_SIZE →
  let rb := next_block h in
  ∃ h',
    ese_data_get (recv_data p) (Some out) (mkSnvm h w p s)
    = Ret ((ESESTATUS_SUCCESS, mkList 0 [],
            Some (mkData (Ptr rb 0) (Z.of_nat (length (payload nds))))),
           mkSnvm h' w p s)
    ∧ nb0 <= rb < next_block h'
    ∧ exch_heap (next_block h') pb (<[rb := payload nds]> base) h' [].
Proof.
  intros [Hh Hp Hr Hsy Hst Hout Hacc] Hsz rb.
  destruct (eh_buf _ _ _ _ _ Hh) as (l & Hl & Hb).
  pose proof (eh_pb _ _ _ _ _ Hh). pose proof (eh_nb _ _ _ _ _ Hh).
  exists (mkHeap (<[rb := payload nds]> (<[pb := l]> base)) (rb + 1)). split_and!.
  - rewrite Hr. destruct h as [bl nb]. cbn in Hb, rb |- *. subst bl.
    apply (ese_data_get_ok nds nds (<[pb := l]> base) nb); [| |by apply Hh| |done|done].
    + intros. by apply alloc_card.
    + apply Forall2_same_length_lookup_2; [done|]. intros i n f Hn Hf.
      replace f with n by congruence. split; [done|]. exists []. by rewrite app_nil_r.
    + intros n Hn. destruct (eh_nodes _ _ _ _ _ Hh n Hn) as [Hnb Hu]. cbn in Hnb.
      split_and!; [lia| |done]. rewrite lookup_insert_ne by lia.
      apply (eh_base _ _ _ _ _ Hh). lia.
  - done.
  - cbn. lia.
  - split; cbn; [|lia|lia| |apply NoDup_nil_2|].
    + exists l. split; [done|]. apply insert_insert_ne. unfold rb. lia.
    + intros b Hbb. unfold rb in *. rewrite lookup_insert_ne by lia.
      apply (eh_base _ _ _ _ _ Hh). lia.
    + by intros n Hn%elem_of_nil.
Qed.

(** Receiving a whole response. *)
Lemma receive_ok nb0 pb base h w p inf rest resp fuel :
  exch_heap nb0 pb base h [] → t1_ready pb p → recv_data p = mkList 0 [] →
  awaiting w p inf rest → concat (inf :: rest) = resp →
  1 <= Z.of_nat (length resp) <= KMALLOC_MAX_SIZE → (length rest < fuel)%nat →
  ∃ h' w' p' rb,
    iso7816_t1_receive fuel (mkData NULL 0) (mkSnvm h w p s)
    = Ret ((ESESTATUS_SUCCESS, mkData (Ptr rb 0) (Z.of_nat (length resp))),
           mkSnvm h' w' p' s)
    ∧ nb0 <= rb < next_block h'
    ∧ exch_heap (next_block h') pb (<[rb := resp]> base) h' []
    ∧ t1_idle pb p' (w_card w') ∧ w_user w' = w_user w.
Proof.
  intros Hh Hp Hr Haw Hcat Hsz Hf.
  destruct (receive_chunks apdu ifs k s Hs nb0 pb base rest inf h w p [] fuel)
    as (h1 & w1 & p1 & nds & Hrun & Hrc & Hpay & Hu); [done|done|done|done| |done|].
  { rewrite Hcat. cbn. lia. }
  cbn [payload] in Hpay. rewrite Hcat in Hpay. change (payload nds = resp) in Hpay.
  destruct (get_received nb0 pb base h1 w1 p1 nds (mkData NULL 0) Hrc)
    as (h2 & Hget & Hrb & Hh2); [rewrite Hpay; lia|].
  rewrite Hpay in Hget, Hh2.
  eexists h2, w1, _, (next_block h1). split_and!; [| |lia|exact Hh2| |done]; [|lia|].
  - unfold iso7816_t1_receive. erewrite bind_ret by exact Hrun. cbv beta iota. run_t1.
    erewrite bind_ret by exact Hget. cbv beta iota. run_t1. reflexivity.
  - destruct Hrc as [_ [] _ [] ? ? ?]. split; [by split|by split|done..].
Qed.

Lemma exchange_ok nb0 pb base h w p db dofs len dl fuel :
  let cmd := take (Z.to_nat len) (drop (Z.to_nat dofs) dl) in
  exch_heap nb0 pb base h [] → t1_idle pb p (w_card w) →
  base !! db = Some dl → db < nb0 → db ≠ pb → Forall is_u8 dl → 0 <= dofs → 1 <= len →
  dofs + len <= Z.of_nat (length dl) → len < 4294967040 →
  (1 ≤ ifs ≤ 255)%nat → Forall is_u8 (apdu cmd) →
  1 <= Z.of_nat (length (apdu cmd)) <= KMALLOC_MAX_SIZE →
  (Z.to_nat (len / 254) + length (split_chunks ifs (apdu cmd)) ≤ fuel)%nat →
  ∃ m1 h' w' p' rb,
    iso7816_t1_send (Some (mkData (Ptr db dofs) len)) (mkSnvm h w p s)
    = Ret (ESESTATUS_SUCCESS, m1)
    ∧ iso7816_t1_receive fuel (mkData NULL 0) m1
      = Ret ((ESESTATUS_SUCCESS,
              mkData (Ptr rb 0) (Z.of_nat (length (apdu cmd)))), mkSnvm h' w' p' s)
    ∧ nb0 <= rb < next_block h'
    ∧ exch_heap (next_block h') pb (<[rb := apdu cmd]> base) h' []
    ∧ t1_idle pb p' (w_card w') ∧ w_user w' = w_user w.
Proof.
  intros cmd Hh [Hp Hsy Hst Hrecv Hacc] Hdb Hold Hne Hdl Hdofs Hlen Hin H32 Hifs Hu8 Hsz Hf.
  destruct (split_chunks_cons ifs (apdu cmd)) as (inf & rest & Hch).
  destruct (chunk_ok _ _ _ Hifs Hu8 ltac:(lia) Hch) as [Hcat Hok].
  destruct (set_iframe_fields p (mkData (Ptr db dofs) len))
    as (Hst0 & Hrx0 & Hrd0 & Hb0 & Hsa0 & Hra0 & Hf0 & _).
  pose proof (send_idle h w p s (mkData (Ptr db dofs) len) Hst) as Hsend0.
  set (p0 := iso7816_t1_set_iframe _) in *.
  destruct Hsy as [Htx Hrx Hnr Hns].
  assert (rx_seq p0 = rx_seq p) as Hrxs by (unfold rx_seq; by rewrite Hrx0).
  destruct (send_and_wait apdu ifs k s Hs nb0 pb base db dofs len dl Hdb Hold Hne Hdl Hdofs
              Hlen Hin inf rest Hch Hok h w p0 0 (Z.lxor (tx_seq p) 1))
    as (h1 & w1 & p1 & Hsend & Hh1 & Hp1 & Hr1 & Hst1 & Hu1 & Hcase); try done; try lia.
  { destruct Hp. split; congruence. }
  { unfold piece. rewrite Z.sub_0_r. exact Hf0. }
  { by apply flip_01. }
  { by rewrite Hrxs. }
  { by rewrite Hrxs. }
  rewrite Hch in Hf. cbn [length] in Hf.
  exists (mkSnvm h1 w1 p1 s).
  assert (recv_data p1 = mkList 0 []) as Hr1' by congruence.
  pose proof (Z.div_mod len 254 ltac:(lia)). pose proof (Z.mod_pos_bound len 254 ltac:(lia)).
  destruct Hcase as [[Hlt Hsd]|[Hge Haw]].
  - destruct (send_chunks apdu ifs k s Hs nb0 pb base db dofs len dl Hdb Hold Hne Hdl Hdofs
                Hlen Hin H32 inf rest Hch Hok (Z.to_nat (len / 254)) h1 w1 p1 _ _ Hh1 Hp1 Hsd)
      as (j & h2 & w2 & p2 & Hj & Hloop & Hh2 & Hp2 & Hr2 & Haw2 & Hu2); [lia|].
    destruct (receive_ok nb0 pb base h2 w2 p2 inf rest (apdu cmd) (fuel - j))
      as (h' & w' & p' & rb & Hrcv & Hrb & Hh' & Hid & Hu'); try done; try lia; [congruence|].
    exists h', w', p', rb. split_and!; try done; try lia; [by rewrite Hsend0| |congruence].
    unfold iso7816_t1_receive in *. rewrite <-Hrcv.
    replace fuel with (j + (fuel - j))%nat at 1 by lia.
    unfold mbind at 1, M_bind at 1. by rewrite Hloop.
  - destruct (receive_ok nb0 pb base h1 w1 p1 inf rest (apdu cmd) fuel)
      as (h' & w' & p' & rb & Hrcv & Hrb & Hh' & Hid & Hu'); try done; try lia.
    exists h', w', p', rb. split_and!; try done; try lia; [by rewrite Hsend0|congruence].
Qed.
End whole.
