(* ===== verification/StarExchange.v ===== *)
(** A write to the device with a chain of commands, and the read of the
    collected responses, against a conforming card. *)
From S2P Require Import Prelude SnvmState EseData IsoT1 IsoCard SecStar SnvmFacts.
From S2P Require Import EseDataFacts IsoLink IsoExchange.

(** ** The chain a client writes and the reply it reads *)

Definition be32 (v : Z) : list Z :=
  [u8 (Z.shiftr v 24); u8 (Z.shiftr v 16); u8 (Z.shiftr v 8); u8 v].

(** A command of the chain: its number, its length, no expected response. *)
Definition encode_cmd (i : Z) (c : list Z) : list Z :=
  be32 i ++ be32 (Z.of_nat (length c)) ++ be32 0 ++ c.
Fixpoint encode_cmds (i : Z) (cs : list (list Z)) : list Z :=
  match cs with
  | [] => []
  | c :: cs' => encode_cmd i c ++ encode_cmds (i + 1) cs'
  end.
Definition encode_chain (cs : list (list Z)) : list Z :=
  be32 (Z.of_nat (length cs)) ++ encode_cmds 0 cs.

(** Only the last response keeps its two status bytes. *)
Definition strip_status (r : list Z) : list Z :=
  if 2 <? Z.of_nat (length r) then take (length r - 2) r else [].
Fixpoint chain_reply (apdu : list Z → list Z) (cs : list (list Z)) : list Z :=
  match cs with
  | [] => []
  | [c] => apdu c
  | c :: cs' => strip_status (apdu c) ++ chain_reply apdu cs'
  end.

(** ** Big-endian words *)

Lemma lor_shiftl a b k : 0 <= k → 0 <= b < 2 ^ k → Z.lor (Z.shiftl a k) b = a * 2 ^ k + b.
Proof.
  intros Hk Hb. rewrite <-Z.shiftl_mul_pow2 by done. symmetry.
  apply Z.add_nocarry_lor. apply Z.bits_inj'. intros i Hi.
  rewrite Z.land_spec, Z.bits_0, Z.shiftl_spec by done.
  destruct (decide (i < k)).
  - by rewrite Z.testbit_neg_r by lia.
  - rewrite <-(Z.mod_small b (2 ^ k)) by done. rewrite Z.mod_pow2_bits_high by lia.
    apply andb_false_r.
Qed.

Lemma be32_bytes_be32 v : is_u32 v → be32_bytes (be32 v) = v.
Proof.
  intros Hv. unfold be32, be32_bytes, u8. rewrite !Z.shiftr_div_pow2 by lia.
  change (2 ^ 24) with 16777216. change (2 ^ 16) with 65536. change (2 ^ 8) with 256.
  unfold is_u32 in Hv.
  pose proof (Z.mod_pos_bound v 256 ltac:(lia)).
  pose proof (Z.mod_pos_bound (v / 256) 256 ltac:(lia)).
  pose proof (Z.mod_pos_bound (v / 65536) 256 ltac:(lia)).
  rewrite <-!Z.lor_assoc.
  rewrite (lor_shiftl _ _ 8) by lia.
  rewrite (lor_shiftl _ _ 16) by lia.
  rewrite (lor_shiftl _ _ 24) by lia.
  rewrite u32_id; unfold is_u32; Z.div_mod_to_equations; lia.
Qed.

Lemma be32_u8 v : Forall is_u8 (be32 v).
Proof. unfold be32. repeat (apply Forall_cons; split; [apply u8_is_u8|]). apply Forall_nil_2. Qed.

Lemma length_encode_cmd i c : length (encode_cmd i c) = (12 + length c)%nat.
Proof. done. Qed.

Lemma encode_cmds_u8 i cs :
  (∀ c, c ∈ cs → Forall is_u8 c) → Forall is_u8 (encode_cmds i cs).
Proof.
  revert i. induction cs as [|c cs IH]; intros i H; [apply Forall_nil_2|].
  unfold encode_cmds, encode_cmd. fold encode_cmds. rewrite !Forall_app.
  split_and!; try apply be32_u8; [apply H; by left|]. apply IH. intros. apply H. by right.
Qed.

Section read.
Context {W : Type} `{!SnvmEnv W}.

Lemma load_be32_ok h (w : W) p s b o l v rest :
  blocks h !! b = Some l → 0 <= o → drop (Z.to_nat o) l = be32 v ++ rest → is_u32 v →
  load_be32 (Ptr b o) (mkSnvm h w p s) = Ret (v, mkSnvm h w p s).
Proof.
  intros Hb Ho Hd Hv. unfold load_be32.
  assert (o + 4 <= Z.of_nat (length l)) as Hl.
  { pose proof (f_equal length Hd) as HL. rewrite length_drop, length_app in HL.
    simpl in HL. lia. }
  erewrite bind_ret by (eapply load_ok; [done|lia|lia|done]). cbv beta.
  rewrite Hd. change (take (Z.to_nat 4) (be32 v ++ rest)) with (be32 v).
  by rewrite be32_bytes_be32.
Qed.
End read.

(** ** The chain *)

Section chain.
Variable apdu : list Z → list Z.
Variable ifs : nat.
#[local] Instance chain_env : SnvmEnv card_world := card_env apdu ifs.
Variables (k : hal_type) (s : sec_star).
Hypothesis Hs : star_hal s = Some (mkHal true (Some k)).
Hypothesis Hifs : (1 ≤ ifs ≤ 255)%nat.
Variables (nb1 pb cb : Z) (base : gmap Z (list Z)) (dl : list Z).
Hypotheses (Hcb : base !! cb = Some dl) (Hpb1 : pb < nb1) (Hcb1 : cb < nb1)
  (Hcbpb : cb ≠ pb) (Hdl : Forall is_u8 dl) (Hdl32 : Z.of_nat (length dl) < 4294967040).
Hypothesis Hbase : ∀ b, nb1 <= b → base !! b = None.

(** A command the card answers, and enough fuel for its exchange. *)
Record answers (fuel : nat) (c : list Z) : Prop := {
  an_u8 : Forall is_u8 c;
  an_ne : c ≠ [];
  an_resp : Forall is_u8 (apdu c);
  an_size : 1 <= Z.of_nat (length (apdu c)) <= KMALLOC_MAX_SIZE;
  an_fuel : (Z.to_nat (Z.of_nat (length c) / 254)
             + length (split_chunks ifs (apdu c)) < fuel)%nat }.

(** The response list [total] holds [pay]; the packets are the blocks [full]. *)
Record collected (h : heap) (w : card_world) (p : iso7816_t1) (total : data_list)
    (nds full : list (Z * list Z)) : Prop := {
  co_heap : exch_heap (next_block h) pb (with_nodes full base) h [];
  co_idle : t1_idle pb p (w_card w);
  co_total : total = mkList (Z.of_nat (length (payload nds))) (node_of <$> nds);
  co_full : Forall2 (fun n f => n.1 = f.1 ∧ ∃ tl, f.2 = n.2 ++ tl) nds full;
  co_nodup : NoDup full.*1;
  co_range : ∀ n, n ∈ nds → nb1 <= n.1 < next_block h ∧ Forall is_u8 n.2;
  co_nb : nb1 <= next_block h }.

Lemma same_blocks nds full :
  Forall2 (fun n f : Z * list Z => n.1 = f.1 ∧ ∃ tl, f.2 = n.2 ++ tl) nds full →
  nds.*1 = full.*1.
Proof. induction 1 as [|n f nds full [Heq _] _ IH]; [done|]. cbn. by rewrite IH, Heq. Qed.

Lemma co_fresh h w p total nds full b :
  collected h w p total nds full → b < nb1 ∨ next_block h <= b → b ∉ full.*1.
Proof.
  intros Hc Hb. rewrite <-(same_blocks nds full) by apply Hc.
  intros (n & -> & Hin)%list_elem_of_fmap.
  destruct (co_range _ _ _ _ _ _ Hc n Hin). lia.
Qed.

(** A response (or its beginning) joins the list without being copied. *)
Lemma collect h1 h w p p0 w0 total nds full rb r tl :
  collected h1 w0 p0 total nds full →
  next_block h1 <= rb < next_block h →
  exch_heap (next_block h) pb (<[rb := r ++ tl]> (with_nodes full base)) h [] →
  t1_idle pb p (w_card w) → Forall is_u8 r →
  Z.of_nat (length (payload nds ++ r)) <= KMALLOC_MAX_SIZE →
  ∃ total',
    ese_data_store total (Ptr rb 0) (Z.of_nat (length r)) false (mkSnvm h w p s)
    = Ret ((ESESTATUS_SUCCESS, total'), mkSnvm h w p s)
    ∧ collected h w p total' (nds ++ [(rb, r)]) (full ++ [(rb, r ++ tl)]).
Proof.
  intros Hc Hrb Hh Hid Hr Hmax. pose proof (co_nb _ _ _ _ _ _ Hc) as Hnb.
  exists (append_node total (mkPacket (Ptr rb 0) (Z.of_nat (length r)))). split.
  { unfold ese_data_store. erewrite bind_ret.
    2:{ apply malloc_node_ok. by apply alloc_card. }
    done. }
  pose proof (co_fresh _ _ _ _ _ _ rb Hc ltac:(lia)) as Hfresh.
  destruct Hc as [_ _ -> Hf Hnd Hrg _]. split.
  - by rewrite with_nodes_snoc.
  - done.
  - unfold append_node, payload in *.
    rewrite fmap_app, concat_app, length_app. cbn. rewrite app_nil_r.
    rewrite length_app in Hmax. unfold KMALLOC_MAX_SIZE in *.
    rewrite u32_id by (unfold is_u32; lia).
    rewrite fmap_app. f_equal. lia.
  - apply Forall2_app; [done|]. apply Forall2_cons. split; [|apply Forall2_nil_2].
    split; [done|by exists tl].
  - rewrite fmap_app. apply NoDup_app. split_and!; [done| |apply NoDup_singleton].
    intros x Hx Hx'. cbn in Hx'. apply list_elem_of_singleton in Hx'. congruence.
  - intros n [Hn|Hn]%elem_of_app.
    + destruct (Hrg n Hn). split; [lia|done].
    + apply list_elem_of_singleton in Hn as ->. simpl. split; [lia|done].
  - lia.
Qed.

(** A response that is only a status is dropped. *)
Lemma discard h1 h w p p0 w0 total nds full rb r :
  collected h1 w0 p0 total nds full →
  next_block h1 <= rb < next_block h →
  exch_heap (next_block h) pb (<[rb := r]> (with_nodes full base)) h [] →
  t1_idle pb p (w_card w) →
  ∃ h',
    ESE_FREE (Ptr rb 0) (mkSnvm h w p s) = Ret (tt, mkSnvm h' w p s)
    ∧ collected h' w p total nds full.
Proof.
  intros Hc Hrb Hh Hid. pose proof (co_nb _ _ _ _ _ _ Hc) as Hnb.
  pose proof (co_fresh _ _ _ _ _ _ rb Hc ltac:(lia)) as Hfresh.
  destruct (eh_buf _ _ _ _ _ Hh) as (l & Hl & Hb). cbn in Hb.
  exists (mkHeap (delete rb (blocks h)) (next_block h)). split.
  { apply (ESE_FREE_ok _ _ _ _ _ r). rewrite Hb, lookup_insert_ne by lia.
    apply lookup_insert_eq. }
  destruct Hc as [Hh1 _ Ht Hf Hnd Hrg _]. split; try done; cbn; [| |lia].
  - assert (with_nodes full base !! rb = None) as Hrb0.
    { rewrite with_nodes_lookup_ne by done. apply Hbase. lia. }
    split; cbn; [|lia|lia| |apply NoDup_nil_2|by intros n Hn%elem_of_nil].
    + exists l. split; [done|]. rewrite Hb, delete_insert_ne by lia.
      by rewrite delete_insert_id.
    + intros b Hbb. apply (eh_base _ _ _ _ _ Hh1). lia.
  - intros n Hn. destruct (Hrg n Hn). split; [lia|done].
Qed.

Definition reply_part (last : bool) (r : list Z) : list Z :=
  if last then r else strip_status r.

Lemma strip_status_prefix r :
  2 < Z.of_nat (length r) →
  ∃ tl, r = strip_status r ++ tl
        ∧ Z.of_nat (length (strip_status r)) = Z.of_nat (length r) - 2.
Proof.
  intros Hl. unfold strip_status. rewrite (proj2 (Z.ltb_lt _ _) Hl).
  exists (drop (length r - 2) r). rewrite take_drop, length_take. split; [done|lia].
Qed.

Lemma reply_part_u8 last r : Forall is_u8 r → Forall is_u8 (reply_part last r).
Proof.
  intros H. unfold reply_part, strip_status. destruct last; [done|].
  destruct (2 <? _); [by apply Forall_take|apply Forall_nil_2].
Qed.

(** What happens to the response of one command. *)
Lemma keep_response h1 h w p p0 w0 total nds full rb r (last : bool) :
  collected h1 w0 p0 total nds full →
  next_block h1 <= rb < next_block h →
  exch_heap (next_block h) pb (<[rb := r]> (with_nodes full base)) h [] →
  t1_idle pb p (w_card w) → Forall is_u8 r →
  Z.of_nat (length (payload nds ++ reply_part last r)) <= KMALLOC_MAX_SIZE →
  ∃ total' h' nds' full',
    (if negb last then store_short total (mkData (Ptr rb 0) (Z.of_nat (length r)))
     else ese_data_store total (Ptr rb 0) (Z.of_nat (length r)) false)
      (mkSnvm h w p s)
    = Ret ((ESESTATUS_SUCCESS, total'), mkSnvm h' w p s)
    ∧ collected h' w p total' nds' full'
    ∧ payload nds' = payload nds ++ reply_part last r.
Proof.
  intros Hc Hrb Hh Hid Hr Hmax.
  assert (∀ c, payload (nds ++ [(rb, c)]) = payload nds ++ c) as Hpay.
  { intros c. unfold payload. rewrite fmap_app, concat_app. cbn. by rewrite app_nil_r. }
  destruct last; cbn [negb reply_part] in *.
  - destruct (collect h1 h w p p0 w0 total nds full rb r [])
      as (total' & Hst & Hc'); try done; [by rewrite app_nil_r|].
    eexists total', h, _, _. split_and!; [exact Hst|exact Hc'|]. by apply Hpay.
  - unfold store_short. cbn [ed_size ed_data].
    destruct (Z.ltb_spec 2 (Z.of_nat (length r))) as [Hlt|Hge].
    + destruct (strip_status_prefix r Hlt) as (tl & Htl & Hlen).
      rewrite <-Hlen. rewrite Htl in Hh.
      destruct (collect h1 h w p p0 w0 total nds full rb (strip_status r) tl)
        as (total' & Hst & Hc'); try done; [by apply (reply_part_u8 false)|].
      eexists total', h, _, _. split_and!; [exact Hst|exact Hc'|]. by apply Hpay.
    + destruct (discard h1 h w p p0 w0 total nds full rb r) as (h' & Hfree & Hc'); try done.
      exists total, h', nds, full. split_and!; [by erewrite bind_ret by exact Hfree|done|].
      unfold strip_status. rewrite (proj2 (Z.ltb_ge _ _)) by lia. by rewrite app_nil_r.
Qed.

(** One command of the chain, from the label [again] on. *)
Lemma chain_command_ok h w p total nds full fuel (last : bool) c o p_cmd cmd_size :
  collected h w p total nds full → answers fuel c → 0 <= o →
  o + Z.of_nat (length c) <= Z.of_nat (length dl) →
  take (length c) (drop (Z.to_nat o) dl) = c →
  Z.of_nat (length (payload nds ++ reply_part last (apdu c))) <= KMALLOC_MAX_SIZE →
  ∃ h' w' p' total' nds' full',
    chain_command fuel last (mkData (Ptr cb o) (Z.of_nat (length c))) p_cmd cmd_size 0
      (mkData NULL 0) total (mkSnvm h w p s)
    = Ret (Next p_cmd cmd_size total', mkSnvm h' w' p' s)
    ∧ collected h' w' p' total' nds' full'
    ∧ payload nds' = payload nds ++ reply_part last (apdu c) ∧ w_user w' = w_user w.
Proof.
  intros Hc [Hu8 Hne Hr8 Hrsz Hf] Ho Hin Hcmd Hmax.
  destruct fuel as [|fuel]; [lia|].
  pose proof (co_nb _ _ _ _ _ _ Hc) as Hnb.
  assert (0 < length c)%nat by (destruct c; [done|simpl; lia]).
  destruct (exchange_ok apdu ifs k s Hs (next_block h) pb (with_nodes full base) h w p cb o
              (Z.of_nat (length c)) dl fuel)
    as (m1 & h1 & w1 & p1 & rb & Hsend & Hrcv & Hrb & Hh1 & Hid1 & Hu1);
    rewrite ?Nat2Z.id, ?Hcmd; try done; try lia; try apply Hc.
  { rewrite with_nodes_lookup_ne; [done|]. eapply co_fresh; [exact Hc|]. by left. }
  rewrite Nat2Z.id, Hcmd in Hrcv, Hh1.
  destruct (keep_response h h1 w1 p1 p w total nds full rb (apdu c) last)
    as (total' & h2 & nds' & full' & Hst & Hc2 & Hpay); try done.
  exists h2, w1, p1, total', nds', full'. split_and!; [|done..].
  simpl chain_command. erewrite bind_ret by exact Hsend. cbv beta.
  change (negb (ESESTATUS_SUCCESS =? ESESTATUS_SUCCESS)) with false. cbv iota.
  erewrite bind_ret by exact Hrcv. cbv beta iota.
  change (negb (ESESTATUS_SUCCESS =? ESESTATUS_SUCCESS)) with false. cbv iota.
  cbn [ed_data ed_size].
  erewrite bind_ret by exact Hst. cbv beta iota.
  by change (negb (ESESTATUS_SUCCESS =? ESESTATUS_SUCCESS)) with false.
Qed.

(** Its header is parsed and its size checked. *)
Lemma chain_body_ok h w p total fuel i num o cmd_size c rest :
  blocks h !! cb = Some dl → 0 <= o → is_u32 i → c ≠ [] →
  drop (Z.to_nat o) dl = encode_cmd i c ++ rest →
  cmd_size = Z.of_nat (length (encode_cmd i c ++ rest)) →
  chain_body fuel i num (Ptr cb o) cmd_size total (mkSnvm h w p s)
  = chain_command fuel (i =? num - 1) (mkData (Ptr cb (o + 12)) (Z.of_nat (length c)))
      (Ptr cb (o + 12 + Z.of_nat (length c))) (Z.of_nat (length rest)) 0 (mkData NULL 0)
      total (mkSnvm h w p s).
Proof.
  intros Hb Ho Hi Hne Hd Hsz.
  assert (0 < length c)%nat by (destruct c; [done|simpl; lia]).
  pose proof (f_equal length Hd) as HL. rewrite length_drop in HL.
  rewrite length_app, length_encode_cmd in HL, Hsz.
  assert (is_u32 (Z.of_nat (length c))) as Hc32 by (unfold is_u32; lia).
  assert (∀ j, (j ≤ Z.to_nat o + 12)%nat → (Z.to_nat o ≤ j)%nat →
    drop j dl = drop (j - Z.to_nat o) (encode_cmd i c ++ rest)) as Hdr.
  { intros j _ Hj. rewrite <-Hd, drop_drop. f_equal. lia. }
  unfold chain_body. rewrite (proj2 (Z.leb_gt _ _)) by (unfold APDU_CHAIN_HEADER_SIZE; lia).
  erewrite bind_ret by (eapply load_be32_ok; [done|done|exact Hd|done]).
  cbv beta. cbn [ptr_add]. change APDU_CHAIN_SEQ_SIZE with 4.
  rewrite Z.eqb_refl. cbn [negb]. cbv iota.
  erewrite bind_ret.
  2:{ eapply (load_be32_ok _ _ _ _ _ (o + 4)); [done|lia| |exact Hc32].
      rewrite Hdr by lia. replace (Z.to_nat (o + 4) - Z.to_nat o)%nat with 4%nat by lia.
      reflexivity. }
  cbv beta. change APDU_CHAIN_CMD_SIZE with 4.
  erewrite bind_ret.
  2:{ eapply (load_be32_ok _ _ _ _ _ (o + 4 + 4) dl 0); [done|lia| |done].
      rewrite Hdr by lia. replace (Z.to_nat (o + 4 + 4) - Z.to_nat o)%nat with 8%nat by lia.
      reflexivity. }
  cbv beta zeta. change APDU_CHAIN_EXP_SIZE with 4. change APDU_CHAIN_HEADER_SIZE with 12.
  rewrite Z.add_0_r, u32_id by done.
  rewrite (proj2 (Z.ltb_ge _ _)) by lia. rewrite Z.ltb_irrefl. cbn [orb]. cbv iota.
  replace (o + 4 + 4 + 4) with (o + 12) by lia.
  by replace (cmd_size - 12 - Z.of_nat (length c)) with (Z.of_nat (length rest)) by lia.
Qed.

Lemma reply_part_cons c cs :
  reply_part (length cs =? 0)%nat (apdu c) ++ chain_reply apdu cs = chain_reply apdu (c :: cs).
Proof. destruct cs; [apply app_nil_r|done]. Qed.

Lemma chain_loop_ok cs : ∀ h w p total nds full fuel i num o cmd_size,
  collected h w p total nds full → (∀ c, c ∈ cs → answers fuel c) → 0 <= o →
  drop (Z.to_nat o) dl = encode_cmds i cs → cmd_size = Z.of_nat (length (encode_cmds i cs)) →
  0 <= i → i + Z.of_nat (length cs) = num → num <= APDU_CHAIN_MAX_SIZE →
  Z.of_nat (length (payload nds ++ chain_reply apdu cs)) <= KMALLOC_MAX_SIZE →
  ∃ h' w' p' total' nds' full',
    chain_loop fuel (length cs) i num (Ptr cb o) cmd_size total (mkSnvm h w p s)
    = Ret (Exit total', mkSnvm h' w' p' s)
    ∧ collected h' w' p' total' nds' full'
    ∧ payload nds' = payload nds ++ chain_reply apdu cs ∧ w_user w' = w_user w.
Proof.
  induction cs as [|c cs IH];
    intros h w p total nds full fuel i num o cmd_size Hc Han Ho Hd Hsz Hi Hnum Hn257 Hmax.
  { exists h, w, p, total, nds, full. cbn. rewrite app_nil_r. by split_and!. }
  unfold APDU_CHAIN_MAX_SIZE in *.
  assert (answers fuel c) as Hanc by (apply Han; by left).
  cbn [length encode_cmds] in *.
  assert ((i =? num - 1) = (length cs =? 0)%nat) as Hlast.
  { destruct cs; [apply Z.eqb_eq|apply Z.eqb_neq]; simpl in *; lia. }
  rewrite <-reply_part_cons, app_assoc in Hmax.
  pose proof (f_equal length Hd) as HL.
  rewrite length_drop, length_app, length_encode_cmd in HL.
  assert (drop (Z.to_nat (o + 12)) dl = c ++ encode_cmds (i + 1) cs) as Hd12.
  { rewrite Z2Nat.inj_add, <-drop_drop, Hd by lia. done. }
  pose proof (an_ne _ _ Hanc) as Hne.
  assert (0 < length c)%nat by (destruct c; [done|simpl; lia]).
  destruct (chain_command_ok h w p total nds full fuel (i =? num - 1) c (o + 12)
              (Ptr cb (o + 12 + Z.of_nat (length c))) (Z.of_nat (length (encode_cmds (i + 1) cs))))
    as (h1 & w1 & p1 & t1 & nds1 & full1 & Hrun & Hc1 & Hpay1 & Hu1); try done; try lia.
  { by rewrite Hd12, take_app_length. }
  { rewrite Hlast. rewrite length_app in Hmax. lia. }
  rewrite Hlast in Hpay1.
  destruct (IH h1 w1 p1 t1 nds1 full1 fuel (i + 1) num (o + 12 + Z.of_nat (length c))
              (Z.of_nat (length (encode_cmds (i + 1) cs))))
    as (h2 & w2 & p2 & t2 & nds2 & full2 & Hrun2 & Hc2 & Hpay2 & Hu2); try done; try lia.
  { intros. apply Han. by right. }
  { rewrite Z2Nat.inj_add, <-drop_drop, Hd12, Nat2Z.id by lia. by rewrite drop_app_length. }
  { by rewrite Hpay1. }
  exists h2, w2, p2, t2, nds2, full2. split_and!; [|done| |congruence].
  - simpl chain_loop. erewrite bind_ret; cbv beta.
    2:{ etransitivity; [|exact Hrun].
    apply (chain_body_ok _ _ _ _ _ _ _ _ _ c (encode_cmds (i + 1) cs)); try done.
    + pose proof (co_fresh _ _ _ _ _ _ cb Hc (or_introl Hcb1)) as Hcfr.
      destruct Hc as [Hh _ _ _ _ _ Hnb].
      rewrite (eh_lookup_base _ _ _ _ _ cb Hh) by (done || lia).
      by rewrite with_nodes_lookup_ne.
    + unfold is_u32. lia. }
    exact Hrun2.
  - by rewrite Hpay2, Hpay1, <-app_assoc, reply_part_cons.
Qed.

(** The collected packets become one buffer. *)
Lemma get_collected h w p total nds full out :
  collected h w p total nds full →
  0 < Z.of_nat (length (payload nds)) <= KMALLOC_MAX_SIZE →
  ∃ rb l,
    ese_data_get total (Some out) (mkSnvm h w p s)
    = Ret ((ESESTATUS_SUCCESS, mkList 0 [],
            Some (mkData (Ptr rb 0) (Z.of_nat (length (payload nds))))),
           mkSnvm (mkHeap (<[rb := payload nds]> (<[pb := l]> base)) (rb + 1)) w p s)
    ∧ nb1 <= rb ∧ length l = 260%nat.
Proof.
  intros Hc Hsz. pose proof (co_fresh _ _ _ _ _ _ pb Hc (or_introl Hpb1)) as Hpbf.
  destruct Hc as [Hh _ -> Hf Hnd Hrg Hnb].
  destruct (eh_buf _ _ _ _ _ Hh) as (l & Hl & Hb). cbn in Hb.
  exists (next_block h), l. split_and!; [|done|done].
  rewrite with_nodes_insert in Hb by done. destruct h as [bl nb]. cbn in *. subst bl.
  apply (ese_data_get_ok nds full (<[pb := l]> base) nb); try done.
  - intros. by apply alloc_card.
  - intros n Hn. destruct (Hrg n Hn) as [? ?]. split_and!; [lia| |done].
    rewrite lookup_insert_ne by lia. apply Hbase. lia.
Qed.

Lemma transceive_ok h w p cs fuel out :
  exch_heap nb1 pb base h [] → t1_idle pb p (w_card w) →
  (∀ c, c ∈ cs → answers fuel c) → dl = encode_chain cs →
  1 <= Z.of_nat (length cs) <= APDU_CHAIN_MAX_SIZE →
  0 < Z.of_nat (length (chain_reply apdu cs)) <= KMALLOC_MAX_SIZE →
  ∃ w' p' rb l,
    star_transceive fuel true (Ptr cb 0) (Z.of_nat (length dl)) out (mkSnvm h w p s)
    = Ret ((0, mkData (Ptr rb 0) (Z.of_nat (length (chain_reply apdu cs)))),
           mkSnvm (mkHeap (<[rb := chain_reply apdu cs]> (<[pb := l]> base)) (rb + 1))
                  w' p' s)
    ∧ nb1 <= rb ∧ length l = 260%nat ∧ t1_idle pb p' (w_card w').
Proof.
  intros Hh Hid Han Henc Hn Hsz. unfold APDU_CHAIN_MAX_SIZE in Hn.
  assert (length dl = 4 + length (encode_cmds 0 cs))%nat as HL by (by rewrite Henc).
  assert (blocks h !! cb = Some dl) as Hbl by (by rewrite (eh_lookup_base _ _ _ _ _ _ Hh)).
  assert (collected h w p (mkList 0 []) [] []) as Hc0.
  { pose proof (eh_nb _ _ _ _ _ Hh). destruct Hh as [? ? ? ? ? ?]. split;
      try done; try apply NoDup_nil_2; try (by intros n Hin%elem_of_nil).
    split; cbn; auto; try lia; [intros b Hb; apply Hbase; lia|].
    by intros n Hin%elem_of_nil. }
  destruct (chain_loop_ok cs h w p (mkList 0 []) [] [] fuel 0 (Z.of_nat (length cs)) 4
              (Z.of_nat (length dl) - 4))
    as (h1 & w1 & p1 & t1 & nds & full & Hrun & Hc1 & Hpay & _); try done; try lia.
  { by rewrite Henc. }
  { unfold APDU_CHAIN_MAX_SIZE. lia. }
  { unfold payload. cbn [fmap list_fmap concat app]. lia. }
  change (payload [] ++ ?x) with x in Hpay.
  destruct (get_collected h1 w1 p1 t1 nds full out Hc1) as (rb & l & Hget & Hrb & Hl);
    [by rewrite Hpay|].
  rewrite Hpay in Hget. exists w1, p1, rb, l. split_and!; [|done|done|by destruct Hc1].
  unfold star_transceive. cbn [negb is_null orb].
  rewrite (proj2 (Z.eqb_neq _ _)) by lia.
  rewrite (proj2 (Z.ltb_ge _ _)) by (unfold APDU_CHAIN_NUM_SIZE; lia).
  erewrite bind_ret.
  2:{ eapply (load_be32_ok _ _ _ _ _ 0 dl (Z.of_nat (length cs)) (encode_cmds 0 cs));
        [done|done| |unfold is_u32; lia]. by rewrite Henc. }
  cbv beta zeta. rewrite (proj2 (Z.eqb_neq _ _)) by lia.
  rewrite (proj2 (Z.ltb_ge _ _)) by (unfold APDU_CHAIN_MAX_SIZE; lia).
  cbn [orb]. rewrite Nat2Z.id. cbn [ptr_add ese_data_init snd].
  change (0 + APDU_CHAIN_NUM_SIZE) with 4. change APDU_CHAIN_NUM_SIZE with 4.
  erewrite bind_ret by exact Hrun. cbv beta iota.
  by erewrite bind_ret by exact Hget.
Qed.
End chain.

(** ** The character device *)

(** The device between two requests: the protocol is idle and in step with the
    card, no response is waiting, and the protocol's buffer is block [pb]. *)
Record device_ready (pb : Z) (m : snvm card_world) : Prop := {
  dv_hal : ∃ k, star_hal (star m) = Some (mkHal true (Some k));
  dv_proto : star_protocol (star m) = true;
  dv_rsp : rsp (star m) = NULL;
  dv_rsp_size : rsp_size (star m) = 0;
  dv_direct : direct (star m) = 0;
  dv_t1 : t1_idle pb (proto m) (w_card (world m));
  dv_wf : heap_wf (hp m);
  dv_buf : ∃ l, blocks (hp m) !! pb = Some l ∧ length l = 260%nat }.

Section device.
Variable apdu : list Z → list Z.
Variable ifs : nat.
#[local] Instance device_env : SnvmEnv card_world := card_env apdu ifs.
Hypothesis Hifs : (1 ≤ ifs ≤ 255)%nat.

(** The command buffer is allocated and filled. *)
Lemma cmd_buffer_ok h w p s cmd user :
  heap_wf h → w_user w = user → Forall is_u8 user → cmd = Z.of_nat (length user) →
  cmd <= KMALLOC_MAX_SIZE →
  ESE_MALLOC cmd (mkSnvm h w p s)
    = Ret (Ptr (next_block h) 0,
           mkSnvm (hset (bump h) (next_block h) (replicate (Z.to_nat cmd) 0)) w p s)
  ∧ store (Ptr (next_block h) 0) (take (Z.to_nat cmd) user)
      (mkSnvm (hset (bump h) (next_block h) (replicate (Z.to_nat cmd) 0)) w p s)
    = Ret (tt, mkSnvm (hset (bump h) (next_block h) user) w p s).
Proof.
  intros Hwf Hu Hu8 Hc Hmax. split.
  - apply ESE_MALLOC_ok. by apply alloc_card.
  - rewrite take_ge by lia.
    erewrite store_ok; [|apply hset_lookup|lia|rewrite length_replicate; lia|done].
    rewrite hset_twice. unfold splice. rewrite take_0, drop_ge by (rewrite length_replicate; lia).
    by rewrite app_nil_l, app_nil_r.
Qed.

Lemma dev_write_ok pb m cs fuel :
  device_ready pb m → w_user (world m) = encode_chain cs →
  (∀ c, c ∈ cs → answers apdu ifs fuel c) →
  1 <= Z.of_nat (length cs) <= APDU_CHAIN_MAX_SIZE →
  Z.of_nat (length (encode_chain cs)) <= KMALLOC_MAX_SIZE →
  0 < Z.of_nat (length (chain_reply apdu cs)) <= KMALLOC_MAX_SIZE →
  ∃ w' p' rb l,
    star_dev_write fuel (Z.of_nat (length (encode_chain cs))) m
    = Ret (Z.of_nat (length (encode_chain cs)),
           mkSnvm (mkHeap (<[rb := chain_reply apdu cs]> (<[pb := l]> (blocks (hp m))))
                          (rb + 1)) w' p'
             (((star m) <| rsp := Ptr rb 0 |>)
                <| rsp_size := Z.of_nat (length (chain_reply apdu cs)) |>))
    ∧ next_block (hp m) < rb ∧ length l = 260%nat ∧ t1_idle pb p' (w_card w').
Proof.
  destruct m as [h w p s]. intros [[k Hs] Hpr Hrsp Hrs Hdir Hid Hwf (l & Hl & Hll)] Hu Han Hn Hmax Hsz.
  cbn [hp world proto star] in *. set (user := encode_chain cs) in *.
  assert (0 < length user)%nat as Hpos by (unfold user, encode_chain; simpl; lia).
  assert (Forall is_u8 user) as Hu8.
  { unfold user, encode_chain. apply Forall_app. split; [apply be32_u8|].
    apply encode_cmds_u8. intros c Hc. apply (Han c Hc). }
  destruct (cmd_buffer_ok h w p s _ user Hwf Hu Hu8 eq_refl Hmax) as [Hmal Hst].
  unfold KMALLOC_MAX_SIZE in Hmax.
  pose proof (heap_wf_live _ _ _ Hwf Hl) as Hpb.
  set (cb := next_block h) in *. set (h0 := hset (bump h) cb user) in *.
  destruct (transceive_ok apdu ifs k s Hs Hifs (cb + 1) pb cb (<[cb := user]> (blocks h)) user)
    with (h := h0) (w := w) (p := p) (cs := cs) (fuel := fuel) (out := mkData NULL 0)
    as (w' & p' & rb & l' & Hrun & Hrb & Hl' & Hid'); try done; try lia.
  { apply lookup_insert_eq. }
  { intros b Hb. rewrite lookup_insert_ne by lia. apply Hwf. unfold cb in Hb. lia. }
  { split; cbn; [|lia|lia| |apply NoDup_nil_2|by intros n Hin%elem_of_nil].
    - exists l. split; [done|]. rewrite insert_insert_ne by lia. by rewrite (insert_id _ pb l).
    - intros b Hb. rewrite lookup_insert_ne by lia. apply Hwf. unfold cb in Hb. lia. }
  exists w', p', rb, l'. split_and!; [|lia|done|done].
  unfold star_dev_write. rewrite (proj2 (Z.eqb_neq _ _)) by lia.
  erewrite bind_ret by apply get_star_eq. cbv beta. rewrite Hrsp. cbn [is_null negb andb].
  erewrite bind_ret by reflexivity. cbv beta zeta.
  rewrite u32_id by (unfold is_u32; lia).
  erewrite bind_ret by exact Hmal. cbv beta. cbn [is_null].
  erewrite bind_ret by reflexivity. cbv beta iota. cbn [world].
  rewrite Nat2Z.id, take_ge in Hst by lia.
  rewrite Hu, Nat2Z.id, (take_ge user), (take_ge user) by lia.
  change (?x <| world := ?v |>) with (mkSnvm (hp x) v (proto x) (star x)).
  cbn [hp world proto star].
  erewrite bind_ret by exact Hst. cbv beta. run_t1. rewrite Hdir, Hpr.
  change (0 <? 0) with false. cbv iota.
  erewrite bind_ret by exact Hrun. cbv beta iota. cbn [ed_data ed_size].
  change (negb (0 =? ESESTATUS_SUCCESS)) with false. cbv iota.
  erewrite bind_ret by reflexivity. cbv beta.
  change (?x <| star ::= ?f |>) with (mkSnvm (hp x) (world x) (proto x) (f (star x))).
  cbn [hp world proto star].
  erewrite bind_ret.
  2:{ eapply (ESE_FREE_ok _ _ _ _ cb user). cbn.
      rewrite !lookup_insert_ne by lia. apply lookup_insert_eq. }
  cbv beta. rewrite s32_id by lia. cbn [blocks next_block].
  rewrite delete_insert_ne, delete_insert_ne, delete_insert_id; [done| |lia|lia].
  apply Hwf. unfold cb. lia.
Qed.

(** Reading the whole response hands it out and forgets it. *)
Lemma dev_read_ok H nb w p s rb r :
  rsp s = Ptr rb 0 → rsp_size s = Z.of_nat (length r) → direct s = 0 →
  (0 < length r)%nat → H !! rb = None →
  star_dev_read (Z.of_nat (length r)) (mkSnvm (mkHeap (<[rb := r]> H) nb) w p s)
  = Ret ((Z.of_nat (length r), r),
         mkSnvm (mkHeap H nb) w p ((s <| rsp := NULL |>) <| rsp_size := 0 |>)).
Proof.
  intros Hr Hsz Hd Hpos Hnone. unfold star_dev_read.
  rewrite (proj2 (Z.eqb_neq _ _)) by lia. run_t1. rewrite Hd, Hr, Hsz.
  change (0 <? 0) with false. cbn [is_null orb].
  rewrite (proj2 (Z.eqb_neq _ _)) by lia. rewrite Z.eqb_refl. cbn [negb]. cbv iota.
  erewrite bind_ret by (eapply load_ok; [apply lookup_insert_eq|lia..]).
  cbv beta. rewrite drop_0, take_ge by lia.
  erewrite bind_ret by reflexivity. cbv beta.
  change (?x <| world := ?v |>) with (mkSnvm (hp x) v (proto x) (star x)).
  cbn [hp world proto star].
  erewrite bind_ret.
  2:{ unfold drop_rsp. run_t1. rewrite Hr.
      erewrite bind_ret by (eapply ESE_FREE_ok, lookup_insert_eq). cbv beta.
      cbn [blocks next_block]. rewrite delete_insert_id by done. reflexivity. }
  done.
Qed.
End device.
