(* ===== verification/T1Inv.v ===== *)
(** Bounds that hold of the T=1 protocol state whatever the card, the bus or the
    allocator do. *)
From S2P Require Import Prelude SnvmState EseData IsoT1 IsoCard SecStar SnvmFacts IsoExchange.

(** The I-frame fields: a piece fits the frame, the sequence number is a bit. *)
Definition piece_ok (f : iframe_info) : Prop :=
  0 <= i_send_size f <= PROTOCOL_SEND_SIZE ∧ 0 <= i_total_size f ∧ is_bit (i_seq_no f).

Record t1_inv (p : iso7816_t1) : Prop := {
  ti_rnack : 0 <= rnack_counter p <= PROTOCOL_MAX_RNACK_RETRY_LIMIT;
  ti_timeout : 0 <= timeout_counter p <= PROTOCOL_TIMEOUT_RETRY_COUNT;
  ti_recovery : 0 <= recovery_counter p <= PROTOCOL_FRAME_RETRY_COUNT;
  ti_last : piece_ok (iframe (last_tx p));
  ti_next : piece_ok (iframe (next_tx p));
  ti_rx : is_bit (i_seq_no (iframe (last_rx p))) }.

Lemma is_bit_flip z : is_bit z → is_bit (Z.lxor z 1).
Proof. intros [-> | ->]; [by right|by left]. Qed.

(** Functions on the protocol structure that keep the bounds. *)
Definition keeps (f : iso7816_t1 → iso7816_t1) : Prop := ∀ p, t1_inv p → t1_inv (f p).

Ltac keep :=
  let p := fresh "p" in let H := fresh "H" in
  intros p H; destruct H as [? ? ? (? & ? & ?) (? & ? & ?) ?];
  unfold PROTOCOL_MAX_RNACK_RETRY_LIMIT, PROTOCOL_TIMEOUT_RETRY_COUNT,
    PROTOCOL_FRAME_RETRY_COUNT, PROTOCOL_SEND_SIZE, piece_ok in *;
  cbn in *;
  repeat match goal with
  | |- context [if ?b then _ else _] => destruct b eqn:?
  | |- context [match ?b with _ => _ end] => destruct b eqn:?
  end;
  split; cbn; rewrite ?Z.ltb_lt, ?Z.ltb_ge in *;
  unfold piece_ok, PROTOCOL_MAX_RNACK_RETRY_LIMIT, PROTOCOL_TIMEOUT_RETRY_COUNT,
    PROTOCOL_FRAME_RETRY_COUNT, PROTOCOL_SEND_SIZE; cbn;
  try rewrite !u32_id by (unfold is_u32; lia);
  try split_and!; try lia; try assumption;
  try (by apply is_bit_flip); try apply ESE_BIT_01; try (by right); try (by left).

Lemma keeps_reset : keeps iso7816_t1_reset_params.
Proof. unfold iso7816_t1_reset_params. keep. Qed.
Lemma keeps_next_iframe : keeps iso7816_t1_next_iframe.
Proof. unfold iso7816_t1_next_iframe. keep. Qed.
Lemma keeps_finish_recovery : keeps iso7816_t1_finish_recovery.
Proof. unfold iso7816_t1_finish_recovery. keep. Qed.
Lemma keeps_copy_last_to_next : keeps copy_last_to_next.
Proof. keep. Qed.
Lemma keeps_copy_next_to_last : keeps copy_next_to_last.
Proof. keep. Qed.
Lemma keeps_set_rframe err : keeps (set_rframe err).
Proof. keep. Qed.
Lemma keeps_respond_sframe req rs : keeps (respond_sframe req rs).
Proof. keep. Qed.
Lemma keeps_finish_sframe rs : keeps (finish_sframe rs).
Proof. keep. Qed.
Lemma keeps_rnack_or_idle err : keeps (rnack_or_idle err).
Proof. unfold rnack_or_idle. keep. Qed.
Lemma keeps_rnack_or_idle_to err : keeps (rnack_or_idle_to err).
Proof. unfold rnack_or_idle_to, rnack_or_idle. keep. Qed.
Lemma keeps_process_no_block st : keeps (process_no_block st).
Proof. unfold process_no_block, rnack_or_idle_to, rnack_or_idle. keep. Qed.
Lemma keeps_resend : keeps resend_after_rnack.
Proof. unfold resend_after_rnack. keep. Qed.

(** What is retried leaves the retry counter alone. *)
Definition keeps_count (k : iso7816_t1 → iso7816_t1) : Prop :=
  ∀ p, recovery_counter (k p) = recovery_counter p.

Lemma keeps_recover k : keeps k → keeps_count k → keeps (recover k).
Proof.
  intros Hk Hc p H. unfold recover.
  destruct (Z.ltb_spec (recovery_counter p) PROTOCOL_FRAME_RETRY_COUNT);
    [|by apply keeps_finish_recovery].
  specialize (Hk p H). specialize (Hc p). destruct Hk as [? ? ? ? ? ?].
  destruct H as [_ _ Hr _ _ _]. unfold PROTOCOL_FRAME_RETRY_COUNT in *.
  split; cbn; try done. rewrite Hc, u32_id by (unfold is_u32; lia).
  unfold PROTOCOL_FRAME_RETRY_COUNT. lia.
Qed.

Lemma keeps_count_resend : keeps_count resend_after_rnack.
Proof.
  intros p. unfold resend_after_rnack. destruct (f_type (last_tx p)); try done.
  repeat match goal with |- context [if ?b then _ else _] => destruct b end; done.
Qed.

Lemma keeps_count_set_rframe err : keeps_count (set_rframe err).
Proof. by intros p. Qed.
Lemma keeps_count_copy : keeps_count copy_last_to_next.
Proof. by intros p. Qed.

Lemma keeps_decode_rframe pcb : keeps (decode_rframe pcb).
Proof.
  intros p Hp. unfold decode_rframe.
  set (p1 := p <| wtx_counter := 0 |> <| last_rx .: f_type := FRAME_RFRAME |>
               <| last_rx .: rframe .: r_seq_no := ESE_BIT pcb 4 |>).
  assert (t1_inv p1) as H1 by (revert p Hp p1; keep).
  assert (∀ e, t1_inv (p1 <| last_rx .: rframe .: r_error := e |>)) as H2.
  { intros e. generalize p1 H1. keep. }
  destruct ((ESE_BIT pcb 0 =? 0) && (ESE_BIT pcb 1 =? 0)).
  { destruct (negb _).
    - apply keeps_next_iframe. generalize p1 H1. keep.
    - generalize p1 H1. keep. }
  destruct (_ || _).
  { apply keeps_recover; [apply keeps_resend|apply keeps_count_resend|apply H2]. }
  destruct (_ && _); (apply keeps_recover; [|by intros ?|done]); keep.
Qed.

Create HintDb keeps.
#[export] Hint Resolve keeps_reset keeps_next_iframe keeps_finish_recovery
  keeps_copy_last_to_next keeps_copy_next_to_last keeps_set_rframe keeps_respond_sframe
  keeps_finish_sframe keeps_rnack_or_idle keeps_rnack_or_idle_to keeps_process_no_block
  keeps_resend keeps_decode_rframe keeps_recover keeps_count_resend
  keeps_count_set_rframe keeps_count_copy : keeps.

Section inv.
Context {W : Type} `{!SnvmEnv W}.
Abbreviation M := (M (snvm W)).

(** The bounds as a preorder on machine states. *)
Definition dev_inv (m : snvm W) : Prop :=
  t1_inv (proto m) ∧ (access (star m) = 0 ∨ access (star m) = 1).
Definition keeps_inv (m m' : snvm W) : Prop := dev_inv m → dev_inv m'.
#[export] Instance keeps_inv_preorder : PreOrder keeps_inv.
Proof. unfold keeps_inv. split; [by intros m|]. intros m1 m2 m3 H1 H2 H. auto. Qed.

(** An action that touches neither the protocol structure nor the device's. *)
Definition same_proto (m m' : snvm W) : Prop := proto m = proto m' ∧ star m = star m'.
#[export] Instance same_proto_preorder : PreOrder same_proto.
Proof.
  unfold same_proto. split; [by intros m|]. by intros m1 m2 m3 [-> ->] [-> ->].
Qed.
Abbreviation framed m := (respects same_proto m).
Lemma framed_keeps {A} (m : M A) : framed m → respects keeps_inv m.
Proof.
  intros H x a y Hr Hi. destruct (H _ _ _ Hr) as [H1 H2]. unfold dev_inv. by rewrite <-H1, <-H2.
Qed.

Lemma framed_env {A} (f : W → A * W) : framed (env f).
Proof. unfold same_proto; intros m a m'. unfold env. destruct (f (world m)). by intros [= _ <-]. Qed.
Lemma framed_load q n : framed (load q n).
Proof. unfold same_proto; intros m a m'. unfold load. destruct (read_bytes _ _ _); [|done]. by intros [= _ <-]. Qed.
Lemma framed_store q bs : framed (store q bs).
Proof. unfold same_proto; intros m a m'. unfold store. destruct (write_bytes _ _ _); [|done]. by intros [= _ <-]. Qed.
Lemma framed_new_block bs : framed (new_block bs).
Proof. unfold same_proto; intros m a m'. unfold new_block. by intros [= _ <-]. Qed.
Lemma framed_free q : framed (ESE_FREE q).
Proof.
  destruct q as [|b o]; [unfold same_proto; by intros m a m' [= _ <-]|]. unfold same_proto; intros m a m'. unfold ESE_FREE.
  destruct (blocks (hp m) !! b); [|done]. destruct (o =? 0); [|done]. by intros [= _ <-].
Qed.
Hint Resolve framed_env framed_load framed_store framed_new_block framed_free : resp.

Lemma framed_malloc n : framed (ESE_MALLOC n).
Proof. unfold ESE_MALLOC. resp. Qed.
Lemma framed_malloc_node : framed malloc_node.
Proof. unfold malloc_node. resp. Qed.
Lemma framed_load8 q i : framed (load8 q i).
Proof. unfold load8. resp. Qed.
Lemma framed_store8 q i v : framed (store8 q i v).
Proof. unfold store8. resp. Qed.
Lemma framed_memcpy q r n : framed (memcpy q r n).
Proof. unfold memcpy. resp. Qed.
Lemma framed_udelay n : framed (udelay n).
Proof. unfold udelay. resp. Qed.
Hint Resolve framed_malloc framed_malloc_node framed_load8 framed_store8 framed_memcpy
  framed_udelay : resp.

Lemma framed_hal_send c q n : framed (ese_hal_send c q n).
Proof. unfold ese_hal_send, ese_i2c_send, ese_spi_send. resp. Qed.
Lemma framed_hal_receive c q n : framed (ese_hal_receive c q n).
Proof. unfold ese_hal_receive, ese_i2c_receive, ese_spi_receive. resp. Qed.
Lemma framed_get_star : framed get_star.
Proof. unfold get_star. resp. Qed.
Lemma framed_get_t1 : framed get_t1.
Proof. unfold get_t1. resp. Qed.
Hint Resolve framed_hal_send framed_hal_receive framed_get_star framed_get_t1 : resp.

Lemma framed_receive q n : framed (hal_receive q n).
Proof. unfold hal_receive. resp. Qed.
Lemma framed_send_bytes bs : framed (hal_send_bytes bs).
Proof. unfold hal_send_bytes. resp. Qed.
Hint Resolve framed_receive framed_send_bytes : resp.

Lemma framed_poll n : framed (poll_address n).
Proof. induction n as [|n IH]; simpl; resp. Qed.
Hint Resolve framed_poll : resp.
Lemma framed_receive_block : framed receive_block.
Proof. unfold receive_block. resp. Qed.
Lemma framed_check_lrc q n : framed (iso7816_t1_check_lrc q n).
Proof. unfold iso7816_t1_check_lrc, iso7816_t1_compute_lrc. resp. Qed.
Lemma framed_data_store hd q n c : framed (ese_data_store hd q n c).
Proof. unfold ese_data_store. resp. Qed.
Lemma framed_copy_nodes l q n : framed (copy_nodes l q n).
Proof. revert n. induction l as [|x l IH]; intros n; simpl; resp. Qed.
Lemma framed_free_nodes l : framed (free_nodes l).
Proof. induction l as [|x l IH]; simpl; resp. Qed.
Hint Resolve framed_receive_block framed_check_lrc framed_data_store framed_copy_nodes
  framed_free_nodes : resp.
Lemma framed_data_get hd out : framed (ese_data_get hd out).
Proof. unfold ese_data_get, ese_data_delete_list, ese_data_get_from_list. resp. Qed.
Hint Resolve framed_data_get : resp.

(** ** The protocol's own steps *)

Lemma inv_mod f : keeps f → respects keeps_inv (mod_t1 f).
Proof. intros H m a m' [= _ <-] [Hi Ha]. split; [by apply H|done]. Qed.
Hint Resolve framed_keeps : resp.

Ltac keep_prog :=
  repeat first [ solve [eauto 3 with resp] | resp_step
               | apply inv_mod; first
                   [ solve [eauto with keeps] | solve [keep]
                   | let q := fresh in let H := fresh in intros q H;
                     solve [eauto 6 with keeps] ] ].

Lemma inv_send_iframe : respects keeps_inv iso7816_t1_send_iframe.
Proof. unfold iso7816_t1_send_iframe, iso7816_t1_compute_lrc. keep_prog. Qed.
Lemma inv_send_rframe : respects keeps_inv iso7816_t1_send_rframe.
Proof. unfold iso7816_t1_send_rframe. keep_prog. Qed.
Lemma inv_send_sframe : respects keeps_inv iso7816_t1_send_sframe.
Proof. unfold iso7816_t1_send_sframe, sframe_inf. keep_prog. Qed.
Hint Resolve inv_send_iframe inv_send_rframe inv_send_sframe : resp.

Lemma inv_decode_iframe q n pcb : respects keeps_inv (decode_iframe q n pcb).
Proof.
  unfold decode_iframe. keep_prog.
Qed.
Lemma inv_decode_sframe q n pcb : respects keeps_inv (decode_sframe q n pcb).
Proof. unfold decode_sframe. keep_prog. Qed.
Hint Resolve inv_decode_iframe inv_decode_sframe : resp.

Lemma inv_process : respects keeps_inv iso7816_t1_process.
Proof. unfold iso7816_t1_process, iso7816_t1_decode_frame. keep_prog. Qed.
Hint Resolve inv_process : resp.

Lemma keeps_set_iframe d :
  0 <= ed_size d →
  keeps (fun p => iso7816_t1_set_iframe
    (p <| next_tx .: iframe .: i_data := ed_data d |>
       <| next_tx .: iframe .: i_total_size := ed_size d |>)).
Proof. intros ?. unfold iso7816_t1_set_iframe. keep. Qed.

(** The size of a caller's command is a [uint32_t], hence not negative. *)
Lemma inv_send data :
  (∀ d, data = Some d → 0 <= ed_size d) → respects keeps_inv (iso7816_t1_send data).
Proof.
  intros Hd. unfold iso7816_t1_send. destruct data as [d|].
  - specialize (Hd d eq_refl). keep_prog. apply inv_mod. by apply keeps_set_iframe.
  - keep_prog.
Qed.
Lemma inv_send_none : respects keeps_inv (iso7816_t1_send None).
Proof. by apply inv_send. Qed.
Hint Resolve inv_send_none : resp.

Lemma inv_receive_loop fuel : respects keeps_inv (receive_loop fuel).
Proof. induction fuel as [|fuel IH]; simpl; keep_prog. Qed.
Hint Resolve inv_receive_loop : resp.
Lemma inv_receive fuel d : respects keeps_inv (iso7816_t1_receive fuel d).
Proof. unfold iso7816_t1_receive. keep_prog. Qed.
Hint Resolve inv_receive : resp.

(** ** The character device *)

Lemma load_be32_nonneg q (m : snvm W) v m' : load_be32 q m = Ret (v, m') → 0 <= v.
Proof.
  intros H. apply bind_inv in H as (l & m1 & _ & [= <- _]).
  destruct l as [|? [|? [|? [|? [|? ?]]]]]; simpl; try lia. apply Z.mod_pos_bound. lia.
Qed.
Lemma framed_be32 q : framed (load_be32 (W := W) q).
Proof. unfold load_be32. resp. Qed.
Lemma framed_unexpected q n d : framed (unexpected (W := W) q n d).
Proof. unfold unexpected. resp. Qed.
Lemma framed_store_short hd d : framed (store_short hd d).
Proof. unfold store_short. resp. Qed.
Hint Resolve framed_be32 framed_unexpected framed_store_short : resp.

Lemma inv_chain_command fuel last d q n e r total :
  0 <= ed_size d → respects keeps_inv (chain_command fuel last d q n e r total).
Proof.
  intros Hd. assert (respects keeps_inv (iso7816_t1_send (Some d))) as Hsend.
  { apply inv_send. by intros ? [= <-]. }
  revert r total. induction fuel as [|fuel IH]; intros r total; simpl; keep_prog.
Qed.

Lemma inv_chain_body fuel i num q n total :
  respects keeps_inv (chain_body fuel i num q n total).
Proof.
  unfold chain_body. apply respects_if; [keep_prog|].
  apply respects_bind; [apply _|keep_prog|]. intros sq. apply respects_if; [keep_prog|].
  apply (respects_bind_val _ (fun v => 0 <= v)); [|keep_prog|].
  { intros. by eapply load_be32_nonneg. }
  intros v Hv. apply respects_bind; [apply _|keep_prog|]. intros e.
  apply respects_if; [keep_prog|]. by apply inv_chain_command.
Qed.
Hint Resolve inv_chain_body : resp.

Lemma inv_chain_loop fuel k i num q n total :
  respects keeps_inv (chain_loop fuel k i num q n total).
Proof. revert i q n total. induction k as [|k IH]; intros; simpl; keep_prog. Qed.
Hint Resolve inv_chain_loop : resp.

Lemma framed_delete hd : framed (ese_data_delete hd).
Proof. unfold ese_data_delete. resp. Qed.
Hint Resolve framed_delete : resp.
Lemma inv_transceive fuel c q n out : respects keeps_inv (star_transceive fuel c q n out).
Proof. unfold star_transceive. keep_prog. Qed.
Hint Resolve inv_transceive : resp.

Lemma inv_mod_star f :
  (∀ x, access (f x) = access x ∨ access (f x) = 0 ∨ access (f x) = 1) →
  respects keeps_inv (mod_star f).
Proof.
  intros H m a m' [= _ <-] [Hi Ha]. split; [done|]. cbn. destruct (H (star m)) as [-> | ?]; auto.
Qed.
Ltac keep_star :=
  keep_prog; repeat (apply inv_mod_star; let x := fresh in intros x; cbn; tauto).
Lemma inv_drop_rsp : respects keeps_inv drop_rsp.
Proof. unfold drop_rsp. keep_star. Qed.
Hint Resolve inv_drop_rsp : resp.

Lemma inv_dev_write fuel n : respects keeps_inv (star_dev_write fuel n).
Proof. unfold star_dev_write. keep_star. Qed.
Lemma inv_dev_read n : respects keeps_inv (star_dev_read n).
Proof. unfold star_dev_read. keep_star. Qed.
Lemma inv_dev_ioctl c : respects keeps_inv (star_dev_ioctl c).
Proof. unfold star_dev_ioctl, iso7816_t1_reset. keep_star. Qed.
Lemma inv_dev_open : respects keeps_inv star_dev_open.
Proof. unfold star_dev_open, iso7816_t1_reset. keep_star. Qed.
Lemma inv_dev_close : respects keeps_inv star_dev_close.
Proof. unfold star_dev_close. keep_star. Qed.
End inv.

(** What a probed driver starts with. *)
Lemma inv_start : t1_inv (iso7816_t1_reset_params zero_t1).
Proof.
  split; unfold piece_ok, PROTOCOL_SEND_SIZE, PROTOCOL_MAX_RNACK_RETRY_LIMIT,
    PROTOCOL_TIMEOUT_RETRY_COUNT, PROTOCOL_FRAME_RETRY_COUNT; cbn; try split_and!;
    try lia; by right.
Qed.

Lemma inv_star_open {W} `{!SnvmEnv W} type client (m0 m : snvm W) :
  star_open type client m0 = Ret (true, m) → dev_inv m.
Proof.
  intros H. apply bind_inv in H as ([] & m1 & _ & H); cbn [negb] in H; [|done].
  apply bind_inv in H as ([hal|] & m2 & _ & H); [|done].
  apply bind_inv in H as ([p|] & m3 & Hp & H); [|done].
  apply bind_inv in H as (ret & m4 & _ & H). destruct (ret <? 0); [done|].
  injection H as <-. split; [|by left]. cbn.
  apply bind_inv in Hp as ([] & m5 & _ & Hp); cbn [negb] in Hp; [|done].
  apply bind_inv in Hp as (q & m6 & _ & Hp). destruct (is_null q); [done|].
  injection Hp as <- _. destruct inv_start. by split.
Qed.

(** Sending an I-frame leaves the state and the frame to be sent as they are. *)
Definition frame_kept {W} (m m' : snvm W) : Prop :=
  state (proto m') = state (proto m) ∧ next_tx (proto m') = next_tx (proto m).
#[export] Instance frame_kept_preorder W : PreOrder (@frame_kept W).
Proof.
  unfold frame_kept. split; [by intros m|]. by intros m1 m2 m3 [-> ->] [-> ->].
Qed.

Lemma frame_framed {W} {A} (c : M (snvm W) A) :
  respects same_proto c → respects frame_kept c.
Proof. intros H m a m' Hr. unfold frame_kept. by destruct (H _ _ _ Hr) as [-> _]. Qed.

Lemma send_iframe_frame {W} `{!SnvmEnv W} (m : snvm W) st m' :
  iso7816_t1_send_iframe m = Ret (st, m') → frame_kept m m'.
Proof.
  revert m st m'. change (respects (@frame_kept W) iso7816_t1_send_iframe).
  unfold iso7816_t1_send_iframe, iso7816_t1_compute_lrc.
  repeat first
    [ resp_step
    | apply frame_framed; solve [eauto using framed_get_t1, framed_store8, framed_memcpy,
        framed_load, framed_get_star, framed_hal_send] ].
  unfold frame_kept. intros m x m' [= _ <-]. done.
Qed.
