(* ===== verification/IsoTimeout.v ===== *)
(** The driver on a bus where the element never answers: it repeats the block
    three times and gives up. *)
From S2P Require Import Prelude SnvmState EseData IsoT1 IsoCard SnvmFacts IsoLink IsoExchange.

(** A bus that takes every frame and returns none; the world is the list of the
    frames sent. *)
Definition silent_env : SnvmEnv (list (list Z)) := {|
  alloc_ok n w := (n <=? KMALLOC_MAX_SIZE, w);
  i2c_master_send bs w := (Z.of_nat (length bs), w ++ [bs]);
  i2c_master_recv _ w := ((- EIO, []), w);
  spi_write bs w := (0, w ++ [bs]);
  spi_read _ w := ((- EIO, []), w);
  usleep _ w := w;
  dev_power_on w := (0, w);
  dev_power_off w := (0, w);
  dev_reset w := (0, w);
  misc_register w := (0, w);
  copy_from_user n w := ((0, []), w);
  copy_to_user _ w := (0, w);
  get_user_int w := (Some 0, w) |}.

Lemma buf_twice pre l : (length pre ≤ length l)%nat → buf pre (buf pre l) = buf pre l.
Proof. intros ?. unfold buf. by rewrite drop_app_length. Qed.

Section silent.
#[local] Existing Instance silent_env.
Variables (k : hal_type) (s : sec_star).
Hypothesis Hs : star_hal s = Some (mkHal true (Some k)).
Implicit Types (h : heap) (w : list (list Z)) (p : iso7816_t1).

Lemma store_none h w p b o l :
  blocks h !! b = Some l → 0 <= o <= Z.of_nat (length l) →
  store (Ptr b o) [] (mkSnvm h w p s) = Ret (tt, mkSnvm h w p s).
Proof.
  intros Hb Ho. erewrite store_ok; [|done|lia|simpl; lia|apply Forall_nil_2].
  unfold splice. simpl. rewrite Nat.add_0_r, take_drop. unfold hset.
  rewrite insert_id by done. by destruct h.
Qed.

Lemma silent_receive h w p b l n :
  blocks h !! b = Some l → 0 < n →
  hal_receive (Ptr b 0) n (mkSnvm h w p s) = Ret (u32 (- EIO), mkSnvm h w p s).
Proof.
  intros Hb Hn. unfold hal_receive. erewrite bind_ret by reflexivity. cbv beta. cbn [star].
  rewrite Hs. unfold ese_hal_receive. cbn [is_null]. rewrite orb_false_l.
  rewrite (proj2 (Z.eqb_neq _ _)) by lia.
  assert (∀ r, r = - EIO →
    (r ← (if r <? 0 then mret r else mret (s32 n) : M (snvm (list (list Z))) Z);
     if r <? 0 then mret r else mret (s32 n) : M (snvm (list (list Z))) Z)
      (mkSnvm h w p s) = Ret (- EIO, mkSnvm h w p s)) as Hr by (by intros r ->).
  erewrite bind_ret; [reflexivity|].
  destruct k; unfold ese_i2c_receive, ese_spi_receive; rewrite bind_assoc;
    (erewrite bind_ret by reflexivity); cbv beta iota; rewrite bind_assoc;
    rewrite take_nil;
    change (?x <| world := ?v |>) with (mkSnvm (hp x) v (proto x) (star x));
    cbn [hp world proto star];
    (erewrite bind_ret by (eapply store_none; [done|lia])); cbv beta; by apply Hr.
Qed.

(** Without an answer the block is put up for sending again, three times. *)
Lemma silent_process h w p b l :
  proc_buf p = Ptr b 0 → blocks h !! b = Some l → f_type (last_tx p) ≠ FRAME_SFRAME →
  iso7816_t1_process (mkSnvm h w p s)
  = Ret (ESESTATUS_INVALID_RECEIVE_LENGTH,
         mkSnvm h w (process_no_block ESESTATUS_INVALID_RECEIVE_LENGTH p) s).
Proof.
  intros Hp Hb Hf. unfold iso7816_t1_process. erewrite bind_ret.
  2:{ unfold receive_block. erewrite bind_ret by reflexivity. cbv beta.
      change (?x <| world := ?v |>) with (mkSnvm (hp x) v (proto x) (star x)).
      cbn [hp world proto star]. erewrite bind_ret.
      2:{ change PROTOCOL_ADDRESS_POLLING_COUNT with (S 99). simpl.
          run_t1. rewrite Hp.
          erewrite bind_ret by (by eapply silent_receive). reflexivity. }
      reflexivity. }
  cbv beta iota. run_t1. change (0 <? 0) with false. cbv iota.
  rewrite bool_decide_false by done. cbn [andb].
  erewrite bind_ret by reflexivity. cbv beta.
  change (?x <| world := ?v |>) with (mkSnvm (hp x) v (proto x) (star x)).
  cbn [hp world proto star]. by run_t1.
Qed.

(** ** Giving up *)

Variables (pb db dofs : Z) (dl : list Z).
Hypotheses (Hne : db ≠ pb) (Hdl : Forall is_u8 dl).

(** [next_tx] is the I-frame [f] with valid data, and the answer is awaited
    for the [t]-th time. *)
Record waiting (f : iframe_info) (t : Z) (h : heap) (p : iso7816_t1) : Prop := {
  wt_ready : t1_ready pb p;
  wt_buf : ∃ l, blocks h !! pb = Some l ∧ length l = 260%nat;
  wt_data : blocks h !! db = Some dl;
  wt_state : state p = STATE_SEND_IFRAME;
  wt_last : iframe (last_tx p) = f;
  wt_type : f_type (last_tx p) = FRAME_IFRAME;
  wt_time : timeout_counter p = t }.

Variables (off tot n ch sq : Z).
Hypotheses (Hoff : 0 <= dofs + off) (Hend : dofs + off + n <= Z.of_nat (length dl))
  (Hn : 1 <= n <= 254) (Hsq : is_bit sq) (Hch : is_bit ch).
Let f := mkI (Ptr db dofs) off tot n ch sq.
Definition silent_frame : list Z :=
  mk_block NAD_HOST (i_pcb sq (negb (ch =? 0)))
    (take (Z.to_nat n) (drop (Z.to_nat (dofs + off)) dl)).

Lemma silent_send h w p t :
  t1_ready pb p → (∃ l, blocks h !! pb = Some l ∧ length l = 260%nat) →
  blocks h !! db = Some dl → state p = STATE_SEND_IFRAME →
  iframe (next_tx p) = f → f_type (next_tx p) = FRAME_IFRAME → timeout_counter p = t →
  ∃ h' p',
    iso7816_t1_send None (mkSnvm h w p s)
    = Ret (ESESTATUS_SUCCESS, mkSnvm h' (w ++ [silent_frame]) p' s)
    ∧ waiting f t h' p' ∧ recv_data p' = recv_data p.
Proof.
  intros [Hpb Hsa Hra] (l & Hl & Hl260) Hdb Hst Hf Hty Ht. do 2 eexists. split.
  { unfold iso7816_t1_send. run_t1. erewrite bind_ret by reflexivity. cbv beta.
    run_t1. run_t1. change (state (copy_next_to_last p)) with (state p). rewrite Hst.
    etransitivity.
    { eapply (send_iframe_ok (fun bs w => w ++ [bs]) ltac:(done) ltac:(done)
                k s Hs h w (copy_next_to_last p) pb db dofs off tot n ch sq l dl);
        try done; try lia. change (send_address (copy_next_to_last p)) with (send_address p).
      rewrite Hsa. apply u8_NAD_HOST. }
    change (send_address (copy_next_to_last p)) with (send_address p). rewrite Hsa.
    reflexivity. }
  split; [|done]. split; try done.
  - eexists. split; [apply hset_lookup|]. rewrite buf_length; [done|].
    rewrite length_mk_block, length_take, length_drop. lia.
  - by rewrite hset_lookup_ne by done.
Qed.

Lemma silent_round fuel h w p t :
  waiting f t h p → t < PROTOCOL_TIMEOUT_RETRY_COUNT → 0 <= t →
  ∃ h' p',
    receive_loop (S fuel) (mkSnvm h w p s)
    = receive_loop fuel (mkSnvm h' (w ++ [silent_frame]) p' s)
    ∧ waiting f (t + 1) h' p' ∧ recv_data p' = recv_data p.
Proof.
  intros [Hp (l & Hl & Hl260) Hdb Hst Hf Hty Ht] Hlt Hpos.
  set (p1 := process_no_block ESESTATUS_INVALID_RECEIVE_LENGTH p).
  assert (p1 = copy_last_to_next (p <| timeout_counter := t + 1 |>)) as Hp1.
  { unfold p1, process_no_block.
    change (ESESTATUS_INVALID_RECEIVE_LENGTH =? ESESTATUS_INVALID_FRAME) with false.
    rewrite Ht, (proj2 (Z.ltb_lt _ _) Hlt). unfold over_field.
    unfold PROTOCOL_TIMEOUT_RETRY_COUNT in Hlt.
    by rewrite Ht, u32_id by (unfold is_u32; lia). }
  destruct (silent_send h w p1 (t + 1)) as (h' & p' & Hsend & Hw & Hr);
    try (by rewrite Hp1); [by rewrite Hp1; destruct Hp; split|by exists l|done|].
  exists h', p'. split_and!; [|done|by rewrite Hr, Hp1].
  simpl receive_loop. erewrite bind_ret.
  2:{ eapply silent_process; [by destruct Hp|done|by rewrite Hty]. }
  cbv beta.
  change (ESESTATUS_INVALID_RECEIVE_LENGTH =? ESESTATUS_INVALID_DEVICE) with false.
  cbv iota. run_t1. fold p1. rewrite bool_decide_false by (rewrite Hp1; cbn; by rewrite Hst).
  erewrite bind_ret.
  2:{ erewrite bind_ret by exact Hsend. cbv beta.
      change (negb (ESESTATUS_SUCCESS =? ESESTATUS_SUCCESS)) with false. cbv iota.
      erewrite bind_ret by reflexivity. reflexivity. }
  cbv beta. run_t1. by rewrite bool_decide_false by (by rewrite (wt_state _ _ _ _ Hw)).
Qed.

Lemma silent_end fuel h w p :
  waiting f PROTOCOL_TIMEOUT_RETRY_COUNT h p →
  receive_loop (S fuel) (mkSnvm h w p s)
  = Ret (inr ESESTATUS_INVALID_RECEIVE_LENGTH,
         mkSnvm h w ((p <| state := STATE_IDLE |>) <| timeout_counter := 0 |>) s).
Proof.
  intros [Hp (l & Hl & Hl260) Hdb Hst Hf Hty Ht]. simpl receive_loop. erewrite bind_ret.
  2:{ eapply silent_process; [by destruct Hp|done|by rewrite Hty]. }
  cbv beta.
  change (ESESTATUS_INVALID_RECEIVE_LENGTH =? ESESTATUS_INVALID_DEVICE) with false.
  cbv iota. run_t1. unfold process_no_block.
  change (ESESTATUS_INVALID_RECEIVE_LENGTH =? ESESTATUS_INVALID_FRAME) with false.
  rewrite Ht, Z.ltb_irrefl. cbv iota.
  rewrite bool_decide_true by done. erewrite bind_ret by reflexivity. cbv beta. run_t1.
  by rewrite bool_decide_true by done.
Qed.
End silent.
