(* ===== verification/SnvmProps.v ===== *)
(** The properties of the secure-element stack: a write and a read of the device
    against a conforming card, the T=1 exchange below it, what a silent, a
    resynchronising or an arbitrary card can do, and the packet list. *)
From S2P Require Import Prelude SnvmState EseData IsoT1 SecStar IsoCard SnvmFacts.
From S2P Require Import EseDataFacts IsoLink IsoExchange StarExchange T1Inv IsoTimeout.

(** ** Definitions *)

(** The requests of a user of the device, and what a sequence of them reaches. *)
Inductive request :=
  | ROpen | RClose | RWrite (count : Z) | RRead (count : Z) | RIoctl (cmd : Z).

Section requests.
Context {W : Type} `{!SnvmEnv W}.

Definition handle (fuel : nat) (r : request) : M (snvm W) unit :=
  match r with
  | ROpen => star_dev_open;; skip
  | RClose => star_dev_close;; skip
  | RWrite n => star_dev_write fuel n;; skip
  | RRead n => star_dev_read n;; skip
  | RIoctl c => star_dev_ioctl c;; skip
  end.

Inductive reachable : snvm W → Prop :=
  | reach_open type client m0 m :
      star_open type client m0 = Ret (true, m) → reachable m
  | reach_request fuel r m m' :
      reachable m → handle fuel r m = Ret (tt, m') → reachable m'.
End requests.

(** The state a run ends in. *)
Definition state_after {A S} (o : outcome (A * S)) (d : S) : S :=
  match o with Ret (_, m) => m | _ => d end.

(** The device of the witnesses: freshly probed, with a card that echoes the
    command and adds the status 90 00. *)
Definition echo (c : list Z) : list Z := c ++ [0x90; 0x00].
Definition echo_env : SnvmEnv card_world := card_env echo 254.
Definition fresh_t1 : iso7816_t1 :=
  ((iso7816_t1_reset_params zero_t1 <| proc_buf := Ptr 0 0 |>)
     <| send_address := SEND_ADDRESS |>) <| receive_address := RECEIVE_ADDRESS |>.
Definition fresh_card : card := mkCard 0 0 [] [] [].
Definition fresh_heap : heap := mkHeap {[0 := replicate 260 0]} 1.
Definition fresh_star : sec_star :=
  mkStar (Some (mkHal true (Some ESE_HAL_I2C))) true NULL 0 1 0.
Definition two_commands : list (list Z) := [[0; 0xA4; 4; 0]; [0x80; 0xCA; 0; 1; 2]].

Lemma fresh_wf : heap_wf fresh_heap.
Proof. intros b Hb. cbn in Hb. apply lookup_singleton_ne. lia. Qed.
Lemma fresh_idle : t1_idle 0 fresh_t1 fresh_card.
Proof. split; try done. split; try done; by right. Qed.
Lemma answers_echo c :
  Forall is_u8 c → (0 < length c < 200)%nat → answers echo 254 5 c.
Proof.
  intros Hc Hl. split; [done|by destruct c; [simpl in Hl; lia|]| | |].
  - unfold echo. all_u8.
  - unfold echo, KMALLOC_MAX_SIZE. rewrite length_app. simpl. lia.
  - rewrite (Z.div_small (Z.of_nat (length c)) 254) by lia.
    unfold split_chunks, echo. rewrite length_app. simpl length.
    simpl chunks. rewrite length_app. simpl length.
    rewrite (proj2 (Nat.leb_le _ 254)) by lia. simpl. lia.
Qed.

(** ** A write and a read of the device *)

(** C1: against a conforming card, a write of a chain of APDU commands, of which
    none names the response it expects (the expected size of each is 0), is
    accepted as a whole, and the read that follows returns the responses the
    card computes: every response but the last without its two status bytes,
    in order.  The device is then ready again, and the heap holds exactly the
    blocks it held before: neither the command, nor the packets, nor the
    response leak. *)
Theorem star_write_read apdu ifs pb (m : snvm card_world) cs fuel :
  (1 ≤ ifs ≤ 255)%nat → device_ready pb m → w_user (world m) = encode_chain cs →
  (∀ c, c ∈ cs → answers apdu ifs fuel c) →
  1 <= Z.of_nat (length cs) <= APDU_CHAIN_MAX_SIZE →
  Z.of_nat (length (encode_chain cs)) <= KMALLOC_MAX_SIZE →
  0 < Z.of_nat (length (chain_reply apdu cs)) <= KMALLOC_MAX_SIZE →
  let env := card_env apdu ifs in
  let size := Z.of_nat (length (encode_chain cs)) in
  let reply := chain_reply apdu cs in
  ∃ m1 m2,
    star_dev_write (SnvmEnv0 := env) fuel size m = Ret (size, m1)
    ∧ star_dev_read (SnvmEnv0 := env) (Z.of_nat (length reply)) m1
      = Ret ((Z.of_nat (length reply), reply), m2)
    ∧ device_ready pb m2
    ∧ dom (blocks (hp m2)) = dom (blocks (hp m))
    ∧ ∀ b, b ≠ pb → blocks (hp m2) !! b = blocks (hp m) !! b.
Proof.
  intros Hifs Hm Hu Han Hn Hmax Hsz env size reply.
  destruct (dev_write_ok apdu ifs Hifs pb m cs fuel)
    as (w' & p' & rb & l & Hw & Hrb & Hl & Hid); try done.
  destruct Hm as [[k Hs] Hpr Hrsp Hrs Hdir Hid0 Hwf (l0 & Hb & Hl0)].
  pose proof (heap_wf_live _ _ _ Hwf Hb) as Hpb.
  eexists _, _. split; [exact Hw|]. split; [|split_and!].
  - apply dev_read_ok; try done; [fold reply in Hsz; lia|].
    rewrite lookup_insert_ne by lia. apply Hwf. lia.
  - split; try done; cbn.
    + by exists k.
    + intros b Hbb. cbn in Hbb |- *. rewrite lookup_insert_ne by lia. apply Hwf. lia.
    + exists l. split; [apply lookup_insert_eq|done].
  - cbn. rewrite dom_insert_L. apply elem_of_dom_2 in Hb.
    by apply subseteq_union_1_L, singleton_subseteq_l.
  - intros b Hne. cbn. by rewrite lookup_insert_ne.
Qed.

Lemma star_write_read_witness :
  let m := mkSnvm fresh_heap (mkWorld fresh_card (encode_chain two_commands))
             fresh_t1 fresh_star in
  device_ready 0 m ∧
  ∃ m1 m2,
    star_dev_write (SnvmEnv0 := echo_env) 5 37 m = Ret (37, m1)
    ∧ star_dev_read (SnvmEnv0 := echo_env) 11 m1
      = Ret ((11, [0; 0xA4; 4; 0; 0x80; 0xCA; 0; 1; 2; 0x90; 0]), m2).
Proof.
  intros m. assert (device_ready 0 m) as Hm.
  { split; try done; [by exists ESE_HAL_I2C|apply fresh_idle|apply fresh_wf|].
    by exists (replicate 260 0). }
  split; [done|].
  destruct (star_write_read echo 254 0 m two_commands 5)
    as (m1 & m2 & Hw & Hr & _).
  - lia.
  - exact Hm.
  - reflexivity.
  - intros c Hc. apply answers_echo;
      repeat (apply elem_of_cons in Hc as [->|Hc]; [first [solve [all_u8] | simpl; lia]|]);
      by apply elem_of_nil in Hc.
  - vm_compute. split; congruence.
  - vm_compute. congruence.
  - vm_compute. split; congruence.
  - exists m1, m2. split; [exact Hw|exact Hr].
Defined.

(** ** One T=1 exchange *)

(** C2: sending a command of [len] bytes and receiving, the driver and a
    conforming card chain the I-blocks of both directions, alternate their
    sequence numbers and acknowledge each other, and the buffer that comes back
    is exactly the card's response to exactly the command's bytes.  The loop
    takes at most one turn per block.  Afterwards the driver is idle and in step
    with the card again, and no other block of the heap has changed. *)
Theorem t1_exchange apdu ifs k s h w p pb l0 db dofs dl len fuel :
  let env := card_env apdu ifs in
  let cmd := take (Z.to_nat len) (drop (Z.to_nat dofs) dl) in
  star_hal s = Some (mkHal true (Some k)) → t1_idle pb p (w_card w) → heap_wf h →
  blocks h !! pb = Some l0 → length l0 = 260%nat →
  blocks h !! db = Some dl → db ≠ pb → Forall is_u8 dl →
  0 <= dofs → 1 <= len < 4294967040 → dofs + len <= Z.of_nat (length dl) →
  (1 ≤ ifs ≤ 255)%nat → Forall is_u8 (apdu cmd) →
  1 <= Z.of_nat (length (apdu cmd)) <= KMALLOC_MAX_SIZE →
  (Z.to_nat (len / 254) + length (split_chunks ifs (apdu cmd)) ≤ fuel)%nat →
  ∃ m1 h' w' p' rb,
    iso7816_t1_send (SnvmEnv0 := env) (Some (mkData (Ptr db dofs) len)) (mkSnvm h w p s)
      = Ret (ESESTATUS_SUCCESS, m1)
    ∧ iso7816_t1_receive (SnvmEnv0 := env) fuel (mkData NULL 0) m1
      = Ret ((ESESTATUS_SUCCESS, mkData (Ptr rb 0) (Z.of_nat (length (apdu cmd)))),
             mkSnvm h' w' p' s)
    ∧ blocks h' !! rb = Some (apdu cmd) ∧ blocks h !! rb = None
    ∧ (∀ b, b ≠ pb → b ≠ rb → blocks h' !! b = blocks h !! b)
    ∧ t1_idle pb p' (w_card w').
Proof.
  intros env cmd Hs Hid Hwf Hl0 Hl260 Hdb Hne Hdl Hdofs Hlen Hin Hifs Hu8 Hsz Hf.
  pose proof (heap_wf_live _ _ _ Hwf Hl0) as Hpb.
  pose proof (heap_wf_live _ _ _ Hwf Hdb) as Hdbl.
  destruct (exchange_ok apdu ifs k s Hs (next_block h) pb (blocks h) h w p db dofs len dl fuel)
    as (m1 & h' & w' & p' & rb & Hsend & Hrcv & Hrb & Hh' & Hid' & _); try done; try lia.
  { split; cbn; [|done|lia|exact Hwf|apply NoDup_nil_2|by intros n Hn%elem_of_nil].
    exists l0. split; [done|]. by rewrite insert_id. }
  fold cmd in Hrcv, Hh'.
  destruct (eh_buf _ _ _ _ _ Hh') as (l & Hl & Hb). cbn in Hb.
  exists m1, h', w', p', rb. split_and!; try done.
  - rewrite Hb, lookup_insert_ne by lia. apply lookup_insert_eq.
  - apply Hwf. lia.
  - intros b Hb1 Hb2. by rewrite Hb, !lookup_insert_ne by done.
Qed.

Lemma t1_exchange_witness :
  let dl := replicate 300 7 in
  let h := hset (bump fresh_heap) 1 dl in
  let w := mkWorld fresh_card [] in
  ∃ m1 h' w' p' rb,
    iso7816_t1_send (SnvmEnv0 := echo_env) (Some (mkData (Ptr 1 0) 300))
      (mkSnvm h w fresh_t1 fresh_star) = Ret (ESESTATUS_SUCCESS, m1)
    ∧ iso7816_t1_receive (SnvmEnv0 := echo_env) 3 (mkData NULL 0) m1
      = Ret ((ESESTATUS_SUCCESS, mkData (Ptr rb 0) 302), mkSnvm h' w' p' fresh_star)
    ∧ blocks h' !! rb = Some (dl ++ [0x90; 0]).
Proof.
  intros dl h w.
  destruct (t1_exchange echo 254 ESE_HAL_I2C fresh_star h w fresh_t1 0 (replicate 260 0)
              1 0 dl 300 3) as (m1 & h' & w' & p' & rb & Hsend & Hrcv & Hb & _).
  - reflexivity.
  - apply fresh_idle.
  - apply heap_wf_hset; [apply heap_wf_bump, fresh_wf|simpl; lia].
  - reflexivity.
  - reflexivity.
  - reflexivity.
  - lia.
  - by apply Forall_replicate; unfold is_u8.
  - lia.
  - lia.
  - vm_compute. congruence.
  - lia.
  - unfold echo. all_u8; by apply Forall_replicate; unfold is_u8.
  - vm_compute. split; congruence.
  - apply Nat.leb_le. vm_compute. reflexivity.
  - exists m1, h', w', p', rb. split; [exact Hsend|]. split; [exact Hrcv|exact Hb].
Defined.

(** ** Any card *)

(** C13: whatever the card, the bus, the allocator and the user do, from a
    successful probe on: the retry counters never pass their limits (2 R-NACKs,
    3 timeouts, 3 recoveries), every sequence number is one bit, and no I-frame
    carries more than 254 bytes, so that with its header and its checksum it
    fits the 260-byte [proc_buf].  The device has at most one opener. *)
Theorem device_bounds {W} `{!SnvmEnv W} (m : snvm W) :
  reachable m → t1_inv (proto m) ∧ (access (star m) = 0 ∨ access (star m) = 1).
Proof.
  induction 1 as [ty cl m0 m Ho|fuel r m m' _ IH Hr]; [by eapply inv_star_open|].
  assert (∀ A (c : M (snvm W) A), respects keeps_inv c →
    (c;; skip) m = Ret (tt, m') → dev_inv m') as Hc.
  { intros A c Hk H. apply bind_inv in H as (a & m1 & H1 & [= <-]). by eapply Hk. }
  destruct r; cbn in Hr; (eapply Hc; [|exact Hr]).
  - apply inv_dev_open.
  - apply inv_dev_close.
  - apply inv_dev_write.
  - apply inv_dev_read.
  - apply inv_dev_ioctl.
Qed.

Lemma device_bounds_witness :
  let init := mkSnvm (mkHeap ∅ 0) (mkWorld fresh_card (encode_chain two_commands))
                zero_t1 (mkStar None false NULL 0 0 0) in
  ∃ m, reachable (SnvmEnv0 := echo_env) m ∧ rsp_size (star m) = 11 ∧
    t1_inv (proto m) ∧ (access (star m) = 0 ∨ access (star m) = 1).
Proof.
  intros init.
  pose (m1 := state_after (star_open (SnvmEnv0 := echo_env) 0 true init) init).
  pose (m2 := state_after (handle (SnvmEnv0 := echo_env) 5 ROpen m1) m1).
  pose (m3 := state_after (handle (SnvmEnv0 := echo_env) 5 (RWrite 37) m2) m2).
  assert (reachable (SnvmEnv0 := echo_env) m3) as H3.
  { apply (reach_request (SnvmEnv0 := echo_env) 5 (RWrite 37) m2); [|vm_compute; reflexivity].
    apply (reach_request (SnvmEnv0 := echo_env) 5 ROpen m1); [|vm_compute; reflexivity].
    apply (reach_open (SnvmEnv0 := echo_env) 0 true init). vm_compute. reflexivity. }
  exists m3. split; [exact H3|]. split; [vm_compute; reflexivity|].
  exact (device_bounds (SnvmEnv0 := echo_env) m3 H3).
Defined.

(** The checksum test accepts a buffer exactly when the exclusive-or of all
    its bytes, the checksum included, is zero, which is what a sender of T=1
    blocks ensures; it reads the buffer and changes nothing. *)
Theorem check_lrc_iff {W} h (w : W) p s b l n :
  blocks h !! b = Some l → Forall is_u8 l → 1 <= n <= Z.of_nat (length l) →
  iso7816_t1_check_lrc (Ptr b 0) n (mkSnvm h w p s)
  = Ret (if xor_all (take (Z.to_nat n) l) =? 0 then ESESTATUS_SUCCESS else ESESTATUS_FAILED,
         mkSnvm h w p s).
Proof.
  intros Hb Hu8 Hn. unfold iso7816_t1_check_lrc.
  destruct (lookup_lt_is_Some_2 l (Z.to_nat (n - 1))) as [c Hc]; [lia|].
  erewrite bind_ret by (eapply load8_ok; [done|lia|done]). cbv beta.
  erewrite bind_ret.
  2:{ unfold iso7816_t1_compute_lrc, ptr_add. rewrite Z.add_0_l.
      erewrite bind_ret; [reflexivity|]. eapply load_ok; [done|lia..]. }
  cbv beta. rewrite drop_0, lrc_xor_all by (by apply Forall_take).
  replace (Z.to_nat n) with (S (Z.to_nat (n - 1))) by lia.
  rewrite (take_S_r _ _ _ Hc).
  destruct (Z.eqb_spec c (xor_all (take (Z.to_nat (n - 1)) l))) as [Heq|Hne]; cbn [negb].
  - by rewrite (proj2 (Z.eqb_eq _ 0) (proj2 (xor_all_snoc _ _) Heq)).
  - destruct (Z.eqb_spec (xor_all (take (Z.to_nat (n - 1)) l ++ [c])) 0) as [Hx|]; [|done].
    by apply xor_all_snoc in Hx.
Qed.

Lemma check_lrc_iff_witness :
  let m := mkSnvm (mkHeap {[5 := [0x21; 0x80; 0; 0xA1; 9]]} 6) (mkWorld fresh_card [])
             fresh_t1 fresh_star in
  iso7816_t1_check_lrc (Ptr 5 0) 4 m = Ret (ESESTATUS_SUCCESS, m).
Proof.
  intros m.
  apply (check_lrc_iff (mkHeap {[5 := [0x21; 0x80; 0; 0xA1; 9]]} 6)
           (mkWorld fresh_card []) fresh_t1 fresh_star 5 [0x21; 0x80; 0; 0xA1; 9] 4).
  - reflexivity.
  - all_u8.
  - simpl. lia.
Defined.

(** C31: whatever the sizes of the pieces a buffer is stored in, the packet list
    gives back the buffer itself, in one new block; the list is empty again and
    every packet's block has been freed, so that the heap holds only the result
    in addition. *)
Theorem packets_round_trip {W} `{!SnvmEnv W} h (w : W) p s db dl sizes out :
  (∀ n, n <= KMALLOC_MAX_SIZE → alloc_ok n w = (true, w)) → heap_wf h →
  blocks h !! db = Some dl → Forall is_u8 dl → Forall (fun n => 0 < n) sizes →
  foldr Z.add 0 sizes = Z.of_nat (length dl) → 0 < Z.of_nat (length dl) <= KMALLOC_MAX_SIZE →
  ∃ head m1 rb nb,
    store_all (mkList 0 []) db 0 sizes (mkSnvm h w p s) = Ret ((ESESTATUS_SUCCESS, head), m1)
    ∧ ese_data_get head (Some out) m1
      = Ret ((ESESTATUS_SUCCESS, mkList 0 [], Some (mkData (Ptr rb 0) (Z.of_nat (length dl)))),
             mkSnvm (mkHeap (<[rb := dl]> (blocks h)) nb) w p s)
    ∧ blocks h !! rb = None.
Proof.
  intros Ha Hwf Hdb Hu8 Hpos Hsum Hsz.
  destruct h as [bl nb0].
  destruct (store_all_ok bl nb0 w p s db dl sizes 0 [] nb0)
    as (nds & nb & Hst & Hpay & Hnb & Hnd & Hr); try done; try lia; [by apply NoDup_nil_2| |].
  { by intros n Hn%elem_of_nil. }
  exists (mkList (Z.of_nat (length dl)) (node_of <$> nds)). do 3 eexists. split_and!.
  - exact Hst.
  - pose proof (ese_data_get_ok nds nds bl nb w p s (Z.of_nat (length dl)) out) as Hget.
    rewrite Hpay in Hget. apply Hget; try done.
    + apply Forall2_same_length_lookup_2; [done|]. intros i n f Hn Hf.
      replace f with n by congruence. split; [done|]. exists []. by rewrite app_nil_r.
    + intros n Hn. destruct (Hr n Hn). split_and!; [lia| |done]. apply Hwf. cbn. lia.
  - apply Hwf. done.
Qed.

Lemma packets_round_trip_witness :
  let dl := [1; 2; 3; 4; 5; 6] in
  let h := mkHeap {[0 := dl]} 1 in
  let w := mkWorld fresh_card [] in
  ∃ head m1 rb nb,
    store_all (SnvmEnv0 := echo_env) (mkList 0 []) 0 0 [2; 3; 1]
      (mkSnvm h w fresh_t1 fresh_star) = Ret ((ESESTATUS_SUCCESS, head), m1)
    ∧ ese_data_get (SnvmEnv0 := echo_env) head (Some (mkData NULL 0)) m1
      = Ret ((ESESTATUS_SUCCESS, mkList 0 [], Some (mkData (Ptr rb 0) 6)),
             mkSnvm (mkHeap (<[rb := dl]> {[0 := dl]}) nb) w fresh_t1 fresh_star).
Proof.
  intros dl h w.
  destruct (packets_round_trip (SnvmEnv0 := echo_env) h w fresh_t1 fresh_star 0 dl [2; 3; 1]
              (mkData NULL 0)) as (head & m1 & rb & nb & Hst & Hget & _).
  - intros n Hn. cbn. by rewrite (proj2 (Z.leb_le _ _) Hn).
  - intros b Hb. cbn in Hb. apply lookup_singleton_ne. lia.
  - reflexivity.
  - unfold dl. all_u8.
  - repeat (apply Forall_cons; split; [lia|]). apply Forall_nil_2.
  - reflexivity.
  - vm_compute. split; congruence.
  - exists head, m1, rb, nb. split; [exact Hst|exact Hget].
Defined.

(** C32: on a bus that takes every frame and never answers, an exchange ends: the
    first I-block of the command is sent four times (once and three times again
    after a timeout), nothing else is sent, and the call returns an error with
    the protocol idle.  Four turns of the loop are always enough. *)
Theorem silent_card_gives_up k s h (w : list (list Z)) p pb l0 db dofs dl len fuel :
  star_hal s = Some (mkHal true (Some k)) → t1_ready pb p → state p = STATE_IDLE →
  is_bit (tx_seq p) → timeout_counter p = 0 → recv_data p = mkList 0 [] →
  blocks h !! pb = Some l0 → length l0 = 260%nat → blocks h !! db = Some dl → db ≠ pb →
  Forall is_u8 dl → 0 <= dofs → 1 <= len → dofs + len <= Z.of_nat (length dl) →
  (4 ≤ fuel)%nat →
  let F := mk_block NAD_HOST (i_pcb (Z.lxor (tx_seq p) 1) (254 <? len))
             (take (Z.to_nat (Z.min len 254)) (drop (Z.to_nat dofs) dl)) in
  ∃ m1 m2,
    iso7816_t1_send (SnvmEnv0 := silent_env) (Some (mkData (Ptr db dofs) len))
      (mkSnvm h w p s) = Ret (ESESTATUS_SUCCESS, m1)
    ∧ iso7816_t1_receive (SnvmEnv0 := silent_env) fuel (mkData NULL 0) m1
      = Ret ((ESESTATUS_INVALID_BUFFER, mkData NULL 0), m2)
    ∧ world m2 = w ++ [F; F; F; F] ∧ state (proto m2) = STATE_IDLE.
Proof.
  intros Hs Hp Hst Hsq Ht Hrd Hl0 Hl260 Hdb Hne Hdl Hdofs Hlen Hin Hfuel F.
  destruct (set_iframe_fields p (mkData (Ptr db dofs) len))
    as (Hst0 & Hrx0 & Hrd0 & Hb0 & Hsa0 & Hra0 & Hf0 & Hty0 & Ht0).
  pose proof (is_bit_flip _ Hsq) as Hbit.
  pose proof (send_idle (SnvmEnv0 := silent_env) h w p s (mkData (Ptr db dofs) len) Hst) as Hsend0.
  set (p0 := iso7816_t1_set_iframe _) in *. cbn [ed_data ed_size] in Hf0.
  set (n := Z.min len 254). set (ch := if 254 <? len then 1 else 0).
  set (tot := if 254 <? len then len - 254 else len).
  assert (iframe (next_tx p0) = mkI (Ptr db dofs) 0 tot n ch (Z.lxor (tx_seq p) 1)) as Hf.
  { rewrite Hf0. unfold tot, n, ch. destruct (Z.ltb_spec 254 len); f_equal; lia. }
  assert (is_bit ch) as Hch by (unfold ch; destruct (254 <? len); [by right|by left]).
  assert (F = silent_frame dofs dl 0 n ch (Z.lxor (tx_seq p) 1)) as HF.
  { unfold F, silent_frame. rewrite Z.add_0_r. f_equal. unfold ch. by destruct (254 <? len). }
  assert (t1_ready pb p0) as Hp0 by (destruct Hp; split; congruence).
  assert (0 <= dofs + 0) as Hoff by lia. assert (dofs + 0 + n <= Z.of_nat (length dl)) by lia.
  assert (1 <= n <= 254) as Hn by lia.
  destruct (silent_send k s Hs pb db dofs dl Hne Hdl 0 tot n ch _ Hoff ltac:(done) Hn Hbit Hch
              h w p0 0) as (h1 & p1 & Hsend & Hw1 & Hr1); try done; [by exists l0|congruence|].
  pose proof (silent_round k s Hs pb db dofs dl Hne Hdl 0 tot n ch _ Hoff ltac:(done) Hn Hbit Hch)
    as Hround.
  replace fuel with (S (S (S (S (fuel - 4))))) by lia.
  destruct (Hround (S (S (S (fuel - 4)))) h1 (w ++ [F]) p1 0) as (h2 & p2 & E2 & Hw2 & Hr2);
    [done|done|lia|].
  destruct (Hround (S (S (fuel - 4))) h2 ((w ++ [F]) ++ [F]) p2 1)
    as (h3 & p3 & E3 & Hw3 & Hr3); [done|done|lia|].
  destruct (Hround (S (fuel - 4)) h3 (((w ++ [F]) ++ [F]) ++ [F]) p3 2)
    as (h4 & p4 & E4 & Hw4 & Hr4); [done|done|lia|].
  pose proof (silent_end k s Hs pb db dofs dl 0 tot n ch _ (fuel - 4) h4
                ((((w ++ [F]) ++ [F]) ++ [F]) ++ [F]) p4 Hw4) as Eend.
  rewrite <-HF in *. eexists (mkSnvm h1 (w ++ [F]) p1 s), _. split_and!.
  - by rewrite Hsend0.
  - unfold iso7816_t1_receive. erewrite bind_ret.
    2:{ rewrite E2, E3, E4. exact Eend. }
    cbv beta iota. run_t1.
    assert (recv_data p4 = mkList 0 []) as Hrd4 by congruence.
    match goal with |- context [recv_data ?q] => change (recv_data q) with (recv_data p4) end.
    rewrite Hrd4. erewrite bind_ret by reflexivity. cbv beta iota. run_t1. reflexivity.
  - cbn. by rewrite <-!app_assoc.
  - done.
Qed.

Lemma silent_card_gives_up_witness :
  let dl := [0; 0xA4; 4; 0] in
  let h := hset (bump fresh_heap) 1 dl in
  ∃ m1 m2,
    iso7816_t1_send (SnvmEnv0 := silent_env) (Some (mkData (Ptr 1 0) 4))
      (mkSnvm h [] fresh_t1 fresh_star) = Ret (ESESTATUS_SUCCESS, m1)
    ∧ iso7816_t1_receive (SnvmEnv0 := silent_env) 4 (mkData NULL 0) m1
      = Ret ((ESESTATUS_INVALID_BUFFER, mkData NULL 0), m2)
    ∧ world m2 = let F := [0x12; 0; 4; 0; 0xA4; 4; 0; 0xB6] in [F; F; F; F].
Proof.
  intros dl h.
  destruct (silent_card_gives_up ESE_HAL_I2C fresh_star h [] fresh_t1 0 (replicate 260 0) 1 0
              dl 4 4) as (m1 & m2 & Hsend & Hrcv & Hw & _).
  - reflexivity.
  - by split.
  - reflexivity.
  - by right.
  - reflexivity.
  - reflexivity.
  - reflexivity.
  - reflexivity.
  - reflexivity.
  - lia.
  - unfold dl. all_u8.
  - lia.
  - lia.
  - unfold dl. simpl. lia.
  - lia.
  - exists m1, m2. split; [exact Hsend|]. split; [exact Hrcv|exact Hw].
Defined.





(** An S(RESYNCH request) of the card, in any state of an exchange, is
    answered with exactly the block S(RESYNCH response), and both ends start
    over: every counter is zero and the sequence numbers are those of a card
    that begins again with N(S) = N(R) = 0. *)
Theorem resync_request_answered apdu ifs k s h w p pb l0 :
  let env := card_env apdu ifs in
  star_hal s = Some (mkHal true (Some k)) → t1_ready pb p → heap_wf h →
  blocks h !! pb = Some l0 → length l0 = 260%nat →
  c_out (w_card w) = mk_block NAD_CARD 0xC0 [] →
  ∃ h' p',
    (iso7816_t1_process (SnvmEnv0 := env) ;; iso7816_t1_send (SnvmEnv0 := env) None)
      (mkSnvm h w p s)
    = Ret (ESESTATUS_SUCCESS,
           mkSnvm h' (card_gets apdu ifs (mk_block NAD_HOST 0xE0 [])
                        (w <| w_card .: c_out := [] |>)) p' s)
    ∧ t1_ready pb p' ∧ synced p' (mkCard 0 0 [] [] [])
    ∧ wtx_counter p' = 0 ∧ timeout_counter p' = 0 ∧ rnack_counter p' = 0
    ∧ recovery_counter p' = 0
    ∧ ∀ b, b ≠ pb → blocks h' !! b = blocks h !! b.
Proof.
  intros env Hs Hp Hwf Hl0 Hl260 Hout. destruct Hp as [Hpb Hsa Hra].
  set (blk := mk_block NAD_CARD 0xC0 []) in *.
  set (p1 := respond_sframe SFRAME_RESYNCH_REQ SFRAME_RESYNCH_RSP
    (iso7816_t1_reset_params (p <| timeout_counter := 0 |> <| rnack_counter := 0 |>
       <| last_rx .: f_type := FRAME_SFRAME |> <| wtx_counter := 0 |>))).
  set (h1 := hset h pb (buf blk l0)).
  assert (iso7816_t1_process (SnvmEnv0 := env) (mkSnvm h w p s)
    = Ret (ESESTATUS_SUCCESS, mkSnvm h1 (w <| w_card .: c_out := [] |>) p1 s)) as Hproc.
  { etransitivity; [eapply (process_block apdu ifs k s Hs h w p pb l0 0xC0 []); side|].
    unfold iso7816_t1_decode_frame. rewrite bind_assoc. erewrite bind_ret.
    2:{ eapply (load8_ok _ _ _ _ _ _ _ 0xC0); [apply hset_lookup|lia|done]. }
    cbv beta. change (ESE_BIT 0xC0 7 =? 0) with false. change (ESE_BIT 0xC0 6 =? 0) with false.
    cbv iota. unfold decode_sframe. rewrite bind_assoc.
    change (Z.land 0xC0 0x3F) with 0. change (0 =? SFRAME_WTX_REQ) with false. cbv zeta.
    rewrite bind_assoc. run_t1. change (0 =? SFRAME_RESYNCH_REQ) with true. cbv iota.
    run_t1. reflexivity. }
  erewrite bind_ret by exact Hproc. cbv beta.
  do 2 eexists. split.
  { rewrite send_sframe_state by done.
    etransitivity; [apply (send_sframe_ok (card_gets apdu ifs) (card_i2c apdu ifs)
      (card_spi apdu ifs) k s Hs _ _ _ SFRAME_RESYNCH_RSP)|].
    - apply heap_wf_hset; [done|]. by eapply heap_wf_live.
    - change (is_u8 (send_address p)). rewrite Hsa. apply u8_NAD_HOST.
    - done.
    - done.
    - done.
    - unfold is_u8. vm_compute. split; congruence.
    - change (send_address (copy_next_to_last p1)) with (send_address p). rewrite Hsa.
      reflexivity. }
  split_and!; try done; [by split; try done; right|].
  intros b Hne. cbn. by rewrite lookup_insert_ne.
Qed.

Lemma resync_request_answered_witness :
  let w := mkWorld (fresh_card <| c_out := mk_block NAD_CARD 0xC0 [] |>) [] in
  let p := fresh_t1 <| rnack_counter := 2 |> in
  ∃ h' w' p',
    (iso7816_t1_process (SnvmEnv0 := echo_env) ;; iso7816_t1_send (SnvmEnv0 := echo_env) None)
      (mkSnvm fresh_heap w p fresh_star)
    = Ret (ESESTATUS_SUCCESS, mkSnvm h' w' p' fresh_star) ∧ rnack_counter p' = 0.
Proof.
  intros w p.
  destruct (resync_request_answered echo 254 ESE_HAL_I2C fresh_star fresh_heap w p 0
              (replicate 260 0)) as (h' & p' & Hrun & _ & _ & _ & _ & Hr & _).
  - reflexivity.
  - by split.
  - apply fresh_wf.
  - reflexivity.
  - reflexivity.
  - reflexivity.
  - eexists h', _, p'. split; [exact Hrun|exact Hr].
Defined.

(** Every branch of reading the device outside direct mode: no size and no
    response are errors that change nothing; a size that is not the response's
    fails with [-E2BIG] and the response is lost; the right size hands out the
    response's bytes, which are then freed whether or not the copy to the user
    succeeded. *)
Theorem dev_read_branches {W} `{!SnvmEnv W} h (w : W) p s count b r w' missing :
  direct s = 0 → blocks h !! b = Some r → copy_to_user r w = (missing, w') →
  let m := mkSnvm h w p s in
  let dropped := mkHeap (delete b (blocks h)) (next_block h) in
  let forgotten := (s <| rsp := NULL |>) <| rsp_size := 0 |> in
  (count = 0 → star_dev_read count m = Ret ((- EINVAL, []), m))
  ∧ (count ≠ 0 → rsp s = NULL ∨ rsp_size s = 0 →
     star_dev_read count m = Ret ((- ENOSPC, []), m))
  ∧ (count ≠ 0 → rsp s = Ptr b 0 → rsp_size s = Z.of_nat (length r) → r ≠ [] →
     count ≠ Z.of_nat (length r) →
     star_dev_read count m = Ret ((- E2BIG, []), mkSnvm dropped w p forgotten))
  ∧ (rsp s = Ptr b 0 → rsp_size s = Z.of_nat (length r) → r ≠ [] →
     count = Z.of_nat (length r) →
     star_dev_read count m
     = Ret (if 0 <? missing then (- ENOMEM, []) else (count, r),
            mkSnvm dropped w' p forgotten)).
Proof.
  intros Hd Hb Hcopy m dropped forgotten.
  assert (∀ v, rsp s = Ptr b 0 → drop_rsp (W := W) (mkSnvm h v p s)
               = Ret (tt, mkSnvm dropped v p forgotten)) as Hdrop.
  { intros v Hr. unfold drop_rsp. run_t1. rewrite Hr.
    by erewrite bind_ret by (by eapply ESE_FREE_ok). }
  unfold star_dev_read, m. split_and!.
  - by intros ->.
  - intros Hc Hor. rewrite (proj2 (Z.eqb_neq _ _) Hc). run_t1. rewrite Hd.
    change (0 <? 0) with false. cbv iota.
    assert (is_null (rsp s) || (rsp_size s =? 0) = true) as ->; [|done].
    destruct Hor as [-> | ->]; [done|]. by rewrite orb_true_r.
  - intros Hc Hr Hsz Hne Hcne. rewrite (proj2 (Z.eqb_neq _ _) Hc). run_t1. rewrite Hd, Hr, Hsz.
    change (0 <? 0) with false. cbv iota. cbn [is_null orb].
    assert (0 < length r)%nat by (destruct r; [done|simpl; lia]).
    rewrite !(proj2 (Z.eqb_neq _ _)) by lia. cbn [negb]. cbv iota.
    by erewrite bind_ret by (by apply Hdrop).
  - intros Hr Hsz Hne ->. assert (0 < length r)%nat by (destruct r; [done|simpl; lia]).
    rewrite (proj2 (Z.eqb_neq _ _)) by lia. run_t1. rewrite Hd, Hr, Hsz.
    change (0 <? 0) with false. cbv iota. cbn [is_null orb].
    rewrite (proj2 (Z.eqb_neq _ _)) by lia. rewrite Z.eqb_refl. cbn [negb]. cbv iota.
    erewrite bind_ret by (eapply load_ok; [exact Hb|lia..]).
    cbv beta. rewrite drop_0, take_ge by lia.
    erewrite bind_ret.
    2:{ unfold env. cbn [world]. rewrite Hcopy. reflexivity. }
    cbv beta. erewrite bind_ret by (by apply Hdrop). done.
Qed.

Lemma dev_read_branches_witness :
  let h := mkHeap {[4 := [0x90; 0]]} 5 in
  let s := fresh_star <| rsp := Ptr 4 0 |> <| rsp_size := 2 |> in
  let w := mkWorld fresh_card [] in
  star_dev_read (SnvmEnv0 := echo_env) 3 (mkSnvm h w fresh_t1 s)
    = Ret ((- E2BIG, []), mkSnvm (mkHeap (delete 4 (blocks h)) 5) w fresh_t1
             (s <| rsp := NULL |> <| rsp_size := 0 |>)).
Proof.
  intros h s w.
  destruct (dev_read_branches (SnvmEnv0 := echo_env) h w fresh_t1 s 3 4 [0x90; 0] w 0)
    as (_ & _ & H & _); [reflexivity..|].
  apply H; [lia|reflexivity|reflexivity|discriminate|discriminate].
Defined.
