(* ===== verification/Bus.v ===== *)
(** Drivers of register-mapped devices: the machine state (the driver's
    structure, the world, and the log of what went out on the bus) and the
    kernel's SMBus calls, which the drivers use through an interface. *)
From S2P Require Import Prelude.

(** ** The machine

    [log] is a ghost: it records every write and every other visible action in
    order, so that theorems can speak about sequences of hardware accesses. *)
Record machine (D W E : Type) := mkM { drv : D; wld : W; log : list E }.
Arguments mkM {D W E}.
Arguments drv {D W E}.
Arguments wld {D W E}.
Arguments log {D W E}.
#[export] Instance eta_machine D W E : Eta (machine D W E) :=
  fun m => mkM (drv m) (wld m) (log m).

Section machine.
Context {D W E : Type}.
Abbreviation M := (M (machine D W E)).

Definition get_drv : M D := gets drv.
Definition mod_drv (f : D → D) : M unit := modify (fun m => m <| drv ::= f |>).
Definition ask {A} (f : W → A * W) : M A := fun m =>
  let '(a, w) := f (wld m) in Ret (a, m <| wld := w |>).
Definition emit (e : E) : M unit := modify (fun m => m <| log := log m ++ [e] |>).

Lemma ask_ret {A} (f : W → A * W) d w l :
  ask f (mkM d w l) = Ret ((f w).1, mkM d (f w).2 l).
Proof. unfold ask. cbn. by destruct (f w). Qed.
Lemma returns_ask {A} (f : W → A * W) : returns (ask f).
Proof. intros m. unfold ask. destruct (f (wld m)). by eexists _, _. Qed.
Lemma returns_emit e : returns (emit e).
Proof. intros m. by eexists _, _. Qed.
Lemma returns_drv : returns get_drv.
Proof. intros m. by eexists _, _. Qed.
Lemma returns_mod f : returns (mod_drv f).
Proof. intros m. by eexists _, _. Qed.
End machine.
#[export] Hint Resolve returns_ask returns_emit returns_drv returns_mod : rets.

(** ** Audits

    An audit replays the log into an account [B] (what is held, what was
    written); [vc] is the weakest precondition of code in terms of the driver's
    structure and the account only: the code returns, whatever the world
    answers, and leaves them as [Q] says. *)
Section audit.
Context {D W E B : Type} (step : B → E → B) (b0 : B).
Abbreviation M := (M (machine D W E)).

Definition audit (l : list E) : B := foldl step b0 l.
Definition vc {A} (c : M A) (Q : A → D → B → Prop) (d : D) (b : B) : Prop :=
  ∀ w l, audit l = b → wp c (fun a m => Q a (drv m) (audit (log m))) (mkM d w l).

Lemma audit_snoc l e : audit (l ++ [e]) = step (audit l) e.
Proof. unfold audit. by rewrite foldl_app. Qed.

Lemma vc_ret {A} (a : A) Q d b : Q a d b → vc (mret a) Q d b.
Proof. intros H w l <-. exact H. Qed.
Lemma vc_skip Q d b : Q tt d b → vc skip Q d b.
Proof. intros H w l <-. exact H. Qed.
Lemma vc_drv Q d b : Q d d b → vc get_drv Q d b.
Proof. intros H w l <-. exact H. Qed.
Lemma vc_mod f Q d b : Q tt (f d) b → vc (mod_drv f) Q d b.
Proof. intros H w l <-. exact H. Qed.
Lemma vc_emit e Q d b : Q tt d (step b e) → vc (emit e) Q d b.
Proof.
  intros H w l <-. unfold wp, emit, modify. cbn [drv log over_field]. by rewrite audit_snoc.
Qed.
Lemma vc_ask_such {A} (P : A → Prop) (f : W → A * W) Q d b :
  (∀ w, P (f w).1) → (∀ a, P a → Q a d b) → vc (ask f) Q d b.
Proof. intros HP H w l <-. unfold wp. rewrite ask_ret. apply H, HP. Qed.
Lemma vc_ask {A} (f : W → A * W) Q d b : (∀ a, Q a d b) → vc (ask f) Q d b.
Proof. intros H. by apply vc_ask_such with (P := fun _ => True). Qed.
Lemma vc_bind {A C} (c : M A) (k : A → M C) Q d b :
  vc c (fun a d b => vc (k a) Q d b) d b → vc (c ≫= k) Q d b.
Proof.
  intros H w l Hl. apply wp_bind. eapply wp_mono; [by apply H|].
  intros a [d' w' l'] Hk. by apply Hk.
Qed.
Lemma vc_mono {A} (c : M A) (P Q : A → D → B → Prop) d b :
  vc c P d b → (∀ a d' b', P a d' b' → Q a d' b') → vc c Q d b.
Proof. intros H HPQ w l Hl. eapply wp_mono; [by apply H|]. intros a m. apply HPQ. Qed.
(** A call whose effect is a lemma. *)
Lemma vc_call {A C} (P : A → D → B → Prop) (c : M A) (k : A → M C) Q d b :
  vc c P d b → (∀ a d' b', P a d' b' → vc (k a) Q d' b') → vc (c ≫= k) Q d b.
Proof. intros Hc Hk. apply vc_bind. by eapply vc_mono. Qed.
Lemma vc_nz (c k : M Z) Q d b :
  vc c (fun x d b => if x =? 0 then vc k Q d b else Q x d b) d b → vc (ret_if_nz c k) Q d b.
Proof.
  intros H. apply vc_bind. eapply vc_mono; [exact H|]. intros x d' b' Hx.
  revert Hx. cbv beta. destruct (x =? 0); intros Hx; [exact Hx|by apply vc_ret].
Qed.
Lemma vc_run {A} (c : M A) Q d b w l :
  vc c Q d b → audit l = b →
  ∃ a m', c (mkM d w l) = Ret (a, m') ∧ Q a (drv m') (audit (log m')).
Proof.
  intros H Hl. specialize (H w l Hl). unfold wp in H.
  destruct (c _) as [[a m']| |]; [by exists a, m'|done..].
Qed.
(** What a run that returned did, by its specification. *)
Lemma vc_use {A} (c : M A) Q (m m' : machine D W E) a :
  vc c Q (drv m) (audit (log m)) → c m = Ret (a, m') → Q a (drv m') (audit (log m')).
Proof.
  intros H Hc. destruct m as [d w l].
  destruct (vc_run _ _ _ _ w l H eq_refl) as (a' & m2 & E2 & HQ).
  pose proof (eq_trans (eq_sym Hc) E2) as [= -> ->]. exact HQ.
Qed.
End audit.

(** One step of [vc]; a case split for what the environment answers. *)
Ltac vc_step :=
  lazymatch goal with
  | |- vc _ _ (_ ≫= _) _ _ _ => apply vc_bind
  | |- vc _ _ (ret_if_nz _ _) _ _ _ => apply vc_nz
  | |- vc _ _ (mret _) _ _ _ => apply vc_ret
  | |- vc _ _ skip _ _ _ => apply vc_skip
  | |- vc _ _ get_drv _ _ _ => apply vc_drv
  | |- vc _ _ (mod_drv _) _ _ _ => apply vc_mod
  | |- vc _ _ (emit _) _ _ _ => apply vc_emit
  | |- vc _ _ (ask _) _ _ _ => apply vc_ask; intros ?
  end.

(** Run an [ask]; the world becomes [w'].  With [ask_run] its answer is [H]. *)
Tactic Notation "ask_any" ident(w') :=
  lazymatch goal with
  | |- context [(ask ?f ≫= ?k) ?m] =>
      let m' := eval hnf in m in
      let m' := eval cbn [drv wld log] in m' in
      change ((ask f ≫= k) m) with ((ask f ≫= k) m');
      lazymatch m' with
      | mkM ?d ?w ?l =>
          rewrite (bind_ret (ask f) k _ _ _ (ask_ret f d w l));
          generalize ((f w).2); intros w'
      end
  end.
Tactic Notation "ask_run" constr(H) ident(w') := ask_any w'; rewrite H.

(** ** SMBus

    [i2c_smbus_read_byte_data] and its relatives: they return the data or a
    negative error. *)
Class Smbus (W Chip : Type) := {
  bus_read_byte : Chip → Z → W → Z * W;
  bus_write_byte : Chip → Z → Z → W → Z * W;
  bus_read_word : Chip → Z → W → Z * W;
  bus_write_word : Chip → Z → Z → W → Z * W;
}.

(** What the kernel documents of them. *)
Class SmbusLaws (W Chip : Type) `{!Smbus W Chip} := {
  read_byte_range c r w : (bus_read_byte c r w).1 < 0 ∨ is_u8 (bus_read_byte c r w).1;
  read_word_range c r w : (bus_read_word c r w).1 < 0 ∨ is_u16 (bus_read_word c r w).1;
  write_byte_range c r v w : (bus_write_byte c r v w).1 <= 0;
  write_word_range c r v w : (bus_write_word c r v w).1 <= 0;
}.

(** A register write, with the result the bus reported. *)
Inductive bus_event (Chip : Type) :=
  | Wr (c : Chip) (reg val : Z) (ret : Z)
  | WrW (c : Chip) (reg val : Z) (ret : Z).
Arguments Wr {Chip}.
Arguments WrW {Chip}.
#[export] Instance bus_event_eq_dec Chip `{!EqDecision Chip} : EqDecision (bus_event Chip).
Proof. solve_decision. Defined.

Section smbus.
Context {D W Chip E : Type} `{!Smbus W Chip} (ev : bus_event Chip → E).
Abbreviation M := (M (machine D W E)).

Definition i2c_smbus_read_byte_data (c : Chip) (reg : Z) : M Z :=
  ask (bus_read_byte c reg).
Definition i2c_smbus_read_word_data (c : Chip) (reg : Z) : M Z :=
  ask (bus_read_word c reg).
(** The value argument is a [u8]. *)
Definition i2c_smbus_write_byte_data (c : Chip) (reg val : Z) : M Z :=
  ret ← ask (bus_write_byte c reg (u8 val));
  emit (ev (Wr c reg (u8 val) ret));;
  mret ret.
Definition i2c_smbus_write_word_data (c : Chip) (reg val : Z) : M Z :=
  ret ← ask (bus_write_word c reg (u16 val));
  emit (ev (WrW c reg (u16 val) ret));;
  mret ret.
End smbus.

(** ** A bus with plain registers

    Every transfer succeeds, a register holds what was written last. *)
Abbreviation regfile Chip := (gmap (Chip * Z) Z).
Section regfile.
Context {Chip : Type} `{Countable Chip}.
Definition reg (w : regfile Chip) (c : Chip) (r : Z) : Z := default 0 (w !! (c, r)).
Definition set_reg (w : regfile Chip) (c : Chip) (r v : Z) : regfile Chip :=
  <[(c, r) := v]> w.
#[export] Instance regfile_smbus : Smbus (regfile Chip) Chip := {|
  bus_read_byte c r w := (u8 (reg w c r), w);
  bus_write_byte c r v w := (0, set_reg w c r v);
  bus_read_word c r w := (u16 (reg w c r), w);
  bus_write_word c r v w := (0, set_reg w c r v);
|}.
#[export] Instance regfile_laws : SmbusLaws (regfile Chip) Chip.
Proof.
  split; intros; cbn; try lia; right; unfold is_u8, is_u16, u8, u16;
    apply Z.mod_pos_bound; lia.
Qed.

Lemma reg_set w c r v : reg (set_reg w c r v) c r = v.
Proof. unfold reg, set_reg. by rewrite lookup_insert_eq. Qed.
Lemma reg_set_ne w c r v c' r' :
  (c, r) ≠ (c', r') → reg (set_reg w c r v) c' r' = reg w c' r'.
Proof. intros ?. unfold reg, set_reg. by rewrite lookup_insert_ne. Qed.
End regfile.

(** ** Facts *)

(** A decidable fact about a byte, by trying all of them. *)
Lemma u8_by_cases (P : Z → bool) :
  forallb P (seqZ 0 256) = true → ∀ z, is_u8 z → P z = true.
Proof.
  intros H z Hz. rewrite forallb_forall in H. apply H. rewrite <-list_elem_of_In.
  apply elem_of_seqZ. unfold is_u8 in Hz. lia.
Qed.
