(* ===== verification/Sm5714Battery.v ===== *)
(** [sm5714_battery.c]: the charger, the fuel gauge and the USB switch of the
    SM5714. *)
From S2P Require Import Prelude Bus.

(** ** Registers *)

Definition SM5714_CHG_REG_STATUS1 := 0x0d.
Definition SM5714_CHG_STATUS1_VBUS_POK := BIT 0.
Definition SM5714_CHG_REG_STATUS2 := 0x0e.
Definition SM5714_CHG_STATUS2_CHG_ON := BIT 3.
Definition SM5714_CHG_STATUS2_TOPOFF := BIT 5.
Definition SM5714_CHG_REG_CNTL1 := 0x13.
Definition SM5714_CHG_CNTL1_ENQ4FET := BIT 3.
Definition SM5714_CHG_REG_CNTL2 := 0x14.
Definition SM5714_CHG_CNTL2_MODE_MASK := GENMASK 3 0.
Definition SM5714_CHG_CNTL2_CHARGING := 0x05.
Definition SM5714_CHG_CNTL2_USB_OTG := 0x07.
Definition SM5714_CHG_REG_VBUSCNTL := 0x15.
Definition SM5714_CHG_REG_CHGCNTL2 := 0x18.
Definition SM5714_CHG_REG_CHGCNTL4 := 0x1a.
Definition SM5714_CHG_BATREG_MASK := GENMASK 5 0.
Definition SM5714_CHG_REG_BSTCNTL1 := 0x23.
Definition SM5714_CHG_BSTCNTL1_OTG_MASK := Z.lor (GENMASK 7 6) (GENMASK 3 0).
Definition SM5714_CHG_BSTCNTL1_5V1_900MA := 0x46.
Definition SM5714_CHG_REG_DEVICEID := 0x50.
Definition SM5714_MUIC_REG_CNTL := 0x05.
Definition SM5714_MUIC_CNTL_BC12OFF := BIT 1.
Definition SM5714_MUIC_REG_MANUAL_SW := 0x06.
Definition SM5714_MUIC_MANUAL_SW_MANUAL := BIT 7.
Definition SM5714_MUIC_MANUAL_SW_PATH_MASK := GENMASK 5 0.
Definition SM5714_MUIC_MANUAL_SW_USB := 0x09.
Definition SM5714_MUIC_REG_DEVICE_ID := 0x00.
Definition SM5714_MUIC_REG_DEVICE_TYPE1 := 0x07.
Definition SM5714_MUIC_TYPE_DCD_OUT_SDP := BIT 0.
Definition SM5714_MUIC_TYPE_SDP := BIT 1.
Definition SM5714_MUIC_TYPE_DCP := BIT 2.
Definition SM5714_MUIC_TYPE_CDP := BIT 3.
Definition SM5714_MUIC_TYPE_U200 := BIT 4.
Definition SM5714_MUIC_TYPE_AFC := BIT 5.
Definition SM5714_MUIC_TYPE_QC20 := BIT 6.
Definition SM5714_MUIC_TYPE_LO_TA := BIT 7.
Definition SM5714_FG_REG_DEVICE_ID := 0x00.
Definition SM5714_FG_REG_SRAM_RADDR := 0x8c.
Definition SM5714_FG_REG_SRAM_RDATA := 0x8d.
Definition SM5714_FG_SRAM_SOC := 0x00.
Definition SM5714_FG_SRAM_OCV := 0x01.
Definition SM5714_FG_SRAM_VBAT := 0x03.
Definition SM5714_FG_SRAM_CURRENT := 0x05.
Definition SM5714_FG_SRAM_TEMPERATURE := 0x07.
Definition SM5714_FG_SRAM_VBAT_AVG := 0x08.
Definition SM5714_FG_SRAM_CURRENT_AVG := 0x09.
Definition SM5714_CAPACITY_POLL_DIVIDER := 10.

(** The kernel's [enum]s for the power supply class ([linux/power_supply.h]). *)
Definition POWER_SUPPLY_STATUS_UNKNOWN := 0.
Definition POWER_SUPPLY_STATUS_CHARGING := 1.
Definition POWER_SUPPLY_STATUS_DISCHARGING := 2.
Definition POWER_SUPPLY_STATUS_NOT_CHARGING := 3.
Definition POWER_SUPPLY_STATUS_FULL := 4.
Definition POWER_SUPPLY_USB_TYPE_UNKNOWN := 0.
Definition POWER_SUPPLY_USB_TYPE_SDP := 1.
Definition POWER_SUPPLY_USB_TYPE_DCP := 2.
Definition POWER_SUPPLY_USB_TYPE_CDP := 3.
Definition POWER_SUPPLY_USB_TYPE_PD := 6.
Definition POWER_SUPPLY_TECHNOLOGY_LION := 2.

Inductive sm5714_charge_thermal_state :=
  | SM5714_THERMAL_NORMAL | SM5714_THERMAL_REDUCED | SM5714_THERMAL_STOP.
#[export] Instance thermal_eq_dec : EqDecision sm5714_charge_thermal_state.
Proof. solve_decision. Defined.

(** The three I2C clients of the driver. *)
Inductive chip := CHG | FG | MUIC.
#[export] Instance chip_eq_dec : EqDecision chip.
Proof. solve_decision. Defined.
#[export] Instance chip_countable : Countable chip.
Proof.
  apply (inj_countable' (fun c => match c with CHG => 0 | FG => 1 | MUIC => 2 end)%Z
           (fun n => if n =? 0 then CHG else if n =? 1 then FG else MUIC)).
  by intros [].
Defined.

(** The board data of [power_supply_battery_info]. *)
Record battery_info := mkInfo {
  charge_full_design_uah : Z; voltage_max_design_uv : Z; voltage_min_design_uv : Z }.

(** [struct sm5714_battery] without the handles and locks. *)
Record sm5714_battery := mkSm {
  battery_temp : bool;   (* the IIO channel exists *)
  info : option battery_info;
  float_uv : Z;
  last_status : Z;
  last_capacity : Z;
  last_online : bool;
  last_usb_type : Z;
  poll_count : Z;
  typec_mv : Z;
  typec_ma : Z;
  thermal_state : sm5714_charge_thermal_state;
  direct_charging : bool;
  otg_active : bool;
  fast_charge : bool }.
#[export] Instance eta_sm5714 : Eta sm5714_battery := fun r =>
  mkSm (battery_temp r) (info r) (float_uv r) (last_status r) (last_capacity r)
       (last_online r) (last_usb_type r) (poll_count r) (typec_mv r) (typec_ma r)
       (thermal_state r) (direct_charging r) (otg_active r) (fast_charge r).

(** The properties the two power supplies answer. *)
Inductive bat_property :=
  | PROP_STATUS | PROP_PRESENT | PROP_TECHNOLOGY | PROP_CAPACITY | PROP_VOLTAGE_NOW
  | PROP_VOLTAGE_AVG | PROP_VOLTAGE_OCV | PROP_CURRENT_NOW | PROP_CURRENT_AVG | PROP_TEMP
  | PROP_CHARGE_FULL_DESIGN | PROP_VOLTAGE_MAX_DESIGN | PROP_VOLTAGE_MIN_DESIGN
  | PROP_OTHER.
Inductive usb_property :=
  | PROP_ONLINE | PROP_USB_TYPE | PROP_VOLTAGE_MAX | PROP_CURRENT_MAX | PROP_USB_OTHER.

(** What goes out: register writes, notifications to user space, delays and the
    next poll. *)
Inductive bat_event :=
  | EvBus (e : bus_event chip)
  | EvBatChanged | EvUsbChanged
  | EvSleep (us : Z)
  | EvPollIn (ms : Z)
  | EvCancelPoll.
#[export] Instance bat_event_eq_dec : EqDecision bat_event.
Proof. solve_decision. Defined.

(** ** Conversions *)

Definition sm5714_batreg_offset (uv : Z) : Z :=
  let mv := Z.quot uv 1000 in
  if mv <=? 3700 then 0x00
  else if mv <? 3900 then u8 (Z.quot (mv - 3700) 50)
  else if mv <? 4050 then u8 (Z.quot (mv - 3900) 100 + 4)
  else if mv <? 4630 then u8 (Z.quot (mv - 4050) 10 + 6)
  else 0x15.

(** The arithmetic is on [unsigned int]. *)
Definition sm5714_input_current_reg (ma : Z) : Z :=
  u8 (clamp (Z.quot (u32 (ma - 100)) 25) 0 0x7f).

Definition sm5714_fast_current_reg (ma : Z) : Z :=
  let ua := u32 (ma * 1000) in
  if ua <=? 109375 then 0x07
  else u8 (clamp (u32 (7 + Z.quot (u32 (ua - 109375)) 15625)) 0x07 0xe0).

Definition next_thermal_state (st : sm5714_charge_thermal_state) (temp : Z)
    : sm5714_charge_thermal_state :=
  let from_normal :=
    if 500 <=? temp then SM5714_THERMAL_STOP
    else if 460 <=? temp then SM5714_THERMAL_REDUCED
    else SM5714_THERMAL_NORMAL in
  match st with
  | SM5714_THERMAL_STOP =>
      if 460 <=? temp then SM5714_THERMAL_STOP
      else if 420 <? temp then SM5714_THERMAL_REDUCED
      else from_normal
  | SM5714_THERMAL_REDUCED =>
      if 420 <? temp then
        if 500 <=? temp then SM5714_THERMAL_STOP else SM5714_THERMAL_REDUCED
      else from_normal
  | SM5714_THERMAL_NORMAL => from_normal
  end.

(** [DIV_ROUND_CLOSEST] of signed operands. *)
Definition DIV_ROUND_CLOSEST (x d : Z) : Z :=
  if 0 <? x then Z.quot (x + Z.quot d 2) d else Z.quot (x - Z.quot d 2) d.

(** The conversions of the fuel gauge's words. *)
Definition capacity_of_raw (raw : Z) : Z :=
  clamp (Z.quot (Z.shiftr (raw * 10) 8) 10) 0 100.
Definition voltage_of_raw (raw : Z) : Z :=
  (if testm raw 0x8000 then 2700 - Z.quot (Z.land raw 0x7fff * 10) 109
   else Z.quot (raw * 10) 109 + 2700) * 1000.
Definition ocv_of_raw (raw : Z) : Z := Z.shiftr (raw * 1000) 11 * 1000.
Definition current_of_raw (raw : Z) : Z :=
  let ma := Z.quot (Z.land raw 0x7fff * 1000) 2044 in
  (if testm raw 0x8000 then - ma else ma) * 1000.
Definition temp_of_raw (raw : Z) : Z :=
  let temp := Z.shiftr (Z.shiftr (Z.land raw 0x7fff * 10 * 2989) 11) 8 in
  if testm raw 0x8000 then - temp else temp.

(** ** The driver *)

(** The world of the driver: the SMBus and the board's pack thermistor. *)
Class BatEnv (W : Type) := {
  bat_smbus :: Smbus W chip;
  iio_read_channel_processed : W → (Z * Z) * W;
}.

(** The driver's structure and whether [sm5714_primary] points to it. *)
Record bat_state := mkBat { primary : bool; sm : sm5714_battery }.
#[export] Instance eta_bat : Eta bat_state := fun r => mkBat (primary r) (sm r).

Section battery.
Context {W : Type} `{!BatEnv W}.
Abbreviation M := (M (machine bat_state W bat_event)).

Definition get_sm : M sm5714_battery := d ← get_drv; mret (sm d).
Definition mod_sm (f : sm5714_battery → sm5714_battery) : M unit :=
  mod_drv (fun d => d <| sm ::= f |>).
Definition read8 (c : chip) (r : Z) : M Z := i2c_smbus_read_byte_data c r.
Definition write8 (c : chip) (r v : Z) : M Z := i2c_smbus_write_byte_data EvBus c r v.
Definition power_supply_changed_both : M unit := emit EvUsbChanged;; emit EvBatChanged.

Definition sm5714_chg_update_bits (reg mask val : Z) : M Z :=
  old ←? read8 CHG reg;
  let new := u8 (Z.lor (Z.land old (Z.lnot mask)) (Z.land val mask)) in
  if new =? old then mret 0 else write8 CHG reg new.

Definition sm5714_set_float_voltage : M Z :=
  s ← get_sm;
  if float_uv s =? 0 then mret 0
  else sm5714_chg_update_bits SM5714_CHG_REG_CHGCNTL4 SM5714_CHG_BATREG_MASK
         (sm5714_batreg_offset (float_uv s)).

Definition manual_sw_clear : Z :=
  Z.lnot (Z.lor SM5714_MUIC_MANUAL_SW_MANUAL SM5714_MUIC_MANUAL_SW_PATH_MASK).

Definition sm5714_muic_set_otg_path (active : bool) : M Z :=
  if active then
    old_cntl ←? read8 MUIC SM5714_MUIC_REG_CNTL;
    write8 MUIC SM5714_MUIC_REG_CNTL (Z.lor old_cntl SM5714_MUIC_CNTL_BC12OFF) ?;
    old ← read8 MUIC SM5714_MUIC_REG_MANUAL_SW;
    let restore_bc12 ret :=
      write8 MUIC SM5714_MUIC_REG_CNTL old_cntl;; mret ret in
    if old <? 0 then restore_bc12 old
    else
      let new := Z.lor (Z.lor (Z.land old manual_sw_clear) SM5714_MUIC_MANUAL_SW_MANUAL)
                   SM5714_MUIC_MANUAL_SW_USB in
      ret ← write8 MUIC SM5714_MUIC_REG_MANUAL_SW new;
      if ret =? 0 then mret 0 else restore_bc12 ret
  else
    old ←? read8 MUIC SM5714_MUIC_REG_MANUAL_SW;
    write8 MUIC SM5714_MUIC_REG_MANUAL_SW (Z.land old manual_sw_clear) ?;
    old ←? read8 MUIC SM5714_MUIC_REG_CNTL;
    write8 MUIC SM5714_MUIC_REG_CNTL (Z.land old (Z.lnot SM5714_MUIC_CNTL_BC12OFF)).

Definition sm5714_get_online_raw : M Z :=
  ret ←? read8 CHG SM5714_CHG_REG_STATUS1;
  mret (if testm ret SM5714_CHG_STATUS1_VBUS_POK then 1 else 0).

Definition sm5714_get_online : M Z :=
  s ← get_sm;
  if otg_active s then mret 0 else sm5714_get_online_raw.

Definition usb_type_of_muic (type : Z) : Z :=
  if testm type SM5714_MUIC_TYPE_CDP then POWER_SUPPLY_USB_TYPE_CDP
  else if testm type (Z.lor SM5714_MUIC_TYPE_SDP SM5714_MUIC_TYPE_DCD_OUT_SDP)
  then POWER_SUPPLY_USB_TYPE_SDP
  else if testm type (Z.lor SM5714_MUIC_TYPE_DCP (Z.lor SM5714_MUIC_TYPE_U200
            (Z.lor SM5714_MUIC_TYPE_AFC (Z.lor SM5714_MUIC_TYPE_QC20
               SM5714_MUIC_TYPE_LO_TA))))
  then POWER_SUPPLY_USB_TYPE_DCP
  else POWER_SUPPLY_USB_TYPE_UNKNOWN.

Definition sm5714_get_usb_type : M Z :=
  online ← sm5714_get_online;
  if online <=? 0 then
    mret (if online <? 0 then online else POWER_SUPPLY_USB_TYPE_UNKNOWN)
  else
    s ← get_sm;
    if 5000 <? typec_mv s then mret POWER_SUPPLY_USB_TYPE_PD
    else
      type ←? read8 MUIC SM5714_MUIC_REG_DEVICE_TYPE1;
      mret (usb_type_of_muic type).

Definition sm5714_fg_read_sram (addr : Z) : M Z :=
  ret ← i2c_smbus_write_word_data EvBus FG SM5714_FG_REG_SRAM_RADDR addr;
  if ret <? 0 then mret ret
  else i2c_smbus_read_word_data FG SM5714_FG_REG_SRAM_RDATA.

(** A reading: the return value and, when it is 0, [*val]. *)
Definition reading (addr : Z) (conv : Z → Z) : M (Z * Z) :=
  raw ← sm5714_fg_read_sram addr;
  if raw <? 0 then mret (raw, 0) else mret (0, conv raw).
Definition sm5714_get_capacity : M (Z * Z) := reading SM5714_FG_SRAM_SOC capacity_of_raw.
Definition sm5714_get_voltage (addr : Z) : M (Z * Z) := reading addr voltage_of_raw.
Definition sm5714_get_ocv : M (Z * Z) := reading SM5714_FG_SRAM_OCV ocv_of_raw.
Definition sm5714_get_current (addr : Z) : M (Z * Z) := reading addr current_of_raw.

Definition sm5714_get_temp : M (Z * Z) :=
  s ← get_sm;
  pack ← (if battery_temp s then
            '(ret, temp_mc) ← ask iio_read_channel_processed;
            let temp := DIV_ROUND_CLOSEST temp_mc 100 in
            mret (if (ret =? 0) && (-200 <=? temp) && (temp <=? 900)
                  then Some temp else None)
          else mret None);
  match pack with
  | Some temp => mret (0, temp)
  | None => reading SM5714_FG_SRAM_TEMPERATURE temp_of_raw
  end.

Definition sm5714_charge_thermal_state_next (temp : Z) : M sm5714_charge_thermal_state :=
  s ← get_sm; mret (next_thermal_state (thermal_state s) temp).

(** The limits in mA for an advertised contract or a port type. *)
Definition charge_limits (fast : bool) (mv ma usb_type : Z) : Z * Z :=
  if (5000 <=? mv) && (500 <=? ma) then
    if fast then (Z.min ma 3000, 3150)
    else (Z.min ma (if 5000 <? mv then 1660 else 3000), 2800)
  else if usb_type =? POWER_SUPPLY_USB_TYPE_DCP then (1800, 2100)
  else if usb_type =? POWER_SUPPLY_USB_TYPE_CDP then (1500, 1500)
  else (500, 500).

(** The writes of [sm5714_configure_charging], from the lowered input limit
    to the final one. *)
Definition program_charging (input_ma fast_ma : Z) : M Z :=
  write8 CHG SM5714_CHG_REG_VBUSCNTL (sm5714_input_current_reg 500) ?;
  write8 CHG SM5714_CHG_REG_CHGCNTL2 (sm5714_fast_current_reg fast_ma) ?;
  sm5714_set_float_voltage ?;
  (if 500 <? input_ma
   then emit (EvSleep (DIV_ROUND_UP (input_ma - 500) 250 * 1000)) else skip);;
  sm5714_chg_update_bits SM5714_CHG_REG_CNTL1 SM5714_CHG_CNTL1_ENQ4FET
    SM5714_CHG_CNTL1_ENQ4FET ?;
  write8 CHG SM5714_CHG_REG_VBUSCNTL (sm5714_input_current_reg input_ma).

Definition sm5714_configure_charging : M Z :=
  s ← get_sm;
  if otg_active s then mret (- EBUSY)
  else
    usb_type ←? sm5714_get_usb_type;
    '(ret, temp) ← sm5714_get_temp;
    (if ret =? 0
     then mod_sm (fun s => s <| thermal_state ::= fun st => next_thermal_state st temp |>)
     else skip);;
    s' ← get_sm;
    match thermal_state s' with
    | SM5714_THERMAL_STOP =>
        sm5714_chg_update_bits SM5714_CHG_REG_CNTL1 SM5714_CHG_CNTL1_ENQ4FET 0
    | st =>
        let '(input_ma, fast_ma) :=
          charge_limits (fast_charge s) (typec_mv s) (typec_ma s) usb_type in
        let fast_ma := if bool_decide (st = SM5714_THERMAL_REDUCED)
                       then Z.min fast_ma 2100 else fast_ma in
        program_charging input_ma fast_ma
    end.

(** ** The functions exported to the other drivers *)

Definition sm5714_battery_set_pd_contract (mv ma : Z) : M Z :=
  if (negb (mv =? 0) && ((mv <? 5000) || (9000 <? mv))) || (3000 <? ma)
  then mret (- ERANGE)
  else
    d ← get_drv;
    if negb (primary d) then mret (- EPROBE_DEFER)
    else
      mod_sm (fun s => (s <| typec_mv := mv |>) <| typec_ma := ma |>);;
      ret ← (if negb (mv =? 0) && negb (ma =? 0) then
               online ← sm5714_get_online;
               s ← get_sm;
               if (0 <? online) && negb (direct_charging s)
               then sm5714_configure_charging else mret 0
             else mret 0);
      power_supply_changed_both;;
      mret ret.

Definition sm5714_battery_set_direct_charge (active : bool) : M Z :=
  d ← get_drv;
  if negb (primary d) then mret (- EPROBE_DEFER)
  else if active then
    '(ret, temp) ← sm5714_get_temp;
    if negb (ret =? 0) then mret ret
    else if (temp <? 100) || (420 <=? temp) then mret (- ERANGE)
    else
      mod_sm (fun s => s <| direct_charging := true |>);;
      ret ← sm5714_chg_update_bits SM5714_CHG_REG_CNTL1 SM5714_CHG_CNTL1_ENQ4FET 0;
      (if negb (ret =? 0) then mod_sm (fun s => s <| direct_charging := false |>)
       else skip);;
      power_supply_changed_both;;
      mret ret
  else
    mod_sm (fun s => s <| direct_charging := false |>);;
    online ← sm5714_get_online;
    ret ← (if 0 <? online then sm5714_configure_charging else mret 0);
    power_supply_changed_both;;
    mret ret.

(** The register accesses that turn the boost on. *)
Definition enable_boost : M Z :=
  sm5714_muic_set_otg_path true ?;
  sm5714_chg_update_bits SM5714_CHG_REG_CNTL1 SM5714_CHG_CNTL1_ENQ4FET 0 ?;
  sm5714_chg_update_bits SM5714_CHG_REG_BSTCNTL1 SM5714_CHG_BSTCNTL1_OTG_MASK
    SM5714_CHG_BSTCNTL1_5V1_900MA ?;
  sm5714_chg_update_bits SM5714_CHG_REG_CNTL2 SM5714_CHG_CNTL2_MODE_MASK
    SM5714_CHG_CNTL2_USB_OTG.

Definition sm5714_battery_set_otg (active : bool) : M Z :=
  d ← get_drv;
  if negb (primary d) then mret (- EPROBE_DEFER)
  else if bool_decide (active = otg_active (sm d)) then
    power_supply_changed_both;; mret 0
  else if active then
    if direct_charging (sm d) then mret (- EBUSY)
    else
      online ← sm5714_get_online_raw;
      if online <? 0 then mret online
      else if negb (online =? 0) then mret (- EBUSY)
      else
        ret ← enable_boost;
        (if ret =? 0 then mod_sm (fun s => s <| otg_active := true |>)
         else sm5714_muic_set_otg_path false;; skip);;
        power_supply_changed_both;;
        mret ret
  else
    ret ← sm5714_chg_update_bits SM5714_CHG_REG_CNTL2 SM5714_CHG_CNTL2_MODE_MASK
            SM5714_CHG_CNTL2_CHARGING;
    ret ← (if ret =? 0 then
             mod_sm (fun s => s <| otg_active := false |>);;
             sm5714_muic_set_otg_path false
           else mret ret);
    restore ← (if ret =? 0 then
                 online ← sm5714_get_online_raw; mret (0 <? online)
               else mret false);
    power_supply_changed_both;;
    if (ret =? 0) && restore then sm5714_configure_charging else mret ret.

Definition sm5714_battery_is_otg_active : M bool :=
  d ← get_drv; mret (primary d && otg_active (sm d)).

Definition sm5714_battery_fast_charge_enabled : M bool :=
  d ← get_drv; mret (primary d && fast_charge (sm d)).

(** ** The power supplies *)

Definition sm5714_get_status : M Z :=
  s ← get_sm;
  if otg_active s then mret POWER_SUPPLY_STATUS_DISCHARGING
  else
    st1 ←? read8 CHG SM5714_CHG_REG_STATUS1;
    st2 ←? read8 CHG SM5714_CHG_REG_STATUS2;
    mret (if testm st2 SM5714_CHG_STATUS2_TOPOFF then POWER_SUPPLY_STATUS_FULL
          else if direct_charging s && testm st1 SM5714_CHG_STATUS1_VBUS_POK
          then POWER_SUPPLY_STATUS_CHARGING
          else if testm st2 SM5714_CHG_STATUS2_CHG_ON then POWER_SUPPLY_STATUS_CHARGING
          else if testm st1 SM5714_CHG_STATUS1_VBUS_POK
          then POWER_SUPPLY_STATUS_NOT_CHARGING
          else POWER_SUPPLY_STATUS_DISCHARGING).

(** The value of a call that returns it, or its error. *)
Definition value_of (m : M Z) : M (Z * Z) :=
  ret ← m; mret (if ret <? 0 then (ret, 0) else (0, ret)).
Definition board_value (f : battery_info → Z) : M (Z * Z) :=
  s ← get_sm;
  mret (match info s with
        | Some i => if f i <? 0 then (- ENODATA, 0) else (0, f i)
        | None => (- ENODATA, 0)
        end).

Definition sm5714_bat_get_property (psp : bat_property) : M (Z * Z) :=
  match psp with
  | PROP_STATUS => value_of sm5714_get_status
  | PROP_PRESENT => mret (0, 1)
  | PROP_TECHNOLOGY => mret (0, POWER_SUPPLY_TECHNOLOGY_LION)
  | PROP_CAPACITY => sm5714_get_capacity
  | PROP_VOLTAGE_NOW => sm5714_get_voltage SM5714_FG_SRAM_VBAT
  | PROP_VOLTAGE_AVG => sm5714_get_voltage SM5714_FG_SRAM_VBAT_AVG
  | PROP_VOLTAGE_OCV => sm5714_get_ocv
  | PROP_CURRENT_NOW => sm5714_get_current SM5714_FG_SRAM_CURRENT
  | PROP_CURRENT_AVG => sm5714_get_current SM5714_FG_SRAM_CURRENT_AVG
  | PROP_TEMP => sm5714_get_temp
  | PROP_CHARGE_FULL_DESIGN => board_value charge_full_design_uah
  | PROP_VOLTAGE_MAX_DESIGN => board_value voltage_max_design_uv
  | PROP_VOLTAGE_MIN_DESIGN => board_value voltage_min_design_uv
  | PROP_OTHER => mret (- EINVAL, 0)
  end.

Definition sm5714_usb_get_property (psp : usb_property) : M (Z * Z) :=
  match psp with
  | PROP_ONLINE => value_of sm5714_get_online
  | PROP_USB_TYPE => value_of sm5714_get_usb_type
  | PROP_VOLTAGE_MAX =>
      s ← get_sm;
      mret (0, s32 ((if typec_mv s =? 0 then 5000 else typec_mv s) * 1000))
  | PROP_CURRENT_MAX => s ← get_sm; mret (0, s32 (typec_ma s * 1000))
  | PROP_USB_OTHER => mret (- EINVAL, 0)
  end.

(** ** The one-second poll *)

Definition poll_capacity : M Z :=
  s ← get_sm;
  mod_sm (fun s => s <| poll_count ::= fun c => u32 (c + 1) |>);;
  if Z.rem (poll_count s) SM5714_CAPACITY_POLL_DIVIDER =? 0 then
    '(ret, v) ← sm5714_get_capacity;
    mret (if ret =? 0 then v else last_capacity s)
  else mret (last_capacity s).

(** Follow the temperature; [status] is read again when the charger was
    reprogrammed. *)
Definition poll_thermal (online status : Z) : M Z :=
  s ← get_sm;
  if 0 <? online then
    '(ret, temp) ← sm5714_get_temp;
    (if ret =? 0
     then mod_sm (fun s => s <| thermal_state ::= fun st => next_thermal_state st temp |>)
     else skip);;
    s' ← get_sm;
    if bool_decide (thermal_state s' = thermal_state s) then mret status
    else sm5714_configure_charging;; sm5714_get_status
  else mret status.

(** Close Q4 again when it was left open. *)
Definition poll_recover (online status : Z) : M Z :=
  s ← get_sm;
  if (0 <? online) && negb (direct_charging s)
     && (status =? POWER_SUPPLY_STATUS_NOT_CHARGING)
     && negb (bool_decide (thermal_state s = SM5714_THERMAL_STOP)) then
    cntl1 ← read8 CHG SM5714_CHG_REG_CNTL1;
    if (0 <=? cntl1) && negb (testm cntl1 SM5714_CHG_CNTL1_ENQ4FET) then
      ret ← sm5714_configure_charging;
      if ret =? 0 then sm5714_get_status else mret status
    else mret status
  else mret status.

Definition poll_notify (status capacity online usb_type : Z) : M unit :=
  s ← get_sm;
  (if (0 <=? status) && (negb (status =? last_status s)
                         || negb (capacity =? last_capacity s)) then
     mod_sm (fun s => (s <| last_status := status |>) <| last_capacity := capacity |>);;
     emit EvBatChanged
   else skip);;
  (if (0 <=? online) && negb (bool_decide (negb (online =? 0) = last_online s)) then
     mod_sm (fun s => s <| last_online := negb (online =? 0) |>);;
     (if online =? 0 then
        sm5714_chg_update_bits SM5714_CHG_REG_CNTL1 SM5714_CHG_CNTL1_ENQ4FET 0;; skip
      else skip);;
     power_supply_changed_both
   else skip);;
  (if (0 <=? usb_type) && negb (usb_type =? last_usb_type s) then
     mod_sm (fun s => s <| last_usb_type := usb_type |>);;
     emit EvUsbChanged
   else skip).

Definition sm5714_poll_work : M unit :=
  status ← sm5714_get_status;
  online ← sm5714_get_online;
  usb_type ← sm5714_get_usb_type;
  capacity ← poll_capacity;
  status ← poll_thermal online status;
  status ← poll_recover online status;
  poll_notify status capacity online usb_type;;
  emit (EvPollIn 1000).

Definition sm5714_suspend : M Z := emit EvCancelPoll;; mret 0.
Definition sm5714_resume : M Z := emit (EvPollIn 0);; mret 0.

(** [parsed] is what [kstrtobool] makes of the buffer. *)
Definition fast_charge_store (parsed : Z + bool) (count : Z) : M Z :=
  match parsed with
  | inl ret => mret ret
  | inr enabled =>
      s ← get_sm;
      if bool_decide (fast_charge s = enabled) then mret count
      else
        mod_sm (fun s => s <| fast_charge := enabled |>);;
        sm5714_configure_charging;;
        mret count
  end.

(** ** Probing

    The steps that talk to the chip or set driver state; [board] says what
    [power_supply_get_battery_info] finds, [smbus_ok] what the adapter can
    do.  The device-managed allocations and registrations are taken to
    succeed.  The new structure takes the place of the old one once it is
    registered as [sm5714_primary]; it is not used before. *)
Definition probe_float_voltage (board : option battery_info) : M unit :=
  mod_sm (fun s => s <| info := board |>);;
  match board with
  | Some i =>
      if 0 <? voltage_max_design_uv i then
        mod_sm (fun s => s <| float_uv := voltage_max_design_uv i |>);;
        sm5714_set_float_voltage;; skip
      else skip
  | None => skip
  end.

Definition probe_state : M unit :=
  status ← sm5714_get_status;
  mod_sm (fun s => s <| last_status := status |>);;
  '(ret, v) ← sm5714_get_capacity;
  mod_sm (fun s => s <| last_capacity := if ret =? 0 then v else -1 |>);;
  online ← sm5714_get_online;
  mod_sm (fun s => s <| last_online := 0 <? online |>);;
  usb_type ← sm5714_get_usb_type;
  mod_sm (fun s => s <| last_usb_type := usb_type |>);;
  s ← get_sm;
  if last_online s && (last_status s =? POWER_SUPPLY_STATUS_NOT_CHARGING) then
    ret ← sm5714_configure_charging;
    if ret =? 0 then
      status ← sm5714_get_status;
      mod_sm (fun s => s <| last_status := status |>)
    else skip
  else skip.

Definition sm5714_probe (smbus_ok has_iio : bool) (board : option battery_info) : M Z :=
  if negb smbus_ok then mret (- EOPNOTSUPP)
  else
    _id ←? read8 CHG SM5714_CHG_REG_DEVICEID;
    _id ←? i2c_smbus_read_word_data FG SM5714_FG_REG_DEVICE_ID;
    _id ←? read8 MUIC SM5714_MUIC_REG_DEVICE_ID;
    d ← get_drv;
    if primary d then mret (- EBUSY)
    else
      mod_drv (fun d => mkBat true
        (mkSm has_iio None 0 0 0 false 0 0 0 0 SM5714_THERMAL_NORMAL false false false));;
      probe_float_voltage board;;
      probe_state;;
      emit (EvPollIn 1000);;
      mret 0.

Definition sm5714_clear_primary : M unit := mod_drv (fun d => d <| primary := false |>).
End battery.
