(* ===== verification/Sm5714Facts.v ===== *)
(** A tablet's charging hardware with plain registers, and the lemmas that run
    the driver on it. *)
From S2P Require Import Prelude Bus Sm5714Battery.

(** The registers of the three blocks, the fuel gauge's SRAM behind its window,
    and the pack thermistor in millidegrees. *)
Record tablet := mkTablet { regs : regfile chip; sram : Z → Z; pack_mc : Z }.
#[export] Instance eta_tablet : Eta tablet := fun r => mkTablet (regs r) (sram r) (pack_mc r).

Definition tab_reg (w : tablet) (c : chip) (r : Z) : Z := u8 (reg (regs w) c r).
Definition tab_set (w : tablet) (c : chip) (r v : Z) : tablet :=
  w <| regs := set_reg (regs w) c r v |>.

#[export] Instance tablet_smbus : Smbus tablet chip := {|
  bus_read_byte c r w := (tab_reg w c r, w);
  bus_write_byte c r v w := (0, tab_set w c r v);
  bus_read_word c r w :=
    (u16 (if bool_decide (c = FG) && (r =? SM5714_FG_REG_SRAM_RDATA)
          then sram w (reg (regs w) FG SM5714_FG_REG_SRAM_RADDR)
          else reg (regs w) c r), w);
  bus_write_word c r v w := (0, tab_set w c r v) |}.
#[export] Instance tablet_env : BatEnv tablet := {|
  iio_read_channel_processed w := ((0, pack_mc w), w) |}.
#[export] Instance tablet_laws : SmbusLaws tablet chip.
Proof.
  split; intros; cbn; try lia; right; unfold is_u8, is_u16, tab_reg, u8, u16;
    apply Z.mod_pos_bound; lia.
Qed.

Lemma tab_reg_set w c r v : tab_reg (tab_set w c r v) c r = u8 v.
Proof. unfold tab_reg, tab_set. cbn. by rewrite reg_set. Qed.
Lemma tab_reg_set_ne w c r v c' r' :
  (c, r) ≠ (c', r') → tab_reg (tab_set w c r v) c' r' = tab_reg w c' r'.
Proof. intros ?. unfold tab_reg, tab_set. cbn. by rewrite reg_set_ne. Qed.

Definition Q4 := SM5714_CHG_CNTL1_ENQ4FET.
(** A write that closes Q4, the switch between the charger and the pack. *)
Definition closes_q4 (e : bat_event) : Prop :=
  match e with
  | EvBus (Wr CHG r v _) => r = SM5714_CHG_REG_CNTL1 ∧ testm v Q4 = true
  | _ => False
  end.
Definition leaves_q4 (e : bat_event) : Prop := ¬ closes_q4 e.

(** ** Any hardware: what a call can put in the log *)

Section any.
Context {W : Type} `{!BatEnv W}.
Abbreviation M := (M (machine bat_state W bat_event)).
Abbreviation state := (machine bat_state W bat_event).

(** A call that does not close Q4, and keeps the driver's structure. *)
Definition harmless (m m' : state) : Prop :=
  drv m' = drv m ∧ ∃ l, log m' = log m ++ l ∧ Forall leaves_q4 l.
#[export] Instance harmless_preorder : PreOrder harmless.
Proof.
  unfold harmless. split.
  - intros m. split; [done|]. exists []. by rewrite app_nil_r.
  - intros m1 m2 m3 [-> (l1 & -> & H1)] [-> (l2 & -> & H2)]. split; [done|].
    exists (l1 ++ l2). rewrite app_assoc. split; [done|]. by apply Forall_app.
Qed.

Lemma harmless_ask {A} (f : W → A * W) : respects harmless (ask (D := bat_state) (E := bat_event) f).
Proof.
  intros m a m'. unfold ask. destruct (f (wld m)). intros [= _ <-]. split; [done|].
  exists []. by rewrite app_nil_r.
Qed.
Lemma harmless_emit e : leaves_q4 e → respects harmless (emit (D := bat_state) (W := W) e).
Proof. intros He m a m' [= _ <-]. split; [done|]. exists [e]. split; [done|by apply Forall_singleton]. Qed.
Lemma harmless_get : respects harmless (get_sm (W := W)).
Proof. unfold get_sm, get_drv. resp. Qed.
Lemma harmless_read c r : respects harmless (read8 (W := W) c r).
Proof. apply harmless_ask. Qed.
Hint Resolve @harmless_ask harmless_get harmless_read : resp.

Lemma harmless_write c r v :
  c ≠ CHG ∨ r ≠ SM5714_CHG_REG_CNTL1 ∨ testm (u8 v) Q4 = false →
  respects harmless (write8 (W := W) c r v).
Proof.
  intros Hw. unfold write8, i2c_smbus_write_byte_data.
  apply respects_bind; [apply _|apply harmless_ask|]. intros ret.
  apply respects_bind; [apply _| |intros _; apply respects_ret, _].
  apply harmless_emit. unfold leaves_q4, closes_q4.
  destruct c; try tauto. intros [Hr Ht]. destruct Hw as [?|[?|Hf]]; congruence.
Qed.

Lemma testm_clear old : testm (u8 (Z.lor (Z.land old (Z.lnot Q4)) (Z.land 0 Q4))) Q4 = false.
Proof.
  unfold testm, u8, Q4. rewrite Z.land_0_l, Z.lor_0_r.
  apply negb_false_iff, Z.eqb_eq. apply Z.bits_inj'. intros i Hi.
  change SM5714_CHG_CNTL1_ENQ4FET with (2 ^ 3). change 256 with (2 ^ 8).
  rewrite Z.land_spec, Z.bits_0, Z.pow2_bits_eqb by lia.
  destruct (Z.eqb_spec 3 i) as [<-|]; [|by rewrite andb_false_r].
  rewrite Z.mod_pow2_bits_low, Z.land_spec, Z.lnot_spec by lia.
  change (Z.testbit (2 ^ 3) 3) with true. by rewrite andb_false_r.
Qed.
Lemma harmless_open_q4 :
  respects harmless (sm5714_chg_update_bits (W := W) SM5714_CHG_REG_CNTL1 Q4 0).
Proof.
  unfold sm5714_chg_update_bits. apply respects_neg; [apply _|apply harmless_read|].
  intros old. apply respects_if; [apply respects_ret, _|].
  apply harmless_write. right. right. rewrite <-(testm_clear old). f_equal.
  unfold u8. by rewrite Zmod_mod.
Qed.
Lemma harmless_update r mask v :
  r ≠ SM5714_CHG_REG_CNTL1 → respects harmless (sm5714_chg_update_bits (W := W) r mask v).
Proof.
  intros Hr. unfold sm5714_chg_update_bits. apply respects_neg; [apply _|apply harmless_read|].
  intros old. apply respects_if; [apply respects_ret, _|]. apply harmless_write. auto.
Qed.
Hint Resolve harmless_open_q4 : resp.

Ltac harmless_prog :=
  repeat first [ solve [eauto 2 with resp] | resp_step
               | apply harmless_update; discriminate
               | apply harmless_emit; by intros ?
               | apply harmless_write; first [left; discriminate | right; left; discriminate] ].

Lemma harmless_float : respects harmless (sm5714_set_float_voltage (W := W)).
Proof. unfold sm5714_set_float_voltage. harmless_prog. Qed.
Lemma harmless_online_raw : respects harmless (sm5714_get_online_raw (W := W)).
Proof. unfold sm5714_get_online_raw. harmless_prog. Qed.
Hint Resolve harmless_float harmless_online_raw : resp.
Lemma harmless_online : respects harmless (sm5714_get_online (W := W)).
Proof. unfold sm5714_get_online. harmless_prog. Qed.
Hint Resolve harmless_online : resp.
Lemma harmless_usb_type : respects harmless (sm5714_get_usb_type (W := W)).
Proof. unfold sm5714_get_usb_type. harmless_prog. Qed.
Lemma harmless_sram r : respects harmless (sm5714_fg_read_sram (W := W) r).
Proof.
  unfold sm5714_fg_read_sram, i2c_smbus_write_word_data, i2c_smbus_read_word_data.
  harmless_prog.
Qed.
Hint Resolve harmless_usb_type harmless_sram : resp.
Lemma harmless_reading r f : respects harmless (reading (W := W) r f).
Proof. unfold reading. harmless_prog. Qed.
Hint Resolve harmless_reading : resp.
Lemma harmless_temp : respects harmless (sm5714_get_temp (W := W)).
Proof. unfold sm5714_get_temp. harmless_prog. Qed.
Lemma harmless_capacity : respects harmless (sm5714_get_capacity (W := W)).
Proof. unfold sm5714_get_capacity. harmless_prog. Qed.
Lemma harmless_muic a : respects harmless (sm5714_muic_set_otg_path (W := W) a).
Proof. unfold sm5714_muic_set_otg_path. harmless_prog. Qed.
Hint Resolve harmless_temp harmless_capacity harmless_muic : resp.
Lemma harmless_boost : respects harmless (enable_boost (W := W)).
Proof. unfold enable_boost. harmless_prog. Qed.
Lemma harmless_status : respects harmless (sm5714_get_status (W := W)).
Proof. unfold sm5714_get_status. harmless_prog. Qed.
Lemma harmless_notify : respects harmless (power_supply_changed_both (W := W)).
Proof. unfold power_supply_changed_both. harmless_prog. Qed.
Hint Resolve harmless_boost harmless_status harmless_notify : resp.

(** ** Closing Q4 *)

Definition otg (m : state) : bool := otg_active (sm (drv m)).
Definition thermal (m : state) : sm5714_charge_thermal_state := thermal_state (sm (drv m)).

(** The input limit at 500 mA, acknowledged by the chip. *)
Definition limit_lowered : bat_event :=
  EvBus (Wr CHG SM5714_CHG_REG_VBUSCNTL (sm5714_input_current_reg 500) 0).

(** Either Q4 stays as it is, or it is closed after the limit was lowered. *)
Definition lowered_first (l : list bat_event) : Prop :=
  Forall leaves_q4 l ∨ ∃ l0 l2, l = l0 ++ limit_lowered :: l2 ∧ Forall leaves_q4 l0.

(** Everything else only grows the log. *)
Definition grows (m m' : state) : Prop := drv m' = drv m ∧ ∃ l, log m' = log m ++ l.
#[export] Instance grows_preorder : PreOrder grows.
Proof.
  unfold grows. split.
  - intros m. split; [done|]. exists []. by rewrite app_nil_r.
  - intros m1 m2 m3 [-> (l1 & ->)] [-> (l2 & ->)]. split; [done|].
    exists (l1 ++ l2). by rewrite app_assoc.
Qed.
Lemma grows_ask {A} (f : W → A * W) : respects grows (ask (D := bat_state) (E := bat_event) f).
Proof.
  intros m a m' H. destruct (harmless_ask f m a m' H) as [? (l & ? & _)]. split; eauto.
Qed.
Lemma grows_emit e : respects grows (emit (D := bat_state) (W := W) e).
Proof. intros m a m' [= _ <-]. split; [done|by exists [e]]. Qed.
Lemma grows_write c r v : respects grows (write8 (W := W) c r v).
Proof.
  unfold write8, i2c_smbus_write_byte_data. apply respects_bind; [apply _|apply grows_ask|].
  intros ret. apply respects_bind; [apply _|apply grows_emit|intros _; apply respects_ret, _].
Qed.
Lemma grows_get : respects grows (get_sm (W := W)).
Proof. unfold get_sm, get_drv. resp. Qed.
Lemma grows_update r mask v : respects grows (sm5714_chg_update_bits (W := W) r mask v).
Proof.
  unfold sm5714_chg_update_bits. apply respects_neg; [apply _|apply grows_ask|].
  intros old. apply respects_if; [apply respects_ret, _|apply grows_write].
Qed.

Lemma program_log input fast m r m' :
  program_charging (W := W) input fast m = Ret (r, m') →
  drv m' = drv m ∧ ∃ l, log m' = log m ++ l ∧ lowered_first l.
Proof.
  intros H. apply bind_inv in H as (ret & m1 & H1 & H).
  apply bind_inv in H1 as (ret' & m0 & H0 & H1).
  apply bind_inv in H1 as ([] & m2 & H2 & [= <- <-]).
  unfold ask in H0. destruct (bus_write_byte _ _ _ _) as [rt w]. injection H0 as <- <-.
  injection H2 as <-. cbn in H. change (u8 (sm5714_input_current_reg 500)) with 16 in H.
  destruct (Z.eqb_spec rt 0) as [->|Hne].
  2:{ injection H as _ <-. split; [done|]. eexists. split; [done|]. left.
      apply Forall_singleton. by intros [? _]. }
  match type of H with ?c ?m0 = _ => assert (respects grows c) as Hg end.
  { repeat first [ apply grows_get | apply grows_write | apply grows_update | apply grows_emit
                 | unfold sm5714_set_float_voltage; resp_step ]. }
  destruct (Hg _ _ _ H) as [Hd (l & Hl)]. split; [done|].
  exists (limit_lowered :: l). cbn in Hl. rewrite Hl, <-app_assoc. split; [done|].
  right. exists [], l. split; [done|apply Forall_nil_2].
Qed.

(** A run up to its last part: what comes before is harmless but for the
    thermal state. *)
Definition quiet (m m' : state) : Prop :=
  otg m' = otg m ∧ ∃ l, log m' = log m ++ l ∧ Forall leaves_q4 l.
#[export] Instance quiet_preorder : PreOrder quiet.
Proof.
  unfold quiet. split.
  - intros m. split; [done|]. exists []. by rewrite app_nil_r.
  - intros m1 m2 m3 [-> (l1 & -> & H1)] [-> (l2 & -> & H2)]. split; [done|].
    exists (l1 ++ l2). rewrite app_assoc. split; [done|]. by apply Forall_app.
Qed.
Lemma harmless_quiet {A} (c : M A) : respects harmless c → respects quiet c.
Proof.
  intros H m a m' Hr. destruct (H _ _ _ Hr) as [Hd Hl]. unfold quiet, otg. by rewrite Hd.
Qed.
Lemma quiet_mod f :
  (∀ x, otg_active (f x) = otg_active x) → respects quiet (mod_sm (W := W) f).
Proof.
  intros Hf m a m' [= _ <-]. split; [apply Hf|]. exists []. by rewrite app_nil_r.
Qed.

Lemma configure_log m r m' :
  sm5714_configure_charging (W := W) m = Ret (r, m') →
  otg m' = otg m ∧
  ∃ l, log m' = log m ++ l ∧
    (Forall leaves_q4 l
     ∨ otg m = false ∧ thermal m' ≠ SM5714_THERMAL_STOP ∧
       ∃ l0 l2, l = l0 ++ limit_lowered :: l2 ∧ Forall leaves_q4 l0).
Proof.
  intros H. apply bind_inv in H as (s & m0 & H0 & H).
  injection H0 as <- <-. fold (otg m) in H. destruct (otg m) eqn:Hotg.
  { injection H as _ <-. split; [done|]. exists []. rewrite app_nil_r.
    split; [done|]. left. apply Forall_nil_2. }
  apply bind_inv in H as (ut & m1 & H1 & H).
  apply harmless_usb_type in H1 as [Hd1 (l1 & Hl1 & Hq1)].
  assert (otg m1 = false) as Ho1 by (unfold otg; by rewrite Hd1).
  destruct (ut <? 0).
  { injection H as _ <-. split; [done|]. exists l1. split; [done|by left]. }
  apply bind_inv in H as ([rt temp] & m2 & H2 & H).
  apply harmless_temp in H2 as [Hd2 (l2 & Hl2 & Hq2)].
  apply bind_inv in H as ([] & m3 & H3 & H).
  assert (quiet m2 m3) as [Ho3 (l3 & Hl3 & Hq3)].
  { revert H3. destruct (rt =? 0); [by apply quiet_mod|].
    apply harmless_quiet. unfold skip. resp. }
  apply bind_inv in H as (s' & m4 & H4 & H). injection H4 as <- <-.
  assert (otg m3 = false) as Ho by (rewrite Ho3; unfold otg; rewrite Hd2; exact Ho1).
  assert (log m3 = log m ++ (l1 ++ l2 ++ l3)) as Hl
    by (by rewrite Hl3, Hl2, Hl1, <-!app_assoc).
  assert (Forall leaves_q4 (l1 ++ l2 ++ l3)) as Hq by (by rewrite !Forall_app).
  fold (thermal m3) in H. remember (l1 ++ l2 ++ l3) as lq.
  destruct (thermal m3) eqn:Hth.
  3:{ apply harmless_open_q4 in H as [Hd5 (l5 & Hl5 & Hq5)].
      split; [unfold otg; by rewrite Hd5|]. exists (lq ++ l5).
      rewrite Hl5, Hl, <-app_assoc. split; [done|]. left. by apply Forall_app. }
  all: destruct (charge_limits _ _ _ _) as [i f].
  all: apply program_log in H as [Hd5 (l5 & Hl5 & Hlow)].
  all: split; [unfold otg; by rewrite Hd5|]; exists (lq ++ l5).
  all: rewrite Hl5, Hl, <-app_assoc; split; [done|].
  all: destruct Hlow as [?|(la & lb & -> & Ha)]; [left; by apply Forall_app|].
  all: right; split_and!; [done|unfold thermal in *; rewrite Hd5; by rewrite Hth|].
  all: exists (lq ++ la), lb; rewrite <-app_assoc; split; [done|by apply Forall_app].
Qed.

(** A call after which the boost can only be on if it was on before and Q4 has
    not been closed. *)
Definition keeps_open (m m' : state) : Prop :=
  ∃ l, log m' = log m ++ l ∧ (otg m' = true → otg m = true ∧ Forall leaves_q4 l).
#[export] Instance keeps_open_preorder : PreOrder keeps_open.
Proof.
  unfold keeps_open. split.
  - intros m. exists []. by rewrite app_nil_r.
  - intros m1 m2 m3 (l1 & -> & H1) (l2 & -> & H2). exists (l1 ++ l2). rewrite app_assoc.
    split; [done|]. intros Ho. destruct (H2 Ho) as [Ho2 ?]. destruct (H1 Ho2).
    split; [done|]. by apply Forall_app.
Qed.
Lemma harmless_open {A} (c : M A) : respects harmless c → respects keeps_open c.
Proof.
  intros H m a m' Hr. destruct (H _ _ _ Hr) as [Hd (l & Hl & Hq)]. exists l.
  unfold otg. by rewrite Hd.
Qed.
Lemma open_mod f :
  (∀ x, otg_active (f x) = true → otg_active x = true) →
  respects keeps_open (mod_sm (W := W) f).
Proof.
  intros Hf m a m' [= _ <-]. exists []. rewrite app_nil_r. split; [done|].
  intros Ho. split; [by apply Hf|apply Forall_nil_2].
Qed.
Lemma open_configure : respects keeps_open (sm5714_configure_charging (W := W)).
Proof.
  intros m r m' H. apply configure_log in H as [Ho (l & Hl & Hc)]. exists l.
  split; [done|]. rewrite Ho. intros Ht. split; [done|].
  destruct Hc as [?|[? _]]; [done|congruence].
Qed.

Lemma open_drv : respects keeps_open (get_drv (W := W)).
Proof. unfold get_drv. resp. Qed.
Lemma open_emit e : leaves_q4 e → respects keeps_open (emit (D := bat_state) (W := W) e).
Proof. intros He. apply harmless_open. by apply harmless_emit. Qed.
Lemma open_open_q4 :
  respects keeps_open (sm5714_chg_update_bits (W := W) SM5714_CHG_REG_CNTL1 Q4 0).
Proof. apply harmless_open, harmless_open_q4. Qed.
Lemma open_update r mask v :
  r ≠ SM5714_CHG_REG_CNTL1 → respects keeps_open (sm5714_chg_update_bits (W := W) r mask v).
Proof. intros Hr. by apply harmless_open, harmless_update. Qed.

(** A call that does not close Q4, whatever it does to the driver's structure. *)
Definition never_closes (m m' : state) : Prop :=
  ∃ l, log m' = log m ++ l ∧ Forall leaves_q4 l.
#[export] Instance never_closes_preorder : PreOrder never_closes.
Proof.
  unfold never_closes. split.
  - intros m. exists []. by rewrite app_nil_r.
  - intros m1 m2 m3 (l1 & -> & H1) (l2 & -> & H2). exists (l1 ++ l2).
    rewrite app_assoc. split; [done|]. by apply Forall_app.
Qed.
Lemma harmless_never {A} (c : M A) : respects harmless c → respects never_closes c.
Proof. intros H m a m' Hr. by destruct (H _ _ _ Hr) as [_ Hl]. Qed.
Lemma never_mod f : respects never_closes (mod_sm (W := W) f).
Proof. intros m a m' [= _ <-]. exists []. by rewrite app_nil_r. Qed.
Lemma never_otg_on : respects never_closes (sm5714_battery_set_otg (W := W) true).
Proof.
  unfold sm5714_battery_set_otg, get_drv.
  repeat first [ solve [eauto 3 using harmless_never, harmless_online_raw, harmless_boost,
                   harmless_muic, harmless_notify with resp] | resp_step | apply never_mod ].
Qed.
End any.

(** Split an entry point into the calls above. *)
Ltac open_prog :=
  repeat first
    [ solve [eauto 3 with resp] | apply open_drv | resp_step
    | apply open_mod; let x := fresh in let Hx := fresh in intros x Hx; exact Hx
    | apply open_mod; let x := fresh in let Hx := fresh in intros x Hx; discriminate Hx
    | apply open_emit; let Hx := fresh in intros Hx; exact Hx
    | apply open_open_q4 | apply open_update; discriminate ].

#[export] Hint Resolve harmless_get harmless_read harmless_open_q4 harmless_float
  harmless_online_raw harmless_online harmless_usb_type harmless_sram harmless_reading
  harmless_temp harmless_capacity harmless_muic harmless_boost harmless_status
  harmless_notify : resp.
#[export] Hint Resolve harmless_open open_configure : resp.

(** ** The tablet: how its registers change *)

(** [w'] is [w] with register [r] of block [c] holding [v]. *)
Record becomes (w : tablet) (c : chip) (r v : Z) (w' : tablet) : Prop := {
  be_reg : tab_reg w' c r = v;
  be_other : ∀ c' r', (c, r) ≠ (c', r') → tab_reg w' c' r' = tab_reg w c' r';
  be_sram : sram w' = sram w;
  be_pack : pack_mc w' = pack_mc w }.

Lemma becomes_set w c r v : is_u8 v → becomes w c r v (tab_set w c r v).
Proof.
  intros Hv. split; try done.
  - rewrite tab_reg_set. by apply Z.mod_small.
  - intros. by apply tab_reg_set_ne.
Qed.
Lemma becomes_same w c r v : tab_reg w c r = v → becomes w c r v w.
Proof. by split. Qed.

(** Bits [mask] of [old] replaced by those of [v]. *)
Definition merge (old mask v : Z) : Z := u8 (Z.lor (Z.land old (Z.lnot mask)) (Z.land v mask)).

Lemma u8_range z : is_u8 (u8 z).
Proof. apply Z.mod_pos_bound. lia. Qed.

Section tablet.
Implicit Types (d : bat_state) (w : tablet) (l : list bat_event).

Lemma tab_read c r d w l :
  read8 c r (mkM d w l) = Ret (tab_reg w c r, mkM d w l).
Proof. done. Qed.

Lemma tab_write c r v d w l :
  write8 c r v (mkM d w l)
  = Ret (0, mkM d (tab_set w c r (u8 v)) (l ++ [EvBus (Wr c r (u8 v) 0)])).
Proof. done. Qed.

Lemma tab_update r mask v d w l :
  ∃ w' l', sm5714_chg_update_bits r mask v (mkM d w l) = Ret (0, mkM d w' l')
    ∧ becomes w CHG r (merge (tab_reg w CHG r) mask v) w'.
Proof.
  unfold sm5714_chg_update_bits, ret_if_neg. fold (merge (tab_reg w CHG r) mask v).
  set (old := tab_reg w CHG r). pose proof (u8_range (reg (regs w) CHG r)) as Hold.
  fold (tab_reg w CHG r) in Hold. fold old in Hold. unfold is_u8 in Hold.
  assert (∀ k : Z → M (machine bat_state tablet bat_event) Z,
    (x ← read8 CHG r; if x <? 0 then mret x else k x) (mkM d w l) = k old (mkM d w l)) as Hk.
  { intros k. erewrite bind_ret by apply tab_read. cbv beta. fold old.
    by rewrite (proj2 (Z.ltb_ge _ _)) by lia. }
  rewrite Hk. fold (merge old mask v).
  destruct (Z.eqb_spec (merge old mask v) old) as [He|Hne].
  - exists w, l. split; [done|]. by apply becomes_same.
  - rewrite tab_write. do 2 eexists. split; [done|].
    assert (u8 (merge old mask v) = merge old mask v) as -> by (apply Z.mod_small, u8_range).
    apply becomes_set, u8_range.
Qed.

Lemma tab_read_bind {B} c r d w l (k : Z → M (machine bat_state tablet bat_event) B) :
  (read8 c r ≫= k) (mkM d w l) = k (tab_reg w c r) (mkM d w l).
Proof. done. Qed.
Lemma tab_read_neg c r d w l (k : Z → M (machine bat_state tablet bat_event) Z) :
  ret_if_neg (read8 c r) k (mkM d w l) = k (tab_reg w c r) (mkM d w l).
Proof.
  unfold ret_if_neg. rewrite tab_read_bind. pose proof (u8_range (reg (regs w) c r)) as Hr.
  fold (tab_reg w c r) in Hr. unfold is_u8 in Hr. by rewrite (proj2 (Z.ltb_ge _ _)) by lia.
Qed.

Definition vbus (w : tablet) : bool :=
  testm (tab_reg w CHG SM5714_CHG_REG_STATUS1) SM5714_CHG_STATUS1_VBUS_POK.
Definition temp_of (w : tablet) : Z := DIV_ROUND_CLOSEST (pack_mc w) 100.
Definition port_type (s : sm5714_battery) (w : tablet) : Z :=
  if 5000 <? typec_mv s then POWER_SUPPLY_USB_TYPE_PD
  else usb_type_of_muic (tab_reg w MUIC SM5714_MUIC_REG_DEVICE_TYPE1).

Lemma tab_online_raw d w l :
  sm5714_get_online_raw (mkM d w l) = Ret (if vbus w then 1 else 0, mkM d w l).
Proof. unfold sm5714_get_online_raw. by rewrite tab_read_neg. Qed.

Lemma tab_usb_type d w l :
  otg_active (sm d) = false → vbus w = true →
  sm5714_get_usb_type (mkM d w l) = Ret (port_type (sm d) w, mkM d w l).
Proof.
  intros Ho Hv. unfold sm5714_get_usb_type. erewrite bind_ret.
  2:{ unfold sm5714_get_online. erewrite bind_ret by reflexivity. cbn [drv]. rewrite Ho.
      apply tab_online_raw. }
  rewrite Hv. change (1 <=? 0) with false. cbv iota.
  erewrite bind_ret by reflexivity. cbn [drv]. unfold port_type.
  destruct (5000 <? typec_mv (sm d)); [done|]. by rewrite tab_read_neg.
Qed.

Lemma tab_temp d w l :
  battery_temp (sm d) = true → -200 <= temp_of w <= 900 →
  sm5714_get_temp (mkM d w l) = Ret ((0, temp_of w), mkM d w l).
Proof.
  intros Hb Ht. unfold sm5714_get_temp. erewrite bind_ret by reflexivity. cbn [drv]. rewrite Hb.
  erewrite bind_ret.
  2:{ erewrite bind_ret by reflexivity. cbv beta iota zeta. cbn [wld]. fold (temp_of w).
      change (0 =? 0) with true. rewrite (proj2 (Z.leb_le (-200) (temp_of w))), (proj2 (Z.leb_le (temp_of w) 900)) by lia.
      reflexivity. }
  done.
Qed.

(** The whole programming sequence. *)
Lemma tab_program input fast d w l :
  ∃ w' l', program_charging input fast (mkM d w l) = Ret (0, mkM d w' l')
  ∧ tab_reg w' CHG SM5714_CHG_REG_VBUSCNTL = u8 (sm5714_input_current_reg input)
  ∧ tab_reg w' CHG SM5714_CHG_REG_CHGCNTL2 = u8 (sm5714_fast_current_reg fast)
  ∧ tab_reg w' CHG SM5714_CHG_REG_CNTL1 = merge (tab_reg w CHG SM5714_CHG_REG_CNTL1) Q4 Q4
  ∧ tab_reg w' CHG SM5714_CHG_REG_CHGCNTL4
    = (if float_uv (sm d) =? 0 then tab_reg w CHG SM5714_CHG_REG_CHGCNTL4
       else merge (tab_reg w CHG SM5714_CHG_REG_CHGCNTL4) SM5714_CHG_BATREG_MASK
              (sm5714_batreg_offset (float_uv (sm d))))
  ∧ ∀ c r, (c, r) ∉ [(CHG, SM5714_CHG_REG_VBUSCNTL); (CHG, SM5714_CHG_REG_CHGCNTL2);
                     (CHG, SM5714_CHG_REG_CNTL1); (CHG, SM5714_CHG_REG_CHGCNTL4)] →
      tab_reg w' c r = tab_reg w c r.
Proof.
  unfold program_charging, ret_if_nz.
  erewrite bind_ret by apply tab_write. change (0 =? 0) with true. cbv iota.
  erewrite bind_ret by apply tab_write. change (0 =? 0) with true. cbv iota.
  set (w2 := tab_set (tab_set w _ _ _) _ _ _). set (l2 := _ ++ _).
  assert (∃ w3 l3, sm5714_set_float_voltage (mkM d w2 l2) = Ret (0, mkM d w3 l3)
    ∧ becomes w2 CHG SM5714_CHG_REG_CHGCNTL4
        (if float_uv (sm d) =? 0 then tab_reg w2 CHG SM5714_CHG_REG_CHGCNTL4
         else merge (tab_reg w2 CHG SM5714_CHG_REG_CHGCNTL4) SM5714_CHG_BATREG_MASK
                (sm5714_batreg_offset (float_uv (sm d)))) w3) as (w3 & l3 & Hfl & Hb3).
  { unfold sm5714_set_float_voltage. erewrite bind_ret by reflexivity. cbn [drv].
    destruct (float_uv (sm d) =? 0); [|apply tab_update].
    exists w2, l2. split; [done|]. by apply becomes_same. }
  erewrite bind_ret by exact Hfl. change (0 =? 0) with true. cbv iota.
  erewrite bind_ret.
  2:{ instantiate (1 := mkM d w3 (if 500 <? input then _ else _)).
      by destruct (500 <? input). }
  set (l4 := if 500 <? input then _ else _).
  destruct (tab_update SM5714_CHG_REG_CNTL1 Q4 Q4 d w3 l4) as (w5 & l5 & Hup & Hb5).
  erewrite bind_ret by exact Hup. change (0 =? 0) with true. cbv iota.
  rewrite tab_write. do 2 eexists. split; [done|].
  set (v := u8 (sm5714_input_current_reg input)).
  assert (is_u8 v) as Hv by apply u8_range.
  pose proof (becomes_set w5 CHG SM5714_CHG_REG_VBUSCNTL v Hv) as [Hr6 Ho6 _ _].
  destruct Hb5 as [Hr5 Ho5 _ _]. destruct Hb3 as [Hr3 Ho3 _ _].
  assert (∀ c r, (c, r) ≠ (CHG, SM5714_CHG_REG_VBUSCNTL) →
    (c, r) ≠ (CHG, SM5714_CHG_REG_CHGCNTL2) → tab_reg w2 c r = tab_reg w c r) as Ho2.
  { intros c r H1 H2. unfold w2. by rewrite !tab_reg_set_ne by congruence. }
  split_and!.
  - exact Hr6.
  - rewrite Ho6, Ho5, Ho3 by discriminate. unfold w2. rewrite tab_reg_set.
    apply Z.mod_small, u8_range.
  - rewrite Ho6, Hr5, Ho3, Ho2 by discriminate. done.
  - rewrite Ho6, Ho5, Hr3 by discriminate. by rewrite Ho2 by discriminate.
  - intros c r Hni.
    rewrite Ho6, Ho5, Ho3, Ho2; try done; intros Heq; apply Hni; rewrite ?Heq, <-?Heq; set_solver.
Qed.

(** The USB switch of the MUIC. *)
Lemma tab_muic_on d w l :
  let w' := tab_set (tab_set w MUIC SM5714_MUIC_REG_CNTL
      (u8 (Z.lor (tab_reg w MUIC SM5714_MUIC_REG_CNTL) SM5714_MUIC_CNTL_BC12OFF)))
      MUIC SM5714_MUIC_REG_MANUAL_SW
      (u8 (Z.lor (Z.lor (Z.land (tab_reg w MUIC SM5714_MUIC_REG_MANUAL_SW) manual_sw_clear)
                   SM5714_MUIC_MANUAL_SW_MANUAL) SM5714_MUIC_MANUAL_SW_USB)) in
  ∃ l', sm5714_muic_set_otg_path true (mkM d w l) = Ret (0, mkM d w' l').
Proof.
  intros w'. unfold sm5714_muic_set_otg_path. rewrite tab_read_neg. unfold ret_if_nz.
  erewrite bind_ret by apply tab_write. change (0 =? 0) with true. cbv iota.
  rewrite tab_read_bind. rewrite tab_reg_set_ne by discriminate.
  pose proof (u8_range (reg (regs w) MUIC SM5714_MUIC_REG_MANUAL_SW)) as Hr.
  fold (tab_reg w MUIC SM5714_MUIC_REG_MANUAL_SW) in Hr. unfold is_u8 in Hr.
  rewrite (proj2 (Z.ltb_ge _ _)) by lia.
  erewrite bind_ret by apply tab_write. change (0 =? 0) with true. cbv iota.
  eexists. reflexivity.
Qed.

Lemma tab_muic_off d w l :
  let w' := tab_set (tab_set w MUIC SM5714_MUIC_REG_MANUAL_SW
      (u8 (Z.land (tab_reg w MUIC SM5714_MUIC_REG_MANUAL_SW) manual_sw_clear)))
      MUIC SM5714_MUIC_REG_CNTL
      (u8 (Z.land (tab_reg w MUIC SM5714_MUIC_REG_CNTL) (Z.lnot SM5714_MUIC_CNTL_BC12OFF))) in
  ∃ l', sm5714_muic_set_otg_path false (mkM d w l) = Ret (0, mkM d w' l').
Proof.
  intros w'. unfold sm5714_muic_set_otg_path. rewrite tab_read_neg. unfold ret_if_nz.
  erewrite bind_ret by apply tab_write. change (0 =? 0) with true. cbv iota.
  rewrite tab_read_neg, tab_reg_set_ne by discriminate. rewrite tab_write.
  eexists. reflexivity.
Qed.

(** The boost: the USB path first, then Q4, the boost's limit and the mode. *)
Lemma tab_boost d w l :
  ∃ w' l', enable_boost (mkM d w l) = Ret (0, mkM d w' l')
  ∧ tab_reg w' MUIC SM5714_MUIC_REG_CNTL
    = u8 (Z.lor (tab_reg w MUIC SM5714_MUIC_REG_CNTL) SM5714_MUIC_CNTL_BC12OFF)
  ∧ tab_reg w' MUIC SM5714_MUIC_REG_MANUAL_SW
    = u8 (Z.lor (Z.lor (Z.land (tab_reg w MUIC SM5714_MUIC_REG_MANUAL_SW) manual_sw_clear)
                   SM5714_MUIC_MANUAL_SW_MANUAL) SM5714_MUIC_MANUAL_SW_USB)
  ∧ tab_reg w' CHG SM5714_CHG_REG_CNTL1 = merge (tab_reg w CHG SM5714_CHG_REG_CNTL1) Q4 0
  ∧ tab_reg w' CHG SM5714_CHG_REG_BSTCNTL1
    = merge (tab_reg w CHG SM5714_CHG_REG_BSTCNTL1) SM5714_CHG_BSTCNTL1_OTG_MASK
        SM5714_CHG_BSTCNTL1_5V1_900MA
  ∧ tab_reg w' CHG SM5714_CHG_REG_CNTL2
    = merge (tab_reg w CHG SM5714_CHG_REG_CNTL2) SM5714_CHG_CNTL2_MODE_MASK
        SM5714_CHG_CNTL2_USB_OTG
  ∧ ∀ c r, (c, r) ∉ [(MUIC, SM5714_MUIC_REG_CNTL); (MUIC, SM5714_MUIC_REG_MANUAL_SW);
                     (CHG, SM5714_CHG_REG_CNTL1); (CHG, SM5714_CHG_REG_BSTCNTL1);
                     (CHG, SM5714_CHG_REG_CNTL2)] →
      tab_reg w' c r = tab_reg w c r.
Proof.
  unfold enable_boost, ret_if_nz. destruct (tab_muic_on d w l) as (l1 & H1).
  erewrite bind_ret by exact H1. change (0 =? 0) with true. cbv iota. clear H1.
  set (w1 := tab_set _ _ _ _).
  destruct (tab_update SM5714_CHG_REG_CNTL1 Q4 0 d w1 l1) as (w2 & l2 & H2 & [R2 O2 _ _]).
  erewrite bind_ret by exact H2. change (0 =? 0) with true. cbv iota. clear H2.
  destruct (tab_update SM5714_CHG_REG_BSTCNTL1 SM5714_CHG_BSTCNTL1_OTG_MASK
              SM5714_CHG_BSTCNTL1_5V1_900MA d w2 l2) as (w3 & l3 & H3 & [R3 O3 _ _]).
  erewrite bind_ret by exact H3. change (0 =? 0) with true. cbv iota. clear H3.
  destruct (tab_update SM5714_CHG_REG_CNTL2 SM5714_CHG_CNTL2_MODE_MASK
              SM5714_CHG_CNTL2_USB_OTG d w3 l3) as (w4 & l4 & H4 & [R4 O4 _ _]).
  exists w4, l4. split; [exact H4|]. clear H4.
  assert (∀ c r, (c, r) ≠ (MUIC, SM5714_MUIC_REG_CNTL) →
    (c, r) ≠ (MUIC, SM5714_MUIC_REG_MANUAL_SW) → tab_reg w1 c r = tab_reg w c r) as O1.
  { intros c r Ha Hb. unfold w1. by rewrite !tab_reg_set_ne by congruence. }
  split_and!.
  - rewrite O4, O3, O2 by discriminate. unfold w1.
    rewrite tab_reg_set_ne, tab_reg_set by discriminate. apply Z.mod_small, u8_range.
  - rewrite O4, O3, O2 by discriminate. unfold w1. rewrite tab_reg_set.
    apply Z.mod_small, u8_range.
  - by rewrite O4, O3, R2, O1 by discriminate.
  - by rewrite O4, R3, O2, O1 by discriminate.
  - by rewrite R4, O3, O2, O1 by discriminate.
  - intros c r Hni.
    rewrite O4, O3, O2, O1; try done; intros Heq; apply Hni; rewrite ?Heq, <-?Heq; set_solver.
Qed.
End tablet.
