(* ===== verification/Sm5714Props.v ===== *)
(** The properties of the SM5714 driver: when the path to the pack is closed and
    with which limits, the thermal hysteresis, the OTG boost, and the fuel
    gauge's conversions. *)
From S2P Require Import Prelude Bus Sm5714Battery Sm5714Facts.

(** ** Definitions *)

(** What the other drivers, user space and the poll timer can call. *)
Inductive bat_entry :=
  | BContract (mv ma : Z) | BDirect (active : bool) | BOtg (active : bool)
  | BPoll | BFastCharge (enabled : bool) (count : Z).
#[export] Instance bat_entry_dec : EqDecision bat_entry.
Proof. solve_decision. Defined.

Section entries.
Context {W : Type} `{!BatEnv W}.
Definition bat_run (e : bat_entry) : M (machine bat_state W bat_event) Z :=
  match e with
  | BContract mv ma => sm5714_battery_set_pd_contract mv ma
  | BDirect a => sm5714_battery_set_direct_charge a
  | BOtg a => sm5714_battery_set_otg a
  | BPoll => sm5714_poll_work;; mret 0
  | BFastCharge b n => fast_charge_store (inr b) n
  end.
End entries.

(** A tablet on the charger at 30.0 C: VBUS present, port type DCP. *)
Definition plugged (temp_mc : Z) : tablet :=
  mkTablet {[(CHG, SM5714_CHG_REG_STATUS1) := 1; (MUIC, SM5714_MUIC_REG_DEVICE_TYPE1) := 4;
             (CHG, SM5714_CHG_REG_CNTL1) := 0x43; (CHG, SM5714_CHG_REG_CHGCNTL4) := 0x9a]}
    (fun _ => 0) temp_mc.
Definition idle_sm : sm5714_battery :=
  mkSm true None 4440000 0 0 false 0 0 0 0 SM5714_THERMAL_NORMAL false false false.
Definition idle_bat : bat_state := mkBat true idle_sm.

(** ** Closing the path to the pack *)

(** C5: whatever the hardware answers, [sm5714_configure_charging] closes Q4
    only when the OTG boost is off, only with a thermal state other than STOP,
    and only after the chip has acknowledged the 500 mA input limit. *)
Theorem configure_closes_q4_safely {W} `{!BatEnv W} (m m' : machine bat_state W bat_event) r :
  sm5714_configure_charging m = Ret (r, m') →
  ∃ l, log m' = log m ++ l
  ∧ ∀ l1 e l2, l = l1 ++ e :: l2 → closes_q4 e →
      otg_active (sm (drv m)) = false
      ∧ thermal_state (sm (drv m')) ≠ SM5714_THERMAL_STOP
      ∧ limit_lowered ∈ l1.
Proof.
  intros H. apply configure_log in H as [_ (l & Hl & Hc)]. exists l. split; [done|].
  intros l1 e l2 -> He. destruct Hc as [Hq|(Ho & Hth & l0 & l3 & Heq & Hq)].
  { apply Forall_app in Hq as [_ Hq]. apply Forall_cons in Hq as [Hq _]. by destruct Hq. }
  split_and!; [done|done|].
  destruct (decide (limit_lowered ∈ l1)) as [|Hni]; [done|]. exfalso.
  assert (∀ l1 l0 : list bat_event, limit_lowered ∉ l1 →
    l1 ++ e :: l2 = l0 ++ limit_lowered :: l3 → Forall leaves_q4 l0 → False) as Haux; [|eauto].
  clear -He. induction l1 as [|x l1 IH]; intros [|y l0] Hni Heq Hq; simplify_list_eq.
  - by destruct He.
  - by apply Forall_cons in Hq as [[] _].
  - by destruct Hni; left.
  - apply Forall_cons in Hq as [_ Hq]. eapply IH; [|done|done].
    intros Hin. apply Hni. by right.
Qed.

Lemma configure_closes_q4_safely_witness :
  let m := mkM idle_bat (plugged 30000) [] in
  ∃ m', sm5714_configure_charging m = Ret (0, m')
  ∧ ∃ l, log m' = l
  ∧ ∀ l1 e l2, l = l1 ++ e :: l2 → closes_q4 e →
      otg_active (sm (drv m)) = false
      ∧ thermal_state (sm (drv m')) ≠ SM5714_THERMAL_STOP
      ∧ limit_lowered ∈ l1.
Proof.
  intros m. destruct (sm5714_configure_charging m) as [[r m']| |] eqn:H;
    [|vm_compute in H; discriminate..].
  destruct (configure_closes_q4_safely m m' r H) as (l & Hl & Hall).
  assert (r = 0) as -> by (vm_compute in H; congruence).
  exists m'. split; [done|]. exists l. split; [exact Hl|exact Hall].
Defined.

(** ** The boost and Q4 *)

(** A charger that remembers whether Q4 is closed: a read that succeeds shows it, a
    write of CNTL1 that succeeds sets it, one that reports an error was done or was
    not, and nothing else touches it.  Any access may fail. *)
Class ChargerMemory (W : Type) `{!BatEnv W} := {
  q4_on : W → bool;
  q4_after_read c r w : q4_on (bus_read_byte c r w).2 = q4_on w;
  q4_shown (w : W) : 0 <= (bus_read_byte CHG SM5714_CHG_REG_CNTL1 w).1 →
    testm (bus_read_byte CHG SM5714_CHG_REG_CNTL1 w).1 Q4 = q4_on w;
  q4_written v w : is_u8 v → (bus_write_byte CHG SM5714_CHG_REG_CNTL1 v w).1 = 0 →
    q4_on (bus_write_byte CHG SM5714_CHG_REG_CNTL1 v w).2 = testm v Q4;
  q4_maybe v w : is_u8 v → let w' := (bus_write_byte CHG SM5714_CHG_REG_CNTL1 v w).2 in
    q4_on w' = q4_on w ∨ q4_on w' = testm v Q4;
  q4_other c r v w : (c, r) ≠ (CHG, SM5714_CHG_REG_CNTL1) → q4_on (bus_write_byte c r v w).2 = q4_on w;
  q4_gauge_read r w : q4_on (bus_read_word FG r w).2 = q4_on w;
  q4_gauge_write r v w : q4_on (bus_write_word FG r v w).2 = q4_on w;
  q4_adc w : q4_on (iio_read_channel_processed w).2 = q4_on w
}.

Section memory.
Context {W : Type} `{!BatEnv W, !ChargerMemory W}.
Abbreviation state := (machine bat_state W bat_event).
(** Q4 stays open as long as no write closes it. *)
Definition remembers (m m' : state) : Prop :=
  ∃ l, log m' = log m ++ l ∧ (Forall leaves_q4 l → q4_on (wld m) = false → q4_on (wld m') = false).
#[local] Instance remembers_pre : PreOrder remembers.
Proof.
  split; unfold remembers.
  - intros m. exists []. by rewrite app_nil_r.
  - intros m1 m2 m3 (l1 & E1 & H1) (l2 & E2 & H2). exists (l1 ++ l2). rewrite E2, E1, app_assoc.
    split; [done|]. intros [Ha Hb]%Forall_app. auto.
Qed.
Lemma remembers_ask {A} (f : W → A * W) :
  (∀ w, q4_on (f w).2 = q4_on w) → respects remembers (ask (D := bat_state) (E := bat_event) f).
Proof.
  intros Hf [d w l] a m' H. rewrite ask_ret in H. injection H as _ <-. exists [].
  rewrite app_nil_r. cbn. by rewrite Hf.
Qed.
Lemma remembers_emit e : respects remembers (emit (D := bat_state) (W := W) e).
Proof. intros m a m' [= _ <-]. by exists [e]. Qed.
Lemma remembers_mod f : respects remembers (mod_drv (W := W) (E := bat_event) f).
Proof. intros m a m' [= _ <-]. exists []. by rewrite app_nil_r. Qed.
Lemma remembers_write c r v : respects remembers (write8 (W := W) c r v).
Proof.
  intros [d w l] a m' H. unfold write8, i2c_smbus_write_byte_data in H.
  rewrite (bind_ret _ _ _ _ _ (ask_ret _ d w l)) in H. injection H as _ <-.
  eexists. split; [reflexivity|]. cbn. intros Hl%Forall_inv Ho.
  destruct (decide ((c, r) = (CHG, SM5714_CHG_REG_CNTL1))) as [[= -> ->]|Hne]; [|by rewrite q4_other].
  assert (testm (u8 v) Q4 = false) as Ht by (apply not_true_is_false; intros Ht; by apply Hl).
  destruct (q4_maybe (u8 v) w) as [E|E]; [unfold is_u8, u8; apply Z.mod_pos_bound; lia|by rewrite E|by rewrite E].
Qed.
Hint Resolve remembers_emit remembers_mod remembers_write : resp.
Lemma remembers_read c r : respects remembers (read8 (W := W) c r).
Proof. apply remembers_ask. intros w. apply q4_after_read. Qed.
Lemma remembers_sram a : respects remembers (sm5714_fg_read_sram (W := W) a).
Proof.
  unfold sm5714_fg_read_sram, i2c_smbus_write_word_data, i2c_smbus_read_word_data. resp.
  - apply remembers_ask. intros w. apply q4_gauge_write.
  - apply remembers_ask. intros w. apply q4_gauge_read.
Qed.
Lemma remembers_temp : respects remembers (ask (D := bat_state) (E := bat_event) (W := W) iio_read_channel_processed).
Proof. apply remembers_ask, q4_adc. Qed.
Hint Resolve remembers_read remembers_sram remembers_temp : resp.
Ltac remember_prog :=
  repeat first [ solve [eauto 2 with resp] | resp_step
    | lazymatch goal with |- respects _ ?c => let h := term_head c in unfold h; cbv beta iota zeta end ].
Lemma remembers_run e : respects remembers (bat_run (W := W) e).
Proof. remember_prog. Qed.
Lemma remembers_update r mask v : respects remembers (sm5714_chg_update_bits (W := W) r mask v).
Proof. remember_prog. Qed.
Lemma remembers_notify : respects remembers (power_supply_changed_both (W := W)).
Proof. remember_prog. Qed.

(** Opening Q4 opens it. *)
Lemma update_opens (m m' : state) :
  sm5714_chg_update_bits SM5714_CHG_REG_CNTL1 Q4 0 m = Ret (0, m') → q4_on (wld m') = false.
Proof.
  intros (old & m1 & E & H)%bind_inv. destruct m as [d w l]. unfold read8, i2c_smbus_read_byte_data in E.
  rewrite ask_ret in E. injection E as <- <-. set (old := (bus_read_byte _ _ w).1) in *. set (w1 := (bus_read_byte _ _ w).2) in *.
  destruct (Z.ltb_spec old 0) as [Hlt|Hge]; [injection H as H _; lia|]. cbv zeta in H.
  pose proof (testm_clear old) as Ht. destruct (Z.eqb_spec (u8 (Z.lor (Z.land old (Z.lnot Q4)) (Z.land 0 Q4))) old) as [Heq|_].
  - injection H as <-. cbn. unfold w1. rewrite q4_after_read, <- (q4_shown w) by done. fold old. by rewrite <- Heq.
  - unfold write8, i2c_smbus_write_byte_data in H. rewrite (bind_ret _ _ _ _ _ (ask_ret _ d w1 l)) in H.
    injection H as H <-. cbn. rewrite q4_written by (done || (unfold is_u8, u8; apply Z.mod_pos_bound; lia)).
    rewrite <- Ht. f_equal. unfold u8. by rewrite Zmod_mod.
Qed.
Lemma harmless_remembers {A} (c : M (machine bat_state W bat_event) A) a (m m' : state) :
  respects harmless c → respects remembers c → c m = Ret (a, m') →
  q4_on (wld m) = false → q4_on (wld m') = false.
Proof.
  intros H1 H2 H. destruct (H1 _ _ _ H) as [_ (l & El & Hl)]. destruct (H2 _ _ _ H) as (l2 & El2 & Hq).
  rewrite El in El2. apply app_inv_head in El2 as <-. auto.
Qed.
Lemma boost_opens (m m' : state) : enable_boost m = Ret (0, m') → q4_on (wld m') = false.
Proof.
  intros (r1 & m1 & _ & H)%bind_inv. destruct (r1 =? 0) eqn:E1; [|injection H as -> _; discriminate E1].
  apply bind_inv in H as (r2 & m2 & H2 & H). destruct (Z.eqb_spec r2 0) as [->|]; [|by injection H as -> _].
  apply update_opens in H2. revert H H2. apply harmless_remembers.
  - apply respects_nz; [typeclasses eauto|by apply harmless_update|by apply harmless_update].
  - apply respects_nz; [typeclasses eauto|apply remembers_update|apply remembers_update].
Qed.

Definition bat_step (m m' : state) : Prop := ∃ e r, bat_run e m = Ret (r, m').
(** While the driver holds the boost on, Q4 is open. *)
Definition boost_safe (m : state) : Prop := otg m = true → q4_on (wld m) = false.
Lemma open_safe {A} (c : M (machine bat_state W bat_event) A) a (m m' : state) :
  respects keeps_open c → respects remembers c → c m = Ret (a, m') → boost_safe m → boost_safe m'.
Proof.
  intros H1 H2 H Hs Ho. destruct (H1 _ _ _ H) as (l & El & Hl). destruct (H2 _ _ _ H) as (l2 & El2 & Hq).
  rewrite El in El2. apply app_inv_head in El2 as <-. destruct (Hl Ho) as [Ho1 Hl1]. auto.
Qed.
Lemma run_open e : e ≠ BOtg true → respects keeps_open (bat_run (W := W) e).
Proof.
  destruct e as [mv ma|a|[]| |b n]; intros He; cbn [bat_run]; try done.
  - unfold sm5714_battery_set_pd_contract. open_prog.
  - unfold sm5714_battery_set_direct_charge. open_prog.
  - unfold sm5714_battery_set_otg. open_prog.
  - unfold sm5714_poll_work, poll_capacity, poll_thermal, poll_recover, poll_notify. open_prog.
  - unfold fast_charge_store. open_prog.
Qed.
Lemma on_safe (m m' : state) r : sm5714_battery_set_otg true m = Ret (r, m') → boost_safe m → boost_safe m'.
Proof.
  intros H Hs. unfold sm5714_battery_set_otg in H.
  apply bind_inv in H as (d & m0 & E & H). injection E as <- <-.
  destruct (negb (primary (drv m))); [by injection H as _ <-|].
  assert (∀ (k : Z) (m m' : state) (r : Z),
    (power_supply_changed_both;; mret (M := M state) k) m = Ret (r, m') → boost_safe m → boost_safe m') as Hn.
  { intros k m1 m2 r1. apply open_safe.
    - unfold power_supply_changed_both. open_prog.
    - pose proof remembers_notify as Hn. resp. }
  destruct (bool_decide _); [by apply (Hn _ _ _ _ H)|].
  destruct (direct_charging _); [by injection H as _ <-|].
  apply bind_inv in H as (online & m1 & E & H).
  assert (boost_safe m1) as H1.
  { revert E Hs. apply open_safe; [apply harmless_open, harmless_online_raw|remember_prog]. }
  destruct (online <? 0); [by injection H as _ <-|]. destruct (negb _); [by injection H as _ <-|].
  apply bind_inv in H as (ret & m2 & E2 & H). apply bind_inv in H as (u & m3 & E3 & H).
  apply (Hn _ _ _ _ H). destruct (Z.eqb_spec ret 0) as [->|Hr].
  - injection E3 as _ <-. intros _. by apply boost_opens in E2.
  - assert (boost_safe m2) as H2.
    { revert E2 H1. apply open_safe; [apply harmless_open, harmless_boost|remember_prog]. }
    revert E3 H2. apply open_safe; [apply harmless_open|remember_prog].
    apply respects_bind; [typeclasses eauto|apply harmless_muic|intros _; apply respects_skip; typeclasses eauto].
Qed.
Lemma step_safe (m m' : state) : bat_step m m' → boost_safe m → boost_safe m'.
Proof.
  intros (e & r & H). destruct (decide (e = BOtg true)) as [->|He]; [by apply (on_safe _ _ r)|].
  revert H. apply open_safe; [by apply run_open|apply remembers_run].
Qed.
End memory.

(** C29: The boost and the charger's path to the pack are never on together.  Whatever
    the hardware answers, a call of any of the driver's entry points that ends with
    the boost on has not closed Q4.  And on a charger that remembers what Q4 was set
    to, whichever of its accesses fail, from a state without the boost on and through
    any sequence of calls: whenever the driver holds the boost on, Q4 is open, also
    when an earlier call had closed it. *)
Theorem boost_keeps_q4_open {W} `{!BatEnv W} :
  (∀ e (m m' : machine bat_state W bat_event) r, bat_run e m = Ret (r, m') →
    ∃ l, log m' = log m ++ l ∧ (otg_active (sm (drv m')) = true → Forall leaves_q4 l))
  ∧ ∀ (mem : ChargerMemory W) (m0 m : machine bat_state W bat_event),
      otg_active (sm (drv m0)) = false → rtc bat_step m0 m →
      otg_active (sm (drv m)) = true → q4_on (wld m) = false.
Proof.
  split.
  - intros e m m' r H. destruct (decide (e = BOtg true)) as [->|He].
    + apply never_otg_on in H as (l & Hl & Hq). by exists l.
    + destruct (run_open e He _ _ _ H) as (l & Hl & Hq). exists l. split; [done|]. intros Ho. by apply Hq.
  - intros mem m0 m H0 Hs. refine (rtc_keeps bat_step boost_safe _ _ _ Hs _).
    + apply step_safe.
    + intros H. unfold otg in H. congruence.
Qed.

(** The tablet's charger, whose accesses all succeed. *)
#[export] Instance tablet_memory : ChargerMemory tablet.
Proof.
  refine {| q4_on (w : tablet) := testm (tab_reg w CHG SM5714_CHG_REG_CNTL1) Q4 |}; try done.
  - intros v w Hv _. cbn. rewrite tab_reg_set. unfold u8. by rewrite Z.mod_small by exact Hv.
  - intros v w Hv. right. cbn. rewrite tab_reg_set. unfold u8. by rewrite Z.mod_small by exact Hv.
  - intros c r v w Hne. cbn. by rewrite tab_reg_set_ne.
  - intros r v w. cbn. by rewrite tab_reg_set_ne.
Defined.
(** Charging has closed Q4; the charger is unplugged and the boost turned on. *)
Lemma boost_keeps_q4_open_witness :
  let w := mkTablet {[(CHG, SM5714_CHG_REG_CNTL1) := 0x4b]} (fun _ => 0) 30000 in
  ∃ m', bat_run (BOtg true) (mkM idle_bat w []) = Ret (0, m') ∧ otg_active (sm (drv m')) = true
  ∧ q4_on w = true ∧ q4_on (wld m') = false ∧ Forall leaves_q4 (log m').
Proof.
  intros w. assert (∃ m', bat_run (BOtg true) (mkM idle_bat w []) = Ret (0, m') ∧ otg_active (sm (drv m')) = true)
    as (m' & E & Ho) by (eexists; split; vm_compute; reflexivity).
  destruct (boost_keeps_q4_open (W := tablet)) as [H1 H2]. destruct (H1 _ _ _ _ E) as (l & Hl & Hq).
  exists m'. split; [exact E|]. split; [exact Ho|]. split; [vm_compute; reflexivity|]. split.
  - apply (H2 tablet_memory (mkM idle_bat w []) m' eq_refl); [|exact Ho]. apply rtc_once. by exists (BOtg true), 0.
  - rewrite Hl. exact (Hq Ho).
Defined.

(** ** The temperature *)

Definition thermal_run (st : sm5714_charge_thermal_state) (temps : list Z)
    : sm5714_charge_thermal_state := foldl next_thermal_state st temps.

(** The thermal state machine over any sequence of readings (in tenths of a
    degree).  At 50.0 C charging stops, whatever happened before; it stays
    stopped while the pack is at 46.0 C or more; full current does not come back
    before a reading of 42.0 C or less, and does with one; below 46.0 C a pack
    that was normal stays normal. *)
Theorem thermal_hysteresis st before t after :
  (500 <= t → thermal_run st (before ++ [t]) = SM5714_THERMAL_STOP)
  ∧ (500 <= t → Forall (fun x => 460 <= x) after →
     thermal_run st (before ++ t :: after) = SM5714_THERMAL_STOP)
  ∧ (500 <= t → Forall (fun x => 420 < x) after →
     thermal_run st (before ++ t :: after) ≠ SM5714_THERMAL_NORMAL)
  ∧ (t <= 420 → thermal_run st (before ++ [t]) = SM5714_THERMAL_NORMAL)
  ∧ (t <= 420 → Forall (fun x => x < 460) after →
     thermal_run st (before ++ t :: after) = SM5714_THERMAL_NORMAL).
Proof.
  assert (∀ st x, 500 <= x → next_thermal_state st x = SM5714_THERMAL_STOP) as Hstop.
  { intros s x Hx. unfold next_thermal_state.
    rewrite (proj2 (Z.leb_le 500 x)), (proj2 (Z.leb_le 460 x)), (proj2 (Z.ltb_lt 420 x)) by lia.
    by destruct s. }
  assert (∀ st x, x <= 420 → next_thermal_state st x = SM5714_THERMAL_NORMAL) as Hcool.
  { intros s x Hx. unfold next_thermal_state.
    rewrite (proj2 (Z.leb_gt 500 x)), (proj2 (Z.leb_gt 460 x)), (proj2 (Z.ltb_ge 420 x)) by lia.
    by destruct s. }
  unfold thermal_run. rewrite !foldl_app. cbn [foldl]. split_and!.
  - apply Hstop.
  - intros Ht Ha. rewrite Hstop by done. clear -Ha.
    induction Ha as [|x l Hx Ha IH]; [done|]. cbn [foldl].
    unfold next_thermal_state at 2. by rewrite (proj2 (Z.leb_le 460 x)) by lia.
  - intros Ht Ha. rewrite Hstop by done. clear -Ha.
    assert (SM5714_THERMAL_STOP ≠ SM5714_THERMAL_NORMAL) as Hne by done. revert Hne.
    generalize SM5714_THERMAL_STOP. induction Ha as [|x l Hx Ha IH]; intros s Hs; [done|].
    cbn [foldl]. apply IH. unfold next_thermal_state. rewrite (proj2 (Z.ltb_lt 420 x)) by lia.
    destruct s; [done|by destruct (500 <=? x)|by destruct (460 <=? x)].
  - apply Hcool.
  - intros Ht Ha. rewrite Hcool by done. clear -Ha.
    induction Ha as [|x l Hx Ha IH]; [done|]. cbn [foldl].
    unfold next_thermal_state at 2.
    by rewrite (proj2 (Z.leb_gt 460 x)), (proj2 (Z.leb_gt 500 x)) by lia.
Qed.

Lemma thermal_hysteresis_witness :
  thermal_run SM5714_THERMAL_NORMAL ([300; 470] ++ 505 :: [480; 465]) = SM5714_THERMAL_STOP
  ∧ thermal_run SM5714_THERMAL_NORMAL ([300; 470] ++ 505 :: [480; 450; 421])
    ≠ SM5714_THERMAL_NORMAL.
Proof.
  split.
  - apply (thermal_hysteresis SM5714_THERMAL_NORMAL [300; 470] 505 [480; 465]); [lia|].
    repeat (apply Forall_cons; split; [lia|]). apply Forall_nil_2.
  - apply (thermal_hysteresis SM5714_THERMAL_NORMAL [300; 470] 505 [480; 450; 421]); [lia|].
    repeat (apply Forall_cons; split; [lia|]). apply Forall_nil_2.
Defined.

(** ** Limits and register encodings *)

(** What the registers mean, in microamperes and millivolts. *)
Definition input_ua (r : Z) : Z := (100 + 25 * r) * 1000.
Definition fast_ua (r : Z) : Z := 109375 + 15625 * (r - 7).
Definition float_mv (r : Z) : Z :=
  if r <=? 3 then 3700 + 50 * r
  else if r <=? 5 then 3900 + 100 * (r - 4)
  else 4050 + 10 * (r - 6).

(** The register code of a current is the largest whose current does not exceed it. *)
Lemma input_reg_ok i :
  500 <= i <= 3000 → sm5714_input_current_reg i = (i - 100) / 25 ∧ 16 <= (i - 100) / 25 <= 116.
Proof.
  intros Hi. unfold sm5714_input_current_reg, clamp, u8, u32.
  rewrite (Z.mod_small (i - 100)) by lia. rewrite Z.quot_div_nonneg by lia.
  assert (16 <= (i - 100) / 25 <= 116) by (Z.div_mod_to_equations; lia).
  rewrite Z.max_l, Z.min_l by lia. by rewrite Z.mod_small by lia.
Qed.
Lemma fast_reg_ok f :
  500 <= f <= 3150 →
  sm5714_fast_current_reg f = 7 + (f * 1000 - 109375) / 15625
  ∧ 32 <= 7 + (f * 1000 - 109375) / 15625 <= 202.
Proof.
  intros Hf. unfold sm5714_fast_current_reg, clamp, u8, u32.
  rewrite (Z.mod_small (f * 1000)) by lia. rewrite (proj2 (Z.leb_gt _ _)) by lia.
  rewrite (Z.mod_small (f * 1000 - _)) by lia. rewrite Z.quot_div_nonneg by lia.
  assert (32 <= 7 + (f * 1000 - 109375) / 15625 <= 202) by (Z.div_mod_to_equations; lia).
  rewrite (Z.mod_small (7 + _)) by lia.
  rewrite Z.max_l, Z.min_l by lia. by rewrite Z.mod_small by lia.
Qed.
Lemma charge_limits_ok fast mv ma usb_type i f :
  charge_limits fast mv ma usb_type = (i, f) →
  500 <= i <= 3000 ∧ 500 <= f <= 3150 ∧ (5000 <= mv → 500 <= ma → i <= ma).
Proof.
  unfold charge_limits.
  destruct (Z.leb_spec 5000 mv), (Z.leb_spec 500 ma); cbn [andb];
    destruct fast, (5000 <? mv), (usb_type =? POWER_SUPPLY_USB_TYPE_DCP),
      (usb_type =? POWER_SUPPLY_USB_TYPE_CDP); intros [= <- <-]; lia.
Qed.
Lemma batreg_ok uv v :
  Z.quot uv 1000 = v → 3700 <= v < 4630 →
  let r := sm5714_batreg_offset uv in 0 <= r <= 63 ∧ float_mv r <= v < float_mv (r + 1).
Proof.
  intros Hq Hvr. cbv zeta. unfold sm5714_batreg_offset. rewrite Hq. unfold u8, float_mv.
  destruct (Z.leb_spec v 3700); [change (0 <=? 3) with true; change (0 + 1 <=? 3) with true; lia|].
  destruct (Z.ltb_spec v 3900); [|destruct (Z.ltb_spec v 4050);
    [|rewrite (proj2 (Z.ltb_lt v 4630)) by lia]].
  all: rewrite Z.quot_div_nonneg by lia.
  1: assert (0 <= (v - 3700) / 50 <= 3) by (Z.div_mod_to_equations; lia).
  2: assert (0 <= (v - 3900) / 100 <= 1) by (Z.div_mod_to_equations; lia).
  3: assert (0 <= (v - 4050) / 10 <= 57) by (Z.div_mod_to_equations; lia).
  all: rewrite Z.mod_small by lia.
  all: repeat match goal with |- context [?a <=? ?b] => destruct (Z.leb_spec a b) end.
  all: Z.div_mod_to_equations; lia.
Qed.

(** For every contract and port type, with fast charging on or off, the
    limits the driver chooses stay within the board's budget (3 A in, 3.15 A
    into the pack) and within an advertised contract; and the register values
    written for a limit never stand for more than it, and for less than one step
    under it.  The same holds of the float voltage of the pack. *)
Theorem limits_and_registers fast mv ma usb_type uv :
  0 <= ma →
  let '(input, fast_ma) := charge_limits fast mv ma usb_type in
  500 <= input <= 3000 ∧ 500 <= fast_ma <= 3150
  ∧ (5000 <= mv → 500 <= ma → input <= ma)
  ∧ input_ua (sm5714_input_current_reg input) <= input * 1000
      < input_ua (sm5714_input_current_reg input + 1)
  ∧ is_u8 (sm5714_input_current_reg input)
  ∧ fast_ua (sm5714_fast_current_reg fast_ma) <= fast_ma * 1000
      < fast_ua (sm5714_fast_current_reg fast_ma + 1)
  ∧ is_u8 (sm5714_fast_current_reg fast_ma)
  ∧ (3700000 <= uv < 4630000 →
     float_mv (sm5714_batreg_offset uv) * 1000 <= uv
       < float_mv (sm5714_batreg_offset uv + 1) * 1000
     ∧ 0 <= sm5714_batreg_offset uv <= 63).
Proof.
  intros Hma. destruct (charge_limits fast mv ma usb_type) as [i f] eqn:Hl.
  apply charge_limits_ok in Hl as (Hi & Hf & Hm).
  destruct (input_reg_ok i Hi) as [-> Hri]. destruct (fast_reg_ok f Hf) as [-> Hrf].
  unfold input_ua, fast_ua, is_u8.
  split_and!; try lia; try (Z.div_mod_to_equations; lia). intros Huv.
  destruct (batreg_ok uv (uv / 1000)) as [Hr Hfr];
    [apply Z.quot_div_nonneg; lia|Z.div_mod_to_equations; lia|].
  split; [|done]. Z.div_mod_to_equations. lia.
Qed.

Lemma limits_and_registers_witness :
  let '(input, fast_ma) := charge_limits true 9000 2770 POWER_SUPPLY_USB_TYPE_PD in
  input = 2770 ∧ 500 <= input <= 3000 ∧ 500 <= fast_ma <= 3150.
Proof.
  pose proof (limits_and_registers true 9000 2770 POWER_SUPPLY_USB_TYPE_PD 4440000 ltac:(lia))
    as H.
  destruct (charge_limits true 9000 2770 POWER_SUPPLY_USB_TYPE_PD) as [i f] eqn:E.
  destruct H as (Hi & Hf & _). split; [|split; [exact Hi|exact Hf]].
  vm_compute in E. congruence.
Defined.

(** ** The fuel gauge *)

(** The words of the fuel gauge.  The charge is the integer part of the
    Q8.8 percentage, cut at 100; current and temperature are sign and magnitude,
    so that the sign bit negates them; the current is the magnitude in units of
    1/2044 A rounded towards zero to the milliampere; every result and every
    intermediate value of the C expressions fits an [int]. *)
Theorem gauge_conversions raw :
  is_u16 raw →
  capacity_of_raw raw = Z.min 100 (raw / 256)
  ∧ (raw < 0x8000 → current_of_raw (raw + 0x8000) = - current_of_raw raw
                    ∧ temp_of_raw (raw + 0x8000) = - temp_of_raw raw
                    ∧ current_of_raw raw = raw * 1000 / 2044 * 1000)
  ∧ - 16031000 <= current_of_raw raw <= 16031000
  ∧ - 306000 <= voltage_of_raw raw <= 5706000
  ∧ 0 <= ocv_of_raw raw <= 31999000
  ∧ Z.land raw 0x7fff * 10 * 2989 < 2147483648.
Proof.
  intros Hraw. unfold is_u16 in Hraw.
  assert (0 <= Z.land raw 0x7fff <= 0x7fff) as Hlow.
  { change 0x7fff with (Z.ones 15). rewrite Z.land_ones by lia. change (2 ^ 15) with 32768.
    change (Z.ones 15) with 32767.
    pose proof (Z.mod_pos_bound raw 32768 ltac:(lia)). lia. }
  assert (∀ x, 0 <= x < 65536 → testm x 0x8000 = (32768 <=? x)) as Hbit.
  { intros x Hx. change 0x8000 with (2 ^ 15). rewrite testm_pow2 by lia. change (2 ^ 15) with 32768.
    destruct (Z.leb_spec 32768 x).
    - apply Z.testbit_true; [lia|]. change (2 ^ 15) with 32768. Z.div_mod_to_equations; lia.
    - apply Z.testbit_false; [lia|]. change (2 ^ 15) with 32768. by rewrite Z.div_small by lia. }
  assert (raw < 0x8000 → Z.land (raw + 0x8000) 0x7fff = raw ∧ Z.land raw 0x7fff = raw) as Hlo.
  { intros Hlt. change 0x7fff with (Z.ones 15). rewrite !Z.land_ones by lia.
    change (2 ^ 15) with 32768. rewrite <-(Z.mul_1_l 32768) at 1. rewrite Z.mod_add by lia.
    by rewrite Z.mod_small by lia. }
  split; [|split; [|split; [|split; [|split]]]].
  - unfold capacity_of_raw, clamp. rewrite Z.shiftr_div_pow2 by lia. change (2 ^ 8) with 256.
    rewrite Z.quot_div_nonneg by (Z.div_mod_to_equations; lia).
    rewrite Z.div_div by lia. rewrite (Z.mul_comm 256 10), Z.mul_comm, Z.div_mul_cancel_l by lia.
    assert (0 <= raw / 256) by (apply Z.div_pos; lia). lia.
  - intros Hlt. destruct (Hlo Hlt) as [H1 H2].
    unfold current_of_raw, temp_of_raw. rewrite !Hbit, H1, H2 by lia.
    rewrite (proj2 (Z.leb_le 32768 (raw + 32768))), (proj2 (Z.leb_gt 32768 raw)) by lia.
    rewrite Z.quot_div_nonneg by lia. split_and!; lia.
  - unfold current_of_raw. rewrite Z.quot_div_nonneg by lia.
    destruct (testm raw 0x8000); Z.div_mod_to_equations; lia.
  - unfold voltage_of_raw. rewrite Hbit by lia. rewrite !Z.quot_div_nonneg by lia.
    destruct (Z.leb_spec 32768 raw); Z.div_mod_to_equations; lia.
  - unfold ocv_of_raw. rewrite Z.shiftr_div_pow2 by lia. change (2 ^ 11) with 2048.
    Z.div_mod_to_equations; lia.
  - lia.
Qed.

Lemma gauge_conversions_witness :
  is_u16 0x6480 ∧ capacity_of_raw 0x6480 = Z.min 100 (0x6480 / 256).
Proof.
  assert (is_u16 0x6480) as H by (unfold is_u16; lia).
  split; [exact H|]. apply (gauge_conversions 0x6480 H).
Defined.

(** ** Programming the charger *)

(** On hardware that answers, with a charger attached and the pack's
    thermistor plausible, [sm5714_configure_charging] takes the next thermal
    state and either only opens Q4 (STOP), or closes it with the input limit, the
    charge current and the float voltage of the source, the thermal band and the
    board; no other register changes. *)
Theorem configure_programs pr s (w : tablet) l :
  otg_active s = false → battery_temp s = true → vbus w = true →
  -200 <= temp_of w <= 900 →
  let st := next_thermal_state (thermal_state s) (temp_of w) in
  let '(input, fast_ma) :=
    charge_limits (fast_charge s) (typec_mv s) (typec_ma s) (port_type s w) in
  let fast_ma := if bool_decide (st = SM5714_THERMAL_REDUCED)
                 then Z.min fast_ma 2100 else fast_ma in
  let cntl1 := tab_reg w CHG SM5714_CHG_REG_CNTL1 in
  let chgcntl4 := tab_reg w CHG SM5714_CHG_REG_CHGCNTL4 in
  ∃ w' l',
    sm5714_configure_charging (mkM (mkBat pr s) w l)
    = Ret (0, mkM (mkBat pr (s <| thermal_state := st |>)) w' l')
    ∧ if bool_decide (st = SM5714_THERMAL_STOP)
      then becomes w CHG SM5714_CHG_REG_CNTL1 (merge cntl1 Q4 0) w'
      else
        tab_reg w' CHG SM5714_CHG_REG_VBUSCNTL = u8 (sm5714_input_current_reg input)
        ∧ tab_reg w' CHG SM5714_CHG_REG_CHGCNTL2 = u8 (sm5714_fast_current_reg fast_ma)
        ∧ tab_reg w' CHG SM5714_CHG_REG_CNTL1 = merge cntl1 Q4 Q4
        ∧ tab_reg w' CHG SM5714_CHG_REG_CHGCNTL4
          = (if float_uv s =? 0 then chgcntl4
             else merge chgcntl4 SM5714_CHG_BATREG_MASK (sm5714_batreg_offset (float_uv s)))
        ∧ ∀ c r, (c, r) ∉ [(CHG, SM5714_CHG_REG_VBUSCNTL); (CHG, SM5714_CHG_REG_CHGCNTL2);
                           (CHG, SM5714_CHG_REG_CNTL1); (CHG, SM5714_CHG_REG_CHGCNTL4)] →
            tab_reg w' c r = tab_reg w c r.
Proof.
  intros Ho Hb Hv Ht st. destruct (charge_limits _ _ _ _) as [input f] eqn:Hlim.
  intros fast_ma cntl1 chgcntl4. set (d' := mkBat pr (s <| thermal_state := st |>)).
  assert (∀ k : M (machine bat_state tablet bat_event) Z,
    sm5714_configure_charging (mkM (mkBat pr s) w l)
    = match st with
      | SM5714_THERMAL_STOP =>
          sm5714_chg_update_bits SM5714_CHG_REG_CNTL1 SM5714_CHG_CNTL1_ENQ4FET 0 (mkM d' w l)
      | _ => program_charging input fast_ma (mkM d' w l)
      end) as Hrun.
  { intros _. unfold sm5714_configure_charging. erewrite bind_ret by reflexivity.
    cbn [drv sm]. rewrite Ho. unfold ret_if_neg.
    erewrite bind_ret by (by apply tab_usb_type). cbv beta.
    assert (0 <= port_type s w) as Hp.
    { unfold port_type, usb_type_of_muic. by repeat case_match. }
    rewrite (proj2 (Z.ltb_ge _ _)) by done.
    erewrite bind_ret by (by apply tab_temp). cbv beta iota.
    change (0 =? 0) with true. cbv iota.
    rewrite (bind_ret (mod_sm _) _ _ tt (mkM d' w l)) by reflexivity.
    rewrite (bind_ret get_sm _ (mkM d' w l) (sm d') (mkM d' w l)) by reflexivity.
    change (thermal_state (sm d')) with st. cbn [sm]. rewrite Hlim. unfold fast_ma.
    by destruct st. }
  rewrite (Hrun (mret 0)). unfold fast_ma. clear Hrun fast_ma.
  destruct st.
  1,2: rewrite (bool_decide_false (_ = SM5714_THERMAL_STOP)) by done.
  3: rewrite (bool_decide_true (_ = SM5714_THERMAL_STOP)) by done; apply tab_update.
  - destruct (tab_program input f d' w l) as (w' & l' & Hrun & Hrest).
    exists w', l'. split; [exact Hrun|exact Hrest].
  - destruct (tab_program input (Z.min f 2100) d' w l) as (w' & l' & Hrun & Hrest).
    exists w', l'. split; [exact Hrun|exact Hrest].
Qed.

Lemma configure_programs_witness :
  ∃ w' l',
    sm5714_configure_charging (mkM idle_bat (plugged 30000) [])
    = Ret (0, mkM idle_bat w' l')
    ∧ tab_reg w' CHG SM5714_CHG_REG_VBUSCNTL = 68
    ∧ tab_reg w' CHG SM5714_CHG_REG_CHGCNTL2 = 0x86
    ∧ tab_reg w' CHG SM5714_CHG_REG_CNTL1 = 0x4b
    ∧ tab_reg w' CHG SM5714_CHG_REG_CHGCNTL4 = 0xad.
Proof.
  destruct (configure_programs true idle_sm (plugged 30000) []) as (w' & l' & Hrun & H1 & H2 & H3 & H4 & _).
  - reflexivity.
  - reflexivity.
  - vm_compute. reflexivity.
  - vm_compute. split; congruence.
  - exists w', l'. split; [exact Hrun|]. split; [exact H1|]. split; [exact H2|].
    split; [exact H3|exact H4].
Defined.

(** ** The OTG boost *)

Lemma muic_restored old :
  is_u8 old →
  u8 (Z.land (u8 (Z.lor old SM5714_MUIC_CNTL_BC12OFF)) (Z.lnot SM5714_MUIC_CNTL_BC12OFF))
  = Z.land old (Z.lnot SM5714_MUIC_CNTL_BC12OFF)
  ∧ u8 (Z.land (u8 (Z.lor (Z.lor (Z.land old manual_sw_clear) SM5714_MUIC_MANUAL_SW_MANUAL)
                      SM5714_MUIC_MANUAL_SW_USB)) manual_sw_clear)
    = Z.land old manual_sw_clear
  ∧ merge (merge old SM5714_CHG_CNTL2_MODE_MASK SM5714_CHG_CNTL2_USB_OTG)
      SM5714_CHG_CNTL2_MODE_MASK SM5714_CHG_CNTL2_CHARGING
    = merge old SM5714_CHG_CNTL2_MODE_MASK SM5714_CHG_CNTL2_CHARGING.
Proof.
  intros Hold. split_and!; apply Z.eqb_eq.
  - apply (u8_by_cases (fun old => u8 (Z.land (u8 (Z.lor old SM5714_MUIC_CNTL_BC12OFF))
      (Z.lnot SM5714_MUIC_CNTL_BC12OFF)) =? Z.land old (Z.lnot SM5714_MUIC_CNTL_BC12OFF)));
      [vm_compute; reflexivity|done].
  - apply (u8_by_cases (fun old => u8 (Z.land (u8 (Z.lor (Z.lor (Z.land old manual_sw_clear)
      SM5714_MUIC_MANUAL_SW_MANUAL) SM5714_MUIC_MANUAL_SW_USB)) manual_sw_clear)
      =? Z.land old manual_sw_clear)); [vm_compute; reflexivity|done].
  - apply (u8_by_cases (fun old => merge (merge old SM5714_CHG_CNTL2_MODE_MASK
      SM5714_CHG_CNTL2_USB_OTG) SM5714_CHG_CNTL2_MODE_MASK SM5714_CHG_CNTL2_CHARGING
      =? merge old SM5714_CHG_CNTL2_MODE_MASK SM5714_CHG_CNTL2_CHARGING));
      [vm_compute; reflexivity|done].
Qed.

(** With no charger attached, turning the OTG boost on routes the USB data
    lines to the port, opens Q4 and sets the boost's limit and mode; while it is
    on, reprogramming the charger is refused and touches nothing; turning it off
    puts the charger back in charging mode, gives the data lines back to the
    automatic detection and restores the driver's state, so that only Q4 (left
    open) and the boost's limit differ from before in the registers' other bits. *)
Theorem otg_round_trip s (w : tablet) l :
  otg_active s = false → direct_charging s = false → vbus w = false →
  let d := mkBat true s in
  let d_on := mkBat true (s <| otg_active := true |>) in
  let old c r := tab_reg w c r in
  ∃ w1 l1 w2 l2,
    sm5714_battery_set_otg true (mkM d w l) = Ret (0, mkM d_on w1 l1)
    ∧ tab_reg w1 CHG SM5714_CHG_REG_CNTL1 = merge (old CHG SM5714_CHG_REG_CNTL1) Q4 0
    ∧ tab_reg w1 CHG SM5714_CHG_REG_CNTL2
      = merge (old CHG SM5714_CHG_REG_CNTL2) SM5714_CHG_CNTL2_MODE_MASK SM5714_CHG_CNTL2_USB_OTG
    ∧ sm5714_configure_charging (mkM d_on w1 l1) = Ret (- EBUSY, mkM d_on w1 l1)
    ∧ sm5714_battery_set_otg false (mkM d_on w1 l1)
      = Ret (0, mkM (mkBat true (s <| otg_active := false |>)) w2 l2)
    ∧ tab_reg w2 MUIC SM5714_MUIC_REG_CNTL
      = Z.land (old MUIC SM5714_MUIC_REG_CNTL) (Z.lnot SM5714_MUIC_CNTL_BC12OFF)
    ∧ tab_reg w2 MUIC SM5714_MUIC_REG_MANUAL_SW
      = Z.land (old MUIC SM5714_MUIC_REG_MANUAL_SW) manual_sw_clear
    ∧ tab_reg w2 CHG SM5714_CHG_REG_CNTL1 = merge (old CHG SM5714_CHG_REG_CNTL1) Q4 0
    ∧ tab_reg w2 CHG SM5714_CHG_REG_CNTL2
      = merge (old CHG SM5714_CHG_REG_CNTL2) SM5714_CHG_CNTL2_MODE_MASK SM5714_CHG_CNTL2_CHARGING
    ∧ ∀ c r, (c, r) ∉ [(MUIC, SM5714_MUIC_REG_CNTL); (MUIC, SM5714_MUIC_REG_MANUAL_SW);
                       (CHG, SM5714_CHG_REG_CNTL1); (CHG, SM5714_CHG_REG_BSTCNTL1);
                       (CHG, SM5714_CHG_REG_CNTL2)] →
        tab_reg w2 c r = old c r.
Proof.
  intros Ho Hd Hv d d_on old.
  destruct (tab_boost d w l) as (w1 & l1 & Hb & B1 & B2 & B3 & B4 & B5 & B6).
  assert (vbus w1 = false) as Hv1.
  { unfold vbus. rewrite B6; [exact Hv|].
    repeat (apply not_elem_of_cons; split; [discriminate|]). apply not_elem_of_nil. }
  set (l1' := (l1 ++ [EvUsbChanged]) ++ [EvBatChanged]).
  destruct (tab_update SM5714_CHG_REG_CNTL2 SM5714_CHG_CNTL2_MODE_MASK
              SM5714_CHG_CNTL2_CHARGING d_on w1 l1') as (w2 & l2 & H2 & [R2 O2 _ _]).
  set (d_off := mkBat true (s <| otg_active := false |>)).
  destruct (tab_muic_off d_off w2 l2) as (l3 & H3). set (w3 := tab_set _ _ _ _) in H3.
  assert (∀ c r, (c, r) ≠ (MUIC, SM5714_MUIC_REG_CNTL) →
    (c, r) ≠ (MUIC, SM5714_MUIC_REG_MANUAL_SW) → tab_reg w3 c r = tab_reg w2 c r) as O3.
  { intros c r Ha Hc. unfold w3. by rewrite !tab_reg_set_ne by congruence. }
  assert (vbus w3 = false) as Hv3.
  { unfold vbus. by rewrite O3, O2 by discriminate. }
  assert (∀ c r, is_u8 (old c r)) as Hu8 by (intros; apply u8_range).
  exists w1, l1', w3. eexists. split; [|split; [|split; [|split; [|split]]]].
  - unfold sm5714_battery_set_otg. erewrite bind_ret by reflexivity.
    cbn [drv primary sm negb d]. rewrite Ho, bool_decide_false by done. rewrite Hd.
    erewrite bind_ret by apply tab_online_raw. rewrite Hv. change (0 <? 0) with false.
    cbv iota. change (negb (0 =? 0)) with false. cbv iota.
    erewrite bind_ret by exact Hb. change (0 =? 0) with true. cbv iota. reflexivity.
  - exact B3.
  - exact B5.
  - unfold sm5714_configure_charging. by erewrite bind_ret by reflexivity.
  - unfold sm5714_battery_set_otg. erewrite bind_ret by reflexivity.
    cbn [drv primary sm negb d_on].
    rewrite bool_decide_false by done. cbv iota.
    erewrite bind_ret by exact H2. change (0 =? 0) with true. cbv iota.
    erewrite bind_ret.
    2:{ rewrite (bind_ret (mod_sm _) _ _ tt (mkM d_off w2 l2)) by reflexivity. exact H3. }
    change (0 =? 0) with true. cbv iota.
    erewrite bind_ret.
    2:{ erewrite bind_ret by apply tab_online_raw. rewrite Hv3. reflexivity. }
    reflexivity.
  - destruct (muic_restored _ (Hu8 MUIC SM5714_MUIC_REG_CNTL)) as (M1 & _ & _).
    destruct (muic_restored _ (Hu8 MUIC SM5714_MUIC_REG_MANUAL_SW)) as (_ & M2 & _).
    destruct (muic_restored _ (Hu8 CHG SM5714_CHG_REG_CNTL2)) as (_ & _ & M3). unfold old in *.
    split_and!.
    + unfold w3. rewrite tab_reg_set, O2, B1, M1 by discriminate. apply Z.mod_small.
      rewrite <-M1. apply u8_range.
    + unfold w3. rewrite tab_reg_set_ne, tab_reg_set, O2, B2, M2 by discriminate.
      apply Z.mod_small. rewrite <-M2. apply u8_range.
    + rewrite O3, O2 by discriminate. exact B3.
    + rewrite O3, R2, B5 by discriminate. exact M3.
    + intros c r Hni.
      rewrite O3, O2, B6; try done; intros Heq; apply Hni; rewrite ?Heq, <-?Heq; set_solver.
Qed.

Lemma otg_round_trip_witness :
  let w := mkTablet {[(CHG, SM5714_CHG_REG_CNTL1) := 0x4b; (CHG, SM5714_CHG_REG_CNTL2) := 0x35;
                      (MUIC, SM5714_MUIC_REG_CNTL) := 1; (MUIC, SM5714_MUIC_REG_MANUAL_SW) := 0]}
             (fun _ => 0) 30000 in
  ∃ w1 l1 w2 l2,
    sm5714_battery_set_otg true (mkM idle_bat w [])
    = Ret (0, mkM (mkBat true (idle_sm <| otg_active := true |>)) w1 l1)
    ∧ tab_reg w1 CHG SM5714_CHG_REG_CNTL1 = 0x43
    ∧ tab_reg w1 CHG SM5714_CHG_REG_CNTL2 = 0x37
    ∧ sm5714_battery_set_otg false
        (mkM (mkBat true (idle_sm <| otg_active := true |>)) w1 l1)
      = Ret (0, mkM idle_bat w2 l2)
    ∧ tab_reg w2 CHG SM5714_CHG_REG_CNTL2 = 0x35.
Proof.
  intros w.
  destruct (otg_round_trip idle_sm w []) as (w1 & l1 & w2 & l2 & H1 & H2 & H3 & _ & H4 & _ & _ & _ & H5 & _).
  - reflexivity.
  - reflexivity.
  - reflexivity.
  - exists w1, l1, w2, l2. split; [exact H1|]. split; [exact H2|]. split; [exact H3|].
    split; [exact H4|exact H5].
Defined.
