(* ===== verification/Sm5440Direct.v ===== *)
(** [sm5440_direct.c]: the 2:1 charge pump that takes the pack over from the
    switching charger on a programmable USB-PD contract. *)
From S2P Require Import Prelude Bus.

Definition SM5440_REG_INT1 := 0x00.
Definition SM5440_REG_INT3 := 0x02.
Definition SM5440_REG_STATUS3 := 0x0a.
Definition SM5440_STATUS3_VBUSPOK := BIT 5.
Definition SM5440_REG_CNTL1 := 0x0c.
Definition SM5440_CNTL1_SW_RESET := BIT 0.
Definition SM5440_CNTL1_WDT_EN := BIT 7.
Definition SM5440_CNTL1_WDT_30S := Z.shiftl 4 4.
Definition SM5440_REG_CNTL2 := 0x0d.
Definition SM5440_REG_CNTL3 := 0x0e.
Definition SM5440_REG_CNTL4 := 0x0f.
Definition SM5440_REG_CNTL5 := 0x10.
Definition SM5440_CNTL5_OP_MODE_MASK := GENMASK 3 2.
Definition SM5440_CNTL5_CHG_ON := BIT 2.
Definition SM5440_REG_CNTL6 := 0x11.
Definition SM5440_REG_CNTL7 := 0x12.
Definition SM5440_REG_VBUSCNTL := 0x13.
Definition SM5440_REG_VBATCNTL := 0x14.
Definition SM5440_REG_VOUTCNTL := 0x15.
Definition SM5440_REG_IBUSCNTL := 0x16.
Definition SM5440_REG_PRTNCNTL := 0x19.
Definition SM5440_REG_THEMCNTL1 := 0x1a.
Definition SM5440_REG_ADCCNTL1 := 0x1c.
Definition SM5440_ADCCNTL1_AVG_32 := BIT 3.
Definition SM5440_ADCCNTL1_CONTINUOUS := BIT 1.
Definition SM5440_ADCCNTL1_ENABLE := BIT 0.
Definition SM5440_REG_ADCCNTL2 := 0x1d.
Definition SM5440_REG_ADC_VBUS1 := 0x1e.
Definition SM5440_REG_ADC_IBUS1 := 0x22.
Definition SM5440_REG_ADC_DIETEMP := 0x26.
Definition SM5440_REG_ADC_VBAT1 := 0x27.
Definition SM5440_REG_DEVICEID := 0x2b.
Definition SM5440_POLL_MS := 1000.
Definition SM5440_RETRY_MS := 2000.
Definition SM5440_MAX_RETRY_MS := 30000.
Definition SM5440_QUIET_RETRY_MS := 300000.
Definition SM5440_MAX_FAILS := 5.
Definition SM5440_PD_RETRY_MS := 200.
Definition SM5440_PD_RETRIES := 5%nat.
Definition SM5440_INITIAL_IBUS_MA := 1800.
Definition SM5440_VBATREG_MV := 4400.
Definition SM5440_MAX_PPS_MA := 3000.
Definition SM5440_PPS_CAP_MA := 5000.
Definition SM5440_MIN_PPS_MA := 1800.
Definition SM5440_PPS_STEP_MA := 250.
Definition SM5440_IBUS_MARGIN_MA := 300.
Definition SM5440_PPS_V_STEP_MV := 20.
Definition SM5440_REFRESH_TICKS := 4.
Definition SM5440_FREQUENCY_KHZ := 850.
Definition SM5440_FREQUENCY_SIOP2_KHZ := 650.
Definition SM5440_FREQUENCY_SIOP1_KHZ := 450.
Definition SM5440_SIOP_LEV1_MA := 1100.
Definition SM5440_SIOP_LEV2_MA := 1700.
Definition SM5440_R_TTL_MILLIOHM := 320.
Definition SM5440_EXTRA_HEADROOM_MV := 200.
Definition SM5440_MAX_PPS_MV := 10500.

(** The two power supplies the driver uses and the properties it touches. *)
Inductive psy := TCPM | BATTERY.
Inductive psy_prop := PSY_ONLINE | PSY_CURRENT_NOW | PSY_VOLTAGE_NOW | PSY_CAPACITY | PSY_TEMP.

(** [struct sm5440_direct] without its handles, and the module parameter. *)
Record sm5440_direct := mkDirect {
  max_pps_ma : Z;
  target_mv : Z;
  target_ma : Z;
  pps_ticks : Z;
  fails : Z;
  active : bool;
  suspending : bool }.
#[export] Instance eta_direct : Eta sm5440_direct := fun r =>
  mkDirect (max_pps_ma r) (target_mv r) (target_ma r) (pps_ticks r) (fails r)
    (active r) (suspending r).

Inductive dc_event :=
  | DcReg (e : bus_event unit)
  | DcPsySet (p : psy_prop) (v ret : Z)
  | DcPath (active : bool) (ret : Z)   (* sm5714_battery_set_direct_charge *)
  | DcSleep (ms : Z)
  | DcSchedule (ms : Z)
  | DcCancel.

(** The world: the chip's registers, the two power supplies, and the two
    functions the SM5714 driver exports. *)
Class DcEnv (W : Type) := {
  dc_smbus :: Smbus W unit;
  power_supply_get_property : psy → psy_prop → W → (Z * Z) * W;
  power_supply_set_property : psy_prop → Z → W → Z * W;
  set_direct_charge : bool → W → Z * W;
  fast_charge_enabled : W → bool * W;
}.

(** [sm5440_pps_target_mv] *)
Definition sm5440_pps_target_mv (ma vbat_uv : Z) : Z :=
  let headroom := DIV_ROUND_UP (ma * SM5440_R_TTL_MILLIOHM) 1000 + SM5440_EXTRA_HEADROOM_MV in
  let mv := DIV_ROUND_UP (Z.quot vbat_uv 1000 * 2 + headroom) SM5440_PPS_V_STEP_MV
            * SM5440_PPS_V_STEP_MV in
  clamp mv 8200 SM5440_MAX_PPS_MV.

Section direct.
Context {W : Type} `{!DcEnv W}.
Abbreviation M := (M (machine sm5440_direct W dc_event)).

Definition dc_read (r : Z) : M Z := i2c_smbus_read_byte_data tt r.
Definition dc_write (r v : Z) : M Z := i2c_smbus_write_byte_data DcReg tt r v.
Definition msleep (ms : Z) : M unit := emit (DcSleep ms).

Definition sm5440_update_bits (reg mask val : Z) : M Z :=
  old ←? dc_read reg;
  dc_write reg (Z.lor (Z.land old (Z.lnot mask)) (Z.land val mask)).

Definition sm5440_read_adc_pair (reg : Z) : M Z :=
  high ←? dc_read reg;
  low ←? dc_read (reg + 1);
  mret (Z.lor (Z.shiftl high 5) (Z.shiftr low 3)).

Definition adc (m : M Z) (conv : Z → Z) : M Z :=
  raw ← m; mret (if raw <? 0 then raw else conv raw).
Definition sm5440_adc_vbus_mv : M Z :=
  adc (sm5440_read_adc_pair SM5440_REG_ADC_VBUS1) (fun raw => 4096 + raw).
Definition sm5440_adc_ibus_ma : M Z :=
  adc (sm5440_read_adc_pair SM5440_REG_ADC_IBUS1) (fun raw => Z.quot (raw * 625) 1000).
Definition sm5440_adc_vbat_mv : M Z :=
  adc (sm5440_read_adc_pair SM5440_REG_ADC_VBAT1)
    (fun raw => 2048 + Z.quot (raw * 500) 1000).
Definition sm5440_adc_die_temp : M Z :=
  adc (dc_read SM5440_REG_ADC_DIETEMP) (fun raw => 225 + raw * 5).

Definition sm5440_psy_get (p : psy) (prop : psy_prop) : M Z :=
  '(ret, v) ← ask (power_supply_get_property p prop);
  mret (if ret =? 0 then v else ret).

Definition sm5440_psy_set (prop : psy_prop) (v : Z) : M Z :=
  ret ← ask (power_supply_set_property prop v);
  emit (DcPsySet prop v ret);;
  mret ret.

(** The [for] loop of [sm5440_psy_retry]; [first] is [i == 0]. *)
Fixpoint psy_retry (n : nat) (first : bool) (ret : Z) (prop : psy_prop) (v : Z) : M Z :=
  match n with
  | O => mret ret
  | S n' =>
      if negb (ret =? - EAGAIN) then mret ret
      else
        (if first then skip else msleep SM5440_PD_RETRY_MS);;
        ret ← sm5440_psy_set prop v;
        psy_retry n' false ret prop v
  end.
Definition sm5440_psy_retry (prop : psy_prop) (v : Z) : M Z :=
  psy_retry SM5440_PD_RETRIES true (- EAGAIN) prop v.

Definition sm5440_set_ibus_limit (ma : Z) : M Z :=
  dc_write SM5440_REG_IBUSCNTL
    (Z.quot (clamp (ma + SM5440_IBUS_MARGIN_MA) 0 6350) 50).

(** The loop that walks down from the highest current; the result is [ret]
    and [ma] when it ends. *)
Fixpoint walk_down (fuel : nat) (ret ma : Z) : M (Z * Z) :=
  if ma <? SM5440_MIN_PPS_MA then mret (ret, ma)
  else
    match fuel with
    | O => nofuel
    | S fuel' =>
        ret ← sm5440_psy_retry PSY_CURRENT_NOW (ma * 1000);
        if (ret =? 0) || negb (ret =? - EINVAL) then mret (ret, ma)
        else walk_down fuel' ret (ma - SM5440_PPS_STEP_MA)
    end.
(** Enough for every value of the module parameter. *)
Definition WALK_FUEL : nat := 14.

(** The result: the return value, [*target_ma] and [*target_mv]. *)
Definition sm5440_negotiate_pps (vbat_uv : Z) : M (Z * Z * Z) :=
  d ← get_drv;
  let ma := clamp (max_pps_ma d) SM5440_MIN_PPS_MA SM5440_PPS_CAP_MA in
  let fixed ret := sm5440_psy_retry PSY_ONLINE 1;; mret (ret, 0, 0) in
  ret ← sm5440_psy_retry PSY_ONLINE 2;
  if negb (ret =? 0) then mret (ret, 0, 0)
  else
    '(ret, ma) ← walk_down WALK_FUEL ret ma;
    if negb (ret =? 0) then fixed ret
    else
      let mv := sm5440_pps_target_mv ma vbat_uv in
      ret ← sm5440_psy_retry PSY_VOLTAGE_NOW (mv * 1000);
      if negb (ret =? 0) then fixed ret else mret (0, ma, mv).

Definition sm5440_refresh_pps : M Z :=
  battery_uv ←? sm5440_psy_get BATTERY PSY_VOLTAGE_NOW;
  d ← get_drv;
  let mv := sm5440_pps_target_mv (target_ma d) battery_uv in
  (if SM5440_PPS_V_STEP_MV <=? Z.abs (mv - target_mv d) then
     ret ← sm5440_psy_retry PSY_VOLTAGE_NOW (mv * 1000);
     (if ret =? 0 then mod_drv (fun d => d <| target_mv := mv |>) else skip);;
     mret ret
   else mret 0) ?;
  sm5440_psy_retry PSY_CURRENT_NOW (target_ma d * 1000).

Definition sm5440_set_freq (khz : Z) : M Z :=
  dc_write SM5440_REG_CNTL7 (Z.quot (khz - 250) 50).

Definition sm5440_select_freq (ma : Z) : M Z :=
  if ma <=? SM5440_SIOP_LEV1_MA then sm5440_set_freq SM5440_FREQUENCY_SIOP1_KHZ
  else if ma <=? SM5440_SIOP_LEV2_MA then sm5440_set_freq SM5440_FREQUENCY_SIOP2_KHZ
  else sm5440_set_freq SM5440_FREQUENCY_KHZ.

Definition sm5440_pump_off : M Z :=
  sm5440_update_bits SM5440_REG_CNTL5 SM5440_CNTL5_OP_MODE_MASK 0.

Definition sm5440_pump_on : M Z :=
  sm5440_update_bits SM5440_REG_CNTL5 SM5440_CNTL5_OP_MODE_MASK SM5440_CNTL5_CHG_ON ?;
  r ← for_upto 5 0 (fun _ =>
        msleep 20;;
        status3 ← dc_read SM5440_REG_STATUS3;
        mret (if status3 <? 0 then Some status3
              else if testm status3 SM5440_STATUS3_VBUSPOK then Some 0 else None));
  mret (default (- ENOLINK) r).

Definition sm5440_wait_vbus_settled (mv : Z) : M Z :=
  r ← for_upto 30 0 (fun i =>
        msleep (if i =? 0 then 20 else 50);;
        vbus_mv ← sm5440_adc_vbus_mv;
        mret (if vbus_mv <? 0 then Some vbus_mv
              else if mv - 500 <=? vbus_mv then Some 0 else None));
  mret (default (- ETIMEDOUT) r).

Definition sm5440_renegotiate_pps : M Z :=
  sm5440_pump_off ?;
  sm5440_refresh_pps ?;
  d ← get_drv;
  sm5440_wait_vbus_settled (target_mv d) ?;
  sm5440_pump_on.

(** Reading the latches clears them; what they held is only printed. *)
Definition sm5440_log_faults : M unit :=
  dc_read SM5440_REG_INT1;;
  dc_read SM5440_REG_INT3;;
  skip.

Definition sm5714_battery_set_direct_charge (a : bool) : M Z :=
  ret ← ask (set_direct_charge a);
  emit (DcPath a ret);;
  mret ret.
Definition sm5714_battery_fast_charge_enabled : M bool := ask fast_charge_enabled.

Definition sm5440_restore_switching : M unit :=
  sm5440_update_bits SM5440_REG_CNTL5 SM5440_CNTL5_OP_MODE_MASK 0;;
  sm5440_update_bits SM5440_REG_ADCCNTL1 SM5440_ADCCNTL1_ENABLE 0;;
  sm5440_update_bits SM5440_REG_CNTL1 SM5440_CNTL1_WDT_EN 0;;
  sm5440_psy_retry PSY_ONLINE 1;;
  sm5714_battery_set_direct_charge false;;
  mod_drv (fun d => (d <| pps_ticks := 0 |>) <| active := false |>).

(** [SM5440_WRITE] for each pair of the list. *)
Fixpoint write_all (l : list (Z * Z)) (k : M Z) : M Z :=
  match l with
  | [] => k
  | (r, v) :: l' => dc_write r v ?; write_all l' k
  end.
Definition init_values : list (Z * Z) :=
  [(SM5440_REG_CNTL1, SM5440_CNTL1_WDT_30S); (SM5440_REG_CNTL2, 0xf2);
   (SM5440_REG_CNTL3, 0xb8); (SM5440_REG_CNTL4, 0xff); (SM5440_REG_CNTL6, 0x09);
   (SM5440_REG_VBUSCNTL, 0x07);
   (SM5440_REG_VBATCNTL, Z.quot ((SM5440_VBATREG_MV - 3800) * 10) 125);
   (SM5440_REG_VOUTCNTL, 0x3f);
   (SM5440_REG_IBUSCNTL, Z.quot SM5440_INITIAL_IBUS_MA 50);
   (SM5440_REG_PRTNCNTL, 0xfe); (SM5440_REG_THEMCNTL1, 0x0c);
   (SM5440_REG_ADCCNTL1,
      Z.lor (Z.lor SM5440_ADCCNTL1_AVG_32 SM5440_ADCCNTL1_CONTINUOUS)
        SM5440_ADCCNTL1_ENABLE);
   (SM5440_REG_ADCCNTL2, 0xdf)].

Definition sm5440_hw_init : M Z :=
  dc_write SM5440_REG_CNTL1 SM5440_CNTL1_SW_RESET ?;
  r ← for_upto 255 0 (fun _ =>
        msleep 1;;
        reg ← dc_read SM5440_REG_CNTL1;
        mret (if reg <? 0 then Some reg
              else if testm reg SM5440_CNTL1_SW_RESET then None else Some 0));
  match r with
  | None => mret (- ETIMEDOUT)
  | Some ret =>
      if ret <? 0 then mret ret
      else
        write_all init_values (
          r ← for_upto 4 0 (fun i =>
                ret ← dc_read i;
                mret (if ret <? 0 then Some ret else None));
          mret (default 0 r))
  end.

(** [ret = c; if (ret) goto restore; k] *)
Definition or_restore (c : M Z) (k : M Z) : M Z :=
  ret ← c;
  if ret =? 0 then k else sm5440_restore_switching;; mret ret.

Definition sm5440_start : M Z :=
  battery_uv ←? sm5440_psy_get BATTERY PSY_VOLTAGE_NOW;
  sm5714_battery_set_direct_charge true ?;
  or_restore sm5440_hw_init (
    '(ret, ma, mv) ← sm5440_negotiate_pps battery_uv;
    or_restore (mret ret) (
    or_restore (sm5440_select_freq ma) (
    or_restore (sm5440_set_ibus_limit ma) (
    or_restore (sm5440_wait_vbus_settled mv) (
    or_restore (sm5440_update_bits SM5440_REG_CNTL1 SM5440_CNTL1_WDT_EN
                  SM5440_CNTL1_WDT_EN) (
    or_restore sm5440_pump_on (
      mod_drv (fun d => (((d <| active := true |>) <| target_mv := mv |>)
                           <| target_ma := ma |>) <| pps_ticks := 0 |>);;
      mret 0))))))).

Definition sm5440_eligible : M bool :=
  online ← sm5440_psy_get TCPM PSY_ONLINE;
  capacity ← sm5440_psy_get BATTERY PSY_CAPACITY;
  temp ← sm5440_psy_get BATTERY PSY_TEMP;
  voltage ← sm5440_psy_get BATTERY PSY_VOLTAGE_NOW;
  mret ((0 <? online) && (5 <=? capacity) && (capacity <? 90)
        && (100 <=? temp) && (temp <? 420)
        && (3500000 <=? voltage) && (voltage <? 4350000)).

Definition backoff_ms (fails : Z) : Z :=
  if SM5440_MAX_FAILS <=? fails then SM5440_QUIET_RETRY_MS
  else Z.min (Z.shiftl SM5440_RETRY_MS fails) SM5440_MAX_RETRY_MS.
Definition sm5440_backoff : M Z :=
  mod_drv (fun d => if fails d <? SM5440_MAX_FAILS
                    then d <| fails ::= fun f => f + 1 |> else d);;
  d ← get_drv;
  mret (backoff_ms (fails d)).

(** The readings of a running pump that end direct charging. *)
Definition must_stop (capacity pack_temp op_mode status3 vbus ibus vbat die_temp : Z)
    : bool :=
  (capacity <? 0) || (pack_temp <? 0) || (op_mode <? 0) || (status3 <? 0)
  || (vbus <? 0) || (ibus <? 0) || (vbat <? 0) || (die_temp <? 0)
  || (90 <=? capacity) || (450 <=? pack_temp)
  || negb (testm op_mode SM5440_CNTL5_CHG_ON)
  || negb (testm status3 SM5440_STATUS3_VBUSPOK)
  || (10800 <? vbus) || (4450 <? vbat) || (1100 <=? die_temp).

(** *** [sm5440_work]: every part returns the delay of the next poll *)

Definition work_idle : M Z :=
  fast ← sm5714_battery_fast_charge_enabled;
  if negb fast then mret SM5440_RETRY_MS
  else
    ok ← sm5440_eligible;
    if negb ok then mret SM5440_RETRY_MS
    else
      ret ← sm5440_start;
      if negb (ret =? 0) then sm5440_backoff
      else
        mod_drv (fun d => d <| fails := 0 |>);;
        mret SM5440_POLL_MS.

Definition work_stop : M Z :=
  sm5440_log_faults;;
  sm5440_restore_switching;;
  sm5440_backoff.

Definition work_check : M Z :=
  capacity ← sm5440_psy_get BATTERY PSY_CAPACITY;
  pack_temp ← sm5440_psy_get BATTERY PSY_TEMP;
  op_mode ← dc_read SM5440_REG_CNTL5;
  status3 ← dc_read SM5440_REG_STATUS3;
  vbus ← sm5440_adc_vbus_mv;
  ibus ← sm5440_adc_ibus_ma;
  vbat ← sm5440_adc_vbat_mv;
  die_temp ← sm5440_adc_die_temp;
  if must_stop capacity pack_temp op_mode status3 vbus ibus vbat die_temp
  then work_stop
  else
    ret ← sm5440_update_bits SM5440_REG_CNTL1 SM5440_CNTL1_WDT_EN SM5440_CNTL1_WDT_EN;
    if negb (ret =? 0) then sm5440_restore_switching;; sm5440_backoff
    else
      mod_drv (fun d => d <| fails := 0 |>);;
      mret SM5440_POLL_MS.

Definition work_active : M Z :=
  fast ← sm5714_battery_fast_charge_enabled;
  if negb fast then
    sm5440_log_faults;;
    sm5440_restore_switching;;
    mret SM5440_RETRY_MS
  else
    mod_drv (fun d => d <| pps_ticks ::= fun t => u32 (t + 1) |>);;
    d ← get_drv;
    if SM5440_REFRESH_TICKS <=? pps_ticks d then
      mod_drv (fun d => d <| pps_ticks := 0 |>);;
      ret ← sm5440_renegotiate_pps;
      if negb (ret =? 0) then work_stop else work_check
    else work_check.

Definition sm5440_work : M unit :=
  d ← get_drv;
  delay ← (if active d then work_active else work_idle);
  d ← get_drv;
  if suspending d then skip else emit (DcSchedule delay).

(** Removing the driver. *)
Definition sm5440_cancel_work : M unit :=
  emit DcCancel;;
  d ← get_drv;
  if active d then sm5440_restore_switching else skip.

Definition PM_SUSPEND_PREPARE := 3.
Definition PM_POST_SUSPEND := 4.
Definition sm5440_pm_notify (action : Z) : M unit :=
  if action =? PM_SUSPEND_PREPARE then
    mod_drv (fun d => d <| suspending := true |>);;
    emit DcCancel;;
    d ← get_drv;
    if active d then sm5440_pump_off;; sm5440_restore_switching else skip
  else if action =? PM_POST_SUSPEND then
    mod_drv (fun d => d <| suspending := false |>);;
    emit (DcSchedule SM5440_POLL_MS)
  else skip.

(** What [devm_power_supply_get_by_reference] returns: an error pointer, NULL
    or the supply. *)
Inductive psy_ref := PsyErr (err : Z) | PsyNull | PsyRef.

(** [smbus_ok] and the other arguments are the answers of the kernel: the
    adapter can do byte transfers, [devm_kzalloc] succeeded, the two power
    supplies, and what registering the PM notifier returned. *)
Definition sm5440_probe (smbus_ok alloc_ok : bool) (tcpm : psy_ref) (battery : bool)
    (pm_ret : Z) : M Z :=
  if negb smbus_ok then mret (- EOPNOTSUPP)
  else if negb alloc_ok then mret (- ENOMEM)
  else
    mod_drv (fun d => mkDirect (max_pps_ma d) 0 0 0 0 false false);;
    id ←? dc_read SM5440_REG_DEVICEID;
    if negb (Z.land id 0x0f =? 1) then mret (- ENODEV)
    else match tcpm with
    | PsyErr err => mret err
    | PsyNull => mret (- EPROBE_DEFER)
    | PsyRef =>
        if negb battery then mret (- EPROBE_DEFER)
        else if negb (pm_ret =? 0) then
          (* the device-managed action: cancel the work *)
          sm5440_cancel_work;;
          mret pm_ret
        else
          emit (DcSchedule 10000);;
          sm5714_battery_fast_charge_enabled;;
          mret 0
    end.
End direct.
