(* ===== verification/Sm5440Facts.v ===== *)
(** Lemmas for the direct charger: what each part of the driver can do to the
    hand-over of the pack. *)
From S2P Require Import Prelude Bus Sm5440Direct.

(** Whether the pack has been handed to the pump, by the calls in the log. *)
Definition path_step (b : bool) (e : dc_event) : bool :=
  match e with
  | DcPath true ret => if ret =? 0 then true else b
  | DcPath false _ => false
  | _ => b
  end.
Definition path_of (l : list dc_event) : bool := foldl path_step false l.

(** A write that turns the pump on. *)
Definition turns_on (e : dc_event) : Prop :=
  match e with
  | DcReg (Wr _ r v _) => r = SM5440_REG_CNTL5 ∧ testm v SM5440_CNTL5_CHG_ON = true
  | _ => False
  end.

(** The pump is only ever turned on while the pack is handed over. *)
Definition guarded (l : list dc_event) : Prop :=
  ∀ l1 e l2, l = l1 ++ e :: l2 → turns_on e → path_of l1 = true.

Lemma guarded_snoc l e : guarded l → (turns_on e → path_of l = true) → guarded (l ++ [e]).
Proof.
  intros Hl He l1 e' l2 Heq Hon. destruct l2 as [|x l2 _] using rev_ind.
  - apply app_inj_tail in Heq as [-> ->]. by apply He.
  - rewrite app_comm_cons, app_assoc in Heq. apply app_inj_tail in Heq as [-> _].
    by eapply Hl.
Qed.
Lemma path_snoc l e : path_of (l ++ [e]) = path_step (path_of l) e.
Proof. unfold path_of. by rewrite foldl_app. Qed.

Section facts.
Context {W : Type} `{!DcEnv W}.
Abbreviation M := (M (machine sm5440_direct W dc_event)).
Abbreviation state := (machine sm5440_direct W dc_event).

Definition J (p a : bool) (m : state) : Prop :=
  guarded (log m) ∧ path_of (log m) = p ∧ active (drv m) = a.

(** A call that keeps the hand-over as it is. *)
Definition stays (m m' : state) : Prop := ∀ p a, J p a m → J p a m'.
#[export] Instance stays_preorder : PreOrder stays.
Proof. unfold stays. split; [by intros m|]. intros m1 m2 m3 H1 H2 p a H. auto. Qed.
(** The same, while the pack is handed over. *)
Definition stays_on (m m' : state) : Prop := ∀ a, J true a m → J true a m'.
#[export] Instance stays_on_preorder : PreOrder stays_on.
Proof. unfold stays_on. split; [by intros m|]. intros m1 m2 m3 H1 H2 a H. auto. Qed.
Lemma stays_stays_on {A} (c : M A) : respects stays c → respects stays_on c.
Proof. intros H m x m' Hr a. by apply (H _ _ _ Hr). Qed.

Lemma stays_ask {A} (f : W → A * W) :
  respects stays (ask (D := sm5440_direct) (E := dc_event) f).
Proof. intros m a m'. unfold ask. destruct (f (wld m)). intros [= _ <-]. by intros p b. Qed.
Lemma stays_emit e :
  ¬ turns_on e → (∀ b, path_step b e = b) → respects stays (emit (D := sm5440_direct) (W := W) e).
Proof.
  intros He Hp m a m' [= _ <-] p b (Hg & Hq & Ha). split_and!; cbn; [|by rewrite path_snoc, Hp|done].
  apply guarded_snoc; [done|]. by intros ?.
Qed.
Lemma stays_drv : respects stays (get_drv (D := sm5440_direct) (W := W) (E := dc_event)).
Proof. unfold get_drv. resp. Qed.
Lemma stays_mod f :
  (∀ d, active (f d) = active d) →
  respects stays (mod_drv (D := sm5440_direct) (W := W) (E := dc_event) f).
Proof. intros Hf m a m' [= _ <-] p b (Hg & Hq & Ha). split_and!; try done. cbn. by rewrite Hf. Qed.

Lemma stays_read r : respects stays (dc_read (W := W) r).
Proof. apply stays_ask. Qed.
Lemma stays_sleep n : respects stays (msleep (W := W) n).
Proof. apply stays_emit; [by intros ?|done]. Qed.
Hint Resolve stays_read stays_sleep stays_drv : resp.

Lemma stays_write r v :
  r ≠ SM5440_REG_CNTL5 ∨ testm (u8 v) SM5440_CNTL5_CHG_ON = false →
  respects stays (dc_write (W := W) r v).
Proof.
  intros Hw. unfold dc_write, i2c_smbus_write_byte_data.
  apply respects_bind; [apply _|apply stays_ask|]. intros ret.
  apply respects_bind; [apply _| |intros _; apply respects_ret, _].
  apply stays_emit; [|done]. intros [Hr Ht]. destruct Hw as [?|Hf]; congruence.
Qed.
Lemma stays_update r mask v :
  r ≠ SM5440_REG_CNTL5 → respects stays (sm5440_update_bits (W := W) r mask v).
Proof.
  intros Hr. unfold sm5440_update_bits. apply respects_neg; [apply _|apply stays_read|].
  intros old. apply stays_write. by left.
Qed.
Lemma mode_cleared old :
  testm (u8 (Z.lor (Z.land old (Z.lnot SM5440_CNTL5_OP_MODE_MASK))
               (Z.land 0 SM5440_CNTL5_OP_MODE_MASK))) SM5440_CNTL5_CHG_ON = false.
Proof.
  rewrite Z.land_0_l, Z.lor_0_r. change SM5440_CNTL5_CHG_ON with (2 ^ 2).
  rewrite testm_pow2 by lia. unfold u8. change 256 with (2 ^ 8).
  rewrite Z.mod_pow2_bits_low, Z.land_spec, Z.lnot_spec by lia.
  change (Z.testbit SM5440_CNTL5_OP_MODE_MASK 2) with true. apply andb_false_r.
Qed.
Lemma stays_pump_off : respects stays (sm5440_pump_off (W := W)).
Proof.
  unfold sm5440_pump_off, sm5440_update_bits.
  apply respects_neg; [apply _|apply stays_read|].
  intros old. apply stays_write. right. apply mode_cleared.
Qed.
Lemma stays_psy_get p q : respects stays (sm5440_psy_get (W := W) p q).
Proof. unfold sm5440_psy_get. repeat (first [apply stays_ask | resp_step]). Qed.
Lemma stays_psy_set q v : respects stays (sm5440_psy_set (W := W) q v).
Proof.
  unfold sm5440_psy_set. apply respects_bind; [apply _|apply stays_ask|]. intros ret.
  apply respects_bind; [apply _| |intros _; apply respects_ret, _].
  apply stays_emit; [by intros ?|done].
Qed.
Hint Resolve stays_pump_off stays_psy_get stays_psy_set : resp.
Lemma stays_retry q v : respects stays (sm5440_psy_retry (W := W) q v).
Proof.
  unfold sm5440_psy_retry. generalize SM5440_PD_RETRIES, true, (- EAGAIN).
  intros n. induction n as [|n IH]; intros b ret; simpl; resp.
Qed.
Hint Resolve stays_retry : resp.

(** Everything below never touches CNTL5 but to turn the pump off. *)
Ltac stay :=
  repeat first [ solve [eauto 3 with resp] | resp_step
               | apply stays_write; left; discriminate
               | apply stays_update; discriminate
               | apply stays_mod; let d := fresh in intros d; reflexivity
               | apply stays_ask
               | apply stays_emit; [let H := fresh in intros H; exact H|reflexivity] ].

Lemma stays_adc r : respects stays (sm5440_read_adc_pair (W := W) r).
Proof. unfold sm5440_read_adc_pair. stay. Qed.
Hint Resolve stays_adc : resp.
Lemma stays_adc_conv c f : respects stays c → respects stays (adc (W := W) c f).
Proof. intros Hc. unfold adc. stay. Qed.
Lemma stays_vbus : respects stays (sm5440_adc_vbus_mv (W := W)).
Proof. by apply stays_adc_conv, stays_adc. Qed.
Lemma stays_ibus : respects stays (sm5440_adc_ibus_ma (W := W)).
Proof. by apply stays_adc_conv, stays_adc. Qed.
Lemma stays_vbat : respects stays (sm5440_adc_vbat_mv (W := W)).
Proof. by apply stays_adc_conv, stays_adc. Qed.
Lemma stays_die : respects stays (sm5440_adc_die_temp (W := W)).
Proof. by apply stays_adc_conv, stays_read. Qed.
Hint Resolve stays_vbus stays_ibus stays_vbat stays_die : resp.

Lemma stays_walk fuel ret ma : respects stays (walk_down (W := W) fuel ret ma).
Proof. revert ret ma. induction fuel as [|fuel IH]; intros ret ma; simpl; stay. Qed.
Hint Resolve stays_walk : resp.
Lemma stays_negotiate uv : respects stays (sm5440_negotiate_pps (W := W) uv).
Proof. unfold sm5440_negotiate_pps. stay. Qed.
Lemma stays_refresh : respects stays (sm5440_refresh_pps (W := W)).
Proof. unfold sm5440_refresh_pps. stay. Qed.
Lemma stays_freq ma : respects stays (sm5440_select_freq (W := W) ma).
Proof. unfold sm5440_select_freq, sm5440_set_freq. stay. Qed.
Lemma stays_limit ma : respects stays (sm5440_set_ibus_limit (W := W) ma).
Proof. unfold sm5440_set_ibus_limit. stay. Qed.
Lemma stays_settled mv : respects stays (sm5440_wait_vbus_settled (W := W) mv).
Proof. unfold sm5440_wait_vbus_settled. stay. Qed.
Lemma stays_faults : respects stays (sm5440_log_faults (W := W)).
Proof. unfold sm5440_log_faults. stay. Qed.
Lemma stays_write_all l k :
  Forall (fun p => p.1 ≠ SM5440_REG_CNTL5) l → respects stays k →
  respects stays (write_all (W := W) l k).
Proof.
  intros Hl Hk. induction Hl as [|[r v] l Hr Hl IH]; simpl; [done|].
  apply respects_nz; [apply _|apply stays_write; by left|done].
Qed.
Lemma stays_hw_init : respects stays (sm5440_hw_init (W := W)).
Proof.
  unfold sm5440_hw_init. stay. apply stays_write_all; [|stay].
  unfold init_values. repeat (apply Forall_cons; split; [discriminate|]). apply Forall_nil_2.
Qed.
Lemma stays_eligible : respects stays (sm5440_eligible (W := W)).
Proof. unfold sm5440_eligible. stay. Qed.
Lemma stays_backoff : respects stays (sm5440_backoff (W := W)).
Proof.
  unfold sm5440_backoff. stay. apply stays_mod. intros d. by destruct (fails d <? _).
Qed.
Lemma stays_fast : respects stays (sm5714_battery_fast_charge_enabled (W := W)).
Proof. apply stays_ask. Qed.

(** *** Handing over and back *)

Definition triple {A} (P : state → Prop) (c : M A) (Q : A → state → Prop) : Prop :=
  ∀ m a m', P m → c m = Ret (a, m') → Q a m'.

Lemma triple_bind {A B} P (c : M A) (k : A → M B) R Q :
  triple P c R → (∀ a, triple (R a) (k a) Q) → triple P (c ≫= k) Q.
Proof. intros Hc Hk m b m' Hp H. apply bind_inv in H as (a & m1 & H1 & H2).
  eapply Hk; [by eapply Hc|done]. Qed.
Lemma triple_stays {A} p a (c : M A) : respects stays c → triple (J p a) c (fun _ => J p a).
Proof. intros H m x m' Hp Hr. by apply (H _ _ _ Hr). Qed.
Lemma triple_ret {A} (P : state → Prop) (x : A) (Q : A → state → Prop) :
  (∀ m, P m → Q x m) → triple P (mret x) Q.
Proof. intros H m a m' Hp [= <- <-]. auto. Qed.
Lemma triple_post {A} P (c : M A) Q (Q' : A → state → Prop) :
  triple P c Q → (∀ a m, Q a m → Q' a m) → triple P c Q'.
Proof. intros H Himp m a m' Hp Hr. eauto. Qed.
Lemma triple_if {A} P (b : bool) (c1 c2 : M A) Q :
  (b = true → triple P c1 Q) → (b = false → triple P c2 Q) →
  triple P (if b then c1 else c2) Q.
Proof. destruct b; auto. Qed.

Lemma path_off p a : triple (J p a) (sm5714_battery_set_direct_charge (W := W) false)
  (fun _ => J false a).
Proof.
  intros m r m' (Hg & Hp & Ha) H. apply bind_inv in H as (ret & m1 & H1 & H).
  apply bind_inv in H as ([] & m2 & H2 & [= _ <-]). injection H2 as <-.
  assert (J p a m1) as (Hg1 & Hp1 & Ha1) by (by apply (stays_ask _ _ _ _ H1 p a)).
  split_and!; cbn; [apply guarded_snoc; [done|intros Hf; destruct Hf]|by rewrite path_snoc|done].
Qed.
Lemma path_on a : triple (J false a) (sm5714_battery_set_direct_charge (W := W) true)
  (fun r => J (r =? 0) a).
Proof.
  intros m r m' (Hg & Hp & Ha) H. apply bind_inv in H as (ret & m1 & H1 & H).
  apply bind_inv in H as ([] & m2 & H2 & [= <- <-]). injection H2 as <-.
  assert (J false a m1) as (Hg1 & Hp1 & Ha1) by (by apply (stays_ask _ _ _ _ H1 false a)).
  split_and!; cbn; [apply guarded_snoc; [done|intros Hf; destruct Hf]| |done].
  rewrite path_snoc. cbn. rewrite Hp1. by destruct (ret =? 0).
Qed.

(** Whatever failed before, after [sm5440_restore_switching] the pack is back
    with the switching charger. *)
Lemma restore_ok p a : triple (J p a) (sm5440_restore_switching (W := W)) (fun _ => J false false).
Proof.
  unfold sm5440_restore_switching.
  eapply triple_bind; [apply triple_stays, stays_pump_off|intro; cbv beta].
  eapply triple_bind; [apply triple_stays; by apply stays_update|intro; cbv beta].
  eapply triple_bind; [apply triple_stays; by apply stays_update|intro; cbv beta].
  eapply triple_bind; [apply triple_stays, stays_retry|intro; cbv beta].
  eapply triple_bind; [apply path_off|intro; cbv beta].
  intros m x m' (Hg & Hp & Ha) [= _ <-]. by split_and!.
Qed.

Lemma pump_on_ok : respects stays_on (sm5440_pump_on (W := W)).
Proof.
  unfold sm5440_pump_on. apply respects_nz; [apply _| |].
  - unfold sm5440_update_bits. apply respects_neg; [apply _|apply stays_stays_on, stays_read|].
    intros old. unfold dc_write, i2c_smbus_write_byte_data.
    apply respects_bind; [apply _|apply stays_stays_on, stays_ask|]. intros ret.
    apply respects_bind; [apply _| |intros _; apply respects_ret, _].
    intros m x m' [= _ <-] a (Hg & Hp & Ha). split_and!; cbn; [|by rewrite path_snoc|done].
    by apply guarded_snoc.
  - apply stays_stays_on. stay.
Qed.
Lemma triple_stays_on {A} a (c : M A) :
  respects stays_on c → triple (J true a) c (fun _ => J true a).
Proof. intros H m x m' Hp Hr. by apply (H _ _ _ Hr). Qed.

(** [0] and running, or an error and handed back. *)
Definition started (r : Z) : state → Prop := if r =? 0 then J true true else J false false.

Lemma or_restore_ok (c k : M Z) :
  respects stays_on c → triple (J true false) k started →
  triple (J true false) (or_restore c k) started.
Proof.
  intros Hc Hk. unfold or_restore. eapply triple_bind; [by apply triple_stays_on|].
  intros ret. apply triple_if; [done|]. intros Hne.
  eapply triple_bind; [apply restore_ok|intro; cbv beta]. apply triple_ret.
  intros m Hm. unfold started. by rewrite Hne.
Qed.

Lemma start_ok : triple (J false false) (sm5440_start (W := W)) started.
Proof.
  unfold sm5440_start, ret_if_neg. eapply triple_bind; [apply triple_stays, stays_psy_get|].
  intros uv. apply triple_if.
  { intros Hneg. apply triple_ret. intros m Hm. unfold started.
    by rewrite (proj2 (Z.eqb_neq uv 0)) by lia. }
  intros _. unfold ret_if_nz. eapply triple_bind; [apply path_on|]. intros r. cbv beta.
  apply triple_if; intros Hr; rewrite Hr.
  2:{ apply triple_ret. intros m Hm. unfold started. by rewrite Hr. }
  apply or_restore_ok; [apply stays_stays_on, stays_hw_init|].
  eapply triple_bind; [apply triple_stays, stays_negotiate|]. intros [[ret ma] mv].
  repeat apply or_restore_ok.
  - unfold stays_on. resp.
  - apply stays_stays_on, stays_freq.
  - apply stays_stays_on, stays_limit.
  - apply stays_stays_on, stays_settled.
  - apply stays_stays_on. by apply stays_update.
  - apply pump_on_ok.
  - eapply triple_bind with (R := fun _ => J true true).
    + intros m x m' (Hg & Hp & Ha) [= _ <-]. by split_and!.
    + intros _. by apply triple_ret.
Qed.

Lemma renegotiate_ok : respects stays_on (sm5440_renegotiate_pps (W := W)).
Proof.
  unfold sm5440_renegotiate_pps.
  apply respects_nz; [apply _|apply stays_stays_on, stays_pump_off|].
  apply respects_nz; [apply _|apply stays_stays_on, stays_refresh|].
  apply respects_bind; [apply _|apply stays_stays_on, stays_drv|]. intros d.
  apply respects_nz; [apply _|apply stays_stays_on, stays_settled|]. apply pump_on_ok.
Qed.

(** ** The entry points *)

(** The pack is handed over exactly while the driver is active. *)
Definition consistent (m : state) : Prop := ∃ b, J b b m.

Lemma stop_ok p a : triple (J p a) (work_stop (W := W)) (fun _ => J false false).
Proof.
  unfold work_stop. eapply triple_bind; [apply triple_stays, stays_faults|intro; cbv beta].
  eapply triple_bind; [apply restore_ok|intro; cbv beta]. apply triple_stays, stays_backoff.
Qed.

Lemma triple_consistent {A} b (c : M A) :
  respects stays c → triple (J b b) c (fun _ => consistent).
Proof. intros H. eapply triple_post; [by apply triple_stays|]. intros r0 m Hm; cbv beta in Hm. by exists b. Qed.
Lemma triple_handed_back {A} p a (c : M A) :
  triple (J p a) c (fun _ => J false false) → triple (J p a) c (fun _ => consistent).
Proof. intros H. eapply triple_post; [done|]. intros r0 m Hm; cbv beta in Hm. by exists false. Qed.

Lemma idle_ok : triple (J false false) (work_idle (W := W)) (fun _ => consistent).
Proof.
  unfold work_idle. eapply triple_bind; [apply triple_stays, stays_fast|]. intros fast.
  apply triple_if; intros _; [apply triple_consistent; stay|].
  eapply triple_bind; [apply triple_stays, stays_eligible|]. intros ok.
  apply triple_if; intros _; [apply triple_consistent; stay|].
  eapply triple_bind; [apply start_ok|]. intros r. unfold started.
  destruct (r =? 0); cbn [negb]; [apply triple_consistent; stay|].
  apply triple_consistent, stays_backoff.
Qed.

Lemma check_ok : triple (J true true) (work_check (W := W)) (fun _ => consistent).
Proof.
  unfold work_check.
  do 8 (eapply triple_bind; [apply triple_stays; stay; eauto using stays_vbus, stays_ibus, stays_vbat, stays_die|intro; cbv beta]).
  apply triple_if; intros _; [apply triple_handed_back, stop_ok|].
  eapply triple_bind; [apply triple_stays; by apply stays_update|]. intros r.
  apply triple_if; intros _; [|apply triple_consistent; stay].
  apply triple_handed_back. eapply triple_bind; [apply restore_ok|intro; cbv beta].
  apply triple_stays, stays_backoff.
Qed.

Lemma active_ok : triple (J true true) (work_active (W := W)) (fun _ => consistent).
Proof.
  unfold work_active. eapply triple_bind; [apply triple_stays, stays_fast|]. intros fast.
  apply triple_if; intros _.
  { apply triple_handed_back. eapply triple_bind; [apply triple_stays, stays_faults|intro; cbv beta].
    eapply triple_bind; [apply restore_ok|intro; cbv beta]. by apply triple_ret. }
  eapply triple_bind; [apply triple_stays; stay|intro; cbv beta].
  eapply triple_bind; [apply triple_stays, stays_drv|]. intros d.
  apply triple_if; intros _; [|apply check_ok].
  eapply triple_bind; [apply triple_stays; stay|intro; cbv beta].
  eapply triple_bind; [apply triple_stays_on, renegotiate_ok|]. intros r.
  apply triple_if; intros _; [apply triple_handed_back, stop_ok|apply check_ok].
Qed.

(** Reading [sm->active] decides which state the driver is in. *)
Lemma triple_active {A} (k : sm5440_direct → M A) Q :
  (∀ d b, active d = b → triple (J b b) (k d) Q) → triple consistent (get_drv ≫= k) Q.
Proof.
  intros Hk m a m' (b & Hj) H. apply bind_inv in H as (d & m1 & H1 & H2).
  injection H1 as <- <-. eapply Hk; [|exact Hj|exact H2]. apply Hj.
Qed.

Lemma work_ok : triple consistent (sm5440_work (W := W)) (fun _ => consistent).
Proof.
  unfold sm5440_work. apply triple_active. intros d b Hb.
  eapply triple_bind with (R := fun _ => consistent).
  { rewrite Hb. destruct b; [apply active_ok|apply idle_ok]. }
  intros delay. apply triple_active. intros d' b' _. apply triple_consistent. stay.
Qed.
Lemma cancel_ok : triple consistent (sm5440_cancel_work (W := W)) (fun _ => consistent).
Proof.
  unfold sm5440_cancel_work. eapply triple_bind with (R := fun _ => consistent).
  { intros m x m' (b & Hj) H. exists b.
    by apply (stays_emit DcCancel (fun H => H) (fun _ => eq_refl) _ _ _ H). }
  intros _. apply triple_active. intros d b Hb.
  apply triple_if; intros _; [apply triple_handed_back, restore_ok|].
  apply triple_consistent. stay.
Qed.
Lemma pm_ok n : triple consistent (sm5440_pm_notify (W := W) n) (fun _ => consistent).
Proof.
  assert (∀ A (c : M A), respects stays c → triple consistent c (fun _ => consistent)) as Hc.
  { intros A c Hs m x m' (b & Hj) H. exists b. by apply (Hs _ _ _ H). }
  unfold sm5440_pm_notify. apply triple_if; intros _; [|apply Hc; stay].
  eapply triple_bind; [apply Hc; stay|intro; cbv beta].
  eapply triple_bind; [apply Hc; stay|intro; cbv beta].
  apply triple_active. intros d b Hb.
  apply triple_if; intros _; [|apply triple_consistent; stay].
  apply triple_handed_back. eapply triple_bind; [apply triple_stays, stays_pump_off|intro; cbv beta].
  apply restore_ok.
Qed.

(** ** Scheduling *)

Definition is_sched (e : dc_event) : bool :=
  match e with DcSchedule _ | DcCancel => true | _ => false end.

(** A call that neither schedules nor cancels the poll. *)
Definition calm (m m' : state) : Prop :=
  suspending (drv m') = suspending (drv m)
  ∧ (0 <= fails (drv m) → 0 <= fails (drv m'))
  ∧ ∃ l, log m' = log m ++ l ∧ Forall (fun e => is_sched e = false) l.
#[export] Instance calm_preorder : PreOrder calm.
Proof.
  split.
  - intros m. split_and!; [done|done|]. exists []. by rewrite app_nil_r.
  - intros m1 m2 m3 (Hs1 & Hn1 & l1 & Hl1 & Hf1) (Hs2 & Hn2 & l2 & Hl2 & Hf2).
    split_and!; [by rewrite Hs2|auto|]. exists (l1 ++ l2).
    split; [by rewrite Hl2, Hl1, app_assoc|by apply Forall_app].
Qed.
Lemma calm_ask {A} (f : W → A * W) :
  respects calm (ask (D := sm5440_direct) (E := dc_event) f).
Proof.
  intros m a m'. unfold ask. destruct (f (wld m)). intros [= _ <-]. split_and!; [done..|].
  exists []. by rewrite app_nil_r.
Qed.
Lemma calm_emit e :
  is_sched e = false → respects calm (emit (D := sm5440_direct) (W := W) e).
Proof. intros He m a m' [= _ <-]. split_and!; [done..|]. exists [e]. auto. Qed.
Lemma calm_mod f :
  (∀ d, suspending (f d) = suspending d ∧ (0 <= fails d → 0 <= fails (f d))) →
  respects calm (mod_drv (D := sm5440_direct) (W := W) (E := dc_event) f).
Proof.
  intros Hf m a m' [= _ <-]. split_and!; [apply Hf|apply Hf|]. exists []. by rewrite app_nil_r.
Qed.
Lemma calm_drv : respects calm (get_drv (D := sm5440_direct) (W := W) (E := dc_event)).
Proof. unfold get_drv. resp. Qed.
Hint Resolve calm_drv : resp.
Ltac calm :=
  repeat first
    [ solve [eauto 3 with resp] | resp_step | apply calm_ask
    | apply calm_emit; reflexivity
    | apply calm_mod; let d := fresh in intros d; split; [reflexivity|cbn; lia]
    | progress unfold dc_read, dc_write, i2c_smbus_read_byte_data,
        i2c_smbus_write_byte_data, msleep, sm5440_psy_get, sm5440_psy_set,
        sm5440_update_bits, adc, sm5440_read_adc_pair, sm5440_set_freq ].

Lemma calm_retry q v : respects calm (sm5440_psy_retry (W := W) q v).
Proof.
  unfold sm5440_psy_retry. generalize SM5440_PD_RETRIES, true, (- EAGAIN).
  intros n. induction n as [|n IH]; intros b ret; simpl; calm.
Qed.
Hint Resolve calm_retry : resp.
Lemma calm_walk fuel ret ma : respects calm (walk_down (W := W) fuel ret ma).
Proof. revert ret ma. induction fuel as [|fuel IH]; intros ret ma; simpl; calm. Qed.
Hint Resolve calm_walk : resp.
Lemma calm_write_all l k : respects calm k → respects calm (write_all (W := W) l k).
Proof. intros Hk. induction l as [|[r v] l IH]; cbn [write_all]; calm. Qed.
Lemma calm_restore : respects calm (sm5440_restore_switching (W := W)).
Proof. unfold sm5440_restore_switching, sm5714_battery_set_direct_charge. calm. Qed.
Hint Resolve calm_restore : resp.
Lemma calm_pump_on : respects calm (sm5440_pump_on (W := W)).
Proof. unfold sm5440_pump_on. calm. Qed.
Lemma calm_settled mv : respects calm (sm5440_wait_vbus_settled (W := W) mv).
Proof. unfold sm5440_wait_vbus_settled, sm5440_adc_vbus_mv. calm. Qed.
Hint Resolve calm_pump_on calm_settled : resp.
Lemma calm_hw_init : respects calm (sm5440_hw_init (W := W)).
Proof. unfold sm5440_hw_init. calm. apply calm_write_all. calm. Qed.
Hint Resolve calm_hw_init : resp.
Lemma calm_or_restore (c k : M Z) :
  respects calm c → respects calm k → respects calm (or_restore c k).
Proof. unfold or_restore. calm. Qed.
Lemma calm_start : respects calm (sm5440_start (W := W)).
Proof.
  unfold sm5440_start, sm5440_select_freq, sm5440_set_ibus_limit,
    sm5714_battery_set_direct_charge, sm5440_negotiate_pps.
  repeat first [apply calm_or_restore | calm].
Qed.
Lemma calm_backoff : respects calm (sm5440_backoff (W := W)).
Proof. unfold sm5440_backoff. calm. apply calm_mod. intros d.
  destruct (fails d <? _); split; try done; cbn; lia. Qed.
Hint Resolve calm_start calm_backoff : resp.
Lemma calm_stop : respects calm (work_stop (W := W)).
Proof. unfold work_stop, sm5440_log_faults. calm. Qed.
Hint Resolve calm_stop : resp.
Lemma calm_check : respects calm (work_check (W := W)).
Proof.
  unfold work_check, sm5440_adc_vbus_mv, sm5440_adc_ibus_ma, sm5440_adc_vbat_mv,
    sm5440_adc_die_temp. calm.
Qed.
Hint Resolve calm_check : resp.
Lemma calm_poll b : respects calm (if b : bool then work_active (W := W) else work_idle).
Proof.
  destruct b; unfold work_active, work_idle, sm5440_eligible, sm5440_renegotiate_pps,
    sm5440_refresh_pps, sm5440_pump_off, sm5440_log_faults,
    sm5714_battery_fast_charge_enabled; calm.
Qed.

(** The delay of the next poll. *)
Definition delay_ok (d : Z) : Prop := 1000 <= d <= 300000.
Definition sane (m : state) : Prop := 0 <= fails (drv m).
Lemma triple_calm {A} (c : M A) : respects calm c → triple sane c (fun _ => sane).
Proof. intros Hc m x m' Hm Hr. by apply (Hc _ _ _ Hr). Qed.

Lemma backoff_ms_range f : 0 <= f → delay_ok (backoff_ms f).
Proof.
  intros Hf. unfold backoff_ms, delay_ok, SM5440_MAX_FAILS, SM5440_QUIET_RETRY_MS,
    SM5440_RETRY_MS, SM5440_MAX_RETRY_MS.
  destruct (Z.leb_spec 5 f); [lia|].
  assert (f = 0 ∨ f = 1 ∨ f = 2 ∨ f = 3 ∨ f = 4) as [->|[->|[->|[->| ->]]]] by lia;
    vm_compute; split; discriminate.
Qed.
Lemma delay_backoff : triple sane (sm5440_backoff (W := W)) (fun d _ => delay_ok d).
Proof.
  intros m d m' Hm H. unfold sm5440_backoff in H. apply bind_inv in H as ([] & m1 & H1 & H).
  apply bind_inv in H as (x & m2 & H2 & [= <- _]). injection H2 as <- _.
  apply backoff_ms_range. injection H1 as <-. cbn. unfold sane in Hm.
  destruct (fails (drv m) <? _); cbn; lia.
Qed.
Lemma delay_const (c : Z) : delay_ok c → triple sane (mret c : M Z) (fun d _ => delay_ok d).
Proof. intros Hc. by apply triple_ret. Qed.
Ltac delays :=
  repeat first
    [ solve [eauto 1 with resp]
    | apply delay_backoff
    | apply delay_const; unfold delay_ok; cbv; split; discriminate
    | apply triple_if; intros _
    | eapply triple_bind; [apply triple_calm; solve [calm]|intro; cbv beta] ].
Lemma delay_stop : triple sane (work_stop (W := W)) (fun d _ => delay_ok d).
Proof. unfold work_stop, sm5440_log_faults. delays. Qed.
Hint Resolve delay_stop : resp.
Lemma delay_check : triple sane (work_check (W := W)) (fun d _ => delay_ok d).
Proof.
  unfold work_check, sm5440_adc_vbus_mv, sm5440_adc_ibus_ma, sm5440_adc_vbat_mv,
    sm5440_adc_die_temp. delays.
Qed.
Hint Resolve delay_check : resp.
Lemma delay_poll b : triple sane (if b : bool then work_active (W := W) else work_idle)
  (fun d _ => delay_ok d).
Proof.
  destruct b; unfold work_active, work_idle, sm5440_eligible, sm5440_renegotiate_pps,
    sm5440_refresh_pps, sm5440_pump_off, sm5440_log_faults,
    sm5714_battery_fast_charge_enabled;
    delays.
Qed.

(** ** Every call returns *)

Ltac dc_rets :=
  repeat first
    [ solve [eauto 2 with rets] | rets_step
    | progress unfold dc_read, dc_write, i2c_smbus_read_byte_data,
        i2c_smbus_write_byte_data, msleep, sm5440_psy_get, sm5440_psy_set,
        sm5440_update_bits, adc, sm5440_read_adc_pair, sm5440_set_freq, or_restore ].
Lemma returns_retry q v : returns (sm5440_psy_retry (W := W) q v).
Proof.
  unfold sm5440_psy_retry. generalize SM5440_PD_RETRIES, true, (- EAGAIN).
  intros n. induction n as [|n IH]; intros b ret; cbn [psy_retry]; dc_rets.
Qed.
Hint Resolve returns_retry : rets.

(** [n] steps of 250 mA are enough from [1800 + 250 n] mA. *)
Lemma returns_walk n ret ma :
  ma < SM5440_MIN_PPS_MA + Z.of_nat n * SM5440_PPS_STEP_MA →
  returns (walk_down (W := W) n ret ma).
Proof.
  revert ret ma. induction n as [|n IH]; intros ret ma Hma; cbn [walk_down].
  - rewrite (proj2 (Z.ltb_lt _ _)) by lia. dc_rets.
  - destruct (ma <? SM5440_MIN_PPS_MA); [dc_rets|].
    apply returns_bind; [apply returns_retry|]. intros r.
    destruct (_ || _); [dc_rets|]. apply IH. unfold SM5440_PPS_STEP_MA in *. lia.
Qed.
Lemma returns_negotiate uv : returns (sm5440_negotiate_pps (W := W) uv).
Proof.
  unfold sm5440_negotiate_pps. apply returns_bind; [apply returns_drv|]. intros d. cbv zeta.
  apply returns_bind; [apply returns_retry|]. intros r.
  destruct (negb (r =? 0)); [dc_rets|].
  apply returns_bind; [|intros [ret ma]; dc_rets].
  apply returns_walk. unfold clamp, SM5440_PPS_CAP_MA, SM5440_MIN_PPS_MA, SM5440_PPS_STEP_MA,
    WALK_FUEL. lia.
Qed.
Hint Resolve returns_negotiate : rets.
Lemma returns_write_all l k : returns k → returns (write_all (W := W) l k).
Proof. intros Hk. induction l as [|[r v] l IH]; cbn [write_all]; dc_rets. Qed.
Lemma returns_hw_init : returns (sm5440_hw_init (W := W)).
Proof. unfold sm5440_hw_init. dc_rets. apply returns_write_all. dc_rets. Qed.
Lemma returns_restore : returns (sm5440_restore_switching (W := W)).
Proof. unfold sm5440_restore_switching, sm5714_battery_set_direct_charge. dc_rets. Qed.
Lemma returns_settled mv : returns (sm5440_wait_vbus_settled (W := W) mv).
Proof. unfold sm5440_wait_vbus_settled, sm5440_adc_vbus_mv. dc_rets. Qed.
Lemma returns_pump_on : returns (sm5440_pump_on (W := W)).
Proof. unfold sm5440_pump_on. dc_rets. Qed.
Lemma returns_backoff : returns (sm5440_backoff (W := W)).
Proof. unfold sm5440_backoff. dc_rets. Qed.
Hint Resolve returns_hw_init returns_restore returns_settled returns_pump_on
  returns_backoff : rets.
Lemma returns_start : returns (sm5440_start (W := W)).
Proof.
  unfold sm5440_start, sm5440_select_freq, sm5440_set_ibus_limit,
    sm5714_battery_set_direct_charge. dc_rets.
Qed.
Hint Resolve returns_start : rets.
Lemma returns_stop : returns (work_stop (W := W)).
Proof. unfold work_stop, sm5440_log_faults. dc_rets. Qed.
Hint Resolve returns_stop : rets.
Lemma returns_check : returns (work_check (W := W)).
Proof.
  unfold work_check, sm5440_adc_vbus_mv, sm5440_adc_ibus_ma, sm5440_adc_vbat_mv,
    sm5440_adc_die_temp. dc_rets.
Qed.
Hint Resolve returns_check : rets.
Lemma returns_poll b : returns (if b : bool then work_active (W := W) else work_idle).
Proof.
  destruct b; unfold work_active, work_idle, sm5440_eligible, sm5440_renegotiate_pps,
    sm5440_refresh_pps, sm5440_pump_off, sm5440_log_faults,
    sm5714_battery_fast_charge_enabled; dc_rets.
Qed.
End facts.
