(* ===== verification/Sm5440Props.v ===== *)
(** The properties of the SM5440 driver: the hand-over of the pack, the poll that
    never dies, and the negotiation of the operating point. *)
From S2P Require Import Prelude Bus Sm5440Direct Sm5440Facts.

(** ** The driver and its work queue *)

(** Whether the poll is queued after the events [l]. *)
Definition queue_step (q : bool) (e : dc_event) : bool :=
  match e with DcSchedule _ => true | DcCancel => false | _ => q end.

Section reach.
Context {W : Type} `{!DcEnv W}.
Abbreviation state := (machine sm5440_direct W dc_event).

(** The queue after a call that took [m] to [m']. *)
Definition requeue (q : bool) (m m' : state) : bool :=
  foldl queue_step q (drop (length (log m)) (log m')).

(** The poll timer, the PM notifier, driver removal, and anything the rest of
    the system does to the world in between.  In [step_race] the suspend
    notifier sets its flag while a poll runs and then waits for it. *)
Inductive dc_step : bool * state → bool * state → Prop :=
  | step_poll m m' :
      sm5440_work m = Ret (tt, m') → dc_step (true, m) (requeue false m m', m')
  | step_notify n q m m' :
      sm5440_pm_notify n m = Ret (tt, m') → dc_step (q, m) (requeue q m m', m')
  | step_race m m1 m2 :
      sm5440_work (m <| drv ::= fun d => d <| suspending := true |> |>) = Ret (tt, m1) →
      sm5440_pm_notify PM_SUSPEND_PREPARE m1 = Ret (tt, m2) →
      dc_step (true, m) (requeue (requeue false m m1) m1 m2, m2)
  | step_remove q m m' :
      sm5440_cancel_work m = Ret (tt, m') → dc_step (q, m) (requeue q m m', m')
  | step_world q m w : dc_step (q, m) (q, m <| wld := w |>).

(** Everything that can happen after a successful probe. *)
Inductive dc_reachable : bool * state → Prop :=
  | reach_probe m m' :
      log m = [] → sm5440_probe true true PsyRef true 0 m = Ret (0, m') →
      dc_reachable (requeue false m m', m')
  | reach_step s s' : dc_reachable s → dc_step s s' → dc_reachable s'.

Lemma requeue_app q (m m' : state) l :
  log m' = log m ++ l → requeue q m m' = foldl queue_step q l.
Proof. intros H. unfold requeue. by rewrite H, drop_app_length. Qed.
Lemma calm_queue q l :
  Forall (fun e => is_sched e = false) l → foldl queue_step q l = q.
Proof. induction 1 as [|e l He Hl IH]; [done|]. by destruct e. Qed.

(** The driver is parked while the system is suspending. *)
Definition parked (s : bool * state) : Prop :=
  suspending (drv s.2) = true → s.1 = false ∧ active (drv s.2) = false.

Lemma work_suspending (m m' : state) :
  sm5440_work m = Ret (tt, m') → suspending (drv m') = suspending (drv m).
Proof.
  unfold sm5440_work. intros H. apply bind_inv in H as (d & m1 & H1 & H). injection H1 as <- <-.
  apply bind_inv in H as (delay & m2 & H2 & H). apply calm_poll in H2 as (Hs & _).
  apply bind_inv in H as (d' & m3 & H3 & H). injection H3 as <- <-.
  destruct (suspending (drv m2)) eqn:Hd; injection H as <-; cbn; congruence.
Qed.

(** Cancelling the poll and handing the pack back if need be. *)
Lemma park_tail (pre : M state Z) (m m' : state) q :
  respects calm pre →
  (emit DcCancel;; d ← get_drv; if active d then pre;; sm5440_restore_switching else skip) m
    = Ret (tt, m') →
  requeue q m m' = false ∧ active (drv m') = false
  ∧ suspending (drv m') = suspending (drv m).
Proof.
  intros Hpre H. apply bind_inv in H as ([] & m1 & H1 & H). injection H1 as <-.
  apply bind_inv in H as (d & m2 & H2 & H). injection H2 as <- <-. cbn in H.
  destruct (active (drv m)) eqn:Ha.
  - apply bind_inv in H as (r3 & m3 & H3 & H4).
    destruct (Hpre _ _ _ H3) as (Hs3 & _ & l3 & Hl3 & Hf3).
    destruct (calm_restore _ _ _ H4) as (Hs4 & _ & l4 & Hl4 & Hf4). cbn in *.
    split_and!; [| |by rewrite Hs4].
    + rewrite (requeue_app q m m' (DcCancel :: l3 ++ l4)).
      * cbn. by rewrite calm_queue by (by apply Forall_app).
      * by rewrite Hl4, Hl3, <-!app_assoc.
    + unfold sm5440_restore_switching in H4.
      repeat (apply bind_inv in H4 as (? & ? & _ & H4)).
      injection H4 as <-. done.
  - injection H as <-. split_and!; [|done|done].
    by rewrite (requeue_app q m _ [DcCancel]).
Qed.

Lemma calm_pump_off : respects calm (sm5440_pump_off (W := W)).
Proof.
  unfold sm5440_pump_off, sm5440_update_bits, dc_read, dc_write,
    i2c_smbus_read_byte_data, i2c_smbus_write_byte_data.
  repeat first [apply calm_ask | apply calm_emit; reflexivity | resp_step].
Qed.
Lemma prepare_parks q (m m' : state) :
  sm5440_pm_notify PM_SUSPEND_PREPARE m = Ret (tt, m') →
  requeue q m m' = false ∧ active (drv m') = false.
Proof.
  intros H. unfold sm5440_pm_notify in H.
  apply bind_inv in H as ([] & m1 & H1 & H). injection H1 as <-.
  by apply (park_tail _ _ _ q calm_pump_off) in H as (Hq & Ha & _).
Qed.

Lemma notify_parks q n (m m' : state) :
  parked (q, m) → sm5440_pm_notify n m = Ret (tt, m') → parked (requeue q m m', m').
Proof.
  intros Hp H. destruct (Z.eqb_spec n PM_SUSPEND_PREPARE) as [->|Hn].
  { intros _. by apply prepare_parks. }
  unfold sm5440_pm_notify in H. rewrite (proj2 (Z.eqb_neq _ _) Hn) in H.
  destruct (n =? PM_POST_SUSPEND).
  - apply bind_inv in H as ([] & m1 & H1 & H). injection H1 as <-. injection H as <-.
    intros Hs. discriminate.
  - injection H as <-. unfold requeue. by rewrite drop_all.
Qed.

Lemma step_parked s s' : dc_step s s' → parked s → parked s'.
Proof.
  intros [m m' H|n q m m' H|m m1 m2 H1 H2|q m m' H|q m w] Hp.
  - intros Hs. cbn in Hs. rewrite (work_suspending _ _ H) in Hs.
    destruct (Hp Hs) as [[=] _].
  - by eapply notify_parks.
  - intros _. by apply prepare_parks.
  - destruct (park_tail (mret 0) m m' q) as (Hq & Ha & Hs); [apply respects_ret, _|exact H|].
    intros _. by split.
  - exact Hp.
Qed.

Lemma step_consistent s s' : dc_step s s' → consistent s.2 → consistent s'.2.
Proof.
  intros [m m' H|n q m m' H|m m1 m2 H1 H2|q m m' H|q m w]; cbn; intros Hc.
  - by eapply work_ok.
  - by eapply pm_ok.
  - eapply pm_ok; [|exact H2]. eapply work_ok; [|exact H1]. exact Hc.
  - by eapply cancel_ok.
  - exact Hc.
Qed.

Lemma reach_inv s : dc_reachable s → consistent s.2 ∧ parked s.
Proof.
  induction 1 as [m m' Hl H|s s' _ [IH1 IH2] Hs].
  - unfold sm5440_probe in H. cbn [negb] in H.
    apply bind_inv in H as ([] & m1 & H1 & H). injection H1 as <-.
    apply bind_inv in H as (id & m2 & H2 & H).
    assert (log m2 = [] ∧ active (drv m2) = false ∧ suspending (drv m2) = false)
      as (Hl2 & Ha2 & Hs2).
    { unfold dc_read, i2c_smbus_read_byte_data, ask in H2. cbn in H2.
      destruct (bus_read_byte _ _ _) as [x w]. by injection H2 as _ <-. }
    destruct (id <? 0) eqn:Hid; [injection H as -> _; discriminate|].
    destruct (_ =? 1); [|discriminate].
    apply bind_inv in H as ([] & m3 & H3 & H). injection H3 as <-.
    apply bind_inv in H as (b & m4 & H4 & H). injection H as <-.
    apply (stays_fast _ _ _) in H4 as Hj. apply (calm_ask _ _ _ _) in H4 as (Hs4 & _). split.
    + exists false. apply Hj. split_and!; [|by cbn; rewrite Hl2|done].
      cbn. rewrite Hl2. by apply (guarded_snoc []); [intros [|? ?] ? ? [=]|].
    + intros Hs. cbn in Hs, Hs4. congruence.
  - split; [by eapply step_consistent|by eapply step_parked].
Qed.
End reach.

(** ** The negotiation *)

Section negotiation.
Context {W : Type} `{!DcEnv W} (grant : Z) (G : W → Prop).
Abbreviation state := (machine sm5440_direct W dc_event).
(** A source that takes the programmable mode and any voltage, and answers
    [-EINVAL] to a current above what it grants. *)
Definition answer (q : psy_prop) (v : Z) : Z :=
  match q with
  | PSY_CURRENT_NOW => if v <=? grant * 1000 then 0 else - EINVAL
  | _ => 0
  end.
(** [G]: the states of the world in which the source is such a one. *)
Definition source : Prop := ∀ q v w, G w →
  (power_supply_set_property q v w).1 = answer q v
  ∧ G (power_supply_set_property q v w).2.
Hypothesis Hsource : source.

Lemma answer_no_again q v : (answer q v =? - EAGAIN) = false.
Proof. unfold answer. destruct q; try done. by destruct (v <=? _). Qed.

(** One request is one call and one event. *)
Lemma set_once q v (m : state) :
  G (wld m) → ∃ m', G (wld m') ∧ sm5440_psy_set q v m = Ret (answer q v, m')
  ∧ log m' = log m ++ [DcPsySet q v (answer q v)] ∧ drv m' = drv m.
Proof.
  intros HG. destruct (Hsource q v (wld m) HG) as [Hs HG'].
  destruct (power_supply_set_property q v (wld m)) as [ret w] eqn:Hp. cbn in Hs, HG'. subst ret.
  eexists. split_and!; cycle 1.
  - unfold sm5440_psy_set. erewrite bind_ret by (unfold ask; rewrite Hp; reflexivity).
    reflexivity.
  - done.
  - done.
  - exact HG'.
Qed.
Lemma retry_once q v (m : state) :
  G (wld m) → ∃ m', G (wld m') ∧ sm5440_psy_retry q v m = Ret (answer q v, m')
  ∧ log m' = log m ++ [DcPsySet q v (answer q v)] ∧ drv m' = drv m.
Proof.
  intros HG. destruct (set_once q v m HG) as (m' & HG' & H & Hl & Hd).
  exists m'. split_and!; [done| |done..].
  unfold sm5440_psy_retry, SM5440_PD_RETRIES. cbn [psy_retry].
  change (- EAGAIN =? - EAGAIN) with true. cbn [negb].
  erewrite bind_ret by reflexivity. cbv beta. rewrite (bind_ret _ _ _ _ _ H).
  rewrite answer_no_again. reflexivity.
Qed.

(** The requests of the walk that are turned down. *)
Definition refused (ma k : Z) : list dc_event :=
  (fun j => let c := ma - SM5440_PPS_STEP_MA * j in
            DcPsySet PSY_CURRENT_NOW (c * 1000) (- EINVAL)) <$> seqZ 0 k.

Lemma refused_S ma k : 0 <= k →
  refused ma (1 + k)
  = DcPsySet PSY_CURRENT_NOW (ma * 1000) (- EINVAL)
    :: refused (ma - SM5440_PPS_STEP_MA) k.
Proof.
  intros Hk. unfold refused. rewrite seqZ_cons by lia. cbn [fmap list_fmap].
  f_equal; [f_equal; lia|]. replace (Z.pred (1 + k)) with k by lia.
  change (Z.succ 0) with (1 + 0). rewrite <-(fmap_add_seqZ 1 0 k), <-list_fmap_compose.
  apply list_fmap_ext. intros i x Hx. unfold compose. cbv zeta. f_equal. lia.
Qed.

(** The walk stops at the first current the source grants, or below 1800 mA. *)
Lemma walk_spec n ret ma (m : state) :
  ma < SM5440_MIN_PPS_MA + Z.of_nat n * SM5440_PPS_STEP_MA →
  SM5440_MIN_PPS_MA - SM5440_PPS_STEP_MA <= ma → G (wld m) →
  ∃ k m', 0 <= k ∧ G (wld m') ∧ drv m' = drv m
  ∧ (∀ j, 0 <= j < k → grant < ma - SM5440_PPS_STEP_MA * j)
  ∧ let c := ma - SM5440_PPS_STEP_MA * k in
    (SM5440_MIN_PPS_MA <= c ∧ c <= grant
     ∧ walk_down n ret ma m = Ret ((0, c), m')
     ∧ log m' = log m ++ refused ma k ++ [DcPsySet PSY_CURRENT_NOW (c * 1000) 0])
    ∨ (SM5440_MIN_PPS_MA - SM5440_PPS_STEP_MA <= c < SM5440_MIN_PPS_MA
       ∧ walk_down n ret ma m = Ret ((if k =? 0 then ret else - EINVAL, c), m')
       ∧ log m' = log m ++ refused ma k).
Proof.
  revert ret ma m. induction n as [|n IH]; intros ret ma m Hn Hlo HG; cbn [walk_down].
  { exists 0, m. split_and!; [done|done|done|lia|]. right. rewrite (proj2 (Z.ltb_lt _ _)) by lia.
    rewrite Z.mul_0_r, Z.sub_0_r, app_nil_r. split_and!; [lia|lia|done|done]. }
  destruct (Z.ltb_spec ma SM5440_MIN_PPS_MA) as [Hma|Hma].
  { exists 0, m. split_and!; [done|done|done|lia|]. right.
    rewrite Z.mul_0_r, Z.sub_0_r, app_nil_r. split_and!; [lia|lia|done|done]. }
  destruct (retry_once PSY_CURRENT_NOW (ma * 1000) m HG) as (m1 & HG1 & H1 & Hl1 & Hd1).
  rewrite (bind_ret _ _ _ _ _ H1). cbn [answer] in *.
  destruct (Z.leb_spec (ma * 1000) (grant * 1000)) as [Hg|Hg].
  - exists 0, m1. split_and!; [done|done|done|lia|]. left.
    rewrite Z.mul_0_r, Z.sub_0_r. split_and!; [lia|lia|done|done].
  - change ((- EINVAL =? 0) || negb (- EINVAL =? - EINVAL)) with false. cbv iota.
    destruct (IH (- EINVAL) (ma - SM5440_PPS_STEP_MA) m1) as (k & m' & Hk & HG' & Hd & Hj & Hr);
      [lia|lia|done|].
    exists (1 + k), m'. split_and!; [lia|done|congruence| |].
    { intros j Hjk. destruct (Z.eq_dec j 0) as [->|]; [lia|].
      specialize (Hj (j - 1)). lia. }
    rewrite (refused_S ma k Hk).
    replace (ma - SM5440_PPS_STEP_MA * (1 + k))
      with (ma - SM5440_PPS_STEP_MA - SM5440_PPS_STEP_MA * k) by lia.
    rewrite Hl1 in Hr. cbv zeta in *.
    destruct Hr as [(? & ? & Hw & Hl)|(? & Hw & Hl)]; [left|right].
    + split_and!; [done|done|done|]. by rewrite Hl, <-!app_assoc.
    + rewrite (proj2 (Z.eqb_neq (1 + k) 0)) by lia.
      split_and!; [lia|lia| |by rewrite Hl, <-!app_assoc].
      rewrite Hw. by destruct (k =? 0).
Qed.
End negotiation.

(** ** A bench

    The chip's registers (the reset bit clears itself), a source that grants up
    to [b_grant] mA, a pack, and an SM5714 driver that agrees to everything. *)
Record bench := mkBench {
  b_regs : regfile unit; b_grant : Z; b_capacity : Z; b_temp : Z; b_uv : Z; b_fast : bool }.
#[export] Instance eta_bench : Eta bench := fun b =>
  mkBench (b_regs b) (b_grant b) (b_capacity b) (b_temp b) (b_uv b) (b_fast b).
Definition bench_read (r : Z) (b : bench) : Z * bench := (u8 (reg (b_regs b) tt r), b).
Definition bench_write (r v : Z) (b : bench) : Z * bench :=
  let v := if r =? SM5440_REG_CNTL1 then Z.land v 0xfe else v in
  (0, b <| b_regs ::= fun w => set_reg w tt r v |>).
#[export] Instance bench_env : DcEnv bench := {|
  dc_smbus := {| bus_read_byte _ := bench_read; bus_write_byte _ := bench_write;
                 bus_read_word _ r b := (u16 (reg (b_regs b) tt r), b);
                 bus_write_word _ := bench_write |};
  power_supply_get_property p q b :=
    ((0, match q with PSY_CAPACITY => b_capacity b | PSY_TEMP => b_temp b
         | PSY_VOLTAGE_NOW => b_uv b | _ => 1 end), b);
  power_supply_set_property q v b :=
    (match q with PSY_CURRENT_NOW => if v <=? b_grant b * 1000 then 0 else - EINVAL
     | _ => 0 end, b);
  set_direct_charge _ b := (0, b);
  fast_charge_enabled b := (b_fast b, b) |}.

(** A pack at 50 %, 25.0 C and 3.9 V; the bus ADC reads 9.0 V. *)
Definition bench1 : bench :=
  mkBench {[ (tt, SM5440_REG_DEVICEID) := 1; (tt, SM5440_REG_STATUS3) := 0x20;
             (tt, SM5440_REG_ADC_VBUS1) := 153; (tt, SM5440_REG_ADC_VBUS1 + 1) := 64;
             (tt, SM5440_REG_ADC_VBAT1) := 115; (tt, SM5440_REG_ADC_DIETEMP) := 30 ]}
    3000 50 250 3900000 true.
Definition drv0 : sm5440_direct := mkDirect SM5440_MAX_PPS_MA 0 0 0 0 false false.
Definition run {A} (c : M (machine sm5440_direct bench dc_event) A)
    (m : machine sm5440_direct bench dc_event) : machine sm5440_direct bench dc_event :=
  match c m with Ret (_, m') => m' | _ => m end.
Definition at_rest : machine sm5440_direct bench dc_event := mkM drv0 bench1 [].
Definition probed := run (sm5440_probe true true PsyRef true 0) at_rest.
Definition pumping := run sm5440_work probed.

(** ** The properties *)

(** C6: whatever the chip, the power supplies and the SM5714 driver answer, and
    however polls, suspend notifications (also one that arrives while a poll
    runs), removal and changes of the world interleave: the pump is turned on
    only while the SM5714 driver has been told that the pack is the pump's, the
    pack is the pump's exactly while the driver is [active], and while the
    system is suspending no poll is queued and the pump is not active. *)
Theorem pack_hand_over {W} `{!DcEnv W} q (m : machine sm5440_direct W dc_event) :
  dc_reachable (q, m) →
  guarded (log m) ∧ path_of (log m) = active (drv m)
  ∧ (suspending (drv m) = true → q = false ∧ active (drv m) = false).
Proof.
  intros H. apply reach_inv in H as [(b & Hg & Hp & Ha) Hq]. cbn in *.
  split_and!; [done|congruence|exact Hq].
Qed.

Lemma pack_hand_over_witness :
  let m := run (sm5440_pm_notify PM_SUSPEND_PREPARE) pumping in
  active (drv pumping) = true ∧ path_of (log pumping) = true
  ∧ guarded (log m) ∧ path_of (log m) = active (drv m)
  ∧ (suspending (drv m) = true → requeue true pumping m = false ∧ active (drv m) = false).
Proof.
  intros m. split; [vm_compute; reflexivity|]. split; [vm_compute; reflexivity|].
  apply (pack_hand_over (requeue true pumping m) m).
  eapply reach_step; [|apply (step_notify PM_SUSPEND_PREPARE true); vm_compute; reflexivity].
  assert (dc_reachable (true, probed)) as H0.
  { change true with (requeue false at_rest probed). apply reach_probe; vm_compute; reflexivity. }
  change true with (requeue false probed pumping).
  eapply reach_step; [exact H0|]. apply step_poll. vm_compute; reflexivity.
Defined.

(** C34: the poll always comes back: from every state, whatever the hardware
    answers, [sm5440_work] returns (no loop of it, the walk down the currents
    included, runs away), and unless the system is suspending it has queued
    itself again, 1 to 300 seconds later. *)
Theorem poll_always_returns {W} `{!DcEnv W} (m : machine sm5440_direct W dc_event) :
  0 <= fails (drv m) →
  ∃ m', sm5440_work m = Ret (tt, m')
  ∧ 0 <= fails (drv m')
  ∧ suspending (drv m') = suspending (drv m)
  ∧ requeue false m m' = negb (suspending (drv m))
  ∧ (suspending (drv m) = false →
     ∃ l delay, log m' = log m ++ l ++ [DcSchedule delay] ∧ 1000 <= delay <= 300000).
Proof.
  intros Hf. destruct (returns_poll (active (drv m)) m) as (delay & m1 & H1).
  destruct (calm_poll _ _ _ _ H1) as (Hs & Hn & l & Hl & Hc).
  pose proof (delay_poll _ _ _ _ Hf H1) as Hd. cbv beta in Hd.
  assert (∀ m', (if suspending (drv m) then skip else emit (DcSchedule delay)) m1 = Ret (tt, m') →
    sm5440_work m = Ret (tt, m')) as Hw.
  { intros m' H. unfold sm5440_work. erewrite bind_ret by reflexivity. cbv beta.
    erewrite bind_ret by exact H1. cbv beta. erewrite bind_ret by reflexivity. cbv beta.
    by rewrite Hs. }
  destruct (suspending (drv m)) eqn:Hsus.
  - exists m1. split_and!; [by apply Hw|by apply Hn|done| |done].
    by rewrite (requeue_app false m m1 l Hl), calm_queue.
  - eexists. split_and!; [by apply Hw|by apply Hn|done| |].
    + by rewrite (requeue_app false m _ (l ++ [DcSchedule delay]))
        by (cbn; by rewrite Hl, <-app_assoc); rewrite foldl_app.
    + intros _. exists l, delay. split; [|exact Hd]. cbn. by rewrite Hl, <-app_assoc.
Qed.

Lemma poll_always_returns_witness :
  ∃ m', sm5440_work probed = Ret (tt, m') ∧ requeue false probed m' = true.
Proof.
  destruct (poll_always_returns probed) as (m' & H & _ & _ & Hq & _).
  - vm_compute. discriminate.
  - exists m'. split; [exact H|]. rewrite Hq. vm_compute. reflexivity.
Defined.

(** With a source that grants up to [grant] mA and refuses more, the
    negotiation switches to the programmable mode and asks for currents from the
    highest allowed one down in steps of 250 mA.  It settles on the first, hence
    the highest, that is granted, requests the voltage [sm5440_pps_target_mv]
    gives for it, and reports both; when nothing from 1800 mA up is granted it
    returns [-EINVAL] and is back on the fixed contract. *)
Theorem negotiation_takes_the_highest {W} `{!DcEnv W} grant G vbat_uv
    (m : machine sm5440_direct W dc_event) :
  source grant G → G (wld m) →
  let top := clamp (max_pps_ma (drv m)) SM5440_MIN_PPS_MA SM5440_PPS_CAP_MA in
  ∃ k m', 0 <= k ∧ (∀ j, 0 <= j < k → grant < top - SM5440_PPS_STEP_MA * j)
  ∧ let ma := top - SM5440_PPS_STEP_MA * k in
    let mv := sm5440_pps_target_mv ma vbat_uv in
    (SM5440_MIN_PPS_MA <= ma ∧ ma <= grant
     ∧ sm5440_negotiate_pps vbat_uv m = Ret ((0, ma, mv), m')
     ∧ log m' = log m ++ [DcPsySet PSY_ONLINE 2 0] ++ refused top k
                ++ [DcPsySet PSY_CURRENT_NOW (ma * 1000) 0;
                    DcPsySet PSY_VOLTAGE_NOW (mv * 1000) 0])
    ∨ (ma < SM5440_MIN_PPS_MA
       ∧ sm5440_negotiate_pps vbat_uv m = Ret ((- EINVAL, 0, 0), m')
       ∧ log m' = log m ++ [DcPsySet PSY_ONLINE 2 0] ++ refused top k
                  ++ [DcPsySet PSY_ONLINE 1 0]).
Proof.
  intros Hsrc HG top.
  assert (SM5440_MIN_PPS_MA <= top < SM5440_MIN_PPS_MA + Z.of_nat WALK_FUEL * SM5440_PPS_STEP_MA)
    as [Hlo Hhi].
  { unfold top, clamp, SM5440_MIN_PPS_MA, SM5440_PPS_CAP_MA, WALK_FUEL, SM5440_PPS_STEP_MA. lia. }
  destruct (retry_once grant G Hsrc PSY_ONLINE 2 m HG) as (m1 & HG1 & H1 & Hl1 & Hd1).
  destruct (walk_spec grant G Hsrc WALK_FUEL 0 top m1) as (k & m2 & Hk & HG2 & _ & Hj & Hr);
    [done|unfold SM5440_PPS_STEP_MA; lia|done|].
  exists k. cbv zeta in *.
  assert (∀ c, walk_down WALK_FUEL 0 top m1 = c →
    sm5440_negotiate_pps vbat_uv m = (match c with
      | Ret (ret, ma, m2) =>
          (if negb (ret =? 0) then sm5440_psy_retry PSY_ONLINE 1;; mret (ret, 0, 0) else
           let mv := sm5440_pps_target_mv ma vbat_uv in
           ret ← sm5440_psy_retry PSY_VOLTAGE_NOW (mv * 1000);
           if negb (ret =? 0) then sm5440_psy_retry PSY_ONLINE 1;; mret (ret, 0, 0)
           else mret (0, ma, mv)) m2
      | Fault => Fault | NoFuel => NoFuel end)) as Hn.
  { intros c Hc. unfold sm5440_negotiate_pps. erewrite bind_ret by reflexivity. cbv beta zeta.
    rewrite (bind_ret _ _ _ _ _ H1). cbn [answer negb Z.eqb]. fold top.
    unfold mbind at 1, M_bind at 1. rewrite Hc. by destruct c as [[[r c] m3]| |]. }
  destruct Hr as [(Hge & Hle & Hw & Hl)|(Hlt & Hw & Hl)]; rewrite (Hn _ Hw); clear Hn.
  - destruct (retry_once grant G Hsrc PSY_VOLTAGE_NOW
      (sm5440_pps_target_mv (top - SM5440_PPS_STEP_MA * k) vbat_uv * 1000) m2 HG2) as (m3 & _ & H3 & Hl3 & _).
    exists m3. split_and!; [done|done|]. left. split_and!; [done|done| |].
    + cbn [Z.eqb negb]. cbv zeta. by rewrite (bind_ret _ _ _ _ _ H3).
    + by rewrite Hl3, Hl, Hl1, <-!app_assoc.
  - assert ((k =? 0) = false) as Hk0.
    { apply Z.eqb_neq. intros ->. lia. }
    rewrite Hk0. destruct (retry_once grant G Hsrc PSY_ONLINE 1 m2 HG2) as (m3 & _ & H3 & Hl3 & _).
    exists m3. split_and!; [done|done|]. right. split_and!; [lia| |].
    + change (negb (- EINVAL =? 0)) with true. cbv iota. by rewrite (bind_ret _ _ _ _ _ H3).
    + by rewrite Hl3, Hl, Hl1, <-!app_assoc.
Qed.

Lemma negotiation_takes_the_highest_witness :
  let m := at_rest <| wld := bench1 <| b_grant := 2600 |> |> in
  ∃ m', sm5440_negotiate_pps (W := bench) 3900000 m = Ret ((0, 2500, 8800), m')
  ∧ ∃ k m2, 0 <= k ∧ (∀ j, 0 <= j < k → 2600 < 3000 - 250 * j)
    ∧ ((2500 = 3000 - 250 * k ∧ m' = m2) ∨ 3000 - 250 * k < 1800).
Proof.
  intros m. destruct (negotiation_takes_the_highest 2600 (fun b => b_grant b = 2600) 3900000 m) as (k & m2 & Hk & Hj & Hr).
  - intros q v w Hw. cbn. rewrite Hw. split; [destruct q; reflexivity|reflexivity].
  - reflexivity.
  - destruct (sm5440_negotiate_pps (W := bench) 3900000 m) as [[r m']| |] eqn:H;
      [|vm_compute in H; discriminate..].
    exists m'. split.
    + assert (r = (0, 2500, 8800)) as -> by (vm_compute in H; congruence). reflexivity.
    + exists k, m2. split; [exact Hk|]. split; [exact Hj|].
      destruct Hr as [(_ & _ & Hn & _)|(Hlt & _)]; [left|right; exact Hlt].
      assert (r = (0, 2500, 8800)) as -> by (vm_compute in H; congruence).
      cbv zeta in Hn. split; [|congruence].
      change (clamp (max_pps_ma (drv m)) SM5440_MIN_PPS_MA SM5440_PPS_CAP_MA) with 3000 in Hn.
      change SM5440_PPS_STEP_MA with 250 in Hn. congruence.
Defined.

(** The operating point the driver asks for covers twice the pack voltage,
    the drop over cable and connector and 200 mV, rounded up to the supply's
    20 mV steps (less than one step above), unless the limits of 8.2 V and
    10.5 V cut it; the arithmetic stays within an [int]. *)
Theorem pps_target_covers_the_drop ma vbat_uv :
  0 <= ma <= SM5440_PPS_CAP_MA → 0 <= vbat_uv <= 5000000 →
  let mv := sm5440_pps_target_mv ma vbat_uv in
  let need := 2 * (vbat_uv / 1000) + (ma * SM5440_R_TTL_MILLIOHM + 999) / 1000 + 200 in
  8200 <= mv <= SM5440_MAX_PPS_MV ∧ mv mod SM5440_PPS_V_STEP_MV = 0
  ∧ (8200 < mv → mv < need + SM5440_PPS_V_STEP_MV)
  ∧ (mv < SM5440_MAX_PPS_MV → need <= mv)
  ∧ is_u32 (2 * (mv * 1000)) ∧ is_u32 (2 * (ma * SM5440_R_TTL_MILLIOHM + 999)).
Proof.
  intros Hma Hv mv need.
  assert (mv = clamp ((need + 19) / 20 * 20) 8200 10500) as Hmv.
  { unfold mv, need, sm5440_pps_target_mv, DIV_ROUND_UP, SM5440_R_TTL_MILLIOHM,
      SM5440_EXTRA_HEADROOM_MV, SM5440_PPS_V_STEP_MV, SM5440_MAX_PPS_MV.
    rewrite (Z.quot_div_nonneg vbat_uv), (Z.quot_div_nonneg (_ + _ - 1) 1000) by lia.
    rewrite Z.quot_div_nonneg; [|..|lia].
    - f_equal. f_equal. f_equal.
      replace (ma * 320 + 1000 - 1) with (ma * 320 + 999) by lia. lia.
    - assert (0 <= vbat_uv / 1000) by (apply Z.div_pos; lia).
      assert (0 <= (ma * 320 + 1000 - 1) / 1000) by (apply Z.div_pos; lia). lia. }
  unfold SM5440_PPS_CAP_MA, SM5440_MAX_PPS_MV, SM5440_R_TTL_MILLIOHM, SM5440_PPS_V_STEP_MV,
    is_u32 in *.
  rewrite Hmv. unfold clamp. clearbody need. clear mv Hmv.
  pose proof (Z.div_mod (need + 19) 20). pose proof (Z.mod_pos_bound (need + 19) 20).
  split_and!; try lia.
  assert (Z.min (Z.max ((need + 19) / 20 * 20) 8200) 10500 =
    20 * Z.min (Z.max ((need + 19) / 20) 410) 525) as -> by lia.
  by rewrite Z.mul_comm, Z.mod_mul.
Qed.

Lemma pps_target_covers_the_drop_witness :
  sm5440_pps_target_mv 3000 3900000 = 8960 ∧ sm5440_pps_target_mv 3000 3900000 mod 20 = 0.
Proof.
  split; [vm_compute; reflexivity|].
  apply (pps_target_covers_the_drop 3000 3900000); unfold SM5440_PPS_CAP_MA; lia.
Defined.
