(* ===== verification/Sm5714Usbpd.v ===== *)
(** [sm5714_usbpd.c]: the Type-C and USB-PD transport under the kernel's port
    manager (TCPM). *)
From S2P Require Import Prelude Bus.

Definition SM5714_REG_INT1 := 0x01.
Definition SM5714_REG_MASK1 := 0x06.
Definition SM5714_REG_STATUS1 := 0x0b.
Definition SM5714_INT1_VBUS_POK := BIT 0.
Definition SM5714_INT1_ATTACH := BIT 3.
Definition SM5714_INT1_DETACH := BIT 4.
Definition SM5714_INT2_SRC_ADV := BIT 4.
Definition SM5714_INT2_VBUS_0V := BIT 5.
Definition SM5714_INT4_RX_DONE := BIT 0.
Definition SM5714_INT4_TX_DONE := BIT 1.
Definition SM5714_INT4_TX_SOP_ERR := BIT 2.
Definition SM5714_INT4_HRST_RX := BIT 5.
Definition SM5714_INT4_TX_DISCARD := BIT 7.
Definition SM5714_REG_CORR_CNTL4 := 0x23.
Definition SM5714_REG_CORR_CNTL5 := 0x24.
Definition SM5714_REG_CC_STATUS := 0x28.
Definition SM5714_CC_ATTACH_MASK := GENMASK 2 0.
Definition SM5714_CC_ATTACH_SOURCE := 1.
Definition SM5714_CC_ATTACH_SINK := 2.
Definition SM5714_CC_ATTACH_AUDIO := 3.
Definition SM5714_CC_RP_MASK := GENMASK 4 3.
Definition SM5714_CC_FLIPPED := BIT 5.
Definition SM5714_CC_POWERED_CABLE := BIT 6.
Definition SM5714_REG_CC_CNTL1 := 0x29.
Definition SM5714_REG_CC_CNTL3 := 0x2b.
Definition SM5714_REG_CC_CNTL5 := 0x2d.
Definition SM5714_REG_CC_CNTL7 := 0x2f.
Definition SM5714_REG_PD_CNTL1 := 0x38.
Definition SM5714_REG_PD_CNTL2 := 0x39.
Definition SM5714_REG_PD_CNTL4 := 0x3b.
Definition SM5714_PD_HARD_RESET := BIT 2.
Definition SM5714_REG_RX_SRC := 0x41.
Definition SM5714_REG_RX_HEADER := 0x42.
Definition SM5714_REG_RX_PAYLOAD := 0x44.
Definition SM5714_REG_RX_BUF := 0x5e.
Definition SM5714_REG_RX_BUF_ST := 0x5f.
Definition SM5714_REG_TX_HEADER := 0x60.
Definition SM5714_REG_TX_PAYLOAD := 0x62.
Definition SM5714_REG_TX_REQ := 0x7e.
Definition SM5714_REG_PD_STATE3 := 0xd8.

(** Types of the kernel's Type-C headers. *)
Inductive typec_cc_status :=
  | TYPEC_CC_OPEN | TYPEC_CC_RA | TYPEC_CC_RD
  | TYPEC_CC_RP_DEF | TYPEC_CC_RP_1_5 | TYPEC_CC_RP_3_0.
#[export] Instance typec_cc_status_eq_dec : EqDecision typec_cc_status.
Proof. solve_decision. Defined.
Inductive typec_cc_polarity := TYPEC_POLARITY_CC1 | TYPEC_POLARITY_CC2.
Inductive typec_port_type := TYPEC_PORT_SRC | TYPEC_PORT_SNK | TYPEC_PORT_DRP.
Inductive tcpm_transmit_type :=
  | TCPC_TX_SOP | TCPC_TX_SOP_PRIME | TCPC_TX_SOP_PRIME_PRIME
  | TCPC_TX_HARD_RESET | TCPC_TX_OTHER.
#[export] Instance tcpm_transmit_type_eq_dec : EqDecision tcpm_transmit_type.
Proof. solve_decision. Defined.
Inductive tcpm_transmit_status := TCPC_TX_SUCCESS | TCPC_TX_DISCARDED | TCPC_TX_FAILED.

(** [struct pd_message]: the header and the bytes of the seven data objects. *)
Record pd_message := mkMsg { header : Z; payload : list Z }.
Definition PD_MAX_PAYLOAD := 7.
Definition PD_CTRL_PS_RDY := 6.
Definition PD_CTRL_PR_SWAP := 10.
Definition pd_header_cnt (h : Z) : Z := Z.land (Z.shiftr h 12) 7.
Definition pd_header_type (h : Z) : Z := Z.land h 0x1f.

(** [struct sm5714_usbpd] without its handles; [otg_det_gpio] tells whether the
    board has that GPIO, [port] whether TCPM's port is registered. *)
Record sm5714_usbpd := mkPd {
  otg_det_gpio : bool;
  port : bool;
  polarity : typec_cc_polarity;
  pr_swap_src_to_snk : bool;
  pr_swap_snk_to_src : bool;
  retained_sink_dfp : bool;
  retained_dock_reset : bool;
  negotiated_mv : Z;
  negotiated_ma : Z }.
#[export] Instance eta_usbpd : Eta sm5714_usbpd := fun r =>
  mkPd (otg_det_gpio r) (port r) (polarity r) (pr_swap_src_to_snk r)
    (pr_swap_snk_to_src r) (retained_sink_dfp r) (retained_dock_reset r)
    (negotiated_mv r) (negotiated_ma r).

Inductive pd_work := CcResync | OtgDet.

(** What goes out: register writes, calls into TCPM and into the charger driver,
    the GPIO, and the delayed works. *)
Inductive pd_event :=
  | PdWr (r v ret : Z)
  | PdUpdate (r mask v ret : Z)
  | PdBulk (r : Z) (l : list Z) (ret : Z)
  | PdCcChange | PdVbusChange
  | PdReceive (m : pd_message) (sop : tcpm_transmit_type)
  | PdTxComplete (s : tcpm_transmit_status)
  | PdHardReset
  | PdOtg (on : bool) (ret : Z)
  | PdContract (mv ma ret : Z)
  | PdGpio (v : Z)
  | PdQueue (w : pd_work) (ms : Z)
  | PdCancel (w : pd_work)
  | PdSleep (ms : Z)
  | PdUnregister.

(** The world: the chip behind [regmap] and the charger driver. *)
Class PdEnv (W : Type) := {
  rm_read : Z → W → (Z * Z) * W;
  rm_write : Z → Z → W → Z * W;
  rm_update_bits : Z → Z → Z → W → Z * W;
  rm_bulk_read : Z → Z → W → (Z * list Z) * W;
  rm_bulk_write : Z → list Z → W → Z * W;
  battery_set_pd_contract : Z → Z → W → Z * W;
  battery_set_otg : bool → W → Z * W;
  battery_is_otg_active : W → bool * W;
}.

Definition sm5714_usbpd_rp_status (cc : Z) : typec_cc_status :=
  let rp := Z.land cc SM5714_CC_RP_MASK in
  if rp =? 0x08 then TYPEC_CC_RP_1_5
  else if (rp =? 0x10) || (rp =? 0x18) then TYPEC_CC_RP_3_0
  else TYPEC_CC_RP_DEF.

(** What [sm5714_usbpd_get_cc] makes of the status register. *)
Definition cc_lines (cc : Z) : typec_cc_status * typec_cc_status :=
  let attach := Z.land cc SM5714_CC_ATTACH_MASK in
  let orient active inactive :=
    if testm cc SM5714_CC_FLIPPED then (inactive, active) else (active, inactive) in
  if attach =? SM5714_CC_ATTACH_SOURCE then orient (sm5714_usbpd_rp_status cc) TYPEC_CC_OPEN
  else if attach =? SM5714_CC_ATTACH_SINK then
    orient TYPEC_CC_RD (if testm cc SM5714_CC_POWERED_CABLE then TYPEC_CC_RA else TYPEC_CC_OPEN)
  else if attach =? SM5714_CC_ATTACH_AUDIO then (TYPEC_CC_RA, TYPEC_CC_RA)
  else orient TYPEC_CC_OPEN TYPEC_CC_OPEN.

Section usbpd.
Context {W : Type} `{!PdEnv W}.
Abbreviation M := (M (machine sm5714_usbpd W pd_event)).

(** ** The regmap calls *)

(** [if (regmap_read(...)) return ret;] with the value read. *)
Definition regmap_read (r : Z) (k : Z → M Z) : M Z :=
  '(ret, v) ← ask (rm_read r);
  if ret =? 0 then k v else mret ret.
Definition regmap_write (r v : Z) : M Z :=
  ret ← ask (rm_write r v);
  emit (PdWr r v ret);;
  mret ret.
Definition regmap_update_bits (r mask v : Z) : M Z :=
  ret ← ask (rm_update_bits r mask v);
  emit (PdUpdate r mask v ret);;
  mret ret.
Definition regmap_bulk_write (r : Z) (l : list Z) : M Z :=
  ret ← ask (rm_bulk_write r l);
  emit (PdBulk r l ret);;
  mret ret.

Definition sm5714_usbpd_set_cc_hold (hold : Z) : M Z :=
  regmap_update_bits SM5714_REG_CC_CNTL3 (GENMASK 5 4) hold.

(** ** Delayed works *)

Definition sm5714_usbpd_cc_resync_work : M unit :=
  d ← get_drv;
  if negb (port d) then skip
  else
    ask (rm_read SM5714_REG_CC_STATUS);;
    emit PdCcChange;;
    emit PdVbusChange.

Definition sm5714_usbpd_otg_det_work : M unit := emit (PdGpio 0).

(** ** The operations TCPM calls *)

Definition irq_masks : list Z := [0xe6; 0xcf; 0xff; 0x08; 0xff].

Definition sm5714_usbpd_init : M Z :=
  regmap_write SM5714_REG_CORR_CNTL5 0x00 ?;
  regmap_write SM5714_REG_CORR_CNTL4 0x00 ?;
  regmap_read SM5714_REG_PD_STATE3 (fun state3 =>
  regmap_write SM5714_REG_RX_BUF_ST 0x10 ?;
  (if testm state3 0x06 then regmap_write SM5714_REG_PD_CNTL4 0x01 else mret 0) ?;
  '(ret, _) ← ask (rm_bulk_read SM5714_REG_INT1 5);
  if negb (ret =? 0) then mret ret
  else regmap_bulk_write SM5714_REG_MASK1 irq_masks).

Definition sm5714_usbpd_get_vbus : M Z :=
  regmap_read SM5714_REG_STATUS1 (fun status =>
  if testm status SM5714_INT1_VBUS_POK then mret 1
  else
    otg ← ask battery_is_otg_active;
    mret (if otg : bool then 1 else 0)).

Definition rp_current (st : typec_cc_status) : Z :=
  match st with TYPEC_CC_RP_3_0 => 3000 | TYPEC_CC_RP_1_5 => 1500 | _ => 500 end.
Definition sm5714_usbpd_get_current_limit : M Z :=
  regmap_read SM5714_REG_CC_STATUS (fun cc => mret (rp_current (sm5714_usbpd_rp_status cc))).

(** The result: the return value and, when it is 0, [*cc1] and [*cc2]. *)
Definition sm5714_usbpd_get_cc : M (Z * option (typec_cc_status * typec_cc_status)) :=
  '(ret, cc) ← ask (rm_read SM5714_REG_CC_STATUS);
  mret (if negb (ret =? 0) then (ret, None) else (0, Some (cc_lines cc))).

(** Toggling bit 0 of CC_CNTL7 swaps the pull in place. *)
Definition toggle_pull : M Z :=
  regmap_read SM5714_REG_CC_CNTL7 (fun role =>
  regmap_write SM5714_REG_CC_CNTL7 (Z.lxor role (BIT 0))).

Definition sm5714_usbpd_set_cc (cc : typec_cc_status) : M Z :=
  match cc with
  | TYPEC_CC_OPEN =>
      mod_drv (fun d => (d <| pr_swap_src_to_snk := false |>) <| pr_swap_snk_to_src := false |>);;
      sm5714_usbpd_set_cc_hold 0;;
      regmap_write SM5714_REG_CC_CNTL3 0x88
  | TYPEC_CC_RD =>
      regmap_read SM5714_REG_CC_STATUS (fun status =>
      if Z.land status SM5714_CC_ATTACH_MASK =? SM5714_CC_ATTACH_SOURCE then mret 0
      else
        d ← get_drv;
        if pr_swap_src_to_snk d then
          sm5714_usbpd_set_cc_hold 0x10 ?;
          toggle_pull
        else
          regmap_write SM5714_REG_CC_CNTL1 0x45 ?;
          regmap_write SM5714_REG_CC_CNTL3 0x82)
  | TYPEC_CC_RP_DEF | TYPEC_CC_RP_1_5 | TYPEC_CC_RP_3_0 =>
      regmap_read SM5714_REG_CC_STATUS (fun status =>
      if Z.land status SM5714_CC_ATTACH_MASK =? SM5714_CC_ATTACH_SINK then
        regmap_update_bits SM5714_REG_CC_CNTL1 (GENMASK 5 4) 0
      else
        d ← get_drv;
        if pr_swap_snk_to_src d then toggle_pull
        else
          regmap_write SM5714_REG_CC_CNTL1 0x49 ?;
          regmap_write SM5714_REG_CC_CNTL3 0x81)
  | TYPEC_CC_RA => mret (- EOPNOTSUPP)
  end.

Definition sm5714_usbpd_start_toggling (port_type : typec_port_type) (cc : typec_cc_status) : M Z :=
  match port_type with
  | TYPEC_PORT_SRC => sm5714_usbpd_set_cc cc
  | TYPEC_PORT_SNK => sm5714_usbpd_set_cc TYPEC_CC_RD
  | TYPEC_PORT_DRP =>
      mod_drv (fun d => (d <| pr_swap_src_to_snk := false |>) <| pr_swap_snk_to_src := false |>);;
      sm5714_usbpd_set_cc_hold 0;;
      regmap_write SM5714_REG_CC_CNTL1 0x40 ?;
      regmap_write SM5714_REG_CC_CNTL3 0x80
  end.

Definition sm5714_usbpd_set_polarity (p : typec_cc_polarity) : M Z :=
  mod_drv (fun d => d <| polarity := p |>);;
  mret 0.

Definition sm5714_usbpd_set_vconn (on : bool) : M Z :=
  d ← get_drv;
  regmap_write SM5714_REG_CC_CNTL5
    (if negb on then 0x18
     else match polarity d with TYPEC_POLARITY_CC1 => 0x19 | TYPEC_POLARITY_CC2 => 0x1a end).

Definition sm5714_battery_set_otg (on : bool) : M Z :=
  ret ← ask (battery_set_otg on);
  emit (PdOtg on ret);;
  mret ret.

Definition sm5714_usbpd_set_vbus (on : bool) : M Z :=
  d ← get_drv;
  (if negb on && pr_swap_src_to_snk d then sm5714_usbpd_set_cc_hold 0x20 else mret 0) ?;
  (if on && otg_det_gpio d then emit (PdGpio 1);; emit (PdQueue OtgDet 130) else skip);;
  ret ← sm5714_battery_set_otg on;
  (if (ret =? 0) && on && pr_swap_snk_to_src d
   then mod_drv (fun d => d <| pr_swap_snk_to_src := false |>) else skip);;
  (if negb (ret =? 0) || negb on then
     emit (PdCancel OtgDet);;
     if otg_det_gpio d then emit (PdGpio 0) else skip
   else skip);;
  mret ret.

Definition sm5714_usbpd_set_current_limit (max_ma mv : Z) : M Z :=
  (ret ← ask (battery_set_pd_contract mv max_ma);
   emit (PdContract mv max_ma ret);;
   mret ret) ?;
  mod_drv (fun d => (d <| negotiated_mv := mv |>) <| negotiated_ma := max_ma |>);;
  mret 0.

Definition sm5714_usbpd_set_pd_rx (on : bool) : M Z :=
  regmap_write SM5714_REG_PD_CNTL1 (if on then 0x08 else 0x00).

Definition sm5714_usbpd_consume_retained_sink_dfp : M bool :=
  d ← get_drv;
  mod_drv (fun d => d <| retained_sink_dfp := false |>);;
  mret (retained_sink_dfp d).

(** [source] and [host] are [role == TYPEC_SOURCE] and [data == TYPEC_HOST]. *)
Definition roles_value (val : Z) (source host : bool) : Z :=
  let val := if source then Z.lor val (BIT 1) else Z.land val (Z.lnot (BIT 1)) in
  if host then Z.lor val (BIT 0) else Z.land val (Z.lnot (BIT 0)).
Definition sm5714_usbpd_set_roles (source host : bool) : M Z :=
  regmap_read SM5714_REG_PD_CNTL2 (fun val =>
  regmap_write SM5714_REG_PD_CNTL2 (roles_value val source host)).

(** ** Messages *)

Definition header_bytes (h : Z) : list Z := [u8 h; u8 (Z.shiftr h 8)].
Definition header_of (l : list Z) : Z :=
  match l with [lo; hi] => Z.lor lo (Z.shiftl hi 8) | _ => 0 end.

Definition tx_request (type : tcpm_transmit_type) : option Z :=
  match type with
  | TCPC_TX_SOP => Some 0x07
  | TCPC_TX_SOP_PRIME => Some 0x17
  | TCPC_TX_SOP_PRIME_PRIME => Some 0x27
  | _ => None
  end.

Definition sm5714_usbpd_transmit (type : tcpm_transmit_type) (msg : pd_message) : M Z :=
  if bool_decide (type = TCPC_TX_HARD_RESET) then
    regmap_update_bits SM5714_REG_PD_CNTL4 SM5714_PD_HARD_RESET SM5714_PD_HARD_RESET
  else
    match tx_request type with
    | None => mret (- EOPNOTSUPP)
    | Some request =>
        let count := pd_header_cnt (header msg) in
        regmap_bulk_write SM5714_REG_TX_HEADER (header_bytes (header msg)) ?;
        (if negb (count =? 0)
         then regmap_bulk_write SM5714_REG_TX_PAYLOAD
                (take (Z.to_nat (count * 4)) (payload msg))
         else mret 0) ?;
        regmap_write SM5714_REG_TX_REQ request
    end.

Definition rx_sop (origin : Z) : option tcpm_transmit_type :=
  let o := Z.land origin 0x0f in
  if o =? 0 then Some TCPC_TX_SOP
  else if o =? 1 then Some TCPC_TX_SOP_PRIME
  else if o =? 2 then Some TCPC_TX_SOP_PRIME_PRIME
  else None.

(** The two control messages of a power role swap. *)
Definition note_pr_swap : M unit :=
  '(ret, status) ← ask (rm_read SM5714_REG_CC_STATUS);
  let attach := Z.land status SM5714_CC_ATTACH_MASK in
  if negb (ret =? 0) then skip
  else if attach =? SM5714_CC_ATTACH_SINK
  then mod_drv (fun d => d <| pr_swap_src_to_snk := true |>)
  else if attach =? SM5714_CC_ATTACH_SOURCE
  then mod_drv (fun d => d <| pr_swap_snk_to_src := true |>)
  else skip.
Definition finish_pr_swap : M unit :=
  d ← get_drv;
  if pr_swap_src_to_snk d then
    ret ← sm5714_usbpd_set_cc_hold 0;
    if ret =? 0 then mod_drv (fun d => d <| pr_swap_src_to_snk := false |>) else skip
  else skip.

(** The rest of the message in the receive window; [None] where the code goes
    straight to [acknowledge]. *)
Definition read_message (h : Z) : M (option (pd_message * tcpm_transmit_type)) :=
  let count := pd_header_cnt h in
  if PD_MAX_PAYLOAD <? count then mret None
  else
    '(ret, data) ← (if negb (count =? 0)
                    then ask (rm_bulk_read SM5714_REG_RX_PAYLOAD (count * 4))
                    else mret (0, []));
    if negb (ret =? 0) then mret None
    else
      '(ret, origin) ← ask (rm_read SM5714_REG_RX_SRC);
      mret (if negb (ret =? 0) then None
            else (fun sop => (mkMsg h (data ++ replicate (28 - length data) 0), sop))
                   <$> rx_sop origin).

Definition is_control (msg : pd_message) (sop : tcpm_transmit_type) (type : Z) : bool :=
  bool_decide (sop = TCPC_TX_SOP) && (pd_header_cnt (header msg) =? 0)
  && (pd_header_type (header msg) =? type).

Definition sm5714_usbpd_receive : M unit :=
  '(ret, hb) ← ask (rm_bulk_read SM5714_REG_RX_HEADER 2);
  if negb (ret =? 0) then skip
  else
    m ← read_message (header_of hb);
    match m with
    | None => skip
    | Some (msg, sop) =>
        (if is_control msg sop PD_CTRL_PR_SWAP then note_pr_swap else skip);;
        (if is_control msg sop PD_CTRL_PS_RDY then finish_pr_swap else skip);;
        emit (PdReceive msg sop)
    end;;
    regmap_write SM5714_REG_RX_BUF 0x80;;
    skip.

(** ** The interrupt *)

(** What the interrupt tells TCPM of the transport, in this order. *)
Definition irq_transport (int4 : Z) : M unit :=
  (if testm int4 SM5714_INT4_RX_DONE then sm5714_usbpd_receive else skip);;
  (if testm int4 SM5714_INT4_TX_DONE then emit (PdTxComplete TCPC_TX_SUCCESS)
   else if testm int4 SM5714_INT4_TX_DISCARD then emit (PdTxComplete TCPC_TX_DISCARDED)
   else if testm int4 SM5714_INT4_TX_SOP_ERR then emit (PdTxComplete TCPC_TX_FAILED)
   else skip);;
  (if testm int4 SM5714_INT4_HRST_RX then emit PdHardReset else skip).

(** [true] is [IRQ_HANDLED]. *)
Definition sm5714_usbpd_irq : M bool :=
  '(ret, intr) ← ask (rm_bulk_read SM5714_REG_INT1 5);
  if negb (ret =? 0) then mret false
  else
    let int n := nth n intr 0 in
    irq_transport (int 3%nat);;
    (if testm (int 0%nat) (Z.lor SM5714_INT1_ATTACH SM5714_INT1_DETACH)
        || testm (int 1%nat) SM5714_INT2_SRC_ADV
     then emit PdCcChange else skip);;
    (if testm (int 0%nat) SM5714_INT1_VBUS_POK || testm (int 1%nat) SM5714_INT2_VBUS_0V
     then emit PdVbusChange else skip);;
    mret true.

(** ** Probing and removing *)

(** [retained_roles], the status and the reset of a dock that kept its role. *)
Definition probe_retained (k : M Z) : M Z :=
  regmap_read SM5714_REG_PD_CNTL2 (fun retained_roles =>
  regmap_read SM5714_REG_CC_STATUS (fun cc =>
  let retained := testm retained_roles (BIT 0)
                  && (Z.land cc SM5714_CC_ATTACH_MASK =? SM5714_CC_ATTACH_SOURCE) in
  mod_drv (fun d => d <| retained_sink_dfp := retained |>);;
  if retained then
    regmap_write SM5714_REG_CC_CNTL1 0x49 ?;
    regmap_write SM5714_REG_CC_CNTL3 0x81 ?;
    emit (PdSleep 200);;
    (regmap_write SM5714_REG_CC_CNTL3 0x88 ?;
     emit (PdSleep 50);;
     mod_drv (fun d => (d <| retained_sink_dfp := false |>) <| retained_dock_reset := true |>);;
     k)
  else k)).

(** The answers of the kernel: the allocation, [devm_regmap_init_i2c], the
    optional GPIO (an error or whether it exists), the connector node,
    [tcpm_register_port] and [devm_request_threaded_irq]. *)
Definition sm5714_usbpd_probe (alloc_ok : bool) (regmap_ret : Z) (gpio : Z + bool)
    (connector : bool) (port_ret irq_ret : Z) : M Z :=
  if negb alloc_ok then mret (- ENOMEM)
  else if negb (regmap_ret =? 0) then mret regmap_ret
  else match gpio with
  | inl err => mret err
  | inr has_gpio =>
      mod_drv (fun _ => mkPd has_gpio false TYPEC_POLARITY_CC1 false false false false 0 0);;
      if negb connector then mret (- EINVAL)
      else
        probe_retained (
          if negb (port_ret =? 0) then mret port_ret
          else
            mod_drv (fun d => d <| port := true |>);;
            if negb (irq_ret =? 0) then
              emit PdUnregister;; mret irq_ret
            else
              d ← get_drv;
              emit (PdQueue CcResync (if retained_dock_reset d then 3000 else 1500));;
              mret 0)
  end.

Definition sm5714_usbpd_remove : M unit :=
  emit (PdCancel CcResync);;
  emit (PdCancel OtgDet);;
  d ← get_drv;
  (if otg_det_gpio d then emit (PdGpio 0) else skip);;
  emit PdUnregister.
End usbpd.
