(* ===== verification/Sm5714UsbpdProps.v ===== *)
(** The properties of the USB-PD transport: the power role swap in place, the
    messages on the wire, what the interrupt reports, and the VBUS pulse. *)
From S2P Require Import Prelude Bus Sm5714Usbpd.

(** ** A chip with plain registers

    The charger driver agrees to everything; [pc_otg] is its boost. *)
Record pd_chip := mkChip { pc_regs : gmap Z Z; pc_otg : bool }.
#[export] Instance eta_chip : Eta pd_chip := fun c => mkChip (pc_regs c) (pc_otg c).
Definition pc_get (c : pd_chip) (r : Z) : Z := default 0 (pc_regs c !! r).
Definition pc_set (r v : Z) (c : pd_chip) : pd_chip := c <| pc_regs ::= <[r := v]> |>.
Fixpoint pc_set_all (r : Z) (l : list Z) (c : pd_chip) : pd_chip :=
  match l with [] => c | v :: l' => pc_set_all (r + 1) l' (pc_set r v c) end.
Definition pc_get_all (c : pd_chip) (r n : Z) : list Z := pc_get c <$> seqZ r n.
Definition field (old mask v : Z) : Z := Z.lor (Z.land old (Z.lnot mask)) (Z.land v mask).
#[export] Instance pd_chip_env : PdEnv pd_chip := {|
  rm_read r c := ((0, pc_get c r), c);
  rm_write r v c := (0, pc_set r v c);
  rm_update_bits r mask v c := (0, pc_set r (field (pc_get c r) mask v) c);
  rm_bulk_read r n c := ((0, pc_get_all c r n), c);
  rm_bulk_write r l c := (0, pc_set_all r l c);
  battery_set_pd_contract mv ma c := (0, c);
  battery_set_otg on c := (0, c <| pc_otg := on |>);
  battery_is_otg_active c := (pc_otg c, c) |}.

Lemma pc_get_set c r v r' : pc_get (pc_set r v c) r' = if r' =? r then v else pc_get c r'.
Proof.
  unfold pc_get, pc_set. cbn. destruct (Z.eqb_spec r' r) as [->|Hr].
  - by rewrite lookup_insert_eq.
  - by rewrite lookup_insert_ne.
Qed.
Lemma pc_set_all_out l r c r' :
  r' < r ∨ r + Z.of_nat (length l) <= r' → pc_get (pc_set_all r l c) r' = pc_get c r'.
Proof.
  revert r c. induction l as [|v l IH]; intros r c Hr; [done|]. cbn [pc_set_all].
  cbn [length] in Hr. rewrite IH by lia. rewrite pc_get_set.
  by rewrite (proj2 (Z.eqb_neq _ _)) by lia.
Qed.
Lemma pc_get_set_all l r c : pc_get_all (pc_set_all r l c) r (Z.of_nat (length l)) = l.
Proof.
  revert r c. induction l as [|v l IH]; intros r c; [done|]. unfold pc_get_all. cbn [length].
  rewrite seqZ_cons by lia. cbn [fmap list_fmap pc_set_all]. f_equal.
  - rewrite pc_set_all_out by lia. rewrite pc_get_set. by rewrite Z.eqb_refl.
  - replace (Z.pred (Z.of_nat (S (length l)))) with (Z.of_nat (length l)) by lia. apply IH.
Qed.
Lemma pc_get_all_ext c c' r n r' :
  (∀ i, 0 <= i < n → pc_get c (r + i) = pc_get c' (r' + i)) →
  pc_get_all c r n = pc_get_all c' r' n.
Proof.
  intros H. unfold pc_get_all. apply list_eq. intros i. rewrite !list_lookup_fmap.
  destruct (decide (Z.of_nat i < n)) as [Hi|Hi].
  - rewrite !lookup_seqZ_lt by lia. cbn. f_equal. apply H. lia.
  - by rewrite !lookup_seqZ_ge by lia.
Qed.
Lemma pc_get_all_take c r n k : 0 <= n <= k → pc_get_all c r n = take (Z.to_nat n) (pc_get_all c r k).
Proof.
  intros Hn. unfold pc_get_all. rewrite <-fmap_take. f_equal. apply list_eq. intros i.
  destruct (decide (Z.of_nat i < n)).
  - rewrite lookup_take_lt by lia. by rewrite !lookup_seqZ_lt by lia.
  - rewrite lookup_take_ge by lia. by rewrite !lookup_seqZ_ge by lia.
Qed.

(** ** Messages *)

Lemma header_round_trip h : is_u16 h → header_of (header_bytes h) = h.
Proof.
  unfold is_u16, header_of, header_bytes, u8. intros Hh. apply Z.bits_inj'. intros i Hi.
  change 256 with (2 ^ 8). rewrite Z.lor_spec, Z.shiftl_spec by lia.
  destruct (Z.ltb_spec i 8) as [H8|H8].
  - by rewrite Z.mod_pow2_bits_low, (Z.testbit_neg_r _ (i - 8)), orb_false_r by lia.
  - rewrite Z.mod_pow2_bits_high by lia. rewrite orb_false_l.
    destruct (Z.ltb_spec i 16) as [H16|H16].
    + rewrite Z.mod_pow2_bits_low, Z.shiftr_spec by lia. f_equal. lia.
    + rewrite Z.mod_pow2_bits_high by lia. symmetry. destruct (Z.eq_dec h 0) as [->|].
      { apply Z.bits_0. }
      apply Z.bits_above_log2; [lia|]. assert (Z.log2 h < 16); [|lia].
      apply Z.log2_lt_pow2; lia.
Qed.
Lemma header_cnt_range h : 0 <= pd_header_cnt h <= PD_MAX_PAYLOAD.
Proof.
  unfold pd_header_cnt, PD_MAX_PAYLOAD. rewrite (Z.land_ones _ 3) by lia.
  change (2 ^ 3) with 8. pose proof (Z.mod_pos_bound (Z.shiftr h 12) 8). lia.
Qed.

(** The three kinds of packets the driver sends. *)
Definition sendable (type : tcpm_transmit_type) : Prop :=
  type = TCPC_TX_SOP ∨ type = TCPC_TX_SOP_PRIME ∨ type = TCPC_TX_SOP_PRIME_PRIME.

(** The receive window of the partner's chip holds what the sender's transmit
    window held, with the kind of packet as its source. *)
Definition delivered (tx rx : pd_chip) : Prop :=
  pc_get_all rx SM5714_REG_RX_HEADER 2 = pc_get_all tx SM5714_REG_TX_HEADER 2
  ∧ pc_get_all rx SM5714_REG_RX_PAYLOAD 28 = pc_get_all tx SM5714_REG_TX_PAYLOAD 28
  ∧ pc_get rx SM5714_REG_RX_SRC = Z.shiftr (pc_get tx SM5714_REG_TX_REQ) 4.

Section pd.
Abbreviation state := (machine sm5714_usbpd pd_chip pd_event).
Definition objects (msg : pd_message) : list Z :=
  take (Z.to_nat (pd_header_cnt (header msg) * 4)) (payload msg).

(** Register accesses of the plain chip. *)
Lemma chip_write r v d c l :
  regmap_write r v (mkM d c l) = Ret (0, mkM d (pc_set r v c) (l ++ [PdWr r v 0])).
Proof. reflexivity. Qed.
Lemma chip_bulk_write r bs d c l :
  regmap_bulk_write r bs (mkM d c l) = Ret (0, mkM d (pc_set_all r bs c) (l ++ [PdBulk r bs 0])).
Proof. reflexivity. Qed.
Lemma chip_update r mask v d c l :
  regmap_update_bits r mask v (mkM d c l)
  = Ret (0, mkM d (pc_set r (field (pc_get c r) mask v) c) (l ++ [PdUpdate r mask v 0])).
Proof. reflexivity. Qed.
Lemma chip_emit e d c l :
  emit e (mkM d c l : state) = Ret (tt, mkM d c (l ++ [e])).
Proof. reflexivity. Qed.
Lemma chip_read r k d c l : regmap_read r k (mkM d c l) = k (pc_get c r) (mkM d c l).
Proof. reflexivity. Qed.
Lemma then_ok (p : M state Z) k m m' : p m = Ret (0, m') → ret_if_nz p k m = k m'.
Proof. intros H. unfold ret_if_nz. by rewrite (bind_ret _ _ _ _ _ H). Qed.

(** The transmit window after a message. *)
Definition loaded (req : Z) (msg : pd_message) (c : pd_chip) : pd_chip :=
  let c := pc_set_all SM5714_REG_TX_HEADER (header_bytes (header msg)) c in
  pc_set SM5714_REG_TX_REQ req (pc_set_all SM5714_REG_TX_PAYLOAD (objects msg) c).
Lemma transmit_ok type req msg d c l0 :
  tx_request type = Some req →
  ∃ l, sm5714_usbpd_transmit type msg (mkM d c l0)
       = Ret (0, mkM d (loaded req msg c) (l0 ++ l)).
Proof.
  intros Hr. unfold sm5714_usbpd_transmit.
  rewrite bool_decide_false by (by intros ->). rewrite Hr. cbv zeta.
  erewrite then_ok by apply chip_bulk_write. unfold loaded, objects.
  destruct (Z.eqb_spec (pd_header_cnt (header msg)) 0) as [->|Hne]; cbn [negb].
  - erewrite then_ok by reflexivity. rewrite chip_write, <-app_assoc. by eexists.
  - erewrite then_ok by apply chip_bulk_write. rewrite chip_write, <-!app_assoc. by eexists.
Qed.

(** What the receiver makes of a window with [bs] and [data] in it. *)
Lemma read_message_ok h sop d c l :
  rx_sop (pc_get c SM5714_REG_RX_SRC) = Some sop →
  let n := pd_header_cnt h * 4 in
  let data := pc_get_all c SM5714_REG_RX_PAYLOAD n in
  read_message h (mkM d c l)
  = Ret (Some (mkMsg h (data ++ replicate (28 - Z.to_nat n) 0), sop), mkM d c l).
Proof.
  intros Hsop n data. pose proof (header_cnt_range h) as Hc.
  unfold read_message. rewrite (proj2 (Z.ltb_ge _ _)) by lia.
  assert (length data = Z.to_nat n) as Hlen.
  { unfold data, pc_get_all. rewrite length_fmap, length_seqZ. done. }
  erewrite bind_ret with (a := (0, data)); cycle 1.
  - unfold data, n. destruct (Z.eqb_spec (pd_header_cnt h) 0) as [->|Hne]; reflexivity.
  - cbv beta iota. cbn [Z.eqb negb].
    erewrite bind_ret with (a := (0, pc_get c SM5714_REG_RX_SRC)) by reflexivity.
    cbv beta iota. cbn [Z.eqb negb]. rewrite Hsop. cbn [fmap option_fmap option_map]. by rewrite Hlen.
Qed.

(** Receiving ends with the message, then the acknowledgement. *)
Lemma note_quiet (m m' : state) : note_pr_swap m = Ret (tt, m') →
  wld m' = wld m ∧ log m' = log m.
Proof.
  unfold note_pr_swap. erewrite bind_ret by reflexivity. cbv beta iota. cbn [Z.eqb negb].
  repeat case_match; by intros [= <-].
Qed.
Lemma finish_log (m m' : state) : finish_pr_swap m = Ret (tt, m') →
  ∃ l, log m' = log m ++ l.
Proof.
  unfold finish_pr_swap. erewrite bind_ret by reflexivity. cbv beta.
  destruct (pr_swap_src_to_snk (drv m)).
  - intros [= <-]. by eexists.
  - intros [= <-]. exists []. by rewrite app_nil_r.
Qed.
Lemma finish_ret (m : state) : ∃ m', finish_pr_swap m = Ret (tt, m').
Proof.
  unfold finish_pr_swap. erewrite bind_ret by reflexivity. cbv beta.
  destruct (pr_swap_src_to_snk (drv m)); by eexists.
Qed.
Lemma note_ret (m : state) : ∃ m', note_pr_swap m = Ret (tt, m').
Proof.
  unfold note_pr_swap. erewrite bind_ret by reflexivity. cbv beta iota. cbn [Z.eqb negb].
  repeat case_match; by eexists.
Qed.
Lemma window_received msg sop d c l :
  header_of (pc_get_all c SM5714_REG_RX_HEADER 2) = header msg →
  read_message (header msg) (mkM d c l) = Ret (Some (msg, sop), mkM d c l) →
  ∃ m' l', sm5714_usbpd_receive (mkM d c l) = Ret (tt, m')
  ∧ log m' = l ++ l' ++ [PdReceive msg sop; PdWr SM5714_REG_RX_BUF 0x80 0].
Proof.
  intros Hh Hr. unfold sm5714_usbpd_receive.
  erewrite bind_ret with (a := (0, pc_get_all c SM5714_REG_RX_HEADER 2)) by reflexivity.
  cbv beta iota. cbn [Z.eqb negb]. rewrite Hh. erewrite bind_ret by exact Hr. cbv beta iota.
  set (a := if is_control msg sop PD_CTRL_PR_SWAP then note_pr_swap else skip).
  set (b := if is_control msg sop PD_CTRL_PS_RDY then finish_pr_swap else skip).
  assert (∃ m1, a (mkM d c l) = Ret (tt, m1) ∧ log m1 = l) as (m1 & Ha & Hl1).
  { unfold a. destruct (is_control _ _ PD_CTRL_PR_SWAP); [|eexists; split; reflexivity].
    destruct (note_ret (mkM d c l)) as [m1 H1]. exists m1. split; [done|].
    by apply note_quiet in H1 as [_ ?]. }
  assert (∃ m2 l', b m1 = Ret (tt, m2) ∧ log m2 = l ++ l') as (m2 & l' & Hb & Hl2).
  { unfold b. destruct (is_control _ _ PD_CTRL_PS_RDY); [|exists m1, []; rewrite app_nil_r; split; [reflexivity|done]].
    destruct (finish_ret m1) as [m2 H2]. destruct (finish_log _ _ H2) as [l' Hl'].
    exists m2, l'. by rewrite Hl', Hl1. }
  destruct m2 as [d2 c2 l2]. cbn in Hl2. subst l2. eexists _, l'. split.
  - erewrite bind_ret with (a := tt); [reflexivity|].
    erewrite bind_ret by exact Ha. cbv beta. erewrite bind_ret by exact Hb. reflexivity.
  - cbn. by rewrite <-!app_assoc.
Qed.

(** *** The control messages of a power role swap *)

(** The window holds the control message [h] of type [type], on SOP. *)
Definition control_in_window (c : pd_chip) (h type : Z) : Prop :=
  header_of (pc_get_all c SM5714_REG_RX_HEADER 2) = h
  ∧ pd_header_cnt h = 0 ∧ pd_header_type h = type
  ∧ rx_sop (pc_get c SM5714_REG_RX_SRC) = Some TCPC_TX_SOP.
Definition empty_msg (h : Z) : pd_message := mkMsg h (replicate 28 0).

Lemma control_read h type d c l :
  control_in_window c h type →
  read_message h (mkM d c l) = Ret (Some (empty_msg h, TCPC_TX_SOP), mkM d c l).
Proof.
  intros (_ & Hc & _ & Hs). rewrite (read_message_ok _ _ _ _ _ Hs), Hc. reflexivity.
Qed.
Lemma receive_window h type d c l :
  control_in_window c h type →
  sm5714_usbpd_receive (mkM d c l)
  = (((if type =? PD_CTRL_PR_SWAP then note_pr_swap else skip);;
      (if type =? PD_CTRL_PS_RDY then finish_pr_swap else skip);;
      emit (PdReceive (empty_msg h) TCPC_TX_SOP));;
     regmap_write SM5714_REG_RX_BUF 0x80;; skip) (mkM d c l).
Proof.
  intros Hw. unfold sm5714_usbpd_receive.
  erewrite bind_ret with (a := (0, pc_get_all c SM5714_REG_RX_HEADER 2)) by reflexivity.
  cbv beta iota. cbn [Z.eqb negb]. destruct (Hw) as (Hh & Hc & Ht & _). rewrite Hh.
  erewrite bind_ret by (by eapply control_read). cbv beta iota.
  unfold is_control. cbn [header empty_msg]. rewrite Hc, Ht.
  rewrite bool_decide_true by done. cbn [Z.eqb andb]. done.
Qed.

Lemma receive_swap h d c l :
  control_in_window c h PD_CTRL_PR_SWAP →
  Z.land (pc_get c SM5714_REG_CC_STATUS) SM5714_CC_ATTACH_MASK = SM5714_CC_ATTACH_SINK →
  sm5714_usbpd_receive (mkM d c l)
  = Ret (tt, mkM (d <| pr_swap_src_to_snk := true |>) (pc_set SM5714_REG_RX_BUF 0x80 c)
               (l ++ [PdReceive (empty_msg h) TCPC_TX_SOP; PdWr SM5714_REG_RX_BUF 0x80 0])).
Proof.
  intros Hw Hs. rewrite (receive_window _ _ _ _ _ Hw). cbn [Z.eqb PD_CTRL_PR_SWAP PD_CTRL_PS_RDY].
  assert (note_pr_swap (mkM d c l) = Ret (tt, mkM (d <| pr_swap_src_to_snk := true |>) c l)) as Hn.
  { unfold note_pr_swap.
    erewrite bind_ret with (a := (0, pc_get c SM5714_REG_CC_STATUS)) by reflexivity.
    cbv beta iota zeta. rewrite Hs. reflexivity. }
  change (PD_CTRL_PR_SWAP =? PD_CTRL_PR_SWAP) with true.
  change (PD_CTRL_PR_SWAP =? PD_CTRL_PS_RDY) with false. cbv iota.
  erewrite bind_ret; [|erewrite bind_ret by exact Hn; apply chip_emit]. cbv beta.
  rewrite (bind_ret _ _ _ _ _ (chip_write _ _ _ _ _)), <-app_assoc. reflexivity.
Qed.

Lemma receive_ps_rdy h d c l :
  control_in_window c h PD_CTRL_PS_RDY → pr_swap_src_to_snk d = true →
  sm5714_usbpd_receive (mkM d c l)
  = Ret (tt, mkM (d <| pr_swap_src_to_snk := false |>)
               (pc_set SM5714_REG_RX_BUF 0x80
                  (pc_set SM5714_REG_CC_CNTL3
                     (field (pc_get c SM5714_REG_CC_CNTL3) (GENMASK 5 4) 0) c))
               (l ++ [PdUpdate SM5714_REG_CC_CNTL3 (GENMASK 5 4) 0 0;
                      PdReceive (empty_msg h) TCPC_TX_SOP; PdWr SM5714_REG_RX_BUF 0x80 0])).
Proof.
  intros Hw Hs. rewrite (receive_window _ _ _ _ _ Hw).
  change (PD_CTRL_PS_RDY =? PD_CTRL_PR_SWAP) with false.
  change (PD_CTRL_PS_RDY =? PD_CTRL_PS_RDY) with true. cbv iota.
  assert (finish_pr_swap (mkM d c l) = Ret (tt, mkM (d <| pr_swap_src_to_snk := false |>)
      (pc_set SM5714_REG_CC_CNTL3 (field (pc_get c SM5714_REG_CC_CNTL3) (GENMASK 5 4) 0) c)
      (l ++ [PdUpdate SM5714_REG_CC_CNTL3 (GENMASK 5 4) 0 0]))) as Hf.
  { unfold finish_pr_swap. erewrite bind_ret by reflexivity. cbv beta. cbn [drv].
    rewrite Hs. reflexivity. }
  erewrite bind_ret; [|erewrite bind_ret by reflexivity; cbv beta;
                       erewrite bind_ret by exact Hf; apply chip_emit]. cbv beta.
  rewrite (bind_ret _ _ _ _ _ (chip_write _ _ _ _ _)), <-!app_assoc. reflexivity.
Qed.

(** VBUS off and Rd while the swap is pending. *)
Lemma vbus_off_swap d c l :
  pr_swap_src_to_snk d = true →
  sm5714_usbpd_set_vbus false (mkM d c l)
  = Ret (0, mkM d ((pc_set SM5714_REG_CC_CNTL3
                      (field (pc_get c SM5714_REG_CC_CNTL3) (GENMASK 5 4) 0x20) c)
                     <| pc_otg := false |>)
              (l ++ [PdUpdate SM5714_REG_CC_CNTL3 (GENMASK 5 4) 0x20 0; PdOtg false 0;
                     PdCancel OtgDet] ++ (if otg_det_gpio d then [PdGpio 0] else []))).
Proof.
  intros Hd. unfold sm5714_usbpd_set_vbus. erewrite bind_ret by reflexivity. cbv beta.
  cbn [negb andb drv]. rewrite Hd. erewrite then_ok by apply chip_update.
  erewrite bind_ret by reflexivity. cbv beta. erewrite bind_ret by reflexivity. cbv beta.
  erewrite bind_ret by reflexivity. cbv beta. cbn [Z.eqb negb orb].
  set (c' := _ <| pc_otg := false |>). set (hold := PdUpdate _ _ _ _).
  destruct (otg_det_gpio d).
  - transitivity (Ret (0, mkM d c' ((((l ++ [hold]) ++ [PdOtg false 0]) ++ [PdCancel OtgDet])
      ++ [PdGpio 0]))); [reflexivity|]. by rewrite <-!app_assoc.
  - transitivity (Ret (0, mkM d c' (((l ++ [hold]) ++ [PdOtg false 0]) ++ [PdCancel OtgDet])));
      [reflexivity|]. by rewrite <-!app_assoc.
Qed.
Lemma rd_swap d c l :
  pr_swap_src_to_snk d = true →
  Z.land (pc_get c SM5714_REG_CC_STATUS) SM5714_CC_ATTACH_MASK = SM5714_CC_ATTACH_SINK →
  let pull := Z.lxor (pc_get c SM5714_REG_CC_CNTL7) 1 in
  sm5714_usbpd_set_cc TYPEC_CC_RD (mkM d c l)
  = Ret (0, mkM d (pc_set SM5714_REG_CC_CNTL7 pull
                     (pc_set SM5714_REG_CC_CNTL3
                        (field (pc_get c SM5714_REG_CC_CNTL3) (GENMASK 5 4) 0x10) c))
              (l ++ [PdUpdate SM5714_REG_CC_CNTL3 (GENMASK 5 4) 0x10 0;
                     PdWr SM5714_REG_CC_CNTL7 pull 0])).
Proof.
  intros Hd Hs pull. unfold sm5714_usbpd_set_cc. rewrite chip_read, Hs.
  change (_ =? SM5714_CC_ATTACH_SOURCE) with false. cbv iota.
  erewrite bind_ret by reflexivity. cbv beta. cbn [drv]. rewrite Hd.
  erewrite then_ok by apply chip_update. unfold toggle_pull. rewrite chip_read, pc_get_set.
  change (SM5714_REG_CC_CNTL7 =? SM5714_REG_CC_CNTL3) with false. cbv iota.
  by rewrite chip_write, <-app_assoc.
Qed.

(** The partner's message [h] arrives on SOP. *)
Definition arrives (h : Z) (c : pd_chip) : pd_chip :=
  pc_set SM5714_REG_RX_SRC 0 (pc_set_all SM5714_REG_RX_HEADER (header_bytes h) c).
Lemma arrives_window h type c :
  is_u16 h → pd_header_cnt h = 0 → pd_header_type h = type →
  control_in_window (arrives h c) h type.
Proof.
  intros Hh Hc Ht. split_and!; [|done|done|unfold arrives; by rewrite pc_get_set].
  rewrite <-(header_round_trip h) at 2 by done. f_equal. unfold arrives.
  rewrite <-(pc_get_set_all (header_bytes h) SM5714_REG_RX_HEADER c) at 2.
  apply pc_get_all_ext. intros i Hi. rewrite pc_get_set. cbn in Hi.
  by rewrite (proj2 (Z.eqb_neq _ _)) by (unfold SM5714_REG_RX_HEADER, SM5714_REG_RX_SRC; lia).
Qed.
Lemma pc_get_otg c b r : pc_get (c <| pc_otg := b |>) r = pc_get c r.
Proof. reflexivity. Qed.
Lemma field_clear old v : Z.land (field (field (field old (GENMASK 5 4) v) (GENMASK 5 4) 0x10)
  (GENMASK 5 4) 0) (GENMASK 5 4) = 0.
Proof.
  unfold field. rewrite Z.land_0_l, Z.lor_0_r, <-Z.land_assoc.
  by rewrite (Z.land_comm (Z.lnot _)), Z.land_lnot_diag, Z.land_0_r.
Qed.
End pd.

(** Registers of a chip after writes at known addresses. *)
Ltac regs :=
  repeat first
    [ rewrite pc_get_otg
    | rewrite pc_get_set
    | match goal with
      | |- context [?a =? ?b] =>
          let v := eval vm_compute in (a =? b) in
          lazymatch v with
          | true => change (a =? b) with true
          | false => change (a =? b) with false
          end; cbv iota
      end ].

(** ** The properties *)

(** A swap of the power role from source to sink, as TCPM runs it: the partner's
    PR_Swap, VBUS off, Rd on the CC lines, the partner's PS_RDY. *)
Definition swap_to_sink (h : Z) : M (machine sm5714_usbpd pd_chip pd_event) unit :=
  sm5714_usbpd_receive;;
  sm5714_usbpd_set_vbus false;;
  sm5714_usbpd_set_cc TYPEC_CC_RD;;
  modify (fun m => m <| wld ::= arrives h |>);;
  sm5714_usbpd_receive.

(** C35: a partner that asks the sourcing tablet to swap the power roles: the CC
    state is frozen before the boost is turned off, then held while bit 0 of
    CC_CNTL7 swaps the pull, and released with the partner's PS_RDY.  The two
    messages are passed on to TCPM and acknowledged, the forced attachment
    modes (CC_CNTL1, CC_CNTL3 as a whole) are never written, and apart from the
    toggled pull and the cleared hold the CC registers are as before. *)
Theorem pr_swap_in_place h h2 d c l :
  control_in_window c h PD_CTRL_PR_SWAP →
  is_u16 h2 → pd_header_cnt h2 = 0 → pd_header_type h2 = PD_CTRL_PS_RDY →
  Z.land (pc_get c SM5714_REG_CC_STATUS) SM5714_CC_ATTACH_MASK = SM5714_CC_ATTACH_SINK →
  let hold v := PdUpdate SM5714_REG_CC_CNTL3 (GENMASK 5 4) v 0 in
  let ack := PdWr SM5714_REG_RX_BUF 0x80 0 in
  let pull := Z.lxor (pc_get c SM5714_REG_CC_CNTL7) 1 in
  ∃ m', swap_to_sink h2 (mkM d c l) = Ret (tt, m')
  ∧ log m' = l ++ [PdReceive (empty_msg h) TCPC_TX_SOP; ack; hold 0x20; PdOtg false 0;
                   PdCancel OtgDet]
               ++ (if otg_det_gpio d then [PdGpio 0] else [])
               ++ [hold 0x10; PdWr SM5714_REG_CC_CNTL7 pull 0; hold 0;
                   PdReceive (empty_msg h2) TCPC_TX_SOP; ack]
  ∧ drv m' = d <| pr_swap_src_to_snk := false |> ∧ pc_otg (wld m') = false
  ∧ pc_get (wld m') SM5714_REG_CC_CNTL7 = pull
  ∧ Z.land (pc_get (wld m') SM5714_REG_CC_CNTL3) (GENMASK 5 4) = 0
  ∧ (∀ r, r ∉ [SM5714_REG_CC_CNTL3; SM5714_REG_CC_CNTL7; SM5714_REG_RX_BUF;
               SM5714_REG_RX_SRC; SM5714_REG_RX_HEADER; SM5714_REG_RX_HEADER + 1] →
     pc_get (wld m') r = pc_get c r).
Proof.
  intros Hw Hh2 Hc2 Ht2 Hs hold ack pull. unfold swap_to_sink.
  erewrite bind_ret by (by apply receive_swap). cbv beta.
  erewrite bind_ret by (by apply vbus_off_swap). cbv beta.
  erewrite bind_ret; [|apply rd_swap; [done|]]; cycle 1.
  { rewrite <-Hs. unfold pc_get, pc_set. cbn. by rewrite !lookup_insert_ne by done. }
  cbv beta. erewrite bind_ret by reflexivity. cbv beta.
  eexists. split; [apply receive_ps_rdy; [by apply arrives_window|done]|].
  cbn [log drv wld]. split_and!.
  - unfold hold, ack, pull, arrives. regs. by rewrite <-!app_assoc.
  - done.
  - done.
  - unfold arrives. regs. rewrite pc_set_all_out by (left; reflexivity). by regs.
  - unfold arrives. regs. rewrite pc_set_all_out by (left; reflexivity). regs. apply field_clear.
  - intros r Hr. rewrite !not_elem_of_cons in Hr. destruct Hr as (H1 & H2 & H3 & H4 & H5 & H6 & _).
    unfold arrives. regs. rewrite !(proj2 (Z.eqb_neq r _)) by done.
    rewrite pc_set_all_out by (cbn; lia). regs. by rewrite !(proj2 (Z.eqb_neq r _)) by done.
Qed.

(** A tablet that sources VBUS, with a PR_Swap (header 0x034a) in its window. *)
Definition sourcing : pd_chip :=
  arrives 0x034a (mkChip {[SM5714_REG_CC_STATUS := 2; SM5714_REG_CC_CNTL1 := 0x40;
                           SM5714_REG_CC_CNTL3 := 0x80; SM5714_REG_CC_CNTL7 := 0x05]} true).
Definition pd0 : sm5714_usbpd :=
  mkPd true true TYPEC_POLARITY_CC1 false false false false 0 0.

Lemma pr_swap_in_place_witness :
  control_in_window sourcing 0x034a PD_CTRL_PR_SWAP
  ∧ ∃ m', swap_to_sink 0x0546 (mkM pd0 sourcing []) = Ret (tt, m')
    ∧ pc_otg (wld m') = false ∧ pc_get (wld m') SM5714_REG_CC_CNTL7 = 0x04
    ∧ length (log m') = 11%nat.
Proof.
  assert (control_in_window sourcing 0x034a PD_CTRL_PR_SWAP) as Hw.
  { split_and!; vm_compute; reflexivity. }
  split; [exact Hw|].
  destruct (pr_swap_in_place 0x034a 0x0546 pd0 sourcing [] Hw) as (m' & Hr & Hl & _ & Ho & Hp & _).
  - unfold is_u16. lia.
  - reflexivity.
  - reflexivity.
  - vm_compute. reflexivity.
  - exists m'. split; [exact Hr|]. split; [exact Ho|]. split; [rewrite Hp; vm_compute; reflexivity|].
    rewrite Hl. reflexivity.
Defined.

(** C36: a message of up to seven objects that the driver transmits, of any of
    the three kinds of packets, is what the driver at the other end hands to its
    TCPM when the window arrives there: the same header, the same objects (the
    rest of the buffer is zero) and the same kind; then the window is
    acknowledged. *)
Theorem message_round_trip type msg d c l :
  sendable type → is_u16 (header msg) → length (payload msg) = 28%nat →
  ∃ m', sm5714_usbpd_transmit type msg (mkM d c l) = Ret (0, m')
  ∧ ∀ d2 c2 l2, delivered (wld m') c2 →
    let objs := objects msg in
    let msg' := mkMsg (header msg) (objs ++ replicate (28 - length objs) 0) in
    ∃ m2 l', sm5714_usbpd_receive (mkM d2 c2 l2) = Ret (tt, m2)
    ∧ log m2 = l2 ++ l' ++ [PdReceive msg' type; PdWr SM5714_REG_RX_BUF 0x80 0].
Proof.
  intros Hs Hh Hp.
  assert (∃ req, tx_request type = Some req ∧ rx_sop (Z.shiftr req 4) = Some type) as (req & Hr & Hrx).
  { destruct Hs as [->|[->| ->]]; eexists; split; reflexivity. }
  destruct (transmit_ok type req msg d c l Hr) as (lt & Ht). eexists. split; [exact Ht|].
  intros d2 c2 l2 Hdel objs msg'. cbn [wld] in Hdel. destruct Hdel as (Hw & Hd & Ho).
  pose proof (header_cnt_range (header msg)) as Hc. unfold PD_MAX_PAYLOAD in Hc.
  assert (length objs = Z.to_nat (pd_header_cnt (header msg) * 4)) as Hn.
  { unfold objs, objects. rewrite length_take. lia. }
  apply window_received; cbn [header msg'].
  - rewrite Hw. transitivity (header_of (header_bytes (header msg)));
      [f_equal|exact (header_round_trip _ Hh)]. unfold loaded. rewrite <-(pc_get_set_all (header_bytes (header msg)) SM5714_REG_TX_HEADER c) at 2.
    apply pc_get_all_ext. cbn [length header_bytes]. intros i Hi. rewrite pc_get_set.
    rewrite (proj2 (Z.eqb_neq _ _)) by (unfold SM5714_REG_TX_HEADER, SM5714_REG_TX_REQ; lia).
    apply pc_set_all_out. unfold SM5714_REG_TX_HEADER, SM5714_REG_TX_PAYLOAD. lia.
  - rewrite (read_message_ok _ type).
    + do 2 f_equal. f_equal. unfold msg'. rewrite Hn. f_equal. f_equal. f_equal.
      rewrite (pc_get_all_take _ _ _ 28), Hd by lia.
      rewrite <-pc_get_all_take by lia. unfold loaded. fold objs.
      rewrite <-(pc_get_set_all objs SM5714_REG_TX_PAYLOAD
        (pc_set_all SM5714_REG_TX_HEADER (header_bytes (header msg)) c)) at 2.
      replace (pd_header_cnt (header msg) * 4) with (Z.of_nat (length objs)) by lia.
      apply pc_get_all_ext. intros i Hi. rewrite pc_get_set.
      by rewrite (proj2 (Z.eqb_neq _ _)) by (unfold SM5714_REG_TX_PAYLOAD, SM5714_REG_TX_REQ; lia).
    + rewrite Ho. unfold loaded. rewrite pc_get_set. exact Hrx.
Qed.

Lemma message_round_trip_witness :
  let msg := mkMsg 0x2161 (seqZ 1 28) in
  ∃ m', sm5714_usbpd_transmit TCPC_TX_SOP msg (mkM pd0 sourcing []) = Ret (0, m')
  ∧ let rx := pc_set SM5714_REG_RX_SRC 0 (pc_set_all SM5714_REG_RX_PAYLOAD
                (pc_get_all (wld m') SM5714_REG_TX_PAYLOAD 28)
                (pc_set_all SM5714_REG_RX_HEADER [0x61; 0x21] sourcing)) in
    ∃ m2 l', sm5714_usbpd_receive (mkM pd0 rx []) = Ret (tt, m2)
    ∧ log m2 = l' ++ [PdReceive (mkMsg 0x2161 (seqZ 1 8 ++ replicate 20 0)) TCPC_TX_SOP;
                      PdWr SM5714_REG_RX_BUF 0x80 0].
Proof.
  intros msg. destruct (message_round_trip TCPC_TX_SOP msg pd0 sourcing []) as (m' & Ht & Hrx).
  - left. reflexivity.
  - unfold is_u16. cbn. lia.
  - reflexivity.
  - exists m'. split; [exact Ht|]. intros rx. apply (Hrx pd0 rx []).
    vm_compute in Ht. injection Ht as <-. split_and!; vm_compute; reflexivity.
Defined.

(** ** The interrupt and VBUS, on any hardware *)

(** What one interrupt reports to TCPM, apart from a message: at most one result
    of the last transmission, a hard reset, and the changes on CC and VBUS. *)
Definition reports (int1 int2 int4 : Z) : list pd_event :=
  let bit := Z.testbit in
  let opt (b : bool) e := if b then [e] else [] in
  (if bit int4 1 then [PdTxComplete TCPC_TX_SUCCESS]
   else if bit int4 7 then [PdTxComplete TCPC_TX_DISCARDED]
   else opt (bit int4 2) (PdTxComplete TCPC_TX_FAILED))
  ++ opt (bit int4 5) PdHardReset
  ++ opt (bit int1 3 || bit int1 4 || bit int2 4) PdCcChange
  ++ opt (bit int1 0 || bit int2 5) PdVbusChange.

(** A run of the receiver: nothing (the window could not be read), or the release
    of a CC hold and the message, each at most once, and the acknowledgement. *)
Inductive receive_run : list pd_event → Prop :=
  | run_unread : receive_run []
  | run_ack hold msg ret :
      hold = [] ∨ (∃ r, hold = [PdUpdate SM5714_REG_CC_CNTL3 (GENMASK 5 4) 0 r]) →
      (msg = [] ∧ hold = []) ∨ (∃ m sop, msg = [PdReceive m sop]) →
      receive_run (hold ++ msg ++ [PdWr SM5714_REG_RX_BUF 0x80 ret]).

Section any.
Context {W : Type} `{!PdEnv W}.
Abbreviation state := (machine sm5714_usbpd W pd_event).

Lemma any_ask {A} (f : W → A * W) (m m' : state) a :
  ask f m = Ret (a, m') → log m' = log m ∧ drv m' = drv m ∧ (a, wld m') = f (wld m).
Proof. unfold ask. destruct (f (wld m)). by intros [= <- <-]. Qed.
Lemma any_update r mask v (m m' : state) ret :
  regmap_update_bits r mask v m = Ret (ret, m') →
  log m' = log m ++ [PdUpdate r mask v ret] ∧ drv m' = drv m.
Proof.
  intros H. apply bind_inv in H as (x & m1 & H1 & H). apply any_ask in H1 as (Hl & Hd & _).
  apply bind_inv in H as ([] & m2 & [= <-] & [= <- <-]). cbn. by rewrite Hl.
Qed.
Lemma any_write r v (m m' : state) ret :
  regmap_write r v m = Ret (ret, m') → log m' = log m ++ [PdWr r v ret].
Proof.
  intros H. apply bind_inv in H as (x & m1 & H1 & H). apply any_ask in H1 as (Hl & _).
  apply bind_inv in H as ([] & m2 & [= <-] & [= <- <-]). cbn. by rewrite Hl.
Qed.

Lemma any_note (m m' : state) : note_pr_swap m = Ret (tt, m') → log m' = log m.
Proof.
  intros H. apply bind_inv in H as ([ret st] & m1 & H1 & H). apply any_ask in H1 as (Hl & _).
  cbv beta zeta iota in H. rewrite <-Hl.
  destruct (negb _); [by injection H as <-|].
  destruct (_ =? SM5714_CC_ATTACH_SINK); [by injection H as <-|].
  destruct (_ =? SM5714_CC_ATTACH_SOURCE); by injection H as <-.
Qed.
Lemma any_finish (m m' : state) : finish_pr_swap m = Ret (tt, m') →
  ∃ l, log m' = log m ++ l
  ∧ (l = [] ∨ ∃ r, l = [PdUpdate SM5714_REG_CC_CNTL3 (GENMASK 5 4) 0 r]).
Proof.
  intros H. apply bind_inv in H as (d & m1 & H1 & H). injection H1 as <- <-.
  destruct (pr_swap_src_to_snk (drv m)).
  - apply bind_inv in H as (ret & m2 & H2 & H). apply any_update in H2 as [Hl _].
    eexists. split; [|right; by exists ret]. rewrite <-Hl.
    destruct (ret =? 0); by injection H as <-.
  - injection H as <-. exists []. rewrite app_nil_r. auto.
Qed.
Lemma any_message h (m m' : state) r : read_message h m = Ret (r, m') → log m' = log m.
Proof.
  unfold read_message. intros H. cbv zeta in H. destruct (_ <? _); [by injection H as _ <-|].
  apply bind_inv in H as ([ret data] & m1 & H1 & H). cbv beta iota in H.
  assert (log m1 = log m) as Hl1.
  { destruct (negb _); [by apply any_ask in H1 as [? _]|by injection H1 as _ _ <-]. }
  destruct (negb (ret =? 0)); [by injection H as _ <-|].
  apply bind_inv in H as ([ret' o] & m2 & H2 & H). apply any_ask in H2 as [Hl2 _].
  injection H as _ <-. congruence.
Qed.
Lemma any_receive (m m' : state) : sm5714_usbpd_receive m = Ret (tt, m') →
  ∃ l, log m' = log m ++ l ∧ receive_run l.
Proof.
  intros H. apply bind_inv in H as ([ret hb] & m1 & H1 & H). apply any_ask in H1 as (Hl1 & _).
  cbv beta iota in H. destruct (negb (ret =? 0)).
  { injection H as <-. exists []. rewrite app_nil_r. split; [done|constructor]. }
  apply bind_inv in H as (r & m2 & H2 & H). apply any_message in H2 as Hl2.
  apply bind_inv in H as ([] & m3 & H3 & H). apply bind_inv in H as (ack & m4 & H4 & [= <-]).
  apply any_write in H4 as Hl4. destruct r as [[msg sop]|]; [|injection H3 as <-].
  - apply bind_inv in H3 as ([] & m5 & H5 & H3). apply bind_inv in H3 as ([] & m6 & H6 & [= <-]).
    assert (log m5 = log m2) as Hl5 by (destruct (is_control _ _ PD_CTRL_PR_SWAP);
      [by apply any_note in H5|by injection H5 as <-]).
    assert (∃ l, log m6 = log m5 ++ l
      ∧ (l = [] ∨ ∃ r, l = [PdUpdate SM5714_REG_CC_CNTL3 (GENMASK 5 4) 0 r])) as (l & Hl6 & Hl).
    { destruct (is_control _ _ PD_CTRL_PS_RDY); [by apply any_finish|]. injection H6 as <-.
      exists []. rewrite app_nil_r. auto. }
    eexists. split; [|apply (run_ack l [PdReceive msg sop] ack Hl); eauto].
    rewrite Hl4. cbn. by rewrite Hl6, Hl5, Hl2, Hl1, <-!app_assoc.
  - eexists. split; [|by apply (run_ack [] [] ack); left]. by rewrite Hl4, Hl2, Hl1.
Qed.

Lemma any_emit (b : bool) e (m m' : state) :
  (if b then emit e else skip) m = Ret (tt, m') → log m' = log m ++ (if b then [e] else []).
Proof. destruct b; intros [= <-]; [done|by rewrite app_nil_r]. Qed.
Lemma testm_or x i j : 0 <= i → 0 <= j →
  testm x (Z.lor (2 ^ i) (2 ^ j)) = Z.testbit x i || Z.testbit x j.
Proof.
  intros Hi Hj. rewrite <-!testm_pow2 by done. unfold testm.
  rewrite Z.land_lor_distr_r. destruct (Z.eqb_spec (Z.land x (2 ^ i)) 0) as [->|Hne].
  - by rewrite Z.lor_0_l.
  - destruct (Z.eqb_spec (Z.lor (Z.land x (2 ^ i)) (Z.land x (2 ^ j))) 0) as [H0|]; [|done].
    by apply Z.lor_eq_0_iff in H0 as [? _].
Qed.
End any.

(** Whatever the hardware answers, an interrupt whose latches cannot be read
    is not handled and does nothing.  Otherwise the receiver runs exactly when
    the chip says that a message is there (and then acknowledges the window
    after passing on at most one message), and TCPM hears the result of the
    last transmission (success before discard before failure), the hard reset,
    the CC change and the VBUS change, each at most once, in this order, by the
    bits of the latches. *)
Theorem irq_reports {W} `{!PdEnv W} (m m' : machine sm5714_usbpd W pd_event) handled :
  sm5714_usbpd_irq m = Ret (handled, m') →
  let '(ret, intr, w) := rm_bulk_read SM5714_REG_INT1 5 (wld m) in
  let int n := nth n intr 0 in
  (ret ≠ 0 → handled = false ∧ drv m' = drv m ∧ log m' = log m)
  ∧ (ret = 0 → handled = true ∧ ∃ rx,
       log m' = log m ++ rx ++ reports (int 0%nat) (int 1%nat) (int 3%nat)
       ∧ if Z.testbit (int 3%nat) 0 then receive_run rx else rx = []).
Proof.
  intros H. apply bind_inv in H as ([ret intr] & m1 & H1 & H).
  apply any_ask in H1 as (Hl1 & Hd1 & H1).
  destruct (rm_bulk_read SM5714_REG_INT1 5 (wld m)) as [[ret' intr'] w]. injection H1 as <- <- _.
  cbv beta zeta iota in H. split; intros Hr.
  { rewrite (proj2 (Z.eqb_neq _ _) Hr) in H. by injection H as <- <-. }
  subst ret. cbn [Z.eqb negb] in H.
  apply bind_inv in H as ([] & m2 & H2 & H). apply bind_inv in H as ([] & m3 & H3 & H).
  apply bind_inv in H as ([] & m4 & H4 & H). injection H as <- <-. split; [done|].
  apply bind_inv in H2 as ([] & m5 & H5 & H2). apply bind_inv in H2 as ([] & m6 & H6 & H2).
  apply any_emit in H2, H3, H4. rewrite H4, H3, H2.
  assert (log m6 = log m5 ++ (if Z.testbit (nth 3 intr 0) 1 then [PdTxComplete TCPC_TX_SUCCESS]
    else if Z.testbit (nth 3 intr 0) 7 then [PdTxComplete TCPC_TX_DISCARDED]
    else if Z.testbit (nth 3 intr 0) 2 then [PdTxComplete TCPC_TX_FAILED] else [])) as ->.
  { change SM5714_INT4_TX_DONE with (2 ^ 1) in H6. change SM5714_INT4_TX_DISCARD with (2 ^ 7) in H6.
    change SM5714_INT4_TX_SOP_ERR with (2 ^ 2) in H6. rewrite !testm_pow2 in H6 by lia.
    destruct (Z.testbit (nth 3 intr 0) 1); [by injection H6 as <-|].
    destruct (Z.testbit (nth 3 intr 0) 7); [by injection H6 as <-|]. by apply any_emit in H6. }
  assert (∃ rx, log m5 = log m ++ rx
    ∧ if Z.testbit (nth 3 intr 0) 0 then receive_run rx else rx = []) as (rx & -> & Hrx).
  { change SM5714_INT4_RX_DONE with (2 ^ 0) in H5. rewrite testm_pow2 in H5 by lia.
    destruct (Z.testbit (nth 3 intr 0) 0).
    - apply any_receive in H5 as (l & Hl & Hrun). exists l. by rewrite Hl, Hl1.
    - injection H5 as <-. exists []. by rewrite app_nil_r. }
  exists rx. split; [|done]. unfold reports. rewrite <-!app_assoc.
  change (Z.lor SM5714_INT1_ATTACH SM5714_INT1_DETACH) with (Z.lor (2 ^ 3) (2 ^ 4)).
  change SM5714_INT2_SRC_ADV with (2 ^ 4). change SM5714_INT1_VBUS_POK with (2 ^ 0).
  change SM5714_INT2_VBUS_0V with (2 ^ 5). change SM5714_INT4_HRST_RX with (2 ^ 5).
  by rewrite testm_or, !testm_pow2 by lia.
Qed.

Lemma irq_reports_witness :
  let c := pc_set 0x04 0x03 (pc_set 0x01 0x09 sourcing) in
  ∃ m', sm5714_usbpd_irq (mkM pd0 c []) = Ret (true, m')
  ∧ ∃ rx, log m' = rx ++ [PdTxComplete TCPC_TX_SUCCESS; PdCcChange; PdVbusChange]
    ∧ receive_run rx.
Proof.
  intros c. destruct (sm5714_usbpd_irq (mkM pd0 c [])) as [[b m']| |] eqn:H;
    [|vm_compute in H; discriminate..].
  destruct (irq_reports (mkM pd0 c []) m' b H) as [_ [Hb (rx & Hl & Hrx)]]; [reflexivity|].
  exists m'. subst b. split; [reflexivity|]. exists rx. split; [exact Hl|exact Hrx].
Defined.

(** The level of the detection GPIO and whether its end is scheduled, by the
    events. *)
Definition gpio_step (b : bool) (e : pd_event) : bool :=
  match e with PdGpio v => negb (v =? 0) | _ => b end.
Definition pulse_step (b : bool) (e : pd_event) : bool :=
  match e with PdQueue OtgDet _ => true | PdCancel OtgDet => false | _ => b end.

(** [sm5714_usbpd_set_vbus], whatever the hardware answers.  When the CC
    state cannot be frozen for a role swap, the boost is not touched.  Otherwise
    the boost is asked exactly once and its answer is the result; a board's
    detection line is then high, with its end scheduled, exactly when VBUS was
    turned on successfully, and low with nothing scheduled in every other case;
    the line never moves on a board without it. *)
Theorem vbus_detection_pulse {W} `{!PdEnv W} on (m m' : machine sm5714_usbpd W pd_event) ret :
  sm5714_usbpd_set_vbus on m = Ret (ret, m') →
  ∃ l, log m' = log m ++ l
  ∧ ((ret ≠ 0 ∧ on = false ∧ l = [PdUpdate SM5714_REG_CC_CNTL3 (GENMASK 5 4) 0x20 ret])
     ∨ (List.filter (fun e => match e with PdOtg _ _ => true | _ => false end) l = [PdOtg on ret]
        ∧ (∀ g p, otg_det_gpio (drv m) = true →
             foldl gpio_step g l = on && (ret =? 0) ∧ foldl pulse_step p l = on && (ret =? 0))
        ∧ (otg_det_gpio (drv m) = false → ∀ g, foldl gpio_step g l = g))).
Proof.
  unfold sm5714_usbpd_set_vbus. intros H.
  apply bind_inv in H as (d & m1 & H1 & H). injection H1 as <- <-.
  apply bind_inv in H as (fr & m2 & H2 & H).
  assert (∃ lf, log m2 = log m ++ lf
    ∧ lf = if negb on && pr_swap_src_to_snk (drv m)
           then [PdUpdate SM5714_REG_CC_CNTL3 (GENMASK 5 4) 0x20 fr] else []) as (lf & Hlf & Elf).
  { destruct (negb on && _); [apply any_update in H2 as [? _]; eauto|].
    injection H2 as _ <-. exists []. by rewrite app_nil_r. }
  destruct (Z.eqb_spec fr 0) as [->|Hfr].
  2:{ injection H as <- <-. exists lf. split; [done|]. left.
      destruct (negb on && _) eqn:E; [|injection H2 as <- _; done].
      apply andb_true_iff in E as [E _]. by destruct on. }
  apply bind_inv in H as ([] & m3 & H3 & H).
  apply bind_inv in H as (r & m4 & H4 & H).
  apply bind_inv in H4 as (r' & m5 & H5 & H4). apply any_ask in H5 as (Hl5 & _).
  apply bind_inv in H4 as ([] & m6 & [= <-] & [= <- <-]).
  apply bind_inv in H as ([] & m7 & H7 & H). apply bind_inv in H as ([] & m8 & H8 & [= <- <-]).
  exists (lf ++ (if on && otg_det_gpio (drv m) then [PdGpio 1; PdQueue OtgDet 130] else [])
          ++ [PdOtg on r']
          ++ (if negb (r' =? 0) || negb on
              then PdCancel OtgDet :: if otg_det_gpio (drv m) then [PdGpio 0] else [] else [])).
  assert (log m3 = log m2 ++ (if on && otg_det_gpio (drv m)
                              then [PdGpio 1; PdQueue OtgDet 130] else [])) as Hl3.
  { destruct (on && _); injection H3 as <-; [|by rewrite app_nil_r]. cbn. by rewrite <-app_assoc. }
  assert (log m7 = log m5 ++ [PdOtg on r']) as Hl7 by (destruct (_ && _ && _); by injection H7 as <-).
  split.
  - destruct (negb (r' =? 0) || negb on).
    + apply bind_inv in H8 as ([] & m9 & [= <-] & H8).
      destruct (otg_det_gpio (drv m)); injection H8 as <-; cbn;
        rewrite Hl7, Hl5, Hl3, Hlf, <-!app_assoc; done.
    + injection H8 as <-. rewrite Hl7, Hl5, Hl3, Hlf, app_nil_r, <-!app_assoc. done.
  - right. subst lf. destruct on, (otg_det_gpio (drv m)), (pr_swap_src_to_snk (drv m)), (r' =? 0);
      cbn; split_and!; try done.
Qed.

Lemma vbus_detection_pulse_witness :
  ∃ m', sm5714_usbpd_set_vbus true (mkM pd0 sourcing []) = Ret (0, m')
  ∧ foldl gpio_step false (log m') = true ∧ foldl pulse_step false (log m') = true.
Proof.
  destruct (sm5714_usbpd_set_vbus true (mkM pd0 sourcing [])) as [[r m']| |] eqn:H;
    [|vm_compute in H; discriminate..].
  assert (r = 0) as -> by (vm_compute in H; congruence).
  destruct (vbus_detection_pulse true (mkM pd0 sourcing []) m' 0 H)
    as (l & Hl & [[Hne _]|(_ & Hg & _)]); [destruct (Hne eq_refl)|].
  exists m'. split; [reflexivity|]. cbn in Hl. rewrite Hl. apply (Hg false false). reflexivity.
Defined.
