(* ===== verification/Dw9808.v ===== *)
(** [dw9808_vcm.c]: the voice-coil motor that moves the camera's lens. *)
From S2P Require Import Prelude Bus.

Definition DW9808_MAX_FOCUS_POS := 1023.
Definition DW9808_CTRL_STEPS := 16.
Definition DW9808_CTRL_DELAY_US := 1000.
Definition DW9808_MAX_RETRIES := 10.
Definition DW9808_REG_CONTROL := 0x02.
Definition DW9808_REG_POSITION_MSB := 0x03.
Definition DW9808_REG_POSITION_LSB := 0x04.
Definition DW9808_REG_STATUS := 0x05.

(** [struct dw9808_device] without its handles. *)
Record dw9808_device := mkVcm { position : Z; inited : bool }.
#[export] Instance eta_vcm : Eta dw9808_device := fun r => mkVcm (position r) (inited r).

Inductive vcm_event :=
  | VcmReg (e : bus_event unit)
  | VcmSend (data : list Z) (ret : Z)
  | VcmSleep (us : Z)
  | VcmEnable (ret : Z)        (* regulator_enable *)
  | VcmDisable (ret : Z)       (* regulator_disable *)
  | VcmPut                     (* pm_runtime_put *)
  | VcmPmEnable | VcmPmDisable | VcmRegister | VcmUnregister
  | VcmCleanup | VcmFreeControls.

(** The world: the bus, the shared supply and the runtime power management.
    [readx_poll_timeout op cond sleep timeout] is the kernel's polling macro: it
    returns 0 or [-ETIMEDOUT], with the last value [op] gave. *)
Class VcmEnv (W : Type) := {
  vcm_smbus :: Smbus W unit;
  readx_poll_timeout : (W → Z * W) → (Z → bool) → Z → Z → W → (Z * Z) * W;
  i2c_master_send : list Z → W → Z * W;
  regulator_is_enabled : W → bool * W;
  regulator_enable : W → Z * W;
  regulator_disable : W → Z * W;
  pm_runtime_get_if_in_use : W → Z * W;
  pm_runtime_resume_and_get : W → Z * W;
}.

(** Samsung's initialisation. *)
Definition init_sequence : list (Z * Z) :=
  [(0x02, 0x01); (0x02, 0x00); (0x06, 0x60); (0x07, 0x05);
   (0x03, 0x00); (0x04, 0xaf); (0x03, 0x00); (0x04, 0xfa);
   (0x03, 0x01); (0x04, 0x18); (0x03, 0x01); (0x04, 0x2b); (0x02, 0x02)].

(** The bytes of a position: the register, then the ten bits. *)
Definition position_data (pos : Z) : list Z :=
  [DW9808_REG_POSITION_MSB; Z.land (Z.shiftr pos 8) 0x03; Z.land pos 0xff].

Section vcm.
Context {W : Type} `{!VcmEnv W}.
Abbreviation M := (M (machine dw9808_device W vcm_event)).

Definition dw9808_status (w : W) : Z * W := bus_read_byte tt DW9808_REG_STATUS w.
Definition dw9808_write (reg value : Z) : M Z :=
  i2c_smbus_write_byte_data VcmReg tt reg value.
Definition usleep (us : Z) : M unit := emit (VcmSleep us).

Fixpoint write_sequence (l : list (Z * Z)) (k : M Z) : M Z :=
  match l with
  | [] => k
  | (r, v) :: l' => dw9808_write r v ?; write_sequence l' k
  end.
Definition dw9808_init : M Z := write_sequence init_sequence (usleep 5000;; mret 0).

Definition dw9808_set_position (pos : Z) : M Z :=
  '(ret, status) ← ask (readx_poll_timeout dw9808_status (fun status => status <=? 0)
                          DW9808_CTRL_DELAY_US (DW9808_MAX_RETRIES * DW9808_CTRL_DELAY_US));
  if negb (ret =? 0) then mret (- EBUSY)
  else if status <? 0 then mret status
  else
    let data := position_data (u16 pos) in
    ret ← ask (i2c_master_send data);
    emit (VcmSend data ret);;
    mret (if ret <? 0 then ret else if ret =? 3 then 0 else - EIO).

Definition dw9808_ensure_ready : M Z :=
  enabled ← ask regulator_is_enabled;
  if negb (enabled : bool) then
    mod_drv (fun d => d <| inited := false |>);;
    mret (- EAGAIN)
  else
    d ← get_drv;
    if inited d then mret 0
    else
      dw9808_init ?;
      mod_drv (fun d => d <| inited := true |>);;
      mret 0.

(** [is_focus] is [control->id == V4L2_CID_FOCUS_ABSOLUTE], [val] its value. *)
Definition dw9808_set_control (is_focus : bool) (val : Z) : M Z :=
  if negb is_focus then mret (- EINVAL)
  else
    mod_drv (fun d => d <| position := u16 val |>);;
    ret ← ask pm_runtime_get_if_in_use;
    if ret <=? 0 then mret (if ret <? 0 then ret else 0)
    else
      ret ← dw9808_ensure_ready;
      if ret =? - EAGAIN then emit VcmPut;; mret 0
      else
        d ← get_drv;
        ret ← (if ret =? 0 then dw9808_set_position (position d) else mret ret);
        emit VcmPut;;
        mret ret.

Definition dw9808_open : M Z := ask pm_runtime_resume_and_get.
Definition dw9808_close : M Z := emit VcmPut;; mret 0.

(** More steps than a 16-bit position has: enough for both ramps. *)
Definition RAMP_FUEL : nat := 4098.

(** The loop of [dw9808_suspend]; the result is [ret]. *)
Fixpoint ramp_down (fuel : nat) (pos ret : Z) : M Z :=
  if pos <? 0 then mret ret
  else
    match fuel with
    | O => nofuel
    | S fuel' =>
        step_ret ← dw9808_set_position pos;
        usleep DW9808_CTRL_DELAY_US;;
        ramp_down fuel' (pos - DW9808_CTRL_STEPS)
          (if negb (step_ret =? 0) && (ret =? 0) then step_ret else ret)
    end.

Definition dw9808_suspend : M Z :=
  enabled ← ask regulator_is_enabled;
  if negb (enabled : bool) then
    mod_drv (fun d => d <| inited := false |>);;
    mret 0
  else
    d ← get_drv;
    ret ← ramp_down RAMP_FUEL (Z.land (position d) (Z.lnot (DW9808_CTRL_STEPS - 1))) 0;
    w ← dw9808_write DW9808_REG_CONTROL 0x01;
    let ret := if negb (w =? 0) && (ret =? 0) then - EIO else ret in
    r ← ask regulator_disable;
    emit (VcmDisable r);;
    mod_drv (fun d => d <| inited := false |>);;
    mret ret.

(** The loop of [dw9808_resume]. *)
Fixpoint ramp_up (fuel : nat) (pos target : Z) : M unit :=
  if negb (pos <? target + DW9808_CTRL_STEPS) then skip
  else
    match fuel with
    | O => nofuel
    | S fuel' =>
        ret ← dw9808_set_position (Z.min pos target);
        if negb (ret =? 0) then skip
        else
          usleep DW9808_CTRL_DELAY_US;;
          ramp_up fuel' (pos + DW9808_CTRL_STEPS) target
    end.

Definition dw9808_resume : M Z :=
  ret ← ask regulator_enable;
  emit (VcmEnable ret);;
  if negb (ret =? 0) then mret ret
  else
    usleep 1000;;
    ret ← dw9808_ensure_ready;
    if negb (ret =? 0) then
      r ← ask regulator_disable;
      emit (VcmDisable r);;
      mret 0
    else
      d ← get_drv;
      ramp_up RAMP_FUEL (Z.rem (position d) DW9808_CTRL_STEPS) (position d);;
      mret 0.

(** [alloc_ok], [vcc_ret], [ctrl_err], [pads_ret], [reg_ret]: the answers of the
    kernel to the allocation, the supply, the control handler, the pads and the
    registration. *)
Definition dw9808_probe (alloc_ok : bool) (vcc_ret ctrl_err pads_ret reg_ret : Z) : M Z :=
  if negb alloc_ok then mret (- ENOMEM)
  else if negb (vcc_ret =? 0) then mret vcc_ret
  else
    mod_drv (fun _ => mkVcm 0 false);;
    if negb (ctrl_err =? 0) then emit VcmFreeControls;; mret ctrl_err
    else
      mod_drv (fun d => d <| position := 512 |>);;
      if negb (pads_ret =? 0) then emit VcmFreeControls;; mret pads_ret
      else if negb (reg_ret =? 0) then
        emit VcmCleanup;; emit VcmFreeControls;; mret reg_ret
      else
        emit VcmRegister;; emit VcmPmEnable;; mret 0.

Definition dw9808_remove : M unit :=
  emit VcmPmDisable;;
  emit VcmUnregister;;
  emit VcmFreeControls;;
  emit VcmCleanup.
End vcm.
