(* ===== verification/Dw9808Props.v ===== *)
(** The properties of the DW9808 driver: the ramps that move the lens without a
    click, and the balance of the shared supply. *)
From S2P Require Import Prelude Bus Dw9808.
From Stdlib Require Import Sorting.Sorted.

(** ** What a log did to the lens and to the supply *)

(** The positions the lens was sent to, by the block writes of the ramps and by
    the single register writes of the initialisation: a position is complete
    with its low byte, [hi] is the high byte the chip holds meanwhile. *)
Fixpoint lens (hi : Z) (l : list vcm_event) : list Z :=
  match l with
  | VcmSend [_; h; lo] _ :: l' => (256 * h + lo) :: lens h l'
  | VcmReg (Wr _ r v _) :: l' =>
      if r =? DW9808_REG_POSITION_MSB then lens v l'
      else if r =? DW9808_REG_POSITION_LSB then (256 * hi + v) :: lens hi l'
      else lens hi l'
  | _ :: l' => lens hi l'
  | [] => []
  end.
(** The high byte the chip is left with. *)
Fixpoint high (hi : Z) (l : list vcm_event) : Z :=
  match l with
  | VcmSend [_; h; lo] _ :: l' => high h l'
  | VcmReg (Wr _ r v _) :: l' => high (if r =? DW9808_REG_POSITION_MSB then v else hi) l'
  | _ :: l' => high hi l'
  | [] => hi
  end.
(** Where the initialisation of the chip sends the lens. *)
Definition landing : list Z := [175; 250; 280; 299].
(** The references to the supply the driver took and did not give back. *)
Fixpoint balance (l : list vcm_event) : Z :=
  match l with
  | VcmEnable ret :: l' => (if ret =? 0 then 1 else 0) + balance l'
  | VcmDisable ret :: l' => (if ret =? 0 then -1 else 0) + balance l'
  | _ :: l' => balance l'
  | [] => 0
  end.
Lemma lens_app hi l1 l2 : lens hi (l1 ++ l2) = lens hi l1 ++ lens (high hi l1) l2.
Proof.
  revert hi. induction l1 as [|e l1 IH]; intros hi; [done|]. cbn [app lens high].
  destruct e as [[]|data ?| | | | | | | | | |]; try apply IH.
  - repeat destruct (_ =? _); rewrite ?IH; done.
  - destruct data as [|? [|? [|? [|]]]]; try apply IH. by rewrite IH.
Qed.
Lemma balance_app l1 l2 : balance (l1 ++ l2) = balance l1 + balance l2.
Proof. induction l1 as [|e l1 IH]; [done|]. destruct e; cbn; rewrite ?IH; lia. Qed.

(** The steps of a ramp: [n] of them, [d] apart. *)
Definition steps (from d : Z) (n : nat) : list Z := (fun i => from + d * i) <$> seqZ 0 (Z.of_nat n).
Lemma steps_S from d n : steps from d (S n) = from :: steps (from + d) d n.
Proof.
  unfold steps. rewrite Nat2Z.inj_succ, seqZ_cons by lia. cbn. f_equal; [lia|].
  rewrite Z.pred_succ, <-(fmap_add_seqZ 1 0), <-list_fmap_compose.
  apply list_fmap_ext. intros i x _. cbn. lia.
Qed.

(** No step of the lens is longer than [DW9808_CTRL_STEPS]. *)
Definition gentle (a b : Z) : Prop := Z.abs (b - a) <= DW9808_CTRL_STEPS.
Lemma steps_gentle from d n :
  Z.abs d <= DW9808_CTRL_STEPS → LocallySorted gentle (steps from d n).
Proof.
  intros Hd. revert from. induction n as [|n IH]; intros from; [constructor|].
  rewrite steps_S. specialize (IH (from + d)). destruct n as [|n]; [constructor|].
  rewrite steps_S in *. constructor; [done|]. unfold gentle. lia.
Qed.
Lemma steps_last from d n : last (steps from d (S n)) = Some (from + d * Z.of_nat n).
Proof.
  unfold steps. rewrite seqZ_S, fmap_app. cbn [fmap list_fmap]. rewrite last_snoc. by rewrite Z.add_0_l.
Qed.

(** A position comes back from its bytes. *)
Lemma position_data_lens hi p ret :
  0 <= p <= DW9808_MAX_FOCUS_POS → lens hi [VcmSend (position_data p) ret] = [p].
Proof.
  unfold DW9808_MAX_FOCUS_POS, position_data. intros Hp. cbn [lens]. f_equal.
  change 0x03 with (Z.ones 2). change 0xff with (Z.ones 8).
  rewrite !Z.land_ones, Z.shiftr_div_pow2 by lia.
  rewrite (Z.mod_small (p / _)) by (split; [apply Z.div_pos; lia|apply Z.div_lt_upper_bound; lia]).
  pose proof (Z.div_mod p (2 ^ 8)). lia.
Qed.

Section vcm.
Context {W : Type} `{!VcmEnv W}.
Abbreviation M := (M (machine dw9808_device W vcm_event)).
Abbreviation state := (machine dw9808_device W vcm_event).

(** ** Calls that leave the supply alone *)

(** Such a call keeps the driver's structure; it appends to the log. *)
Definition calm (m m' : state) : Prop :=
  drv m' = drv m
  ∧ ∃ l, log m' = log m ++ l ∧ balance l = 0.
#[export] Instance calm_preorder : PreOrder calm.
Proof.
  split; [intros m; split; [done|]; exists []; by rewrite app_nil_r|].
  intros m1 m2 m3 (H1 & l1 & E1 & B1) (H2 & l2 & E2 & B2). split; [congruence|].
  exists (l1 ++ l2). rewrite E2, E1, balance_app, <-app_assoc. split; [done|lia].
Qed.
Lemma vcm_calm_ask {A} (f : W → A * W) :
  respects calm (ask (D := dw9808_device) (E := vcm_event) f).
Proof.
  intros m a m'. unfold ask. destruct (f (wld m)). intros [= _ <-].
  split; [done|]. exists []. by rewrite app_nil_r.
Qed.
Lemma vcm_calm_emit e :
  balance [e] = 0 → respects calm (emit (D := dw9808_device) (W := W) e).
Proof. intros He m a m' [= _ <-]. split; [done|]. by exists [e]. Qed.
Lemma vcm_calm_get : respects calm (get_drv (D := dw9808_device) (W := W) (E := vcm_event)).
Proof. unfold get_drv. resp. Qed.
Ltac calm :=
  repeat first [ solve [eauto 3 with resp] | resp_step | apply vcm_calm_ask | apply vcm_calm_get
               | apply vcm_calm_emit; reflexivity ].
Lemma vcm_calm_write r v : respects calm (dw9808_write (W := W) r v).
Proof. unfold dw9808_write, i2c_smbus_write_byte_data. calm. Qed.
Hint Resolve vcm_calm_write : resp.
Lemma vcm_calm_set p : respects calm (dw9808_set_position (W := W) p).
Proof. unfold dw9808_set_position. cbv zeta. calm. Qed.
Hint Resolve vcm_calm_set : resp.
Lemma vcm_calm_sleep us : respects calm (usleep (W := W) us).
Proof. by apply vcm_calm_emit. Qed.
Hint Resolve vcm_calm_sleep : resp.
Lemma vcm_calm_init : respects calm (dw9808_init (W := W)).
Proof.
  unfold dw9808_init. induction init_sequence as [|[r v] l IH]; simpl; calm.
Qed.
Hint Resolve vcm_calm_init : resp.
(** [dw9808_ensure_ready] initialises the chip, or says that it did not. *)
Lemma ready_inited (m m' : state) r :
  dw9808_ensure_ready m = Ret (r, m') → inited (drv m) = false →
  position (drv m') = position (drv m) ∧ inited (drv m') = (r =? 0)
  ∧ ∃ l, log m' = log m ++ l ∧ balance l = 0.
Proof.
  unfold dw9808_ensure_ready. intros H Hi.
  apply bind_inv in H as (on & m1 & H1 & H). apply vcm_calm_ask in H1 as (Hd1 & l1 & Hl1 & Hb1).
  destruct on; cbn [negb] in H; cycle 1.
  { injection H as <- <-. cbn. rewrite Hd1. eauto. }
  apply bind_inv in H as (d & m2 & H2 & H). injection H2 as <- <-. rewrite Hd1, Hi in H.
  apply bind_inv in H as (x & m2 & H2 & H). apply vcm_calm_init in H2 as (Hd2 & l2 & Hl2 & Hb2).
  assert (log m2 = log m ++ l1 ++ l2) as Hl by (by rewrite Hl2, Hl1, app_assoc).
  assert (balance (l1 ++ l2) = 0) as Hb by (rewrite balance_app; lia).
  destruct (Z.eqb_spec x 0) as [->|Hx]; injection H as <- <-; cbn; rewrite ?Hd2, Hd1.
  - eauto.
  - rewrite Hi, (proj2 (Z.eqb_neq _ _)) by done. eauto.
Qed.
Lemma vcm_calm_down fuel p ret : respects calm (ramp_down (W := W) fuel p ret).
Proof. revert p ret. induction fuel as [|n IH]; intros p ret; simpl; calm. Qed.
Lemma vcm_calm_up fuel p t : respects calm (ramp_up (W := W) fuel p t).
Proof. revert p. induction fuel as [|n IH]; intros p; simpl; calm. Qed.

(** ** Every call returns *)

Lemma rets_write r v : returns (dw9808_write (W := W) r v).
Proof. unfold dw9808_write, i2c_smbus_write_byte_data. rets. Qed.
Hint Resolve rets_write : rets.
Lemma rets_set p : returns (dw9808_set_position (W := W) p).
Proof. unfold dw9808_set_position. cbv zeta. rets. Qed.
Hint Resolve rets_set : rets.
Lemma rets_ready : returns (dw9808_ensure_ready (W := W)).
Proof.
  unfold dw9808_ensure_ready. rets. unfold dw9808_init.
  induction init_sequence as [|[r v] l IH]; simpl; unfold usleep; rets.
Qed.
Lemma rets_down fuel p ret :
  p < DW9808_CTRL_STEPS * Z.of_nat fuel → returns (ramp_down (W := W) fuel p ret).
Proof.
  revert p ret. induction fuel as [|n IH]; intros p ret Hp; simpl; destruct (Z.ltb_spec p 0);
    try lia; try apply returns_ret.
  apply returns_bind; [apply rets_set|intros r]. apply returns_bind; [apply returns_emit|intros _].
  apply IH. unfold DW9808_CTRL_STEPS in *. lia.
Qed.
Lemma rets_up fuel p t :
  t - p + DW9808_CTRL_STEPS <= DW9808_CTRL_STEPS * Z.of_nat fuel →
  returns (ramp_up (W := W) fuel p t).
Proof.
  revert p. unfold DW9808_CTRL_STEPS. induction fuel as [|n IH]; intros p Hp; simpl;
    unfold DW9808_CTRL_STEPS; destruct (Z.ltb_spec p (t + 16)); cbn [negb]; try lia; try apply returns_ret.
  apply returns_bind; [apply rets_set|intros r]. destruct (r =? 0); [|apply returns_ret]. cbn [negb].
  apply returns_bind; [apply returns_emit|intros _]. apply IH. lia.
Qed.
Lemma down_start p : 0 <= p → Z.land p (Z.lnot (DW9808_CTRL_STEPS - 1)) = 16 * (p / 16).
Proof.
  intros Hp. change (DW9808_CTRL_STEPS - 1) with (Z.ones 4).
  rewrite <-Z.ldiff_land, Z.ldiff_ones_r by lia.
  rewrite Z.shiftl_mul_pow2, Z.shiftr_div_pow2 by lia. change (2 ^ 4) with 16. lia.
Qed.
End vcm.

(** ** A camera whose sensor streams

    The rail is up, the status register clears and every transfer succeeds. *)
Class Streaming (W : Type) `{!VcmEnv W} : Prop := {
  polled cond us t (w : W) : cond 0 = true → (readx_poll_timeout dw9808_status cond us t w).1 = (0, 0);
  sent data (w : W) : (i2c_master_send data w).1 = Z.of_nat (length data);
  rail_up (w : W) : (regulator_is_enabled w).1 = true;
  enabled (w : W) : (regulator_enable w).1 = 0;
  disabled (w : W) : (regulator_disable w).1 = 0;
  written r v (w : W) : (bus_write_byte tt r v w).1 = 0;
}.

Section streaming.
Context {W : Type} `{!VcmEnv W, !Streaming W}.
Abbreviation M := (M (machine dw9808_device W vcm_event)).

Lemma write_stream r v k d w l :
  ∃ w', (ret_if_nz (dw9808_write r v) k) (mkM d w l)
        = k (mkM d w' (l ++ [VcmReg (Wr tt r (u8 v) 0)])).
Proof.
  unfold dw9808_write, i2c_smbus_write_byte_data, ret_if_nz.
  exists (bus_write_byte tt r (u8 v) w).2.
  rewrite bind_assoc, (bind_ret _ _ _ _ _ (ask_ret _ d w l)), written. reflexivity.
Qed.
Lemma set_stream p d w l :
  is_u16 p →
  ∃ w', dw9808_set_position p (mkM d w l) = Ret (0, mkM d w' (l ++ [VcmSend (position_data p) 3])).
Proof.
  intros Hp. unfold dw9808_set_position. ask_run polled w1; [|done].
  cbv beta iota zeta. cbn [Z.eqb negb Z.ltb Z.compare].
  ask_run sent w2. exists w2.
  unfold u16. rewrite Z.mod_small by apply Hp. reflexivity.
Qed.
Lemma sequence_stream s k d w l :
  ∃ w', write_sequence s k (mkM d w l)
        = k (mkM d w' (l ++ ((fun '(r, v) => VcmReg (Wr tt r (u8 v) 0)) <$> s))).
Proof.
  revert w l. induction s as [|[r v] s IH]; intros w l; simpl.
  - exists w. by rewrite app_nil_r.
  - destruct (write_stream r v (write_sequence s k) d w l) as (w1 & ->).
    destruct (IH w1 (l ++ [VcmReg (Wr tt r (u8 v) 0)])) as (w2 & ->). exists w2.
    by rewrite <-app_assoc.
Qed.
Lemma init_stream d w l :
  ∃ w' l', dw9808_init (mkM d w l) = Ret (0, mkM d w' (l ++ l')) ∧ ∀ hi, lens hi l' = landing.
Proof.
  unfold dw9808_init. destruct (sequence_stream init_sequence (usleep 5000;; mret 0) d w l) as (w' & ->).
  exists w', (((fun '(r, v) => VcmReg (Wr tt r (u8 v) 0)) <$> init_sequence) ++ [VcmSleep 5000]).
  split; [|done]. by rewrite app_assoc.
Qed.
Lemma ready_stream d w l :
  ∃ w' l', dw9808_ensure_ready (mkM d w l) = Ret (0, mkM (d <| inited := true |>) w' (l ++ l'))
  ∧ ∀ hi, lens hi l' = if inited d then [] else landing.
Proof.
  unfold dw9808_ensure_ready. ask_run rail_up w1. cbn [negb].
  erewrite bind_ret by reflexivity. cbn [drv]. destruct d as [p []]; cbn [inited].
  - exists w1, []. by rewrite app_nil_r.
  - destruct (init_stream (mkVcm p false) w1 l) as (w2 & l' & H & Hl). exists w2, l'.
    split; [|done]. unfold ret_if_nz. by erewrite bind_ret by exact H.
Qed.

(** The two ramps visit their steps. *)
Lemma down_stream fuel n d w l ret :
  Z.of_nat n < 4096 → (n < fuel)%nat →
  ∃ w' l', ramp_down fuel (16 * Z.of_nat n) ret (mkM d w l) = Ret (ret, mkM d w' (l ++ l'))
  ∧ (Z.of_nat n < 64 → ∀ hi, lens hi l' = steps (16 * Z.of_nat n) (-16) (S n)).
Proof.
  revert n w l. induction fuel as [|fuel IH]; intros n w l Hn Hf; [lia|]. simpl.
  rewrite (proj2 (Z.ltb_ge _ _)) by lia.
  destruct (set_stream (16 * Z.of_nat n) d w l) as [w1 H]; [unfold is_u16; lia|].
  erewrite bind_ret by exact H. cbn [Z.eqb negb andb]. erewrite bind_ret by reflexivity.
  set (l1 := log _ ++ _). unfold DW9808_CTRL_STEPS. destruct n as [|n].
  - exists w1, [VcmSend (position_data 0) 3; VcmSleep 1000]. split.
    + destruct fuel; cbn; by rewrite <-app_assoc.
    + reflexivity.
  - replace (16 * Z.of_nat (S n) - 16) with (16 * Z.of_nat n) by lia.
    destruct (IH n w1 l1) as (w2 & l' & Hr & Hl); [lia..|].
    eexists w2, (([VcmSend _ 3] ++ [VcmSleep _]) ++ l'). split.
    + rewrite !app_assoc. exact Hr.
    + intros Hp hi. rewrite !lens_app, position_data_lens by (unfold DW9808_MAX_FOCUS_POS; lia).
      rewrite Hl, (steps_S _ _ (S n)) by lia. cbn [lens app]. f_equal. f_equal. lia.
Qed.
Lemma up_stream fuel n r d w l :
  0 <= r → r + 16 * Z.of_nat n < 65536 → (n < fuel)%nat →
  ∀ k, (k <= n)%nat → ∃ w' l',
  ramp_up (fuel - k) (r + 16 * Z.of_nat k) (r + 16 * Z.of_nat n) (mkM d w l)
  = Ret (tt, mkM d w' (l ++ l'))
  ∧ (r + 16 * Z.of_nat n < 1024 → ∀ hi, lens hi l' = steps (r + 16 * Z.of_nat k) 16 (S (n - k))).
Proof.
  intros Hr Hb Hf k Hk. remember (n - k)%nat as j eqn:Hj. revert k Hk Hj w l.
  induction j as [|j IH]; intros k Hk Hj w l.
  all: destruct (fuel - k)%nat as [|f] eqn:Hfk; [lia|]; simpl; unfold DW9808_CTRL_STEPS;
    rewrite (proj2 (Z.ltb_lt _ _)) by lia; cbn [negb]; rewrite Z.min_l by lia;
    destruct (set_stream (r + 16 * Z.of_nat k) d w l) as [w1 H]; [unfold is_u16; lia|];
    erewrite bind_ret by exact H; cbn [Z.eqb negb]; erewrite bind_ret by reflexivity;
    set (l1 := log _ ++ _).
  - exists w1, ([VcmSend (position_data (r + 16 * Z.of_nat k)) 3] ++ [VcmSleep 1000]). split.
    + rewrite app_assoc. destruct f; simpl; unfold DW9808_CTRL_STEPS;
        by rewrite (proj2 (Z.ltb_ge _ _)) by lia.
    + intros Hp hi. rewrite lens_app, position_data_lens by (unfold DW9808_MAX_FOCUS_POS; lia).
      by rewrite steps_S.
  - replace (r + 16 * Z.of_nat k + 16) with (r + 16 * Z.of_nat (S k)) by lia.
    destruct (IH (S k) ltac:(lia) ltac:(lia) w1 l1) as (w2 & l' & E & Hl).
    replace (fuel - S k)%nat with f in E by lia.
    eexists w2, (([VcmSend _ 3] ++ [VcmSleep _]) ++ l'). split.
    + rewrite !app_assoc. exact E.
    + intros Hp hi. rewrite !lens_app, position_data_lens by (unfold DW9808_MAX_FOCUS_POS; lia).
      rewrite Hl, (steps_S _ _ (S j)) by lia. cbn [lens app]. f_equal. f_equal. lia.
Qed.

(** What the power management sends to the lens. *)
Lemma suspend_stream d w l :
  0 <= position d <= DW9808_MAX_FOCUS_POS →
  let q := position d / 16 in
  ∃ w' l', dw9808_suspend (mkM d w l) = Ret (0, mkM (d <| inited := false |>) w' (l ++ l'))
  ∧ ∀ hi, lens hi l' = steps (16 * q) (-16) (S (Z.to_nat q)).
Proof.
  intros Hp q. unfold DW9808_MAX_FOCUS_POS in Hp.
  pose proof (Z.div_mod (position d) 16 ltac:(lia)) as Hdm.
  pose proof (Z.mod_pos_bound (position d) 16 ltac:(lia)) as Hm. fold q in Hdm.
  assert (0 <= q < 64) as Hq by lia.
  unfold dw9808_suspend. ask_run rail_up w1. cbn [negb]. erewrite bind_ret by reflexivity.
  cbn [drv]. rewrite down_start by lia. fold q.
  destruct (down_stream RAMP_FUEL (Z.to_nat q) d w1 l 0) as (w2 & l' & H & Hl);
    [lia|unfold RAMP_FUEL; lia|]. rewrite (Z2Nat.id q) in H, Hl by lia.
  erewrite bind_ret by exact H. unfold dw9808_write, i2c_smbus_write_byte_data.
  rewrite bind_assoc. ask_run written w3. erewrite bind_ret by reflexivity. cbv zeta.
  ask_run disabled w4. eexists w4, (l' ++ [VcmReg (Wr tt _ (u8 1) 0)] ++ [VcmDisable 0]). split.
  - rewrite !app_assoc. reflexivity.
  - intros hi. rewrite !lens_app, Hl by lia. cbn. by rewrite app_nil_r.
Qed.
Lemma resume_stream d w l :
  0 <= position d <= DW9808_MAX_FOCUS_POS →
  let p := position d in
  ∃ w' l', dw9808_resume (mkM d w l) = Ret (0, mkM (d <| inited := true |>) w' (l ++ l'))
  ∧ ∀ hi, lens hi l' = (if inited d then [] else landing) ++ steps (p mod 16) 16 (S (Z.to_nat (p / 16))).
Proof.
  intros Hp p. unfold DW9808_MAX_FOCUS_POS in Hp. fold p in Hp.
  pose proof (Z.div_mod p 16 ltac:(lia)) as Hdm. pose proof (Z.mod_pos_bound p 16 ltac:(lia)) as Hm.
  unfold dw9808_resume. ask_run enabled w1. erewrite bind_ret by reflexivity.
  cbn [Z.eqb negb]. erewrite bind_ret by reflexivity. cbn [drv wld log over_field].
  edestruct ready_stream as (w2 & l1 & H & Hl1). erewrite bind_ret by exact H. clear H.
  cbn [Z.eqb negb]. erewrite bind_ret by reflexivity. cbn [drv]. change (position (d <| inited := true |>)) with p.
  edestruct (up_stream RAMP_FUEL (Z.to_nat (p / 16)) (p mod 16)) as (w3 & l2 & H & Hl2);
    [lia|lia|unfold RAMP_FUEL; lia|apply (Nat.le_0_l _)|].
  rewrite Nat.sub_0_r, Z.mul_0_r, Z.add_0_r in H, Hl2. rewrite Z2Nat.id in H, Hl2 by lia.
  replace (p mod 16 + 16 * (p / 16)) with p in H, Hl2 by lia.
  rewrite <-Z.rem_mod_nonneg in H by lia. erewrite bind_ret by exact H.
  eexists w3, ([VcmEnable 0] ++ [VcmSleep 1000] ++ l1 ++ l2). split.
  - rewrite !app_assoc. reflexivity.
  - intros hi. rewrite !lens_app, Hl1, Hl2 by lia. cbn [lens app]. by rewrite <-Z.rem_mod_nonneg by lia.
Qed.
End streaming.

(** ** The supply, whatever the bus and the regulator answer *)

Section balances.
Context {W : Type} `{!VcmEnv W} (Hdis : ∀ w : W, (regulator_disable w).1 = 0).
Abbreviation state := (machine dw9808_device W vcm_event).

Lemma resume_balance d (w : W) l :
  is_u16 (position d) → inited d = false →
  ∃ ret m1 l1, dw9808_resume (mkM d w l) = Ret (ret, m1) ∧ log m1 = l ++ l1
  ∧ balance l1 = (if inited (drv m1) then 1 else 0)
  ∧ (ret ≠ 0 → inited (drv m1) = false) ∧ position (drv m1) = position d.
Proof.
  intros Hp Hi. unfold dw9808_resume. ask_any w1.
  set (ret := (regulator_enable w).1). erewrite bind_ret by reflexivity. cbn [drv wld log over_field].
  destruct (Z.eqb_spec ret 0) as [->|Hr]; cbn [negb]; cycle 1.
  { eexists ret, _, [VcmEnable ret]. split; [reflexivity|]. cbn.
    by rewrite Hi, (proj2 (Z.eqb_neq ret 0)). }
  erewrite bind_ret by reflexivity. cbn [drv wld log over_field].
  destruct (rets_ready (mkM d w1 ((l ++ [VcmEnable 0]) ++ [VcmSleep 1000]))) as (r & m1 & H).
  destruct (ready_inited _ _ _ H Hi) as (Hp1 & Hi1 & l1 & Hl1 & Hb1). cbn [drv log] in Hp1, Hl1.
  erewrite bind_ret by exact H. destruct m1 as [d1 w2 l1']. cbn [drv log] in *. subst l1'.
  destruct (Z.eqb_spec r 0) as [->|Hr]; cbn [negb]; cycle 1.
  - ask_run Hdis w3. eexists 0, _, ([VcmEnable 0; VcmSleep 1000] ++ l1 ++ [VcmDisable 0]). split; [reflexivity|].
    cbn [drv log over_field]. rewrite !balance_app, Hb1, Hi1. cbn. by rewrite <-!app_assoc.
  - erewrite bind_ret by reflexivity. cbn [drv].
    match goal with |- context [ramp_up ?f ?p ?t ≫= ?k] =>
      destruct (rets_up f p t) with (s := mkM d1 w2 (((l ++ [VcmEnable 0]) ++ [VcmSleep 1000]) ++ l1))
        as ([] & m3 & H3) end.
    { unfold is_u16, RAMP_FUEL, DW9808_CTRL_STEPS in *. pose proof (Z.rem_bound_pos (position d1) 16). lia. }
    erewrite bind_ret by exact H3. apply vcm_calm_up in H3 as (Hd3 & l3 & Hl3 & Hb3). cbn [log drv] in *.
    eexists 0, m3, ([VcmEnable 0; VcmSleep 1000] ++ l1 ++ l3). split; [reflexivity|].
    rewrite Hl3, Hd3, !balance_app, Hb1, Hb3, Hi1. cbn. by rewrite <-!app_assoc.
Qed.
Lemma suspend_balance (m : state) (w : W) :
  is_u16 (position (drv m)) →
  ∃ ret m1 l1, dw9808_suspend (m <| wld := w |>) = Ret (ret, m1) ∧ log m1 = log m ++ l1
  ∧ inited (drv m1) = false ∧ balance l1 = (if (regulator_is_enabled w).1 then -1 else 0).
Proof.
  intros Hp. destruct m as [d w0 l]. cbn [drv log wld over_field] in *. unfold dw9808_suspend.
  ask_any w1.
  destruct (regulator_is_enabled w).1; cbn [negb]; cycle 1.
  { eexists 0, _, []. split; [reflexivity|]. by rewrite app_nil_r. }
  erewrite bind_ret by reflexivity. cbn [drv].
  match goal with |- context [ramp_down ?f ?p ?r ≫= ?k] =>
    destruct (rets_down f p r) with (s := mkM d w1 l) as (ret & m1 & H) end.
  { rewrite down_start by apply Hp. unfold is_u16, RAMP_FUEL, DW9808_CTRL_STEPS in *. pose proof (Z.mul_div_le (position d) 16). lia. }
  erewrite bind_ret by exact H. apply vcm_calm_down in H as (_ & l1 & Hl1 & Hb1).
  destruct (rets_write DW9808_REG_CONTROL 1 m1) as (x & m2 & H).
  erewrite bind_ret by exact H. apply vcm_calm_write in H as (_ & l2 & Hl2 & Hb2). cbv zeta.
  destruct m2 as [d2 w2 l2']. cbn [log] in *. subst l2'. ask_run Hdis w3.
  eexists _, _, (l1 ++ l2 ++ [VcmDisable 0]). split; [reflexivity|].
  cbn [drv log over_field]. rewrite !balance_app, Hb1, Hb2, Hl1, <-!app_assoc. done.
Qed.
End balances.

(** ** The properties *)

Section properties.
Context {W : Type} `{!VcmEnv W}.
Abbreviation state := (machine dw9808_device W vcm_event).

Lemma gentle_from a from d n :
  gentle a from → Z.abs d <= DW9808_CTRL_STEPS → LocallySorted gentle (a :: steps from d (S n)).
Proof.
  intros Ha Hd. pose proof (steps_gentle from d (S n) Hd) as H. rewrite steps_S in *. by constructor.
Qed.

(** C25: with the camera streaming and the lens at a position [p] of its ten
    bits, suspending walks it down to 0 over the multiples of
    [DW9808_CTRL_STEPS], in steps no longer than that, the first one included.
    Resuming ends at exactly [p], by a ramp that starts at [p mod 16] and has
    the same steps.  If the chip kept its state nothing else moves the lens;
    but after a suspend (which leaves [inited] clear) the initialisation of the
    chip comes first and writes the positions of [landing], 175 to 299, into
    the position registers: the lens then does snap, both into the
    initialisation and from its last position back to the foot of the ramp. *)
Theorem lens_moves_gently `{!Streaming W} (d : dw9808_device) (w : W) l :
  0 <= position d <= DW9808_MAX_FOCUS_POS →
  let p := position d in
  let n := S (Z.to_nat (p / 16)) in
  (∃ w' l', dw9808_suspend (mkM d w l) = Ret (0, mkM (d <| inited := false |>) w' (l ++ l'))
   ∧ ∀ hi, lens hi l' = steps (16 * (p / 16)) (-16) n
   ∧ LocallySorted gentle (p :: lens hi l') ∧ last (lens hi l') = Some 0)
  ∧ (∃ w' l', dw9808_resume (mkM d w l) = Ret (0, mkM (d <| inited := true |>) w' (l ++ l'))
     ∧ ∀ hi, lens hi l' = (if inited d then [] else landing) ++ steps (p mod 16) 16 n
     ∧ LocallySorted gentle (0 :: steps (p mod 16) 16 n) ∧ last (lens hi l') = Some p
     ∧ (inited d = false → ¬ gentle 0 175 ∧ ¬ gentle 299 (p mod 16))).
Proof.
  intros Hp p n. destruct (suspend_stream d w l Hp) as (w1 & l1 & H1 & Hl1).
  destruct (resume_stream d w l Hp) as (w2 & l2 & H2 & Hl2). fold p in Hl1, Hl2.
  unfold DW9808_MAX_FOCUS_POS in Hp. fold p in Hp.
  pose proof (Z.div_mod p 16 ltac:(lia)) as Hdm. pose proof (Z.mod_pos_bound p 16 ltac:(lia)) as Hm.
  split.
  - exists w1, l1. split; [done|]. intros hi. rewrite Hl1. split_and!; [done| |].
    + apply gentle_from; unfold gentle, DW9808_CTRL_STEPS; lia.
    + rewrite steps_last. f_equal. lia.
  - exists w2, l2. split; [done|]. intros hi. rewrite Hl2. split_and!; [done| | |].
    + apply gentle_from; unfold gentle, DW9808_CTRL_STEPS; lia.
    + rewrite last_app, steps_last. f_equal. lia.
    + unfold gentle, DW9808_CTRL_STEPS. lia.
Qed.

(** The shared supply.  A resume that fails to enable it takes nothing and
    reports the error; one that succeeds keeps exactly one reference if it could
    initialise the chip, and none if it could not, although it returns 0 in both
    cases.  A suspend gives one reference back whenever the rail is up, whoever
    holds it up: it returns the driver's own after a complete resume, and one
    the driver does not have after an incomplete one.  All of this for any
    answers of the bus and the regulator; both calls always return. *)
Theorem supply_references (m : state) :
  is_u16 (position (drv m)) → inited (drv m) = false →
  (∀ w : W, (regulator_disable w).1 = 0) →
  ∃ ret m1 l1, dw9808_resume m = Ret (ret, m1) ∧ log m1 = log m ++ l1
  ∧ balance l1 = (if inited (drv m1) then 1 else 0)
  ∧ (ret ≠ 0 → inited (drv m1) = false)
  ∧ ∀ w, ∃ ret' m2 l2, dw9808_suspend (m1 <| wld := w |>) = Ret (ret', m2)
    ∧ log m2 = log m1 ++ l2 ∧ inited (drv m2) = false
    ∧ balance l2 = (if (regulator_is_enabled w).1 then -1 else 0).
Proof.
  intros Hp Hi Hdis. destruct m as [d w l]. cbn [drv log] in *.
  assert (∃ ret m1 l1, dw9808_resume (mkM d w l) = Ret (ret, m1) ∧ log m1 = l ++ l1
    ∧ balance l1 = (if inited (drv m1) then 1 else 0)
    ∧ (ret ≠ 0 → inited (drv m1) = false) ∧ position (drv m1) = position d)
    as (ret & m1 & l1 & H1 & Hl1 & Hb1 & Hr1 & Hp1).
  { by apply resume_balance. }
  exists ret, m1, l1. split_and!; [done..|]. intros w1. apply suspend_balance; [done|by rewrite Hp1].
Qed.
End properties.

(** A camera whose rail is up (someone else may hold it): the bus answers while
    [w] is true, as it does while the sensor streams. *)
#[export] Instance camera_bus : Smbus bool unit := {|
  bus_read_byte := fun _ _ (w : bool) => (if w then 0 else - EIO, w);
  bus_write_byte := fun _ _ _ (w : bool) => (if w then 0 else - EIO, w);
  bus_read_word := fun _ _ (w : bool) => (if w then 0 else - EIO, w);
  bus_write_word := fun _ _ _ (w : bool) => (if w then 0 else - EIO, w);
|}.
#[export] Instance camera : VcmEnv bool := {|
  readx_poll_timeout := fun (op : bool → Z * bool) cond _ _ w =>
    let s := (op w).1 in ((if cond s then 0 else - ETIMEDOUT, s), w);
  i2c_master_send data (w : bool) := (if w then Z.of_nat (length data) else - EIO, w);
  regulator_is_enabled w := (true, w);
  regulator_enable w := (0, w);
  regulator_disable w := (0, w);
  pm_runtime_get_if_in_use w := (1, w);
  pm_runtime_resume_and_get w := (0, w);
|}.
(** The same, always streaming. *)
#[export] Instance studio_bus : Smbus unit unit := {|
  bus_read_byte _ _ w := (0, w); bus_write_byte _ _ _ w := (0, w);
  bus_read_word _ _ w := (0, w); bus_write_word _ _ _ w := (0, w);
|}.
#[export] Instance studio : VcmEnv unit := {|
  readx_poll_timeout := fun (op : unit → Z * unit) cond _ _ w =>
    let s := (op w).1 in ((if cond s then 0 else - ETIMEDOUT, s), w);
  i2c_master_send data w := (Z.of_nat (length data), w);
  regulator_is_enabled w := (true, w); regulator_enable w := (0, w);
  regulator_disable w := (0, w); pm_runtime_get_if_in_use w := (1, w);
  pm_runtime_resume_and_get w := (0, w);
|}.

#[export] Instance studio_streams : Streaming unit.
Proof. split; try (intros; reflexivity). intros cond us t [] H. cbn. by rewrite H. Qed.

(** The pad suspends with the lens at 100, and resumes: the initialisation
    throws the lens to 175 and on to 299 before the ramp. *)
Lemma lens_moves_gently_witness :
  ∃ w1 l1 w2 l2, dw9808_suspend (mkM (mkVcm 100 true) tt []) = Ret (0, mkM (mkVcm 100 false) w1 l1)
  ∧ lens 0 l1 = [96; 80; 64; 48; 32; 16; 0]
  ∧ dw9808_resume (mkM (mkVcm 100 false) w1 l1) = Ret (0, mkM (mkVcm 100 true) w2 (l1 ++ l2))
  ∧ lens 0 l2 = [175; 250; 280; 299; 4; 20; 36; 52; 68; 84; 100].
Proof.
  destruct (lens_moves_gently (W := unit) (mkVcm 100 true) tt [])
    as ((w1 & l1 & H1 & Hl1) & _); [split; vm_compute; discriminate|].
  destruct (lens_moves_gently (W := unit) (mkVcm 100 false) w1 l1)
    as (_ & w2 & l2 & H2 & Hl2); [split; vm_compute; discriminate|].
  exists w1, l1, w2, l2. split; [exact H1|]. split; [|split; [exact H2|]].
  - rewrite (proj1 (Hl1 0)). vm_compute. reflexivity.
  - rewrite (proj1 (Hl2 0)). vm_compute. reflexivity.
Defined.

(** The device is opened while the sensor sleeps and another driver holds the
    rail: the resume keeps nothing, the suspend gives back a reference. *)
Lemma supply_references_witness :
  ∃ m1 m2, dw9808_resume (mkM (mkVcm 512 false) false []) = Ret (0, m1)
  ∧ dw9808_suspend (m1 <| wld := true |>) = Ret (0, m2)
  ∧ balance (log m2) = -1.
Proof.
  destruct (supply_references (W := bool) (mkM (mkVcm 512 false) false []))
    as (ret & m1 & l1 & H1 & Hl1 & Hb1 & _ & Hs); [split; vm_compute; congruence|done|done|].
  destruct (Hs true) as (ret2 & m2 & l2 & H2 & Hl2 & _ & Hb2).
  vm_compute in H1. injection H1 as <- <-.
  eexists _, m2. split; [vm_compute; reflexivity|]. split.
  - rewrite H2. vm_compute in H2. by injection H2 as <- _.
  - rewrite Hl2, balance_app, Hb2. reflexivity.
Defined.
