(* ===== verification/Double.v ===== *)
(** The [double] of the C programs: IEEE 754 binary64, as the specification
    floats of the Standard Library.  Comparison is a strict order, and sums,
    quotients and squares of non-negative numbers never become a NaN. *)
From S2P Require Import Prelude.
From Stdlib Require Export Floats.SpecFloat.

Abbreviation double := spec_float.
Definition dadd : double → double → double := SFadd 53 1024.
Definition dmul : double → double → double := SFmul 53 1024.
Definition ddiv : double → double → double := SFdiv 53 1024.
Definition dltb : double → double → bool := SFltb.
Definition dleb : double → double → bool := SFleb.
(** The conversion of an integer. *)
Definition of_int (z : Z) : double := binary_normalize 53 1024 z 0 false.

Declare Scope double_scope.
Delimit Scope double_scope with D.
Notation "x + y" := (dadd x y) : double_scope.
Notation "x * y" := (dmul x y) : double_scope.
Notation "x / y" := (ddiv x y) : double_scope.
Notation "x <? y" := (dltb x y) : double_scope.
Notation "x <=? y" := (dleb x y) : double_scope.

(** ** Order *)

(** What [SFcompare] compares, lexicographically. *)
Definition key (x : double) : option (Z * Z * Z) :=
  match x with
  | S754_infinity true => Some (-2, 0, 0)
  | S754_finite true m e => Some (-1, - e, - Zpos m)
  | S754_zero _ => Some (0, 0, 0)
  | S754_finite false m e => Some (1, e, Zpos m)
  | S754_infinity false => Some (2, 0, 0)
  | S754_nan => None
  end.
Definition lex (a b : Z * Z * Z) : Prop :=
  a.1.1 < b.1.1 ∨ a.1.1 = b.1.1 ∧ (a.1.2 < b.1.2 ∨ a.1.2 = b.1.2 ∧ a.2 < b.2).

Lemma dltb_key x y :
  dltb x y = true ↔ ∃ a b, key x = Some a ∧ key y = Some b ∧ lex a b.
Proof.
  unfold dltb, SFltb, lex.
  destruct x as [[]|[]| |[] m e], y as [[]|[]| |[] m' e']; cbn [SFcompare key].
  all: try (split; [intros; discriminate || (eexists _, _; split_and!; [done..|]; cbn; lia)
                   |by intros (a & b & ? & ? & Hl); simplify_eq; cbn in Hl; lia]).
  all: change (Pos.compare_cont Eq m m') with (m ?= m')%positive;
    destruct (Z.compare_spec e e'), (Pos.compare_spec m m'); cbn [CompOpp].
  all: split; [intros; first [discriminate|eexists _, _; split_and!; [done..|]; cbn; lia]
              |intros (a & b & ? & ? & Hl); simplify_eq; cbn in Hl; first [done|lia]].
Qed.
Lemma dltb_irrefl x : dltb x x = false.
Proof.
  apply not_true_is_false. intros (a & b & H1 & H2 & Hl)%dltb_key. simplify_eq.
  unfold lex in Hl. lia.
Qed.
Lemma dltb_trans x y z : dltb x y = true → dltb y z = true → dltb x z = true.
Proof.
  rewrite !dltb_key. intros (a & b & H1 & H2 & Hl) (b' & c & H2' & H3 & Hl').
  simplify_eq. exists a, c. split_and!; [done..|]. unfold lex in *. lia.
Qed.
(** What [x] does not beat, something bigger does not lose to. *)
Lemma dltb_raise x y z : dltb x z = false → dltb x y = true → dltb y z = false.
Proof.
  intros Hxz Hxy. apply not_true_is_false. intros Hyz.
  by rewrite (dltb_trans x y z) in Hxz.
Qed.

(** ** Non-negative numbers *)

Definition nonneg (x : double) : Prop :=
  match x with
  | S754_zero false | S754_infinity false | S754_finite false _ _ => True
  | _ => False
  end.
Lemma dltb_nonneg x : nonneg x → dltb (of_int (-1)) x = true.
Proof. by destruct x as [[]|[]| |[] m e]. Qed.

Lemma shr_1_pos r : 0 <= shr_m r → 0 <= shr_m (shr_1 r).
Proof. destruct r as [[|[p|p|]|p] r s]; cbn; lia. Qed.
Lemma iter_shr_pos p r : 0 <= shr_m r → 0 <= shr_m (iter_pos shr_1 p r).
Proof.
  revert r. induction p as [p IH|p IH|]; intros r Hr; cbn; [apply IH, IH|apply IH, IH|];
    auto using shr_1_pos.
Qed.
Lemma shr_fexp_pos m e l : 0 <= m → 0 <= shr_m (shr_fexp 53 1024 m e l).1.
Proof.
  intros Hm. unfold shr_fexp, shr.
  destruct (_ - e); cbn [fst]; [| apply iter_shr_pos |];
    destruct l as [|[]]; cbn; done.
Qed.
Lemma round_pos m l : 0 <= m → 0 <= round_nearest_even m l.
Proof. intros Hm. destruct l as [|[]]; cbn; try destruct (Z.even m); lia. Qed.
Lemma round_aux_nonneg m e l : 0 <= m → nonneg (binary_round_aux 53 1024 false m e l).
Proof.
  intros Hm. unfold binary_round_aux.
  pose proof (shr_fexp_pos m e l Hm) as H1. destruct (shr_fexp _ _ m e l) as [r1 e1]. cbn in H1.
  set (m2 := round_nearest_even _ _).
  assert (0 <= m2) as H2 by by apply round_pos.
  pose proof (shr_fexp_pos m2 e1 loc_Exact H2) as H3.
  destruct (shr_fexp _ _ m2 e1 loc_Exact) as [r2 e2]. cbn in H3.
  destruct (shr_m r2); [done| |lia]. by destruct (e2 <=? _).
Qed.
Lemma normalize_nonneg m e : 0 <= m → nonneg (binary_normalize 53 1024 m e false).
Proof.
  intros Hm. destruct m as [|p|p]; [done| |lia]. cbn. unfold binary_round.
  destruct (shl_align _ _ _). by apply round_aux_nonneg.
Qed.
Lemma of_int_nonneg z : 0 <= z → nonneg (of_int z).
Proof. apply normalize_nonneg. Qed.
Lemma dadd_nonneg x y : nonneg x → nonneg y → nonneg (x + y)%D.
Proof.
  destruct x as [[]|[]| |[] m e], y as [[]|[]| |[] m' e']; try done. intros _ _.
  by apply normalize_nonneg.
Qed.
Lemma dmul_self_nonneg x : x ≠ S754_nan → nonneg (x * x)%D.
Proof.
  destruct x as [[]|[]| |[] m e]; try done; intros _; by apply round_aux_nonneg.
Qed.
(** A positive finite divisor. *)
Definition posfin (x : double) : Prop :=
  match x with S754_finite false _ _ => True | _ => False end.
Lemma ddiv_nonneg x y : nonneg x → posfin y → nonneg (x / y)%D.
Proof.
  destruct y as [[]|[]| |[] m' e']; try done. destruct x as [[]|[]| |[] m e]; try done.
  intros _ _. cbn [ddiv SFdiv]. unfold ddiv. cbn [SFdiv].
  unfold SFdiv_core_binary. set (n := match _ with Z0 => _ | Zpos _ => _ | Zneg _ => _ end).
  assert (0 <= n) as Hn.
  { unfold n. destruct (_ - _); [lia| |lia]. apply Z.shiftl_nonneg. lia. }
  pose proof (Z.div_pos n (Zpos m') Hn) as Hq. unfold Z.div in Hq.
  destruct (Z.div_eucl n (Zpos m')) as [q r]. apply round_aux_nonneg. lia.
Qed.

(** ** Integers *)

Lemma of_int_notnan z : of_int z ≠ S754_nan.
Proof.
  destruct z as [|p|p]; [done| |].
  - pose proof (of_int_nonneg (Zpos p) ltac:(lia)) as H. by intros E; rewrite E in H.
  - cbn. unfold binary_round. destruct (shl_align _ _ _) as [m e].
    pose proof (round_aux_nonneg (Zpos m) e loc_Exact ltac:(lia)) as H.
    unfold binary_round_aux in *. destruct (shr_fexp _ _ (Zpos m) e _) as [r1 e1].
    destruct (shr_fexp _ _ _ e1 _) as [r2 e2]. destruct (shr_m r2); [done| |done].
    by destruct (e2 <=? _).
Qed.
Lemma digits_bound p : 2 ^ (Zpos (digits2_pos p) - 1) <= Zpos p.
Proof.
  assert (∀ q, Zpos (Pos.succ q) - 1 = Z.succ (Zpos q - 1)) as Hs by lia.
  induction p as [p IH|p IH|]; cbn [digits2_pos]; [| |done];
    rewrite Hs, Z.pow_succ_r by lia; lia.
Qed.
Lemma digits_shift p d : digits2_pos (Pos.iter xO p d) = (digits2_pos p + d)%positive.
Proof.
  induction d as [|d IH] using Pos.peano_ind; [cbn; lia|].
  rewrite Pos.iter_succ. cbn [digits2_pos]. rewrite IH. lia.
Qed.
(** Integers up to [2 ^ 53] are not rounded away. *)
Lemma of_int_posfin n : 0 < n < 2 ^ 53 → posfin (of_int n).
Proof.
  destruct n as [|p|p]; [lia| |lia]. intros Hp. cbn. unfold binary_round.
  set (e := fexp 53 1024 (Zpos (digits2_pos p) + 0)).
  assert (Zpos (digits2_pos p) <= 53) as Hd.
  { pose proof (digits_bound p) as Hb. apply Z.nlt_ge. intros Hlt.
    pose proof (Z.pow_le_mono_r 2 53 (Zpos (digits2_pos p) - 1)). lia. }
  assert (e = Zpos (digits2_pos p) - 53) as He by (unfold e, fexp, emin; lia).
  assert (∃ m, shl_align p 0 e = (m, e) ∧ Zpos (digits2_pos m) + e = Zpos (digits2_pos p))
    as (m & -> & Hm).
  { unfold shl_align. destruct (e - 0) as [|q|q] eqn:Hq; try lia.
    - exists p. split; [f_equal; lia|lia].
    - eexists. split; [reflexivity|]. rewrite digits_shift. lia. }
  assert (∀ l, shr_fexp 53 1024 (Zpos m) e l = (shr_record_of_loc (Zpos m) l, e)) as Hshr.
  { intros l. unfold shr_fexp. cbn [Zdigits2]. rewrite Hm.
    replace (fexp 53 1024 (Zpos (digits2_pos p)) - e) with 0; [done|].
    unfold fexp, emin. lia. }
  unfold binary_round_aux. rewrite Hshr. cbn [shr_record_of_loc loc_of_shr_record shr_m].
  cbn [round_nearest_even]. rewrite Hshr. cbn [shr_record_of_loc shr_m].
  by rewrite (proj2 (Z.leb_le e (1024 - 53))) by lia.
Qed.
