(* ===== verification/Autofocus.v ===== *)
(** [gts9wifi-autofocus.c]: contrast-detection autofocus in userspace. *)
From S2P Require Import Prelude Bus Double.
From stdpp Require Import strings.
#[local] Open Scope Z_scope.

Definition WIDTH := 4128.
Definition HEIGHT := 3096.
Definition STRIDE := 5168.
Definition VALID := 5160.
Definition NUM_BUFS := 4.
Definition FOCUS_MIN := 0.
Definition FOCUS_MAX := 1023.
Definition SETTLE_FRAMES : nat := 3.
Definition MEASURE_FRAMES : nat := 2.
Definition GW := 8.
Definition GH := 6.
Definition GW_TOP : nat := 12.

(** ** Loops and memory *)

(** The values of [i] in [for (i = lo; i < hi; i += step)]. *)
Definition range (lo hi step : Z) : list Z :=
  (fun k => lo + step * k) <$> seqZ 0 ((hi - lo + step - 1) / step).
Fixpoint foldo {A} (f : A → Z → option A) (acc : A) (l : list Z) : option A :=
  match l with
  | [] => Some acc
  | i :: l' => acc' ← f acc i; foldo f acc' l'
  end.

(** A mapped buffer; a read outside it gives [None]. *)
Record frame := mkFrame { byte_at : Z → Z; flen : Z }.
Definition rd (f : frame) (i : Z) : option Z :=
  if (0 <=? i) && (i <? flen f) then Some (u8 (byte_at f i)) else None.

(** ** Measurements on one frame *)

Definition block_row (data : frame) (x0 w y : Z) : double * Z → option (double * Z) :=
  fun acc =>
    foldo (fun '(sum, n) x =>
             p1 ← rd data (y * STRIDE + x + 1);
             p0 ← rd data (y * STRIDE + x);
             let d := p1 - p0 in
             Some ((sum + of_int d * of_int d)%D, n + 1))
          acc (range x0 (x0 + w - 1) 1).
Definition mean (acc : double * Z) : double :=
  let '(sum, n) := acc in if n =? 0 then of_int 0 else (sum / of_int n)%D.
Definition block_fv (data : frame) (x0 y0 w h : Z) : option double :=
  mean <$> foldo (fun acc y => block_row data x0 w y acc) (of_int 0, 0) (range y0 (y0 + h) 4).

Definition cmp_desc (da db : double) : Z :=
  if (da <? db)%D then 1 else if (db <? da)%D then -1 else 0.
(** [qsort]. *)
Fixpoint insert_sorted (cmp : double → double → Z) (x : double) (l : list double) : list double :=
  match l with
  | [] => [x]
  | y :: l' => if cmp x y <=? 0 then x :: l else y :: insert_sorted cmp x l'
  end.
Definition qsort (cmp : double → double → Z) (l : list double) : list double :=
  foldr (insert_sorted cmp) [] l.

Definition grid : list (Z * Z) :=
  gy ← range 0 GH 1; gx ← range 0 GW 1; [(gx, gy)].
Fixpoint block_list (data : frame) (bw bh : Z) (l : list (Z * Z)) : option (list double) :=
  match l with
  | [] => Some []
  | (gx, gy) :: l' =>
      b ← block_fv data (gx * bw) (gy * bh) bw bh;
      bs ← block_list data bw bh l';
      Some (b :: bs)
  end.
Definition blocks (data : frame) : option (list double) :=
  block_list data (Z.quot WIDTH GW) (Z.quot HEIGHT GH) grid.
Definition focus_value (data : frame) : option double :=
  bs ← blocks data;
  Some (foldl dadd (of_int 0) (take GW_TOP (qsort cmp_desc bs)) / of_int (Z.of_nat GW_TOP))%D.

(** The four samples of a group of five bytes, as the code puts them together. *)
Definition unpack (b0 b1 b2 b3 b4 : Z) : list Z :=
  [Z.lor b0 (Z.shiftl (Z.land b4 0x03) 8);
   Z.lor b1 (Z.shiftl (Z.land b4 0x0c) 6);
   Z.lor b2 (Z.shiftl (Z.land b4 0x30) 4);
   Z.lor b3 (Z.shiftl (Z.land b4 0xc0) 2)].
Definition luma_group (data : frame) (y : Z) (acc : double * Z) (g : Z) : option (double * Z) :=
  let b i := rd data (y * STRIDE + g * 5 + i) in
  b0 ← b 0; b4 ← b 4; b1 ← b 1; b2 ← b 2; b3 ← b 3;
  Some (foldl (fun s v => s + of_int v)%D acc.1 (unpack b0 b1 b2 b3 b4), acc.2 + 4).
Definition mean_luma (data : frame) : option double :=
  mean <$> foldo (fun acc y => foldo (luma_group data y) acc (range 0 (Z.quot VALID 5) 1))
                 (of_int 0, 0) (range 0 HEIGHT 24).

(** ** The camera *)

(** [struct camera] without its file descriptors and buffers, which belong to
    the kernel. *)
Record camera := mkCam { exposure : Z; gain : Z }.
#[export] Instance eta_camera : Eta camera := fun r => mkCam (exposure r) (gain r).

Inductive device := Video | LensDev | SensorDev.
Inductive control := V4L2_CID_FOCUS_ABSOLUTE | V4L2_CID_EXPOSURE | V4L2_CID_ANALOGUE_GAIN.
Inductive request :=
  | S_CTRL (id : control) (value : Z)
  | S_FMT (width height : Z)
  | REQBUFS (count : Z)
  | QUERYBUF (index : Z)
  | QBUF (index : Z)
  | DQBUF
  | STREAMON
  | STREAMOFF.
Inductive af_event :=
  | AfOpen (d : device) (ret : Z)
  | AfIoctl (d : device) (r : request) (ret : Z)
  | AfMmap (index : Z)
  | AfMunmap (index : Z)
  | AfClose.

(** The kernel.  [ioctl] gives the result and whether it failed with [EINTR];
    after a [DQBUF], [dq_index] is the buffer's index and [payload] its bytes. *)
Class AfEnv (W : Type) := {
  open_dev : device → W → Z * W;
  ioctl : device → request → W → (Z * bool) * W;
  mmap : Z → W → bool * W;
  dq_index : W → Z;
  payload : W → Z → frame;
}.

Record sample := mkSample { pos : Z; fv : double }.

Section camera.
(** [signals]: how often in a row a signal can interrupt a system call. *)
Context {W : Type} `{!AfEnv W} (signals : nat).
Abbreviation M := (M (machine camera W af_event)).

Fixpoint xioctl_loop (fuel : nat) (d : device) (req : request) : M Z :=
  '(r, eintr) ← ask (ioctl d req);
  emit (AfIoctl d req r);;
  if (r =? -1) && (eintr : bool) then
    match fuel with O => nofuel | S fuel' => xioctl_loop fuel' d req end
  else mret r.
Definition xioctl (d : device) (req : request) : M Z := xioctl_loop signals d req.
Definition ctrl_set (d : device) (id : control) (value : Z) : M Z := xioctl d (S_CTRL id value).

(** [if (xioctl(...) < 0) return -1;] *)
Definition or_fail (m : M Z) (k : M Z) : M Z := r ← m; if r <? 0 then mret (-1) else k.

Definition start_buffer (i : Z) (k : M Z) : M Z :=
  or_fail (xioctl Video (QUERYBUF i)) (
  ok ← ask (mmap i);
  if negb (ok : bool) then mret (-1)
  else emit (AfMmap i);; or_fail (xioctl Video (QBUF i)) k).
Definition camera_start : M Z :=
  r ← ask (open_dev Video);
  emit (AfOpen Video r);;
  if r <? 0 then mret (-1)
  else
    or_fail (xioctl Video (S_FMT WIDTH HEIGHT)) (
    or_fail (xioctl Video (REQBUFS NUM_BUFS)) (
    foldr start_buffer (or_fail (xioctl Video STREAMON) (mret 0)) (range 0 NUM_BUFS 1))).

Definition camera_stop : M unit :=
  xioctl Video STREAMOFF;;
  foldr (fun i k => emit (AfMunmap i);; k) (emit AfClose) (range 0 NUM_BUFS 1).

(** The result and what [fn] wrote to [*out]. *)
Definition camera_frame (fn : option (frame → option double)) : M (Z * double) :=
  r ← xioctl Video DQBUF;
  if r <? 0 then mret (-1, S754_nan)
  else
    i ← gets (fun m => dq_index (wld m));
    out ← match fn with
          | None => mret S754_nan
          | Some fn =>
              if negb ((0 <=? i) && (i <? NUM_BUFS)) then fault
              else
                data ← gets (fun m => payload (wld m) i);
                match fn data with Some v => mret v | None => fault end
          end;
    r ← xioctl Video (QBUF i);
    mret (if r <? 0 then -1 else 0, out).

Fixpoint discard (n : nat) : M Z :=
  match n with
  | O => mret 0
  | S n' => '(r, _) ← camera_frame None; if r <? 0 then mret (-1) else discard n'
  end.
Fixpoint accumulate (fn : frame → option double) (n : nat) (acc : double) : M double :=
  match n with
  | O => mret (acc / of_int (Z.of_nat MEASURE_FRAMES))%D
  | S n' =>
      '(r, v) ← camera_frame (Some fn);
      if r <? 0 then mret (of_int (-1)) else accumulate fn n' (acc + v)%D
  end.
Definition measure (fn : frame → option double) : M double :=
  r ← discard SETTLE_FRAMES;
  if r <? 0 then mret (of_int (-1)) else accumulate fn MEASURE_FRAMES (of_int 0).

(** ** Exposure *)

(** Signed arithmetic whose overflow is undefined. *)
Definition int32 {A} (z : Z) (k : Z → M A) : M A :=
  if (- 2147483648 <=? z) && (z <? 2147483648) then k z else fault.

(** One change of exposure or gain; [None]: the range is used up. *)
Definition expose (too_dark : bool) (c : camera) : M (option camera) :=
  if too_dark then
    if exposure c <? 3260 then
      int32 (exposure c + Z.quot (exposure c) 4) (fun e =>
      int32 (e + 16) (fun next =>
      mret (Some (c <| exposure := if next >? 3260 then 3260 else next |>))))
    else if gain c <? 240 then
      int32 (gain c + 24) (fun next => mret (Some (c <| gain := if next >? 240 then 240 else next |>)))
    else mret None
  else
    if exposure c >? 4 then
      int32 (exposure c - Z.quot (exposure c) 4) (fun next =>
      mret (Some (c <| exposure := if next <? 4 then 4 else next |>)))
    else if gain c >? 0 then
      int32 (gain c - 24) (fun next => mret (Some (c <| gain := if next <? 0 then 0 else next |>)))
    else mret None.

Fixpoint auto_exposure_loop (n : nat) : M Z :=
  match n with
  | O => mret 0
  | S n' =>
      mean ← measure mean_luma;
      if (mean <? of_int 0)%D then mret (-1)
      else if (of_int 300 <=? mean)%D && (mean <=? of_int 700)%D then mret 0
      else
        c ← get_drv;
        next ← expose (mean <? of_int 300)%D c;
        match next with
        | None => mret 0
        | Some c' =>
            mod_drv (fun _ => c');;
            ctrl_set SensorDev V4L2_CID_EXPOSURE (exposure c');;
            ctrl_set SensorDev V4L2_CID_ANALOGUE_GAIN (gain c');;
            auto_exposure_loop n'
        end
  end.
Definition auto_exposure : M Z := auto_exposure_loop 10.

(** ** Focus *)

Definition set_focus (pos : Z) : M Z :=
  let pos := if pos <? FOCUS_MIN then FOCUS_MIN else pos in
  let pos := if pos >? FOCUS_MAX then FOCUS_MAX else pos in
  ctrl_set LensDev V4L2_CID_FOCUS_ABSOLUTE pos.
Definition probe (pos : Z) : M sample :=
  r ← set_focus pos;
  if r <? 0 then mret (mkSample pos (of_int (-1)))
  else v ← measure focus_value; mret (mkSample pos v).

Definition better (s best : sample) : sample := if (fv best <? fv s)%D then s else best.

Fixpoint coarse_sweep (l : list Z) (best : sample) (worst : double) : M (sample * double) :=
  match l with
  | [] => mret (best, worst)
  | p :: l' =>
      s ← probe p;
      coarse_sweep l' (better s best) (if (fv s <? worst)%D then fv s else worst)
  end.

(** The [for] loop of the fine pass, [best] being the winner so far. *)
Fixpoint bracket (l : list Z) (best local : sample) : M sample :=
  match l with
  | [] => mret local
  | p :: l' =>
      if (p <? FOCUS_MIN) || (p >? FOCUS_MAX) || (p =? pos best) then bracket l' best local
      else s ← probe p; bracket l' best (better s local)
  end.
Fixpoint refine (fuel : nat) (step : Z) (best : sample) : M sample :=
  if step <? 4 then mret best
  else
    match fuel with
    | O => nofuel
    | S fuel' =>
        local ← bracket (range (pos best - step) (pos best + step + 1) (Z.quot step 2)) best best;
        if (fv best <? fv local)%D then refine fuel' step local
        else refine fuel' (Z.quot step 2) best
    end.
(** Every round raises the winner, which has 1024 positions, or halves the
    step, which is 128. *)
Definition REFINE_FUEL : nat := 1031.

Definition search : M Z :=
  '(best, worst) ← coarse_sweep (range FOCUS_MIN (FOCUS_MAX + 1) 128)
                     (mkSample (-1) (of_int (-1))) (of_int (10 ^ 30));
  if (fv best / worst <? of_int 105 / of_int 100)%D then
    set_focus (pos best);;
    mret 0
  else
    best ← refine REFINE_FUEL 128 best;
    set_focus (pos best);;
    mret 0.

Record options := mkOptions { only_pos : Z; opt_gain : Z; opt_exposure : Z }.

(** After the options: 0 is [EXIT_SUCCESS], 1 [EXIT_FAILURE]. *)
Definition run (o : options) : M Z :=
  mod_drv (fun _ => mkCam (opt_exposure o) (opt_gain o));;
  l ← ask (open_dev LensDev);
  emit (AfOpen LensDev l);;
  if l <? 0 then mret 1
  else
    s ← ask (open_dev SensorDev);
    emit (AfOpen SensorDev s);;
    if s <? 0 then mret 1
    else if 0 <=? only_pos o then
      r ← set_focus (only_pos o);
      mret (if r <? 0 then 1 else 0)
    else
      ctrl_set SensorDev V4L2_CID_EXPOSURE (opt_exposure o);;
      ctrl_set SensorDev V4L2_CID_ANALOGUE_GAIN (opt_gain o);;
      r ← camera_start;
      if r <? 0 then mret 1
      else
        r ← auto_exposure;
        ret ← (if r <? 0 then mret 1 else search);
        camera_stop;;
        mret ret.
End camera.

(** ** The command line *)

Section options.
(** The C library's [atoi]. *)
Context (atoi : string → Z).

Fixpoint parse_args (args : list string) (o : options) : option options :=
  match args with
  | [] => Some o
  | opt :: v :: args' =>
      if bool_decide (opt = "-p"%string) then
        parse_args args' (mkOptions (atoi v) (opt_gain o) (opt_exposure o))
      else if bool_decide (opt = "-g"%string) then
        parse_args args' (mkOptions (only_pos o) (atoi v) (opt_exposure o))
      else if bool_decide (opt = "-e"%string) then
        parse_args args' (mkOptions (only_pos o) (opt_gain o) (atoi v))
      else None
  | [_] => None
  end.
Definition main {W : Type} `{!AfEnv W} (signals : nat) (args : list string)
    : M (machine camera W af_event) Z :=
  match parse_args args (mkOptions (-1) 64 3260) with
  | None => mret 1
  | Some o => run signals o
  end.
End options.
