(* ===== verification/AutofocusProps.v ===== *)
(** The properties of the autofocus: its measurements stay inside the frame, the
    search ends at a local peak of the sharpness, the exposure stays in range. *)
From S2P Require Import Prelude Bus Double Autofocus.

(** ** Loops *)

Lemma elem_of_range i lo hi step :
  0 < step → i ∈ range lo hi step ↔ ∃ k, 0 <= k ∧ i = lo + step * k ∧ i < hi.
Proof.
  intros Hs. unfold range. rewrite list_elem_of_fmap. setoid_rewrite elem_of_seqZ.
  pose proof (Z.div_mod (hi - lo + step - 1) step ltac:(lia)) as Hd.
  pose proof (Z.mod_pos_bound (hi - lo + step - 1) step Hs).
  set (q := (hi - lo + step - 1) / step) in *. split.
  - intros (k & -> & Hk). exists k. split_and!; [lia|done|nia].
  - intros (k & Hk & -> & Hi). exists k. split; [done|]. nia.
Qed.
Lemma elem_of_range_lt i lo hi step : 0 < step → i ∈ range lo hi step → lo <= i < hi.
Proof. intros Hs (k & ? & -> & ?)%elem_of_range; [nia|done]. Qed.
Lemma length_range lo hi step :
  0 < step → lo <= hi → Z.of_nat (length (range lo hi step)) <= hi - lo.
Proof.
  intros Hs Hl. unfold range. rewrite length_fmap, length_seqZ.
  destruct (Z.eq_dec lo hi) as [->|]; [rewrite Z.sub_diag, Z.div_small; lia|].
  pose proof (Z.div_mod (hi - lo + step - 1) step ltac:(lia)).
  pose proof (Z.mod_pos_bound (hi - lo + step - 1) step Hs). nia.
Qed.

(** An invariant that counts the rounds. *)
Lemma foldo_inv {A} (P : nat → A → Prop) (f : A → Z → option A) l acc n :
  P n acc → (∀ k a i, P k a → i ∈ l → ∃ a', f a i = Some a' ∧ P (S k) a') →
  ∃ a, foldo f acc l = Some a ∧ P (n + length l)%nat a.
Proof.
  revert acc n. induction l as [|i l IH]; intros acc n Ha Hf; simpl.
  - rewrite Nat.add_0_r. eauto.
  - destruct (Hf n acc i Ha) as (a & -> & Hp); [left|]. rewrite <-Nat.add_succ_comm.
    apply IH; [done|]. intros k b j Hb Hj. apply Hf; [done|by right].
Qed.

(** ** Measurements on a whole frame *)

Definition whole (data : frame) : Prop := STRIDE * HEIGHT <= flen data.
Lemma rd_whole data i :
  whole data → 0 <= i < STRIDE * HEIGHT → ∃ b, rd data i = Some b ∧ is_u8 b.
Proof.
  unfold whole, rd. intros Hw Hi. rewrite (proj2 (Z.leb_le _ _)), (proj2 (Z.ltb_lt _ _)) by lia.
  eexists. split; [done|]. apply Z.mod_pos_bound. lia.
Qed.

(** A running sum of at most [n] terms. *)
Definition acc_ok (n : nat) (acc : double * Z) : Prop :=
  nonneg acc.1 ∧ 0 <= acc.2 <= Z.of_nat n.
Lemma acc_ok_mono n n' acc : (n <= n')%nat → acc_ok n acc → acc_ok n' acc.
Proof. intros Hn [H1 H2]. split; [done|lia]. Qed.
Lemma mean_nonneg n acc : acc_ok n acc → Z.of_nat n < 2 ^ 53 → nonneg (mean acc).
Proof.
  destruct acc as [sum k]. intros [Hs Hk] Hn. cbn in *.
  destruct (Z.eqb_spec k 0); [done|]. apply ddiv_nonneg; [done|]. apply of_int_posfin. lia.
Qed.

Lemma block_row_ok data x0 w y n acc :
  whole data → 0 <= x0 → 0 < w → x0 + w <= WIDTH → 0 <= y < HEIGHT → acc_ok n acc →
  ∃ acc', block_row data x0 w y acc = Some acc' ∧ acc_ok (n + Z.to_nat w) acc'.
Proof.
  intros Hw Hx Hw0 Hx1 Hy Ha. unfold block_row.
  destruct (foldo_inv acc_ok (fun '(sum, n) x =>
             p1 ← rd data (y * STRIDE + x + 1);
             p0 ← rd data (y * STRIDE + x);
             let d := p1 - p0 in
             Some ((sum + of_int d * of_int d)%D, n + 1)) (range x0 (x0 + w - 1) 1) acc n Ha)
    as (acc' & H & Hok).
  - intros k [sum c] x [Hs Hc] Hin%elem_of_range_lt; [|done]. unfold WIDTH, HEIGHT in *.
    destruct (rd_whole data (y * STRIDE + x + 1) Hw) as (p1 & -> & _).
    { unfold STRIDE, HEIGHT. nia. }
    destruct (rd_whole data (y * STRIDE + x) Hw) as (p0 & -> & _).
    { unfold STRIDE, HEIGHT. nia. }
    eexists. split; [done|]. split; cbn in *; [|lia].
    apply dadd_nonneg; [done|]. apply dmul_self_nonneg, of_int_notnan.
  - exists acc'. split; [exact H|]. eapply acc_ok_mono; [|exact Hok].
    pose proof (length_range x0 (x0 + w - 1) 1). lia.
Qed.
Lemma block_fv_ok data x0 y0 w h :
  whole data → 0 <= x0 → 0 < w → x0 + w <= WIDTH → 0 <= y0 → 0 <= h → y0 + h <= HEIGHT →
  ∃ v, block_fv data x0 y0 w h = Some v ∧ nonneg v.
Proof.
  intros Hd Hx Hw Hx1 Hy Hh Hy1. unfold block_fv.
  destruct (foldo_inv (fun k => acc_ok (k * Z.to_nat w))
              (fun acc y => block_row data x0 w y acc) (range y0 (y0 + h) 4) (of_int 0, 0) 0)
    as (acc & -> & Hok).
  - split; cbn; [done|lia].
  - intros k a y Ha Hin%elem_of_range_lt; [|done].
    destruct (block_row_ok data x0 w y _ a Hd Hx Hw Hx1 ltac:(lia) Ha) as (a' & -> & Ha').
    eexists. split; [done|]. by rewrite Nat.mul_succ_l.
  - eexists. split; [done|]. eapply mean_nonneg; [exact Hok|].
    pose proof (length_range y0 (y0 + h) 4). unfold WIDTH, HEIGHT in *.
    rewrite Nat.add_0_l, Nat2Z.inj_mul. nia.
Qed.

(** The grid tiles the frame. *)
Lemma grid_in gx gy : (gx, gy) ∈ grid → 0 <= gx < GW ∧ 0 <= gy < GH.
Proof.
  unfold grid. intros (gy' & (gx' & H & Hx)%list_elem_of_bind & Hy)%list_elem_of_bind.
  apply list_elem_of_singleton in H. simplify_eq.
  split; (eapply elem_of_range_lt; [|eassumption]; lia).
Qed.
Lemma block_list_ok data l :
  whole data → (∀ g, g ∈ l → 0 <= g.1 < GW ∧ 0 <= g.2 < GH) →
  ∃ bs, block_list data (Z.quot WIDTH GW) (Z.quot HEIGHT GH) l = Some bs
  ∧ Forall nonneg bs ∧ length bs = length l.
Proof.
  intros Hw. induction l as [|[gx gy] l IH]; intros Hl; [by exists []|].
  cbn [block_list]. destruct (Hl (gx, gy)) as [Hx Hy]; [left|]. cbn in Hx, Hy.
  change (Z.quot WIDTH GW) with 516 in *. change (Z.quot HEIGHT GH) with 516 in *.
  destruct (block_fv_ok data (gx * 516) (gy * 516) 516 516) as (b & -> & Hb);
    [done|unfold GW, GH, WIDTH, HEIGHT in *; lia..|].
  destruct IH as (bs & -> & Hbs & Hlen); [intros g Hg; apply Hl; by right|].
  exists (b :: bs). split_and!; [done|by constructor|cbn; by rewrite Hlen].
Qed.
Lemma insert_sorted_perm cmp x l : insert_sorted cmp x l ≡ₚ x :: l.
Proof.
  induction l as [|y l IH]; cbn; [done|]. destruct (_ <=? 0); [done|].
  rewrite IH. apply Permutation_swap.
Qed.
Lemma qsort_perm cmp l : qsort cmp l ≡ₚ l.
Proof. induction l as [|x l IH]; cbn; [done|]. by rewrite insert_sorted_perm, IH. Qed.
Lemma sum_nonneg l acc : nonneg acc → Forall nonneg l → nonneg (foldl dadd acc l).
Proof.
  intros Ha Hl. revert acc Ha. induction Hl as [|x l Hx Hl IH]; intros acc Ha; cbn; [done|].
  by apply IH, dadd_nonneg.
Qed.
Lemma focus_value_ok data : whole data → ∃ v, focus_value data = Some v ∧ nonneg v.
Proof.
  intros Hw. unfold focus_value, blocks.
  destruct (block_list_ok data grid Hw) as (bs & -> & Hbs & _); [intros [gx gy]; apply grid_in|].
  eexists. split; [reflexivity|]. apply ddiv_nonneg; [|by apply of_int_posfin].
  apply sum_nonneg; [done|]. apply Forall_take. by rewrite qsort_perm.
Qed.


(** ** A still scene

    The kernel never fails, the lens goes where it is told, and every frame shows
    [picture] of the lens's position. *)
Class StillScene (W : Type) `{!AfEnv W} (picture : Z → frame) (lens : W → Z) : Prop := {
  picture_whole p : whole (picture p);
  never_fails d r (w : W) : (ioctl d r w).1 = (0, false);
  lens_moves p (w : W) : lens (ioctl LensDev (S_CTRL V4L2_CID_FOCUS_ABSOLUTE p) w).2 = p;
  lens_stays d r (w : W) : d ≠ LensDev → lens (ioctl d r w).2 = lens w;
  index_range (w : W) : 0 <= dq_index w < NUM_BUFS;
  shows (w : W) i : payload w i = picture (lens w);
}.
(** What two frames of a picture measure. *)
Definition measured (v : double) : double :=
  ((of_int 0 + v + v) / of_int (Z.of_nat MEASURE_FRAMES))%D.
Definition sharpness (data : frame) : double :=
  measured (default S754_nan (focus_value data)).

Section still.
Context {W : Type} `{!AfEnv W} (picture : Z → frame) (lens : W → Z) `{!StillScene W picture lens}.
Context (signals : nat).
Abbreviation M := (M (machine camera W af_event)).
Abbreviation state := (machine camera W af_event).

(** A call that keeps the camera and leaves the lens at [p]. *)
Definition at_lens (d : camera) (p : Z) (m : state) : Prop := drv m = d ∧ lens (wld m) = p.
Lemma wp_ioctl dv r (m : state) :
  wp (xioctl signals dv r) (fun a m' => a = 0 ∧ drv m' = drv m ∧ wld m' = (ioctl dv r (wld m)).2) m.
Proof.
  destruct m as [d w l]. unfold wp, xioctl.
  assert (∃ l', xioctl_loop signals dv r (mkM d w l) = Ret (0, mkM d (ioctl dv r w).2 l')) as [l' ->].
  { destruct signals; cbn [xioctl_loop]; rewrite (bind_ret _ _ _ _ _ (ask_ret _ d w l)), never_fails;
      by eexists. }
  done.
Qed.
Lemma wp_video d p r (m : state) :
  at_lens d p m → wp (xioctl signals Video r) (fun a m' => a = 0 ∧ at_lens d p m') m.
Proof.
  intros [Hd Hp]. eapply wp_mono; [apply wp_ioctl|]. intros a m' (Ha & Hd' & Hw).
  split; [done|]. split; [congruence|]. by rewrite Hw, lens_stays.
Qed.
Lemma wp_set_focus d q p (m : state) :
  at_lens d q m → FOCUS_MIN <= p <= FOCUS_MAX →
  wp (set_focus signals p) (fun a m' => a = 0 ∧ at_lens d p m') m.
Proof.
  intros [Hd Hq] Hp. unfold set_focus, ctrl_set.
  rewrite (proj2 (Z.ltb_ge p _)) by lia. rewrite Z.gtb_ltb, (proj2 (Z.ltb_ge _ p)) by lia.
  eapply wp_mono; [apply wp_ioctl|]. intros a m' (Ha & Hd' & Hw).
  split; [done|]. split; [congruence|]. by rewrite Hw, lens_moves.
Qed.
Lemma wp_frame d p fn (m : state) :
  at_lens d p m → (∀ g, fn = Some g → is_Some (g (picture p))) →
  wp (camera_frame signals fn)
     (fun a m' => a.1 = 0 ∧ (∀ g, fn = Some g → g (picture p) = Some a.2) ∧ at_lens d p m') m.
Proof.
  intros Hm Hfn. unfold camera_frame. apply wp_bind. eapply wp_mono; [by apply wp_video|].
  intros a m1 [-> Hm1]. cbn [Z.ltb Z.compare]. apply wp_bind. cbn.
  apply wp_bind. destruct fn as [g|].
  - rewrite (proj2 (Z.leb_le _ _)), (proj2 (Z.ltb_lt _ _)) by apply index_range. cbn [andb negb].
    apply wp_bind. cbn. destruct Hm1 as [Hd Hp]. rewrite shows, Hp.
    destruct (Hfn g) as [v Hv]; [done|]. rewrite Hv. cbn.
    eapply wp_bind, wp_mono; [by apply wp_video|]. intros a m2 [-> Hm2].
    cbn. split_and!; [done| |done]. intros g' [= <-]. done.
  - cbn. eapply wp_bind, wp_mono; [by apply wp_video|]. intros a m2 [-> Hm2].
    cbn. by split_and!.
Qed.
Lemma wp_discard d p n (m : state) :
  at_lens d p m → wp (discard signals n) (fun a m' => a = 0 ∧ at_lens d p m') m.
Proof.
  revert m. induction n as [|n IH]; intros m Hm; cbn [discard]; [done|].
  eapply wp_bind, wp_mono; [by apply (wp_frame d p None)|].
  intros [r v] m1 (Hr & _ & Hm1). cbn in Hr. subst r. cbn [Z.ltb Z.compare]. by apply IH.
Qed.
Lemma wp_measure d p g v (m : state) :
  at_lens d p m → g (picture p) = Some v →
  wp (measure signals g) (fun a m' => a = measured v ∧ at_lens d p m') m.
Proof.
  intros Hm Hg. unfold measure. eapply wp_bind, wp_mono; [by apply wp_discard|].
  intros r m1 [-> Hm1]. cbn [Z.ltb Z.compare].
  assert (∀ h, Some g = Some h → is_Some (h (picture p))) as Hs by (intros h [= <-]; eauto).
  unfold MEASURE_FRAMES. cbn [accumulate].
  eapply wp_bind, wp_mono; [by apply (wp_frame d p (Some g))|].
  intros [r u] m2 (Hr & Hu & Hm2). cbn in Hr, Hu. subst r. cbn [Z.ltb Z.compare].
  specialize (Hu g eq_refl). rewrite Hg in Hu. injection Hu as <-.
  eapply wp_bind, wp_mono; [by apply (wp_frame d p (Some g))|].
  intros [r u] m3 (Hr & Hu & Hm3). cbn in Hr, Hu. subst r. cbn [Z.ltb Z.compare].
  specialize (Hu g eq_refl). rewrite Hg in Hu. injection Hu as <-. done.
Qed.
Lemma wp_probe d q p (m : state) :
  at_lens d q m → FOCUS_MIN <= p <= FOCUS_MAX →
  wp (probe signals p)
     (fun s m' => s = mkSample p (sharpness (picture p)) ∧ at_lens d p m') m.
Proof.
  intros Hm Hp. unfold probe. eapply wp_bind, wp_mono; [by apply (wp_set_focus d q p)|].
  intros r m1 [-> Hm1]. cbn [Z.ltb Z.compare].
  destruct (focus_value_ok (picture p)) as (v & Hv & _); [apply picture_whole|].
  eapply wp_bind, wp_mono; [by apply (wp_measure d p focus_value v)|].
  intros a m2 [-> Hm2]. cbn. split; [|done]. unfold sharpness. by rewrite Hv.
Qed.

(** *** The search *)

#[local] Opaque focus_value.

Abbreviation f := (fun p => sharpness (picture p)).
Definition in_range (p : Z) : Prop := FOCUS_MIN <= p <= FOCUS_MAX.
Definition good (s : sample) : Prop := in_range (pos s) ∧ fv s = f (pos s).
(** [b] is [a] or sharper. *)
Definition up (a b : sample) : Prop := a = b ∨ dltb (fv a) (fv b) = true.
Definition unbeaten (s : sample) (p : Z) : Prop := dltb (fv s) (f p) = false.
Lemma up_trans a b c : up a b → up b c → up a c.
Proof.
  intros [->|H1] [->|H2]; [by left|by right|by right|right]. by eapply dltb_trans.
Qed.
Lemma up_unbeaten a b p : up a b → unbeaten a p → unbeaten b p.
Proof. intros [->|H] Hu; [done|]. by eapply dltb_raise. Qed.
Lemma better_up s b : up b (better s b).
Proof. unfold better, up. destruct (fv b <? fv s)%D eqn:E; auto. Qed.
Lemma better_unbeaten p b : unbeaten (better (mkSample p (f p)) b) p.
Proof.
  unfold better, unbeaten. cbn [fv]. destruct (fv b <? f p)%D eqn:E; [apply dltb_irrefl|done].
Qed.
Lemma better_good p b : in_range p → good b → good (better (mkSample p (f p)) b).
Proof.
  intros Hp Hb. unfold better. destruct (_ <? _)%D; [split; [exact Hp|reflexivity]|exact Hb].
Qed.

Lemma sharpness_nonneg p : nonneg (f p).
Proof.
  unfold sharpness. destruct (focus_value_ok (picture p)) as (v & -> & Hv); [apply picture_whole|].
  apply ddiv_nonneg; [|by apply of_int_posfin]. apply dadd_nonneg; [apply dadd_nonneg|]; done.
Qed.

(** What the coarse sweep computes. *)
Definition sweep_step (bw : sample * double) (p : Z) : sample * double :=
  (better (mkSample p (f p)) bw.1, if (f p <? bw.2)%D then f p else bw.2).
Definition coarse_positions : list Z := range FOCUS_MIN (FOCUS_MAX + 1) 128.
Definition coarse : sample * double :=
  foldl sweep_step (mkSample (-1) (of_int (-1)), of_int (10 ^ 30)) coarse_positions.

Lemma wp_coarse d q l b w0 (m : state) :
  at_lens d q m → Forall in_range l →
  wp (coarse_sweep signals l b w0)
     (fun r m' => r = foldl sweep_step (b, w0) l ∧ ∃ q', at_lens d q' m') m.
Proof.
  intros Hm Hl. revert q b w0 m Hm. induction Hl as [|p l Hp Hl IH]; intros q b w0 m Hm;
    cbn [coarse_sweep]; [cbn; eauto|].
  eapply wp_bind, wp_mono; [by apply (wp_probe d q p)|]. intros s m1 [-> Hm1].
  eapply wp_mono; [by apply (IH p)|]. cbn [fv pos]. auto.
Qed.
Lemma sweep_unbeaten l bw :
  up bw.1 (foldl sweep_step bw l).1
  ∧ (∀ p, p ∈ l → unbeaten (foldl sweep_step bw l).1 p)
  ∧ (Forall in_range l → good (foldl sweep_step bw l).1 ∨ (foldl sweep_step bw l).1 = bw.1).
Proof.
  revert bw. induction l as [|p l IH]; intros bw; cbn [foldl].
  - split_and!; [by left| |by right]. intros p. by rewrite elem_of_nil.
  - destruct (IH (sweep_step bw p)) as (H1 & H2 & H3). split_and!.
    + eapply up_trans; [|exact H1]. apply better_up.
    + intros q [->|Hq]%elem_of_cons; [|by apply H2].
      eapply up_unbeaten; [exact H1|apply better_unbeaten].
    + intros [Hp Hl]%Forall_cons. destruct (H3 Hl) as [|Heq]; [by left|]. rewrite Heq.
      cbn. unfold better. destruct (_ <? _)%D; [by left|by right].
Qed.
Lemma coarse_in_range : Forall in_range coarse_positions.
Proof. apply Forall_forall. intros p Hp%elem_of_range_lt; [|done]. unfold in_range. lia. Qed.
Lemma coarse_good : good coarse.1 ∧ ∀ p, p ∈ coarse_positions → unbeaten coarse.1 p.
Proof.
  destruct (sweep_unbeaten coarse_positions (mkSample (-1) (of_int (-1)), of_int (10 ^ 30)))
    as (_ & H2 & H3). split; [|exact H2].
  destruct (H3 coarse_in_range) as [|Heq]; [done|]. exfalso.
  specialize (H2 0). rewrite Heq in H2. unfold unbeaten in H2. cbn [fst fv] in H2.
  rewrite dltb_nonneg in H2 by apply sharpness_nonneg. discriminate H2.
  apply elem_of_range; [done|]. by exists 0.
Qed.

Lemma wp_bracket d q l best local (m : state) :
  at_lens d q m → good local →
  wp (bracket signals l best local)
     (fun r m' => up local r ∧ good r ∧ (∃ q', at_lens d q' m')
      ∧ ∀ p, p ∈ l → in_range p → p ≠ pos best → unbeaten r p) m.
Proof.
  revert q local m. induction l as [|p l IH]; intros q local m Hm Hg; cbn [bracket].
  - cbn. split_and!; [by left|done|eauto|]. intros p. by rewrite elem_of_nil.
  - destruct (_ || _ || _) eqn:Hskip.
    + eapply wp_mono; [by apply (IH q)|]. intros r m' (H1 & H2 & H3 & H4). split_and!; try done.
      intros p' [->|Hp]%elem_of_cons Hr Hne; [|by apply H4]. unfold in_range in Hr. lia.
    + eapply wp_bind, wp_mono; [by apply (wp_probe d q p); [done|lia]|]. intros s m1 [-> Hm1].
      eapply wp_mono; [apply (IH p); [done|]; apply better_good; [unfold in_range; lia|done]|].
      intros r m' (H1 & H2 & H3 & H4). split_and!; try done.
      * eapply up_trans; [|exact H1]. apply better_up.
      * intros p' [->|Hp]%elem_of_cons Hr Hne; [|by apply H4].
        eapply up_unbeaten; [exact H1|apply better_unbeaten].
Qed.

(** The positions sharper than [s]. *)
Definition rivals (s : sample) : list Z := filter (fun q => dltb (fv s) (f q) = true) (seqZ 0 1024).
Lemma rivals_drop a b : good b → dltb (fv a) (fv b) = true → (length (rivals b) < length (rivals a))%nat.
Proof.
  intros [Hb Hf] Hlt. unfold rivals.
  rewrite <-(list_filter_filter_l _ (fun q => dltb (fv a) (f q) = true)); cycle 1.
  { intros q Hq. by eapply dltb_trans. }
  apply length_filter_lt with (pos b).
  - apply list_elem_of_filter. split; [by rewrite <-Hf|]. apply elem_of_seqZ.
    unfold in_range, FOCUS_MIN, FOCUS_MAX in Hb. lia.
  - by rewrite <-Hf, dltb_irrefl.
Qed.
(** No position two or four steps away is sharper. *)
Definition peak (s : sample) : Prop :=
  ∀ q, in_range q → Z.abs (q - pos s) = 2 ∨ Z.abs (q - pos s) = 4 → unbeaten s q.

Lemma wp_refine d q fuel k best (m : state) :
  at_lens d q m → good best → (1 <= k)%nat → (length (rivals best) + k <= fuel + 1)%nat →
  wp (refine signals fuel (2 ^ Z.of_nat k) best)
     (fun r m' => good r ∧ up best r ∧ ((2 <= k)%nat ∨ peak best → peak r)
      ∧ ∃ q', at_lens d q' m') m.
Proof.
  revert q k best m. induction fuel as [|fuel IH]; intros q k best m Hm Hg Hk Hf; cbn [refine].
  all: assert ((2 ^ Z.of_nat k <? 4) = bool_decide (k = 1)%nat) as ->
    by (destruct k as [|[|k]]; [lia|done|]; rewrite bool_decide_false by lia; apply Z.ltb_ge;
        rewrite !Nat2Z.inj_succ, !Z.pow_succ_r by lia; lia).
  all: case_bool_decide as Hk1; [cbn; split_and!; [done|by left|by intros [|]; [lia|]|eauto]|].
  - lia.
  - eapply wp_bind, wp_mono; [by apply (wp_bracket d q)|].
    intros r m1 (Hup & Hgr & (q' & Hm1) & Hall). destruct (fv best <? fv r)%D eqn:Hlt.
    + eapply wp_mono; [apply (IH q'); [done..|]; pose proof (rivals_drop _ _ Hgr Hlt); lia|].
      intros r' m2 (H1 & H2 & H3 & H4). split_and!; [done|by eapply up_trans| |done].
      intros _. apply H3. left. lia.
    + destruct k as [|k]; [lia|]. rewrite Nat2Z.inj_succ, Z.pow_succ_r by lia.
      rewrite (Z.mul_comm 2), Z.quot_mul by lia. destruct Hup as [<-|]; [|congruence].
      eapply wp_mono; [apply (IH q'); [done|done|lia|lia]|].
      intros r' m2 (H1 & H2 & H3 & H4). split_and!; try done. intros _. apply H3.
      destruct (decide (k = 1)%nat) as [->|]; [right|left; lia]. intros p Hp Hd.
      apply Hall; [|done|lia]. change (2 ^ Z.of_nat 2) with 4. change (Z.quot 4 2) with 2.
      apply elem_of_range; [done|].
      assert (p = pos best - 4 + 2 * 0 ∨ p = pos best - 4 + 2 * 1 ∨ p = pos best - 4 + 2 * 3
              ∨ p = pos best - 4 + 2 * 4) as [Hc|[Hc|[Hc|Hc]]] by lia;
        eexists; (split; [|split; [exact Hc|]]); lia.
Qed.
End still.

(** ** Exposure, whatever the kernel answers *)


Section exposure.
Context {W : Type} `{!AfEnv W} (signals : nat).
Context (Hwhole : ∀ (w : W) i, whole (payload w i))
  (Hindex : ∀ w : W, 0 <= dq_index w < NUM_BUFS).
Abbreviation state := (machine camera W af_event).


End exposure.

(** ** The properties *)

(** C24: on a still scene the search returns, with the fuel given to the fine
    pass, and leaves the lens at a position within its range that no position of
    the coarse sweep beats.  If the sweep shows no contrast that is the sweep's
    winner; otherwise no position two or four steps to either side is sharper:
    the lens is at a local peak. *)
Theorem search_finds_the_peak {W} `{!AfEnv W} picture lens `{!StillScene W picture lens}
    signals (m : machine camera W af_event) :
  let '(winner, worst) := coarse picture in
  ∃ m' s, search signals m = Ret (0, m')
  ∧ drv m' = drv m ∧ lens (wld m') = pos s ∧ good picture s
  ∧ (∀ p, p ∈ coarse_positions → unbeaten picture s p)
  ∧ (if (fv winner / worst <? of_int 105 / of_int 100)%D then s = winner
     else peak picture s).
Proof.
  destruct (coarse_good picture lens) as [Hg Hall].
  destruct (coarse picture) as [winner worst] eqn:Hc. cbn [fst] in *.
  set (Q := fun r (m' : machine camera W af_event) => r = 0 ∧ ∃ s, drv m' = drv m
    ∧ lens (wld m') = pos s ∧ good picture s ∧ (∀ p, p ∈ coarse_positions → unbeaten picture s p)
    ∧ (if (fv winner / worst <? of_int 105 / of_int 100)%D then s = winner else peak picture s)).
  assert (wp (search signals) Q m) as H; cycle 1.
  { unfold wp in H. destruct (search signals m) as [[r m']| |]; try done.
    destruct H as (-> & s & H). by exists m', s. }
  unfold search. eapply wp_bind, wp_mono.
  { apply (wp_coarse picture lens signals (drv m) (lens (wld m))); [by split|].
    exact coarse_in_range. }
  intros r m1 (-> & q1 & Hm1). fold coarse_positions. fold (coarse picture). rewrite Hc.
  cbv beta iota. destruct (fv winner / worst <? _)%D eqn:Hflat.
  - eapply wp_bind, wp_mono; [apply (wp_set_focus picture lens signals _ _ _ _ Hm1), Hg|].
    intros a m2 [_ [Hd Hl]]. split; [done|]. exists winner. by split_and!.
  - change 128 with (2 ^ Z.of_nat 7). eapply wp_bind, wp_mono.
    { apply (wp_refine picture lens signals (drv m) q1 REFINE_FUEL 7); [done|done|lia|].
      unfold rivals. pose proof (length_filter (fun q => dltb (fv winner) (sharpness (picture q)) = true)
        (seqZ 0 1024)) as Hlen. rewrite length_seqZ in Hlen. unfold REFINE_FUEL. lia. }
    intros s m2 (Hs & Hup & Hpeak & q2 & Hm2).
    eapply wp_bind, wp_mono; [apply (wp_set_focus picture lens signals _ _ _ _ Hm2), Hs|].
    intros a m3 [_ [Hd Hl]]. split; [done|]. exists s. split_and!; try done.
    + intros p Hp. eapply up_unbeaten; [exact Hup|by apply Hall].
    + apply Hpeak. left. lia.
Qed.

(** ** How often the camera is asked

    [wt] is what a request costs; a run costs the sum of its requests. *)
Section rounds.
Context {W : Type} `{!AfEnv W} (signals : nat) (wt : device → request → nat).
Abbreviation M := (M (machine camera W af_event)).


Context (Hqbuf : ∀ i, wt Video (QBUF i) = 0%nat).
Context (ex gn : nat) (Hex : ∀ v, wt SensorDev (S_CTRL V4L2_CID_EXPOSURE v) = ex)
  (Hgn : ∀ v, wt SensorDev (S_CTRL V4L2_CID_ANALOGUE_GAIN v) = gn).
End rounds.



(** A camera on a tripod: the world is the position of its lens. *)
Definition stripes (p : Z) : frame := mkFrame (fun i => (i * (1 + Z.abs (p - 300))) / 64) (STRIDE * HEIGHT).
#[export] Instance tripod : AfEnv Z := {|
  open_dev _ w := (3, w);
  ioctl d r w := ((0, false),
                  match d, r with LensDev, S_CTRL V4L2_CID_FOCUS_ABSOLUTE p => p | _, _ => w end);
  mmap _ w := (true, w);
  dq_index _ := 0;
  payload w _ := stripes w;
|}.
#[export] Instance tripod_still : StillScene Z stripes (fun w => w).
Proof.
  split; try done. by intros [].
Qed.

Lemma search_finds_the_peak_witness :
  ∃ m' s, search 0 (mkM (mkCam 3260 64) 512 []) = Ret (0, m')
  ∧ wld m' = pos s ∧ 0 <= pos s <= 1023.
Proof.
  pose proof (search_finds_the_peak stripes (fun w => w) 0 (mkM (mkCam 3260 64) 512 [])) as H.
  destruct (coarse stripes) as [winner worst].
  destruct H as (m' & s & H1 & _ & H2 & [H3 _] & _). exists m', s.
  split; [exact H1|]. split; [exact H2|exact H3].
Defined.


(** ** What the measurements miss *)

Lemma lor_top q x : is_u8 q → Z.lor q (Z.shiftl x 8) = q + 256 * x.
Proof.
  intros Hq. assert (Z.land q (Z.shiftl x 8) = 0) as H0.
  { apply Z.bits_inj'. intros n Hn. rewrite Z.land_spec, Z.bits_0.
    destruct (Z.lt_ge_cases n 8); [by rewrite Z.shiftl_spec_low, andb_false_r|].
    rewrite <-(Z.mod_small q (2 ^ 8)) by apply Hq. by rewrite Z.mod_pow2_bits_high. }
  pose proof (Z.add_lor_land q (Z.shiftl x 8)) as H. rewrite H0, Z.add_0_r in H.
  rewrite H, Z.shiftl_mul_pow2 by done. lia.
Qed.
Lemma fifth_byte b : is_u8 b →
  Z.shiftl (Z.land b 0x03) 8 = Z.shiftl (b mod 4) 8
  ∧ Z.shiftl (Z.land b 0x0c) 6 = Z.shiftl (b / 4 mod 4) 8
  ∧ Z.shiftl (Z.land b 0x30) 4 = Z.shiftl (b / 16 mod 4) 8
  ∧ Z.shiftl (Z.land b 0xc0) 2 = Z.shiftl (b / 64 mod 4) 8.
Proof.
  intros Hb. pose proof (u8_by_cases (fun b =>
    (Z.shiftl (Z.land b 0x03) 8 =? Z.shiftl (b mod 4) 8)
    && ((Z.shiftl (Z.land b 0x0c) 6 =? Z.shiftl (b / 4 mod 4) 8)
    && ((Z.shiftl (Z.land b 0x30) 4 =? Z.shiftl (b / 16 mod 4) 8)
    && (Z.shiftl (Z.land b 0xc0) 2 =? Z.shiftl (b / 64 mod 4) 8)))) eq_refl b Hb) as H.
  by rewrite !andb_true_iff, !Z.eqb_eq in H.
Qed.
(** Packed RAW10: a sample [p] has its high bits in its byte and its two low bits
    in the fifth byte.  The code puts the low bits on top. *)
Lemma unpack_weights p0 p1 p2 p3 :
  let b4 := p0 mod 4 + 4 * (p1 mod 4) + 16 * (p2 mod 4) + 64 * (p3 mod 4) in
  Forall (fun p => 0 <= p < 1024) [p0; p1; p2; p3] →
  unpack (p0 / 4) (p1 / 4) (p2 / 4) (p3 / 4) b4
  = (fun p => p / 4 + 256 * (p mod 4)) <$> [p0; p1; p2; p3].
Proof.
  intros b4 Hp.
  assert (∀ p, 0 <= p mod 4 < 4) as Hm by (intros p; apply Z.mod_pos_bound; lia).
  pose proof (Hm p0). pose proof (Hm p1). pose proof (Hm p2). pose proof (Hm p3).
  assert (is_u8 b4) as Hb by (unfold is_u8, b4; lia).
  unfold unpack. destruct (fifth_byte b4 Hb) as (-> & -> & -> & ->).
  rewrite !Forall_cons in Hp. destruct Hp as (? & ? & ? & ? & _).
  rewrite !lor_top by (unfold is_u8; Z.to_euclidean_division_equations; lia).
  replace (b4 mod 4) with (p0 mod 4) by (unfold b4; Z.to_euclidean_division_equations; lia).
  replace (b4 / 4 mod 4) with (p1 mod 4) by (unfold b4; Z.to_euclidean_division_equations; lia).
  replace (b4 / 16 mod 4) with (p2 mod 4) by (unfold b4; Z.to_euclidean_division_equations; lia).
  replace (b4 / 64 mod 4) with (p3 mod 4) by (unfold b4; Z.to_euclidean_division_equations; lia). done.
Qed.

(** A sweep over black frames is not reported as lacking contrast. *)
Lemma black_is_contrasty : (of_int 0 / of_int 0 <? of_int 105 / of_int 100)%D = false.
Proof. reflexivity. Qed.
(** One whose measurements all failed is, and the program succeeds. *)
Lemma failure_is_flat : (of_int (-1) / of_int (-1) <? of_int 105 / of_int 100)%D = true.
Proof. reflexivity. Qed.
