(* ===== verification/Wacom.v ===== *)
(** [wacom-wez01.c]: the S Pen digitizer, and the proximity flag that silences the
    touchscreen. *)
From S2P Require Import Prelude Bus.

Definition WEZ01_COM_SURVEY_EXIT := 0x2d.
Definition WEZ01_COM_SAMPLERATE_STOP := 0x30.
Definition WEZ01_COM_SAMPLERATE_START := 0x31.
Definition WEZ01_QUERY_SIZE := 32.
Definition WEZ01_QUERY_POS : nat := 16.
Definition WEZ01_QUERY_HEADER := 0x0f.
Definition WEZ01_QRY_X : nat := 1.
Definition WEZ01_QRY_Y : nat := 3.
Definition WEZ01_QRY_PRESSURE : nat := 5.
Definition WEZ01_QRY_TILT_X : nat := 11.
Definition WEZ01_QRY_TILT_Y : nat := 12.
Definition WEZ01_QRY_HEIGHT : nat := 13.
Definition WEZ01_EVENT_SIZE := 16.
Definition WEZ01_PKT_COORD := 1.
Definition WEZ01_RDY := BIT 7.
Definition WEZ01_ERASER := BIT 6.
Definition WEZ01_SIDE := BIT 5.
Definition WEZ01_TIP := BIT 4.
Definition WEZ01_RES_UNITS_PER_MM := 100.
Definition WEZ01_PROXIMITY_TIMEOUT_MS := 250.

(** [struct timer_list]: a timer that was shut down ignores [mod_timer]. *)
Inductive timer := TimerIdle | TimerArmed | TimerShutdown.
#[export] Instance timer_eq_dec : EqDecision timer.
Proof. solve_decision. Defined.
Definition mod_timer (t : timer) : timer :=
  match t with TimerShutdown => TimerShutdown | _ => TimerArmed end.

(** [struct wacom_wez01], the calibration parameters of the module and its two
    global flags. *)
Record wacom_wez01 := mkWacom {
  max_x : Z; max_y : Z; max_pressure : Z; max_height : Z; max_tilt_x : Z; max_tilt_y : Z;
  prox : bool; prox_timer : timer;
  pen_x_min : Z; pen_x_max : Z; pen_y_min : Z; pen_y_max : Z;
  wez01_pen_proximity : bool; wez01_touch_suppression : bool
}.
#[export] Instance eta_wacom : Eta wacom_wez01 := fun r =>
  mkWacom (max_x r) (max_y r) (max_pressure r) (max_height r) (max_tilt_x r) (max_tilt_y r)
    (prox r) (prox_timer r) (pen_x_min r) (pen_x_max r) (pen_y_min r) (pen_y_max r)
    (wez01_pen_proximity r) (wez01_touch_suppression r).

Inductive key := BTN_TOOL_RUBBER | BTN_TOOL_PEN | BTN_TOUCH | BTN_STYLUS.
Inductive axis := ABS_X | ABS_Y | ABS_PRESSURE | ABS_DISTANCE | ABS_TILT_X | ABS_TILT_Y.
#[export] Instance key_eq_dec : EqDecision key.
Proof. solve_decision. Defined.
#[export] Instance axis_eq_dec : EqDecision axis.
Proof. solve_decision. Defined.

Inductive pen_event :=
  | PenKey (k : key) (down : bool)       (* input_report_key *)
  | PenAbs (a : axis) (v : Z)            (* input_report_abs *)
  | PenSync                              (* input_sync *)
  | PenSend (cmd ret : Z)
  | PenSleep (ms : Z)
  | PenIrq (on : bool)                   (* enable_irq, disable_irq *)
  | PenRange (a : axis) (lo hi : Z)      (* input_set_abs_params *)
  | PenResolution (a : axis) (res : Z)
  | PenRequestIrq | PenRegister.

Class PenEnv (W : Type) := {
  i2c_master_recv : Z → W → (Z * list Z) * W;
  pen_send : Z → W → Z * W;
}.

Definition byte (l : list Z) (i : nat) : Z := u8 (default 0 (l !! i)).
Definition get_unaligned_be16 (l : list Z) (i : nat) : Z := 256 * byte l i + byte l (S i).

Section pen.
Context {W : Type} `{!PenEnv W}.
Abbreviation M := (M (machine wacom_wez01 W pen_event)).

Definition wacom_wez01_should_suppress_touch : M bool :=
  d ← get_drv; mret (wez01_touch_suppression d && wez01_pen_proximity d).

Definition wacom_wez01_send (cmd : Z) : M Z :=
  ret ← ask (pen_send cmd);
  emit (PenSend cmd ret);;
  mret (if ret <? 0 then ret else if ret =? 1 then 0 else - EIO).

(** The retry loop of [wacom_wez01_query]: the query block, or the last result. *)
Fixpoint query_loop (n : nat) (ret : Z) : M (Z + list Z) :=
  match n with
  | O => mret (inl (if ret <? 0 then ret else - EIO))
  | S n' =>
      '(ret, buf) ← ask (i2c_master_recv WEZ01_QUERY_SIZE);
      if (ret =? WEZ01_QUERY_SIZE) && (byte buf WEZ01_QUERY_POS =? WEZ01_QUERY_HEADER) then
        mret (inr (drop WEZ01_QUERY_POS buf))
      else emit (PenSleep 20);; query_loop n' ret
  end.
Definition wacom_wez01_query : M Z :=
  r ← query_loop 10 0;
  match r with
  | inl err => mret err
  | inr q =>
      mod_drv (fun d => d <| max_x := get_unaligned_be16 q WEZ01_QRY_X |>
                          <| max_y := get_unaligned_be16 q WEZ01_QRY_Y |>
                          <| max_pressure := get_unaligned_be16 q WEZ01_QRY_PRESSURE |>
                          <| max_tilt_x := s8 (byte q WEZ01_QRY_TILT_X) |>
                          <| max_tilt_y := s8 (byte q WEZ01_QRY_TILT_Y) |>
                          <| max_height := byte q WEZ01_QRY_HEIGHT |>);;
      mret 0
  end.

Definition report_key (k : key) (down : bool) : M unit := emit (PenKey k down).
Definition report_abs (a : axis) (v : Z) : M unit := emit (PenAbs a v).
Definition input_sync : M unit := emit PenSync.

Definition wacom_wez01_leave_range : M unit :=
  d ← get_drv;
  if wez01_pen_proximity d then
    mod_drv (fun d => d <| wez01_pen_proximity := false |>);;
    if prox d then
      report_abs ABS_PRESSURE 0;;
      report_abs ABS_DISTANCE 0;;
      report_key BTN_TOUCH false;;
      report_key BTN_STYLUS false;;
      report_key BTN_TOOL_PEN false;;
      report_key BTN_TOOL_RUBBER false;;
      input_sync;;
      mod_drv (fun d => d <| prox := false |>)
    else skip
  else skip.

Definition wacom_wez01_prox_timeout : M unit := wacom_wez01_leave_range.

Definition timer_shutdown_sync : M unit :=
  mod_drv (fun d => d <| prox_timer := TimerShutdown |>).

(** The frame's report, from [data]. *)
Definition report_frame (data : list Z) : M unit :=
  d ← get_drv;
  report_key BTN_TOOL_RUBBER (testm (byte data 0) WEZ01_ERASER);;
  report_key BTN_TOOL_PEN (negb (testm (byte data 0) WEZ01_ERASER));;
  report_key BTN_TOUCH (testm (byte data 0) WEZ01_TIP);;
  report_key BTN_STYLUS (testm (byte data 0) WEZ01_SIDE);;
  let px := get_unaligned_be16 data 3 in
  let py := max_x d - get_unaligned_be16 data 1 in
  report_abs ABS_X (clamp px (pen_x_min d) (pen_x_max d));;
  report_abs ABS_Y (clamp py (pen_y_min d) (pen_y_max d));;
  report_abs ABS_PRESSURE (Z.lor (Z.shiftl (Z.land (byte data 5) 0x0f) 8) (byte data 6));;
  report_abs ABS_DISTANCE (byte data 7);;
  report_abs ABS_TILT_X (s8 (byte data 8));;
  report_abs ABS_TILT_Y (s8 (byte data 9));;
  input_sync.

Definition wacom_wez01_irq_handler : M unit :=
  '(ret, data) ← ask (i2c_master_recv (WEZ01_EVENT_SIZE + 1));
  if negb (ret =? WEZ01_EVENT_SIZE + 1) then skip
  else if negb (Z.land (byte data 0) 0x0f =? WEZ01_PKT_COORD) then skip
  else if negb (testm (byte data 0) WEZ01_RDY) then
    timer_shutdown_sync;;
    wacom_wez01_leave_range
  else
    report_frame data;;
    mod_drv (fun d => d <| prox := true |> <| wez01_pen_proximity := true |>
                        <| prox_timer ::= mod_timer |>).

Definition wacom_wez01_stop_timer : M unit :=
  timer_shutdown_sync;;
  wacom_wez01_leave_range.

Definition set_ranges : M unit :=
  d ← get_drv;
  emit (PenRange ABS_X 0 (max_y d));;
  emit (PenRange ABS_Y 0 (max_x d));;
  emit (PenRange ABS_PRESSURE 0 (max_pressure d));;
  emit (PenRange ABS_DISTANCE 0 (max_height d));;
  emit (PenRange ABS_TILT_X (- max_tilt_x d) (max_tilt_x d));;
  emit (PenRange ABS_TILT_Y (- max_tilt_y d) (max_tilt_y d));;
  emit (PenResolution ABS_X WEZ01_RES_UNITS_PER_MM);;
  emit (PenResolution ABS_Y WEZ01_RES_UNITS_PER_MM).

(** [irq]: the client has an interrupt; [alloc_ok], [avdd_ret], [gpio_ret],
    [action_ret], [input_ok], [irq_ret], [reg_ret]: the answers of the kernel.
    A probe that fails after the timer's clean-up action was added runs it. *)
Definition wacom_wez01_probe (functionality irq alloc_ok : bool) (avdd_ret gpio_ret action_ret : Z)
    (input_ok : bool) (irq_ret reg_ret : Z) : M Z :=
  if negb functionality then mret (- ENODEV)
  else if negb irq then mret (- EINVAL)
  else if negb alloc_ok then mret (- ENOMEM)
  else if negb (avdd_ret =? 0) then mret avdd_ret
  else if gpio_ret <? 0 then mret gpio_ret
  else
    emit (PenSleep 200);;
    ret ← wacom_wez01_query;
    (if ret =? 0 then skip
     else mod_drv (fun d => d <| max_x := 14752 |> <| max_y := 23603 |>
                              <| max_pressure := 4095 |> <| max_height := 255 |>
                              <| max_tilt_x := 63 |> <| max_tilt_y := 63 |>));;
    mod_drv (fun d => d <| prox_timer := TimerIdle |>);;
    let failed err := wacom_wez01_stop_timer;; mret err in
    if negb (action_ret =? 0) then failed action_ret
    else if negb input_ok then failed (- ENOMEM)
    else
      set_ranges;;
      if negb (irq_ret =? 0) then failed irq_ret
      else
        emit PenRequestIrq;;
        if negb (reg_ret =? 0) then failed reg_ret
        else
          emit PenRegister;;
          wacom_wez01_send WEZ01_COM_SAMPLERATE_START;;
          mret 0.

Definition wacom_wez01_suspend : M Z :=
  emit (PenIrq false);;
  timer_shutdown_sync;;
  wacom_wez01_leave_range;;
  wacom_wez01_send WEZ01_COM_SAMPLERATE_STOP;;
  mret 0.

Definition wacom_wez01_resume : M Z :=
  wacom_wez01_send WEZ01_COM_SURVEY_EXIT;;
  wacom_wez01_send WEZ01_COM_SAMPLERATE_START;;
  emit (PenIrq true);;
  mret 0.
End pen.
