(* ===== verification/WacomProps.v ===== *)
(** The properties of the S Pen driver: what userspace and the touchscreen see of
    the pen's range, and the watchdog that a shut-down timer no longer provides. *)
From S2P Require Import Prelude Bus Wacom.

(** Whether a key is down after the reports [l]. *)
Definition key_step (k : key) (b : bool) (e : pen_event) : bool :=
  match e with PenKey k' v => if decide (k' = k) then v else b | _ => b end.
Definition down (k : key) (l : list pen_event) : bool := foldl (key_step k) false l.
Lemma down_app k l1 l2 : down k (l1 ++ l2) = foldl (key_step k) (down k l1) l2.
Proof. unfold down. by rewrite foldl_app. Qed.

Section pen.
Context {W : Type} `{!PenEnv W}.
Abbreviation state := (machine wacom_wez01 W pen_event).
Abbreviation M := (M (machine wacom_wez01 W pen_event)).

(** ** The driver and its interrupt sources

    Handlers run one after the other.  The flag says whether the interrupt is
    enabled; the timer fires when it is armed. *)
Inductive pen_step : bool * state → bool * state → Prop :=
  | step_irq m m' :
      wacom_wez01_irq_handler m = Ret (tt, m') → pen_step (true, m) (true, m')
  | step_timeout irq m m' :
      prox_timer (drv m) = TimerArmed →
      wacom_wez01_prox_timeout (m <| drv ::= fun d => d <| prox_timer := TimerIdle |> |>) = Ret (tt, m') →
      pen_step (irq, m) (irq, m')
  | step_suspend m m' :
      wacom_wez01_suspend m = Ret (0, m') → pen_step (true, m) (false, m')
  | step_resume m m' :
      wacom_wez01_resume m = Ret (0, m') → pen_step (false, m) (true, m')
  | step_params irq m a b c d on :
      pen_step (irq, m)
        (irq, m <| drv ::= fun s => s <| pen_x_min := a |> <| pen_x_max := b |>
                                      <| pen_y_min := c |> <| pen_y_max := d |>
                                      <| wez01_touch_suppression := on |> |>)
  | step_world irq m w : pen_step (irq, m) (irq, m <| wld := w |>).

(** The state the module is loaded with. *)
Definition loaded (m : state) : Prop :=
  log m = [] ∧ prox (drv m) = false ∧ wez01_pen_proximity (drv m) = false.
Inductive pen_reachable : bool * state → Prop :=
  | reach_probe m m' :
      loaded m → wacom_wez01_probe true true true 0 0 0 true 0 0 m = Ret (0, m') →
      pen_reachable (true, m')
  | reach_step s s' : pen_reachable s → pen_step s s' → pen_reachable s'.

(** ** The view from outside *)

Definition tools_up (l : list pen_event) : Prop := ∀ k, down k l = false.
Record coherent (m : state) : Prop := {
  flag_is_prox : wez01_pen_proximity (drv m) = prox (drv m);
  out_of_range_up : prox (drv m) = false → tools_up (log m);
  in_range_tool : prox (drv m) = true →
    down BTN_TOOL_PEN (log m) = negb (down BTN_TOOL_RUBBER (log m));
}.

(** A call that leaves the pen's range and the timer as they are. *)
Definition quiet (m m' : state) : Prop :=
  prox (drv m') = prox (drv m) ∧ wez01_pen_proximity (drv m') = wez01_pen_proximity (drv m)
  ∧ prox_timer (drv m') = prox_timer (drv m)
  ∧ ∀ k, down k (log m') = down k (log m).
#[export] Instance quiet_preorder : PreOrder quiet.
Proof.
  split; [by intros m|]. intros m1 m2 m3 (H1 & H2 & H3 & H4) (G1 & G2 & G3 & G4).
  split_and!; congruence.
Qed.
Lemma quiet_coherent m m' : quiet m m' → coherent m → coherent m'.
Proof.
  intros (H1 & H2 & H3 & H4) [C1 C2 C3]. split.
  - congruence.
  - rewrite H1. intros Hp k. rewrite H4. by apply C2.
  - rewrite H1, !H4. done.
Qed.
Lemma quiet_ask {A} (f : W → A * W) : respects quiet (ask (D := wacom_wez01) (E := pen_event) f).
Proof. intros m a m'. unfold ask. destruct (f (wld m)). by intros [= _ <-]. Qed.
Lemma quiet_emit e :
  (∀ k b, key_step k b e = b) → respects quiet (emit (D := wacom_wez01) (W := W) e).
Proof.
  intros He m a m' [= _ <-]. split_and!; try done. intros k.
  change (down k (log m ++ [e]) = down k (log m)). rewrite down_app. apply He.
Qed.
Lemma quiet_get : respects quiet (get_drv (D := wacom_wez01) (W := W) (E := pen_event)).
Proof. unfold get_drv. resp. Qed.
Lemma pen_quiet_mod f :
  (∀ d, prox (f d) = prox d ∧ wez01_pen_proximity (f d) = wez01_pen_proximity d
        ∧ prox_timer (f d) = prox_timer d) →
  respects quiet (mod_drv (D := wacom_wez01) (W := W) (E := pen_event) f).
Proof. intros Hf m a m' [= _ <-]. destruct (Hf (drv m)) as (? & ? & ?). by split_and!. Qed.
Ltac quiet :=
  repeat first [ solve [eauto 3 with resp] | resp_step | apply quiet_ask | apply quiet_get
               | apply pen_quiet_mod; intros d; split_and!; reflexivity
               | apply quiet_emit; reflexivity ].
Lemma quiet_send c : respects quiet (wacom_wez01_send (W := W) c).
Proof. unfold wacom_wez01_send. quiet. Qed.
Hint Resolve quiet_send : resp.
Lemma quiet_query : respects quiet (wacom_wez01_query (W := W)).
Proof.
  unfold wacom_wez01_query. apply respects_bind; [apply _| |intros [e|q]; quiet].
  generalize 10%nat, 0. intros n. induction n as [|n IH]; intros r; simpl; quiet.
Qed.
Hint Resolve quiet_query : resp.
Lemma quiet_ranges : respects quiet (set_ranges (W := W)).
Proof. unfold set_ranges. quiet. Qed.
Lemma quiet_resume : respects quiet (wacom_wez01_resume (W := W)).
Proof. unfold wacom_wez01_resume. quiet. Qed.

(** Leaving the range, as one step. *)
Lemma leave_run (m : state) :
  coherent m →
  ∃ m', wacom_wez01_leave_range m = Ret (tt, m') ∧ coherent m'
  ∧ drv m' = (drv m) <| prox := false |> <| wez01_pen_proximity := false |>.
Proof.
  intros [C1 C2 C3]. unfold wacom_wez01_leave_range.
  erewrite bind_ret by reflexivity. cbn. destruct m as [d w l]. cbn in *.
  destruct d as [? ? ? ? ? ? p t ? ? ? ? x ?]. cbn in *. subst x. destruct p; cbn.
  - eexists. split; [reflexivity|]. split; [|reflexivity]. split; cbn; try done.
    intros _ k. unfold down. rewrite !foldl_app. by destruct k.
  - eexists. split; [reflexivity|]. split; [|reflexivity]. split; cbn; try done.
Qed.
Lemma report_run data (m : state) :
  ∃ l, report_frame data m = Ret (tt, mkM (drv m) (wld m) (log m ++ l))
  ∧ ∀ b b', foldl (key_step BTN_TOOL_PEN) b l
          = negb (foldl (key_step BTN_TOOL_RUBBER) b' l).
Proof.
  destruct m as [d w l]. unfold report_frame. erewrite bind_ret by reflexivity. cbv zeta. cbn [drv wld log].
  eexists. split; [unfold report_key, report_abs, input_sync, emit;
    rewrite <-?app_assoc; unfold mbind, M_bind, modify; cbn; rewrite <-!app_assoc; reflexivity|].
  intros b b'. cbn. by rewrite ?negb_involutive.
Qed.

(** What the interrupt handler can have done. *)
Inductive irq_outcome (m m' : state) : Prop :=
  | irq_ignored : quiet m m' → irq_outcome m m'
  | irq_out :
      drv m' = (drv m) <| prox := false |> <| wez01_pen_proximity := false |>
                       <| prox_timer := TimerShutdown |> → irq_outcome m m'
  | irq_in :
      drv m' = (drv m) <| prox := true |> <| wez01_pen_proximity := true |>
                       <| prox_timer ::= mod_timer |> → irq_outcome m m'.
Lemma shutdown_coherent (m : state) :
  coherent m → coherent (m <| drv ::= fun d => d <| prox_timer := TimerShutdown |> |>).
Proof. by intros [C1 C2 C3]. Qed.
Lemma irq_run (m m' : state) :
  wacom_wez01_irq_handler m = Ret (tt, m') → coherent m → coherent m' ∧ irq_outcome m m'.
Proof.
  unfold wacom_wez01_irq_handler. intros H C.
  apply bind_inv in H as ([ret data] & m1 & H1 & H). apply quiet_ask in H1 as Hq.
  assert (drv m1 = drv m) as Hd.
  { revert H1. unfold ask. destruct (i2c_master_recv _ _). by intros [= _ <-]. }
  pose proof (quiet_coherent _ _ Hq C) as C1.
  destruct (negb _); [injection H as <-; by split; [|apply irq_ignored]|].
  destruct (negb _); [injection H as <-; by split; [|apply irq_ignored]|].
  destruct (negb _).
  - apply bind_inv in H as ([] & m2 & H2 & H). injection H2 as <-.
    destruct (leave_run _ (shutdown_coherent _ C1)) as (m3 & H3 & C3 & Hd3).
    rewrite H3 in H. injection H as <-. split; [done|]. apply irq_out. rewrite Hd3. cbn. by rewrite Hd.
  - destruct (report_run data m1) as (l & H2 & Hl).
    rewrite (bind_ret _ _ _ _ _ H2) in H. injection H as <-. split; [|apply irq_in; cbn; by rewrite Hd].
    split; cbn; [done|done|]. intros _. unfold down. rewrite !foldl_app. apply Hl.
Qed.
Lemma suspend_run (m m' : state) r :
  wacom_wez01_suspend m = Ret (r, m') → coherent m →
  coherent m' ∧ prox (drv m') = false ∧ prox_timer (drv m') = TimerShutdown.
Proof.
  unfold wacom_wez01_suspend. intros H C.
  apply bind_inv in H as ([] & m1 & H1 & H).
  assert (quiet m m1) as Hq by (revert H1; apply quiet_emit; reflexivity).
  apply bind_inv in H as ([] & m2 & H2 & H). injection H2 as <-.
  destruct (leave_run _ (shutdown_coherent _ (quiet_coherent _ _ Hq C))) as (m3 & H3 & C3 & Hd3).
  rewrite (bind_ret _ _ _ _ _ H3) in H. apply bind_inv in H as (r4 & m4 & H4 & H).
  injection H as _ <-. apply quiet_send in H4 as Hq4.
  split; [by eapply quiet_coherent|]. destruct Hq4 as (-> & _ & -> & _). by rewrite Hd3.
Qed.
Lemma timeout_run (m m' : state) :
  wacom_wez01_prox_timeout (m <| drv ::= fun d => d <| prox_timer := TimerIdle |> |>) = Ret (tt, m') →
  coherent m → coherent m' ∧ prox (drv m') = false.
Proof.
  intros H C. assert (coherent (m <| drv ::= fun d => d <| prox_timer := TimerIdle |> |>)) as C0.
  { by destruct C. }
  destruct (leave_run _ C0) as (m1 & H1 & C1 & Hd). unfold wacom_wez01_prox_timeout in H.
  rewrite H1 in H. injection H as <-. by rewrite Hd.
Qed.
Lemma probe_coherent (m m' : state) :
  loaded m → wacom_wez01_probe true true true 0 0 0 true 0 0 m = Ret (0, m') →
  coherent m' ∧ prox (drv m') = false.
Proof.
  intros (Hl & Hp & Hx) H. unfold wacom_wez01_probe in H. cbn [negb Z.eqb Z.ltb Z.compare] in H.
  assert (coherent m) as C by (split; [congruence|by rewrite Hl|by rewrite Hp]).
  apply bind_inv in H as ([] & m1 & H1 & H).
  assert (quiet m m1) as Q1 by (revert H1; apply quiet_emit; reflexivity).
  apply bind_inv in H as (r & m2 & H2 & H). apply quiet_query in H2.
  apply bind_inv in H as ([] & m3 & H3 & H).
  assert (quiet m2 m3) as Q3 by (revert H3; destruct (r =? 0); [apply respects_skip, _|];
    apply pen_quiet_mod; intros d; by split_and!).
  apply bind_inv in H as ([] & m4 & H4 & H). injection H4 as <-.
  pose proof (quiet_coherent _ _ Q3 (quiet_coherent _ _ H2 (quiet_coherent _ _ Q1 C))) as C3.
  assert (prox (drv m3) = false) as Hp3.
  { destruct Q1 as (E1 & _), H2 as (E2 & _), Q3 as (E3 & _). congruence. }
  set (m4 := over_field _ m3) in *. assert (coherent m4) as C4 by (by destruct C3).
  enough (quiet m4 m') as Q.
  { split; [by eapply quiet_coherent|]. destruct Q as [-> _]. exact Hp3. }
  cbv zeta in H. apply bind_inv in H as ([] & m5 & H5 & H). apply quiet_ranges in H5.
  transitivity m5; [done|].
  revert H. apply respects_bind; [apply _|apply quiet_emit; reflexivity|intros _].
  apply respects_bind; [apply _|apply quiet_emit; reflexivity|intros _]. quiet.
Qed.
End pen.

(** ** The properties *)

Section properties.
Context {W : Type} `{!PenEnv W}.
Abbreviation state := (machine wacom_wez01 W pen_event).

(** What every step preserves. *)
Definition pen_inv (s : bool * state) : Prop :=
  coherent s.2 ∧ (prox (drv s.2) = true → prox_timer (drv s.2) ≠ TimerIdle)
  ∧ (s.1 = false → prox (drv s.2) = false ∧ prox_timer (drv s.2) = TimerShutdown).
Lemma inv_of_quiet irq (m m' : state) : quiet m m' → pen_inv (irq, m) → pen_inv (irq, m').
Proof.
  intros Hq (C & H1 & H2). pose proof (quiet_coherent _ _ Hq C) as C'.
  destruct Hq as (E1 & _ & E3 & _). split; [done|]. cbn in *. by rewrite E1, E3.
Qed.
Lemma step_inv s s' : pen_step s s' → pen_inv s → pen_inv s'.
Proof.
  intros H (C & H1 & H2). destruct H as [m m' H|irq m m' Ht H|m m' H|m m' H|irq m a b c d on|irq m w];
    cbn [fst snd] in *.
  - destruct (irq_run _ _ H C) as [C' [Hq|Hd|Hd]].
    + by apply (inv_of_quiet true m m').
    + split; [done|]. cbn. by rewrite Hd.
    + split; [done|]. cbn. rewrite Hd. split; [|done]. cbn. by destruct (prox_timer (drv m)).
  - destruct (timeout_run _ _ H C) as [C' Hp]. split; [done|]. cbn. split; [congruence|].
    intros Hi. destruct (H2 Hi) as [_ Hs]. congruence.
  - destruct (suspend_run _ _ _ H C) as (C' & Hp & Ht). split; [done|]. cbn. split; [congruence|done].
  - apply quiet_resume in H as Hq. destruct (inv_of_quiet false m m' Hq) as (C' & G1 & _); [done|].
    split; [done|]. by split.
  - split; [|by split]. destruct C as [C1 C2 C3]. by split.
  - split; [|by split]. destruct C as [C1 C2 C3]. by split.
Qed.

Lemma pen_reach_inv s : pen_reachable s → pen_inv s.
Proof.
  induction 1 as [m m' Hl H|s s' Hr IH Hs]; [|by eapply step_inv].
  destruct (probe_coherent _ _ Hl H) as [C Hp]. split; [done|]. split; [|done]. cbn. congruence.
Qed.
Lemma step_shutdown s s' :
  pen_step s s' → pen_inv s → prox_timer (drv s.2) = TimerShutdown →
  prox_timer (drv s'.2) = TimerShutdown.
Proof.
  intros H (C & _) Ht. destruct H as [m m' H|irq m m' Ht' H|m m' H|m m' H|irq m a b c d on|irq m w];
    cbn [fst snd] in *; try done.
  - destruct (irq_run _ _ H C) as [_ [(_ & _ & E & _)|Hd|Hd]]; [congruence|by rewrite Hd|].
    rewrite Hd. cbn. by rewrite Ht.
  - congruence.
  - by apply (suspend_run _ _ _ H C).
  - apply quiet_resume in H as (_ & _ & E & _). congruence.
Qed.

(** C21: what userspace and the touchscreen are told agrees, whatever the
    digitizer sends and however the interrupt, the silence timer, suspend and
    resume follow each other: the flag that silences the touchscreen is the
    driver's own record of a pen in range; out of range every tool and button
    has been reported up, in range exactly one of the two tools is down; while
    suspended the pen is out of range. *)
Theorem pen_range_is_coherent (s : bool * state) :
  pen_reachable s →
  wez01_pen_proximity (drv s.2) = prox (drv s.2)
  ∧ (prox (drv s.2) = false → ∀ k, down k (log s.2) = false)
  ∧ (prox (drv s.2) = true →
     down BTN_TOOL_PEN (log s.2) = negb (down BTN_TOOL_RUBBER (log s.2))
     ∧ prox_timer (drv s.2) ≠ TimerIdle)
  ∧ (s.1 = false → prox (drv s.2) = false).
Proof.
  intros Hr. apply pen_reach_inv in Hr as ([C1 C2 C3] & H1 & H2).
  split_and!; [done|done|by auto|]. intros Hi. by apply H2.
Qed.

(** Nothing comes from the digitizer and the system stays awake. *)
Inductive silent_step : bool * state → bool * state → Prop :=
  | silent_timeout irq m m' :
      prox_timer (drv m) = TimerArmed →
      wacom_wez01_prox_timeout (m <| drv ::= fun d => d <| prox_timer := TimerIdle |> |>) = Ret (tt, m') →
      silent_step (irq, m) (irq, m')
  | silent_resume m m' :
      wacom_wez01_resume m = Ret (0, m') → silent_step (false, m) (true, m')
  | silent_world irq m w : silent_step (irq, m) (irq, m <| wld := w |>).

(** C37: the silence timer.  While armed it can fire, and ends the range.  But the
    first frame that reports the pen out of range, and every suspend, shut it
    down for good: no later step arms it again, and a digitizer that falls silent
    with the pen in range then leaves the touchscreen suppressed for as long as
    the silence lasts. *)
Theorem silence_timer_dies irq (m m' : state) :
  pen_reachable (irq, m) →
  (prox_timer (drv m) = TimerArmed →
   ∃ m1, pen_step (irq, m) (irq, m1) ∧ prox (drv m1) = false)
  ∧ (wacom_wez01_irq_handler m = Ret (tt, m') → prox (drv m) = true → prox (drv m') = false →
     prox_timer (drv m') = TimerShutdown)
  ∧ (∀ r m1, wacom_wez01_suspend m = Ret (r, m1) → prox_timer (drv m1) = TimerShutdown)
  ∧ (prox_timer (drv m) = TimerShutdown →
     ∀ s', (rtc pen_step (irq, m) s' → prox_timer (drv s'.2) = TimerShutdown)
           ∧ (rtc silent_step (irq, m) s' →
              wez01_pen_proximity (drv s'.2) = wez01_pen_proximity (drv m))).
Proof.
  intros Hr. apply pen_reach_inv in Hr as (C & H1 & H2). cbn in C, H1, H2. split_and!.
  - intros Ht. edestruct (leave_run (m <| drv ::= fun d => d <| prox_timer := TimerIdle |> |>))
      as (m1 & Hm1 & C1 & Hd1); [by destruct C|].
    exists m1. split; [by apply step_timeout|]. by rewrite Hd1.
  - intros H Hp Hp'. destruct (irq_run _ _ H C) as [_ [(E & _)|Hd|Hd]].
    + congruence.
    + by rewrite Hd.
    + by rewrite Hd in Hp'.
  - intros r m1 H. by apply (suspend_run _ _ _ H C).
  - intros Ht s'. split.
    + intros Hs. apply (rtc_keeps pen_step
        (fun s => pen_inv s ∧ prox_timer (drv s.2) = TimerShutdown) _ _) in Hs; [apply Hs| |by split].
      intros s1 s2 Hs12 [Hi Hsh]. split; [by eapply step_inv|by eapply step_shutdown].
    + intros Hs. apply (rtc_keeps silent_step (fun s => prox_timer (drv s.2) = TimerShutdown
        ∧ wez01_pen_proximity (drv s.2) = wez01_pen_proximity (drv m)) _ _) in Hs;
        [apply Hs| |by split].
      intros s1 s2 Hs12 [Hsh Heq]. destruct Hs12 as [i n n' Ht' _|n n' H|i n w]; cbn in *.
      * congruence.
      * apply quiet_resume in H as (_ & E2 & E3 & _). split; congruence.
      * done.
Qed.
End properties.

(** A digitizer that sends what the list says. *)
#[export] Instance script : PenEnv (list (Z * list Z)) := {|
  i2c_master_recv _ w := match w with [] => ((- EIO, []), []) | r :: w' => (r, w') end;
  pen_send _ w := (1, w);
|}.
(** The query block (coordinates up to 14752 by 23603), a frame in range with the tip
    down, one out of range, and another one in range. *)
Definition query_block : Z * list Z :=
  (32, replicate 16 0 ++ [0x0f; 57; 160; 92; 51; 15; 255; 0; 1; 0x46; 0; 63; 63; 255; 0; 0]).
Definition frame_in : Z * list Z := (17, [0x91; 10; 0; 20; 0; 1; 44; 0; 0; 0; 0; 0; 0; 0; 0; 0; 0]).
Definition frame_out : Z * list Z := (17, 0x01 :: replicate 16 0).
Definition module0 : wacom_wez01 :=
  mkWacom 0 0 0 0 0 0 false TimerIdle 0 23575 0 14724 false true.
Definition pen0 (frames : list (Z * list Z)) : machine wacom_wez01 (list (Z * list Z)) pen_event :=
  mkM module0 (query_block :: frames) [].

Definition ran {A} (r : outcome (A * machine wacom_wez01 (list (Z * list Z)) pen_event)) :=
  match r with Ret (_, m) => m | _ => pen0 [] end.
Definition probed frames := ran (wacom_wez01_probe true true true 0 0 0 true 0 0 (pen0 frames)).
Definition interrupted m := ran (wacom_wez01_irq_handler m).
Lemma probed_reachable frames : pen_reachable (true, probed frames).
Proof. apply (reach_probe (pen0 frames)); [by split|]. vm_compute. reflexivity. Qed.

Lemma then_irq m :
  pen_reachable (true, m) → wp (wacom_wez01_irq_handler (W := list (Z * list Z))) (fun _ _ => True) m →
  pen_reachable (true, interrupted m).
Proof.
  intros Hr Hm. eapply reach_step; [exact Hr|]. apply step_irq. revert Hm. unfold interrupted, wp.
  destruct (wacom_wez01_irq_handler m) as [[[] m']| |]; done.
Qed.

Lemma pen_range_is_coherent_witness :
  pen_reachable (true, interrupted (probed [frame_in]))
  ∧ wez01_pen_proximity (drv (interrupted (probed [frame_in]))) = true
  ∧ down BTN_TOOL_PEN (log (interrupted (probed [frame_in])))
    = negb (down BTN_TOOL_RUBBER (log (interrupted (probed [frame_in])))).
Proof.
  assert (pen_reachable (true, interrupted (probed [frame_in]))) as Hr.
  { apply then_irq; [apply probed_reachable|vm_compute; exact I]. }
  assert (prox (drv (interrupted (probed [frame_in]))) = true) as Hp by (vm_compute; reflexivity).
  split; [exact Hr|]. revert Hr Hp. generalize (interrupted (probed [frame_in])). intros m Hr Hp.
  destruct (pen_range_is_coherent _ Hr) as (H1 & _ & H2 & _). cbn [fst snd] in H1, H2.
  split; [congruence|exact (proj1 (H2 Hp))].
Defined.

Lemma silence_timer_dies_witness :
  let m := interrupted (interrupted (interrupted (probed [frame_in; frame_out; frame_in]))) in
  pen_reachable (true, m) ∧ wez01_pen_proximity (drv m) = true
  ∧ ∀ s', rtc silent_step (true, m) s' → wez01_pen_proximity (drv s'.2) = true.
Proof.
  assert (pen_reachable (true, interrupted (interrupted (interrupted
            (probed [frame_in; frame_out; frame_in]))))) as Hr.
  { do 3 (apply then_irq; [|vm_compute; exact I]). apply probed_reachable. }
  assert (let d := drv (interrupted (interrupted (interrupted (probed [frame_in; frame_out; frame_in])))) in
    wez01_pen_proximity d = true ∧ prox_timer d = TimerShutdown) as [Hp Ht]
    by (vm_compute; split; reflexivity).
  revert Hr Hp Ht. generalize (interrupted (interrupted (interrupted (probed [frame_in; frame_out; frame_in])))).
  cbv zeta. intros m Hr Hp Ht. split; [exact Hr|]. split; [exact Hp|]. intros s' Hs.
  destruct (silence_timer_dies true m m Hr) as (_ & _ & _ & H3).
  rewrite (proj2 (H3 Ht s') Hs). exact Hp.
Defined.
