(* ===== verification/Fts1ba90a.v ===== *)
(** [fts1ba90a.c]: the touchscreen, with palm rejection and double tap to wake. *)
From S2P Require Import Prelude Bus.

Definition FTS_READ_DEVICE_ID := 0x22.
Definition FTS_READ_FW_VERSION := 0x24.
Definition FTS_SET_TOUCH_FUNCTION := 0x30.
Definition FTS_READ_ONE_EVENT := 0x60.
Definition FTS_READ_ALL_EVENT := 0x61.
Definition FTS_CLEAR_ALL_EVENT := 0x62.
Definition FTS_SET_SCAN_MODE := 0xa0.
Definition FTS_SET_GET_OPMODE := 0x31.
Definition FTS_WRITE_WAKEUP_GESTURE := 0x39.
Definition FTS_OPMODE_NORMAL := 0x00.
Definition FTS_OPMODE_LOWPOWER := 0x01.
Definition FTS_SPONGE_READ_WRITE := 0xaa.
Definition FTS_SPONGE_NOTIFY := 0xc0.
Definition FTS_SPONGE_OFFSET_MODE := 0x00.
Definition FTS_MODE_DOUBLETAP_WAKEUP := BIT 5.
Definition FTS_WAKEUP_GESTURE_DOUBLETAP := 0x02.
Definition FTS_TOUCHTYPE_TOUCH := BIT 0.
Definition FTS_TOUCHTYPE_PALM := BIT 5.
Definition FTS_TOUCHTYPE_WET := BIT 6.
Definition FTS_SCAN_MODE_MS_SS := 0x01.
Definition FTS_EVENT_SIZE := 16.
Definition FTS_FIFO_MAX := 32.
Definition FTS_EV_COORDINATE := 0.
Definition FTS_EV_STATUS := 1.
Definition FTS_EV_GESTURE := 2.
Definition FTS_GESTURE_SAMSUNG_FEATURE := 1.
Definition FTS_SPONGE_EVENT_DOUBLETAP := 1.
Definition FTS_GESTURE_ID_DOUBLETAP_WAKEUP := 1.
Definition FTS_STATUS_TYPE_INFO := 2.
Definition FTS_INFO_READY := 0x00.
Definition FTS_ACTION_PRESS := 1.
Definition FTS_ACTION_MOVE := 2.
Definition FTS_ACTION_RELEASE := 3.
Definition FTS_TTYPE_NORMAL := 0.
Definition FTS_TTYPE_GLOVE := 3.
Definition FTS_TTYPE_PALM := 5.
Definition FTS_TTYPE_WET := 6.
Definition FTS_MAX_FINGERS := 10.
Definition FTS_MAX_X := 1599.
Definition FTS_MAX_Y := 2559.
Definition FTS_MAX_PRESSURE := 63.

(** [struct fts1ba90a] without its handles; [events] has 512 bytes. *)
Record fts1ba90a := mkFts { dtw_enabled : bool; lpm_suspended : bool; events : list Z }.
#[export] Instance eta_fts : Eta fts1ba90a := fun r =>
  mkFts (dtw_enabled r) (lpm_suspended r) (events r).

Inductive rail := AVDD | VDDIO.
#[export] Instance rail_eq_dec : EqDecision rail.
Proof. solve_decision. Defined.

Inductive fts_event :=
  | FtsSend (cmd : list Z) (ret : Z)
  | FtsRead (cmd : list Z) (len ret : Z)
  | FtsSleep (us : Z)
  | FtsRail (r : rail) (on : bool) (ret : Z)
  | FtsIrq (on : bool)                       (* enable_irq, disable_irq *)
  | FtsIrqWake (on : bool) (ret : Z)         (* enable_irq_wake, disable_irq_wake *)
  | MtSlot (slot : Z)                        (* input_mt_slot *)
  | MtFinger (active : bool)                 (* input_mt_report_slot_state, _inactive *)
  | TouchPos (x y : Z)                       (* touchscreen_report_pos *)
  | TouchMajor (v : Z) | TouchMinor (v : Z) | TouchPressure (v : Z)
  | MtSyncFrame
  | TouchSync                                (* input_sync *)
  | WakeKey (down : bool)
  | WakeupEvent (ms : Z)                     (* pm_wakeup_event *)
  | FtsRange (what hi : Z) | FtsRequestIrq | FtsRegister | FtsWakeSource.

(** The bus, the rails, the interrupt and the pen driver. *)
Class TouchEnv (W : Type) := {
  touch_send : list Z → W → Z * W;
  touch_transfer : list Z → Z → W → (Z * list Z) * W;
  rail_enable : rail → W → Z * W;
  rail_disable : rail → W → Z * W;
  enable_irq_wake : W → Z * W;
  disable_irq_wake : W → Z * W;
  device_may_wakeup : W → bool * W;
  wacom_wez01_should_suppress_touch : W → bool * W;
}.

Definition ev_byte (ev : list Z) (i : nat) : Z := u8 (default 0 (ev !! i)).

Definition fts1ba90a_is_double_tap (ev : list Z) : bool :=
  (Z.land (ev_byte ev 0) 0x3 =? FTS_EV_GESTURE)
  && (Z.land (Z.shiftr (ev_byte ev 0) 6) 0x3 =? FTS_GESTURE_SAMSUNG_FEATURE)
  && (Z.land (Z.shiftr (ev_byte ev 0) 2) 0xf =? FTS_SPONGE_EVENT_DOUBLETAP)
  && (ev_byte ev 1 =? FTS_GESTURE_ID_DOUBLETAP_WAKEUP).

Definition is_ready (ev : list Z) : bool :=
  (Z.land (ev_byte ev 0) 0x3 =? FTS_EV_STATUS)
  && (Z.land (Z.shiftr (ev_byte ev 0) 2) 0xf =? FTS_STATUS_TYPE_INFO)
  && (ev_byte ev 1 =? FTS_INFO_READY).

Section fts.
Context {W : Type} `{!TouchEnv W}.
Abbreviation M := (M (machine fts1ba90a W fts_event)).

Definition fts1ba90a_write (cmd : list Z) : M Z :=
  ret ← ask (touch_send cmd);
  emit (FtsSend cmd ret);;
  mret (if ret <? 0 then ret
        else if negb (ret =? Z.of_nat (length cmd)) then - EIO else 0).
(** The result and the bytes read. *)
Definition fts1ba90a_read (cmd : list Z) (len : Z) : M (Z * list Z) :=
  '(ret, buf) ← ask (touch_transfer cmd len);
  emit (FtsRead cmd len ret);;
  mret (if ret <? 0 then ret else if negb (ret =? 2) then - EIO else 0, buf).

Definition msleep (ms : Z) : M unit := emit (FtsSleep (1000 * ms)).
Definition usleep (us : Z) : M unit := emit (FtsSleep us).

Fixpoint wait_ready (n : nat) : M Z :=
  match n with
  | O => mret (- ETIMEDOUT)
  | S n' =>
      '(ret, ev) ← fts1ba90a_read [FTS_READ_ONE_EVENT] FTS_EVENT_SIZE;
      if negb (ret =? 0) then mret ret
      else if is_ready ev then mret 0
      else msleep 20;; wait_ready n'
  end.
Definition fts1ba90a_wait_for_ready : M Z := wait_ready 100.
Definition fts1ba90a_reset : M Z :=
  fts1ba90a_write [0xfa; 0x20; 0x00; 0x00; 0x24; 0x81] ?;
  usleep 10000;;
  fts1ba90a_wait_for_ready.
Definition fts1ba90a_sense_on : M Z :=
  fts1ba90a_write [FTS_SET_TOUCH_FUNCTION;
                   Z.lor (Z.lor FTS_TOUCHTYPE_TOUCH FTS_TOUCHTYPE_PALM) FTS_TOUCHTYPE_WET; 0] ?;
  fts1ba90a_write [FTS_CLEAR_ALL_EVENT] ?;
  fts1ba90a_write [FTS_SET_SCAN_MODE; 0x00; FTS_SCAN_MODE_MS_SS] ?;
  msleep 50;;
  mret 0.
Definition fts1ba90a_start : M Z := fts1ba90a_reset ?; fts1ba90a_sense_on.

Definition regulator_enable (r : rail) : M Z :=
  ret ← ask (rail_enable r); emit (FtsRail r true ret);; mret ret.
Definition regulator_disable (r : rail) : M Z :=
  ret ← ask (rail_disable r); emit (FtsRail r false ret);; mret ret.
Definition fts1ba90a_power_on : M Z :=
  regulator_enable VDDIO ?;
  usleep 1000;;
  ret ← regulator_enable AVDD;
  if negb (ret =? 0) then regulator_disable VDDIO;; mret ret
  else usleep 10000;; mret 0.
Definition fts1ba90a_power_off : M unit :=
  regulator_disable AVDD;;
  usleep 4000;;
  regulator_disable VDDIO;;
  skip.

Fixpoint opmode_loop (n : nat) (mode : Z) : M Z :=
  match n with
  | O => mret (- EAGAIN)
  | S n' =>
      fts1ba90a_write [FTS_SET_GET_OPMODE; mode] ?;
      (msleep 5;;
       '(ret, buf) ← fts1ba90a_read [FTS_SET_GET_OPMODE] 1;
       if (ret =? 0) && (ev_byte buf 0 =? mode) then mret 0 else opmode_loop n' mode)
  end.
Definition fts1ba90a_set_opmode (mode : Z) : M Z := opmode_loop 3 mode.
Definition fts1ba90a_write_sponge_mode (mode : Z) : M Z :=
  let hi := Z.land (Z.shiftr FTS_SPONGE_OFFSET_MODE 8) 0xff in
  let lo := Z.land FTS_SPONGE_OFFSET_MODE 0xff in
  fts1ba90a_write [FTS_SPONGE_READ_WRITE; hi; lo; mode] ?;
  fts1ba90a_write [FTS_SPONGE_NOTIFY; hi; lo].
Definition fts1ba90a_arm_gesture : M Z :=
  fts1ba90a_write_sponge_mode FTS_MODE_DOUBLETAP_WAKEUP;;
  ret ← fts1ba90a_set_opmode FTS_OPMODE_LOWPOWER;
  if negb (ret =? 0) && negb (ret =? - EAGAIN) then mret ret
  else fts1ba90a_write [FTS_WRITE_WAKEUP_GESTURE; FTS_WAKEUP_GESTURE_DOUBLETAP].
Definition fts1ba90a_disarm_gesture : M Z :=
  fts1ba90a_write [FTS_WRITE_WAKEUP_GESTURE; 0x00];;
  fts1ba90a_write_sponge_mode 0;;
  fts1ba90a_set_opmode FTS_OPMODE_NORMAL.

(** *** Reports *)

Definition report_inactive : M unit := emit (MtFinger false).
Definition touch_type (ev : list Z) : Z :=
  Z.lor (Z.shiftl (Z.shiftr (ev_byte ev 6) 6) 2) (Z.shiftr (ev_byte ev 7) 6).

Definition fts1ba90a_report_touch (ev : list Z) : M unit :=
  if negb (Z.land (ev_byte ev 0) 0x3 =? FTS_EV_COORDINATE) then skip
  else
    let slot := Z.land (Z.shiftr (ev_byte ev 0) 2) 0xf in
    if slot >=? FTS_MAX_FINGERS then skip
    else
      let ttype := touch_type ev in
      if ttype =? FTS_TTYPE_PALM then emit (MtSlot slot);; report_inactive
      else if negb ((ttype =? FTS_TTYPE_NORMAL) || (ttype =? FTS_TTYPE_GLOVE)
                    || (ttype =? FTS_TTYPE_WET)) then skip
      else
        emit (MtSlot slot);;
        let action := Z.shiftr (ev_byte ev 0) 6 in
        if action =? FTS_ACTION_RELEASE then report_inactive
        else if negb (action =? FTS_ACTION_PRESS) && negb (action =? FTS_ACTION_MOVE) then skip
        else
          let x := Z.lor (Z.shiftl (ev_byte ev 1) 4) (Z.shiftr (ev_byte ev 3) 4) in
          let y := Z.lor (Z.shiftl (ev_byte ev 2) 4) (Z.land (ev_byte ev 3) 0xf) in
          let z := Z.land (ev_byte ev 6) 0x3f in
          emit (MtFinger true);;
          emit (TouchPos x y);;
          emit (TouchMajor (ev_byte ev 4));;
          emit (TouchMinor (ev_byte ev 5));;
          emit (TouchPressure (if z =? 0 then 1 else z)).

Definition sync_frame : M unit := emit MtSyncFrame;; emit TouchSync.
Definition fts1ba90a_suppress_touch : M unit :=
  foldr (fun i k => emit (MtSlot i);; report_inactive;; k) sync_frame (seqZ 0 FTS_MAX_FINGERS).

Definition fts1ba90a_report_wake : M unit :=
  emit (WakeKey true);; emit TouchSync;;
  emit (WakeKey false);; emit TouchSync;;
  emit (WakeupEvent 200).

(** *** The interrupt *)

(** A read into the [events] buffer at [off]; the buffer has 512 bytes. *)
Definition read_into (off : Z) (cmd : list Z) (len : Z) : M Z :=
  if (off <? 0) || (FTS_FIFO_MAX * FTS_EVENT_SIZE <? off + len) then fault
  else
    '(ret, buf) ← fts1ba90a_read cmd len;
    mod_drv (fun d => d <| events ::= fun b =>
               take (Z.to_nat off) b ++ take (Z.to_nat len) buf
               ++ drop (Z.to_nat off + length (take (Z.to_nat len) buf)) b |>);;
    mret ret.
Definition event (i : Z) (b : list Z) : list Z :=
  take (Z.to_nat FTS_EVENT_SIZE) (drop (Z.to_nat (i * FTS_EVENT_SIZE)) b).

(** The loop over the events, which the pen cuts short. *)
Fixpoint handle_events (n : nat) (i : Z) : M unit :=
  match n with
  | O => skip
  | S n' =>
      ev ← gets (fun m => event i (events (drv m)));
      if fts1ba90a_is_double_tap ev then
        fts1ba90a_report_wake;; handle_events n' (i + 1)
      else
        s ← ask wacom_wez01_should_suppress_touch;
        if (s : bool) then fts1ba90a_suppress_touch
        else fts1ba90a_report_touch ev;; handle_events n' (i + 1)
  end.
(** The reading half of the handler: how many events the buffer holds, nothing when
    the first could not be read. *)
Definition read_fifo : M (option Z) :=
  ret ← read_into 0 [FTS_READ_ONE_EVENT] FTS_EVENT_SIZE;
  if negb (ret =? 0) then mret None
  else
    d ← get_drv;
    let count := Z.land (ev_byte (events d) 7) 0x3f + 1 in
    let count := if count >? FTS_FIFO_MAX then FTS_FIFO_MAX else count in
    count ← (if count >? 1 then
               ret ← read_into FTS_EVENT_SIZE [FTS_READ_ALL_EVENT] ((count - 1) * FTS_EVENT_SIZE);
               mret (if ret =? 0 then count else 1)
             else mret count);
    mret (Some count).
Definition fts1ba90a_irq_handler : M unit :=
  r ← read_fifo;
  match r with
  | None => skip
  | Some count =>
      handle_events (Z.to_nat count) 0;;
      s ← ask wacom_wez01_should_suppress_touch;
      if (s : bool) then skip else sync_frame
  end.

(** *** Configuration and power management *)

(** The version is only logged. *)
Definition fts1ba90a_report_version : M unit :=
  '(ret, _) ← fts1ba90a_read [FTS_READ_DEVICE_ID] 5;
  if negb (ret =? 0) then skip
  else fts1ba90a_read [FTS_READ_FW_VERSION] 9;; skip.

Definition double_tap_to_wake_show : M bool := d ← get_drv; mret (dtw_enabled d).
(** [parsed] is what [kstrtobool] makes of the input of [count] bytes. *)
Definition double_tap_to_wake_store (parsed : Z + bool) (count : Z) : M Z :=
  match parsed with
  | inl err => mret err
  | inr enabled => mod_drv (fun d => d <| dtw_enabled := enabled |>);; mret count
  end.

(** The answers of the kernel: [None] for a supply is success.  A probe that
    fails after the clean-up action was added powers the controller off. *)
Definition fts1ba90a_probe (functionality irq alloc_ok : bool) (avdd vddio : option Z)
    (input_ok : bool) (slots_ret action_ret irq_ret reg_ret group_ret : Z) : M Z :=
  if negb functionality then mret (- ENODEV)
  else if negb irq then mret (- EINVAL)
  else if negb alloc_ok then mret (- ENOMEM)
  else
    mod_drv (fun _ => mkFts false false (replicate 512 0));;
    match avdd, vddio with
    | Some err, _ => mret err
    | None, Some err => mret err
    | None, None =>
        if negb input_ok then mret (- ENOMEM)
        else
          emit (FtsRange 0 FTS_MAX_X);; emit (FtsRange 1 FTS_MAX_Y);;
          emit (FtsRange 2 255);; emit (FtsRange 3 255);; emit (FtsRange 4 FTS_MAX_PRESSURE);;
          if negb (slots_ret =? 0) then mret slots_ret
          else
            fts1ba90a_power_on ?;
            let failed err := fts1ba90a_power_off;; mret err in
            if negb (action_ret =? 0) then failed action_ret
            else
              ret ← fts1ba90a_start;
              if negb (ret =? 0) then failed ret
              else
                fts1ba90a_report_version;;
                if negb (irq_ret =? 0) then failed irq_ret
                else
                  emit FtsRequestIrq;;
                  if negb (reg_ret =? 0) then failed reg_ret
                  else
                    emit FtsRegister;; emit FtsWakeSource;;
                    if negb (group_ret =? 0) then failed group_ret else mret 0
    end.

Definition suspend_power_off : M Z :=
  emit (FtsIrq false);; fts1ba90a_power_off;; mret 0.
Definition irq_wake_off : M unit :=
  r ← ask disable_irq_wake; emit (FtsIrqWake false r).
(** The interrupt is a wake source now. *)
Definition suspend_arm : M Z :=
  fts1ba90a_suppress_touch;;
  ret ← fts1ba90a_arm_gesture;
  if negb (ret =? 0) then irq_wake_off;; suspend_power_off
  else mod_drv (fun d => d <| lpm_suspended := true |>);; mret 0.
Definition fts1ba90a_suspend : M Z :=
  d ← get_drv;
  may ← (if dtw_enabled d then ask device_may_wakeup else mret false);
  if negb (may : bool) then suspend_power_off
  else
    ret ← ask enable_irq_wake;
    emit (FtsIrqWake true ret);;
    if negb (ret =? 0) then suspend_power_off else suspend_arm.
Definition fts1ba90a_resume : M Z :=
  d ← get_drv;
  if lpm_suspended d then
    mod_drv (fun d => d <| lpm_suspended := false |>);;
    irq_wake_off;;
    ret ← fts1ba90a_disarm_gesture;
    (if negb (ret =? 0) then fts1ba90a_start;; skip else skip);;
    mret 0
  else
    fts1ba90a_power_on ?;
    fts1ba90a_start ?;
    (emit (FtsIrq true);;
     mret 0).
End fts.
