(* ===== verification/FtsProps.v ===== *)
(** The properties of the touchscreen driver: what it reports, how the pen silences
    it, and the balance of its rails and its interrupt over suspend and resume. *)
From S2P Require Import Prelude Bus Fts1ba90a.

(** ** What userspace sees *)

(** The current slot and the slots with a finger. *)
Definition mt_step (s : Z * gset Z) (e : fts_event) : Z * gset Z :=
  match e with
  | MtSlot i => (i, s.2)
  | MtFinger true => (s.1, {[s.1]} ∪ s.2)
  | MtFinger false => (s.1, s.2 ∖ {[s.1]})
  | _ => s
  end.
Definition fingers (l : list fts_event) : gset Z := (foldl mt_step (0, ∅) l).2.

(** Reports within the ranges of the controller. *)
Definition in_range (e : fts_event) : Prop :=
  match e with
  | MtSlot i => 0 <= i < FTS_MAX_FINGERS
  | TouchPos x y => 0 <= x < 4096 ∧ 0 <= y < 4096
  | TouchMajor v | TouchMinor v => is_u8 v
  | TouchPressure v => 1 <= v <= FTS_MAX_PRESSURE
  | _ => True
  end.
Definition no_finger (e : fts_event) : Prop := e ≠ MtFinger true.

Lemma ev_byte_range ev i : is_u8 (ev_byte ev i).
Proof. apply Z.mod_pos_bound. lia. Qed.
Lemma land_range x n : 0 <= n → 0 <= Z.land x (Z.ones n) < 2 ^ n.
Proof. intros Hn. rewrite Z.land_ones by done. apply Z.mod_pos_bound. lia. Qed.
(** Bit fields packed below one another. *)
Lemma bits_hi n a b : 0 <= n → 0 <= b < 2 ^ n → Z.shiftr (2 ^ n * a + b) n = a.
Proof.
  intros Hn Hb. rewrite Z.shiftr_div_pow2 by done. rewrite (Z.mul_comm (2 ^ n)), Z.div_add_l by lia.
  rewrite Z.div_small; lia.
Qed.
Lemma bits_lo n a b : 0 <= n → 0 <= b < 2 ^ n → Z.land (2 ^ n * a + b) (Z.ones n) = b.
Proof.
  intros Hn Hb. rewrite Z.land_ones by done. rewrite Z.add_comm, (Z.mul_comm (2 ^ n)), Z.mod_add by lia.
  by apply Z.mod_small.
Qed.
Lemma lor_fields n a b : 0 <= n → 0 <= b < 2 ^ n → Z.lor (Z.shiftl a n) b = 2 ^ n * a + b.
Proof.
  intros Hn Hb. assert (Z.land (Z.shiftl a n) b = 0) as H0.
  { apply Z.bits_inj'. intros i Hi. rewrite Z.land_spec, Z.bits_0.
    destruct (Z.lt_ge_cases i n); [by rewrite Z.shiftl_spec_low|].
    rewrite <-(Z.mod_small b (2 ^ n)) by done. rewrite Z.mod_pow2_bits_high by lia.
    apply andb_false_r. }
  pose proof (Z.add_lor_land (Z.shiftl a n) b) as H. rewrite H0, Z.add_0_r in H.
  rewrite H, Z.shiftl_mul_pow2 by done. lia.
Qed.
(** A nibble below a byte. *)
Lemma lor_nibble a b : 0 <= b < 16 → Z.lor (Z.shiftl a 4) b = 16 * a + b.
Proof. by apply (lor_fields 4). Qed.
Lemma u8_shift b n : is_u8 b → 0 <= n <= 8 → 0 <= Z.shiftr b n < 2 ^ (8 - n).
Proof.
  unfold is_u8. intros Hb Hn. rewrite Z.shiftr_div_pow2 by lia. split; [apply Z.div_pos; lia|].
  apply Z.div_lt_upper_bound; [lia|]. rewrite <-Z.pow_add_r by lia.
  replace (n + (8 - n)) with 8 by lia. lia.
Qed.

Section fts.
Context {W : Type} `{!TouchEnv W}.
Abbreviation M := (M (machine fts1ba90a W fts_event)).
Abbreviation state := (machine fts1ba90a W fts_event).

(** A call that returns, keeps the size of the buffer, and appends reports that
    satisfy [P]. *)
Definition reports (P : fts_event → Prop) {A} (c : M A) : Prop :=
  ∀ m, length (events (drv m)) = 512%nat →
  ∃ a m' l, c m = Ret (a, m') ∧ length (events (drv m')) = 512%nat
  ∧ log m' = log m ++ l ∧ Forall P l.
Lemma reports_bind P {A B} (c : M A) (k : A → M B) :
  reports P c → (∀ a, reports P (k a)) → reports P (c ≫= k).
Proof.
  intros Hc Hk m Hm. destruct (Hc m Hm) as (a & m1 & l1 & H1 & Hm1 & E1 & P1).
  destruct (Hk a m1 Hm1) as (b & m2 & l2 & H2 & Hm2 & E2 & P2).
  exists b, m2, (l1 ++ l2). rewrite (bind_ret _ _ _ _ _ H1).
  split_and!; [done|done|by rewrite E2, E1, app_assoc|by apply Forall_app].
Qed.
Lemma reports_ret P {A} (a : A) : reports P (mret a).
Proof. intros m Hm. exists a, m, []. rewrite app_nil_r. by split_and!. Qed.
Lemma reports_emit (P : fts_event → Prop) e : P e → reports P (emit e).
Proof.
  intros He m Hm. eexists _, _, [e]. split; [reflexivity|]. split_and!; [done|done|by constructor].
Qed.
Lemma reports_ask P {A} (f : W → A * W) : reports P (ask f).
Proof.
  intros m Hm. destruct m as [d w l]. rewrite ask_ret. eexists _, _, []. split; [reflexivity|].
  rewrite app_nil_r. by split_and!.
Qed.
Lemma reports_gets P {A} (f : state → A) : reports P (gets f).
Proof. intros m Hm. eexists _, _, []. split; [reflexivity|]. rewrite app_nil_r. by split_and!. Qed.
Lemma reports_if P {A} (b : bool) (c1 c2 : M A) :
  reports P c1 → reports P c2 → reports P (if b then c1 else c2).
Proof. by destruct b. Qed.
Lemma reports_read (P : fts_event → Prop) cmd len :
  (∀ r, P (FtsRead cmd len r)) → reports P (fts1ba90a_read cmd len).
Proof.
  intros HP. unfold fts1ba90a_read. apply reports_bind; [apply reports_ask|]. intros [r b].
  apply reports_bind; [by apply reports_emit|]. intros _. apply reports_ret.
Qed.
Lemma reports_into (P : fts_event → Prop) off cmd len :
  0 <= off → 0 <= len → off + len <= 512 → (∀ r, P (FtsRead cmd len r)) →
  reports P (read_into off cmd len).
Proof.
  intros Ho Hl Hol HP. unfold read_into.
  rewrite (proj2 (Z.ltb_ge off 0)), (proj2 (Z.ltb_ge _ (off + len))) by (unfold FTS_FIFO_MAX, FTS_EVENT_SIZE; lia).
  cbn [orb]. apply reports_bind; [by apply reports_read|]. intros [r b].
  apply reports_bind; [|intros _; apply reports_ret].
  intros m Hm. eexists _, _, []. split; [reflexivity|]. rewrite app_nil_r. cbn.
  split_and!; [|done|done]. rewrite !length_app, length_drop, !length_take, Hm. lia.
Qed.

(** One event. *)
Lemma touch_in_range ev : reports in_range (fts1ba90a_report_touch ev).
Proof.
  pose proof (ev_byte_range ev) as Hb. unfold fts1ba90a_report_touch.
  apply reports_if; [apply reports_ret|].
  destruct (_ >=? FTS_MAX_FINGERS) eqn:Hslot; [apply reports_ret|].
  rewrite Z.geb_leb in Hslot. apply Z.leb_gt in Hslot.
  assert (∀ k : unit → M unit, (∀ u, reports in_range (k u)) → reports in_range
    (emit (MtSlot (Z.land (Z.shiftr (ev_byte ev 0) 2) 0xf)) ≫= k)) as Hs.
  { intros k Hk. apply reports_bind; [|done]. apply reports_emit. cbn. split; [|done].
    change 0xf with (Z.ones 4). apply land_range. lia. }
  apply reports_if; [apply Hs; intros _; by apply reports_emit|].
  apply reports_if; [apply reports_ret|]. apply Hs. intros _.
  apply reports_if; [by apply reports_emit|]. apply reports_if; [apply reports_ret|].
  pose proof (u8_shift (ev_byte ev 3) 4 (Hb _) ltac:(lia)) as H3.
  assert (0 <= Z.land (ev_byte ev 3) 0xf < 16) as H3' by (apply (land_range _ 4); lia).
  assert (0 <= Z.land (ev_byte ev 6) 0x3f < 64) as H6 by (apply (land_range _ 6); lia).
  rewrite !lor_nibble by lia. change (2 ^ (8 - 4)) with 16 in H3.
  pose proof (Hb 1%nat). pose proof (Hb 2%nat). unfold is_u8 in *.
  repeat (apply reports_bind; [apply reports_emit; cbn; first [lia|apply Hb]|intros _]).
  - apply reports_emit. cbn. unfold FTS_MAX_PRESSURE. destruct (Z.eqb_spec (Z.land (ev_byte ev 6) 0x3f) 0); lia.
Qed.
Lemma suppress_ok (P : fts_event → Prop) :
  (∀ i, 0 <= i < FTS_MAX_FINGERS → P (MtSlot i)) → P (MtFinger false) → P MtSyncFrame → P TouchSync →
  reports P fts1ba90a_suppress_touch.
Proof.
  intros Hs Hf Hy Ht. unfold fts1ba90a_suppress_touch.
  assert (∀ i, i ∈ seqZ 0 FTS_MAX_FINGERS → 0 <= i < FTS_MAX_FINGERS) as Hi
    by (intros i Hi%elem_of_seqZ; lia).
  induction (seqZ 0 FTS_MAX_FINGERS) as [|i l IH]; cbn [foldr].
  - apply reports_bind; [by apply reports_emit|intros _; by apply reports_emit].
  - apply reports_bind; [apply reports_emit, Hs, Hi; by left|intros _].
    apply reports_bind; [by apply reports_emit|intros _]. apply IH. intros j Hj. apply Hi. by right.
Qed.
Lemma wake_ok (P : fts_event → Prop) :
  (∀ b, P (WakeKey b)) → P TouchSync → P (WakeupEvent 200) → reports P fts1ba90a_report_wake.
Proof.
  intros Hk Hs Hw. unfold fts1ba90a_report_wake.
  repeat (apply reports_bind; [by apply reports_emit|intros _]). by apply reports_emit.
Qed.

(** The interrupt handler. *)
Lemma events_ok (P : fts_event → Prop) n i :
  reports P fts1ba90a_report_wake → reports P fts1ba90a_suppress_touch →
  (∀ ev, reports P (fts1ba90a_report_touch ev)) → reports P (handle_events n i).
Proof.
  intros Hw Hs Ht. revert i. induction n as [|n IH]; intros i; cbn [handle_events]; [apply reports_ret|].
  apply reports_bind; [apply reports_gets|]. intros ev. apply reports_if.
  - apply reports_bind; [done|]. intros _. apply IH.
  - apply reports_bind; [apply reports_ask|]. intros b. apply reports_if; [done|].
    apply reports_bind; [apply Ht|]. intros _. apply IH.
Qed.
(** Every count the FIFO can announce fits the buffer. *)
Lemma fifo_ok (P : fts_event → Prop) ev :
  (∀ cmd n r, P (FtsRead cmd n r)) →
  let c := Z.land (ev_byte ev 7) 0x3f + 1 in
  let c := if c >? FTS_FIFO_MAX then FTS_FIFO_MAX else c in
  reports P (if c >? 1 then
               ret ← read_into FTS_EVENT_SIZE [FTS_READ_ALL_EVENT] ((c - 1) * FTS_EVENT_SIZE);
               mret (if ret =? 0 then c else 1)
             else mret c).
Proof.
  intros HP c0 c. assert (1 <= c <= 32) as Hc.
  { unfold c. pose proof (land_range (ev_byte ev 7) 6 ltac:(lia)) as H.
    change (Z.ones 6) with 0x3f in H. unfold c0, FTS_FIFO_MAX. rewrite Z.gtb_ltb.
    destruct (Z.ltb_spec 32 (Z.land (ev_byte ev 7) 0x3f + 1)); lia. }
  apply reports_if; [|apply reports_ret].
  apply reports_bind; [|intros r; apply reports_ret].
  apply reports_into; unfold FTS_EVENT_SIZE; try lia. intros r. apply HP.
Qed.
Lemma first_ok (P : fts_event → Prop) :
  (∀ cmd n r, P (FtsRead cmd n r)) → reports P (read_into 0 [FTS_READ_ONE_EVENT] FTS_EVENT_SIZE).
Proof. intros HP. apply reports_into; unfold FTS_EVENT_SIZE; try lia. intros r. apply HP. Qed.
Lemma fifo_read_ok (P : fts_event → Prop) :
  (∀ cmd n r, P (FtsRead cmd n r)) → reports P read_fifo.
Proof.
  intros HP. unfold read_fifo. apply reports_bind; [by apply first_ok|]. intros r.
  apply reports_if; [apply reports_ret|]. apply reports_bind; [apply reports_gets|]. intros d.
  apply reports_bind; [by apply fifo_ok|]. intros c. apply reports_ret.
Qed.
Lemma irq_ok (P : fts_event → Prop) :
  (∀ cmd n r, P (FtsRead cmd n r)) → (∀ n i, reports P (handle_events n i)) →
  P MtSyncFrame → P TouchSync → reports P fts1ba90a_irq_handler.
Proof.
  intros HP He Hf Hs. unfold fts1ba90a_irq_handler.
  apply reports_bind; [by apply fifo_read_ok|]. intros [c|]; [|apply reports_ret].
  apply reports_bind; [apply He|]. intros _.
  apply reports_bind; [apply reports_ask|]. intros b. apply reports_if; [apply reports_ret|].
  apply reports_bind; [by apply reports_emit|]. intros _. by apply reports_emit.
Qed.

(** *** The pen in range *)

Definition suppress_log : list fts_event :=
  concat ((fun i => [MtSlot i; MtFinger false]) <$> seqZ 0 FTS_MAX_FINGERS) ++ [MtSyncFrame; TouchSync].
Lemma suppress_run (d : fts1ba90a) (w : W) l :
  fts1ba90a_suppress_touch (mkM d w l) = Ret (tt, mkM d w (l ++ suppress_log)).
Proof.
  unfold fts1ba90a_suppress_touch, suppress_log. revert l.
  induction (seqZ 0 FTS_MAX_FINGERS) as [|i s IH]; intros l; cbn [foldr].
  - cbn. unfold sync_frame. erewrite bind_ret by reflexivity. unfold emit, modify. cbn.
    by rewrite <-app_assoc.
  - erewrite bind_ret by reflexivity. erewrite bind_ret by reflexivity. cbn [drv wld log over_field].
    transitivity (foldr (λ (i0 : Z) (k : M ()), emit (MtSlot i0) ≫= (λ _, report_inactive ≫= (λ _, k)))
      sync_frame s (mkM d w ((l ++ [MtSlot i]) ++ [MtFinger false]))); [reflexivity|].
    rewrite IH. cbn. by rewrite <-!app_assoc.
Qed.
Lemma fingers_in_range l : Forall in_range l →
  let s := foldl mt_step (0, ∅) l in
  0 <= s.1 < FTS_MAX_FINGERS ∧ ∀ i, i ∈ s.2 → 0 <= i < FTS_MAX_FINGERS.
Proof.
  intros Hl. induction l as [|e l IH] using rev_ind; [split; [done|set_solver]|].
  apply Forall_app in Hl as [Hl He]. rewrite Forall_singleton in He. specialize (IH Hl).
  rewrite foldl_app. cbn zeta in *. destruct (foldl mt_step (0, ∅) l) as [c s]. destruct IH as [Hc Hs].
  cbn in Hc, Hs. destruct e as [| | | | | |i|[]| | | | | | | | | | | |]; cbn; split; try done; set_solver by lia.
Qed.
Lemma releases_clear js c s :
  (foldl mt_step (c, s) (concat ((fun i => [MtSlot i; MtFinger false]) <$> js))).2
  = s ∖ list_to_set js.
Proof.
  revert c s. induction js as [|j js IH]; intros c s; cbn; [set_solver|].
  rewrite IH. cbn. set_solver.
Qed.
Lemma suppress_clears l : Forall in_range l → fingers (l ++ suppress_log) = ∅.
Proof.
  intros Hl. apply fingers_in_range in Hl as [_ Hs]. unfold fingers, suppress_log.
  rewrite !foldl_app. destruct (foldl mt_step (0, ∅) l) as [c s]. cbn in Hs.
  change (foldl mt_step ?x [MtSyncFrame; TouchSync]) with x. rewrite releases_clear.
  apply elem_of_equiv_empty_L. intros j. rewrite elem_of_difference, elem_of_list_to_set, elem_of_seqZ.
  intros [Hj Hn]. apply Hn. specialize (Hs j Hj). lia.
Qed.

(** Reports that do not concern fingers. *)
Definition fingerless (e : fts_event) : Prop :=
  match e with FtsRead _ _ _ | WakeKey _ | TouchSync | WakeupEvent _ => True | _ => False end.
(** Event number [j] of the buffer is a double tap. *)
Definition is_tap (m : state) (j : Z) : bool := fts1ba90a_is_double_tap (event j (events (drv m))).
Lemma wake_run (d : fts1ba90a) (w : W) l :
  fts1ba90a_report_wake (mkM d w l)
  = Ret (tt, mkM d w (l ++ [WakeKey true; TouchSync; WakeKey false; TouchSync; WakeupEvent 200])).
Proof.
  unfold fts1ba90a_report_wake. do 4 (erewrite bind_ret by reflexivity).
  unfold emit, modify. cbn. by rewrite <-!app_assoc.
Qed.
Lemma events_pen n i (m : state) :
  (∀ w : W, (wacom_wez01_should_suppress_touch w).1 = true) →
  ∃ m' l1, handle_events n i m = Ret (tt, m') ∧ Forall fingerless l1
  ∧ log m' = log m ++ l1 ++
      if forallb (is_tap m) (seqZ i (Z.of_nat n)) then [] else suppress_log.
Proof.
  intros Hpen. revert i m. induction n as [|n IH]; intros i m; cbn [handle_events].
  { exists m, []. split_and!; [done|constructor|]. cbn. by rewrite app_nil_r. }
  erewrite bind_ret by reflexivity. rewrite Nat2Z.inj_succ, seqZ_cons by lia.
  rewrite Z.pred_succ. cbn [forallb]. change (is_tap m i) with
    (fts1ba90a_is_double_tap (event i (events (drv m)))).
  destruct (fts1ba90a_is_double_tap _); cbn [andb].
  - destruct m as [d w l]. rewrite (bind_ret _ _ _ _ _ (wake_run d w l)).
    destruct (IH (i + 1) (mkM d w (l ++ [WakeKey true; TouchSync; WakeKey false; TouchSync;
      WakeupEvent 200]))) as (m2 & l2 & H2 & P2 & E2).
    exists m2, ([WakeKey true; TouchSync; WakeKey false; TouchSync; WakeupEvent 200] ++ l2).
    split_and!; [done|apply Forall_app; split; [by repeat constructor|done]|].
    cbn [log] in E2. rewrite E2, Z.add_1_r, <-!app_assoc. done.
  - destruct m as [d w l]. ask_run Hpen w'. exists (mkM d w' (l ++ suppress_log)), [].
    split_and!; [by apply suppress_run|constructor|done].
Qed.
End fts.

(** ** The properties *)

Section properties.
Context {W : Type} `{!TouchEnv W}.
Abbreviation state := (machine fts1ba90a W fts_event).

(** C38: whatever the controller sends and however many events it announces, the
    interrupt handler returns, every read stays inside the buffer of 32 events,
    and every report is in range: ten slots, twelve-bit coordinates, contact
    axes of a byte and a pressure of 1 to 63, never the 0 that means no contact. *)
Theorem touch_reports_in_range (m : state) :
  length (events (drv m)) = 512%nat →
  ∃ m' l, fts1ba90a_irq_handler m = Ret (tt, m') ∧ length (events (drv m')) = 512%nat
  ∧ log m' = log m ++ l ∧ Forall in_range l.
Proof.
  intros Hm. destruct (irq_ok in_range) with m as ([] & m' & l & H); [done| |done..|eauto].
  intros n i. apply events_ok; [by apply wake_ok|by apply suppress_ok|apply touch_in_range].
Qed.

(** C22: palm rejection.  While the pen is in range the handler reports no finger;
    if among the events it got out of the FIFO there is one that is not a double
    tap it lifts all ten fingers, whatever had been reported before, and otherwise
    (nothing but double taps, or nothing could be read) it reports nothing about
    fingers at all: only the double tap that wakes the tablet gets through. *)
Theorem pen_silences_fingers (m : state) :
  (∀ w : W, (wacom_wez01_should_suppress_touch w).1 = true) →
  length (events (drv m)) = 512%nat → Forall in_range (log m) →
  ∃ m1 count m' l, read_fifo m = Ret (count, m1)
  ∧ fts1ba90a_irq_handler m = Ret (tt, m') ∧ log m' = log m ++ l ∧ Forall no_finger l
  ∧ ((∃ n j, count = Some n ∧ 0 <= j < n ∧ is_tap m1 j = false) → fingers (log m') = ∅)
  ∧ ((∀ n j, count = Some n → 0 <= j < n → is_tap m1 j = true) → Forall fingerless l).
Proof.
  intros Hpen Hm Hlog.
  destruct (fifo_read_ok fingerless) with m as (c & m1 & l1 & H1 & Hm1 & E1 & P1); [done..|].
  assert (∀ l, Forall fingerless l → Forall no_finger l ∧ Forall in_range l) as Hless.
  { intros l Hl. split; (eapply Forall_impl; [exact Hl|]; by intros []). }
  unfold fts1ba90a_irq_handler. rewrite (bind_ret _ _ _ _ _ H1). destruct c as [n|].
  2:{ exists m1, None, m1, l1. split_and!; [done|done|done|by apply Hless| |done].
      intros (n & j & [=] & _). }
  destruct (events_pen (Z.to_nat n) 0 m1 Hpen) as (m2 & l2 & H2 & P2 & E2).
  rewrite (bind_ret _ _ _ _ _ H2). destruct m2 as [d w l]. ask_run Hpen w'. cbn [log] in E2.
  assert (Forall fingerless (l1 ++ l2)) as P12 by (by apply Forall_app).
  set (tail := if forallb _ _ then [] else suppress_log) in E2.
  exists m1, (Some n), (mkM d w' l), ((l1 ++ l2) ++ tail). cbn [log].
  assert (l = log m ++ (l1 ++ l2) ++ tail) as El by (by rewrite E2, E1, <-!app_assoc).
  split_and!; [done|done|done| | |].
  - apply Forall_app. split; [by apply Hless|]. unfold tail.
    destruct (forallb _ _); by repeat constructor.
  - intros (n' & j & [= <-] & Hj & Ht). unfold tail in El.
    assert (forallb (is_tap m1) (seqZ 0 (Z.of_nat (Z.to_nat n))) = false) as Hf.
    { apply not_true_iff_false. rewrite forallb_forall. intros Hall.
      rewrite Hall in Ht; [done|]. apply list_elem_of_In, elem_of_seqZ. lia. }
    rewrite Hf in El. rewrite El, app_assoc. apply suppress_clears, Forall_app.
    split; [done|by apply Hless].
  - intros Hall. apply Forall_app. split; [done|]. unfold tail.
    rewrite (proj2 (forallb_forall _ _)); [constructor|]. intros j Hj.
    apply list_elem_of_In, elem_of_seqZ in Hj. apply (Hall n); [done|lia].
Qed.

(** A coordinate event as the controller packs it. *)
Definition encode (slot action ttype x y major minor z : Z) : list Z :=
  [4 * slot + 64 * action; x / 16; y / 16; 16 * (x mod 16) + y mod 16; major; minor;
   64 * (ttype / 4) + z; 64 * (ttype mod 4)] ++ replicate 8 0.
(** What should be reported of it. *)
Definition touch_spec (slot action ttype x y major minor z : Z) : list fts_event :=
  if FTS_MAX_FINGERS <=? slot then []
  else if ttype =? FTS_TTYPE_PALM then [MtSlot slot; MtFinger false]
  else if negb (existsb (Z.eqb ttype) [FTS_TTYPE_NORMAL; FTS_TTYPE_GLOVE; FTS_TTYPE_WET]) then []
  else MtSlot slot ::
    (if action =? FTS_ACTION_RELEASE then [MtFinger false]
     else if (action =? FTS_ACTION_PRESS) || (action =? FTS_ACTION_MOVE) then
       [MtFinger true; TouchPos x y; TouchMajor major; TouchMinor minor; TouchPressure (Z.max z 1)]
     else []).

(** A coordinate event says what the controller packed into it: the slot, the
    twelve bits of each coordinate, the contact's axes and pressure come back from
    the sixteen bytes; palms and releases lift the finger of their slot, slots
    and types the panel does not have are dropped. *)
Theorem touch_round_trip slot action ttype x y major minor z (m : state) :
  0 <= slot < 16 → 0 <= action < 4 → 0 <= ttype < 16 → 0 <= x < 4096 → 0 <= y < 4096 →
  is_u8 major → is_u8 minor → 0 <= z <= FTS_MAX_PRESSURE →
  fts1ba90a_report_touch (encode slot action ttype x y major minor z) m
  = Ret (tt, m <| log := log m ++ touch_spec slot action ttype x y major minor z |>).
Proof.
  intros Hs Ha Ht Hx Hy Hma Hmi Hz. unfold is_u8, FTS_MAX_PRESSURE in *.
  unfold fts1ba90a_report_touch, touch_type.
  assert (∀ i v, encode slot action ttype x y major minor z !! i = Some v → 0 <= v < 256 →
    ev_byte (encode slot action ttype x y major minor z) i = v) as Hb.
  { intros i v Hi Hv. unfold ev_byte. rewrite Hi. apply Z.mod_small. exact Hv. }
  pose proof (Z.div_mod x 16 ltac:(lia)). pose proof (Z.mod_pos_bound x 16 ltac:(lia)).
  pose proof (Z.div_mod y 16 ltac:(lia)). pose proof (Z.mod_pos_bound y 16 ltac:(lia)).
  pose proof (Z.div_mod ttype 4 ltac:(lia)). pose proof (Z.mod_pos_bound ttype 4 ltac:(lia)).
  rewrite (Hb 0%nat (4 * slot + 64 * action) eq_refl), (Hb 1%nat (x / 16) eq_refl),
    (Hb 2%nat (y / 16) eq_refl), (Hb 3%nat (16 * (x mod 16) + y mod 16) eq_refl),
    (Hb 4%nat major eq_refl), (Hb 5%nat minor eq_refl), (Hb 6%nat (64 * (ttype / 4) + z) eq_refl),
    (Hb 7%nat (64 * (ttype mod 4)) eq_refl) by lia.
  clear Hb.
  assert (Z.land (4 * slot + 64 * action) 0x3 = 0) as ->.
  { replace (4 * slot + 64 * action) with (2 ^ 2 * (slot + 16 * action) + 0) by lia. by apply (bits_lo 2). }
  assert (Z.land (Z.shiftr (4 * slot + 64 * action) 2) 0xf = slot) as ->.
  { replace (4 * slot + 64 * action) with (2 ^ 2 * (slot + 16 * action) + 0) by lia.
    rewrite bits_hi by lia. replace (slot + 16 * action) with (2 ^ 4 * action + slot) by lia.
    by apply (bits_lo 4). }
  assert (Z.shiftr (4 * slot + 64 * action) 6 = action) as ->.
  { rewrite Z.add_comm. apply (bits_hi 6); lia. }
  rewrite (bits_hi 6) by lia. rewrite <-(Z.add_0_r (64 * (ttype mod 4))), (bits_hi 6) by lia.
  rewrite (lor_fields 2) by lia. change (2 ^ 2) with 4. replace (4 * (ttype / 4) + ttype mod 4) with ttype by lia.
  rewrite (bits_hi 4), (bits_lo 4 (x mod 16)) by lia.
  assert (Z.land (64 * (ttype / 4) + z) 0x3f = z) as -> by (apply (bits_lo 6); lia).
  rewrite !lor_nibble by lia. rewrite <-!Z.div_mod by lia. cbn [Z.eqb negb FTS_EV_COORDINATE].
  rewrite Z.geb_leb. destruct m as [d w l].
  assert (∀ es, foldr (fun e k => emit e;; k) (mret tt) es (mkM d w l) = Ret (tt, mkM (W := W) d w (l ++ es))) as Hes.
  { intros es. revert l. induction es as [|e es IH]; intros l; cbn [foldr]; [by rewrite app_nil_r|].
    erewrite bind_ret by reflexivity. etransitivity; [apply (IH (l ++ [e]))|].
    by rewrite <-app_assoc. }
  cbn [log over_field].
  transitivity (Ret (tt, mkM d w (l ++ touch_spec slot action ttype x y major minor z))); [|done].
  rewrite <-Hes. unfold touch_spec. cbn [existsb]. rewrite orb_false_r, orb_assoc.
  destruct (FTS_MAX_FINGERS <=? slot); [done|]. destruct (ttype =? FTS_TTYPE_PALM); [done|].
  destruct (negb _); [done|]. destruct (action =? FTS_ACTION_RELEASE); [done|].
  replace (Z.max z 1) with (if z =? 0 then 1 else z) by (destruct (Z.eqb_spec z 0); lia).
  by destruct (action =? FTS_ACTION_PRESS), (action =? FTS_ACTION_MOVE).
Qed.
End properties.

(** ** The pen hovers while a palm rests on the screen *)

(** The world: whether the pen is in range; the FIFO holds two coordinate events. *)
#[export] Instance palm_touch : TouchEnv bool := {|
  touch_send cmd w := (Z.of_nat (length cmd), w);
  touch_transfer _ n w :=
    ((2, if n =? 16 then encode 0 1 0 100 200 5 5 30 else encode 1 1 0 300 400 5 5 30), w);
  rail_enable _ w := (0, w);
  rail_disable _ w := (0, w);
  enable_irq_wake w := (0, w);
  disable_irq_wake w := (0, w);
  device_may_wakeup w := (true, w);
  wacom_wez01_should_suppress_touch w := (true, w);
|}.
Definition touched : machine fts1ba90a bool fts_event :=
  mkM (mkFts false false (replicate 512 0)) true [MtSlot 3; MtFinger true].

Lemma touch_reports_in_range_witness :
  length (events (drv touched)) = 512%nat
  ∧ ∃ m' l, fts1ba90a_irq_handler touched = Ret (tt, m')
    ∧ log m' = log touched ++ l ∧ Forall in_range l.
Proof.
  split; [reflexivity|].
  destruct (touch_reports_in_range touched eq_refl) as (m' & l & H & _ & E & P).
  exists m', l. split; [exact H|]. split; [exact E|exact P].
Defined.

Lemma pen_silences_fingers_witness :
  fingers (log touched) = {[3]}
  ∧ ∃ m', fts1ba90a_irq_handler touched = Ret (tt, m') ∧ fingers (log m') = ∅.
Proof.
  split; [vm_compute; reflexivity|].
  destruct (pen_silences_fingers touched) as (m1 & c & m' & l & H1 & H & E & _ & Hf & _).
  - intros w. reflexivity.
  - reflexivity.
  - unfold touched. repeat constructor; cbn; lia.
  - exists m'. split; [exact H|]. apply Hf. vm_compute in H1. injection H1 as <- <-.
    exists 1, 0. split; [reflexivity|]. split; [lia|]. vm_compute. reflexivity.
Defined.

Lemma touch_round_trip_witness :
  fts1ba90a_report_touch (encode 2 FTS_ACTION_PRESS FTS_TTYPE_NORMAL 1599 2559 7 9 0) touched
  = Ret (tt, touched <| log := [MtSlot 3; MtFinger true; MtSlot 2; MtFinger true;
                                TouchPos 1599 2559; TouchMajor 7; TouchMinor 9; TouchPressure 1] |>).
Proof.
  rewrite (touch_round_trip 2 FTS_ACTION_PRESS FTS_TTYPE_NORMAL 1599 2559 7 9 0 touched);
    [vm_compute; reflexivity|..]; unfold is_u8, FTS_ACTION_PRESS, FTS_TTYPE_NORMAL, FTS_MAX_PRESSURE; lia.
Defined.
