(* ===== verification/FtsPower.v ===== *)
(** The rails and the interrupt of the touchscreen over probe, suspend and resume. *)
From S2P Require Import Prelude Bus Fts1ba90a.

(** ** The books

    References to the rails, how often the interrupt was disabled, and how often
    it was made a wake source, as the driver keeps them: every call that gives
    something back counts, whether the kernel did it or not. *)
Record ledger := mkLedger { avdd : Z; vddio : Z; disabled : Z; wake : Z }.
Definition book_step (b : ledger) (e : fts_event) : ledger :=
  match e with
  | FtsRail r on ret =>
      let n := if on then (if ret =? 0 then 1 else 0) else -1 in
      match r with
      | AVDD => mkLedger (avdd b + n) (vddio b) (disabled b) (wake b)
      | VDDIO => mkLedger (avdd b) (vddio b + n) (disabled b) (wake b)
      end
  | FtsIrq on => mkLedger (avdd b) (vddio b) (disabled b + if on then -1 else 1) (wake b)
  | FtsIrqWake true ret => mkLedger (avdd b) (vddio b) (disabled b) (wake b + if ret =? 0 then 1 else 0)
  | FtsIrqWake false _ => mkLedger (avdd b) (vddio b) (disabled b) (wake b - 1)
  | _ => b
  end.
Definition book (l : list fts_event) : ledger := foldl book_step (mkLedger 0 0 0 0) l.
Lemma book_snoc l e : book (l ++ [e]) = book_step (book l) e.
Proof. unfold book. by rewrite foldl_app. Qed.

(** What the kernel really holds: the calls that succeeded; and how many that give
    something back were refused, which the driver does not look at. *)
Inductive resource := Rail (r : rail) | WakeSource.
Definition acquire (x : resource) (e : fts_event) : option (bool * Z) :=
  match x, e with
  | Rail AVDD, FtsRail AVDD on ret | Rail VDDIO, FtsRail VDDIO on ret => Some (on, ret)
  | WakeSource, FtsIrqWake on ret => Some (on, ret)
  | _, _ => None
  end.
Definition refs_step (x : resource) (n : Z) (e : fts_event) : Z :=
  match acquire x e with
  | Some (on, ret) => if ret =? 0 then (if on then n + 1 else n - 1) else n
  | None => n
  end.
Definition refs (x : resource) (l : list fts_event) : Z := foldl (refs_step x) 0 l.
Definition kept_step (x : resource) (n : Z) (e : fts_event) : Z :=
  match acquire x e with Some (false, ret) => if ret =? 0 then n else n + 1 | _ => n end.
Definition kept (x : resource) (l : list fts_event) : Z := foldl (kept_step x) 0 l.
Definition booked (x : resource) (b : ledger) : Z :=
  match x with Rail AVDD => avdd b | Rail VDDIO => vddio b | WakeSource => wake b end.

(** The difference between the driver's books and the kernel's is what was kept. *)
Lemma refs_booked x l : refs x l = booked x (book l) + kept x l.
Proof.
  induction l as [|e l IH] using rev_ind; [by destruct x as [[]|]|].
  unfold refs, kept in *. rewrite book_snoc, !foldl_app. cbn [foldl]. rewrite IH.
  generalize (foldl (kept_step x) 0 l), (book l). intros n b.
  unfold refs_step, kept_step, acquire, booked, book_step.
  destruct x as [[]|], e as [| | |[] on ret| |on ret| | | | | | | | | | | | | |];
    try (cbn; lia); destruct on; cbn; destruct (ret =? 0); lia.
Qed.
(** [n] references to each rail, [k] as a wake source, but for what was kept; the
    interrupt disabled [i] times. *)
Definition powered (n i k : Z) (l : list fts_event) : Prop :=
  (∀ r, refs (Rail r) l = n + kept (Rail r) l)
  ∧ refs WakeSource l = k + kept WakeSource l ∧ disabled (book l) = i.
Lemma powered_book n i k l : book l = mkLedger n n i k → powered n i k l.
Proof.
  intros H. unfold powered. split_and!; [intros r|..]; rewrite ?refs_booked, H; [by destruct r|done..].
Qed.

Section power.
Context {W : Type} `{!TouchEnv W}.
Abbreviation M := (M (machine fts1ba90a W fts_event)).
Abbreviation state := (machine fts1ba90a W fts_event).

(** A call that leaves the books and the suspend flag alone. *)
Definition calm (m m' : state) : Prop :=
  lpm_suspended (drv m') = lpm_suspended (drv m) ∧ book (log m') = book (log m).
#[export] Instance calm_preorder : PreOrder calm.
Proof. split; [by intros m|]. intros m1 m2 m3 [] []. split; congruence. Qed.
Lemma fts_calm_ask {A} (f : W → A * W) : respects calm (ask (D := fts1ba90a) (E := fts_event) f).
Proof. intros m a m'. unfold ask. destruct (f (wld m)). by intros [= _ <-]. Qed.
Lemma fts_calm_emit e :
  (∀ b, book_step b e = b) → respects calm (emit (D := fts1ba90a) (W := W) e).
Proof.
  intros He m a m' [= _ <-]. split; [done|].
  change (book (log m ++ [e]) = book (log m)). by rewrite book_snoc.
Qed.
Lemma fts_calm_get : respects calm (get_drv (D := fts1ba90a) (W := W) (E := fts_event)).
Proof. unfold get_drv. resp. Qed.
Lemma fts_calm_mod f :
  (∀ d, lpm_suspended (f d) = lpm_suspended d) →
  respects calm (mod_drv (D := fts1ba90a) (W := W) (E := fts_event) f).
Proof. intros Hf m a m' [= _ <-]. split; [apply Hf|done]. Qed.
Ltac calm :=
  repeat first [ solve [eauto 3 with resp] | resp_step | apply fts_calm_ask | apply fts_calm_get
               | apply fts_calm_mod; intros d; reflexivity | apply fts_calm_emit; reflexivity ].
Lemma fts_calm_write cmd : respects calm (fts1ba90a_write (W := W) cmd).
Proof. unfold fts1ba90a_write. calm. Qed.
Lemma fts_calm_read cmd n : respects calm (fts1ba90a_read (W := W) cmd n).
Proof. unfold fts1ba90a_read. calm. Qed.
Lemma calm_msleep n : respects calm (msleep (W := W) n).
Proof. by apply fts_calm_emit. Qed.
Lemma calm_usleep n : respects calm (usleep (W := W) n).
Proof. by apply fts_calm_emit. Qed.
Hint Resolve fts_calm_write fts_calm_read calm_msleep calm_usleep : resp.
Lemma fts_calm_start : respects calm (fts1ba90a_start (W := W)).
Proof.
  unfold fts1ba90a_start, fts1ba90a_reset, fts1ba90a_wait_for_ready, fts1ba90a_sense_on.
  assert (respects calm (wait_ready (W := W) 100)) as Hw.
  { generalize 100%nat. intros n. induction n as [|n IH]; cbn [wait_ready]; calm. }
  calm.
Qed.
Lemma calm_opmode mode : respects calm (fts1ba90a_set_opmode (W := W) mode).
Proof.
  unfold fts1ba90a_set_opmode. generalize 3%nat. intros n.
  induction n as [|n IH]; cbn [opmode_loop]; calm.
Qed.
Lemma calm_sponge mode : respects calm (fts1ba90a_write_sponge_mode (W := W) mode).
Proof. unfold fts1ba90a_write_sponge_mode. cbv zeta. calm. Qed.
Hint Resolve fts_calm_start calm_opmode calm_sponge : resp.
Lemma calm_arm : respects calm (fts1ba90a_arm_gesture (W := W)).
Proof. unfold fts1ba90a_arm_gesture. calm. Qed.
Lemma calm_disarm : respects calm (fts1ba90a_disarm_gesture (W := W)).
Proof. unfold fts1ba90a_disarm_gesture. calm. Qed.
Lemma calm_suppress : respects calm (fts1ba90a_suppress_touch (W := W)).
Proof.
  unfold fts1ba90a_suppress_touch, sync_frame, report_inactive.
  induction (seqZ 0 FTS_MAX_FINGERS) as [|i l IH]; cbn [foldr]; calm.
Qed.
Lemma calm_touch ev : respects calm (fts1ba90a_report_touch (W := W) ev).
Proof. unfold fts1ba90a_report_touch, report_inactive. cbv zeta. calm. Qed.
Hint Resolve calm_suppress calm_touch : resp.
Lemma calm_events n i : respects calm (handle_events (W := W) n i).
Proof.
  revert i. induction n as [|n IH]; intros i; cbn [handle_events]; [calm|].
  unfold fts1ba90a_report_wake. calm.
Qed.
Hint Resolve calm_events : resp.
Lemma calm_irq : respects calm (fts1ba90a_irq_handler (W := W)).
Proof. unfold fts1ba90a_irq_handler, read_fifo, read_into, sync_frame. cbv zeta. calm. Qed.
Lemma calm_version : respects calm (fts1ba90a_report_version (W := W)).
Proof. unfold fts1ba90a_report_version. calm. Qed.

(** ** What moves the books *)

Definition add (b : ledger) (a v i k : Z) : ledger :=
  mkLedger (avdd b + a) (vddio b + v) (disabled b + i) (wake b + k).
(** [m'] is [m] with the books moved by these amounts. *)
Definition moved (a v i k : Z) (m m' : state) : Prop :=
  lpm_suspended (drv m') = lpm_suspended (drv m) ∧ book (log m') = add (book (log m)) a v i k.
Lemma moved_calm m m' : moved 0 0 0 0 m m' ↔ calm m m'.
Proof.
  unfold moved, calm, add. rewrite !Z.add_0_r. by destruct (book (log m)).
Qed.
Lemma moved_trans a v i k a' v' i' k' m1 m2 m3 :
  moved a v i k m1 m2 → moved a' v' i' k' m2 m3 →
  moved (a + a') (v + v') (i + i') (k + k') m1 m3.
Proof.
  intros [H1 B1] [H2 B2]. split; [congruence|]. rewrite B2, B1. unfold add. cbn. f_equal; lia.
Qed.
Lemma moved_to a v i k a' v' i' k' m m' :
  moved a' v' i' k' m m' → a' = a → v' = v → i' = i → k' = k → moved a v i k m m'.
Proof. by intros ? -> -> -> ->. Qed.
Lemma emit_moved a v i k e (m m' : state) :
  (∀ b, book_step b e = add b a v i k) → emit e m = Ret (tt, m') → moved a v i k m m'.
Proof.
  intros He [= <-]. split; [done|]. change (book (log m ++ [e]) = add (book (log m)) a v i k).
  by rewrite book_snoc.
Qed.
Lemma disable_moved r (m m' : state) ret :
  regulator_disable r m = Ret (ret, m') →
  match r with AVDD => moved (-1) 0 0 0 | VDDIO => moved 0 (-1) 0 0 end m m'.
Proof.
  unfold regulator_disable. destruct m as [d w l]. rewrite (bind_ret _ _ _ _ _ (ask_ret _ _ _ _)).
  intros H. apply bind_inv in H as ([] & m1 & H & [= <- <-]).
  destruct r; apply emit_moved with (2 := H); intros b; unfold add; cbn; f_equal; lia.
Qed.
Lemma off_moved (m m' : state) :
  fts1ba90a_power_off m = Ret (tt, m') → moved (-1) (-1) 0 0 m m'.
Proof.
  unfold fts1ba90a_power_off. intros H.
  apply bind_inv in H as (r1 & m1 & H1 & H). apply disable_moved in H1.
  apply bind_inv in H as ([] & m2 & H2 & H). apply calm_usleep, moved_calm in H2.
  apply bind_inv in H as (r3 & m3 & H3 & H). apply disable_moved in H3. injection H as <-.
  exact (moved_trans _ _ _ _ _ _ _ _ _ _ _ H1 (moved_trans _ _ _ _ _ _ _ _ _ _ _ H2 H3)).
Qed.
Lemma enable_moved r (m m' : state) ret :
  regulator_enable r m = Ret (ret, m') →
  let n := if ret =? 0 then 1 else 0 in
  match r with AVDD => moved n 0 0 0 | VDDIO => moved 0 n 0 0 end m m'.
Proof.
  unfold regulator_enable. destruct m as [d w l]. rewrite (bind_ret _ _ _ _ _ (ask_ret _ _ _ _)).
  intros H. apply bind_inv in H as ([] & m1 & H & [= <- <-]).
  destruct r; apply emit_moved with (2 := H); intros b; unfold add; cbn; f_equal; lia.
Qed.
Lemma on_moved (m m' : state) ret :
  fts1ba90a_power_on m = Ret (ret, m') →
  let n := if ret =? 0 then 1 else 0 in moved n n 0 0 m m'.
Proof.
  unfold fts1ba90a_power_on. intros H.
  apply bind_inv in H as (r1 & m1 & H1 & H). apply enable_moved in H1. cbn in H1.
  destruct (Z.eqb_spec r1 0) as [->|Hr1]; cycle 1.
  { injection H as <- <-. by rewrite (proj2 (Z.eqb_neq r1 0)). }
  apply bind_inv in H as ([] & m2 & H2 & H). apply calm_usleep, moved_calm in H2.
  pose proof (moved_trans _ _ _ _ _ _ _ _ _ _ _ H1 H2) as H12. clear H1 H2.
  apply bind_inv in H as (r3 & m3 & H3 & H). apply enable_moved in H3. cbn in H3.
  destruct (Z.eqb_spec r3 0) as [->|Hr3]; cbn [negb] in H.
  - apply bind_inv in H as ([] & m4 & H4 & H). apply calm_usleep, moved_calm in H4. injection H as <- <-.
    exact (moved_trans _ _ _ _ _ _ _ _ _ _ _ H12 (moved_trans _ _ _ _ _ _ _ _ _ _ _ H3 H4)).
  - apply bind_inv in H as (r4 & m4 & H4 & H). apply disable_moved in H4. injection H as <- <-.
    rewrite (proj2 (Z.eqb_neq r3 0)) by done.
    exact (moved_trans _ _ _ _ _ _ _ _ _ _ _ H12 (moved_trans _ _ _ _ _ _ _ _ _ _ _ H3 H4)).
Qed.
Lemma wake_off_moved (m m' : state) : irq_wake_off m = Ret (tt, m') → moved 0 0 0 (-1) m m'.
Proof.
  unfold irq_wake_off. destruct m as [d w l]. rewrite (bind_ret _ _ _ _ _ (ask_ret _ _ _ _)).
  intros H. apply (emit_moved 0 0 0 (-1)) in H; [done|]. intros b. unfold add. cbn. f_equal; lia.
Qed.
Lemma suspend_off_moved (m m' : state) ret :
  suspend_power_off m = Ret (ret, m') → ret = 0 ∧ moved (-1) (-1) 1 0 m m'.
Proof.
  unfold suspend_power_off. intros H. apply bind_inv in H as ([] & m1 & H1 & H).
  apply (emit_moved 0 0 1 0) in H1; [|intros b; unfold add; cbn; f_equal; lia].
  apply bind_inv in H as ([] & m2 & H2 & H). apply off_moved in H2. injection H as <- <-.
  split; [done|]. exact (moved_trans _ _ _ _ _ _ _ _ _ _ _ H1 H2).
Qed.

(** ** The books over suspend and resume *)

(** What suspend may do to the books, from [m0]. *)
Definition suspended (m0 m' : state) : Prop :=
  if lpm_suspended (drv m') then book (log m') = add (book (log m0)) 0 0 0 1
  else moved (-1) (-1) 1 0 m0 m'.
Lemma arm_moved (m0 m m' : state) ret :
  suspend_arm m = Ret (ret, m') → lpm_suspended (drv m0) = false → moved 0 0 0 1 m0 m →
  ret = 0 ∧ suspended m0 m'.
Proof.
  unfold suspend_arm. intros H Hl M0.
  apply bind_inv in H as ([] & m1 & H1 & H). apply calm_suppress, moved_calm in H1.
  apply bind_inv in H as (r & m2 & H2 & H). apply calm_arm, moved_calm in H2.
  assert (moved 0 0 0 1 m0 m2) as M2.
  { eapply moved_to; [exact (moved_trans _ _ _ _ _ _ _ _ _ _ _ M0
      (moved_trans _ _ _ _ _ _ _ _ _ _ _ H1 H2))|lia..]. }
  clear M0 H1 H2. destruct (r =? 0); cbn [negb] in H.
  - apply bind_inv in H as ([] & m3 & H3 & H). injection H as <- <-. injection H3 as <-.
    split; [done|]. exact (proj2 M2).
  - apply bind_inv in H as ([] & m3 & H3 & H). apply wake_off_moved in H3.
    apply suspend_off_moved in H as [-> H]. split; [done|].
    assert (moved (-1) (-1) 1 0 m0 m') as Mo.
    { eapply moved_to; [exact (moved_trans _ _ _ _ _ _ _ _ _ _ _ M2
        (moved_trans _ _ _ _ _ _ _ _ _ _ _ H3 H))|lia..]. }
    unfold suspended. pose proof (proj1 Mo) as E. by rewrite E, Hl.
Qed.
Lemma off_suspended (m m0 m' : state) ret :
  suspend_power_off m0 = Ret (ret, m') → lpm_suspended (drv m) = false → moved 0 0 0 0 m m0 →
  ret = 0 ∧ suspended m m'.
Proof.
  intros H1 Hl H0. apply suspend_off_moved in H1 as [-> H1]. split; [done|].
  assert (moved (-1) (-1) 1 0 m m') as Mo
    by (eapply moved_to; [exact (moved_trans _ _ _ _ _ _ _ _ _ _ _ H0 H1)|lia..]).
  unfold suspended. pose proof (proj1 Mo) as E. rewrite E, Hl. exact Mo.
Qed.
Lemma suspend_moved (m m' : state) ret :
  fts1ba90a_suspend m = Ret (ret, m') → lpm_suspended (drv m) = false →
  ret = 0 ∧ suspended m m'.
Proof.
  unfold fts1ba90a_suspend. intros H Hl.
  apply bind_inv in H as (d & m0 & H0 & H). injection H0 as <- <-.
  apply bind_inv in H as (may & m1 & H1 & H).
  assert (moved 0 0 0 0 m m1) as M1.
  { apply moved_calm. revert H1. destruct (dtw_enabled (drv m)); [apply fts_calm_ask|]. apply respects_ret, _. }
  destruct may; cbn [negb] in H; [|exact (off_suspended _ _ _ _ H Hl M1)].
  apply bind_inv in H as (r & m2 & H2 & H). apply fts_calm_ask, moved_calm in H2.
  apply bind_inv in H as ([] & m3 & H3 & H).
  apply (emit_moved 0 0 0 (if r =? 0 then 1 else 0)) in H3; [|intros b; unfold add; cbn; f_equal; lia].
  assert (moved 0 0 0 (if r =? 0 then 1 else 0) m m3) as M3.
  { eapply moved_to; [exact (moved_trans _ _ _ _ _ _ _ _ _ _ _ M1
      (moved_trans _ _ _ _ _ _ _ _ _ _ _ H2 H3))|lia..]. }
  clear M1 H1 H2 H3. apply if_nz in H as [[-> H]|[Hr H]].
  - exact (arm_moved _ _ _ _ H Hl M3).
  - rewrite (proj2 (Z.eqb_neq r 0) Hr) in M3. exact (off_suspended _ _ _ _ H Hl M3).
Qed.
Lemma resume_moved (m m' : state) ret :
  fts1ba90a_resume m = Ret (ret, m') →
  lpm_suspended (drv m') = false ∧
  if lpm_suspended (drv m) then ret = 0 ∧ book (log m') = add (book (log m)) 0 0 0 (-1)
  else if ret =? 0 then book (log m') = add (book (log m)) 1 1 (-1) 0
  else ∃ r m1, fts1ba90a_power_on m = Ret (r, m1)
       ∧ let n := if r =? 0 then 1 else 0 in book (log m') = add (book (log m)) n n 0 0.
Proof.
  unfold fts1ba90a_resume. intros H. apply bind_inv in H as (d & m0 & H0 & H). injection H0 as <- <-.
  destruct (lpm_suspended (drv m)) eqn:Hl.
  - apply bind_inv in H as ([] & m1 & H1 & H). injection H1 as <-.
    apply bind_inv in H as ([] & m2 & H2 & H). apply wake_off_moved in H2.
    apply bind_inv in H as (r & m3 & H3 & H). apply calm_disarm, moved_calm in H3.
    apply bind_inv in H as ([] & m4 & H4 & H). injection H as <- <-.
    assert (moved 0 0 0 0 m3 m4) as M4.
    { apply moved_calm. revert H4. apply respects_if; [|apply respects_skip, _].
      apply respects_bind; [apply _|apply fts_calm_start|intros _; apply respects_skip, _]. }
    destruct (moved_trans _ _ _ _ _ _ _ _ _ _ _ H2
      (moved_trans _ _ _ _ _ _ _ _ _ _ _ H3 M4)) as [-> ->]. done.
  - apply bind_inv in H as (r1 & m1 & Hon & H). pose proof (on_moved _ _ _ Hon) as H1. cbn in H1.
    destruct (r1 =? 0) eqn:Hr1; cycle 1.
    { injection H as <- <-. destruct H1 as [-> H1]. rewrite Hr1. split; [done|].
      exists r1, m1. split; [exact Hon|]. by rewrite Hr1. }
    apply bind_inv in H as (r2 & m2 & H2 & H). apply fts_calm_start, moved_calm in H2.
    pose proof (moved_trans _ _ _ _ _ _ _ _ _ _ _ H1 H2) as M2.
    destruct (r2 =? 0) eqn:Hr2; cycle 1.
    { injection H as <- <-. destruct M2 as [-> M2]. rewrite Hr2. split; [done|].
      exists r1, m1. split; [exact Hon|]. by rewrite Hr1. }
    apply bind_inv in H as ([] & m3 & H3 & H). injection H as <- <-.
    apply (emit_moved 0 0 (-1) 0) in H3; [|intros b; unfold add; cbn; f_equal; lia].
    destruct (moved_trans _ _ _ _ _ _ _ _ _ _ _ M2 H3) as [-> ->]. done.
Qed.
Lemma probe_moved (m m' : state) :
  log m = [] →
  fts1ba90a_probe true true true None None true 0 0 0 0 0 m = Ret (0, m') →
  lpm_suspended (drv m') = false ∧ book (log m') = mkLedger 1 1 0 0.
Proof.
  unfold fts1ba90a_probe. intros Hl H. cbn [negb Z.eqb] in H.
  apply bind_inv in H as ([] & m1 & H1 & H). injection H1 as <-.
  set (m1 := over_field _ m) in H.
  assert (lpm_suspended (drv m1) = false ∧ log m1 = []) as [Hp Hl1] by done. clearbody m1.
  do 5 (let Hn := fresh "He" in let mn := fresh "me" in
    apply bind_inv in H as ([] & mn & Hn & H); apply fts_calm_emit in Hn; [|done]).
  apply bind_inv in H as (r & m2 & H2 & H). apply on_moved in H2. cbn in H2.
  cbv zeta in H. destruct (Z.eqb_spec r 0) as [->|Hr]; [|injection H as ? <-; congruence].
  apply bind_inv in H as (r & m3 & H3 & H). apply fts_calm_start in H3.
  destruct (Z.eqb_spec r 0) as [->|Hr]; cbn [negb] in H; cycle 1.
  { apply bind_inv in H as ([] & m4 & _ & H). injection H as ? <-. congruence. }
  assert (calm m3 m') as H4.
  { revert H. generalize 0. intros z. revert m3 z m' H3.
    intros m3 z m' _. apply (respects_bind calm); [apply calm_version|intros _].
    repeat (apply respects_bind; [apply _|apply fts_calm_emit; reflexivity|intros _]).
    apply respects_ret, _. }
  unfold calm, moved in *. destruct_and!. 
  assert (book (log m1) = mkLedger 0 0 0 0) as Hb by by rewrite Hl1.
  split; [congruence|]. etransitivity; [eassumption|]. etransitivity; [eassumption|].
  etransitivity; [eassumption|].
  repeat (match goal with H : book (log ?a) = book (log ?b) |- context [book (log ?a)] => rewrite H end).
  by rewrite Hb.
Qed.

(** ** The properties *)

(** The driver's life: [true] while the system is awake.  A touch can interrupt
    whenever the interrupt is enabled; the double-tap switch and the world may
    change at any time. *)
Inductive fts_step : bool * state → bool * state → Prop :=
  | step_irq awake m m' :
      disabled (book (log m)) = 0 → fts1ba90a_irq_handler m = Ret (tt, m') →
      fts_step (awake, m) (awake, m')
  | step_store awake m p n r m' :
      double_tap_to_wake_store p n m = Ret (r, m') → fts_step (awake, m) (awake, m')
  | step_suspend m r m' : fts1ba90a_suspend m = Ret (r, m') → fts_step (true, m) (false, m')
  | step_resume m m' : fts1ba90a_resume m = Ret (0, m') → fts_step (false, m) (true, m')
  | step_world awake m w : fts_step (awake, m) (awake, m <| wld := w |>).
Inductive fts_reachable : bool * state → Prop :=
  | reach_probe m m' :
      log m = [] → fts1ba90a_probe true true true None None true 0 0 0 0 0 m = Ret (0, m') →
      fts_reachable (true, m')
  | reach_step s s' : fts_reachable s → fts_step s s' → fts_reachable s'.

(** The books a state should have. *)
Definition balanced (s : bool * state) : Prop :=
  if s.1 then lpm_suspended (drv s.2) = false ∧ book (log s.2) = mkLedger 1 1 0 0
  else book (log s.2) = if lpm_suspended (drv s.2) then mkLedger 1 1 0 1 else mkLedger 0 0 1 0.
Lemma balanced_calm b (m m' : state) : calm m m' → balanced (b, m) → balanced (b, m').
Proof. unfold balanced. cbn. intros [-> ->]. done. Qed.
Lemma step_balanced s s' : fts_step s s' → balanced s → balanced s'.
Proof.
  intros H Hb. destruct H as [b m m' _ H|b m p n r m' H|m r m' H|m m' H|b m w].
  - eapply balanced_calm; [by eapply calm_irq|done].
  - eapply balanced_calm; [|exact Hb]. revert H. unfold double_tap_to_wake_store.
    destruct p as [err|on]; [apply respects_ret, _|].
    apply respects_bind; [apply _|apply fts_calm_mod; intros d; reflexivity|intros _; apply respects_ret, _].
  - destruct Hb as [Hl Hb]. cbn in Hl, Hb. destruct (suspend_moved _ _ _ H Hl) as [_ Hm].
    unfold balanced, suspended in *. cbn [fst snd].
    destruct (lpm_suspended (drv m')); [|destruct Hm as [_ Hm]]; by rewrite Hm, Hb.
  - destruct (resume_moved _ _ _ H) as [Hl Hm]. unfold balanced in *. cbn [fst snd] in *.
    split; [done|]. destruct (lpm_suspended (drv m)).
    + destruct Hm as [_ ->]. by rewrite Hb.
    + cbn in Hm. by rewrite Hm, Hb.
  - done.
Qed.
End power.

(** C19: power and interrupts over any number of suspends and resumes, with the
    double tap switched on or off at any time and any answers of the bus and the
    kernel: while awake both rails are held once and the interrupt is enabled and no
    wake source; a suspend either powers the controller off with the interrupt
    disabled, or keeps the rails with the interrupt as the one wake source, and the
    flag that resume goes by says which.  A resume that fails (only one from power
    off can) leaves the interrupt disabled, the rails off when switching them on
    failed and on when the controller did not start.  All this holds of what the
    driver asked for: a rail or a wake source that the kernel refuses to give back,
    which the driver does not notice, stays held once more for each such refusal. *)
Theorem power_is_balanced {W} `{!TouchEnv W} awake (m : machine fts1ba90a W fts_event) :
  fts_reachable (awake, m) →
  (if awake then lpm_suspended (drv m) = false ∧ powered 1 0 0 (log m)
   else if lpm_suspended (drv m) then powered 1 0 1 (log m) else powered 0 1 0 (log m))
  ∧ ∀ ret m', awake = false → fts1ba90a_resume m = Ret (ret, m') → ret ≠ 0 →
    lpm_suspended (drv m) = false
    ∧ ∃ r m1, fts1ba90a_power_on m = Ret (r, m1)
      ∧ powered (if r =? 0 then 1 else 0) 1 0 (log m').
Proof.
  intros Hr. assert (balanced (awake, m)) as Hb.
  { remember (awake, m) as s eqn:Hs. clear Hs.
    induction Hr as [m0 m1 Hl H|s s' Hr IH Hs]; [|by eapply step_balanced].
    exact (probe_moved _ _ Hl H). }
  unfold balanced in Hb. cbn [fst snd] in Hb. split.
  { destruct awake; [destruct Hb; by split; [|apply powered_book]|].
    destruct (lpm_suspended (drv m)); by apply powered_book. }
  intros ret m' -> H Hret. destruct (resume_moved _ _ _ H) as [_ Hm].
  destruct (lpm_suspended (drv m)); [by destruct Hm|]. split; [done|].
  rewrite (proj2 (Z.eqb_neq ret 0)) in Hm by done. destruct Hm as (r & m1 & Hon & Hm).
  exists r, m1. split; [exact Hon|]. apply powered_book. rewrite Hm, Hb.
  by destruct (r =? 0).
Qed.

(** ** A tablet put to sleep *)

(** A controller that is always ready and confirms every mode; the world is the
    last mode written. *)
#[export] Instance quiet_touch : TouchEnv Z := {|
  touch_send cmd w :=
    (Z.of_nat (length cmd),
     match cmd with [c; mode] => if c =? FTS_SET_GET_OPMODE then mode else w | _ => w end);
  touch_transfer cmd n w :=
    ((2, if n =? 1 then [w] else 0x09 :: replicate 15 0), w);
  rail_enable _ w := (0, w);
  rail_disable _ w := (0, w);
  enable_irq_wake w := (0, w);
  disable_irq_wake w := (0, w);
  device_may_wakeup w := (true, w);
  wacom_wez01_should_suppress_touch w := (false, w);
|}.
Definition fts0 : machine fts1ba90a Z fts_event := mkM (mkFts false false []) 0 [].
Definition ran {A} (r : outcome (A * machine fts1ba90a Z fts_event)) :=
  match r with Ret (_, m) => m | _ => fts0 end.
Definition fts_awake := ran (fts1ba90a_probe true true true None None true 0 0 0 0 0 fts0).
Definition fts_armed := ran (double_tap_to_wake_store (inr true) 2 fts_awake).
Definition fts_asleep := ran (fts1ba90a_suspend fts_armed).

Lemma power_is_balanced_witness :
  fts_reachable (false, fts_asleep)
  ∧ lpm_suspended (drv fts_asleep) = true ∧ powered 1 0 1 (log fts_asleep).
Proof.
  assert (fts_reachable (false, fts_asleep)) as Hr.
  { eapply reach_step; [eapply reach_step; [apply (reach_probe fts0 fts_awake)|]|].
    - reflexivity.
    - vm_compute. reflexivity.
    - apply (step_store true fts_awake (inr true) 2 2 fts_armed). vm_compute. reflexivity.
    - apply (step_suspend fts_armed 0 fts_asleep). vm_compute. reflexivity. }
  split; [exact Hr|]. assert (lpm_suspended (drv fts_asleep) = true) as Hl by (vm_compute; reflexivity).
  split; [exact Hl|]. revert Hr Hl. generalize fts_asleep. intros m Hr Hl.
  destruct (power_is_balanced (W := Z) false m Hr) as [Hb _].
  cbv iota in Hb. rewrite Hl in Hb. exact Hb.
Defined.
