(* ===== verification/Hi1337Tables.v ===== *)
(** [hi1337_gts9u_tables.h]: the register tables of the HI1337 sensor, generated
    from the vendor's data, as pairs of an address and a value. *)
From S2P Require Import Prelude.

(** The table of every mode, in ten parts. *)
Definition hi1337_global_regs_1 : list (Z * Z) :=
  [(0x0790, 0x0100); (0x2000, 0x0000); (0x2002, 0x0058); (0x2006, 0x40b2); (0x2008, 0xb062);
   (0x200a, 0x8436); (0x200c, 0x40b2); (0x200e, 0xb08c); (0x2010, 0x8446); (0x2012, 0x40b2);
   (0x2014, 0xb0b2); (0x2016, 0x8450); (0x2018, 0x40b2); (0x201a, 0xb0d0); (0x201c, 0x84c6);
   (0x201e, 0x40b2); (0x2020, 0xb11c); (0x2022, 0x8470); (0x2024, 0x40b2); (0x2026, 0xb142);
   (0x2028, 0x84b4); (0x202a, 0x40b2); (0x202c, 0xb17e); (0x202e, 0x84b0); (0x2030, 0x40b2);
   (0x2032, 0xb1ac); (0x2034, 0x84b8); (0x2036, 0x40b2); (0x2038, 0xb1e2); (0x203a, 0x847c);
   (0x203c, 0x40b2); (0x203e, 0xb450); (0x2040, 0x8478); (0x2042, 0x40b2); (0x2044, 0xb4e4);
   (0x2046, 0x8476); (0x2048, 0x40b2); (0x204a, 0xb560); (0x204c, 0x847e); (0x204e, 0x40b2);
   (0x2050, 0xb670); (0x2052, 0x843a); (0x2054, 0x40b2); (0x2056, 0xb852); (0x2058, 0x845c);
   (0x205a, 0x40b2); (0x205c, 0xb882); (0x205e, 0x845e); (0x2060, 0x4130); (0x2062, 0x4292);
   (0x2064, 0x0c34); (0x2066, 0x0202); (0x2068, 0x1292); (0x206a, 0xd006); (0x206c, 0x93c2);
   (0x206e, 0x86dc); (0x2070, 0x2403); (0x2072, 0x407f); (0x2074, 0x0003); (0x2076, 0x3c01);
   (0x2078, 0x434f); (0x207a, 0x4fc2); (0x207c, 0x023d); (0x207e, 0x425f); (0x2080, 0x86dc);
   (0x2082, 0x503f); (0x2084, 0x0c80); (0x2086, 0x4f82); (0x2088, 0x752a); (0x208a, 0x4130);
   (0x208c, 0x1292); (0x208e, 0xd016); (0x2090, 0xb3d2); (0x2092, 0x0b00); (0x2094, 0x2002);
   (0x2096, 0xd2e2); (0x2098, 0x0381); (0x209a, 0x93c2); (0x209c, 0x0263); (0x209e, 0x2001);
   (0x20a0, 0x4130); (0x20a2, 0x422d); (0x20a4, 0x403e); (0x20a6, 0x879e); (0x20a8, 0x403f);
   (0x20aa, 0x192a); (0x20ac, 0x1292); (0x20ae, 0x843e); (0x20b0, 0x3ff7); (0x20b2, 0xb3d2);
   (0x20b4, 0x0267); (0x20b6, 0x2403); (0x20b8, 0xd0f2); (0x20ba, 0x0040); (0x20bc, 0x0381);
   (0x20be, 0x90f2); (0x20c0, 0x0010); (0x20c2, 0x0260); (0x20c4, 0x2002); (0x20c6, 0x1292);
   (0x20c8, 0x84bc); (0x20ca, 0x1292); (0x20cc, 0xd020); (0x20ce, 0x4130); (0x20d0, 0x1292);
   (0x20d2, 0x8470); (0x20d4, 0x1292); (0x20d6, 0x8452); (0x20d8, 0x0900); (0x20da, 0x7118);
   (0x20dc, 0x1292); (0x20de, 0x848e); (0x20e0, 0x0900); (0x20e2, 0x7112); (0x20e4, 0x0800);
   (0x20e6, 0x7a20); (0x20e8, 0x4292); (0x20ea, 0x86ee); (0x20ec, 0x7334); (0x20ee, 0x0f00);
   (0x20f0, 0x7304); (0x20f2, 0x421f); (0x20f4, 0x8620); (0x20f6, 0x1292); (0x20f8, 0x846e);
   (0x20fa, 0x1292); (0x20fc, 0x8488); (0x20fe, 0x0b00); (0x2100, 0x7114); (0x2102, 0x0002);
   (0x2104, 0x1292); (0x2106, 0x848c); (0x2108, 0x1292); (0x210a, 0x8454); (0x210c, 0x43c2);
   (0x210e, 0x85f6); (0x2110, 0x4292); (0x2112, 0x0c34); (0x2114, 0x0202); (0x2116, 0x1292);
   (0x2118, 0x8444); (0x211a, 0x4130); (0x211c, 0x4392); (0x211e, 0x7360); (0x2120, 0xb3d2);
   (0x2122, 0x0b00); (0x2124, 0x2402); (0x2126, 0xc2e2)].
Definition hi1337_global_regs_2 : list (Z * Z) :=
  [(0x2128, 0x0381); (0x212a, 0x0900); (0x212c, 0x732c); (0x212e, 0x4382); (0x2130, 0x7360);
   (0x2132, 0x422d); (0x2134, 0x403e); (0x2136, 0x8700); (0x2138, 0x403f); (0x213a, 0x86f8);
   (0x213c, 0x1292); (0x213e, 0x843e); (0x2140, 0x4130); (0x2142, 0x4f0c); (0x2144, 0x403f);
   (0x2146, 0x0267); (0x2148, 0xf0ff); (0x214a, 0xffdf); (0x214c, 0x0000); (0x214e, 0xf0ff);
   (0x2150, 0xffef); (0x2152, 0x0000); (0x2154, 0x421d); (0x2156, 0x84b0); (0x2158, 0x403e);
   (0x215a, 0x06f9); (0x215c, 0x4c0f); (0x215e, 0x1292); (0x2160, 0x84ac); (0x2162, 0x4f4e);
   (0x2164, 0xb31e); (0x2166, 0x2403); (0x2168, 0xd0f2); (0x216a, 0x0020); (0x216c, 0x0267);
   (0x216e, 0xb32e); (0x2170, 0x2403); (0x2172, 0xd0f2); (0x2174, 0x0010); (0x2176, 0x0267);
   (0x2178, 0xc3e2); (0x217a, 0x0267); (0x217c, 0x4130); (0x217e, 0x120b); (0x2180, 0x120a);
   (0x2182, 0x403a); (0x2184, 0x1140); (0x2186, 0x1292); (0x2188, 0xd080); (0x218a, 0x430b);
   (0x218c, 0x4a0f); (0x218e, 0x532a); (0x2190, 0x1292); (0x2192, 0x84a4); (0x2194, 0x4f0e);
   (0x2196, 0x430f); (0x2198, 0x5e82); (0x219a, 0x870c); (0x219c, 0x6f82); (0x219e, 0x870e);
   (0x21a0, 0x531b); (0x21a2, 0x923b); (0x21a4, 0x2bf3); (0x21a6, 0x413a); (0x21a8, 0x413b);
   (0x21aa, 0x4130); (0x21ac, 0xf0f2); (0x21ae, 0x007f); (0x21b0, 0x0267); (0x21b2, 0x421d);
   (0x21b4, 0x84b6); (0x21b6, 0x403e); (0x21b8, 0x01f9); (0x21ba, 0x1292); (0x21bc, 0x84ac);
   (0x21be, 0x4f4e); (0x21c0, 0xf35f); (0x21c2, 0x2403); (0x21c4, 0xd0f2); (0x21c6, 0xff80);
   (0x21c8, 0x0267); (0x21ca, 0xb36e); (0x21cc, 0x2404); (0x21ce, 0xd0f2); (0x21d0, 0x0040);
   (0x21d2, 0x0267); (0x21d4, 0x3c03); (0x21d6, 0xf0f2); (0x21d8, 0xffbf); (0x21da, 0x0267);
   (0x21dc, 0xc2e2); (0x21de, 0x0267); (0x21e0, 0x4130); (0x21e2, 0x120b); (0x21e4, 0x120a);
   (0x21e6, 0x8231); (0x21e8, 0x430b); (0x21ea, 0x93c2); (0x21ec, 0x0c0a); (0x21ee, 0x2404);
   (0x21f0, 0xb3d2); (0x21f2, 0x0b05); (0x21f4, 0x2401); (0x21f6, 0x431b); (0x21f8, 0x422d);
   (0x21fa, 0x403e); (0x21fc, 0x192a); (0x21fe, 0x403f); (0x2200, 0x879e); (0x2202, 0x1292);
   (0x2204, 0x843e); (0x2206, 0x930b); (0x2208, 0x20f4); (0x220a, 0x93e2); (0x220c, 0x0241);
   (0x220e, 0x24eb); (0x2210, 0x403a); (0x2212, 0x0292); (0x2214, 0x4aa2); (0x2216, 0x0a00);
   (0x2218, 0xb2e2); (0x221a, 0x0361); (0x221c, 0x2405); (0x221e, 0x4a2f); (0x2220, 0x1292);
   (0x2222, 0x8474); (0x2224, 0x4f82); (0x2226, 0x0a1c); (0x2228, 0x93c2); (0x222a, 0x0360);
   (0x222c, 0x34cd); (0x222e, 0x430c); (0x2230, 0x4c0f); (0x2232, 0x5f0f); (0x2234, 0x4f0d);
   (0x2236, 0x510d); (0x2238, 0x4f0e); (0x223a, 0x5a0e); (0x223c, 0x4e1e); (0x223e, 0x0002);
   (0x2240, 0x4f1f); (0x2242, 0x192a); (0x2244, 0x1202); (0x2246, 0xc232); (0x2248, 0x4303);
   (0x224a, 0x4e82); (0x224c, 0x0130); (0x224e, 0x4f82)].
Definition hi1337_global_regs_3 : list (Z * Z) :=
  [(0x2250, 0x0138); (0x2252, 0x421e); (0x2254, 0x013a); (0x2256, 0x421f); (0x2258, 0x013c);
   (0x225a, 0x4132); (0x225c, 0x108e); (0x225e, 0x108f); (0x2260, 0xef4e); (0x2262, 0xef0e);
   (0x2264, 0xf37f); (0x2266, 0xc312); (0x2268, 0x100f); (0x226a, 0x100e); (0x226c, 0x4e8d);
   (0x226e, 0x0000); (0x2270, 0x531c); (0x2272, 0x922c); (0x2274, 0x2bdd); (0x2276, 0xb3d2);
   (0x2278, 0x1921); (0x227a, 0x2403); (0x227c, 0x410f); (0x227e, 0x1292); (0x2280, 0x847e);
   (0x2282, 0x403b); (0x2284, 0x843e); (0x2286, 0x422d); (0x2288, 0x410e); (0x228a, 0x403f);
   (0x228c, 0x1908); (0x228e, 0x12ab); (0x2290, 0x403d); (0x2292, 0x0005); (0x2294, 0x403e);
   (0x2296, 0x0292); (0x2298, 0x403f); (0x229a, 0x85ec); (0x229c, 0x12ab); (0x229e, 0x421f);
   (0x22a0, 0x060e); (0x22a2, 0x9f82); (0x22a4, 0x8628); (0x22a6, 0x288d); (0x22a8, 0x9382);
   (0x22aa, 0x060e); (0x22ac, 0x248a); (0x22ae, 0x90ba); (0x22b0, 0x0010); (0x22b2, 0x0000);
   (0x22b4, 0x2c0b); (0x22b6, 0x93c2); (0x22b8, 0x85f6); (0x22ba, 0x2008); (0x22bc, 0x403f);
   (0x22be, 0x06a7); (0x22c0, 0xd0ff); (0x22c2, 0x0007); (0x22c4, 0x0000); (0x22c6, 0xf0ff);
   (0x22c8, 0xfff8); (0x22ca, 0x0000); (0x22cc, 0x4392); (0x22ce, 0x8628); (0x22d0, 0x403f);
   (0x22d2, 0x06a7); (0x22d4, 0xd2ef); (0x22d6, 0x0000); (0x22d8, 0xc2ef); (0x22da, 0x0000);
   (0x22dc, 0x93c2); (0x22de, 0x86e3); (0x22e0, 0x2068); (0x22e2, 0xb0f2); (0x22e4, 0x0040);
   (0x22e6, 0x0b05); (0x22e8, 0x2461); (0x22ea, 0xd3d2); (0x22ec, 0x0410); (0x22ee, 0xb3e2);
   (0x22f0, 0x0381); (0x22f2, 0x2089); (0x22f4, 0x90b2); (0x22f6, 0x0030); (0x22f8, 0x0a00);
   (0x22fa, 0x2c52); (0x22fc, 0x93c2); (0x22fe, 0x85f6); (0x2300, 0x204f); (0x2302, 0x430e);
   (0x2304, 0x430c); (0x2306, 0x4c0f); (0x2308, 0x5f0f); (0x230a, 0x5f0f); (0x230c, 0x5f0f);
   (0x230e, 0x4f1f); (0x2310, 0x8570); (0x2312, 0xf03f); (0x2314, 0x07ff); (0x2316, 0x903f);
   (0x2318, 0x0400); (0x231a, 0x343e); (0x231c, 0x5f0e); (0x231e, 0x531c); (0x2320, 0x923c);
   (0x2322, 0x2bf1); (0x2324, 0x4e0f); (0x2326, 0x930e); (0x2328, 0x3834); (0x232a, 0x110f);
   (0x232c, 0x110f); (0x232e, 0x110f); (0x2330, 0x9382); (0x2332, 0x85f6); (0x2334, 0x2023);
   (0x2336, 0x5f82); (0x2338, 0x86e6); (0x233a, 0x403b); (0x233c, 0x86e6); (0x233e, 0x4b2f);
   (0x2340, 0x12b0); (0x2342, 0xb41c); (0x2344, 0x4f8b); (0x2346, 0x0000); (0x2348, 0x430c);
   (0x234a, 0x4c0d); (0x234c, 0x5d0d); (0x234e, 0x5d0d); (0x2350, 0x5d0d); (0x2352, 0x403a);
   (0x2354, 0x86e8); (0x2356, 0x421b); (0x2358, 0x86e6); (0x235a, 0x4b0f); (0x235c, 0x8a2f);
   (0x235e, 0x4f0e); (0x2360, 0x4e0f); (0x2362, 0x5f0f); (0x2364, 0x7f0f); (0x2366, 0xe33f);
   (0x2368, 0x8e8d); (0x236a, 0x8570); (0x236c, 0x7f8d); (0x236e, 0x8572); (0x2370, 0x531c);
   (0x2372, 0x923c); (0x2374, 0x2bea); (0x2376, 0x4b8a)].
Definition hi1337_global_regs_4 : list (Z * Z) :=
  [(0x2378, 0x0000); (0x237a, 0x3c45); (0x237c, 0x9382); (0x237e, 0x85f8); (0x2380, 0x2005);
   (0x2382, 0x4382); (0x2384, 0x86e6); (0x2386, 0x4382); (0x2388, 0x86e8); (0x238a, 0x3fd7);
   (0x238c, 0x4f82); (0x238e, 0x86e6); (0x2390, 0x3fd4); (0x2392, 0x503f); (0x2394, 0x0007);
   (0x2396, 0x3fc9); (0x2398, 0x5f0e); (0x239a, 0x503e); (0x239c, 0xf800); (0x239e, 0x3fbf);
   (0x23a0, 0x430f); (0x23a2, 0x12b0); (0x23a4, 0xb41c); (0x23a6, 0x4382); (0x23a8, 0x86e6);
   (0x23aa, 0x3c2d); (0x23ac, 0xc3d2); (0x23ae, 0x0410); (0x23b0, 0x3f9e); (0x23b2, 0x430d);
   (0x23b4, 0x403e); (0x23b6, 0x0050); (0x23b8, 0x403f); (0x23ba, 0x84d0); (0x23bc, 0x1292);
   (0x23be, 0x844e); (0x23c0, 0x3f90); (0x23c2, 0x5392); (0x23c4, 0x8628); (0x23c6, 0x3f84);
   (0x23c8, 0x403b); (0x23ca, 0x843e); (0x23cc, 0x4a0f); (0x23ce, 0x532f); (0x23d0, 0x422d);
   (0x23d2, 0x4f0e); (0x23d4, 0x403f); (0x23d6, 0x0e08); (0x23d8, 0x12ab); (0x23da, 0x422d);
   (0x23dc, 0x403e); (0x23de, 0x192a); (0x23e0, 0x410f); (0x23e2, 0x12ab); (0x23e4, 0x3f48);
   (0x23e6, 0x93c2); (0x23e8, 0x85f6); (0x23ea, 0x2312); (0x23ec, 0x403a); (0x23ee, 0x85ec);
   (0x23f0, 0x3f11); (0x23f2, 0x403d); (0x23f4, 0x0200); (0x23f6, 0x422e); (0x23f8, 0x403f);
   (0x23fa, 0x192a); (0x23fc, 0x1292); (0x23fe, 0x844e); (0x2400, 0xc3d2); (0x2402, 0x1921);
   (0x2404, 0x3f02); (0x2406, 0x422d); (0x2408, 0x403e); (0x240a, 0x879e); (0x240c, 0x403f);
   (0x240e, 0x192a); (0x2410, 0x1292); (0x2412, 0x843e); (0x2414, 0x5231); (0x2416, 0x413a);
   (0x2418, 0x413b); (0x241a, 0x4130); (0x241c, 0x4382); (0x241e, 0x052c); (0x2420, 0x4f0d);
   (0x2422, 0x930d); (0x2424, 0x3402); (0x2426, 0xe33d); (0x2428, 0x531d); (0x242a, 0xf03d);
   (0x242c, 0x07f0); (0x242e, 0x4d0e); (0x2430, 0xc312); (0x2432, 0x100e); (0x2434, 0x110e);
   (0x2436, 0x110e); (0x2438, 0x110e); (0x243a, 0x930f); (0x243c, 0x3803); (0x243e, 0x4ec2);
   (0x2440, 0x052c); (0x2442, 0x3c04); (0x2444, 0x4ec2); (0x2446, 0x052d); (0x2448, 0xe33d);
   (0x244a, 0x531d); (0x244c, 0x4d0f); (0x244e, 0x4130); (0x2450, 0x120b); (0x2452, 0x120a);
   (0x2454, 0x93c2); (0x2456, 0x85f6); (0x2458, 0x2003); (0x245a, 0xb3d2); (0x245c, 0x0360);
   (0x245e, 0x2402); (0x2460, 0x1292); (0x2462, 0x847a); (0x2464, 0x1292); (0x2466, 0x847c);
   (0x2468, 0x93c2); (0x246a, 0x0600); (0x246c, 0x3803); (0x246e, 0x93c2); (0x2470, 0x0604);
   (0x2472, 0x3832); (0x2474, 0xd2f2); (0x2476, 0x0f01); (0x2478, 0xb3d2); (0x247a, 0x0363);
   (0x247c, 0x2418); (0x247e, 0x421f); (0x2480, 0x1246); (0x2482, 0x4f0e); (0x2484, 0x430f);
   (0x2486, 0x421b); (0x2488, 0x1244); (0x248a, 0x430a); (0x248c, 0xda0e); (0x248e, 0xdb0f);
   (0x2490, 0x821e); (0x2492, 0x86f4); (0x2494, 0x721f); (0x2496, 0x86f6); (0x2498, 0x2c1b);
   (0x249a, 0x421f); (0x249c, 0x1240); (0x249e, 0xf03f)].
Definition hi1337_global_regs_5 : list (Z * Z) :=
  [(0x24a0, 0x01ff); (0x24a2, 0x9f82); (0x24a4, 0x0a00); (0x24a6, 0x2814); (0x24a8, 0xd0f2);
   (0x24aa, 0xff80); (0x24ac, 0x1240); (0x24ae, 0x93c2); (0x24b0, 0x85f6); (0x24b2, 0x2015);
   (0x24b4, 0xb0f2); (0x24b6, 0x0020); (0x24b8, 0x0381); (0x24ba, 0x2407); (0x24bc, 0x9292);
   (0x24be, 0x862a); (0x24c0, 0x0384); (0x24c2, 0x2c03); (0x24c4, 0xd3d2); (0x24c6, 0x0649);
   (0x24c8, 0x3c0a); (0x24ca, 0xc3d2); (0x24cc, 0x0649); (0x24ce, 0x3c07); (0x24d0, 0xf0f2);
   (0x24d2, 0x007f); (0x24d4, 0x1240); (0x24d6, 0x3feb); (0x24d8, 0xc2f2); (0x24da, 0x0f01);
   (0x24dc, 0x3fcd); (0x24de, 0x413a); (0x24e0, 0x413b); (0x24e2, 0x4130); (0x24e4, 0x425f);
   (0x24e6, 0x86e2); (0x24e8, 0xd25f); (0x24ea, 0x86e1); (0x24ec, 0x4f4e); (0x24ee, 0x5e0e);
   (0x24f0, 0x425f); (0x24f2, 0x0204); (0x24f4, 0xf07f); (0x24f6, 0x0003); (0x24f8, 0xf37f);
   (0x24fa, 0xdf0e); (0x24fc, 0x40b2); (0x24fe, 0x8030); (0x2500, 0x7a00); (0x2502, 0x40b2);
   (0x2504, 0x0100); (0x2506, 0x7a02); (0x2508, 0x40b2); (0x250a, 0x0d04); (0x250c, 0x7a0c);
   (0x250e, 0x40b2); (0x2510, 0xfff0); (0x2512, 0x7a04); (0x2514, 0x93c2); (0x2516, 0x86e0);
   (0x2518, 0x240a); (0x251a, 0x40b2); (0x251c, 0xfff1); (0x251e, 0x7a06); (0x2520, 0x40b2);
   (0x2522, 0xfff4); (0x2524, 0x7a08); (0x2526, 0x40b2); (0x2528, 0xfff5); (0x252a, 0x7a0a);
   (0x252c, 0x3c09); (0x252e, 0x40b2); (0x2530, 0xfff2); (0x2532, 0x7a06); (0x2534, 0x40b2);
   (0x2536, 0xfff4); (0x2538, 0x7a08); (0x253a, 0x40b2); (0x253c, 0xfff6); (0x253e, 0x7a0a);
   (0x2540, 0xf03e); (0x2542, 0x0003); (0x2544, 0x5e0e); (0x2546, 0x425f); (0x2548, 0x86e2);
   (0x254a, 0xd25f); (0x254c, 0x86e1); (0x254e, 0xf31f); (0x2550, 0x5f0f); (0x2552, 0x5f0f);
   (0x2554, 0x5f0f); (0x2556, 0xd31e); (0x2558, 0xdf0e); (0x255a, 0x4e82); (0x255c, 0x7a12);
   (0x255e, 0x4130); (0x2560, 0x120b); (0x2562, 0x120a); (0x2564, 0x1209); (0x2566, 0x1208);
   (0x2568, 0x1207); (0x256a, 0x1206); (0x256c, 0x1205); (0x256e, 0x1204); (0x2570, 0x8231);
   (0x2572, 0x4f81); (0x2574, 0x0000); (0x2576, 0x4381); (0x2578, 0x0002); (0x257a, 0x4304);
   (0x257c, 0x411c); (0x257e, 0x0002); (0x2580, 0x5c0c); (0x2582, 0x4c0f); (0x2584, 0x5f0f);
   (0x2586, 0x5f0f); (0x2588, 0x5f0f); (0x258a, 0x5f0f); (0x258c, 0x5f0f); (0x258e, 0x503f);
   (0x2590, 0x1980); (0x2592, 0x440d); (0x2594, 0x5d0d); (0x2596, 0x4d0e); (0x2598, 0x5f0e);
   (0x259a, 0x4e2e); (0x259c, 0x4d05); (0x259e, 0x5505); (0x25a0, 0x5f05); (0x25a2, 0x4516);
   (0x25a4, 0x0008); (0x25a6, 0x4517); (0x25a8, 0x000a); (0x25aa, 0x460a); (0x25ac, 0x470b);
   (0x25ae, 0xf30a); (0x25b0, 0xf32b); (0x25b2, 0x4a81); (0x25b4, 0x0004); (0x25b6, 0x4b81);
   (0x25b8, 0x0006); (0x25ba, 0xb03e); (0x25bc, 0x2000); (0x25be, 0x2404); (0x25c0, 0xf03e);
   (0x25c2, 0x1fff); (0x25c4, 0xe33e); (0x25c6, 0x531e)].
Definition hi1337_global_regs_6 : list (Z * Z) :=
  [(0x25c8, 0xf317); (0x25ca, 0x503e); (0x25cc, 0x2000); (0x25ce, 0x4e0f); (0x25d0, 0x5f0f);
   (0x25d2, 0x7f0f); (0x25d4, 0xe33f); (0x25d6, 0x512c); (0x25d8, 0x4c28); (0x25da, 0x4309);
   (0x25dc, 0x4e0a); (0x25de, 0x4f0b); (0x25e0, 0x480c); (0x25e2, 0x490d); (0x25e4, 0x1202);
   (0x25e6, 0xc232); (0x25e8, 0x12b0); (0x25ea, 0xffc0); (0x25ec, 0x4132); (0x25ee, 0x108e);
   (0x25f0, 0x108f); (0x25f2, 0xef4e); (0x25f4, 0xef0e); (0x25f6, 0xf37f); (0x25f8, 0xc312);
   (0x25fa, 0x100f); (0x25fc, 0x100e); (0x25fe, 0x4e85); (0x2600, 0x0018); (0x2602, 0x4f85);
   (0x2604, 0x001a); (0x2606, 0x480a); (0x2608, 0x490b); (0x260a, 0x460c); (0x260c, 0x470d);
   (0x260e, 0x1202); (0x2610, 0xc232); (0x2612, 0x12b0); (0x2614, 0xffc0); (0x2616, 0x4132);
   (0x2618, 0x4e0c); (0x261a, 0x4f0d); (0x261c, 0x108c); (0x261e, 0x108d); (0x2620, 0xed4c);
   (0x2622, 0xed0c); (0x2624, 0xf37d); (0x2626, 0xc312); (0x2628, 0x100d); (0x262a, 0x100c);
   (0x262c, 0x411e); (0x262e, 0x0004); (0x2630, 0x411f); (0x2632, 0x0006); (0x2634, 0x5e0e);
   (0x2636, 0x6f0f); (0x2638, 0x5e0e); (0x263a, 0x6f0f); (0x263c, 0x5e0e); (0x263e, 0x6f0f);
   (0x2640, 0xde0c); (0x2642, 0xdf0d); (0x2644, 0x4c85); (0x2646, 0x002c); (0x2648, 0x4d85);
   (0x264a, 0x002e); (0x264c, 0x5314); (0x264e, 0x9224); (0x2650, 0x2b95); (0x2652, 0x5391);
   (0x2654, 0x0002); (0x2656, 0x92a1); (0x2658, 0x0002); (0x265a, 0x2b8f); (0x265c, 0x5231);
   (0x265e, 0x4134); (0x2660, 0x4135); (0x2662, 0x4136); (0x2664, 0x4137); (0x2666, 0x4138);
   (0x2668, 0x4139); (0x266a, 0x413a); (0x266c, 0x413b); (0x266e, 0x4130); (0x2670, 0x120b);
   (0x2672, 0x120a); (0x2674, 0x1209); (0x2676, 0x8031); (0x2678, 0x000c); (0x267a, 0x425f);
   (0x267c, 0x0205); (0x267e, 0xc312); (0x2680, 0x104f); (0x2682, 0x114f); (0x2684, 0x114f);
   (0x2686, 0x114f); (0x2688, 0x114f); (0x268a, 0x114f); (0x268c, 0xf37f); (0x268e, 0x4f0b);
   (0x2690, 0xf31b); (0x2692, 0x5b0b); (0x2694, 0x5b0b); (0x2696, 0x5b0b); (0x2698, 0x503b);
   (0x269a, 0xd196); (0x269c, 0x4219); (0x269e, 0x0508); (0x26a0, 0xf039); (0x26a2, 0x2000);
   (0x26a4, 0x4f0a); (0x26a6, 0xc312); (0x26a8, 0x100a); (0x26aa, 0xe31a); (0x26ac, 0x421f);
   (0x26ae, 0x86ee); (0x26b0, 0x503f); (0x26b2, 0xff60); (0x26b4, 0x903f); (0x26b6, 0x00c8);
   (0x26b8, 0x2c02); (0x26ba, 0x403f); (0x26bc, 0x00c8); (0x26be, 0x4f82); (0x26c0, 0x7322);
   (0x26c2, 0xb3d2); (0x26c4, 0x0381); (0x26c6, 0x2009); (0x26c8, 0x421f); (0x26ca, 0x85f8);
   (0x26cc, 0xd21f); (0x26ce, 0x85f6); (0x26d0, 0x930f); (0x26d2, 0x24b1); (0x26d4, 0x40f2);
   (0x26d6, 0xff80); (0x26d8, 0x0619); (0x26da, 0x1292); (0x26dc, 0xd00a); (0x26de, 0x430d);
   (0x26e0, 0x93c2); (0x26e2, 0x86e0); (0x26e4, 0x2003); (0x26e6, 0xb2f2); (0x26e8, 0x0360);
   (0x26ea, 0x2001); (0x26ec, 0x431d); (0x26ee, 0x425f)].
Definition hi1337_global_regs_7 : list (Z * Z) :=
  [(0x26f0, 0x86e3); (0x26f2, 0xd25f); (0x26f4, 0x86e2); (0x26f6, 0xf37f); (0x26f8, 0x5f0f);
   (0x26fa, 0x425e); (0x26fc, 0x86dd); (0x26fe, 0xde0f); (0x2700, 0x5f0f); (0x2702, 0x5b0f);
   (0x2704, 0x4fa2); (0x2706, 0x0402); (0x2708, 0x930d); (0x270a, 0x2007); (0x270c, 0x930a);
   (0x270e, 0x248e); (0x2710, 0x4f5f); (0x2712, 0x0001); (0x2714, 0xf37f); (0x2716, 0x4fc2);
   (0x2718, 0x0403); (0x271a, 0x93c2); (0x271c, 0x86dd); (0x271e, 0x2483); (0x2720, 0xc2f2);
   (0x2722, 0x0400); (0x2724, 0xb2e2); (0x2726, 0x0265); (0x2728, 0x2407); (0x272a, 0x421f);
   (0x272c, 0x0508); (0x272e, 0xf03f); (0x2730, 0xffdf); (0x2732, 0xd90f); (0x2734, 0x4f82);
   (0x2736, 0x0508); (0x2738, 0xb3d2); (0x273a, 0x0383); (0x273c, 0x2484); (0x273e, 0x403f);
   (0x2740, 0x0508); (0x2742, 0x4fb1); (0x2744, 0x0000); (0x2746, 0x4fb1); (0x2748, 0x0002);
   (0x274a, 0x4fb1); (0x274c, 0x0004); (0x274e, 0x403f); (0x2750, 0x0500); (0x2752, 0x4fb1);
   (0x2754, 0x0006); (0x2756, 0x4fb1); (0x2758, 0x0008); (0x275a, 0x4fb1); (0x275c, 0x000a);
   (0x275e, 0xb3e2); (0x2760, 0x0383); (0x2762, 0x2412); (0x2764, 0xc2e1); (0x2766, 0x0002);
   (0x2768, 0xb2e2); (0x276a, 0x0383); (0x276c, 0x434f); (0x276e, 0x634f); (0x2770, 0xf37f);
   (0x2772, 0x4f4e); (0x2774, 0x114e); (0x2776, 0x434e); (0x2778, 0x104e); (0x277a, 0x415f);
   (0x277c, 0x0007); (0x277e, 0xf07f); (0x2780, 0x007f); (0x2782, 0xde4f); (0x2784, 0x4fc1);
   (0x2786, 0x0007); (0x2788, 0xb2f2); (0x278a, 0x0383); (0x278c, 0x2415); (0x278e, 0xf0f1);
   (0x2790, 0xffbf); (0x2792, 0x0000); (0x2794, 0xb0f2); (0x2796, 0x0010); (0x2798, 0x0383);
   (0x279a, 0x434e); (0x279c, 0x634e); (0x279e, 0x5e4e); (0x27a0, 0x5e4e); (0x27a2, 0x5e4e);
   (0x27a4, 0x5e4e); (0x27a6, 0x5e4e); (0x27a8, 0x5e4e); (0x27aa, 0x415f); (0x27ac, 0x0006);
   (0x27ae, 0xf07f); (0x27b0, 0xffbf); (0x27b2, 0xde4f); (0x27b4, 0x4fc1); (0x27b6, 0x0006);
   (0x27b8, 0xb0f2); (0x27ba, 0x0020); (0x27bc, 0x0383); (0x27be, 0x2410); (0x27c0, 0xf0f1);
   (0x27c2, 0xffdf); (0x27c4, 0x0002); (0x27c6, 0xb0f2); (0x27c8, 0x0040); (0x27ca, 0x0383);
   (0x27cc, 0x434e); (0x27ce, 0x634e); (0x27d0, 0x5e4e); (0x27d2, 0x5e4e); (0x27d4, 0x415f);
   (0x27d6, 0x0008); (0x27d8, 0xc26f); (0x27da, 0xde4f); (0x27dc, 0x4fc1); (0x27de, 0x0008);
   (0x27e0, 0x93c2); (0x27e2, 0x0383); (0x27e4, 0x3412); (0x27e6, 0xf0f1); (0x27e8, 0xffdf);
   (0x27ea, 0x0000); (0x27ec, 0x425e); (0x27ee, 0x0382); (0x27f0, 0xf35e); (0x27f2, 0x5e4e);
   (0x27f4, 0x5e4e); (0x27f6, 0x5e4e); (0x27f8, 0x5e4e); (0x27fa, 0x5e4e); (0x27fc, 0x415f);
   (0x27fe, 0x0006); (0x2800, 0xf07f); (0x2802, 0xffdf); (0x2804, 0xde4f); (0x2806, 0x4fc1);
   (0x2808, 0x0006); (0x280a, 0x410f); (0x280c, 0x4fb2); (0x280e, 0x0508); (0x2810, 0x4fb2);
   (0x2812, 0x050a); (0x2814, 0x4fb2); (0x2816, 0x050c)].
Definition hi1337_global_regs_8 : list (Z * Z) :=
  [(0x2818, 0x4fb2); (0x281a, 0x0500); (0x281c, 0x4fb2); (0x281e, 0x0502); (0x2820, 0x4fb2);
   (0x2822, 0x0504); (0x2824, 0x3c10); (0x2826, 0xd2f2); (0x2828, 0x0400); (0x282a, 0x3f7c);
   (0x282c, 0x4f6f); (0x282e, 0xf37f); (0x2830, 0x4fc2); (0x2832, 0x0402); (0x2834, 0x3f72);
   (0x2836, 0x90f2); (0x2838, 0x0011); (0x283a, 0x0619); (0x283c, 0x2b4e); (0x283e, 0x50f2);
   (0x2840, 0xfff0); (0x2842, 0x0619); (0x2844, 0x3f4a); (0x2846, 0x5031); (0x2848, 0x000c);
   (0x284a, 0x4139); (0x284c, 0x413a); (0x284e, 0x413b); (0x2850, 0x4130); (0x2852, 0x0900);
   (0x2854, 0x7312); (0x2856, 0x421f); (0x2858, 0x0a08); (0x285a, 0xf03f); (0x285c, 0xf7ff);
   (0x285e, 0x4f82); (0x2860, 0x0a88); (0x2862, 0x0900); (0x2864, 0x7312); (0x2866, 0x421f);
   (0x2868, 0x0a0e); (0x286a, 0xf03f); (0x286c, 0x7fff); (0x286e, 0x4f82); (0x2870, 0x0a8e);
   (0x2872, 0x0900); (0x2874, 0x7312); (0x2876, 0x421f); (0x2878, 0x0a1e); (0x287a, 0xc31f);
   (0x287c, 0x4f82); (0x287e, 0x0a9e); (0x2880, 0x4130); (0x2882, 0x4292); (0x2884, 0x0a08);
   (0x2886, 0x0a88); (0x2888, 0x0900); (0x288a, 0x7312); (0x288c, 0x4292); (0x288e, 0x0a0e);
   (0x2890, 0x0a8e); (0x2892, 0x0900); (0x2894, 0x7312); (0x2896, 0x4292); (0x2898, 0x0a1e);
   (0x289a, 0x0a9e); (0x289c, 0x4130); (0x289e, 0x7400); (0x28a0, 0x8058); (0x28a2, 0x1807);
   (0x28a4, 0x00e0); (0x28a6, 0x7002); (0x28a8, 0x17c7); (0x28aa, 0x0045); (0x28ac, 0x0006);
   (0x28ae, 0x17cc); (0x28b0, 0x0015); (0x28b2, 0x1512); (0x28b4, 0x216f); (0x28b6, 0x005b);
   (0x28b8, 0x005d); (0x28ba, 0x00de); (0x28bc, 0x00dd); (0x28be, 0x5023); (0x28c0, 0x00de);
   (0x28c2, 0x005b); (0x28c4, 0x0410); (0x28c6, 0x0091); (0x28c8, 0x0015); (0x28ca, 0x0040);
   (0x28cc, 0x7023); (0x28ce, 0x1653); (0x28d0, 0x0156); (0x28d2, 0x0001); (0x28d4, 0x2081);
   (0x28d6, 0x700e); (0x28d8, 0x2f99); (0x28da, 0x005c); (0x28dc, 0x0000); (0x28de, 0x5040);
   (0x28e0, 0x0045); (0x28e2, 0x213a); (0x28e4, 0x0303); (0x28e6, 0x0148); (0x28e8, 0x0049);
   (0x28ea, 0x0045); (0x28ec, 0x0046); (0x28ee, 0x081d); (0x28f0, 0x00de); (0x28f2, 0x00dd);
   (0x28f4, 0x00dc); (0x28f6, 0x00de); (0x28f8, 0x04d6); (0x28fa, 0x2014); (0x28fc, 0x2081);
   (0x28fe, 0x704e); (0x2900, 0x2f99); (0x2902, 0x005c); (0x2904, 0x0002); (0x2906, 0x5060);
   (0x2908, 0x31c0); (0x290a, 0x2122); (0x290c, 0x7800); (0x290e, 0xc08c); (0x2910, 0x0001);
   (0x2912, 0x9038); (0x2914, 0x59f7); (0x2916, 0x907a); (0x2918, 0x03d8); (0x291a, 0x8d90);
   (0x291c, 0x01c0); (0x291e, 0x7400); (0x2920, 0x2002); (0x2922, 0x70df); (0x2924, 0x3f40);
   (0x2926, 0x0240); (0x2928, 0x7800); (0x292a, 0x0021); (0x292c, 0x7400); (0x292e, 0x0001);
   (0x2930, 0x70df); (0x2932, 0x3f5f); (0x2934, 0x7012); (0x2936, 0x2f01); (0x2938, 0x7800);
   (0x293a, 0x7400); (0x293c, 0x2004); (0x293e, 0x70df)].
Definition hi1337_global_regs_9 : list (Z * Z) :=
  [(0x2940, 0x3f20); (0x2942, 0x0240); (0x2944, 0x7800); (0x2946, 0x0041); (0x2948, 0x7400);
   (0x294a, 0x2008); (0x294c, 0x70df); (0x294e, 0x3f20); (0x2950, 0x0240); (0x2952, 0x7800);
   (0x2954, 0x0041); (0x2956, 0x7400); (0x2958, 0x0004); (0x295a, 0x70df); (0x295c, 0x3f5f);
   (0x295e, 0x7012); (0x2960, 0x2f01); (0x2962, 0x7800); (0x2964, 0x7400); (0x2966, 0x2010);
   (0x2968, 0x70df); (0x296a, 0x3f40); (0x296c, 0x0240); (0x296e, 0x7800); (0x2970, 0x0000);
   (0x2972, 0xb89e); (0x2974, 0x0000); (0x2976, 0xb89e); (0x2978, 0xb90e); (0x297a, 0x0002);
   (0x297c, 0x0063); (0x297e, 0xb93a); (0x2980, 0x0063); (0x2982, 0xb91e); (0x2984, 0x0063);
   (0x2986, 0xb948); (0x2988, 0x0063); (0x298a, 0xb956); (0x298c, 0xb92a); (0x298e, 0x0004);
   (0x2990, 0x0063); (0x2992, 0xb948); (0x2994, 0x0063); (0x2996, 0xb964); (0x2998, 0x0063);
   (0x299a, 0xb93a); (0x299c, 0x0063); (0x299e, 0xb92c); (0x29a0, 0xb92a); (0x29a2, 0x0004);
   (0x29a4, 0x0066); (0x29a6, 0x0067); (0x29a8, 0x00af); (0x29aa, 0x01cf); (0x29ac, 0x0087);
   (0x29ae, 0x0083); (0x29b0, 0x011b); (0x29b2, 0x035a); (0x29b4, 0x00fa); (0x29b6, 0x00f2);
   (0x29b8, 0x00a6); (0x29ba, 0x00a4); (0x29bc, 0xffff); (0x29be, 0x002d); (0x29c0, 0x005a);
   (0x29c2, 0x0000); (0x29c4, 0x0000); (0x29c6, 0xb9a4); (0x29c8, 0xb970); (0x29ca, 0xb9be);
   (0x29cc, 0xb97c); (0x29ce, 0xb990); (0x29d0, 0xb97c); (0x29d2, 0xb990); (0x29d4, 0xb97c);
   (0x29d6, 0xb990); (0x29d8, 0xb97c); (0x29da, 0xb990); (0x29dc, 0xb97c); (0x29de, 0xb990);
   (0x29e0, 0xb97c); (0x29e2, 0xb990); (0x29e4, 0xb97c); (0x29e6, 0xb990); (0x29e8, 0xb97c);
   (0x29ea, 0xb990); (0x29ec, 0xb97c); (0x29ee, 0xb990); (0x29f0, 0xb97c); (0x29f2, 0xb990);
   (0x29f4, 0xb97c); (0x29f6, 0xb990); (0x29f8, 0xb97c); (0x29fa, 0xb990); (0x29fc, 0xb97c);
   (0x29fe, 0xb990); (0x2a00, 0xb97c); (0x2a02, 0xb990); (0x2a04, 0xb97c); (0x2a06, 0xb990);
   (0x2a08, 0xb97c); (0x2a0a, 0xb990); (0x3710, 0x871e); (0x3712, 0xb9ec); (0x3714, 0xb9ca);
   (0x3716, 0xd140); (0x3718, 0xb9cc); (0x371a, 0xb9c8); (0x371c, 0x0000); (0x371e, 0x0040);
   (0x3720, 0x0040); (0x3722, 0x0040); (0x3724, 0x0040); (0x3726, 0x0044); (0x3728, 0x0049);
   (0x372a, 0x004d); (0x372c, 0x0052); (0x372e, 0x0057); (0x3730, 0x005c); (0x3732, 0x0062);
   (0x3734, 0x0068); (0x3736, 0x006e); (0x3738, 0x0074); (0x373a, 0x007a); (0x373c, 0x0080);
   (0x373e, 0x0087); (0x3740, 0x008e); (0x3742, 0x0095); (0x3744, 0x009c); (0x3746, 0x00a4);
   (0x3748, 0x00ab); (0x374a, 0x00b2); (0x374c, 0x00ba); (0x374e, 0x00c1); (0x3750, 0x00c7);
   (0x3752, 0x00cd); (0x3754, 0x00d4); (0x3756, 0x00da); (0x3758, 0x00e0); (0x375a, 0x00e6);
   (0x375c, 0x00e6); (0x375e, 0x0000); (0x3760, 0x0000); (0x3762, 0x0000); (0x3764, 0x0000);
   (0x3766, 0x0000); (0x3768, 0x0000); (0x376a, 0x0000)].
Definition hi1337_global_regs_10 : list (Z * Z) :=
  [(0x376c, 0x0000); (0x376e, 0x0000); (0x3770, 0x0000); (0x3772, 0x0000); (0x3774, 0x0000);
   (0x3776, 0x0000); (0x3778, 0x0000); (0x377a, 0x0000); (0x377c, 0x0000); (0x377e, 0x0000);
   (0x3780, 0x0000); (0x3782, 0x0000); (0x3784, 0x0000); (0x3786, 0x0000); (0x3788, 0x0000);
   (0x378a, 0x0000); (0x378c, 0x0000); (0x378e, 0x0000); (0x3790, 0x0000); (0x3792, 0x0000);
   (0x3794, 0x0000); (0x3796, 0x0000); (0x3798, 0x0000); (0x379a, 0x0000); (0x379c, 0x0000);
   (0x026a, 0xffff); (0x026c, 0x00ff); (0x026e, 0x0000); (0x0360, 0x1e8e); (0x040e, 0x01eb);
   (0x0600, 0x1130); (0x0602, 0x3112); (0x0604, 0x8048); (0x0606, 0x00e9); (0x0676, 0x07ff);
   (0x0678, 0x0002); (0x067a, 0x0505); (0x067c, 0x0505); (0x06a8, 0x0240); (0x06aa, 0x00ca);
   (0x06ac, 0x0041); (0x06b4, 0x3fff); (0x06de, 0x0505); (0x06e0, 0x0505); (0x06e2, 0xff00);
   (0x06e4, 0x8369); (0x06e6, 0x8369); (0x06e8, 0x8369); (0x06ea, 0x8369); (0x052a, 0x0000);
   (0x052c, 0x0000); (0x0f06, 0x0002); (0x1102, 0x0008); (0x0a04, 0xb4c5); (0x0a06, 0xc400);
   (0x0a08, 0x988a); (0x0a0a, 0xf386); (0x0a0e, 0xeec0); (0x0a12, 0x0000); (0x0a18, 0x0010);
   (0x0a1e, 0x000f); (0x0a20, 0x0015); (0x0c00, 0x0021); (0x0c16, 0x0002); (0x0708, 0x6fc0);
   (0x070c, 0x0000); (0x0780, 0x010f); (0x120c, 0x1428); (0x121a, 0x0000); (0x121c, 0x1896);
   (0x121e, 0x0032); (0x1220, 0x0000); (0x1222, 0x96ff); (0x1244, 0x0000); (0x105c, 0x0f0b);
   (0x1958, 0x003f); (0x195a, 0x004c); (0x195c, 0x0097); (0x195e, 0x0221); (0x1960, 0x03ff);
   (0x1980, 0x007d); (0x1982, 0x0028); (0x1984, 0x2018); (0x1986, 0x0010); (0x1988, 0x0000);
   (0x198a, 0x0000); (0x198c, 0x0428); (0x198e, 0x0000); (0x1990, 0x1b33); (0x1992, 0x0000);
   (0x1994, 0x3000); (0x1996, 0x0002); (0x1962, 0x003f); (0x1964, 0x004c); (0x1966, 0x0097);
   (0x1968, 0x0221); (0x196a, 0x03ff); (0x19c0, 0x007d); (0x19c2, 0x0028); (0x19c4, 0x2018);
   (0x19c6, 0x0010); (0x19c8, 0x0000); (0x19ca, 0x0000); (0x19cc, 0x0428); (0x19ce, 0x0000);
   (0x19d0, 0x1b33); (0x19d2, 0x0000); (0x19d4, 0x3000); (0x19d6, 0x0002); (0x196c, 0x003f);
   (0x196e, 0x004c); (0x1970, 0x0097); (0x1972, 0x0221); (0x1974, 0x03ff); (0x1a00, 0x007d);
   (0x1a02, 0x0028); (0x1a04, 0x2018); (0x1a06, 0x0010); (0x1a08, 0x0000); (0x1a0a, 0x0000);
   (0x1a0c, 0x0428); (0x1a0e, 0x0000); (0x1a10, 0x1b33); (0x1a12, 0x0000); (0x1a14, 0x3000);
   (0x1a16, 0x0002); (0x1976, 0x003f); (0x1978, 0x004c); (0x197a, 0x0097); (0x197c, 0x0221);
   (0x197e, 0x03ff); (0x1a40, 0x007d); (0x1a42, 0x0028); (0x1a44, 0x2018); (0x1a46, 0x0010);
   (0x1a48, 0x0000); (0x1a4a, 0x0000); (0x1a4c, 0x0428); (0x1a4e, 0x0000); (0x1a50, 0x1b33);
   (0x1a52, 0x0000); (0x1a54, 0x3000); (0x1a56, 0x0002); (0x027e, 0x0100)].
Definition hi1337_global_regs : list (Z * Z) :=
  hi1337_global_regs_1 ++ hi1337_global_regs_2 ++ hi1337_global_regs_3 ++ hi1337_global_regs_4
  ++ hi1337_global_regs_5 ++ hi1337_global_regs_6 ++ hi1337_global_regs_7 ++ hi1337_global_regs_8
  ++ hi1337_global_regs_9 ++ hi1337_global_regs_10.

Definition hi1337_rear_4128x3096_regs : list (Z * Z) :=
  [(0x0204, 0x0000); (0x0206, 0x02df); (0x020a, 0x0cbc); (0x020e, 0x0cc0); (0x0214, 0x0200);
   (0x0216, 0x0200); (0x0218, 0x0200); (0x021a, 0x0200); (0x0224, 0x003a); (0x022a, 0x0017);
   (0x022c, 0x0e1f); (0x022e, 0x0c55); (0x0234, 0x1111); (0x0236, 0x1111); (0x0238, 0x1111);
   (0x023a, 0x1111); (0x0248, 0x0100); (0x0250, 0x0000); (0x0252, 0x0006); (0x0254, 0x0000);
   (0x0256, 0x0000); (0x0258, 0x0000); (0x025a, 0x0000); (0x025c, 0x0000); (0x025e, 0x0202);
   (0x0440, 0x0031); (0x0f00, 0x0000); (0x0f04, 0x0030); (0x0b02, 0x0000); (0x0b04, 0x00dd);
   (0x0b12, 0x1020); (0x0b14, 0x0c18); (0x0b20, 0x0100); (0x1100, 0x1100); (0x1108, 0x0002);
   (0x1118, 0x000a); (0x0a10, 0xb040); (0x0c14, 0x0030); (0x0c18, 0x1020); (0x0c1a, 0x0c18);
   (0x0730, 0x0001); (0x0732, 0x0000); (0x0734, 0x0300); (0x0736, 0x005a); (0x0738, 0x0002);
   (0x073c, 0x0700); (0x0740, 0x0000); (0x0742, 0x0000); (0x0744, 0x0300); (0x0746, 0x00dc);
   (0x0748, 0x0002); (0x074a, 0x0900); (0x074c, 0x0000); (0x074e, 0x0100); (0x0750, 0x0000);
   (0x1200, 0x0526); (0x1202, 0x0a00); (0x120e, 0xf027); (0x1210, 0x8027); (0x1000, 0x0300);
   (0x1002, 0xc311); (0x1004, 0x2bab); (0x1010, 0x0100); (0x1012, 0x0198); (0x1014, 0x0073);
   (0x1016, 0x0073); (0x101a, 0x0073); (0x1020, 0xc10b); (0x1022, 0x0b34); (0x1024, 0x050d);
   (0x1026, 0x1311); (0x1028, 0x1b0e); (0x102a, 0x130a); (0x102c, 0x2200); (0x1038, 0x1100);
   (0x103e, 0x0001); (0x1042, 0x0108); (0x1044, 0x0100); (0x1046, 0x0004); (0x1048, 0x0100);
   (0x1066, 0x0100); (0x1600, 0xe000); (0x1608, 0x0040); (0x160a, 0x1000); (0x160c, 0x000e);
   (0x160e, 0x0c00); (0x0268, 0x00e6); (0x1246, 0x0126); (0x0406, 0x0008); (0x0408, 0x1084);
   (0x0d28, 0x0008); (0x0d2a, 0x1087); (0x1116, 0x0000)].

Definition hi1337_front_3408x2556_regs : list (Z * Z) :=
  [(0x0204, 0x0000); (0x0206, 0x0375); (0x020a, 0x0a92); (0x020e, 0x0a96); (0x0214, 0x0200);
   (0x0216, 0x0200); (0x0218, 0x0200); (0x021a, 0x0200); (0x0224, 0x0148); (0x022a, 0x0017);
   (0x022c, 0x0e1f); (0x022e, 0x0b47); (0x0234, 0x1111); (0x0236, 0x1111); (0x0238, 0x1111);
   (0x023a, 0x1111); (0x0248, 0x0100); (0x0250, 0x0000); (0x0252, 0x0006); (0x0254, 0x0000);
   (0x0256, 0x0000); (0x0258, 0x0000); (0x025a, 0x0000); (0x025c, 0x0000); (0x025e, 0x0202);
   (0x0440, 0x0016); (0x0f00, 0x0000); (0x0f04, 0x0198); (0x0b02, 0x0000); (0x0b04, 0x00dd);
   (0x0b12, 0x0d50); (0x0b14, 0x09fc); (0x0b20, 0x0100); (0x1100, 0x1100); (0x1108, 0x0002);
   (0x1118, 0x0118); (0x0a10, 0xb040); (0x0c14, 0x0198); (0x0c18, 0x0d50); (0x0c1a, 0x09fc);
   (0x0730, 0x0001); (0x0732, 0x0000); (0x0734, 0x0300); (0x0736, 0x005a); (0x0738, 0x0002);
   (0x073c, 0x0700); (0x0740, 0x0000); (0x0742, 0x0000); (0x0744, 0x0300); (0x0746, 0x00dc);
   (0x0748, 0x0002); (0x074a, 0x0900); (0x074c, 0x0000); (0x074e, 0x0100); (0x0750, 0x0000);
   (0x1200, 0x0526); (0x1202, 0x0a00); (0x120e, 0xf027); (0x1210, 0x8027); (0x1000, 0x0300);
   (0x1002, 0xc311); (0x1004, 0x2bab); (0x1010, 0x0100); (0x1012, 0x03e8); (0x1014, 0x01a1);
   (0x1016, 0x01a1); (0x101a, 0x01a1); (0x1020, 0xc10b); (0x1022, 0x0b34); (0x1024, 0x050d);
   (0x1026, 0x1311); (0x1028, 0x1b0e); (0x102a, 0x130a); (0x102c, 0x2200); (0x1038, 0x1100);
   (0x103e, 0x0001); (0x1042, 0x0108); (0x1044, 0x00d4); (0x1046, 0x0004); (0x1048, 0x00d4);
   (0x1066, 0x0100); (0x1600, 0xe000); (0x1608, 0x01a0); (0x160a, 0x0d40); (0x160c, 0x0020);
   (0x160e, 0x09c0); (0x0268, 0x00c1); (0x1246, 0x00f5); (0x0406, 0x0008); (0x0408, 0x1084);
   (0x0d28, 0x0008); (0x0d2a, 0x1087); (0x1116, 0x0000)].

Definition hi1337_front_uw_4000x3000_regs : list (Z * Z) :=
  [(0x0204, 0x0000); (0x0206, 0x02f8); (0x020a, 0x0c50); (0x020e, 0x0c54); (0x0214, 0x0200);
   (0x0216, 0x0200); (0x0218, 0x0200); (0x021a, 0x0200); (0x0224, 0x006a); (0x022a, 0x0017);
   (0x022c, 0x0e1f); (0x022e, 0x0c25); (0x0234, 0x1111); (0x0236, 0x1111); (0x0238, 0x1111);
   (0x023a, 0x1111); (0x0248, 0x0100); (0x0250, 0x0000); (0x0252, 0x0006); (0x0254, 0x0000);
   (0x0256, 0x0000); (0x0258, 0x0000); (0x025a, 0x0000); (0x025c, 0x0000); (0x025e, 0x0202);
   (0x0440, 0x0031); (0x0f00, 0x0000); (0x0f04, 0x0070); (0x0b02, 0x0000); (0x0b04, 0x00dd);
   (0x0b12, 0x0fa0); (0x0b14, 0x0bb8); (0x0b20, 0x0100); (0x1100, 0x1100); (0x1108, 0x0002);
   (0x1118, 0x003a); (0x0a10, 0xb040); (0x0c14, 0x0070); (0x0c18, 0x0fa0); (0x0c1a, 0x0bb8);
   (0x0730, 0x0001); (0x0732, 0x0000); (0x0734, 0x0300); (0x0736, 0x005a); (0x0738, 0x0002);
   (0x073c, 0x0700); (0x0740, 0x0000); (0x0742, 0x0000); (0x0744, 0x0300); (0x0746, 0x00dc);
   (0x0748, 0x0002); (0x074a, 0x0900); (0x074c, 0x0000); (0x074e, 0x0100); (0x0750, 0x0000);
   (0x1200, 0x0526); (0x1202, 0x0a00); (0x120e, 0xf027); (0x1210, 0x8027); (0x1000, 0x0300);
   (0x1002, 0xc311); (0x1004, 0x2bab); (0x1010, 0x0100); (0x1012, 0x01fd); (0x1014, 0x00a6);
   (0x1016, 0x00a6); (0x101a, 0x00a6); (0x1020, 0xc10b); (0x1022, 0x0b34); (0x1024, 0x050d);
   (0x1026, 0x1311); (0x1028, 0x1b0e); (0x102a, 0x130a); (0x102c, 0x2200); (0x1038, 0x1100);
   (0x103e, 0x0001); (0x1042, 0x0108); (0x1044, 0x00f8); (0x1046, 0x0004); (0x1048, 0x00f8);
   (0x1066, 0x0100); (0x1600, 0xe000); (0x1608, 0x0070); (0x160a, 0x0fa0); (0x160c, 0x001e);
   (0x160e, 0x0b80); (0x0268, 0x00df); (0x1246, 0x011d); (0x0406, 0x0008); (0x0408, 0x1084);
   (0x0d28, 0x0008); (0x0d2a, 0x1087); (0x1116, 0x0000)].
