(* ===== verification/Hi1337.v ===== *)
(** [hi1337_gts9u.c]: the camera sensors.  The register tables are in
    Hi1337Tables.v. *)
From S2P Require Import Prelude Bus Hi1337Tables.

Definition HI1337_MCLK := 19200000.
Definition HI1337_LINK_FREQ := 360200000.
Definition HI1337_PIXEL_RATE := 288160000.
Definition HI1337_DATA_LANES := 4.
Definition HI1337_REG_MODEL_ID := 0x0716.
Definition HI1337_REG_VENDOR_ID := 0x0714.
Definition HI1337_MODEL_ID := 0x1336.
Definition HI1337_VENDOR_ID := 0x2000.
Definition HI1337_REG_MODE_SELECT := 0x0b00.
Definition HI1337_MODE_STANDBY := 0x0000.
Definition HI1337_MODE_STREAMING := 0x0100.
Definition HI1337_REG_FRAME_LENGTH := 0x020e.
Definition HI1337_REG_EXPOSURE := 0x020a.
Definition HI1337_REG_ANALOGUE_GAIN := 0x0213.
Definition HI1337_FRAME_LENGTH_MAX := 0x7fff.
Definition HI1337_EXPOSURE_MIN := 4.
Definition HI1337_EXPOSURE_MARGIN := 4.

Definition ENOENT := 2.
Definition ENXIO := 6.
Definition EEXIST := 17.

Record hi1337_mode := mkMode { width : Z; height : Z; frame_length : Z; regs : list (Z * Z) }.
Definition hi1337_rear : hi1337_mode := mkMode 4128 3096 0x0cc0 hi1337_rear_4128x3096_regs.
Definition hi1337_front : hi1337_mode := mkMode 3408 2556 0x0a96 hi1337_front_3408x2556_regs.
Definition hi1337_front_uw : hi1337_mode := mkMode 4000 3000 0x0c54 hi1337_front_uw_4000x3000_regs.

(** [struct hi1337]: the held GPIOs, the mode of the variant and the streaming
    flag.  The controls live in the V4L2 framework. *)
Record hi1337 := mkHi { enable_gpio : bool; reset_gpio : bool; mode : hi1337_mode; streaming : bool }.
#[export] Instance eta_hi1337 : Eta hi1337 := fun r =>
  mkHi (enable_gpio r) (reset_gpio r) (mode r) (streaming r).

Inductive gpio := GpioEnable | GpioReset.
#[export] Instance gpio_eq_dec : EqDecision gpio.
Proof. solve_decision. Defined.
Inductive control := V4L2_CID_LINK_FREQ | V4L2_CID_PIXEL_RATE | V4L2_CID_VBLANK | V4L2_CID_HBLANK
  | V4L2_CID_EXPOSURE | V4L2_CID_ANALOGUE_GAIN.
(** What [probe] registers with the media frameworks. *)
Inductive facility := Controls | Entity | Subdev | Notifier.

Inductive cam_event :=
  | CamWrite (reg value ret : Z)
  | CamRead (reg ret : Z)
  | CamSleep (us : Z)
  | CamRails (on : bool) (ret : Z)          (* regulator_bulk_enable, _disable *)
  | CamClock (on : bool) (ret : Z)
  | CamGpioGet (g : gpio) (ret : Z)
  | CamGpioPut (g : gpio)
  | CamGpioSet (g : gpio) (v : Z)
  | CamNewCtrl (id : control) (min max def : Z)
  | CamRange (min max : Z)                  (* __v4l2_ctrl_modify_range of the exposure *)
  | CamTake (f : facility) (ret : Z)
  | CamRelease (f : facility).

(** The bus, the rails, the clock, the GPIOs and the control framework.
    [gpiod_get]: an error is negative, 0 is the NULL of an optional GPIO that is
    not there.  [modify_range] gives the value the exposure is set to when the new
    range changes it, [handler_setup] the controls that
    [__v4l2_ctrl_handler_setup] sets, with their values, in order. *)
Class CamEnv (W : Type) := {
  cam_transfer : Z → W → (Z * Z) * W;
  cam_send : Z → Z → W → Z * W;
  regulator_bulk_enable : W → Z * W;
  clk_prepare_enable : W → Z * W;
  gpiod_get : gpio → W → Z * W;
  modify_range : Z → Z → W → option Z * W;
  handler_setup : W → list (control * Z) * W;
}.

Section camera.
Context {W : Type} `{!CamEnv W}.
Abbreviation M := (M (machine hi1337 W cam_event)).

(** The result and the value read (0 for the initialised variable of the caller
    when the read fails). *)
Definition hi1337_read_reg (reg : Z) : M (Z * Z) :=
  '(ret, value) ← ask (cam_transfer reg);
  emit (CamRead reg ret);;
  mret (if negb (ret =? 2) then (if ret <? 0 then ret else - EIO, 0) else (0, u16 value)).
Definition hi1337_write_reg (reg value : Z) : M Z :=
  ret ← ask (cam_send (u16 reg) (u16 value));
  emit (CamWrite (u16 reg) (u16 value) ret);;
  mret (if ret =? 4 then 0 else if ret <? 0 then ret else - EIO).
Fixpoint hi1337_write_table (l : list (Z * Z)) : M Z :=
  match l with
  | [] => mret 0
  | (a, v) :: l' => hi1337_write_reg a v ?; hi1337_write_table l'
  end.

Definition usleep (us : Z) : M unit := emit (CamSleep us).
Definition gpio_set (g : gpio) (v : Z) : M unit := emit (CamGpioSet g v).
Definition gpio_put (g : gpio) : M unit := emit (CamGpioPut g).
Definition get_gpio (g : gpio) : M Z :=
  ret ← ask (gpiod_get g); emit (CamGpioGet g ret);; mret ret.
Definition when (b : bool) (c : M unit) : M unit := if b then c else skip.

(** The exits of [hi1337_power_on]. *)
Definition disable_regulators (ret : Z) : M Z := emit (CamRails false 0);; mret ret.
Definition release_enable (ret : Z) : M Z :=
  d ← get_drv;
  when (enable_gpio d) (gpio_put GpioEnable);;
  mod_drv (fun d => d <| enable_gpio := false |>);;
  disable_regulators ret.
Definition disable_module (ret : Z) : M Z :=
  d ← get_drv;
  when (enable_gpio d) (gpio_set GpioEnable 0);;
  gpio_put GpioReset;;
  mod_drv (fun d => d <| reset_gpio := false |>);;
  release_enable ret.

(** From the reset GPIO on. *)
Definition power_on_reset : M Z :=
  r ← get_gpio GpioReset;
  mod_drv (fun d => d <| reset_gpio := negb (r <? 0) |>);;
  if r <? 0 then release_enable r
  else
    d ← get_drv;
    when (enable_gpio d) (gpio_set GpioEnable 1);;
    usleep 1000;;
    ret ← ask clk_prepare_enable;
    emit (CamClock true ret);;
    if negb (ret =? 0) then disable_module ret
    else
      usleep 10000;;
      gpio_set GpioReset 0;;
      usleep 12000;;
      mret 0.
Definition hi1337_power_on : M Z :=
  ret ← ask regulator_bulk_enable;
  emit (CamRails true ret);;
  if negb (ret =? 0) then mret ret
  else
    usleep 2000;;
    e ← get_gpio GpioEnable;
    mod_drv (fun d => d <| enable_gpio := 0 <? e |>);;
    if e <? 0 then disable_regulators e else power_on_reset.

Definition hi1337_power_off : M unit :=
  d ← get_drv;
  if negb (reset_gpio d) then skip
  else
    gpio_set GpioReset 1;;
    emit (CamClock false 0);;
    when (enable_gpio d) (gpio_set GpioEnable 0);;
    gpio_put GpioReset;;
    mod_drv (fun d => d <| reset_gpio := false |>);;
    when (enable_gpio d) (gpio_put GpioEnable);;
    mod_drv (fun d => d <| enable_gpio := false |>);;
    emit (CamRails false 0).

Definition hi1337_identify : M Z :=
  '(model_ret, model) ← hi1337_read_reg HI1337_REG_MODEL_ID;
  '(vendor_ret, vendor) ← hi1337_read_reg HI1337_REG_VENDOR_ID;
  mret (if negb (model_ret =? 0) && negb (vendor_ret =? 0) then model_ret
        else if negb (model =? HI1337_MODEL_ID) && negb (model =? 0x1337)
                && negb (vendor =? HI1337_VENDOR_ID) then - ENXIO
        else 0).

(** *** Controls *)

(** The write of [hi1337_set_ctrl] while streaming. *)
Definition write_ctrl (id : control) (val : Z) : M Z :=
  d ← get_drv;
  if negb (streaming d) then mret 0
  else
    match id with
    | V4L2_CID_EXPOSURE => hi1337_write_reg HI1337_REG_EXPOSURE val
    | V4L2_CID_ANALOGUE_GAIN => hi1337_write_reg HI1337_REG_ANALOGUE_GAIN (Z.land val 0xff)
    | V4L2_CID_VBLANK => hi1337_write_reg HI1337_REG_FRAME_LENGTH (height (mode d) + val)
    | _ => mret 0
    end.
Definition modify_exposure_range (lo hi : Z) : M unit :=
  v ← ask (modify_range lo hi);
  emit (CamRange lo hi);;
  match v with
  | None => skip
  | Some v => write_ctrl V4L2_CID_EXPOSURE v;; skip
  end.
Definition hi1337_set_ctrl (id : control) (val : Z) : M Z :=
  d ← get_drv;
  (match id with
   | V4L2_CID_VBLANK =>
       modify_exposure_range HI1337_EXPOSURE_MIN (u32 (height (mode d) + val - HI1337_EXPOSURE_MARGIN))
   | _ => skip
   end);;
  write_ctrl id val.

(** [handler_ret], [parse_ret], [props_ret] and [error]: what
    [v4l2_ctrl_handler_init], [v4l2_fwnode_device_parse] and
    [v4l2_ctrl_new_fwnode_properties] return, and the error of the handler. *)
Definition hi1337_init_controls (handler_ret parse_ret props_ret error : Z) : M Z :=
  d ← get_drv;
  let m := mode d in
  let vblank := u32 (frame_length m - height m) in
  let exposure := frame_length m - HI1337_EXPOSURE_MARGIN in
  emit (CamTake Controls handler_ret);;
  if negb (handler_ret =? 0) then mret handler_ret
  else
    emit (CamNewCtrl V4L2_CID_LINK_FREQ 0 0 0);;
    emit (CamNewCtrl V4L2_CID_PIXEL_RATE HI1337_PIXEL_RATE HI1337_PIXEL_RATE HI1337_PIXEL_RATE);;
    emit (CamNewCtrl V4L2_CID_VBLANK vblank (HI1337_FRAME_LENGTH_MAX - height m) vblank);;
    emit (CamNewCtrl V4L2_CID_HBLANK 0 0 0);;
    emit (CamNewCtrl V4L2_CID_EXPOSURE HI1337_EXPOSURE_MIN exposure exposure);;
    emit (CamNewCtrl V4L2_CID_ANALOGUE_GAIN 0 240 0);;
    mret (if negb (parse_ret =? 0) then parse_ret
          else if negb (props_ret =? 0) then props_ret else error).

(** The framework tells the driver the controls one by one, up to an error. *)
Fixpoint set_controls (l : list (control * Z)) : M Z :=
  match l with
  | [] => mret 0
  | (id, v) :: l' => hi1337_set_ctrl id v ?; set_controls l'
  end.
Definition v4l2_ctrl_handler_setup : M Z := l ← ask handler_setup; set_controls l.

(** *** Streaming *)

Definition clear_streaming (ret : Z) : M Z :=
  mod_drv (fun d => d <| streaming := false |>);; mret ret.
Definition read_back (reg : Z) : M unit := hi1337_read_reg reg;; skip.
Definition hi1337_start_streaming : M Z :=
  d ← get_drv;
  hi1337_write_table hi1337_global_regs ?;
  hi1337_write_table (regs (mode d)) ?;
  (read_back HI1337_REG_MODE_SELECT;;
   read_back HI1337_REG_MODEL_ID;;
   read_back HI1337_REG_FRAME_LENGTH;;
   mod_drv (fun d => d <| streaming := true |>);;
   ret ← v4l2_ctrl_handler_setup;
   if negb (ret =? 0) then clear_streaming ret
   else
     ret ← hi1337_write_reg HI1337_REG_MODE_SELECT HI1337_MODE_STREAMING;
     if negb (ret =? 0) then clear_streaming ret
     else
       read_back HI1337_REG_MODE_SELECT;;
       usleep 500000;;
       read_back HI1337_REG_MODE_SELECT;;
       mret 0).
Definition hi1337_set_stream (enable : bool) : M Z :=
  d ← get_drv;
  if Bool.eqb (streaming d) enable then mret 0
  else if enable then
    ret ← hi1337_power_on;
    if negb (ret =? 0) then mret ret
    else
      ret ← hi1337_start_streaming;
      (if negb (ret =? 0) then hi1337_power_off else skip);;
      mret ret
  else
    ret ← hi1337_write_reg HI1337_REG_MODE_SELECT HI1337_MODE_STANDBY;
    mod_drv (fun d => d <| streaming := false |>);;
    hi1337_power_off;;
    mret ret.

(** *** Formats *)

Definition MEDIA_BUS_FMT_SGRBG10_1X10 := 0x300a.
Record framefmt := mkFmt { f_width : Z; f_height : Z; f_code : Z }.
Definition hi1337_fill_format (m : hi1337_mode) : framefmt :=
  mkFmt (width m) (height m) MEDIA_BUS_FMT_SGRBG10_1X10.
(** [try_fmt]: the try format of the state when the request is about it; the
    result is the format reported. *)
Definition hi1337_get_format (m : hi1337_mode) (try_fmt : option framefmt) : framefmt :=
  default (hi1337_fill_format m) try_fmt.
(** The format reported and the new try format. *)
Definition hi1337_set_format (m : hi1337_mode) (try_fmt : option framefmt)
    : framefmt * option framefmt :=
  let f := hi1337_fill_format m in (f, match try_fmt with Some _ => Some f | None => None end).
Definition hi1337_enum_mbus_code (index : Z) : Z + Z :=
  if negb (index =? 0) then inl (- EINVAL) else inr MEDIA_BUS_FMT_SGRBG10_1X10.
Definition hi1337_enum_frame_size (m : hi1337_mode) (index code : Z) : Z + (Z * Z) :=
  if negb (index =? 0) || negb (code =? MEDIA_BUS_FMT_SGRBG10_1X10) then inl (- EINVAL)
  else inr (width m, height m).
(** [crop]: the target is one of the four selections the driver knows. *)
Definition hi1337_get_selection (m : hi1337_mode) (pad : Z) (crop : bool)
    : Z + (Z * Z * Z * Z) :=
  if negb (pad =? 0) then inl (- EINVAL)
  else if crop then inr (0, 0, width m, height m) else inl (- EINVAL).
Definition hi1337_open (m : hi1337_mode) : framefmt := hi1337_fill_format m.

(** *** Probe and remove *)

(** The references of one property: what adding each gives ([ERR_PTR]s are
    negative), and the error that ends the look-up.  An error returns ([inl]). *)
Fixpoint parse_references (l : list Z) (ended : Z) : Z + Z :=
  match l with
  | [] => inr ended
  | asc :: l' =>
      if asc <? 0 then (if asc =? - EEXIST then parse_references l' ended else inl asc)
      else parse_references l' ended
  end.
Fixpoint hi1337_parse_lenses (props : list (list Z * Z)) : Z :=
  match props with
  | [] => 0
  | (l, ended) :: props' =>
      match parse_references l ended with
      | inl err => err
      | inr ret => if negb (ret =? - ENOENT) then ret else hi1337_parse_lenses props'
      end
  end.

(** [endpoint]: the number of lanes and the link frequencies, or the error. *)
Definition hi1337_check_hwcfg (endpoint : option (Z + (Z * list Z))) : Z :=
  match endpoint with
  | None => - ENXIO
  | Some (inl err) => err
  | Some (inr (lanes, freqs)) =>
      if negb (lanes =? HI1337_DATA_LANES) then - EINVAL
      else if existsb (Z.eqb HI1337_LINK_FREQ) freqs then 0 else - EINVAL
  end.

(** The answers of the kernel to the steps of [probe]. *)
Record probe_env := mkProbe {
  p_alloc : bool; p_variant : option hi1337_mode; p_clk : Z; p_rate : Z; p_regulators : Z;
  p_endpoint : option (Z + (Z * list Z)); p_handler : Z; p_parse : Z; p_props : Z; p_error : Z;
  p_pads : Z; p_subdev : Z; p_lenses : list (list Z * Z); p_notifier : Z
}.

(** The exits of [hi1337_probe], from the last on. *)
Definition release (f : facility) : M unit := emit (CamRelease f).
Definition power_off (ret : Z) : M Z := hi1337_power_off;; mret ret.
Definition free_controls (ret : Z) : M Z := release Controls;; power_off ret.
Definition cleanup_entity (ret : Z) : M Z := release Entity;; free_controls ret.
Definition unregister_subdev (ret : Z) : M Z :=
  release Notifier;; release Subdev;; cleanup_entity ret.
(** The registrations of [hi1337_probe]. *)
Definition register (p : probe_env) : M Z :=
  emit (CamTake Entity (p_pads p));;
  if negb (p_pads p =? 0) then free_controls (p_pads p)
  else
    emit (CamTake Subdev (p_subdev p));;
    if negb (p_subdev p =? 0) then cleanup_entity (p_subdev p)
    else
      emit (CamTake Notifier 0);;
      let ret := hi1337_parse_lenses (p_lenses p) in
      if negb (ret =? 0) then unregister_subdev ret
      else if negb (p_notifier p =? 0) then unregister_subdev (p_notifier p)
      else hi1337_power_off;; mret 0.
Definition hi1337_probe (p : probe_env) : M Z :=
  if negb (p_alloc p) then mret (- ENOMEM)
  else
    match p_variant p with
    | None => mret (- EINVAL)
    | Some m =>
        mod_drv (fun _ => mkHi false false m false);;
        if p_clk p <? 0 then mret (p_clk p)
        else if negb (p_rate p =? HI1337_MCLK) then mret (- EINVAL)
        else if negb (p_regulators p =? 0) then mret (p_regulators p)
        else
          let hw := hi1337_check_hwcfg (p_endpoint p) in
          if negb (hw =? 0) then mret hw
          else
            hi1337_power_on ?;
            (ret ← hi1337_identify;
             if negb (ret =? 0) then power_off ret
             else
               ret ← hi1337_init_controls (p_handler p) (p_parse p) (p_props p) (p_error p);
               if negb (ret =? 0) then power_off ret else register p)
    end.

Definition hi1337_remove : M unit :=
  release Subdev;; release Notifier;; release Entity;; release Controls;;
  d ← get_drv;
  if streaming d then hi1337_power_off else skip.
End camera.
