(* ===== verification/Hi1337Props.v ===== *)
(** The properties of the camera sensor driver: what it holds and when it talks
    to the sensor, and the order in which streaming starts. *)
From S2P Require Import Prelude Bus Hi1337Tables Hi1337.

(** ** What the driver holds

    [sound] says that the calls so far kept the rules: nothing is released or
    driven that is not held, nothing is taken twice, and the bus is only used
    while the rails, the clock and the released reset let the sensor answer. *)
Record holdings := mkHold {
  rails : Z; clock : Z; reset : option Z; enable : option Z;
  controls : bool; entity : bool; subdev : bool; notifier : bool; sound : bool
}.
#[export] Instance eta_holdings : Eta holdings := fun r =>
  mkHold (rails r) (clock r) (reset r) (enable r) (controls r) (entity r) (subdev r)
    (notifier r) (sound r).

Definition held (f : facility) (b : holdings) : bool :=
  match f with
  | Controls => controls b | Entity => entity b | Subdev => subdev b | Notifier => notifier b
  end.
Definition set_held (f : facility) (v : bool) (b : holdings) : holdings :=
  match f with
  | Controls => b <| controls := v |> | Entity => b <| entity := v |>
  | Subdev => b <| subdev := v |> | Notifier => b <| notifier := v |>
  end.
Definition line (g : gpio) (b : holdings) : option Z :=
  match g with GpioEnable => enable b | GpioReset => reset b end.
Definition set_line (g : gpio) (v : option Z) (b : holdings) : holdings :=
  match g with GpioEnable => b <| enable := v |> | GpioReset => b <| reset := v |> end.
(** The level a GPIO is requested with, and what counts as getting it. *)
Definition first_level (g : gpio) : Z := match g with GpioEnable => 0 | GpioReset => 1 end.
Definition got (g : gpio) (ret : Z) : bool :=
  match g with GpioEnable => 0 <? ret | GpioReset => negb (ret <? 0) end.
Definition demand (ok : bool) (b : holdings) : holdings := b <| sound := sound b && ok |>.
Definition powered (b : holdings) : bool :=
  (rails b =? 1) && (clock b =? 1) && match reset b with Some 0 => true | _ => false end.

Definition book (b : holdings) (e : cam_event) : holdings :=
  match e with
  | CamWrite _ _ _ | CamRead _ _ => demand (powered b) b
  | CamRails true ret => if ret =? 0 then demand (rails b =? 0) b <| rails := rails b + 1 |> else b
  | CamRails false _ => demand (rails b =? 1) b <| rails := rails b - 1 |>
  | CamClock true ret =>
      if ret =? 0 then demand ((rails b =? 1) && (clock b =? 0)) b <| clock := clock b + 1 |> else b
  | CamClock false _ => demand (clock b =? 1) b <| clock := clock b - 1 |>
  | CamGpioGet g ret =>
      if got g ret then set_line g (Some (first_level g)) (demand (bool_decide (line g b = None)) b) else b
  | CamGpioPut g => set_line g None (demand (bool_decide (line g b ≠ None)) b)
  | CamGpioSet g v => set_line g (Some v) (demand (bool_decide (line g b ≠ None)) b)
  | CamTake f ret => if ret =? 0 then set_held f true (demand (negb (held f b)) b) else b
  | CamRelease f => set_held f false (demand (held f b) b)
  | CamSleep _ | CamNewCtrl _ _ _ _ | CamRange _ _ => b
  end.
Definition nothing : holdings := mkHold 0 0 None None false false false false true.

(** Powered off and powered on, with the facilities [f1] to [f4]. *)
Definition off (f1 f2 f3 f4 : bool) : holdings := mkHold 0 0 None None f1 f2 f3 f4 true.
Definition on (e f1 f2 f3 f4 : bool) : holdings :=
  mkHold 1 1 (Some 0) (if e then Some 1 else None) f1 f2 f3 f4 true.

Section power.
Context {W : Type} `{!CamEnv W}.
Abbreviation vc := (vc (W := W) (E := cam_event) book nothing).

(** [run] steps through code, [settle] computes the account, [choose] splits on
    what the environment answered. *)
Ltac settle :=
  cbn [book got first_level held set_held line set_line demand powered off on rails clock reset
       enable controls entity subdev notifier sound over_field negb andb orb
       enable_gpio reset_gpio mode streaming Z.eqb Z.ltb Z.compare Z.add Z.sub Z.opp Z.pos_sub Pos.eqb];
  rewrite ?bool_decide_eq_true_2 by done.
Ltac run := repeat first
  [ vc_step | progress (cbv beta iota zeta) | progress settle
  | progress unfold usleep, gpio_set, gpio_put, get_gpio, when ].
Ltac choose :=
  match goal with
  | |- context [negb (?a =? 0)] => destruct (Z.eqb_spec a 0) as [->|]
  | |- context [if ?a =? 0 then _ else _] => destruct (Z.eqb_spec a 0) as [->|]
  | |- context [?a <? 0] => destruct (Z.ltb_spec a 0)
  | |- context [0 <? ?a] => destruct (Z.ltb_spec 0 a)
  end.
Ltac go := repeat (run; try lia; choose); run.

Lemma on_spec d f1 f2 f3 f4 (Q : Z → hi1337 → holdings → Prop) :
  enable_gpio d = false → reset_gpio d = false →
  (∀ e, Q 0 (d <| enable_gpio := e |> <| reset_gpio := true |>) (on e f1 f2 f3 f4)) →
  (∀ ret, ret ≠ 0 → Q ret d (off f1 f2 f3 f4)) →
  vc hi1337_power_on Q d (off f1 f2 f3 f4).
Proof.
  destruct d as [e0 r0 m s]. cbn [enable_gpio reset_gpio]. intros -> -> Hon Hoff.
  unfold hi1337_power_on, power_on_reset, disable_module, release_enable, disable_regulators.
  go; first [apply (Hon true) | apply (Hon false) | apply Hoff; lia].
Qed.
Lemma off_spec e d f1 f2 f3 f4 (Q : unit → hi1337 → holdings → Prop) :
  enable_gpio d = e → reset_gpio d = true →
  Q tt (d <| enable_gpio := false |> <| reset_gpio := false |>) (off f1 f2 f3 f4) →
  vc hi1337_power_off Q d (on e f1 f2 f3 f4).
Proof.
  destruct d as [e0 r0 m s]. cbn [enable_gpio reset_gpio]. intros -> -> HQ.
  unfold hi1337_power_off. destruct e; go; exact HQ.
Qed.

(** Transfers to a powered sensor. *)
Lemma write_spec r v e f1 f2 f3 f4 d (Q : Z → hi1337 → holdings → Prop) :
  (∀ ret, Q ret d (on e f1 f2 f3 f4)) → vc (hi1337_write_reg r v) Q d (on e f1 f2 f3 f4).
Proof. intros HQ. unfold hi1337_write_reg. run. apply HQ. Qed.
Lemma read_spec r e f1 f2 f3 f4 d (Q : Z * Z → hi1337 → holdings → Prop) :
  (∀ x, Q x d (on e f1 f2 f3 f4)) → vc (hi1337_read_reg r) Q d (on e f1 f2 f3 f4).
Proof. intros HQ. unfold hi1337_read_reg. apply vc_bind, vc_ask. intros [ret x]. run. apply HQ. Qed.
Lemma read_back_spec r e f1 f2 f3 f4 d (Q : unit → hi1337 → holdings → Prop) :
  Q tt d (on e f1 f2 f3 f4) → vc (read_back r) Q d (on e f1 f2 f3 f4).
Proof. intros HQ. unfold read_back. apply vc_bind, read_spec. intros x. by run. Qed.
Lemma table_spec l e f1 f2 f3 f4 d (Q : Z → hi1337 → holdings → Prop) :
  (∀ ret, Q ret d (on e f1 f2 f3 f4)) → vc (hi1337_write_table l) Q d (on e f1 f2 f3 f4).
Proof.
  intros HQ. induction l as [|[a v] l IH]; cbn [hi1337_write_table]; [by run|].
  apply vc_nz, write_spec. intros ret. by destruct (ret =? 0).
Qed.

(** The controls touch the sensor only while it streams. *)
Lemma write_ctrl_spec id v e f1 f2 f3 f4 d b (Q : Z → hi1337 → holdings → Prop) :
  (streaming d = true → b = on e f1 f2 f3 f4) → (∀ ret, Q ret d b) → vc (write_ctrl id v) Q d b.
Proof.
  intros Hb HQ. unfold write_ctrl. run. destruct (streaming d); cbn [negb]; [|by run].
  rewrite Hb in * by done. destruct id; first [apply write_spec, HQ | run; apply HQ].
Qed.
Lemma ctrl_spec id v e f1 f2 f3 f4 d b (Q : Z → hi1337 → holdings → Prop) :
  (streaming d = true → b = on e f1 f2 f3 f4) → (∀ ret, Q ret d b) →
  vc (hi1337_set_ctrl id v) Q d b.
Proof.
  intros Hb HQ. unfold hi1337_set_ctrl, modify_exposure_range. apply vc_bind, vc_drv.
  destruct id; apply vc_bind; try (apply vc_skip; by eapply write_ctrl_spec).
  apply vc_bind, vc_ask. intros [x|]; apply vc_bind, vc_emit; cbn [book].
  - apply vc_bind. eapply write_ctrl_spec; [exact Hb|]. intros ret. apply vc_skip.
    by eapply write_ctrl_spec.
  - apply vc_skip. by eapply write_ctrl_spec.
Qed.
Lemma setup_spec e f1 f2 f3 f4 d b (Q : Z → hi1337 → holdings → Prop) :
  (streaming d = true → b = on e f1 f2 f3 f4) → (∀ ret, Q ret d b) →
  vc v4l2_ctrl_handler_setup Q d b.
Proof.
  intros Hb HQ. unfold v4l2_ctrl_handler_setup. apply vc_bind, vc_ask. intros l.
  induction l as [|[id v] l IH]; cbn [set_controls]; [by apply vc_ret|].
  apply vc_nz. eapply ctrl_spec; [exact Hb|]. intros ret. by destruct (ret =? 0).
Qed.

Lemma start_spec e f1 f2 f3 f4 d (Q : Z → hi1337 → holdings → Prop) :
  streaming d = false → Q 0 (d <| streaming := true |>) (on e f1 f2 f3 f4) →
  (∀ ret, ret ≠ 0 → Q ret d (on e f1 f2 f3 f4)) →
  vc hi1337_start_streaming Q d (on e f1 f2 f3 f4).
Proof.
  intros Hs Hok Hko. assert (d <| streaming := false |> = d) as Hd by (destruct d; cbn in *; by subst).
  unfold hi1337_start_streaming. apply vc_bind, vc_drv.
  do 2 (apply vc_nz, table_spec; intros ret;
        destruct (Z.eqb_spec ret 0); [clear ret e0|by apply Hko]).
  do 3 (apply vc_bind, read_back_spec). apply vc_bind, vc_mod.
  apply vc_bind. eapply setup_spec; [reflexivity|]. intros ret.
  unfold clear_streaming. destruct (Z.eqb_spec ret 0); cbn [negb]; cycle 1.
  { run. change (Q ret (d <| streaming := false |>) (on e f1 f2 f3 f4)). rewrite Hd. by apply Hko. }
  apply vc_bind, write_spec. intros r. destruct (Z.eqb_spec r 0); cbn [negb]; cycle 1.
  { run. change (Q r (d <| streaming := false |>) (on e f1 f2 f3 f4)). rewrite Hd. by apply Hko. }
  apply vc_bind, read_back_spec, vc_bind, vc_emit. cbn [book].
  apply vc_bind, read_back_spec. by run.
Qed.

(** ** The driver between calls *)

Definition steady (d : hi1337) (b : holdings) : Prop :=
  reset_gpio d = streaming d ∧
  if streaming d then b = on (enable_gpio d) true true true true
  else enable_gpio d = false ∧ b = off true true true true.
Lemma stream_spec en d b (Q : Z → hi1337 → holdings → Prop) :
  steady d b → (∀ ret d' b', steady d' b' → Q ret d' b') → vc (hi1337_set_stream en) Q d b.
Proof.
  intros [Hr Hd] HQ. unfold hi1337_set_stream. apply vc_bind, vc_drv.
  destruct d as [eg rg m s]. cbn [enable_gpio reset_gpio streaming] in *. subst rg.
  destruct (Bool.eqb_spec s en) as [->|Hne]; [apply vc_ret, HQ; by split|].
  destruct en, s; try done.
  - destruct Hd as [-> ->]. apply vc_bind, on_spec; [done..| |].
    + intros e. cbn [negb Z.eqb]. apply vc_bind, start_spec; [done| |].
      * run. by apply HQ.
      * intros ret Hret. rewrite (proj2 (Z.eqb_neq ret 0)) by done. cbn [negb].
        apply vc_bind, off_spec; [done..|]. apply vc_ret, HQ. by split.
    + intros ret Hret. rewrite (proj2 (Z.eqb_neq ret 0)) by done. cbn [negb].
      by apply vc_ret, HQ.
  - subst b. apply vc_bind, write_spec. intros ret. apply vc_bind, vc_mod.
    apply vc_bind, off_spec; [done..|]. apply vc_ret, HQ. by split.
Qed.
Lemma set_ctrl_spec id v d b (Q : Z → hi1337 → holdings → Prop) :
  steady d b → (∀ ret, Q ret d b) → vc (hi1337_set_ctrl id v) Q d b.
Proof.
  intros [_ Hd]. apply ctrl_spec with (enable_gpio d) true true true true.
  intros Hs. by rewrite Hs in Hd.
Qed.
Lemma remove_spec d b (Q : unit → hi1337 → holdings → Prop) :
  steady d b → (∀ d', Q tt d' nothing) → vc hi1337_remove Q d b.
Proof.
  intros [Hr Hd] HQ. unfold hi1337_remove, release.
  destruct d as [eg rg m s]. cbn [enable_gpio reset_gpio streaming] in *. subst rg.
  destruct s; [|destruct Hd as [-> Hd]]; subst b; run; [|apply HQ].
  match goal with |- vc _ _ _ ?b =>
    change b with (on eg false false false false) end.
  apply off_spec; [done..|apply HQ].
Qed.

Lemma identify_spec e f1 f2 f3 f4 d (Q : Z → hi1337 → holdings → Prop) :
  (∀ ret, Q ret d (on e f1 f2 f3 f4)) → vc hi1337_identify Q d (on e f1 f2 f3 f4).
Proof.
  intros HQ. unfold hi1337_identify. apply vc_bind, read_spec. intros [r1 x1].
  apply vc_bind, read_spec. intros [r2 x2]. apply vc_ret, HQ.
Qed.
(** The exits of [probe]: from each label on, the rest is given back. *)
Lemma exit_spec e f ret d (Q : Z → hi1337 → holdings → Prop) :
  enable_gpio d = e → reset_gpio d = true → (∀ d', Q ret d' (off f false false false)) →
  vc (power_off ret) Q d (on e f false false false).
Proof. intros He Hr HQ. unfold power_off. apply vc_bind, off_spec; [done..|]. apply vc_ret, HQ. Qed.
Lemma register_spec p e d (Q : Z → hi1337 → holdings → Prop) :
  enable_gpio d = e → reset_gpio d = true →
  (∀ ret d', ret ≠ 0 → Q ret d' nothing) →
  Q 0 (d <| enable_gpio := false |> <| reset_gpio := false |>) (off true true true true) →
  vc (register p) Q d (on e true false false false).
Proof.
  intros He Hr Hko Hok. unfold register, unregister_subdev, cleanup_entity, free_controls, release.
  assert (∀ ret, ret ≠ 0 → vc (power_off ret) Q d (on e false false false false)) as Hx.
  { intros ret Hret. apply exit_spec; [done..|]. intros d'. by apply Hko. }
  do 2 (apply vc_bind, vc_emit; cbn [book]; choose; cbn [negb]; [|run; by apply Hx]).
  apply vc_bind, vc_emit. cbv zeta. choose; cbn [negb]; [|run; by apply Hx].
  choose; cbn [negb]; [|run; by apply Hx].
  apply vc_bind. by apply off_spec, vc_ret.
Qed.

(** The controls could be created, but something after that went wrong. *)
Definition late_error (p : probe_env) : Prop :=
  p_handler p = 0 ∧ (p_parse p ≠ 0 ∨ p_props p ≠ 0 ∨ p_error p ≠ 0).
Definition probed (p : probe_env) (ret : Z) (d : hi1337) (b : holdings) : Prop :=
  if ret =? 0 then steady d b ∧ streaming d = false
  else ∃ c : bool, b = off c false false false ∧ (c = true → late_error p).
Lemma probed_nothing p ret d : ret ≠ 0 → probed p ret d nothing.
Proof. intros H. unfold probed. rewrite (proj2 (Z.eqb_neq ret 0)) by done. by exists false. Qed.
Lemma controls_spec p e d (Q : Z → hi1337 → holdings → Prop) :
  (∀ ret, ret ≠ 0 → ∀ c : bool, (c = true → late_error p) → Q ret d (on e c false false false)) →
  Q 0 d (on e true false false false) →
  vc (hi1337_init_controls (p_handler p) (p_parse p) (p_props p) (p_error p)) Q d
    (on e false false false false).
Proof.
  intros Hko Hok. unfold hi1337_init_controls. apply vc_bind, vc_drv. cbv zeta.
  apply vc_bind, vc_emit. cbn [book].
  destruct (Z.eqb_spec (p_handler p) 0) as [Hh|Hh]; cbn [negb]; cycle 1.
  { run. by apply (Hko _ Hh false). }
  do 6 (apply vc_bind, vc_emit; cbn [book]). apply vc_ret.
  assert (∀ ret, ret ≠ 0 → (p_parse p ≠ 0 ∨ p_props p ≠ 0 ∨ p_error p ≠ 0) →
    Q ret d (on e true false false false)) as Hx.
  { intros ret Hret He. by apply (Hko _ Hret true). }
  repeat (choose; cbn [negb]); [|apply Hx; auto..].
  destruct (Z.eq_dec (p_error p) 0) as [->|]; [exact Hok|apply Hx; auto].
Qed.
Lemma probe_spec p d : vc (hi1337_probe p) (probed p) d nothing.
Proof.
  unfold hi1337_probe. destruct (p_alloc p); cbn [negb]; [|by apply vc_ret, probed_nothing].
  destruct (p_variant p) as [m|]; [|by apply vc_ret, probed_nothing].
  apply vc_bind, vc_mod. set (d0 := mkHi false false m false).
  destruct (Z.ltb_spec (p_clk p) 0); [apply vc_ret, probed_nothing; lia|].
  destruct (_ =? HI1337_MCLK); cbn [negb]; [|by apply vc_ret, probed_nothing].
  destruct (Z.eqb_spec (p_regulators p) 0); cbn [negb]; [|by apply vc_ret, probed_nothing].
  cbv zeta. destruct (Z.eqb_spec (hi1337_check_hwcfg (p_endpoint p)) 0); cbn [negb];
    [|by apply vc_ret, probed_nothing].
  apply vc_nz. apply on_spec with (f1 := false) (f2 := false) (f3 := false) (f4 := false); [done..| |].
  2: { intros ret Hret. rewrite (proj2 (Z.eqb_neq ret 0)) by done. by apply probed_nothing. }
  intros e1. cbn [Z.eqb]. apply vc_bind, identify_spec. intros ret.
  destruct (Z.eqb_spec ret 0); cbn [negb]; cycle 1.
  { apply exit_spec; [done..|]. intros d'. by apply probed_nothing. }
  apply vc_bind, controls_spec.
  - intros r Hr c Hc. rewrite (proj2 (Z.eqb_neq r 0)) by done. cbn [negb].
    apply exit_spec; [done..|]. intros d'. unfold probed.
    rewrite (proj2 (Z.eqb_neq r 0)) by done. by exists c.
  - cbn [negb Z.eqb]. apply register_spec; [done..| |].
    + intros r d' Hr. by apply probed_nothing.
    + by split; [split|].
Qed.
End power.

(** The life of a probed camera: streams start and stop, controls are set, and
    the world moves on. *)
Section life.
Context {W : Type} `{!CamEnv W}.
Abbreviation state := (machine hi1337 W cam_event).

Inductive cam_step : state → state → Prop :=
  | step_stream m en ret m' : hi1337_set_stream en m = Ret (ret, m') → cam_step m m'
  | step_ctrl m id v ret m' : hi1337_set_ctrl id v m = Ret (ret, m') → cam_step m m'
  | step_wait m w : cam_step m (m <| wld := w |>).
Definition cam_live (m : state) : Prop :=
  ∃ p m0 m1, log m0 = [] ∧ hi1337_probe p m0 = Ret (0, m1) ∧ rtc cam_step m1 m.
(** What is held, according to the log. *)
Definition holds (m : state) : holdings := audit book nothing (log m).

Lemma live_steady (m : state) : cam_live m → steady (drv m) (holds m).
Proof.
  intros (p & m0 & m1 & Hl & Hp & Hs).
  refine (rtc_keeps cam_step (fun m => steady (drv m) (holds m)) _ _ _ Hs _).
  - intros a b Hab Ha. destruct Hab as [m2 en ret m3 H|m2 id v ret m3 H|m2 w]; [..|exact Ha].
    + eapply (vc_use book nothing _ (fun _ => steady)), H. by eapply stream_spec.
    + eapply (vc_use book nothing _ (fun _ => steady)), H. by eapply set_ctrl_spec.
  - pose proof (probe_spec p (drv m0)) as H.
    change nothing with (audit book nothing []) in H at 2. rewrite <-Hl in H.
    by destruct (vc_use _ _ _ _ _ _ _ H Hp) as [].
Qed.
End life.

(** C10: whatever the bus, the rails, the clock, the GPIOs and the frameworks
    answer, the camera driver keeps the rules of [book] (nothing is driven or
    given back that it does not hold, and the sensor is only talked to while
    rails, clock and released reset let it answer), and between calls it holds
    its rails, its clock and its GPIOs exactly while it streams: the GPIO that
    the front camera shares with the microphone is free otherwise.  Removing it
    gives everything back, and so does a probe that fails, unless it fails
    between the creation of the controls and their end: then the controls are
    left behind. *)
Theorem camera_holds_what_it_uses {W} `{!CamEnv W} (m : machine hi1337 W cam_event) :
  (cam_live m →
     (reset_gpio (drv m) = streaming (drv m)
      ∧ if streaming (drv m) then holds m = on (enable_gpio (drv m)) true true true true
        else enable_gpio (drv m) = false ∧ holds m = off true true true true)
     ∧ ∃ m', hi1337_remove m = Ret (tt, m') ∧ holds m' = nothing)
  ∧ (log m = [] → ∀ p, ∃ ret m', hi1337_probe p m = Ret (ret, m') ∧
       (ret ≠ 0 → holds m' = nothing
        ∨ holds m' = off true false false false
          ∧ p_handler p = 0 ∧ (p_parse p ≠ 0 ∨ p_props p ≠ 0 ∨ p_error p ≠ 0))).
Proof.
  split.
  - intros Hm%live_steady. split; [exact Hm|].
    destruct m as [d w l]. destruct (vc_run book nothing hi1337_remove (fun _ _ b => b = nothing)
      d (audit book nothing l) w l) as ([] & m' & H & Hb); [by eapply remove_spec|done|].
    by exists m'.
  - intros Hl p. destruct m as [d w l]. cbn [log] in Hl. subst l.
    destruct (vc_run book nothing _ _ d nothing w [] (probe_spec p d) eq_refl) as (ret & m' & H & Hq).
    exists ret, m'. split; [exact H|]. intros Hret. unfold probed in Hq.
    rewrite (proj2 (Z.eqb_neq ret 0)) in Hq by done. destruct Hq as ([] & Hb & Hc); [right|by left].
    split; [exact Hb|]. by apply Hc.
Qed.

(** A camera on which everything works. *)
#[export] Instance good_camera : CamEnv unit := {|
  cam_transfer r w := ((2, if r =? HI1337_REG_MODEL_ID then HI1337_MODEL_ID else HI1337_VENDOR_ID), w);
  cam_send _ _ w := (4, w);
  regulator_bulk_enable w := (0, w);
  clk_prepare_enable w := (0, w);
  gpiod_get _ w := (1, w);
  modify_range _ _ w := (None, w);
  handler_setup w :=
    ([(V4L2_CID_VBLANK, 168); (V4L2_CID_EXPOSURE, 3260); (V4L2_CID_ANALOGUE_GAIN, 0)], w);
|}.
Definition rear_probe (error : Z) : probe_env :=
  mkProbe true (Some hi1337_rear) 0 HI1337_MCLK 0 (Some (inr (4, [HI1337_LINK_FREQ])))
    0 0 0 error 0 0 [([1], - ENOENT); ([], - ENOENT)] 0.
Definition cam0 : machine hi1337 unit cam_event := mkM (mkHi false false hi1337_rear false) tt [].
Definition cam_ran {A} (r : outcome (A * machine hi1337 unit cam_event)) :=
  match r with Ret (_, m) => m | _ => cam0 end.
Definition cam_idle := cam_ran (hi1337_probe (rear_probe 0) cam0).
Definition cam_failed := cam_ran (hi1337_probe (rear_probe (- EINVAL)) cam0).
Definition cam_on := cam_ran (hi1337_set_stream true cam_idle).

Lemma camera_holds_what_it_uses_witness :
  (cam_live cam_on ∧ streaming (drv cam_on) = true ∧ holds cam_on = on true true true true true
   ∧ ∃ m', hi1337_remove cam_on = Ret (tt, m') ∧ holds m' = nothing)
  ∧ ∃ m', hi1337_probe (rear_probe (- EINVAL)) cam0 = Ret (- EINVAL, m')
          ∧ holds m' = off true false false false.
Proof.
  assert (cam_live cam_on) as Hl.
  { exists (rear_probe 0), cam0, cam_idle. split; [reflexivity|]. split; [vm_compute; reflexivity|].
    apply rtc_once, (step_stream _ true 0). vm_compute. reflexivity. }
  assert (streaming (drv cam_on) = true ∧ enable_gpio (drv cam_on) = true) as [Hs He]
    by (vm_compute; split; reflexivity).
  split; [|destruct (camera_holds_what_it_uses cam0) as [_ Hp];
    destruct (Hp eq_refl (rear_probe (- EINVAL))) as (ret & m' & H & Hr);
    exists m'; assert (ret = - EINVAL ∧ holds m' ≠ nothing) as [-> Hn]].
  - split; [exact Hl|]. split; [exact Hs|]. revert Hl Hs He. generalize cam_on. intros m Hl Hs He.
    destruct (camera_holds_what_it_uses m) as [Hm _]. destruct (Hm Hl) as [[_ Hb] Hr].
    rewrite Hs, He in Hb. exact (conj Hb Hr).
  - assert (hi1337_probe (rear_probe (- EINVAL)) cam0 = Ret (- EINVAL, cam_failed)) as E
      by (vm_compute; reflexivity).
    assert (sound (holds cam_failed) && negb (controls (holds cam_failed)) = false) as Hc
      by (vm_compute; reflexivity).
    revert E Hc. generalize cam_failed. intros m E Hc. clear Hr Hl Hs He Hp.
    pose proof (eq_trans (eq_sym H) E) as [= -> ->]. split; [reflexivity|].
    intros Hn. rewrite Hn in Hc. discriminate.
  - split; [exact H|]. destruct Hr as [Hb|[Hb _]]; [discriminate|contradiction|exact Hb].
Defined.

(** ** Starting a stream *)

(** The register writes of a log: address, value and what the bus answered. *)
Definition write_step (b : list (Z * Z * Z)) (e : cam_event) : list (Z * Z * Z) :=
  match e with CamWrite r v ret => b ++ [(r, v, ret)] | _ => b end.
Definition writes : list cam_event → list (Z * Z * Z) := audit write_step [].
(** A table as the bus sees it when every write is acknowledged. *)
Definition acked (l : list (Z * Z)) : list (Z * Z * Z) := (fun '(a, v) => (a, v, 4)) <$> l.
(** Not a write that changes [MODE_SELECT]. *)
Definition harmless (w : Z * Z * Z) : Prop := w.1.1 ≠ HI1337_REG_MODE_SELECT ∨ w.2 ≠ 4.
Definition control_write (w : Z * Z * Z) : Prop :=
  w.1.1 = HI1337_REG_FRAME_LENGTH ∨ w.1.1 = HI1337_REG_EXPOSURE ∨ w.1.1 = HI1337_REG_ANALOGUE_GAIN.
Definition plain (l : list (Z * Z)) : bool :=
  forallb (fun '(a, v) => (u16 a =? a) && (u16 v =? v) && negb (a =? HI1337_REG_MODE_SELECT)) l.

Section start.
Context {W : Type} `{!CamEnv W}.
Abbreviation vc := (vc (W := W) (E := cam_event) write_step []).

Lemma w_write r v d b (Q : Z → hi1337 → list (Z * Z * Z) → Prop) :
  Q 0 d (b ++ [(u16 r, u16 v, 4)]) →
  (∀ ret bus, ret ≠ 0 → bus ≠ 4 → Q ret d (b ++ [(u16 r, u16 v, bus)])) →
  vc (hi1337_write_reg r v) Q d b.
Proof.
  intros Hok Hko. unfold hi1337_write_reg. apply vc_bind, vc_ask. intros bus.
  apply vc_bind, vc_emit, vc_ret. cbn [write_step].
  destruct (Z.eqb_spec bus 4) as [->|]; [exact Hok|].
  destruct (Z.ltb_spec bus 0); apply Hko; unfold EIO; lia.
Qed.
Lemma w_read_back r d b (Q : unit → hi1337 → list (Z * Z * Z) → Prop) :
  Q tt d b → vc (read_back r) Q d b.
Proof.
  intros HQ. unfold read_back, hi1337_read_reg. apply vc_bind, vc_bind, vc_ask. intros [ret x].
  apply vc_bind, vc_emit, vc_ret. by apply vc_skip.
Qed.
Lemma w_table l d b (Q : Z → hi1337 → list (Z * Z * Z) → Prop) :
  plain l = true → Q 0 d (b ++ acked l) →
  (∀ ret ws, ret ≠ 0 → Forall harmless ws → Q ret d (b ++ ws)) →
  vc (hi1337_write_table l) Q d b.
Proof.
  intros Hl. revert b. induction l as [|[a v] l IH]; cbn [hi1337_write_table]; intros b Hok Hko.
  { apply vc_ret. by rewrite app_nil_r in Hok. }
  cbn [plain forallb] in Hl. apply andb_true_iff in Hl as [[[Ha%Z.eqb_eq Hv%Z.eqb_eq]%andb_true_iff
    Hm%negb_true_iff%Z.eqb_neq]%andb_true_iff Hl].
  apply vc_nz, w_write; rewrite Ha, Hv.
  - cbn [Z.eqb]. apply IH; [done| |].
    + by rewrite <-app_assoc.
    + intros ret ws Hret Hws. rewrite <-app_assoc. apply Hko; [done|]. constructor; [by left|done].
  - intros ret bus Hret Hbus. rewrite (proj2 (Z.eqb_neq ret 0)) by done.
    apply Hko; [done|]. constructor; [by left|constructor].
Qed.
Lemma w_ctrl id v d b (Q : Z → hi1337 → list (Z * Z * Z) → Prop) :
  (∀ ret ws, Forall control_write ws → Q ret d (b ++ ws)) → vc (hi1337_set_ctrl id v) Q d b.
Proof.
  intros HQ.
  assert (∀ (Q : Z → hi1337 → list (Z * Z * Z) → Prop) id v b,
    (∀ ret ws, Forall control_write ws → Q ret d (b ++ ws)) → vc (write_ctrl id v) Q d b) as Hw.
  { clear. intros Q id v b HQ. unfold write_ctrl. apply vc_bind, vc_drv.
    assert (∀ ret, Q ret d b) as H0 by (intros ret; rewrite <-(app_nil_r b); by apply HQ).
    destruct (streaming d); cbn [negb]; [|by apply vc_ret].
    assert (∀ r v, control_write (u16 r, u16 v, 0) → vc (hi1337_write_reg r v) Q d b) as Hr.
    { intros r x Hc. apply w_write; [|intros ret bus _ _]; apply HQ; by constructor. }
    destruct id; first [by apply vc_ret | apply Hr; unfold control_write; auto]. }
  unfold hi1337_set_ctrl, modify_exposure_range. apply vc_bind, vc_drv.
  destruct id; apply vc_bind; try (apply vc_skip; by apply Hw).
  apply vc_bind, vc_ask. intros [x|]; apply vc_bind, vc_emit; cbn [write_step].
  - apply vc_bind, Hw. intros ret ws Hws. apply vc_skip, Hw. intros r ws' Hws'.
    rewrite <-app_assoc. apply HQ. by apply Forall_app.
  - by apply vc_skip, Hw.
Qed.
Lemma w_setup d b (Q : Z → hi1337 → list (Z * Z * Z) → Prop) :
  (∀ ret ws, Forall control_write ws → Q ret d (b ++ ws)) → vc v4l2_ctrl_handler_setup Q d b.
Proof.
  intros HQ. unfold v4l2_ctrl_handler_setup. apply vc_bind, vc_ask. intros l. revert b HQ.
  induction l as [|[id v] l IH]; intros b HQ; cbn [set_controls].
  { apply vc_ret. rewrite <-(app_nil_r b). by apply HQ. }
  apply vc_nz, w_ctrl. intros ret ws Hws. destruct (ret =? 0); [|by apply HQ].
  apply IH. intros r ws' Hws'. rewrite <-app_assoc. apply HQ. by apply Forall_app.
Qed.

(** Switching the power writes no register. *)
Definition kept {A} (Q : A → Prop) d b (a : A) (d' : hi1337) (b' : list (Z * Z * Z)) : Prop :=
  Q a ∧ mode d' = mode d ∧ streaming d' = streaming d ∧ b' = b.
Ltac silent := repeat first
  [ vc_step | progress (cbv beta iota zeta) | progress cbn [write_step]
  | progress unfold usleep, gpio_set, gpio_put, get_gpio, when
  | match goal with |- vc (if ?c then _ else _) _ _ _ => destruct c end ]; by split.
Lemma w_on d b : vc hi1337_power_on (kept (fun _ => True) d b) d b.
Proof.
  unfold hi1337_power_on, power_on_reset, disable_module, release_enable, disable_regulators. silent.
Qed.
Lemma w_off d b : vc hi1337_power_off (kept (fun _ => True) d b) d b.
Proof. unfold hi1337_power_off. silent. Qed.

Definition started (m : hi1337_mode) (ret : Z) (ws : list (Z * Z * Z)) : Prop :=
  if ret =? 0 then
    ∃ cs, Forall control_write cs
    ∧ ws = acked (hi1337_global_regs ++ regs m) ++ cs
           ++ [(HI1337_REG_MODE_SELECT, HI1337_MODE_STREAMING, 4)]
  else Forall harmless ws.
Lemma started_ko m ret ws : ret ≠ 0 → Forall harmless ws → started m ret ws.
Proof. intros H. unfold started. by rewrite (proj2 (Z.eqb_neq ret 0)). Qed.
Lemma control_harmless ws : Forall control_write ws → Forall harmless ws.
Proof.
  intros Hw. eapply Forall_impl; [exact Hw|]. intros w [H|[H|H]]; left; rewrite H; discriminate.
Qed.
Lemma acked_harmless l : plain l = true → Forall harmless (acked l).
Proof.
  intros Hl. unfold plain in Hl. rewrite forallb_forall in Hl. apply Forall_fmap, Forall_forall.
  intros [a v] Ha%list_elem_of_In. apply Hl in Ha. apply andb_true_iff in Ha as [_ Ha].
  left. by apply negb_true_iff, Z.eqb_neq in Ha.
Qed.

(** What a start leaves; the exits that fail. *)
Definition start_post d b (ret : Z) (d' : hi1337) (b' : list (Z * Z * Z)) : Prop :=
  mode d' = mode d ∧ streaming d' = (ret =? 0) ∧ ∃ ws, b' = b ++ ws ∧ started (mode d) ret ws.
Lemma start_fails d b ret ws d' :
  mode d' = mode d → streaming d' = false → ret ≠ 0 → Forall harmless ws →
  start_post d b ret d' (b ++ ws).
Proof.
  intros Hm Hs Hret Hws. unfold start_post. rewrite (proj2 (Z.eqb_neq ret 0)) by done.
  split_and!; [done..|]. exists ws. by split; [|apply started_ko].
Qed.
Lemma clear_fails d b ret ws d' :
  mode d' = mode d → ret ≠ 0 → Forall harmless ws →
  vc (clear_streaming ret) (start_post d b) d' (b ++ ws).
Proof. intros Hm Hret Hws. apply vc_bind, vc_mod, vc_ret. by apply start_fails. Qed.
Lemma w_start d b :
  plain hi1337_global_regs = true → plain (regs (mode d)) = true → streaming d = false →
  vc hi1337_start_streaming (start_post d b) d b.
Proof.
  intros Hg Hm Hs. unfold hi1337_start_streaming. apply vc_bind, vc_drv.
  apply vc_nz, w_table; [done| |].
  2: { intros ret ws Hret Hws. rewrite (proj2 (Z.eqb_neq ret 0)) by done. by apply start_fails. }
  cbn [Z.eqb]. apply vc_nz, w_table; [done| |].
  2: { intros ret ws Hret Hws. rewrite (proj2 (Z.eqb_neq ret 0)), <-app_assoc by done.
       apply start_fails; [done..|]. apply Forall_app. by split; [apply acked_harmless|]. }
  cbn [Z.eqb]. do 3 (apply vc_bind, w_read_back). apply vc_bind, vc_mod.
  apply vc_bind, w_setup. intros ret cs Hcs. rewrite <-!app_assoc.
  assert (Forall harmless (acked hi1337_global_regs ++ acked (regs (mode d)) ++ cs)) as Hh.
  { rewrite !Forall_app. split_and!; [by apply acked_harmless..|by apply control_harmless]. }
  destruct (Z.eqb_spec ret 0); cbn [negb]; [|by apply clear_fails].
  apply vc_bind, w_write.
  - cbn [negb Z.eqb]. apply vc_bind, w_read_back, vc_bind, vc_emit, vc_bind, w_read_back, vc_ret.
    split_and!; [done..|]. eexists. rewrite <-!app_assoc. split; [done|].
    cbn [started Z.eqb]. exists cs. split; [done|].
    unfold acked. by rewrite fmap_app, <-!app_assoc.
  - intros r bus Hr Hbus. rewrite (proj2 (Z.eqb_neq r 0)), <-app_assoc by done. cbn [negb].
    apply clear_fails; [done..|]. apply Forall_app. split; [done|]. constructor; [by right|done].
Qed.
Lemma w_stream d b :
  plain hi1337_global_regs = true → plain (regs (mode d)) = true → streaming d = false →
  vc (hi1337_set_stream true) (start_post d b) d b.
Proof.
  intros Hg Hm Hs. unfold hi1337_set_stream. apply vc_bind, vc_drv. rewrite Hs. cbn [Bool.eqb].
  eapply vc_call; [apply w_on|]. intros ret d1 b1 (_ & Hm1 & Hs1 & ->).
  destruct (Z.eqb_spec ret 0) as [->|Hret]; cbn [negb]; cycle 1.
  { apply vc_ret. rewrite <-(app_nil_r b) at 2. by apply start_fails; [| congruence| |]. }
  eapply vc_call; [apply w_start; [done|by rewrite Hm1|congruence]|].
  intros ret d2 b2 (Hm2 & Hs2 & ws & -> & Hws). rewrite Hm1 in *.
  destruct (Z.eqb_spec ret 0) as [->|Hret]; cbn [negb].
  { apply vc_bind, vc_skip, vc_ret. split_and!; [congruence|done|]. exists ws. exact (conj eq_refl Hws). }
  eapply vc_call; [apply w_off|]. intros ? d3 b3 (_ & Hm3 & Hs3 & ->).
  apply vc_ret. unfold start_post. rewrite (proj2 (Z.eqb_neq ret 0)) by done.
  split_and!; [congruence..|]. exists ws. exact (conj eq_refl Hws).
Qed.
End start.

(** The value a table leaves in a register. *)
Definition final (r : Z) (l : list (Z * Z)) : option Z :=
  match list_find (fun w => w.1 = r) (reverse l) with Some (_, w) => Some w.2 | None => None end.

(** C26: starting a stream from rest writes the registers in one order.  It
    succeeds exactly when the driver calls itself streaming, and then the bus
    acknowledged all of the global table, all of the mode's table, writes of the
    frame length, exposure and gain controls only, and last of all the switch to
    streaming.  When it fails, nothing the bus acknowledged touched the mode
    select register: the sensor was never told to stream.  Nor do the tables
    disagree with the controls: they leave the frame length the mode says, and
    the exposure that is the default and the maximum of its control. *)
Theorem streaming_starts_last {W} `{!CamEnv W} (m : machine hi1337 W cam_event) :
  mode (drv m) ∈ [hi1337_rear; hi1337_front; hi1337_front_uw] → streaming (drv m) = false →
  (∃ ret m' ws, hi1337_set_stream true m = Ret (ret, m')
     ∧ writes (log m') = writes (log m) ++ ws ∧ streaming (drv m') = (ret =? 0)
     ∧ if ret =? 0 then
         ∃ cs, Forall control_write cs
         ∧ ws = acked (hi1337_global_regs ++ regs (mode (drv m))) ++ cs
                ++ [(HI1337_REG_MODE_SELECT, HI1337_MODE_STREAMING, 4)]
       else Forall harmless ws)
  ∧ let table := hi1337_global_regs ++ regs (mode (drv m)) in
    let length := frame_length (mode (drv m)) in
    final HI1337_REG_FRAME_LENGTH table = Some length
    ∧ final HI1337_REG_EXPOSURE table = Some (length - HI1337_EXPOSURE_MARGIN).
Proof.
  intros Hmode Hs. split.
  - assert (plain hi1337_global_regs = true) as Hg by (vm_compute; reflexivity).
    assert (plain (regs (mode (drv m))) = true) as Hm.
    { rewrite !elem_of_cons in Hmode.
      destruct Hmode as [->|[->|[->|[]%not_elem_of_nil]]]; vm_compute; reflexivity. }
    destruct m as [d w l]. destruct (vc_run write_step [] _ _ d _ w l
      (w_stream d (writes l) Hg Hm Hs) eq_refl) as (ret & m' & H & _ & Hst & ws & Hw & Hws).
    exists ret, m', ws. by split_and!.
  - rewrite !elem_of_cons in Hmode.
    destruct Hmode as [->|[->|[->|[]%not_elem_of_nil]]]; vm_compute; by split.
Qed.

Lemma streaming_starts_last_witness :
  ∃ ret m' ws, hi1337_set_stream true cam_idle = Ret (ret, m')
    ∧ writes (log m') = writes (log cam_idle) ++ ws ∧ ret = 0
    ∧ final HI1337_REG_EXPOSURE (hi1337_global_regs ++ regs hi1337_rear) = Some 3260.
Proof.
  assert (mode (drv cam_idle) = hi1337_rear ∧ streaming (drv cam_idle) = false) as [Hm Hs]
    by (vm_compute; split; reflexivity).
  assert (streaming (drv cam_on) = true) as Hon by (vm_compute; reflexivity).
  assert (hi1337_set_stream true cam_idle = Ret (0, cam_on)) as E by (vm_compute; reflexivity).
  revert Hm Hs Hon E. generalize cam_idle, cam_on. intros m m1 Hm Hs Hon E.
  destruct (streaming_starts_last m) as [(ret & m' & ws & H & Hw & Hst & _) [_ He]];
    [rewrite Hm; by left|exact Hs|].
  exists ret, m', ws. split_and!; [exact H|exact Hw| |].
  - pose proof (eq_trans (eq_sym H) E) as [= -> _]. reflexivity.
  - rewrite Hm in He. exact He.
Defined.
