(* ===== verification/Ps5169.v ===== *)
(** [ps5169.c]: the redriver of the USB-C port.  The Type-C framework and the
    switches further down the port are its environment. *)
From S2P Require Import Prelude Bus.

Definition PS5169_REG_MODE := 0x40.
Definition PS5169_REG_USB_DIRECTION := 0x04.
Definition PS5169_REG_EQ0 := 0x52.
Definition PS5169_REG_EQ1 := 0x5e.
Definition PS5169_REG_CHIP_ID2 := 0xac.
Definition PS5169_REG_CHIP_ID1 := 0xad.

(** The modes of the kernel's [typec_altmode.h] and [typec_dp.h]. *)
Definition TYPEC_STATE_SAFE := 0.
Definition TYPEC_STATE_USB := 1.
Definition TYPEC_DP_STATE_C := 4.
Definition TYPEC_DP_STATE_D := 5.
Definition TYPEC_DP_STATE_E := 6.
Definition TYPEC_DP_STATE_F := 7.
Definition USB_TYPEC_DP_SID := 0xff01.

Inductive typec_orientation :=
  TYPEC_ORIENTATION_NONE | TYPEC_ORIENTATION_NORMAL | TYPEC_ORIENTATION_REVERSE.
#[export] Instance typec_orientation_eq_dec : EqDecision typec_orientation.
Proof. solve_decision. Defined.
Inductive usb_role := USB_ROLE_NONE | USB_ROLE_HOST | USB_ROLE_DEVICE.
#[export] Instance usb_role_eq_dec : EqDecision usb_role.
Proof. solve_decision. Defined.

(** [struct ps5169]; [role_switch]: the port has one. *)
Record ps5169 := mkPs {
  role_switch : bool; orientation : typec_orientation; mode : Z; svid : Z;
  reg50 : Z; reg51 : Z; reg54 : Z; reg5d : Z
}.
#[export] Instance eta_ps5169 : Eta ps5169 := fun r =>
  mkPs (role_switch r) (orientation r) (mode r) (svid r) (reg50 r) (reg51 r) (reg54 r) (reg5d r).

(** What the driver got from the frameworks, to be put or unregistered. *)
Inductive handle := TypecSwitch | TypecMux | RoleSwitch | OrientationSwitch | Retimer.
Inductive ps_event :=
  | PsWrite (reg val ret : Z)
  | PsSequence (l : list (Z * Z)) (ret : Z)
  | PsRead (reg ret : Z)
  | PsSleep (us : Z)
  | PsSwitch (o : typec_orientation) (ret : Z)    (* the switch downstream *)
  | PsMux (mode : Z) (ret : Z)                    (* the mux downstream *)
  | PsGet (h : handle) (ret : Z)
  | PsPut (h : handle).

Class RedriverEnv (W : Type) := {
  regmap_multi_reg_write : list (Z * Z) → W → Z * W;
  regmap_write_reg : Z → Z → W → Z * W;
  regmap_read_reg : Z → W → (Z * Z) * W;
  usb_role_switch_get_role : W → usb_role * W;
  typec_switch_set : typec_orientation → W → Z * W;
  typec_mux_set : Z → Z → W → Z * W;
}.

Section redriver.
Context {W : Type} `{!RedriverEnv W}.
Abbreviation M := (M (machine ps5169 W ps_event)).

Definition regmap_write (reg val : Z) : M Z :=
  ret ← ask (regmap_write_reg reg val); emit (PsWrite reg val ret);; mret ret.
Definition regmap_read (reg : Z) : M (Z * Z) :=
  '(ret, val) ← ask (regmap_read_reg reg); emit (PsRead reg ret);; mret (ret, val).
Definition usleep (us : Z) : M unit := emit (PsSleep us).

Definition ps5169_write_sequence (l : list (Z * Z)) : M Z :=
  ret ← ask (regmap_multi_reg_write l); emit (PsSequence l ret);; mret ret.

Definition safe_sequence : list (Z * Z) :=
  [(PS5169_REG_EQ0, 0x20); (PS5169_REG_EQ1, 0x06); (PS5169_REG_MODE, 0x80); (0xa0, 0x02);
   (0xa1, 0x00); (PS5169_REG_USB_DIRECTION, 0x00); (0x8d, 0x00); (0x90, 0x00)].
Definition ps5169_set_safe : M Z := ps5169_write_sequence safe_sequence.

(** The cases of [ps5169_program]. *)
Definition program_usb (reverse : bool) (role : usb_role) : M Z :=
  regmap_write PS5169_REG_MODE (if reverse then 0xd0 else 0xc0) ?;
  regmap_write 0xa0 0x02 ?;
  regmap_write PS5169_REG_USB_DIRECTION (if bool_decide (role = USB_ROLE_HOST) then 0x00 else 0x44) ?;
  regmap_write 0x8d 0x01 ?;
  regmap_write 0x90 0x01.
Definition program_dp4 (reverse : bool) : M Z :=
  regmap_write PS5169_REG_MODE (if reverse then 0xb0 else 0xa0) ?;
  regmap_write 0xa0 0x00 ?;
  regmap_write 0xa1 0x04.
Definition program_dp2 (reverse : bool) : M Z :=
  regmap_write PS5169_REG_MODE (if reverse then 0xf0 else 0xe0) ?;
  regmap_write 0xa0 0x00 ?;
  regmap_write 0xa1 0x04 ?;
  regmap_write PS5169_REG_USB_DIRECTION 0x00 ?;
  regmap_write 0x8d 0x01 ?;
  regmap_write 0x90 0x01.
Definition get_role : M usb_role :=
  d ← get_drv; if role_switch d then ask usb_role_switch_get_role else mret USB_ROLE_NONE.
Definition ps5169_program : M Z :=
  d ← get_drv;
  let reverse := bool_decide (orientation d = TYPEC_ORIENTATION_REVERSE) in
  if bool_decide (orientation d = TYPEC_ORIENTATION_NONE) || (mode d =? TYPEC_STATE_SAFE)
  then ps5169_set_safe
  else
    role ← get_role;
    if mode d =? TYPEC_STATE_USB then program_usb reverse role
    else if (mode d =? TYPEC_DP_STATE_C) || (mode d =? TYPEC_DP_STATE_E) then
      (if negb (svid d =? USB_TYPEC_DP_SID) then mret (- EINVAL) else program_dp4 reverse)
    else if (mode d =? TYPEC_DP_STATE_D) || (mode d =? TYPEC_DP_STATE_F) then
      (if negb (svid d =? USB_TYPEC_DP_SID) then mret (- EINVAL) else program_dp2 reverse)
    else mret (- EOPNOTSUPP).

Definition ps5169_switch_set (o : typec_orientation) : M Z :=
  (ret ← ask (typec_switch_set o); emit (PsSwitch o ret);; mret ret) ?;
  (mod_drv (fun d => d <| orientation := o |>);; ps5169_program).
(** [alt]: the SVID of the alternate mode, when the state has one. *)
Definition ps5169_retimer_set (m : Z) (alt : option Z) : M Z :=
  (mod_drv (fun d => d <| mode := m |> <| svid := default 0 alt |>);; ps5169_program) ?;
  (ret ← ask (typec_mux_set m (default 0 alt)); emit (PsMux m ret);; mret ret).

Definition init_table (d : ps5169) : list (Z * Z) :=
  [(PS5169_REG_MODE, 0x80); (0xa0, 0x02); (0x51, reg51 d); (0x50, reg50 d); (0x54, reg54 d);
   (0x5d, reg5d d); (0x55, 0x00); (0x56, 0x00); (0x57, 0x00); (0x58, 0x00); (0x59, 0x00);
   (0x5a, 0x00); (0x5b, 0x00); (0x5f, 0x00); (0x60, 0x00); (0x61, 0x03); (0x65, 0x40);
   (0x66, 0x00); (0x67, 0x03); (PS5169_REG_EQ0, 0x20); (PS5169_REG_EQ1, 0x06);
   (PS5169_REG_USB_DIRECTION, 0x00)].
Definition ps5169_hw_init : M Z :=
  d ← get_drv;
  usleep 10000;;
  regmap_write 0x9d 0x80 ?;
  (usleep 10000;;
   regmap_write 0x9d 0x00 ?;
   (ps5169_write_sequence (init_table d) ?;
    (usleep 10000;;
     '(ret1, id1) ← regmap_read PS5169_REG_CHIP_ID1;
     if negb (ret1 =? 0) then mret ret1
     else
       '(ret2, id2) ← regmap_read PS5169_REG_CHIP_ID2;
       mret ret2))).

(** *** Probe and remove *)

(** The answers of the kernel to [probe]: the properties of the device tree (a
    missing one is [None]), and for each handle an error (negative) or 0. *)
Record ps_probe := mkProbe {
  p_alloc : bool; p_regmap : Z; p_reg50 : option Z; p_reg51 : option Z; p_reg54 : option Z;
  p_reg5d : option Z; p_role : bool; p_handle : handle → Z
}.
Definition put (h : handle) : M unit := emit (PsPut h).
(** [IS_ERR(get(...))]: the error goes to the exit. *)
Definition acquire (p : ps_probe) (h : handle) (exit : Z → M Z) (k : M Z) : M Z :=
  let ret := p_handle p h in
  emit (PsGet h ret);;
  if ret <? 0 then exit ret else k.
Definition put_switch (ret : Z) : M Z := put TypecSwitch;; mret ret.
Definition put_mux (ret : Z) : M Z := put TypecMux;; put_switch ret.
Definition put_role (ret : Z) : M Z := put RoleSwitch;; put_mux ret.
Definition unregister_switch (ret : Z) : M Z := put OrientationSwitch;; put_role ret.

Definition ps5169_probe (p : ps_probe) : M Z :=
  if negb (p_alloc p) then mret (- ENOMEM)
  else if p_regmap p <? 0 then mret (p_regmap p)
  else
    mod_drv (fun _ => mkPs false TYPEC_ORIENTATION_NONE TYPEC_STATE_SAFE 0
      (u8 (default 0x10 (p_reg50 p))) (u8 (default 0x70 (p_reg51 p)))
      (u8 (default 0x02 (p_reg54 p))) (u8 (default 0x40 (p_reg5d p))));;
    acquire p TypecSwitch (fun ret => mret ret) (
    acquire p TypecMux put_switch (
    acquire p RoleSwitch put_mux (
    mod_drv (fun d => d <| role_switch := p_role p |>);;
    ret ← ps5169_hw_init;
    if negb (ret =? 0) then put_role ret
    else
      acquire p OrientationSwitch put_role (
      acquire p Retimer unregister_switch (mret 0))))).
Definition ps5169_remove : M unit :=
  put Retimer;; put OrientationSwitch;; put RoleSwitch;; put TypecMux;; put TypecSwitch.
End redriver.
