(* ===== verification/Ps5169Props.v ===== *)
(** The properties of the redriver: the registers it ends up with. *)
From S2P Require Import Prelude Bus Ps5169.

(** ** What the driver can know of the chip

    A register holds what was written to it last; after a write that failed it is
    unknown. *)
Definition known_step (k : gmap Z Z) (e : ps_event) : gmap Z Z :=
  match e with
  | PsWrite r v ret => if ret =? 0 then <[r := v]> k else delete r k
  | PsSequence l ret =>
      foldl (fun k '(r, v) => if ret =? 0 then <[r := v]> k else delete r k) k l
  | _ => k
  end.
Definition known : list ps_event → gmap Z Z := audit known_step ∅.

(** The eight registers that depend on the mode of the port, as the redriver
    should have them. *)
Definition is_dp4 (m : Z) : bool := (m =? TYPEC_DP_STATE_C) || (m =? TYPEC_DP_STATE_E).
Definition is_dp2 (m : Z) : bool := (m =? TYPEC_DP_STATE_D) || (m =? TYPEC_DP_STATE_F).
Definition port_table (o : typec_orientation) (m : Z) (host : bool) : list (Z * Z) :=
  let turn := match o with TYPEC_ORIENTATION_REVERSE => 0x10 | _ => 0 end in
  let eq := [(PS5169_REG_EQ0, 0x20); (PS5169_REG_EQ1, 0x06)] in
  eq ++
  if match o with TYPEC_ORIENTATION_NONE => true | _ => m =? TYPEC_STATE_SAFE end then
    [(PS5169_REG_MODE, 0x80); (0xa0, 2); (0xa1, 0); (PS5169_REG_USB_DIRECTION, 0); (0x8d, 0); (0x90, 0)]
  else if m =? TYPEC_STATE_USB then
    [(PS5169_REG_MODE, 0xc0 + turn); (0xa0, 2); (0xa1, 0);
     (PS5169_REG_USB_DIRECTION, if host then 0 else 0x44); (0x8d, 1); (0x90, 1)]
  else if is_dp4 m then
    [(PS5169_REG_MODE, 0xa0 + turn); (0xa0, 0); (0xa1, 4); (PS5169_REG_USB_DIRECTION, 0); (0x8d, 0); (0x90, 0)]
  else
    [(PS5169_REG_MODE, 0xe0 + turn); (0xa0, 0); (0xa1, 4); (PS5169_REG_USB_DIRECTION, 0); (0x8d, 1); (0x90, 1)].
Definition shows (k : gmap Z Z) (l : list (Z * Z)) : Prop :=
  Forall (fun w => k !! w.1 = Some w.2) l.

(** A table that the registers show after it was written over [k]. *)
Lemma shows_cons k r v l : shows k ((r, v) :: l) ↔ k !! r = Some v ∧ shows k l.
Proof. unfold shows. by rewrite Forall_cons. Qed.
Lemma shows_nil k : shows k [] ↔ True.
Proof. unfold shows. by rewrite Forall_nil. Qed.
Ltac look := repeat first
  [ rewrite lookup_insert_eq | rewrite lookup_insert_ne by discriminate ].
Ltac shown := rewrite ?shows_cons, ?shows_nil in *; destruct_and? ; split_and? ; look; try done.

(** The modes the redriver has a program for. *)
Definition supported (d : ps5169) : Prop :=
  orientation d = TYPEC_ORIENTATION_NONE ∨ mode d = TYPEC_STATE_SAFE ∨ mode d = TYPEC_STATE_USB
  ∨ (is_dp4 (mode d) || is_dp2 (mode d) = true ∧ svid d = USB_TYPEC_DP_SID).
(** A chip at rest, or one that already runs the mode of [d]. *)
Definition fits (d : ps5169) (k : gmap Z Z) : Prop :=
  orientation d = TYPEC_ORIENTATION_NONE ∨ mode d = TYPEC_STATE_SAFE
  ∨ shows k (port_table TYPEC_ORIENTATION_NONE TYPEC_STATE_SAFE false)
  ∨ ∃ o host, shows k (port_table o (mode d) host).
Definition programmed (d : ps5169) (k : gmap Z Z) : Prop :=
  supported d ∧ ∃ host, shows k (port_table (orientation d) (mode d) host).

(** The registers a program does not write. *)
Definition rest (m : Z) : list (Z * Z) :=
  [(PS5169_REG_EQ0, 0x20); (PS5169_REG_EQ1, 0x06)] ++
  if m =? TYPEC_STATE_USB then [(0xa1, 0)]
  else if is_dp4 m then [(PS5169_REG_USB_DIRECTION, 0); (0x8d, 0); (0x90, 0)] else [].
Ltac at_reg := unfold PS5169_REG_EQ0, PS5169_REG_EQ1, PS5169_REG_MODE, PS5169_REG_USB_DIRECTION in *.
Lemma fits_rest d k :
  fits d k → orientation d ≠ TYPEC_ORIENTATION_NONE → mode d ≠ TYPEC_STATE_SAFE → shows k (rest (mode d)).
Proof.
  intros [?|[?|[H|(o & host & H)]]] Ho Hm; [done..| |]; revert H; unfold rest, port_table; at_reg; cbn [app].
  - cbn [Z.eqb]. destruct (_ =? _); [|destruct (is_dp4 _)]; intros H; shown.
  - rewrite (proj2 (Z.eqb_neq (mode d) TYPEC_STATE_SAFE)) by done.
    destruct o, (_ =? _); try destruct (is_dp4 _); cbn [app]; intros H; shown.
Qed.
Lemma safe_table o m host :
  o = TYPEC_ORIENTATION_NONE ∨ m = TYPEC_STATE_SAFE →
  port_table o m host = port_table TYPEC_ORIENTATION_NONE TYPEC_STATE_SAFE false.
Proof. intros [-> | ->]; [done|]. by destruct o. Qed.

Section tables.
Context (k : gmap Z Z) (o : typec_orientation) (m : Z).
Context (Ho : o ≠ TYPEC_ORIENTATION_NONE) (Hm : m ≠ TYPEC_STATE_SAFE) (Hr : shows k (rest m)).
Let rev := bool_decide (o = TYPEC_ORIENTATION_REVERSE).
Ltac table :=
  unfold rev; clear rev; revert Hr; unfold rest, port_table; at_reg;
  rewrite (proj2 (Z.eqb_neq m TYPEC_STATE_SAFE)) by done;
  destruct o; [done|rewrite bool_decide_eq_false_2 by done|rewrite bool_decide_eq_true_2 by done].
Lemma usb_table host :
  m = TYPEC_STATE_USB →
  shows (<[0x90 := 1]> (<[0x8d := 1]> (<[PS5169_REG_USB_DIRECTION := if host : bool then 0 else 0x44]>
    (<[0xa0 := 2]> (<[PS5169_REG_MODE := if rev then 0xd0 else 0xc0]> k))))) (port_table o m host).
Proof. intros E. table; rewrite E, Z.eqb_refl; cbn; intros H; shown. Qed.
Lemma dp4_table :
  m ≠ TYPEC_STATE_USB → is_dp4 m = true →
  shows (<[0xa1 := 4]> (<[0xa0 := 0]> (<[PS5169_REG_MODE := if rev then 0xb0 else 0xa0]> k)))
    (port_table o m false).
Proof.
  intros Hu E. table; rewrite (proj2 (Z.eqb_neq m TYPEC_STATE_USB)), E by done; cbn; intros H; shown.
Qed.
Lemma dp2_table :
  m ≠ TYPEC_STATE_USB → is_dp4 m = false →
  shows (<[0x90 := 1]> (<[0x8d := 1]> (<[PS5169_REG_USB_DIRECTION := 0]> (<[0xa1 := 4]> (<[0xa0 := 0]>
    (<[PS5169_REG_MODE := if rev then 0xf0 else 0xe0]> k)))))) (port_table o m false).
Proof.
  intros Hu E. table; rewrite (proj2 (Z.eqb_neq m TYPEC_STATE_USB)), E by done; cbn; intros H; shown.
Qed.
End tables.

Section redriver.
Context {W : Type} `{!RedriverEnv W}.
Abbreviation vc := (vc (W := W) (E := ps_event) known_step ∅).

Lemma reg_spec r v d k (Q : Z → ps5169 → gmap Z Z → Prop) :
  Q 0 d (<[r := v]> k) → (∀ ret, ret ≠ 0 → Q ret d (delete r k)) → vc (regmap_write r v) Q d k.
Proof.
  intros Hok Hko. unfold regmap_write. apply vc_bind, vc_ask. intros ret.
  apply vc_bind, vc_emit, vc_ret. cbn [known_step]. destruct (Z.eqb_spec ret 0) as [->|]; auto.
Qed.
(** One of the writes of a program: an error ends it. *)
Lemma reg_nz r v c d k (Q : Z → ps5169 → gmap Z Z → Prop) :
  (∀ ret k, ret ≠ 0 → Q ret d k) → vc c Q d (<[r := v]> k) →
  vc (ret_if_nz (regmap_write r v) c) Q d k.
Proof.
  intros Hko Hc. apply vc_nz, reg_spec; [done|]. intros ret Hret.
  rewrite (proj2 (Z.eqb_neq ret 0)) by done. by apply Hko.
Qed.
Lemma reg_last r v d k (Q : Z → ps5169 → gmap Z Z → Prop) :
  (∀ ret k, ret ≠ 0 → Q ret d k) → Q 0 d (<[r := v]> k) → vc (regmap_write r v) Q d k.
Proof. intros Hko Hok. apply reg_spec; auto. Qed.
Lemma safe_spec d k (Q : Z → ps5169 → gmap Z Z → Prop) :
  (∀ ret k, ret ≠ 0 → Q ret d k) →
  (∀ k', shows k' (port_table TYPEC_ORIENTATION_NONE TYPEC_STATE_SAFE false) → Q 0 d k') →
  vc ps5169_set_safe Q d k.
Proof.
  intros Hko Hok. unfold ps5169_set_safe, ps5169_write_sequence.
  apply vc_bind, vc_ask. intros ret. apply vc_bind, vc_emit, vc_ret. cbn [known_step].
  destruct (Z.eqb_spec ret 0) as [->|]; [|by apply Hko]. apply Hok. cbn [foldl safe_sequence].
  cbn [port_table app bool_decide]. unfold PS5169_REG_EQ0, PS5169_REG_EQ1, PS5169_REG_MODE,
    PS5169_REG_USB_DIRECTION. cbn. shown.
Qed.

Lemma usb_spec (rev : bool) role d k (Q : Z → ps5169 → gmap Z Z → Prop) :
  (∀ ret k, ret ≠ 0 → Q ret d k) →
  Q 0 d (<[0x90 := 1]> (<[0x8d := 1]>
    (<[PS5169_REG_USB_DIRECTION := if bool_decide (role = USB_ROLE_HOST) then 0 else 0x44]>
    (<[0xa0 := 2]> (<[PS5169_REG_MODE := if rev then 0xd0 else 0xc0]> k))))) →
  vc (program_usb rev role) Q d k.
Proof.
  intros Hko Hok. unfold program_usb. do 4 (apply reg_nz; [done|]). by apply reg_last.
Qed.
Lemma dp4_spec (rev : bool) d k (Q : Z → ps5169 → gmap Z Z → Prop) :
  (∀ ret k, ret ≠ 0 → Q ret d k) →
  Q 0 d (<[0xa1 := 4]> (<[0xa0 := 0]> (<[PS5169_REG_MODE := if rev then 0xb0 else 0xa0]> k))) →
  vc (program_dp4 rev) Q d k.
Proof.
  intros Hko Hok. unfold program_dp4. do 2 (apply reg_nz; [done|]). by apply reg_last.
Qed.
Lemma dp2_spec (rev : bool) d k (Q : Z → ps5169 → gmap Z Z → Prop) :
  (∀ ret k, ret ≠ 0 → Q ret d k) →
  Q 0 d (<[0x90 := 1]> (<[0x8d := 1]> (<[PS5169_REG_USB_DIRECTION := 0]> (<[0xa1 := 4]> (<[0xa0 := 0]>
    (<[PS5169_REG_MODE := if rev then 0xf0 else 0xe0]> k)))))) →
  vc (program_dp2 rev) Q d k.
Proof.
  intros Hko Hok. unfold program_dp2. do 5 (apply reg_nz; [done|]). by apply reg_last.
Qed.

(** A program that succeeds on a chip that fits leaves the table of the mode. *)
Lemma program_spec d k :
  fits d k →
  vc ps5169_program (fun ret d' k' => d' = d ∧ (ret = 0 → programmed d k')) d k.
Proof.
  intros Hf. unfold ps5169_program. apply vc_bind, vc_drv. cbv zeta.
  set (Q := fun (ret : Z) d' k' => d' = d ∧ (ret = 0 → programmed d k')).
  assert (∀ ret k', ret ≠ 0 → Q ret d k') as Hko by done.
  destruct (decide (orientation d = TYPEC_ORIENTATION_NONE ∨ mode d = TYPEC_STATE_SAFE)) as [Hs|Hs].
  { rewrite (proj2 (orb_true_iff _ _)) by (rewrite bool_decide_eq_true, Z.eqb_eq; done).
    apply safe_spec; [done|]. intros k' Hk'. split; [done|]. intros _.
    split; [destruct Hs; [by left|by right; left]|]. exists false. by rewrite safe_table. }
  apply Decidable.not_or in Hs as [Ho Hm].
  rewrite bool_decide_eq_false_2 by done. rewrite (proj2 (Z.eqb_neq (mode d) _)) by done. cbn [orb].
  pose proof (fits_rest d k Hf Ho Hm) as Hr.
  apply vc_call with (P := fun _ d' k' => d' = d ∧ k' = k).
  { unfold get_role. apply vc_bind, vc_drv. destruct (role_switch d); [by apply vc_ask|by apply vc_ret]. }
  intros role d' k' [-> ->].
  destruct (Z.eqb_spec (mode d) TYPEC_STATE_USB) as [Hu|Hu].
  { apply usb_spec; [done|]. split; [done|]. intros _. split; [by right; right; left|].
    exists (bool_decide (role = USB_ROLE_HOST)). by apply usb_table. }
  change ((mode d =? TYPEC_DP_STATE_C) || (mode d =? TYPEC_DP_STATE_E)) with (is_dp4 (mode d)).
  change ((mode d =? TYPEC_DP_STATE_D) || (mode d =? TYPEC_DP_STATE_F)) with (is_dp2 (mode d)).
  destruct (is_dp4 (mode d)) eqn:H4; [|destruct (is_dp2 (mode d)) eqn:H2; [|by apply vc_ret, Hko]].
  all: destruct (Z.eqb_spec (svid d) USB_TYPEC_DP_SID); cbn [negb]; [|by apply vc_ret, Hko].
  - apply dp4_spec; [done|]. split; [done|]. intros _. split; [by right; right; right; rewrite H4|].
    exists false. by apply dp4_table.
  - apply dp2_spec; [done|]. split; [done|]. intros _. split; [by right; right; right; rewrite H2, orb_true_r|].
    exists false. by apply dp2_table.
Qed.

(** ** The two calls of the Type-C framework *)

Lemma switch_spec o d k :
  fits (d <| orientation := o |>) k →
  vc (ps5169_switch_set o) (fun ret d' k' =>
    (ret = 0 → d' = d <| orientation := o |> ∧ programmed d' k')
    ∧ (d' = d ∧ k' = k ∨ d' = d <| orientation := o |>)) d k.
Proof.
  intros Hf. unfold ps5169_switch_set. apply vc_nz, vc_bind, vc_ask. intros ret.
  apply vc_bind, vc_emit, vc_ret. cbn [known_step].
  destruct (Z.eqb_spec ret 0); [|by split; [|left]].
  apply vc_bind, vc_mod. eapply vc_mono; [by apply program_spec|].
  intros r d' k' [-> Hk]. auto.
Qed.
Lemma retimer_spec m alt d k :
  let d' := d <| mode := m |> <| svid := default 0 alt |> in
  fits d' k →
  vc (ps5169_retimer_set m alt) (fun ret d'' k' => d'' = d' ∧ (ret = 0 → programmed d' k')) d k.
Proof.
  intros d' Hf. unfold ps5169_retimer_set. apply vc_nz, vc_bind, vc_mod.
  eapply vc_mono; [by apply program_spec|]. intros r d1 k1 [-> Hk].
  destruct (Z.eqb_spec r 0); [|by split].
  apply vc_bind, vc_ask. intros ret. apply vc_bind, vc_emit, vc_ret. cbn [known_step]. auto.
Qed.
(** The program for two lanes of each leaves the USB lanes as they were. *)
Lemma dp4_keeps m d k :
  is_dp4 m = true → m ≠ TYPEC_STATE_SAFE → m ≠ TYPEC_STATE_USB →
  orientation d ≠ TYPEC_ORIENTATION_NONE →
  vc (ps5169_retimer_set m (Some USB_TYPEC_DP_SID))
    (fun ret d' k' => ret = 0 → k' !! 0x8d = k !! 0x8d) d k.
Proof.
  intros H4 Hm Hu Ho. unfold ps5169_retimer_set. apply vc_nz, vc_bind, vc_mod.
  unfold ps5169_program. apply vc_bind, vc_drv. cbn [mode svid orientation over_field default].
  rewrite bool_decide_eq_false_2 by done. rewrite (proj2 (Z.eqb_neq m TYPEC_STATE_SAFE)) by done.
  cbn [orb]. apply vc_call with (P := fun _ d' k' => k' = k).
  { unfold get_role. apply vc_bind, vc_drv.
    destruct (role_switch _); [by apply vc_ask|by apply vc_ret]. }
  intros role d' k' ->. rewrite (proj2 (Z.eqb_neq m TYPEC_STATE_USB)) by done.
  unfold is_dp4 in H4. rewrite H4. cbn [negb Z.eqb]. apply dp4_spec.
  - intros ret k' Hret. rewrite (proj2 (Z.eqb_neq ret 0)) by done. done.
  - cbn [Z.eqb]. apply vc_bind, vc_ask. intros ret. apply vc_bind, vc_emit, vc_ret. intros _.
    cbn [known_step]. at_reg. by look.
Qed.
End redriver.

(** ** The life of the port *)

Section life.
Context {W : Type} `{!RedriverEnv W}.
Abbreviation state := (machine ps5169 W ps_event).

(** Successful calls from any state that ends in rest (the first call after
    [probe] is one: there the mode is safe and there is no orientation), and from
    there calls that turn the plug over, repeat the mode, or enter and leave a
    mode by way of rest, as the Type-C framework does. *)
Inductive settled : state → Prop :=
  | rest_switch m o m' : o = TYPEC_ORIENTATION_NONE ∨ mode (drv m) = TYPEC_STATE_SAFE →
      ps5169_switch_set o m = Ret (0, m') → settled m'
  | rest_retimer m md alt m' : md = TYPEC_STATE_SAFE ∨ orientation (drv m) = TYPEC_ORIENTATION_NONE →
      ps5169_retimer_set md alt m = Ret (0, m') → settled m'
  | turn m o m' : settled m → ps5169_switch_set o m = Ret (0, m') → settled m'
  | enter m md alt m' : settled m → mode (drv m) = md ∨ mode (drv m) = TYPEC_STATE_SAFE →
      ps5169_retimer_set md alt m = Ret (0, m') → settled m'
  | wait m w : settled m → settled (m <| wld := w |>).
Lemma switch_run o (m m' : state) :
  fits ((drv m) <| orientation := o |>) (known (log m)) → ps5169_switch_set o m = Ret (0, m') →
  programmed (drv m') (known (log m')).
Proof.
  intros Hf H. destruct (vc_use known_step ∅ _ _ _ _ _ (switch_spec o (drv m) (known (log m)) Hf) H)
    as [Hp _]. by apply Hp.
Qed.
Lemma retimer_run md alt (m m' : state) :
  fits ((drv m) <| mode := md |> <| svid := default 0 alt |>) (known (log m)) →
  ps5169_retimer_set md alt m = Ret (0, m') → programmed (drv m') (known (log m')).
Proof.
  intros Hf H. destruct (vc_use known_step ∅ _ _ _ _ _ (retimer_spec md alt (drv m) (known (log m)) Hf) H)
    as [-> Hp]. by apply Hp.
Qed.
Lemma settled_programmed (m : state) : settled m → programmed (drv m) (known (log m)).
Proof.
  induction 1 as [m o m' Ho H|m md alt m' Ho H|m o m' _ IH H|m md alt m' _ IH Ho H|m w _ IH].
  - apply (switch_run o m); [|done]. destruct Ho; [by left|by right; left].
  - apply (retimer_run md alt m); [|done]. destruct Ho; [by right; left|by left].
  - apply (switch_run o m); [|done]. destruct IH as [_ [host Hk]].
    right. right. right. by exists (orientation (drv m)), host.
  - apply (retimer_run md alt m); [|done]. destruct IH as [_ [host Hk]].
    right. right. destruct Ho as [<-|Ho].
    + right. by exists (orientation (drv m)), host.
    + left. by rewrite safe_table in Hk by (by right).
  - exact IH.
Qed.

(** *** The direction of the USB lanes *)

(** The role of the port when it is asked for in the world [w], and the direction
    register that goes with it. *)
Definition role_in (d : ps5169) (w : W) : usb_role :=
  if role_switch d then (usb_role_switch_get_role w).1 else USB_ROLE_NONE.
Definition direction (role : usb_role) : Z :=
  match role with USB_ROLE_HOST => 0x00 | _ => 0x44 end.

Lemma nz_ok (c k : M state Z) (m m' : state) :
  ret_if_nz c k m = Ret (0, m') → ∃ m1, c m = Ret (0, m1) ∧ k m1 = Ret (0, m').
Proof.
  intros H. apply bind_inv in H as (r & m1 & Hc & H). exists m1.
  destruct (Z.eqb_spec r 0) as [->|Hne]; [done|]. injection H as ? <-. congruence.
Qed.
Lemma program_direction (m m' : state) :
  mode (drv m) = TYPEC_STATE_USB → orientation (drv m) ≠ TYPEC_ORIENTATION_NONE →
  ps5169_program m = Ret (0, m') →
  known (log m') !! PS5169_REG_USB_DIRECTION = Some (direction (role_in (drv m) (wld m))).
Proof.
  intros Hu Ho H. unfold ps5169_program in H. apply bind_inv in H as (d & m0 & H0 & H).
  injection H0 as <- <-. cbv zeta in H. rewrite Hu, bool_decide_eq_false_2 in H by done.
  cbn [orb Z.eqb] in H. apply bind_inv in H as (role & m1 & H1 & H).
  assert (role = role_in (drv m) (wld m)) as ->.
  { unfold get_role in H1. apply bind_inv in H1 as (d & m0 & H0 & H1). injection H0 as <- <-.
    unfold role_in. destruct (role_switch (drv m)); [|by injection H1 as <- _].
    unfold ask in H1. destruct (usb_role_switch_get_role (wld m)). by injection H1 as <- _. }
  change (TYPEC_STATE_USB =? TYPEC_STATE_SAFE) with false in H. cbv iota in H.
  change (TYPEC_STATE_USB =? TYPEC_STATE_USB) with true in H. cbv iota in H.
  refine (vc_use known_step ∅ _ (fun ret _ k => ret = 0 → k !! PS5169_REG_USB_DIRECTION = _)
    _ _ _ (usb_spec _ _ (drv m1) (known (log m1)) _ _ _) H eq_refl); [done|]. intros _.
  look. by destruct (role_in (drv m) (wld m)).
Qed.
Lemma retimer_direction alt (m m' : state) :
  orientation (drv m) ≠ TYPEC_ORIENTATION_NONE →
  ps5169_retimer_set TYPEC_STATE_USB alt m = Ret (0, m') →
  known (log m') !! PS5169_REG_USB_DIRECTION = Some (direction (role_in (drv m) (wld m))).
Proof.
  intros Ho H. apply nz_ok in H as (m1 & H1 & H).
  apply bind_inv in H1 as ([] & m0 & H0 & H1). injection H0 as <-.
  apply program_direction in H1; [|done|done].
  apply bind_inv in H as (r & m2 & H2 & H). apply bind_inv in H as ([] & m3 & H3 & H).
  injection H as _ <-. injection H3 as <-. unfold ask in H2.
  destruct (typec_mux_set _ _ _). injection H2 as _ <-.
  cbn [log over_field]. unfold known. by rewrite audit_snoc.
Qed.
Lemma switch_direction o (m m' : state) :
  mode (drv m) = TYPEC_STATE_USB → o ≠ TYPEC_ORIENTATION_NONE →
  ps5169_switch_set o m = Ret (0, m') →
  known (log m') !! PS5169_REG_USB_DIRECTION
  = Some (direction (role_in (drv m) (typec_switch_set o (wld m)).2)).
Proof.
  intros Hu Ho H. apply nz_ok in H as (m1 & H1 & H).
  apply bind_inv in H1 as (r & m2 & H2 & H1). apply bind_inv in H1 as ([] & m3 & H3 & H1).
  injection H1 as _ <-. injection H3 as <-. unfold ask in H2.
  destruct (typec_switch_set o (wld m)) as [r' w]. injection H2 as _ <-.
  apply bind_inv in H as ([] & m4 & H4 & H). injection H4 as <-.
  by apply program_direction in H.
Qed.
(** A plug that the downstream switch refuses. *)
Lemma switch_refused o (m m' : state) ret :
  (typec_switch_set o (wld m)).1 ≠ 0 → ps5169_switch_set o m = Ret (ret, m') →
  ret = (typec_switch_set o (wld m)).1 ∧ drv m' = drv m ∧ log m' = log m ++ [PsSwitch o ret].
Proof.
  intros Hne H. unfold ps5169_switch_set in H.
  apply bind_inv in H as (r & m1 & H1 & H).
  apply bind_inv in H1 as (r1 & m2 & H2 & H1). apply bind_inv in H1 as ([] & m3 & H3 & H1).
  injection H1 as -> <-. injection H3 as <-. unfold ask in H2.
  destruct (typec_switch_set o (wld m)) as [r' w]. injection H2 as -> <-. cbn in Hne.
  rewrite (proj2 (Z.eqb_neq r 0)) in H by done. by injection H as <- <-.
Qed.
End life.

(** C20: after every successful call of such a life, whatever happened before it,
    the eight mode registers hold what the table of the current plug
    orientation and mode says, and the mode is one the driver supports.  For USB
    the direction register is that of the role the port has when the mode is
    programmed: host, or anything else (a port without a role switch is none).
    The care about the way is needed: switched from USB straight to a four-lane
    DisplayPort mode, the redriver keeps its USB lanes on, which the table has
    off.  A plug that the downstream switch refuses changes nothing: the call
    returns the switch's error, the driver's state is as before and no register is
    touched. *)
Theorem redriver_shows_the_mode {W} `{!RedriverEnv W} (m m' : machine ps5169 W ps_event) :
  settled m →
  (∃ host, Forall (fun w => known (log m) !! w.1 = Some w.2)
             (port_table (orientation (drv m)) (mode (drv m)) host))
  ∧ supported (drv m)
  ∧ (∀ alt, orientation (drv m) ≠ TYPEC_ORIENTATION_NONE →
     ps5169_retimer_set TYPEC_STATE_USB alt m = Ret (0, m') →
     known (log m') !! PS5169_REG_USB_DIRECTION = Some (direction (role_in (drv m) (wld m))))
  ∧ (∀ o, mode (drv m) = TYPEC_STATE_USB → o ≠ TYPEC_ORIENTATION_NONE →
     ps5169_switch_set o m = Ret (0, m') →
     known (log m') !! PS5169_REG_USB_DIRECTION
     = Some (direction (role_in (drv m) (typec_switch_set o (wld m)).2)))
  ∧ (mode (drv m) = TYPEC_STATE_USB → orientation (drv m) ≠ TYPEC_ORIENTATION_NONE →
     ps5169_retimer_set TYPEC_DP_STATE_C (Some USB_TYPEC_DP_SID) m = Ret (0, m') →
     known (log m') !! 0x8d = Some 1
     ∧ (0x8d, 0) ∈ port_table (orientation (drv m)) TYPEC_DP_STATE_C false)
  ∧ ∀ o ret, (typec_switch_set o (wld m)).1 ≠ 0 → ps5169_switch_set o m = Ret (ret, m') →
    ret = (typec_switch_set o (wld m)).1 ∧ drv m' = drv m
    ∧ log m' = log m ++ [PsSwitch o ret].
Proof.
  intros Hm%settled_programmed. destruct Hm as [Hs [host Hk]].
  split_and!; [by exists host|done| | | |].
  - intros alt. apply retimer_direction.
  - intros o. apply switch_direction.
  - intros Hu Ho H.
    pose proof (vc_use known_step ∅ _ _ _ _ _ (dp4_keeps TYPEC_DP_STATE_C (drv m) (known (log m))
      eq_refl ltac:(done) ltac:(done) Ho) H eq_refl) as Hd. unfold known. rewrite Hd. clear Hd H.
    rewrite Hu in Hk. unfold port_table in *.
    destruct (orientation (drv m)); [done| |]; cbn in Hk; split; [by shown|set_solver|by shown|set_solver].
  - intros o ret. apply switch_refused.
Qed.

(** A host port on which everything works. *)
#[export] Instance good_redriver : RedriverEnv unit := {|
  regmap_multi_reg_write _ w := (0, w);
  regmap_write_reg _ _ w := (0, w);
  regmap_read_reg _ w := ((0, 0x51), w);
  usb_role_switch_get_role w := (USB_ROLE_HOST, w);
  typec_switch_set _ w := (0, w);
  typec_mux_set _ _ w := (0, w);
|}.
Definition ps0 : machine ps5169 unit ps_event :=
  mkM (mkPs false TYPEC_ORIENTATION_NONE 0 0 0 0 0 0) tt [].
Definition ps_ran {A} (r : outcome (A * machine ps5169 unit ps_event)) :=
  match r with Ret (_, m) => m | _ => ps0 end.
Definition ps_probed :=
  ps_ran (ps5169_probe (mkProbe true 0 None None None None true (fun _ => 0)) ps0).
Definition ps_plugged := ps_ran (ps5169_switch_set TYPEC_ORIENTATION_REVERSE ps_probed).
Definition ps_usb := ps_ran (ps5169_retimer_set TYPEC_STATE_USB None ps_plugged).
Definition ps_dp := ps_ran (ps5169_retimer_set TYPEC_DP_STATE_C (Some USB_TYPEC_DP_SID) ps_usb).

Lemma redriver_shows_the_mode_witness :
  settled ps_usb
  ∧ (∃ host, Forall (fun w => known (log ps_usb) !! w.1 = Some w.2)
       (port_table TYPEC_ORIENTATION_REVERSE TYPEC_STATE_USB host))
  ∧ known (log ps_usb) !! PS5169_REG_MODE = Some 0xd0 ∧ known (log ps_dp) !! 0x8d = Some 1.
Proof.
  assert (settled ps_usb) as Hs.
  { apply (enter ps_plugged TYPEC_STATE_USB None).
    - apply (rest_switch ps_probed TYPEC_ORIENTATION_REVERSE); [by right|vm_compute; reflexivity].
    - by right.
    - vm_compute. reflexivity. }
  assert (orientation (drv ps_usb) = TYPEC_ORIENTATION_REVERSE ∧ mode (drv ps_usb) = TYPEC_STATE_USB)
    as [Ho Hm] by (vm_compute; split; reflexivity).
  assert (ps5169_retimer_set TYPEC_DP_STATE_C (Some USB_TYPEC_DP_SID) ps_usb = Ret (0, ps_dp)) as E
    by (vm_compute; reflexivity).
  assert (known (log ps_usb) !! PS5169_REG_MODE = Some 0xd0) as Hk by (vm_compute; reflexivity).
  revert Hs Ho Hm E Hk. generalize ps_usb, ps_dp. intros m m' Hs Ho Hm E Hk.
  destruct (redriver_shows_the_mode m m' Hs) as (Ht & _ & _ & _ & Hd & _).
  rewrite Ho, Hm in *. split_and!; [exact Hs|exact Ht|exact Hk|].
  apply Hd; [reflexivity|discriminate|exact E].
Defined.
