(* ===== verification/EgisEl721.v ===== *)
(** [egis_el721.c]: the fingerprint reader's companion driver.  Its structure is
    shared by open files and the device, so its lifetime is modelled: an access
    after it was freed is a fault. *)
From S2P Require Import Prelude Bus.

Definition EPERM := 1.
Definition EEXIST := 17.
Definition EHOSTDOWN := 112.

Definition EL721_SENSOR_TYPE := 8.
Definition EL721_MODEL_INFO_LEN := 10.
Definition EL721_NAME_LEN := 16.
Definition EL721_POSITION_LEN := 96.
Definition FP_SENSOR_RESET := 0x04.
Definition FP_POWER_CONTROL := 0x05.
Definition FP_SET_SPI_CLOCK := 0x06.
Definition FP_RESET_CONTROL := 0x07.
Definition FP_DISABLE_SPI_CLOCK := 0x10.
Definition FP_CPU_SPEEDUP := 0x11.
Definition FP_SET_SENSOR_TYPE := 0x14.
Definition FP_IOCTL_RESERVED_06 := 0x16.
Definition FP_IOCTL_RESERVED_07 := 0x17.
Definition FP_IOCTL_RESERVED_01 := 0x19.
Definition FP_SPI_VALUE := 0x1a.
Definition FP_IOCTL_RESERVED_02 := 0x1c.
Definition FP_MODEL_INFO := 0x1f.
Definition FP_IOCTL_RESERVED_03 := 0xa4.
Definition FP_IOCTL_RESERVED_04 := 0xa5.
Definition FP_IOCTL_RESERVED_05 := 0xa8.

(** [struct egis_ioc_transfer] and its 32 bytes. *)
Record egis_ioc_transfer := mkXfer {
  tx_buf : Z; rx_buf : Z; len : Z; speed_hz : Z; delay_usecs : Z; bits_per_word : Z;
  cs_change : Z; opcode : Z
}.
Definition XFER_SIZE := 32.
(** A little-endian number. *)
Fixpoint le (l : list Z) : Z := match l with [] => 0 | b :: l' => b + 256 * le l' end.
Definition field (l : list Z) (off n : nat) : Z := le (take n (drop off l)).
Definition xfer_of (l : list Z) : egis_ioc_transfer :=
  mkXfer (field l 0 8) (field l 8 8) (field l 16 4) (field l 20 4) (field l 24 2)
    (field l 26 1) (field l 27 1) (field l 28 1).
Fixpoint xfers_of (n : nat) (l : list Z) : list egis_ioc_transfer :=
  match n with O => [] | S n' => xfer_of (take 32 l) :: xfers_of n' (drop 32 l) end.

(** The kernel's encoding of ioctl numbers. *)
Definition _IOC_NR (cmd : Z) : Z := Z.land cmd 0xff.
Definition _IOC_TYPE (cmd : Z) : Z := Z.land (Z.shiftr cmd 8) 0xff.
Definition _IOC_SIZE (cmd : Z) : Z := Z.land (Z.shiftr cmd 16) 0x3fff.
Definition _IOC_DIR (cmd : Z) : Z := Z.land (Z.shiftr cmd 30) 3.
Definition _IOC_WRITE := 1.
Definition EGIS_IOC_MAGIC := 0x6b.
Definition EGIS_MSGSIZE (n : Z) : Z := if n * XFER_SIZE <? 16384 then n * XFER_SIZE else 0.
Definition EGIS_IOC_MESSAGE (n : Z) : Z :=
  _IOC_WRITE * 2 ^ 30 + EGIS_MSGSIZE n * 2 ^ 16 + EGIS_IOC_MAGIC * 2 ^ 8 + 0.

(** [struct el721_data]: [vdd], [ldo_gpio] and [enable_gpio] say which resources
    the driver has; strings are their bytes without the terminator. *)
Record el721_data := mkEl {
  vdd : bool; ldo_gpio : bool; enable_gpio : bool; refcount : Z; powered : bool; removing : bool;
  reset_count : Z; sensor_type : Z; spi_value : Z; requested_clock_hz : Z;
  name : list Z; model : list Z; position : list Z
}.
#[export] Instance eta_el721 : Eta el721_data := fun r =>
  mkEl (vdd r) (ldo_gpio r) (enable_gpio r) (refcount r) (powered r) (removing r) (reset_count r)
    (sensor_type r) (spi_value r) (requested_clock_hz r) (name r) (model r) (position r).

(** The structure while it is allocated, and the module's variables:
    [el721_supply_node], [el721_rail_device], [el721_rail_applied] and
    [el721_fallback_device]. *)
Record el721_module := mkMod {
  data : option el721_data; supply_node : bool; rail_device : bool; rail_applied : bool;
  fallback_device : bool
}.
#[export] Instance eta_el721_module : Eta el721_module := fun r =>
  mkMod (data r) (supply_node r) (rail_device r) (rail_applied r) (fallback_device r).

Inductive gpio := Ldo | Enable.
#[export] Instance gpio_eq_dec : EqDecision gpio.
Proof. solve_decision. Defined.
(** What is registered with the kernel or referenced. *)
Inductive held := MiscDevice | SysfsGroup | Regulators | SupplyNode | RailDevice | Driver
  | LookupTable | FallbackDevice.
#[export] Instance held_eq_dec : EqDecision held.
Proof. solve_decision. Defined.
Inductive changeset_op := Init | Apply | Revert | Destroy.

Inductive el_event :=
  | ElGetRail (ret : Z)                     (* devm_regulator_get *)
  | ElRail (on : bool) (ret : Z)            (* regulator_enable, _disable *)
  | ElGetGpio (g : gpio) (ret : Z)
  | ElGpio (g : gpio) (v : Z) (ret : Z)     (* direction_output, set_value *)
  | ElSleep (us : Z)
  | ElTake (h : held) (ret : Z)
  | ElDrop (h : held)
  | ElChangeset (op : changeset_op) (ret : Z)
  | ElAddNode (ret : Z)                     (* device_add_of_node *)
  | ElRemoveNode
  | ElCopyOut (dst : Z) (bytes : list Z)
  | ElFree.

(** The kernel around the driver. *)
Class SensorEnv (W : Type) := {
  device_property_present : W → bool * W;
  devm_regulator_get : W → Z * W;
  regulator_enable : W → Z * W;
  gpio_get : gpio → W → Z * W;
  gpiod_direction_output : gpio → Z → W → Z * W;
  memdup_user : Z → Z → W → (Z + list Z) * W;
  copy_to_user : Z → list Z → W → bool * W;
  find_pmic_regulators : W → bool * W;
  has_ldo2 : W → bool * W;
  create_node : W → bool * W;
  add_prop : W → Z * W;
  changeset_apply : W → Z * W;
  create_device : W → bool * W;
  consumer_has_node : W → bool * W;
  add_of_node : W → Z * W;
  misc_register : W → Z * W;
  device_add_group : W → Z * W;
  platform_driver_register : W → Z * W;
  firmware_node : W → bool * W;
  fallback_alloc : W → bool * W;
  fallback_add : W → Z * W;
}.

Section el721.
Context {W : Type} `{!SensorEnv W}.
Abbreviation M := (M (machine el721_module W el_event)).

(** *** The structure *)

Definition get_data : M el721_data :=
  d ← get_drv; match data d with Some e => mret e | None => fault end.
Definition mod_data (f : el721_data → el721_data) : M unit :=
  e ← get_data; mod_drv (fun d => d <| data := Some (f e) |>).
Definition el721_free : M unit := emit ElFree;; mod_drv (fun d => d <| data := None |>).
Definition kref_put : M unit :=
  e ← get_data;
  mod_data (fun e => e <| refcount := refcount e - 1 |>);;
  if refcount e =? 1 then el721_free else skip.

Definition usleep (us : Z) : M unit := emit (ElSleep us).
Definition gpio_set (g : gpio) (v : Z) : M unit := emit (ElGpio g v 0).
Definition gpio_output (g : gpio) (v : Z) : M Z :=
  ret ← ask (gpiod_direction_output g v); emit (ElGpio g v ret);; mret ret.
Definition take_gpio (g : gpio) : M Z := ret ← ask (gpio_get g); emit (ElGetGpio g ret);; mret ret.
Definition when (b : bool) (c : M unit) : M unit := if b then c else skip.
Definition drop_held (h : held) : M unit := emit (ElDrop h).

(** *** The rail that only exists on demand *)

(** [n] properties, as far as they go. *)
Fixpoint add_props (n : nat) : M Z :=
  match n with
  | O => mret 0
  | S n' => ret ← ask add_prop; if ret =? 0 then add_props n' else mret ret
  end.
Definition out_destroy (ret : Z) : M Z :=
  emit (ElChangeset Destroy 0);; drop_held Regulators;; mret ret.
Definition out_unregister (ret : Z) : M Z :=
  d ← get_drv;
  when (rail_device d) (drop_held RailDevice;; mod_drv (fun d => d <| rail_device := false |>));;
  drop_held SupplyNode;;
  mod_drv (fun d => d <| supply_node := false |>);;
  emit (ElChangeset Revert 0);;
  mod_drv (fun d => d <| rail_applied := false |>);;
  out_destroy ret.
(** A node of the changeset with its properties. *)
Definition add_node (props : nat) (k : M Z) : M Z :=
  ok ← ask create_node;
  if negb ok then out_destroy (- ENOMEM)
  else ret ← add_props props; if negb (ret =? 0) then out_destroy ret else k.
Definition device_add_of_node : M Z := ret ← ask add_of_node; emit (ElAddNode ret);; mret ret.
(** From [of_changeset_apply] on. *)
Definition apply_rail : M Z :=
  ret ← ask changeset_apply;
  emit (ElChangeset Apply ret);;
  if negb (ret =? 0) then out_destroy ret
  else
    mod_drv (fun d => d <| rail_applied := true |>);;
    emit (ElTake SupplyNode 0);;
    mod_drv (fun d => d <| supply_node := true |>);;
    ok ← ask create_device;
    emit (ElTake RailDevice (if ok : bool then 0 else - ENODEV));;
    mod_drv (fun d => d <| rail_device := ok |>);;
    ret ← device_add_of_node;
    if negb (ret =? 0) then out_unregister ret
    else drop_held Regulators;; mret 0.
Definition el721_publish_rail : M Z :=
  d ← get_drv;
  if supply_node d then
    same ← ask consumer_has_node;
    if same : bool then mret 0 else device_add_of_node
  else
    found ← ask find_pmic_regulators;
    if negb found then mret (- ENODEV)
    else
      emit (ElTake Regulators 0);;
      ldo2 ← ask has_ldo2;
      if ldo2 : bool then drop_held Regulators;; mret (- EEXIST)
      else
        emit (ElChangeset Init 0);;
        add_node 2 (add_node 6 (add_node 1 apply_rail)).

(** *** Power *)

(** [devm_regulator_get] until it no longer defers, at most [n] times. *)
Fixpoint get_vdd (n : nat) (last : Z) : M Z :=
  match n with
  | O => mret last
  | S n' =>
      ret ← ask devm_regulator_get;
      emit (ElGetRail ret);;
      if ret =? - EPROBE_DEFER then usleep 20000;; get_vdd n' ret else mret ret
  end.
Definition prepare_vdd : M unit :=
  e ← get_data;
  if vdd e then skip
  else
    present ← ask device_property_present;
    (if present : bool then skip else el721_publish_rail;; skip);;
    ret ← get_vdd 50 0;
    mod_data (fun e => e <| vdd := negb (ret <? 0) |>).
Definition prepare_ldo : M Z :=
  e ← get_data;
  if ldo_gpio e then mret 0
  else
    ret ← take_gpio Ldo;
    mod_data (fun e => e <| ldo_gpio := 0 <? ret |>);;
    mret (if ret <? 0 then ret else 0).
Definition prepare_enable : M Z :=
  e ← get_data;
  if enable_gpio e then mret 0
  else
    ret ← take_gpio Enable;
    mod_data (fun e => e <| enable_gpio := negb (ret <? 0) |>);;
    mret (if ret <? 0 then ret else 0).
Definition el721_prepare_hardware_locked : M Z :=
  prepare_vdd;; (prepare_ldo ?; prepare_enable).

Definition rail_off : M unit := emit (ElRail false 0).
Definition disable_vdd (ret : Z) : M Z :=
  e ← get_data; when (vdd e) rail_off;; mret ret.
(** The two lines, with the rail up. *)
Definition raise_lines : M Z :=
  e ← get_data;
  (if ldo_gpio e then gpio_output Ldo 1 else mret 0) ≫= fun ret =>
  if negb (ret =? 0) then disable_vdd ret
  else
    when (ldo_gpio e) (usleep 2100);;
    ret ← gpio_output Enable 1;
    if negb (ret =? 0) then when (ldo_gpio e) (gpio_set Ldo 0);; disable_vdd ret
    else
      usleep 1100;; usleep 5000;;
      mod_data (fun e => e <| powered := true |>);;
      mret 0.
Definition el721_power_on_locked : M Z :=
  e ← get_data;
  if powered e then mret 0
  else
    el721_prepare_hardware_locked ?;
    (e ← get_data;
     (if vdd e then ret ← ask regulator_enable; emit (ElRail true ret);; mret ret else mret 0) ?;
     (usleep 2300;; raise_lines)).
Definition el721_power_off_locked : M Z :=
  e ← get_data;
  if negb (powered e) then mret 0
  else
    gpio_set Enable 0;;
    when (ldo_gpio e) (gpio_set Ldo 0);;
    when (vdd e) rail_off;;
    mod_data (fun e => e <| powered := false |>);;
    mret 0.
Definition el721_reset_locked : M Z :=
  e ← get_data;
  if negb (powered e) then mret (- EHOSTDOWN)
  else
    gpio_set Enable 0;; usleep 1050;; gpio_set Enable 1;;
    mod_data (fun e => e <| reset_count := u32 (reset_count e + 1) |>);;
    mret 0.
Definition el721_reset_control_locked (enabled : Z) : M Z :=
  e ← get_data;
  if 1 <? enabled then mret (- EINVAL)
  else if negb (powered e) then mret (if negb (enabled =? 0) then - EHOSTDOWN else 0)
  else gpio_set Enable enabled;; mret 0.

(** *** The ioctl *)

(** [strscpy] into an array of [n] bytes: what fits with the terminator. *)
Definition strscpy (n : Z) (l : list Z) : list Z := take (Z.to_nat (n - 1)) l.
(** The array that holds it, when it was zeroed before. *)
Definition padded (n : Z) (l : list Z) : list Z := l ++ replicate (Z.to_nat n - length l) 0.
Definition is_reserved (op : Z) : bool :=
  existsb (Z.eqb op) [FP_IOCTL_RESERVED_01; FP_IOCTL_RESERVED_02; FP_IOCTL_RESERVED_03;
    FP_IOCTL_RESERVED_04; FP_IOCTL_RESERVED_05; FP_IOCTL_RESERVED_06; FP_IOCTL_RESERVED_07].
Definition model_info (ioc : egis_ioc_transfer) : M Z :=
  if rx_buf ioc =? 0 then mret (- EINVAL)
  else
    e ← get_data;
    let bytes := padded EL721_MODEL_INFO_LEN (strscpy EL721_MODEL_INFO_LEN (model e)) in
    ok ← ask (copy_to_user (rx_buf ioc) bytes);
    if negb ok then mret (- EFAULT) else emit (ElCopyOut (rx_buf ioc) bytes);; mret 0.
Definition el721_run_transfer_locked (ioc : egis_ioc_transfer) : M Z :=
  let op := opcode ioc in
  if op =? FP_SENSOR_RESET then el721_reset_locked
  else if op =? FP_POWER_CONTROL then
    (if 1 <? len ioc then mret (- EINVAL)
     else if negb (len ioc =? 0) then el721_power_on_locked else el721_power_off_locked)
  else if op =? FP_RESET_CONTROL then el721_reset_control_locked (len ioc)
  else if op =? FP_SET_SPI_CLOCK then
    mod_data (fun e => e <| requested_clock_hz := speed_hz ioc |>);; mret 0
  else if op =? FP_DISABLE_SPI_CLOCK then
    mod_data (fun e => e <| requested_clock_hz := 0 |>);; mret 0
  else if op =? FP_CPU_SPEEDUP then mret 0
  else if op =? FP_SET_SENSOR_TYPE then
    mod_data (fun e => e <| sensor_type := s32 (len ioc) |>);; mret 0
  else if op =? FP_SPI_VALUE then mod_data (fun e => e <| spi_value := len ioc |>);; mret 0
  else if op =? FP_MODEL_INFO then model_info ioc
  else if is_reserved op then mret 0
  else mret (- EOPNOTSUPP).
Fixpoint run_transfers (l : list egis_ioc_transfer) : M Z :=
  match l with
  | [] => mret 0
  | ioc :: l' => el721_run_transfer_locked ioc ?; run_transfers l'
  end.
(** [capable]: the caller has CAP_SYS_ADMIN. *)
Definition el721_ioctl (capable : bool) (cmd arg : Z) : M Z :=
  if negb (_IOC_TYPE cmd =? EGIS_IOC_MAGIC) || negb (_IOC_NR cmd =? _IOC_NR (EGIS_IOC_MESSAGE 0))
     || negb (_IOC_DIR cmd =? _IOC_WRITE)
  then mret (- ENOTTY)
  else
    let size := _IOC_SIZE cmd in
    if (size =? 0) || negb (size mod XFER_SIZE =? 0) then mret (- EINVAL)
    else if negb capable then mret (- EPERM)
    else
      r ← ask (memdup_user arg size);
      match r with
      | inl err => mret err
      | inr bytes =>
          e ← get_data;
          if removing e then mret (- ENODEV)
          else run_transfers (xfers_of (Z.to_nat (size / XFER_SIZE)) bytes)
      end.

Definition el721_open : M Z :=
  e ← get_data;
  if removing e then mret (- ENODEV)
  else mod_data (fun e => e <| refcount := refcount e + 1 |>);; mret 0.
Definition el721_release : M Z := kref_put;; mret 0.

(** *** sysfs

    A store gets what [kstrtobool] makes of the text: an error or a truth value. *)
Definition name_show : M (list Z) := e ← get_data; mret (name e).
Definition model_show : M (list Z) := e ← get_data; mret (model e).
Definition position_show : M (list Z) := e ← get_data; mret (position e).
Definition type_check_show : M Z := e ← get_data; mret (sensor_type e).
Definition power_show : M bool := e ← get_data; mret (powered e).
Definition reset_count_show : M Z := e ← get_data; mret (reset_count e).
Definition power_store (parsed : Z + bool) (count : Z) : M Z :=
  match parsed with
  | inl err => mret err
  | inr enabled =>
      e ← get_data;
      ret ← (if removing e then mret (- ENODEV)
             else if enabled : bool then el721_power_on_locked else el721_power_off_locked);
      mret (if negb (ret =? 0) then ret else count)
  end.
Definition reset_store (parsed : Z + bool) (count : Z) : M Z :=
  match parsed with
  | inl err => mret err
  | inr false => mret (- EINVAL)
  | inr true =>
      e ← get_data;
      ret ← (if removing e then mret (- ENODEV) else el721_reset_locked);
      mret (if negb (ret =? 0) then ret else count)
  end.

(** *** Probe, remove, shutdown, suspend *)

(** [value] and [legacy]: the properties, where the device tree has them. *)
Definition el721_read_string (value legacy : option (list Z)) (fallback : list Z) (n : Z) : list Z :=
  strscpy n (match value, legacy with Some v, _ => v | None, Some v => v | None, None => fallback end).
Record el_strings := mkStrings {
  s_name : option (list Z) * option (list Z); s_model : option (list Z) * option (list Z);
  s_position : option (list Z) * option (list Z)
}.
(** ["EL721"], ["X716"] and the nine coordinates, as bytes. *)
Definition EL721_DEFAULT_NAME : list Z := [69; 76; 55; 50; 49].
Definition EL721_DEFAULT_MODEL : list Z := [88; 55; 49; 54].
Definition EL721_DEFAULT_POSITION : list Z :=
  [49; 51; 46; 51; 48; 44; 48; 46; 48; 48; 44; 57; 46; 49; 48; 44; 57; 46; 49; 48; 44;
   49; 52; 46; 56; 48; 44; 49; 52; 46; 56; 48; 44; 49; 50; 46; 48; 48; 44; 49; 50; 46; 48; 48; 44;
   53; 46; 48; 48].
Definition set_removing : M Z :=
  mod_data (fun e => e <| removing := true |>);; el721_power_off_locked.
Definition err_load (ret : Z) : M Z := kref_put;; mret ret.
Definition el721_probe (alloc : bool) (s : el_strings) : M Z :=
  if negb alloc then mret (- ENOMEM)
  else
    mod_drv (fun d => d <| data := Some (mkEl false false false 1 false false 0 EL721_SENSOR_TYPE 0 0
      (el721_read_string (s_name s).1 (s_name s).2 EL721_DEFAULT_NAME EL721_NAME_LEN)
      (el721_read_string (s_model s).1 (s_model s).2 EL721_DEFAULT_MODEL EL721_MODEL_INFO_LEN)
      (el721_read_string (s_position s).1 (s_position s).2 EL721_DEFAULT_POSITION EL721_POSITION_LEN)) |>);;
    ret ← ask misc_register;
    emit (ElTake MiscDevice ret);;
    if negb (ret =? 0) then err_load ret
    else
      ret ← ask device_add_group;
      emit (ElTake SysfsGroup ret);;
      if negb (ret =? 0) then set_removing;; drop_held MiscDevice;; err_load ret
      else mret 0.
(** [el721_remove] is its locked part and the rest, between which the device can
    still be opened. *)
Definition remove_rest : M unit := drop_held SysfsGroup;; drop_held MiscDevice;; kref_put.
Definition el721_remove : M unit := set_removing;; remove_rest.
(** [has]: the driver data of the device is set. *)
Definition el721_shutdown (has : bool) : M unit := when has (set_removing;; skip).
Definition el721_suspend : M Z := el721_power_off_locked.

(** *** The module *)

Definition el721_init : M Z :=
  ret ← ask platform_driver_register;
  emit (ElTake Driver ret);;
  if negb (ret =? 0) then mret ret
  else
    node ← ask firmware_node;
    if node : bool then mret 0
    else
      emit (ElTake LookupTable 0);;
      ok ← ask fallback_alloc;
      if negb ok then drop_held LookupTable;; drop_held Driver;; mret (- ENOMEM)
      else
        ret ← ask fallback_add;
        emit (ElTake FallbackDevice ret);;
        if negb (ret =? 0) then drop_held LookupTable;; drop_held Driver;; mret ret
        else mod_drv (fun d => d <| fallback_device := true |>);; mret 0.
(** [bound]: a device is bound to the driver; unregistering it removes it. *)
Definition el721_exit (bound : bool) : M unit :=
  d ← get_drv;
  when (fallback_device d) (
    same ← ask consumer_has_node;
    when same (emit ElRemoveNode);;
    when bound el721_remove;; drop_held FallbackDevice;; drop_held LookupTable);;
  when (rail_device d) (drop_held RailDevice);;
  when (rail_applied d) (
    drop_held SupplyNode;;
    mod_drv (fun d => d <| supply_node := false |>);;
    emit (ElChangeset Revert 0);; emit (ElChangeset Destroy 0));;
  when (bound && negb (fallback_device d)) el721_remove;;
  drop_held Driver.
End el721.
