(* ===== verification/EgisProps.v ===== *)
(** The properties of the fingerprint reader's driver: its lifetime and power over
    any interleaving of its users, and the hardware that stays untouched. *)
From S2P Require Import Prelude Bus EgisEl721.

(** ** The users of the driver *)

Inductive call :=
  | Open | Release
  | Ioctl (capable : bool) (cmd arg : Z)
  | PowerStore (parsed : Z + bool) (count : Z)
  | ResetStore (parsed : Z + bool) (count : Z)
  | PowerShow | Suspend | Shutdown.
(** [Leaving]: between the locked part of [el721_remove] and its end. *)
Inductive phase := Absent | Bound | Leaving | Gone.

Definition allowed (ph : phase) (fds : nat) (c : call) : bool :=
  match c with
  | Open => match ph with Bound | Leaving => true | _ => false end
  | Release | Ioctl _ _ _ => bool_decide (0 < fds)%nat
  | PowerStore _ _ | ResetStore _ _ | PowerShow => match ph with Bound | Leaving => true | _ => false end
  | Suspend | Shutdown => match ph with Bound => true | _ => false end
  end.
(** The open files after a call that returned [ret]. *)
Definition fds_after (c : call) (ret : Z) (fds : nat) : nat :=
  match c with
  | Open => if ret =? 0 then S fds else fds
  | Release => pred fds
  | _ => fds
  end.

Section calls.
Context {W : Type} `{!SensorEnv W}.
Definition run_call (c : call) : M (machine el721_module W el_event) Z :=
  match c with
  | Open => el721_open
  | Release => el721_release
  | Ioctl capable cmd arg => el721_ioctl capable cmd arg
  | PowerStore p n => power_store p n
  | ResetStore p n => reset_store p n
  | PowerShow => b ← power_show; mret (if b : bool then 1 else 0)
  | Suspend => el721_suspend
  | Shutdown => el721_shutdown true;; mret 0
  end.
End calls.

(** ** The sensor's supply and its enable line, and the structure's end *)

Record status := mkStatus { rail : Z; line : option Z; freed : Z }.
#[export] Instance eta_status : Eta status := fun r => mkStatus (rail r) (line r) (freed r).
Definition watch (b : status) (e : el_event) : status :=
  match e with
  | ElRail true ret => if ret =? 0 then b <| rail := rail b + 1 |> else b
  | ElRail false _ => b <| rail := rail b - 1 |>
  | ElGpio Enable v ret => if ret =? 0 then b <| line := Some v |> else b
  | ElFree => b <| freed := freed b + 1 |>
  | _ => b
  end.
Definition fresh : status := mkStatus 0 None 0.

(** The structure agrees with the supply and the line. *)
Definition sane (e : el721_data) (b : status) : Prop :=
  rail b = (if powered e && vdd e then 1 else 0)
  ∧ (powered e = false → line b ≠ Some 1)
  ∧ (powered e = true → enable_gpio e = true ∧ removing e = false)
  ∧ freed b = 0.
(** A call that keeps the structure: its count and whether it is being removed
    stay, and it stays sane. *)
Definition keeps (e : el721_data) (d' : el721_module) (b' : status) : Prop :=
  ∃ e', data d' = Some e' ∧ refcount e' = refcount e ∧ removing e' = removing e ∧ sane e' b'.

Section power.
Context {W : Type} `{!SensorEnv W}.
Abbreviation vc := (vc (W := W) (E := el_event) watch fresh).

Lemma vc_data e d b (Q : el721_data → el721_module → status → Prop) :
  data d = Some e → Q e d b → vc get_data Q d b.
Proof. intros He HQ. unfold get_data. apply vc_bind, vc_drv. rewrite He. by apply vc_ret. Qed.
Lemma vc_mod_data f e d b (Q : unit → el721_module → status → Prop) :
  data d = Some e → Q tt (d <| data := Some (f e) |>) b → vc (mod_data f) Q d b.
Proof. intros He HQ. unfold mod_data. apply vc_bind. eapply vc_data; [exact He|]. by apply vc_mod. Qed.

(** Code that leaves the structure and the sensor alone. *)
Definition aside {A} (x : option el721_data) (b : status) (_ : A) (d' : el721_module) (b' : status) : Prop :=
  data d' = x ∧ b' = b.
Ltac aside := repeat first
  [ vc_step | progress (cbv beta iota zeta) | progress cbn [watch]
  | progress unfold when, drop_held, usleep, take_gpio
  | match goal with |- vc (if ?c then _ else _) _ _ _ => destruct c end ]; by split.
Lemma add_props_aside n x d b : data d = x → vc (add_props n) (aside x b) d b.
Proof.
  intros Hx. induction n as [|n IH]; cbn [add_props]; [by apply vc_ret|].
  apply vc_bind, vc_ask. intros ret. destruct (ret =? 0); [exact IH|by apply vc_ret].
Qed.
Lemma destroy_aside ret x d b : data d = x → vc (out_destroy ret) (aside x b) d b.
Proof. intros Hx. unfold out_destroy. aside. Qed.
Lemma node_aside n k x d b :
  (∀ d, data d = x → vc k (aside x b) d b) → data d = x → vc (add_node n k) (aside x b) d b.
Proof.
  intros Hk Hx. unfold add_node. apply vc_bind, vc_ask. intros []; cbn [negb]; [|by apply destroy_aside].
  eapply vc_call; [by apply add_props_aside|]. intros ret d1 b1 [Hd ->].
  destruct (ret =? 0); cbn [negb]; [by apply Hk|by apply destroy_aside].
Qed.
Lemma publish_aside x d b : data d = x → vc el721_publish_rail (aside x b) d b.
Proof.
  intros Hx. unfold el721_publish_rail. apply vc_bind, vc_drv.
  destruct (supply_node d); [unfold device_add_of_node; aside|].
  apply vc_bind, vc_ask. intros []; cbn [negb]; [|by apply vc_ret].
  apply vc_bind, vc_emit, vc_bind, vc_ask. intros []; [aside|].
  apply vc_bind, vc_emit. revert d Hx. do 3 (intros d Hx; apply node_aside; [clear d Hx|exact Hx]).
  intros d Hx. unfold apply_rail, out_unregister, out_destroy, device_add_of_node. aside.
Qed.
Lemma get_vdd_aside n last x d b : data d = x → vc (get_vdd n last) (aside x b) d b.
Proof.
  intros Hx. revert last. induction n as [|n IH]; intros last; cbn [get_vdd]; [by apply vc_ret|].
  apply vc_bind, vc_ask. intros ret. apply vc_bind, vc_emit.
  destruct (ret =? _); [|by apply vc_ret]. apply vc_bind, vc_emit, IH.
Qed.

(** Finding the hardware: only what the structure holds of it changes. *)
Definition found (e : el721_data) (b : status) (d' : el721_module) (b' : status) (ready : bool) : Prop :=
  b' = b ∧ ∃ e', data d' = Some e' ∧ powered e' = powered e ∧ refcount e' = refcount e
  ∧ removing e' = removing e ∧ (ready = true → enable_gpio e' = true).
Lemma found_refl e d b : data d = Some e → found e b d b false.
Proof. intros He. split; [done|]. by exists e. Qed.
Lemma prepare_spec e d b :
  data d = Some e →
  vc el721_prepare_hardware_locked (fun ret d' b' => found e b d' b' (ret =? 0)) d b.
Proof.
  intros He. unfold el721_prepare_hardware_locked.
  apply vc_call with (P := fun _ d' b' => found e b d' b' false).
  { unfold prepare_vdd. apply vc_bind. eapply vc_data; [exact He|].
    destruct (vdd e); [by apply vc_skip, found_refl|].
    apply vc_bind, vc_ask. intros p. apply vc_call with (P := aside (Some e) b).
    { destruct p; [by apply vc_skip|]. eapply vc_call; [by apply publish_aside|].
      intros ret d1 b1 [H1 ->]. by apply vc_skip. }
    intros _ d1 b1 [H1 ->]. eapply vc_call; [by apply get_vdd_aside|]. intros ret d2 b2 [H2 ->].
    eapply vc_mod_data; [exact H2|]. split; [done|]. by eexists. }
  intros _ d1 b1 [-> (e1 & H1 & Hp1 & Hr1 & Hv1 & _)].
  apply vc_nz. unfold prepare_ldo, prepare_enable, take_gpio.
  apply vc_bind. eapply vc_data; [exact H1|].
  apply vc_mono with (P := fun _ d' b' => found e b d' b' false).
  { destruct (ldo_gpio e1); [apply vc_ret; split; [done|]; by exists e1|].
    apply vc_bind, vc_bind, vc_ask. intros ret. apply vc_bind, vc_emit, vc_ret, vc_bind.
    eapply vc_mod_data; [exact H1|]. apply vc_ret. split; [done|]. by eexists. }
  clear e1 H1 Hp1 Hr1 Hv1 d1. intros r d1 b1 [-> (e1 & H1 & Hp1 & Hr1 & Hv1 & _)].
  destruct (Z.eqb_spec r 0) as [->|Hr]; cycle 1.
  { split; [done|]. exists e1. by split_and!. }
  apply vc_bind. eapply vc_data; [exact H1|]. destruct (enable_gpio e1) eqn:He1.
  { apply vc_ret. split; [done|]. by exists e1. }
  apply vc_bind, vc_bind, vc_ask. intros ret. apply vc_bind, vc_emit, vc_ret, vc_bind.
  eapply vc_mod_data; [exact H1|]. apply vc_ret. split; [done|]. eexists. split_and!; [reflexivity|done..|].
  cbn. destruct (ret <? 0) eqn:Hlt; cbn [negb]; [|done].
  apply Z.ltb_lt in Hlt. rewrite (proj2 (Z.eqb_neq ret 0)) by lia. done.
Qed.

Lemma keeps_refl e d b : data d = Some e → sane e b → keeps e d b.
Proof. intros He Hs. by exists e. Qed.
Lemma keeps_unpowered e e' d b :
  data d = Some e' → refcount e' = refcount e → removing e' = removing e →
  powered e' = false → rail b = 0 → line b ≠ Some 1 → freed b = 0 → keeps e d b.
Proof.
  intros Hd Hc Hr Hp Hb Hl Hf. exists e'. split_and!; [done..|]. unfold sane.
  rewrite Hp. split_and!; done.
Qed.
(** Steps through straight code; [Hx] says where the structure is. *)
Ltac step Hx := first
  [ vc_step | progress (cbv beta iota zeta) | progress cbn [watch Z.eqb rail line freed over_field]
  | progress unfold when, usleep, gpio_set, gpio_output, rail_off
  | eapply vc_data; [exact Hx|] | eapply vc_mod_data; [exact Hx|] ].

Lemma raise_spec e0 e d b :
  data d = Some e → enable_gpio e = true → powered e = false →
  refcount e = refcount e0 → removing e = removing e0 → removing e = false →
  rail b = (if vdd e then 1 else 0) → line b ≠ Some 1 → freed b = 0 →
  vc raise_lines (fun _ => keeps e0) d b.
Proof.
  intros Hd He Hp Hc Hr Hn Hb Hl Hf. unfold raise_lines, disable_vdd.
  assert (∀ d', data d' = Some e → ∀ b', rail b' = 0 → line b' ≠ Some 1 → freed b' = 0 →
    keeps e0 d' b') as Hk by (intros; by eapply keeps_unpowered).
  apply vc_bind. eapply vc_data; [exact Hd|].
  eapply vc_call with (P := fun _ d' b' => data d' = Some e ∧ b' = b).
  { unfold gpio_output. destruct (ldo_gpio e); repeat step Hd; done. }
  intros r d1 b1 [H1 ->].
  assert (vc (disable_vdd r) (fun _ => keeps e0) d1 b) as Hoff.
  { unfold disable_vdd. repeat step H1. destruct (vdd e); repeat step H1; apply Hk; try done; cbn; lia. }
  destruct (r =? 0); cbn [negb]; [|exact Hoff].
  apply vc_bind. apply vc_mono with (P := fun _ d' b' => data d' = Some e ∧ b' = b).
  { destruct (ldo_gpio e); repeat step H1; done. }
  clear d1 H1 Hoff. intros _ d1 b1 [H1 ->].
  apply vc_bind. unfold gpio_output. apply vc_bind, vc_ask. intros ret. apply vc_bind, vc_emit, vc_ret.
  cbn [watch]. destruct (Z.eqb_spec ret 0) as [->|Hret]; cbn [negb].
  - repeat step H1. eexists. split_and!; [reflexivity|done..|]. unfold sane. cbn. rewrite Hb. by destruct (vdd e).
  - destruct (ldo_gpio e), (vdd e) eqn:Hv; repeat step H1; rewrite ?Hv; repeat step H1;
      apply Hk; try done; cbn; lia.
Qed.
Lemma power_on_spec e d b :
  data d = Some e → sane e b → removing e = false →
  vc el721_power_on_locked (fun _ => keeps e) d b.
Proof.
  intros Hd Hs Hn. pose proof Hs as (Hb & Hl & He & Hf). unfold el721_power_on_locked.
  repeat step Hd. destruct (powered e) eqn:Hp; [by apply vc_ret, keeps_refl|].
  apply vc_nz. eapply vc_mono; [by apply prepare_spec|].
  intros r d1 b1 [-> (e1 & H1 & Hp1 & Hr1 & Hv1 & He1)]. revert He1.
  destruct (r =? 0); intros He1; [specialize (He1 eq_refl)|eapply keeps_unpowered; [exact H1|done|done|congruence|done|by apply Hl|done]].
  apply vc_bind. eapply vc_data; [exact H1|]. apply vc_nz. destruct (vdd e1) eqn:Hv.
  - apply vc_bind, vc_ask. intros ret. apply vc_bind, vc_emit, vc_ret. cbn [watch].
    destruct (Z.eqb_spec ret 0) as [->|Hret]; cycle 1.
    { eapply keeps_unpowered; [exact H1|done|done|congruence|done|by apply Hl|done]. }
    apply vc_bind, vc_emit. cbn [watch]. eapply raise_spec; try done; cbn; [congruence..|by rewrite Hv, Hb|by apply Hl].
  - apply vc_ret. cbn [Z.eqb]. apply vc_bind, vc_emit. cbn [watch].
    eapply raise_spec; try done; [congruence..|by rewrite Hv, Hb|by apply Hl].
Qed.
Lemma power_off_spec e d b :
  data d = Some e → sane e b →
  vc el721_power_off_locked (fun ret d' b' => ret = 0 ∧ ∃ e', data d' = Some e' ∧ refcount e' = refcount e
    ∧ removing e' = removing e ∧ sane e' b' ∧ powered e' = false) d b.
Proof.
  intros Hd Hs. pose proof Hs as (Hb & Hl & He & Hf). unfold el721_power_off_locked.
  repeat step Hd. destruct (powered e) eqn:Hp; cbn [negb]; [|by apply vc_ret; split; [|exists e]].
  destruct (ldo_gpio e), (vdd e) eqn:Hv; repeat step Hd;
    (split; [done|]; eexists; split_and!; [reflexivity|done|done| |done]; unfold sane; cbn; rewrite Hb; by split_and!).
Qed.
Lemma reset_spec e d b :
  data d = Some e → sane e b → vc el721_reset_locked (fun _ => keeps e) d b.
Proof.
  intros Hd Hs. pose proof Hs as (Hb & Hl & He & Hf). unfold el721_reset_locked.
  repeat step Hd. destruct (powered e) eqn:Hp; cbn [negb]; [|by apply vc_ret, keeps_refl].
  repeat step Hd. eexists. split_and!; [reflexivity|done..|]. unfold sane. cbn. by rewrite Hp, Hb.
Qed.
Lemma control_spec v e d b :
  data d = Some e → sane e b → vc (el721_reset_control_locked v) (fun _ => keeps e) d b.
Proof.
  intros Hd Hs. pose proof Hs as (Hb & Hl & He & Hf). unfold el721_reset_control_locked.
  repeat step Hd. destruct (1 <? v); [by apply vc_ret, keeps_refl|].
  destruct (powered e) eqn:Hp; cbn [negb]; [|by apply vc_ret, keeps_refl].
  repeat step Hd. exists e. split_and!; [done..|]. unfold sane. cbn. rewrite Hp. by split_and!.
Qed.

(** *** The calls *)

Lemma keeps_trans e e1 d1 d2 b1 b2 :
  data d1 = Some e1 → refcount e1 = refcount e → removing e1 = removing e →
  keeps e1 d2 b2 → sane e1 b1 → keeps e d2 b2.
Proof. intros _ Hc Hr (e2 & H2 & Hc2 & Hr2 & Hs2) _. exists e2. split_and!; congruence. Qed.
(** A field that is not about power. *)
Lemma note_spec (f : el721_data → el721_data) (ret : Z) e d b :
  data d = Some e → sane e b →
  (∀ e, vdd (f e) = vdd e ∧ enable_gpio (f e) = enable_gpio e ∧ powered (f e) = powered e
    ∧ refcount (f e) = refcount e ∧ removing (f e) = removing e) →
  vc (mod_data f;; mret ret) (fun _ => keeps e) d b.
Proof.
  intros Hd Hs Hf. apply vc_bind. eapply vc_mod_data; [exact Hd|]. apply vc_ret.
  destruct (Hf e) as (Hv & He & Hp & Hc & Hr). eexists. split_and!; [reflexivity|done..|].
  unfold sane in *. by rewrite Hv, He, Hp, Hr.
Qed.
Lemma model_spec ioc e d b :
  data d = Some e → sane e b → vc (model_info ioc) (fun _ => keeps e) d b.
Proof.
  intros Hd Hs. unfold model_info. destruct (_ =? 0); [by apply vc_ret, keeps_refl|].
  apply vc_bind. eapply vc_data; [exact Hd|]. cbv zeta. apply vc_bind, vc_ask.
  intros []; cbn [negb]; [|by apply vc_ret, keeps_refl]. by apply vc_bind, vc_emit, vc_ret, keeps_refl.
Qed.
Lemma transfer_spec ioc e d b :
  data d = Some e → sane e b → removing e = false →
  vc (el721_run_transfer_locked ioc) (fun _ => keeps e) d b.
Proof.
  intros Hd Hs Hn. unfold el721_run_transfer_locked. cbv zeta.
  assert (∀ ret : Z, vc (mret ret) (fun _ => keeps e) d b) as Hk by (intros; by apply vc_ret, keeps_refl).
  repeat match goal with |- vc (if ?c then _ else _) _ _ _ => destruct c end;
    first [ by apply Hk | by apply reset_spec | by apply power_on_spec | by apply control_spec
          | by apply model_spec | by apply note_spec | idtac ].
  eapply vc_mono; [by apply power_off_spec|]. intros ret d' b' (_ & e' & H & Hc & Hr & Hs' & _).
  by exists e'.
Qed.
Lemma transfers_spec l e d b :
  data d = Some e → sane e b → removing e = false →
  vc (run_transfers l) (fun _ => keeps e) d b.
Proof.
  revert e d b. induction l as [|ioc l IH]; intros e d b Hd Hs Hn; cbn [run_transfers].
  { by apply vc_ret, keeps_refl. }
  apply vc_nz. eapply vc_mono; [by apply transfer_spec|].
  intros ret d1 b1 (e1 & H1 & Hc1 & Hr1 & Hs1). destruct (ret =? 0); [|by exists e1].
  eapply vc_mono; [eapply IH; [exact H1|done|congruence]|]. intros r d2 b2 H2.
  by eapply keeps_trans.
Qed.

(** What a call does to the structure: [open] adds a reference. *)
Definition adds (n : Z) (e : el721_data) (d' : el721_module) (b' : status) : Prop :=
  ∃ e', data d' = Some e' ∧ refcount e' = refcount e + n ∧ (removing e = true → removing e' = true)
  ∧ sane e' b'.
Lemma keeps_adds e d b : keeps e d b → adds 0 e d b.
Proof. intros (e' & H & Hc & Hr & Hs). exists e'. rewrite Z.add_0_r, Hr. by split_and!. Qed.
Lemma store_spec (c : M (machine el721_module W el_event) Z) (n : Z) e d b :
  data d = Some e → sane e b →
  (removing e = false → vc c (fun _ => keeps e) d b) →
  vc (e ← get_data; ret ← (if removing e then mret (- ENODEV) else c);
      mret (if negb (ret =? 0) then ret else n)) (fun _ => adds 0 e) d b.
Proof.
  intros Hd Hs Hc. apply vc_bind. eapply vc_data; [exact Hd|]. apply vc_bind.
  apply vc_mono with (P := fun _ => keeps e).
  - destruct (removing e) eqn:Hr; [by apply vc_ret, keeps_refl|by apply Hc].
  - intros ret d' b' Hk. by apply vc_ret, keeps_adds.
Qed.
Lemma off_adds e d b : 
  data d = Some e → sane e b → vc el721_power_off_locked (fun _ => adds 0 e) d b.
Proof.
  intros Hd Hs. eapply vc_mono; [by apply power_off_spec|].
  intros ret d' b' (_ & e' & H & Hc & Hr & Hs' & _). apply keeps_adds. by exists e'.
Qed.
Lemma removing_spec e d b :
  data d = Some e → sane e b →
  vc set_removing (fun _ d' b' => ∃ e', data d' = Some e' ∧ refcount e' = refcount e
    ∧ removing e' = true ∧ powered e' = false ∧ sane e' b') d b.
Proof.
  intros Hd (Hb & Hl & He & Hf). unfold set_removing, el721_power_off_locked.
  apply vc_bind. eapply vc_mod_data; [exact Hd|]. set (d1 := over_field _ d).
  set (e1 := over_field _ e) in d1. assert (data d1 = Some e1) as H1 by done.
  apply vc_bind. eapply vc_data; [exact H1|]. change (powered e1) with (powered e).
  destruct (powered e) eqn:Hp; cbn [negb].
  - change (ldo_gpio e1) with (ldo_gpio e). change (vdd e1) with (vdd e).
    destruct (ldo_gpio e), (vdd e) eqn:Hv; repeat step H1;
      (eexists; split_and!; [reflexivity|done..|]; unfold sane; cbn; rewrite Hb; by split_and!).
  - apply vc_ret. exists e1. split_and!; [done..|]. unfold sane. cbn. rewrite Hp, Hb. by split_and!.
Qed.

(** ** The invariant of the life *)

(** The reference the bound device holds. *)
Definition owner (ph : phase) : Z := match ph with Bound | Leaving => 1 | _ => 0 end.
Definition inv (ph : phase) (fds : nat) (d : el721_module) (b : status) : Prop :=
  match data d with
  | None => (ph = Absent ∧ freed b = 0 ∨ ph = Gone ∧ freed b <= 1) ∧ fds = 0%nat
            ∧ rail b = 0 ∧ line b ≠ Some 1
  | Some e => ph ≠ Absent ∧ refcount e = Z.of_nat fds + owner ph ∧ 0 < refcount e ∧ sane e b
              ∧ (ph ≠ Bound → removing e = true)
  end.
Lemma inv_adds n ph fds e d d' b b' :
  data d = Some e → inv ph fds d b → adds (Z.of_nat n) e d' b' → inv ph (fds + n) d' b'.
Proof.
  intros Hd Hi (e' & H & Hc & Hr & Hs). unfold inv in *. rewrite Hd in Hi. rewrite H.
  destruct Hi as (Hph & Hrc & Hpos & _ & Hrem). split_and!; [done|lia|lia|done|auto].
Qed.
Lemma inv_adds0 ph fds e d d' b b' :
  data d = Some e → inv ph fds d b → adds 0 e d' b' → inv ph fds d' b'.
Proof. intros Hd Hi Ha. rewrite <-(Nat.add_0_r fds). by eapply (inv_adds 0). Qed.
(** A reference goes away, and with the last one the structure. *)
Lemma put_spec e d b (Q : unit → el721_module → status → Prop) :
  data d = Some e → sane e b → 0 < refcount e → (refcount e = 1 → removing e = true) →
  (∀ e' d', data d' = Some e' → refcount e' = refcount e - 1 → sane e' b → removing e' = removing e →
    0 < refcount e' → Q tt d' b) →
  (∀ d' b', data d' = None → refcount e = 1 → rail b' = 0 → line b' ≠ Some 1 → freed b' = 1 → Q tt d' b') →
  vc kref_put Q d b.
Proof.
  intros Hd Hs Hc Hr Hsome Hnone. unfold kref_put. apply vc_bind. eapply vc_data; [exact Hd|].
  apply vc_bind. eapply vc_mod_data; [exact Hd|]. set (d1 := over_field _ d).
  destruct (Z.eqb_spec (refcount e) 1) as [H1|H1].
  - unfold el721_free. apply vc_bind, vc_emit, vc_mod. destruct Hs as (Hb & Hl & Hp & Hf).
    specialize (Hr H1). assert (powered e = false) as Hu.
    { destruct (powered e); [|done]. destruct Hp as [_ Hp]; [done|congruence]. }
    apply Hnone; cbn; [done|done|by rewrite Hb, Hu|by apply Hl|lia].
  - apply vc_skip. eapply Hsome; [reflexivity|done|done|done|cbn; lia].
Qed.

Lemma release_spec ph fds d b :
  inv ph fds d b → (0 < fds)%nat →
  (ph = Bound ∨ ph = Leaving ∨ ph = Gone) →
  vc el721_release (fun _ d' b' => inv ph (pred fds) d' b') d b.
Proof.
  intros Hi Hfds Hph. unfold el721_release. unfold inv in Hi.
  destruct (data d) as [e|] eqn:Hd; [|lia]. destruct Hi as (Hna & Hrc & Hpos & Hs & Hrem).
  assert (refcount e = 1 → ph = Gone ∧ fds = 1%nat) as Hlast.
  { destruct ph; cbn in Hrc; [done|lia|lia|]. split; [done|lia]. }
  apply vc_bind. eapply put_spec; [exact Hd|done|done|..].
  - intros H1. apply Hrem. by destruct (Hlast H1) as [-> _].
  - intros e' d' H Hc Hs' Hr' Hpos'. apply vc_ret. unfold inv. rewrite H.
    split_and!; [done|lia|done|done|]. intros Hph'. rewrite Hr'. by apply Hrem.
  - intros d' b' H H1 Hb Hl Hf. destruct (Hlast H1) as [-> ->]. apply vc_ret. unfold inv. rewrite H.
    split_and!; [right; split; [done|lia]|done..].
Qed.
Lemma call_spec c ph fds d b :
  inv ph fds d b → allowed ph fds c = true →
  vc (run_call c) (fun ret d' b' => inv ph (fds_after c ret fds) d' b') d b.
Proof.
  intros Hi Ha. pose proof Hi as Hi'. unfold inv in Hi'.
  destruct (data d) as [e|] eqn:Hd; cycle 1.
  { destruct Hi' as [[[-> _]|[-> _]] [-> _]]; by destruct c. }
  destruct Hi' as (Hna & Hrc & Hpos & Hs & Hrem).
  assert (∀ d' b', adds 0 e d' b' → inv ph fds d' b') as Hk by (intros; by eapply inv_adds0).
  destruct c as [| |capable cmd arg|p n|p n| | |]; cbn [run_call fds_after].
  - unfold el721_open. apply vc_bind. eapply vc_data; [exact Hd|].
    destruct (removing e); [by apply vc_ret|].
    apply vc_bind. eapply vc_mod_data; [exact Hd|]. apply vc_ret. cbn [Z.eqb].
    rewrite <-Nat.add_1_r. eapply inv_adds; [exact Hd|exact Hi|]. eexists. by split_and!.
  - cbn in Ha. apply bool_decide_eq_true in Ha. apply release_spec; [done|done|].
    destruct ph; auto; done.
  - unfold el721_ioctl. cbv zeta.
    repeat match goal with |- vc (if ?c then _ else _) _ _ _ => destruct c end;
      try (by apply vc_ret).
    apply vc_bind, vc_ask. intros [err|bytes]; [by apply vc_ret|].
    apply vc_bind. eapply vc_data; [exact Hd|]. destruct (removing e) eqn:Hr; [by apply vc_ret|].
    eapply vc_mono; [by apply transfers_spec|]. intros ret d' b' H. by apply Hk, keeps_adds.
  - unfold power_store. destruct p as [err|[]]; [by apply vc_ret|..];
      (eapply vc_mono; [apply store_spec; [exact Hd|done|]|intros; by apply Hk]).
    + intros Hr. by apply power_on_spec.
    + intros _. eapply vc_mono; [by apply power_off_spec|].
      intros ret d' b' (_ & e' & H & Hc & Hr & Hs' & _). by exists e'.
  - unfold reset_store. destruct p as [err|[]]; [by apply vc_ret| |by apply vc_ret].
    eapply vc_mono; [apply store_spec; [exact Hd|done|]|intros; by apply Hk].
    intros _. by apply reset_spec.
  - unfold power_show. apply vc_bind, vc_bind. eapply vc_data; [exact Hd|]. by apply vc_ret, vc_ret.
  - eapply vc_mono; [by apply off_adds|]. intros; by apply Hk.
  - unfold el721_shutdown, when. apply vc_bind, vc_bind. eapply vc_mono; [by apply removing_spec|].
    intros ret d' b' (e' & H & Hc & Hr & Hp & Hs'). apply vc_skip, vc_ret, Hk.
    exists e'. split_and!; [done|lia|done|done].
Qed.
Lemma leave_spec fds d b :
  inv Bound fds d b → vc set_removing (fun _ d' b' => inv Leaving fds d' b') d b.
Proof.
  unfold inv. destruct (data d) as [e|] eqn:Hd; cycle 1.
  { intros [[[? _]|[? _]] _]; done. }
  intros (_ & Hrc & Hpos & Hs & _). eapply vc_mono; [by apply removing_spec|].
  intros ret d' b' (e' & -> & Hc & Hr & Hp & Hs'). cbn in *. split_and!; [done|lia|lia|done|done].
Qed.
Lemma gone_spec fds d b :
  inv Leaving fds d b → vc remove_rest (fun _ d' b' => inv Gone fds d' b') d b.
Proof.
  unfold inv at 1. destruct (data d) as [e|] eqn:Hd; cycle 1.
  { intros [[[? _]|[? _]] _]; done. }
  intros (_ & Hrc & Hpos & Hs & Hr). cbn in Hrc. specialize (Hr ltac:(done)).
  unfold remove_rest, drop_held. apply vc_bind, vc_emit, vc_bind, vc_emit. cbn [watch].
  eapply put_spec; [exact Hd|done|done|done|..].
  - intros e' d' H Hc' Hs' Hr' Hpos'. unfold inv. rewrite H. cbn. rewrite Hr'. split_and!; [done|lia|done..].
  - intros d' b' H H1 Hb Hl Hf. unfold inv. rewrite H. split_and!; [right; split; [done|lia]|lia|done|done].
Qed.
Lemma el_probe_spec alloc s d b :
  inv Absent 0 d b →
  vc (el721_probe alloc s) (fun ret d' b' => inv (if ret =? 0 then Bound else Gone) 0 d' b') d b.
Proof.
  unfold inv at 1. destruct (data d) as [e|] eqn:Hd; [intros [? _]; done|].
  intros ([[_ Hf]|[? _]] & _ & Hb & Hl); [|done]. unfold el721_probe.
  destruct alloc; cbn [negb]; cycle 1.
  { apply vc_ret. cbn. unfold inv. rewrite Hd. split_and!; [right; split; [done|lia]|done..]. }
  apply vc_bind, vc_mod. set (e := mkEl _ _ _ _ _ _ _ _ _ _ _ _ _). set (d1 := over_field _ d).
  assert (data d1 = Some e) as H1 by done. clearbody d1.
  assert (sane e b) as Hs by (by split_and!).
  apply vc_bind, vc_ask. intros r1. apply vc_bind, vc_emit. cbn [watch].
  destruct (Z.eqb_spec r1 0) as [->|Hr1]; cbn [negb]; cycle 1.
  { unfold err_load, kref_put. apply vc_bind, vc_bind. eapply vc_data; [exact H1|]. apply vc_bind.
    eapply vc_mod_data; [exact H1|]. cbn [refcount e Z.eqb]. unfold el721_free.
    apply vc_bind, vc_emit, vc_mod, vc_ret. rewrite (proj2 (Z.eqb_neq r1 0)) by done.
    unfold inv. cbn. split_and!; [right; split; [done|lia]|done..]. }
  apply vc_bind, vc_ask. intros r2. apply vc_bind, vc_emit. cbn [watch].
  destruct (Z.eqb_spec r2 0) as [->|Hr2]; cbn [negb]; cycle 1.
  { eapply vc_call; [by apply removing_spec|]. intros r3 d2 b2 (e2 & H2 & Hc & Hr & Hp & Hs2).
    unfold drop_held, err_load. apply vc_bind, vc_emit, vc_bind. cbn [watch].
    eapply put_spec; [exact H2|done|by rewrite Hc|done|..].
    - intros e' d' _ Hc' _ _ Hpos. rewrite Hc in Hc'. cbn in Hc'. lia.
    - intros d' b' H _ Hb' Hl' Hf'. apply vc_ret. rewrite (proj2 (Z.eqb_neq r2 0)) by done.
      unfold inv. rewrite H. split_and!; [right; split; [done|lia]|done..]. }
  apply vc_ret. cbn [Z.eqb]. unfold inv. rewrite H1. by split_and!.
Qed.
End power.

(** ** The life of the driver, in any interleaving *)

Section life.
Context {W : Type} `{!SensorEnv W}.
Abbreviation state := (machine el721_module W el_event).

(** One device: it is probed, used through any number of open files and through
    sysfs, suspended, shut down, and removed in two steps, between which others
    can still run.  [ok] restricts the calls. *)
Inductive el_step (ok : call → state → Prop) : phase * nat * state → phase * nat * state → Prop :=
  | step_probe alloc s m ret m' :
      el721_probe alloc s m = Ret (ret, m') →
      el_step ok (Absent, 0%nat, m) (if ret =? 0 then Bound else Gone, 0%nat, m')
  | step_call ph fds c m ret m' :
      allowed ph fds c = true → ok c m → run_call c m = Ret (ret, m') →
      el_step ok (ph, fds, m) (ph, fds_after c ret fds, m')
  | step_leave fds m ret m' : set_removing m = Ret (ret, m') → el_step ok (Bound, fds, m) (Leaving, fds, m')
  | step_gone fds m u m' : remove_rest m = Ret (u, m') → el_step ok (Leaving, fds, m) (Gone, fds, m')
  | step_world ph fds m w : el_step ok (ph, fds, m) (ph, fds, m <| wld := w |>).
Definition el_reachable (ok : call → state → Prop) (ph : phase) (fds : nat) (m : state) : Prop :=
  ∃ m0, data (drv m0) = None ∧ log m0 = [] ∧ rtc (el_step ok) (Absent, 0%nat, m0) (ph, fds, m).
Definition any_call (_ : call) (_ : state) : Prop := True.

Definition status_of (m : state) : status := audit watch fresh (log m).
Definition inv_of (s : phase * nat * state) : Prop := inv s.1.1 s.1.2 (drv s.2) (status_of s.2).
Lemma el_step_inv ok s s' : el_step ok s s' → inv_of s → inv_of s'.
Proof.
  unfold inv_of. intros Hab Ha. destruct Hab as [alloc st m1 ret m2 H|ph' fds' c m1 ret m2 Hal _ H|
    fds' m1 ret m2 H|fds' m1 u m2 H|ph' fds' m1 w]; cbn [fst snd] in *.
  - exact (vc_use watch fresh _ _ _ _ _ (el_probe_spec alloc st _ _ Ha) H).
  - exact (vc_use watch fresh _ _ _ _ _ (call_spec c _ _ _ _ Ha Hal) H).
  - exact (vc_use watch fresh _ _ _ _ _ (leave_spec _ _ _ Ha) H).
  - exact (vc_use watch fresh _ _ _ _ _ (gone_spec _ _ _ Ha) H).
  - exact Ha.
Qed.
Lemma start_inv m : data (drv m) = None → log m = [] → inv_of (Absent, 0%nat, m).
Proof.
  intros Hd Hl. unfold inv_of, inv, status_of. cbn. rewrite Hd, Hl. cbn. split_and!; [by left|done..].
Qed.
Lemma reachable_inv ok ph fds m : el_reachable ok ph fds m → inv ph fds (drv m) (status_of m).
Proof.
  intros (m0 & Hd & Hl & Hs). refine (rtc_keeps (el_step ok) inv_of _ _ _ Hs _).
  - apply el_step_inv.
  - by apply start_inv.
Qed.
End life.

(** C12: in any interleaving of the reader's users with its removal, whatever the
    kernel answers: every call that can be made returns (nothing touches the
    structure after it was freed), it is freed at most once, and exactly when the
    device and the last open file are gone.  While it lives, its count is the
    open files and the bound device, the sensor's supply is enabled exactly once
    when it is powered and has a supply, the enable line is not left high when it
    is not, and from the start of the removal on it stays unpowered. *)
Theorem reader_outlives_its_users {W} `{!SensorEnv W} ph fds (m : machine el721_module W el_event) :
  el_reachable any_call ph fds m →
  (∀ c, allowed ph fds c = true → ∃ ret m', run_call c m = Ret (ret, m'))
  ∧ freed (status_of m) <= 1
  ∧ match data (drv m) with
    | None => fds = 0%nat ∧ (ph = Absent ∨ ph = Gone) ∧ rail (status_of m) = 0
    | Some e =>
        refcount e = Z.of_nat fds + owner ph ∧ 0 < refcount e ∧ freed (status_of m) = 0
        ∧ rail (status_of m) = (if powered e && vdd e then 1 else 0)
        ∧ (powered e = false → line (status_of m) ≠ Some 1)
        ∧ (ph ≠ Bound → powered e = false)
    end.
Proof.
  intros Hm%reachable_inv. split_and!.
  - intros c Hc. destruct m as [d w l].
    destruct (vc_run watch fresh _ _ _ _ w l (call_spec c ph fds d _ Hm Hc) eq_refl) as (ret & m' & H & _).
    by exists ret, m'.
  - revert Hm. unfold inv, sane. destruct (data (drv m)); [intros; lia|].
    intros [[[_ Hf]|[_ Hf]] _]; lia.
  - revert Hm. unfold inv, sane. destruct (data (drv m)) as [e|].
    + intros (_ & Hc & Hpos & (Hb & Hl & Hp & Hf) & Hr). split_and!; [done..|].
      intros Hph. specialize (Hr Hph). destruct (powered e); [|done].
      destruct Hp as [_ Hp]; [done|congruence].
    + intros ([[-> _]|[-> _]] & -> & Hb & _); auto.
Qed.

(** ** Hardware nobody asked for *)

Definition touches (e : el_event) : bool :=
  match e with
  | ElGetRail _ | ElRail _ _ | ElGetGpio _ _ | ElGpio _ _ _ | ElChangeset _ _ | ElAddNode _ => true
  | _ => false
  end.
Definition touched (b : bool) (e : el_event) : bool := b || touches e.
(** A request to power the sensor: the control with the length 1. *)
Definition asks (ioc : egis_ioc_transfer) : bool :=
  (opcode ioc =? FP_POWER_CONTROL) && negb (len ioc =? 0) && negb (1 <? len ioc).
(** A call that makes no such request, with what its user's memory holds. *)
Definition quiet {W} `{!SensorEnv W} (c : call) (m : machine el721_module W el_event) : Prop :=
  match c with
  | Ioctl _ cmd arg =>
      match (memdup_user arg (_IOC_SIZE cmd) (wld m)).1 with
      | inl _ => True
      | inr bytes =>
          forallb (fun ioc => negb (asks ioc)) (xfers_of (Z.to_nat (_IOC_SIZE cmd / XFER_SIZE)) bytes) = true
      end
  | PowerStore (inr true) _ => False
  | _ => True
  end.

Definition off (d : el721_module) (b : bool) : Prop :=
  b = false ∧ match data d with Some e => powered e = false | None => True end.

Section quiet.
Context {W : Type} `{!SensorEnv W}.
Abbreviation vc := (vc (W := W) (E := el_event) touched false).
(** The structure is there and unpowered, and nothing was touched. *)
Definition idle {A} (_ : A) (d : el721_module) (b : bool) : Prop :=
  b = false ∧ ∃ e, data d = Some e ∧ powered e = false.
Lemma idle_off {A} (a : A) d b : idle a d b → off d b.
Proof. intros [-> (e & H & Hp)]. unfold off. by rewrite H. Qed.

Lemma q_data {A} (k : el721_data → M (machine el721_module W el_event) A) Q d b :
  idle tt d b → (∀ e, data d = Some e → powered e = false → vc (k e) Q d b) →
  vc (get_data ≫= k) Q d b.
Proof.
  intros [-> (e & H & Hp)] Hk. unfold get_data. apply vc_bind, vc_bind, vc_drv.
  rewrite H. apply vc_ret. by apply Hk.
Qed.
Lemma q_mod f (ret : Z) d b :
  idle tt d b → (∀ e, powered (f e) = powered e) → vc (mod_data f;; mret ret) idle d b.
Proof.
  intros Hi Hf. unfold mod_data. apply vc_bind. apply q_data; [exact Hi|]. intros e H Hp.
  apply vc_mod, vc_ret. destruct Hi as [-> _]. split; [done|]. eexists. split; [done|]. by rewrite Hf.
Qed.
Lemma q_off d b : idle tt d b → vc el721_power_off_locked idle d b.
Proof.
  intros Hi. unfold el721_power_off_locked. apply q_data; [exact Hi|]. intros e H Hp.
  rewrite Hp. cbn [negb]. by apply vc_ret.
Qed.
Lemma q_reset d b : idle tt d b → vc el721_reset_locked idle d b.
Proof.
  intros Hi. unfold el721_reset_locked. apply q_data; [exact Hi|]. intros e H Hp.
  rewrite Hp. cbn [negb]. by apply vc_ret.
Qed.
Lemma q_transfer ioc d b :
  idle tt d b → asks ioc = false → vc (el721_run_transfer_locked ioc) idle d b.
Proof.
  intros Hi Ha. unfold el721_run_transfer_locked. cbv zeta.
  assert (∀ ret : Z, vc (mret ret) idle d b) as Hk by (intros; by apply vc_ret).
  destruct (Z.eqb_spec (opcode ioc) FP_SENSOR_RESET); [by apply q_reset|].
  destruct (Z.eqb_spec (opcode ioc) FP_POWER_CONTROL) as [He|_].
  { unfold asks in Ha. rewrite He, Z.eqb_refl in Ha. cbn [andb] in Ha.
    destruct (1 <? len ioc); [apply Hk|].
    destruct (len ioc =? 0); [by apply q_off|discriminate]. }
  destruct (opcode ioc =? FP_RESET_CONTROL).
  { unfold el721_reset_control_locked. apply q_data; [exact Hi|]. intros e H Hp.
    destruct (1 <? len ioc); [apply Hk|]. rewrite Hp. apply Hk. }
  repeat match goal with |- vc (if ?c then _ else _) _ _ _ => destruct c end;
    first [by apply Hk | by apply q_mod | idtac].
  unfold model_info. destruct (_ =? 0); [apply Hk|]. apply q_data; [exact Hi|]. intros e H Hp.
  cbv zeta. apply vc_bind, vc_ask. intros []; cbn [negb]; [|by apply vc_ret].
  apply vc_bind, vc_emit, vc_ret. destruct Hi as [-> He]. by split.
Qed.
Lemma q_transfers l d b :
  idle tt d b → forallb (fun ioc => negb (asks ioc)) l = true → vc (run_transfers l) idle d b.
Proof.
  revert d b. induction l as [|ioc l IH]; intros d b Hi Hl; cbn [run_transfers]; [by apply vc_ret|].
  cbn in Hl. apply andb_true_iff in Hl as [Ha%negb_true_iff Hl].
  apply vc_nz. eapply vc_mono; [by apply q_transfer|]. intros ret d1 b1 H1.
  destruct (ret =? 0); [by apply IH|done].
Qed.
Lemma q_store (c : M (machine el721_module W el_event) Z) (n : Z) d b :
  idle tt d b → vc c idle d b →
  vc (e ← get_data; ret ← (if removing e then mret (- ENODEV) else c);
      mret (if negb (ret =? 0) then ret else n)) idle d b.
Proof.
  intros Hi Hc. apply q_data; [exact Hi|]. intros e H Hp. apply vc_bind.
  eapply vc_mono with (P := idle); [|intros; by apply vc_ret].
  destruct (removing e); [by apply vc_ret|done].
Qed.
Lemma q_removing d b : idle tt d b → vc set_removing idle d b.
Proof.
  intros Hi. unfold set_removing, mod_data. apply vc_bind, q_data; [exact Hi|]. intros e H Hp.
  apply vc_mod, q_off. destruct Hi as [-> _]. split; [done|]. by eexists.
Qed.
Lemma q_put d b : idle tt d b → vc kref_put (fun _ => off) d b.
Proof.
  intros Hi. unfold kref_put, mod_data. apply q_data; [exact Hi|]. intros e H Hp.
  apply vc_bind, q_data; [exact Hi|]. intros e' H' Hp'. destruct Hi as [-> _].
  apply vc_mod. destruct (_ =? 1); [|by apply vc_skip].
  unfold el721_free. by apply vc_bind, vc_emit, vc_mod.
Qed.
(** A quiet call; for an ioctl, from the state whose memory it reads. *)
Lemma q_call c (m : machine el721_module W el_event) :
  idle tt (drv m) (audit touched false (log m)) → quiet c m →
  wp (run_call c) (fun _ m' => off (drv m') (audit touched false (log m'))) m.
Proof.
  destruct m as [d w l]. cbn [drv log]. intros Hi Hq.
  assert (∀ c : M _ Z, vc c idle d (audit touched false l) →
    wp c (fun _ m' => off (drv m') (audit touched false (log m'))) (mkM d w l)) as Hk.
  { intros c' H. eapply wp_mono; [exact (H w l eq_refl)|]. intros a m'. apply idle_off. }
  destruct c as [| |capable cmd arg|p n|p n| | |]; cbn [run_call].
  - apply Hk. unfold el721_open. apply q_data; [exact Hi|]. intros e H Hp.
    destruct (removing e); [by apply vc_ret|by apply q_mod].
  - apply wp_bind. eapply wp_mono; [exact (q_put _ _ Hi w l eq_refl)|]. intros ? m' H. exact H.
  - unfold el721_ioctl. cbv zeta.
    repeat match goal with |- wp (if ?c then _ else _) _ _ => destruct c end;
      try (by apply Hk, vc_ret).
    cbn [quiet wld] in Hq. revert Hq. unfold wp.
    rewrite (bind_ret _ _ _ _ _ (ask_ret _ d w l)). generalize ((memdup_user arg (_IOC_SIZE cmd) w).2).
    intros w' Hq. destruct ((memdup_user arg (_IOC_SIZE cmd) w).1) as [err|bytes]; [by apply (idle_off tt)|].
    match goal with |- match ?c _ with _ => _ end => change (wp c
      (fun _ m' => off (drv m') (audit touched false (log m'))) (mkM d w' l)) end.
    eapply wp_mono; [eapply q_data; [exact Hi| |reflexivity]|intros a m'; apply (idle_off a)].
    intros e H Hp. destruct (removing e); [by apply vc_ret|by apply q_transfers].
  - destruct p as [err|[]]; [by apply Hk, vc_ret|done|]. by apply Hk, q_store, q_off.
  - destruct p as [err|[]]; [by apply Hk, vc_ret| |by apply Hk, vc_ret]. by apply Hk, q_store, q_reset.
  - apply Hk. unfold power_show. apply vc_bind, q_data; [exact Hi|]. intros e H Hp.
    by apply vc_ret, vc_ret.
  - by apply Hk, q_off.
  - apply Hk. unfold el721_shutdown, when. apply vc_bind, vc_bind.
    eapply vc_mono; [by apply q_removing|]. intros ret d' b' H. by apply vc_skip, vc_ret.
Qed.

Lemma q_probe alloc st d b : off d b → vc (el721_probe alloc st) (fun _ => off) d b.
Proof.
  intros [-> Ho]. unfold el721_probe. destruct alloc; cbn [negb]; [|by apply vc_ret].
  apply vc_bind, vc_mod. set (e := mkEl _ _ _ _ _ _ _ _ _ _ _ _ _). set (d1 := over_field _ d).
  assert (idle tt d1 false) as Hi by (split; [done|by exists e]). clearbody d1.
  apply vc_bind, vc_ask. intros r1. apply vc_bind, vc_emit. cbn [touched touches orb].
  destruct (r1 =? 0); cbn [negb].
  - apply vc_bind, vc_ask. intros r2. apply vc_bind, vc_emit. cbn [touched touches orb].
    destruct (r2 =? 0); cbn [negb]; [by apply vc_ret, (idle_off tt)|].
    eapply vc_call; [by apply q_removing|]. intros ret d2 b2 H2.
    unfold drop_held, err_load. apply vc_bind, vc_emit, vc_bind.
    destruct H2 as [-> H2]. cbn [touched touches orb].
    eapply vc_mono; [by apply q_put|]. intros. by apply vc_ret.
  - unfold err_load. apply vc_bind. eapply vc_mono; [by apply q_put|]. intros. by apply vc_ret.
Qed.
Lemma q_rest d b : idle tt d b → vc remove_rest (fun _ => off) d b.
Proof.
  intros [-> Hi]. unfold remove_rest, drop_held.
  apply vc_bind, vc_emit, vc_bind, vc_emit. by apply q_put.
Qed.

Definition untouched (s : phase * nat * machine el721_module W el_event) : Prop :=
  inv_of s ∧ off (drv s.2) (audit touched false (log s.2)).
Lemma off_idle ph fds (m : machine el721_module W el_event) :
  untouched (ph, fds, m) → (ph ≠ Absent ∧ ph ≠ Gone ∨ (0 < fds)%nat) →
  idle tt (drv m) (audit touched false (log m)).
Proof.
  intros [Hi [Hb Ho]] Hph. cbn [snd] in Hb. split; [exact Hb|]. unfold inv_of, inv in Hi. cbn in Hi, Ho.
  destruct (data (drv m)) as [e|]; [by exists e|].
  destruct Hi as ([[-> _]|[-> _]] & -> & _); exfalso; destruct Hph as [[]|]; try done; lia.
Qed.
Lemma quiet_step s s' : el_step quiet s s' → untouched s → untouched s'.
Proof.
  intros Hab Hu. split; [eapply el_step_inv; [exact Hab|apply Hu]|].
  destruct Hab as [alloc st m1 ret m2 H|ph fds c m1 ret m2 Hal Hq H|fds m1 ret m2 H|fds m1 u m2 H|ph fds m1 w];
    cbn [fst snd] in *.
  - destruct Hu as [_ Ho]. exact (vc_use touched false _ _ _ _ _ (q_probe alloc st _ _ Ho) H).
  - assert (idle tt (drv m1) (audit touched false (log m1))) as Hi.
    { apply (off_idle ph fds); [exact Hu|]. destruct c, ph; cbn in Hal; auto; try discriminate;
        try (apply bool_decide_eq_true in Hal); auto. }
    pose proof (q_call c m1 Hi Hq) as Hw. unfold wp in Hw. by rewrite H in Hw.
  - apply off_idle in Hu; [|auto]. apply (idle_off ret).
    exact (vc_use touched false _ _ _ _ _ (q_removing _ _ Hu) H).
  - apply off_idle in Hu; [|auto].
    exact (vc_use touched false _ _ _ _ _ (q_rest _ _ Hu) H).
  - apply Hu.
Qed.
End quiet.

(** C39: as long as nobody asks for power (by the power control of the ioctl or by
    a true written to the power attribute) the driver touches nothing of the
    sensor: no rail is looked up, published or enabled and no GPIO is requested
    or driven, whatever else its users do, from the probe to the end of the
    removal.  The secure firmware owns the sensor while Linux boots. *)
Theorem sensor_untouched_until_asked {W} `{!SensorEnv W} ph fds (m : machine el721_module W el_event) :
  el_reachable quiet ph fds m →
  Forall (fun e => touches e = false) (log m)
  ∧ match data (drv m) with Some e => powered e = false | None => True end.
Proof.
  intros (m0 & Hd & Hl & Hs).
  assert (untouched (ph, fds, m)) as [_ [Ht Hp]].
  { refine (rtc_keeps _ _ _ _ (fun s s' => quiet_step s s') Hs _).
    split; [by apply start_inv|]. cbn. rewrite Hl. split; [done|]. by rewrite Hd. }
  cbn [snd] in Ht, Hp. split; [|exact Hp]. clear Hs Hl Hd Hp m0. revert Ht. generalize (log m). clear m.
  intros l. induction l as [|e l IH] using rev_ind; [constructor|].
  rewrite audit_snoc. unfold touched. intros [Hb He]%orb_false_iff.
  apply Forall_app. split; [by apply IH|by repeat constructor].
Qed.

(** ** A session of the trusted service *)

(** Every resource is there; the world is the memory of the user. *)
#[export] Instance good_reader : SensorEnv (list Z) := {|
  device_property_present w := (false, w);
  devm_regulator_get w := (1, w);
  regulator_enable w := (0, w);
  gpio_get g w := (match g with Ldo => 0 | Enable => 1 end, w);
  gpiod_direction_output _ _ w := (0, w);
  memdup_user _ n w := (inr (take (Z.to_nat n) w), w);
  copy_to_user _ _ w := (true, w);
  find_pmic_regulators w := (true, w);
  has_ldo2 w := (false, w);
  create_node w := (true, w);
  add_prop w := (0, w);
  changeset_apply w := (0, w);
  create_device w := (true, w);
  consumer_has_node w := (false, w);
  add_of_node w := (0, w);
  misc_register w := (0, w);
  device_add_group w := (0, w);
  platform_driver_register w := (0, w);
  firmware_node w := (false, w);
  fallback_alloc w := (true, w);
  fallback_add w := (0, w);
|}.
(** One transfer: [rx], [len] and [op]; the rest of its bytes is 0. *)
Definition xfer (rx len op : Z) : list Z :=
  replicate 8 0 ++ [rx] ++ replicate 7 0 ++ [len; 0; 0; 0] ++ replicate 8 0 ++ [op; 0; 0; 0].
Definition el_start (memory : list Z) : machine el721_module (list Z) el_event :=
  mkM (mkMod None false false false false) memory [].
Definition el_ran {A} (r : outcome (A * machine el721_module (list Z) el_event)) :=
  match r with Ret (_, m) => m | _ => el_start [] end.
Definition one := Ioctl true (EGIS_IOC_MESSAGE 1) 4096.
Definition strings := mkStrings (None, None) (None, None) (None, None).
Definition el_opened (memory : list Z) :=
  el_ran (run_call Open (el_ran (el721_probe true strings (el_start memory)))).
Definition el_done (memory : list Z) := el_ran (run_call one (el_opened memory)).
Definition el_left (memory : list Z) := el_ran (remove_rest (el_ran (set_removing (el_done memory)))).

Lemma el_done_reach ok memory :
  el721_probe true strings (el_start memory) = Ret (0, el_ran (el721_probe true strings (el_start memory))) →
  run_call Open (el_ran (el721_probe true strings (el_start memory))) = Ret (0, el_opened memory) →
  run_call one (el_opened memory) = Ret (0, el_done memory) →
  ok Open (el_ran (el721_probe true strings (el_start memory))) → ok one (el_opened memory) →
  el_reachable ok Bound 1 (el_done memory).
Proof.
  intros Hp Ho Hi Hok1 Hok2. exists (el_start memory). split_and!; [done..|].
  eapply rtc_l; [apply (step_probe ok true strings _ _ _ Hp)|].
  eapply rtc_l; [apply (step_call ok Bound 0 Open _ _ _ eq_refl Hok1 Ho)|].
  apply rtc_once. exact (step_call ok Bound 1 one _ _ _ eq_refl Hok2 Hi).
Qed.

(** Power on, remove the device under the open file, then close it. *)
Lemma reader_outlives_its_users_witness :
  let m := el_left (xfer 0 1 FP_POWER_CONTROL) in
  el_reachable any_call Gone 1 m
  ∧ (∃ ret m', run_call one m = Ret (ret, m'))
  ∧ (match data (drv m) with Some e => refcount e = 1 ∧ powered e = false | None => False end).
Proof.
  intros m. set (mem := xfer 0 1 FP_POWER_CONTROL) in m.
  assert (el_reachable any_call Bound 1 (el_done mem)) as Hr.
  { apply el_done_reach; first [vm_compute; reflexivity | exact I]. }
  assert (set_removing (el_done mem) = Ret (0, el_ran (set_removing (el_done mem)))) as H1
    by (vm_compute; reflexivity).
  assert (remove_rest (el_ran (set_removing (el_done mem))) = Ret (tt, m)) as H2
    by (vm_compute; reflexivity).
  assert (data (drv m) ≠ None) as Hd by (vm_compute; discriminate).
  clearbody m. assert (el_reachable any_call Gone 1 m) as Hm.
  { destruct Hr as (m0 & Hd0 & Hl0 & Hs). exists m0. split; [exact Hd0|]. split; [exact Hl0|].
    eapply rtc_r; [eapply rtc_r; [exact Hs|exact (step_leave any_call 1 _ _ _ H1)]|].
    exact (step_gone any_call 1 _ _ _ H2). }
  destruct (reader_outlives_its_users Gone 1 m Hm) as (Hc & _ & Hdata).
  split; [exact Hm|]. split; [apply Hc; reflexivity|].
  destruct (data (drv m)) as [e|]; [|contradiction].
  destruct Hdata as (Hrc & _ & _ & _ & _ & Hp). split; [exact Hrc|apply Hp; discriminate].
Defined.

(** Asking for the model is quiet. *)
Lemma sensor_untouched_until_asked_witness :
  let m := el_done (xfer 77 0 FP_MODEL_INFO) in
  el_reachable quiet Bound 1 m ∧ Forall (fun e => touches e = false) (log m) ∧ length (log m) = 3%nat.
Proof.
  intros m.
  assert (el_reachable quiet Bound 1 m) as Hr.
  { apply el_done_reach; vm_compute; reflexivity || exact I. }
  assert (length (log m) = 3%nat) as Hl by (vm_compute; reflexivity).
  clearbody m. destruct (sensor_untouched_until_asked Bound 1 m Hr) as [Ht _].
  split; [exact Hr|]. split; [exact Ht|exact Hl].
Defined.
