(* ===== verification/Ana38407.v ===== *)
(** [panel-samsung-ana38407.c]: the display panel.  The DSI host, the regulators
    and the DRM core are its environment. *)
From Stdlib Require Import Ascii String.
From S2P Require Import Prelude Bus.

Definition EPIPE := 32.

Definition ANA38407_MAX_BRIGHTNESS := 0x07ff.
Definition ANA38407_FOD_BRIGHTNESS := 1623.
Definition ANA38407_FOD_WATCHDOG_MS := 15000.
Definition ANA38407_FOD_SETTLE_MS := 35.
Definition ana38407_expected_id : list Z := [0x80; 0x00; 0x04].

(** The flags of [drm_mipi_dsi.h]. *)
Definition MIPI_DSI_CLOCK_NON_CONTINUOUS := 0x400.
Definition MIPI_DSI_MODE_LPM := 0x800.

(** [ana38407_supplies]. *)
Inductive supply := vddio | vdd | vci | avdd.
#[export] Instance supply_eq_dec : EqDecision supply.
Proof. solve_decision. Defined.
Definition ana38407_supplies : list supply := [vddio; vdd; vci; avdd].

(** *** The stream compression and the timings *)

Record dsc_range := mkRange { range_min_qp : Z; range_max_qp : Z; range_bpg_offset : Z }.
Record drm_dsc_config := mkDsc {
  dsc_version : Z * Z; slice_height : Z; slice_width : Z; slice_count : Z;
  bits_per_component : Z; bits_per_pixel : Z; block_pred_enable : bool;
  pic_width : Z; pic_height : Z; rc_buf_thresh : list Z; line_buf_depth : Z;
  first_line_bpg_offset : Z; initial_xmit_delay : Z; initial_offset : Z;
  rc_quant_incr_limit0 : Z; rc_quant_incr_limit1 : Z; rc_range_params : list dsc_range;
  slice_chunk_size : Z
}.
Definition DSC_RANGE_BPG_OFFSET_MASK := 0x3f.
Definition DSC_BPG_OFFSET (x : Z) : Z := u8 (Z.land x DSC_RANGE_BPG_OFFSET_MASK).
(** Without the four constants of the kernel's headers. *)
Definition ana38407_dsc_template : drm_dsc_config := {|
  dsc_version := (1, 1); slice_height := 100; slice_width := 1280; slice_count := 2;
  bits_per_component := 8; bits_per_pixel := Z.shiftl 8 4; block_pred_enable := true;
  pic_width := 2560; pic_height := 1600;
  rc_buf_thresh := [14; 28; 42; 56; 70; 84; 98; 105; 112; 119; 121; 123; 125; 126];
  line_buf_depth := 9; first_line_bpg_offset := 12; initial_xmit_delay := 512;
  initial_offset := 6144; rc_quant_incr_limit0 := 11; rc_quant_incr_limit1 := 11;
  rc_range_params :=
    [mkRange 0 4 (DSC_BPG_OFFSET 2); mkRange 0 4 (DSC_BPG_OFFSET 0);
     mkRange 1 5 (DSC_BPG_OFFSET 0); mkRange 1 6 (DSC_BPG_OFFSET (-2));
     mkRange 3 7 (DSC_BPG_OFFSET (-4)); mkRange 3 7 (DSC_BPG_OFFSET (-6));
     mkRange 3 7 (DSC_BPG_OFFSET (-8)); mkRange 3 8 (DSC_BPG_OFFSET (-8));
     mkRange 3 9 (DSC_BPG_OFFSET (-8)); mkRange 3 10 (DSC_BPG_OFFSET (-10));
     mkRange 5 10 (DSC_BPG_OFFSET (-10)); mkRange 5 11 (DSC_BPG_OFFSET (-12));
     mkRange 5 11 (DSC_BPG_OFFSET (-12)); mkRange 9 12 (DSC_BPG_OFFSET (-12));
     mkRange 12 13 (DSC_BPG_OFFSET (-12))];
  slice_chunk_size := 1280
|}.

Record drm_display_mode := mkMode {
  clock : Z; hdisplay : Z; hsync_start : Z; hsync_end : Z; htotal : Z;
  vdisplay : Z; vsync_start : Z; vsync_end : Z; vtotal : Z
}.
Definition ana38407_modes : list drm_display_mode := [
  {| clock := (2560 + 34 + 64 + 34) * (1600 + 42 + 64 + 32) * 120 / 1000;
     hdisplay := 2560; hsync_start := 2560 + 34; hsync_end := 2560 + 34 + 64;
     htotal := 2560 + 34 + 64 + 34;
     vdisplay := 1600; vsync_start := 1600 + 42; vsync_end := 1600 + 42 + 64;
     vtotal := 1600 + 42 + 64 + 32 |};
  {| clock := (2560 + 128 + 512 + 203) * (1600 + 127 + 512 + 257) * 60 / 1000;
     hdisplay := 2560; hsync_start := 2560 + 128; hsync_end := 2560 + 128 + 512;
     htotal := 2560 + 128 + 512 + 203;
     vdisplay := 1600; vsync_start := 1600 + 127; vsync_end := 1600 + 127 + 512;
     vtotal := 1600 + 127 + 512 + 257 |};
  {| clock := (2560 + 600 + 735 + 512) * (1600 + 512 + 512 + 512) * 30 / 1000;
     hdisplay := 2560; hsync_start := 2560 + 600; hsync_end := 2560 + 600 + 735;
     htotal := 2560 + 600 + 735 + 512;
     vdisplay := 1600; vsync_start := 1600 + 512; vsync_end := 1600 + 512 + 512;
     vtotal := 1600 + 512 + 512 + 512 |}].

(** *** The state

    [struct ana38407]; [mode_flags] is the DSI device's; the cell id without its
    terminator. *)
Record ana38407 := mkAna {
  mode_flags : Z; user_brightness : Z; prepared : bool; enabled : bool;
  fod_mode : bool; fod_circle : bool; id : list Z; cell_id : string; dsc : option drm_dsc_config
}.
#[export] Instance eta_ana38407 : Eta ana38407 := fun r =>
  mkAna (mode_flags r) (user_brightness r) (prepared r) (enabled r) (fod_mode r) (fod_circle r)
    (id r) (cell_id r) (dsc r).

(** What the panel is sent: a DCS command with its parameters, and the packets of
    the stream compression. *)
Inductive dsi_cmd :=
  | DcsWrite (bytes : list Z)
  | CompressionMode (enable : bool)
  | PictureParameterSet
  | Sleep (ms : Z).

(** What [probe] takes and [remove] gives back. *)
Inductive handle := Attributes | Panel | Dsi.

(** [lpm]: the transfer runs in low-power mode. *)
Inductive an_event :=
  | AnWrite (lpm : bool) (bytes : list Z) (ret : Z)
  | AnCompression (enable : bool) (ret : Z)
  | AnPps (ret : Z)
  | AnRead (cmd len ret : Z)
  | AnSleep (ms : Z)
  | AnRails (l : list supply) (on : bool)
  | AnResetLine (v : Z)
  | AnArm (ms : Z)
  | AnDisarm
  | AnExpire
  | AnMode (m : drm_display_mode) (preferred : bool)
  | AnGet (h : handle) (ret : Z)
  | AnPut (h : handle).

Class PanelEnv (W : Type) := {
  regulator_enable : supply → W → Z * W;
  (** All of them, or an error and none. *)
  regulator_bulk_enable : list supply → W → Z * W;
  (** The bytes sent, or a negative error. *)
  dsi_write : list Z → W → Z * W;
  dsi_compression_mode : bool → W → Z * W;
  dsi_picture_parameter_set : W → Z * W;
  (** The bytes read, or a negative error; and the buffer. *)
  dsi_dcs_read : Z → Z → W → (Z * list Z) * W;
  drm_mode_duplicate : drm_display_mode → W → bool * W;
  mipi_dsi_detach : W → Z * W;
}.

(** *** The power-on sequence, by the driver's headings *)

Definition slew_boosting_off : list dsi_cmd :=
  [DcsWrite [0xf0; 0x5a; 0x5a]; DcsWrite [0xf1; 0x5a; 0x5a]; DcsWrite [0xc1; 0x2a];
   DcsWrite [0xb0; 0x03]; DcsWrite [0xc0; 0x0f; 0x00; 0x00; 0x00; 0x13; 0x4f; 0x81];
   DcsWrite [0xc1; 0x2a]; DcsWrite [0xb0; 0x03];
   DcsWrite [0xc0; 0x0f; 0x00; 0x00; 0x00; 0x13; 0x62; 0x81]; DcsWrite [0xc1; 0x2a];
   DcsWrite [0xb0; 0x03]; DcsWrite [0xc0; 0x0f; 0x00; 0x00; 0x00; 0x13; 0x75; 0x81];
   DcsWrite [0xc1; 0x2a]; DcsWrite [0xb0; 0x03];
   DcsWrite [0xc0; 0x0f; 0x00; 0x00; 0x00; 0x13; 0x88; 0x81]; DcsWrite [0xf0; 0xa5; 0xa5];
   DcsWrite [0xf1; 0xa5; 0xa5]].
Definition pm_en_disp_on_delay : list dsi_cmd :=
  [DcsWrite [0xf0; 0x5a; 0x5a]; DcsWrite [0xf1; 0x5a; 0x5a]; DcsWrite [0xc1; 0x00];
   DcsWrite [0xb0; 0x03]; DcsWrite [0xc0; 0x0f; 0x00; 0x00; 0x00; 0x14; 0x35; 0x81];
   DcsWrite [0xc1; 0x23]; DcsWrite [0xb0; 0x03];
   DcsWrite [0xc0; 0x0f; 0x00; 0x00; 0x00; 0x01; 0x04; 0x81]; DcsWrite [0xf0; 0xa5; 0xa5];
   DcsWrite [0xf1; 0xa5; 0xa5]].
Definition sleep_out : list dsi_cmd :=
  [DcsWrite [0x11]; Sleep 120].
Definition mx_ip_enable : list dsi_cmd :=
  [DcsWrite [0xf0; 0x5a; 0x5a]; DcsWrite [0xf1; 0x5a; 0x5a]; DcsWrite [0xc1; 0x23];
   DcsWrite [0xb0; 0x03]; DcsWrite [0xc0; 0x0f; 0x00; 0x00; 0x00; 0x09; 0xb2; 0x81];
   DcsWrite [0xf0; 0xa5; 0xa5]; DcsWrite [0xf1; 0xa5; 0xa5]].
Definition tcon_intr_setting : list dsi_cmd :=
  [DcsWrite [0xf0; 0x5a; 0x5a]; DcsWrite [0xf1; 0x5a; 0x5a]; DcsWrite [0xc1; 0x02];
   DcsWrite [0xb0; 0x03]; DcsWrite [0xc0; 0x0f; 0x00; 0x00; 0x00; 0x14; 0x46; 0x81];
   DcsWrite [0xc1; 0x13]; DcsWrite [0xb0; 0x03];
   DcsWrite [0xc0; 0x0f; 0x00; 0x00; 0x00; 0x08; 0xcf; 0x81]; DcsWrite [0xc1; 0x05];
   DcsWrite [0xb0; 0x03]; DcsWrite [0xc0; 0x0f; 0x00; 0x00; 0x00; 0x09; 0xcd; 0x81];
   DcsWrite [0xf0; 0xa5; 0xa5]; DcsWrite [0xf1; 0xa5; 0xa5]].
Definition te_on : list dsi_cmd :=
  [DcsWrite [0xf0; 0x5a; 0x5a]; DcsWrite [0x35; 0x00]; DcsWrite [0xf0; 0xa5; 0xa5]].
Definition tsp_sync_setting : list dsi_cmd :=
  [DcsWrite [0xf0; 0x5a; 0x5a]; DcsWrite [0xb0; 0x0b; 0xb9]; DcsWrite [0xb9; 0xcc];
   DcsWrite [0xf0; 0xa5; 0xa5]].
Definition dia_setting : list dsi_cmd :=
  [DcsWrite [0x91; 0x02]].
Definition sp_setting : list dsi_cmd :=
  [DcsWrite [0xf0; 0x5a; 0x5a]; DcsWrite [0xc3; 0x02]; DcsWrite [0xf0; 0xa5; 0xa5]; Sleep 20].
Definition slew_boosting_on : list dsi_cmd :=
  [DcsWrite [0xf0; 0x5a; 0x5a]; DcsWrite [0xf1; 0x5a; 0x5a]; DcsWrite [0xc1; 0x2e];
   DcsWrite [0xb0; 0x03]; DcsWrite [0xc0; 0x0f; 0x00; 0x00; 0x00; 0x13; 0x4f; 0x81];
   DcsWrite [0xc1; 0x2e]; DcsWrite [0xb0; 0x03];
   DcsWrite [0xc0; 0x0f; 0x00; 0x00; 0x00; 0x13; 0x62; 0x81]; DcsWrite [0xc1; 0x2e];
   DcsWrite [0xb0; 0x03]; DcsWrite [0xc0; 0x0f; 0x00; 0x00; 0x00; 0x13; 0x75; 0x81];
   DcsWrite [0xc1; 0x2e]; DcsWrite [0xb0; 0x03];
   DcsWrite [0xc0; 0x0f; 0x00; 0x00; 0x00; 0x13; 0x88; 0x81]; DcsWrite [0xf0; 0xa5; 0xa5];
   DcsWrite [0xf1; 0xa5; 0xa5]].
Definition compression : list dsi_cmd :=
  [DcsWrite [0xf0; 0x5a; 0x5a]; CompressionMode true; PictureParameterSet;
   DcsWrite [0xf0; 0xa5; 0xa5]].
Definition brightness_setting (brightness : Z) : list dsi_cmd :=
  [DcsWrite [0xf0; 0x5a; 0x5a]; DcsWrite [0x53; 0x28];
   DcsWrite [0x51; Z.shiftr brightness 8; Z.land brightness 0xff]; DcsWrite [0xf0; 0xa5; 0xa5]].
Definition power_on_pre_setting : list dsi_cmd :=
  slew_boosting_off ++ pm_en_disp_on_delay ++ sleep_out.
Definition power_on_setting (brightness : Z) : list dsi_cmd :=
  mx_ip_enable ++ tcon_intr_setting ++ te_on ++ tsp_sync_setting ++ compression ++ dia_setting
  ++ brightness_setting brightness ++ sp_setting ++ slew_boosting_on ++ [Sleep 100].

(** The format [%02x]. *)
Definition hex_digit (z : Z) : ascii :=
  ascii_of_nat (Z.to_nat (if z <? 10 then 48 + z else 87 + z)).
Definition hex2 (z : Z) : string :=
  String (hex_digit (z / 16)) (String (hex_digit (z mod 16)) EmptyString).
Definition format_cell_id (module_info : list Z) : string :=
  fold_right (fun n s => (hex2 (nth n module_info 0) ++ s)%string) EmptyString
    [4; 5; 6; 7; 8; 9; 10; 0; 1; 2; 3]%nat.

Section panel.
Context {W : Type} `{!PanelEnv W}.
Abbreviation M := (M (machine ana38407 W an_event)).

Definition msleep (ms : Z) : M unit := emit (AnSleep ms).
Definition reset_line (v : Z) : M unit := emit (AnResetLine v).
Definition lpm_of (d : ana38407) : bool := Z.land (mode_flags d) MIPI_DSI_MODE_LPM =? MIPI_DSI_MODE_LPM.
Definition set_lpm : M unit := mod_drv (fun d => d <| mode_flags ::= Z.lor MIPI_DSI_MODE_LPM |>).

(** *** The DSI helpers

    [mipi_dsi_dcs_write_buffer] and [mipi_dsi_generic_write]. *)
Definition mipi_dsi_write (bytes : list Z) : M Z :=
  d ← get_drv;
  ret ← ask (dsi_write bytes);
  emit (AnWrite (lpm_of d) bytes ret);;
  mret (if ret <? 0 then ret else 0).
(** A helper of the [_multi] family does nothing after the first error. *)
Definition multi1 (c : dsi_cmd) (accum_err : Z) : M Z :=
  if negb (accum_err =? 0) then mret accum_err
  else match c with
  | DcsWrite bytes => mipi_dsi_write bytes
  | CompressionMode enable =>
      ret ← ask (dsi_compression_mode enable); emit (AnCompression enable ret);;
      mret (if ret <? 0 then ret else 0)
  | PictureParameterSet =>
      ret ← ask dsi_picture_parameter_set; emit (AnPps ret);; mret (if ret <? 0 then ret else 0)
  | Sleep ms => msleep ms;; mret 0
  end.
Fixpoint multi (l : list dsi_cmd) (accum_err : Z) : M Z :=
  match l with
  | [] => mret accum_err
  | c :: l => accum_err ← multi1 c accum_err; multi l accum_err
  end.
Definition mipi_dsi_dcs_read (cmd len : Z) : M (Z * list Z) :=
  '(ret, buf) ← ask (dsi_dcs_read cmd len); emit (AnRead cmd len ret);; mret (ret, buf).
Definition mipi_dsi_dcs_set_display_brightness_large (brightness : Z) : M Z :=
  mipi_dsi_write [0x51; Z.shiftr brightness 8; Z.land brightness 0xff].

(** *** Power *)

Definition rails_on (l : list supply) : M unit := emit (AnRails l true).
Definition rails_off (l : list supply) : M unit := emit (AnRails l false).
Definition ana38407_power_on : M Z :=
  ret ← ask (regulator_enable vddio);
  if negb (ret =? 0) then mret ret
  else
    rails_on [vddio];;
    msleep 20;;
    ret ← ask (regulator_bulk_enable [vdd; vci; avdd]);
    if negb (ret =? 0) then (rails_off [vddio];; mret ret)
    else (rails_on [vdd; vci; avdd];; mret ret).
Definition ana38407_reset : M unit :=
  reset_line 1;; msleep 5;; reset_line 0;; msleep 10;; reset_line 1;; msleep 10.

(** *** Brightness and the fingerprint modes *)

Definition ana38407_write_brightness_locked (brightness : Z) : M Z :=
  d ← get_drv;
  mod_drv (fun d => d <| mode_flags := Z.land (mode_flags d) (Z.lnot MIPI_DSI_MODE_LPM) |>);;
  ret ← mipi_dsi_dcs_set_display_brightness_large brightness;
  mod_drv (fun d' => d' <| mode_flags := mode_flags d |>);;
  mret ret.

Definition fod_enter : list dsi_cmd :=
  [DcsWrite [0x53; 0xe0];
   DcsWrite [0x51; Z.shiftr ANA38407_FOD_BRIGHTNESS 8; Z.land ANA38407_FOD_BRIGHTNESS 0xff];
   DcsWrite [0xb0; 0x0a; 0xe0];
   DcsWrite [0xe0; 0x3c; 0xfd; 0xff; 0x15; 0x00; 0x00; 0x66; 0xcc; 0x00; 0xff; 0x12]].
Definition fod_leave (hi lo : Z) : list dsi_cmd :=
  [DcsWrite [0x53; 0x28]; DcsWrite [0x51; hi; lo]].
(** The bytes are [u8] variables of the driver. *)
Definition fod_sequence (d : ana38407) (enable : bool) : list dsi_cmd :=
  let brightness_hi := u8 (Z.shiftr (user_brightness d) 8) in
  let brightness_lo := u8 (Z.land (user_brightness d) 0xff) in
  [DcsWrite [0xf0; 0x5a; 0x5a]]
  ++ (if enable then fod_enter else fod_leave brightness_hi brightness_lo)
  ++ [DcsWrite [0xf0; 0xa5; 0xa5]].
Definition ana38407_write_fod_locked (enable : bool) : M Z :=
  d ← get_drv;
  set_lpm;;
  ret ← multi (fod_sequence d enable) 0;
  mod_drv (fun d' => d' <| mode_flags := mode_flags d |>);;
  mret ret.

Definition ana38407_generic_write (data : list Z) : M Z := mipi_dsi_write data.
Definition level2_unlock : list Z := [0xf1; 0x5a; 0x5a].
Definition level2_lock : list Z := [0xf1; 0xa5; 0xa5].
Definition circle_bytes (enable : bool) : list Z :=
  [0x7a; 0x05; 0x00; 0x00; if enable then 0x00 else 0x02].
Definition ana38407_write_fod_circle_locked (enable : bool) : M Z :=
  d ← get_drv;
  set_lpm;;
  ret ← (ana38407_generic_write level2_unlock ?; ana38407_generic_write (circle_bytes enable));
  lock_ret ← ana38407_generic_write level2_lock;
  mod_drv (fun d' => d' <| mode_flags := mode_flags d |>);;
  let ret := if ret =? 0 then lock_ret else ret in
  (if ret =? 0 then msleep ANA38407_FOD_SETTLE_MS else skip);;
  mret ret.

Definition ana38407_fod_cleanup_locked : M Z :=
  d ← get_drv;
  ret ← (if fod_circle d then
           tmp ← ana38407_write_fod_circle_locked false;
           mod_drv (fun d => d <| fod_circle := false |>);;
           mret tmp
         else mret 0);
  if fod_mode d then
    tmp ← ana38407_write_fod_locked false;
    mod_drv (fun d => d <| fod_mode := false |>);;
    mret (if ret =? 0 then tmp else ret)
  else mret ret.

Definition ana38407_fod_watchdog_work : M unit :=
  d ← get_drv;
  if prepared d && enabled d then ana38407_fod_cleanup_locked;; skip
  else mod_drv (fun d => d <| fod_circle := false |> <| fod_mode := false |>).

(** *** On and off *)

(** A byte of a buffer that was zero before the read. *)
Definition read_byte (cmd : Z) : M Z :=
  '(_, buf) ← mipi_dsi_dcs_read cmd 1; mret (u8 (nth 0 buf 0)).
Definition read_id : M unit :=
  id0 ← read_byte 0xda; id1 ← read_byte 0xdb; id2 ← read_byte 0xdc;
  mod_drv (fun d => d <| id := [id0; id1; id2] |>).
Definition read_cell_id (accum_err : Z) : M Z :=
  accum_err ← multi [DcsWrite [0xf0; 0x5a; 0x5a]] accum_err;
  '(module_info_len, module_info) ← mipi_dsi_dcs_read 0xa1 11;
  accum_err ← multi [DcsWrite [0xf0; 0xa5; 0xa5]] accum_err;
  mod_drv (fun d => d <| cell_id :=
    if module_info_len =? 11 then format_cell_id (map u8 module_info) else EmptyString |>);;
  mret accum_err.
Definition ana38407_on : M Z :=
  set_lpm;;
  accum_err ← multi power_on_pre_setting 0;
  read_id;;
  accum_err ← read_cell_id accum_err;
  d ← get_drv;
  multi (power_on_setting (user_brightness d)) accum_err.

Definition display_on : list dsi_cmd :=
  [DcsWrite [0xf0; 0x5a; 0x5a]; DcsWrite [0x29]; DcsWrite [0xf0; 0xa5; 0xa5]; Sleep 20].
Definition ana38407_enable : M Z :=
  d ← get_drv;
  if negb (prepared d) then mret (- EPIPE)
  else if enabled d then mret 0
  else
    set_lpm;;
    ret ← multi display_on 0;
    (if ret =? 0 then mod_drv (fun d => d <| enabled := true |>) else skip);;
    mret ret.

Definition or_else (ret cleanup_ret : Z) : Z := if ret =? 0 then cleanup_ret else ret.
(** [ana38407_disable] and [ana38407_unprepare] up to the unlock; what follows is
    [cancel_delayed_work_sync]. *)
Definition disable_locked : M Z :=
  d ← get_drv;
  if negb (enabled d) then mret 0
  else
    cleanup_ret ← ana38407_fod_cleanup_locked;
    set_lpm;;
    ret ← multi [DcsWrite [0x28]; Sleep 20] 0;
    mod_drv (fun d => d <| enabled := false |>);;
    mret (or_else ret cleanup_ret).
Definition cancel_fod_watchdog : M unit := emit AnDisarm.
Definition ana38407_disable : M Z := ret ← disable_locked; cancel_fod_watchdog;; mret ret.

Definition ana38407_sleep_in : M Z := set_lpm;; multi [DcsWrite [0x10]; Sleep 120] 0.
Definition ana38407_prepare : M Z :=
  d ← get_drv;
  if prepared d then mret 0
  else
    ana38407_power_on ?;
    (ana38407_reset;;
     ret ← ana38407_on;
     if negb (ret =? 0) then (reset_line 0;; rails_off ana38407_supplies;; mret ret)
     else (mod_drv (fun d => d <| prepared := true |>);; mret ret)).
Definition unprepare_locked : M Z :=
  d ← get_drv;
  if negb (prepared d) then mret 0
  else
    cleanup_ret ← ana38407_fod_cleanup_locked;
    ret ← ana38407_sleep_in;
    mod_drv (fun d => d <| enabled := false |> <| prepared := false |>);;
    reset_line 0;;
    rails_off ana38407_supplies;;
    mret (or_else ret cleanup_ret).
Definition ana38407_unprepare : M Z := ret ← unprepare_locked; cancel_fod_watchdog;; mret ret.

(** The first mode is the preferred one; the count of those added. *)
Fixpoint add_modes (l : list drm_display_mode) (first : bool) (count : Z) : M Z :=
  match l with
  | [] => mret count
  | m :: l =>
      ok ← ask (drm_mode_duplicate m);
      if negb ok then add_modes l false count
      else (emit (AnMode m first);; add_modes l false (count + 1))
  end.
Definition ana38407_get_modes : M Z := add_modes ana38407_modes true 0.

(** *** The backlight device and its attributes *)

(** [z]: [backlight_get_brightness]. *)
Definition ana38407_bl_update (z : Z) : M Z :=
  let brightness := Z.min (u16 z) ANA38407_MAX_BRIGHTNESS in
  mod_drv (fun d => d <| user_brightness := brightness |>);;
  d ← get_drv;
  if prepared d && negb (fod_mode d) then ana38407_write_brightness_locked brightness else mret 0.

Definition ana38407_update_fod_watchdog_locked : M unit :=
  d ← get_drv;
  if fod_mode d || fod_circle d then emit (AnArm ANA38407_FOD_WATCHDOG_MS) else cancel_fod_watchdog.

Definition count_or (ret count : Z) : Z := if ret =? 0 then count else ret.
(** [parsed]: what [kstrtobool] makes of the text written, or its error. *)
Definition fod_mode_store (parsed : Z + bool) (count : Z) : M Z :=
  match parsed with
  | inl ret => mret ret
  | inr enable =>
      d ← get_drv;
      if negb (prepared d) || negb (enabled d) then mret (- EPIPE)
      else if Bool.eqb (fod_mode d) enable then (ana38407_update_fod_watchdog_locked;; mret count)
      else if enable then
        ret ← ana38407_write_fod_locked true;
        if negb (ret =? 0) then (ana38407_write_fod_locked false;; mret ret)
        else
          mod_drv (fun d => d <| fod_mode := true |>);;
          ana38407_update_fod_watchdog_locked;;
          mret count
      else
        ret ← ana38407_fod_cleanup_locked;
        ana38407_update_fod_watchdog_locked;;
        mret (count_or ret count)
  end.
Definition fod_circle_store (parsed : Z + bool) (count : Z) : M Z :=
  match parsed with
  | inl ret => mret ret
  | inr enable =>
      d ← get_drv;
      if negb (prepared d) || negb (enabled d) then mret (- EPIPE)
      else if enable && negb (fod_mode d) then mret (- EINVAL)
      else if Bool.eqb (fod_circle d) enable then (ana38407_update_fod_watchdog_locked;; mret count)
      else
        ret ← ana38407_write_fod_circle_locked enable;
        (if ret =? 0 then mod_drv (fun d => d <| fod_circle := enable |>)
         else if enable then ana38407_write_fod_circle_locked false;; skip
         else skip);;
        ana38407_update_fod_watchdog_locked;;
        mret (count_or ret count)
  end.
Definition fod_mode_show : M bool := d ← get_drv; mret (fod_mode d).
Definition fod_circle_show : M bool := d ← get_drv; mret (fod_circle d).
Definition fod_ready_show : M bool := d ← get_drv; mret (prepared d && enabled d).
Definition fod_brightness_show : M Z := mret ANA38407_FOD_BRIGHTNESS.
(** The text, or the error. *)
Definition cell_id_show : M (Z + string) :=
  d ← get_drv; mret (if bool_decide (cell_id d = EmptyString) then inl (- ENODATA) else inr (cell_id d)).

(** *** Probe and remove *)

(** The answers of the kernel to [probe]: an error (negative) or 0. *)
Record an_probe := mkProbe {
  p_alloc : Z; p_supplies : Z; p_reset : Z; p_backlight : Z; p_group : Z; p_attach : Z
}.
Definition ana38407_dsc_config : M unit :=
  mod_drv (fun d => d <| dsc := Some ana38407_dsc_template |>).
Definition ana38407_probe (p : an_probe) : M Z :=
  if p_alloc p <? 0 then mret (p_alloc p)
  else if p_supplies p <? 0 then mret (p_supplies p)
  else if p_reset p <? 0 then mret (p_reset p)
  else
    reset_line 1;;
    mod_drv (fun d => d <| user_brightness := ANA38407_MAX_BRIGHTNESS |>
      <| mode_flags := Z.lor MIPI_DSI_MODE_LPM MIPI_DSI_CLOCK_NON_CONTINUOUS |>);;
    if p_backlight p <? 0 then mret (p_backlight p)
    else
      emit (AnGet Attributes (p_group p));;
      if negb (p_group p =? 0) then mret (p_group p)
      else
        emit (AnGet Panel 0);;
        ana38407_dsc_config;;
        emit (AnGet Dsi (p_attach p));;
        if p_attach p <? 0 then (emit (AnPut Panel);; emit (AnPut Attributes);; mret (p_attach p))
        else mret 0.
Definition ana38407_remove : M unit :=
  emit (AnPut Attributes);;
  cancel_fod_watchdog;;
  d ← get_drv;
  (if prepared d then ana38407_fod_cleanup_locked;; skip else skip);;
  ret ← ask mipi_dsi_detach;
  emit (AnPut Dsi);;
  emit (AnPut Panel).
End panel.

(** [devm_drm_panel_alloc]: the structure zeroed. *)
Definition alloc_ana38407 : ana38407 :=
  mkAna 0 0 false false false false [0; 0; 0] EmptyString None.
