(* ===== verification/Ana38407Props.v ===== *)
(** The properties of the panel driver: what the panel shows and what keeps the
    fingerprint mode short, over any interleaving of its users. *)
From Stdlib Require Import Ascii String.
From S2P Require Import Prelude Bus Ana38407.

(** ** The panel and the watchdog

    [failed]: a transfer has failed since the controller was last held in reset. *)
Record display := mkDisp {
  awake : bool; lit : bool; ctrl : option Z; bright : option Z; circle : bool;
  key0 : bool; key1 : bool; failed : bool
}.
#[export] Instance eta_display : Eta display := fun r =>
  mkDisp (awake r) (lit r) (ctrl r) (bright r) (circle r) (key0 r) (key1 r) (failed r).
Record panel_status := mkStatus { rails : list supply; armed : bool; shows : display }.
#[export] Instance eta_panel_status : Eta panel_status := fun r =>
  mkStatus (rails r) (armed r) (shows r).

(** A command as the controller takes it: sleep, display on and off, the display
    control and brightness registers, the two keys, the circle. *)
Definition dcs (d : display) (bytes : list Z) : display :=
  match bytes with
  | [c] =>
      if c =? 0x11 then d <| awake := true |>
      else if c =? 0x10 then d <| awake := false |>
      else if c =? 0x29 then d <| lit := true |>
      else if c =? 0x28 then d <| lit := false |>
      else d
  | [c; v] => if c =? 0x53 then d <| ctrl := Some v |> else d
  | [c; x; y] =>
      if c =? 0x51 then d <| bright := Some (x * 256 + y) |>
      else if c =? 0xf0 then d <| key0 := x =? 0x5a |>
      else if c =? 0xf1 then d <| key1 := x =? 0x5a |>
      else d
  | [c; _; _; _; v] => if c =? 0x7a then d <| circle := v =? 0 |> else d
  | _ => d
  end.
Definition in_reset : display := mkDisp false false None None false false false false.
Definition transfer (ret : Z) (f : display → display) (b : panel_status) : panel_status :=
  if ret <? 0 then b <| shows ::= fun d => d <| failed := true |> |> else b <| shows ::= f |>.
Definition watch (b : panel_status) (e : an_event) : panel_status :=
  match e with
  | AnWrite _ bytes ret => transfer ret (fun d => dcs d bytes) b
  | AnCompression _ ret | AnPps ret => transfer ret (fun d => d) b
  | AnRails l true => b <| rails ::= fun r => r ++ l |>
  | AnRails l false => b <| rails ::= filter (fun s => s ∉ l) |>
  | AnResetLine v => if v =? 0 then b <| shows := in_reset |> else b
  | AnArm _ => b <| armed := true |>
  | AnDisarm | AnExpire => b <| armed := false |>
  | _ => b
  end.
Definition fresh : panel_status := mkStatus [] false in_reset.

(** ** The users of the driver

    [leaving]: [ana38407_disable] or [ana38407_unprepare] is between its unlock
    and the end of [cancel_delayed_work_sync]; [due]: the watchdog expired and its
    work waits for the lock. *)
Inductive call :=
  | Prepare | Enable | Disable | Unprepare | GetModes
  | BlUpdate (brightness : Z)
  | FodMode (parsed : Z + bool) (count : Z)
  | FodCircle (parsed : Z + bool) (count : Z).
Inductive phase := Bound | Gone.
Record panel_sys (W : Type) := mkSys {
  mach : machine ana38407 W an_event; leaving : bool; due : bool; ph : phase
}.
Arguments mkSys {W}.
Arguments mach {W}.
Arguments leaving {W}.
Arguments due {W}.
Arguments ph {W}.

(** The DRM core's calls exclude one another. *)
Definition drm_call (c : call) : bool :=
  match c with Prepare | Enable | Disable | Unprepare | GetModes => true | _ => false end.
Definition ends_in_cancel (c : call) : bool :=
  match c with Disable | Unprepare => true | _ => false end.
Definition attribute_call (c : call) : bool :=
  match c with FodMode _ _ | FodCircle _ _ => true | _ => false end.
Definition allowed {W} (s : panel_sys W) (c : call) : bool :=
  match ph s with
  | Bound => negb (leaving s && drm_call c)
  | Gone => negb (drm_call c) && negb (attribute_call c)
  end.

Section users.
Context {W : Type} `{!PanelEnv W}.
Definition run_call (c : call) : M (machine ana38407 W an_event) Z :=
  match c with
  | Prepare => ana38407_prepare
  | Enable => ana38407_enable
  | Disable => disable_locked
  | Unprepare => unprepare_locked
  | GetModes => ana38407_get_modes
  | BlUpdate z => ana38407_bl_update z
  | FodMode p n => fod_mode_store p n
  | FodCircle p n => fod_circle_store p n
  end.

Inductive panel_step : panel_sys W → panel_sys W → Prop :=
  | StepCall s c ret m :
      allowed s c = true → run_call c (mach s) = Ret (ret, m) →
      panel_step s (mkSys m (leaving s || ends_in_cancel c) (due s) (ph s))
  | StepCancel s m :
      leaving s = true → due s = false → cancel_fod_watchdog (mach s) = Ret (tt, m) →
      panel_step s (mkSys m false false (ph s))
  | StepExpire s m :
      armed (audit watch fresh (log (mach s))) = true → emit AnExpire (mach s) = Ret (tt, m) →
      panel_step s (mkSys m (leaving s) true (ph s))
  | StepWork s m :
      due s = true → ana38407_fod_watchdog_work (mach s) = Ret (tt, m) →
      panel_step s (mkSys m (leaving s) false (ph s))
  | StepRemove s m :
      ph s = Bound → leaving s = false → due s = false → ana38407_remove (mach s) = Ret (tt, m) →
      panel_step s (mkSys m false false Gone).
Inductive panel_start : panel_sys W → Prop :=
  | StartBound p w m :
      ana38407_probe p (mkM alloc_ana38407 w []) = Ret (0, m) →
      panel_start (mkSys m false false Bound).
End users.

(** ** The invariant *)

(** What the registers hold when nothing failed. *)
Definition shown (d : ana38407) : display :=
  mkDisp true (enabled d) (Some (if fod_mode d then 0xe0 else 0x28))
    (Some (if fod_mode d then ANA38407_FOD_BRIGHTNESS else user_brightness d))
    (fod_circle d) false false false.
Definition faithful (d : ana38407) (x : display) : Prop := failed x = false → x = shown d.
Definition probe_flags : Z := Z.lor MIPI_DSI_MODE_LPM MIPI_DSI_CLOCK_NON_CONTINUOUS.
Definition nested (d : ana38407) : Prop :=
  (fod_circle d = true → fod_mode d = true) ∧ (fod_mode d = true → enabled d = true)
  ∧ (enabled d = true → prepared d = true).
Definition tidy (d : ana38407) (b : panel_status) : Prop :=
  mode_flags d = probe_flags ∧ 0 <= user_brightness d <= ANA38407_MAX_BRIGHTNESS
  ∧ nested d ∧ rails b = (if prepared d then ana38407_supplies else [])
  ∧ (prepared d = true → faithful d (shows b)).

(** ** Transfers *)

Definition cmd_effect (x : display) (c : dsi_cmd) : display :=
  match c with DcsWrite bytes => dcs x bytes | _ => x end.
(** A transfer with effect [f] on the controller, unless something failed. *)
Definition sent (f : display → display) (d : ana38407) (b : panel_status)
    (r : Z) (d' : ana38407) (b' : panel_status) : Prop :=
  d' = d ∧ rails b' = rails b ∧ armed b' = armed b
  ∧ (failed (shows b') = false → failed (shows b) = false ∧ r = 0 ∧ shows b' = f (shows b)).

Lemma dcs_failed x bytes : failed (dcs x bytes) = failed x.
Proof.
  unfold dcs. repeat match goal with
  | |- context [match ?l with _ => _ end] => is_var l; destruct l
  | |- context [if ?c then _ else _] => destruct c
  end; reflexivity.
Qed.
Lemma dsi_word b : 0 <= b <= ANA38407_MAX_BRIGHTNESS → Z.shiftr b 8 * 256 + Z.land b 0xff = b.
Proof.
  intros ?. change 0xff with (Z.ones 8). rewrite Z.shiftr_div_pow2, Z.land_ones by lia.
  change (2 ^ 8) with 256. pose proof (Z.div_mod b 256). lia.
Qed.
Lemma dsi_word_u8 b : 0 <= b <= ANA38407_MAX_BRIGHTNESS →
  u8 (Z.shiftr b 8) * 256 + u8 (Z.land b 0xff) = b.
Proof.
  unfold ANA38407_MAX_BRIGHTNESS, u8. intros Hb.
  change 0xff with (Z.ones 8). rewrite Z.shiftr_div_pow2, Z.land_ones by lia.
  change (2 ^ 8) with 256. pose proof (Z.mod_pos_bound b 256).
  pose proof (Z.div_mod b 256). rewrite (Z.mod_small (b / 256)), (Z.mod_small (b mod 256)); lia.
Qed.

Section transfers.
Context {W : Type} `{!PanelEnv W}.
Abbreviation vc := (vc (W := W) (E := an_event) watch fresh).

Lemma transfer_sent ret f d b :
  (∀ x, failed (f x) = failed x) →
  sent f d b (if ret <? 0 then ret else 0) d (transfer ret f b).
Proof.
  intros Hf. unfold transfer. split; [done|]. destruct (ret <? 0) eqn:Hr; cbn.
  - split_and!; [done..|]. discriminate.
  - rewrite Hf. by split_and!.
Qed.
Lemma panel_write_spec bytes d b : vc (mipi_dsi_write bytes) (sent (fun x => dcs x bytes) d b) d b.
Proof.
  unfold mipi_dsi_write. apply vc_bind, vc_drv, vc_bind, vc_ask. intros ret.
  apply vc_bind, vc_emit, vc_ret. apply transfer_sent. intros x. apply dcs_failed.
Qed.
Lemma multi1_spec c d b : vc (multi1 c 0) (sent (fun x => cmd_effect x c) d b) d b.
Proof.
  destruct c; unfold multi1; cbn [Z.eqb negb cmd_effect].
  - apply panel_write_spec.
  - apply vc_bind, vc_ask. intros ret. apply vc_bind, vc_emit, vc_ret. by apply transfer_sent.
  - apply vc_bind, vc_ask. intros ret. apply vc_bind, vc_emit, vc_ret. by apply transfer_sent.
  - apply vc_bind, vc_emit, vc_ret. by split_and!.
Qed.
Lemma multi_stops l err d b : err ≠ 0 → vc (multi l err) (fun r d' b' => r = err ∧ d' = d ∧ b' = b) d b.
Proof.
  intros He. induction l as [|c l IH]; cbn [multi]; [by apply vc_ret|].
  apply vc_bind. unfold multi1. rewrite (proj2 (Z.eqb_neq err 0) He). apply vc_ret, IH.
Qed.
(** Whatever the earlier transfers did. *)
Definition went_well (err : Z) (b : panel_status) : Prop := failed (shows b) = false → err = 0.
Lemma multi_spec l err d b :
  went_well err b →
  vc (multi l err) (sent (fun x => foldl cmd_effect x l) d b) d b.
Proof.
  intros He. destruct (Z.eq_dec err 0) as [->|Hne]; cycle 1.
  { eapply vc_mono; [by apply multi_stops|]. intros r d' b' (-> & -> & ->).
    split_and!; [done..|]. intros Hf. by destruct Hne; apply He. }
  clear He. revert d b. induction l as [|c l IH]; intros d b; cbn [multi].
  { apply vc_ret. by split_and!. }
  eapply vc_call; [apply multi1_spec|]. intros r d1 b1 (-> & Hr & Ha & H1).
  destruct (Z.eq_dec r 0) as [->|Hne].
  - eapply vc_mono; [apply IH|]. intros r2 d2 b2 (-> & Hr2 & Ha2 & H2).
    split_and!; [done|congruence..|]. intros Hf. destruct (H2 Hf) as (Hf1 & -> & ->).
    destruct (H1 Hf1) as (? & _ & ->). by split_and!.
  - eapply vc_mono; [by apply multi_stops|]. intros r2 d2 b2 (-> & -> & ->).
    split_and!; [done..|]. intros Hf. by destruct (H1 Hf) as (_ & ? & _).
Qed.

(** The mode flags during a transfer do not matter. *)
Lemma flagged_spec f g (c : M (machine ana38407 W an_event) Z) d b :
  (∀ d b, vc c (sent f d b) d b) →
  vc (mod_drv g;; ret ← c; mod_drv (fun d' => d' <| mode_flags := mode_flags d |>);; mret ret)
    (sent f ((g d) <| mode_flags := mode_flags d |>) b) d b.
Proof.
  intros Hc. apply vc_bind, vc_mod. eapply vc_call; [apply Hc|].
  intros r d1 b1 (-> & H1). apply vc_bind, vc_mod, vc_ret. split; [reflexivity|exact H1].
Qed.
Lemma brightness_spec z d b :
  vc (ana38407_write_brightness_locked z)
    (sent (fun x => dcs x [0x51; Z.shiftr z 8; Z.land z 0xff]) d b) d b.
Proof.
  unfold ana38407_write_brightness_locked. apply vc_bind, vc_drv.
  eapply vc_mono; [apply (flagged_spec (fun x => dcs x [0x51; Z.shiftr z 8; Z.land z 0xff])); intros; apply panel_write_spec|].
  intros r d' b' H. by destruct d.
Qed.
Lemma fod_spec enable d b :
  vc (ana38407_write_fod_locked enable)
    (sent (fun x => foldl cmd_effect x (fod_sequence d enable)) d b) d b.
Proof.
  unfold ana38407_write_fod_locked. apply vc_bind, vc_drv.
  eapply vc_mono; [apply (flagged_spec (fun x => foldl cmd_effect x (fod_sequence d enable))); intros; by apply multi_spec|].
  intros r d' b' H. by destruct d.
Qed.
Definition circle_effect (enable : bool) (x : display) : display :=
  dcs (dcs (dcs x level2_unlock) (circle_bytes enable)) level2_lock.
Lemma circle_spec enable d b :
  vc (ana38407_write_fod_circle_locked enable) (sent (circle_effect enable) d b) d b.
Proof.
  unfold ana38407_write_fod_circle_locked, ana38407_generic_write, set_lpm.
  apply vc_bind, vc_drv, vc_bind, vc_mod.
  lazymatch goal with |- vc _ _ ?x _ => set (d0 := x) end.
  assert (d0 <| mode_flags := mode_flags d |> = d) as Hd by by destruct d.
  eapply vc_call with (P := fun r d' b' => d' = d0 ∧ rails b' = rails b ∧ armed b' = armed b
    ∧ (failed (shows b') = false → failed (shows b) = false ∧ r = 0
       ∧ shows b' = dcs (dcs (shows b) level2_unlock) (circle_bytes enable))).
  { apply vc_nz. eapply vc_mono; [apply panel_write_spec|]. intros r d1 b1 (-> & Hr & Ha & H1).
    destruct (Z.eqb_spec r 0) as [->|Hne]; cycle 1.
    { split_and!; [done..|]. intros Hf. by destruct (H1 Hf) as (_ & ? & _). }
    eapply vc_mono; [apply panel_write_spec|]. intros r2 d2 b2 (-> & Hr2 & Ha2 & H2).
    split_and!; [done|congruence..|]. intros Hf. destruct (H2 Hf) as (Hf1 & -> & ->).
    destruct (H1 Hf1) as (? & _ & ->). by split_and!. }
  intros r d1 b1 (-> & Hr & Ha & H1). eapply vc_call; [apply panel_write_spec|].
  intros r2 d2 b2 (-> & Hr2 & Ha2 & H2). apply vc_bind, vc_mod. cbv zeta. rewrite Hd.
  assert (sent (circle_effect enable) d b (if r =? 0 then r2 else r) d b2) as Hs.
  { split_and!; [done|congruence..|]. intros Hf. destruct (H2 Hf) as (Hf1 & -> & ->).
    destruct (H1 Hf1) as (? & -> & ->). by split_and!. }
  apply vc_bind. revert Hs. generalize (if r =? 0 then r2 else r). intros x Hs.
  destruct (x =? 0); [apply vc_emit|apply vc_skip]; by apply vc_ret.
Qed.
End transfers.

(** ** The calls keep the invariant *)

(** [u]: the watchdog's work is due. *)
Definition guarded (u : bool) (d : ana38407) (b : panel_status) : Prop :=
  tidy d b ∧ (fod_mode d = true → armed b = true ∨ u = true).
Definition no_fod (d : ana38407) : ana38407 := d <| fod_circle := false |> <| fod_mode := false |>.

(** The five parts of [tidy]. *)
Ltac tidy_split := split; [|split; [|split; [|split]]].

Lemma lpm_kept d : mode_flags d = probe_flags →
  d <| mode_flags ::= Z.lor MIPI_DSI_MODE_LPM |> = d.
Proof. destruct d. cbn. by intros ->. Qed.

Section calls.
Context {W : Type} `{!PanelEnv W}.
Abbreviation vc := (vc (W := W) (E := an_event) watch fresh).

Lemma cleanup_spec d b :
  tidy d b → prepared d = true →
  vc ana38407_fod_cleanup_locked (fun _ d' b' => d' = no_fod d ∧ tidy d' b' ∧ armed b' = armed b) d b.
Proof.
  intros (Hf & Hb & (Hn1 & Hn2 & Hn3) & Hr & Hs) Hp. specialize (Hs Hp).
  unfold ana38407_fod_cleanup_locked. apply vc_bind, vc_drv.
  eapply vc_call with (P := fun _ d' b' => d' = d <| fod_circle := false |> ∧ rails b' = rails b
    ∧ armed b' = armed b ∧ (failed (shows b') = false → failed (shows b) = false
       ∧ shows b' = (shown d) <| circle := false |>)).
  { destruct (fod_circle d) eqn:Hc.
    - eapply vc_call; [apply circle_spec|]. intros r d1 b1 (-> & Hr1 & Ha1 & H1).
      apply vc_bind, vc_mod, vc_ret. split_and!; [done..|]. intros Hf1.
      destruct (H1 Hf1) as (Hf0 & _ & ->). split; [done|]. by rewrite (Hs Hf0).
    - apply vc_ret. split_and!; [by destruct d; cbn in *; subst|done..|]. intros Hf0. split; [done|].
      rewrite (Hs Hf0). unfold shown. by rewrite Hc. }
  intros ret d1 b1 (-> & Hr1 & Ha1 & H1).
  assert (∀ b2, rails b2 = rails b1 → armed b2 = armed b1 →
    (failed (shows b2) = false → shows b2 = shown (no_fod d)) →
    no_fod d = no_fod d ∧ tidy (no_fod d) b2 ∧ armed b2 = armed b) as Hend.
  { intros b2 Hr2 Ha2 H2. split_and!; [done| |congruence]. tidy_split; [done|apply Hb| |cbn; congruence|].
    - split_and!; [done| |]; cbn; auto. done.
    - intros _ Hf2. by apply H2. }
  cbn [fod_mode over_field]. destruct (fod_mode d) eqn:Hm.
  - eapply vc_call; [apply fod_spec|]. intros r d2 b2 (-> & Hr2 & Ha2 & H2).
    apply vc_bind, vc_mod, vc_ret. apply Hend; [done..|]. intros Hf2.
    destruct (H2 Hf2) as (Hf1 & _ & ->). destruct (H1 Hf1) as (_ & ->).
    unfold shown. cbn. by rewrite dsi_word_u8.
  - apply vc_ret. destruct (Hend b1) as (_ & Ht & Ha); [done..| |].
    { intros Hf1. destruct (H1 Hf1) as (_ & ->). unfold shown, no_fod. cbn. by rewrite Hm. }
    assert (no_fod d = d <| fod_circle := false |>) as <- by (destruct d; cbn in *; by subst).
    split_and!; [done|exact Ht|exact Ha].
Qed.

(** The controller after the power-on sequence. *)
Definition after_on (d : ana38407) : display :=
  shown (d <| enabled := false |> <| fod_mode := false |> <| fod_circle := false |>).
Definition same_but_ids (d d' : ana38407) : Prop :=
  ∃ i c, d' = d <| id := i |> <| cell_id := c |>.
Lemma reads_spec d b :
  vc read_id (fun _ d' b' => same_but_ids d d' ∧ b' = b) d b.
Proof.
  unfold read_id, read_byte, mipi_dsi_dcs_read.
  do 3 (apply vc_bind, vc_bind, vc_bind, vc_ask; intros [? ?]; apply vc_bind, vc_emit, vc_ret, vc_ret).
  apply vc_mod. split; [|done].
  exists [u8 (nth 0 l 0); u8 (nth 0 l0 0); u8 (nth 0 l1 0)], (cell_id d). by destruct d.
Qed.
Lemma panel_on_spec d b :
  mode_flags d = probe_flags → 0 <= user_brightness d <= ANA38407_MAX_BRIGHTNESS →
  shows b = in_reset →
  vc ana38407_on (fun r d' b' => same_but_ids d d' ∧ rails b' = rails b ∧ armed b' = armed b
    ∧ (failed (shows b') = false → r = 0 ∧ shows b' = after_on d)) d b.
Proof.
  intros Hf Hb Hs. unfold ana38407_on, set_lpm. apply vc_bind, vc_mod. rewrite lpm_kept by done.
  eapply vc_call; [by apply multi_spec|]. intros r d1 b1 (-> & Hr1 & Ha1 & H1).
  eapply vc_call; [apply reads_spec|]. intros [] d1 b2 [(i & c & ->) ->].
  unfold read_cell_id, mipi_dsi_dcs_read. apply vc_bind.
  eapply vc_call; [by apply multi_spec; intros Hx; apply H1|]. intros r2 d2 b2 (-> & Hr2 & Ha2 & H2).
  apply vc_bind, vc_bind, vc_ask. intros [len info]. apply vc_bind, vc_emit, vc_ret. cbn [watch].
  eapply vc_call; [by apply multi_spec; intros Hx; apply H2|]. intros r3 d3 b3 (-> & Hr3 & Ha3 & H3).
  apply vc_bind, vc_mod, vc_ret, vc_bind, vc_drv.
  eapply vc_mono; [by apply multi_spec; intros Hx; apply H3|]. intros r4 d4 b4 (-> & Hr4 & Ha4 & H4).
  split_and!; [exists i, (if len =? 11 then format_cell_id (map u8 info) else EmptyString); by destruct d|congruence..|]. intros Hx.
  destruct (H4 Hx) as (Hf3 & -> & ->). destruct (H3 Hf3) as (Hf2 & _ & ->).
  destruct (H2 Hf2) as (Hf1 & _ & ->). destruct (H1 Hf1) as (_ & _ & ->). split; [done|].
  rewrite Hs. vm_compute dcs. cbn [user_brightness over_field]. unfold after_on, shown. cbn.
  by rewrite dsi_word.
Qed.

(** What a call leaves, but for the panel's own [enable]. *)
Definition kept (u : bool) (d d' : ana38407) (b' : panel_status) : Prop :=
  guarded u d' b' ∧ (enabled d' = true → enabled d = true).
Definition dark (u : bool) (d' : ana38407) (b' : panel_status) : Prop :=
  guarded u d' b' ∧ enabled d' = false.
Lemma kept_refl u d b : guarded u d b → kept u d d b.
Proof. by split. Qed.
Lemma dark_kept u d d' b' : dark u d' b' → kept u d d' b'.
Proof. intros [? He]. split; [done|]. by rewrite He. Qed.
(** The structure is as it was and so is what is around the controller. *)
Lemma guarded_same u d b b' :
  guarded u d b → rails b' = rails b → armed b' = armed b →
  (prepared d = true → faithful d (shows b')) → guarded u d b'.
Proof.
  intros [(? & ? & ? & Hr & _) Hg] Hr' Ha Hs. split; [|by rewrite Ha].
  tidy_split; [done..|congruence|done].
Qed.
Lemma guarded_no_fod u d b : tidy d b → fod_mode d = false → guarded u d b.
Proof. intros ? Hm. split; [done|]. by rewrite Hm. Qed.
Lemma tidy_no_fod d b : tidy d b → fod_mode d = false → fod_circle d = false.
Proof. intros (_ & _ & [Hc _] & _) Hm. destruct (fod_circle d); [|done]. rewrite <-Hm. symmetry. by apply Hc. Qed.

Lemma panel_disable_spec u d b : guarded u d b → vc disable_locked (fun _ => dark u) d b.
Proof.
  intros Hg. pose proof Hg as [Ht _]. unfold disable_locked, set_lpm. apply vc_bind, vc_drv.
  destruct (enabled d) eqn:He; cbn [negb]; [|by apply vc_ret].
  pose proof Ht as (Hf & Hb & (_ & _ & Hp) & _). specialize (Hp He).
  eapply vc_call; [by apply cleanup_spec|]. intros r d1 b1 (-> & Ht1 & Ha1).
  apply vc_bind, vc_mod. rewrite lpm_kept by done.
  eapply vc_call; [by apply multi_spec|]. intros r2 d2 b2 (-> & Hr2 & Ha2 & H2).
  apply vc_bind, vc_mod, vc_ret. split; [|done]. apply guarded_no_fod; [|done].
  destruct Ht1 as (_ & _ & _ & Hr1 & Hs1). tidy_split; [done|apply Hb|by split_and!| |].
  - cbn in *. congruence.
  - intros _ Hx. destruct (H2 Hx) as (Hx1 & _ & ->). by rewrite (Hs1 Hp Hx1).
Qed.
Lemma unprepare_spec u d b : guarded u d b → vc unprepare_locked (fun _ => dark u) d b.
Proof.
  intros Hg. pose proof Hg as [Ht _]. unfold unprepare_locked, ana38407_sleep_in, set_lpm.
  apply vc_bind, vc_drv. pose proof Ht as (Hf & Hb & (_ & _ & Hep) & _).
  destruct (prepared d) eqn:Hp; cbn [negb]; cycle 1.
  { apply vc_ret. split; [done|]. destruct (enabled d); [by discriminate Hep|done]. }
  eapply vc_call; [by apply cleanup_spec|]. intros r d1 b1 (-> & Ht1 & Ha1).
  apply vc_bind, vc_bind, vc_mod. rewrite lpm_kept by done.
  eapply vc_mono; [by apply multi_spec|]. intros r2 d2 b2 (-> & Hr2 & Ha2 & H2).
  apply vc_bind, vc_mod, vc_bind, vc_emit, vc_bind, vc_emit, vc_ret. split; [|done].
  apply guarded_no_fod; [|done]. destruct Ht1 as (_ & _ & _ & Hr1 & _).
  tidy_split; [done|apply Hb|by split_and!| |done].
  cbn in *. rewrite Hr2, Hr1, Hp. reflexivity.
Qed.
Lemma panel_power_on_spec d b :
  rails b = [] →
  vc ana38407_power_on (fun r d' b' => d' = d ∧ armed b' = armed b ∧ shows b' = shows b
    ∧ rails b' = (if r =? 0 then ana38407_supplies else [])) d b.
Proof.
  intros Hr. unfold ana38407_power_on. apply vc_bind, vc_ask. intros ret.
  destruct (Z.eqb_spec ret 0) as [->|Hne]; cbn [negb]; cycle 1.
  { apply vc_ret. by rewrite (proj2 (Z.eqb_neq ret 0) Hne). }
  apply vc_bind, vc_emit, vc_bind, vc_emit, vc_bind, vc_ask. intros ret.
  destruct (ret =? 0) eqn:E; cbn [negb]; apply vc_bind, vc_emit, vc_ret; rewrite E; cbn; by rewrite Hr.
Qed.
Lemma panel_prepare_spec u d b : guarded u d b → vc ana38407_prepare (fun _ => kept u d) d b.
Proof.
  intros Hg. pose proof Hg as [(Hf & Hb & Hn & Hr & _) _]. unfold ana38407_prepare.
  apply vc_bind, vc_drv. destruct (prepared d) eqn:Hp; [by apply vc_ret, kept_refl|].
  assert (enabled d = false ∧ fod_mode d = false ∧ fod_circle d = false) as (He & Hm & Hc).
  { destruct Hn as (Hn1 & Hn2 & Hn3). rewrite Hp in Hn3.
    destruct (enabled d); [by discriminate Hn3|]. destruct (fod_mode d); [by discriminate Hn2|].
    destruct (fod_circle d); [by discriminate Hn1|]. done. }
  assert (∀ i c b', rails b' = [] → armed b' = armed b →
    kept u d (d <| id := i |> <| cell_id := c |>) b') as Hback.
  { intros i c b' Hr' Ha'. split; [|done]. apply guarded_no_fod; [|done].
    tidy_split; [done|apply Hb|apply Hn|cbn; by rewrite Hp|cbn; congruence]. }
  apply vc_nz. eapply vc_mono; [by apply panel_power_on_spec|]. intros r d1 b1 (-> & Ha1 & Hs1 & Hr1).
  destruct (r =? 0) eqn:E; cycle 1.
  { replace d with (d <| id := id d |> <| cell_id := cell_id d |>) at 2 by by destruct d.
    by apply Hback. }
  unfold ana38407_reset. apply vc_bind. do 5 apply vc_bind, vc_emit. apply vc_emit. cbn [watch].
  eapply vc_call; [by apply panel_on_spec|]. intros r2 d2 b2 ((i & c & ->) & Hr2 & Ha2 & H2).
  destruct (r2 =? 0); cbn [negb].
  - apply vc_bind, vc_mod, vc_ret. split; [|done]. apply guarded_no_fod; [|done].
    tidy_split; [done|apply Hb|split_and!; cbn; congruence|cbn in *; congruence|].
    intros _ Hx. destruct (H2 Hx) as (_ & ->). unfold after_on, shown. cbn. by rewrite He, Hm, Hc.
  - apply vc_bind, vc_emit, vc_bind, vc_emit, vc_ret. apply Hback; cbn in *; [|congruence].
    rewrite Hr2, Hr1. reflexivity.
Qed.
Lemma enable_spec u d b : guarded u d b → vc ana38407_enable (fun _ => guarded u) d b.
Proof.
  intros Hg. pose proof Hg as [(Hf & Hb & Hn & Hr & Hs) Hw]. unfold ana38407_enable, set_lpm.
  apply vc_bind, vc_drv. destruct (prepared d) eqn:Hp; cbn [negb]; [|by apply vc_ret].
  destruct (enabled d) eqn:He; [by apply vc_ret|].
  apply vc_bind, vc_mod. rewrite lpm_kept by done.
  eapply vc_call; [by apply multi_spec|]. intros r d1 b1 (-> & Hr1 & Ha1 & H1).
  apply vc_bind. destruct (Z.eqb_spec r 0) as [->|Hne].
  - apply vc_mod, vc_ret. split; [|cbn; by rewrite Ha1]. tidy_split; [done|apply Hb| |cbn; by rewrite Hr1, Hp|].
    + destruct Hn as (? & ? & ?). by split_and!.
    + intros _ Hx. destruct (H1 Hx) as (Hx0 & _ & ->). by rewrite (Hs eq_refl Hx0).
  - apply vc_skip, vc_ret. apply (guarded_same u d b); [done..|]. intros _ Hx.
    by destruct (H1 Hx) as (_ & ? & _).
Qed.
Lemma bl_update_spec z u d b : guarded u d b → vc (ana38407_bl_update z) (fun _ => kept u d) d b.
Proof.
  intros [(Hf & Hb & Hn & Hr & Hs) Hw]. unfold ana38407_bl_update. cbv zeta.
  set (v := Z.min _ _).
  assert (0 <= v <= ANA38407_MAX_BRIGHTNESS) as Hv.
  { subst v. pose proof (Z.mod_pos_bound z 65536). unfold u16, ANA38407_MAX_BRIGHTNESS. lia. }
  clearbody v. apply vc_bind, vc_mod, vc_bind, vc_drv. cbn [prepared fod_mode over_field].
  assert (∀ b', rails b' = rails b → armed b' = armed b →
    (prepared d = true → faithful (d <| user_brightness := v |>) (shows b')) →
    kept u d (d <| user_brightness := v |>) b') as Hend.
  { intros b' Hr' Ha' Hs'. split; [|done]. split; [|cbn; by rewrite Ha'].
    tidy_split; [done|apply Hv|done|cbn; by rewrite Hr'|done]. }
  destruct (prepared d) eqn:Hp; cbn [andb]; [|by apply vc_ret, Hend].
  destruct (fod_mode d) eqn:Hm; cbn [negb].
  - apply vc_ret, Hend; [done..|]. intros _ Hx. rewrite (Hs eq_refl Hx). unfold shown. cbn. by rewrite Hm.
  - eapply vc_mono; [apply brightness_spec|]. intros r d1 b1 (-> & Hr1 & Ha1 & H1).
    apply Hend; [done..|]. intros _ Hx. destruct (H1 Hx) as (Hx0 & _ & ->).
    rewrite (Hs eq_refl Hx0). unfold shown, dcs. cbn [Z.eqb Pos.eqb]. rewrite dsi_word by done.
    cbn. by rewrite Hm.
Qed.
Lemma update_watchdog_spec {A} (a : A) u d b :
  tidy d b → vc (ana38407_update_fod_watchdog_locked;; mret a) (fun _ => kept u d) d b.
Proof.
  intros Ht. pose proof (tidy_no_fod d b Ht) as Hc.
  unfold ana38407_update_fod_watchdog_locked, cancel_fod_watchdog. apply vc_bind, vc_bind, vc_drv.
  destruct (fod_mode d) eqn:Hm; [|rewrite (Hc eq_refl)]; cbn [orb];
    apply vc_emit, vc_ret, kept_refl; (split; [exact Ht|]); cbn; [by left|congruence].
Qed.
Lemma fod_mode_spec p n u d b : guarded u d b → vc (fod_mode_store p n) (fun _ => kept u d) d b.
Proof.
  intros Hg. pose proof Hg as [Ht Hw]. pose proof Ht as (Hf & Hb & Hn & Hr & Hs).
  unfold fod_mode_store. destruct p as [ret|enable]; [by apply vc_ret, kept_refl|].
  apply vc_bind, vc_drv. destruct (prepared d) eqn:Hp; cbn [negb orb]; [|by apply vc_ret, kept_refl].
  destruct (enabled d) eqn:He; cbn [negb]; [|by apply vc_ret, kept_refl].
  destruct (Bool.eqb (fod_mode d) enable) eqn:Hq; [by apply update_watchdog_spec|].
  destruct enable.
  - eapply vc_call; [apply fod_spec|]. intros r d1 b1 (-> & Hr1 & Ha1 & H1).
    assert (fod_mode d = false) as Hm by by destruct (fod_mode d).
    pose proof (tidy_no_fod d b Ht Hm) as Hc.
    destruct (Z.eqb_spec r 0) as [->|Hne]; cbn [negb].
    + apply vc_bind, vc_mod. eapply vc_mono; [by apply update_watchdog_spec; tidy_split;
        [|apply Hb|by destruct Hn as (? & ? & ?); split_and!|cbn; by rewrite Hr1, Hp|
         intros _ Hx; destruct (H1 Hx) as (Hx0 & _ & ->); rewrite (Hs eq_refl Hx0); unfold shown;
         cbn; by rewrite Hc]|].
      intros r d2 b2 [Hg2 He2]. by split.
    + eapply vc_call; [apply fod_spec|]. intros r2 d2 b2 (-> & Hr2 & Ha2 & H2). apply vc_ret, kept_refl.
      apply (guarded_same u d b); [done|congruence..|]. intros _ Hx.
      destruct (H2 Hx) as (Hx1 & _). by destruct (H1 Hx1) as (_ & ? & _).
  - eapply vc_call; [by apply cleanup_spec|]. intros r d1 b1 (-> & Ht1 & Ha1).
    eapply vc_mono; [by apply update_watchdog_spec|]. intros r1 d2 b2 [Hg2 He2]. by split.
Qed.
Lemma fod_circle_spec p n u d b : guarded u d b → vc (fod_circle_store p n) (fun _ => kept u d) d b.
Proof.
  intros Hg. pose proof Hg as [Ht Hw]. pose proof Ht as (Hf & Hb & Hn & Hr & Hs).
  unfold fod_circle_store. destruct p as [ret|enable]; [by apply vc_ret, kept_refl|].
  apply vc_bind, vc_drv. destruct (prepared d) eqn:Hp; cbn [negb orb]; [|by apply vc_ret, kept_refl].
  destruct (enabled d) eqn:He; cbn [negb]; [|by apply vc_ret, kept_refl].
  destruct (enable && negb (fod_mode d)) eqn:Hm; [by apply vc_ret, kept_refl|].
  destruct (Bool.eqb (fod_circle d) enable) eqn:Hq; [by apply update_watchdog_spec|].
  eapply vc_call; [apply circle_spec|]. intros r d1 b1 (-> & Hr1 & Ha1 & H1).
  destruct (Z.eqb_spec r 0) as [->|Hne].
  - apply vc_bind, vc_mod. eapply vc_mono; [apply (update_watchdog_spec _ u)|].
    2: { intros r d2 b2 [Hg2 He2]. by split. }
    tidy_split; [done|apply Hb| |cbn; by rewrite Hr1, Hp|].
    + destruct Hn as (? & ? & ?). split_and!; [|done..]. cbn. intros ->. by destruct (fod_mode d).
    + intros _ Hx. destruct (H1 Hx) as (Hx0 & _ & ->). rewrite (Hs eq_refl Hx0).
      by destruct enable, d.
  - assert (∀ b2, rails b2 = rails b1 → armed b2 = armed b1 →
      (failed (shows b2) = false → failed (shows b1) = false) →
      tidy d b2) as Hend.
    { intros b2 Hr2 Ha2 H2. tidy_split; [done|apply Hb|done|by rewrite Hr2, Hr1, Hr, Hp|].
      intros _ Hx. by destruct (H1 (H2 Hx)) as (_ & ? & _). }
    destruct enable.
    + apply vc_bind, vc_bind. eapply vc_mono; [apply circle_spec|].
      intros r2 d2 b2 (-> & Hr2 & Ha2 & H2). apply vc_skip, update_watchdog_spec, Hend; [done..|].
      intros Hx. by destruct (H2 Hx).
    + apply vc_bind, vc_skip, update_watchdog_spec. by apply Hend.
Qed.
Lemma get_modes_spec u d b : guarded u d b → vc ana38407_get_modes (fun _ => kept u d) d b.
Proof.
  intros Hg. unfold ana38407_get_modes. generalize true 0. induction ana38407_modes as [|m l IH];
    intros first n; cbn [add_modes]; [by apply vc_ret, kept_refl|].
  apply vc_bind, vc_ask. intros []; cbn [negb]; [apply vc_bind, vc_emit|]; apply IH.
Qed.
(** The work, and [remove], end the fingerprint mode whatever fails. *)
Definition ended (u : bool) (d' : ana38407) (b' : panel_status) : Prop :=
  guarded u d' b' ∧ fod_mode d' = false ∧ fod_circle d' = false.
Lemma work_spec u d b :
  guarded true d b →
  vc ana38407_fod_watchdog_work (fun _ d' b' => ended u d' b' ∧ enabled d' = enabled d) d b.
Proof.
  intros [Ht Hw]. pose proof Ht as (Hf & Hb & Hn & Hr & Hs). unfold ana38407_fod_watchdog_work.
  apply vc_bind, vc_drv. destruct (prepared d) eqn:Hp, (enabled d) eqn:He; cbn [andb].
  { eapply vc_call; [by apply cleanup_spec|]. intros r d1 b1 (-> & Ht1 & Ha1). apply vc_skip.
    split; [|done]. split; [|done]. by apply guarded_no_fod. }
  all: apply vc_mod; split; [|done]; split; [|done]; apply guarded_no_fod; [|done];
    assert (fod_mode d = false) as Hm by
      (destruct Hn as (_ & H2 & H3); rewrite He in H2; destruct (fod_mode d); [|done];
       first [by discriminate H2|rewrite He, Hp in H3; by discriminate H3]);
    pose proof (tidy_no_fod d b Ht Hm) as Hc.
  all: replace (d <| fod_circle := false |> <| fod_mode := false |>) with d
    by (destruct d; cbn in *; by subst); exact Ht.
Qed.
Lemma panel_remove_spec d b :
  guarded false d b → vc ana38407_remove (fun _ d' b' => ended false d' b') d b.
Proof.
  intros [Ht Hw]. unfold ana38407_remove, cancel_fod_watchdog. do 2 apply vc_bind, vc_emit.
  cbn [watch]. apply vc_bind, vc_drv. apply vc_call with (P := fun _ => ended false).
  { destruct (prepared d) eqn:Hp.
    - eapply vc_call; [by apply (cleanup_spec d (b <| armed := false |>))|].
      intros r d1 b1 (-> & Ht1 & _). apply vc_skip. split; [|done]. by apply guarded_no_fod.
    - apply vc_skip. assert (fod_mode d = false) as Hm.
      { destruct Ht as (_ & _ & (_ & H2 & H3) & _). rewrite Hp in H3.
        destruct (fod_mode d); [|done]. by discriminate (H3 (H2 eq_refl)). }
      split; [by apply guarded_no_fod|]. by rewrite (tidy_no_fod d b Ht Hm). }
  intros [] d1 b1 H1. apply vc_bind, vc_ask. intros ret. by apply vc_bind, vc_emit, vc_emit.
Qed.
Lemma run_call_spec c u d b :
  guarded u d b →
  vc (run_call c) (fun _ d' b' => guarded u d' b'
    ∧ (drm_call c = false → enabled d' = true → enabled d = true)
    ∧ (ends_in_cancel c = true → enabled d' = false)) d b.
Proof.
  intros Hg.
  assert (∀ P (k : M (machine ana38407 W an_event) Z), vc k (fun _ => kept u d) d b →
    vc k (fun _ d' b' => guarded u d' b' ∧ (P → enabled d' = true → enabled d = true)
      ∧ (false = true → enabled d' = false)) d b) as Hk.
  { intros P k H. eapply vc_mono; [exact H|]. intros r d' b' [? ?]. by split_and!. }
  destruct c; cbn [run_call drm_call ends_in_cancel].
  - by apply Hk, panel_prepare_spec.
  - eapply vc_mono; [by apply (enable_spec u)|]. intros r d' b' H'. by split_and!.
  - eapply vc_mono; [by apply (panel_disable_spec u)|]. intros r d' b' [H' He]. by split_and!.
  - eapply vc_mono; [by apply (unprepare_spec u)|]. intros r d' b' [H' He]. by split_and!.
  - by apply Hk, get_modes_spec.
  - by apply Hk, bl_update_spec.
  - by apply Hk, fod_mode_spec.
  - by apply Hk, fod_circle_spec.
Qed.
Lemma bl_update_fod z d b : vc (ana38407_bl_update z) (fun _ d' _ => fod_mode d' = fod_mode d) d b.
Proof.
  unfold ana38407_bl_update. cbv zeta. apply vc_bind, vc_mod, vc_bind, vc_drv.
  destruct (_ && _); [|by apply vc_ret].
  eapply vc_mono; [apply brightness_spec|]. by intros r d' b' (-> & _).
Qed.
End calls.

(** ** Over any interleaving *)

Section system.
Context {W : Type} `{!PanelEnv W}.
Implicit Types s : panel_sys W.

Definition panel_inv s : Prop :=
  guarded (due s) (drv (mach s)) (audit watch fresh (log (mach s)))
  ∧ (leaving s = true → enabled (drv (mach s)) = false)
  ∧ (ph s = Gone → leaving s = false ∧ fod_mode (drv (mach s)) = false).

Lemma panel_start_inv s : panel_start s → panel_inv s.
Proof.
  intros [p w m H]. revert H. unfold ana38407_probe.
  destruct (p_alloc p <? 0) eqn:E1; [intros [= H _]; lia|].
  destruct (p_supplies p <? 0) eqn:E2; [intros [= H _]; lia|].
  destruct (p_reset p <? 0) eqn:E3; [intros [= H _]; lia|].
  destruct (p_backlight p <? 0) eqn:E4; [cbn; intros [= H _]; lia|].
  destruct (p_group p =? 0) eqn:E5; cbn [negb]; [|cbn; intros [= H _]; lia].
  destruct (p_attach p <? 0) eqn:E6; [cbn; intros [= H _]; lia|].
  cbn. intros [= <-]. split_and!; [|done..].
  split; [|done]. tidy_split; [done|by compute|by split_and!|done|done].
Qed.
Lemma panel_step_inv s s' : panel_step s s' → panel_inv s → panel_inv s'.
Proof.
  intros Hstep (Hg & Hl & Hgone). destruct Hstep as [s c ret m Ha H|s m Hlv Hd H|s m Har H|s m Hd H|s m Hph Hlv Hd H].
  - destruct (vc_use _ _ _ _ _ _ _ (run_call_spec c _ _ _ Hg) H) as (Hg' & He & Hc).
    split_and!; cbn [mach leaving due ph]; [exact Hg'| |].
    + intros Hor. destruct (ends_in_cancel c) eqn:E; [by apply Hc|]. rewrite orb_false_r in Hor.
      specialize (Hl Hor). destruct (enabled (drv m)) eqn:Em; [|done]. rewrite <-Hl. symmetry.
      apply He; [|done]. unfold allowed in Ha. rewrite Hor in Ha.
      destruct (ph s); [|by destruct (Hgone eq_refl); congruence].
      by destruct (drm_call c).
    + intros Hph. destruct (Hgone Hph) as [Hlv Hm]. rewrite Hlv.
      unfold allowed in Ha. rewrite Hph in Ha. destruct c; try done. cbn [ends_in_cancel orb].
      split; [done|]. by rewrite (vc_use _ _ _ _ _ _ _ (bl_update_fod _ _ _) H).
  - injection H as <-. split_and!; cbn [mach leaving due ph drv over_field log]; [|done|].
    + rewrite audit_snoc. destruct Hg as [Ht Hw]. split; [exact Ht|]. intros Hm.
      destruct Ht as (_ & _ & (_ & H2 & _) & _). by rewrite (Hl Hlv) in H2; discriminate (H2 Hm).
    + intros Hph. by destruct (Hgone Hph).
  - injection H as <-. split_and!; cbn [mach leaving due ph drv over_field log]; [|done..].
    rewrite audit_snoc. destruct Hg as [Ht Hw]. split; [exact Ht|by right].
  - rewrite Hd in Hg. destruct (vc_use _ _ _ _ _ _ _ (work_spec false _ _ Hg) H) as [[Hg' [Hm Hc]] He].
    split_and!; cbn [mach leaving due ph]; [exact Hg'|by rewrite He|].
    intros Hph. by destruct (Hgone Hph).
  - rewrite Hd in Hg. destruct (vc_use _ _ _ _ _ _ _ (panel_remove_spec _ _ Hg) H) as [Hg' [Hm Hc]].
    split_and!; cbn [mach leaving due ph]; [exact Hg'|done|done].
Qed.
End system.

(** C11: Whatever order the display core, the desktop, the fingerprint service and
    the watchdog use the panel in, and whatever fails: the circle is only on within
    the fingerprint mode, that only on an enabled panel, and that only on a prepared
    one; while the fingerprint mode is on the watchdog is armed or its work waits
    for the lock, and that work ends the mode; the four rails are on exactly while
    the panel is prepared; and as long as no transfer has failed since the last
    reset, the registers hold the fingerprint brightness in the fingerprint mode and
    the desktop's latest brightness otherwise, the display and the circle are on as
    the driver believes, and the register keys are locked. *)
Theorem panel_shows_what_was_asked {W : Type} `{!PanelEnv W} (s0 s : panel_sys W) :
  panel_start s0 → rtc panel_step s0 s →
  let d := drv (mach s) in
  let b := audit watch fresh (log (mach s)) in
  nested d
  ∧ (fod_mode d = true → armed b = true ∨ due s = true)
  ∧ (∀ m, due s = true → ana38407_fod_watchdog_work (mach s) = Ret (tt, m) →
       fod_mode (drv m) = false ∧ fod_circle (drv m) = false)
  ∧ rails b = (if prepared d then ana38407_supplies else [])
  ∧ (prepared d = true → failed (shows b) = false → shows b = shown d)
  ∧ 0 <= user_brightness d <= ANA38407_MAX_BRIGHTNESS.
Proof.
  intros H0 Hs. assert (panel_inv s) as (Hg & _ & _).
  { refine (rtc_keeps panel_step panel_inv _ _ panel_step_inv Hs _). by apply panel_start_inv. }
  pose proof Hg as [(Hf & Hb & Hn & Hr & Hsh) Hw]. cbv zeta.
  split; [exact Hn|]. split; [exact Hw|]. split; [|split_and!; [exact Hr|exact Hsh|apply Hb..]].
  intros m Hd H. rewrite Hd in Hg.
  apply (vc_use _ _ _ _ _ _ _ (work_spec false _ _ Hg) H).
Qed.

(** ** A panel whose transfers succeed, but for those listed *)

#[export] Instance listed_panel : PanelEnv (list Z) := {|
  regulator_enable _ w := (0, w);
  regulator_bulk_enable _ w := (0, w);
  dsi_write _ w := (hd 3 w, tl w);
  dsi_compression_mode _ w := (0, w);
  dsi_picture_parameter_set w := (0, w);
  dsi_dcs_read _ _ w := ((11, [0x80; 1; 2; 3; 4; 5; 6; 7; 8; 9; 0xab]), w);
  drm_mode_duplicate _ w := (true, w);
  mipi_dsi_detach w := (0, w);
|}.
Fixpoint run_calls {W} `{!PanelEnv W} (l : list call) (m : machine ana38407 W an_event) :
    option (machine ana38407 W an_event) :=
  match l with
  | [] => Some m
  | c :: l => match run_call c m with Ret (_, m') => run_calls l m' | _ => None end
  end.
Lemma run_calls_reach {W} `{!PanelEnv W} l (m m' : machine ana38407 W an_event) :
  forallb (fun c => negb (ends_in_cancel c)) l = true → run_calls l m = Some m' →
  rtc panel_step (mkSys m false false Bound) (mkSys m' false false Bound).
Proof.
  revert m. induction l as [|c l IH]; cbn [forallb run_calls]; intros m Hl H.
  { injection H as ->. apply rtc_refl. }
  apply andb_prop in Hl as [Hc Hl].
  destruct (run_call c m) as [[r m1]| |] eqn:E; [|discriminate..].
  eapply rtc_l; [apply (StepCall (mkSys m false false Bound) c r m1 eq_refl E)|].
  cbn [leaving due ph orb]. destruct (ends_in_cancel c); [done|]. by apply IH.
Qed.
(** After [probe]; and when the service has asked for the fingerprint mode. *)
Definition bound_panel (w : list Z) : machine ana38407 (list Z) an_event :=
  match ana38407_probe (mkProbe 0 0 0 0 0 0) (mkM alloc_ana38407 w []) with
  | Ret (_, m) => m | _ => mkM alloc_ana38407 w []
  end.
Definition asked : list call :=
  [Prepare; Enable; BlUpdate 300; FodMode (inr true) 2; BlUpdate 700].
Definition asked_panel : machine ana38407 (list Z) an_event :=
  default (bound_panel []) (run_calls asked (bound_panel [])).
Lemma panel_shows_what_was_asked_witness :
  user_brightness (drv asked_panel) = 700 ∧ fod_mode (drv asked_panel) = true
  ∧ bright (shows (audit watch fresh (log asked_panel))) = Some 1623
  ∧ shows (audit watch fresh (log asked_panel)) = shown (drv asked_panel).
Proof.
  assert (panel_start (mkSys (bound_panel []) false false Bound)) as H0
    by (apply (StartBound (mkProbe 0 0 0 0 0 0) []); vm_compute; reflexivity).
  assert (rtc panel_step (mkSys (bound_panel []) false false Bound)
    (mkSys asked_panel false false Bound)) as Hs
    by (apply (run_calls_reach asked); vm_compute; reflexivity).
  assert (let d := drv asked_panel in let x := shows (audit watch fresh (log asked_panel)) in
    user_brightness d = 700 ∧ fod_mode d = true ∧ bright x = Some 1623
    ∧ prepared d = true ∧ failed x = false) as Hc by (vm_compute; split_and!; reflexivity).
  revert H0 Hs Hc. generalize (bound_panel []), asked_panel. intros m0 m H0 Hs (Hu & Hm & Hb & Hp & Hf).
  destruct (panel_shows_what_was_asked _ _ H0 Hs) as (_ & _ & _ & _ & H & _).
  split_and!; [assumption..|exact (H Hp Hf)].
Defined.

(** When the transfers that leave the fingerprint mode fail, the driver counts it as
    left all the same and cancels the watchdog: the panel stays at the fingerprint
    brightness control, and the desktop's next brightness goes to it. *)
Definition failed_leave : machine ana38407 (list Z) an_event :=
  default (bound_panel [])
    (run_calls [FodMode (inr false) 2; BlUpdate 2047]
       (mkM (drv asked_panel) [- EIO] (log asked_panel))).
Example failed_leave_stays_bright :
  fod_mode (drv failed_leave) = false
  ∧ armed (audit watch fresh (log failed_leave)) = false
  ∧ ctrl (shows (audit watch fresh (log failed_leave))) = Some 0xe0
  ∧ bright (shows (audit watch fresh (log failed_leave))) = Some 2047.
Proof. split_and!; vm_compute; reflexivity. Qed.
