(* ===== verification/GlinkSpss.v ===== *)
(** [qcom_glink_spss.c]: the shared-memory transport to the secure processor, two
    rings of bytes, and its registration.  The other end of the rings and the GLINK
    core are its environment. *)
From S2P Require Import Prelude Bus.

Definition FIFO_FULL_RESERVE := 8.
Definition TX_BLOCKED_CMD_RESERVE := 8.
Definition SMEM_GLINK_NATIVE_XPRT_DESCRIPTOR := 478.
Definition SPSS_TX_FIFO_SIZE := 2048.
Definition SPSS_RX_FIFO_SIZE := 2048.
Definition EEXIST := 17.

(** [size_t] *)
Definition u64 (z : Z) : Z := z mod 2 ^ 64.
(** [ALIGN(x, 8)] of an [unsigned int]. *)
Definition ALIGN8 (z : Z) : Z := Z.land (u32 (z + 7)) (u32 (Z.lnot 7)).

(** ** A pipe

    [struct glink_spss_pipe] with what its pointers lead to: the two indices of
    [struct glink_spss_cfg] and the bytes of the ring, all in memory shared with
    the remote processor; [length] is the driver's own. *)
Record glink_spss_pipe := mkPipe { length : Z; tail : Z; head : Z; fifo : list Z }.
#[export] Instance eta_pipe : Eta glink_spss_pipe := fun r =>
  mkPipe (length r) (tail r) (head r) (fifo r).

(** The driver's stores to the shared memory, in order. *)
Inductive store :=
  | StBytes (offset : Z) (bytes : list Z)
  | StBarrier
  | StHead (v : Z)
  | StTail (v : Z).
Definition apply_store (p : glink_spss_pipe) (s : store) : glink_spss_pipe :=
  match s with
  | StBytes offset bytes => p <| fifo ::= list_inserts (Z.to_nat offset) bytes |>
  | StBarrier => p
  | StHead v => p <| head := v |>
  | StTail v => p <| tail := v |>
  end.

Section pipe.
Context {W : Type}.
Abbreviation M := (M (machine glink_spss_pipe W store)).

Definition perform (s : store) : M unit := mod_drv (fun p => apply_store p s);; emit s.
(** [memcpy] to and from the ring: outside it they fault. *)
Definition in_ring (p : glink_spss_pipe) (offset len : Z) : bool :=
  (0 <=? offset) && (offset + len <=? Z.of_nat (List.length (fifo p))).
Definition copy_to (offset : Z) (bytes : list Z) : M unit :=
  p ← get_drv;
  if in_ring p offset (Z.of_nat (List.length bytes)) then perform (StBytes offset bytes) else fault.
Definition copy_from (offset len : Z) : M (list Z) :=
  p ← get_drv;
  if in_ring p offset len then mret (take (Z.to_nat len) (drop (Z.to_nat offset) (fifo p))) else fault.

Definition glink_spss_rx_avail : M Z :=
  p ← get_drv;
  mret (if head p <? tail p then u64 (length p - tail p + head p) else u32 (head p - tail p)).

(** The bytes that end up in [data]. *)
Definition glink_spss_rx_peak (offset count : Z) : M (list Z) :=
  p ← get_drv;
  let tail := u32 (tail p + offset) in
  let tail := if length p <=? tail then u32 (tail - length p) else tail in
  let len := Z.min count (u64 (length p - tail)) in
  data ← (if negb (len =? 0) then copy_from tail len else mret []);
  rest ← (if negb (len =? count) then copy_from 0 (count - len) else mret []);
  mret (data ++ rest).

Definition glink_spss_rx_advance (count : Z) : M unit :=
  p ← get_drv;
  let tail := u32 (tail p + count) in
  let tail := if length p <=? tail then u32 (tail - length p) else tail in
  perform (StTail tail).

Definition glink_spss_tx_avail : M Z :=
  p ← get_drv;
  let avail := if tail p <=? head p then u32 (length p - head p + tail p) else u32 (tail p - head p) in
  mret (if avail <? FIFO_FULL_RESERVE + TX_BLOCKED_CMD_RESERVE then 0
        else avail - (FIFO_FULL_RESERVE + TX_BLOCKED_CMD_RESERVE)).

(** The index after the bytes. *)
Definition glink_spss_tx_write_one (head : Z) (data : list Z) : M Z :=
  p ← get_drv;
  let count := Z.of_nat (List.length data) in
  let len := Z.min count (u64 (length p - head)) in
  (if negb (len =? 0) then copy_to head (take (Z.to_nat len) data) else skip);;
  (if negb (len =? count) then copy_to 0 (drop (Z.to_nat len) data) else skip);;
  let head := u32 (head + count) in
  mret (if length p <=? head then u32 (head - length p) else head).

Definition glink_spss_tx_write (hdr data : list Z) : M unit :=
  p ← get_drv;
  head ← glink_spss_tx_write_one (head p) hdr;
  head ← glink_spss_tx_write_one head data;
  let head := ALIGN8 head in
  let head := if length p <=? head then u32 (head - length p) else head in
  perform StBarrier;;
  perform (StHead head).
End pipe.

(** ** Registration

    [struct glink_spss_cfg] with the two rings behind it, and
    [struct qcom_glink_spss]. *)
Record glink_spss_cfg := mkCfg {
  tx_tail : Z; tx_head : Z; tx_fifo_size : Z; rx_tail : Z; rx_head : Z; rx_fifo_size : Z
}.
#[export] Instance eta_cfg : Eta glink_spss_cfg := fun r =>
  mkCfg (tx_tail r) (tx_head r) (tx_fifo_size r) (rx_tail r) (rx_head r) (rx_fifo_size r).
Definition sizeof_cfg := 24.
Record qcom_glink_spss := mkSpss { cfg : glink_spss_cfg; irq : Z; allocated : bool }.
#[export] Instance eta_spss : Eta qcom_glink_spss := fun r => mkSpss (cfg r) (irq r) (allocated r).

(** What the registration holds, and what it does to the hardware. *)
Inductive handle := Device | AddrMap | SizeMap | Irq | Mailbox | Glink.
#[export] Instance handle_eq_dec : EqDecision handle.
Proof. solve_decision. Defined.
Inductive glink_event :=
  | GlGet (h : handle) (ret : Z)
  | GlPut (h : handle)
  | GlAdvertise (addr size : Z)
  | GlIrq (enable : bool)
  | GlReceive            (* [qcom_glink_native_rx] *)
  | GlKick               (* [mbox_send_message], [mbox_client_txdone] *)
  | GlFree.              (* [kfree] of the structure *)

(** The kernel's answers: an error (negative) or 0. *)
Record glink_answers := mkAnswers {
  g_alloc : bool; g_device : Z; g_remote_pid : Z; g_pipes : bool; g_smem_alloc : Z;
  g_smem_get : Z * Z; g_addr_idx : Z; g_size_idx : Z; g_addr_res : bool; g_addr_map : bool;
  g_size_res : bool; g_size_map : bool; g_phys : Z; g_irq : Z; g_request_irq : Z;
  g_mbox : Z; g_native : Z
}.

Section registration.
Context {W : Type} (a : glink_answers).
Abbreviation M := (M (machine qcom_glink_spss W glink_event)).

Definition qcom_glink_spss_intr : M Z := emit GlReceive;; mret 1.
Definition glink_spss_tx_kick : M unit := emit GlKick.
(** The device's release, when its last reference goes. *)
Definition qcom_glink_spss_release : M unit :=
  mod_drv (fun d => d <| allocated := false |>);; emit GlFree.

Definition glink_spss_advertise_cfg (size addr : Z) : M Z :=
  if (g_addr_idx a <? 0) || (g_size_idx a <? 0) then mret (- EINVAL)
  else if negb (g_addr_res a) then mret (- ENOMEM)
  else if negb (g_addr_map a) then mret (- ENOMEM)
  else
    emit (GlGet AddrMap 0);;
    if negb (g_size_res a) then (emit (GlPut AddrMap);; mret (- ENOMEM))
    else if negb (g_size_map a) then (emit (GlPut AddrMap);; mret (- ENOMEM))
    else
      emit (GlGet SizeMap 0);;
      emit (GlAdvertise addr size);;
      emit (GlPut AddrMap);;
      emit (GlPut SizeMap);;
      mret 0.

(** The exits of [qcom_glink_spss_register]; the interrupt is device-managed, it
    goes with the device ([requested]). *)
Definition device_unregister (requested : bool) : M unit :=
  emit (GlPut Device);; (if requested then emit (GlPut Irq) else skip);; qcom_glink_spss_release.
Definition err_put_dev (requested : bool) (ret : Z) : M Z := device_unregister requested;; mret ret.
Definition err_free_mbox (ret : Z) : M Z := emit (GlPut Mailbox);; err_put_dev true ret.

Definition probe_native : M Z :=
  emit (GlGet Glink (g_native a));;
  if g_native a <? 0 then err_free_mbox (g_native a)
  else (emit (GlIrq true);; mret 0).
Definition request_channel : M Z :=
  emit (GlGet Mailbox (g_mbox a));;
  if g_mbox a <? 0 then err_put_dev true (g_mbox a) else probe_native.
Definition request_interrupt : M Z :=
  mod_drv (fun d => d <| irq := g_irq a |>);;
  if g_irq a <? 0 then err_put_dev false (g_irq a)
  else
    emit (GlGet Irq (g_request_irq a));;
    if negb (g_request_irq a =? 0) then err_put_dev false (g_request_irq a) else request_channel.
Definition set_up_cfg : M unit :=
  mod_drv (fun d => d <| cfg ::= fun c => c <| tx_fifo_size := SPSS_TX_FIFO_SIZE |>
    <| rx_fifo_size := SPSS_RX_FIFO_SIZE |> <| rx_tail := 0 |> <| tx_head := 0 |> |>).
Definition total_size : Z := SPSS_TX_FIFO_SIZE + SPSS_RX_FIFO_SIZE + sizeof_cfg.
Definition take_descriptors : M Z :=
  if negb (g_smem_alloc a =? 0) && negb (g_smem_alloc a =? - EEXIST) then err_put_dev false (g_smem_alloc a)
  else
    let '(ret, size) := g_smem_get a in
    if ret <? 0 then err_put_dev false ret
    else if negb (size =? total_size) then err_put_dev false (- EINVAL)
    else
      set_up_cfg;;
      ret ← glink_spss_advertise_cfg size (g_phys a);
      if negb (ret =? 0) then err_put_dev false ret else request_interrupt.
(** The structure, or an error (negative). *)
Definition qcom_glink_spss_register : M Z :=
  if negb (g_alloc a) then mret (- ENOMEM)
  else
    mod_drv (fun d => d <| allocated := true |>);;
    emit (GlGet Device (g_device a));;
    if negb (g_device a =? 0) then (qcom_glink_spss_release;; mret (g_device a))
    else if negb (g_remote_pid a =? 0) then err_put_dev false (g_remote_pid a)
    else if negb (g_pipes a) then err_put_dev false (- ENOMEM)
    else take_descriptors.
Definition qcom_glink_spss_unregister : M unit :=
  d ← get_drv;
  if negb (allocated d) then skip
  else
    emit (GlIrq false);;
    emit (GlPut Glink);;
    emit (GlPut Mailbox);;
    device_unregister true.
End registration.
