(* ===== verification/GlinkSpssProps.v ===== *)
(** The properties of the transport to the secure processor: each pipe is a queue
    of bytes, whatever the other end sees of a write in progress; and the
    registration gives back what it took. *)
From S2P Require Import Prelude Bus GlinkSpss.

(** ** The queue in a ring *)

(** A ring the two ends agree on. *)
Record ring (p : glink_spss_pipe) : Prop := {
  ring_len : Z.of_nat (List.length (fifo p)) = length p;
  ring_size : 16 <= length p < 2 ^ 31;
  ring_mod8 : length p mod 8 = 0;
  ring_tail : 0 <= tail p < length p;
  ring_head : 0 <= head p < length p
}.
(** The byte [i] positions after [start], and the bytes that wait to be read. *)
Definition ring_at (p : glink_spss_pipe) (start i : Z) : option Z :=
  fifo p !! Z.to_nat ((start + i) mod length p).
Definition used (p : glink_spss_pipe) : Z := (head p - tail p) mod length p.
Definition contents (p : glink_spss_pipe) : list Z :=
  omap (ring_at p (tail p)) (seqZ 0 (used p)).

Lemma wrap_once a n : 0 <= a < 2 * n → a mod n = if n <=? a then a - n else a.
Proof.
  intros Ha. destruct (Z.leb_spec n a); [|apply Z.mod_small; lia].
  symmetry. apply Z.mod_unique with (q := 1); lia.
Qed.
Lemma used_eq p : ring p →
  used p = if head p <? tail p then length p - tail p + head p else head p - tail p.
Proof.
  intros []. unfold used. destruct (Z.ltb_spec (head p) (tail p)).
  - symmetry. apply Z.mod_unique with (q := -1); lia.
  - apply Z.mod_small. lia.
Qed.
Lemma used_bounds p : ring p → 0 <= used p < length p.
Proof. intros []. unfold used. apply Z.mod_pos_bound. lia. Qed.
Lemma ring_at_some p s i : ring p → is_Some (ring_at p s i).
Proof.
  intros [? ?]. unfold ring_at. apply lookup_lt_is_Some.
  pose proof (Z.mod_pos_bound (s + i) (length p)). lia.
Qed.
Lemma omap_some {A B} (f : A → option B) (l : list A) (j : nat) : (∀ x, x ∈ l → is_Some (f x)) →
  omap f l !! j = l !! j ≫= f.
Proof.
  revert j. induction l as [|x l IH]; intros j H; [done|]. cbn.
  destruct (H x) as [y Hy]; [set_solver|]. rewrite Hy. destruct j; cbn; [done|].
  apply IH. set_solver.
Qed.
(** A list is the queue's contents when it is so byte by byte. *)
Lemma bytes_lookup p s n j : ring p → 0 <= n → 
  omap (ring_at p s) (seqZ 0 n) !! j = if (Z.of_nat j <? n) then ring_at p s (Z.of_nat j) else None.
Proof.
  intros Hp Hn. rewrite omap_some by (intros; by apply ring_at_some).
  destruct (Z.ltb_spec (Z.of_nat j) n).
  - rewrite lookup_seqZ_lt by lia. cbn. done.
  - rewrite lookup_seqZ_ge by lia. done.
Qed.
Lemma bytes_length p s n : ring p → 0 <= n → Z.of_nat (List.length (omap (ring_at p s) (seqZ 0 n))) = n.
Proof.
  intros Hp Hn.
  enough (List.length (omap (ring_at p s) (seqZ 0 n)) = Z.to_nat n) by lia.
  apply Nat.le_antisymm.
  - apply lookup_ge_None. rewrite bytes_lookup by done.
    destruct (Z.ltb_spec (Z.of_nat (Z.to_nat n)) n); [lia|done].
  - destruct (Z.to_nat n) as [|k] eqn:E; [lia|].
    apply (lookup_lt_is_Some_1 (omap (ring_at p s) (seqZ 0 n)) k).
    rewrite bytes_lookup by done. destruct (Z.ltb_spec (Z.of_nat k) n); [|lia].
    by apply ring_at_some.
Qed.

(** ** Writing *)

(** The bytes of the ring after [data] was written at [h]. *)
Definition written (p q : glink_spss_pipe) (h : Z) (data : list Z) : Prop :=
  length q = length p ∧ tail q = tail p ∧ head q = head p
  ∧ List.length (fifo q) = List.length (fifo p)
  ∧ ∀ pos, 0 <= pos < length p → fifo q !! Z.to_nat pos =
      if (h <=? pos) && (pos <? h + Z.of_nat (List.length data)) then data !! Z.to_nat (pos - h)
      else if pos + length p <? h + Z.of_nat (List.length data)
      then data !! Z.to_nat (pos + length p - h)
      else fifo p !! Z.to_nat pos.
(** A store of bytes into the [n] positions from [h] on, round the end. *)
Definition store_within (L h n : Z) (s : store) : Prop :=
  match s with
  | StBytes o bs =>
      0 <= o ∧ o + Z.of_nat (List.length bs) <= L
      ∧ ∀ pos, o <= pos < o + Z.of_nat (List.length bs) → h <= pos < h + n ∨ pos + L < h + n
  | _ => False
  end.

Lemma in_ring_true p o n : ring p → 0 <= o → o + n <= length p → in_ring p o n = true.
Proof.
  intros [Hl _ _ _ _] ? ?. unfold in_ring. rewrite Hl.
  apply andb_true_intro. by rewrite !Z.leb_le.
Qed.
Lemma u64_small z : 0 <= z < 2 ^ 64 → u64 z = z.
Proof. intros. by apply Z.mod_small. Qed.
Lemma u32_small z : 0 <= z < 2 ^ 32 → u32 z = z.
Proof. intros. by apply Z.mod_small. Qed.
Lemma ring_fifo p f : ring p → List.length f = List.length (fifo p) → ring (p <| fifo := f |>).
Proof. intros [? ? ? ? ?] Hf. split; cbn; [by rewrite Hf|done..]. Qed.

Lemma ring_set_head p h : ring p → 0 <= h < length p → ring (p <| head := h |>).
Proof. by intros [] Hh. Qed.

Section write.
Context {W : Type}.
Lemma perform_run p (w : W) l s : perform s (mkM p w l) = Ret (tt, mkM (apply_store p s) w (l ++ [s])).
Proof. done. Qed.
Lemma copy_to_run p (w : W) l o bs :
  ring p → 0 <= o → o + Z.of_nat (List.length bs) <= length p →
  copy_to o bs (mkM p w l) =
    Ret (tt, mkM (apply_store p (StBytes o bs)) w (l ++ [StBytes o bs])).
Proof.
  intros Hp Ho Hb. unfold copy_to. erewrite bind_ret by reflexivity. cbn [drv]. by rewrite in_ring_true.
Qed.
Definition stores_if (c : bool) (o : Z) (bs : list Z) : list store :=
  if c then [StBytes o bs] else [].
Lemma copy_if_run (c : bool) p (w : W) l o bs :
  ring p → 0 <= o → o + Z.of_nat (List.length bs) <= length p →
  (if c then copy_to o bs else skip) (mkM p w l) =
    Ret (tt, mkM (foldl apply_store p (stores_if c o bs)) w (l ++ stores_if c o bs)).
Proof.
  intros Hp Ho Hb. destruct c; [by apply copy_to_run|]. cbn. by rewrite app_nil_r.
Qed.
Lemma store_ring p o bs : ring p → ring (apply_store p (StBytes o bs)).
Proof. intros Hp. apply ring_fifo; [done|]. apply length_inserts. Qed.
Lemma stores_if_ring c p o bs : ring p → ring (foldl apply_store p (stores_if c o bs)).
Proof. intros Hp. destruct c; [by apply store_ring|done]. Qed.
Lemma stores_if_length c p o bs : length (foldl apply_store p (stores_if c o bs)) = length p.
Proof. by destruct c. Qed.

Lemma stores_if_lookup c p o bs pos :
  ring p → (c = false → bs = []) → 0 <= o → 0 <= pos → o + Z.of_nat (List.length bs) <= length p →
  fifo (foldl apply_store p (stores_if c o bs)) !! Z.to_nat pos =
    if (o <=? pos) && (pos <? o + Z.of_nat (List.length bs)) then bs !! Z.to_nat (pos - o)
    else fifo p !! Z.to_nat pos.
Proof.
  intros [Hl _ _ _ _] Hc Ho Hpos Hb.
  destruct c; cycle 1.
  { rewrite (Hc eq_refl). cbn [stores_if foldl List.length].
    by destruct (Z.leb_spec o pos), (Z.ltb_spec pos (o + Z.of_nat 0)); cbn [andb]; try lia. }
  cbn [stores_if foldl apply_store fifo over_field].
  destruct (Z.leb_spec o pos), (Z.ltb_spec pos (o + Z.of_nat (List.length bs))); cbn [andb].
  - rewrite list_lookup_inserts by lia. f_equal. lia.
  - apply list_lookup_inserts_ge. lia.
  - apply list_lookup_inserts_lt. lia.
  - apply list_lookup_inserts_lt. lia.
Qed.

(** A head past the end wraps. *)
Lemma wrap_head p h c :
  ring p → 0 <= h < length p → 0 <= c <= length p →
  (if length p <=? u32 (h + c) then u32 (u32 (h + c) - length p) else u32 (h + c)) = (h + c) mod length p.
Proof.
  intros [Hl Hs _ _ _] Hh Hc. rewrite (u32_small (h + c)), wrap_once by lia.
  destruct (Z.leb_spec (length p) (h + c)); [|done]. apply u32_small. lia.
Qed.
(** The two stores of a write, up to the end and from the start. *)
Lemma pieces_written p h data :
  ring p → 0 <= h < length p → Z.of_nat (List.length data) <= length p →
  let c := Z.of_nat (List.length data) in let len := Z.min c (length p - h) in
  let s1 := stores_if (negb (len =? 0)) h (take (Z.to_nat len) data) in
  let s2 := stores_if (negb (len =? c)) 0 (drop (Z.to_nat len) data) in
  Forall (store_within (length p) h c) (s1 ++ s2) ∧ written p (foldl apply_store p (s1 ++ s2)) h data.
Proof.
  intros Hp Hh Hd c len s1 s2. pose proof Hp as [Hl Hs _ _ _].
  assert (Z.of_nat (List.length (take (Z.to_nat len) data)) = len) as Ht by (rewrite length_take; lia).
  assert (Z.of_nat (List.length (drop (Z.to_nat len) data)) = c - len) as Hr by (rewrite length_drop; lia).
  split.
  { apply Forall_app. subst s1 s2. unfold stores_if.
    split; [destruct (Z.eqb_spec len 0)|destruct (Z.eqb_spec len c)]; cbn [negb];
      try apply Forall_nil_2; apply Forall_singleton; cbn [store_within]; (split; [lia|]);
      (split; [lia|]); intros pos Hpos; lia. }
  rewrite foldl_app. set (p1 := foldl apply_store p s1).
  assert (ring p1) as Hp1 by by apply stores_if_ring.
  assert (length p1 = length p) as HL1 by by apply stores_if_length.
  assert (∀ (b : bool) n (bs : list Z), (b = false → n = 0) → Z.of_nat (List.length bs) = n →
    b = false → bs = []) as Hnil by (intros b n bs H1 H2 H3; apply nil_length_inv; specialize (H1 H3); lia).
  do 3 (split; [by subst p1 s1 s2; destruct (negb _), (negb _)|]).
  split; [subst p1 s1 s2; destruct (negb _), (negb _); cbn; by rewrite ?length_inserts|].
  intros pos Hpos. subst s2. rewrite stores_if_lookup; [|done| |lia|lia|lia].
  2: { eapply Hnil; [|exact Hr]. intros H. apply negb_false_iff in H. lia. }
  subst p1 s1. rewrite stores_if_lookup; [|done| |lia|lia|lia].
  2: { eapply Hnil; [|exact Ht]. intros H. apply negb_false_iff in H. lia. }
  fold c. rewrite Ht, Hr.
  destruct (Z.leb_spec 0 pos), (Z.ltb_spec pos (0 + (c - len))), (Z.leb_spec h pos),
    (Z.ltb_spec pos (h + len)), (Z.ltb_spec pos (h + c)), (Z.ltb_spec (pos + length p) (h + c));
    cbn [andb]; try lia; try done.
  all: rewrite ?lookup_drop, ?lookup_take_lt by lia; try (f_equal; lia).
Qed.
Lemma write_one_run p (w : W) l h data :
  ring p → 0 <= h < length p → Z.of_nat (List.length data) <= length p →
  ∃ sts,
    glink_spss_tx_write_one h data (mkM p w l) =
      Ret ((h + Z.of_nat (List.length data)) mod length p, mkM (foldl apply_store p sts) w (l ++ sts))
    ∧ Forall (store_within (length p) h (Z.of_nat (List.length data))) sts
    ∧ written p (foldl apply_store p sts) h data.
Proof.
  intros Hp Hh Hd. pose proof Hp as [Hl Hs _ _ _]. unfold glink_spss_tx_write_one.
  eexists. split; [|by apply pieces_written]. set (c := Z.of_nat (List.length data)) in *.
  erewrite bind_ret by reflexivity. cbv zeta. cbn [drv]. fold c. rewrite wrap_head, u64_small by (done || lia).
  set (len := Z.min c (length p - h)).
  erewrite bind_ret by (apply copy_if_run; [done|lia|rewrite length_take; lia]).
  erewrite bind_ret by
    (apply copy_if_run; [by apply stores_if_ring|lia|rewrite stores_if_length, length_drop; lia]).
  by rewrite foldl_app, app_assoc.
Qed.

(** The ring by offsets from where the data was written. *)
Lemma written_at p q h data i :
  ring p → written p q h data → 0 <= h < length p → Z.of_nat (List.length data) <= length p →
  0 <= i < length p →
  ring_at q h i = if i <? Z.of_nat (List.length data) then data !! Z.to_nat i else ring_at p h i.
Proof.
  intros Hp (HL & _ & _ & _ & Hq) Hh Hd Hi. unfold ring_at. rewrite HL.
  assert (0 <= (h + i) mod length p < length p) as Hm by (apply Z.mod_pos_bound; lia).
  rewrite Hq by done. rewrite wrap_once in * by lia.
  destruct (Z.leb_spec (length p) (h + i)), (Z.ltb_spec i (Z.of_nat (List.length data)));
    repeat match goal with
    | |- context [?a <=? ?b] => destruct (Z.leb_spec a b)
    | |- context [?a <? ?b] => destruct (Z.ltb_spec a b)
    end; cbn [andb]; try lia; try done; f_equal; lia.
Qed.
Lemma ring_at_mod p s i : ring p → ring_at p (s mod length p) i = ring_at p s i.
Proof. intros []. unfold ring_at. by rewrite Z.add_mod_idemp_l by lia. Qed.
Lemma ring_at_shift p s i j : ring_at p (s + i) j = ring_at p s (i + j).
Proof. unfold ring_at. by rewrite Z.add_assoc. Qed.
Lemma ring_at_turn p s i : ring p → ring_at p s (i + length p) = ring_at p s i.
Proof.
  intros []. unfold ring_at. rewrite Z.add_assoc.
  by rewrite <-(Z.mul_1_l (length p)) at 1; rewrite Z.mod_add by lia.
Qed.
(** The unread bytes lie behind the head. *)
Lemma ring_at_tail p q i : ring p → ring q → length q = length p → tail q = tail p →
  ring_at q (tail p) i = ring_at q (head p) (i - used p + length p).
Proof.
  intros Hp Hq HL Ht. rewrite <-HL, ring_at_turn by done.
  unfold used. rewrite <-ring_at_mod by done. symmetry. rewrite <-ring_at_mod by done.
  unfold ring_at. do 2 f_equal. rewrite HL. destruct Hp.
  rewrite !Z.add_mod_idemp_l by lia. rewrite Z.add_sub_assoc, Zminus_mod_idemp_r.
  f_equal. lia.
Qed.

(** Stores ahead of the unread bytes leave them alone. *)
Lemma stores_leave L h n sts p pos :
  Forall (store_within L h n) sts → Z.of_nat (List.length (fifo p)) = L →
  0 <= pos < L → ¬ (h <= pos < h + n ∨ pos + L < h + n) →
  let q := foldl apply_store p sts in
  length q = length p ∧ tail q = tail p ∧ head q = head p
  ∧ List.length (fifo q) = List.length (fifo p) ∧ fifo q !! Z.to_nat pos = fifo p !! Z.to_nat pos.
Proof.
  intros Hs HL Hpos Hout. cbv zeta. revert p HL. induction Hs as [|s sts Hs _ IH]; intros p HL; [done|].
  destruct s as [o bs| | |]; try done. destruct Hs as (Ho & Hb & Hw). cbn [foldl].
  assert (List.length (fifo (apply_store p (StBytes o bs))) = List.length (fifo p)) as Hl
    by apply length_inserts.
  destruct (IH (apply_store p (StBytes o bs))) as (-> & -> & -> & -> & ->); [by rewrite Hl|].
  split_and!; [done..|exact Hl|]. cbn [apply_store fifo over_field].
  destruct (decide (pos < o)); [apply list_lookup_inserts_lt; lia|].
  destruct (decide (o + Z.of_nat (List.length bs) <= pos)); [apply list_lookup_inserts_ge; lia|].
  exfalso. apply Hout, Hw. lia.
Qed.
Lemma contents_ext p q : ring p → ring q → length q = length p → tail q = tail p → used q = used p →
  (∀ i, 0 <= i < used p → ring_at q (tail p) i = ring_at p (tail p) i) → contents q = contents p.
Proof.
  intros Hp Hq HL Ht Hu H. pose proof (used_bounds p Hp). apply list_eq. intros j. unfold contents.
  rewrite Hu, Ht, !bytes_lookup by (done || lia).
  destruct (Z.ltb_spec (Z.of_nat j) (used p)); [|done]. apply H. lia.
Qed.
Lemma early_stores p sts n :
  ring p → 0 <= n → used p + n <= length p → Forall (store_within (length p) (head p) n) sts →
  contents (foldl apply_store p sts) = contents p.
Proof.
  intros Hp Hn Hu Hs. pose proof Hp as [Hl Hs1 H8 Ht Hh]. set (q := foldl apply_store p sts).
  assert (∀ pos, 0 <= pos < length p → ¬ (head p <= pos < head p + n ∨ pos + length p < head p + n) →
    length q = length p ∧ tail q = tail p ∧ head q = head p ∧ List.length (fifo q) = List.length (fifo p)
    ∧ fifo q !! Z.to_nat pos = fifo p !! Z.to_nat pos) as Hpos.
  { intros pos. by apply (stores_leave (length p)). }
  destruct (decide (used p = 0)) as [H0|H0].
  { unfold contents. rewrite H0.
    assert (used q = 0) as ->; [|done].
    assert (∀ p, tail (foldl apply_store p sts) = tail p ∧ head (foldl apply_store p sts) = head p
      ∧ length (foldl apply_store p sts) = length p) as Hf.
    { clear -Hs. induction Hs as [|s sts Hs _ IH]; intros p'; [done|]. cbn [foldl].
      destruct s; try done. destruct (IH (apply_store p' (StBytes offset bytes))) as (-> & -> & ->). done. }
    unfold used. subst q. destruct (Hf p) as (-> & -> & ->). exact H0. }
  pose proof (used_bounds p Hp) as Hub. pose proof (used_eq p Hp) as Hue.
  destruct (Hpos (tail p)) as (HL & Htq & Hhq & Hlq & _).
  { lia. }
  { destruct (head p <? tail p) eqn:E; lia. }
  assert (ring q) as Hq by (split; rewrite ?Hlq, ?HL, ?Htq, ?Hhq; done).
  apply contents_ext; [done..| |].
  { unfold used. by rewrite HL, Htq, Hhq. }
  intros i Hi. unfold ring_at. rewrite HL. rewrite wrap_once by lia. apply Hpos.
  - destruct (Z.leb_spec (length p) (tail p + i)); lia.
  - destruct (Z.leb_spec (length p) (tail p + i)), (head p <? tail p) eqn:E; lia.
Qed.

Lemma ALIGN8_eq z : 0 <= z < 2 ^ 31 → ALIGN8 z = (z + 7) / 8 * 8.
Proof.
  intros Hz. unfold ALIGN8. rewrite (u32_small (z + 7)) by lia.
  replace (u32 (Z.lnot 7)) with (Z.land (Z.lnot 7) (Z.ones 32)) by reflexivity.
  rewrite Z.land_assoc, (Z.land_comm _ (Z.ones 32)), Z.land_assoc, (Z.land_comm (Z.ones 32)).
  rewrite Z.land_ones, Z.mod_small by lia. change 7 with (Z.ones 3) at 2.
  rewrite <-Z.ldiff_land, Z.ldiff_ones_r, Z.shiftl_mul_pow2, Z.shiftr_div_pow2 by lia. done.
Qed.
Lemma mod_chain L a b c d t : L ≠ 0 →
  ((((a + b) mod L + c) mod L + d) mod L - t) mod L = ((a - t) mod L + (b + c + d)) mod L.
Proof.
  intros HL. rewrite Zminus_mod_idemp_l, <-Z.add_sub_assoc, Z.add_mod_idemp_l by done.
  rewrite <-Z.add_assoc, Z.add_mod_idemp_l, Z.add_mod_idemp_l by done. f_equal. lia.
Qed.
(** Where the head goes after [n] bytes, and the padding. *)
Definition padding (h : Z) : Z := (- h) mod 8.
Lemma aligned_head L h : L mod 8 = 0 → 0 <= h < L → L < 2 ^ 31 →
  (if L <=? ALIGN8 h then u32 (ALIGN8 h - L) else ALIGN8 h) = (h + padding h) mod L
  ∧ 0 <= (h + padding h) mod L < L ∧ 0 <= padding h < 8.
Proof.
  intros HL Hh Hm. rewrite ALIGN8_eq by lia.
  assert ((h + 7) / 8 * 8 = h + padding h) as -> by (unfold padding; pose proof (Z.div_mod (h + 7) 8 ltac:(lia)); pose proof (Z.mod_pos_bound (h + 7) 8 ltac:(lia));
        pose proof (Z.div_mod (- h) 8 ltac:(lia)); pose proof (Z.mod_pos_bound (- h) 8 ltac:(lia)); lia).
  assert (0 <= padding h < 8) as Hp by (apply Z.mod_pos_bound; lia).
  pose proof (Z.div_mod L 8 ltac:(lia)) as HL8. assert (8 <= L) by lia.
  split_and!; [|apply Z.mod_pos_bound; lia..|lia|lia]. rewrite wrap_once by lia.
  destruct (Z.leb_spec L (h + padding h)); [|done]. apply u32_small. lia.
Qed.

Lemma ring_foldl p sts q : ring p → q = foldl apply_store p sts →
  length q = length p → tail q = tail p → head q = head p → List.length (fifo q) = List.length (fifo p) →
  ring q.
Proof. intros [] -> HL Ht Hh Hl. split; by rewrite ?Hl, ?HL, ?Ht, ?Hh. Qed.

(** After two writes in a row, by offsets from the old head. *)
Lemma two_writes p p1 p2 hdr data i :
  ring p → ring p1 → ring p2 →
  let n := Z.of_nat (List.length hdr) in let m := Z.of_nat (List.length data) in
  n + m <= length p → 0 <= i < length p →
  written p p1 (head p) hdr → written p1 p2 ((head p + n) mod length p) data →
  ring_at p2 (head p) i =
    if i <? n then hdr !! Z.to_nat i else if i <? n + m then data !! Z.to_nat (i - n)
    else ring_at p (head p) i.
Proof.
  intros Hp Hp1 Hp2 n m Hnm Hi W1 W2. pose proof Hp as [_ Hs _ _ Hh].
  assert (length p1 = length p) as HL1 by apply W1.
  assert (length p2 = length p) as HL2 by (rewrite (proj1 W2); exact HL1).
  set (h1 := (head p + n) mod length p) in *.
  assert (0 <= h1 < length p) as Hh1 by (apply Z.mod_pos_bound; lia).
  destruct (Z.leb_spec n i).
  - replace i with (n + (i - n)) by lia. rewrite <-ring_at_shift, <-ring_at_mod by done.
    rewrite HL2. fold h1. rewrite (written_at p1 p2 h1 data) by (done || lia). fold m.
    replace (n + (i - n)) with i by lia.
    destruct (Z.ltb_spec (i - n) m), (Z.ltb_spec i n), (Z.ltb_spec i (n + m)); try lia; [done|].
    unfold h1. rewrite <-HL1, ring_at_mod, ring_at_shift by done.
    rewrite (written_at p p1 (head p) hdr) by (done || lia). fold n.
    destruct (Z.ltb_spec (n + (i - n)) n); [lia|]. f_equal. lia.
  - rewrite <-ring_at_turn by done. replace (i + length p2) with (n + (i - n + length p)) by lia.
    rewrite <-ring_at_shift, <-ring_at_mod by done. rewrite HL2. fold h1.
    rewrite (written_at p1 p2 h1 data) by (done || lia). fold m.
    destruct (Z.ltb_spec (i - n + length p) m); [lia|].
    unfold h1. rewrite <-HL1, ring_at_mod, ring_at_shift by done.
    replace (n + (i - n + length p1)) with (i + length p1) by lia. rewrite ring_at_turn by done.
    rewrite (written_at p p1 (head p) hdr) by (done || lia). fold n.
    by destruct (Z.ltb_spec i n); [|lia].
Qed.
(** The queue when the bytes from the old head on are known. *)
Lemma contents_grow p q msg k :
  ring p → ring q → length q = length p → tail q = tail p →
  used q = used p + Z.of_nat (List.length msg) + k → 0 <= k →
  (∀ i, 0 <= i < length p → ring_at q (head p) i =
    if i <? Z.of_nat (List.length msg) then msg !! Z.to_nat i else ring_at p (head p) i) →
  contents q = contents p ++ msg ++ drop (Z.to_nat (used p + Z.of_nat (List.length msg))) (contents q).
Proof.
  intros Hp Hq HLq Htq Hu Hk Hbytes. set (n := Z.of_nat (List.length msg)) in *.
  pose proof (used_bounds p Hp). pose proof (used_bounds q Hq).
  rewrite <-(take_drop (Z.to_nat (used p + n)) (contents q)) at 1. rewrite !app_assoc. f_equal.
  assert (Z.of_nat (List.length (contents p)) = used p) as Hlc by (apply bytes_length; [done|lia]).
  apply list_eq. intros j.
  destruct (decide (Z.of_nat j < used p + n)) as [Hj|Hj]; cycle 1.
  { rewrite lookup_take_ge by lia. symmetry. apply lookup_ge_None. rewrite length_app. lia. }
  rewrite lookup_take_lt by lia. unfold contents at 1. rewrite bytes_lookup by (done || lia).
  destruct (Z.ltb_spec (Z.of_nat j) (used q)); [|lia]. rewrite Htq.
  destruct (decide (Z.of_nat j < used p)) as [Hu1|Hu1].
  - rewrite lookup_app_l by lia. unfold contents. rewrite bytes_lookup by (done || lia).
    destruct (Z.ltb_spec (Z.of_nat j) (used p)); [|lia].
    rewrite (ring_at_tail p q), (ring_at_tail p p) by done. rewrite Hbytes by lia.
    by destruct (Z.ltb_spec (Z.of_nat j - used p + length p) n); [lia|].
  - rewrite lookup_app_r by lia. rewrite (ring_at_tail p q) by done. rewrite <-HLq, ring_at_turn by done.
    rewrite Hbytes by lia. destruct (Z.ltb_spec (Z.of_nat j - used p) n); [|lia]. f_equal. lia.
Qed.

(** A write that fits: what it stores before the barrier, and the queue after it. *)
(** Two writes, one after the other. *)
Lemma within_both L h n m s1 s2 :
  0 <= h < L → 0 <= n → 0 <= m → n + m <= L →
  Forall (store_within L h n) s1 → Forall (store_within L ((h + n) mod L) m) s2 →
  Forall (store_within L h (n + m)) (s1 ++ s2).
Proof.
  intros Hh Hn Hm Hnm F1 F2. apply Forall_app. split.
  - eapply Forall_impl; [exact F1|]. intros []; cbn [store_within]; try done.
    intros (? & ? & Hw). split_and!; [done..|]. intros pos Hpos. specialize (Hw pos Hpos). lia.
  - eapply Forall_impl; [exact F2|]. intros []; cbn [store_within]; try done.
    intros (? & ? & Hw). split_and!; [done..|]. intros pos Hpos. specialize (Hw pos Hpos).
    revert Hw. rewrite wrap_once by lia. destruct (Z.leb_spec L (h + n)); lia.
Qed.
Lemma tx_write_run p (w : W) l hdr data :
  ring p → used p + Z.of_nat (List.length (hdr ++ data)) + 16 <= length p →
  ∃ before h pad,
    let sts := before ++ [StBarrier; StHead h] in
    glink_spss_tx_write hdr data (mkM p w l) = Ret (tt, mkM (foldl apply_store p sts) w (l ++ sts))
    ∧ Forall (store_within (length p) (head p) (Z.of_nat (List.length (hdr ++ data)))) before
    ∧ ring (foldl apply_store p sts)
    ∧ contents (foldl apply_store p sts) = contents p ++ hdr ++ data ++ pad
    ∧ (List.length pad < 8)%nat.
Proof.
  intros Hp Hfit. pose proof Hp as [Hl Hs H8 Ht Hh]. pose proof (used_bounds p Hp) as Hub.
  rewrite length_app in Hfit. unfold glink_spss_tx_write.
  destruct (write_one_run p w l (head p) hdr) as (s1 & E1 & F1 & W1); [done|done|lia|].
  set (p1 := foldl apply_store p s1) in *. set (h1 := (head p + _) mod length p) in *.
  assert (ring p1) as Hp1 by (by apply (ring_foldl p s1); try apply W1).
  assert (0 <= h1 < length p) as Hh1 by (apply Z.mod_pos_bound; lia).
  assert (length p1 = length p) as HL1 by apply W1.
  destruct (write_one_run p1 w (l ++ s1) h1 data) as (s2 & E2 & F2 & W2); [done|by rewrite HL1|lia|].
  set (p2 := foldl apply_store p1 s2) in *. rewrite HL1 in E2. set (h2 := (h1 + _) mod length p) in *.
  assert (ring p2) as Hp2 by (by apply (ring_foldl p1 s2); try apply W2).
  assert (0 <= h2 < length p) as Hh2 by (apply Z.mod_pos_bound; lia).
  assert (length p2 = length p) as HL2 by (rewrite (proj1 W2); exact HL1).
  destruct (aligned_head (length p) h2) as (Ea & Hh3 & Hpad); [done|done|lia|].
  set (h3 := (h2 + padding h2) mod length p) in *. set (n := Z.of_nat (List.length hdr)) in *.
  set (m := Z.of_nat (List.length data)) in *.
  assert (Z.of_nat (List.length (hdr ++ data)) = n + m) as Hn by (rewrite length_app; lia).
  set (q := foldl apply_store p ((s1 ++ s2) ++ [StBarrier; StHead h3])).
  assert (q = p2 <| head := h3 |>) as Hqe by (subst q p2 p1; by rewrite !foldl_app).
  assert (ring q) as Hq by (rewrite Hqe; apply ring_set_head; [done|by rewrite HL2]).
  assert (used q = used p + n + m + padding h2) as Hu.
  { unfold used at 1. rewrite Hqe. cbn [head tail length over_field].
    rewrite HL2, (proj1 (proj2 W2)), (proj1 (proj2 W1)). subst h3 h2 h1.
    rewrite mod_chain by lia. fold (used p) n m. rewrite Z.mod_small by lia. lia. }
  assert (tail q = tail p ∧ length q = length p) as [Htq HLq].
  { rewrite Hqe. split; [|exact HL2]. exact (eq_trans (proj1 (proj2 W2)) (proj1 (proj2 W1))). }
  assert (∀ s i, ring_at q s i = ring_at p2 s i) as Hat by (intros; by rewrite Hqe).
  assert (contents q = contents p ++ (hdr ++ data)
    ++ drop (Z.to_nat (used p + (n + m))) (contents q)) as Hc.
  { rewrite <-Hn. apply (contents_grow p q (hdr ++ data) (padding h2)); [done..|lia|lia|].
    intros i Hi. rewrite Hat, (two_writes p p1 p2 hdr data) by (done || lia). fold n m. rewrite Hn.
    destruct (Z.ltb_spec i n), (Z.ltb_spec i (n + m)); try lia; [..|done].
    - rewrite lookup_app_l by lia. done.
    - rewrite lookup_app_r by lia. f_equal. lia. }
  exists (s1 ++ s2), h3, (drop (Z.to_nat (used p + (n + m))) (contents q)).
  cbv zeta. fold q. split; [|split; [|split; [done|split]]].
  - erewrite bind_ret by reflexivity. cbn [drv]. erewrite bind_ret by exact E1.
    erewrite bind_ret by exact E2. cbv zeta. rewrite Ea. fold h3.
    rewrite (bind_ret _ _ _ _ _ (perform_run _ _ _ _)), perform_run, Hqe. by rewrite <-!app_assoc.
  - rewrite Hn. rewrite HL1 in F2. apply (within_both (length p) (head p) n m s1 s2); try done; lia.
  - by rewrite Hc, <-app_assoc at 1.
  - rewrite length_drop.
    assert (Z.of_nat (List.length (contents q)) = used q) by (apply bytes_length; [done|lia]). lia.
Qed.
End write.

(** ** Reading *)

Section read.
Context {W : Type}.
Lemma contents_length p : ring p → Z.of_nat (List.length (contents p)) = used p.
Proof. intros Hp. apply bytes_length; [done|]. by apply used_bounds. Qed.
Lemma rx_avail_run p (w : W) l : ring p →
  glink_spss_rx_avail (mkM p w l) = Ret (used p, mkM p w l).
Proof.
  intros Hp. pose proof (used_eq p Hp) as Hu. destruct Hp. unfold glink_spss_rx_avail.
  erewrite bind_ret by reflexivity. cbn [drv]. unfold mret, M_ret. rewrite Hu. repeat f_equal.
  destruct (Z.ltb_spec (head p) (tail p)); [apply u64_small|apply u32_small]; lia.
Qed.
Lemma copy_from_run p (w : W) l o n : ring p → 0 <= o → o + n <= length p →
  copy_from o n (mkM p w l) = Ret (take (Z.to_nat n) (drop (Z.to_nat o) (fifo p)), mkM p w l).
Proof.
  intros Hp Ho Hn. unfold copy_from. erewrite bind_ret by reflexivity. cbn [drv].
  by rewrite in_ring_true.
Qed.
Lemma copy_from_if_run (c : bool) p (w : W) l o n :
  ring p → 0 <= o → o + n <= length p → (c = false → n = 0) →
  (if c then copy_from o n else mret []) (mkM p w l) =
    Ret (take (Z.to_nat n) (drop (Z.to_nat o) (fifo p)), mkM p w l).
Proof.
  intros Hp Ho Hn Hc. destruct c; [by apply copy_from_run|]. by rewrite (Hc eq_refl).
Qed.
Lemma rx_peak_run p (w : W) l off n :
  ring p → 0 <= off → 0 <= n → off + n <= used p →
  glink_spss_rx_peak off n (mkM p w l) =
    Ret (take (Z.to_nat n) (drop (Z.to_nat off) (contents p)), mkM p w l).
Proof.
  intros Hp Ho Hn Hfit. pose proof Hp as [Hl Hs _ Ht _]. pose proof (used_bounds p Hp).
  unfold glink_spss_rx_peak. erewrite bind_ret by reflexivity. cbv zeta. cbn [drv].
  assert ((if length p <=? u32 (tail p + off) then u32 (u32 (tail p + off) - length p)
    else u32 (tail p + off)) = (tail p + off) mod length p) as ->.
  { rewrite (u32_small (tail p + off)), wrap_once by lia.
    destruct (Z.leb_spec (length p) (tail p + off)); [|done]. apply u32_small. lia. }
  assert (0 <= (tail p + off) mod length p < length p) as Hb by (apply Z.mod_pos_bound; lia).
  rewrite u64_small by lia. set (t := (tail p + off) mod length p) in *.
  set (len := Z.min n (length p - t)).
  erewrite bind_ret by (apply copy_from_if_run; [done|lia|lia|intros E; apply negb_false_iff in E; lia]).
  erewrite bind_ret by (apply copy_from_if_run; [done|lia|lia|intros E; apply negb_false_iff in E; lia]).
  unfold mret, M_ret. do 2 f_equal. change (Z.to_nat 0) with 0%nat. rewrite drop_0.
  apply list_eq. intros j.
  assert (take (Z.to_nat n) (drop (Z.to_nat off) (contents p)) !! j =
    if decide (Z.of_nat j < n) then ring_at p t (Z.of_nat j) else None) as ->.
  { destruct (decide (Z.of_nat j < n)); [|by rewrite lookup_take_ge by lia].
    rewrite lookup_take_lt, lookup_drop by lia. unfold contents. rewrite bytes_lookup by (done || lia).
    destruct (Z.ltb_spec (Z.of_nat (Z.to_nat off + j)) (used p)); [|lia].
    unfold t. rewrite ring_at_mod, ring_at_shift by done. f_equal. lia. }
  assert (List.length (take (Z.to_nat len) (drop (Z.to_nat t) (fifo p))) = Z.to_nat len) as Hlt
    by (rewrite length_take, length_drop; lia).
  unfold ring_at. destruct (decide (Z.of_nat j < n)); cycle 1.
  { apply lookup_ge_None. rewrite length_app, Hlt, length_take. lia. }
  rewrite wrap_once by lia. destruct (decide (Z.of_nat j < len)).
  - rewrite lookup_app_l, lookup_take_lt, lookup_drop by lia.
    destruct (Z.leb_spec (length p) (t + Z.of_nat j)); [lia|]. f_equal. lia.
  - rewrite lookup_app_r, Hlt, lookup_take_lt by lia.
    destruct (Z.leb_spec (length p) (t + Z.of_nat j)); [|lia]. f_equal. lia.
Qed.
Lemma rx_advance_run p (w : W) l n :
  ring p → 0 <= n <= used p →
  ∃ t, let q := apply_store p (StTail t) in
  glink_spss_rx_advance n (mkM p w l) = Ret (tt, mkM q w (l ++ [StTail t]))
  ∧ ring q ∧ contents q = drop (Z.to_nat n) (contents p).
Proof.
  intros Hp Hn. pose proof Hp as [Hl Hs H8 Ht Hh]. pose proof (used_bounds p Hp) as Hub.
  exists ((tail p + n) mod length p). cbv zeta. set (q := apply_store p _).
  assert (0 <= (tail p + n) mod length p < length p) as Hb by (apply Z.mod_pos_bound; lia).
  assert (ring q) as Hq by by split.
  assert (used q = used p - n) as Hu.
  { unfold used at 1. subst q. cbn [apply_store head tail length over_field].
    rewrite Zminus_mod_idemp_r, Z.sub_add_distr, <-Zminus_mod_idemp_l.
    fold (used p). apply Z.mod_small. lia. }
  split; [|split; [done|]].
  - unfold glink_spss_rx_advance. erewrite bind_ret by reflexivity. cbv zeta. cbn [drv].
    rewrite perform_run. do 4 f_equal.
    all: rewrite (u32_small (tail p + n)), wrap_once by lia;
      destruct (Z.leb_spec (length p) (tail p + n)); [|done]; by rewrite u32_small by lia.
  - apply list_eq. intros j. rewrite lookup_drop. unfold contents.
    rewrite !bytes_lookup by (done || lia). rewrite Hu.
    destruct (Z.ltb_spec (Z.of_nat j) (used p - n)),
      (Z.ltb_spec (Z.of_nat (Z.to_nat n + j)) (used p)); try lia; [|done].
    change (ring_at q (tail q)) with (ring_at p ((tail p + n) mod length p)).
    rewrite ring_at_mod, ring_at_shift by done. f_equal. lia.
Qed.
Lemma tx_avail_run p (w : W) l : ring p →
  glink_spss_tx_avail (mkM p w l) =
    Ret (Z.max 0 (length p - used p - 16), mkM p w l).
Proof.
  intros Hp. pose proof (used_eq p Hp) as Hu. destruct Hp. unfold glink_spss_tx_avail.
  erewrite bind_ret by reflexivity. cbv zeta. cbn [drv]. unfold mret, M_ret. repeat f_equal.
  rewrite Hu. unfold FIFO_FULL_RESERVE, TX_BLOCKED_CMD_RESERVE.
  destruct (Z.leb_spec (tail p) (head p)), (Z.ltb_spec (head p) (tail p)); try lia;
    rewrite u32_small by lia;
    match goal with |- context [?a <? 8 + 8] => destruct (Z.ltb_spec a (8 + 8)) end; lia.
Qed.
End read.

(** C9: A pipe whose indices are in range is a queue of bytes.  [tx_avail] leaves 16
    bytes of it free; a write of at most that many bytes appends the header, the data
    and fewer than eight bytes of padding, and whatever part of its stores before the
    barrier the other end sees, in whatever order, it sees the queue unchanged.
    [rx_avail] is the queue's length, a peek within it returns the bytes asked for
    across the end of the ring and changes nothing, an advance drops that many; none
    of them touches memory outside the ring, and the indices stay in range. *)
Theorem pipe_is_a_queue {W} p (w : W) l :
  ring p →
  let avail := Z.max 0 (length p - used p - 16) in
  glink_spss_tx_avail (mkM p w l) = Ret (avail, mkM p w l)
  ∧ (∀ hdr data, 0 < Z.of_nat (List.length (hdr ++ data)) <= avail → ∃ before h pad,
       let p' := foldl apply_store p (before ++ [StBarrier; StHead h]) in
       glink_spss_tx_write hdr data (mkM p w l) =
         Ret (tt, mkM p' w (l ++ before ++ [StBarrier; StHead h]))
       ∧ (∀ seen, (∀ s, s ∈ seen → s ∈ before) → contents (foldl apply_store p seen) = contents p)
       ∧ ring p' ∧ contents p' = contents p ++ hdr ++ data ++ pad ∧ (List.length pad < 8)%nat)
  ∧ glink_spss_rx_avail (mkM p w l) = Ret (Z.of_nat (List.length (contents p)), mkM p w l)
  ∧ (∀ off n, 0 <= off → 0 <= n → off + n <= Z.of_nat (List.length (contents p)) →
       glink_spss_rx_peak off n (mkM p w l) =
         Ret (take (Z.to_nat n) (drop (Z.to_nat off) (contents p)), mkM p w l))
  ∧ (∀ n, 0 <= n <= Z.of_nat (List.length (contents p)) → ∃ t,
       let p' := apply_store p (StTail t) in
       glink_spss_rx_advance n (mkM p w l) = Ret (tt, mkM p' w (l ++ [StTail t]))
       ∧ ring p' ∧ contents p' = drop (Z.to_nat n) (contents p)).
Proof.
  intros Hp. cbv zeta. rewrite contents_length by done.
  split; [by apply tx_avail_run|]. split; [|split; [by apply rx_avail_run|split]].
  - intros hdr data Hn.
    destruct (tx_write_run p w l hdr data Hp ltac:(lia)) as (before & h & pad & E & Hb & Hq & Hc & Hl).
    exists before, h, pad. split; [exact E|]. split; [|done].
    intros seen Hseen. apply (early_stores p seen (Z.of_nat (List.length (hdr ++ data)))); [done|lia..|].
    apply Forall_forall. intros s Hs. by apply (proj1 (Forall_forall _ _) Hb), Hseen.
  - intros off n Ho Hn Hf. by apply rx_peak_run.
  - intros n Hn. by apply rx_advance_run.
Qed.
(** A ring of 40 bytes with three unread ones across its end. *)
Definition small_pipe : glink_spss_pipe := mkPipe 40 38 1 (seqZ 100 40).
Lemma pipe_is_a_queue_witness :
  contents small_pipe = [138; 139; 100]
  ∧ glink_spss_rx_peak 1 2 (mkM (E := store) small_pipe tt []) =
      Ret ([139; 100], mkM small_pipe tt [])
  ∧ ∃ m, glink_spss_tx_write [1; 2] [3] (mkM (E := store) small_pipe tt []) = Ret (tt, m)
      ∧ take 6 (contents (drv m)) = [138; 139; 100; 1; 2; 3].
Proof.
  assert (ring small_pipe) as Hp by (split; vm_compute; intuition discriminate).
  assert (contents small_pipe = [138; 139; 100]) as Hc by (vm_compute; reflexivity).
  assert (length small_pipe - used small_pipe - 16 = 21) as Ha by (vm_compute; reflexivity).
  destruct (pipe_is_a_queue small_pipe tt [] Hp) as (_ & Hw & _ & Hr & _).
  rewrite Hc, Ha in *. split; [done|]. split; [exact (Hr 1 2 ltac:(lia) ltac:(lia) ltac:(cbn; lia))|].
  destruct (Hw [1; 2] [3] ltac:(cbn; lia)) as (before & h & pad & E & _ & _ & Hq & _).
  eexists. split; [exact E|]. cbn [drv]. by rewrite Hq.
Defined.

(** ** Registration *)

Record holding := mkHolding { held : list handle; irq_on : bool; frees : Z }.
#[export] Instance eta_holding : Eta holding := fun r => mkHolding (held r) (irq_on r) (frees r).
Definition hold (b : holding) (e : glink_event) : holding :=
  match e with
  | GlGet h ret => if ret <? 0 then b else b <| held ::= cons h |>
  | GlPut h => b <| held ::= filter (fun x => x ≠ h) |>
  | GlIrq on => b <| irq_on := on |>
  | GlFree => b <| frees ::= Z.succ |>
  | _ => b
  end.
Definition empty_handed : holding := mkHolding [] false 0.

Section registration.
Context {W : Type} (a : glink_answers).
Abbreviation vc := (vc (W := W) (E := glink_event) hold empty_handed).

(** What an error, and what success, leave behind. *)
Definition undone (r : Z) (d : qcom_glink_spss) (b : holding) : Prop :=
  r < 0 ∧ held b = [] ∧ irq_on b = false ∧ allocated d = false ∧ frees b = 1.
Definition registered (d : qcom_glink_spss) (b : holding) : Prop :=
  held b = [Glink; Mailbox; Irq; Device] ∧ irq_on b = true ∧ frees b = 0 ∧ allocated d = true
  ∧ rx_tail (cfg d) = 0 ∧ tx_head (cfg d) = 0
  ∧ tx_fifo_size (cfg d) = SPSS_TX_FIFO_SIZE ∧ rx_fifo_size (cfg d) = SPSS_RX_FIFO_SIZE.
Definition outcome_of (r : Z) (d : qcom_glink_spss) (b : holding) : Prop :=
  undone r d b ∨ r = 0 ∧ registered d b.

Lemma put_dev_spec (req : bool) (ret : Z) d b :
  ret < 0 → held b = (if req then [Irq; Device] else [Device]) → irq_on b = false → frees b = 0 →
  vc (err_put_dev req ret) undone d b.
Proof.
  intros Hr Hh Hi Hf. unfold err_put_dev, device_unregister, qcom_glink_spss_release.
  destruct b as [h i f]. cbn in Hh, Hi, Hf. subst.
  destruct req; repeat vc_step; by split_and!.
Qed.
Lemma advertise_spec size addr d b :
  held b = [Device] →
  vc (glink_spss_advertise_cfg a size addr) (fun r d' b' => d' = d ∧ b' = b ∧ r <= 0) d b.
Proof.
  intros Hh. destruct b as [h i f]. cbn in Hh. subst h. unfold glink_spss_advertise_cfg.
  repeat first [vc_step | match goal with |- vc (if ?c then _ else _) _ _ _ => destruct c end];
    by split_and!.
Qed.
Lemma interrupt_spec d b :
  g_request_irq a <= 0 → held b = [Device] → irq_on b = false → frees b = 0 → allocated d = true →
  rx_tail (cfg d) = 0 → tx_head (cfg d) = 0 → tx_fifo_size (cfg d) = SPSS_TX_FIFO_SIZE →
  rx_fifo_size (cfg d) = SPSS_RX_FIFO_SIZE →
  vc (request_interrupt a) outcome_of d b.
Proof.
  intros Hrq Hh Hi Hf Hal H1 H2 H3 H4. unfold request_interrupt. destruct b as [h i f].
  cbn in Hh, Hi, Hf. subst. apply vc_bind, vc_mod.
  destruct (g_irq a <? 0) eqn:E1.
  { eapply vc_mono; [apply put_dev_spec; [lia|done..]|]. intros r d' b' ?. by left. }
  apply vc_bind, vc_emit. cbn [hold]. destruct (g_request_irq a =? 0) eqn:E2; cbn [negb]; cycle 1.
  { destruct (g_request_irq a <? 0) eqn:E3; [|lia].
    eapply vc_mono; [apply put_dev_spec; [lia|done..]|]. intros r d' b' ?. by left. }
  destruct (g_request_irq a <? 0) eqn:E3; [lia|].
  unfold request_channel. apply vc_bind, vc_emit. cbn [hold]. destruct (g_mbox a <? 0) eqn:E4.
  { eapply vc_mono; [apply put_dev_spec; [lia|done..]|]. intros r d' b' ?. by left. }
  unfold probe_native. apply vc_bind, vc_emit. cbn [hold]. destruct (g_native a <? 0) eqn:E5.
  { unfold err_free_mbox. apply vc_bind, vc_emit.
    eapply vc_mono; [apply put_dev_spec; [lia|done..]|]. intros r d' b' ?. by left. }
  apply vc_bind, vc_emit, vc_ret. right. by split_and!.
Qed.
Lemma glink_register_spec d :
  g_device a <= 0 → g_remote_pid a <= 0 → g_smem_alloc a <= 0 → g_request_irq a <= 0 →
  g_alloc a = true →
  vc (qcom_glink_spss_register a) outcome_of d empty_handed.
Proof.
  intros Hd Hpid Hsa Hrq Hal. unfold qcom_glink_spss_register. rewrite Hal. cbn [negb].
  assert (∀ ret d b, ret < 0 → b = mkHolding [Device] false 0 →
    vc (err_put_dev false ret) outcome_of d b) as Hput.
  { intros ret d' b Hr ->. eapply vc_mono; [apply put_dev_spec; [exact Hr|done..]|].
    intros r d'' b'' ?. by left. }
  apply vc_bind, vc_mod, vc_bind, vc_emit. cbn [hold].
  destruct (g_device a =? 0) eqn:E1; cbn [negb]; cycle 1.
  { destruct (g_device a <? 0) eqn:E2; [|lia]. unfold qcom_glink_spss_release. repeat vc_step.
    left. split_and!; [lia|done..]. }
  destruct (g_device a <? 0) eqn:E2; [lia|].
  destruct (g_remote_pid a =? 0) eqn:E3; cbn [negb]; [|apply Hput; [lia|done]].
  destruct (g_pipes a); cbn [negb]; [|apply Hput; [done|done]].
  unfold take_descriptors. destruct (_ && _) eqn:E4; [apply Hput; [lia|done]|].
  destruct (g_smem_get a) as [ret size]. destruct (ret <? 0) eqn:E5; [apply Hput; [lia|done]|].
  destruct (size =? total_size); cbn [negb]; [|apply Hput; done].
  unfold set_up_cfg. apply vc_bind, vc_mod. eapply vc_call; [by apply advertise_spec|].
  intros r d1 b1 (-> & -> & Hr). destruct (r =? 0) eqn:E6; cbn [negb]; [|apply Hput; [lia|done]].
  by apply interrupt_spec.
Qed.
Lemma unregister_spec d b :
  registered d b →
  vc qcom_glink_spss_unregister (fun _ d' b' => held b' = [] ∧ irq_on b' = false ∧ frees b' = 1
    ∧ allocated d' = false) d b.
Proof.
  intros (Hh & Hi & Hf & Hal & _). destruct b as [h i f]. cbn in Hh, Hi, Hf. subst.
  unfold qcom_glink_spss_unregister, device_unregister, qcom_glink_spss_release.
  apply vc_bind, vc_drv. rewrite Hal. cbn [negb]. repeat vc_step. by split_and!.
Qed.
End registration.

(** The registration of the transport either returns an error with everything it
    took given back, the structure freed exactly once and the interrupt off; or
    succeeds with the device, the interrupt, the mailbox and the GLINK instance held,
    the indices it owns zeroed, both ring sizes published and no mapping left over,
    and then unregistering gives all of that back and frees the structure. *)
Theorem registration_balances {W} (a : glink_answers) (c : glink_spss_cfg) (w : W) r m :
  g_device a <= 0 → g_remote_pid a <= 0 → g_smem_alloc a <= 0 → g_request_irq a <= 0 →
  qcom_glink_spss_register a (mkM (mkSpss c 0 false) w []) = Ret (r, m) →
  let b := audit hold empty_handed (log m) in
  (r < 0 → held b = [] ∧ irq_on b = false ∧ allocated (drv m) = false
    ∧ frees b = (if g_alloc a then 1 else 0))
  ∧ (0 <= r → r = 0 ∧ held b = [Glink; Mailbox; Irq; Device] ∧ irq_on b = true
    ∧ rx_tail (cfg (drv m)) = 0 ∧ tx_head (cfg (drv m)) = 0
    ∧ tx_fifo_size (cfg (drv m)) = SPSS_TX_FIFO_SIZE ∧ rx_fifo_size (cfg (drv m)) = SPSS_RX_FIFO_SIZE
    ∧ ∃ m', qcom_glink_spss_unregister m = Ret (tt, m')
      ∧ let b' := audit hold empty_handed (log m') in
        held b' = [] ∧ irq_on b' = false ∧ frees b' = 1 ∧ allocated (drv m') = false).
Proof.
  intros Hd Hpid Hsa Hrq H. cbv zeta. destruct (g_alloc a) eqn:Hal; cycle 1.
  { revert H. unfold qcom_glink_spss_register. rewrite Hal. intros [= <- <-]. by split. }
  pose proof (vc_use hold empty_handed _ _ (mkM (mkSpss c 0 false) w []) m r
    (glink_register_spec a (mkSpss c 0 false) Hd Hpid Hsa Hrq Hal) H) as Ho.
  destruct Ho as [(Hr & Hh & Hi & Hall & Hf)|[-> Hreg]].
  - split; [intros _; by split_and!|lia].
  - split; [lia|]. intros _. pose proof Hreg as (Hh & Hi & _ & _ & H1 & H2 & H3 & H4).
    split_and!; try done. destruct m as [d w' l].
    destruct (vc_run _ _ _ _ _ _ w' l (unregister_spec d _ Hreg) eq_refl) as ([] & m' & E & Hq).
    by exists m'.
Qed.

Definition good_answers : glink_answers :=
  mkAnswers true 0 0 true (- EEXIST) (0, total_size) 0 1 true true true true 0x80000000 77 0 0 0.
Lemma registration_balances_witness :
  ∃ m m', qcom_glink_spss_register good_answers (mkM (mkSpss (mkCfg 5 6 0 7 8 0) 0 false) tt []) = Ret (0, m)
    ∧ held (audit hold empty_handed (log m)) = [Glink; Mailbox; Irq; Device]
    ∧ qcom_glink_spss_unregister m = Ret (tt, m')
    ∧ held (audit hold empty_handed (log m')) = [].
Proof.
  assert (∃ m, qcom_glink_spss_register good_answers
    (mkM (mkSpss (mkCfg 5 6 0 7 8 0) 0 false) tt []) = Ret (0, m)) as [m E0]
    by (eexists; vm_compute; reflexivity).
  destruct (registration_balances good_answers (mkCfg 5 6 0 7 8 0) tt 0 m) as [_ H];
    [vm_compute; discriminate..|exact E0|].
  destruct (H ltac:(lia)) as (_ & Hh & _ & _ & _ & _ & _ & m' & E & Hm & _).
  by exists m, m'.
Defined.
