(* ===== verification/SpHlosHeap.v ===== *)
(** [qcom_sp_hlos_heap.c]: the DMA-BUF heap whose buffers are shared with the secure
    processor.  The contiguous allocator, the secure monitor and the DMA-BUF core are
    its environment; the page frames the allocator has handed out are part of the
    state. *)
From S2P Require Import Prelude Bus.

Definition PAGE_SHIFT := 12.
Definition PAGE_SIZE := 4096.
Definition SP_HLOS_HEAP_MAX_SIZE := 16777216.
Definition VM_SHARED := 0x8.
Definition VM_MAYSHARE := 0x80.
Definition u64 (z : Z) : Z := z mod 2 ^ 64.
Definition PAGE_ALIGN (len : Z) : Z := Z.land (u64 (len + PAGE_SIZE - 1)) (u64 (Z.lnot (PAGE_SIZE - 1))).

(** [struct sp_hlos_attachment], [struct sp_hlos_buffer]: pages are frame numbers. *)
Record sp_hlos_attachment := mkAttach { a_handle : Z; dev : Z; mapped : bool }.
#[export] Instance eta_attach : Eta sp_hlos_attachment := fun r =>
  mkAttach (a_handle r) (dev r) (mapped r).
Record sp_hlos_buffer := mkBuffer {
  attachments : list sp_hlos_attachment; len : Z; cma_pages : Z; pages : list Z; pagecount : Z;
  vmap_count : Z; vaddr : Z
}.
#[export] Instance eta_buffer : Eta sp_hlos_buffer := fun r =>
  mkBuffer (attachments r) (len r) (cma_pages r) (pages r) (pagecount r) (vmap_count r) (vaddr r).

(** The live DMA-BUFs with their buffers, the next handle, and the frames the
    contiguous allocator has handed out. *)
Record sp_hlos := mkHlos { buffers : gmap Z sp_hlos_buffer; next_handle : Z; taken : gset Z }.
#[export] Instance eta_hlos : Eta sp_hlos := fun r => mkHlos (buffers r) (next_handle r) (taken r).

(** The virtual machines of the secure monitor; every permission is read-write. *)
Inductive vmid := VMID_HLOS | VMID_CP_SPSS_HLOS_SHARED.
#[export] Instance vmid_eq_dec : EqDecision vmid.
Proof. solve_decision. Defined.

Inductive allocation := Buffer | Pages | Attachment.
Inductive direction := ForCpu | ForDevice.
Inductive hz_event :=
  | HzAlloc (a : allocation)
  | HzFree (a : allocation)
  | HzCmaAlloc (page count : Z)
  | HzCmaRelease (page count : Z)
  | HzClear (page count : Z)
  | HzAssign (addr size : Z) (owners dests : list vmid) (ret : Z)
  | HzVmap (addr : Z) | HzVunmap (addr : Z)
  | HzRange (d : direction) (addr size : Z)     (* invalidate, flush *)
  | HzMap (dev ret : Z) | HzUnmap (dev : Z)
  | HzSync (d : direction) (dev : Z)
  | HzInsert (page : Z)
  | HzWarn.

Class HeapEnv (W : Type) := {
  kmalloc : allocation → W → bool * W;
  (** From the frames that are not taken. *)
  cma_alloc : gset Z → Z → Z → W → option Z * W;
  get_order : Z → Z;
  CONFIG_CMA_ALIGNMENT : Z;
  (** The physical address, the size, the owners so far and the new ones. *)
  qcom_scm_assign_mem : Z → Z → list vmid → list vmid → W → Z * W;
  (** An error (negative) or 0. *)
  dma_buf_export : Z → Z → W → Z * W;
  sg_alloc_table_from_pages : list Z → Z → W → Z * W;
  dma_map_sgtable : Z → W → Z * W;
  (** [None]: NULL. *)
  vmap_pages : list Z → Z → W → option Z * W;
  vmf_insert_pfn : Z → W → Z * W;
}.
(** What the contiguous allocator promises. *)
Class HeapLaws (W : Type) `{!HeapEnv W} := {
  cma_alloc_free t n align w page :
    (cma_alloc t n align w).1 = Some page → ∀ p, page <= p < page + n → p ∉ t;
}.

Section heap.
Context {W : Type} `{!HeapEnv W}.
Abbreviation M := (M (machine sp_hlos W hz_event)).

Definition page_to_phys (page : Z) : Z := Z.shiftl page PAGE_SHIFT.
Definition frames (page count : Z) : gset Z := list_to_set (seqZ page count).

(** [dmabuf->priv]; an access to a buffer that is gone faults. *)
Definition get_buffer (h : Z) : M sp_hlos_buffer :=
  d ← get_drv; match buffers d !! h with Some b => mret b | None => fault end.
Definition mod_buffer (h : Z) (f : sp_hlos_buffer → sp_hlos_buffer) : M unit :=
  b ← get_buffer h; mod_drv (fun d => d <| buffers ::= <[h := f b]> |>).
Definition kfree (a : allocation) : M unit := emit (HzFree a).
Definition kzalloc (a : allocation) : M bool :=
  ok ← ask (kmalloc a); (if ok : bool then emit (HzAlloc a) else skip);; mret ok.
Definition cma_release (page count : Z) : M unit :=
  mod_drv (fun d => d <| taken ::= fun t => t ∖ frames page count |>);; emit (HzCmaRelease page count).
Definition scm_assign (page size : Z) (owners dests : list vmid) : M Z :=
  ret ← ask (qcom_scm_assign_mem (page_to_phys page) size owners dests);
  emit (HzAssign (page_to_phys page) size owners dests ret);; mret ret.

(** *** Attachments *)

Definition sp_hlos_attach (h a device : Z) : M Z :=
  b ← get_buffer h;
  ok ← kzalloc Attachment;
  if negb ok then mret (- ENOMEM)
  else
    ret ← ask (sg_alloc_table_from_pages (pages b) (len b));
    if negb (ret =? 0) then (kfree Attachment;; mret ret)
    else
      mod_buffer h (fun b => b <| attachments ::= cons (mkAttach a device false) |>);;
      mret 0.
Definition sp_hlos_detach (h a : Z) : M unit :=
  mod_buffer h (fun b => b <| attachments ::= filter (fun x => a_handle x ≠ a) |>);;
  kfree Attachment.
Definition set_mapped (h a : Z) (v : bool) : M unit :=
  mod_buffer h (fun b => b <| attachments ::=
    map (fun x => if a_handle x =? a then x <| mapped := v |> else x) |>).
Definition sp_hlos_map_dma_buf (h a device : Z) : M Z :=
  ret ← ask (dma_map_sgtable device);
  emit (HzMap device ret);;
  if negb (ret =? 0) then mret ret else (set_mapped h a true;; mret 0).
Definition sp_hlos_unmap_dma_buf (h a device : Z) : M unit :=
  set_mapped h a false;; emit (HzUnmap device).

(** *** Access by the processor *)

Fixpoint sync_mapped (d : direction) (l : list sp_hlos_attachment) : M unit :=
  match l with
  | [] => skip
  | a :: l => (if mapped a then emit (HzSync d (dev a)) else skip);; sync_mapped d l
  end.
Definition cpu_access (d : direction) (h : Z) : M Z :=
  b ← get_buffer h;
  (if negb (vmap_count b =? 0) then emit (HzRange d (vaddr b) (len b)) else skip);;
  sync_mapped d (attachments b);;
  mret 0.
Definition sp_hlos_begin_cpu_access (h : Z) : M Z := cpu_access ForCpu h.
Definition sp_hlos_end_cpu_access (h : Z) : M Z := cpu_access ForDevice h.

Definition VM_FAULT_SIGBUS := 2.
(** [buffer->pages[pgoff]]: an index out of the array faults. *)
Definition sp_hlos_vm_fault (h pgoff : Z) : M Z :=
  b ← get_buffer h;
  if pagecount b <=? pgoff then mret VM_FAULT_SIGBUS
  else match pages b !! Z.to_nat pgoff with
  | Some page => emit (HzInsert page);; ask (vmf_insert_pfn page)
  | None => fault
  end.
Definition sp_hlos_mmap (h vm_flags : Z) : M Z :=
  b ← get_buffer h;
  mret (if Z.land vm_flags (Z.lor VM_SHARED VM_MAYSHARE) =? 0 then - EINVAL else 0).

Definition sp_hlos_vmap (h : Z) : M (Z + Z) :=
  b ← get_buffer h;
  if negb (vmap_count b =? 0) then
    (mod_buffer h (fun b => b <| vmap_count := s32 (vmap_count b + 1) |>);; mret (inr (vaddr b)))
  else
    v ← ask (vmap_pages (pages b) (pagecount b));
    match v with
    | None => mret (inl (- ENOMEM))
    | Some v =>
        emit (HzVmap v);;
        mod_buffer h (fun b => b <| vaddr := v |> <| vmap_count := 1 |>);;
        mret (inr v)
    end.
Definition sp_hlos_vunmap (h : Z) : M unit :=
  mod_buffer h (fun b => b <| vmap_count := s32 (vmap_count b - 1) |>);;
  b ← get_buffer h;
  if vmap_count b =? 0 then
    (emit (HzVunmap (vaddr b));; mod_buffer h (fun b => b <| vaddr := 0 |>))
  else skip.

(** *** The buffer's life *)

Definition hlos : list vmid := [VMID_HLOS].
Definition destinations : list vmid := [VMID_HLOS; VMID_CP_SPSS_HLOS_SHARED].
Definition both_owners : list vmid := [VMID_HLOS; VMID_CP_SPSS_HLOS_SHARED].

Definition sp_hlos_release (h : Z) : M unit :=
  b ← get_buffer h;
  (if negb (vmap_count b =? 0) then emit HzWarn;; emit (HzVunmap (vaddr b)) else skip);;
  ret ← scm_assign (cma_pages b) (len b) both_owners hlos;
  (if negb (ret =? 0) then skip else cma_release (cma_pages b) (pagecount b));;
  kfree Pages;;
  kfree Buffer;;
  mod_drv (fun d => d <| buffers ::= delete h |>).

(** The exits of [sp_hlos_allocate]. *)
Definition free_buffer (ret : Z) : M (Z + Z) := kfree Buffer;; mret (inl ret).
Definition free_cma (page count ret : Z) : M (Z + Z) := cma_release page count;; free_buffer ret.
Definition free_pages (page count ret : Z) : M (Z + Z) := kfree Pages;; free_cma page count ret.
Definition free_pages_only (ret : Z) : M (Z + Z) := kfree Pages;; kfree Buffer;; mret (inl ret).

Definition export_buffer (page size pagecount fd_flags : Z) : M (Z + Z) :=
  d ← get_drv;
  ret ← ask (dma_buf_export size fd_flags);
  if ret <? 0 then
    back ← scm_assign page size both_owners hlos;
    if negb (back =? 0) then free_pages_only ret else free_pages page pagecount ret
  else
    let h := next_handle d in
    mod_drv (fun d => d <| buffers ::= <[h := mkBuffer [] size page (seqZ page pagecount) pagecount 0 0]> |>
      <| next_handle := h + 1 |>);;
    mret (inr h).
(** The DMA-BUF's handle, or an error. *)
Definition sp_hlos_allocate (length fd_flags heap_flags : Z) : M (Z + Z) :=
  let size := PAGE_ALIGN length in
  let pagecount := Z.shiftr size PAGE_SHIFT in
  let align := Z.min (get_order size) CONFIG_CMA_ALIGNMENT in
  if (length =? 0) || (SP_HLOS_HEAP_MAX_SIZE <? length) || negb (heap_flags =? 0)
  then mret (inl (- EINVAL))
  else
    ok ← kzalloc Buffer;
    if negb ok then mret (inl (- ENOMEM))
    else
      d ← get_drv;
      p ← ask (cma_alloc (taken d) pagecount align);
      match p with
      | None => free_buffer (- ENOMEM)
      | Some page =>
          mod_drv (fun d => d <| taken ::= union (frames page pagecount) |>);;
          emit (HzCmaAlloc page pagecount);;
          emit (HzClear page pagecount);;
          ok ← kzalloc Pages;
          if negb ok then free_cma page pagecount (- ENOMEM)
          else
            ret ← scm_assign page size hlos destinations;
            if negb (ret =? 0) then free_pages page pagecount ret
            else export_buffer page size pagecount fd_flags
      end.
End heap.

(** [sp_hlos_heap_init]: the answers of the kernel. *)
Definition sp_hlos_heap_init (scm_available cma_area : bool) (dma_heap_add : Z) : Z :=
  if negb scm_available then - EPROBE_DEFER
  else if negb cma_area then - ENODEV
  else if dma_heap_add <? 0 then dma_heap_add
  else 0.
