(* ===== verification/SpHlosHeapProps.v ===== *)
(** The property of the shared heap: which page frames the secure processor can see,
    over any use of the buffers and any failure. *)
From S2P Require Import Prelude Bus SpHlosHeap.

(** ** The ledger of page frames

    A frame the allocator has handed out is the kernel's ([clean]: zeroed) or also
    the secure processor's.  [breach]: a frame went to the secure processor unzeroed
    or to the general pool while the secure processor could see it, or was handed
    out twice.  [refused]: the frames the secure monitor was asked to take from the
    secure processor and did not. *)
Inductive frame_state := Held (clean : bool) | Shared.
#[export] Instance frame_state_eq_dec : EqDecision frame_state.
Proof. solve_decision. Defined.
Record ledger := mkLedger { frame : gmap Z frame_state; breach : bool; objects : Z; arrays : Z;
  refused : gset Z }.
#[export] Instance eta_ledger : Eta ledger := fun r =>
  mkLedger (frame r) (breach r) (objects r) (arrays r) (refused r).

Definition set_frames (v : option frame_state) (l : list Z) (m : gmap Z frame_state) :
    gmap Z frame_state :=
  foldr (fun p => partial_alter (fun _ => v) p) m l.
Definition all_frames (ok : option frame_state → bool) (l : list Z) (m : gmap Z frame_state) : bool :=
  forallb (fun p => ok (m !! p)) l.
(** Move the frames from a state that is [ok] to [v]. *)
Definition move (ok : option frame_state → bool) (v : option frame_state) (page count : Z)
    (b : ledger) : ledger :=
  b <| breach := breach b || negb (all_frames ok (seqZ page count) (frame b)) |>
    <| frame ::= set_frames v (seqZ page count) |>.
Definition is_pool (s : option frame_state) : bool := bool_decide (s = None).
Definition is_held (s : option frame_state) : bool :=
  match s with Some (Held _) => true | _ => false end.
Definition is_clean (s : option frame_state) : bool := bool_decide (s = Some (Held true)).
Definition is_shared (s : option frame_state) : bool := bool_decide (s = Some Shared).

Definition book (b : ledger) (e : hz_event) : ledger :=
  match e with
  | HzAlloc Buffer => b <| objects ::= Z.succ |>
  | HzFree Buffer => b <| objects ::= Z.pred |>
  | HzAlloc Pages => b <| arrays ::= Z.succ |>
  | HzFree Pages => b <| arrays ::= Z.pred |>
  | HzCmaAlloc page count => move is_pool (Some (Held false)) page count b
  | HzClear page count => move is_held (Some (Held true)) page count b
  | HzCmaRelease page count => move is_held None page count b
  | HzAssign addr size owners dests ret =>
      let page := Z.shiftr addr PAGE_SHIFT in
      let count := Z.shiftr size PAGE_SHIFT in
      if negb (ret =? 0) then
        if bool_decide (VMID_CP_SPSS_HLOS_SHARED ∈ dests) then b
        else b <| refused ::= union (frames page count) |>
      else if bool_decide (VMID_CP_SPSS_HLOS_SHARED ∈ dests)
      then move is_clean (Some Shared) page count b
      else move is_shared (Some (Held false)) page count b
  | _ => b
  end.
Definition opening : ledger := mkLedger ∅ false 0 0 ∅.

(** ** The users *)

Inductive call :=
  | Allocate (length fd_flags heap_flags : Z) | Release (h : Z)
  | Attach (h a device : Z) | Detach (h a : Z) | MapDma (h a device : Z) | UnmapDma (h a device : Z)
  | BeginAccess (h : Z) | EndAccess (h : Z) | VmFault (h pgoff : Z) | Mmap (h flags : Z)
  | Vmap (h : Z) | Vunmap (h : Z).
Definition handle_of (c : call) : option Z :=
  match c with
  | Allocate _ _ _ => None
  | Release h | Attach h _ _ | Detach h _ | MapDma h _ _ | UnmapDma h _ _ | BeginAccess h
  | EndAccess h | VmFault h _ | Mmap h _ | Vmap h | Vunmap h => Some h
  end.
(** The DMA-BUF core calls on live buffers only. *)
Definition allowed (d : sp_hlos) (c : call) : Prop :=
  (∀ h, handle_of c = Some h → is_Some (buffers d !! h))
  ∧ match c with Allocate n _ _ => 0 <= n < 2 ^ 64 | VmFault _ off => 0 <= off | _ => True end.

Section calls.
Context {W : Type} `{!HeapEnv W}.
Definition run_call (c : call) : M (machine sp_hlos W hz_event) unit :=
  match c with
  | Allocate n f g => sp_hlos_allocate n f g;; skip
  | Release h => sp_hlos_release h
  | Attach h a dv => sp_hlos_attach h a dv;; skip
  | Detach h a => sp_hlos_detach h a
  | MapDma h a dv => sp_hlos_map_dma_buf h a dv;; skip
  | UnmapDma h a dv => sp_hlos_unmap_dma_buf h a dv
  | BeginAccess h => sp_hlos_begin_cpu_access h;; skip
  | EndAccess h => sp_hlos_end_cpu_access h;; skip
  | VmFault h off => sp_hlos_vm_fault h off;; skip
  | Mmap h f => sp_hlos_mmap h f;; skip
  | Vmap h => sp_hlos_vmap h;; skip
  | Vunmap h => sp_hlos_vunmap h
  end.
Inductive heap_step : machine sp_hlos W hz_event → machine sp_hlos W hz_event → Prop :=
  | StepCall c m m' : allowed (drv m) c → run_call c m = Ret (tt, m') → heap_step m m'.
End calls.

(** ** The invariant *)

Definition buffer_frames (f : sp_hlos_buffer) : list Z := seqZ (cma_pages f) (pagecount f).
Definition well_formed (f : sp_hlos_buffer) : Prop :=
  pages f = buffer_frames f ∧ pagecount f = Z.shiftr (len f) PAGE_SHIFT.
(** A frame of a live buffer. *)
Definition owned (d : sp_hlos) (p : Z) : Prop :=
  ∃ h f, buffers d !! h = Some f ∧ p ∈ buffer_frames f.
Record sound (d : sp_hlos) (b : ledger) : Prop := {
  no_breach : breach b = false;
  taken_shared : ∀ p, p ∈ taken d ↔ frame b !! p = Some Shared;
  none_held : ∀ p s, frame b !! p = Some s → s = Shared;
  live : ∀ h f, buffers d !! h = Some f →
    well_formed f ∧ ∀ p, p ∈ buffer_frames f → frame b !! p = Some Shared;
  apart : ∀ h1 h2 f1 f2 p, buffers d !! h1 = Some f1 → buffers d !! h2 = Some f2 →
    p ∈ buffer_frames f1 → p ∈ buffer_frames f2 → h1 = h2;
  handles : ∀ h, next_handle d <= h → buffers d !! h = None;
  accounted : ∀ p, p ∈ taken d ↔ owned d p ∨ p ∈ refused b;
  left_over : ∀ p, owned d p → p ∉ refused b;
  memory : objects b = Z.of_nat (size (buffers d)) ∧ arrays b = Z.of_nat (size (buffers d))
}.

Lemma lookup_set_frames v l m p :
  set_frames v l m !! p = if decide (p ∈ l) then v else m !! p.
Proof.
  induction l as [|q l IH]; cbn [set_frames foldr]; [by rewrite decide_False by apply not_elem_of_nil|].
  destruct (decide (p = q)) as [->|Hne].
  - rewrite lookup_partial_alter_eq. by rewrite decide_True by (apply elem_of_cons; by left).
  - rewrite lookup_partial_alter_ne by done. fold (set_frames v l m). rewrite IH.
    destruct (decide (p ∈ l)); [by rewrite decide_True by (apply elem_of_cons; by right)|].
    rewrite decide_False; [done|]. rewrite elem_of_cons. by intros [?|?].
Qed.
Arguments set_frames : simpl never.
Lemma all_frames_spec ok l m : all_frames ok l m = true ↔ ∀ p, p ∈ l → ok (m !! p) = true.
Proof.
  unfold all_frames. rewrite forallb_forall. split; intros H p Hp.
  - apply H. by apply list_elem_of_In.
  - apply H. by apply list_elem_of_In.
Qed.
(** A move from a state the frames are in is no breach. *)
Lemma move_ok ok v page count b :
  (∀ p, p ∈ seqZ page count → ok (frame b !! p) = true) →
  move ok v page count b = b <| frame ::= set_frames v (seqZ page count) |>.
Proof.
  intros H. unfold move. rewrite (proj2 (all_frames_spec ok _ _) H). cbn.
  rewrite orb_false_r. by destruct b.
Qed.
Lemma set_frames_twice v1 v2 l m : set_frames v2 l (set_frames v1 l m) = set_frames v2 l m.
Proof. apply map_eq. intros p. rewrite !lookup_set_frames. by destruct (decide (p ∈ l)). Qed.
Lemma set_frames_undo l m : (∀ p, p ∈ l → m !! p = None) → set_frames None l m = m.
Proof.
  intros H. apply map_eq. intros p. rewrite lookup_set_frames.
  destruct (decide (p ∈ l)); [by rewrite H|done].
Qed.
Lemma elem_of_frames p page count : p ∈ frames page count ↔ p ∈ seqZ page count.
Proof. unfold frames. by rewrite elem_of_list_to_set. Qed.

(** ** The calls keep the ledger sound *)

Definition same_pages (f f' : sp_hlos_buffer) : Prop :=
  cma_pages f' = cma_pages f ∧ pagecount f' = pagecount f ∧ pages f' = pages f ∧ len f' = len f.
Lemma sound_mod d b h f f' :
  sound d b → buffers d !! h = Some f → same_pages f f' → sound (d <| buffers ::= <[h := f']> |>) b.
Proof.
  intros [Hb Ht Hn Hl Ha Hh Hac Hlo [Hm1 Hm2]] Hf (E1 & E2 & E3 & E4).
  assert (∀ h1 f1, <[h:=f']> (buffers d) !! h1 = Some f1 →
    ∃ f0, buffers d !! h1 = Some f0 ∧ same_pages f0 f1) as Hback.
  { intros h1 f1. destruct (decide (h = h1)) as [->|Hne].
    - rewrite lookup_insert_eq. intros [= <-]. by exists f.
    - rewrite lookup_insert_ne by done. intros H1. by exists f1. }
  assert (∀ p, owned (d <| buffers ::= <[h:=f']> |>) p ↔ owned d p) as Hown.
  { intros p. split; intros (h1 & f1 & H1 & Hp).
    - destruct (Hback h1 f1 H1) as (f0 & H0 & S1 & S2 & _). exists h1, f0.
      unfold buffer_frames in *. by rewrite <-S1, <-S2.
    - destruct (decide (h = h1)) as [->|Hne].
      + exists h1, f'. cbn. rewrite lookup_insert_eq. split; [done|].
        unfold buffer_frames in *. rewrite E1, E2. congruence.
      + exists h1, f1. cbn. by rewrite lookup_insert_ne. }
  split; cbn [buffers taken next_handle over_field]; [done..| | | | | |].
  - intros h1 f1 H1. destruct (Hback h1 f1 H1) as (f0 & H0 & S1 & S2 & S3 & S4).
    destruct (Hl h1 f0 H0) as [[W1 W2] Hp]. unfold well_formed, buffer_frames in *.
    rewrite S1, S2, S3, S4. by split_and!.
  - intros h1 h2 f1 f2 p H1 H2. destruct (Hback h1 f1 H1) as (g1 & G1 & S1 & S2 & _).
    destruct (Hback h2 f2 H2) as (g2 & G2 & T1 & T2 & _). unfold buffer_frames. rewrite S1, S2, T1, T2.
    by apply Ha.
  - intros h1 H1. destruct (decide (h = h1)) as [->|Hne]; [by rewrite Hh in Hf by done|].
    rewrite lookup_insert_ne by done. by apply Hh.
  - intros p. rewrite Hown. apply Hac.
  - intros p. rewrite Hown. apply Hlo.
  - by rewrite map_size_insert_Some with (x' := f) || (rewrite map_size_insert, Hf; cbn).
Qed.
Lemma sound_same d b d' b' :
  sound d b → buffers d' = buffers d → next_handle d' = next_handle d → taken d' = taken d →
  frame b' = frame b → breach b' = breach b → objects b' = objects b → arrays b' = arrays b →
  refused b' = refused b → sound d' b'.
Proof.
  intros [? ? ? ? ? ? ? ? ?] E1 E2 E3 E4 E5 E6 E7 E8. unfold owned in *.
  split; unfold owned; by rewrite ?E1, ?E2, ?E3, ?E4, ?E5, ?E6, ?E7, ?E8.
Qed.

Section specs.
Context {W : Type} `{!HeapEnv W}.
Abbreviation vc := (vc (W := W) (E := hz_event) book opening).
Abbreviation M := (M (machine sp_hlos W hz_event)).

Lemma vc_buffer h f d b (Q : sp_hlos_buffer → sp_hlos → ledger → Prop) :
  buffers d !! h = Some f → Q f d b → vc (get_buffer h) Q d b.
Proof. intros Hf HQ. unfold get_buffer. apply vc_bind, vc_drv. rewrite Hf. by apply vc_ret. Qed.
(** A change of a live buffer that leaves its pages. *)
Lemma vc_mod_buffer h g d b :
  (∀ f, same_pages f (g f)) → sound d b → is_Some (buffers d !! h) →
  vc (mod_buffer h g) (fun _ d' b' => sound d' b' ∧ is_Some (buffers d' !! h)) d b.
Proof.
  intros Hg Hs [f Hf]. unfold mod_buffer. apply vc_bind. eapply vc_buffer; [exact Hf|].
  apply vc_mod. split; [by apply (sound_mod d b h f)|]. cbn [buffers over_field].
  rewrite lookup_insert_eq. by eexists.
Qed.
Lemma sync_spec dr l d b : sound d b → vc (sync_mapped dr l) (fun _ => sound) d b.
Proof.
  intros Hs. revert b Hs. induction l as [|a l IH]; intros b Hs; cbn [sync_mapped]; [by apply vc_skip|].
  apply vc_bind. destruct (mapped a); [apply vc_emit|apply vc_skip]; by apply IH.
Qed.
Lemma access_spec dr h d b :
  sound d b → is_Some (buffers d !! h) → vc (cpu_access dr h) (fun _ => sound) d b.
Proof.
  intros Hs [f Hf]. unfold cpu_access. apply vc_bind. eapply vc_buffer; [exact Hf|]. apply vc_bind.
  destruct (negb _); [apply vc_emit|apply vc_skip]; apply vc_bind;
    (eapply vc_mono; [by apply sync_spec|]); intros [] d' b' Hs'; by apply vc_ret.
Qed.
(** The calls that leave the pages where they are. *)
Lemma other_spec c d b :
  sound d b → allowed d c → (∀ n f g, c ≠ Allocate n f g) → (∀ h, c ≠ Release h) →
  vc (run_call c) (fun _ => sound) d b.
Proof.
  intros Hs [Hl Hr] Ha Hrel. destruct c as [n f g|h|h a dv|h a|h a dv|h a dv|h|h|h off|h fl|h|h];
    [by destruct (Ha n f g)|by destruct (Hrel h)|..]; specialize (Hl h eq_refl); destruct Hl as [f Hf];
    cbn [run_call].
  - unfold sp_hlos_attach, kzalloc, kfree. apply vc_bind, vc_bind. eapply vc_buffer; [exact Hf|].
    apply vc_bind, vc_bind, vc_ask. intros []; cbn [negb]; apply vc_bind; [apply vc_emit|apply vc_skip];
      apply vc_ret; [|by apply vc_ret, vc_skip].
    apply vc_bind, vc_ask. intros ret. destruct (ret =? 0); cbn [negb].
    + apply vc_bind. eapply vc_mono; [by apply vc_mod_buffer|]. intros [] d1 b1 [H1 _].
      by apply vc_ret, vc_skip.
    + by apply vc_bind, vc_emit, vc_ret, vc_skip.
  - unfold sp_hlos_detach, kfree. eapply vc_call; [by apply vc_mod_buffer|].
    intros [] d1 b1 [H1 _]. by apply vc_emit.
  - unfold sp_hlos_map_dma_buf, set_mapped. apply vc_bind, vc_bind, vc_ask. intros ret.
    apply vc_bind, vc_emit. destruct (ret =? 0); cbn [negb]; [|by apply vc_ret, vc_skip].
    apply vc_bind. eapply vc_mono; [by apply vc_mod_buffer|]. intros [] d1 b1 [H1 _].
    by apply vc_ret, vc_skip.
  - unfold sp_hlos_unmap_dma_buf, set_mapped. eapply vc_call; [by apply vc_mod_buffer|].
    intros [] d1 b1 [H1 _]. by apply vc_emit.
  - apply vc_bind. eapply vc_mono; [by apply access_spec|]. intros r d1 b1 H1. by apply vc_skip.
  - apply vc_bind. eapply vc_mono; [by apply access_spec|]. intros r d1 b1 H1. by apply vc_skip.
  - unfold sp_hlos_vm_fault. apply vc_bind, vc_bind. eapply vc_buffer; [exact Hf|].
    destruct (Z.leb_spec (pagecount f) off); [by apply vc_ret, vc_skip|].
    destruct (live _ _ Hs h f Hf) as [[Hpg _] _]. rewrite Hpg. unfold buffer_frames.
    rewrite lookup_seqZ_lt by lia. apply vc_bind, vc_emit, vc_ask. intros r. by apply vc_skip.
  - unfold sp_hlos_mmap. apply vc_bind, vc_bind. eapply vc_buffer; [exact Hf|]. by apply vc_ret, vc_skip.
  - unfold sp_hlos_vmap. apply vc_bind, vc_bind. eapply vc_buffer; [exact Hf|].
    destruct (negb _).
    + apply vc_bind. eapply vc_mono; [by apply vc_mod_buffer|]. intros [] d1 b1 [H1 _].
      by apply vc_ret, vc_skip.
    + apply vc_bind, vc_ask. intros [v|]; [|by apply vc_ret, vc_skip]. apply vc_bind, vc_emit, vc_bind.
      eapply vc_mono; [by apply vc_mod_buffer|]. intros [] d1 b1 [H1 _]. by apply vc_ret, vc_skip.
  - unfold sp_hlos_vunmap. eapply vc_call; [by apply vc_mod_buffer|].
    intros [] d1 b1 [H1 [f1 Hf1]]. apply vc_bind. eapply vc_buffer; [exact Hf1|].
    destruct (_ =? 0); [|by apply vc_skip]. apply vc_bind, vc_emit.
    eapply vc_mono; [by apply vc_mod_buffer|]. intros [] d2 b2 [H2 _]. exact H2.
Qed.

(** *** Allocation *)

Lemma phys_page page : Z.shiftr (page_to_phys page) PAGE_SHIFT = page.
Proof. unfold page_to_phys, PAGE_SHIFT. rewrite Z.shiftr_shiftl_l by lia. by rewrite Z.shiftl_0_r. Qed.
(** The ledger while a call holds the frames [l]. *)
Definition with_frames (v : option frame_state) (page count : Z) (b : ledger) : ledger :=
  b <| frame ::= set_frames v (seqZ page count) |>.
Lemma with_twice v1 v2 page count b :
  with_frames v2 page count (with_frames v1 page count b) = with_frames v2 page count b.
Proof.
  transitivity (mkLedger (set_frames v2 (seqZ page count) (set_frames v1 (seqZ page count) (frame b)))
    (breach b) (objects b) (arrays b) (refused b)); [done|]. by rewrite set_frames_twice.
Qed.
Lemma move_with ok v1 v2 page count b :
  ok v1 = true → move ok v2 page count (with_frames v1 page count b) = with_frames v2 page count b.
Proof.
  intros Hok. rewrite move_ok; [apply with_twice|]. intros p Hp. cbn [frame over_field with_frames].
  unfold with_frames. cbn. by rewrite lookup_set_frames, decide_True.
Qed.
Lemma with_none page count b : (∀ p, p ∈ seqZ page count → frame b !! p = None) →
  with_frames None page count b = b.
Proof.
  intros H. transitivity (mkLedger (set_frames None (seqZ page count) (frame b)) (breach b) (objects b)
    (arrays b) (refused b)); [done|]. rewrite set_frames_undo by done. by destruct b.
Qed.

Definition with_taken (page count : Z) (d : sp_hlos) : sp_hlos :=
  d <| taken ::= union (frames page count) |>.
Lemma taken_back page count d : (∀ p, p ∈ seqZ page count → p ∉ taken d) →
  (frames page count ∪ taken d) ∖ frames page count = taken d.
Proof.
  intros H. apply leibniz_equiv. intros p. rewrite elem_of_difference, elem_of_union, elem_of_frames.
  split; [by intros [[?|?] ?]|]. intros Hp. split; [by right|]. intros Hs. by apply (H p).
Qed.

(** [free_cma] undoes the allocation. *)
Lemma free_cma_spec page count ret s d b o a :
  sound d b → (∀ p, p ∈ seqZ page count → ¬ p ∈ taken d ∧ frame b !! p = None) →
  o = Z.succ (objects b) → a = arrays b →
  vc (free_cma page count ret) (fun _ => sound) (with_taken page count d)
    (with_frames (Some (Held s)) page count (b <| objects := o |> <| arrays := a |>)).
Proof.
  intros Hs Hfree -> ->. unfold free_cma, cma_release, free_buffer, kfree, with_taken.
  apply vc_bind, vc_bind, vc_mod, vc_emit, vc_bind, vc_emit, vc_ret. cbn [book].
  rewrite move_with by done. rewrite with_none by (intros p Hp; by apply Hfree).
  eapply sound_same; [exact Hs|done|done| |done|done| |done|done].
  - cbn [taken over_field]. apply taken_back. intros p Hp. by apply Hfree.
  - cbn. by rewrite Z.pred_succ.
Qed.

Definition counted (n m : Z) (b : ledger) : ledger :=
  b <| objects := objects b + n |> <| arrays := arrays b + m |>.
(** The frames stay with both owners, in a new buffer or, refused, in none. *)
Lemma shared_frame page count d b p :
  sound d b →
  (p ∈ taken (with_taken page count d) ↔ frame (with_frames (Some Shared) page count b) !! p = Some Shared)
  ∧ ∀ s, frame (with_frames (Some Shared) page count b) !! p = Some s → s = Shared.
Proof.
  intros Hs. unfold with_taken, with_frames. cbn [taken frame over_field].
  rewrite elem_of_union, elem_of_frames, lookup_set_frames. split.
  - destruct (decide (p ∈ seqZ page count)); [by split; [|left]|].
    rewrite <-(taken_shared _ _ Hs). by intuition.
  - intros s. destruct (decide _); [by intros [= <-]|by apply (none_held _ _ Hs)].
Qed.
Lemma still_live page count d b h f :
  sound d b → buffers d !! h = Some f →
  well_formed f ∧ ∀ p, p ∈ buffer_frames f →
    frame (with_frames (Some Shared) page count b) !! p = Some Shared.
Proof.
  intros Hs Hf. destruct (live _ _ Hs h f Hf) as [Hw Hp]. split; [done|]. intros p Hpf.
  unfold with_frames. cbn [frame over_field]. rewrite lookup_set_frames.
  destruct (decide (p ∈ seqZ page count)); [done|by apply Hp].
Qed.
Lemma not_owned page count d b p :
  sound d b → (∀ q, q ∈ seqZ page count → ¬ q ∈ taken d ∧ frame b !! q = None) →
  p ∈ seqZ page count → ¬ owned d p ∧ p ∉ refused b.
Proof.
  intros Hs Hfree Hp. destruct (Hfree p Hp) as [Hnt _].
  split; intros H; apply Hnt, (accounted _ _ Hs); [by left|by right].
Qed.
Definition refusing (page count : Z) (b : ledger) : ledger :=
  b <| refused ::= union (frames page count) |>.
Lemma quarantine_spec page count d b :
  sound d b → (∀ p, p ∈ seqZ page count → ¬ p ∈ taken d ∧ frame b !! p = None) →
  sound (with_taken page count d) (refusing page count (with_frames (Some Shared) page count b)).
Proof.
  intros Hs Hfree. pose proof Hs as [Hb Ht Hn Hl Ha Hh Hac Hlo Hm].
  split; [done| | | |done|done| | |done].
  - intros p. exact (proj1 (shared_frame page count d b p Hs)).
  - intros p. exact (proj2 (shared_frame page count d b p Hs)).
  - intros h f Hf. by apply (still_live page count d b h).
  - intros p. unfold with_taken, refusing. cbn [taken refused over_field].
    rewrite !elem_of_union. change (owned _ p) with (owned d p).
    change (refused (with_frames _ _ _ _)) with (refused b). rewrite Hac. tauto.
  - intros p Hp. unfold refusing. cbn [refused over_field].
    rewrite elem_of_union, elem_of_frames. intros [Hin|Hin]; [|by apply (Hlo p)].
    by apply (not_owned page count d b p) in Hin as [[] _].
Qed.
Lemma exported_sound page count size d b :
  sound d b → (∀ p, p ∈ seqZ page count → ¬ p ∈ taken d ∧ frame b !! p = None) →
  count = Z.shiftr size PAGE_SHIFT →
  let d' := with_taken page count d in
  sound (d' <| buffers ::= <[next_handle d' := mkBuffer [] size page (seqZ page count) count 0 0]> |>
      <| next_handle := next_handle d' + 1 |>)
    (counted 1 1 (with_frames (Some Shared) page count b)).
Proof.
  intros Hs Hfree Hc. pose proof Hs as [Hb Ht0 Hn Hl0 Ha Hh Hac Hlo Hm]. cbv zeta. set (d' := with_taken page count d) in *.
  set (f := mkBuffer _ _ _ _ _ _ _).
  assert (∀ p, p ∈ buffer_frames f → ∀ h f1, buffers d' !! h = Some f1 → p ∉ buffer_frames f1) as Hnew.
  { intros p Hp h f1 Hf1 Hp1. apply (Hfree p Hp). apply Ht0. by apply (Hl0 h f1). }
  assert (∀ p, owned (d' <| buffers ::= <[next_handle d' := f]> |>
      <| next_handle := next_handle d' + 1 |>) p ↔ owned d p ∨ p ∈ seqZ page count) as Hown.
  { intros p. split.
    - intros (h & g & Hg & Hp). cbn in Hg. destruct (decide (next_handle d = h)) as [<-|Hne].
      + rewrite lookup_insert_eq in Hg. injection Hg as <-. by right.
      + rewrite lookup_insert_ne in Hg by done. left. by exists h, g.
    - intros [(h & g & Hg & Hp)|Hp].
      + exists h, g. cbn. rewrite lookup_insert_ne; [done|]. intros <-. by rewrite Hh in Hg.
      + exists (next_handle d), f. cbn. by rewrite lookup_insert_eq. }
  split; unfold counted; cbn [frame breach objects arrays refused over_field]; [done| | | | | | | |].
  - intros p. exact (proj1 (shared_frame page count d b p Hs)).
  - intros p. exact (proj2 (shared_frame page count d b p Hs)).
  - cbn [buffers over_field]. intros h g. destruct (decide (next_handle d' = h)) as [<-|Hne].
    + rewrite lookup_insert_eq. intros [= <-]. split; [done|]. intros p Hp.
      unfold with_frames. cbn [frame over_field]. rewrite lookup_set_frames. by rewrite decide_True.
    + rewrite lookup_insert_ne by done. intros Hg. by apply (still_live page count d b h).
  - cbn [buffers over_field]. intros h1 h2 f1 f2 p. destruct (decide (next_handle d' = h1)) as [<-|H1], (decide (next_handle d' = h2)) as [<-|H2].
    + done.
    + rewrite lookup_insert_eq, lookup_insert_ne by done. intros [= <-] G2 P1 P2. by destruct (Hnew p P1 h2 f2).
    + rewrite lookup_insert_eq, lookup_insert_ne by done. intros G1 [= <-] P1 P2. by destruct (Hnew p P2 h1 f1).
    + rewrite !lookup_insert_ne by done. by apply Ha.
  - cbn [buffers next_handle over_field]. intros h Hle. rewrite lookup_insert_ne by lia.
    apply Hh. cbn in Hle. lia.
  - intros p. rewrite Hown. cbn [taken over_field]. unfold d', with_taken.
    cbn [taken over_field]. rewrite elem_of_union, elem_of_frames, Hac.
    change (refused (with_frames _ _ _ _)) with (refused b). tauto.
  - intros p. rewrite Hown. change (refused (with_frames _ _ _ _)) with (refused b).
    intros [Hp|Hp]; [by apply Hlo|by apply (not_owned page count d b p)].
  - cbn [buffers over_field]. rewrite map_size_insert, Hh by (unfold d'; cbn; lia). cbn [is_Some_proj]. destruct Hm as [M1 M2]. unfold with_frames in *.
    cbn [objects arrays over_field] in *. rewrite M1, M2. cbn. lia.
Qed.

Lemma shared_dests : bool_decide (VMID_CP_SPSS_HLOS_SHARED ∈ destinations) = true.
Proof. reflexivity. Qed.
Lemma hlos_dests : bool_decide (VMID_CP_SPSS_HLOS_SHARED ∈ hlos) = false.
Proof. reflexivity. Qed.
(** A transition of the frames by the secure monitor, when it succeeds. *)
Lemma book_share page size b o :
  book (with_frames (Some (Held true)) page (Z.shiftr size PAGE_SHIFT) b)
    (HzAssign (page_to_phys page) size o destinations 0)
  = with_frames (Some Shared) page (Z.shiftr size PAGE_SHIFT) b.
Proof. cbn [book Z.eqb negb]. rewrite shared_dests, phys_page. by apply move_with. Qed.
Lemma book_reclaim page size b o :
  book (with_frames (Some Shared) page (Z.shiftr size PAGE_SHIFT) b)
    (HzAssign (page_to_phys page) size o hlos 0)
  = with_frames (Some (Held false)) page (Z.shiftr size PAGE_SHIFT) b.
Proof. cbn [book Z.eqb negb]. rewrite hlos_dests, phys_page. by apply move_with. Qed.
Lemma book_not_shared addr size o ret b :
  ret ≠ 0 → book b (HzAssign addr size o destinations ret) = b.
Proof. intros H. cbn [book]. by rewrite (proj2 (Z.eqb_neq ret 0) H), shared_dests. Qed.
Lemma book_refused page size o ret b :
  ret ≠ 0 → book b (HzAssign (page_to_phys page) size o hlos ret)
            = refusing page (Z.shiftr size PAGE_SHIFT) b.
Proof. intros H. cbn [book]. by rewrite (proj2 (Z.eqb_neq ret 0) H), hlos_dests, phys_page. Qed.

Lemma free_pages_spec page count ret s d b o a :
  sound d b → (∀ p, p ∈ seqZ page count → ¬ p ∈ taken d ∧ frame b !! p = None) →
  o = objects b + 1 → a = arrays b + 1 →
  vc (free_pages page count ret) (fun _ => sound) (with_taken page count d)
    (with_frames (Some (Held s)) page count (b <| objects := o |> <| arrays := a |>)).
Proof.
  intros Hs Hfree -> ->. unfold free_pages, kfree. apply vc_bind, vc_emit. cbn [book].
  apply (free_cma_spec page count ret s d b (objects b + 1) (Z.pred (arrays b + 1))); [done..|lia|lia].
Qed.
Lemma export_spec page size fl d b :
  let count := Z.shiftr size PAGE_SHIFT in
  sound d b → (∀ p, p ∈ seqZ page count → ¬ p ∈ taken d ∧ frame b !! p = None) →
  vc (export_buffer page size count fl) (fun _ => sound) (with_taken page count d)
    (with_frames (Some Shared) page count (b <| objects := objects b + 1 |> <| arrays := arrays b + 1 |>)).
Proof.
  cbv zeta. intros Hs Hfree. unfold export_buffer, scm_assign. apply vc_bind, vc_drv, vc_bind, vc_ask.
  intros ret. destruct (ret <? 0).
  - apply vc_bind, vc_bind, vc_ask. intros back. apply vc_bind, vc_emit, vc_ret.
    destruct (Z.eqb_spec back 0) as [->|Hne]; cbn [negb].
    + rewrite book_reclaim. by apply free_pages_spec.
    + rewrite book_refused by done. unfold free_pages_only, kfree.
      apply vc_bind, vc_emit, vc_bind, vc_emit, vc_ret. cbn [book].
      eapply sound_same; [by apply (quarantine_spec page (Z.shiftr size PAGE_SHIFT) d b)|done..| | |done];
        cbn; lia.
  - cbv zeta. apply vc_bind, vc_mod, vc_ret. by apply (exported_sound page _ size d b).
Qed.

Lemma allocate_spec `{!HeapLaws W} n fl g d b :
  sound d b → vc (sp_hlos_allocate n fl g) (fun _ => sound) d b.
Proof.
  intros Hs. unfold sp_hlos_allocate. cbv zeta. set (size := PAGE_ALIGN n).
  set (count := Z.shiftr size PAGE_SHIFT). destruct (_ || _); [by apply vc_ret|].
  unfold kzalloc. apply vc_bind, vc_bind, vc_ask. intros []; apply vc_bind; cbn [negb];
    [apply vc_emit|apply vc_skip; by apply vc_ret, vc_ret]. apply vc_ret. cbn [book negb].
  apply vc_bind, vc_drv, vc_bind. eapply vc_ask_such with (P := fun p =>
    ∀ page, p = Some page → ∀ x, page <= x < page + count → x ∉ taken d).
  { intros w page Hp. by eapply cma_alloc_free. }
  intros [page|] Hcma; cycle 1.
  { unfold free_buffer, kfree. apply vc_bind, vc_emit, vc_ret. cbn [book].
    eapply sound_same; [exact Hs|done..| |done|done]. cbn. by rewrite Z.pred_succ. }
  specialize (Hcma page eq_refl).
  assert (∀ p, p ∈ seqZ page count → ¬ p ∈ taken d ∧ frame b !! p = None) as Hfree.
  { intros p Hp. apply elem_of_seqZ in Hp. split; [by apply Hcma; lia|].
    destruct (frame b !! p) as [s|] eqn:E; [|done]. pose proof (none_held _ _ Hs p s E) as ->.
    exfalso. apply (Hcma p ltac:(lia)). by apply (taken_shared _ _ Hs). }
  apply vc_bind, vc_mod, vc_bind, vc_emit, vc_bind, vc_emit.
  fold (with_taken page count d).
  assert (∀ b', b' = with_frames (Some (Held true)) page count (b <| objects := Z.succ (objects b) |>) →
    b' = book (book (b <| objects ::= Z.succ |>) (HzCmaAlloc page count)) (HzClear page count)) as Hbook.
  { intros b' ->. cbn [book]. symmetry. rewrite (move_ok is_pool).
    - by apply (move_with is_held (Some (Held false))).
    - intros p Hp. apply bool_decide_eq_true_2. by apply Hfree. }
  rewrite <-(Hbook _ eq_refl). clear Hbook.
  apply vc_bind, vc_bind, vc_ask. intros []; apply vc_bind; cbn [negb];
    [apply vc_emit|apply vc_skip; apply vc_ret; by apply (free_cma_spec page count _ true d b _ (arrays b))].
  apply vc_ret. cbn [book]. unfold scm_assign. apply vc_bind, vc_bind, vc_ask. intros ret.
  apply vc_bind, vc_emit, vc_ret.
  lazymatch goal with |- vc _ _ _ (book ?x _) =>
    change x with (with_frames (Some (Held true)) page count
      (b <| objects := objects b + 1 |> <| arrays := arrays b + 1 |>)) end.
  destruct (Z.eqb_spec ret 0) as [->|Hne]; cbn [negb].
  - unfold count. rewrite book_share. by apply export_spec.
  - rewrite book_not_shared by done. by apply free_pages_spec.
Qed.

(** A buffer goes, and its frames too when the secure processor gave them back. *)
Lemma sound_drop d b h f t m o a r :
  sound d b → buffers d !! h = Some f →
  (t = taken d ∧ m = frame b ∧ r = frames (cma_pages f) (pagecount f) ∪ refused b ∨
   t = taken d ∖ frames (cma_pages f) (pagecount f)
   ∧ m = set_frames None (buffer_frames f) (frame b) ∧ r = refused b) →
  o = objects b - 1 → a = arrays b - 1 →
  sound (mkHlos (delete h (buffers d)) (next_handle d) t) (mkLedger m (breach b) o a r).
Proof.
  intros [Hb Ht Hn Hl Ha Hh Hac Hlo [Hm1 Hm2]] Hf Hcase -> ->.
  assert (∀ h1 f1, delete h (buffers d) !! h1 = Some f1 → h1 ≠ h ∧ buffers d !! h1 = Some f1) as Hd.
  { intros h1 f1 H1. by apply lookup_delete_Some in H1 as [? ?]. }
  assert (∀ p, owned d p ↔ owned (mkHlos (delete h (buffers d)) (next_handle d) t) p
                            ∨ p ∈ buffer_frames f) as Hown.
  { intros p. split.
    - intros (h1 & f1 & H1 & Hp). destruct (decide (h = h1)) as [<-|Hne].
      + right. congruence.
      + left. exists h1, f1. cbn. by rewrite lookup_delete_ne.
    - intros [(h1 & f1 & H1 & Hp)|Hp]; [|by exists h, f]. apply Hd in H1 as [_ H1]. by exists h1, f1. }
  assert (∀ p, owned (mkHlos (delete h (buffers d)) (next_handle d) t) p → p ∉ buffer_frames f) as Hoff.
  { intros p (h1 & f1 & H1 & Hp) Hp2. apply Hd in H1 as [Hne H1]. apply Hne. by apply (Ha h1 h f1 f p). }
  split; cbn [buffers taken next_handle frame breach objects arrays refused]; [done| | | | | | | |].
  - destruct Hcase as [(-> & -> & _)|(-> & -> & _)]; [done|]. intros p.
    rewrite elem_of_difference, elem_of_frames, lookup_set_frames. fold (buffer_frames f).
    destruct (decide _); [|by rewrite Ht; intuition]. by split; [intros [_ []]|].
  - destruct Hcase as [(-> & -> & _)|(-> & -> & _)]; [done|]. intros p s. rewrite lookup_set_frames.
    destruct (decide _); [done|by apply Hn].
  - intros h1 f1 H1. destruct (Hd h1 f1 H1) as [Hne G1]. destruct (Hl h1 f1 G1) as [Hw Hp].
    split; [done|]. destruct Hcase as [(-> & -> & _)|(-> & -> & _)]; [done|]. intros p Hp1.
    rewrite lookup_set_frames. destruct (decide _) as [Hin|]; [|by apply Hp].
    by destruct Hne; apply (Ha h1 h f1 f p).
  - intros h1 h2 f1 f2 p H1 H2. destruct (Hd h1 f1 H1), (Hd h2 f2 H2). by apply Ha.
  - intros h1 H1. apply lookup_delete_None. right. by apply Hh.
  - intros p. destruct Hcase as [(-> & _ & ->)|(-> & _ & ->)].
    + rewrite elem_of_union, elem_of_frames, Hac, Hown. unfold buffer_frames. tauto.
    + rewrite elem_of_difference, elem_of_frames, Hac, Hown. fold (buffer_frames f). split.
      * tauto.
      * intros [Hp|Hp]; [by split; [tauto|apply Hoff]|]. split; [tauto|]. intros Hin.
        apply (Hlo p); [|done]. by exists h, f.
  - intros p Hp. assert (p ∉ refused b) as Hnr by (apply Hlo, Hown; by left).
    destruct Hcase as [(_ & _ & ->)|(_ & _ & ->)]; [|done].
    rewrite elem_of_union, elem_of_frames. intros [Hin|Hin]; [by apply (Hoff p)|done].
  - rewrite map_size_delete, Hf. cbn.
    assert (size (buffers d) ≠ 0%nat) by (apply map_size_ne_0_lookup_2 with (i := h); by eexists). lia.
Qed.
Lemma heap_release_spec h d b :
  sound d b → is_Some (buffers d !! h) → vc (sp_hlos_release h) (fun _ => sound) d b.
Proof.
  intros Hs [f Hf]. unfold sp_hlos_release, scm_assign, kfree. apply vc_bind.
  eapply vc_buffer; [exact Hf|]. destruct (live _ _ Hs h f Hf) as [[_ Hc] Hsh].
  apply vc_bind. apply vc_mono with (P := fun _ d' b' => d' = d ∧ b' = b).
  { destruct (negb _); [by apply vc_bind, vc_emit, vc_emit|by apply vc_skip]. }
  intros [] ? ? [-> ->]. apply vc_bind, vc_bind, vc_ask. intros ret. apply vc_bind, vc_emit, vc_ret, vc_bind.
  destruct (Z.eqb_spec ret 0) as [->|Hne]; cbn [negb].
  - cbn [book Z.eqb negb]. rewrite hlos_dests, phys_page, <-Hc. fold (buffer_frames f).
    rewrite move_ok by (intros p Hp; apply bool_decide_eq_true_2; by apply Hsh).
    fold (with_frames (Some (Held false)) (cma_pages f) (pagecount f) b).
    unfold cma_release. apply vc_bind, vc_mod, vc_emit. cbn [book]. rewrite move_with by done.
    apply vc_bind, vc_emit, vc_bind, vc_emit, vc_mod. cbn [book].
    refine (sound_drop d b h f _ _ (Z.pred (objects b)) (Z.pred (arrays b)) _ Hs Hf (or_intror (conj eq_refl (conj eq_refl eq_refl))) _ _); lia.
  - rewrite book_refused, <-Hc by done. apply vc_skip, vc_bind, vc_emit, vc_bind, vc_emit, vc_mod. cbn [book].
    refine (sound_drop d b h f _ _ (Z.pred (objects b)) (Z.pred (arrays b)) _ Hs Hf (or_introl (conj eq_refl (conj eq_refl eq_refl))) _ _); lia.
Qed.
Lemma heap_call_spec `{!HeapLaws W} c d b : sound d b → allowed d c → vc (run_call c) (fun _ => sound) d b.
Proof.
  intros Hs Ha. destruct c as [n f g|h|h a dv|h a|h a dv|h a dv|h|h|h off|h fl|h|h].
  1: { cbn [run_call]. eapply vc_call; [by apply allocate_spec|]. intros r d1 b1 H1. by apply vc_skip. }
  1: { apply heap_release_spec; [done|]. by apply (proj1 Ha). }
  all: by apply other_spec.
Qed.
End specs.

(** ** Over any use *)

(** A size that is not too large is rounded up to pages. *)
Lemma PAGE_ALIGN_bounds n : 0 <= n <= SP_HLOS_HEAP_MAX_SIZE → n <= PAGE_ALIGN n < n + PAGE_SIZE.
Proof.
  unfold SP_HLOS_HEAP_MAX_SIZE, PAGE_ALIGN, PAGE_SIZE. intros Hn.
  replace (u64 (n + 4096 - 1)) with (n + 4095) by (unfold u64; rewrite Z.mod_small; lia).
  replace (u64 (Z.lnot (4096 - 1))) with (Z.land (Z.lnot (Z.ones 12)) (Z.ones 64)) by reflexivity.
  rewrite Z.land_assoc. rewrite Z.land_ones, <-Z.ldiff_land, Z.ldiff_ones_r by lia.
  rewrite Z.shiftl_mul_pow2, Z.shiftr_div_pow2 by lia. change (2 ^ 12) with 4096.
  pose proof (Z.div_mod (n + 4095) 4096 ltac:(lia)). pose proof (Z.mod_pos_bound (n + 4095) 4096 ltac:(lia)).
  rewrite Z.mod_small by lia. lia.
Qed.

(** C7: Whatever is allocated, mapped and released and whatever fails, no page frame
    the secure processor can see is in the general pool or is given back to it, and
    none is handed to it unzeroed: the frames the contiguous allocator has handed out
    between calls are exactly those both owners see; every live buffer's frames are
    among them and belong to no other buffer; and what is left over, a frame of no
    live buffer, is exactly what the secure monitor was asked to take from the secure
    processor and did not ([refused]), so that every other frame of a gone buffer is
    back in the pool.  The structures of gone buffers are freed, and every call on a
    live buffer returns. *)
Theorem shared_frames_stay_out_of_the_pool {W} `{!HeapEnv W} `{!HeapLaws W} w
    (m : machine sp_hlos W hz_event) :
  rtc heap_step (mkM (mkHlos ∅ 0 ∅) w []) m →
  let d := drv m in
  let b := audit book opening (log m) in
  breach b = false
  ∧ (∀ p, p ∈ taken d ↔ frame b !! p = Some Shared)
  ∧ (∀ p s, frame b !! p = Some s → s = Shared)
  ∧ (∀ p, p ∈ taken d ↔ (∃ h f, buffers d !! h = Some f ∧ p ∈ buffer_frames f) ∨ p ∈ refused b)
  ∧ (∀ h f p, buffers d !! h = Some f → p ∈ buffer_frames f → p ∉ refused b)
  ∧ (∀ h1 h2 f1 f2 p, buffers d !! h1 = Some f1 → buffers d !! h2 = Some f2 →
       p ∈ buffer_frames f1 → p ∈ buffer_frames f2 → h1 = h2)
  ∧ objects b = Z.of_nat (size (buffers d)) ∧ arrays b = Z.of_nat (size (buffers d))
  ∧ (∀ c, allowed d c → ∃ m', run_call c m = Ret (tt, m')).
Proof.
  intros Hs. assert (sound (drv m) (audit book opening (log m))) as Hi.
  { refine (rtc_keeps heap_step (fun m => sound (drv m) (audit book opening (log m))) _ _ _ Hs _).
    - intros m1 m2 [c ? ? Ha H] H1. exact (vc_use _ _ _ _ _ _ _ (heap_call_spec c _ _ H1 Ha) H).
    - assert (∀ p, ¬ owned (mkHlos ∅ 0 ∅) p) as Hno by (intros p (h & f & Hf & _); discriminate Hf).
      split; cbn; try done.
      + intros p. split; [intros H; by apply elem_of_empty in H|].
        intros [H|H]; [by destruct (Hno p)|done]. }
  cbv zeta. pose proof Hi as [Hb Ht Hn Hl Ha Hh Hac Hlo [Hm1 Hm2]]. split_and!; try done.
  - intros h f p Hf Hp. apply Hlo. by exists h, f.
  - intros c Hc. destruct m as [d w' l].
    destruct (vc_run _ _ _ _ _ _ w' l (heap_call_spec c _ _ Hi Hc) eq_refl) as ([] & m' & E & _).
    by exists m'.
Qed.

(** ** Pages from 0x1000 on, a secure monitor that answers as its world says *)

#[export] Instance listed_heap : HeapEnv (list Z) := {|
  kmalloc _ w := (true, w);
  cma_alloc t n _ w := (Some (foldr Z.max 0xfff (elements t) + 1), w);
  get_order _ := 0;
  CONFIG_CMA_ALIGNMENT := 8;
  qcom_scm_assign_mem _ _ _ _ w := (hd 0 w, tl w);
  dma_buf_export _ _ w := (0, w);
  sg_alloc_table_from_pages _ _ w := (0, w);
  dma_map_sgtable _ w := (0, w);
  vmap_pages _ _ w := (Some 0xdead, w);
  vmf_insert_pfn _ w := (0, w);
|}.

#[export] Instance listed_laws : HeapLaws (list Z).
Proof.
  split. intros t n align w page. cbn. intros [= <-] p Hp Ht. apply elem_of_elements in Ht.
  enough (p <= foldr Z.max 4095 (elements t)) by lia. clear Hp.
  induction (elements t) as [|x l IH]; [by apply not_elem_of_nil in Ht|]. cbn.
  apply elem_of_cons in Ht as [->|Ht]; [lia|]. specialize (IH Ht). lia.
Qed.
Fixpoint run_calls {W} `{!HeapEnv W} (l : list call) (m : machine sp_hlos W hz_event) :
    option (machine sp_hlos W hz_event) :=
  match l with
  | [] => Some m
  | c :: l => match run_call c m with Ret (_, m') => run_calls l m' | _ => None end
  end.
(** Two buffers, the first of which cannot be reclaimed. *)
Definition two_buffers : list call := [Allocate 5000 0 0; Vmap 0; Allocate 4096 0 0].
Definition heap_start : machine sp_hlos (list Z) hz_event := mkM (mkHlos ∅ 0 ∅) [0; 0; - EIO] [].
Definition after (l : list call) : machine sp_hlos (list Z) hz_event :=
  default heap_start (run_calls l heap_start).
Lemma two_buffers_reached : rtc heap_step heap_start (after (two_buffers ++ [Release 0])).
Proof.
  assert (∀ c m m', allowed (drv m) c → run_call c m = Ret (tt, m') → rtc heap_step m m') as Hstep.
  { intros c m m' Ha H. by apply rtc_once, (StepCall c). }
  transitivity (after [Allocate 5000 0 0]).
  { apply (Hstep (Allocate 5000 0 0)); [by split|vm_compute; reflexivity]. }
  transitivity (after [Allocate 5000 0 0; Vmap 0]).
  { apply (Hstep (Vmap 0)); [|vm_compute; reflexivity]. split; [|done].
    intros h [= <-]. eexists. vm_compute. reflexivity. }
  transitivity (after two_buffers).
  { apply (Hstep (Allocate 4096 0 0)); [by split|vm_compute; reflexivity]. }
  apply (Hstep (Release 0)); [|vm_compute; reflexivity]. split; [|done].
  intros h [= <-]. eexists. vm_compute. reflexivity.
Qed.
Lemma shared_frames_stay_out_of_the_pool_witness :
  let m := after (two_buffers ++ [Release 0]) in
  breach (audit book opening (log m)) = false
  ∧ buffers (drv m) !! 0 = None ∧ 4096 ∈ taken (drv m) ∧ objects (audit book opening (log m)) = 1.
Proof.
  cbv zeta.
  assert (buffers (drv (after (two_buffers ++ [Release 0]))) !! 0 = None) as Hn by (vm_compute; reflexivity).
  assert (frame (audit book opening (log (after (two_buffers ++ [Release 0])))) !! 4096 = Some Shared) as Hf
    by (vm_compute; reflexivity).
  assert (size (buffers (drv (after (two_buffers ++ [Release 0])))) = 1%nat) as Hz by (vm_compute; reflexivity).
  pose proof two_buffers_reached as Hr. revert Hr Hn Hf Hz.
  generalize (after (two_buffers ++ [Release 0])). intros m Hr Hn Hf Hz.
  destruct (shared_frames_stay_out_of_the_pool [0; 0; - EIO] m Hr) as (Hb & Ht & _ & _ & _ & _ & Ho & _).
  split; [exact Hb|]. split; [exact Hn|]. split; [by apply Ht|]. by rewrite Ho, Hz.
Defined.
