(* ===== verification/SpssUtils.v ===== *)
(** [spss_utils.c] and [qcom_spss_irq.c]: the events of the secure processor that
    user space waits for, and the notification of its interrupt. *)
From Stdlib Require Import Ascii String.
From S2P Require Import Prelude Bus.

(** ** [spss_utils.c] *)

Module Utils.
Definition SPSS_FIRMWARE_NAME : string := "spss1p.mdt".
Definition ENOIOCTLCMD := 515.
(** [_IOWR('S', nr, size)]. *)
Definition SPSS_IOC_MAGIC := 0x53.
Definition IOWR (nr size : Z) : Z := 0xc0000000 + Z.shiftl size 16 + Z.shiftl SPSS_IOC_MAGIC 8 + nr.
Definition SPSS_IOC_SET_FW_CMAC := IOWR 1 64.
Definition SPSS_IOC_WAIT_FOR_EVENT := IOWR 2 12.
Definition SPSS_IOC_SIGNAL_EVENT := IOWR 3 8.
Definition SPSS_IOC_IS_EVENT_SIGNALED := IOWR 4 8.
Definition SPSS_IOC_SET_SSR_STATE := IOWR 5 4.
Definition SPSS_IOC_SET_FW_AND_APPS_CMAC := IOWR 6 16.

(** [enum spss_event_id], [enum spss_event_status]. *)
Definition SPSS_EVENT_ID_PIL_CALLED := 0.
Definition SPSS_EVENT_ID_NVM_READY := 1.
Definition SPSS_EVENT_ID_SPU_READY := 2.
Definition SPSS_EVENT_ID_SPU_POWER_DOWN := 6.
Definition SPSS_EVENT_ID_SPU_POWER_UP := 7.
Definition SPSS_NUM_EVENTS := 8.
Definition EVENT_STATUS_SIGNALED := 0xaaaa.
Definition EVENT_STATUS_NOT_SIGNALED := 0xffff.
Definition EVENT_STATUS_TIMEOUT := 0xeee1.
Definition EVENT_STATUS_ABORTED := 0xeee2.

(** [struct spss_utils]: whether each completion is complete, and the flags. *)
Record spss_utils := mkUtils { events : list bool; signaled : list bool; ssr_disabled : bool }.
#[export] Instance eta_utils : Eta spss_utils := fun r =>
  mkUtils (events r) (signaled r) (ssr_disabled r).

(** The three requests; the status of one that only asks is what user space left. *)
Record spss_ioc := mkReq { event_id : Z; timeout_sec : Z; status : Z }.
#[export] Instance eta_ioc : Eta spss_ioc := fun r =>
  mkReq (event_id r) (timeout_sec r) (status r).

Inductive handle := Subdev | Misc.
Inductive sp_event :=
  | SpComplete (id : Z)                (* [complete_all] *)
  | SpReinit (id : Z)
  | SpWrite (req : spss_ioc)           (* [copy_to_user] *)
  | SpGet (h : handle) (ret : Z)
  | SpPut (h : handle).

(** [wait_for]: a positive remainder, 0 (the timeout) or an error (negative).
    [None] for the seconds: no timeout, and success is 0. *)
Class UtilsEnv (W : Type) := {
  copy_from_user : W → bool * W;
  copy_to_user : W → bool * W;
  wait_for : Z → option Z → W → Z * W;
}.

Section utils.
Context {W : Type} `{!UtilsEnv W}.
Abbreviation M := (M (machine spss_utils W sp_event)).

Definition set_event (id : Z) (v : bool) : M unit :=
  mod_drv (fun d => d <| events ::= <[Z.to_nat id := v]> |>).
Definition set_signaled (id : Z) (v : bool) : M unit :=
  mod_drv (fun d => d <| signaled ::= <[Z.to_nat id := v]> |>).
Definition spss_utils_reset_event (id : Z) : M unit :=
  set_event id false;; emit (SpReinit id);; set_signaled id false.
Definition spss_utils_signal_kernel_event (id : Z) : M unit :=
  set_event id true;; emit (SpComplete id);; set_signaled id true.

Definition spss_utils_subdev_prepare : M Z := mret 0.
Definition spss_utils_subdev_start : M Z :=
  spss_utils_signal_kernel_event SPSS_EVENT_ID_SPU_POWER_UP;;
  spss_utils_reset_event SPSS_EVENT_ID_SPU_POWER_DOWN;;
  mret 0.
Fixpoint reset_events (n : nat) (i : Z) : M unit :=
  match n with O => skip | S n => spss_utils_reset_event i;; reset_events n (i + 1) end.
Definition spss_utils_subdev_stop : M unit := reset_events (Z.to_nat SPSS_NUM_EVENTS) 0.
Definition spss_utils_subdev_unprepare : M unit :=
  spss_utils_signal_kernel_event SPSS_EVENT_ID_SPU_POWER_DOWN;;
  spss_utils_reset_event SPSS_EVENT_ID_SPU_POWER_UP.

(** The result and the request as it leaves. *)
Definition spss_utils_wait_for_event (req : spss_ioc) : M (Z * spss_ioc) :=
  if SPSS_NUM_EVENTS <=? event_id req then mret (- EINVAL, req)
  else if negb (timeout_sec req =? 0) then
    ret ← ask (wait_for (event_id req) (Some (timeout_sec req)));
    if ret =? 0 then mret (0, req <| status := EVENT_STATUS_TIMEOUT |>)
    else if ret <? 0 then mret (ret, req <| status := EVENT_STATUS_ABORTED |>)
    else mret (0, req <| status := EVENT_STATUS_SIGNALED |>)
  else
    ret ← ask (wait_for (event_id req) None);
    if ret <? 0 then mret (ret, req <| status := EVENT_STATUS_ABORTED |>)
    else mret (0, req <| status := EVENT_STATUS_SIGNALED |>).
Definition is_signaled (d : spss_utils) (id : Z) : bool := nth (Z.to_nat id) (signaled d) false.
Definition spss_utils_signal_event (req : spss_ioc) : M (Z * spss_ioc) :=
  if SPSS_NUM_EVENTS <=? event_id req then mret (- EINVAL, req)
  else
    d ← get_drv;
    if is_signaled d (event_id req) then mret (- EINVAL, req)
    else
      spss_utils_signal_kernel_event (event_id req);;
      mret (0, req <| status := EVENT_STATUS_SIGNALED |>).
Definition spss_utils_is_event_signaled (req : spss_ioc) : M (Z * spss_ioc) :=
  if SPSS_NUM_EVENTS <=? event_id req then mret (- EINVAL, req)
  else
    d ← get_drv;
    mret (0, req <| status := if is_signaled d (event_id req) then EVENT_STATUS_SIGNALED
                              else EVENT_STATUS_NOT_SIGNALED |>).

(** [req]: what the pointer leads to; [always]: also after an error. *)
Definition with_request (req : spss_ioc) (always : bool) (f : spss_ioc → M (Z * spss_ioc)) : M Z :=
  ok ← ask copy_from_user;
  if negb ok then mret (- EFAULT)
  else
    '(ret, req) ← f req;
    if always || (ret =? 0) then
      ok ← ask copy_to_user;
      if negb ok then mret (- EFAULT) else (emit (SpWrite req);; mret ret)
    else mret ret.
(** [arg]: the word of [SPSS_IOC_SET_SSR_STATE]. *)
Definition spss_utils_ioctl (cmd : Z) (req : spss_ioc) (arg : Z) : M Z :=
  if cmd =? SPSS_IOC_WAIT_FOR_EVENT then with_request req true spss_utils_wait_for_event
  else if cmd =? SPSS_IOC_SIGNAL_EVENT then with_request req false spss_utils_signal_event
  else if cmd =? SPSS_IOC_IS_EVENT_SIGNALED then with_request req false spss_utils_is_event_signaled
  else if cmd =? SPSS_IOC_SET_SSR_STATE then
    ok ← ask copy_from_user;
    if negb ok then mret (- EFAULT)
    else (mod_drv (fun d => d <| ssr_disabled := negb (arg =? 0) |>);; mret 0)
  else if (cmd =? SPSS_IOC_SET_FW_CMAC) || (cmd =? SPSS_IOC_SET_FW_AND_APPS_CMAC)
  then mret (- EOPNOTSUPP)
  else mret (- ENOIOCTLCMD).

Definition firmware_name_show : M string := mret (SPSS_FIRMWARE_NAME ++ String "010"%char EmptyString)%string.
Definition test_fuse_state_show : M string := mret ("prod" ++ String "010"%char EmptyString)%string.

(** The answers of the kernel: the allocation, the remoteproc, [misc_register]. *)
Definition spss_utils_probe (alloc rproc : bool) (misc : Z) : M Z :=
  if negb alloc then mret (- ENOMEM)
  else
    mod_drv (fun _ => mkUtils (replicate (Z.to_nat SPSS_NUM_EVENTS) false)
      (replicate (Z.to_nat SPSS_NUM_EVENTS) false) false);;
    if negb rproc then mret (- EPROBE_DEFER)
    else
      emit (SpGet Subdev 0);;
      emit (SpGet Misc misc);;
      if negb (misc =? 0) then (emit (SpPut Subdev);; mret misc) else mret 0.
Definition spss_utils_remove : M unit := emit (SpPut Misc);; emit (SpPut Subdev).
End utils.
End Utils.

(** ** [qcom_spss_irq.c] *)

Module Irq.
Definition EPOLLIN := 1.
(** The two atomic variables. *)
Record spss_irq := mkIrq { spss_irq_pending : Z; spss_irq_opened : Z }.
#[export] Instance eta_irq : Eta spss_irq := fun r => mkIrq (spss_irq_pending r) (spss_irq_opened r).

(** [spss_irq_handler]: the two things it does, in order. *)
Definition handler_set (d : spss_irq) : spss_irq := d <| spss_irq_pending := 1 |>.
(** [wake_up_interruptible] wakes whoever is registered on the queue. *)
Definition handler_wake (registered woken : bool) : bool := woken || registered.

Definition spss_irq_open (d : spss_irq) : Z * spss_irq :=
  if spss_irq_opened d =? 0 then (0, d <| spss_irq_opened := 1 |>) else (- EBUSY, d).
Definition spss_irq_release (d : spss_irq) : Z * spss_irq := (0, d <| spss_irq_opened := 0 |>).
(** [spss_irq_poll] after [poll_wait]: the exchange. *)
Definition poll_take (d : spss_irq) : Z * spss_irq :=
  (if negb (spss_irq_pending d =? 0) then EPOLLIN else 0, d <| spss_irq_pending := 0 |>).

Inductive irq_event := IqNodePut | IqRequest (ret : Z) | IqFree | IqRegister (ret : Z) | IqDeregister.
(** The interrupt's specifier: the client, the signal and the trigger. *)
Definition IRQ_TYPE_EDGE_RISING := 1.
Definition spec_param : list Z := [16; 1; IRQ_TYPE_EDGE_RISING].
(** The answers of the kernel: the board, the node, the mapping, the requests. *)
Section init.
Context {W : Type}.
Abbreviation M := (M (machine spss_irq W irq_event)).
Definition spss_irq_init (board ipcc : bool) (mapping request misc : Z) : M Z :=
  if negb board then mret (- ENODEV)
  else if negb ipcc then mret (- ENODEV)
  else
    emit IqNodePut;;
    if mapping =? 0 then mret (- EPROBE_DEFER)
    else
      emit (IqRequest request);;
      if negb (request =? 0) then mret request
      else
        emit (IqRegister misc);;
        if negb (misc =? 0) then (emit IqFree;; mret misc) else mret 0.
Definition spss_irq_exit : M unit := emit IqDeregister;; emit IqFree.
End init.
End Irq.
