(* ===== verification/SpssUtilsProps.v ===== *)
(** The properties of the secure processor's events and of its interrupt's
    notification. *)
From S2P Require Import Prelude Bus SpssUtils.

(** ** Events *)

Module UtilsProps.
Import Utils.

Example ioctl_numbers : SPSS_IOC_WAIT_FOR_EVENT = 0xc00c5302
  ∧ SPSS_IOC_SIGNAL_EVENT = 0xc0085303 ∧ SPSS_IOC_IS_EVENT_SIGNALED = 0xc0085304.
Proof. done. Qed.

(** What the waiters have seen of each event last. *)
Definition last_seen (b : Z → bool) (e : sp_event) : Z → bool :=
  match e with
  | SpComplete id => fun i => (i =? id) || b i
  | SpReinit id => fun i => negb (i =? id) && b i
  | _ => b
  end.
Definition unseen : Z → bool := fun _ => false.
Definition valid (id : Z) : Prop := 0 <= id < SPSS_NUM_EVENTS.
(** The flags, the completions and what the waiters saw agree. *)
Definition exact (d : spss_utils) (b : Z → bool) : Prop :=
  List.length (events d) = 8%nat ∧ List.length (signaled d) = 8%nat
  ∧ ∀ id, valid id → nth (Z.to_nat id) (events d) false = b id ∧ is_signaled d id = b id.

Inductive call :=
  | Prepare | Start | Stop | Unprepare
  | Ioctl (cmd : Z) (req : spss_ioc) (arg : Z).
(** Event ids come from user space as unsigned words. *)
Definition allowed (c : call) : Prop :=
  match c with Ioctl _ req _ => 0 <= event_id req | _ => True end.

Lemma nth_update (l : list bool) id x v : 0 <= id → 0 <= x → (Z.to_nat x < List.length l)%nat →
  nth (Z.to_nat id) (<[Z.to_nat x := v]> l) false = if id =? x then v else nth (Z.to_nat id) l false.
Proof.
  intros Hi Hx Hl. rewrite !nth_lookup. destruct (Z.eqb_spec id x) as [->|Hne].
  - by rewrite list_lookup_insert_eq.
  - rewrite list_lookup_insert_ne by lia. done.
Qed.

Section specs.
Context {W : Type} `{!UtilsEnv W}.
Abbreviation vc := (vc (W := W) (E := sp_event) last_seen unseen).
Definition run_call (c : call) : M (machine spss_utils W sp_event) Z :=
  match c with
  | Prepare => spss_utils_subdev_prepare
  | Start => spss_utils_subdev_start
  | Stop => spss_utils_subdev_stop;; mret 0
  | Unprepare => spss_utils_subdev_unprepare;; mret 0
  | Ioctl cmd req arg => spss_utils_ioctl cmd req arg
  end.

(** One event changes: the account knows which and how. *)
Lemma change_spec id v d b :
  exact d b → valid id →
  vc (if v : bool then spss_utils_signal_kernel_event id else spss_utils_reset_event id)
    (fun _ d' b' => exact d' b' ∧ ∀ i, b' i = if i =? id then v else b i) d b.
Proof.
  intros (He & Hs & H) Hid.
  assert (∀ e, e = (if v then SpComplete id else SpReinit id) →
    exact (d <| events := <[Z.to_nat id := v]> (events d) |> <| signaled := <[Z.to_nat id := v]> (signaled d) |>)
      (last_seen b e) ∧ ∀ i, last_seen b e i = if i =? id then v else b i) as Hend.
  { intros e ->. assert (∀ i, last_seen b (if v then SpComplete id else SpReinit id) i
      = if i =? id then v else b i) as Hb by (intros i; destruct v; cbn; by destruct (i =? id)).
    split; [|exact Hb]. unfold valid, SPSS_NUM_EVENTS in Hid. split_and!; cbn; rewrite ?length_insert; try done.
    intros i Hi. destruct (H i Hi) as [H1 H2]. rewrite Hb. unfold is_signaled in *. cbn.
    unfold valid in Hi. rewrite !nth_update by lia. by destruct (i =? id). }
  destruct v; unfold spss_utils_signal_kernel_event, spss_utils_reset_event, set_event, set_signaled;
    apply vc_bind, vc_mod, vc_bind, vc_emit, vc_mod; by apply Hend.
Qed.
Lemma signal_spec id d b : exact d b → valid id →
  vc (spss_utils_signal_kernel_event id)
    (fun _ d' b' => exact d' b' ∧ ∀ i, b' i = if i =? id then true else b i) d b.
Proof. intros. by apply (change_spec id true). Qed.
Lemma utils_reset_spec id d b : exact d b → valid id →
  vc (spss_utils_reset_event id)
    (fun _ d' b' => exact d' b' ∧ ∀ i, b' i = if i =? id then false else b i) d b.
Proof. intros. by apply (change_spec id false). Qed.

Lemma stop_loop n i d b : exact d b → 0 <= i → i + Z.of_nat n <= 8 →
  vc (reset_events n i) (fun _ d' b' => exact d' b'
    ∧ ∀ j, b' j = if (i <=? j) && (j <? i + Z.of_nat n) then false else b j) d b.
Proof.
  revert i d b. induction n as [|n IH]; intros i d b He Hi Hn; cbn [reset_events].
  { apply vc_skip. split; [done|]. intros j. destruct (Z.leb_spec i j), (Z.ltb_spec j (i + Z.of_nat 0)); try done; lia. }
  eapply vc_call; [apply utils_reset_spec; [done|unfold valid, SPSS_NUM_EVENTS; lia]|]. intros [] d1 b1 [H1 Hb1].
  eapply vc_mono; [apply IH; [done|lia|lia]|]. intros [] d2 b2 [H2 Hb2]. split; [done|].
  intros j. rewrite Hb2, Hb1.
  destruct (Z.eqb_spec j i), (Z.leb_spec (i + 1) j), (Z.ltb_spec j (i + 1 + Z.of_nat n)),
    (Z.leb_spec i j), (Z.ltb_spec j (i + Z.of_nat (S n))); try done; lia.
Qed.

(** What each call does to the events. *)
Definition event_after (c : call) (r : Z) (b : Z → bool) (i : Z) : bool :=
  match c with
  | Prepare => b i
  | Start => if i =? SPSS_EVENT_ID_SPU_POWER_DOWN then false
             else if i =? SPSS_EVENT_ID_SPU_POWER_UP then true else b i
  | Stop => if (0 <=? i) && (i <? SPSS_NUM_EVENTS) then false else b i
  | Unprepare => if i =? SPSS_EVENT_ID_SPU_POWER_UP then false
                 else if i =? SPSS_EVENT_ID_SPU_POWER_DOWN then true else b i
  | Ioctl _ _ _ => b i
  end.
(** An ioctl signals at most the event it names. *)
Definition only_signals (req : spss_ioc) (d : spss_utils) (b : Z → bool) (r : Z)
    (d' : spss_utils) (b' : Z → bool) : Prop :=
  exact d' b' ∧ (b' = b ∨ event_id req < SPSS_NUM_EVENTS ∧ b (event_id req) = false
    ∧ ∀ i, b' i = if i =? event_id req then true else b i).
Lemma with_request_spec req always f d b :
  (∀ d b, exact d b → vc (f req) (fun a d' b' => only_signals req d b a.1 d' b') d b) →
  exact d b → vc (with_request req always f) (only_signals req d b) d b.
Proof.
  intros Hf He. unfold with_request. apply vc_bind, vc_ask. intros []; cbn [negb]; cycle 1.
  { apply vc_ret. split; [done|by left]. }
  eapply vc_call; [by apply Hf|]. intros [ret req'] d1 b1 H1. cbn [fst] in H1.
  destruct (always || _); [|by apply vc_ret]. apply vc_bind, vc_ask. intros []; cbn [negb]; [|by apply vc_ret].
  by apply vc_bind, vc_emit, vc_ret.
Qed.
Lemma ioctl_spec cmd req arg d b :
  exact d b → 0 <= event_id req → vc (spss_utils_ioctl cmd req arg) (only_signals req d b) d b.
Proof.
  intros He Hid. unfold spss_utils_ioctl.
  assert (∀ r, only_signals req d b r d b) as Hsame by (intros r; split; [done|by left]).
  destruct (cmd =? SPSS_IOC_WAIT_FOR_EVENT).
  { apply with_request_spec; [|done]. intros d1 b1 H1. unfold spss_utils_wait_for_event.
    assert (∀ r, only_signals req d1 b1 r d1 b1) as Hs1 by (intros r; split; [done|by left]).
    destruct (_ <=? _); [by apply vc_ret|]. destruct (negb _); apply vc_bind, vc_ask; intros ret;
      repeat match goal with |- vc (if ?c then _ else _) _ _ _ => destruct c end; by apply vc_ret. }
  destruct (cmd =? SPSS_IOC_SIGNAL_EVENT).
  { apply with_request_spec; [|done]. intros d1 b1 H1. unfold spss_utils_signal_event.
    destruct (Z.leb_spec SPSS_NUM_EVENTS (event_id req)); [apply vc_ret; split; [done|by left]|].
    apply vc_bind, vc_drv. assert (valid (event_id req)) as Hv by by split.
    destruct (is_signaled d1 (event_id req)) eqn:E; [apply vc_ret; split; [done|by left]|].
    eapply vc_call; [by apply signal_spec|]. intros [] d2 b2 [H2 Hb2]. apply vc_ret.
    split; [done|]. right. split_and!; [done| |done]. by rewrite <-(proj2 (proj2 (proj2 H1) _ Hv)). }
  destruct (cmd =? SPSS_IOC_IS_EVENT_SIGNALED).
  { apply with_request_spec; [|done]. intros d1 b1 H1. unfold spss_utils_is_event_signaled.
    destruct (_ <=? _); [apply vc_ret; split; [done|by left]|]. apply vc_bind, vc_drv, vc_ret.
    split; [done|by left]. }
  destruct (cmd =? SPSS_IOC_SET_SSR_STATE).
  { apply vc_bind, vc_ask. intros []; cbn [negb]; [|by apply vc_ret].
    apply vc_bind, vc_mod, vc_ret. split; [exact He|by left]. }
  destruct (_ || _); by apply vc_ret.
Qed.
Lemma utils_call_spec c d b :
  exact d b → allowed c →
  vc (run_call c) (fun r d' b' => exact d' b'
    ∧ match c with
      | Ioctl _ req _ => only_signals req d b r d' b'
      | _ => ∀ i, valid i → b' i = event_after c r b i
      end) d b.
Proof.
  intros He Hc. destruct c as [| | | |cmd req arg]; cbn [run_call event_after].
  - by apply vc_ret.
  - unfold spss_utils_subdev_start. eapply vc_call; [by apply signal_spec|]. intros [] d1 b1 [H1 Hb1].
    eapply vc_call; [by apply utils_reset_spec|]. intros [] d2 b2 [H2 Hb2]. apply vc_ret. split; [done|].
    intros i _. by rewrite Hb2, Hb1.
  - unfold spss_utils_subdev_stop. eapply vc_call; [by apply stop_loop|]. intros [] d1 b1 [H1 Hb1].
    apply vc_ret. split; [done|]. intros i _. by rewrite Hb1.
  - unfold spss_utils_subdev_unprepare. apply vc_bind. eapply vc_call; [by apply signal_spec|].
    intros [] d1 b1 [H1 Hb1]. eapply vc_mono; [by apply utils_reset_spec|]. intros [] d2 b2 [H2 Hb2].
    apply vc_ret. split; [done|]. intros i _. by rewrite Hb2, Hb1.
  - eapply vc_mono; [by apply ioctl_spec|]. intros r d' b' H. split; [apply H|exact H].
Qed.

Inductive utils_step : machine spss_utils W sp_event → machine spss_utils W sp_event → Prop :=
  | StepCall c r m m' : allowed c → run_call c m = Ret (r, m') → utils_step m m'.
Inductive utils_start : machine spss_utils W sp_event → Prop :=
  | StartBound d w m : spss_utils_probe true true 0 (mkM d w []) = Ret (0, m) → utils_start m.
End specs.

(** C15: Over any sequence of power transitions and requests, each event's flag, its
    completion and what its waiters saw last agree.  A start of the processor signals
    power-up and withdraws power-down, its end the reverse, a stop withdraws every
    event; a request signals at most the event it names, and that only when it was
    not signaled; asking returns exactly what the waiters saw, signaling twice is
    refused, and so is every id out of range, all without any change.  Every call
    returns. *)
Theorem events_are_what_waiters_saw {W} `{!UtilsEnv W} (m0 m : machine spss_utils W sp_event) :
  utils_start m0 → rtc utils_step m0 m →
  let b := audit last_seen unseen (log m) in
  (∀ id, valid id → nth (Z.to_nat id) (events (drv m)) false = b id ∧ is_signaled (drv m) id = b id)
  ∧ (∀ c, allowed c → ∃ r m', run_call c m = Ret (r, m') ∧
       let b' := audit last_seen unseen (log m') in
       ∀ id, valid id → match c with
         | Ioctl _ req _ => b' id = b id ∨ id = event_id req ∧ b id = false ∧ b' id = true
         | _ => b' id = event_after c r b id
         end)
  ∧ (∀ id t s, valid id → spss_utils_is_event_signaled (mkReq id t s) m =
       Ret ((0, mkReq id t (if b id then EVENT_STATUS_SIGNALED else EVENT_STATUS_NOT_SIGNALED)), m))
  ∧ (∀ id t s, valid id → b id = true →
       spss_utils_signal_event (mkReq id t s) m = Ret ((- EINVAL, mkReq id t s), m))
  ∧ (∀ req, SPSS_NUM_EVENTS <= event_id req →
       spss_utils_wait_for_event req m = Ret ((- EINVAL, req), m)
       ∧ spss_utils_signal_event req m = Ret ((- EINVAL, req), m)
       ∧ spss_utils_is_event_signaled req m = Ret ((- EINVAL, req), m)).
Proof.
  intros H0 Hs. assert (exact (drv m) (audit last_seen unseen (log m))) as Hi.
  { refine (rtc_keeps utils_step (fun m => exact (drv m) (audit last_seen unseen (log m))) _ _ _ Hs _).
    - intros m1 m2 [c r ? ? Ha H] H1. exact (proj1 (vc_use _ _ _ _ _ _ _ (utils_call_spec c _ _ H1 Ha) H)).
    - destruct H0 as [d w m1 H]. injection H as <-. split_and!; [done..|]. intros id _.
      assert (∀ n, nth n (replicate 8 false) false = false) as Hn by (intros n; by do 8 (destruct n as [|n]; [done|]); destruct n).
      split; [exact (Hn _)|exact (Hn _)]. }
  cbv zeta. pose proof Hi as (He & Hsi & H).
  split; [exact H|]. split; [|split; [|split]].
  - intros c Hc. destruct m as [d w l].
    destruct (vc_run _ _ _ _ _ _ w l (utils_call_spec c _ _ Hi Hc) eq_refl) as (r & m' & E & _ & Hq).
    exists r, m'. split; [exact E|]. intros id Hid. destruct c; try by apply Hq.
    destruct Hq as (_ & [->|(Hlt & Hf & Hb)]); [by left|]. rewrite Hb.
    destruct (Z.eqb_spec id (event_id req)) as [->|]; [by right|by left].
  - intros id t s Hid. unfold spss_utils_is_event_signaled. cbn [event_id].
    destruct (Z.leb_spec SPSS_NUM_EVENTS id); [unfold valid in Hid; lia|].
    erewrite bind_ret by reflexivity. cbn [event_id]. rewrite (proj2 (H id Hid)). done.
  - intros id t s Hid Hb. unfold spss_utils_signal_event. cbn [event_id].
    destruct (Z.leb_spec SPSS_NUM_EVENTS id); [unfold valid in Hid; lia|].
    erewrite bind_ret by reflexivity. cbn [event_id]. by rewrite (proj2 (H id Hid)), Hb.
  - intros req Hr. unfold spss_utils_wait_for_event, spss_utils_signal_event, spss_utils_is_event_signaled.
    by rewrite (proj2 (Z.leb_le _ _) Hr).
Qed.

(** User space that answers as its world says. *)
#[export] Instance plain_user : UtilsEnv unit := {|
  copy_from_user w := (true, w); copy_to_user w := (true, w); wait_for _ _ w := (1, w)
|}.
Lemma events_are_what_waiters_saw_witness :
  ∃ m, utils_start (W := unit) m
    ∧ ∃ m1, rtc utils_step m m1 ∧ is_signaled (drv m1) SPSS_EVENT_ID_SPU_POWER_UP = true
        ∧ spss_utils_signal_event (mkReq 7 0 0) m1 = Ret ((- EINVAL, mkReq 7 0 0), m1).
Proof.
  assert (∃ m, spss_utils_probe true true 0 (mkM (mkUtils [] [] false) tt []) = Ret (0, m)
    ∧ ∃ m1, run_call Start m = Ret (0, m1) ∧ audit last_seen unseen (log m1) 7 = true) as (m & E0 & m1 & E1 & Hb)
    by (eexists; split; [vm_compute; reflexivity|]; eexists; split; vm_compute; reflexivity).
  exists m. pose proof (StartBound _ _ _ E0) as H0. split; [exact H0|].
  assert (rtc utils_step m m1) as Hs by (apply rtc_once, (StepCall Start 0); [done|exact E1]).
  destruct (events_are_what_waiters_saw m m1 H0 Hs) as (H1 & _ & _ & H2 & _).
  exists m1. split; [exact Hs|]. assert (valid 7) as Hv by done. split; [exact (eq_trans (proj2 (H1 7 Hv)) Hb)|].
  by apply H2.
Defined.
End UtilsProps.

(** ** The interrupt's notification *)

Module IrqProps.
Import Irq.

(** The driver's variables, the open files, the handlers between setting the flag and
    the wake-up, and the reader: registered on the queue, asleep in [poll], woken. *)
Record irq_sys := mkSys {
  vars : spss_irq; fds : nat; handling : nat; registered : bool; asleep : bool; woken : bool
}.
(** The reader's [poll]: it registers, exchanges, and when there was nothing sleeps
    until it is woken, to exchange again.  The results of the calls are labels. *)
Inductive label := Fired | Opened (ret : Z) | Released | Polled (mask : Z) | Tau.
Inductive irq_step : irq_sys → label → irq_sys → Prop :=
  | IrqSet v f h r a w :
      irq_step (mkSys v f h r a w) Fired (mkSys (handler_set v) f (S h) r a w)
  | IrqWake v f h r a w :
      irq_step (mkSys v f (S h) r a w) Tau (mkSys v f h r a (handler_wake r w))
  | StepOpen v f h r a w :
      irq_step (mkSys v f h r a w) (Opened (spss_irq_open v).1)
        (mkSys (spss_irq_open v).2 (if (spss_irq_open v).1 =? 0 then S f else f) h r a w)
  | StepRelease v f h r a w :
      r = false →
      irq_step (mkSys v (S f) h r a w) Released (mkSys (spss_irq_release v).2 f h r a w)
  | PollWait v f h :
      irq_step (mkSys v (S f) h false false false) Tau (mkSys v (S f) h true false false)
  | PollTake v f h w :
      irq_step (mkSys v f h true false w) (Polled (poll_take v).1)
        (mkSys (poll_take v).2 f h (negb ((poll_take v).1 =? EPOLLIN)) (negb ((poll_take v).1 =? EPOLLIN))
           (if (poll_take v).1 =? EPOLLIN then false else w))
  | PollResume v f h :
      irq_step (mkSys v f h true true true) Tau (mkSys v f h true false false)
  | PollGiveUp v f h w :
      irq_step (mkSys v f h true true w) Tau (mkSys v f h false false false).
Inductive irq_trace : irq_sys → list label → irq_sys → Prop :=
  | TraceNil s : irq_trace s [] s
  | TraceSnoc s l s1 e s2 : irq_trace s l s1 → irq_step s1 e s2 → irq_trace s (l ++ [e]) s2.
Definition quiet : irq_sys := mkSys (mkIrq 0 0) 0 0 false false false.

(** Whether the interrupt fired since the last poll that reported it. *)
Definition unreported (l : list label) : bool :=
  foldl (fun b e => match e with Fired => true | Polled m => if m =? EPOLLIN then false else b | _ => b end)
    false l.
Lemma unreported_snoc l e : unreported (l ++ [e]) =
  match e with Fired => true | Polled m => if m =? EPOLLIN then false else unreported l | _ => unreported l end.
Proof. unfold unreported. by rewrite foldl_app. Qed.

Record irq_inv (l : list label) (s : irq_sys) : Prop := {
  inv_pending : spss_irq_pending (vars s) = if unreported l then 1 else 0;
  inv_opened : spss_irq_opened (vars s) = Z.of_nat (fds s) ∧ (fds s <= 1)%nat;
  inv_reader : registered s = true → fds s = 1%nat;
  inv_asleep : asleep s = true → registered s = true;
  inv_woken : asleep s = true → unreported l = true → woken s = true ∨ (0 < handling s)%nat
}.
Lemma utils_step_inv l s e s' : irq_inv l s → irq_step s e s' → irq_inv (l ++ [e]) s'.
Proof.
  intros [Hp [Ho Hf] Hr Ha Hw] H.
  destruct H as [v f h r a w|v f h r a w|v f h r a w|v f h r a w Hnr|v f h|v f h w|v f h|v f h w];
    cbn [vars fds registered asleep woken handling] in *;
    (split; rewrite ?unreported_snoc; cbn [vars fds registered asleep woken handling];
      unfold handler_wake in *); try done.
  - intros _ _. right. lia.
  - intros Has _. rewrite (Ha Has). left. by rewrite orb_true_r.
  - unfold spss_irq_open. by destruct (_ =? 0).
  - unfold spss_irq_open. destruct (Z.eqb_spec (spss_irq_opened v) 0) as [E|E];
      cbn [fst snd spss_irq_opened over_field]; [change (0 =? 0) with true|change (- EBUSY =? 0) with false];
      cbn; lia.
  - intros Hreg. unfold spss_irq_open. specialize (Hr Hreg).
    destruct (Z.eqb_spec (spss_irq_opened v) 0) as [E|E]; [lia|done].
  - cbn. lia.
  - by rewrite Hnr.
  - intros _. lia.
  - cbn. destruct (spss_irq_pending v =? 0) eqn:E; cbn; [|done].
    rewrite Hp in E. by destruct (unreported l).
  - destruct (_ =? EPOLLIN); [done|]. by intros _; apply Hr.
  - cbn. destruct (spss_irq_pending v =? 0) eqn:E; cbn; [|done].
    intros _ Hu. rewrite Hp, Hu in E. done.
Qed.
Lemma trace_inv l s : irq_trace quiet l s → irq_inv l s.
Proof.
  intros H. remember quiet as q. induction H as [s|s l s1 e s2 _ IH H]; subst.
  - split; try done. cbn. lia.
  - by eapply utils_step_inv; [apply IH|].
Qed.

(** C16: Whatever the interleaving of the interrupt's handler with the one reader, a
    poll reports the interrupt exactly when it fired since the last poll that did;
    a reader that sleeps although it fired has been woken or is about to be by a
    handler under way; and at most one file is open, a second open is refused. *)
Theorem no_notification_is_lost l s :
  irq_trace quiet l s →
  (∀ mask s', irq_step s (Polled mask) s' → mask = if unreported l then EPOLLIN else 0)
  ∧ (asleep s = true → unreported l = true → woken s = true ∨ (0 < handling s)%nat)
  ∧ (fds s <= 1)%nat
  ∧ (∀ ret s', irq_step s (Opened ret) s' → ret = if bool_decide (fds s = 0%nat) then 0 else - EBUSY).
Proof.
  intros H. destruct (trace_inv l s H) as [Hp [Ho Hf] Hr Ha Hw]. split_and!; try done.
  - intros mask s' Hs. inversion Hs; subst. cbn [vars] in Hp. cbn. rewrite Hp. by destruct (unreported l).
  - intros ret s' Hs. inversion Hs; subst. cbn [vars fds] in *. unfold spss_irq_open. rewrite Ho.
    destruct f as [|f]; [done|]. by rewrite (proj2 (Z.eqb_neq (Z.of_nat (S f)) 0)) by lia.
Qed.
(** The interrupt fires between the reader's registration and its exchange. *)
Definition caught : list label := [Opened 0; Tau; Fired].
Lemma no_notification_is_lost_witness :
  ∃ s, irq_trace quiet caught s ∧ ∀ mask s', irq_step s (Polled mask) s' → mask = EPOLLIN.
Proof.
  assert (irq_trace quiet caught (mkSys (mkIrq 1 1) 1 1 true false false)) as H.
  { apply (TraceSnoc _ [Opened 0; Tau] (mkSys (mkIrq 0 1) 1 0 true false false) Fired).
    2: { apply (IrqSet (mkIrq 0 1)). }
    apply (TraceSnoc _ [Opened 0] (mkSys (mkIrq 0 1) 1 0 false false false) Tau).
    2: { apply PollWait. }
    apply (TraceSnoc _ [] quiet (Opened 0)); [apply TraceNil|].
    apply (StepOpen (mkIrq 0 0)). }
  eexists. split; [exact H|]. exact (proj1 (no_notification_is_lost _ _ H)).
Defined.
End IrqProps.
