(* ===== verification/QcomSpss.v ===== *)
(** [qcom_spss.c]: the remoteproc driver of the secure processor: its interrupt, its
    start, attach and stop, its memory window, probe and remove, and the device node
    it publishes.  The remoteproc core, the secure monitor, the always-on processor,
    clocks and regulators are its environment. *)
From Stdlib Require Import Ascii String.
From S2P Require Import Prelude Bus.
#[local] Open Scope Z_scope.
#[local] Open Scope list_scope.

Definition ERR_READY := 0%nat.
Definition PBL_DONE := 1%nat.
Definition SPSS_WDOG_ERR := 0x44554d50.
Definition SPSS_TIMEOUT := 5000.
Definition GTS9U_SPSS_MEM_BASE := 0x9b100000.
Definition GTS9U_SPSS_MEM_SIZE := 0x181000.
Definition PBL_LOG_VALUE := 0xef000000.
Definition PBL_LOG_MASK := 0xff000000.
Definition SP_SCSR_MB0_SP2CL_GP0_ADDR := 0x1886020.
Definition SP_SCSR_MB1_SP2CL_GP0_ADDR := 0x1888020.
Definition SP_SCSR_MB3_SP2CL_GP0_ADDR := 0x188c020.
Definition INT_MAX := 2147483647.
Definition u64 (z : Z) : Z := z mod 2 ^ 64.

Inductive rproc_state := RPROC_OFFLINE | RPROC_DETACHED.
(** [struct reg_info]; [None] for the regulator: NULL. *)
Record reg_info := mkReg { uV : Z; uA : Z }.
#[export] Instance eta_reg_info : Eta reg_info := fun r => mkReg (uV r) (uA r).

(** [struct qcom_spss], with what of [struct rproc] the driver uses.  [alive]: not yet
    freed by [rproc_free]. *)
Record qcom_spss := mkSpss {
  alive : bool; cx : option reg_info; start_done : bool; mem_phys : Z; mem_reloc : Z; mem_size : Z;
  qmp : bool; node : bool; ssr_name : bool; edge : bool; utils_pdev : bool; spcom_pdev : bool;
  bits_arr : list Z; state : rproc_state; recovery_disabled : bool; firmware : string
}.
#[export] Instance eta_spss : Eta qcom_spss := fun r =>
  mkSpss (alive r) (cx r) (start_done r) (mem_phys r) (mem_reloc r) (mem_size r) (qmp r) (node r)
    (ssr_name r) (edge r) (utils_pdev r) (spcom_pdev r) (bits_arr r) (state r) (recovery_disabled r)
    (firmware r).

Inductive register := IrqStatus | ErrStatus | ErrSpare (back : Z) | DebugRegister (addr : Z) | RmbGpm.
Inductive vote := Clock | Regulator.
Inductive handle :=
  | Rproc | Wakeup | GlinkNode | GlinkSubdev | SsrSubdev | RprocAdded | UtilsDevice | SpcomDevice.
#[export] Instance handle_eq_dec : EqDecision handle.
Proof. solve_decision. Defined.
Inductive spss_event :=
  | SpClear (v : Z)                       (* [irq_clr] *)
  | SpMask (v : Z)                        (* [irq_mask] *)
  | SpDone | SpUndone                     (* [start_done] *)
  | SpCrash                               (* [rproc_report_crash] *)
  | SpAop (on : bool) (ret : Z)
  | SpShutdown (ret : Z) | SpReset (ret : Z)
  | SpVote (v : vote) (on : bool)
  | SpVoltage (uv : Z) | SpLoad (ua : Z)
  | SpWait (ret : Z)
  | SpEdge (on : bool) | SpNotify
  | SpGet (h : handle) | SpPut (h : handle).

Class SpssEnv (W : Type) := {
  raw_readl : register → W → Z * W;
  ioremap : Z → W → bool * W;
  qmp_send : bool → W → Z * W;
  qcom_scm_pas_shutdown : W → Z * W;
  qcom_scm_pas_auth_and_reset : W → Z * W;
  clk_prepare_enable : W → Z * W;
  regulator_enable : W → Z * W;
  (** Whether the completion was or became complete, and the jiffies left. *)
  wait_for_completion_timeout : bool → Z → W → Z * W;
  qcom_glink_spss_register : W → Z * W;
  qcom_mdt_load : Z → Z → W → (Z * Z) * W;
}.

Section spss.
Context {W : Type} `{!SpssEnv W}.
Abbreviation M := (M (machine qcom_spss W spss_event)).

(** The driver's structure: gone after [rproc_free]. *)
Definition get_spss : M qcom_spss := d ← get_drv; if alive d then mret d else fault.
Definition readl (r : register) : M Z := v ← ask (raw_readl r); mret (u32 v).
Definition bit (d : qcom_spss) (n : nat) : Z := BIT (nth n (bits_arr d) 0).
Definition irq_clear (n : nat) : M unit := d ← get_spss; emit (SpClear (u32 (bit d n))).

Definition spss_load_state_toggle (enable : bool) : M Z :=
  d ← get_spss;
  if negb (qmp d) then mret 0
  else ret ← ask (qmp_send enable); emit (SpAop enable ret);; mret ret.

Fixpoint read_debug (l : list Z) : M unit :=
  match l with
  | [] => skip
  | addr :: l =>
      ok ← ask (ioremap addr);
      (if negb ok then skip
       else readl (DebugRegister addr);; readl (DebugRegister (addr + 4));; skip);;
      read_debug l
  end.
Definition read_sp2cl_debug_registers : M unit :=
  read_debug [SP_SCSR_MB0_SP2CL_GP0_ADDR; SP_SCSR_MB1_SP2CL_GP0_ADDR; SP_SCSR_MB3_SP2CL_GP0_ADDR].

(** *** The GLINK subdevice *)

Definition glink_spss_subdev_start : M Z :=
  ret ← ask qcom_glink_spss_register;
  mod_drv (fun d => d <| edge := 0 <=? ret |>);;
  emit (SpEdge (0 <=? ret));;
  mret (if ret <? 0 then ret else 0).
Definition glink_spss_subdev_stop : M unit :=
  emit (SpEdge false);; mod_drv (fun d => d <| edge := false |>).
Definition glink_spss_subdev_unprepare : M unit := emit SpNotify.
(** [present]: the node; [dup]: the copy of the name. *)
Definition qcom_add_glink_spss_subdev (present dup : bool) : M unit :=
  mod_drv (fun d => d <| node := present |>);;
  if negb present then skip
  else
    emit (SpGet GlinkNode);;
    mod_drv (fun d => d <| ssr_name := dup |>);;
    if negb dup then skip else emit (SpGet GlinkSubdev).
Definition qcom_remove_glink_spss_subdev : M unit :=
  d ← get_spss;
  if negb (node d) then skip
  else emit (SpPut GlinkSubdev);; emit (SpPut GlinkNode).

(** *** The interrupt *)

Definition read_spares : M unit :=
  readl (ErrSpare 0);; readl (ErrSpare 4);; readl (ErrSpare 8);; skip.
Definition clear_pbl_done : M unit := readl ErrStatus;; read_spares;; irq_clear PBL_DONE.
Definition clear_err_ready : M unit :=
  irq_clear ERR_READY;; mod_drv (fun d => d <| start_done := true |>);; emit SpDone.
Definition clear_sw_init_done_error : M unit := read_spares;; irq_clear ERR_READY.
Definition clear_wdog : M unit := irq_clear ERR_READY;; emit SpCrash.
Definition IRQ_HANDLED := 1.
Definition spss_generic_handler : M Z :=
  err_value ← readl (ErrSpare 0);
  status_val ← readl IrqStatus;
  d ← get_spss;
  (if testm status_val (bit d ERR_READY) then
     if err_value =? 0 then clear_err_ready
     else if err_value =? SPSS_WDOG_ERR then clear_wdog
     else clear_sw_init_done_error
   else skip);;
  (if testm status_val (bit d PBL_DONE) then clear_pbl_done else skip);;
  mret IRQ_HANDLED.

Definition all_bits := 0xffffffff.
Definition mask_scsr_irqs : M unit := emit (SpMask all_bits).
Definition unmask_scsr_irqs : M unit :=
  d ← get_spss;
  emit (SpMask (Z.land (Z.land all_bits (u32 (Z.lnot (bit d ERR_READY)))) (u32 (Z.lnot (bit d PBL_DONE))))).

(** Whether the processor crashed already, and what goes to [*ret_error]. *)
Definition check_status : M (bool * option Z) :=
  err_value ← readl (ErrSpare 0);
  status_val ← readl IrqStatus;
  rmb_err ← readl ErrStatus;
  d ← get_spss;
  if Z.land rmb_err PBL_LOG_MASK =? PBL_LOG_VALUE then mret (true, Some (s32 rmb_err))
  else if testm status_val (bit d ERR_READY) && (err_value =? SPSS_WDOG_ERR) then
    (irq_clear ERR_READY;; mret (true, None))
  else mret (false, None).

(** *** Load, stop, attach, start *)

Definition spss_load : M Z :=
  d ← get_spss;
  '(ret, reloc) ← ask (qcom_mdt_load (mem_phys d) (mem_size d));
  mod_drv (fun d => d <| mem_reloc := reloc |>);;
  mret ret.

Definition spss_stop : M Z :=
  ret ← ask qcom_scm_pas_shutdown;
  emit (SpShutdown ret);;
  mask_scsr_irqs;;
  d ← get_spss;
  (if qmp d then spss_load_state_toggle false;; skip else skip);;
  mod_drv (fun d => d <| state := RPROC_OFFLINE |> <| start_done := false |>);;
  emit SpUndone;;
  mret ret.

Definition wait_start : M Z :=
  d ← get_spss;
  ret ← ask (wait_for_completion_timeout (start_done d) SPSS_TIMEOUT);
  emit (SpWait ret);;
  read_sp2cl_debug_registers;;
  mret (if ret =? 0 then - ETIMEDOUT else 0).
Definition attach_wait : M Z :=
  unmask_scsr_irqs;;
  ret ← wait_start;
  d ← get_spss;
  (if negb (ret =? 0) && qmp d then spss_load_state_toggle false;; skip else skip);;
  mret ret.
Definition spss_attach : M Z :=
  '(crashed, err) ← check_status;
  if crashed : bool then (spss_stop;; mret (default 0 err))
  else
    d ← get_spss;
    if qmp d then
      ret ← spss_load_state_toggle true;
      if negb (ret =? 0) then (spss_stop;; mret ret) else attach_wait
    else attach_wait.

Definition disable_regulator : M unit :=
  d ← get_spss;
  match cx d with
  | None => skip
  | Some _ => emit (SpVoltage 0);; emit (SpLoad 0);; emit (SpVote Regulator false)
  end.
Definition enable_regulator : M Z :=
  d ← get_spss;
  match cx d with
  | None => mret 0
  | Some r =>
      emit (SpVoltage (uV r));; emit (SpLoad (uA r));;
      ret ← ask regulator_enable;
      (if ret =? 0 then emit (SpVote Regulator true) else skip);;
      mret ret
  end.
(** The exits of [spss_start]. *)
Definition disable_xo_clk (ret : Z) : M Z := emit (SpVote Clock false);; mret ret.
Definition disable_spss (ret : Z) : M Z :=
  d ← get_spss;
  (if negb (ret =? 0) && qmp d then spss_load_state_toggle false;; skip else skip);;
  disable_regulator;;
  disable_xo_clk ret.
Definition boot : M Z :=
  ret ← ask qcom_scm_pas_auth_and_reset;
  emit (SpReset ret);;
  if negb (ret =? 0) then disable_spss ret
  else
    unmask_scsr_irqs;;
    ret ← wait_start;
    disable_spss ret.
Definition spss_start : M Z :=
  ret ← ask clk_prepare_enable;
  if negb (ret =? 0) then mret ret
  else
    emit (SpVote Clock true);;
    ret ← enable_regulator;
    if negb (ret =? 0) then disable_xo_clk ret
    else
      d ← get_spss;
      if qmp d then
        status ← spss_load_state_toggle true;
        if negb (status =? 0) then disable_xo_clk ret else boot
      else boot.

(** The offset into the window, or NULL: [int offset], [size_t] sums. *)
Definition spss_da_to_va (da len : Z) : M (option Z) :=
  d ← get_spss;
  let offset := s32 (da - mem_reloc d) in
  mret (if (offset <? 0) || (mem_size d <? u64 (offset + len)) then None else Some offset).

Definition qcom_spss_set_fw_name (dup : bool) (fw_name : string) : M Z :=
  if negb dup then mret (- ENOMEM) else (mod_drv (fun d => d <| firmware := fw_name |>);; mret 0).

(** *** Probe and remove *)

(** The kernel's answers.  [q_regs]: mapping the six registers; [q_region]: the
    memory region's node, its resource and its size; [q_cx]: the regulator, absent,
    an error, or the two values; [q_qmp]: an error, NULL or found. *)
Record spss_answers := mkAnswers {
  q_desc : bool; q_scm : bool; q_alloc : bool; q_wakeup : Z; q_regs : list Z; q_bits : Z * list Z;
  q_region : option (Z * (Z * Z)); q_extra_size : option Z; q_ioremap : bool; q_xo : Z;
  q_cx : option (Z * (Z * (Z * Z))); q_signal_aop : bool; q_qmp : option Z; q_glink : bool * bool;
  q_irq : Z; q_add : Z; q_utils : Z; q_spcom : Z
}.
Context (a : spss_answers).

Definition spss_init_clock : M Z := mret (if q_xo a <? 0 then q_xo a else 0).
Definition init_regulator : M Z :=
  match q_cx a with
  | None => mod_drv (fun d => d <| cx := None |>);; mret 0
  | Some (ret, (rc, (uv, ua))) =>
      if ret <? 0 then mret ret
      else
        mod_drv (fun d => d <| cx := Some (mkReg 0 0) |>);;
        if negb (rc =? 0) then mret rc
        else
          mod_drv (fun d => d <| cx := Some (mkReg (if 0 <? uv then uv else 0) (if 0 <? ua then ua else 0)) |>);;
          mret 0
  end.
Definition set_window (phys size : Z) : M Z :=
  mod_drv (fun d => d <| mem_phys := phys |> <| mem_reloc := phys |> <| mem_size := size |>);;
  mret (if q_ioremap a then 0 else - EBUSY).
Definition spss_alloc_memory_region : M Z :=
  match q_region a with
  | None => set_window GTS9U_SPSS_MEM_BASE GTS9U_SPSS_MEM_SIZE
  | Some (ret, (start, size)) =>
      if negb (ret =? 0) then mret ret else set_window start (size + default 0 (q_extra_size a))
  end.
Fixpoint map_registers (l : list Z) (k : M Z) : M Z :=
  match l with [] => k | ret :: l => if ret <? 0 then mret ret else map_registers l k end.
Definition qcom_spss_init_mmio : M Z :=
  map_registers (q_regs a)
    (let '(ret, bits) := q_bits a in
     if negb (ret =? 0) then mret ret else (mod_drv (fun d => d <| bits_arr := bits |>);; mret 0)).

(** The exits of [qcom_spss_probe]. *)
Definition free_rproc (ret : Z) : M Z :=
  emit (SpPut Rproc);; mod_drv (fun d => d <| alive := false |>);; mret ret.
Definition deinit_wakeup_source (ret : Z) : M Z := emit (SpPut Wakeup);; free_rproc ret.
Definition remove_subdev (ret : Z) : M Z :=
  qcom_remove_glink_spss_subdev;; emit (SpPut SsrSubdev);; deinit_wakeup_source ret.
Definition del_rproc (ret : Z) : M Z := emit (SpPut RprocAdded);; remove_subdev ret.
Definition unregister_utils (ret : Z) : M Z :=
  emit (SpPut UtilsDevice);; mod_drv (fun d => d <| utils_pdev := false |>);; del_rproc ret.

Definition register_children : M Z :=
  if q_utils a <? 0 then del_rproc (q_utils a)
  else
    emit (SpGet UtilsDevice);;
    mod_drv (fun d => d <| utils_pdev := true |>);;
    if q_spcom a <? 0 then unregister_utils (q_spcom a)
    else (emit (SpGet SpcomDevice);; mod_drv (fun d => d <| spcom_pdev := true |>);; mret 0).
Definition add_rproc : M Z :=
  qcom_add_glink_spss_subdev (q_glink a).1 (q_glink a).2;;
  emit (SpGet SsrSubdev);;
  mask_scsr_irqs;;
  if negb (q_irq a =? 0) then remove_subdev (q_irq a)
  else if negb (q_add a =? 0) then remove_subdev (q_add a)
  else (emit (SpGet RprocAdded);; register_children).
(** [ret] is what [init_regulator] returned. *)
Definition get_aop (ret : Z) : M Z :=
  if q_signal_aop a then
    match q_qmp a with
    | Some q => if q <? 0 then deinit_wakeup_source ret
                else (mod_drv (fun d => d <| qmp := true |>);; add_rproc)
    | None => deinit_wakeup_source ret
    end
  else add_rproc.
(** [ret = c; if (ret) goto deinit_wakeup_source; k] *)
Definition or_deinit (c : M Z) (k : Z → M Z) : M Z :=
  ret ← c; if negb (ret =? 0) then deinit_wakeup_source ret else k ret.
Definition new_spss : qcom_spss :=
  mkSpss true None false 0 0 0 false false false false false false [0; 0] RPROC_OFFLINE true "spss1p.mdt".
Definition qcom_spss_probe : M Z :=
  if negb (q_desc a) then mret (- EINVAL)
  else if negb (q_scm a) then mret (- EPROBE_DEFER)
  else if negb (q_alloc a) then mret (- ENOMEM)
  else
    mod_drv (fun _ => new_spss);;
    emit (SpGet Rproc);;
    if negb (q_wakeup a =? 0) then free_rproc (q_wakeup a)
    else
      emit (SpGet Wakeup);;
      or_deinit qcom_spss_init_mmio (fun _ =>
      gpm ← readl RmbGpm;
      mod_drv (fun d => d <| state := if testm gpm (BIT 0) then RPROC_OFFLINE else RPROC_DETACHED |>);;
      or_deinit spss_alloc_memory_region (fun _ =>
      or_deinit spss_init_clock (fun _ =>
      or_deinit init_regulator get_aop))).
Definition qcom_spss_remove : M unit :=
  d ← get_spss;
  (if spcom_pdev d then emit (SpPut SpcomDevice) else skip);;
  (if utils_pdev d then emit (SpPut UtilsDevice) else skip);;
  emit (SpPut RprocAdded);;
  qcom_remove_glink_spss_subdev;;
  emit (SpPut SsrSubdev);;
  emit (SpPut Wakeup);;
  free_rproc 0;;
  skip.
End spss.

(** ** The device node

    [gts9u_publish_spss_node]: a change of the live device tree, kept in static
    variables. *)
Inductive prop :=
  | PStr (s : string) | PStrs (l : list string) | PU32 (v : Z) | PU32s (l : list Z) | PBool.
Record ocs := mkOcs {
  gts9u_spss_ocs_initialized : bool; gts9u_spss_ocs_applied : bool; registered : bool
}.
#[export] Instance eta_ocs : Eta ocs := fun r =>
  mkOcs (gts9u_spss_ocs_initialized r) (gts9u_spss_ocs_applied r) (registered r).
Inductive found := SocAt0 | Soc | Rpmh | Aoss | Ipcc | Gic | Existing.
#[export] Instance found_eq_dec : EqDecision found.
Proof. solve_decision. Defined.
Inductive node_event :=
  | NdHold (n : found) | NdPut (n : found)
  | NdInit | NdCreate (name : string) (ret : Z) | NdProp (node name : string) (p : prop) (ret : Z)
  | NdApply (ret : Z) | NdRevert | NdDestroy
  | NdDriver (on : bool) (ret : Z).

Class TreeEnv (W : Type) := {
  (** [None]: no such node; otherwise its phandle. *)
  find_node : found → W → option Z * W;
  create_node : string → W → Z * W;
  add_prop : string → string → prop → W → Z * W;
  changeset_apply : W → Z * W;
  platform_driver_register : W → Z * W;
}.

Definition reg_names : list string :=
  ["sp2soc_irq_status"; "sp2soc_irq_clr"; "sp2soc_irq_mask"; "rmb_err"; "rmb_general_purpose";
   "rmb_err_spare2"]%string.
Definition regs : list Z :=
  [0; 0x188101c; 0; 4; 0; 0x1881024; 0; 4; 0; 0x1881028; 0; 4; 0; 0x188103c; 0; 4;
   0; 0x1881100; 0; 4; 0; 0x1882014; 0; 4].
Definition glink_reg_names : list string := ["qcom,spss-addr"; "qcom,spss-size"]%string.
Definition glink_regs : list Z := [0; 0x1885008; 0; 8; 0; 0x1885010; 0; 4].
Definition spss_props (rpmh_ph aoss_ph gic_ph : Z) : list (string * prop) :=
  [("compatible", PStr "qcom,kalama-spss-pas"); ("reg", PU32s regs); ("reg-names", PStrs reg_names);
   ("interrupts-extended", PU32s [gic_ph; 0; 0x160; 1; 0]); ("clocks", PU32s [rpmh_ph; 0]);
   ("clock-names", PStr "xo"); ("qcom,qmp", PU32s [aoss_ph]); ("qcom,signal-aop", PBool);
   ("qcom,spss-scsr-bits", PU32s [0x18; 0x19]); ("qcom,extra-size", PU32 0x1000);
   ("#address-cells", PU32 2); ("#size-cells", PU32 2); ("ranges", PBool)]%string.
Definition glink_props (ipcc_ph : Z) : list (string * prop) :=
  [("qcom,remote-pid", PU32 8); ("mboxes", PU32s [ipcc_ph; 16; 0]);
   ("interrupts-extended", PU32s [ipcc_ph; 16; 0; 1]); ("reg", PU32s glink_regs);
   ("reg-names", PStrs glink_reg_names); ("label", PStr "spss")]%string.

Section publish.
Context {W : Type} `{!TreeEnv W}.
Abbreviation M := (M (machine ocs W node_event)).

(** A reference to the node, when there is one. *)
Definition hold_node (n : found) : M (option Z) :=
  r ← ask (find_node n); (if r is Some _ then emit (NdHold n) else skip);; mret r.
Definition of_node_put (l : list found) : M unit := foldr (fun n k => emit (NdPut n);; k) skip l.

(** The phandle, or an error; nothing is held after an error. *)
Definition gts9u_find_phandle (n : found) : M (Z + Z) :=
  r ← hold_node n;
  match r with
  | None => mret (inl (- ENODEV))
  | Some ph => if ph =? 0 then (of_node_put [n];; mret (inl (- EINVAL))) else mret (inr ph)
  end.

Fixpoint add_props (node : string) (l : list (string * prop)) : M Z :=
  match l with
  | [] => mret 0
  | (name, p) :: l =>
      ret ← ask (add_prop node name p);
      emit (NdProp node name p ret);;
      if negb (ret =? 0) then mret ret else add_props node l
  end.
Definition make_node (name : string) : M Z :=
  ret ← ask (create_node name); emit (NdCreate name ret);; mret (if ret <? 0 then ret else 0).

(** [destroy:] falls into [out:], which puts the nodes held. *)
Definition out (held : list found) (ret : Z) : M Z := of_node_put held;; mret ret.
Definition destroy (held : list found) (ret : Z) : M Z :=
  emit NdDestroy;; mod_drv (fun d => d <| gts9u_spss_ocs_initialized := false |>);; out held ret.
Definition apply_changeset (held : list found) : M Z :=
  ret ← ask changeset_apply;
  emit (NdApply ret);;
  if negb (ret =? 0) then destroy held ret
  else (mod_drv (fun d => d <| gts9u_spss_ocs_applied := true |>);; out held 0).
Definition build_node (rpmh_ph aoss_ph ipcc_ph gic_ph : Z) (held : list found) : M Z :=
  emit NdInit;;
  mod_drv (fun d => d <| gts9u_spss_ocs_initialized := true |>);;
  ret ← make_node "remoteproc-spss@1880000";
  if negb (ret =? 0) then destroy held ret
  else
    ret ← add_props "remoteproc-spss@1880000" (spss_props rpmh_ph aoss_ph gic_ph);
    if negb (ret =? 0) then destroy held ret
    else
      ret ← make_node "glink-edge";
      if negb (ret =? 0) then destroy held ret
      else
        ret ← add_props "glink-edge" (glink_props ipcc_ph);
        if negb (ret =? 0) then destroy held ret else apply_changeset held.
(** ["/soc@0"], else ["/soc"]. *)
Definition find_soc : M (option found) :=
  r ← hold_node SocAt0;
  match r with
  | Some _ => mret (Some SocAt0)
  | None => r ← hold_node Soc; mret (match r with Some _ => Some Soc | None => None end)
  end.
Definition gts9u_publish_spss_node : M Z :=
  existing ← hold_node Existing;
  match existing with
  | Some _ => out [Existing] 0
  | None =>
      soc ← find_soc;
      match soc with
      | None => mret (- ENODEV)
      | Some soc =>
          rpmh ← gts9u_find_phandle Rpmh;
          match rpmh with
          | inl ret => out [soc] ret
          | inr rpmh_ph =>
              aoss ← gts9u_find_phandle Aoss;
              match aoss with
              | inl ret => out [Rpmh; soc] ret
              | inr aoss_ph =>
                  ipcc ← gts9u_find_phandle Ipcc;
                  match ipcc with
                  | inl ret => out [Aoss; Rpmh; soc] ret
                  | inr ipcc_ph =>
                      gic ← hold_node Gic;
                      match gic with
                      | None => out [Ipcc; Aoss; Rpmh; soc] (- ENODEV)
                      | Some gic_ph =>
                          if gic_ph =? 0 then out [Gic; Ipcc; Aoss; Rpmh; soc] (- ENODEV)
                          else build_node rpmh_ph aoss_ph ipcc_ph gic_ph [Gic; Ipcc; Aoss; Rpmh; soc]
                      end
                  end
              end
          end
      end
  end.

Definition driver_register : M Z :=
  ret ← ask platform_driver_register; emit (NdDriver true ret);;
  mod_drv (fun d => d <| registered := ret =? 0 |>);; mret ret.
Definition driver_unregister : M unit :=
  emit (NdDriver false 0);; mod_drv (fun d => d <| registered := false |>).
Definition qcom_spss_init : M Z :=
  driver_register ?;
  (ret ← gts9u_publish_spss_node;
   (if negb (ret =? 0) then driver_unregister else skip);;
   mret ret).
Definition qcom_spss_exit : M unit :=
  d ← get_drv;
  (if gts9u_spss_ocs_applied d then emit NdRevert else skip);;
  (if gts9u_spss_ocs_initialized d then emit NdDestroy else skip);;
  driver_unregister.
End publish.
