(* ===== verification/QcomSpssProps.v ===== *)
(** The properties of the secure processor's driver: what a start leaves behind, the
    interrupt, the memory window, and the lifetime from probe to remove. *)
From Stdlib Require Import Ascii String.
From S2P Require Import Prelude Bus QcomSpss.

(** ** Starting *)

(** The votes that are on, the AOP's last answer to each message and the state it was
    told, and what the processor did.  [at_reset]: whether the secure monitor was asked
    to authenticate it and release it from reset, with the votes and what the AOP had
    been told at that moment. *)
Record start_account := mkStart {
  clock : Z; regulator : Z; refused : bool; aop : bool; reset_ok : bool; waited : bool;
  at_reset : option (Z * Z * bool)
}.
#[export] Instance eta_start : Eta start_account := fun r =>
  mkStart (clock r) (regulator r) (refused r) (aop r) (reset_ok r) (waited r) (at_reset r).
Definition see_start (b : start_account) (e : spss_event) : start_account :=
  match e with
  | SpVote Clock on => b <| clock := clock b + (if on then 1 else -1) |>
  | SpVote Regulator on => b <| regulator := regulator b + (if on then 1 else -1) |>
  | SpAop on ret => if ret =? 0 then b <| aop := on |> else if on then b <| refused := true |> else b
  | SpReset ret => b <| reset_ok := ret =? 0 |> <| at_reset := Some (clock b, regulator b, aop b) |>
  | SpWait ret => b <| waited := negb (ret =? 0) |>
  | _ => b
  end.
Definition before_start : start_account := mkStart 0 0 false false false false None.

Definition cx_vote (d : qcom_spss) : Z := match cx d with Some _ => 1 | None => 0 end.

Section start.
Context {W : Type} `{!SpssEnv W}.
Abbreviation vc := (vc (W := W) (E := spss_event) see_start before_start).

Lemma vc_spss d b (Q : qcom_spss → qcom_spss → start_account → Prop) :
  alive d = true → Q d d b → vc get_spss Q d b.
Proof. intros Ha HQ. unfold get_spss. apply vc_bind, vc_drv. rewrite Ha. by apply vc_ret. Qed.
Ltac step Ha := first
  [ vc_step | progress (cbv beta iota zeta) | eapply vc_spss; [exact Ha|] ].

(** Code that only reads. *)
Lemma read_debug_spec l d b : vc (read_debug l) (fun _ d' b' => d' = d ∧ b' = b) d b.
Proof.
  revert b. induction l as [|x l IH]; intros b; cbn [read_debug]; [by apply vc_skip|].
  apply vc_bind, vc_ask. intros []; cbn [negb]; unfold readl; repeat vc_step; apply IH.
Qed.
Lemma wait_spec d b :
  alive d = true →
  vc wait_start (fun r d' b' => d' = d ∧ ∃ v, b' = b <| waited := v |> ∧ (r = 0 ↔ v = true) ∧ r <= 0) d b.
Proof.
  intros Ha. unfold wait_start. apply vc_bind. eapply vc_spss; [exact Ha|].
  apply vc_bind, vc_ask. intros ret. apply vc_bind, vc_emit. cbn [see_start].
  eapply vc_call; [apply read_debug_spec|]. intros [] d1 b1 [-> ->]. apply vc_ret. split; [done|].
  eexists. split; [done|]. by destruct (ret =? 0).
Qed.
(** Switching the regulator: its load and voltage do not matter here. *)
Lemma spss_disable_spec d b : alive d = true →
  vc disable_regulator (fun _ d' b' => d' = d
    ∧ b' = b <| regulator := regulator b - cx_vote d |>) d b.
Proof.
  intros Ha. unfold disable_regulator. apply vc_bind. eapply vc_spss; [exact Ha|].
  unfold cx_vote. destruct (cx d); repeat vc_step; (split; [done|]); cbn; [done|]. rewrite Z.sub_0_r. by destruct b.
Qed.
(** What [disable_spss] leaves when the start had got [b]. *)
Lemma disable_spss_spec ret d b :
  alive d = true →
  vc (disable_spss ret) (fun r d' b' => r = ret ∧ d' = d ∧ clock b' = clock b - 1
    ∧ regulator b' = regulator b - cx_vote d
    ∧ refused b' = refused b ∧ reset_ok b' = reset_ok b ∧ waited b' = waited b
    ∧ at_reset b' = at_reset b) d b.
Proof.
  intros Ha. unfold disable_spss. apply vc_bind. eapply vc_spss; [exact Ha|].
  apply vc_call with (P := fun _ d' b' => d' = d ∧ clock b' = clock b ∧ regulator b' = regulator b
    ∧ refused b' = refused b ∧ reset_ok b' = reset_ok b ∧ waited b' = waited b ∧ at_reset b' = at_reset b).
  { destruct (_ && _); [|by apply vc_skip]. unfold spss_load_state_toggle.
    apply vc_bind, vc_bind. eapply vc_spss; [exact Ha|].
    destruct (negb (qmp d)); [by apply vc_ret, vc_skip|]. apply vc_bind, vc_ask. intros r.
    apply vc_bind, vc_emit, vc_ret, vc_skip. cbn. by destruct (r =? 0). }
  intros [] d1 b1 (-> & Hc & Hr & Hf & Ho & Hw & Hat).
  eapply vc_call; [by apply spss_disable_spec|]. intros [] d2 b2 (-> & ->).
  unfold disable_xo_clk. apply vc_bind, vc_emit, vc_ret. cbn. rewrite Hc, Hr. by split_and!.
Qed.
Lemma boot_spec d b :
  alive d = true → refused b = false → waited b = false →
  vc boot (fun r d' b' => d' = d ∧ clock b' = clock b - 1
    ∧ regulator b' = regulator b - cx_vote d ∧ refused b' = false
    ∧ at_reset b' = Some (clock b, regulator b, aop b)
    ∧ (r = 0 ↔ reset_ok b' = true ∧ waited b' = true)) d b.
Proof.
  intros Ha Hf Hw. unfold boot. apply vc_bind, vc_ask. intros ret. apply vc_bind, vc_emit. cbn [see_start].
  destruct (Z.eqb_spec ret 0) as [->|Hne]; cbn [negb].
  - unfold unmask_scsr_irqs. apply vc_bind, vc_bind. eapply vc_spss; [exact Ha|]. apply vc_emit.
    cbn [see_start]. eapply vc_call; [by apply wait_spec|]. intros r d1 b1 (-> & v & -> & Hr & _).
    eapply vc_mono; [by apply disable_spss_spec|]. intros r2 d2 b2 (-> & -> & H1 & H2 & H3 & H4 & H5 & H6).
    cbn in *. split_and!; try done; [congruence|]. rewrite H4, H5. split; [intros H; by apply Hr in H|].
    intros [_ ?]. by apply Hr.
  - eapply vc_mono; [by apply disable_spss_spec|]. intros r2 d2 b2 (-> & -> & H1 & H2 & H3 & H4 & H5 & H6).
    cbn in *. split_and!; try done; [congruence|]. rewrite H4. by split; [|intros [? _]].
Qed.
(** A start: the answer, the votes it leaves on, and when it says it succeeded. *)
Definition start_left (d : qcom_spss) (r : Z) (d' : qcom_spss) (b : start_account) : Prop :=
  d' = d ∧ clock b = 0
  ∧ regulator b = (if refused b then cx_vote d else 0)
  ∧ (r = 0 ↔ reset_ok b = true ∧ waited b = true ∨ refused b = true)
  ∧ (refused b = true → at_reset b = None)
  ∧ (∀ c v told, at_reset b = Some (c, v, told) → c = 1 ∧ v = cx_vote d ∧ told = qmp d).
Lemma spss_start_spec d : alive d = true → vc spss_start (start_left d) d before_start.
Proof.
  intros Ha. unfold spss_start. apply vc_bind, vc_ask. intros ret.
  destruct (Z.eqb_spec ret 0) as [->|Hne]; cbn [negb]; cycle 1.
  { apply vc_ret. split_and!; try done. split; [done|]. by intros [[? ?]|?]. }
  apply vc_bind, vc_emit. cbn [see_start].
  eapply vc_call with (P := fun r d' b' => d' = d ∧ clock b' = 1 ∧ refused b' = false
    ∧ reset_ok b' = false ∧ waited b' = false ∧ at_reset b' = None ∧ aop b' = false
    ∧ regulator b' = (if r =? 0 then cx_vote d else 0)).
  { unfold enable_regulator. apply vc_bind. eapply vc_spss; [exact Ha|].
    unfold cx_vote. destruct (cx d) as [rg|]; [|by apply vc_ret]. apply vc_bind, vc_emit, vc_bind, vc_emit, vc_bind, vc_ask.
    intros r. apply vc_bind. destruct (r =? 0) eqn:E; [apply vc_emit|apply vc_skip]; apply vc_ret;
      cbn; by rewrite E. }
  intros r d1 b1 (-> & Hc & Hf & Ho & Hw & Hat & Hp & Hr). destruct (Z.eqb_spec r 0) as [->|Hne]; cbn [negb].
  - assert (qmp d = false → vc boot (start_left d) d b1) as Hboot.
    { intros Hq. eapply vc_mono; [by apply boot_spec|]. intros r d2 b2 (-> & H1 & H2 & H3 & H7 & H4).
      unfold start_left. rewrite H1, H2, H3, Hc, Hr, H7. split_and!; try done.
      - lia.
      - rewrite H4. split; [by left|]. by intros [?|?].
      - intros c v told [= <- <- <-]. by rewrite Hc, Hr, Hp, Hq. }
    apply vc_bind. eapply vc_spss; [exact Ha|]. destruct (qmp d) eqn:Hq; [|by apply Hboot]. clear Hboot.
    unfold spss_load_state_toggle. apply vc_bind, vc_bind. eapply vc_spss; [exact Ha|]. rewrite Hq.
    cbn [negb]. apply vc_bind, vc_ask. intros s. apply vc_bind, vc_emit, vc_ret. cbn [see_start].
    destruct (Z.eqb_spec s 0) as [->|Hs]; cbn [negb].
    + eapply vc_mono; [by apply boot_spec|]. intros r d2 b2 (-> & H1 & H2 & H3 & H7 & H4).
      cbn in *. unfold start_left. rewrite H1, H2, H3, Hc, Hr, H7. split_and!; try done.
      * lia.
      * rewrite H4. split; [by left|]. by intros [?|?].
      * intros c v told [= <- <- <-]. by rewrite Hc, Hr, Hq.
    + unfold disable_xo_clk. apply vc_bind, vc_emit, vc_ret. unfold start_left. cbn.
      rewrite Hc, Hr, Hat. split_and!; try done. split; [by right|done].
  - unfold disable_xo_clk. apply vc_bind, vc_emit, vc_ret. unfold start_left. cbn.
    rewrite Hc, Hf, Ho, Hr, Hat.
    split_and!; try done. split; [done|]. by intros [[? ?]|?].
Qed.
End start.

(** C27: Starting the processor leaves no clock vote behind, whatever fails, and
    reports success when the secure monitor released it from reset and it said it
    was ready in time.  The monitor is only asked with the clock and the regulator
    on and, where there is an always-on processor to tell, after that accepted the
    message that it comes up.  The one other way to succeed is that the always-on
    processor refused the message: then the monitor was never asked, so the processor
    was not started, and the regulator's vote stays. *)
Theorem start_leaves_nothing_on {W} `{!SpssEnv W} (d : qcom_spss) (w : W) r m :
  alive d = true → spss_start (mkM d w []) = Ret (r, m) →
  let b := audit see_start before_start (log m) in
  drv m = d ∧ clock b = 0
  ∧ (r = 0 ↔ reset_ok b = true ∧ waited b = true ∨ refused b = true)
  ∧ regulator b = (if refused b then cx_vote d else 0)
  ∧ (refused b = true → at_reset b = None)
  ∧ ∀ c v told, at_reset b = Some (c, v, told) → c = 1 ∧ v = cx_vote d ∧ told = qmp d.
Proof.
  intros Ha H. destruct (vc_use see_start before_start _ _ (mkM d w []) m r (spss_start_spec d Ha) H)
    as (Hd & Hc & Hr & H0 & Hn & Hs). by split_and!.
Qed.
(** A processor that starts; the always-on processor answers as the world says. *)
#[export] Instance ready_spss : SpssEnv Z := {|
  raw_readl _ w := (0, w); ioremap _ w := (true, w); qmp_send _ w := (w, w);
  qcom_scm_pas_shutdown w := (0, w); qcom_scm_pas_auth_and_reset w := (0, w);
  clk_prepare_enable w := (0, w); regulator_enable w := (0, w);
  wait_for_completion_timeout _ _ w := (1000, w); qcom_glink_spss_register w := (0, w);
  qcom_mdt_load p _ w := ((0, p), w)
|}.
Definition bound_spss : qcom_spss :=
  mkSpss true (Some (mkReg 800000 100000)) false 0 0 0 true true true true true true [24; 25]
    RPROC_OFFLINE true EmptyString.
Lemma start_leaves_nothing_on_witness :
  (∃ m, spss_start (mkM bound_spss 0 []) = Ret (0, m)
     ∧ at_reset (audit see_start before_start (log m)) = Some (1, 1, true)
     ∧ clock (audit see_start before_start (log m)) = 0
     ∧ regulator (audit see_start before_start (log m)) = 0)
  ∧ ∃ m, spss_start (mkM bound_spss (-5) []) = Ret (0, m)
     ∧ at_reset (audit see_start before_start (log m)) = None
     ∧ clock (audit see_start before_start (log m)) = 0
     ∧ regulator (audit see_start before_start (log m)) = 1.
Proof.
  assert (∃ m, spss_start (mkM bound_spss 0 []) = Ret (0, m)
    ∧ refused (audit see_start before_start (log m)) = false
    ∧ at_reset (audit see_start before_start (log m)) = Some (1, 1, true)) as (m & E & Hf & Hat)
    by (eexists; split_and!; vm_compute; reflexivity).
  assert (∃ m, spss_start (mkM bound_spss (-5) []) = Ret (0, m)
    ∧ refused (audit see_start before_start (log m)) = true) as (m2 & E2 & Hf2)
    by (eexists; split; vm_compute; reflexivity).
  destruct (start_leaves_nothing_on bound_spss 0 0 m eq_refl E) as (_ & Hc & _ & Hr & _).
  destruct (start_leaves_nothing_on bound_spss (-5) 0 m2 eq_refl E2) as (_ & Hc2 & _ & Hr2 & Hn2 & _).
  rewrite Hf in Hr. rewrite Hf2 in Hr2. split; [by exists m|exists m2].
  split; [exact E2|]. split; [exact (Hn2 Hf2)|]. by split.
Defined.

(** ** The memory window and the interrupt *)

Lemma get_spss_run {W} (m : machine qcom_spss W spss_event) :
  alive (drv m) = true → get_spss m = Ret (drv m, m).
Proof. intros Ha. unfold get_spss. erewrite bind_ret by reflexivity. by rewrite Ha. Qed.
(** An address within 2 GiB of the window is translated exactly when the whole range
    lies in the window, whose size an [int] holds. *)
Lemma da_to_va_window {W} `{!SpssEnv W} (m : machine qcom_spss W spss_event) da n :
  alive (drv m) = true → 0 <= n < 2 ^ 62 → 0 <= mem_size (drv m) < 2 ^ 31 →
  - 2 ^ 31 <= da - mem_reloc (drv m) < 2 ^ 31 →
  spss_da_to_va da n m = Ret
    (if (mem_reloc (drv m) <=? da) && (da + n <=? mem_reloc (drv m) + mem_size (drv m))
     then Some (da - mem_reloc (drv m)) else None, m).
Proof.
  intros Ha Hn Hs Hd. unfold spss_da_to_va. rewrite (bind_ret _ _ _ _ _ (get_spss_run m Ha)). cbv zeta.
  set (o := da - mem_reloc (drv m)) in *.
  assert (s32 o = o) as -> by (unfold s32; rewrite Z.mod_small by lia; lia). unfold mret, M_ret.
  repeat f_equal. destruct (Z.ltb_spec o 0); cbn [orb].
  { destruct (Z.leb_spec (mem_reloc (drv m)) da); [lia|done]. }
  unfold u64. rewrite Z.mod_small by lia.
  destruct (Z.leb_spec (mem_reloc (drv m)) da); [|lia].
  destruct (Z.ltb_spec (mem_size (drv m)) (o + n)),
    (Z.leb_spec (da + n) (mem_reloc (drv m) + mem_size (drv m))); cbn; done || lia.
Qed.
(** The offset is truncated to an [int]: addresses 4 GiB apart are the same. *)
Lemma da_to_va_wraps {W} `{!SpssEnv W} (m : machine qcom_spss W spss_event) da n :
  spss_da_to_va (da + 2 ^ 32) n m = spss_da_to_va da n m.
Proof.
  unfold spss_da_to_va, mbind, M_bind. destruct (get_spss m) as [[d m']| |]; [|done..].
  assert (s32 (da + 2 ^ 32 - mem_reloc d) = s32 (da - mem_reloc d)) as E; [|by rewrite E].
  unfold s32. f_equal. rewrite <-(Z.mod_add (da - mem_reloc d + 2147483648) 1) by lia. f_equal. lia.
Qed.

(** What the handler acknowledges and reports. *)
Record irq_account := mkIrqs { cleared : list Z; done : bool; crashed : bool }.
#[export] Instance eta_irqs : Eta irq_account := fun r => mkIrqs (cleared r) (done r) (crashed r).
Definition see_irq (b : irq_account) (e : spss_event) : irq_account :=
  match e with
  | SpClear v => b <| cleared ::= fun l => l ++ [v] |>
  | SpDone => b <| done := true |>
  | SpCrash => b <| crashed := true |>
  | _ => b
  end.
Definition no_irq : irq_account := mkIrqs [] false false.
(** The registers as the hardware holds them during one interrupt. *)
Section interrupt.
Context (at_status at_spare : Z).
#[local] Instance fixed_registers : SpssEnv unit := {|
  raw_readl r w := (match r with IrqStatus => at_status | ErrSpare 0 => at_spare | _ => 0 end, w);
  ioremap _ w := (true, w); qmp_send _ w := (0, w); qcom_scm_pas_shutdown w := (0, w);
  qcom_scm_pas_auth_and_reset w := (0, w); clk_prepare_enable w := (0, w); regulator_enable w := (0, w);
  wait_for_completion_timeout _ _ w := (0, w); qcom_glink_spss_register w := (0, w);
  qcom_mdt_load p _ w := ((0, p), w)
|}.
Abbreviation vc := (vc (W := unit) (E := spss_event) see_irq no_irq).
Lemma readl_vc r d b (Q : Z → qcom_spss → irq_account → Prop) :
  Q (u32 (raw_readl r tt).1) d b → vc (readl r) Q d b.
Proof.
  intros H. unfold readl. apply vc_bind. apply (vc_ask_such _ _ (fun v => v = (raw_readl r tt).1)).
  - by intros [].
  - intros v ->. by apply vc_ret.
Qed.
Lemma irq_clear_vc n d b (Q : unit → qcom_spss → irq_account → Prop) :
  alive d = true → Q tt d (b <| cleared ::= fun l => l ++ [u32 (bit d n)] |>) → vc (irq_clear n) Q d b.
Proof.
  intros Ha H. unfold irq_clear, get_spss. apply vc_bind, vc_bind, vc_drv. rewrite Ha.
  by apply vc_ret, vc_emit.
Qed.
(** The handler acknowledges the bits that are set, no others; the start is complete
    when the processor is ready without an error, a crash is reported when its
    watchdog bit. *)
Lemma handler_reports (d : qcom_spss) :
  alive d = true → is_u32 at_status → is_u32 at_spare →
  vc spss_generic_handler (fun r d' b =>
    let ready := testm at_status (bit d ERR_READY) in
    let pbl := testm at_status (bit d PBL_DONE) in
    cleared b = (if ready then [u32 (bit d ERR_READY)] else [])
                ++ (if pbl then [u32 (bit d PBL_DONE)] else [])
    ∧ done b = ready && (at_spare =? 0)
    ∧ crashed b = ready && (at_spare =? SPSS_WDOG_ERR)
    ∧ start_done d' = start_done d || done b) d no_irq.
Proof.
  intros Ha Hs He. unfold spss_generic_handler. unfold is_u32 in *.
  apply vc_bind, readl_vc, vc_bind, readl_vc, vc_bind. unfold get_spss. apply vc_bind, vc_drv. rewrite Ha.
  assert (u32 at_status = at_status ∧ u32 at_spare = at_spare) as [E1 E2]
    by (split; by apply Z.mod_small).
  apply vc_ret. cbn [raw_readl fixed_registers fst]. rewrite E1, E2.
  eapply vc_call with (P := fun _ d' b =>
    let ready := testm at_status (bit d ERR_READY) in
    alive d' = true ∧ bits_arr d' = bits_arr d
    ∧ cleared b = (if ready then [u32 (bit d ERR_READY)] else [])
    ∧ done b = ready && (at_spare =? 0) ∧ crashed b = ready && (at_spare =? SPSS_WDOG_ERR)
    ∧ start_done d' = start_done d || done b).
  { destruct (testm at_status _); [|by apply vc_skip; split_and!; rewrite ?orb_false_r].
    unfold clear_err_ready, clear_wdog, clear_sw_init_done_error, read_spares.
    destruct (Z.eqb_spec at_spare 0) as [->|].
    - apply vc_bind, irq_clear_vc; [done|]. apply vc_bind, vc_mod, vc_emit. cbn. by rewrite orb_true_r.
    - destruct (at_spare =? SPSS_WDOG_ERR).
      + apply vc_bind, irq_clear_vc; [done|]. apply vc_emit. cbn. by rewrite orb_false_r.
      + apply vc_bind. do 3 apply vc_bind, readl_vc. apply vc_skip, irq_clear_vc; [done|]. cbn.
        by rewrite orb_false_r. }
  intros [] d1 b1 (Ha1 & Hb1 & Hc & Hd & Hw & Hsd). apply vc_bind.
  destruct (testm at_status (bit d PBL_DONE)).
  - unfold clear_pbl_done, read_spares. apply vc_bind, readl_vc, vc_bind. do 3 apply vc_bind, readl_vc.
    apply vc_skip, irq_clear_vc; [done|]. apply vc_ret. cbn. rewrite Hc. split_and!; try done.
    do 2 f_equal. unfold bit. by rewrite Hb1.
  - apply vc_skip, vc_ret. rewrite Hc. by rewrite app_nil_r.
Qed.
End interrupt.

(** ** From probe to remove *)

(** What the driver holds; [bogus]: it gave back something it did not hold. *)
Record owned := mkOwned { held : list handle; bogus : bool }.
#[export] Instance eta_owned : Eta owned := fun r => mkOwned (held r) (bogus r).
Definition own (b : owned) (e : spss_event) : owned :=
  match e with
  | SpGet h => b <| held ::= cons h |>
  | SpPut h => b <| bogus := bogus b || negb (bool_decide (h ∈ held b)) |>
                 <| held ::= filter (fun x => x ≠ h) |>
  | _ => b
  end.
Definition nothing : owned := mkOwned [] false.

Section lifetime.
Context {W : Type} `{!SpssEnv W} (a : spss_answers).
Abbreviation vc := (vc (W := W) (E := spss_event) own nothing).

Definition base : list handle := [Wakeup; Rproc].
Definition glink_held : list handle :=
  if (q_glink a).1 then if (q_glink a).2 then [GlinkSubdev; GlinkNode] else [GlinkNode] else [].
Definition added : list handle := SsrSubdev :: glink_held ++ base.
(** The name of the GLINK edge can be copied when there is an edge. *)
Definition copied : bool := implb (q_glink a).1 (q_glink a).2.
(** The AOP's handle is wanted and not there. *)
Definition aop_missing : bool :=
  q_signal_aop a && match q_qmp a with Some q => q <? 0 | None => true end.

(** Everything given back and the structure freed. *)
Definition gone (d : qcom_spss) (b : owned) : Prop := alive d = false ∧ held b = [] ∧ bogus b = negb copied.
Definition gone_clean (d : qcom_spss) (b : owned) : Prop := alive d = false ∧ held b = [] ∧ bogus b = false.
Definition full (d : qcom_spss) (b : owned) : Prop :=
  alive d = true ∧ utils_pdev d = true ∧ spcom_pdev d = true ∧ node d = (q_glink a).1
  ∧ b = mkOwned (SpcomDevice :: UtilsDevice :: RprocAdded :: added) false.

Lemma deinit_spec ret d b : b = mkOwned base false →
  vc (deinit_wakeup_source ret) (fun r d' b' => r = ret ∧ gone_clean d' b') d b.
Proof.
  intros ->. unfold deinit_wakeup_source, free_rproc.
  apply vc_bind, vc_emit, vc_bind, vc_emit, vc_bind, vc_mod, vc_ret. by split_and!.
Qed.
Lemma remove_glink_spec d l : alive d = true → node d = (q_glink a).1 →
  l = glink_held ++ base → 
  vc qcom_remove_glink_spss_subdev (fun _ d' b' => d' = d ∧ b' = mkOwned (SsrSubdev :: base) (negb copied)) d
    (mkOwned (SsrSubdev :: l) false).
Proof.
  intros Ha Hn ->. unfold qcom_remove_glink_spss_subdev, get_spss, glink_held, copied.
  apply vc_bind, vc_bind, vc_drv. rewrite Ha. apply vc_ret. rewrite Hn.
  destruct (q_glink a) as [[] []]; cbn [fst snd negb app implb];
    [apply vc_bind, vc_emit, vc_emit|apply vc_bind, vc_emit, vc_emit|apply vc_skip|apply vc_skip];
    by split.
Qed.
Lemma remove_subdev_spec ret d b : alive d = true → node d = (q_glink a).1 → b = mkOwned added false →
  vc (remove_subdev ret) (fun r d' b' => r = ret ∧ gone d' b') d b.
Proof.
  intros Ha Hn ->. unfold remove_subdev, added. eapply vc_call; [by apply remove_glink_spec|].
  intros [] d1 b1 [-> ->]. apply vc_bind, vc_emit. unfold deinit_wakeup_source, free_rproc.
  apply vc_bind, vc_emit, vc_bind, vc_emit, vc_bind, vc_mod, vc_ret. split; [done|]. unfold gone.
  by destruct copied.
Qed.
Lemma del_rproc_spec ret d b : alive d = true → node d = (q_glink a).1 →
  b = mkOwned (RprocAdded :: added) false →
  vc (del_rproc ret) (fun r d' b' => r = ret ∧ gone d' b') d b.
Proof.
  intros Ha Hn ->. unfold del_rproc. apply vc_bind, vc_emit. apply remove_subdev_spec; [done..|].
  unfold added, glink_held. by destruct (q_glink a) as [[] []].
Qed.

(** What the probe promises from where the remoteproc is set up. *)
Definition probed (r : Z) (d : qcom_spss) (b : owned) : Prop :=
  (r ≠ 0 → gone d b) ∧ (r = 0 → full d b).
Lemma spss_register_spec d b : alive d = true → node d = (q_glink a).1 →
  b = mkOwned (RprocAdded :: added) false →
  vc (register_children a) probed d b.
Proof.
  intros Ha Hn ->. unfold register_children. destruct (q_utils a <? 0) eqn:E1.
  { eapply vc_mono; [by apply del_rproc_spec|]. intros r d' b' [-> H]. split; [done|lia]. }
  apply vc_bind, vc_emit, vc_bind, vc_mod. cbn [own]. destruct (q_spcom a <? 0) eqn:E2.
  - unfold unregister_utils. apply vc_bind, vc_emit, vc_bind, vc_mod.
    eapply vc_mono; [apply del_rproc_spec; [done|done|]|].
    + unfold added, glink_held. by destruct (q_glink a) as [[] []].
    + intros r d' b' [-> H]. split; [done|lia].
  - apply vc_bind, vc_emit, vc_bind, vc_mod, vc_ret. by split.
Qed.
Lemma add_rproc_spec d b : alive d = true → b = mkOwned base false → vc (add_rproc a) probed d b.
Proof.
  intros Ha ->. unfold add_rproc.
  eapply vc_call with (P := fun _ d' b' => alive d' = true ∧ node d' = (q_glink a).1
    ∧ b' = mkOwned (glink_held ++ base) false).
  { unfold qcom_add_glink_spss_subdev, glink_held. apply vc_bind, vc_mod.
    destruct (q_glink a) as [[] []]; cbn [fst snd negb]; repeat vc_step; by split_and!. }
  intros [] d1 b1 (Ha1 & Hn1 & ->). apply vc_bind, vc_emit. unfold mask_scsr_irqs.
  apply vc_bind, vc_emit. cbn [own].
  assert (∀ ret, ret ≠ 0 → vc (remove_subdev ret) probed d1 (mkOwned added false)) as Hrem.
  { intros ret Hr. eapply vc_mono; [by apply remove_subdev_spec|]. intros r d' b' [-> H]. by split. }
  destruct (Z.eqb_spec (q_irq a) 0) as [E|E]; cbn [negb]; [|by apply Hrem].
  destruct (Z.eqb_spec (q_add a) 0) as [E'|E']; cbn [negb]; [|by apply Hrem].
  apply vc_bind, vc_emit. by apply spss_register_spec.
Qed.
(** The whole probe: with the missing handle it frees everything and returns 0. *)
Definition probe_result (r : Z) (d : qcom_spss) (b : owned) : Prop :=
  (r ≠ 0 → gone d b ∨ gone_clean d b)
  ∧ (r = 0 → if aop_missing then gone_clean d b else full d b).
Lemma or_deinit_spec (c : M (machine qcom_spss W spss_event) Z) k d b :
  alive d = true → b = mkOwned base false →
  (∀ d b, alive d = true → b = mkOwned base false →
     vc c (fun _ d' b' => alive d' = true ∧ b' = mkOwned base false) d b) →
  (∀ ret d b, ret = 0 → alive d = true → b = mkOwned base false → vc (k ret) probe_result d b) →
  vc (or_deinit c k) probe_result d b.
Proof.
  intros Ha Hb Hc Hk. unfold or_deinit. eapply vc_call; [by apply Hc|].
  intros r d1 b1 [Ha1 Hb1]. destruct (Z.eqb_spec r 0) as [E|E]; cbn [negb]; [by apply Hk|].
  eapply vc_mono; [by apply deinit_spec|]. intros r' d' b' [-> H]. split; [by right|done].
Qed.
Lemma spss_probe_spec d :
  alive d = false → vc (qcom_spss_probe a) probe_result d nothing.
Proof.
  intros Ha. unfold qcom_spss_probe.
  assert (∀ r d, r ≠ 0 → alive d = false → probe_result r d nothing) as Hno by (intros; split; [by right|done]).
  destruct (q_desc a); cbn [negb]; [|by apply vc_ret, Hno].
  destruct (q_scm a); cbn [negb]; [|by apply vc_ret, Hno].
  destruct (q_alloc a); cbn [negb]; [|by apply vc_ret, Hno].
  apply vc_bind, vc_mod, vc_bind, vc_emit.
  destruct (Z.eqb_spec (q_wakeup a) 0) as [E|E]; cbn [negb]; cycle 1.
  { unfold free_rproc. apply vc_bind, vc_emit, vc_bind, vc_mod, vc_ret. split; [by right|done]. }
  apply vc_bind, vc_emit. apply or_deinit_spec; [done|done| |].
  { intros d1 b1 H1 ->. unfold qcom_spss_init_mmio. induction (q_regs a) as [|ret l IH]; cbn [map_registers].
    - destruct (q_bits a) as [ret bits]. destruct (negb _); [by apply vc_ret|]. by apply vc_bind, vc_mod, vc_ret.
    - destruct (ret <? 0); [by apply vc_ret|exact IH]. }
  intros _ d1 b1 _ H1 ->. unfold readl. apply vc_bind, vc_bind, vc_ask. intros gpm. apply vc_ret, vc_bind, vc_mod.
  apply or_deinit_spec; [done|done| |].
  { intros d2 b2 H2 ->. unfold spss_alloc_memory_region, set_window.
    destruct (q_region a) as [[ret [start size]]|]; [destruct (negb _); [by apply vc_ret|]|];
      by apply vc_bind, vc_mod, vc_ret. }
  intros _ d2 b2 _ H2 ->. apply or_deinit_spec; [done|done| |].
  { intros d3 b3 H3 ->. by apply vc_ret. }
  intros _ d3 b3 _ H3 ->. apply or_deinit_spec; [done|done| |].
  { intros d4 b4 H4 ->. unfold init_regulator. destruct (q_cx a) as [[ret [rc [uv ua]]]|].
    - destruct (ret <? 0); [by apply vc_ret|]. apply vc_bind, vc_mod. destruct (negb _); [by apply vc_ret|].
      by apply vc_bind, vc_mod, vc_ret.
    - by apply vc_bind, vc_mod, vc_ret. }
  intros ret d4 b4 -> H4 ->. unfold get_aop.
  assert (∀ d, alive d = true → aop_missing = false → vc (add_rproc a) probe_result d (mkOwned base false)) as Hadd.
  { intros d5 H5 Hm. eapply vc_mono; [by apply add_rproc_spec|]. intros r d' b' [P1 P2].
    split; [by left; apply P1|]. by rewrite Hm. }
  assert (aop_missing = true → vc (deinit_wakeup_source 0) probe_result d4 (mkOwned base false)) as Hmiss.
  { intros Hm. eapply vc_mono; [by apply deinit_spec|]. intros r d' b' [-> H]. split; [done|]. by rewrite Hm. }
  destruct (q_signal_aop a) eqn:Es; [|by apply Hadd; [|unfold aop_missing; rewrite Es]].
  destruct (q_qmp a) as [q|] eqn:Eq; [|by apply Hmiss; unfold aop_missing; rewrite Es, Eq].
  destruct (q <? 0) eqn:Elt; [by apply Hmiss; unfold aop_missing; rewrite Es, Eq, Elt|].
  apply vc_bind, vc_mod. apply Hadd; [done|]. unfold aop_missing. by rewrite Es, Eq, Elt.
Qed.
Lemma spss_remove_spec d b : full d b → vc qcom_spss_remove (fun _ => gone) d b.
Proof.
  intros (Ha & Hu & Hsp & Hn & ->). unfold qcom_spss_remove. apply vc_bind. unfold get_spss at 1.
  apply vc_bind, vc_drv. rewrite Ha. apply vc_ret. rewrite Hsp, Hu.
  apply vc_bind, vc_emit, vc_bind, vc_emit, vc_bind, vc_emit.
  assert (own (own (own (mkOwned (SpcomDevice :: UtilsDevice :: RprocAdded :: added) false)
    (SpPut SpcomDevice)) (SpPut UtilsDevice)) (SpPut RprocAdded) = mkOwned added false) as ->
    by (unfold added, glink_held; by destruct (q_glink a) as [[] []]).
  eapply vc_call; [by apply remove_glink_spec|].
  intros [] d1 b1 [-> ->]. apply vc_bind, vc_emit, vc_bind, vc_emit. unfold free_rproc.
  apply vc_bind, vc_bind, vc_emit, vc_bind, vc_mod, vc_ret, vc_skip. unfold gone. by destruct copied.
Qed.
End lifetime.

(** C17: A probe that fails gives back everything it took and frees the structure; one
    that succeeds holds the subdevices, the remoteproc and both child devices, and
    the remove that follows gives all of them back and frees the structure.  In both
    cases nothing is given back that was not held, unless the name of the GLINK edge
    could not be copied.  There is one exception: when the always-on processor's
    handle is wanted and missing, the probe frees everything and still returns 0, so
    that the device stays bound and its removal uses the freed structure. *)
Theorem probe_and_remove_balance {W} `{!SpssEnv W} (a : spss_answers) (d : qcom_spss) (w : W) r m :
  alive d = false → qcom_spss_probe a (mkM d w []) = Ret (r, m) →
  let b := audit own nothing (log m) in
  (r ≠ 0 → held b = [] ∧ alive (drv m) = false ∧ (copied a = true → bogus b = false))
  ∧ (r = 0 → aop_missing a = false →
       held b = SpcomDevice :: UtilsDevice :: RprocAdded :: added a ∧ bogus b = false
       ∧ ∃ m', qcom_spss_remove m = Ret (tt, m')
         ∧ held (audit own nothing (log m')) = [] ∧ alive (drv m') = false
         ∧ (copied a = true → bogus (audit own nothing (log m')) = false))
  ∧ (r = 0 → aop_missing a = true →
       held b = [] ∧ alive (drv m) = false ∧ qcom_spss_remove m = Fault).
Proof.
  intros Ha H. destruct (vc_use own nothing _ _ (mkM d w []) m r (spss_probe_spec a d Ha) H) as [H1 H2].
  cbv zeta. split; [|split].
  - intros Hr. destruct (H1 Hr) as [(E1 & E2 & E3)|(E1 & E2 & E3)]; split_and!; try done.
    intros Hc. by rewrite E3, Hc.
  - intros Hr Hm. specialize (H2 Hr). rewrite Hm in H2. pose proof H2 as (_ & _ & _ & _ & Hb). rewrite Hb.
    split_and!; [done..|]. destruct m as [d1 w1 l1].
    destruct (vc_run _ _ _ _ _ _ w1 l1 (spss_remove_spec a d1 _ H2) eq_refl) as ([] & m' & E & E1 & E2 & E3).
    exists m'. split_and!; try done. intros Hc. by rewrite E3, Hc.
  - intros Hr Hm. specialize (H2 Hr). rewrite Hm in H2. destruct H2 as (E1 & E2 & E3). split_and!; try done.
    unfold qcom_spss_remove. apply bind_fault. unfold get_spss. erewrite bind_ret by reflexivity. by rewrite E1.
Qed.
(** The kernel's answers on the tablet, and without the always-on processor's handle. *)
Definition answers (q : option Z) : spss_answers :=
  mkAnswers true true true 0 [0; 0; 0; 0; 0; 0] (0, [24; 25]) None (Some 4096) true 0
    (Some (0, (0, (880000, 100000)))) true q (true, true) 0 0 0 0.
Definition unbound_spss : qcom_spss :=
  mkSpss false None false 0 0 0 false false false false false false [0; 0] RPROC_OFFLINE true EmptyString.
Lemma probe_and_remove_balance_witness :
  (∃ m m', qcom_spss_probe (answers (Some 0)) (mkM unbound_spss 0 []) = Ret (0, m)
     ∧ qcom_spss_remove m = Ret (tt, m') ∧ held (audit own nothing (log m')) = [])
  ∧ ∃ m, qcom_spss_probe (answers None) (mkM unbound_spss 0 []) = Ret (0, m)
     ∧ qcom_spss_remove m = Fault.
Proof.
  assert (∃ m, qcom_spss_probe (answers (Some 0)) (mkM unbound_spss 0 []) = Ret (0, m))
    as [m E] by (eexists; vm_compute; reflexivity).
  assert (∃ m, qcom_spss_probe (answers None) (mkM unbound_spss 0 []) = Ret (0, m))
    as [m2 E2] by (eexists; vm_compute; reflexivity).
  split.
  - destruct (proj1 (proj2 (probe_and_remove_balance (answers (Some 0)) unbound_spss 0 0 m eq_refl E)) eq_refl eq_refl)
      as (_ & _ & m' & Em & Hh & _). by exists m, m'.
  - exists m2. split; [exact E2|].
    by destruct (proj2 (proj2 (probe_and_remove_balance (answers None) unbound_spss 0 0 m2 eq_refl E2)) eq_refl eq_refl) as (_ & _ & ?).
Defined.

(** ** The device node *)

(** The nodes held, and the change of the tree: begun, applied. *)
Record tree := mkTree { nodes : list found; begun : bool; in_tree : bool; driver : bool }.
#[export] Instance eta_tree : Eta tree := fun r => mkTree (nodes r) (begun r) (in_tree r) (driver r).
Definition grow (b : tree) (e : node_event) : tree :=
  match e with
  | NdHold n => b <| nodes ::= cons n |>
  | NdPut n => b <| nodes ::= filter (fun x => x ≠ n) |>
  | NdInit => b <| begun := true |>
  | NdDestroy => b <| begun := false |>
  | NdApply ret => if ret =? 0 then b <| in_tree := true |> else b
  | NdRevert => b <| in_tree := false |>
  | NdDriver on ret => if ret =? 0 then b <| driver := on |> else b
  | _ => b
  end.
Definition bare : tree := mkTree [] false false false.
Section node.
Context {W : Type} `{!TreeEnv W}.
Abbreviation vc := (vc (W := W) (E := node_event) grow bare).

(** The static variables say what the tree is. *)
Definition agrees (d : ocs) (b : tree) : Prop :=
  nodes b = [] ∧ gts9u_spss_ocs_initialized d = begun b ∧ gts9u_spss_ocs_applied d = in_tree b.

(** The nodes [l] are held, the tree is as the static variables say. *)
Definition holding (l : list found) (d : ocs) (b : tree) : Prop :=
  nodes b = l ∧ gts9u_spss_ocs_initialized d = begun b ∧ gts9u_spss_ocs_applied d = in_tree b.
Definition published (dr : bool) (r : Z) (d : ocs) (b : tree) : Prop :=
  agrees d b ∧ driver b = dr ∧ (r ≠ 0 → begun b = false ∧ in_tree b = false) ∧ in_tree b = begun b.
Lemma filter_absent (n : found) (l : list found) : n ∉ l → filter (fun x => x ≠ n) l = l.
Proof.
  induction l as [|x l IH]; [done|]. intros [Hx Hl]%not_elem_of_cons.
  rewrite filter_cons_True by (by intros ->). by rewrite IH.
Qed.
Lemma spss_put_spec l d b : nodes b = l → NoDup l →
  vc (of_node_put l) (fun _ d' b' => d' = d ∧ b' = b <| nodes := [] |>) d b.
Proof.
  revert b. induction l as [|n l IH]; intros b Hb Hnd.
  { apply vc_skip. destruct b. cbn in *. by subst. }
  unfold of_node_put. cbn [foldr]. apply NoDup_cons in Hnd as [Hn Hnd].
  apply vc_bind, vc_emit. eapply vc_mono; [apply IH; [|done]|].
  - cbn. rewrite Hb. rewrite filter_cons_False by (intros H; by apply H).
    by apply filter_absent.
  - intros [] d' b' [-> ->]. by destruct b.
Qed.
Lemma out_spec l ret d b dr :
  holding l d b → NoDup l → driver b = dr → in_tree b = begun b → (ret ≠ 0 → begun b = false) →
  vc (out l ret) (published dr) d b.
Proof.
  intros (Hb & Hi & Ht) Hnd Hd Hbt Hr. unfold out. eapply vc_call; [by apply spss_put_spec|].
  intros [] d1 b1 [-> ->]. apply vc_ret. destruct b. cbn in *. unfold published, agrees. cbn.
  split_and!; try done; intros; specialize (Hr ltac:(assumption)); split; congruence.
Qed.
Lemma destroy_spec l ret d b dr :
  holding l d b → NoDup l → driver b = dr → in_tree b = false → vc (destroy l ret) (published dr) d b.
Proof.
  intros (Hb & Hi & Ht) Hnd Hd Hbt. unfold destroy. apply vc_bind, vc_emit, vc_bind, vc_mod.
  by apply out_spec.
Qed.
(** The nodes and properties of the change: nothing is held, the tree waits. *)
Lemma props_spec n l d b : vc (add_props n l) (fun _ d' b' => d' = d ∧ b' = b) d b.
Proof.
  induction l as [|[nm p] l IH]; cbn [add_props]; [by apply vc_ret|].
  apply vc_bind, vc_ask. intros ret. apply vc_bind, vc_emit. destruct (negb _); [by apply vc_ret|exact IH].
Qed.
Lemma make_spec n d b : vc (make_node n) (fun _ d' b' => d' = d ∧ b' = b) d b.
Proof. unfold make_node. apply vc_bind, vc_ask. intros ret. by apply vc_bind, vc_emit, vc_ret. Qed.
Lemma build_spec p1 p2 p3 p4 l d b dr :
  holding l d b → NoDup l → driver b = dr → begun b = false → in_tree b = false →
  vc (build_node p1 p2 p3 p4 l) (published dr) d b.
Proof.
  intros (Hb & Hi & Ht) Hnd Hd Hbt Htr. unfold build_node. apply vc_bind, vc_emit, vc_bind, vc_mod.
  lazymatch goal with |- vc _ _ ?d1 ?b1 =>
    assert (holding l d1 b1 ∧ in_tree b1 = false ∧ driver b1 = dr ∧ begun b1 = true) as H
      by (by split_and!);
    revert H; generalize d1 b1 end.
  clear - Hnd. intros d b (Hh & Ht & Hd & Hb).
  assert (∀ ret, vc (destroy l ret) (published dr) d b) as Hdes by (intros; by apply destroy_spec).
  eapply vc_call; [apply make_spec|]. intros r1 ? ? [-> ->]. destruct (negb _); [apply Hdes|].
  eapply vc_call; [apply props_spec|]. intros r2 ? ? [-> ->]. destruct (negb _); [apply Hdes|].
  eapply vc_call; [apply make_spec|]. intros r3 ? ? [-> ->]. destruct (negb _); [apply Hdes|].
  eapply vc_call; [apply props_spec|]. intros r4 ? ? [-> ->]. destruct (negb _); [apply Hdes|].
  unfold apply_changeset. apply vc_bind, vc_ask. intros ret. apply vc_bind, vc_emit. cbn [grow].
  destruct (ret =? 0); cbn [negb]; [|apply Hdes]. apply vc_bind, vc_mod. destruct Hh as (H1 & H2 & H3).
  apply out_spec; try done.
Qed.
Lemma hold_spec n l d b :
  holding l d b →
  vc (hold_node n) (fun r d' b' => d' = d ∧ holding (if r is Some _ then n :: l else l) d' b'
    ∧ driver b' = driver b ∧ begun b' = begun b ∧ in_tree b' = in_tree b) d b.
Proof.
  intros (H1 & H2 & H3). unfold hold_node. apply vc_bind, vc_ask. intros [ph|]; apply vc_bind;
    [apply vc_emit|apply vc_skip]; apply vc_ret; (split; [done|]); (split; [|done]); split_and!; try done.
  cbn. by rewrite H1.
Qed.
Lemma phandle_spec n l d b :
  holding l d b → NoDup (n :: l) →
  vc (gts9u_find_phandle n) (fun r d' b' => d' = d ∧ holding (if r is inr _ then n :: l else l) d' b'
    ∧ driver b' = driver b ∧ begun b' = begun b ∧ in_tree b' = in_tree b
    ∧ ∀ e, r = inl e → e ≠ 0) d b.
Proof.
  intros Hh [Hn _]%NoDup_cons. unfold gts9u_find_phandle. eapply vc_call; [by apply hold_spec|].
  intros r d1 b1 (-> & Hh1 & E1 & E2 & E3).
  destruct r as [ph|]; [destruct (ph =? 0)|]; [|by apply vc_ret|].
  - unfold of_node_put. cbn [foldr]. apply vc_bind, vc_bind, vc_emit, vc_skip, vc_ret.
    destruct Hh1 as (H1 & H2 & H3). split; [done|]. split; [|split_and!; try done; by intros e [= <-]].
    split_and!; try done. cbn. rewrite H1. rewrite filter_cons_False by (intros H; by apply H).
    by apply filter_absent.
  - apply vc_ret. repeat (split; [done|]). by intros e [= <-].
Qed.
Lemma soc_spec d b :
  holding [] d b →
  vc find_soc (fun r d' b' => d' = d ∧ holding (if r is Some n then [n] else []) d' b'
    ∧ driver b' = driver b ∧ begun b' = begun b ∧ in_tree b' = in_tree b
    ∧ (∀ n, r = Some n → n = SocAt0 ∨ n = Soc)) d b.
Proof.
  intros Hh. unfold find_soc. eapply vc_call; [by apply (hold_spec SocAt0)|].
  intros [ph|] d1 b1 (-> & Hh1 & E1 & E2 & E3).
  { apply vc_ret. repeat (split; [done|]). intros ? [= <-]. by left. }
  eapply vc_call; [by apply (hold_spec Soc)|].
  intros [ph|] d1' b2 (-> & Hh2 & F1 & F2 & F3); apply vc_ret; split_and!; try congruence; try apply Hh2.
  intros ? [= <-]. by right.
Qed.
(** Publishing the node: nothing stays held, and the tree is changed or untouched. *)
Lemma publish_spec d b :
  agrees d b → begun b = false → in_tree b = false →
  vc gts9u_publish_spss_node (published (driver b)) d b.
Proof.
  intros Ha Hb Ht. unfold gts9u_publish_spss_node.
  eapply vc_call; [by apply (hold_spec Existing [])|].
  intros [ph|] d1 b1 (-> & Hh & E1 & E2 & E3).
  { apply out_spec; try done; first [by apply NoDup_singleton|congruence]. }
  eapply vc_call; [by apply soc_spec|].
  intros soc d1 b2 (-> & Hh2 & F1 & F2 & F3 & Hsoc).
  destruct soc as [soc|].
  2:{ apply vc_ret. destruct Hh2 as (? & ? & ?). unfold published, agrees.
      split_and!; try done; [congruence| |congruence]. intros _. split; congruence. }
  assert (NoDup [Gic; Ipcc; Aoss; Rpmh; soc]) as Hnd.
  { destruct (Hsoc soc eq_refl) as [-> | ->]; by apply (bool_decide_unpack _). }
  pose proof (NoDup_cons_1_2 _ _ Hnd) as Hnd4. pose proof (NoDup_cons_1_2 _ _ Hnd4) as Hnd3.
  pose proof (NoDup_cons_1_2 _ _ Hnd3) as Hnd2. pose proof (NoDup_cons_1_2 _ _ Hnd2) as Hnd1.
  eapply vc_call; [apply (phandle_spec Rpmh [soc]); done|].
  intros [e|ph1] d1 b3 (-> & Hh3 & G1 & G2 & G3 & _); [apply out_spec; try done; congruence|].
  eapply vc_call; [apply (phandle_spec Aoss [Rpmh; soc]); done|].
  intros [e|ph2] d1 b4 (-> & Hh4 & I1 & I2 & I3 & _); [apply out_spec; try done; congruence|].
  eapply vc_call; [apply (phandle_spec Ipcc [Aoss; Rpmh; soc]); done|].
  intros [e|ph3] d1 b5 (-> & Hh5 & J1 & J2 & J3 & _); [apply out_spec; try done; congruence|].
  eapply vc_call; [by apply (hold_spec Gic [Ipcc; Aoss; Rpmh; soc])|].
  intros [ph4|] d1 b6 (-> & Hh6 & K1 & K2 & K3); [destruct (ph4 =? 0)|].
  - apply out_spec; try done; congruence.
  - apply build_spec; try done; congruence.
  - apply out_spec; try done; congruence.
Qed.
Lemma spss_exit_spec d b :
  agrees d b → vc qcom_spss_exit (fun _ d' b' => b' = bare) d b.
Proof.
  intros (H1 & H2 & H3). unfold qcom_spss_exit. apply vc_bind, vc_drv. rewrite H2, H3.
  destruct b as [l [] [] dr]; cbn in *; subst;
    (apply vc_bind; first [apply vc_emit | apply vc_skip]);
    (apply vc_bind; first [apply vc_emit | apply vc_skip]);
    unfold driver_unregister; by apply vc_bind, vc_emit, vc_mod.
Qed.
(** Loading the module registers the driver and publishes the node, or does neither. *)
Lemma spss_init_spec d :
  agrees d bare →
  vc qcom_spss_init (fun r d' b' => agrees d' b' ∧ (r = 0 → driver b' = true)
    ∧ (r ≠ 0 → nodes b' = [] ∧ begun b' = false ∧ in_tree b' = false ∧ driver b' = false)) d bare.
Proof.
  intros Ha. unfold qcom_spss_init, driver_register. apply vc_nz.
  apply vc_bind, vc_ask. intros r. apply vc_bind, vc_emit, vc_bind, vc_mod, vc_ret.
  destruct Ha as (A1 & A2 & A3).
  cbn [grow]. destruct (r =? 0) eqn:Er.
  2:{ split; [by split_and!|]. split; [intros ->; discriminate|]. intros _. by split_and!. }
  eapply vc_call; [apply publish_spec; [by split_and!|done|done]|].
  intros ret d1 b1 ((P1 & P2 & P3) & Hd & Hz & Hbt). cbn in Hd.
  destruct (Z.eqb_spec ret 0) as [-> | Hret]; cbn [negb].
  - apply vc_bind, vc_skip, vc_ret. split; [by split_and!|]. by split.
  - apply vc_bind. unfold driver_unregister. apply vc_bind, vc_emit, vc_mod, vc_ret.
    destruct (Hz Hret) as [E1 E2]. split; [by split_and!|]. split; [done|]. by split.
Qed.
End node.
