(* ===== verification/Spcom.v ===== *)
(** [spcom.c]: the channels to the secure processor.  This file: the device and its
    channels, the transport's side of a channel (its rpmsg driver, the packets that
    arrive) and the clients' tables.  [SpcomMsg] has the messages and the shared
    buffers, [SpcomDev] the file operations and the life of the device.  The rpmsg
    core, the DMA-BUF core, user memory and the character device core are the
    environment. *)
From Stdlib Require Import Ascii String.
From S2P Require Import Prelude Bus.
#[local] Open Scope Z_scope.
#[local] Open Scope list_scope.

Definition EPERM := 1.
Definition ESRCH := 3.
Definition EINTR := 4.
Definition EBADF := 9.
Definition EMFILE := 24.
Definition EBADRQC := 56.
Definition ERESTART := 85.
Definition ENOTCONN := 107.
Definition ECANCELED := 125.
Definition ENOIOCTLCMD := 515.

Definition SPCOM_MAX_CHANNELS := 32.
Definition SPCOM_CHANNEL_NAME_SIZE := 32.
Definition SPCOM_MAX_RESPONSE_SIZE := 268.
Definition SPCOM_MAX_CHANNEL_CLIENTS := 5.
Definition SPCOM_MAX_DMA_BUF_PER_CH := SPCOM_MAX_CHANNELS + 4.
Definition SPCOM_RX_BUF_SIZE := 300.
Definition SPCOM_MAX_CONTROL_CHANNELS := SPCOM_MAX_CHANNELS.
Definition INITIAL_TXN_ID := 0x12345678.
Definition SPCOM_STOP_POLLING_VALUE := 0xffff.

(** ** Bytes and names

    A name is the bytes of a C string before its NUL. *)
Definition str (s : string) : list Z := map (fun c => Z.of_nat (nat_of_ascii c)) (list_ascii_of_string s).
Definition cstr (l : list Z) : list Z := (fix go l := match l with
  | [] => [] | b :: l => if b =? 0 then [] else b :: go l end) l.
Definition strscpy (n : Z) (l : list Z) : list Z := take (Z.to_nat (n - 1)) l.
Definition name_eqb (a b : list Z) : bool := bool_decide (a = b).
Definition len (l : list Z) : Z := Z.of_nat (List.length l).
Definition byte_at (l : list Z) (i : nat) : Z := u8 (nth i l 0).
Definition le32 (l : list Z) : Z :=
  byte_at l 0 + 256 * byte_at l 1 + 65536 * byte_at l 2 + 16777216 * byte_at l 3.
Definition bytes32 (v : Z) : list Z := [v mod 256; (v / 256) mod 256; (v / 65536) mod 256; (v / 16777216) mod 256].
Definition bytes64 (v : Z) : list Z := bytes32 (v mod 2 ^ 32) ++ bytes32 (v / 2 ^ 32).
(** The 32-bit word at a byte offset. *)
Definition word (l : list Z) (off : Z) : Z := le32 (drop (Z.to_nat off) l).
Definition DEVICE_NAME : list Z := str "spcom".
Definition sp_ssr : list Z := str "sp_ssr".
Definition sp_kernel : list Z := str "sp_kernel".
Definition unknown : list Z := str "unknown".

(** [struct spcom_msg_hdr]: 8 bytes, the identifier in the second word. *)
Definition sizeof_hdr := 8.
Definition hdr_txn (l : list Z) : Z := word l 4.
Definition hdr_buf (l : list Z) : list Z := drop 8 l.

(** ** State *)

Record dma_buf_info := mkBuf {
  fd : Z; handle : option Z; tee_shm_file : option Z; attach : bool; owner_pid : Z
}.
#[export] Instance eta_buf : Eta dma_buf_info := fun r =>
  mkBuf (fd r) (handle r) (tee_shm_file r) (attach r) (owner_pid r).

(** [struct spcom_channel].  [lock], [sync]: whether [ch->lock] and
    [ch->shared_sync_lock] are held; pointers that are only compared with NULL are
    booleans; [cdev]: NULL, or whether what it points to is not freed;
    [rpmsg_rx_buf] points into the heap of received packets. *)
Record spcom_channel := mkChannel {
  name : list Z; lock : bool; txn_id : Z; is_server : bool; comm_role_undefined : bool;
  response_timeout_msec : Z; cdev : option bool; devt : Z; rpdrv : bool; rpdev : bool; rx_done : bool;
  connect : bool; is_busy : bool; is_sharable : bool; max_clients : Z; active_pid : Z; num_clients : Z;
  sync : bool; pid : list Z; rpmsg_abort : bool; actual_rx_size : Z; rpmsg_rx_buf : option Z;
  rx_buf_txn_id : Z; dmabuf_array : list dma_buf_info
}.
#[export] Instance eta_channel : Eta spcom_channel := fun r =>
  mkChannel (name r) (lock r) (txn_id r) (is_server r) (comm_role_undefined r)
    (response_timeout_msec r) (cdev r) (devt r) (rpdrv r) (rpdev r) (rx_done r) (connect r) (is_busy r)
    (is_sharable r) (max_clients r) (active_pid r) (num_clients r) (sync r) (pid r) (rpmsg_abort r)
    (actual_rx_size r) (rpmsg_rx_buf r) (rx_buf_txn_id r) (dmabuf_array r).

(** [struct rx_buff_list]: a packet not yet given to its channel. *)
Record rx_item := mkItem { it_buf : Z; it_size : Z; it_ch : nat }.
Record control_channel := mkControl { c_pid : Z; ref_cnt : Z }.
#[export] Instance eta_control : Eta control_channel := fun r => mkControl (c_pid r) (ref_cnt r).

(** [struct spcom_device], with the static variable of the driver and the packets in
    memory.  [alive]: [spcom_dev] is not NULL. *)
Record spcom_device := mkDevice {
  alive : bool; is_predefined_created : bool; predefined_ch_name : list (list Z);
  channels : list spcom_channel; chdev_count : Z; rpmsg_state_change : bool; rpmsg_dev_count : Z;
  remove_in_progress : Z; rx_list : list rx_item; rmb_error : Z; subsys_req : Z; spss_rproc : bool;
  rproc_prop : bool; control_channels : list control_channel; packets : gmap Z (list Z); next_packet : Z
}.
#[export] Instance eta_device : Eta spcom_device := fun r =>
  mkDevice (alive r) (is_predefined_created r) (predefined_ch_name r) (channels r) (chdev_count r)
    (rpmsg_state_change r) (rpmsg_dev_count r) (remove_in_progress r) (rx_list r) (rmb_error r)
    (subsys_req r) (spss_rproc r) (rproc_prop r) (control_channels r) (packets r) (next_packet r).

Inductive spcom_event :=
  | SpWakeup | SpRelax                          (* [pm_wakeup_ws_event], [__pm_relax] *)
  | SpStopPolling
  | SpSchedule                                  (* [schedule_work] *)
  | SpDriver (ch : nat) (on : bool) (ret : Z)
  | SpSend (ch : nat) (bytes : list Z) (ret : Z) | SpSleep
  | SpGetBuf (h : Z) | SpPutBuf (h : Z) | SpGetFile (f : Z) | SpPutFile (f : Z)
  | SpAttach (h : Z) | SpDetach (h : Z) | SpMap (h : Z) | SpUnmap (h : Z)
  | SpUser (bytes : list Z) | SpPutUser (v : Z)
  | SpBoot (ret : Z) | SpShutdown
  | SpNode (name : list Z) (on : bool) | SpCdev (on : bool)
  | SpRegion (on : bool) | SpClass (on : bool) | SpWakeSource (on : bool).

(** What other threads do while one waits: the transport delivers and connects,
    processes come and go on channels. *)
Inductive action :=
  | APacket (ch : nat) (data : list Z) | AWork
  | AConnect (nm : list Z) | ADisconnect (ch : nat)
  | AShare (nm : list Z) | ARegister (cur : Z) (nm : list Z) | AUnregister (cur : Z) (nm : list Z)
  | AOpen (cur : Z) (nm : list Z) | AClose (cur : Z).

(** The answers of the kernel; [dma_buf_attach], [dma_buf_map_attachment]: an error
    (negative), NULL (0) or found. *)
Class SpcomEnv (W : Type) := {
  others : W → list action * W;
  kzalloc : W → bool * W;
  copy_from_user : W → bool * W;
  copy_to_user : W → bool * W;
  put_user : W → bool * W;
  (** 0: no timeout. *)
  wait_for_completion_interruptible : Z → W → Z * W;
  rpmsg_trysend : list Z → W → Z * W;
  (** The result, and whether a device of that name waits for a driver. *)
  register_rpmsg_driver : list Z → W → (Z * bool) * W;
  ioremap : W → bool * W;
  dma_buf_get : Z → W → option Z * W;
  dma_buf_attach : Z → W → Z * W;
  dma_buf_map_attachment : Z → W → Z * W;
  sg_address : Z → W → option Z * W;
  (** The file, and whether it is called "tee_shm". *)
  fget : Z → W → option (Z * bool) * W;
  get_rproc : bool → W → bool * W;
  rproc_boot : W → Z * W;
  device_create : W → bool * W;
  cdev_add : W → Z * W;
  alloc_chrdev_region : W → Z * W;
  class_create : W → bool * W;
  wakeup_source_register : W → bool * W;
}.

(** The first index of a list that satisfies [P]. *)
Fixpoint first_index {A} (P : A → bool) (l : list A) : option nat :=
  match l with
  | [] => None
  | x :: l => if P x then Some O else match first_index P l with Some i => Some (S i) | None => None end
  end.

Section transport.
Context {W : Type} `{!SpcomEnv W}.
Abbreviation M := (M (machine spcom_device W spcom_event)).

(** [spcom_dev->...], [&spcom_dev->channels[i]], [&ch->dmabuf_array[k]]. *)
Definition get_dev : M spcom_device := d ← get_drv; if alive d then mret d else fault.
Definition mod_dev (f : spcom_device → spcom_device) : M unit := get_dev;; mod_drv f.
Definition get_ch (i : nat) : M spcom_channel :=
  d ← get_dev; match channels d !! i with Some c => mret c | None => fault end.
Definition mod_ch (i : nat) (f : spcom_channel → spcom_channel) : M unit :=
  get_ch i;; mod_drv (fun d => d <| channels ::= alter f i |>).
Definition get_buf (i k : nat) : M dma_buf_info :=
  c ← get_ch i; match dmabuf_array c !! k with Some b => mret b | None => fault end.
Definition mod_buf (i k : nat) (f : dma_buf_info → dma_buf_info) : M unit :=
  get_buf i k;; mod_ch i (fun c => c <| dmabuf_array ::= alter f k |>).

(** [mutex_lock(&ch->lock)]: held only while its function runs, so a thread that
    finds it held waits for itself. *)
Definition mutex_lock (i : nat) : M unit :=
  c ← get_ch i; if lock c then nofuel else mod_ch i (fun c => c <| lock := true |>).
Definition mutex_unlock (i : nat) : M unit := mod_ch i (fun c => c <| lock := false |>).

(** Received packets: reading or freeing one that is freed faults. *)
Definition get_packet (p : Z) : M (list Z) :=
  d ← get_dev; match packets d !! p with Some l => mret l | None => fault end.
Definition kfree_packet (p : Z) : M unit :=
  get_packet p;; mod_dev (fun d => d <| packets ::= delete p |>).
(** [hdr->txn_id] of a packet: past the end of a short one. *)
Definition packet_txn (p : Z) : M Z :=
  l ← get_packet p; if len l <? sizeof_hdr then fault else mret (hdr_txn l).
(** [if (ch->rpmsg_rx_buf) ...; kfree(ch->rpmsg_rx_buf)] *)
Definition free_rx_buf (i : nat) : M unit :=
  c ← get_ch i;
  match rpmsg_rx_buf c with
  | None => skip
  | Some p => kfree_packet p;; mod_ch i (fun c => c <| rpmsg_rx_buf := None |>)
  end.

(** *** Channels *)

Definition spcom_is_channel_open (c : spcom_channel) : bool := rpdrv c.
Definition spcom_is_channel_connected (c : spcom_channel) : bool :=
  if negb (spcom_is_channel_open c) then false else rpdev c.
Definition spcom_init_channel (i : nat) (sharable : bool) (nm : list Z) : M Z :=
  if len nm =? 0 then mret (- EINVAL)
  else
    mod_ch i (fun c => c <| name := strscpy SPCOM_CHANNEL_NAME_SIZE nm |> <| rx_done := false |>
      <| connect := false |> <| lock := false |> <| rpdrv := false |> <| rpdev := false |>
      <| actual_rx_size := 0 |> <| is_busy := false |> <| txn_id := INITIAL_TXN_ID |>
      <| rx_buf_txn_id := INITIAL_TXN_ID |> <| pid := replicate (Z.to_nat SPCOM_MAX_CHANNEL_CLIENTS) 0 |>
      <| rpmsg_abort := false |> <| rpmsg_rx_buf := None |> <| comm_role_undefined := true |>
      <| is_sharable := sharable |> <| max_clients := if sharable then SPCOM_MAX_CHANNEL_CLIENTS else 1 |>
      <| active_pid := 0 |> <| num_clients := 0 |> <| sync := false |>);;
    mret 0.
Definition spcom_find_channel_by_name (nm : list Z) : M (option nat) :=
  d ← get_dev; mret (first_index (fun c => name_eqb (name c) nm) (channels d)).

(** *** Shared buffers *)

Definition spcom_dmabuf_unlock (i k : nat) (verify_buf_owner : bool) (cur : Z) : M Z :=
  b ← get_buf i k;
  if bool_decide (handle b = None) && bool_decide (tee_shm_file b = None) then mret (- EINVAL)
  else if verify_buf_owner && (cur =? 0) then mret (- EINVAL)
  else if verify_buf_owner && negb (owner_pid b =? cur) then mret (- EPERM)
  else
    (if attach b then
       (match handle b with Some h => emit (SpUnmap h);; emit (SpDetach h) | None => skip end);;
       mod_buf i k (fun b => b <| attach := false |>)
     else skip);;
    (match handle b with Some h => emit (SpPutBuf h) | None => skip end);;
    (match tee_shm_file b with Some f => emit (SpPutFile f) | None => skip end);;
    mod_buf i k (fun b => b <| handle := None |> <| tee_shm_file := None |> <| fd := -1 |> <| owner_pid := 0 |>);;
    mret 0.

(** *** The transport's side *)

Fixpoint unlock_handles (i : nat) (n k : nat) : M unit :=
  match n with
  | O => skip
  | S n =>
      b ← get_buf i k;
      (if bool_decide (handle b = None) then skip else spcom_dmabuf_unlock i k false 0;; skip);;
      unlock_handles i n (S k)
  end.
(** [ch]: the device's driver data. *)
Definition spcom_rpdev_remove (ch : option nat) : M unit :=
  match ch with
  | None => skip
  | Some i =>
      mutex_lock i;;
      c ← get_ch i;
      (if name_eqb (name c) sp_kernel then unlock_handles i (List.length (dmabuf_array c)) 0 else skip);;
      mod_ch i (fun c => c <| rpdev := false |> <| rpmsg_abort := true |> <| txn_id := 0 |> <| rx_done := true |>);;
      mutex_unlock i;;
      mod_dev (fun d => d <| rpmsg_dev_count ::= fun n => n - 1 |>);;
      d ← get_dev;
      if rpmsg_dev_count d =? 0 then mod_dev (fun d => d <| rpmsg_state_change := true |>) else skip
  end.
Definition spcom_rpdev_probe (nm : list Z) : M Z :=
  ok ← ask ioremap;
  (if ok : bool then emit SpStopPolling else skip);;
  d ← get_dev;
  if negb (remove_in_progress d =? 0) then mret 0
  else
    ch ← spcom_find_channel_by_name nm;
    match ch with
    | None => mret (- ENODEV)
    | Some i =>
        mutex_lock i;;
        mod_ch i (fun c => c <| rpdev := true |> <| rpmsg_abort := false |> <| txn_id := INITIAL_TXN_ID |>
          <| connect := true |>);;
        mutex_unlock i;;
        mod_dev (fun d => d <| rpmsg_dev_count ::= fun n => n + 1 |>);;
        d ← get_dev;
        (if rpmsg_dev_count d =? 1 then mod_dev (fun d => d <| rpmsg_state_change := true |>) else skip);;
        mret 0
    end.

(** The packet is copied and queued: [list_add] puts it first, the worker takes the
    last. *)
Definition spcom_rpdev_cb (ch : option nat) (data : list Z) : M Z :=
  match ch with
  | None => mret (- EINVAL)
  | Some i =>
      if (SPCOM_RX_BUF_SIZE <? len data) || (len data <=? 0) then mret (- EINVAL)
      else
        ok ← ask kzalloc;
        if negb ok then mret (- ENOMEM)
        else
          ok ← ask kzalloc;
          if negb ok then mret (- ENOMEM)
          else
            emit SpWakeup;;
            mod_dev (fun d => d <| packets ::= <[next_packet d := data]> |>
              <| next_packet ::= Z.succ |>
              <| rx_list ::= cons (mkItem (next_packet d) (len data) i) |>);;
            emit SpSchedule;;
            mret 0
  end.

(** [rx_aborted:]; the worker ends there, whatever else is queued. *)
Definition rx_aborted (item : rx_item) : M bool :=
  mutex_unlock (it_ch item);; kfree_packet (it_buf item);; mret false.
Definition accept_packet (item : rx_item) : M bool :=
  let i := it_ch item in
  mod_ch i (fun c => c <| rpmsg_rx_buf := Some (it_buf item) |> <| actual_rx_size := it_size item |>
    <| rx_buf_txn_id := txn_id c |> <| rx_done := true |>);;
  mutex_unlock i;;
  mret true.
Definition take_role (item : rx_item) : M unit :=
  let i := it_ch item in
  c ← get_ch i;
  if comm_role_undefined c then
    txn ← packet_txn (it_buf item);
    mod_ch i (fun c => c <| comm_role_undefined := false |> <| is_server := true |> <| txn_id := txn |>)
  else skip.
Definition deliver (item : rx_item) : M bool :=
  let i := it_ch item in
  mutex_lock i;;
  take_role item;;
  c ← get_ch i;
  if rpmsg_abort c then
    (match rpmsg_rx_buf c with
     | Some p => kfree_packet p;; mod_ch i (fun c => c <| actual_rx_size := 0 |>)
     | None => skip
     end);;
    rx_aborted item
  else
    free_rx_buf i;;
    (match rpmsg_rx_buf c with Some _ => mod_ch i (fun c => c <| actual_rx_size := 0 |>) | None => skip end);;
    if negb (is_server c) then
      txn ← packet_txn (it_buf item);
      if negb (txn =? txn_id c) then rx_aborted item else accept_packet item
    else accept_packet item.
Fixpoint rx_loop (n : nat) : M unit :=
  match n with
  | O => skip
  | S n =>
      d ← get_dev;
      match last (rx_list d) with
      | None => skip
      | Some item =>
          mod_dev (fun d => d <| rx_list ::= fun l => removelast l |>);;
          more ← deliver item;
          if more : bool then rx_loop n else skip
      end
  end.
Definition spcom_signal_rx_done : M unit := d ← get_dev; rx_loop (List.length (rx_list d)).

Definition spcom_register_rpmsg_drv (i : nat) : M Z :=
  c ← get_ch i;
  if rpdrv c then mret (- ENODEV)
  else
    ok ← ask kzalloc;
    if negb ok then mret (- ENOMEM)
    else
      ok ← ask kzalloc;
      if negb ok then mret (- ENOMEM)
      else
        ok ← ask kzalloc;
        if negb ok then mret (- ENOMEM)
        else
          '(ret, waiting) ← ask (register_rpmsg_driver (name c));
          emit (SpDriver i true ret);;
          if negb (ret =? 0) then mret ret
          else
            (if waiting : bool then spcom_rpdev_probe (name c);; skip else skip);;
            mutex_lock i;;
            mod_ch i (fun c => c <| rpdrv := true |> <| rpmsg_abort := false |>);;
            mutex_unlock i;;
            mret 0.
(** [unregister_rpmsg_driver] unbinds the device. *)
Definition spcom_unregister_rpmsg_drv (i : nat) : M Z :=
  c ← get_ch i;
  if negb (rpdrv c) then mret (- ENODEV)
  else
    emit (SpDriver i false 0);;
    (if rpdev c then spcom_rpdev_remove (Some i) else skip);;
    mutex_lock i;;
    mod_ch i (fun c => c <| rpdrv := false |> <| rpmsg_abort := true |>);;
    mutex_unlock i;;
    mret 0.

(** *** Clients of a channel *)

(** The places of [ch->pid] the loops visit; a store past the end faults. *)
Definition pid_index (c : spcom_channel) (n : Z) (p : Z) : option nat :=
  first_index (Z.eqb p) (take (Z.to_nat n) (pid c)).
Definition set_pid (i k : nat) (p : Z) : M unit :=
  c ← get_ch i;
  if (k <? List.length (pid c))%nat then mod_ch i (fun c => c <| pid ::= <[k := p]> |>) else fault.
Definition is_proc_channel_owner (c : spcom_channel) (p : Z) : bool :=
  bool_decide (pid_index c (max_clients c) p ≠ None).

Definition spcom_register_channel (cur : Z) (i : nat) : M Z :=
  mutex_lock i;;
  c ← get_ch i;
  if is_busy c then (mutex_unlock i;; mret (- EBUSY))
  else if bool_decide (pid_index c (max_clients c) cur ≠ None) then (mutex_unlock i;; mret (- EINVAL))
  else
    let k := if is_sharable c then default (Z.to_nat (max_clients c)) (pid_index c (max_clients c) 0)
             else O in
    set_pid i k cur;;
    mod_ch i (fun c => let n := u8 (num_clients c + 1) in
      c <| num_clients := n |> <| is_busy := n =? max_clients c |>);;
    mutex_unlock i;;
    mret 0.

(** The transaction on a shared channel ends: its lock is released. *)
Definition end_transaction (i : nat) : M unit :=
  mod_ch i (fun c => c <| active_pid := 0 |> <| sync := false |>).
Definition spcom_channel_deinit_locked (i : nat) (p : Z) : M Z :=
  c ← get_ch i;
  if negb (spcom_is_channel_open c) then mret 0
  else
    match pid_index c (max_clients c) p with
    | None => mret (- EFAULT)
    | Some k =>
        set_pid i k 0;;
        (if active_pid c =? p then end_transaction i else skip);;
        mod_ch i (fun c => c <| num_clients := u8 (num_clients c - 1) |> <| is_busy := false |>);;
        free_rx_buf i;;
        mod_ch i (fun c => c <| actual_rx_size := 0 |>);;
        mret 0
    end.
Definition spcom_channel_deinit (cur : Z) (i : nat) : M Z :=
  if cur =? 0 then mret (- EINVAL)
  else
    mutex_lock i;;
    ret ← spcom_channel_deinit_locked i cur;
    mutex_unlock i;;
    mret ret.

(** [raw]: the 32 bytes of a name as user space passed them. *)
Definition is_valid_ch_name (raw : list Z) : bool :=
  negb (len (cstr raw) =? 0) && (len (cstr raw) <? SPCOM_CHANNEL_NAME_SIZE).
Definition is_control_channel_name (raw : list Z) : bool :=
  is_valid_ch_name raw && name_eqb (cstr raw) DEVICE_NAME.

(** [ret] is still what the test of [remove_in_progress] left in it when the channel
    exists. *)
Definition spcom_create_channel (raw : list Z) (sharable : bool) : M Z :=
  d ← get_dev;
  let ret := if negb (remove_in_progress d =? 0) then - ENODEV else 0 in
  if negb (is_valid_ch_name raw) then mret (- EINVAL)
  else if is_control_channel_name raw then mret (- EINVAL)
  else
    found ← spcom_find_channel_by_name (cstr raw);
    match found with
    | None =>
        free ← spcom_find_channel_by_name [];
        match free with
        | None => mret (- ENODEV)
        | Some i => ret ← spcom_init_channel i sharable (cstr raw); mret (if ret =? 0 then 0 else - ENODEV)
        end
    | Some i =>
        if sharable then
          c ← get_ch i;
          mret (if is_sharable c then 0 else - EINVAL)
        else mret ret
    end.
Definition spcom_ioctl_handle_create_shared_ch_command (raw : list Z) : M Z := spcom_create_channel raw true.

Definition spcom_ioctl_handle_channel_register_command (cur : Z) (raw : list Z) : M Z :=
  if cur =? 0 then mret (- EINVAL)
  else
    spcom_create_channel raw false ?;
    (ch ← spcom_find_channel_by_name (cstr raw);
     match ch with
     | None => mret (- ENODEV)
     | Some i =>
         c ← get_ch i;
         ret ← (if negb (spcom_is_channel_open c) then
                  mod_ch i (fun c => c <| connect := false |>);; spcom_register_rpmsg_drv i
                else mret 0);
         if ret <? 0 then mret ret else spcom_register_channel cur i
     end).
Definition spcom_ioctl_handle_channel_unregister_command (cur : Z) (raw : list Z) : M Z :=
  if cur =? 0 then mret (- EINVAL)
  else if negb (is_valid_ch_name raw) then mret (- EINVAL)
  else if is_control_channel_name raw then mret (- EINVAL)
  else
    ch ← spcom_find_channel_by_name (cstr raw);
    match ch with None => mret (- ENODEV) | Some i => spcom_channel_deinit cur i end.
Definition spcom_ioctl_handle_is_channel_connected (raw : list Z) : M Z :=
  if negb (is_valid_ch_name raw) then mret (- EINVAL)
  else if is_control_channel_name raw then mret (- EINVAL)
  else
    ch ← spcom_find_channel_by_name (cstr raw);
    match ch with
    | None => mret (- EINVAL)
    | Some i =>
        mutex_lock i;;
        c ← get_ch i;
        mutex_unlock i;;
        mret (if rpdev c then 1 else 0)
    end.

(** *** The control channel *)

(** The inner loop leaves at the first match. *)
Definition release_channel (i : nat) (p : Z) : M unit :=
  c ← get_ch i;
  if (len (name c) =? 0) || bool_decide (pid_index c SPCOM_MAX_CHANNEL_CLIENTS p = None) then skip
  else
    mutex_lock i;;
    spcom_channel_deinit_locked i p;;
    mutex_unlock i.
Fixpoint release_from (n i : nat) (p : Z) : M unit :=
  match n with O => skip | S n => release_channel i p;; release_from n (S i) p end.
Definition spcom_release_all_channels_of_process (p : Z) : M unit :=
  release_from (Z.to_nat SPCOM_MAX_CHANNELS) 0 p.

Definition control_index (d : spcom_device) (p : Z) : option nat :=
  first_index (fun c => c_pid c =? p) (control_channels d).
Definition mod_control (k : nat) (f : control_channel → control_channel) : M unit :=
  mod_dev (fun d => d <| control_channels ::= alter f k |>).
Definition spom_control_channel_add_client (p : Z) : M Z :=
  d ← get_dev;
  match control_index d p with
  | Some k => mod_control k (fun c => c <| ref_cnt := u32 (ref_cnt c + 1) |>);; mret 0
  | None =>
      match control_index d 0 with
      | None => mret (- EMFILE)
      | Some k => mod_control k (fun _ => mkControl p 1);; mret 0
      end
  end.
Definition spom_control_channel_remove_client (p : Z) : M Z :=
  d ← get_dev;
  match control_index d p with
  | None => mret (- ESRCH)
  | Some k =>
      mod_control k (fun c => c <| ref_cnt := u32 (ref_cnt c - 1) |>);;
      d ← get_dev;
      (if default 0 (ref_cnt <$> control_channels d !! k) =? 0 then
         mod_control k (fun c => c <| c_pid := 0 |>);; spcom_release_all_channels_of_process p
       else skip);;
      mret 0
  end.

(** *** Opening and closing a channel's node *)

(** Its place in [ch->pid] when there is a free one. *)
Definition add_client (i : nat) (cur : Z) : M unit :=
  c ← get_ch i;
  if is_sharable c then
    mod_ch i (fun c => let n := u8 (num_clients c + 1) in
      c <| num_clients := n |> <| is_busy := SPCOM_MAX_CHANNEL_CLIENTS <=? n |>);;
    match pid_index c SPCOM_MAX_CHANNEL_CLIENTS 0 with
    | Some k => set_pid i k cur
    | None => skip
    end
  else
    mod_ch i (fun c => c <| num_clients := 1 |> <| is_busy := true |>);;
    set_pid i 0 cur.
(** With [ch->lock] held, the driver is registered: it takes the same lock. *)
Definition open_channel (cur : Z) (i : nat) : M (Z * option nat) :=
  mutex_lock i;;
  c ← get_ch i;
  ret ← (if negb (spcom_is_channel_open c) then
           mod_ch i (fun c => c <| connect := false |>);; spcom_register_rpmsg_drv i
         else mret 0);
  if ret <? 0 then (mutex_unlock i;; mret (ret, None))
  else
    c ← get_ch i;
    if is_busy c then (mutex_unlock i;; mret (- EBUSY, None))
    else if bool_decide (pid_index c SPCOM_MAX_CHANNEL_CLIENTS cur ≠ None)
    then (mutex_unlock i;; mret (- EINVAL, None))
    else (add_client i cur;; mutex_unlock i;; mret (0, Some i)).
(** [nm]: the file's name; with the result, [filp->private_data]. *)
Definition spcom_device_open (cur : Z) (nm : list Z) : M (Z * option nat) :=
  d ← get_dev;
  if negb (remove_in_progress d =? 0) then mret (- ENODEV, None)
  else if name_eqb nm unknown then mret (- EINVAL, None)
  else if name_eqb nm sp_ssr then mret (0, None)
  else if cur =? 0 then mret (- EINVAL, None)
  else if name_eqb nm DEVICE_NAME then (ret ← spom_control_channel_add_client cur; mret (ret, None))
  else
    ch ← spcom_find_channel_by_name nm;
    match ch with None => mret (- ENODEV, None) | Some i => open_channel cur i end.

(** The last client's transaction is forgotten, its lock is not released. *)
Definition close_last (i : nat) : M unit :=
  mod_ch i (fun c => c <| is_busy := false |> <| num_clients := 0 |> <| active_pid := 0 |>);;
  free_rx_buf i;;
  mod_ch i (fun c => c <| actual_rx_size := 0 |>);;
  mutex_unlock i.
Definition close_one (cur : Z) (i : nat) : M unit :=
  c ← get_ch i;
  (if active_pid c =? cur then end_transaction i else skip);;
  mod_ch i (fun c => c <| num_clients := u8 (num_clients c - 1) |> <| is_busy := false |>);;
  mutex_unlock i.
Definition release_channel_file (cur : Z) (i : nat) : M Z :=
  mutex_lock i;;
  c ← get_ch i;
  if negb (spcom_is_channel_open c) then (mutex_unlock i;; mret 0)
  else
    (match pid_index c SPCOM_MAX_CHANNEL_CLIENTS cur with Some k => set_pid i k 0 | None => skip end);;
    (if 1 <? num_clients c then close_one cur i else close_last i);;
    mret 0.
Definition spcom_device_release (cur : Z) (nm : list Z) (private_data : option nat) : M Z :=
  if name_eqb nm unknown then mret (- EINVAL)
  else if name_eqb nm sp_ssr then mret 0
  else if cur =? 0 then mret (- EINVAL)
  else if name_eqb nm DEVICE_NAME then spom_control_channel_remove_client cur
  else match private_data with None => mret (- ENODEV) | Some i => release_channel_file cur i end.

(** *** What happens while a thread waits *)

(** The rpmsg core speaks of devices that are bound. *)
Definition if_bound (i : nat) (c : M unit) : M unit :=
  d ← get_dev; match channels d !! i with Some ch => if rpdev ch then c else skip | None => skip end.
Definition run_action (a : action) : M unit :=
  match a with
  | APacket i data => if_bound i (spcom_rpdev_cb (Some i) data;; skip)
  | AWork => spcom_signal_rx_done
  | AConnect nm => spcom_rpdev_probe nm;; skip
  | ADisconnect i => if_bound i (spcom_rpdev_remove (Some i))
  | AShare nm => spcom_ioctl_handle_create_shared_ch_command nm;; skip
  | ARegister cur nm => spcom_ioctl_handle_channel_register_command cur nm;; skip
  | AUnregister cur nm => spcom_ioctl_handle_channel_unregister_command cur nm;; skip
  | AOpen cur nm => spcom_device_open cur nm;; skip
  | AClose cur => spcom_device_release cur DEVICE_NAME None;; skip
  end.
Fixpoint run_actions (l : list action) : M unit :=
  match l with [] => skip | a :: l => run_action a;; run_actions l end.
Definition meanwhile : M unit := l ← ask others; run_actions l.
End transport.
