(* ===== verification/SpcomMsg.v ===== *)
(** [spcom.c], continued: the messages of a channel (receive, send with retries, the
    two interfaces of user space) and the buffers it shares with the secure processor. *)
From Stdlib Require Import Ascii String.
From S2P Require Import Prelude Bus Spcom.
#[local] Open Scope Z_scope.
#[local] Open Scope list_scope.

Definition TX_RETRY_DELAY_MSEC := 100.
Definition SPCOM_GET_NEXT_REQUEST_SIZE := 4095.
Definition SPCOM_MAX_DMA_BUF := 4.
Definition SPCOM_DMABUF_FD_UNLOCK_ALL := 0xffff.
Definition SPCOM_CMD_SEND := 0x53454e44.
Definition SPCOM_CMD_SEND_MODIFIED := 0x534e444d.
Definition SPCOM_CMD_LOCK_ION_BUF := 0x4c4f434b.
Definition SPCOM_CMD_UNLOCK_ION_BUF := 0x554c434b.
Definition SPCOM_CMD_CREATE_CHANNEL := 0x43524554.
Definition SPCOM_CMD_ENABLE_SSR := 0x45535352.
Definition SPCOM_CMD_RESTART_SP := 0x52535452.
(** The sizes of the command structures. *)
Definition sizeof_user_command := 8.
Definition sizeof_send_command := 12.
Definition sizeof_send_modified_command := 44.
Definition sizeof_create_channel_command := 37.
Definition sizeof_restart_sp_command := 12.

(** [dst[off ...] = src] *)
Definition splice (l : list Z) (off : nat) (src : list Z) : list Z :=
  take off l ++ src ++ drop (off + List.length src) l.

Section messages.
Context {W : Type} `{!SpcomEnv W} (cur : Z).
Abbreviation M := (M (machine spcom_device W spcom_event)).

(** *** Receiving *)

(** A thread waits without the channel's lock. *)
Definition wait_rx_done (timeout : Z) : M Z := meanwhile;; ask (wait_for_completion_interruptible timeout).

(** What was received, cut to the buffer; the packet is consumed. *)
Definition consume (i : nat) (size : Z) : M (Z + list Z) :=
  c ← get_ch i;
  match rpmsg_rx_buf c with
  | None => mutex_unlock i;; mret (inl (- ENOMEM))
  | Some p =>
      l ← get_packet p;
      let size := Z.min (actual_rx_size c) size in
      if len l <? actual_rx_size c then fault
      else
        kfree_packet p;;
        mod_ch i (fun c => c <| rpmsg_rx_buf := None |> <| actual_rx_size := 0 |>);;
        mutex_unlock i;;
        mret (inr (take (Z.to_nat size) l))
  end.
Definition rx_error (i : nat) (ret : Z) : M (Z + list Z) := mutex_unlock i;; mret (inl ret).
(** [ret]: what the wait returned. *)
Definition after_wait (i : nat) (size timeout_msec ret : Z) : M (Z + list Z) :=
  mutex_lock i;;
  c ← get_ch i;
  if negb (timeout_msec =? 0) && (ret =? 0) then
    mod_ch i (fun c => c <| txn_id := u32 (txn_id c + 1) |>);; rx_error i (- ETIMEDOUT)
  else if rpmsg_abort c then rx_error i (- ERESTART)
  else if ret <? 0 then rx_error i (- EINTR)
  else if negb (actual_rx_size c =? 0) then consume i size
  else rx_error i (- EFAULT).
(** A packet of another session is dropped. *)
Definition drop_stale (i : nat) : M unit :=
  c ← get_ch i;
  if negb (rx_buf_txn_id c =? txn_id c) then
    match rpmsg_rx_buf c with
    | None => skip
    | Some p => free_rx_buf i;; mod_ch i (fun c => c <| actual_rx_size := 0 |>)
    end
  else skip.
Definition spcom_rx (i : nat) (size timeout_msec : Z) : M (Z + list Z) :=
  mutex_lock i;;
  drop_stale i;;
  c ← get_ch i;
  if actual_rx_size c =? 0 then
    mod_ch i (fun c => c <| rx_done := false |>);;
    mutex_unlock i;;
    ret ← wait_rx_done timeout_msec;
    after_wait i size timeout_msec ret
  else consume i size.

Definition exit_ready (i : nat) : M Z :=
  c ← get_ch i;
  mutex_unlock i;;
  mret (if sizeof_hdr <? actual_rx_size c then actual_rx_size c - sizeof_hdr else - EFAULT).
Definition spcom_get_next_request_size (i : nat) : M Z :=
  mutex_lock i;;
  c ← get_ch i;
  (if comm_role_undefined c
   then mod_ch i (fun c => c <| comm_role_undefined := false |> <| is_server := true |>) else skip);;
  mod_ch i (fun c => c <| rx_done := false |>);;
  c ← get_ch i;
  if negb (actual_rx_size c =? 0) then exit_ready i
  else
    mutex_unlock i;;
    ret ← wait_rx_done 0;
    if ret <? 0 then mret ret
    else
      mutex_lock i;;
      c ← get_ch i;
      if actual_rx_size c =? 0 then (mutex_unlock i;; mret (- EFAULT)) else exit_ready i.

(** *** Sending *)

(** The first transmission makes the channel a client's. *)
Definition take_client_role (i : nat) : M unit :=
  c ← get_ch i;
  if comm_role_undefined c
  then mod_ch i (fun c => c <| comm_role_undefined := false |> <| is_server := false |>) else skip.
(** The identifier of the message: a client's own next one, a server's is the
    request's. *)
Definition next_txn (i : nat) (timeout_msec : Z) : M Z :=
  c ← get_ch i;
  (if negb (is_server c)
   then mod_ch i (fun c => c <| txn_id := u32 (txn_id c + 1) |> <| response_timeout_msec := u32 timeout_msec |>)
   else skip);;
  c ← get_ch i; mret (txn_id c).
(** [do ... while]: [n] tries at most; the lock is free during the sleep. *)
Fixpoint tx_loop (n : nat) (i : nat) (tx : list Z) (timeout_msec time_msec : Z) : M Z :=
  match n with
  | O => nofuel
  | S n =>
      c ← get_ch i;
      if rpmsg_abort c then mret (- ECANCELED)
      else if negb (rpdev c) then fault
      else
        ret ← ask (rpmsg_trysend tx);
        emit (SpSend i tx ret);;
        if ret =? 0 then mret 0
        else
          let time_msec := time_msec + TX_RETRY_DELAY_MSEC in
          mutex_unlock i;;
          emit SpSleep;;
          meanwhile;;
          mutex_lock i;;
          if ((ret =? - EBUSY) || (ret =? - EAGAIN)) && (time_msec <? timeout_msec)
          then tx_loop n i tx timeout_msec time_msec else mret ret
  end.
Definition tx_tries (timeout_msec : Z) : nat := Z.to_nat (Z.max 0 timeout_msec / TX_RETRY_DELAY_MSEC + 1).
Definition transmit (i : nat) (tx : list Z) (timeout_msec : Z) : M Z :=
  tx_loop (tx_tries timeout_msec) i tx timeout_msec 0.
(** A server's answer ends the time the processor is kept awake. *)
Definition relax_server (i : nat) : M unit :=
  c ← get_ch i; if is_server c then emit SpRelax else skip.
Definition message (txn : Z) (payload : list Z) : list Z := bytes32 0 ++ bytes32 txn ++ payload.

(** *** Addresses of shared buffers *)

(** The exits of [modify_dma_buf_addr]: [dma_buf_detach] reads the attachment, an
    error pointer faults, NULL is refused. *)
Definition mem_map_table_failed (h : Z) (ret : Z) (buf : list Z) : M (Z * list Z) :=
  emit (SpDetach h);; emit (SpPutBuf h);; mret (ret, buf).
Definition mem_map_sg_failed (h : Z) (ret : Z) (buf : list Z) : M (Z * list Z) :=
  emit (SpUnmap h);; mem_map_table_failed h ret buf.
Definition attach_failed (h : Z) (ret : Z) (buf : list Z) : M (Z * list Z) :=
  emit (SpPutBuf h);;
  if ret <? 0 then fault else (emit (SpPutBuf h);; mret (0, buf)).
Definition write_address (i : nat) (h : Z) (offset : Z) (phy_addr : Z) (buf : list Z) : M (Z * list Z) :=
  c ← get_ch i;
  match first_index (fun b => bool_decide (handle b = Some h)) (dmabuf_array c) with
  | None => mem_map_sg_failed h (- EPERM) buf
  | Some k =>
      mod_buf i k (fun b => b <| attach := true |>);;
      emit (SpPutBuf h);;
      mret (0, splice buf (Z.to_nat offset) (bytes64 phy_addr))
  end.
Definition map_buffer (i : nat) (h : Z) (offset : Z) (buf : list Z) : M (Z * list Z) :=
  r ← ask (dma_buf_attach h);
  if r <=? 0 then attach_failed h r buf
  else
    emit (SpAttach h);;
    r ← ask (dma_buf_map_attachment h);
    if r <=? 0 then mem_map_table_failed h r buf
    else
      emit (SpMap h);;
      sg ← ask (sg_address h);
      match sg with
      | None => mem_map_sg_failed h (- ENOMEM) buf
      | Some phy_addr => write_address i h offset phy_addr buf
      end.
(** [fd] signed, [offset] and the size of the buffer unsigned; the buffer as it
    leaves. *)
Definition modify_dma_buf_addr (i : nat) (buf : list Z) (fd offset : Z) : M (Z * list Z) :=
  if fd <? 0 then mret (- ENODEV, buf)
  else if len buf <? 8 then mret (- ENODEV, buf)
  else if len buf - 8 <? offset then mret (- ENODEV, buf)
  else
    h ← ask (dma_buf_get fd);
    match h with
    | None => mret (- EINVAL, buf)
    | Some h => emit (SpGetBuf h);; map_buffer i h offset buf
    end.
(** The table of buffers that comes with a message; [failed] is the test of the
    caller. *)
Fixpoint modify_all (i : nat) (failed : Z → bool) (info : list (Z * Z)) (buf : list Z) : M (Z * list Z) :=
  match info with
  | [] => mret (0, buf)
  | (fd, offset) :: info =>
      if 0 <=? fd then
        '(ret, buf) ← modify_dma_buf_addr i buf fd offset;
        if failed ret then mret (- EFAULT, buf) else modify_all i failed info buf
      else modify_all i failed info buf
  end.

(** *** Commands that user space writes *)

(** [struct spcom_ion_info] and [struct spcom_dma_buf_info]: a file, an offset. *)
Fixpoint info_table (n : nat) (l : list Z) : list (Z * Z) :=
  match n with O => [] | S n => (s32 (word l 0), word l 4) :: info_table n (drop 8 l) end.

Definition spcom_handle_send_command (i : nat) (cmd : list Z) : M Z :=
  if len cmd <? sizeof_send_command then mret (- EINVAL)
  else
    c ← get_ch i;
    if negb (spcom_is_channel_connected c) then mret (- ENOTCONN)
    else
      let timeout_msec := word cmd 4 in
      let buf_size := word cmd 8 in
      if SPCOM_MAX_RESPONSE_SIZE <? buf_size then mret (- EINVAL)
      else if negb (len cmd =? sizeof_send_command + buf_size) then mret (- EINVAL)
      else
        ok ← ask kzalloc;
        if negb ok then mret (- ENOMEM)
        else
          mutex_lock i;;
          take_client_role i;;
          txn ← next_txn i timeout_msec;
          ret ← transmit i (message txn (drop 12 cmd)) timeout_msec;
          relax_server i;;
          mutex_unlock i;;
          mret ret.
Definition send_modified (i : nat) (payload : list Z) (info : list (Z * Z)) (timeout_msec : Z) : M Z :=
  mutex_lock i;;
  take_client_role i;;
  txn ← next_txn i timeout_msec;
  '(ret, payload) ← modify_all i (fun ret => ret <? 0) info payload;
  if negb (ret =? 0) then (mutex_unlock i;; mret (- EFAULT))
  else
    ret ← transmit i (message txn payload) timeout_msec;
    relax_server i;;
    mutex_unlock i;;
    mret ret.
Definition spcom_handle_send_modified_command (i : nat) (cmd : list Z) : M Z :=
  if len cmd <? sizeof_send_modified_command then mret (- EINVAL)
  else
    c ← get_ch i;
    if negb (spcom_is_channel_connected c) then mret (- ENOTCONN)
    else
      let timeout_msec := word cmd 36 in
      let buf_size := word cmd 40 in
      if SPCOM_MAX_RESPONSE_SIZE <? buf_size then mret (- EINVAL)
      else if negb (len cmd =? sizeof_send_modified_command + buf_size) then mret (- EINVAL)
      else
        ok ← ask kzalloc;
        if negb ok then mret (- ENOMEM)
        else send_modified i (drop 44 cmd) (info_table 4 (drop 4 cmd)) timeout_msec.

(** [fd] of a command is unsigned. *)
Definition INT_MAX := 2147483647.
Definition holds_handle (h : Z) (b : dma_buf_info) : bool := bool_decide (handle b = Some h).
Definition spcom_handle_lock_ion_buf_command (i : nat) (cmd : list Z) : M Z :=
  if negb (len cmd =? sizeof_user_command) then mret (- EINVAL)
  else if INT_MAX <? word cmd 4 then mret (- EINVAL)
  else
    let file := word cmd 4 in
    h ← ask (dma_buf_get file);
    match h with
    | None => mret (- EINVAL)
    | Some h =>
        emit (SpGetBuf h);;
        mutex_lock i;;
        c ← get_ch i;
        if existsb (holds_handle h) (dmabuf_array c)
        then (mutex_unlock i;; emit (SpPutBuf h);; mret (- EINVAL))
        else
          match first_index (fun b => bool_decide (handle b = None)) (dmabuf_array c) with
          | Some k =>
              mod_buf i k (fun b => b <| handle := Some h |> <| fd := file |>);;
              mutex_unlock i;;
              mret 0
          | None => mutex_unlock i;; emit (SpPutBuf h);; mret (- EFAULT)
          end
    end.

(** Every entry; whether one was unlocked. *)
Fixpoint unlock_all (i : nat) (n k : nat) (found : bool) : M bool :=
  match n with
  | O => mret found
  | S n =>
      ret ← spcom_dmabuf_unlock i k true cur;
      unlock_all i n (S k) (found || (ret =? 0))
  end.
(** What the unlocking returned is not looked at. *)
Definition spcom_handle_unlock_ion_buf_command (i : nat) (cmd : list Z) : M Z :=
  if negb (len cmd =? sizeof_user_command) then mret (- EINVAL)
  else if INT_MAX <? word cmd 4 then mret (- EINVAL)
  else
    let file := word cmd 4 in
    h ← ask (dma_buf_get file);
    match h with
    | None => mret (- EINVAL)
    | Some h =>
        emit (SpGetBuf h);;
        emit (SpPutBuf h);;
        mutex_lock i;;
        c ← get_ch i;
        found ← (if file =? SPCOM_DMABUF_FD_UNLOCK_ALL then
                   unlock_all i (List.length (dmabuf_array c)) 0 true
                 else
                   match first_index (holds_handle h) (dmabuf_array c) with
                   | Some k => spcom_dmabuf_unlock i k true cur;; mret true
                   | None => mret false
                   end);
        mutex_unlock i;;
        mret (if found : bool then 0 else - ENODEV)
    end.

(** *** The same from the control channel *)

(** A buffer of the processor, or of the trusted environment; [inl]: an error. *)
Inductive shared_buf := DmaBuf (h : Z) | TeeShm (f : Z).
Definition spcom_get_tee_shm_file (file : Z) : M (Z + Z) :=
  f ← ask (fget file);
  match f with
  | None => mret (inl (- EBADF))
  | Some (f, tee) =>
      emit (SpGetFile f);;
      if negb tee then (emit (SpPutFile f);; mret (inl (- EINVAL))) else mret (inr f)
  end.
Definition get_shared (file : Z) : M (Z + shared_buf) :=
  h ← ask (dma_buf_get file);
  match h with
  | Some h => emit (SpGetBuf h);; mret (inr (DmaBuf h))
  | None =>
      f ← spcom_get_tee_shm_file file;
      mret (match f with inl ret => inl ret | inr f => inr (TeeShm f) end)
  end.
Definition put_shared (s : shared_buf) : M unit :=
  match s with DmaBuf h => emit (SpPutBuf h) | TeeShm f => emit (SpPutFile f) end.
Definition holds_shared (s : shared_buf) (b : dma_buf_info) : bool :=
  match s with
  | DmaBuf h => bool_decide (handle b = Some h)
  | TeeShm f => bool_decide (tee_shm_file b = Some f)
  end.
Definition is_free (b : dma_buf_info) : bool :=
  bool_decide (handle b = None) && bool_decide (tee_shm_file b = None).
Definition store_shared (s : shared_buf) (file : Z) (b : dma_buf_info) : dma_buf_info :=
  match s with
  | DmaBuf h => b <| handle := Some h |> <| tee_shm_file := None |> <| fd := file |> <| owner_pid := cur |>
  | TeeShm f => b <| handle := None |> <| tee_shm_file := Some f |> <| fd := file |> <| owner_pid := cur |>
  end.
Definition lock_shared (i : nat) (file : Z) (s : shared_buf) : M Z :=
  mutex_lock i;;
  c ← get_ch i;
  if negb (spcom_is_channel_open c) then (mutex_unlock i;; put_shared s;; mret (- EINVAL))
  else if existsb (holds_shared s) (dmabuf_array c) then (mutex_unlock i;; put_shared s;; mret (- EINVAL))
  else
    match first_index is_free (dmabuf_array c) with
    | Some k => mod_buf i k (store_shared s file);; mutex_unlock i;; mret 0
    | None => mutex_unlock i;; put_shared s;; mret (- EFAULT)
    end.
Definition spcom_ioctl_handle_lock_dmabuf_command (raw : list Z) (file : Z) : M Z :=
  if negb (is_valid_ch_name raw) then mret (- EINVAL)
  else if cur =? 0 then mret (- EINVAL)
  else if INT_MAX <? u32 file then mret (- EINVAL)
  else
    ch ← spcom_find_channel_by_name (cstr raw);
    match ch with
    | None => mret (- ENODEV)
    | Some i =>
        s ← get_shared file;
        match s with inl ret => mret ret | inr s => lock_shared i file s end
    end.
Definition unlock_shared (i : nat) (s : shared_buf) : M Z :=
  mutex_lock i;;
  c ← get_ch i;
  r ← match first_index (holds_shared s) (dmabuf_array c) with
      | Some k => spcom_dmabuf_unlock i k true cur
      | None => mret (- ENODEV)
      end;
  mutex_unlock i;;
  put_shared s;;
  mret r.
Definition spcom_ioctl_handle_unlock_dmabuf_command (raw : list Z) (file : Z) : M Z :=
  if negb (is_valid_ch_name raw) then mret (- EINVAL)
  else if INT_MAX <? u32 file then mret (- EINVAL)
  else
    ch ← spcom_find_channel_by_name (cstr raw);
    match ch with
    | None => mret (- ENODEV)
    | Some i =>
        if file =? SPCOM_DMABUF_FD_UNLOCK_ALL then
          mutex_lock i;;
          c ← get_ch i;
          found ← unlock_all i (List.length (dmabuf_array c)) 0 false;
          mutex_unlock i;;
          mret (if found : bool then 0 else - ENODEV)
        else
          s ← get_shared file;
          match s with inl ret => mret ret | inr s => unlock_shared i s end
    end.

(** *** Messages from the control channel *)

(** [mutex_lock(&ch->shared_sync_lock)]: another process may hold it; a thread that
    waits for ever does not return. *)
Definition lock_sync (i : nat) : M unit :=
  c ← get_ch i;
  if sync c then
    meanwhile;;
    c ← get_ch i;
    if sync c then nofuel else mod_ch i (fun c => c <| sync := true |>)
  else mod_ch i (fun c => c <| sync := true |>).

(** [arg]: [struct spcom_ioctl_message] and [struct spcom_ioctl_modified_message]
    agree on the fields before the table. *)
Definition arg_name (arg : list Z) : list Z := take 32 arg.
Definition send_message_err (i : nat) (ret : Z) : M Z :=
  c ← get_ch i;
  (if (ret <? 0) && is_sharable c && (active_pid c =? cur) then end_transaction i else skip);;
  relax_server i;;
  mutex_unlock i;;
  mret ret.
(** The outcome of the transmission is only printed. *)
Definition send_payload (i : nat) (is_modified : bool) (arg payload : list Z) : M Z :=
  let timeout_msec := s32 (word arg 32) in
  txn ← next_txn i timeout_msec;
  '(ret, payload) ← (if is_modified
                     then modify_all i (fun ret => negb (ret =? 0)) (info_table 4 (drop 40 arg)) payload
                     else mret (0, payload));
  if negb (ret =? 0) then send_message_err i (- EFAULT)
  else
    transmit i (message txn payload) timeout_msec;;
    send_message_err i (word arg 36).
Definition spcom_send_message (arg payload : list Z) (is_modified : bool) : M Z :=
  if negb (is_valid_ch_name (arg_name arg)) then mret (- EINVAL)
  else if SPCOM_MAX_RESPONSE_SIZE <? word arg 36 then mret (- EINVAL)
  else if is_control_channel_name (arg_name arg) then mret (- EFAULT)
  else
    ch ← spcom_find_channel_by_name (cstr (arg_name arg));
    match ch with
    | None => mret (- ENODEV)
    | Some i =>
        c ← get_ch i;
        if negb (spcom_is_channel_connected c) then mret (- ENOTCONN)
        else
          ok ← ask kzalloc;
          if negb ok then mret (- ENOMEM)
          else
            (if is_sharable c then lock_sync i else skip);;
            mutex_lock i;;
            take_client_role i;;
            c ← get_ch i;
            if is_sharable c then
              if is_server c
              then (mod_ch i (fun c => c <| sync := false |>);; send_message_err i 0)
              else (mod_ch i (fun c => c <| active_pid := cur |>);; send_payload i is_modified arg payload)
            else send_payload i is_modified arg payload
    end.
(** [user]: what user space has at the message's buffer. *)
Definition spcom_ioctl_handle_copy_and_send_message (arg user : list Z) (is_modified : bool) : M Z :=
  ok ← ask kzalloc;
  if negb ok then mret (- ENOMEM)
  else
    ok ← ask copy_from_user;
    if negb ok then mret (- EFAULT)
    else spcom_send_message arg (take (Z.to_nat (word arg 36)) user) is_modified.

(** *** Reading a message *)

(** A server takes the identifier of the request it reads. *)
Definition take_request_txn (i : nat) (rx : list Z) : M unit :=
  c ← get_ch i;
  if is_server c then mod_ch i (fun c => c <| txn_id := hdr_txn rx |>) else skip.
(** [rx_buf]: zeroed, [size] bytes and a header. *)
Definition padded (size : Z) (l : list Z) : list Z :=
  l ++ replicate (Z.to_nat (sizeof_hdr + size) - List.length l) 0.
(** The payload, or an error. *)
Definition receive (i : nat) (size : Z) : M (Z + list Z) :=
  c ← get_ch i;
  let timeout_msec := if negb (is_server c) then response_timeout_msec c else 0 in
  r ← spcom_rx i (sizeof_hdr + size) timeout_msec;
  match r with
  | inl ret => mret (inl ret)
  | inr l =>
      take_request_txn i (padded size l);;
      mret (if sizeof_hdr <? len l then inr (hdr_buf l) else inl (- EFAULT))
  end.
Definition spcom_handle_read_req_resp (i : nat) (size : Z) : M (Z + list Z) :=
  c ← get_ch i;
  if negb (spcom_is_channel_connected c) then mret (inl (- ENOTCONN))
  else if SPCOM_MAX_RESPONSE_SIZE <? size then mret (inl (- EINVAL))
  else
    ok ← ask kzalloc;
    if negb ok then mret (inl (- ENOMEM)) else receive i size.
Definition spcom_handle_get_req_size (i : nat) (size : Z) : M (Z + list Z) :=
  if size <? 4 then mret (inl (- EINVAL))
  else
    ret ← spcom_get_next_request_size i;
    mret (if ret <? 0 then inl ret else inr (bytes32 ret)).
Definition spcom_handle_read (i : nat) (size : Z) : M (Z + list Z) :=
  r ← (if size =? SPCOM_GET_NEXT_REQUEST_SIZE then
         mod_ch i (fun c => c <| is_server := true |>);; spcom_handle_get_req_size i size
       else spcom_handle_read_req_resp i size);
  mutex_lock i;;
  c ← get_ch i;
  (if negb (is_server c) then emit SpRelax else skip);;
  mutex_unlock i;;
  mret r.
Definition get_message_out (i : nat) (ret : Z) : M Z :=
  c ← get_ch i;
  (if active_pid c =? cur then end_transaction i else skip);;
  mutex_lock i;;
  c ← get_ch i;
  (if negb (is_server c) then emit SpRelax else skip);;
  mutex_unlock i;;
  mret ret.
Definition copy_message (i : nat) (l : list Z) : M Z :=
  ok ← ask copy_to_user;
  if negb ok then get_message_out i (- EFAULT) else (emit (SpUser l);; get_message_out i (len l)).
Definition spcom_ioctl_handle_get_message (arg : list Z) : M Z :=
  if negb (is_valid_ch_name (arg_name arg)) then mret (- EINVAL)
  else if is_control_channel_name (arg_name arg) then mret (- EFAULT)
  else
    ch ← spcom_find_channel_by_name (cstr (arg_name arg));
    match ch with
    | None => mret (- ENODEV)
    | Some i =>
        c ← get_ch i;
        if negb (spcom_is_channel_connected c) then get_message_out i (- ENOTCONN)
        else if SPCOM_MAX_RESPONSE_SIZE <? word arg 36 then get_message_out i (- EINVAL)
        else
          ok ← ask kzalloc;
          if negb ok then get_message_out i (- ENOMEM)
          else
            r ← receive i (word arg 36);
            match r with inl ret => get_message_out i ret | inr l => copy_message i l end
    end.
Definition spcom_ioctl_handle_get_next_req_msg_size (arg : list Z) : M Z :=
  if negb (is_valid_ch_name (arg_name arg)) then mret (- EINVAL)
  else
    ch ← spcom_find_channel_by_name (cstr (arg_name arg));
    match ch with
    | None => mret (- ENODEV)
    | Some i =>
        ret ← spcom_get_next_request_size i;
        if ret <? 0 then mret ret
        else
          ok ← ask put_user;
          if negb ok then mret (- EFAULT) else (emit (SpPutUser ret);; mret 0)
    end.
End messages.
