(* ===== verification/SpcomDev.v ===== *)
(** [spcom.c], continued: the nodes of the channels, the file operations and the
    requests of the control channel, the life of the device. *)
From Stdlib Require Import Ascii String.
From S2P Require Import Prelude Bus Spcom SpcomMsg.
#[local] Open Scope Z_scope.
#[local] Open Scope list_scope.

Definition SPCOM_MAX_COMMAND_SIZE := 4096.
Definition SPCOM_MAX_READ_SIZE := 4096.
Definition SPCOM_LINK_STATE_REQ := 0.
Definition SPCOM_CH_CONN_STATE_REQ := 1.
Definition SPCOM_EVENT_LINK_STATE := 100.

(** [_IOC]; the numbers above 255 run into the type. *)
Definition IOC (dir nr size : Z) : Z :=
  Z.lor (Z.lor (Z.shiftl dir 30) (Z.shiftl size 16)) (Z.lor (Z.shiftl 0x53 8) nr).
Definition SPCOM_POLL_STATE := IOC 3 1 9.
Definition SPCOM_GET_RMB_ERROR := IOC 2 2 8.
Definition SPCOM_IOCTL_STATE_POLL := IOC 3 1000 16.
Definition SPCOM_IOCTL_SHARED_CH_CREATE := IOC 1 1001 32.
Definition SPCOM_IOCTL_CH_REGISTER := IOC 1 1002 32.
Definition SPCOM_IOCTL_CH_UNREGISTER := IOC 1 1003 32.
Definition SPCOM_IOCTL_CH_IS_CONNECTED := IOC 1 1004 32.
Definition SPCOM_IOCTL_SEND_MSG := IOC 1 1005 40.
Definition SPCOM_IOCTL_SEND_MOD_MSG := IOC 1 1006 72.
Definition SPCOM_IOCTL_GET_NEXT_REQ_SZ := IOC 3 1007 40.
Definition SPCOM_IOCTL_GET_MSG := IOC 3 1008 40.
Definition SPCOM_IOCTL_DMABUF_LOCK := IOC 1 1009 40.
Definition SPCOM_IOCTL_DMABUF_UNLOCK := IOC 1 1010 40.
Definition SPCOM_IOCTL_RESTART_SPU := IOC 0 1011 0.
Definition SPCOM_IOCTL_ENABLE_SSR := IOC 0 1012 0.
Definition IOC_WRITE (cmd : Z) : bool := Z.testbit cmd 30.
Definition IOC_SIZE (cmd : Z) : Z := Z.land (Z.shiftr cmd 16) 0x3fff.

(** What the device tree says: the number of names (or an error), the names that can
    be read, whether the processor boots at once. *)
Record device_tree := mkDt { num_ch : Z; ch_names : list (option (list Z)); boot_enabled : bool }.

Section device.
Context {W : Type} `{!SpcomEnv W} (cur : Z).
Abbreviation M := (M (machine spcom_device W spcom_event)).

(** *** Nodes of channels *)

(** The exits of [spcom_create_channel_chardev]; the first replaces the error. *)
Definition exit_destroy_channel (i : nat) (ret : Z) : M Z :=
  mutex_lock i;; mod_ch i (fun c => c <| name := [] |>);; mutex_unlock i;; mret ret.
Definition exit_unregister_drv (i : nat) : M Z :=
  ret ← spcom_unregister_rpmsg_drv i; exit_destroy_channel i ret.
Definition exit_destroy_device (i : nat) (nm : list Z) : M Z :=
  emit (SpNode nm false);; exit_unregister_drv i.
Definition create_node (i : nat) (nm : list Z) : M Z :=
  ok ← ask kzalloc;
  if negb ok then exit_unregister_drv i
  else
    ok ← ask device_create;
    if negb ok then exit_unregister_drv i
    else
      emit (SpNode nm true);;
      ret ← ask cdev_add;
      if ret <? 0 then exit_destroy_device i nm
      else
        d ← get_dev;
        mod_dev (fun d => d <| chdev_count := u32 (chdev_count d + 1) |>);;
        mutex_lock i;;
        mod_ch i (fun c => c <| cdev := Some true |> <| devt := chdev_count d |>);;
        mutex_unlock i;;
        mret 0.
Definition spcom_create_channel_chardev (nm : list Z) (sharable : bool) : M Z :=
  if SPCOM_CHANNEL_NAME_SIZE <=? len nm then mret (- EINVAL)
  else
    ch ← spcom_find_channel_by_name nm;
    match ch with
    | Some _ => mret (- EBUSY)
    | None =>
        ch ← spcom_find_channel_by_name [];
        match ch with
        | None => mret (- ENODEV)
        | Some i =>
            ret ← spcom_init_channel i sharable nm;
            if ret <? 0 then mret ret
            else
              ret ← spcom_register_rpmsg_drv i;
              if ret <? 0 then exit_destroy_channel i ret else create_node i nm
        end
    end.
(** [kfree(ch->cdev)]: the pointer stays. *)
Definition kfree_cdev (i : nat) : M unit :=
  c ← get_ch i;
  match cdev c with
  | None => skip
  | Some true => mod_ch i (fun c => c <| cdev := Some false |>)
  | Some false => fault
  end.
Definition spcom_destroy_channel_chardev (nm : list Z) : M Z :=
  ch ← spcom_find_channel_by_name nm;
  match ch with
  | None => mret (- EINVAL)
  | Some i =>
      spcom_unregister_rpmsg_drv i;;
      mutex_lock i;;
      emit (SpNode nm false);;
      kfree_cdev i;;
      mutex_unlock i;;
      mod_dev (fun d => d <| chdev_count := u32 (chdev_count d - 1) |>);;
      mret 0
  end.
Fixpoint destroy_channels (l : list (list Z)) : M unit :=
  match l with
  | [] => skip
  | nm :: l => if len nm =? 0 then skip else (spcom_destroy_channel_chardev nm;; destroy_channels l)
  end.
(** [done]: the names before. *)
Fixpoint create_channels (done l : list (list Z)) : M Z :=
  match l with
  | [] => mret 0
  | nm :: l =>
      if len nm =? 0 then mret 0
      else
        ret ← spcom_create_channel_chardev nm false;
        if negb (ret =? 0) then (destroy_channels done;; mret ret)
        else create_channels (done ++ [nm]) l
  end.
Definition spcom_create_predefined_channels_chardev : M Z :=
  d ← get_dev;
  if is_predefined_created d then mret 0
  else
    create_channels [] (predefined_ch_name d) ?;
    (mod_dev (fun d => d <| is_predefined_created := true |>);; mret 0).

(** *** Booting the processor *)

Definition spcom_get_rproc : M bool :=
  d ← get_dev; ask (get_rproc (rproc_prop d)).
Definition spcom_ioctl_handle_restart_spu_command : M Z :=
  ok ← spcom_get_rproc;
  mod_dev (fun d => d <| spss_rproc := ok |>);;
  if negb ok then mret (- ENODEV)
  else
    ret ← ask rproc_boot;
    emit (SpBoot ret);;
    if ret =? - ETIMEDOUT then mret ret
    else if negb (ret =? 0) then (mod_dev (fun d => d <| rmb_error := u32 ret |>);; mret (- ENODEV))
    else mret 0.
Definition spcom_handle_restart_sp_command (cmd : list Z) : M Z :=
  if negb (len cmd =? sizeof_restart_sp_command) then mret (- EINVAL)
  else spcom_ioctl_handle_restart_spu_command.
Definition spcom_handle_enable_ssr_command : M Z := mret 0.
Definition spcom_handle_create_channel_command (cmd : list Z) : M Z :=
  if negb (len cmd =? sizeof_create_channel_command) then mret (- EINVAL)
  else spcom_create_channel_chardev (cstr (take 32 (drop 4 cmd))) (negb (byte_at cmd 36 =? 0)).

(** *** The file operations *)

(** [ch]: NULL for the control channel. *)
Definition with_ch (ch : option nat) (f : nat → M Z) : M Z :=
  match ch with Some i => f i | None => fault end.
(** A message on a shared channel is its process's transaction. *)
Definition begin_transaction (i : nat) : M unit :=
  c ← get_ch i;
  if is_sharable c then (lock_sync i;; mod_ch i (fun c => c <| active_pid := cur |>)) else skip.
Definition spcom_handle_write (ch : option nat) (buf : list Z) : M Z :=
  if len buf <? sizeof_user_command then mret (- EINVAL)
  else
    let cmd_id := word buf 0 in
    if bool_decide (ch = None) && negb (cmd_id =? SPCOM_CMD_CREATE_CHANNEL)
       && negb (cmd_id =? SPCOM_CMD_RESTART_SP) && negb (cmd_id =? SPCOM_CMD_ENABLE_SSR)
    then mret (- EINVAL)
    else
      ok ← (if (cmd_id =? SPCOM_CMD_SEND) || (cmd_id =? SPCOM_CMD_SEND_MODIFIED) then
              match ch with Some i => c ← get_ch i; mret (spcom_is_channel_connected c) | None => fault end
            else mret true);
      if negb ok then mret (- ENOTCONN)
      else if cmd_id =? SPCOM_CMD_SEND then
        with_ch ch (fun i => begin_transaction i;; spcom_handle_send_command i buf)
      else if cmd_id =? SPCOM_CMD_SEND_MODIFIED then
        with_ch ch (fun i => begin_transaction i;; spcom_handle_send_modified_command i buf)
      else if cmd_id =? SPCOM_CMD_LOCK_ION_BUF then
        with_ch ch (fun i => spcom_handle_lock_ion_buf_command i buf)
      else if cmd_id =? SPCOM_CMD_UNLOCK_ION_BUF then
        with_ch ch (fun i => spcom_handle_unlock_ion_buf_command cur i buf)
      else if cmd_id =? SPCOM_CMD_CREATE_CHANNEL then spcom_handle_create_channel_command buf
      else if cmd_id =? SPCOM_CMD_RESTART_SP then spcom_handle_restart_sp_command buf
      else if cmd_id =? SPCOM_CMD_ENABLE_SSR then spcom_handle_enable_ssr_command
      else mret (- EINVAL).
(** [if (ch->active_pid == current_pid())] the transaction ends. *)
Definition end_own_transaction (i : nat) : M unit :=
  c ← get_ch i; if active_pid c =? cur then end_transaction i else skip.
Definition write_command (ch : option nat) (user : list Z) : M Z :=
  ok ← ask kzalloc;
  if negb ok then mret (- ENOMEM)
  else
    ok ← ask copy_from_user;
    if negb ok then mret (- EFAULT)
    else
      ret ← spcom_handle_write ch user;
      if negb (ret =? 0) then
        (match ch with Some i => end_own_transaction i | None => skip end);; mret ret
      else mret (len user).
Definition spcom_device_write (nm : list Z) (private_data : option nat) (user : list Z) (f_pos : Z) : M Z :=
  d ← get_dev;
  if negb (remove_in_progress d =? 0) then mret (- ENODEV)
  else if negb (f_pos =? 0) then mret (- EINVAL)
  else if name_eqb nm unknown then mret (- EINVAL)
  else if SPCOM_MAX_COMMAND_SIZE <? len user then mret (- EINVAL)
  else if bool_decide (private_data = None) && negb (name_eqb nm DEVICE_NAME) then mret (- EINVAL)
  else write_command private_data user.

Definition read_exit (i : nat) (ret : Z) : M Z := end_own_transaction i;; mret ret.
Definition read_channel (i : nat) (size : Z) : M Z :=
  c ← get_ch i;
  if negb (spcom_is_channel_open c) then mret (- EINVAL)
  else
    ok ← ask kzalloc;
    if negb ok then read_exit i (- ENOMEM)
    else
      r ← spcom_handle_read i size;
      match r with
      | inl ret => read_exit i ret
      | inr l =>
          if (len l =? 0) || (size <? len l) then read_exit i (- EFAULT)
          else
            ok ← ask copy_to_user;
            if negb ok then read_exit i (- EFAULT) else (emit (SpUser l);; read_exit i (len l))
      end.
Definition spcom_device_read (nm : list Z) (private_data : option nat) (size : Z) : M Z :=
  d ← get_dev;
  if negb (remove_in_progress d =? 0) then mret (- ENODEV)
  else if name_eqb nm unknown then mret (- EINVAL)
  else if (size =? 0) || (SPCOM_MAX_READ_SIZE <? size) then mret (- EINVAL)
  else match private_data with None => mret (- EINVAL) | Some i => read_channel i size end.

(** *** Polling *)

Definition wait_event : M Z := meanwhile;; ask (wait_for_completion_interruptible 0).
Definition wait_link : M Z :=
  mod_dev (fun d => d <| rpmsg_state_change := false |>);; wait_event.
Definition poll_result (ready : Z) (retval : Z) : M Z :=
  if ready <? 0 then mret (- EINTR)
  else
    ok ← ask put_user;
    if negb ok then mret (- EFAULT) else (emit (SpPutUser retval);; mret 0).
Definition handle_poll (nm : list Z) (private_data : option nat) (wait : bool) (cmd_id : Z) : M Z :=
  if cmd_id =? SPCOM_LINK_STATE_REQ then
    ready ← (if wait then wait_link else mret 0);
    d ← get_dev;
    poll_result ready (if 0 <? rpmsg_dev_count d then 1 else 0)
  else if cmd_id =? SPCOM_CH_CONN_STATE_REQ then
    if name_eqb nm DEVICE_NAME then mret (- EINVAL)
    else
      match private_data with
      | None => mret (- EINVAL)
      | Some i =>
          ready ← (if wait then mod_ch i (fun c => c <| connect := false |>);; wait_event else mret 0);
          mutex_lock i;;
          c ← get_ch i;
          mutex_unlock i;;
          poll_result ready (if rpdev c then 1 else 0)
      end
  else mret (- EINVAL).
Definition spcom_ioctl_handle_poll_event (event_id wait : Z) : M Z :=
  if event_id =? SPCOM_EVENT_LINK_STATE then
    ret ← (if negb (wait =? 0) then wait_link else mret 0);
    if negb (ret =? 0) then mret (- EINTR)
    else
      d ← get_dev;
      ok ← ask put_user;
      if negb ok then mret (- EFAULT)
      else (emit (SpPutUser (if 0 <? rpmsg_dev_count d then 1 else 0));; mret 0)
  else mret (- EINVAL).

(** *** Requests of the control channel *)

Definition is_arg_size_expected (cmd arg_size : Z) : bool :=
  if cmd =? SPCOM_POLL_STATE then arg_size =? 9
  else if cmd =? SPCOM_IOCTL_STATE_POLL then arg_size =? 16
  else if (cmd =? SPCOM_IOCTL_SEND_MSG) || (cmd =? SPCOM_IOCTL_GET_MSG) then arg_size =? 40
  else if cmd =? SPCOM_IOCTL_SEND_MOD_MSG then arg_size =? 72
  else if cmd =? SPCOM_IOCTL_GET_NEXT_REQ_SZ then arg_size =? 40
  else if (cmd =? SPCOM_IOCTL_SHARED_CH_CREATE) || (cmd =? SPCOM_IOCTL_CH_REGISTER)
          || (cmd =? SPCOM_IOCTL_CH_UNREGISTER) || (cmd =? SPCOM_IOCTL_CH_IS_CONNECTED) then arg_size =? 32
  else if (cmd =? SPCOM_IOCTL_DMABUF_LOCK) || (cmd =? SPCOM_IOCTL_DMABUF_UNLOCK) then arg_size =? 40
  else false.
(** The argument as user space passed it ([None]: a NULL pointer), and what follows
    it in user memory. *)
Definition spcom_ioctl_copy_user_arg (user_arg : option (list Z)) (size : Z) : M (Z * list Z) :=
  match user_arg with
  | None => mret (- EINVAL, [])
  | Some arg =>
      ok ← ask copy_from_user;
      mret (if negb ok then (- EFAULT, []) else (0, take (Z.to_nat size) arg))
  end.
Definition is_control_channel (nm : list Z) : bool := name_eqb nm DEVICE_NAME.
Definition dispatch (nm : list Z) (private_data : option nat) (cmd : Z) (arg user : list Z) : M Z :=
  if cmd =? SPCOM_POLL_STATE then handle_poll nm private_data (negb (byte_at arg 0 =? 0)) (word arg 1)
  else if cmd =? SPCOM_GET_RMB_ERROR then
    d ← get_dev;
    ok ← ask put_user;
    if negb ok then mret (- EFAULT) else (emit (SpPutUser (rmb_error d));; mret 0)
  else if cmd =? SPCOM_IOCTL_STATE_POLL then spcom_ioctl_handle_poll_event (word arg 0) (word arg 4)
  else if cmd =? SPCOM_IOCTL_SEND_MSG then spcom_ioctl_handle_copy_and_send_message cur arg user false
  else if cmd =? SPCOM_IOCTL_SEND_MOD_MSG then spcom_ioctl_handle_copy_and_send_message cur arg user true
  else if cmd =? SPCOM_IOCTL_GET_NEXT_REQ_SZ then spcom_ioctl_handle_get_next_req_msg_size arg
  else if cmd =? SPCOM_IOCTL_GET_MSG then spcom_ioctl_handle_get_message cur arg
  else if cmd =? SPCOM_IOCTL_SHARED_CH_CREATE then spcom_ioctl_handle_create_shared_ch_command (arg_name arg)
  else if cmd =? SPCOM_IOCTL_CH_REGISTER then spcom_ioctl_handle_channel_register_command cur (arg_name arg)
  else if cmd =? SPCOM_IOCTL_CH_UNREGISTER then spcom_ioctl_handle_channel_unregister_command cur (arg_name arg)
  else if cmd =? SPCOM_IOCTL_CH_IS_CONNECTED then spcom_ioctl_handle_is_channel_connected (arg_name arg)
  else if cmd =? SPCOM_IOCTL_DMABUF_LOCK then
    spcom_ioctl_handle_lock_dmabuf_command cur (arg_name arg) (s32 (word arg 32))
  else if cmd =? SPCOM_IOCTL_DMABUF_UNLOCK then
    spcom_ioctl_handle_unlock_dmabuf_command cur (arg_name arg) (s32 (word arg 32))
  else if cmd =? SPCOM_IOCTL_RESTART_SPU then spcom_ioctl_handle_restart_spu_command
  else if cmd =? SPCOM_IOCTL_ENABLE_SSR then spcom_handle_enable_ssr_command
  else mret (- ENOIOCTLCMD).
Definition spcom_device_ioctl (nm : list Z) (private_data : option nat) (cmd : Z)
    (user_arg : option (list Z)) (user : list Z) : M Z :=
  d ← get_dev;
  if negb (remove_in_progress d =? 0) then mret (- ENODEV)
  else if negb (is_control_channel nm) && negb (cmd =? SPCOM_POLL_STATE) then mret (- EINVAL)
  else if IOC_WRITE cmd then
    if negb (is_arg_size_expected cmd (IOC_SIZE cmd)) then mret (- EFAULT)
    else
      '(ret, arg) ← spcom_ioctl_copy_user_arg user_arg (IOC_SIZE cmd);
      if negb (ret =? 0) then mret ret else dispatch nm private_data cmd arg user
  else dispatch nm private_data cmd [] user.

(** *** The life of the device *)

Definition exit_unreg_chrdev_region (ret : Z) : M Z := emit (SpRegion false);; mret ret.
Definition exit_destroy_class (ret : Z) : M Z := emit (SpClass false);; exit_unreg_chrdev_region ret.
Definition exit_destroy_control (ret : Z) : M Z := emit (SpNode DEVICE_NAME false);; exit_destroy_class ret.
Definition spcom_register_chardev : M Z :=
  ret ← ask alloc_chrdev_region;
  if ret <? 0 then mret ret
  else
    emit (SpRegion true);;
    ok ← ask class_create;
    if negb ok then exit_unreg_chrdev_region (- ENOMEM)
    else
      emit (SpClass true);;
      ok ← ask device_create;
      if negb ok then exit_destroy_class (- ENOMEM)
      else
        emit (SpNode DEVICE_NAME true);;
        ret ← ask cdev_add;
        if ret <? 0 then exit_destroy_control ret else (emit (SpCdev true);; mret 0).
Definition spcom_unregister_chrdev : M unit :=
  emit (SpCdev false);; emit (SpNode DEVICE_NAME false);; emit (SpClass false);; emit (SpRegion false).

(** The names of the tree; one that cannot be read is an error. *)
Fixpoint read_names (l : list (option (list Z))) (k : nat) : M Z :=
  match l with
  | [] => mret 0
  | None :: _ => mret (- EFAULT)
  | Some nm :: l =>
      mod_dev (fun d => d <| predefined_ch_name ::= <[k := strscpy SPCOM_CHANNEL_NAME_SIZE nm]> |>);;
      read_names l (S k)
  end.
Definition spcom_parse_dt (dt : device_tree) : M Z :=
  if num_ch dt <? 0 then mret (num_ch dt)
  else if SPCOM_MAX_CHANNELS <? num_ch dt then mret (- EINVAL)
  else
    ret ← read_names (take (Z.to_nat (num_ch dt)) (ch_names dt)) 0;
    mret (if ret =? 0 then num_ch dt else ret).

Definition new_channel : spcom_channel :=
  mkChannel [] false 0 false false 0 None 0 false false false false false false 0 0 0 false
    (replicate (Z.to_nat SPCOM_MAX_CHANNEL_CLIENTS) 0) false 0 None 0
    (replicate (Z.to_nat SPCOM_MAX_DMA_BUF_PER_CH) (mkBuf 0 None None false 0)).
(** [kzalloc], and the first fields; the static variable is kept. *)
Definition new_device (prop : bool) (d : spcom_device) : spcom_device :=
  mkDevice true (is_predefined_created d) (replicate (Z.to_nat SPCOM_MAX_CHANNELS) [])
    (replicate (Z.to_nat SPCOM_MAX_CHANNELS) new_channel) 1 false 0 0 [] 0 0 false prop
    (replicate (Z.to_nat SPCOM_MAX_CONTROL_CHANNELS) (mkControl 0 0)) (packets d) (next_packet d).
Definition fail_while_chardev_reg : M Z := mod_dev (fun d => d <| alive := false |>);; mret (- ENODEV).
Definition fail_reg_chardev : M Z := spcom_unregister_chrdev;; fail_while_chardev_reg.
Definition default_names (d : spcom_device) : spcom_device :=
  d <| predefined_ch_name ::= fun l => <[1%nat := sp_ssr]> (<[0%nat := sp_kernel]> l) |>.
(** [dt]: the device's node in the tree, and whether it names the processor. *)
Definition spcom_probe (dt : option (device_tree * bool)) : M Z :=
  ok ← ask kzalloc;
  if negb ok then mret (- ENOMEM)
  else
    mod_drv (new_device (match dt with Some (_, prop) => prop | None => false end));;
    ok ← ask wakeup_source_register;
    if negb ok then fail_while_chardev_reg
    else
      emit (SpWakeSource true);;
      ret ← spcom_register_chardev;
      if negb (ret =? 0) then fail_while_chardev_reg
      else
        ret ← match dt with
              | Some (t, _) => spcom_parse_dt t
              | None => mod_dev default_names;; mret 0
              end;
        if ret <? 0 then fail_reg_chardev
        else
          (if match dt with Some (t, _) => boot_enabled t | None => true end
           then mod_dev (fun d => d <| subsys_req := 1 |>) else skip);;
          ret ← spcom_create_predefined_channels_chardev;
          if ret <? 0 then fail_reg_chardev else mret 0.

(** The channels up to the first free one. *)
Fixpoint remove_channels (n i : nat) : M bool :=
  match n with
  | O => mret true
  | S n =>
      c ← get_ch i;
      if len (name c) =? 0 then mret true
      else
        ret ← spcom_destroy_channel_chardev (name c);
        if negb (ret =? 0) then mret false else remove_channels n (S i)
  end.
Definition spcom_remove : M unit :=
  mod_dev (fun d => d <| remove_in_progress ::= Z.succ |>);;
  d ← get_dev;
  (if spss_rproc d then emit SpShutdown;; mod_dev (fun d => d <| spss_rproc := false |>) else skip);;
  ok ← remove_channels (Z.to_nat SPCOM_MAX_CHANNELS) 0;
  if negb ok then skip
  else
    spcom_unregister_chrdev;;
    emit (SpWakeSource false);;
    mod_dev (fun d => d <| rx_list := [] |> <| alive := false |>).
End device.
