(* ===== verification/SpcomFacts.v ===== *)
(** What every operation of [spcom.c] respects: the operations as one type, and the
    tactic that takes a relation through all of them. *)
From Stdlib Require Import Ascii String.
From S2P Require Import Prelude Bus Spcom SpcomMsg SpcomDev.
#[local] Open Scope Z_scope.
#[local] Open Scope list_scope.

(** ** The operations *)

(** What user space, the transport and the kernel ask of the driver; [private_data]
    is what [open] left in the file. *)
Inductive op :=
  | OpOpen (cur : Z) (nm : list Z)
  | OpRelease (cur : Z) (nm : list Z) (private_data : option nat)
  | OpWrite (cur : Z) (nm : list Z) (private_data : option nat) (user : list Z) (f_pos : Z)
  | OpRead (cur : Z) (nm : list Z) (private_data : option nat) (size : Z)
  | OpIoctl (cur : Z) (nm : list Z) (private_data : option nat) (cmd : Z) (arg : option (list Z)) (user : list Z)
  | OpAction (a : action)
  | OpProbe (dt : option (device_tree * bool))
  | OpRemove.

Section ops.
Context {W : Type} `{!SpcomEnv W}.
Abbreviation machine := (machine spcom_device W spcom_event).
Abbreviation M := (M machine).

Definition run_op (o : op) : M Z :=
  match o with
  | OpOpen cur nm => '(ret, _) ← spcom_device_open cur nm; mret ret
  | OpRelease cur nm pd => spcom_device_release cur nm pd
  | OpWrite cur nm pd user f_pos => spcom_device_write cur nm pd user f_pos
  | OpRead cur nm pd size => spcom_device_read cur nm pd size
  | OpIoctl cur nm pd cmd arg user => spcom_device_ioctl cur nm pd cmd arg user
  | OpAction a => run_action a;; mret 0
  | OpProbe dt => spcom_probe dt
  | OpRemove => spcom_remove;; mret 0
  end.
Definition step (m m' : machine) : Prop := ∃ o ret, run_op o m = Ret (ret, m').
(** The machine before the driver is first probed. *)
Definition unloaded (m : machine) : Prop :=
  alive (drv m) = false ∧ channels (drv m) = [] ∧ packets (drv m) = ∅ ∧ rx_list (drv m) = [].

(** A sequence of operations; the results are dropped. *)
Fixpoint run_ops (l : list op) : M unit :=
  match l with [] => skip | o :: l => run_op o;; run_ops l end.
Lemma run_ops_steps l m m' : run_ops l m = Ret (tt, m') → rtc step m m'.
Proof.
  revert m. induction l as [|o l IH]; intros m; cbn [run_ops].
  - by intros [= <-].
  - intros (ret & m1 & H1 & H2)%bind_inv. eapply rtc_l; [by exists o, ret|eauto].
Qed.

(** ** Relations that every operation respects *)

Context (R : machine → machine → Prop) `{!PreOrder R}.

(** The loops, from what their bodies do. *)
Lemma respects_unlock_handles i n k :
  (∀ k, respects R (get_buf i k)) → (∀ k, respects R (spcom_dmabuf_unlock i k false 0)) →
  respects R (unlock_handles i n k).
Proof. intros Hg Hu. revert k. induction n; intros k; cbn [unlock_handles]; resp; auto. Qed.
Lemma respects_rx_loop n :
  respects R get_dev → respects R (mod_dev (fun d => d <| rx_list ::= fun l => removelast l |>)) →
  (∀ item, respects R (deliver item)) → respects R (rx_loop n).
Proof. intros Hg Hm Hd. induction n; cbn [rx_loop]; resp; auto. Qed.
Lemma respects_release_from n i p :
  (∀ i, respects R (release_channel i p)) → respects R (release_from n i p).
Proof. intros H. revert i. induction n; intros i; cbn [release_from]; resp; auto. Qed.
Lemma respects_run_actions l : (∀ a, respects R (run_action a)) → respects R (run_actions l).
Proof. intros H. induction l; cbn [run_actions]; resp; auto. Qed.
Lemma respects_modify_all i failed info buf :
  (∀ buf f o, respects R (modify_dma_buf_addr i buf f o)) → respects R (modify_all i failed info buf).
Proof.
  intros H. revert buf. induction info as [|[f o] info IH]; intros buf; cbn [modify_all]; resp; auto.
Qed.
Lemma respects_unlock_all cur i n k found :
  (∀ k, respects R (spcom_dmabuf_unlock i k true cur)) → respects R (unlock_all cur i n k found).
Proof. intros H. revert k found. induction n; intros k found; cbn [unlock_all]; resp; auto. Qed.
Lemma respects_tx_loop n i tx limit time :
  (∀ A (f : W → A * W), respects R (ask f)) → (∀ ret, respects R (emit (SpSend i tx ret))) →
  respects R (emit SpSleep) → respects R (get_ch i) → respects R (mutex_lock i) →
  respects R (mutex_unlock i) → respects R meanwhile → respects R (tx_loop n i tx limit time).
Proof.
  intros Ha He Hs Hg Hl Hu Hm. revert time. induction n; intros time; cbn [tx_loop]; resp; auto.
Qed.
Lemma respects_destroy_channels l :
  (∀ nm, respects R (spcom_destroy_channel_chardev nm)) → respects R (destroy_channels l).
Proof. intros H. induction l; cbn [destroy_channels]; resp; auto. Qed.
Lemma respects_create_channels old l :
  (∀ nm, respects R (spcom_create_channel_chardev nm false)) →
  (∀ nm, respects R (spcom_destroy_channel_chardev nm)) → respects R (create_channels old l).
Proof.
  intros Hc Hd. revert old. induction l; intros old; cbn [create_channels]; resp; auto.
  by apply respects_destroy_channels.
Qed.
Lemma respects_read_names l k :
  (∀ k nm, respects R (mod_dev (fun d => d <| predefined_ch_name ::= <[k := strscpy SPCOM_CHANNEL_NAME_SIZE nm]> |>))) →
  respects R (read_names l k).
Proof. intros H. revert k. induction l as [|[nm|] l IH]; intros k; cbn [read_names]; resp; auto. Qed.
Lemma respects_remove_channels n i :
  (∀ i, respects R (get_ch i)) → (∀ nm, respects R (spcom_destroy_channel_chardev nm)) →
  respects R (remove_channels n i).
Proof. intros Hg Hd. revert i. induction n; intros i; cbn [remove_channels]; resp; auto. Qed.
End ops.

(** ** Going through the operations

    [resp_deep tac] opens an operation down to its atomic steps: hints first, then
    structure, then [tac] for the atomic steps, then definitions. *)
Section reads.
Context {W : Type} `{!SpcomEnv W}.
Context (R : machine spcom_device W spcom_event → machine spcom_device W spcom_event → Prop) `{!PreOrder R}.
Lemma respects_get_dev : respects R get_dev.
Proof. unfold get_dev, get_drv. resp. Qed.
Lemma respects_get_ch i : respects R (get_ch i).
Proof. unfold get_ch. apply respects_bind; [typeclasses eauto|apply respects_get_dev|resp]. Qed.
Lemma respects_get_buf i k : respects R (get_buf i k).
Proof. unfold get_buf. apply respects_bind; [typeclasses eauto|apply respects_get_ch|resp]. Qed.
Lemma respects_get_packet p : respects R (get_packet p).
Proof. unfold get_packet. apply respects_bind; [typeclasses eauto|apply respects_get_dev|resp]. Qed.
Lemma respects_find nm : respects R (spcom_find_channel_by_name nm).
Proof. unfold spcom_find_channel_by_name. apply respects_bind; [typeclasses eauto|apply respects_get_dev|resp]. Qed.
Lemma respects_packet_txn p : respects R (packet_txn p).
Proof. unfold packet_txn. apply respects_bind; [typeclasses eauto|apply respects_get_packet|resp]. Qed.
End reads.
#[export] Hint Extern 1 (PreOrder _) => typeclasses eauto : resp.
#[export] Hint Resolve respects_get_dev respects_get_ch respects_get_buf respects_get_packet respects_find
  respects_packet_txn : resp.

Ltac resp_open :=
  lazymatch goal with
  | |- respects _ (mod_dev _) => fail
  | |- respects _ (mod_ch _ _) => fail
  | |- respects _ (mod_buf _ _ _) => fail
  | |- respects _ (mod_drv _) => fail
  | |- respects _ (emit _) => fail
  | |- respects _ (ask _) => fail
  | |- respects _ (unlock_handles _ _ _) => apply respects_unlock_handles
  | |- respects _ (rx_loop _) => apply respects_rx_loop
  | |- respects _ (release_from _ _ _) => apply respects_release_from
  | |- respects _ (run_actions _) => apply respects_run_actions
  | |- respects _ (modify_all _ _ _ _) => apply respects_modify_all
  | |- respects _ (unlock_all _ _ _ _ _) => apply respects_unlock_all
  | |- respects _ (tx_loop _ _ _ _ _) => apply respects_tx_loop
  | |- respects _ (destroy_channels _) => apply respects_destroy_channels
  | |- respects _ (create_channels _ _) => apply respects_create_channels
  | |- respects _ (read_names _ _) => apply respects_read_names
  | |- respects _ (remove_channels _ _) => apply respects_remove_channels
  | |- respects _ ?c => let h := term_head c in unfold h; cbv beta iota zeta
  end.
Ltac resp_deep tac := repeat first [ solve [eauto 2 with resp] | resp_step | solve [tac] | resp_open ].

(** *** Runs of the reads *)

Section runs.
Context {W : Type} `{!SpcomEnv W}.
Abbreviation machine := (machine spcom_device W spcom_event).
Lemma get_dev_run (m : machine) : get_dev m = if alive (drv m) then Ret (drv m, m) else Fault.
Proof. unfold get_dev, get_drv, mbind, M_bind, gets. by destruct (alive (drv m)). Qed.
Lemma get_dev_inv (m : machine) d m' : get_dev m = Ret (d, m') → m' = m ∧ d = drv m ∧ alive (drv m) = true.
Proof. rewrite get_dev_run. destruct (alive _); [|done]. by intros [= -> ->]. Qed.
Lemma get_ch_run (m : machine) i c :
  alive (drv m) = true → channels (drv m) !! i = Some c → get_ch i m = Ret (c, m).
Proof. intros Ha Hc. unfold get_ch. erewrite bind_ret by (rewrite get_dev_run, Ha; reflexivity). by rewrite Hc. Qed.
Lemma get_ch_inv (m : machine) i c m' :
  get_ch i m = Ret (c, m') → m' = m ∧ alive (drv m) = true ∧ channels (drv m) !! i = Some c.
Proof.
  intros (d & m1 & E & H)%bind_inv. apply get_dev_inv in E as (-> & -> & Ha).
  destruct (channels (drv m) !! i); [|done]. by injection H as -> ->.
Qed.
End runs.

(** *** Invariants of the device *)

Section keeps.
Context {W : Type} `{!SpcomEnv W} (I : spcom_device → Prop).
Abbreviation machine := (machine spcom_device W spcom_event).
Definition keeps (m m' : machine) : Prop := I (drv m) → I (drv m').
#[export] Instance keeps_pre : PreOrder keeps.
Proof. split; unfold keeps; [by intros m|intros m1 m2 m3; auto]. Qed.
Lemma keeps_ask {A} (f : W → A * W) : respects keeps (ask f).
Proof. intros [d w l] a m' H. rewrite ask_ret in H. injection H as <- <-. by unfold keeps. Qed.
Lemma keeps_emit e : respects keeps (emit e).
Proof. intros [d w l] a m' [= <- <-]. by unfold keeps. Qed.
Lemma keeps_mod_drv f : (∀ d, I d → I (f d)) → respects keeps (mod_drv f).
Proof. intros H [d w l] a m' [= <- <-]. exact (H d). Qed.
Lemma keeps_mod_dev f : (∀ d, alive d = true → I d → I (f d)) → respects keeps (mod_dev f).
Proof.
  intros H m a m' (d1 & m1 & E1 & E2)%bind_inv. apply get_dev_inv in E1 as (-> & -> & E).
  injection E2 as <- <-.
  unfold keeps. cbn in *. auto.
Qed.
Lemma keeps_mod_ch i f :
  (∀ d c, channels d !! i = Some c → I d → I (d <| channels ::= alter f i |>)) → respects keeps (mod_ch i f).
Proof.
  intros H [d w l] a m' (c & m1 & E1 & [= <- <-])%bind_inv. apply get_ch_inv in E1 as (-> & _ & E).
  unfold keeps. cbn in *. eauto.
Qed.
Lemma keeps_and (J : spcom_device → Prop) {A} (c : M machine A) :
  respects keeps c → respects (fun m m' => J (drv m) → J (drv m')) c →
  respects (fun m m' => I (drv m) ∧ J (drv m) → I (drv m') ∧ J (drv m')) c.
Proof. intros H1 H2 m a m' Hc [HI HJ]. split; [by apply (H1 _ _ _ Hc)|by apply (H2 _ _ _ Hc)]. Qed.
Lemma keeps_mod_buf i k f :
  respects keeps (mod_ch i (fun c => c <| dmabuf_array ::= alter f k |>)) → respects keeps (mod_buf i k f).
Proof. intros H. unfold mod_buf. by resp. Qed.
End keeps.
#[export] Hint Resolve keeps_ask keeps_emit : resp.
(** A run of code that keeps an invariant. *)
Ltac by_keeps I :=
  match goal with |- ?c ?m = _ → _ =>
    let H := fresh in enough (respects (keeps I) c) as H by apply H end.

(** *** Invariants of every channel *)

Lemma first_index_Some {A} (P : A → bool) l i :
  first_index P l = Some i → ∃ x, l !! i = Some x ∧ P x = true ∧ ∀ j y, (j < i)%nat → l !! j = Some y → P y = false.
Proof.
  revert i. induction l as [|x l IH]; intros i; cbn; [done|]. destruct (P x) eqn:E.
  - intros [= <-]. exists x. split_and!; [done..|]. intros j y Hj. lia.
  - destruct (first_index P l) as [k|]; [|done]. intros [= <-].
    destruct (IH k eq_refl) as (y & H1 & H2 & H3). exists y. split_and!; [done..|].
    intros [|j] z Hj; cbn; [by intros [= <-]|]. apply H3. lia.
Qed.
Lemma first_index_None {A} (P : A → bool) l i x :
  first_index P l = None → l !! i = Some x → P x = false.
Proof.
  revert i. induction l as [|y l IH]; intros i; cbn; [done|]. destruct (P y) eqn:E; [done|].
  destruct (first_index P l); [done|]. intros _. destruct i as [|i]; [by intros [= <-]|by apply IH].
Qed.

Lemma Forall_removelast {A} (P : A → Prop) l : Forall P l → Forall P (removelast l).
Proof. induction 1 as [|x [|y l] Hx Hl IH]; cbn in *; auto. Qed.

Section each.
Context {W : Type} `{!SpcomEnv W}.
Abbreviation machine := (machine spcom_device W spcom_event).

(** Code that leads from one assertion on the device to another. *)
Definition leads {A} (I : spcom_device → Prop) (c : M machine A) (J : spcom_device → Prop) : Prop :=
  ∀ m a m', c m = Ret (a, m') → I (drv m) → J (drv m').
Lemma leads_bind {A B} (I K J : spcom_device → Prop) (c : M machine A) (f : A → M machine B) :
  leads I c K → (∀ a, leads K (f a) J) → leads I (c ≫= f) J.
Proof. intros H1 H2 m b m' (a & m1 & E1 & E2)%bind_inv HI. eapply H2; [exact E2|by eapply H1]. Qed.

Definition each (Q : nat → spcom_channel → Prop) (d : spcom_device) : Prop :=
  ∀ i c, channels d !! i = Some c → Q i c.
Lemma each_alter Q R i f d :
  (∀ c, Q i c → R i (f c)) → (∀ j c, j ≠ i → Q j c → R j c) → each Q d →
  each R (d <| channels ::= alter f i |>).
Proof.
  intros Hf Hn H j c. cbn. destruct (decide (j = i)) as [-> | Hj].
  - rewrite list_lookup_alter_eq. destruct (channels d !! i) as [c0|] eqn:E; cbn; [|done].
    intros [= <-]. eauto.
  - rewrite list_lookup_alter_ne by done. eauto.
Qed.
Lemma each_mod_ch Q i f : (∀ c, Q i c → Q i (f c)) → respects (keeps (W := W) (each Q)) (mod_ch i f).
Proof. intros H. apply keeps_mod_ch. intros d c _ Hd. by eapply each_alter. Qed.
Lemma each_mod_dev Q f :
  (∀ d, channels (f d) = channels d) → respects (keeps (W := W) (each Q)) (mod_dev f).
Proof. intros H. apply keeps_mod_dev. intros d _ Hd i c. rewrite H. apply Hd. Qed.
Lemma each_new_device Q prop :
  (∀ i, Q i new_channel) → respects (keeps (W := W) (each Q)) (mod_drv (new_device prop)).
Proof.
  intros H. apply keeps_mod_drv. intros d _ i c Hc. cbn [channels new_device] in Hc.
  by apply lookup_replicate in Hc as [-> _].
Qed.
Lemma leads_mod_ch Q R i f :
  (∀ c, Q i c → R i (f c)) → (∀ j c, j ≠ i → Q j c → R j c) → leads (each Q) (mod_ch i f) (each R).
Proof.
  intros Hf Hn m a m' (c & m1 & E1 & E2)%bind_inv HI. apply get_ch_inv in E1 as (-> & _ & _).
  injection E2 as <- <-. by eapply each_alter.
Qed.
Lemma leads_skip I J a : (∀ d, I d → J d) → leads I (mret (M := M machine) (A := unit) a) J.
Proof. intros H m x m' [= <- <-]. apply H. Qed.

Lemma find_inv nm (m m' : machine) r :
  spcom_find_channel_by_name nm m = Ret (r, m') →
  m' = m ∧ r = first_index (fun c => name_eqb (name c) nm) (channels (drv m)).
Proof.
  intros (d & m1 & E & H)%bind_inv. apply get_dev_inv in E as (-> & -> & _). by injection H as <- <-.
Qed.
Lemma name_eqb_eq a b : name_eqb a b = true → a = b.
Proof. apply bool_decide_eq_true_1. Qed.

Lemma valid_name raw : is_valid_ch_name raw = true → cstr raw ≠ [].
Proof. unfold is_valid_ch_name. by destruct (cstr raw). Qed.
(** A channel in use is not initialised again: its name is not empty. *)
Definition named (i : nat) (s : bool) (j : nat) (c : spcom_channel) : Prop :=
  j = i → name c ≠ [] ∧ is_sharable c = s.
End each.
#[export] Hint Extern 2 (respects (keeps (each _)) (mod_dev _)) => apply each_mod_dev; reflexivity : resp.
(** An update of the fields the property does not read. *)
Ltac solve_each :=
  try apply keeps_mod_buf; apply each_mod_ch; let H := fresh in intros ? H; first [exact H | reflexivity | done].

(** A property of channel [i] that says it is in use survives the creation of others. *)
Section created.
Context {W : Type} `{!SpcomEnv W} (i : nat) (Q : nat → spcom_channel → Prop).
Hypothesis Hin : ∀ c, Q i c → name c ≠ [].
Hypothesis Hother : ∀ j c, j ≠ i → Q j c.
Abbreviation ok := (respects (keeps (W := W) (each Q))).
Lemma created_keeps raw sh : ok (spcom_create_channel raw sh).
Proof.
  intros m a m' (d & m1 & E & H)%bind_inv HI. apply get_dev_inv in E as (-> & -> & Ha).
  destruct (negb (is_valid_ch_name raw)); [by injection H as <- <-|].
  destruct (is_control_channel_name raw); [by injection H as <- <-|].
  apply bind_inv in H as (r & m2 & E & H). apply find_inv in E as [-> ->].
  destruct (first_index _ _) as [k|].
  { revert H HI. match goal with |- ?c m = _ → _ => enough (ok c) as Hc by apply Hc end. resp. }
  apply bind_inv in H as (r & m2 & E & H). apply find_inv in E as [-> ->].
  destruct (first_index _ _) as [k|] eqn:Ek; [|by injection H as <- <-].
  apply first_index_Some in Ek as (c & Hc & En%name_eqb_eq & _).
  assert (k ≠ i) as Hk by (intros ->; by apply (Hin c); [apply HI|]).
  revert H HI. match goal with |- ?c m = _ → _ => enough (ok c) as Hi by apply Hi end.
  unfold spcom_init_channel. resp. apply each_mod_ch. auto.
Qed.
End created.
Section named.
Context {W : Type} `{!SpcomEnv W} (i : nat) (s : bool).
Abbreviation ok := (respects (keeps (W := W) (each (named i s)))).
Lemma named_create raw sh : ok (spcom_create_channel raw sh).
Proof. apply created_keeps with i; [intros c H; by destruct (H eq_refl)|by intros j c Hj ?]. Qed.
Hint Resolve named_create : resp.
Lemma named_meanwhile : ok meanwhile.
Proof. resp_deep solve_each. Qed.
End named.

(** ** A simple world

    Every call succeeds, a sent message is taken at the first try, a driver finds its
    device waiting; the world is what others do in each wait to come. *)
Definition sim {W} (oth : W → list action * W) : SpcomEnv W := {|
  others := oth;
  kzalloc w := (true, w); copy_from_user w := (true, w); copy_to_user w := (true, w);
  put_user w := (true, w); wait_for_completion_interruptible _ w := (1, w);
  rpmsg_trysend _ w := (0, w); register_rpmsg_driver _ w := ((0, true), w); ioremap w := (true, w);
  dma_buf_get h w := (Some h, w); dma_buf_attach _ w := (1, w); dma_buf_map_attachment _ w := (1, w);
  sg_address h w := (Some (4096 * h), w); fget _ w := (None, w); get_rproc _ w := (true, w);
  rproc_boot w := (0, w); device_create w := (true, w); cdev_add w := (0, w);
  alloc_chrdev_region w := (0, w); class_create w := (true, w); wakeup_source_register w := (true, w)
|}.
#[export] Instance sim_env : SpcomEnv (list (list action)) :=
  sim (fun w => match w with [] => ([], []) | l :: w => (l, w) end).
Definition unloaded_device : spcom_device :=
  mkDevice false false [] [] 0 false 0 0 [] 0 0 false false [] ∅ 1.
(** A name as user space passes it, and a command. *)
Definition raw_name (s : string) : list Z := let l := str s in l ++ replicate (32 - List.length l) 0.
Definition send_command (payload : list Z) : list Z :=
  bytes32 SPCOM_CMD_SEND ++ bytes32 1000 ++ bytes32 (len payload) ++ payload.
