(* ===== verification/SpcomClients.v ===== *)
(** [spcom.c]: the clients of a channel.  [pid] is the table of the processes that
    use it, [num_clients] their number, [is_busy] says that there is no room. *)
From Stdlib Require Import Ascii String.
From S2P Require Import Prelude Bus Spcom SpcomMsg SpcomDev SpcomFacts.
#[local] Open Scope Z_scope.
#[local] Open Scope list_scope.

(** ** The table *)

(** The entries in use. *)
Definition in_use (l : list Z) : list Z := List.filter (fun p => negb (p =? 0)) l.
Definition clients (c : spcom_channel) : list Z := in_use (pid c).
(** How many there may be. *)
Definition limit (c : spcom_channel) : Z := if is_sharable c then SPCOM_MAX_CHANNEL_CLIENTS else 1.

Record table_ok (c : spcom_channel) : Prop := {
  tab_length : List.length (pid c) = Z.to_nat SPCOM_MAX_CHANNEL_CLIENTS;
  tab_max : name c ≠ [] → max_clients c = limit c;
  tab_count : num_clients c = len (clients c);
  tab_nodup : NoDup (clients c);
  tab_single : is_sharable c = false → Forall (eq 0) (drop 1 (pid c));
  tab_busy : is_busy c = (limit c <=? num_clients c)
}.
Abbreviation tables := (each (fun _ => table_ok)).

Lemma in_use_insert k p q l :
  l !! k = Some p → in_use (<[k := q]> l)
  = in_use (take k l) ++ (if q =? 0 then [] else [q]) ++ in_use (drop (S k) l).
Proof.
  intros Hk. rewrite insert_take_drop by (by eapply lookup_lt_Some).
  unfold in_use. rewrite List.filter_app. cbn. by destruct (q =? 0).
Qed.
Lemma in_use_split k p l :
  l !! k = Some p → in_use l = in_use (take k l) ++ (if p =? 0 then [] else [p]) ++ in_use (drop (S k) l).
Proof. intros Hk. rewrite <- (list_insert_id l k p Hk) at 1. by apply (in_use_insert k p p). Qed.
(** A process takes a free entry, or leaves its own. *)
Lemma in_use_take k p l : l !! k = Some 0 → p ≠ 0 → in_use (<[k := p]> l) ≡ₚ p :: in_use l.
Proof.
  intros Hk Hp. rewrite (in_use_insert k 0 p l Hk), (in_use_split k 0 l Hk).
  rewrite (proj2 (Z.eqb_neq p 0)) by done. cbn. by rewrite Permutation_middle.
Qed.
Lemma in_use_leave k p l : l !! k = Some p → p ≠ 0 → in_use l ≡ₚ p :: in_use (<[k := 0]> l).
Proof.
  intros Hk Hp. rewrite (in_use_insert k p 0 l Hk), (in_use_split k p l Hk).
  rewrite (proj2 (Z.eqb_neq p 0)) by done. cbn. by rewrite Permutation_middle.
Qed.
Lemma elem_of_in_use p l : p ∈ in_use l ↔ p ∈ l ∧ p ≠ 0.
Proof.
  unfold in_use. rewrite !list_elem_of_In, List.filter_In. destruct (Z.eqb_spec p 0); cbn.
  - split; intros [??]; done.
  - split; intros [??]; done.
Qed.
Lemma in_use_full l : 0 ∉ l → in_use l = l.
Proof.
  induction l as [|p l IH]; [done|]. intros H. apply not_elem_of_cons in H as [Hp H]. cbn.
  rewrite (proj2 (Z.eqb_neq p 0)) by done. cbn. f_equal. by apply IH.
Qed.
Lemma in_use_zeros l : Forall (eq 0) l → in_use l = [].
Proof. induction 1 as [|p l <- _ IH]; [done|exact IH]. Qed.

Lemma pid_index_Some c n p k : pid_index c n p = Some k → pid c !! k = Some p ∧ (k < Z.to_nat n)%nat.
Proof.
  intros (x & Hx & He%Z.eqb_eq & _)%first_index_Some. subst x.
  apply lookup_take_Some in Hx as [? ?]. done.
Qed.
Lemma pid_index_None c n p :
  pid_index c n p = None → (List.length (pid c) <= Z.to_nat n)%nat → p ∉ pid c.
Proof.
  intros H Hn Hp. apply list_elem_of_lookup in Hp as [k Hk].
  assert (take (Z.to_nat n) (pid c) !! k = Some p) as Ht.
  { rewrite lookup_take_lt; [done|]. apply lookup_lt_Some in Hk. lia. }
  pose proof (first_index_None _ _ _ _ H Ht) as E. by rewrite Z.eqb_refl in E.
Qed.

Section table.
Context (c : spcom_channel) (Hc : table_ok c).
Lemma len_clients : 0 <= num_clients c.
Proof. rewrite (tab_count c Hc). unfold len. lia. Qed.
Lemma count_limit : num_clients c <= limit c.
Proof.
  rewrite (tab_count c Hc). unfold limit, clients, len. destruct (is_sharable c) eqn:E.
  - assert (List.length (in_use (pid c)) <= List.length (pid c))%nat as H by apply List.filter_length_le.
    rewrite (tab_length c Hc) in H. unfold SPCOM_MAX_CHANNEL_CLIENTS in *. lia.
  - pose proof (tab_single c Hc E) as H. pose proof (tab_length c Hc) as Hl.
    destruct (pid c) as [|p l]; [done|]. cbn [drop] in H. cbn. rewrite drop_0 in H. apply in_use_zeros in H.
    unfold in_use in *. rewrite H. destruct (p =? 0); cbn; lia.
Qed.
(** There is room: a free entry, the first one of a channel that is not shared. *)
Lemma room : is_busy c = false → ∃ k, pid_index c SPCOM_MAX_CHANNEL_CLIENTS 0 = Some k.
Proof.
  intros Hb. destruct (pid_index c SPCOM_MAX_CHANNEL_CLIENTS 0) as [k|] eqn:E; [by exists k|].
  apply pid_index_None in E; [|by rewrite (tab_length c Hc)].
  rewrite (tab_busy c Hc), (tab_count c Hc) in Hb. unfold clients in Hb. rewrite in_use_full in Hb by done.
  unfold len in Hb. rewrite (tab_length c Hc) in Hb. unfold limit in Hb. by destruct (is_sharable c).
Qed.
Lemma alone : is_busy c = false → is_sharable c = false → clients c = [] ∧ pid c !! 0%nat = Some 0.
Proof.
  intros Hb Hs. rewrite (tab_busy c Hc), (tab_count c Hc) in Hb. unfold limit, len in Hb. rewrite Hs in Hb.
  apply Z.leb_gt in Hb. destruct (clients c) as [|q l] eqn:E; [|cbn in Hb; lia]. split; [done|].
  unfold clients in E. pose proof (tab_length c Hc) as Hl. destruct (pid c) as [|p l]; [done|]. cbn in *.
  destruct (Z.eqb_spec p 0) as [->|]; [done|]. done.
Qed.
(** Where a new client goes. *)
Lemma free_entry cur :
  cur ≠ 0 → is_busy c = false → pid_index c (limit c) cur = None →
  let k := if is_sharable c then default (Z.to_nat (limit c)) (pid_index c (limit c) 0) else 0%nat in
  pid c !! k = Some 0 ∧ (is_sharable c = false → k = 0%nat) ∧ cur ∉ pid c.
Proof.
  intros Hcur Hb Hn. cbv zeta. unfold limit in *. destruct (is_sharable c) eqn:E.
  - destruct (room Hb) as [k Hk]. rewrite Hk. cbn [default]. split; [by apply pid_index_Some in Hk as [? _]|].
    split; [done|]. apply pid_index_None in Hn; [done|]. by rewrite (tab_length c Hc).
  - destruct (alone Hb E) as [H1 H2]. split; [done|]. split; [done|]. intros Hin.
    apply (elem_of_nil cur). rewrite <- H1. apply elem_of_in_use. done.
Qed.
End table.

(** A channel that differs in its table only. *)
Record changed (l : list Z) (n : Z) (b : bool) (c c' : spcom_channel) : Prop := {
  same_name : name c' = name c;
  same_shared : is_sharable c' = is_sharable c;
  same_max : max_clients c' = max_clients c;
  new_pid : pid c' = l;
  new_num : num_clients c' = n;
  new_busy : is_busy c' = b
}.
Lemma joins k p c c' :
  table_ok c → is_busy c = false → pid c !! k = Some 0 → (is_sharable c = false → k = 0%nat) →
  p ≠ 0 → p ∉ pid c →
  changed (<[k := p]> (pid c)) (num_clients c + 1) (limit c <=? num_clients c + 1) c c' → table_ok c'.
Proof.
  intros Hc Hb Hk Hs Hp Hn [En Es Em Ep Ec Eb].
  pose proof (in_use_take k p (pid c) Hk Hp) as HP.
  assert (limit c' = limit c) as El by (unfold limit; by rewrite Es). split.
  - rewrite Ep, length_insert. apply Hc.
  - rewrite En, Em, El. apply Hc.
  - rewrite Ec, (tab_count c Hc). unfold clients, len. rewrite Ep, HP. cbn. lia.
  - unfold clients. rewrite Ep, HP. constructor; [|apply Hc]. by rewrite elem_of_in_use; intros [? _].
  - rewrite Es, Ep. intros E. rewrite (Hs E). pose proof (tab_single c Hc E) as H.
    destruct (pid c) as [|q l]; [done|]. exact H.
  - by rewrite Eb, Ec, El.
Qed.
Lemma leaves k p c c' :
  table_ok c → pid c !! k = Some p → p ≠ 0 →
  changed (<[k := 0]> (pid c)) (num_clients c - 1) false c c' → table_ok c'.
Proof.
  intros Hc Hk Hp [En Es Em Ep Ec Eb].
  pose proof (in_use_leave k p (pid c) Hk Hp) as HP. pose proof (count_limit c Hc) as Hl.
  assert (limit c' = limit c) as El by (unfold limit; by rewrite Es). split.
  - rewrite Ep, length_insert. apply Hc.
  - rewrite En, Em, El. apply Hc.
  - rewrite Ec, (tab_count c Hc). unfold clients, len. rewrite Ep, HP. cbn. lia.
  - pose proof (tab_nodup c Hc) as Hn. unfold clients in *. rewrite Ep. rewrite HP in Hn. by inversion Hn.
  - rewrite Es, Ep. intros E. pose proof (tab_single c Hc E) as H.
    destruct (pid c) as [|q l]; [done|]. destruct k as [|k]; [exact H|]. cbn in *. rewrite !drop_0 in *.
    by apply Forall_insert.
  - rewrite Eb, Ec, El. symmetry. apply Z.leb_gt. lia.
Qed.
(** Who is in the table is counted. *)
Lemma counted c k p : table_ok c → pid c !! k = Some p → p ≠ 0 → 1 <= num_clients c.
Proof.
  intros Hc Hk Hp. rewrite (tab_count c Hc). unfold len, clients.
  rewrite (in_use_leave k p (pid c) Hk Hp). cbn. lia.
Qed.

(** ** The operations *)

Section clients.
Context {W : Type} `{!SpcomEnv W}.
Abbreviation machine := (machine spcom_device W spcom_event).
Abbreviation ok := (respects (keeps (W := W) tables)).
Ltac solve_table :=
  try apply keeps_mod_buf; apply each_mod_ch; let Hc := fresh in intros ? Hc;
  destruct Hc; split; done.

(** A step that is known to change channel [i] alone. *)
Definition moves (i : nat) (c c' : spcom_channel) (m m' : machine) : Prop :=
  channels (drv m) !! i = Some c ∧ channels (drv m') !! i = Some c'
  ∧ ∀ j, j ≠ i → channels (drv m') !! j = channels (drv m) !! j.
Lemma moves_trans i c1 c2 c3 (m1 m2 m3 : machine) :
  moves i c1 c2 m1 m2 → moves i c2 c3 m2 m3 → moves i c1 c3 m1 m3.
Proof. intros (A1 & A2 & A3) (B1 & B2 & B3). split_and!; [done..|]. intros j Hj. by rewrite B3, A3. Qed.
Lemma mod_ch_inv i f (m m' : machine) u :
  mod_ch i f m = Ret (u, m') → ∃ c, moves i c (f c) m m'.
Proof.
  intros (c & m1 & E & [= _ <-])%bind_inv. apply get_ch_inv in E as (-> & _ & Hc). exists c.
  split; [done|]. cbn. split; [by rewrite list_lookup_alter_eq, Hc|].
  intros j Hj. by rewrite list_lookup_alter_ne.
Qed.
Lemma mod_ch_moves i f (m m' : machine) u c :
  channels (drv m) !! i = Some c → mod_ch i f m = Ret (u, m') → moves i c (f c) m m'.
Proof. intros Hc (c1 & H)%mod_ch_inv. destruct H as (Hc1 & ?). rewrite Hc in Hc1. by injection Hc1 as <-. Qed.
Lemma set_pid_moves i k p (m m' : machine) u c :
  channels (drv m) !! i = Some c → set_pid i k p m = Ret (u, m') →
  moves i c (c <| pid ::= <[k := p]> |>) m m'.
Proof.
  intros Hc (c1 & m1 & E & H)%bind_inv. apply get_ch_inv in E as (-> & _ & _).
  destruct (_ <? _)%nat; [|done]. by apply (mod_ch_moves _ _ _ _ _ _ Hc) in H.
Qed.
Lemma lock_moves i (m m' : machine) u c :
  channels (drv m) !! i = Some c → mutex_lock i m = Ret (u, m') → moves i c (c <| lock := true |>) m m'.
Proof.
  intros Hc (c1 & m1 & E & H)%bind_inv. apply get_ch_inv in E as (-> & _ & _).
  destruct (lock c1); [done|]. by apply (mod_ch_moves _ _ _ _ _ _ Hc) in H.
Qed.
Lemma end_moves i (b : bool) (m m' : machine) u c :
  channels (drv m) !! i = Some c → (if b then end_transaction i else skip) m = Ret (u, m') →
  moves i c (if b then c <| active_pid := 0 |> <| sync := false |> else c) m m'.
Proof.
  destruct b; intros Hc H; [by apply (mod_ch_moves _ _ _ _ _ _ Hc) in H|]. injection H as _ <-. by split.
Qed.
Lemma moves_tables i c c' (m m' : machine) :
  moves i c c' m m' → (table_ok c → table_ok c') → tables (drv m) → tables (drv m').
Proof.
  intros (H1 & H2 & H3) Hc HT j d. destruct (decide (j = i)) as [->|Hj].
  - rewrite H2. intros [= <-]. apply Hc. by eapply HT.
  - rewrite H3 by done. apply HT.
Qed.
(** The next step of a run that has changed channel [i] to what [Hm] says. *)
Tactic Notation "follow" uconstr(L) :=
  lazymatch goal with
  | Hm : moves ?i ?c0 ?c ?m0 ?m1, H : (_ ≫= _) ?m1 = Ret _ |- _ =>
      let E := fresh "E" in let Hm' := fresh in let Hc := fresh in
      apply bind_inv in H as (? & ? & E & H);
      pose proof (proj1 (proj2 Hm)) as Hc;
      epose proof (L Hc E) as Hm'; clear E Hc;
      pose proof (moves_trans _ _ _ _ _ _ _ Hm Hm') as E; clear Hm Hm'; rename E into Hm
  end.
Ltac follow_get :=
  lazymatch goal with
  | Hm : moves ?i ?c0 ?c ?m0 ?m1, H : (_ ≫= _) ?m1 = Ret _ |- _ =>
      let E := fresh "E" in let d := fresh in
      apply bind_inv in H as (d & ? & E & H); apply get_ch_inv in E as (-> & _ & E);
      rewrite (proj1 (proj2 Hm)) in E; injection E as <-
  end.
Lemma moves_refl i (m : machine) c : channels (drv m) !! i = Some c → moves i c c m m.
Proof. by split. Qed.
Arguments lock_moves {i m m' u c}.
Arguments mod_ch_moves {i f m m' u c}.
Arguments set_pid_moves {i k p m m' u c}.
Arguments end_moves {i b m m' u c}.
(** A process registers with a channel in use. *)
Lemma register_moves i cur (m m' : machine) ret c :
  cur ≠ 0 → channels (drv m) !! i = Some c → table_ok c → max_clients c = limit c →
  spcom_register_channel cur i m = Ret (ret, m') → ∃ c', moves i c c' m m' ∧ table_ok c'.
Proof.
  intros Hcur Hc HT Hmax H. pose proof (moves_refl i m c Hc) as Hm. unfold spcom_register_channel in H.
  follow lock_moves. follow_get. cbn [is_busy is_sharable max_clients over_field] in H.
  change (pid_index (c <| lock := true |>)) with (pid_index c) in H. rewrite Hmax in H.
  destruct (is_busy c) eqn:Hb.
  { follow mod_ch_moves. injection H as _ <-. eexists. split; [exact Hm|]. destruct HT. split; done. }
  destruct (bool_decide _) eqn:Hd.
  { follow mod_ch_moves. injection H as _ <-. eexists. split; [exact Hm|]. destruct HT. split; done. }
  apply bool_decide_eq_false in Hd. apply dec_stable in Hd.
  pose proof (len_clients c HT) as H0. pose proof (count_limit c HT) as H5.
  pose proof (free_entry c HT cur Hcur Hb Hd) as (Hk & Hs & Hn).
  set (k := if is_sharable c then _ else _) in *.
  follow set_pid_moves. follow mod_ch_moves. follow mod_ch_moves. injection H as _ <-.
  eexists. split; [exact Hm|]. cbn [num_clients over_field].
  assert (u8 (num_clients c + 1) = num_clients c + 1) as Hu.
  { apply Z.mod_small. unfold limit, SPCOM_MAX_CHANNEL_CLIENTS in H5. destruct (is_sharable c); lia. }
  apply (joins k cur c); try done. split; try done. cbn [is_busy max_clients num_clients over_field].
  rewrite Hu, Hmax. pose proof (tab_busy c HT) as Hbz. rewrite Hb in Hbz. symmetry in Hbz. apply Z.leb_gt in Hbz.
  destruct (Z.eqb_spec (num_clients c + 1) (limit c)); symmetry; [apply Z.leb_le|apply Z.leb_gt]; lia.
Qed.
Ltac rest_ok := match goal with |- ?c ?m = _ → _ => let H := fresh in enough (ok c) as H by apply H end.
Lemma tables_deinit i p : p ≠ 0 → ok (spcom_channel_deinit_locked i p).
Proof.
  intros Hp m a m' (c & m1 & E & H)%bind_inv HI. apply get_ch_inv in E as (-> & _ & Hc).
  destruct (negb _); [by injection H as <- <-|].
  destruct (pid_index c (max_clients c) p) as [k|] eqn:Ek; [|by injection H as <- <-].
  apply pid_index_Some in Ek as [Hk _]. pose proof (HI _ _ Hc) as HT. pose proof (moves_refl i m c Hc) as Hm.
  follow set_pid_moves. follow end_moves. follow mod_ch_moves.
  match type of Hm with moves _ _ _ _ ?m1 => assert (tables (drv m1)) as HI1 end.
  { apply (moves_tables _ _ _ _ _ Hm); [|done]. intros _. apply (leaves k p c); try done.
    pose proof (counted c k p HT Hk Hp). pose proof (count_limit c HT) as H5.
    assert (u8 (num_clients c - 1) = num_clients c - 1) as Hu.
    { apply Z.mod_small. unfold limit, SPCOM_MAX_CHANNEL_CLIENTS in H5. destruct (is_sharable c); lia. }
    destruct (_ =? _); split; done. }
  revert H HI1. rest_ok. resp_deep solve_table.
Qed.
Lemma tables_add i cur (m m' : machine) u c :
  cur ≠ 0 → channels (drv m) !! i = Some c → table_ok c → is_busy c = false → cur ∉ pid c →
  add_client i cur m = Ret (u, m') → tables (drv m) → tables (drv m').
Proof.
  intros Hcur Hc HT Hb Hn (c1 & m1 & E & H)%bind_inv. apply get_ch_inv in E as (-> & _ & Hc1).
  rewrite Hc in Hc1. injection Hc1 as <-. pose proof (moves_refl i m c Hc) as Hm.
  pose proof (len_clients c HT) as H0. pose proof (count_limit c HT) as H5.
  assert (u8 (num_clients c + 1) = num_clients c + 1) as Hu.
  { apply Z.mod_small. unfold limit, SPCOM_MAX_CHANNEL_CLIENTS in H5. destruct (is_sharable c); lia. }
  destruct (is_sharable c) eqn:Es.
  - follow mod_ch_moves. destruct (room c HT Hb) as [k Hk]. rewrite Hk in H.
    apply pid_index_Some in Hk as [Hk _]. apply (set_pid_moves (proj1 (proj2 Hm))) in H.
    pose proof (moves_trans _ _ _ _ _ _ _ Hm H) as Ht. apply (moves_tables _ _ _ _ _ Ht). intros _.
    apply (joins k cur c); try done; [by intros E; rewrite Es in E|].
    split; try done. cbn [is_busy num_clients over_field]. rewrite Hu. unfold limit. by rewrite Es.
  - destruct (alone c HT Hb Es) as [He Hk]. follow mod_ch_moves. apply (set_pid_moves (proj1 (proj2 Hm))) in H.
    pose proof (moves_trans _ _ _ _ _ _ _ Hm H) as Ht. apply (moves_tables _ _ _ _ _ Ht). intros _.
    assert (num_clients c = 0) as Hz by (rewrite (tab_count c HT), He; done).
    apply (joins 0%nat cur c); try done. rewrite Hz. unfold limit. rewrite Es. split; done.
Qed.
Lemma tables_register_drv i : ok (spcom_register_rpmsg_drv i).
Proof. resp_deep solve_table. Qed.
Lemma tables_open i cur : cur ≠ 0 → ok (open_channel cur i).
Proof.
  intros Hcur. unfold open_channel. assert (ok (mutex_lock i)) as Hl by resp_deep solve_table.
  assert (∀ r, ok (mutex_unlock i;; mret (M := M machine) (A := Z * option nat) r)) as Hr by (intros; resp_deep solve_table).
  apply respects_bind; [typeclasses eauto|exact Hl|intros _].
  apply respects_bind; [typeclasses eauto|apply respects_get_ch; typeclasses eauto|intros c].
  apply respects_bind; [typeclasses eauto|resp_deep solve_table|intros r].
  destruct (r <? 0); [apply Hr|]. intros m a m' (c1 & m1 & E & H)%bind_inv HI. apply get_ch_inv in E as (-> & _ & Hc).
  pose proof (HI _ _ Hc) as HT. destruct (is_busy c1) eqn:Hb; [by apply (Hr _ _ _ _ H)|].
  destruct (bool_decide _) eqn:Hd; [by apply (Hr _ _ _ _ H)|].
  apply bool_decide_eq_false in Hd. apply dec_stable in Hd. apply pid_index_None in Hd; [|by rewrite (tab_length _ HT)].
  apply bind_inv in H as (u & m1 & E & H). apply (Hr _ _ _ _ H).
  by apply (tables_add i cur m m1 u c1 Hcur Hc HT Hb Hd E).
Qed.
(** A request to register names a channel that is initialised. *)
Definition in_name (i j : nat) (c : spcom_channel) : Prop := table_ok c ∧ (j = i → name c ≠ []).
Ltac solve_in_name :=
  try apply keeps_mod_buf; apply each_mod_ch; let Hc := fresh in let Hn := fresh in intros ? [Hc Hn];
  split; [destruct Hc; split; done|exact Hn].
Lemma in_name_drv i k : respects (keeps (W := W) (each (in_name i))) (spcom_register_rpmsg_drv k).
Proof. resp_deep solve_in_name. Qed.
Lemma tables_init i s nm : ok (spcom_init_channel i s nm).
Proof.
  unfold spcom_init_channel. destruct (len nm =? 0); [resp|]. apply respects_bind; [typeclasses eauto| |resp].
  apply each_mod_ch. intros c _. destruct s; split; cbn; try done; try constructor; repeat constructor.
Qed.
Hint Resolve tables_init tables_register_drv tables_deinit : resp.
Lemma tables_create raw sh : ok (spcom_create_channel raw sh).
Proof. resp_deep solve_table. Qed.
Lemma tables_register cur raw : ok (spcom_ioctl_handle_channel_register_command cur raw).
Proof.
  unfold spcom_ioctl_handle_channel_register_command. destruct (Z.eqb_spec cur 0) as [|Hcur]; [resp|].
  intros m a m' (r & m1 & E & H)%bind_inv HI.
  assert (tables (drv m1)) as HI1 by (by apply (tables_create _ _ _ _ _ E)).
  destruct (r =? 0) eqn:Er; [|by injection H as <- <-]. cbn [negb] in H.
  assert (cstr raw ≠ []) as Hn.
  { unfold spcom_create_channel in E. apply bind_inv in E as (d & m0 & _ & E).
    destruct (is_valid_ch_name raw) eqn:Ev; [by apply valid_name|].
    injection E as <- <-. done. }
  apply bind_inv in H as (x & m2 & E2 & H). apply find_inv in E2 as [-> ->].
  destruct (first_index _ _) as [i|] eqn:Ei; [|by injection H as <- <-].
  apply first_index_Some in Ei as (c & Hc & En%name_eqb_eq & _).
  assert (each (in_name i) (drv m1)) as HN.
  { intros j c1 Hc1. split; [by apply (HI1 _ _ Hc1)|]. intros ->. rewrite Hc in Hc1. injection Hc1 as <-.
    by rewrite En. }
  apply bind_inv in H as (c1 & m2 & E2 & H). apply get_ch_inv in E2 as (-> & _ & _).
  apply bind_inv in H as (x & m2 & E2 & H).
  assert (each (in_name i) (drv m2)) as HN2.
  { revert E2 HN. match goal with |- ?c m1 = _ → _ => enough (respects (keeps (W := W) (each (in_name i))) c) as H0 by apply H0 end.
    pose proof (in_name_drv i i) as Hd. resp_deep solve_in_name. }
  assert (tables (drv m2)) as HI2 by (intros j c2 Hc2; by apply (HN2 _ _ Hc2)).
  destruct (x <? 0); [by injection H as <- <-|].
  destruct (channels (drv m2) !! i) as [c2|] eqn:Hc2.
  - destruct (HN2 _ _ Hc2) as [HT Hnm].
    destruct (register_moves i cur m2 m' a c2 Hcur Hc2 HT (tab_max _ HT (Hnm eq_refl)) H) as (c3 & Hm & HT3).
    by apply (moves_tables _ _ _ _ _ Hm).
  - apply bind_inv in H as (u & m3 & E3 & _). apply bind_inv in E3 as (c3 & m4 & E3 & _).
    apply get_ch_inv in E3 as (_ & _ & E3). congruence.
Qed.
(** The closer is a client: its entry goes. *)
Lemma tables_close i cur (m m' : machine) a c :
  cur ≠ 0 → channels (drv m) !! i = Some c → cur ∈ pid c →
  release_channel_file cur i m = Ret (a, m') → tables (drv m) → tables (drv m').
Proof.
  intros Hcur Hc Hin H HI. pose proof (HI _ _ Hc) as HT. pose proof (moves_refl i m c Hc) as Hm.
  unfold release_channel_file in H. follow lock_moves. follow_get.
  cbn [num_clients over_field] in H. change (pid_index (c <| lock := true |>)) with (pid_index c) in H.
  destruct (negb _).
  { assert (tables (drv x0)) as HI1 by (apply (moves_tables _ _ _ _ _ Hm); [|done]; intros []; split; done).
    revert H HI1. rest_ok. resp_deep solve_table. }
  destruct (pid_index c SPCOM_MAX_CHANNEL_CLIENTS cur) as [k|] eqn:Ek; cycle 1.
  { apply pid_index_None in Ek; [done|]. by rewrite (tab_length c HT). }
  apply pid_index_Some in Ek as [Hk _]. follow set_pid_moves.
  pose proof (counted c k cur HT Hk Hcur) as H1. pose proof (count_limit c HT) as H5.
  assert (limit c <= 5) as H5' by (unfold limit, SPCOM_MAX_CHANNEL_CLIENTS; destruct (is_sharable c); lia).
  apply bind_inv in H as (u & m2 & H & [= <- <-]). destruct (Z.ltb_spec 1 (num_clients c)) as [Hn|Hn].
  - unfold close_one in H. follow_get. follow end_moves. follow mod_ch_moves.
    match type of Hm with moves _ _ _ _ ?m1 => assert (tables (drv m1)) as HI1 end.
    { apply (moves_tables _ _ _ _ _ Hm); [|done]. intros _. apply (leaves k cur c); try done.
      assert (u8 (num_clients c - 1) = num_clients c - 1) as Hu by (apply Z.mod_small; lia).
      destruct (_ =? _); split; done. }
    revert H HI1. rest_ok. resp_deep solve_table.
  - unfold close_last in H. follow mod_ch_moves.
    match type of Hm with moves _ _ _ _ ?m1 => assert (tables (drv m1)) as HI1 end.
    { apply (moves_tables _ _ _ _ _ Hm); [|done]. intros _. apply (leaves k cur c); try done.
      split; try done. cbn. lia. }
    revert H HI1. rest_ok. resp_deep solve_table.
Qed.
Lemma tables_unregister cur raw : ok (spcom_ioctl_handle_channel_unregister_command cur raw).
Proof.
  unfold spcom_ioctl_handle_channel_unregister_command, spcom_channel_deinit.
  destruct (Z.eqb_spec cur 0) as [|Hc]; [resp|]. pose proof (fun k => tables_deinit k cur Hc) as Hd.
  resp_deep solve_table.
Qed.
Lemma tables_device_open cur nm : ok (spcom_device_open cur nm).
Proof.
  unfold spcom_device_open. destruct (Z.eqb_spec cur 0) as [|Hc]; [resp|].
  pose proof (fun k => tables_open k cur Hc) as Ho. resp_deep solve_table.
Qed.
Lemma tables_control_close cur : cur ≠ 0 → ok (spom_control_channel_remove_client cur).
Proof. intros Hc. pose proof (fun k => tables_deinit k cur Hc) as Hd. resp_deep solve_table. Qed.
Lemma tables_device_close cur nm : ok (spcom_device_release cur nm None).
Proof.
  unfold spcom_device_release. destruct (Z.eqb_spec cur 0) as [|Hc]; [resp|].
  pose proof (tables_control_close cur Hc) as Hr. resp.
Qed.
Hint Resolve tables_create tables_register tables_unregister tables_device_open tables_device_close : resp.
Lemma tables_action a : ok (run_action a).
Proof. resp_deep solve_table. Qed.
Hint Resolve tables_action : resp.
Lemma tables_meanwhile : ok meanwhile.
Proof. resp_deep solve_table. Qed.
Hint Resolve tables_meanwhile : resp.

(** A close by a process that is not in the table of the open channel. *)
Definition stray (o : op) (d : spcom_device) : Prop :=
  match o with
  | OpRelease cur _ (Some i) => ∃ c, channels d !! i = Some c ∧ rpdrv c = true ∧ cur ∉ pid c
  | _ => False
  end.
Lemma tables_release cur nm pd (m m' : machine) ret :
  ¬ stray (OpRelease cur nm pd) (drv m) → spcom_device_release cur nm pd m = Ret (ret, m') →
  tables (drv m) → tables (drv m').
Proof.
  intros Hs. unfold spcom_device_release. destruct (name_eqb nm unknown); [by intros [= <- <-]|].
  destruct (name_eqb nm sp_ssr); [by intros [= <- <-]|].
  destruct (Z.eqb_spec cur 0) as [|Hc]; [by intros [= <- <-]|].
  destruct (name_eqb nm DEVICE_NAME); [by apply tables_control_close|].
  destruct pd as [i|]; [|by intros [= <- <-]]. intros H HI.
  destruct (channels (drv m) !! i) as [c|] eqn:Hi; cycle 1.
  { apply bind_inv in H as (u & m1 & E & _). apply bind_inv in E as (c & m2 & E & _).
    apply get_ch_inv in E as (_ & _ & E). congruence. }
  destruct (decide (cur ∈ pid c)) as [Hin|Hin]; [by apply (tables_close i cur m m' ret c)|].
  assert (rpdrv c = false) as Hd by (apply not_true_is_false; intros Hd; apply Hs; by exists c).
  pose proof (moves_refl i m c Hi) as Hm. unfold release_channel_file in H. follow lock_moves. follow_get.
  unfold spcom_is_channel_open in H. cbn [rpdrv over_field] in H. rewrite Hd in H. cbn [negb] in H.
  follow mod_ch_moves. injection H as _ <-. apply (moves_tables _ _ _ _ _ Hm); [|done]. intros []; split; done.
Qed.
Lemma tables_op o (m m' : machine) ret :
  ¬ stray o (drv m) → run_op o m = Ret (ret, m') → tables (drv m) → tables (drv m').
Proof.
  intros Hs. destruct o; try (by apply tables_release); rest_ok; clear Hs; cbn [run_op].
  all: resp_deep solve_table.
  apply each_new_device. intros _. split; cbn; try done; repeat constructor.
Qed.
(** What processes, the transport and the kernel do, closes by strangers apart. *)
Definition proper_step (m m' : machine) : Prop :=
  ∃ o ret, ¬ stray o (drv m) ∧ run_op o m = Ret (ret, m').

(** *** A stranger's close *)

(** It is counted, but nobody leaves the table. *)
Definition entries (i : nat) (l : list Z) (n : Z) (j : nat) (c : spcom_channel) : Prop :=
  j = i → pid c = l ∧ num_clients c = n.
Ltac solve_entries :=
  try apply keeps_mod_buf; apply each_mod_ch; let Hc := fresh in let Ej := fresh in intros ? Hc Ej;
  by destruct (Hc Ej).
Lemma stray_close i cur (m m' : machine) ret c :
  table_ok c → channels (drv m) !! i = Some c → rpdrv c = true → cur ∉ pid c →
  release_channel_file cur i m = Ret (ret, m') →
  each (entries i (pid c) (Z.max 0 (num_clients c - 1))) (drv m').
Proof.
  intros HT Hc Hd Hn H. pose proof (moves_refl i m c Hc) as Hm. unfold release_channel_file in H.
  pose proof (len_clients c HT) as H0. pose proof (count_limit c HT) as H5.
  follow lock_moves. follow_get. unfold spcom_is_channel_open in H.
  cbn [num_clients rpdrv over_field] in H. rewrite Hd in H. cbn [negb] in H.
  change (pid_index (c <| lock := true |>)) with (pid_index c) in H.
  destruct (pid_index c SPCOM_MAX_CHANNEL_CLIENTS cur) as [k|] eqn:Ek.
  { apply pid_index_Some in Ek as [Hk _]. destruct Hn. by eapply list_elem_of_lookup_2. }
  rewrite (bind_ret skip _ _ tt _ eq_refl) in H.
  apply bind_inv in H as (u & m2 & H & [= <- <-]). destruct (Z.ltb_spec 1 (num_clients c)) as [Hl|Hl].
  - unfold close_one in H. follow_get. follow end_moves. follow mod_ch_moves.
    match type of Hm with moves _ _ _ _ ?m1 =>
      assert (each (entries i (pid c) (Z.max 0 (num_clients c - 1))) (drv m1)) as HI1 end.
    { intros j c1 Hc1 ->. rewrite (proj1 (proj2 Hm)) in Hc1. injection Hc1 as <-. split; [by destruct (_ =? _)|].
      assert (limit c <= 5) as H6 by (unfold limit, SPCOM_MAX_CHANNEL_CLIENTS; destruct (is_sharable c); lia).
      assert (u8 (num_clients c - 1) = num_clients c - 1) as Hu by (apply Z.mod_small; lia).
      rewrite Z.max_r by lia. by destruct (_ =? _). }
    revert H HI1. match goal with |- ?d ?m = _ → _ => enough (respects (keeps (W := W) (each (entries i (pid c) (Z.max 0 (num_clients c - 1))))) d) as H7 by apply H7 end.
    resp_deep solve_entries.
  - unfold close_last in H. follow mod_ch_moves.
    match type of Hm with moves _ _ _ _ ?m1 =>
      assert (each (entries i (pid c) (Z.max 0 (num_clients c - 1))) (drv m1)) as HI1 end.
    { intros j c1 Hc1 ->. rewrite (proj1 (proj2 Hm)) in Hc1. injection Hc1 as <-. split; [done|]. cbn. lia. }
    revert H HI1. match goal with |- ?d ?m = _ → _ => enough (respects (keeps (W := W) (each (entries i (pid c) (Z.max 0 (num_clients c - 1))))) d) as H7 by apply H7 end.
    resp_deep solve_entries.
Qed.
(** Once the table is full and the channel is not busy, a registration writes past it. *)
Lemma register_overflows i cur (m : machine) c :
  alive (drv m) = true → channels (drv m) !! i = Some c → lock c = false → is_busy c = false →
  is_sharable c = true → max_clients c = SPCOM_MAX_CHANNEL_CLIENTS →
  List.length (pid c) = Z.to_nat SPCOM_MAX_CHANNEL_CLIENTS → 0 ∉ pid c → cur ∉ pid c →
  spcom_register_channel cur i m = Fault.
Proof.
  intros Ha Hc Hl Hb Hs Hmax Hlen H0 Hn.
  assert (∀ p, p ∉ pid c → pid_index c SPCOM_MAX_CHANNEL_CLIENTS p = None) as Hi.
  { intros p Hp. destruct (pid_index _ _ p) as [k|] eqn:E; [|done]. apply pid_index_Some in E as [E _].
    destruct Hp. by eapply list_elem_of_lookup_2. }
  destruct m as [d w l]. cbn [drv] in *.
  assert (mutex_lock i (mkM d w l)
          = Ret (tt, mkM (d <| channels ::= alter (fun c => c <| lock := true |>) i |>) w l)) as E.
  { unfold mutex_lock. rewrite (bind_ret _ _ _ _ _ (get_ch_run (mkM d w l) i c Ha Hc)), Hl.
    unfold mod_ch. by rewrite (bind_ret _ _ _ _ _ (get_ch_run (mkM d w l) i c Ha Hc)). }
  unfold spcom_register_channel. rewrite (bind_ret _ _ _ _ _ E).
  set (d1 := d <| channels ::= _ |>).
  assert (channels d1 !! i = Some (c <| lock := true |>)) as Hc1 by (cbn; by rewrite list_lookup_alter_eq, Hc).
  rewrite (bind_ret _ _ _ _ _ (get_ch_run (mkM d1 w l) i _ Ha Hc1)). cbn [is_busy is_sharable max_clients over_field].
  change (pid_index (c <| lock := true |>)) with (pid_index c).
  rewrite Hb, Hmax, Hs, !Hi by done. rewrite bool_decide_eq_false_2 by (intros Hx; by apply Hx). cbn [default].
  unfold set_pid. rewrite bind_assoc, (bind_ret _ _ _ _ _ (get_ch_run (mkM d1 w l) i _ Ha Hc1)).
  cbn [pid over_field]. rewrite Hlen. reflexivity.
Qed.
End clients.

(** C14: From the loading of the driver on, whatever processes, the transport and the
    kernel do in whatever order, [num_clients] of every channel is the number of
    processes in its table, no process is there twice, there are never more of them
    than the channel takes (five on a shared channel, one otherwise), and the channel
    is busy exactly when it has no room: the counter neither wraps nor drifts, and a
    registration always finds a free entry.  This needs that a channel's node is only
    closed by a process in its table.  A close by another one is counted although
    nobody leaves the table, and once such a shared channel has five processes and is
    not busy, the next registration writes past the end of the table. *)
Theorem client_tables_stay_exact {W} `{!SpcomEnv W} :
  (∀ m0 m : machine spcom_device W spcom_event,
    unloaded m0 → rtc proper_step m0 m →
    ∀ i c, channels (drv m) !! i = Some c →
      num_clients c = len (clients c) ∧ NoDup (clients c) ∧ 0 <= num_clients c <= limit c
      ∧ (is_busy c = true ↔ num_clients c = limit c)
      ∧ (is_busy c = false → ∃ k, (k < List.length (pid c))%nat ∧ pid c !! k = Some 0))
  ∧ (∀ cur i ret c c' (m m' : machine spcom_device W spcom_event),
      table_ok c → channels (drv m) !! i = Some c → rpdrv c = true → cur ∉ pid c →
      release_channel_file cur i m = Ret (ret, m') → channels (drv m') !! i = Some c' →
      clients c' = clients c ∧ num_clients c' = Z.max 0 (num_clients c - 1))
  ∧ ∀ cur i c (m : machine spcom_device W spcom_event),
      alive (drv m) = true → channels (drv m) !! i = Some c → lock c = false → is_busy c = false →
      is_sharable c = true → max_clients c = SPCOM_MAX_CHANNEL_CLIENTS →
      List.length (pid c) = Z.to_nat SPCOM_MAX_CHANNEL_CLIENTS → 0 ∉ pid c → cur ∉ pid c →
      spcom_register_channel cur i m = Fault.
Proof.
  split_and!.
  - intros m0 m (_ & Hd & _) Hs i c Hc.
    assert (tables (drv m)) as HI.
    { refine (rtc_keeps proper_step (fun m => tables (drv m)) _ _ _ Hs _).
      - intros m1 m2 (o & r & Hn & H). by apply (tables_op o m1 m2 r Hn H).
      - intros j c1 Hc1. by rewrite Hd in Hc1. }
    pose proof (HI _ _ Hc) as HT. pose proof (count_limit c HT) as H5. pose proof (len_clients c HT) as H0.
    split; [exact (tab_count c HT)|]. split; [exact (tab_nodup c HT)|]. split; [lia|]. split.
    + rewrite (tab_busy c HT), Z.leb_le. lia.
    + intros Hb. destruct (room c HT Hb) as [k Hk]. apply pid_index_Some in Hk as [Hk _].
      exists k. split; [by eapply lookup_lt_Some|done].
  - intros cur i ret c c' m m' HT Hc Hd Hn H Hc'.
    destruct (stray_close i cur m m' ret c HT Hc Hd Hn H i c' Hc' eq_refl) as [Hp Hk].
    unfold clients. by rewrite Hp.
  - intros. by eapply register_overflows.
Qed.
(** Four processes register with a shared channel, a stranger closes its node, a
    fifth process registers, and the sixth one goes past the table. *)
Definition app_arg : list Z := raw_name "app".
Definition registers (cur : Z) : op := OpIoctl cur DEVICE_NAME None SPCOM_IOCTL_CH_REGISTER (Some app_arg) [].
Definition four_clients : list op :=
  OpProbe None :: OpIoctl 7 DEVICE_NAME None SPCOM_IOCTL_SHARED_CH_CREATE (Some app_arg) []
  :: (registers <$> [7; 8; 9; 10]).
Lemma proper_run {W} `{!SpcomEnv W} l (m m' : machine spcom_device W spcom_event) :
  Forall (fun o => ∀ d, ¬ stray o d) l → run_ops l m = Ret (tt, m') → rtc proper_step m m'.
Proof.
  intros Hl. revert m. induction Hl as [|o l Hf Hl IH]; intros m; cbn [run_ops].
  - by intros [= <-].
  - intros (ret & m1 & H1 & H2)%bind_inv. eapply rtc_l; [by exists o, ret|eauto].
Qed.
(** What a computation decides about lists of numbers. *)
Ltac by_deciding := apply (bool_decide_unpack _); vm_compute; exact I.
Lemma four_ok c :
  pid c = [7; 8; 9; 10; 0] → is_sharable c = true → max_clients c = 5 → is_busy c = false →
  num_clients c = 4 → table_ok c.
Proof.
  intros Hp Hs Hm Hb Hn. split; unfold clients, limit; rewrite ?Hp, ?Hs, ?Hb, ?Hn; try done.
  cbn. by_deciding.
Qed.
Lemma client_tables_stay_exact_witness :
  ∃ m m1 m2 c c1 c2, run_ops four_clients (mkM unloaded_device [] []) = Ret (tt, m)
  ∧ channels (drv m) !! 2%nat = Some c ∧ num_clients c = 4 ∧ len (clients c) = 4
  ∧ release_channel_file 99 2 m = Ret (0, m1) ∧ channels (drv m1) !! 2%nat = Some c1
  ∧ num_clients c1 = 3 ∧ clients c1 = [7; 8; 9; 10]
  ∧ run_op (registers 11) m1 = Ret (0, m2) ∧ channels (drv m2) !! 2%nat = Some c2
  ∧ clients c2 = [7; 8; 9; 10; 11] ∧ spcom_register_channel 12 2 m2 = Fault.
Proof.
  assert (∃ m m1 m2 c c1 c2, run_ops four_clients (mkM unloaded_device [] []) = Ret (tt, m)
    ∧ channels (drv m) !! 2%nat = Some c ∧ clients c = [7; 8; 9; 10]
    ∧ release_channel_file 99 2 m = Ret (0, m1) ∧ channels (drv m1) !! 2%nat = Some c1
    ∧ run_op (registers 11) m1 = Ret (0, m2) ∧ channels (drv m2) !! 2%nat = Some c2
    ∧ clients c2 = [7; 8; 9; 10; 11]
    ∧ (alive (drv m2) = true ∧ lock c2 = false ∧ is_busy c2 = false ∧ is_sharable c2 = true
       ∧ max_clients c2 = 5 ∧ pid c2 = [7; 8; 9; 10; 11])
    ∧ (rpdrv c = true ∧ pid c = [7; 8; 9; 10; 0] ∧ is_sharable c = true ∧ max_clients c = 5 ∧ is_busy c = false))
    as (m & m1 & m2 & c & c1 & c2 & E & Ec & Ek & E1 & Ec1 & E2 & Ec2 & Ek2
        & (A1 & A2 & A3 & A4 & A5 & A6) & B1 & B2 & B3 & B4 & B5).
  { do 6 eexists. split; [vm_compute; reflexivity|]. do 7 (split; [vm_compute; reflexivity|]).
    vm_compute. repeat split. }
  destruct (client_tables_stay_exact (W := list (list action))) as (H1 & H2 & H3).
  assert (num_clients c = 4) as Hn.
  { destruct (H1 (mkM unloaded_device [] []) m (conj eq_refl (conj eq_refl (conj eq_refl eq_refl)))
      (proper_run four_clients _ _ ltac:(repeat constructor; intros d []) E) 2%nat c Ec) as (Hn & _).
    by rewrite Hn, Ek. }
  assert (table_ok c) as HT by (apply four_ok; assumption).
  destruct (H2 99 2%nat 0 c c1 m m1 HT Ec B1 ltac:(rewrite B2; by_deciding) E1 Ec1) as [C1 C2].
  exists m, m1, m2, c, c1, c2. rewrite C1, C2, Hn, Ek. clear H1 H2. repeat (split; [first [assumption|reflexivity]|]).
  apply (H3 12 2%nat c2 m2); try assumption; rewrite A6; [reflexivity|by_deciding..].
Defined.
