(* ===== verification/SpcomShare.v ===== *)
(** [spcom.c]: the lock of a shared channel.  A process that sends on it holds
    [shared_sync_lock] until its transaction ends; [active_pid] says whose it is. *)
From Stdlib Require Import Ascii String.
From S2P Require Import Prelude Bus Spcom SpcomMsg SpcomDev SpcomFacts.
#[local] Open Scope Z_scope.
#[local] Open Scope list_scope.

(** The lock is held exactly while a transaction is under way. *)
Definition settled (_ : nat) (c : spcom_channel) : Prop := sync c = negb (active_pid c =? 0).
(** The lock of channel [i] has just been taken. *)
Definition taken (i j : nat) (c : spcom_channel) : Prop :=
  if decide (j = i) then sync c = true ∧ active_pid c = 0 else settled j c.
Definition taken_shared (i j : nat) (c : spcom_channel) : Prop :=
  taken i j c ∧ (j = i → is_sharable c = true).

(** The process that asks. *)
Definition op_pid (o : op) : Z :=
  match o with
  | OpOpen cur _ | OpRelease cur _ _ | OpWrite cur _ _ _ _ | OpRead cur _ _ _ | OpIoctl cur _ _ _ _ _ => cur
  | _ => 1
  end.
(** The last client closes a channel's node with a transaction under way. *)
Definition forgets (o : op) (d : spcom_device) : Prop :=
  match o with
  | OpRelease _ _ (Some i) =>
      ∃ c, channels d !! i = Some c ∧ num_clients c <= 1 ∧ sync c = true
  | _ => False
  end.

Section share.
Context {W : Type} `{!SpcomEnv W}.
Abbreviation machine := (machine spcom_device W spcom_event).
Abbreviation ok := (respects (keeps (W := W) (each settled))).

(** Steps of user processes that close no transaction away. *)
Definition polite_step (m m' : machine) : Prop :=
  ∃ o ret, op_pid o ≠ 0 ∧ ¬ forgets o (drv m) ∧ run_op o m = Ret (ret, m').

Lemma settled_meanwhile : ok meanwhile.
Proof. resp_deep solve_each. Qed.

Lemma lock_sync_inv i (m m' : machine) a :
  lock_sync i m = Ret (a, m') →
  ∃ m1 c, (m1 = m ∨ meanwhile m = Ret (tt, m1)) ∧ channels (drv m1) !! i = Some c ∧ sync c = false
    ∧ drv m' = (drv m1) <| channels ::= alter (fun c => c <| sync := true |>) i |>.
Proof.
  intros (c & m1 & E & H)%bind_inv. apply get_ch_inv in E as (-> & Ha & Hc). destruct (sync c) eqn:Es.
  - apply bind_inv in H as ([] & m2 & Em & H). apply bind_inv in H as (c2 & m3 & E & H).
    apply get_ch_inv in E as (-> & Ha2 & Hc2). destruct (sync c2) eqn:Es2; [done|].
    apply bind_inv in H as (c3 & m4 & E & H). apply get_ch_inv in E as (-> & _ & _). injection H as <- <-.
    exists m2, c2. split_and!; try done. by right.
  - apply bind_inv in H as (c3 & m4 & E & H). apply get_ch_inv in E as (-> & _ & _). injection H as <- <-.
    exists m, c. split_and!; try done. by left.
Qed.
Lemma lock_sync_taken i : leads (W := W) (each settled) (lock_sync i) (each (taken i)).
Proof.
  intros m a m' (m1 & c & Hm & Hc & Hs & ->)%lock_sync_inv HI.
  assert (each settled (drv m1)) as H1.
  { destruct Hm as [-> | Hm]; [done|]. by apply (settled_meanwhile _ _ _ Hm). }
  intros j c1. cbn. destruct (decide (j = i)) as [-> | Hj].
  - rewrite list_lookup_alter_eq, Hc. intros [= <-]. unfold taken. rewrite decide_True by done. cbn.
    specialize (H1 _ _ Hc). unfold settled in H1. rewrite Hs in H1. split; [done|].
    destruct (Z.eqb_spec (active_pid c) 0); [done|discriminate].
  - rewrite list_lookup_alter_ne by done. intros E. unfold taken. rewrite decide_False by done. eauto.
Qed.
Lemma begin_settled cur i : cur ≠ 0 → ok (begin_transaction cur i).
Proof.
  intros Hcur. unfold begin_transaction. apply respects_bind; [typeclasses eauto|resp|]. intros c.
  destruct (is_sharable c); [|resp]. intros m a m' H. refine (leads_bind _ (each (taken i)) _ _ _ _ _ m a m' H).
  - apply lock_sync_taken.
  - intros _. apply leads_mod_ch.
    + intros c1. unfold taken, settled. rewrite decide_True by done. cbn. intros [-> _].
      by destruct (Z.eqb_spec cur 0).
    + intros j c1 Hj. unfold taken. by rewrite decide_False by done.
Qed.
Hint Resolve settled_meanwhile begin_settled : resp.

(** *** Sending from the control channel *)

Definition kind (i : nat) (s : bool) (j : nat) (c : spcom_channel) : Prop := j = i → is_sharable c = s.
Definition locked_tail (cur : Z) (i : nat) (is_modified : bool) (arg payload : list Z) : M machine Z :=
  mutex_lock i;;
  take_client_role i;;
  c ← get_ch i;
  if is_sharable c then
    if is_server c
    then (mod_ch i (fun c => c <| sync := false |>);; send_message_err cur i 0)
    else (mod_ch i (fun c => c <| active_pid := cur |>);; send_payload cur i is_modified arg payload)
  else send_payload cur i is_modified arg payload.
Lemma settled_send_payload cur i md arg payload : ok (send_payload cur i md arg payload).
Proof. resp_deep solve_each. Qed.
Lemma settled_send_err cur i ret : ok (send_message_err cur i ret).
Proof. resp_deep solve_each. Qed.
Hint Resolve settled_send_payload settled_send_err : resp.
Lemma leads_get_ch {A} Q J i (k : spcom_channel → M machine A) :
  (∀ c, Q i c → leads (each Q) (k c) J) → leads (each Q) (get_ch i ≫= k) J.
Proof.
  intros H m a m' (c & m1 & E & Hk)%bind_inv HI. apply get_ch_inv in E as (-> & _ & Hc).
  eapply H; [by eapply HI|exact Hk|exact HI].
Qed.
Lemma leads_weaken {A} (I J : spcom_device → Prop) (c : M machine A) :
  (∀ d, I d → J d) → respects (keeps J) c → leads I c J.
Proof. intros H Hc m a m' E HI. eapply Hc; [exact E|by apply H]. Qed.
Lemma tail_unshared cur i md arg payload :
  leads (each (fun j c => settled j c ∧ kind i false j c)) (locked_tail cur i md arg payload) (each settled).
Proof.
  set (Q := fun j c => settled j c ∧ kind i false j c).
  assert (respects (keeps (W := W) (each Q)) (mutex_lock i)) as H1 by resp_deep solve_each.
  assert (respects (keeps (W := W) (each Q)) (take_client_role i)) as H2 by resp_deep solve_each.
  unfold locked_tail. apply (leads_bind _ (each Q)); [exact H1|intros _].
  apply (leads_bind _ (each Q)); [exact H2|intros _]. apply leads_get_ch. intros c [_ Hk].
  rewrite (Hk eq_refl). apply leads_weaken; [|resp]. intros d Hd j c' Hc. by apply (Hd _ _ Hc).
Qed.
Lemma tail_shared cur i md arg payload :
  cur ≠ 0 → leads (each (taken_shared i)) (locked_tail cur i md arg payload) (each settled).
Proof.
  intros Hcur. set (Q := taken_shared i).
  assert (respects (keeps (W := W) (each Q)) (mutex_lock i)) as H1 by resp_deep solve_each.
  assert (respects (keeps (W := W) (each Q)) (take_client_role i)) as H2 by resp_deep solve_each.
  unfold locked_tail. apply (leads_bind _ (each Q)); [exact H1|intros _].
  apply (leads_bind _ (each Q)); [exact H2|intros _]. apply leads_get_ch. intros c [_ Hk].
  rewrite (Hk eq_refl).
  destruct (is_server c); (eapply leads_bind;
    [apply (leads_mod_ch _ settled)|intros _; first [apply settled_send_err|apply settled_send_payload]]).
  - intros c1 [Ht _]. revert Ht. unfold taken, settled. rewrite decide_True by done. cbn. by intros [_ ->].
  - intros j c1 Hj [Ht _]. revert Ht. unfold taken. by rewrite decide_False by done.
  - intros c1 [Ht _]. revert Ht. unfold taken, settled. rewrite decide_True by done. cbn. intros [-> _].
    by destruct (Z.eqb_spec cur 0).
  - intros j c1 Hj [Ht _]. revert Ht. unfold taken. by rewrite decide_False by done.
Qed.
Lemma lock_sync_shared i :
  leads (W := W) (fun d => each settled d ∧ each (named i true) d) (lock_sync i) (each (taken_shared i)).
Proof.
  intros m a m' Hrun [HI HN] j c Hc. split; [by apply (lock_sync_taken i _ _ _ Hrun HI)|]. intros ->.
  destruct (lock_sync_inv _ _ _ _ Hrun) as (m1 & c0 & Hm & Hc0 & _ & E). rewrite E in Hc. cbn in Hc.
  rewrite list_lookup_alter_eq, Hc0 in Hc. injection Hc as <-. cbn.
  assert (each (named i true) (drv m1)) as H1.
  { destruct Hm as [-> | Hm]; [done|]. by apply (named_meanwhile i true _ _ _ Hm). }
  by destruct (H1 _ _ Hc0 eq_refl).
Qed.
Lemma settled_send_message cur arg payload md : cur ≠ 0 → ok (spcom_send_message cur arg payload md).
Proof.
  intros Hcur m a m'. unfold spcom_send_message.
  destruct (is_valid_ch_name (arg_name arg)) eqn:Ev; cbn [negb]; [|by intros [= <- <-]].
  destruct (_ <? _); [by intros [= <- <-]|]. destruct (is_control_channel_name _); [by intros [= <- <-]|].
  intros (r & m1 & E & H)%bind_inv HI. apply find_inv in E as [-> ->].
  destruct (first_index _ _) as [i|] eqn:Ei; [|by injection H as <- <-].
  apply first_index_Some in Ei as (c & Hc & En%name_eqb_eq & _).
  apply bind_inv in H as (c0 & m1 & E & H). apply get_ch_inv in E as (-> & _ & Hc0).
  rewrite Hc in Hc0. injection Hc0 as <-.
  destruct (negb (spcom_is_channel_connected c)); [by injection H as <- <-|].
  apply bind_inv in H as (b & m1 & E & H).
  assert (drv m1 = drv m) as Ed by (destruct m; rewrite ask_ret in E; by injection E as _ <-).
  destruct (negb b); [by injection H as <- <-; rewrite Ed|].
  assert (each (named i (is_sharable c)) (drv m1)) as HN.
  { rewrite Ed. intros j c1 Hc1 ->. rewrite Hc in Hc1. injection Hc1 as <-. rewrite En.
    split; [by apply valid_name|done]. }
  rewrite <- Ed in HI. clear Ed E Hc. revert m1 a m' H HI HN.
  change (∀ m1 a m', ((if is_sharable c then lock_sync i else skip);; locked_tail cur i md arg payload) m1 = Ret (a, m') →
    each settled (drv m1) → each (named i (is_sharable c)) (drv m1) → each settled (drv m')).
  intros m1 a m' H HI HN. destruct (is_sharable c).
  - apply bind_inv in H as (u & m2 & E & H). refine (tail_shared _ _ _ _ _ Hcur _ _ _ H _).
    by apply (lock_sync_shared i _ _ _ E).
  - rewrite (bind_ret skip _ m1 tt m1 eq_refl) in H. apply (tail_unshared _ _ _ _ _ _ _ _ H).
    intros j c1 Hc1. split; [by apply (HI _ _ Hc1)|]. intros Hj. by destruct (HN _ _ Hc1 Hj).
Qed.

(** *** Closing a node *)

(** With its last client, channel [i] has no transaction. *)
Definition calm (i j : nat) (c : spcom_channel) : Prop :=
  settled j c ∧ (j = i → num_clients c <= 1 → sync c = false).
Definition free (i j : nat) (c : spcom_channel) : Prop := settled j c ∧ (j = i → sync c = false).
Lemma settled_set_pid i k p : ok (set_pid i k p).
Proof. resp_deep solve_each. Qed.
Lemma free_set_pid i k p : respects (keeps (W := W) (each (free i))) (set_pid i k p).
Proof. resp_deep solve_each. Qed.
Lemma settled_close_one cur i : ok (close_one cur i).
Proof. resp_deep solve_each. Qed.
Lemma free_close_last i : leads (W := W) (each (free i)) (close_last i) (each settled).
Proof.
  unfold close_last. apply (leads_bind _ (each settled)).
  - apply leads_mod_ch; [|by intros j c _ []]. intros c [_ Hf]. unfold settled. cbn. by rewrite Hf.
  - intros _. assert (∀ f : spcom_channel → spcom_channel,
      (∀ c, settled i c → settled i (f c)) → ok (mod_ch i f)) as H by (intros; by apply each_mod_ch).
    apply (leads_bind _ (each settled)); [|intros _; apply (leads_bind _ (each settled)); [|intros _]];
      match goal with |- leads _ ?c _ => enough (ok c) as H0 by exact H0 end; resp_deep solve_each.
Qed.
Lemma leads_release_file cur i : leads (W := W) (each (calm i)) (release_channel_file cur i) (each settled).
Proof.
  assert (respects (keeps (W := W) (each (calm i))) (mutex_lock i)) as H1 by resp_deep solve_each.
  unfold release_channel_file. apply (leads_bind _ (each (calm i))); [exact H1|intros _].
  intros m a m' (c & m1 & E & H)%bind_inv HI. apply get_ch_inv in E as (-> & _ & Hc).
  assert (each settled (drv m)) as HS by (intros j c0 Hc0; by apply (HI _ _ Hc0)).
  destruct (negb (spcom_is_channel_open c)).
  { revert H HS. match goal with |- ?c m = _ → _ => enough (ok c) as H0 by apply H0 end. resp_deep solve_each. }
  destruct (Z.ltb_spec 1 (num_clients c)) as [Hn | Hn].
  - revert H HS. match goal with |- ?c m = _ → _ => enough (ok c) as H0 by apply H0 end.
    pose proof settled_set_pid. pose proof settled_close_one. resp; auto.
  - assert (each (free i) (drv m)) as HF.
    { intros j c0 Hc0. split; [by apply HS|]. intros ->. rewrite Hc in Hc0. injection Hc0 as <-.
      by apply (HI _ _ Hc). }
    revert H HF. match goal with |- ?c m = _ → _ => enough (leads (each (free i)) c (each settled)) as H0 by apply H0 end.
    apply (leads_bind _ (each (free i))); [|intros _].
    + match goal with |- leads _ ?c _ => enough (respects (keeps (W := W) (each (free i))) c) as H0 by exact H0 end.
      pose proof free_set_pid. resp; auto.
    + apply (leads_bind _ (each settled)); [apply free_close_last|intros _]. by intros m1 x m2 [= <- <-].
Qed.
Lemma settled_release cur nm pd (m m' : machine) ret :
  ¬ forgets (OpRelease cur nm pd) (drv m) → spcom_device_release cur nm pd m = Ret (ret, m') →
  each settled (drv m) → each settled (drv m').
Proof.
  intros Hf. unfold spcom_device_release. destruct (name_eqb nm unknown); [by intros [= <- <-]|].
  destruct (name_eqb nm sp_ssr); [by intros [= <- <-]|]. destruct (cur =? 0); [by intros [= <- <-]|].
  destruct (name_eqb nm DEVICE_NAME).
  { match goal with |- ?c m = _ → _ => enough (ok c) as H0 by apply H0 end. resp_deep solve_each. }
  destruct pd as [i|]; [|by intros [= <- <-]]. intros H HI. refine (leads_release_file cur i _ _ _ H _).
  intros j c Hc. split; [by apply HI|]. intros -> Hn. destruct (sync c) eqn:Es; [|done].
  exfalso. apply Hf. by exists c.
Qed.
Hint Resolve settled_send_message : resp.
Lemma settled_op o (m m' : machine) ret :
  op_pid o ≠ 0 → ¬ forgets o (drv m) → run_op o m = Ret (ret, m') → each settled (drv m) → each settled (drv m').
Proof.
  intros Hp Hf. destruct o; try (by apply settled_release);
    match goal with |- ?c m = _ → _ => enough (ok c) as H0 by apply H0 end; clear Hf; cbn in Hp.
  all: resp_deep solve_each. by apply each_new_device.
Qed.

(** *** A transaction that nobody can end *)

Definition stuck (i j : nat) (c : spcom_channel) : Prop :=
  j = i → name c ≠ [] ∧ is_sharable c = true ∧ sync c = true ∧ active_pid c = 0.
Abbreviation sok i := (respects (keeps (W := W) (each (stuck i)))).
Lemma stuck_create i raw sh : sok i (spcom_create_channel raw sh).
Proof. apply created_keeps with i; [intros c H; by destruct (H eq_refl)|by intros j c Hj ?]. Qed.
Hint Resolve stuck_create : resp.
Lemma stuck_deinit i k p : p ≠ 0 → sok i (spcom_channel_deinit_locked k p).
Proof.
  intros Hp m a m' (c & m1 & E & H)%bind_inv HI. apply get_ch_inv in E as (-> & _ & Hc).
  assert (respects (keeps (W := W) (each (stuck i))) (if active_pid c =? p then end_transaction k else skip)) as He.
  { destruct (Z.eqb_spec (active_pid c) p) as [Hap|]; [|resp]. unfold end_transaction.
    apply each_mod_ch. intros c1 _ ->. destruct (HI _ _ Hc eq_refl) as (_ & _ & _ & Ea). congruence. }
  revert H HI. match goal with |- ?c m = _ → _ => enough (sok i c) as H0 by apply H0 end.
  resp_deep solve_each.
Qed.
Lemma stuck_unregister i cur nm : sok i (spcom_ioctl_handle_channel_unregister_command cur nm).
Proof.
  unfold spcom_ioctl_handle_channel_unregister_command, spcom_channel_deinit.
  destruct (Z.eqb_spec cur 0) as [|Hc]; [resp|]. pose proof (fun k => stuck_deinit i k cur Hc). resp_deep solve_each.
Qed.
Lemma stuck_close i cur nm : sok i (spcom_device_release cur nm None).
Proof.
  unfold spcom_device_release. destruct (Z.eqb_spec cur 0) as [|Hc]; [resp|].
  pose proof (fun k => stuck_deinit i k cur Hc). resp_deep solve_each.
Qed.
Hint Resolve stuck_unregister stuck_close : resp.
Lemma stuck_action i a : sok i (run_action a).
Proof. resp_deep solve_each. Qed.
Hint Resolve stuck_action : resp.
Lemma stuck_meanwhile i : sok i meanwhile.
Proof. resp_deep solve_each. Qed.
Lemma stuck_blocks i cur (m : machine) c x :
  channels (drv m) !! i = Some c → each (stuck i) (drv m) → begin_transaction cur i m ≠ Ret x.
Proof.
  intros Hc HI H. destruct x as [u m']. apply bind_inv in H as (c1 & m1 & E & H).
  apply get_ch_inv in E as (-> & _ & E1). rewrite Hc in E1. injection E1 as <-.
  destruct (HI _ _ Hc eq_refl) as (_ & Es & _). rewrite Es in H.
  apply bind_inv in H as (v & m1 & E & _). destruct (lock_sync_inv _ _ _ _ E) as (m2 & c2 & Hm & Hc2 & Hs & _).
  assert (each (stuck i) (drv m2)) as H2.
  { destruct Hm as [-> | Hm]; [done|]. by apply (stuck_meanwhile i _ _ _ Hm). }
  destruct (H2 _ _ Hc2 eq_refl) as (_ & _ & Ht & _). congruence.
Qed.

(** *** Nothing is sent on a stuck channel any more *)

Definition is_send (i : nat) (e : spcom_event) : bool := match e with SpSend k _ _ => (k =? i)%nat | _ => false end.
(** The transmissions on channel [i]. *)
Definition sent (i : nat) (l : list spcom_event) : list spcom_event := List.filter (is_send i) l.
Definition quiet (i : nat) (m m' : machine) : Prop := sent i (log m') = sent i (log m).
#[local] Instance quiet_pre i : PreOrder (quiet i).
Proof. split; unfold quiet; [by intros m|intros m1 m2 m3; congruence]. Qed.
Lemma hush_ask {A} i (f : W → A * W) : respects (quiet i) (ask f).
Proof. intros [d w l] a m' H. rewrite ask_ret in H. by injection H as <- <-. Qed.
Lemma hush_emit i e : is_send i e = false → respects (quiet i) (emit e).
Proof.
  intros He [d w l] a m' [= <- <-]. unfold quiet, sent. cbn. rewrite List.filter_app. cbn.
  by rewrite He, app_nil_r.
Qed.
Lemma quiet_mod_drv i f : respects (quiet i) (mod_drv f).
Proof. by intros [d w l] a m' [= <- <-]. Qed.
Hint Resolve hush_ask quiet_mod_drv : resp.
Lemma quiet_mod_dev i f : respects (quiet i) (mod_dev f).
Proof. unfold mod_dev. resp. Qed.
Lemma quiet_mod_ch i k f : respects (quiet i) (mod_ch k f).
Proof. unfold mod_ch. resp. Qed.
Hint Resolve quiet_mod_dev quiet_mod_ch : resp.
Lemma quiet_mod_buf i k j f : respects (quiet i) (mod_buf k j f).
Proof. unfold mod_buf. resp. Qed.
Hint Resolve quiet_mod_buf : resp.
Ltac solve_quiet := apply hush_emit; cbn; first [reflexivity | by apply Nat.eqb_neq].
Lemma quiet_meanwhile i : respects (quiet i) meanwhile.
Proof. resp_deep solve_quiet. Qed.

(** While channel [i] is stuck, the code keeps it so and sends nothing on it. *)
Definition hush (i : nat) (m m' : machine) : Prop :=
  each (stuck i) (drv m) → each (stuck i) (drv m') ∧ quiet i m m'.
#[local] Instance hush_pre i : PreOrder (hush i).
Proof.
  split; unfold hush; [by intros m H|].
  intros m1 m2 m3 H1 H2 H. destruct (H1 H) as [K1 Q1]. destruct (H2 K1). split; [done|by etransitivity].
Qed.
Lemma hush_intro {A} i (c : M machine A) : sok i c → respects (quiet i) c → respects (hush i) c.
Proof. intros H1 H2 m a m' Hc H. split; [by apply (H1 _ _ _ Hc)|by apply (H2 _ _ _ Hc)]. Qed.
Ltac solve_stuck :=
  try apply keeps_mod_buf; apply each_mod_ch;
  let Hs := fresh in let Ej := fresh in intros ? Hs Ej;
  first [congruence | destruct (Hs Ej) as (? & ? & ? & ?); split_and!; done].
(** Ending the caller's own transaction: nobody owns the one that is stuck. *)
Lemma stuck_end_if i k p (m : machine) c :
  p ≠ 0 → channels (drv m) !! k = Some c → each (stuck i) (drv m) →
  sok i (if active_pid c =? p then end_transaction k else skip).
Proof.
  intros Hp Hc HI. destruct (Z.eqb_spec (active_pid c) p) as [Ha|]; [|resp].
  unfold end_transaction. apply each_mod_ch. intros c1 _ ->.
  destruct (HI _ _ Hc eq_refl) as (_ & _ & _ & E). congruence.
Qed.
Lemma stuck_end_after {A} i k p (f : spcom_channel → M machine A) :
  p ≠ 0 → (∀ c, sok i (f c)) →
  sok i (c ← get_ch k; (if active_pid c =? p then end_transaction k else skip);; f c).
Proof.
  intros Hp Hf m a m' (c & m1 & E & H)%bind_inv HI. apply get_ch_inv in E as (-> & _ & Hc).
  pose proof (Hf c) as Hfc. pose proof (stuck_end_if i k p m c Hp Hc HI) as He.
  revert H HI. match goal with |- ?c m = _ → _ => enough (sok i c) as H0 by apply H0 end. resp.
Qed.
Lemma stuck_end_own i k p : p ≠ 0 → sok i (end_own_transaction p k).
Proof.
  intros Hp m a m' (c & m1 & E & H)%bind_inv HI. apply get_ch_inv in E as (-> & _ & Hc).
  by apply (stuck_end_if i k p m c Hp Hc HI _ _ _ H).
Qed.
Lemma stuck_release_file i p k : p ≠ 0 → sok i (release_channel_file p k).
Proof.
  intros Hp. assert (sok i (close_one p k)) as H1 by (apply stuck_end_after; [done|]; resp_deep solve_stuck).
  assert (sok i (close_last k)) as H2 by resp_deep solve_stuck. resp_deep solve_stuck.
Qed.

(** A send on a stuck channel waits for ever; one on another channel leaves it alone. *)
Lemma stuck_lock i (m : machine) x : each (stuck i) (drv m) → lock_sync i m ≠ Ret x.
Proof.
  intros HI H. destruct x as [u m']. destruct (lock_sync_inv _ _ _ _ H) as (m1 & c & Hm & Hc & Hs & _).
  assert (each (stuck i) (drv m1)) as H1.
  { destruct Hm as [-> | Hm]; [done|]. by apply (stuck_meanwhile i _ _ _ Hm). }
  destruct (H1 _ _ Hc eq_refl) as (_ & _ & Ht & _). congruence.
Qed.
Lemma hush_transaction {A} i cur k (f : M machine A) :
  (k ≠ i → respects (hush i) f) → respects (hush i) (begin_transaction cur k;; f).
Proof.
  intros Hf m a m' (u & m1 & E & H)%bind_inv HI. destruct (decide (k = i)) as [->|Hk].
  - exfalso. pose proof E as E0. apply bind_inv in E0 as (c & m2 & E0 & _).
    apply get_ch_inv in E0 as (-> & _ & Hc). by apply (stuck_blocks i cur m c (u, m1) Hc HI).
  - assert (respects (hush i) (begin_transaction cur k)) as Hb.
    { pose proof (stuck_meanwhile i). pose proof (quiet_meanwhile i).
      apply hush_intro; [resp_deep solve_stuck|resp_deep solve_quiet]. }
    destruct (Hb _ _ _ E HI) as [K1 Q1]. destruct (Hf Hk _ _ _ H K1). split; [done|by etransitivity].
Qed.
(** A request of the control channel to send. *)
Lemma hush_tail i cur k md arg payload : k ≠ i → respects (hush i) (locked_tail cur k md arg payload).
Proof.
  intros Hk. pose proof (stuck_meanwhile i) as Hm1. pose proof (quiet_meanwhile i) as Hm2.
  apply hush_intro; [resp_deep solve_stuck|resp_deep solve_quiet].
Qed.
Lemma hush_send_message i cur arg payload md : respects (hush i) (spcom_send_message cur arg payload md).
Proof.
  intros m a m'. unfold spcom_send_message.
  destruct (negb _); [by intros [= <- <-]|]. destruct (_ <? _); [by intros [= <- <-]|].
  destruct (is_control_channel_name _); [by intros [= <- <-]|].
  intros (r & m1 & E & H)%bind_inv. apply find_inv in E as [-> ->].
  destruct (first_index _ _) as [k|]; [|by injection H as <- <-].
  apply bind_inv in H as (c & m1 & E & H). apply get_ch_inv in E as (-> & _ & Hc).
  destruct (negb (spcom_is_channel_connected c)); [by injection H as <- <-|].
  apply bind_inv in H as (b & m1 & E & H).
  assert (drv m1 = drv m ∧ log m1 = log m) as [Ed El] by (destruct m; rewrite ask_ret in E; by injection E as _ <-).
  unfold hush, quiet. rewrite <- Ed, <- El. rewrite <- Ed in Hc. clear Ed El E.
  change (hush i m1 m'). destruct (negb b); [by injection H as <- <-|].
  change (((if is_sharable c then lock_sync k else skip);; locked_tail cur k md arg payload) m1 = Ret (a, m')) in H.
  intros HI. apply bind_inv in H as (u & m2 & E & H). destruct (decide (k = i)) as [->|Hk].
  - destruct (HI _ _ Hc eq_refl) as (_ & Es & _). rewrite Es in E.
    by destruct (stuck_lock i m1 (u, m2) HI).
  - assert (respects (hush i) (if is_sharable c then lock_sync k else skip)) as Hl.
    { pose proof (stuck_meanwhile i) as Hm1. pose proof (quiet_meanwhile i) as Hm2.
      apply hush_intro; [resp_deep solve_stuck|resp_deep solve_quiet]. }
    destruct (Hl _ _ _ E HI) as [K1 Q1]. destruct (hush_tail i cur k md arg payload Hk _ _ _ H K1).
    split; [done|by etransitivity].
Qed.
(** A new channel's node takes a channel without a name. *)
Lemma stuck_create_chardev i nm sh : sok i (spcom_create_channel_chardev nm sh).
Proof.
  unfold spcom_create_channel_chardev. destruct (_ <=? _); [resp|]. intros m a m' (r & m1 & E & H)%bind_inv HI.
  apply find_inv in E as [-> ->]. destruct (first_index _ _); [by injection H as <- <-|].
  apply bind_inv in H as (r & m1 & E & H). apply find_inv in E as [-> ->].
  destruct (first_index _ _) as [k|] eqn:Ek; [|by injection H as <- <-].
  apply first_index_Some in Ek as (c & Hc & En%name_eqb_eq & _).
  assert (k ≠ i) as Hk by (intros ->; by destruct (HI _ _ Hc eq_refl)).
  revert H HI. match goal with |- ?c m = _ → _ => enough (sok i c) as Hi by apply Hi end.
  resp_deep solve_stuck.
Qed.
Lemma stuck_destroy_chardev i nm : sok i (spcom_destroy_channel_chardev nm).
Proof. resp_deep solve_stuck. Qed.
Lemma stuck_read i cur k size : cur ≠ 0 → sok i (read_channel cur k size).
Proof.
  intros Hc. pose proof (fun k => stuck_end_own i k cur Hc) as He. pose proof (stuck_meanwhile i) as Hm.
  resp_deep solve_stuck.
Qed.
Lemma stuck_message_out i cur k ret : cur ≠ 0 → sok i (get_message_out cur k ret).
Proof. intros Hc. apply stuck_end_after; [done|]. resp_deep solve_stuck. Qed.
Lemma stuck_get_message i cur arg : cur ≠ 0 → sok i (spcom_ioctl_handle_get_message cur arg).
Proof.
  intros Hc. pose proof (fun k r => stuck_message_out i cur k r Hc) as He. pose proof (stuck_meanwhile i) as Hm.
  resp_deep solve_stuck.
Qed.
Hint Resolve hush_send_message stuck_create_chardev stuck_destroy_chardev stuck_read stuck_get_message
  stuck_release_file quiet_meanwhile stuck_meanwhile : resp.
(** What sends nothing. *)
Ltac hush_leaf := apply hush_intro; [resp_deep solve_stuck|resp_deep solve_quiet].
Lemma hush_write i cur k buf : respects (hush i) (spcom_handle_write cur (Some k) buf).
Proof.
  unfold spcom_handle_write. cbv zeta.
  repeat first
    [ lazymatch goal with
      | |- respects _ (begin_transaction _ _;; _) => apply hush_transaction; intros Hk; hush_leaf
      | |- respects _ (with_ch (Some k) _) => cbn [with_ch]
      end
    | resp_step | hush_leaf ].
Qed.
Lemma hush_control_write i cur buf : respects (hush i) (spcom_handle_write cur None buf).
Proof.
  unfold spcom_handle_write, with_ch. cbv zeta.
  repeat first [resp_step | hush_leaf].
Qed.
Hint Resolve hush_write hush_control_write : resp.
Lemma hush_end i cur k : cur ≠ 0 → respects (hush i) (end_own_transaction cur k).
Proof. intros Hc. pose proof (stuck_end_own i k cur Hc) as He. hush_leaf. Qed.
Lemma hush_device_write i cur nm pd user f_pos :
  cur ≠ 0 → respects (hush i) (spcom_device_write cur nm pd user f_pos).
Proof.
  intros Hc. pose proof (fun k => hush_end i cur k Hc) as He.
  unfold spcom_device_write, write_command.
  repeat first [solve [eauto 2 with resp] | resp_step
               | lazymatch goal with |- respects _ (spcom_handle_write _ ?ch _) => destruct ch end | hush_leaf].
Qed.
Lemma hush_ioctl i cur nm pd cmd arg user :
  cur ≠ 0 → respects (hush i) (spcom_device_ioctl cur nm pd cmd arg user).
Proof.
  intros Hc. unfold spcom_device_ioctl, dispatch, spcom_ioctl_handle_copy_and_send_message.
  repeat first [solve [eauto 2 with resp] | resp_step | hush_leaf].
Qed.
(** The driver is not loaded anew. *)
Definition same_driver (o : op) : Prop := match o with OpProbe _ => False | _ => True end.
Lemma hush_op i o : op_pid o ≠ 0 → same_driver o → respects (hush i) (run_op o).
Proof.
  intros Hp Hs. destruct o; cbn [op_pid same_driver] in *; try done; cbn [run_op].
  - hush_leaf.
  - pose proof (fun k => stuck_deinit i k cur Hp) as Hd. hush_leaf.
  - by apply hush_device_write.
  - hush_leaf.
  - by apply hush_ioctl.
  - hush_leaf.
  - hush_leaf.
Qed.
(** What processes, the transport and the kernel do with the driver they have. *)
Definition later (m m' : machine) : Prop :=
  ∃ o ret, op_pid o ≠ 0 ∧ same_driver o ∧ run_op o m = Ret (ret, m').
Lemma stuck_later i (m m' : machine) :
  rtc later m m' → each (stuck i) (drv m) → each (stuck i) (drv m') ∧ sent i (log m') = sent i (log m).
Proof.
  induction 1 as [m|m1 m2 m3 (o & ret & Hp & Hs & Ho) _ IH]; [done|]. intros HI.
  destruct (hush_op i o Hp Hs _ _ _ Ho HI) as [K Q]. destruct (IH K) as [K' Q']. split; [done|].
  rewrite Q'. exact Q.
Qed.
(** Both ways to ask for a send: an error, or no return. *)
Lemma stuck_write_fails i cur buf (m m' : machine) r :
  each (stuck i) (drv m) → word buf 0 = SPCOM_CMD_SEND ∨ word buf 0 = SPCOM_CMD_SEND_MODIFIED →
  spcom_handle_write cur (Some i) buf m = Ret (r, m') → r < 0.
Proof.
  intros HI Hw. unfold spcom_handle_write. cbv zeta. destruct (_ <? _); [by intros [= <- _]|].
  rewrite bool_decide_eq_false_2 by done. cbn [andb].
  assert ((word buf 0 =? SPCOM_CMD_SEND) || (word buf 0 =? SPCOM_CMD_SEND_MODIFIED) = true) as Hb
    by (destruct Hw as [-> | ->]; reflexivity).
  rewrite Hb. intros (ok & m1 & E & H)%bind_inv.
  apply bind_inv in E as (c & m2 & E & E1). apply get_ch_inv in E as (-> & _ & Hc). injection E1 as <- <-.
  destruct (negb _); [by injection H as <- _|]. cbn [with_ch] in H.
  assert (∃ u m1, begin_transaction cur i m = Ret (u, m1)) as (u & m1 & E).
  { destruct (_ =? SPCOM_CMD_SEND); [|destruct (_ =? SPCOM_CMD_SEND_MODIFIED); [|done]];
      apply bind_inv in H as (u & m1 & E & _); eauto. }
  by destruct (stuck_blocks i cur m c (u, m1) Hc HI).
Qed.
Lemma stuck_send_fails i cur arg payload md (m m' : machine) r :
  each (stuck i) (drv m) →
  first_index (fun c => name_eqb (name c) (cstr (arg_name arg))) (channels (drv m)) = Some i →
  spcom_send_message cur arg payload md m = Ret (r, m') → r < 0.
Proof.
  intros HI Hi. unfold spcom_send_message. destruct (negb _); [by intros [= <- _]|].
  destruct (_ <? _); [by intros [= <- _]|]. destruct (is_control_channel_name _); [by intros [= <- _]|].
  intros (x & m1 & E & H)%bind_inv. apply find_inv in E as [-> ->]. rewrite Hi in H.
  apply bind_inv in H as (c & m1 & E & H). apply get_ch_inv in E as (-> & _ & Hc).
  destruct (negb (spcom_is_channel_connected c)); [by injection H as <- _|].
  apply bind_inv in H as (b & m1 & E & H).
  assert (drv m1 = drv m) as Ed by (destruct m; rewrite ask_ret in E; by injection E as _ <-).
  destruct (negb b); [by injection H as <- _|].
  destruct (HI _ _ Hc eq_refl) as (_ & Es & _). rewrite Es in H. rewrite <- Ed in HI.
  apply bind_inv in H as (u & m2 & El & _). by destruct (stuck_lock i m1 (u, m2) HI).
Qed.

(** Channel [i] is shared, its only client has a transaction under way. *)
Definition last_busy (i j : nat) (c : spcom_channel) : Prop :=
  j = i → name c ≠ [] ∧ is_sharable c = true ∧ sync c = true ∧ num_clients c <= 1 ∧ rpdrv c = true.
Lemma forget_sticks cur i : leads (W := W) (each (last_busy i)) (release_channel_file cur i) (each (stuck i)).
Proof.
  assert (respects (keeps (W := W) (each (last_busy i))) (mutex_lock i)) as H1 by resp_deep solve_each.
  assert (∀ k p, respects (keeps (W := W) (each (last_busy i))) (set_pid i k p)) as H2
    by (intros; resp_deep solve_each).
  assert (sok i (free_rx_buf i)) as H3 by resp_deep solve_each.
  unfold release_channel_file, close_last. apply (leads_bind _ (each (last_busy i))); [exact H1|intros _].
  apply leads_get_ch. intros c Hc. destruct (Hc eq_refl) as (_ & _ & _ & Hn & Hd).
  unfold spcom_is_channel_open. rewrite Hd. cbn [negb]. apply Z.ltb_ge in Hn. rewrite Hn.
  apply (leads_bind _ (each (last_busy i))); [|intros _; apply (leads_bind _ (each (stuck i)))].
  - destruct (pid_index _ _ _); [apply H2|by intros m x m' [= <- <-]].
  - apply (leads_bind _ (each (stuck i))).
    + apply leads_mod_ch; [|by intros j c1 Hj Hq ?]. intros c1 Hq _. by destruct (Hq eq_refl) as (? & ? & ? & _).
    + intros _. apply (leads_bind _ (each (stuck i))); [exact H3|intros _].
      apply (leads_bind _ (each (stuck i))); [|intros _];
        match goal with |- leads _ ?c _ => enough (sok i c) as H0 by exact H0 end; resp_deep solve_each.
  - intros _. by intros m x m' [= <- <-].
Qed.

(** *** Reading ends the reader's transaction *)

Definition not_owner (i : nat) (cur : Z) (j : nat) (c : spcom_channel) : Prop := j = i → active_pid c ≠ cur.
Lemma end_own_ends i cur : cur ≠ 0 → leads (W := W) (fun _ => True) (end_own_transaction cur i) (each (not_owner i cur)).
Proof.
  intros Hcur m a m' (c & m1 & E & H)%bind_inv _. apply get_ch_inv in E as (-> & _ & Hc).
  destruct (Z.eqb_spec (active_pid c) cur) as [|Hn].
  - apply bind_inv in H as (c1 & m1 & E & H). apply get_ch_inv in E as (-> & _ & _). injection H as <- <-.
    intros j c2 Hc2 ->. cbn in Hc2. rewrite list_lookup_alter_eq, Hc in Hc2. injection Hc2 as <-. by cbn.
  - injection H as <- <-. intros j c2 Hc2 ->. rewrite Hc in Hc2. by injection Hc2 as <-.
Qed.
Lemma read_exit_ends i cur ret :
  cur ≠ 0 → leads (W := W) (fun _ => True) (read_exit cur i ret) (each (not_owner i cur)).
Proof.
  intros Hcur. apply (leads_bind _ (each (not_owner i cur))); [by apply end_own_ends|].
  intros []. by intros m x m' [= <- <-].
Qed.
Lemma leads_any {A B} (c : M machine A) (k : A → M machine B) J :
  (∀ a, leads (fun _ => True) (k a) J) → leads (fun _ => True) (c ≫= k) J.
Proof. intros H. by apply (leads_bind _ (fun _ => True)). Qed.
Lemma read_ends i cur size (m m' : machine) ret :
  cur ≠ 0 → read_channel cur i size m = Ret (ret, m') →
  (∀ c, channels (drv m) !! i = Some c → rpdrv c = true) → each (not_owner i cur) (drv m').
Proof.
  intros Hcur (c & m1 & E & H)%bind_inv Hd. apply get_ch_inv in E as (-> & _ & Hc).
  unfold spcom_is_channel_open in H. rewrite (Hd _ Hc) in H. cbn [negb] in H.
  pose proof (fun ret => read_exit_ends i cur ret Hcur) as He. revert H.
  match goal with |- ?c m = _ → _ =>
    enough (leads (fun _ => True) c (each (not_owner i cur))) as H0 by (intros H; by apply (H0 _ _ _ H)) end.
  apply leads_any. intros []; cbn [negb]; [|apply He]. apply leads_any. intros [r|l]; [apply He|].
  destruct (_ || _); [apply He|]. apply leads_any. intros []; cbn [negb]; [|apply He].
  apply leads_any. intros _. apply He.
Qed.
End share.

(** C4: The lock of a shared channel follows its transaction.  Whatever user
    processes, the transport and the kernel do from the loading of the driver on,
    the lock is held exactly while a process is recorded as its owner, unless the
    last client closes its node with its request unanswered; a read on an open
    channel always leaves the reader without a transaction, whatever it returns.
    That close, however, forgets the owner and keeps the lock: until the driver is
    loaded anew, whatever processes, the transport and the kernel do, nothing is
    transmitted on the channel any more, and a request to send on it, by the
    channel's node or from the control node, does not return once it gets to the
    lock: if it returns at all, it was refused before (the channel is not
    connected, memory is short, the command is malformed). *)
Theorem shared_lock_follows_the_transaction {W} `{!SpcomEnv W} :
  (∀ m0 m : machine spcom_device W spcom_event,
    unloaded m0 → rtc polite_step m0 m →
    ∀ i c, channels (drv m) !! i = Some c → (sync c = true ↔ active_pid c ≠ 0))
  ∧ (∀ cur i size ret (m m' : machine spcom_device W spcom_event),
      cur ≠ 0 → (∀ c, channels (drv m) !! i = Some c → rpdrv c = true) →
      read_channel cur i size m = Ret (ret, m') →
      ∀ c, channels (drv m') !! i = Some c → active_pid c ≠ cur)
  ∧ ∀ cur i ret c (m m' m2 : machine spcom_device W spcom_event),
      channels (drv m) !! i = Some c → name c ≠ [] → is_sharable c = true → sync c = true →
      num_clients c <= 1 → rpdrv c = true → release_channel_file cur i m = Ret (ret, m') →
      rtc later m' m2 →
      sent i (log m2) = sent i (log m')
      ∧ (∀ other x, begin_transaction other i m2 ≠ Ret x)
      ∧ (∀ other buf r m3, word buf 0 = SPCOM_CMD_SEND ∨ word buf 0 = SPCOM_CMD_SEND_MODIFIED →
         spcom_handle_write other (Some i) buf m2 = Ret (r, m3) → r < 0)
      ∧ ∀ other arg payload md r m3,
         first_index (fun c => name_eqb (name c) (cstr (arg_name arg))) (channels (drv m2)) = Some i →
         spcom_send_message other arg payload md m2 = Ret (r, m3) → r < 0.
Proof.
  split_and!.
  - intros m0 m (_ & Hd & _) Hs i c Hc.
    assert (each settled (drv m)) as HI.
    { refine (rtc_keeps polite_step (fun m => each settled (drv m)) _ _ _ Hs _).
      - intros m1 m2 (o & r & Hp & Hf & H) H1. by eapply settled_op.
      - intros j c1 Hc1. by rewrite Hd in Hc1. }
    specialize (HI _ _ Hc). unfold settled in HI. rewrite HI. destruct (Z.eqb_spec (active_pid c) 0); naive_solver.
  - intros cur i size ret m m' Hcur Ho H c Hc. by apply (read_ends _ _ _ _ _ _ Hcur H Ho _ _ Hc).
  - intros cur i ret c m m' m2 Hc Hn Hsh Hs Hnum Hd H Hl.
    assert (each (stuck i) (drv m')) as HS.
    { apply (forget_sticks cur i _ _ _ H). intros j c1 Hc1 ->. rewrite Hc in Hc1. by injection Hc1 as <-. }
    destruct (stuck_later i m' m2 Hl HS) as [HS2 Hq]. split_and!.
    + exact Hq.
    + intros other x Hb. destruct (channels (drv m2) !! i) as [c'|] eqn:Hc'.
      * by apply (stuck_blocks i other m2 c' x Hc' HS2).
      * destruct x. apply bind_inv in Hb as (c' & m1 & E & _). apply get_ch_inv in E as (_ & _ & E). congruence.
    + intros other buf r m3 Hw. by apply (stuck_write_fails i other buf m2 m3 r HS2).
    + intros other arg payload md r m3 Hi. by apply (stuck_send_fails i other arg payload md m2 m3 r HS2).
Qed.
(** Two processes share a channel; the last one leaves with its request unanswered. *)
Definition shared_arg : list Z := raw_name "app".
Definition ioctl (cur cmd : Z) (arg user : list Z) : op := OpIoctl cur DEVICE_NAME None cmd (Some arg) user.
Definition share_ops : list op :=
  [OpProbe None; ioctl 7 SPCOM_IOCTL_SHARED_CH_CREATE shared_arg []; ioctl 7 SPCOM_IOCTL_CH_REGISTER shared_arg [];
   ioctl 7 SPCOM_IOCTL_SEND_MSG (shared_arg ++ bytes32 1000 ++ bytes32 2) [1; 2]].
Lemma polite_run {W} `{!SpcomEnv W} l (m m' : machine spcom_device W spcom_event) :
  Forall (fun o => op_pid o ≠ 0 ∧ ∀ d, ¬ forgets o d) l → run_ops l m = Ret (tt, m') → rtc polite_step m m'.
Proof.
  intros Hl. revert m. induction Hl as [|o l [Hp Hf] Hl IH]; intros m; cbn [run_ops].
  - by intros [= <-].
  - intros (ret & m1 & H1 & H2)%bind_inv. eapply rtc_l; [by exists o, ret|eauto].
Qed.
Lemma later_run {W} `{!SpcomEnv W} l (m m' : machine spcom_device W spcom_event) :
  Forall (fun o => op_pid o ≠ 0 ∧ same_driver o) l → run_ops l m = Ret (tt, m') → rtc later m m'.
Proof.
  intros Hl. revert m. induction Hl as [|o l [Hp Hf] Hl IH]; intros m; cbn [run_ops].
  - by intros [= <-].
  - intros (ret & m1 & H1 & H2)%bind_inv. eapply rtc_l; [by exists o, ret|eauto].
Qed.
(** Another process then opens the channel and asks for a send. *)
Lemma shared_lock_follows_the_transaction_witness :
  ∃ m m' m2 c, run_ops share_ops (mkM unloaded_device [] []) = Ret (tt, m)
    ∧ channels (drv m) !! 2%nat = Some c ∧ active_pid c = 7 ∧ sync c = true
    ∧ release_channel_file 7 2 m = Ret (0, m')
    ∧ run_ops [OpOpen 8 (str "app"); OpAction (ADisconnect 2); OpAction (AConnect (str "app"))] m' = Ret (tt, m2)
    ∧ List.length (sent 2 (log m2)) = 1%nat ∧ (∀ x, begin_transaction 8 2 m2 ≠ Ret x)
    ∧ spcom_handle_write 8 (Some 2%nat) (send_command [1]) m2 = NoFuel.
Proof.
  assert (∃ m m' m2 c, run_ops share_ops (mkM unloaded_device [] []) = Ret (tt, m)
    ∧ channels (drv m) !! 2%nat = Some c ∧ active_pid c = 7 ∧ release_channel_file 7 2 m = Ret (0, m')
    ∧ (name c = str "app" ∧ is_sharable c = true ∧ num_clients c = 1 ∧ rpdrv c = true)
    ∧ run_ops [OpOpen 8 (str "app"); OpAction (ADisconnect 2); OpAction (AConnect (str "app"))] m' = Ret (tt, m2)
    ∧ List.length (sent 2 (log m')) = 1%nat
    ∧ spcom_handle_write 8 (Some 2%nat) (send_command [1]) m2 = NoFuel)
    as (m & m' & m2 & c & E & Ec & Ea & Er & (En & Es & Em & Ed) & E2 & Eq & Ew)
    by (do 4 eexists; split; [vm_compute; reflexivity|]; split; [vm_compute; reflexivity|];
        split; [vm_compute; reflexivity|]; split; [vm_compute; reflexivity|];
        split; [vm_compute; repeat split|]; split; [vm_compute; reflexivity|]; vm_compute; split; reflexivity).
  destruct (shared_lock_follows_the_transaction (W := list (list action))) as (H1 & _ & H3).
  assert (sync c = true) as Hs.
  { apply (H1 (mkM unloaded_device [] []) m (conj eq_refl (conj eq_refl (conj eq_refl eq_refl)))) with 2%nat.
    - apply (polite_run share_ops); [|exact E].
      repeat constructor; try (intros d []); intros H; vm_compute in H; discriminate H.
    - exact Ec.
    - by rewrite Ea. }
  assert (rtc later m' m2) as Hl.
  { revert E2. apply later_run. repeat constructor; discriminate. }
  destruct (H3 7 2%nat 0 c m m' m2 Ec ltac:(by rewrite En) Es Hs ltac:(by rewrite Em) Ed Er Hl) as (Hq & Hb & _).
  exists m, m', m2, c. rewrite Hq. repeat (split; [assumption|]). split; [exact (Hb 8)|assumption].
Defined.
