(* ===== verification/SpcomMatch.v ===== *)
(** [spcom.c]: names are unique, and a client that reads an answer reads the answer to
    its last request. *)
From Stdlib Require Import Ascii String.
From S2P Require Import Prelude Bus Spcom SpcomMsg SpcomDev SpcomFacts.
#[local] Open Scope Z_scope.
#[local] Open Scope list_scope.

(** ** Names *)

Definition names (d : spcom_device) : list (list Z) := name <$> channels d.
Definition unique (d : spcom_device) : Prop :=
  ∀ i j nm, names d !! i = Some nm → names d !! j = Some nm → nm ≠ [] → i = j.
Lemma strscpy_fits l : len l < SPCOM_CHANNEL_NAME_SIZE → strscpy SPCOM_CHANNEL_NAME_SIZE l = l.
Proof. unfold len, strscpy, SPCOM_CHANNEL_NAME_SIZE. intros H. apply take_ge. lia. Qed.
Lemma names_alter d i f : (∀ c, name (f c) = name c) → names (d <| channels ::= alter f i |>) = names d.
Proof.
  intros H. unfold names. cbn. apply list_eq. intros j. rewrite !list_lookup_fmap, list_lookup_alter.
  destruct (decide (i = j)) as [<-|]; [|done]. destruct (channels d !! i); cbn; by rewrite ?H.
Qed.
Lemma names_set d i f nm : (∀ c, name (f c) = nm) → names (d <| channels ::= alter f i |>) = <[i := nm]> (names d).
Proof.
  intros H. unfold names. cbn. apply list_eq. intros j. rewrite list_lookup_fmap, list_lookup_alter.
  destruct (decide (i = j)) as [<-|].
  - destruct (channels d !! i) as [c|] eqn:E; cbn.
    + rewrite list_lookup_insert_eq; [by rewrite H|]. rewrite length_fmap. by eapply lookup_lt_Some.
    + symmetry. apply lookup_ge_None_2. rewrite length_insert, length_fmap. by apply lookup_ge_None_1.
  - by rewrite list_lookup_insert_ne, list_lookup_fmap by done.
Qed.
(** A channel gets a name that no other has. *)
Lemma unique_set d i f nm :
  (∀ c, name (f c) = nm) → (nm = [] ∨ nm ∉ names d) → unique d → unique (d <| channels ::= alter f i |>).
Proof.
  intros Hf Hn Hu. unfold unique. rewrite (names_set _ _ _ _ Hf). intros j k x.
  rewrite !list_lookup_insert. case_decide as H1; case_decide as H2; intros Ej Ek Hx.
  - lia.
  - injection Ej as <-. destruct Hn as [->|Hn]; [done|]. exfalso. by apply Hn, (list_elem_of_lookup_2 _ k).
  - injection Ek as <-. destruct Hn as [->|Hn]; [done|]. exfalso. by apply Hn, (list_elem_of_lookup_2 _ j).
  - by eapply Hu.
Qed.
Lemma not_found d nm :
  first_index (fun c => name_eqb (name c) nm) (channels d) = None → nm ∉ names d.
Proof.
  intros H (j & Hj)%list_elem_of_lookup_1. unfold names in Hj. rewrite list_lookup_fmap in Hj.
  destruct (channels d !! j) as [c|] eqn:E; [|done]. injection Hj as <-.
  pose proof (first_index_None _ _ _ _ H E) as Hf. by apply bool_decide_eq_false in Hf.
Qed.
Section unique.
Context {W : Type} `{!SpcomEnv W}.
Abbreviation ok := (respects (keeps (W := W) unique)).
Lemma unique_mod_ch i f : (∀ c, name (f c) = name c) → ok (mod_ch i f).
Proof. intros H. apply keeps_mod_ch. intros d c _ Hu. unfold unique. by rewrite names_alter. Qed.
Lemma unique_mod_dev f : (∀ d, channels (f d) = channels d) → ok (mod_dev f).
Proof. intros H. apply keeps_mod_dev. intros d _ Hu. unfold unique, names. by rewrite H. Qed.
Lemma unique_destroy i ret : ok (exit_destroy_channel i ret).
Proof.
  unfold exit_destroy_channel, mutex_lock, mutex_unlock. resp; try (by apply unique_mod_ch).
  apply keeps_mod_ch. intros d c _ Hu. by apply unique_set with []; [|left|].
Qed.
(** The slot of a name that is not taken. *)
Lemma unique_init i s nm (m m' : machine spcom_device W spcom_event) r :
  len nm < SPCOM_CHANNEL_NAME_SIZE → nm ∉ names (drv m) → spcom_init_channel i s nm m = Ret (r, m') →
  unique (drv m) → unique (drv m').
Proof.
  intros Hl Hn. unfold spcom_init_channel. destruct (len nm =? 0); [by intros [= <- <-]|].
  intros (u & m1 & (c & m2 & E & H)%bind_inv & Hr)%bind_inv Hu. injection Hr as <- <-.
  apply get_ch_inv in E as (-> & _ & Hc). injection H as <- <-. cbn [drv over_field].
  apply unique_set with nm; [|by right|done]. intros c0. cbn. by apply strscpy_fits.
Qed.
Lemma unique_create raw sh : ok (spcom_create_channel raw sh).
Proof.
  intros m a m' (d & m1 & E & H)%bind_inv HI. apply get_dev_inv in E as (-> & -> & Ha).
  destruct (is_valid_ch_name raw) eqn:Ev; cbn [negb] in H; [|by injection H as <- <-].
  destruct (is_control_channel_name raw); [by injection H as <- <-|].
  apply bind_inv in H as (r & m2 & E & H). apply find_inv in E as [-> ->].
  destruct (first_index _ _) as [k|] eqn:Ef.
  { revert H HI. by_keeps unique. resp. }
  apply bind_inv in H as (r & m2 & E & H). apply find_inv in E as [-> ->].
  destruct (first_index _ _) as [k|] in H; [|by injection H as <- <-].
  apply bind_inv in H as (r & m2 & E & H). injection H as <- <-.
  refine (unique_init _ _ _ _ _ _ _ (not_found _ _ Ef) E HI).
  unfold is_valid_ch_name in Ev. by apply andb_true_iff in Ev as [_ Ev%Z.ltb_lt].
Qed.
Ltac solve_unique := first [ by apply unique_mod_ch | by apply unique_mod_dev
  | apply keeps_mod_buf; by apply unique_mod_ch ].
Hint Resolve unique_create unique_destroy : resp.
Lemma unique_register i : ok (spcom_register_rpmsg_drv i).
Proof. resp_deep solve_unique. Qed.
Lemma unique_create_node i nm : ok (create_node i nm).
Proof. resp_deep solve_unique. Qed.
Hint Resolve unique_register unique_create_node : resp.
Lemma unique_create_chardev nm sh : ok (spcom_create_channel_chardev nm sh).
Proof.
  intros m a m'. unfold spcom_create_channel_chardev. destruct (Z.leb_spec SPCOM_CHANNEL_NAME_SIZE (len nm)) as [|Hl];
    [by intros [= <- <-]|].
  intros (r & m1 & E & H)%bind_inv HI. apply find_inv in E as [-> ->].
  destruct (first_index _ _) as [k|] eqn:Ef; [by injection H as <- <-|].
  apply bind_inv in H as (r & m2 & E & H). apply find_inv in E as [-> ->].
  destruct (first_index _ _) as [k|] in H; [|by injection H as <- <-].
  apply bind_inv in H as (r & m2 & E & H). pose proof (unique_init _ _ _ _ _ _ Hl (not_found _ _ Ef) E HI) as H2.
  revert H H2. by_keeps unique. resp.
Qed.
Hint Resolve unique_create_chardev : resp.
Lemma unique_meanwhile : ok meanwhile.
Proof. resp_deep solve_unique. Qed.
Hint Resolve unique_meanwhile : resp.
Lemma unique_new prop : ok (mod_drv (new_device prop)).
Proof.
  apply keeps_mod_drv. intros d _ i j nm Hi _ Hn. exfalso. apply Hn.
  unfold names in Hi. cbn [channels new_device] in Hi. rewrite fmap_replicate in Hi.
  by apply lookup_replicate in Hi as [-> _].
Qed.
Hint Resolve unique_new : resp.
Lemma unique_op o : ok (run_op o).
Proof. destruct o; resp_deep solve_unique. Qed.
End unique.

(** ** Packets and identifiers *)

(** The packet a channel holds: the driver took its role before it accepted one, and
    a client accepted it because of its identifier. *)
Definition held (pk : gmap Z (list Z)) (nx : Z) (c : spcom_channel) : Prop :=
  ∀ p, rpmsg_rx_buf c = Some p →
    p < nx ∧ comm_role_undefined c = false
    ∧ (is_server c = true ∨ ∀ l, pk !! p = Some l → hdr_txn l = rx_buf_txn_id c).
Definition answers (d : spcom_device) : Prop :=
  (∀ i c, channels d !! i = Some c → held (packets d) (next_packet d) c)
  ∧ Forall (fun it => it_buf it < next_packet d) (rx_list d).
Lemma answers_alter d i f :
  (∀ c, channels d !! i = Some c → held (packets d) (next_packet d) c → held (packets d) (next_packet d) (f c)) →
  answers d → answers (d <| channels ::= alter f i |>).
Proof.
  intros Hf [Hc Hr]. split; [|done]. intros j c. cbn. rewrite list_lookup_alter.
  destruct (decide (i = j)) as [<-|]; [|apply Hc]. destruct (channels d !! i) as [c0|] eqn:E; cbn; [|done].
  intros [= <-]. exact (Hf _ eq_refl (Hc _ _ E)).
Qed.
Section answers.
Context {W : Type} `{!SpcomEnv W}.
Abbreviation machine := (machine spcom_device W spcom_event).
Abbreviation ok := (respects (keeps (W := W) answers)).
Lemma answers_mod_ch i f : (∀ pk nx c, held pk nx c → held pk nx (f c)) → ok (mod_ch i f).
Proof. intros H. apply keeps_mod_ch. intros d c _. apply answers_alter. auto. Qed.
Lemma answers_mod_dev f :
  (∀ d, channels (f d) = channels d ∧ packets (f d) = packets d ∧ next_packet (f d) = next_packet d
     ∧ rx_list (f d) = rx_list d) → ok (mod_dev f).
Proof.
  intros H. apply keeps_mod_dev. intros d _ Hd. unfold answers. by destruct (H d) as (-> & -> & -> & ->).
Qed.
Lemma answers_kfree p : ok (kfree_packet p).
Proof.
  unfold kfree_packet. resp. apply keeps_mod_dev. intros d _ [Hc Hr]. split; [|done].
  intros i c E q Hq. destruct (Hc _ _ E q Hq) as (H1 & H2 & H3). split_and!; [done..|].
  destruct H3 as [?|H3]; [by left|right]. intros l. cbn. rewrite lookup_delete. case_decide; [done|apply H3].
Qed.
Lemma answers_cb ch data : ok (spcom_rpdev_cb ch data).
Proof.
  unfold spcom_rpdev_cb. destruct ch; [|resp]. destruct (_ || _); resp. apply keeps_mod_dev.
  intros d _ [Hc Hr]. split; cbn.
  - intros i c E q Hq. destruct (Hc _ _ E q Hq) as (H1 & H2 & H3). split_and!; [lia|done|].
    destruct H3 as [?|H3]; [by left|right]. intros l. rewrite lookup_insert_ne by lia. apply H3.
  - constructor; cbn; [lia|]. eapply Forall_impl; [exact Hr|]. cbn. lia.
Qed.
Lemma answers_dequeue : ok (mod_dev (fun d => d <| rx_list ::= fun l => removelast l |>)).
Proof. apply keeps_mod_dev. intros d _ [Hc Hr]. split; [done|]. by apply Forall_removelast. Qed.
Lemma answers_client_role i : ok (take_client_role i).
Proof.
  intros m a m' (c & m1 & E & H)%bind_inv HI. apply get_ch_inv in E as (-> & Ha & Hc).
  destruct (comm_role_undefined c) eqn:Eu; [|by injection H as <- <-].
  apply bind_inv in H as (c1 & m1 & E & H). apply get_ch_inv in E as (-> & _ & _). injection H as <- <-.
  apply answers_alter; [|done]. intros c0 E0 Hh p Hp. rewrite Hc in E0. injection E0 as <-.
  destruct (Hh p Hp) as (_ & Hu & _). congruence.
Qed.
End answers.
#[export] Hint Resolve answers_kfree answers_cb answers_dequeue answers_client_role : resp.
Ltac solve_answers :=
  idtac; lazymatch goal with
  | |- respects _ (mod_dev _) => by apply answers_mod_dev
  | |- _ => try apply keeps_mod_buf; apply answers_mod_ch; let H := fresh in let p := fresh in let Hp := fresh in
      intros ? ? ? H; first [exact H | intros p Hp; discriminate Hp
        | intros p Hp; destruct (H p Hp) as (? & ? & [?|?]); split_and!; auto]
  end.
Section deliver.
Context {W : Type} `{!SpcomEnv W}.
Abbreviation machine := (machine spcom_device W spcom_event).
Abbreviation ok := (respects (keeps (W := W) answers)).

(** A packet that is off the queue, on its way to channel [i]. *)
Definition on_way (p : Z) (d : spcom_device) : Prop := p < next_packet d.
(** Whose role is [s] and whose identifier is [t]. *)
Definition role (i : nat) (s : bool) (t : Z) (j : nat) (c : spcom_channel) : Prop :=
  j = i → is_server c = s ∧ txn_id c = t ∧ comm_role_undefined c = false.
Lemma on_way_mod_ch p i f : respects (keeps (W := W) (on_way p)) (mod_ch i f).
Proof. by apply keeps_mod_ch. Qed.
Lemma on_way_mod_dev p f : (∀ d, next_packet (f d) = next_packet d) → respects (keeps (W := W) (on_way p)) (mod_dev f).
Proof. intros H. apply keeps_mod_dev. intros d _. unfold on_way. by rewrite H. Qed.
Ltac solve_way := first [apply on_way_mod_ch | by apply on_way_mod_dev].

Lemma accept_answers item (m m' : machine) r s t :
  accept_packet item m = Ret (r, m') → answers (drv m) → on_way (it_buf item) (drv m) →
  each (role (it_ch item) s t) (drv m) →
  (s = true ∨ ∀ l, packets (drv m) !! it_buf item = Some l → hdr_txn l = t) → answers (drv m').
Proof.
  intros (u & m1 & (c & m2 & E & H)%bind_inv & H1)%bind_inv HI Hw HR Hp. apply get_ch_inv in E as (-> & _ & Hc).
  injection H as <- <-. cbv beta in H1. revert H1.
  match goal with |- _ ?x = _ → _ => assert (answers (drv x)) as HA end.
  { cbn [drv over_field]. apply answers_alter; [|done]. intros c0 E0 _ p [= <-]. cbn.
    destruct (HR _ _ E0 eq_refl) as (-> & -> & ->). split_and!; done. }
  revert HA. match goal with |- answers (drv ?x) → _ => generalize x end.
  intros m1 HA H1. revert H1 HA. by_keeps answers. resp_deep solve_answers.
Qed.
Lemma free_rx_role i s t : respects (keeps (W := W) (each (role i s t))) (free_rx_buf i).
Proof. resp_deep solve_each. Qed.
Lemma packet_txn_inv p (m m' : machine) v :
  packet_txn p m = Ret (v, m') → m' = m ∧ ∃ l, packets (drv m) !! p = Some l ∧ hdr_txn l = v.
Proof.
  intros (l & m1 & (d & m2 & E & Hl)%bind_inv & H)%bind_inv. apply get_dev_inv in E as (-> & -> & _).
  destruct (packets (drv m) !! p) as [l0|] eqn:El; [|done]. injection Hl as <- <-.
  destruct (_ <? _); [done|]. injection H as <- <-. by eauto.
Qed.
Lemma rx_aborted_answers item : ok (rx_aborted item).
Proof. resp_deep solve_answers. Qed.
(** The rest of [deliver] on a channel that is not closing. *)
Lemma settle_packet item (c : spcom_channel) (m m' : machine) r :
  (if negb (is_server c) then
     txn ← packet_txn (it_buf item);
     if negb (txn =? txn_id c) then rx_aborted item else accept_packet item
   else accept_packet item) m = Ret (r, m') →
  answers (drv m) → on_way (it_buf item) (drv m) →
  each (role (it_ch item) (is_server c) (txn_id c)) (drv m) → answers (drv m').
Proof.
  intros H HI Hw HR. destruct (is_server c) eqn:Es; cbn [negb] in H.
  - eapply accept_answers; [done..|]. by left.
  - apply bind_inv in H as (txn & m1 & E & H). apply packet_txn_inv in E as (-> & l & Hl & <-).
    destruct (Z.eqb_spec (hdr_txn l) (txn_id c)) as [Ht|]; cbn [negb] in H.
    + eapply accept_answers; [done..|]. right. intros l'. rewrite Hl. by intros [= <-].
    + revert H HI. apply rx_aborted_answers.
Qed.
Lemma take_role_defined item (m m' : machine) u :
  take_role item m = Ret (u, m') → answers (drv m) → on_way (it_buf item) (drv m) →
  answers (drv m') ∧ on_way (it_buf item) (drv m')
  ∧ ∀ c, channels (drv m') !! it_ch item = Some c → comm_role_undefined c = false.
Proof.
  intros H HI Hw. assert (ok (take_role item)) as Ha by resp_deep solve_answers.
  assert (respects (keeps (W := W) (on_way (it_buf item))) (take_role item)) as Hb by resp_deep solve_way.
  split; [by apply (Ha _ _ _ H)|]. split; [by apply (Hb _ _ _ H)|].
  apply bind_inv in H as (c & m1 & E & H). apply get_ch_inv in E as (-> & _ & Hc).
  destruct (comm_role_undefined c) eqn:Eu.
  - apply bind_inv in H as (t & m1 & E & H). apply packet_txn_inv in E as (-> & _).
    apply bind_inv in H as (c1 & m1 & E & H). apply get_ch_inv in E as (-> & _ & _). injection H as <- <-.
    intros c2. cbn. rewrite list_lookup_alter_eq, Hc. by intros [= <-].
  - injection H as <- <-. intros c2. rewrite Hc. by intros [= <-].
Qed.
Lemma deliver_answers item (m m' : machine) r :
  deliver item m = Ret (r, m') → answers (drv m) → on_way (it_buf item) (drv m) → answers (drv m').
Proof.
  intros (u & m1 & El & H)%bind_inv HI Hw.
  assert (ok (mutex_lock (it_ch item))) as Ha by resp_deep solve_answers.
  assert (respects (keeps (W := W) (on_way (it_buf item))) (mutex_lock (it_ch item))) as Hb by resp_deep solve_way.
  apply (Ha _ _ _ El) in HI. apply (Hb _ _ _ El) in Hw. clear El Ha Hb m.
  apply bind_inv in H as (u1 & m & E & H). destruct (take_role_defined _ _ _ _ E HI Hw) as (HI1 & Hw1 & Hu).
  clear E HI Hw m1. apply bind_inv in H as (c & m1 & E & H). apply get_ch_inv in E as (-> & _ & Hc).
  specialize (Hu _ Hc). assert (each (role (it_ch item) (is_server c) (txn_id c)) (drv m)) as HR.
  { intros j c1 Hc1 ->. rewrite Hc in Hc1. by injection Hc1 as <-. }
  destruct (rpmsg_abort c).
  { revert H HI1. by_keeps answers. resp_deep solve_answers. }
  set (fr := free_rx_buf (it_ch item)) in H.
  set (z := match rpmsg_rx_buf c with Some _ => _ | None => _ end) in H.
  apply bind_inv in H as (u2 & m1 & E1 & H). apply bind_inv in H as (u3 & m2 & E2 & H).
  assert (ok fr) as A1 by resp_deep solve_answers. assert (ok z) as A2 by (subst z; resp_deep solve_answers).
  assert (respects (keeps (W := W) (on_way (it_buf item))) fr) as B1 by resp_deep solve_way.
  assert (respects (keeps (W := W) (on_way (it_buf item))) z) as B2 by (subst z; resp_deep solve_way).
  assert (respects (keeps (W := W) (each (role (it_ch item) (is_server c) (txn_id c)))) z) as C2
    by (subst z; resp_deep solve_each).
  eapply settle_packet; [exact H|..].
  - by apply (A2 _ _ _ E2), (A1 _ _ _ E1).
  - by apply (B2 _ _ _ E2), (B1 _ _ _ E1).
  - apply (C2 _ _ _ E2). by apply (free_rx_role _ _ _ _ _ _ E1).
Qed.
Lemma answers_rx_loop n : ok (rx_loop n).
Proof.
  induction n as [|n IH]; cbn [rx_loop]; [resp|].
  intros m r m' (d & m1 & E & H)%bind_inv HI. apply get_dev_inv in E as (-> & -> & Ha).
  destruct (last (rx_list (drv m))) as [item|] eqn:El; [|by injection H as <- <-].
  assert (on_way (it_buf item) (drv m)) as Hw.
  { destruct HI as [_ Hr]. rewrite Forall_forall in Hr. by apply Hr, last_Some_elem_of. }
  apply bind_inv in H as (u & m1 & E & H). apply bind_inv in H as (b & m2 & E2 & H).
  assert (respects (keeps (W := W) (on_way (it_buf item))) (mod_dev (fun d => d <| rx_list ::= fun l => removelast l |>)))
    as B by (by apply on_way_mod_dev).
  apply (B _ _ _ E) in Hw. apply (answers_dequeue _ _ _ E) in HI.
  pose proof (deliver_answers _ _ _ _ E2 HI Hw) as H2. revert H H2. clear E E2 HI Hw B. by_keeps answers.
  destruct b; resp; auto.
Qed.
End deliver.
#[export] Hint Resolve answers_rx_loop : resp.
Section answers_ops.
Context {W : Type} `{!SpcomEnv W}.
Abbreviation ok := (respects (keeps (W := W) answers)).
Lemma answers_new prop : ok (mod_drv (new_device prop)).
Proof.
  apply keeps_mod_drv. intros d _. split; [|constructor]. intros i c Hc. cbn [channels new_device] in Hc.
  by apply lookup_replicate in Hc as [-> _].
Qed.
Lemma answers_end : ok (mod_dev (fun d => d <| rx_list := [] |> <| alive := false |>)).
Proof. apply keeps_mod_dev. intros d _ [Hc _]. split; [exact Hc|constructor]. Qed.
Hint Resolve answers_new answers_end : resp.
Lemma answers_meanwhile : ok meanwhile.
Proof. resp_deep solve_answers. Qed.
Hint Resolve answers_meanwhile : resp.
Lemma answers_op o : ok (run_op o).
Proof. destruct o; resp_deep solve_answers. Qed.
End answers_ops.
