(* ===== verification/SpcomAnswer.v ===== *)
(** [spcom.c]: a client that reads an answer reads the answer to its last request. *)
From Stdlib Require Import Ascii String.
From S2P Require Import Prelude Bus Spcom SpcomMsg SpcomDev SpcomFacts SpcomMatch.
#[local] Open Scope Z_scope.
#[local] Open Scope list_scope.

(** ** The identifier of a message *)

Lemma le32_bytes32 v l : is_u32 v → le32 (bytes32 v ++ l) = v.
Proof.
  unfold is_u32, le32, byte_at, bytes32, u8. cbn [nth app]. intros H.
  rewrite !Z.mod_mod by lia. Z.to_euclidean_division_equations. lia.
Qed.
Lemma hdr_txn_message t payload : is_u32 t → hdr_txn (message t payload) = t.
Proof. apply le32_bytes32. Qed.
Lemma hdr_txn_take n l : sizeof_hdr <= len (take n l) → hdr_txn (take n l) = hdr_txn l.
Proof.
  unfold len, sizeof_hdr. rewrite length_take. intros H. unfold hdr_txn, word, le32, byte_at.
  rewrite !nth_lookup, !lookup_drop, !lookup_take_lt by lia. done.
Qed.

(** ** The channel while its client waits *)

(** Channel [i] is a client's, its last identifier is [t]; [fresh]: a packet it
    already holds carries it. *)
Definition waits (i : nat) (nm : list Z) (t : Z) (fresh : bool) (j : nat) (c : spcom_channel) : Prop :=
  (j = i → name c = nm ∧ rpdrv c = true ∧ comm_role_undefined c = false ∧ is_server c = false ∧ txn_id c = t
     ∧ (fresh = true → rpmsg_rx_buf c = None ∨ rx_buf_txn_id c = t))
  ∧ (j ≠ i → name c ≠ nm).
(** Before its first request. *)
Definition client (i : nat) (nm : list Z) (j : nat) (c : spcom_channel) : Prop :=
  (j = i → name c = nm ∧ rpdrv c = true ∧ (comm_role_undefined c = true ∨ is_server c = false))
  ∧ (j ≠ i → name c ≠ nm).
(** What others may do meanwhile: the session of the channel stays. *)
Definition steady (i : nat) (nm : list Z) (a : action) : Prop :=
  match a with AConnect nm' => nm' ≠ nm | ADisconnect k => k ≠ i | _ => True end.
(** [Q] of every channel, and channel [i] is there. *)
Definition at_each (i : nat) (Q : nat → spcom_channel → Prop) (d : spcom_device) : Prop :=
  each Q d ∧ is_Some (channels d !! i).
Section at_each.
Context {W : Type} `{!SpcomEnv W}.
Abbreviation ok i Q := (respects (keeps (W := W) (at_each i Q))).
Lemma at_mod_ch i Q k f : (∀ c, Q k c → Q k (f c)) → ok i Q (mod_ch k f).
Proof.
  intros H. apply keeps_mod_ch. intros d c _ [Hd Hi]. split; [by eapply each_alter|].
  cbn. rewrite list_lookup_alter. case_decide as Hk; [rewrite Hk; by apply fmap_is_Some|done].
Qed.
Lemma at_mod_dev i Q f : (∀ d, channels (f d) = channels d) → ok i Q (mod_dev f).
Proof. intros H. apply keeps_mod_dev. intros d _. unfold at_each, each. by rewrite H. Qed.
End at_each.
#[export] Hint Extern 2 (respects (keeps (at_each _ _)) (mod_dev _)) => apply at_mod_dev; reflexivity : resp.
Ltac solve_waits :=
  idtac; try apply keeps_mod_buf; apply at_mod_ch;
  let H1 := fresh in let H2 := fresh in let E := fresh in
  intros ? [H1 H2]; split; [intros E; destruct (H1 E) as (? & ? & ? & ? & ? & ?); split_and!; cbn; auto | exact H2].

Section waits.
Context {W : Type} `{!SpcomEnv W} (i : nat) (nm : list Z) (Hnm : nm ≠ []) (t : Z).
Abbreviation machine := (machine spcom_device W spcom_event).
Abbreviation I f := (at_each i (waits i nm t f)).
Abbreviation ok f := (respects (keeps (W := W) (I f))).

Lemma waits_other k c f d : I f d → channels d !! k = Some c → name c ≠ nm → k ≠ i.
Proof. intros [H _] Hc Hn ->. destruct (H _ _ Hc) as [H1 _]. by destruct (H1 eq_refl). Qed.
(** An update of another channel that does not take the name. *)
Lemma waits_mod_other f k g :
  k ≠ i → (∀ c, name c ≠ nm → name (g c) ≠ nm) → ok f (mod_ch k g).
Proof. intros Hk Hg. apply at_mod_ch. intros c [H1 H2]. split; [done|]. auto. Qed.
Lemma waits_rpdev_probe f nm' : nm' ≠ nm → ok f (spcom_rpdev_probe nm').
Proof.
  intros Hn. unfold spcom_rpdev_probe. do 3 (apply respects_bind; [typeclasses eauto|resp|]; let x := fresh "x" in intros x).
  destruct (negb _); [resp|]. intros m a m' (r & m1 & E & H)%bind_inv HI. apply find_inv in E as [-> ->].
  destruct (first_index _ _) as [k|] eqn:Ek; [|by injection H as <- <-].
  apply first_index_Some in Ek as (c & Hc & En%name_eqb_eq & _).
  assert (k ≠ i) as Hk by (eapply waits_other; [done..|congruence]).
  revert H HI. by_keeps (I f). resp_deep ltac:(first [apply waits_mod_other; [exact Hk|auto] | solve_waits]).
Qed.
Lemma waits_register f k : ok f (spcom_register_rpmsg_drv k).
Proof.
  intros m a m' (c & m1 & E & H)%bind_inv HI. apply get_ch_inv in E as (-> & _ & Hc).
  destruct (rpdrv c) eqn:Ed; [by injection H as <- <-|]. destruct (proj1 HI _ _ Hc) as [H1 H2].
  assert (k ≠ i) as Hk by (intros Hk; destruct (H1 Hk) as (_ & ? & _); congruence).
  pose proof (waits_rpdev_probe f _ (H2 Hk)).
  revert H HI. by_keeps (I f). resp_deep ltac:(first [apply waits_mod_other; [exact Hk|auto] | solve_waits]).
Qed.
Lemma waits_create f raw sh : ok f (spcom_create_channel raw sh).
Proof.
  intros m a m' (d & m1 & E & H)%bind_inv HI. apply get_dev_inv in E as (-> & -> & Ha).
  destruct (is_valid_ch_name raw) eqn:Ev; cbn [negb] in H; [|by injection H as <- <-].
  destruct (is_control_channel_name raw); [by injection H as <- <-|].
  apply bind_inv in H as (r & m2 & E & H). apply find_inv in E as [-> ->].
  destruct (first_index _ _) as [k|] eqn:Ef; [revert H HI; by_keeps (I f); resp|].
  apply bind_inv in H as (r & m2 & E & H). apply find_inv in E as [-> ->].
  destruct (first_index _ _) as [k|] eqn:Ek in H; [|by injection H as <- <-].
  apply first_index_Some in Ek as (c & Hc & En%name_eqb_eq & _).
  assert (k ≠ i) as Hk by (eapply waits_other; [done..|congruence]).
  unfold is_valid_ch_name in Ev. apply andb_true_iff in Ev as [_ Ev%Z.ltb_lt].
  assert (cstr raw ≠ nm) as Hn.
  { intros <-. destruct HI as [HI [ci Ei]]. apply (not_found _ _ Ef). unfold names. rewrite list_elem_of_fmap.
    exists ci. split; [|by eapply list_elem_of_lookup_2]. destruct (HI _ _ Ei) as [H1 _].
    by destruct (H1 eq_refl). }
  revert H HI. by_keeps (I f). unfold spcom_init_channel. resp. apply waits_mod_other; [done|].
  intros c1 _. cbn. by rewrite strscpy_fits.
Qed.
Lemma waits_take_role f item : ok f (take_role item).
Proof.
  intros m a m' (c & m1 & E & H)%bind_inv HI. apply get_ch_inv in E as (-> & _ & Hc).
  destruct (comm_role_undefined c) eqn:Eu; [|by injection H as <- <-].
  assert (it_ch item ≠ i) as Hk.
  { intros Hk. destruct (proj1 HI _ _ Hc) as [H1 _]. destruct (H1 Hk) as (_ & _ & ? & _). congruence. }
  revert H HI. by_keeps (I f). resp_deep ltac:(apply waits_mod_other; [exact Hk|auto]).
Qed.
Lemma waits_disconnect f k : k ≠ i → ok f (spcom_rpdev_remove (Some k)).
Proof. intros Hk. resp_deep ltac:(first [apply waits_mod_other; [exact Hk|auto] | solve_waits]). Qed.
Hint Resolve waits_create waits_register waits_take_role waits_disconnect waits_rpdev_probe : resp.
Lemma waits_action f a : steady i nm a → ok f (run_action a).
Proof. destruct a; cbn [steady]; intros Hs; resp_deep solve_waits. Qed.
Lemma waits_meanwhile f : (∀ w, Forall (steady i nm) (others w).1) → ok f meanwhile.
Proof.
  intros Hs. unfold meanwhile. apply respects_bind_val with (P := Forall (steady i nm)).
  - typeclasses eauto.
  - intros [d w l] a m'. rewrite ask_ret. intros [= <- <-]. apply Hs.
  - resp.
  - induction 1 as [|a l Ha Hl IH]; cbn [run_actions]; [resp|].
    apply respects_bind; [typeclasses eauto|by apply waits_action|done].
Qed.

(** *** Sending *)

Hypothesis Hsteady : ∀ w, Forall (steady i nm) (others w).1.
Lemma waits_tx_loop n tx limit time : ok false (tx_loop n i tx limit time).
Proof. pose proof (waits_meanwhile false Hsteady). resp_deep solve_waits. Qed.
Lemma tx_loop_sends n tx limit time (m m' : machine) :
  tx_loop n i tx limit time m = Ret (0, m') → last (log m') = Some (SpSend i tx 0).
Proof.
  revert time m. induction n as [|n IH]; intros time m; cbn [tx_loop]; [done|].
  intros (c & m1 & _ & H)%bind_inv. destruct (rpmsg_abort c); [done|]. destruct (rpdev c); cbn [negb] in H; [|done].
  apply bind_inv in H as (r & m2 & _ & H). apply bind_inv in H as (u & m3 & E & H). injection E as <- <-.
  destruct (Z.eqb_spec r 0) as [->|Hr].
  - injection H as <-. cbn. apply last_snoc.
  - apply bind_inv in H as (u1 & m4 & _ & H). apply bind_inv in H as (u2 & m5 & _ & H).
    apply bind_inv in H as (u3 & m6 & _ & H). apply bind_inv in H as (u4 & m7 & _ & H).
    destruct (_ && _); [by eapply IH|]. by injection H as -> ->.
Qed.
End waits.

Section exchange.
Context {W : Type} `{!SpcomEnv W} (i : nat) (nm : list Z).
Abbreviation machine := (machine spcom_device W spcom_event).

Lemma at_get Q (m m' : machine) c :
  get_ch i m = Ret (c, m') → at_each i Q (drv m) → m' = m ∧ channels (drv m) !! i = Some c ∧ Q i c.
Proof. intros (-> & _ & Hc)%get_ch_inv [H _]. eauto. Qed.
Lemma at_set Q R f (m m' : machine) u :
  mod_ch i f m = Ret (u, m') → (∀ c, channels (drv m) !! i = Some c → Q i c → R i (f c)) →
  (∀ j c, j ≠ i → Q j c → R j c) → at_each i Q (drv m) → at_each i R (drv m') ∧ log m' = log m.
Proof.
  intros (c & m1 & E & H)%bind_inv Hf Hn HI. destruct (at_get _ _ _ _ E HI) as (-> & Hc & Hq).
  injection H as <- <-. split; [|done]. split.
  - intros j cj. cbn. destruct (decide (j = i)) as [->|Hj].
    + rewrite list_lookup_alter_eq, Hc. intros [= <-]. by apply Hf.
    + rewrite list_lookup_alter_ne by done. intros Hcj. apply Hn; [done|]. by apply HI.
  - cbn. by rewrite list_lookup_alter_eq, Hc.
Qed.
(** Whose role is settled. *)
Definition settled_client (j : nat) (c : spcom_channel) : Prop := waits i nm (txn_id c) false j c.
Lemma take_client_role_settles (m m' : machine) u :
  take_client_role i m = Ret (u, m') → at_each i (client i nm) (drv m) → at_each i settled_client (drv m').
Proof.
  intros (c & m1 & E & H)%bind_inv HI. destruct (at_get _ _ _ _ E HI) as (-> & Hc & Hq).
  assert (∀ j c, j ≠ i → client i nm j c → settled_client j c) as Hn by (intros j c1 Hj [_ H2]; by split).
  destruct (comm_role_undefined c) eqn:Eu.
  - refine (proj1 (at_set _ settled_client _ _ _ _ H _ Hn HI)). intros c1 _ [H1 _]. split; [|done].
    intros _. destruct (H1 eq_refl) as (? & ? & _). by split_and!; cbn.
  - injection H as <- <-. destruct HI as [HI Hs]. split; [|done]. intros j cj Hcj.
    destruct (decide (j = i)) as [->|Hj]; [|by apply Hn, HI]. rewrite Hc in Hcj. injection Hcj as <-.
    split; [|done]. intros _. destruct Hq as [H1 _]. destruct (H1 eq_refl) as (? & ? & [?|?]); [congruence|].
    by split_and!.
Qed.
Lemma next_txn_waits timeout (m m' : machine) t :
  next_txn i timeout m = Ret (t, m') → at_each i settled_client (drv m) →
  is_u32 t ∧ at_each i (waits i nm t false) (drv m').
Proof.
  intros (c & m1 & E & H)%bind_inv HI. destruct (at_get _ _ _ _ E HI) as (-> & Hc & Hq). destruct Hq as [Hq _].
  destruct (Hq eq_refl) as (_ & _ & _ & Es & _). rewrite Es in H. cbn [negb] in H.
  apply bind_inv in H as (u & m1 & Em & H). set (t' := u32 (txn_id c + 1)).
  assert (at_each i (waits i nm t' false) (drv m1)) as HI1.
  { refine (proj1 (at_set _ (waits i nm t' false) _ _ _ _ Em _ _ HI)).
    - intros c1 Hc1 [H1 _]. rewrite Hc in Hc1. injection Hc1 as <-. split; [|done].
      intros _. destruct (H1 eq_refl) as (? & ? & ? & ? & _). by split_and!.
    - intros j c1 Hj [_ H2]. by split. }
  apply bind_inv in H as (c1 & m2 & E1 & H). destruct (at_get _ _ _ _ E1 HI1) as (-> & Hc1 & Hq1).
  injection H as <- <-. destruct Hq1 as [Hq1 _]. destruct (Hq1 eq_refl) as (_ & _ & _ & _ & -> & _).
  split; [apply Z.mod_pos_bound; lia|done].
Qed.
Lemma drop_stale_fresh t (m m' : machine) u :
  drop_stale i m = Ret (u, m') → at_each i (waits i nm t false) (drv m) → at_each i (waits i nm t true) (drv m').
Proof.
  intros (c & m1 & E & H)%bind_inv HI. destruct (at_get _ _ _ _ E HI) as (-> & Hc & Hq).
  assert (∀ j c, j ≠ i → waits i nm t false j c → waits i nm t true j c) as Hn by (intros j c1 Hj [_ H2]; by split).
  assert (rpmsg_rx_buf c = None ∨ rx_buf_txn_id c = t → at_each i (waits i nm t true) (drv m)) as Hdone.
  { intros Hf. destruct HI as [HI Hs]. split; [|done]. intros j cj Hcj.
    destruct (decide (j = i)) as [->|Hj]; [|by apply Hn, HI]. rewrite Hc in Hcj. injection Hcj as <-.
    split; [|done]. intros _. destruct Hq as [H1 _]. destruct (H1 eq_refl) as (? & ? & ? & ? & ? & _). by split_and!. }
  assert (txn_id c = t) as Et by (destruct Hq as [H1 _]; by destruct (H1 eq_refl) as (_ & _ & _ & _ & ? & _)).
  destruct (Z.eqb_spec (rx_buf_txn_id c) (txn_id c)) as [Ef|]; cbn [negb] in H.
  { injection H as <- <-. apply Hdone. right. congruence. }
  destruct (rpmsg_rx_buf c) as [p|] eqn:Ep; [|injection H as <- <-; auto].
  apply bind_inv in H as (u1 & m1 & E1 & H). apply bind_inv in E1 as (c1 & m2 & E2 & E1).
  destruct (at_get _ _ _ _ E2 HI) as (-> & Hc1 & _). rewrite Hc in Hc1. injection Hc1 as <-. rewrite Ep in E1.
  apply bind_inv in E1 as (u2 & m2 & E3 & E1).
  assert (respects (keeps (W := W) (at_each i (waits i nm t false))) (kfree_packet p)) as Hk by resp_deep solve_waits.
  apply (Hk _ _ _ E3) in HI.
  destruct (at_set (waits i nm t false) (waits i nm t true) _ _ _ _ E1) as [H1 _]; [|exact Hn|exact HI|].
  { intros c1 _ [H1 _]. split; [|done]. intros _. destruct (H1 eq_refl) as (? & ? & ? & ? & ? & _). split_and!; cbn; auto. }
  revert H H1. by_keeps (at_each i (waits i nm t true)). solve_waits.
Qed.
Lemma consume_answers t size (m m' : machine) l :
  consume i size m = Ret (inr l, m') → answers (drv m) → at_each i (waits i nm t true) (drv m) →
  sizeof_hdr <= len l → hdr_txn l = t.
Proof.
  intros (c & m1 & E & H)%bind_inv HA HI Hl. destruct (at_get _ _ _ _ E HI) as (-> & Hc & [Hq _]).
  destruct (Hq eq_refl) as (_ & _ & _ & Es & Et & Hf). destruct (rpmsg_rx_buf c) as [p|] eqn:Ep.
  2: { by apply bind_inv in H as (u & m1 & _ & H). }
  destruct (Hf eq_refl) as [?|Ef]; [done|].
  apply bind_inv in H as (l0 & m1 & E1 & H). apply bind_inv in E1 as (d & m2 & Ed & E1).
  apply get_dev_inv in Ed as (-> & -> & _). destruct (packets (drv m) !! p) as [l1|] eqn:Epk; [|done].
  injection E1 as <- <-. destruct (_ <? _); [done|].
  do 3 (apply bind_inv in H as (? & ? & _ & H)). injection H as <- _.
  rewrite hdr_txn_take by done. destruct HA as [HA _]. destruct (HA _ _ Hc p Ep) as (_ & _ & [?|Hh]); [congruence|].
  by rewrite (Hh _ Epk).
Qed.
Hypothesis Hnm : nm ≠ [].
Hypothesis Hsteady : ∀ w, Forall (steady i nm) (others w).1.
Lemma send_waits cmd (m m' : machine) :
  spcom_handle_send_command i cmd m = Ret (0, m') → at_each i (client i nm) (drv m) →
  ∃ t, is_u32 t ∧ at_each i (waits i nm t false) (drv m')
    ∧ last (log m') = Some (SpSend i (message t (drop 12 cmd)) 0).
Proof.
  unfold spcom_handle_send_command. destruct (_ <? _); [done|]. intros (c & m1 & E & H)%bind_inv HI.
  destruct (at_get _ _ _ _ E HI) as (-> & _). destruct (negb _); [done|]. cbv zeta in H.
  destruct (_ <? _); [done|]. destruct (negb _); [done|]. apply bind_inv in H as (b & m1 & E1 & H).
  destruct (negb b); [done|]. apply (keeps_ask (at_each i (client i nm)) kzalloc _ _ _ E1) in HI.
  apply bind_inv in H as (u & m2 & E2 & H).
  assert (respects (keeps (W := W) (at_each i (client i nm))) (mutex_lock i)) as Hk.
  { resp_deep ltac:(apply at_mod_ch; intros ? []; by split). }
  apply (Hk _ _ _ E2) in HI. clear Hk E E1 E2. apply bind_inv in H as (u1 & m3 & E & H).
  apply (take_client_role_settles _ _ _ E) in HI. apply bind_inv in H as (t & m4 & E1 & H).
  destruct (next_txn_waits _ _ _ _ E1 HI) as [Ht HI4]. clear E E1 HI.
  apply bind_inv in H as (ret & m5 & E & H). apply bind_inv in H as (u2 & m6 & E6 & H).
  apply bind_inv in H as (u3 & m7 & E7 & H). injection H as -> <-. exists t. split; [done|].
  pose proof (tx_loop_sends i _ _ _ _ _ _ E) as Hl. apply (waits_tx_loop i nm Hnm t Hsteady _ _ _ _ _ _ _ E) in HI4.
  apply bind_inv in E6 as (c6 & m8 & E6 & Hr). destruct (at_get _ _ _ _ E6 HI4) as (-> & _ & [Hq _]).
  destruct (Hq eq_refl) as (_ & _ & _ & Es & _). rewrite Es in Hr. injection Hr as <- <-.
  destruct (at_set (waits i nm t false) (waits i nm t false) _ _ _ _ E7) with (3 := HI4) as [H7 Hl7]; [by intros ? _ []; split|done|].
  split; [done|]. by rewrite Hl7.
Qed.
Lemma rx_answers t size timeout (m m' : machine) l :
  spcom_rx i size timeout m = Ret (inr l, m') → answers (drv m) → at_each i (waits i nm t false) (drv m) →
  sizeof_hdr <= len l → hdr_txn l = t.
Proof.
  intros (u & m1 & E & H)%bind_inv HA HI Hl.
  assert (∀ f, respects (keeps (W := W) (at_each i (waits i nm t f))) (mutex_lock i)) as Hk1
    by (intros; resp_deep solve_waits).
  assert (respects (keeps (W := W) answers) (mutex_lock i)) as Hk2 by resp_deep solve_answers.
  apply (Hk1 _ _ _ _ E) in HI. apply (Hk2 _ _ _ E) in HA. clear E m.
  apply bind_inv in H as (u1 & m & E & H). apply (drop_stale_fresh _ _ _ _ E) in HI.
  assert (respects (keeps (W := W) answers) (drop_stale i)) as Hk3 by resp_deep solve_answers.
  apply (Hk3 _ _ _ E) in HA. clear E m1 Hk3. apply bind_inv in H as (c & m1 & E & H).
  destruct (at_get _ _ _ _ E HI) as (-> & _). destruct (_ =? 0); [|by eapply consume_answers].
  apply bind_inv in H as (u2 & m1 & E1 & H). apply bind_inv in H as (u3 & m2 & E2 & H).
  apply bind_inv in H as (r & m3 & E3 & H). apply bind_inv in H as (u4 & m4 & E4 & H).
  assert (at_each i (waits i nm t true) (drv m4)) as HI4.
  { apply (Hk1 _ _ _ _ E4). revert E3.
    assert (respects (keeps (W := W) (at_each i (waits i nm t true))) (wait_rx_done timeout)) as Hw.
    { pose proof (waits_meanwhile i nm Hnm t true Hsteady). resp_deep solve_waits. }
    intros E3. apply (Hw _ _ _ E3).
    assert (respects (keeps (W := W) (at_each i (waits i nm t true))) (mod_ch i (fun c => c <| rx_done := false |>)))
      as Hm by (by apply at_mod_ch).
    assert (respects (keeps (W := W) (at_each i (waits i nm t true))) (mutex_unlock i)) as Hu by (by apply at_mod_ch).
    by apply (Hu _ _ _ E2), (Hm _ _ _ E1). }
  assert (answers (drv m4)) as HA4.
  { assert (respects (keeps (W := W) answers) (wait_rx_done timeout)) as Hw
      by (pose proof (answers_meanwhile (W := W)); resp_deep solve_answers).
    apply (Hk2 _ _ _ E4), (Hw _ _ _ E3).
    assert (respects (keeps (W := W) answers) (mod_ch i (fun c => c <| rx_done := false |>))) as Hm
      by solve_answers.
    assert (respects (keeps (W := W) answers) (mutex_unlock i)) as Hu by resp_deep solve_answers.
    by apply (Hu _ _ _ E2), (Hm _ _ _ E1). }
  clear E E1 E2 E3 E4 HI HA. apply bind_inv in H as (c4 & m5 & E & H).
  destruct (at_get _ _ _ _ E HI4) as (-> & _). unfold rx_error in H.
  destruct (_ && _). { apply bind_inv in H as (? & ? & _ & H). by apply bind_inv in H as (? & ? & _ & H). }
  destruct (rpmsg_abort c4); [by apply bind_inv in H as (? & ? & _ & H)|].
  destruct (r <? 0); [by apply bind_inv in H as (? & ? & _ & H)|].
  destruct (negb _); [|by apply bind_inv in H as (? & ? & _ & H)]. by eapply consume_answers.
Qed.
End exchange.

(** C3: Answers match requests.  From the loading of the driver on, no two channels
    have the same name; and a client whose request was sent, and who then receives
    a message with a header, receives one whose identifier is the identifier of the
    request it sent last, whatever other packets arrived before, between and after,
    as long as the transport's session on that channel lasts. *)
Theorem answers_match_requests {W} `{!SpcomEnv W} (m0 m : machine spcom_device W spcom_event) :
  unloaded m0 → rtc step m0 m →
  unique (drv m)
  ∧ ∀ i c cmd size timeout l m1 m2,
      channels (drv m) !! i = Some c → name c ≠ [] → rpdrv c = true →
      (comm_role_undefined c = true ∨ is_server c = false) →
      (∀ w, Forall (steady i (name c)) (others w).1) →
      spcom_handle_send_command i cmd m = Ret (0, m1) → spcom_rx i size timeout m1 = Ret (inr l, m2) →
      sizeof_hdr <= len l →
      ∃ tx, last (log m1) = Some (SpSend i tx 0) ∧ hdr_txn l = hdr_txn tx.
Proof.
  intros (_ & Hd & _ & Hr) Hs.
  assert (unique (drv m)) as HU.
  { refine (rtc_keeps step (fun m => unique (drv m)) _ _ _ Hs _).
    - intros m1 m2 (o & ret & H). by apply (unique_op o _ _ _ H).
    - intros i j nm Hi. unfold names in Hi. by rewrite Hd in Hi. }
  assert (answers (drv m)) as HA.
  { refine (rtc_keeps step (fun m => answers (drv m)) _ _ _ Hs _).
    - intros m1 m2 (o & ret & H). by apply (answers_op o _ _ _ H).
    - split; [intros i c; by rewrite Hd|by rewrite Hr]. }
  split; [done|]. intros i c cmd size timeout l m1 m2 Hc Hn Hp Hrole Hst E1 E2 Hl.
  assert (at_each i (client i (name c)) (drv m)) as HI.
  { split; [|done]. intros j cj Hcj. split.
    - intros ->. rewrite Hc in Hcj. by injection Hcj as <-.
    - intros Hj En. apply Hj. apply (HU j i (name c)); [| |done]; unfold names; rewrite list_lookup_fmap, ?Hcj, ?Hc; cbn; by rewrite ?En. }
  destruct (send_waits i (name c) Hn Hst cmd _ _ E1 HI) as (t & Ht & HI1 & Hlog). exists (message t (drop 12 cmd)).
  split; [done|]. rewrite hdr_txn_message by done.
  assert (respects (keeps (W := W) answers) (spcom_handle_send_command i cmd)) as Hk
    by (pose proof (answers_meanwhile (W := W)); resp_deep solve_answers).
  exact (rx_answers i (name c) Hn Hst t size timeout _ _ l E2 (Hk _ _ _ E1 HA) HI1 Hl).
Qed.
(** In each wait packets arrive on the kernel's channel: here a stale one, then the
    answer. *)
Definition packets_env : SpcomEnv (list (list (list Z))) :=
  sim (fun w => match w with [] => ([], []) | l :: w => (flat_map (fun d => [APacket 0 d; AWork]) l, w) end).
Definition stale_and_answer : list (list (list Z)) := [[message 77 [5]; message (INITIAL_TXN_ID + 1) [9; 9]]].
Definition loaded_ops : list op := [OpProbe None; OpOpen 7 sp_kernel].
Lemma answers_match_requests_witness :
  let env := packets_env in
  ∃ m m1 m2 tx,
    run_ops loaded_ops (mkM unloaded_device stale_and_answer []) = Ret (tt, m)
    ∧ spcom_handle_send_command 0 (send_command [1; 2; 3]) m = Ret (0, m1)
    ∧ spcom_rx 0 300 1000 m1 = Ret (inr (message (INITIAL_TXN_ID + 1) [9; 9]), m2)
    ∧ last (log m1) = Some (SpSend 0 tx 0) ∧ hdr_txn (message (INITIAL_TXN_ID + 1) [9; 9]) = hdr_txn tx.
Proof.
  intros env.
  assert (∃ m m1 m2 c, run_ops loaded_ops (mkM unloaded_device stale_and_answer []) = Ret (tt, m)
    ∧ spcom_handle_send_command 0 (send_command [1; 2; 3]) m = Ret (0, m1)
    ∧ spcom_rx 0 300 1000 m1 = Ret (inr (message (INITIAL_TXN_ID + 1) [9; 9]), m2)
    ∧ channels (drv m) !! 0%nat = Some c
    ∧ (name c = sp_kernel ∧ rpdrv c = true ∧ comm_role_undefined c = true))
    as (m & m1 & m2 & c & E & E1 & E2 & Ec & En & Ed & Eu)
    by (do 4 eexists; split; [vm_compute; reflexivity|]; split; [vm_compute; reflexivity|];
        split; [vm_compute; reflexivity|]; split; [vm_compute; reflexivity|]; vm_compute; repeat split).
  destruct (answers_match_requests (mkM unloaded_device stale_and_answer []) m
    (conj eq_refl (conj eq_refl (conj eq_refl eq_refl))) (run_ops_steps _ _ _ E)) as [_ H].
  assert (name c ≠ []) as Hn by (by rewrite En).
  assert (∀ w, Forall (steady 0 (name c)) (others w).1) as Hs.
  { intros [|l w]; [constructor|]. cbn. induction l as [|d l IH]; [constructor|].
    cbn [flat_map app]. constructor; [exact I|]. constructor; [exact I|exact IH]. }
  destruct (H 0%nat c _ _ _ _ m1 m2 Ec Hn Ed (or_introl Eu) Hs E1 E2) as (tx & Hl & Ht);
    [vm_compute; discriminate|].
  exists m, m1, m2, tx. split; [exact E|]. split; [exact E1|]. split; [exact E2|]. split; [exact Hl|exact Ht].
Defined.
