(* ===== verification/K250a.v ===== *)
(** [snvm/sec_k250a.c]: the board side of the secure element: its supply, its reset
    line, and the module that adds it to the tablet's I2C bus and takes it away again.
    The configuration is the one that is built: no platform driver, no clock control,
    no internal pull-ups.  The kernel frameworks and [star_open] are the environment. *)
From Stdlib Require Import Ascii String.
From S2P Require Import Prelude Bus.
#[local] Open Scope Z_scope.
#[local] Open Scope list_scope.

Definition K250A_RPMH_VOLTAGE_MV := 1800.
Definition K250A_RPMH_MODE_HPM := 7.
Definition RPMH_VRM_VOLTAGE_OFFSET := 0.
Definition RPMH_VRM_ENABLE_OFFSET := 4.
Definition RPMH_VRM_MODE_OFFSET := 8.

(** Clients of the bus: the one the module makes, one of the device tree. *)
Inductive k250a_client := Compat | Tree.

(** [struct k250a_dev]: pointers that are only compared with NULL are booleans.
    [star]: NULL or the structure; [stars], [next_star]: the live ones;
    [compat_client]: NULL or whether a driver is bound to it.  [registered],
    [tree_bound]: what the I2C core knows of the driver. *)
Record k250a_dev := mkK250a {
  client : option k250a_client; vdd : bool; reset_gpio : Z; nvm_on_pin : bool; nvm_off_pin : bool;
  star : option nat; stars : list nat; next_star : nat; controller_np : bool; controller_pdev : bool;
  compat_client : option bool; rpmh_pdev : bool; rpmh_ldo_addr : Z; controller_ocs_ready : bool;
  controller_ocs_applied : bool; controller_pdev_owned : bool; rpmh_powered : bool;
  registered : bool; tree_bound : bool
}.
#[export] Instance eta_k250a : Eta k250a_dev := fun r =>
  mkK250a (client r) (vdd r) (reset_gpio r) (nvm_on_pin r) (nvm_off_pin r) (star r) (stars r) (next_star r)
    (controller_np r) (controller_pdev r) (compat_client r) (rpmh_pdev r) (rpmh_ldo_addr r)
    (controller_ocs_ready r) (controller_ocs_applied r) (controller_pdev_owned r) (rpmh_powered r)
    (registered r) (tree_bound r).

(** What is held with a reference: nodes of the tree, devices. *)
Inductive k250a_handle :=
  | PmicNode | RpmhDev | ControllerNode | ControllerRef | ParentNode | ParentDev | Adapter | ResetGpio.
#[export] Instance handle_eq_dec : EqDecision k250a_handle.
Proof. solve_decision. Defined.
Inductive k250a_event :=
  | KVote (cmds : list (Z * Z)) (ret : Z)                 (* [rpmh_write] *)
  | KVdd (on : bool) (ret : Z) | KPins (on : bool) (ret : Z) | KReset (v : Z)
  | KSleep (us : Z)                                       (* at least *)
  | KGet (h : k250a_handle) | KPut (h : k250a_handle)
  | KDriver (on : bool) | KClient (on : bool) | KController (on : bool)
  | KBegin | KDestroy | KApply (ret : Z) | KRevert
  | KStar (on : bool) (s : nat).

(** What the node of a client says, and what its resources answer. *)
Record client_node := mkNode {
  n_vdd : bool; n_reset : option Z; n_request : Z; n_direction : Z; n_pinctrl : Z; n_on : bool; n_off : bool
}.
Class K250aEnv (W : Type) := {
  rpmh_write : list (Z * Z) → W → Z * W;
  regulator_enable : W → Z * W;
  regulator_disable : W → Z * W;
  pinctrl_select_state : bool → W → Z * W;
  (** The [qcom,pmic-id] of the regulators' nodes, when it can be read. *)
  pmic_nodes : W → list (option string) * W;
  of_find_device_by_node : k250a_handle → W → bool * W;
  cmd_db_read_addr : string → W → Z * W;
  (** The result, and the node of a client that waits for the driver. *)
  i2c_add_driver : W → (Z * option client_node) * W;
  of_find_node_by_path : string → W → bool * W;
  of_changeset_update_prop_string : string → string → W → Z * W;
  of_changeset_apply : W → Z * W;
  of_platform_device_create : W → bool * W;
  of_find_i2c_adapter_by_node : W → bool * W;
  i2c_new_client_device : W → Z * W;
  star_open : W → bool * W;
}.

Section k250a.
Context {W : Type} `{!K250aEnv W}.
Abbreviation M := (M (machine k250a_dev W k250a_event)).

(** ** Power *)

Definition k250a_rpmh_power (enable : bool) : M Z :=
  d ← get_drv;
  if negb (rpmh_pdev d) || (rpmh_ldo_addr d =? 0) then mret (- ENODEV)
  else if Bool.eqb (rpmh_powered d) enable then mret 0
  else
    let addr off := u32 (rpmh_ldo_addr d + off) in
    let cmds := if enable then [(addr RPMH_VRM_VOLTAGE_OFFSET, K250A_RPMH_VOLTAGE_MV);
                                (addr RPMH_VRM_MODE_OFFSET, K250A_RPMH_MODE_HPM);
                                (addr RPMH_VRM_ENABLE_OFFSET, 1)]
                else [(addr RPMH_VRM_ENABLE_OFFSET, 0)] in
    ret ← ask (rpmh_write cmds);
    emit (KVote cmds ret);;
    (if ret =? 0 then mod_drv (fun d => d <| rpmh_powered := enable |>) else skip);;
    mret ret.

Definition gpio_pulse (d : k250a_dev) : M unit := emit (KReset 0);; emit (KSleep 1000);; emit (KReset 1).
Definition k250a_poweron : M Z :=
  d ← get_drv;
  if negb (vdd d) then
    if rpmh_pdev d then
      ret ← k250a_rpmh_power true;
      (if ret =? 0 then emit (KSleep 20000) else skip);; mret ret
    else if reset_gpio d =? 0 then mret (- ENODEV)
    else (gpio_pulse d;; emit (KSleep 20000);; mret 0)
  else
    ret ← ask regulator_enable;
    emit (KVdd true ret);;
    if negb (ret =? 0) then mret ret
    else
      emit (KSleep 1000);;
      (if nvm_on_pin d then ret ← ask (pinctrl_select_state true); emit (KPins true ret) else skip);;
      emit (KSleep 20000);;
      mret 0.
Definition k250a_poweroff : M Z :=
  d ← get_drv;
  if negb (vdd d) then
    if rpmh_pdev d then
      ret ← k250a_rpmh_power false;
      (if ret =? 0 then emit (KSleep 15000) else skip);; mret ret
    else mret (- ENODEV)
  else
    (if nvm_off_pin d then ret ← ask (pinctrl_select_state false); emit (KPins false ret) else skip);;
    ret ← ask regulator_disable;
    emit (KVdd false ret);;
    if negb (ret =? 0) then mret ret else (emit (KSleep 15000);; mret 0).
Definition k250a_reset : M Z :=
  d ← get_drv;
  if reset_gpio d =? 0 then mret (- ENODEV) else (gpio_pulse d;; emit (KSleep 15000);; mret 0).

(** ** The client *)

(** [star_open], [star_close]: the character device, by its structure. *)
Definition open_star : M (option nat) :=
  ok ← ask star_open;
  if negb ok then mret None
  else
    d ← get_drv;
    mod_drv (fun d => d <| stars ::= cons (next_star d) |> <| next_star ::= S |>);;
    emit (KStar true (next_star d));;
    mret (Some (next_star d)).
Definition star_close (s : option nat) : M unit :=
  match s with
  | None => skip
  | Some s =>
      d ← get_drv;
      if bool_decide (s ∈ stars d)
      then (emit (KStar false s);; mod_drv (fun d => d <| stars ::= filter (fun x => x ≠ s) |>)) else fault
  end.

Definition get_reset_gpio (n : client_node) : M unit :=
  match n_reset n with
  | None => mod_drv (fun d => d <| reset_gpio := 0 |>)
  | Some g =>
      mod_drv (fun d => d <| reset_gpio := g |>);;
      if n_request n <? 0 then mod_drv (fun d => d <| reset_gpio := 0 |>)
      else (emit (KGet ResetGpio);; if n_direction n <? 0 then skip else emit (KReset 1))
  end.
Definition get_pins (n : client_node) : M unit :=
  mod_drv (fun d => d <| nvm_on_pin := n_on n |> <| nvm_off_pin := n_off n |>);;
  if n_off n then ret ← ask (pinctrl_select_state false); emit (KPins false ret) else skip.
Definition open_client (c : k250a_client) : M Z :=
  mod_drv (fun d => d <| client := Some c |>);;
  s ← open_star;
  mod_drv (fun d => d <| star := s |>);;
  mret (match s with None => - ENODEV | Some _ => 0 end).
(** [np]: the client's node. *)
Definition k250a_probe (np : option client_node) (c : k250a_client) : M Z :=
  match np with
  | None => open_client c
  | Some n =>
      mod_drv (fun d => d <| vdd := n_vdd n |>);;
      get_reset_gpio n;;
      if n_pinctrl n <? 0 then mret (n_pinctrl n) else (get_pins n;; open_client c)
  end.
Definition k250a_remove : M unit :=
  d ← get_drv;
  (if negb (reset_gpio d =? 0) then emit (KPut ResetGpio) else skip);;
  star_close (star d).

(** The I2C core: a new client, and a new driver, are bound at once. *)
Definition new_client : M (Z + bool) :=
  ret ← ask i2c_new_client_device;
  if ret <? 0 then mret (inl ret)
  else
    emit (KClient true);;
    d ← get_drv;
    if registered d then ret ← k250a_probe None Compat; mret (inr (ret =? 0)) else mret (inr false).
Definition i2c_unregister_device (bound : bool) : M unit :=
  (if bound then k250a_remove else skip);; emit (KClient false).
Definition add_driver : M Z :=
  '(ret, waiting) ← ask i2c_add_driver;
  if negb (ret =? 0) then mret ret
  else
    emit (KDriver true);;
    mod_drv (fun d => d <| registered := true |>);;
    match waiting with
    | None => mret 0
    | Some n => ret ← k250a_probe (Some n) Tree; mod_drv (fun d => d <| tree_bound := ret =? 0 |>);; mret 0
    end.
Definition i2c_del_driver : M unit :=
  d ← get_drv;
  (if tree_bound d then k250a_remove else skip);;
  mod_drv (fun d => d <| registered := false |> <| tree_bound := false |>);;
  emit (KDriver false).

(** ** The module *)

(** [for_each_compatible_node]: the next step of the loop puts the node, leaving it
    does not. *)
Fixpoint find_provider (l : list (option string)) : M Z :=
  match l with
  | [] => mret (- ENODEV)
  | id :: l =>
      emit (KGet PmicNode);;
      if negb (bool_decide (id = Some "g"%string)) then (emit (KPut PmicNode);; find_provider l)
      else
        ok ← ask (of_find_device_by_node RpmhDev);
        mod_drv (fun d => d <| rpmh_pdev := ok |>);;
        if negb ok then mret (- EPROBE_DEFER)
        else
          emit (KGet RpmhDev);;
          addr ← ask (cmd_db_read_addr "ldog2");
          mod_drv (fun d => d <| rpmh_ldo_addr := u32 addr |>);;
          if u32 addr =? 0 then
            emit (KPut RpmhDev);; mod_drv (fun d => d <| rpmh_pdev := false |>);; mret (- ENODEV)
          else mret 0
  end.
Definition k250a_find_rpmh_provider : M Z := l ← ask pmic_nodes; find_provider l.

Definition k250a_remove_compat_bus : M unit :=
  d ← get_drv;
  (match compat_client d with
   | Some bound => i2c_unregister_device bound;; mod_drv (fun d => d <| compat_client := None |>)
   | None => skip
   end);;
  (if controller_pdev_owned d && controller_pdev d then emit (KController false) else skip);;
  mod_drv (fun d => d <| controller_pdev := false |> <| controller_pdev_owned := false |>);;
  (if controller_ocs_applied d
   then emit KRevert;; mod_drv (fun d => d <| controller_ocs_applied := false |>) else skip);;
  (if controller_ocs_ready d
   then emit KDestroy;; mod_drv (fun d => d <| controller_ocs_ready := false |>) else skip);;
  (if controller_np d then emit (KPut ControllerNode) else skip);;
  mod_drv (fun d => d <| controller_np := false |>).
(** [err:] *)
Definition err (ret : Z) : M Z := k250a_remove_compat_bus;; mret ret.
Definition make_client : M Z :=
  ok ← ask of_find_i2c_adapter_by_node;
  if negb ok then err (- EPROBE_DEFER)
  else
    emit (KGet Adapter);;
    r ← new_client;
    emit (KPut Adapter);;
    match r with
    | inl ret => mod_drv (fun d => d <| compat_client := None |>);; err ret
    | inr bound =>
        mod_drv (fun d => d <| compat_client := Some bound |>);;
        if negb bound then err (- ENODEV) else mret 0
    end.
Definition make_controller : M Z :=
  ok ← ask (of_find_device_by_node ControllerRef);
  mod_drv (fun d => d <| controller_pdev := ok |>);;
  if negb ok then
    emit (KGet ParentNode);;
    ok ← ask (of_find_device_by_node ParentDev);
    (if ok : bool then emit (KGet ParentDev) else skip);;
    emit (KPut ParentNode);;
    if negb ok then err (- EPROBE_DEFER)
    else
      ok ← ask of_platform_device_create;
      mod_drv (fun d => d <| controller_pdev := ok |>);;
      (if ok : bool then emit (KController true) else skip);;
      emit (KPut ParentDev);;
      if negb ok then err (- ENODEV)
      else (mod_drv (fun d => d <| controller_pdev_owned := true |>);; make_client)
  else (emit (KGet ControllerRef);; emit (KPut ControllerRef);; make_client).
Definition k250a_create_compat_bus : M Z :=
  ok ← ask (of_find_node_by_path "/soc@0/geniqup@8c0000/i2c@888000");
  mod_drv (fun d => d <| controller_np := ok |>);;
  if negb ok then mret (- ENODEV)
  else
    emit (KGet ControllerNode);;
    emit KBegin;;
    mod_drv (fun d => d <| controller_ocs_ready := true |>);;
    ret ← ask (of_changeset_update_prop_string "status" "okay");
    if negb (ret =? 0) then err ret
    else
      ret ← ask of_changeset_apply;
      emit (KApply ret);;
      if negb (ret =? 0) then err ret
      else (mod_drv (fun d => d <| controller_ocs_applied := true |>);; make_controller).

Definition err_provider (ret : Z) : M Z :=
  emit (KPut RpmhDev);; mod_drv (fun d => d <| rpmh_pdev := false |>);; mret ret.
Definition err_driver (ret : Z) : M Z := i2c_del_driver;; err_provider ret.
Definition k250a_init : M Z :=
  k250a_find_rpmh_provider ?;
  (ret ← add_driver;
   if negb (ret =? 0) then err_provider ret
   else
     ret ← k250a_create_compat_bus;
     if negb (ret =? 0) then err_driver ret else mret 0).
Definition k250a_exit : M unit :=
  k250a_remove_compat_bus;;
  i2c_del_driver;;
  d ← get_drv;
  if rpmh_pdev d then emit (KPut RpmhDev);; mod_drv (fun d => d <| rpmh_pdev := false |>) else skip.
End k250a.
