(* ===== verification/K250aProps.v ===== *)
(** [snvm/sec_k250a.c]: the supply of the secure element, on its own and under the
    character device of [sec_star.c], and what the module leaves behind. *)
From Stdlib Require Import Ascii String.
From S2P Require Import Prelude SnvmState EseData IsoT1 SecStar IsoCard StarExchange SnvmProps.
From S2P Require Import Bus K250a.
#[local] Open Scope Z_scope.
#[local] Open Scope list_scope.

(** ** The supply *)

(** The registers of the resource manager, by address, and the microseconds that
    passed at least since they changed. *)
Record rail := mkRail { regs : gmap Z Z; rested : Z }.
Definition vote (b : rail) (e : k250a_event) : rail :=
  match e with
  | KVote cmds ret =>
      if ret =? 0 then mkRail (foldl (fun m '(a, v) => <[a := v]> m) (regs b) cmds) 0 else b
  | KSleep us => mkRail (regs b) (rested b + us)
  | _ => b
  end.
Definition no_votes : rail := mkRail ∅ 0.
Definition reg_of (d : k250a_dev) (off : Z) : Z := u32 (rpmh_ldo_addr d + off).
Definition supplied (d : k250a_dev) (b : rail) : Prop :=
  regs b !! reg_of d RPMH_VRM_ENABLE_OFFSET = Some 1
  ∧ regs b !! reg_of d RPMH_VRM_VOLTAGE_OFFSET = Some K250A_RPMH_VOLTAGE_MV
  ∧ regs b !! reg_of d RPMH_VRM_MODE_OFFSET = Some K250A_RPMH_MODE_HPM.
Definition unsupplied (d : k250a_dev) (b : rail) : Prop :=
  regs b !! reg_of d RPMH_VRM_ENABLE_OFFSET ≠ Some 1.
(** The tablet: no regulator in the tree, the rail's manager found. *)
Definition tablet (d : k250a_dev) : Prop := vdd d = false ∧ rpmh_pdev d = true ∧ rpmh_ldo_addr d ≠ 0.
Definition rail_ok (d : k250a_dev) (b : rail) : Prop :=
  tablet d ∧ 0 <= rested b ∧ if rpmh_powered d then supplied d b else unsupplied d b.
(** Only the belief about the rail changes. *)
Definition but_power (d d' : k250a_dev) : Prop := d' = d <| rpmh_powered := rpmh_powered d' |>.

Section power.
Context {W : Type} `{!K250aEnv W}.
Abbreviation vc := (vc (W := W) (E := k250a_event) vote no_votes).

Lemma reg_ne d o1 o2 : 0 <= o1 < 16 → 0 <= o2 < 16 → o1 ≠ o2 → reg_of d o1 ≠ reg_of d o2.
Proof. unfold reg_of, u32. intros. Z.to_euclidean_division_equations. lia. Qed.
Lemma rpmh_power_spec on d b :
  rail_ok d b →
  vc (k250a_rpmh_power on) (fun r d' b' => rail_ok d' b' ∧ but_power d d'
    ∧ rpmh_powered d' = if r =? 0 then on else rpmh_powered d) d b.
Proof.
  intros ((Hv & Hp & Ha) & Hr & Hs). unfold k250a_rpmh_power. apply vc_bind, vc_drv.
  rewrite Hp. apply Z.eqb_neq in Ha as Ha'. rewrite Ha'. cbn [negb orb].
  destruct (Bool.eqb_spec (rpmh_powered d) on) as [<-|Hne].
  { apply vc_ret. split; [by split_and!|]. split; [by destruct d|done]. }
  cbv zeta. apply vc_bind, vc_ask. intros ret. apply vc_bind, vc_emit. cbn [vote].
  apply vc_bind. destruct (Z.eqb_spec ret 0) as [->|Hret].
  2:{ apply vc_skip, vc_ret. apply Z.eqb_neq in Hret as ->. split; [by split_and!|]. split; [by destruct d|done]. }
  apply vc_mod, vc_ret. split; [|split; [by destruct d|done]]. split; [done|]. split; [done|].
  pose proof (reg_ne d) as Hn. cbn [rpmh_powered over_field].
  unfold supplied, unsupplied, reg_of in *. cbn [rpmh_ldo_addr over_field]. cbn [regs].
  unfold RPMH_VRM_VOLTAGE_OFFSET, RPMH_VRM_MODE_OFFSET, RPMH_VRM_ENABLE_OFFSET in *.
  destruct on; cbn [foldl].
  - rewrite lookup_insert_eq. split_and!; [done| |].
    + rewrite lookup_insert_ne by (apply Hn; lia). rewrite lookup_insert_ne by (apply Hn; lia). apply lookup_insert_eq.
    + rewrite lookup_insert_ne by (apply Hn; lia). apply lookup_insert_eq.
  - by rewrite lookup_insert_eq.
Qed.
Lemma poweron_spec d b :
  rail_ok d b →
  vc k250a_poweron (fun r d' b' => rail_ok d' b' ∧ but_power d d' ∧ (r = 0 → rpmh_powered d' = true ∧ 20000 <= rested b')
    ∧ (r ≠ 0 → rpmh_powered d' = rpmh_powered d)) d b.
Proof.
  intros H. pose proof H as ((Hv & Hp & _) & _). unfold k250a_poweron. apply vc_bind, vc_drv. rewrite Hv, Hp.
  eapply vc_call; [by apply rpmh_power_spec|]. intros r d1 b1 ((Ht & Hr & Hs) & Hb & Hpw). apply vc_bind.
  destruct (Z.eqb_spec r 0) as [->|Hne]; [apply vc_emit, vc_ret|apply vc_skip, vc_ret; by split_and!].
  cbn [vote]. split; [split; [done|]; split; [cbn; lia|by destruct (rpmh_powered d1)]|].
  split; [done|]. split; [|done]. intros _. split; [done|cbn; lia].
Qed.
Lemma poweroff_spec d b :
  rail_ok d b →
  vc k250a_poweroff (fun r d' b' => rail_ok d' b' ∧ but_power d d' ∧ (r = 0 → rpmh_powered d' = false ∧ 15000 <= rested b')
    ∧ (r ≠ 0 → rpmh_powered d' = rpmh_powered d)) d b.
Proof.
  intros H. pose proof H as ((Hv & Hp & _) & _). unfold k250a_poweroff. apply vc_bind, vc_drv. rewrite Hv, Hp.
  eapply vc_call; [by apply rpmh_power_spec|]. intros r d1 b1 ((Ht & Hr & Hs) & Hb & Hpw). apply vc_bind.
  destruct (Z.eqb_spec r 0) as [->|Hne]; [apply vc_emit, vc_ret|apply vc_skip, vc_ret; by split_and!].
  cbn [vote]. split; [split; [done|]; split; [cbn; lia|by destruct (rpmh_powered d1)]|].
  split; [done|]. split; [|done]. intros _. split; [done|cbn; lia].
Qed.
Lemma k250a_reset_spec d b : rail_ok d b → vc k250a_reset (fun _ d' b' => rail_ok d' b' ∧ d' = d) d b.
Proof.
  intros (Ht & Hr & Hs). unfold k250a_reset, gpio_pulse. apply vc_bind, vc_drv. destruct (_ =? 0); [by apply vc_ret|].
  repeat vc_step. cbn [vote regs rested]. split; [|done]. split; [done|]. split; [cbn; lia|]. by destruct (rpmh_powered d).
Qed.
End power.

(** ** Under the character device

    [star_dev] of [sec_k250a.c]: the character device's power functions are the
    board's.  [W] is the world of the transport, [V] the board's. *)
Section board.
Context {W V : Type} `{!K250aEnv V} (T : SnvmEnv W).
Abbreviation board := (machine k250a_dev V k250a_event).
Definition call (c : M board Z) (w : W * board) : Z * (W * board) :=
  match c w.2 with Ret (r, b) => (r, (w.1, b)) | _ => (0, w) end.
Definition lift {A} (f : W → A * W) (w : W * board) : A * (W * board) :=
  let '(a, w1) := f w.1 in (a, (w1, w.2)).
#[local] Instance star_dev : SnvmEnv (W * board) := {|
  alloc_ok n := lift (@alloc_ok _ T n); i2c_master_send l := lift (@i2c_master_send _ T l);
  i2c_master_recv n := lift (@i2c_master_recv _ T n); spi_write l := lift (@spi_write _ T l);
  spi_read n := lift (@spi_read _ T n); usleep n w := (@usleep _ T n w.1, w.2);
  dev_power_on := call k250a_poweron; dev_power_off := call k250a_poweroff; dev_reset := call k250a_reset;
  misc_register := lift (@misc_register _ T); copy_from_user n := lift (@copy_from_user _ T n);
  copy_to_user l := lift (@copy_to_user _ T l); get_user_int := lift (@get_user_int _ T)
|}.
Definition board_of (m : snvm (W * board)) : board := (world m).2.
Definition rail_of (b : board) : rail := audit vote no_votes (log b).

(** Code that leaves the board, and who has the device open, alone. *)
Definition steady (m m' : snvm (W * board)) : Prop :=
  board_of m' = board_of m ∧ access (SnvmState.star m') = access (SnvmState.star m).
#[export] Instance steady_pre : PreOrder steady.
Proof. unfold steady. split; [by intros m|]. intros m1 m2 m3 [-> ->] [-> ->]. done. Qed.
Abbreviation ok c := (respects steady c).
Lemma steady_lift {A} (f : W → A * W) : ok (env (lift f)).
Proof.
  intros m a m'. unfold env, lift. destruct (f _) as [x w1] eqn:E. by intros [= _ <-].
Qed.
Lemma steady_load p n : ok (load p n).
Proof. intros m a m'. unfold load. destruct (read_bytes _ _ _); [|done]. by intros [= _ <-]. Qed.
Lemma steady_store p l : ok (store p l).
Proof. intros m a m'. unfold store. destruct (write_bytes _ _ _); [|done]. by intros [= _ <-]. Qed.
Lemma steady_new_block l : ok (new_block l).
Proof. intros m a m'. by intros [= _ <-]. Qed.
Lemma steady_free p : ok (ESE_FREE p).
Proof.
  destruct p as [|b o]; intros m a m'; [by intros [= _ <-]|]. unfold ESE_FREE.
  destruct (blocks _ !! _); [|done]. destruct (_ =? 0); [|done]. by intros [= _ <-].
Qed.
Lemma steady_mod_t1 f : ok (mod_t1 f).
Proof. intros m a m'. by intros [= _ <-]. Qed.
Lemma steady_mod_star f : (∀ s, access (f s) = access s) → ok (mod_star f).
Proof. intros H m a m' [= _ <-]. split; [done|]. apply H. Qed.
Lemma steady_usleep n : ok (env (fun w => (tt, @usleep _ star_dev n w))).
Proof. intros m a m'. by intros [= _ <-]. Qed.
Hint Resolve steady_lift steady_load steady_store steady_new_block steady_free steady_mod_t1 steady_usleep : resp.
Ltac board_open :=
  lazymatch goal with
  | |- respects _ (mod_star _) => apply steady_mod_star; intros []; reflexivity
  | |- respects _ (env _) => first [apply steady_lift | apply steady_usleep]
  | |- respects _ ?c => let h := head c in unfold h; cbv beta iota zeta
  end
with head t := lazymatch t with ?f _ => head f | _ => t end.
Ltac board := repeat first [solve [eauto 3 with resp] | resp_step | board_open].
Lemma steady_poll n : ok (poll_address n).
Proof. induction n; cbn [poll_address]; board. Qed.
Lemma steady_copy l p n : ok (copy_nodes l p n).
Proof. revert n. induction l; intros n; cbn [copy_nodes]; board. Qed.
Lemma steady_free_nodes l : ok (free_nodes l).
Proof. induction l; cbn [free_nodes]; board. Qed.
Hint Resolve steady_poll steady_copy steady_free_nodes : resp.
Lemma steady_process : ok iso7816_t1_process.
Proof. board. Qed.
Lemma steady_send d : ok (iso7816_t1_send d).
Proof. board. Qed.
Hint Resolve steady_process steady_send : resp.
Lemma steady_receive_loop n : ok (receive_loop n).
Proof. induction n; cbn [receive_loop]; board. Qed.
Hint Resolve steady_receive_loop : resp.
Lemma steady_command n last d q c e r t : ok (chain_command n last d q c e r t).
Proof.
  revert last d q c e r t. induction n; intros; cbn [chain_command]; board.
Qed.
Hint Resolve steady_command : resp.
Lemma steady_chain n k i num q c t : ok (chain_loop n k i num q c t).
Proof. revert i q c t. induction k; intros; cbn [chain_loop]; board. Qed.
Hint Resolve steady_chain : resp.
Lemma steady_write n c : ok (star_dev_write n c).
Proof. board. Qed.
Lemma steady_read c : ok (star_dev_read c).
Proof. board. Qed.

Lemma call_inv (c : M board Z) P (m m' : snvm (W * board)) r :
  (∀ d b, rail_ok d b → vc vote no_votes c (P d) d b) → env (call c) m = Ret (r, m') →
  rail_ok (drv (board_of m)) (rail_of (board_of m)) →
  P (drv (board_of m)) r (drv (board_of m')) (rail_of (board_of m')) ∧ SnvmState.star m' = SnvmState.star m.
Proof.
  intros Hc H HI. unfold env, call in H. destruct (world m) as [w bd] eqn:Ew.
  assert (board_of m = bd) as Eb by (unfold board_of; by rewrite Ew). rewrite Eb in *.
  destruct bd as [d v l]. destruct (vc_run _ _ _ _ _ _ v l (Hc _ _ HI) eq_refl) as (r' & b' & E & Hp).
  cbn [snd fst drv] in H, E. rewrite E in H. injection H as <- <-. done.
Qed.
(** Who has it open has it powered. *)
Definition powered_when_open (m : snvm (W * board)) : Prop :=
  rail_ok (drv (board_of m)) (rail_of (board_of m))
  ∧ (access (SnvmState.star m) ≠ 0 → rpmh_powered (drv (board_of m)) = true).
Lemma steady_powered m m' : steady m m' → powered_when_open m → powered_when_open m'.
Proof. unfold powered_when_open. by intros [-> ->]. Qed.
Lemma open_powers (m m' : snvm (W * board)) r :
  star_dev_open m = Ret (r, m') → powered_when_open m →
  powered_when_open m'
  ∧ (r = 0 → access (SnvmState.star m') = 1 ∧ 20000 <= rested (rail_of (board_of m'))).
Proof.
  intros (s & m1 & E & H)%bind_inv HI. injection E as <- <-.
  destruct (Z.eqb_spec (access (SnvmState.star m)) 0) as [Ea|]; [|by injection H as <- <-].
  apply bind_inv in H as (u & m2 & E2 & H). assert (ok iso7816_t1_reset) as Hr by board.
  pose proof (steady_powered _ _ (Hr _ _ _ E2) HI) as [HI2 _]. destruct (Hr _ _ _ E2) as [_ Ea2].
  apply bind_inv in H as (ret & m3 & E3 & H).
  destruct (call_inv k250a_poweron _ _ _ _ poweron_spec E3 HI2) as [(HI3 & _ & Hok & _) Es].
  destruct (Z.eqb_spec ret 0) as [->|]; cbn [negb] in H.
  - apply bind_inv in H as (u3 & m4 & E4 & H). injection E4 as _ <-. injection H as <- <-.
    destruct (Hok eq_refl) as [Hp Ht]. split; [by split|]. by intros _.
  - injection H as <- <-. split; [|done]. split; [done|]. rewrite Es, Ea2. by intros ?.
Qed.
Lemma close_unpowers (m m' : snvm (W * board)) r :
  star_dev_close m = Ret (r, m') → powered_when_open m →
  powered_when_open m' ∧ access (SnvmState.star m') = 0
  ∧ (access (SnvmState.star m) ≠ 0 → r = 0 → rpmh_powered (drv (board_of m')) = false).
Proof.
  intros (s & m1 & E & H)%bind_inv HI. injection E as <- <-.
  destruct (Z.eqb_spec (access (SnvmState.star m)) 0) as [Ea|]; cbn [negb] in H.
  { injection H as <- <-. split_and!; [done..|]. by intros ?. }
  apply bind_inv in H as (ret & m3 & E3 & H).
  destruct (call_inv k250a_poweroff _ _ _ _ poweroff_spec E3 (proj1 HI)) as [(HI3 & _ & Hok & _) Es].
  apply bind_inv in H as (u3 & m4 & E4 & H). injection E4 as _ <-. injection H as <- <-.
  split; [split; [done|]; by intros ?|]. split; [done|]. intros _ Hr. by apply Hok.
Qed.
Lemma ioctl_powered c (m m' : snvm (W * board)) r :
  star_dev_ioctl c m = Ret (r, m') → powered_when_open m → powered_when_open m'.
Proof.
  intros H HI. unfold star_dev_ioctl in H.
  assert (ok iso7816_t1_reset) as Hr by board.
  destruct (negb _); [by injection H as <- <-|]. destruct (_ =? _).
  { revert HI. apply steady_powered. revert H. match goal with |- ?c m = _ → _ => enough (ok c) as E by apply E end. board. }
  destruct (_ =? _).
  { revert HI. apply steady_powered. revert H. match goal with |- ?c m = _ → _ => enough (ok c) as E by apply E end. board. }
  destruct (_ =? _).
  { revert HI. apply steady_powered. revert H. match goal with |- ?c m = _ → _ => enough (ok c) as E by apply E end. board. }
  destruct (_ =? _); [|by injection H as <- <-].
  apply bind_inv in H as (ret & m3 & E3 & H).
  destruct (call_inv k250a_reset _ _ _ _ k250a_reset_spec E3 (proj1 HI)) as [[HI3 Ed] Es].
  apply bind_inv in H as (u & m4 & E4 & H). injection H as <- <-. apply (steady_powered _ _ (Hr _ _ _ E4)).
  split; [done|]. rewrite Es, Ed. apply HI.
Qed.
(** The device from its opening on: closed, the supply off. *)
Inductive in_use : snvm (W * board) → Prop :=
  | use_start m :
      access (SnvmState.star m) = 0 → rail_ok (drv (board_of m)) (rail_of (board_of m)) → in_use m
  | use_request n r m m' : in_use m → SnvmProps.handle n r m = Ret (tt, m') → in_use m'.
Lemma in_use_powered m : in_use m → powered_when_open m.
Proof.
  induction 1 as [m Ha Hr|n r m m' _ IH H]; [split; [done|]; by intros ?|].
  destruct r; apply bind_inv in H as (a & m1 & E & H); injection H as <-.
  - by apply (open_powers _ _ _ E).
  - by apply (close_unpowers _ _ _ E).
  - by apply (steady_powered _ _ (steady_write _ _ _ _ _ E)).
  - by apply (steady_powered _ _ (steady_read _ _ _ _ E)).
  - by eapply ioctl_powered.
Qed.
End board.

(** C8: The secure element is powered while it is open.  With the character device
    on top of the tablet's supply, whatever its users, the card, the bus and the
    supply's manager do: when a file is open the rail is on, at 1.8 V and in the
    high-power mode; an open that succeeds comes at least 20 ms after the vote that
    turned it on; a close that succeeds leaves it off; the driver's belief about the
    rail is always what the manager was last told successfully; and a write or a
    read, with all its transfers, leaves the supply alone. *)
Theorem element_is_powered_while_open {W V} `{!K250aEnv V} (T : SnvmEnv W) (m : snvm (W * machine k250a_dev V k250a_event)) :
  in_use T m →
  let d m := drv (board_of m) in let b m := rail_of (board_of m) in
  let opened m := access (SnvmState.star m) ≠ 0 in
  let _ := star_dev T in
  (opened m → supplied (d m) (b m))
  ∧ (if rpmh_powered (d m) then supplied (d m) (b m) else unsupplied (d m) (b m))
  ∧ (∀ m', star_dev_open m = Ret (0, m') → supplied (d m') (b m') ∧ 20000 <= rested (b m'))
  ∧ (∀ m', opened m → star_dev_close m = Ret (0, m') → unsupplied (d m') (b m'))
  ∧ (∀ n c r m', star_dev_write n c m = Ret (r, m') → board_of m' = board_of m)
  ∧ ∀ c r m', star_dev_read c m = Ret (r, m') → board_of m' = board_of m.
Proof.
  intros H d b opened env. pose proof (in_use_powered T m H) as [(Ht & Hr & Hs) Ho].
  assert (∀ m', powered_when_open m' → opened m' → supplied (d m') (b m')) as Hsup.
  { intros m' [(_ & _ & Hs') Ho'] Hop. subst d b. cbv beta. by rewrite (Ho' Hop) in Hs'. }
  split_and!.
  - apply Hsup. by split.
  - done.
  - intros m' E. destruct (open_powers T m m' 0 E) as [HI Hz]; [by split|]. destruct (Hz eq_refl) as [Ha Hl].
    split; [|done]. apply Hsup; [done|]. subst opened. cbv beta. by rewrite Ha.
  - intros m' Hop E. destruct (close_unpowers T m m' 0 E) as ([(_ & _ & Hs') _] & _ & Hz); [by split|].
    subst d b. cbv beta. by rewrite (Hz Hop eq_refl) in Hs'.
  - intros n c r m' E. by apply (steady_write T n c m r m' E).
  - intros c r m' E. by apply (steady_read T c m r m' E).
Qed.
(** A board where everything works, and the machine when the module is loaded. *)
#[export] Instance calm_env : K250aEnv unit := {|
  rpmh_write _ w := (0, w); regulator_enable w := (0, w); regulator_disable w := (0, w);
  pinctrl_select_state _ w := (0, w); pmic_nodes w := ([Some "d"; Some "g"]%string, w);
  of_find_device_by_node h w := (bool_decide (h ≠ ControllerRef), w); cmd_db_read_addr _ w := (0x41200, w);
  i2c_add_driver w := ((0, None), w); of_find_node_by_path _ w := (true, w);
  of_changeset_update_prop_string _ _ w := (0, w); of_changeset_apply w := (0, w);
  of_platform_device_create w := (true, w); of_find_i2c_adapter_by_node w := (true, w);
  i2c_new_client_device w := (0, w); star_open w := (true, w)
|}.
Definition loaded : k250a_dev :=
  mkK250a None false 0 false false None [] 0 false false None false 0 false false false false false false.
Definition initialised : machine k250a_dev unit k250a_event := state_after (k250a_init (mkM loaded tt [])) (mkM loaded tt []).
Definition closed_device : snvm (card_world * machine k250a_dev unit k250a_event) :=
  mkSnvm fresh_heap (mkWorld fresh_card (encode_chain two_commands), initialised) fresh_t1
    (fresh_star <| access := 0 |>).
Lemma element_is_powered_while_open_witness :
  let env := star_dev echo_env in
  ∃ m, in_use echo_env m ∧ access (SnvmState.star m) = 1 ∧ rsp_size (SnvmState.star m) = 11
    ∧ supplied (drv (board_of m)) (rail_of (board_of m)).
Proof.
  intros env.
  pose (m1 := state_after (handle 5 ROpen closed_device) closed_device).
  pose (m2 := state_after (handle 5 (RWrite 37) m1) m1).
  assert (rail_ok (drv (board_of closed_device)) (rail_of (board_of closed_device))) as H0
    by (vm_compute; repeat split; discriminate).
  assert (handle 5 ROpen closed_device = Ret (tt, m1)) as E1 by (vm_compute; reflexivity).
  assert (handle 5 (RWrite 37) m1 = Ret (tt, m2)) as E2 by (vm_compute; reflexivity).
  assert (in_use echo_env m2) as H2.
  { apply (use_request echo_env 5 (RWrite 37) m1); [|exact E2].
    apply (use_request echo_env 5 ROpen closed_device); [|exact E1].
    exact (use_start echo_env closed_device eq_refl H0). }
  exists m2. split; [exact H2|]. split; [vm_compute; reflexivity|]. split; [vm_compute; reflexivity|].
  refine (proj1 (element_is_powered_while_open echo_env m2 H2) _). vm_compute. discriminate.
Defined.

(** ** What the module holds *)

(** References, the driver, the client and its controller, the change of the tree,
    the character devices.  [bogus]: something was given back that was not held, held
    twice, or given back before what stands on it. *)
Record account := mkAccount {
  refs : list k250a_handle; driver : bool; client_on : bool; controller : bool; begun : bool;
  applied : bool; devices : list nat; bogus : bool
}.
#[export] Instance eta_account : Eta account := fun r =>
  mkAccount (refs r) (driver r) (client_on r) (controller r) (begun r) (applied r) (devices r) (bogus r).
Definition flag (b : account) (wrong : bool) : account := b <| bogus := bogus b || wrong |>.
Definition hold (b : account) (e : k250a_event) : account :=
  match e with
  | KGet h => (flag b (bool_decide (h ∈ refs b))) <| refs ::= cons h |>
  | KPut h => (flag b (negb (bool_decide (h ∈ refs b)))) <| refs ::= filter (fun x => x ≠ h) |>
  | KDriver on => (flag b (negb on && client_on b)) <| driver := on |>
  | KClient on => (flag b (negb on && (negb (client_on b) || negb (bool_decide (devices b = []))))) <| client_on := on |>
  | KController on => (flag b (negb on && (negb (controller b) || client_on b))) <| controller := on |>
  | KBegin => b <| begun := true |>
  | KApply ret => b <| applied := ret =? 0 |>
  | KRevert => (flag b (negb (applied b) || controller b || client_on b)) <| applied := false |>
  | KDestroy => (flag b (negb (begun b) || applied b)) <| begun := false |>
  | KStar true s => b <| devices ::= cons s |>
  | KStar false s => (flag b (negb (bool_decide (s ∈ devices b)))) <| devices ::= filter (fun x => x ≠ s) |>
  | _ => b
  end.
Definition nothing_held (l : list k250a_handle) (dr : bool) : account :=
  mkAccount l dr false false false false [] false.
(** The compatibility bus as far as it is built, over the references [l]. *)
Definition bus (l : list k250a_handle) (d : k250a_dev) (b : account) : Prop :=
  tree_bound d = false ∧ reset_gpio d = 0 ∧ registered d = true ∧ rpmh_pdev d = true
  ∧ match compat_client d with
    | Some true => ∃ s, star d = Some s ∧ stars d = [s] ∧ devices b = [s]
    | _ => stars d = [] ∧ devices b = []
    end
  ∧ b = mkAccount (if controller_np d then ControllerNode :: l else l) true
          (bool_decide (compat_client d ≠ None)) (controller_pdev_owned d && controller_pdev d)
          (controller_ocs_ready d) (controller_ocs_applied d) (devices b) false.
Definition no_bus (l : list k250a_handle) (d : k250a_dev) (b : account) : Prop :=
  bus l d b ∧ compat_client d = None ∧ controller_np d = false ∧ controller_pdev d = false
  ∧ controller_pdev_owned d = false ∧ b = nothing_held l true.

Section module.
Context {W : Type} `{!K250aEnv W}.
Abbreviation vc := (vc (W := W) (E := k250a_event) hold (nothing_held [] false)).
Lemma filter_none (h : k250a_handle) (l : list k250a_handle) : h ∉ l → filter (fun x => x ≠ h) l = l.
Proof.
  induction l as [|x l IH]; [done|]. intros [Hx Hl]%not_elem_of_cons.
  rewrite filter_cons_True by (by intros ->). by rewrite IH.
Qed.
Lemma filter_one (s : nat) : filter (fun x => x ≠ s) [s] = [].
Proof. by rewrite filter_cons_False by (intros H; by apply H). Qed.

Lemma hold_close s b : devices b = [s] → hold b (KStar false s) = b <| devices := [] |>.
Proof.
  destruct b as [r dr cl ct be ap dv bo]. intros H. change (dv = [s]) in H. subst dv. unfold hold.
  rewrite (bool_decide_true (s ∈ _)) by (by apply list_elem_of_singleton).
  unfold flag, over_field. cbn -[filter]. rewrite orb_false_r. f_equal. apply filter_one.
Qed.
Lemma hold_put h l b :
  refs b = h :: l → h ∉ l → hold b (KPut h) = b <| refs := l |>.
Proof.
  destruct b as [r dr cl ct be ap dv bo]. intros H Hl. change (r = h :: l) in H. subst r. unfold hold.
  rewrite (bool_decide_true (h ∈ _)) by apply list_elem_of_here.
  unfold flag, over_field. cbn -[filter]. rewrite orb_false_r. f_equal.
  rewrite filter_cons_False by (intros H; by apply H). by apply filter_none.
Qed.
Lemma hold_put_second h h' l b :
  refs b = h' :: h :: l → h ≠ h' → h ∉ l → hold b (KPut h) = b <| refs := h' :: l |>.
Proof.
  destruct b as [r dr cl ct be ap dv bo]. intros H Hne Hl. change (r = h' :: h :: l) in H. subst r. unfold hold.
  rewrite (bool_decide_true (h ∈ _)) by apply list_elem_of_further, list_elem_of_here.
  unfold flag, over_field. cbn -[filter]. rewrite orb_false_r. f_equal.
  rewrite filter_cons_True by (by intros ->). rewrite filter_cons_False by (intros H; by apply H).
  by rewrite filter_none.
Qed.
Lemma hold_get h l b : refs b = l → h ∉ l → hold b (KGet h) = b <| refs := h :: l |>.
Proof.
  destruct b as [r dr cl ct be ap dv bo]. intros H Hl. change (r = l) in H. subst r. unfold hold.
  rewrite (bool_decide_false (h ∈ _)) by done. unfold flag, over_field. cbn. by rewrite orb_false_r.
Qed.
Lemma set_stars d f x : f (stars d) = x → d <| stars ::= f |> = d <| stars := x |>.
Proof. by intros <-. Qed.
Lemma k250a_unregister_spec bound l d b :
  bus l d b → compat_client d = Some bound →
  vc (i2c_unregister_device bound) (fun _ d' b' => d' = d <| stars := [] |>
    ∧ b' = b <| client_on := false |> <| devices := [] |>) d b.
Proof.
  intros (Ht & Hg & Hr & Hp & Hs & ->) Hc. rewrite Hc in *. unfold i2c_unregister_device. apply vc_bind.
  destruct bound.
  - destruct Hs as (s & H1 & H2 & H3). cbn [devices] in *. unfold k250a_remove, star_close. apply vc_bind, vc_drv. rewrite Hg. cbn [Z.eqb negb].
    apply vc_bind, vc_skip. rewrite H1. apply vc_bind, vc_drv. rewrite H2, H3.
    rewrite bool_decide_true by (by apply list_elem_of_singleton). apply vc_bind, vc_emit, vc_mod, vc_emit.
    split; [apply set_stars; by rewrite H2, filter_one|].
    rewrite (hold_close s) by done. done.
  - destruct Hs as [H1 H2]. cbn [devices] in *. apply vc_skip, vc_emit. split; [destruct d; cbn in *; by subst|]. cbn. by rewrite H2.
Qed.
Lemma remove_bus_spec l d b :
  bus l d b → ControllerNode ∉ l → vc k250a_remove_compat_bus (fun _ => no_bus l) d b.
Proof.
  intros Hb Hl. unfold k250a_remove_compat_bus. apply vc_bind, vc_drv.
  eapply vc_call with (P := fun _ d' b' => d' = d <| stars := [] |> <| compat_client := None |>
    ∧ b' = b <| client_on := false |> <| devices := [] |>).
  { destruct (compat_client d) as [bound|] eqn:Ec.
    - eapply vc_call; [by apply (k250a_unregister_spec _ l)|]. intros _ ? ? [-> ->]. apply vc_mod. by split.
    - apply vc_skip. destruct Hb as (_ & _ & _ & _ & Hs & ->). rewrite Ec in Hs. destruct Hs as [H1 H2].
      cbn [devices] in *. rewrite Ec. split; [destruct d; cbn in *; by subst|]. cbn. by rewrite H2. }
  intros _ d1 b1 [-> ->]. destruct Hb as (Ht & Hg & Hr & Hp & _ & ->).
  destruct d as [cl vd rg on off st sts nx np pd cc rp ad ry ap ow pw re tb]. cbn in Ht, Hg, Hr, Hp. subst. cbn.
  set (cd := bool_decide _). clearbody cd.
  apply vc_bind. destruct ow, pd, ap, ry, np; cbn -[hold]; repeat (first [vc_step | progress cbn -[hold]]);
    try rewrite (hold_put ControllerNode l) by done; by split_and!.
Qed.

(** The bus with its controller and no client yet, and after the client is tried. *)
Definition ready (l : list k250a_handle) (d : k250a_dev) (b : account) : Prop :=
  bus l d b ∧ compat_client d = None ∧ controller_np d = true.
Definition made (l : list k250a_handle) (r : Z) (d : k250a_dev) (b : account) : Prop :=
  (r ≠ 0 → no_bus l d b)
  ∧ (r = 0 → bus l d b ∧ compat_client d = Some true ∧ controller_np d = true ∧ applied b = true).
Lemma err_spec l ret d b :
  bus l d b → ControllerNode ∉ l → ret ≠ 0 → vc (err ret) (made l) d b.
Proof.
  intros Hb Hl Hr. unfold err. eapply vc_call; [by apply (remove_bus_spec l)|]. intros [] d1 b1 H.
  apply vc_ret. split; [done|]. by intros ->.
Qed.
Ltac steps := repeat (first [vc_step | progress cbn -[hold]]).
Lemma make_client_spec l d b :
  ready l d b → controller_ocs_applied d = true → ControllerNode ∉ l → Adapter ∉ l →
  vc make_client (made l) d b.
Proof.
  intros ((Ht & Hg & Hr & Hp & Hs & Eb) & Hc & Hn) Hap Hl Hl2.
  assert (∀ ret d' b', bus l d' b' → ret ≠ 0 → vc (err ret) (made l) d' b') as Herr by (intros; by apply err_spec).
  unfold make_client. apply vc_bind, vc_ask. intros ok.
  rewrite Hc in Hs. destruct Hs as [H1 H2]. rewrite H2, Hn, Hc, Hap in Eb.
  destruct d as [cl vd rg on off st sts nx np pd cc rp ad ry ap ow pw re tb]. cbn in Ht, Hg, Hr, Hp, H1, Hc, Hn, Hap. subst.
  destruct ok; cbn [negb]; [|by apply Herr].
  apply vc_bind, vc_emit. rewrite (hold_get Adapter (ControllerNode :: l)) by (done || by intros [?|?]%elem_of_cons).
  assert (Adapter ∉ ControllerNode :: l) as Hl3 by (by intros [?|?]%elem_of_cons).
  unfold new_client. apply vc_bind, vc_bind, vc_ask. intros ret. destruct (Z.ltb_spec ret 0).
  { apply vc_ret, vc_bind, vc_emit. rewrite (hold_put Adapter (ControllerNode :: l)) by done.
    apply vc_bind, vc_mod. cbn -[hold]. apply Herr; [by split_and!|lia]. }
  apply vc_bind, vc_emit, vc_bind, vc_drv. cbn -[hold]. unfold k250a_probe, open_client, open_star.
  apply vc_bind, vc_bind, vc_mod, vc_bind, vc_bind, vc_ask. intros []; cbn [negb]; steps.
  - rewrite (hold_put Adapter (ControllerNode :: l)) by done. split; [done|]. intros _. split; [|done].
    split_and!; try done. by exists nx.
  - rewrite (hold_put Adapter (ControllerNode :: l)) by done. apply Herr; [by split_and!|done].
Qed.
Lemma make_controller_spec l d b :
  ready l d b → controller_pdev d = false → controller_pdev_owned d = false → controller_ocs_applied d = true →
  ControllerNode ∉ l → Adapter ∉ l → ControllerRef ∉ l → ParentNode ∉ l → ParentDev ∉ l →
  vc make_controller (made l) d b.
Proof.
  intros ((Ht & Hg & Hr & Hp & Hs & Eb) & Hc & Hn) Hpd How Hap Hl Hl2 Hl3 Hl4 Hl5.
  assert (∀ ret d' b', bus l d' b' → ret ≠ 0 → vc (err ret) (made l) d' b') as Herr by (intros; by apply err_spec).
  assert (∀ d' b', ready l d' b' → controller_ocs_applied d' = true → vc make_client (made l) d' b') as Hmk
    by (intros; by apply make_client_spec).
  rewrite Hc in Hs. destruct Hs as [H1 H2]. rewrite H2, Hn, Hc, Hap, Hpd, How in Eb.
  destruct d as [cl vd rg on off st sts nx np pd cc rp ad ry ap ow pw re tb].
  cbn in Ht, Hg, Hr, Hp, H1, Hc, Hn, Hap, Hpd, How. subst.
  assert (∀ h, h ≠ ControllerNode → h ∉ l → h ∉ ControllerNode :: l) as Hin by (by intros h ? ? [?|?]%elem_of_cons).
  unfold make_controller. apply vc_bind, vc_ask. intros []; apply vc_bind, vc_mod; cbn -[hold make_client err].
  { apply vc_bind, vc_emit. rewrite (hold_get ControllerRef (ControllerNode :: l)) by auto.
    apply vc_bind, vc_emit. rewrite (hold_put ControllerRef (ControllerNode :: l)) by auto.
    apply Hmk; [|done]. by split_and!. }
  apply vc_bind, vc_emit. rewrite (hold_get ParentNode (ControllerNode :: l)) by auto.
  apply vc_bind, vc_ask. intros []; cbn [negb].
  2:{ apply vc_bind, vc_skip, vc_bind, vc_emit. rewrite (hold_put ParentNode (ControllerNode :: l)) by auto.
      apply Herr; [by split_and!|done]. }
  apply vc_bind, vc_emit. rewrite (hold_get ParentDev (ParentNode :: ControllerNode :: l)) by
    (done || (apply not_elem_of_cons; split; [done|auto])).
  apply vc_bind, vc_emit. rewrite (hold_put_second ParentNode ParentDev (ControllerNode :: l)) by auto.
  apply vc_bind, vc_ask. intros []; apply vc_bind, vc_mod; cbn -[hold make_client err].
  - apply vc_bind, vc_emit, vc_bind, vc_emit. rewrite (hold_put ParentDev (ControllerNode :: l)) by auto.
    apply vc_bind, vc_mod, Hmk; [|done]. by split_and!.
  - apply vc_bind, vc_skip, vc_bind, vc_emit. rewrite (hold_put ParentDev (ControllerNode :: l)) by auto.
    apply Herr; [by split_and!|done].
Qed.
Definition fresh_refs (l : list k250a_handle) : Prop :=
  Forall (fun h => h ∉ l) [ControllerNode; Adapter; ControllerRef; ParentNode; ParentDev].
Lemma create_spec l d b : no_bus l d b → fresh_refs l → vc k250a_create_compat_bus (made l) d b.
Proof.
  intros ((Ht & Hg & Hr & Hp & Hs & Eb) & Hc & Hn & Hpd & How & Eb') Hl.
  assert (ControllerNode ∉ l) as Hl1 by (by eapply Forall_inv in Hl).
  assert (∀ ret d' b', bus l d' b' → ret ≠ 0 → vc (err ret) (made l) d' b') as Herr by (intros; by apply err_spec).
  assert (∀ d' b', ready l d' b' → controller_pdev d' = false → controller_pdev_owned d' = false →
    controller_ocs_applied d' = true → vc make_controller (made l) d' b') as Hmk.
  { intros. repeat (apply Forall_cons in Hl as [? Hl]). by apply make_controller_spec. }
  rewrite Eb' in Eb. rewrite Hc in Hs. destruct Hs as [H1 H2]. pose proof (f_equal begun Eb) as Ery. pose proof (f_equal applied Eb) as Eap. clear Eb.
  destruct d as [cl vd rg on off st sts nx np pd cc rp ad ry ap ow pw re tb].
  cbn in Ht, Hg, Hr, Hp, H1, Hc, Hn, Hpd, How, Ery, Eap. subst.
  unfold k250a_create_compat_bus. apply vc_bind, vc_ask. intros []; apply vc_bind, vc_mod; cbn [negb].
  2:{ apply vc_ret. split; [|done]. by intros _. }
  apply vc_bind, vc_emit. rewrite (hold_get ControllerNode l) by done.
  apply vc_bind, vc_emit, vc_bind, vc_mod. cbn -[hold make_controller err].
  apply vc_bind, vc_ask. intros r1. destruct (negb (r1 =? 0)) eqn:E1.
  { apply Herr; [by split_and!|]. intros ->. done. }
  apply vc_bind, vc_ask. intros r2. apply vc_bind, vc_emit. cbn [hold]. destruct (Z.eqb_spec r2 0) as [->|]; cbn [negb].
  - apply vc_bind, vc_mod. cbn -[hold make_controller err]. by apply Hmk.
  - apply Herr; [by split_and!|done].
Qed.

(** The reference to the node of the regulators stays. *)
Definition leaked (l : list k250a_handle) : Prop := l = [] ∨ l = [PmicNode].
Definition provided (r : Z) (d : k250a_dev) (b : account) : Prop :=
  ∃ l, leaked l ∧ b = nothing_held (if r =? 0 then RpmhDev :: PmicNode :: [] else l) false
    ∧ d = loaded <| rpmh_pdev := r =? 0 |> <| rpmh_ldo_addr := rpmh_ldo_addr d |>.
Lemma provider_spec l d b :
  b = nothing_held [] false → d = loaded → vc (find_provider l) provided d b.
Proof.
  intros -> ->. induction l as [|id l IH]; cbn [find_provider].
  { apply vc_ret. exists []. split; [by left|]. done. }
  apply vc_bind, vc_emit. rewrite (hold_get PmicNode []) by (done || by apply not_elem_of_nil).
  destruct (negb _).
  { apply vc_bind, vc_emit. rewrite (hold_put PmicNode []) by (done || by apply not_elem_of_nil). exact IH. }
  apply vc_bind, vc_ask. intros []; apply vc_bind, vc_mod; cbn -[hold].
  2:{ apply vc_ret. exists [PmicNode]. split; [by right|]. done. }
  assert (RpmhDev ∉ [PmicNode]) as Hn by (by intros ?%list_elem_of_singleton).
  apply vc_bind, vc_emit. rewrite (hold_get RpmhDev [PmicNode]) by done. apply vc_bind, vc_ask. intros addr.
  apply vc_bind, vc_mod. destruct (_ =? 0).
  - apply vc_bind, vc_emit. rewrite (hold_put RpmhDev [PmicNode]) by done. apply vc_bind, vc_mod, vc_ret.
    exists [PmicNode]. split; [by right|]. done.
  - apply vc_ret. exists []. split; [by left|]. done.
Qed.

(** The device tree has no node for the element, as on the tablet, where the module
    makes the client itself: registering the driver binds none. *)
Definition no_tree_client : Prop := ∀ w : W, (i2c_add_driver w).1.2 = None.
Definition base_refs : list k250a_handle := [RpmhDev; PmicNode].
Definition started (r : Z) (d : k250a_dev) (b : account) : Prop :=
  (r ≠ 0 → ∃ l, leaked l ∧ b = nothing_held l false) ∧ (r = 0 → made base_refs 0 d b).
Lemma del_driver_spec l d b :
  no_bus l d b →
  vc i2c_del_driver (fun _ d' b' => rpmh_pdev d' = true ∧ b' = nothing_held l false) d b.
Proof.
  intros ((Ht & _ & _ & Hp & _) & _ & _ & _ & _ & ->). unfold i2c_del_driver. apply vc_bind, vc_drv. rewrite Ht.
  by apply vc_bind, vc_skip, vc_bind, vc_mod, vc_emit.
Qed.
Lemma put_rpmh l : RpmhDev ∉ l → hold (nothing_held (RpmhDev :: l) false) (KPut RpmhDev) = nothing_held l false.
Proof. intros H. by rewrite (hold_put RpmhDev l). Qed.
Lemma no_rpmh : RpmhDev ∉ [PmicNode].
Proof. by intros ?%list_elem_of_singleton. Qed.
Lemma err_provider_spec ret d :
  ret ≠ 0 → vc (err_provider ret) started d (nothing_held base_refs false).
Proof.
  intros Hr. unfold err_provider, base_refs. apply vc_bind, vc_emit. rewrite put_rpmh by apply no_rpmh.
  apply vc_bind, vc_mod, vc_ret. split; [|by intros ->]. intros _. exists [PmicNode]. split; [by right|done].
Qed.
Lemma k250a_init_spec : no_tree_client → vc k250a_init started loaded (nothing_held [] false).
Proof.
  intros Hno. unfold k250a_init, k250a_find_rpmh_provider. apply vc_nz, vc_bind, vc_ask. intros l0.
  eapply vc_mono; [by apply provider_spec|]. intros r d b (l & Hl & -> & Ed). destruct (Z.eqb_spec r 0) as [->|Hr].
  2:{ split; [|by intros ->]. intros _. by exists l. }
  unfold add_driver. apply vc_bind, vc_bind, vc_ask_such with (P := fun x => x.2 = None); [apply Hno|].
  intros [ret waiting] Hw. cbn in Hw. subst waiting. destruct (Z.eqb_spec ret 0) as [->|Hr]; cbn [negb].
  2:{ apply vc_ret. apply Z.eqb_neq in Hr as Hr'. rewrite Hr'. by apply err_provider_spec. }
  apply vc_bind, vc_emit, vc_bind, vc_mod, vc_ret. cbn [Z.eqb negb hold].
  eapply vc_call; [apply (create_spec base_refs)|].
  - rewrite Ed. by split_and!.
  - unfold fresh_refs. by apply (bool_decide_unpack _).
  - intros r1 d1 b1 [H1 H2]. destruct (Z.eqb_spec r1 0) as [->|Hr]; cbn [negb].
    + apply vc_ret. split; [done|]. intros _. by split.
    + unfold err_driver. eapply vc_call; [by apply (del_driver_spec base_refs), H1|]. intros [] d2 b2 [_ ->].
      by apply err_provider_spec.
Qed.
Lemma k250a_exit_spec d b :
  made base_refs 0 d b → vc k250a_exit (fun _ d' b' => b' = nothing_held [PmicNode] false) d b.
Proof.
  intros [_ H]. destruct (H eq_refl) as (Hb & _). unfold k250a_exit.
  eapply vc_call; [apply (remove_bus_spec base_refs); [done|]|].
  { by apply (bool_decide_unpack _). }
  intros [] d1 b1 H1. eapply vc_call; [by apply (del_driver_spec base_refs)|]. intros [] d2 b2 [Hp ->].
  apply vc_bind, vc_drv. rewrite Hp. apply vc_bind, vc_emit. unfold base_refs. rewrite put_rpmh by apply no_rpmh.
  by apply vc_mod.
Qed.
(** The device in use, between loading and removal. *)
Definition power_step (m m' : machine k250a_dev W k250a_event) : Prop :=
  ∃ r, k250a_poweron m = Ret (r, m') ∨ k250a_poweroff m = Ret (r, m') ∨ k250a_reset m = Ret (r, m').
Definition in_place (d : k250a_dev) (b : account) (d' : k250a_dev) (b' : account) : Prop := but_power d d' ∧ b' = b.
Lemma rpmh_in_place on d b : vc (k250a_rpmh_power on) (fun _ => in_place d b) d b.
Proof.
  unfold k250a_rpmh_power. apply vc_bind, vc_drv. assert (but_power d d) as Hd by by destruct d.
  destruct (_ || _); [by apply vc_ret|]. destruct (Bool.eqb _ _); [by apply vc_ret|]. cbv zeta.
  apply vc_bind, vc_ask. intros r. apply vc_bind, vc_emit, vc_bind.
  destruct (_ =? _); [apply vc_mod|apply vc_skip]; apply vc_ret; split; done.
Qed.
Ltac in_place :=
  repeat first [apply vc_bind; apply vc_skip | vc_step
    | lazymatch goal with |- Bus.vc _ _ (if ?b then _ else _) _ _ _ => destruct b end
    | lazymatch goal with |- Bus.vc _ _ (match ?b with _ => _ end) _ _ _ => destruct b end].
Lemma power_in_place d b :
  vc k250a_poweron (fun _ => in_place d b) d b ∧ vc k250a_poweroff (fun _ => in_place d b) d b
  ∧ vc k250a_reset (fun _ => in_place d b) d b.
Proof.
  assert (in_place d b d b) as Hd by (by destruct d).
  assert (∀ (on : bool) us, vc (ret ← k250a_rpmh_power on;
    (if ret =? 0 then emit (KSleep us) else skip);; mret ret) (fun _ => in_place d b) d b) as Hp.
  { intros on us. eapply vc_call; [apply rpmh_in_place|]. intros r d' b' H.
    apply vc_bind. destruct (_ =? _); [apply vc_emit|apply vc_skip]; by apply vc_ret. }
  unfold k250a_poweron, k250a_poweroff, k250a_reset, gpio_pulse.
  split_and!; apply vc_bind, vc_drv.
  - destruct (negb (vdd d)); [destruct (rpmh_pdev d); [apply (Hp true)|]|]; in_place; done.
  - destruct (negb (vdd d)); [destruct (rpmh_pdev d); [apply (Hp false)|]|]; in_place; done.
  - in_place; done.
Qed.

(** *** A client of the device tree besides the module's own *)

(** The character devices are distinct; the module's own client has the last one. *)
Definition distinct (d : k250a_dev) : Prop :=
  NoDup (stars d) ∧ Forall (fun s => (s < next_star d)%nat) (stars d).
Definition sharing (d : k250a_dev) : Prop :=
  compat_client d = Some true ∧ ∃ s, star d = Some s ∧ s ∈ stars d ∧ NoDup (stars d).
Definition no_own (d : k250a_dev) : Prop := compat_client d = None ∧ distinct d.
Definition own_made (r : Z) (d : k250a_dev) (_ : account) : Prop := r = 0 → sharing d.
Lemma err_returns ret d b :
  compat_client d ≠ Some true → vc (err ret) (fun r _ _ => r = ret) d b.
Proof.
  intros Hc. unfold err, k250a_remove_compat_bus, i2c_unregister_device. apply vc_bind, vc_bind, vc_drv.
  repeat first [ vc_step | done | apply vc_bind; apply vc_skip
    | lazymatch goal with |- Bus.vc _ _ ((match ?b with _ => _ end) ≫= _) _ _ _ => apply vc_bind; destruct b eqn:? end
    | lazymatch goal with |- Bus.vc _ _ (match ?b with _ => _ end) _ _ _ => destruct b eqn:? end ].
Qed.
Lemma err_unmade ret d b : no_own d → ret ≠ 0 → vc (err ret) own_made d b.
Proof.
  intros [Hc _] Hr. eapply vc_mono; [apply err_returns; by rewrite Hc|]. by intros r d' b' -> ?.
Qed.
Lemma make_client_owns d b : no_own d → vc make_client own_made d b.
Proof.
  intros Hd. pose proof Hd as [Hc [Hn Hl]]. unfold make_client. apply vc_bind, vc_ask. intros []; cbn [negb].
  2:{ by apply err_unmade. }
  apply vc_bind, vc_emit. unfold new_client. apply vc_bind, vc_bind, vc_ask. intros ret.
  destruct (Z.ltb_spec ret 0).
  { apply vc_ret, vc_bind, vc_emit, vc_bind, vc_mod. apply err_unmade; [done|lia]. }
  apply vc_bind, vc_emit, vc_bind, vc_drv. unfold k250a_probe, open_client, open_star.
  destruct (registered d).
  2:{ apply vc_ret, vc_bind, vc_emit, vc_bind, vc_mod. cbn [negb].
      eapply vc_mono; [by apply err_returns|]. by intros r d' b' -> ?. }
  apply vc_bind, vc_bind, vc_mod, vc_bind, vc_bind, vc_ask. intros []; cbn [negb]; steps.
  - intros _. split; [done|]. exists (next_star d). split; [done|]. cbn. split; [apply list_elem_of_here|].
    constructor; [|done]. intros Hin. rewrite Forall_forall in Hl. specialize (Hl _ Hin). lia.
  - eapply vc_mono; [by apply err_returns|]. by intros r d' b' -> ?.
Qed.
Lemma create_owns d b : no_own d → vc k250a_create_compat_bus own_made d b.
Proof.
  intros Hd. unfold k250a_create_compat_bus, make_controller.
  repeat first
    [ vc_step | apply vc_bind; apply vc_skip
    | lazymatch goal with
      | |- Bus.vc _ _ (err _) _ _ _ => apply err_unmade; [exact Hd|done]
      | |- Bus.vc _ _ make_client _ _ _ => apply make_client_owns; exact Hd
      | |- Bus.vc _ _ ((if ?b then _ else _) ≫= _) _ _ _ => apply vc_bind; destruct b eqn:?
      | |- Bus.vc _ _ (if ?b then _ else _) _ _ _ => destruct b eqn:?
      end ].
  - done.
  - apply err_unmade; [exact Hd|]. by intros ->.
  - apply err_unmade; [exact Hd|]. by intros ->.
Qed.
Lemma add_driver_owns d b :
  stars d = [] → compat_client d = None → vc add_driver (fun _ d' _ => no_own d') d b.
Proof.
  intros Hs Hc. assert (distinct d) as Hd by (unfold distinct; rewrite Hs; by split; constructor).
  unfold add_driver, k250a_probe, get_reset_gpio, get_pins, open_client, open_star.
  repeat first
    [ vc_step | apply vc_bind; apply vc_skip
    | lazymatch goal with
      | |- Bus.vc _ _ ((if ?b then _ else _) ≫= _) _ _ _ => apply vc_bind; destruct b eqn:?
      | |- Bus.vc _ _ ((match ?b with _ => _ end) ≫= _) _ _ _ => apply vc_bind; destruct b eqn:?
      | |- Bus.vc _ _ (if ?b then _ else _) _ _ _ => destruct b eqn:?
      | |- Bus.vc _ _ (match ?b with _ => _ end) _ _ _ => destruct b eqn:?
      | |- Bus.vc _ _ (let '_ := ?b in _) _ _ _ => destruct b eqn:?
      end ].
  all: split; [exact Hc|]; first [exact Hd | unfold distinct; cbn; rewrite Hs; split; repeat constructor; try lia; apply not_elem_of_nil].
Qed.
Lemma init_owns w (m : machine k250a_dev W k250a_event) :
  k250a_init (mkM loaded w []) = Ret (0, m) → sharing (drv m).
Proof.
  intros (r & m1 & E & H)%bind_inv. apply bind_inv in E as (l0 & m0 & E0 & E).
  rewrite ask_ret in E0. injection E0 as <- <-.
  apply (vc_use hold (nothing_held [] false) _ provided) in E; [|by apply provider_spec].
  destruct E as (l & _ & _ & Ed). destruct (r =? 0) eqn:Er; [|by injection H as -> <-].
  apply bind_inv in H as (r2 & m2 & E & H).
  apply (vc_use hold (nothing_held [] false) _ (fun _ d' _ => no_own d')) in E;
    [|apply add_driver_owns; by rewrite Ed].
  assert (∀ ret (m m' : machine k250a_dev W k250a_event), ret ≠ 0 → err_provider ret m ≠ Ret (0, m')) as Hp.
  { intros ret m3 m4 Hr (u & m5 & _ & H1)%bind_inv. apply bind_inv in H1 as (v & m6 & _ & [= H1 _]). done. }
  destruct (Z.eqb_spec r2 0) as [->|Hr2]; cbn [negb] in H; [|by destruct (Hp _ _ _ Hr2 H)].
  apply bind_inv in H as (r3 & m3 & E3 & H).
  apply (vc_use hold (nothing_held [] false) _ own_made) in E3; [|by apply create_owns].
  destruct (Z.eqb_spec r3 0) as [->|Hr3]; cbn [negb] in H; [injection H as <-; by apply E3|].
  apply bind_inv in H as (u & m4 & _ & H). by destruct (Hp _ _ _ Hr3 H).
Qed.
(** The module's own client goes first and takes the character device it shares. *)
Lemma remove_bus_closes d b s :
  sharing d → star d = Some s →
  vc k250a_remove_compat_bus (fun _ d' _ => star d' = Some s ∧ tree_bound d' = tree_bound d ∧ s ∉ stars d') d b.
Proof.
  intros (Hc & s' & Hs & Hin & Hn) Hs'. rewrite Hs in Hs'. injection Hs' as ->.
  assert (s ∉ filter (fun x => x ≠ s) (stars d)) as Hout by (by intros [? _]%list_elem_of_filter).
  unfold k250a_remove_compat_bus, i2c_unregister_device, k250a_remove, star_close.
  apply vc_bind, vc_drv. rewrite Hc. apply vc_bind, vc_bind, vc_bind, vc_bind, vc_drv.
  apply vc_bind. destruct (negb _); [apply vc_emit|apply vc_skip]; rewrite Hs; apply vc_bind, vc_drv;
    rewrite (bool_decide_true (s ∈ _)) by done; repeat first
    [ vc_step | apply vc_bind; apply vc_skip
    | lazymatch goal with
      | |- Bus.vc _ _ ((if ?b then _ else _) ≫= _) _ _ _ => apply vc_bind; destruct b eqn:?
      | |- Bus.vc _ _ (if ?b then _ else _) _ _ _ => destruct b eqn:?
      end ]; by split_and!.
Qed.
Lemma exit_faults (m : machine k250a_dev W k250a_event) :
  sharing (drv m) → tree_bound (drv m) = true → k250a_exit m = Fault.
Proof.
  intros Hs Ht. pose proof Hs as (_ & s & Es & _). destruct m as [d w l]. cbn [drv] in *.
  destruct (vc_run hold (nothing_held [] false) _ _ _ _ w l (remove_bus_closes d _ s Hs Es) eq_refl)
    as ([] & m1 & E & E1 & E2 & E3).
  unfold k250a_exit. rewrite (bind_ret _ _ _ _ _ E). apply bind_fault. destruct m1 as [d1 w1 l1]. cbn [drv] in *.
  unfold i2c_del_driver. erewrite bind_ret by reflexivity. cbn [drv]. rewrite E2, Ht. apply bind_fault.
  unfold k250a_remove, star_close. erewrite bind_ret by reflexivity. cbn [drv].
  rewrite E1. destruct (negb _); erewrite bind_ret by reflexivity; erewrite bind_ret by reflexivity; cbn [drv over_field];
    by rewrite bool_decide_false.
Qed.
Lemma power_keeps (m m' : machine k250a_dev W k250a_event) :
  power_step m m' → but_power (drv m) (drv m') ∧ audit hold (nothing_held [] false) (log m') = audit hold (nothing_held [] false) (log m).
Proof.
  intros (r & H). pose proof (power_in_place (drv m) (audit hold (nothing_held [] false) (log m))) as (P1 & P2 & P3).
  destruct H as [E|[E|E]]; [exact (vc_use _ _ _ _ _ _ _ P1 E)|exact (vc_use _ _ _ _ _ _ _ P2 E)
    |exact (vc_use _ _ _ _ _ _ _ P3 E)].
Qed.
End module.

(** C28: The module is reversible when the device tree has no node for the element,
    as on the tablet, where the module makes the client itself.  Whatever else the
    kernel answers, loading it then either fails with everything given back, or
    leaves one client bound with its character device on a controller that the
    changed tree enables; however the device is powered and reset meanwhile,
    removing the module then gives all of it back, each part once and before what it
    stands on: character device, client, controller, change of the tree, driver.
    Only one thing stays, in both cases: a reference to the node of the regulators,
    which the search for it takes and nothing puts.  When the tree does have such a
    node and the driver bound its client too, the two clients share the driver's
    only structure, and removing the module closes the same character device twice. *)
Theorem module_is_reversible {W} `{!K250aEnv W} (w : W) r m :
  k250a_init (mkM loaded w []) = Ret (r, m) →
  let held (m : machine k250a_dev W k250a_event) := audit hold (nothing_held [] false) (log m) in
  (no_tree_client →
    (r ≠ 0 → ∃ l, leaked l ∧ held m = nothing_held l false)
    ∧ (r = 0 →
        driver (held m) = true ∧ client_on (held m) = true ∧ applied (held m) = true
        ∧ (∃ s, star (drv m) = Some s ∧ devices (held m) = [s]) ∧ bogus (held m) = false
        ∧ ∀ m', rtc power_step m m' →
            ∃ m2, k250a_exit m' = Ret (tt, m2) ∧ held m2 = nothing_held [PmicNode] false))
  ∧ (r = 0 → tree_bound (drv m) = true → ∀ m', rtc power_step m m' → k250a_exit m' = Fault).
Proof.
  intros H held. split; cycle 1.
  { intros -> Ht m' Hs.
    assert (sharing (drv m') ∧ tree_bound (drv m') = true) as [H1 H2]; [|by apply exit_faults].
    refine (rtc_keeps power_step (fun m => sharing (drv m) ∧ tree_bound (drv m) = true) _ _ _ Hs _).
    - intros m1 m2 [Hb _]%power_keeps. rewrite Hb. by destruct (drv m1).
    - split; [by apply (init_owns w)|done]. }
  intros Hno.
  destruct (vc_use hold (nothing_held [] false) _ _ (mkM loaded w []) m r (k250a_init_spec Hno) H) as [H1 H2].
  fold (held m) in H1, H2. split; [done|]. intros Hr. specialize (H2 Hr).
  destruct (proj2 H2 eq_refl) as ((Ht & Hg & Hre & Hp & Hs & Eb) & Hc & Hn & Ha). rewrite Hc in Hs.
  destruct Hs as (s & S1 & S2 & S3).
  split_and!; [by rewrite Eb|by rewrite Eb, Hc|done|by exists s|by rewrite Eb|].
  intros m' Hs. assert (made base_refs 0 (drv m') (held m')) as Hm.
  { refine (rtc_keeps power_step (fun m => made base_refs 0 (drv m) (held m)) _ _ _ Hs H2).
    intros m1 m2 [Hb Eh]%power_keeps Hmade. unfold held. rewrite Eh, Hb. by destruct (drv m1). }
  destruct m' as [d1 w1 l1]. destruct (vc_run _ _ _ _ _ _ w1 l1 (k250a_exit_spec _ _ Hm) eq_refl) as ([] & m2 & E & Eh).
  by exists m2.
Qed.
(** A board whose tree has a node for the element, with a reset line. *)
#[export] Instance tree_env : K250aEnv bool := {|
  rpmh_write _ w := (0, w); regulator_enable w := (0, w); regulator_disable w := (0, w);
  pinctrl_select_state _ w := (0, w); pmic_nodes w := ([Some "g"]%string, w);
  of_find_device_by_node h w := (bool_decide (h ≠ ControllerRef), w); cmd_db_read_addr _ w := (0x41200, w);
  i2c_add_driver w := ((0, Some (mkNode false (Some 17) 0 0 0 false false)), w);
  of_find_node_by_path _ w := (true, w);
  of_changeset_update_prop_string _ _ w := (0, w); of_changeset_apply w := (0, w);
  of_platform_device_create w := (true, w); of_find_i2c_adapter_by_node w := (true, w);
  i2c_new_client_device w := (0, w); star_open w := (true, w)
|}.
Lemma module_is_reversible_witness :
  (∃ m m', k250a_init (mkM loaded tt []) = Ret (0, m) ∧ k250a_poweron m = Ret (0, m')
    ∧ ∃ m2, k250a_exit m' = Ret (tt, m2) ∧ audit hold (nothing_held [] false) (log m2) = nothing_held [PmicNode] false)
  ∧ ∃ m, k250a_init (mkM loaded true []) = Ret (0, m) ∧ k250a_exit m = Fault.
Proof.
  split.
  - assert (∃ m m', k250a_init (mkM loaded tt []) = Ret (0, m) ∧ k250a_poweron m = Ret (0, m'))
      as (m & m' & E & E') by (do 2 eexists; split; [vm_compute; reflexivity|vm_compute; reflexivity]).
    exists m, m'. split; [exact E|]. split; [exact E'|].
    assert (∀ w : unit, (i2c_add_driver w).1.2 = None) as Hn by reflexivity.
    destruct (module_is_reversible tt 0 m E) as [H0 _]. destruct (H0 Hn) as [_ H].
    destruct (H eq_refl) as (_ & _ & _ & _ & _ & H'). apply H'. eapply rtc_once. exists 0. left. exact E'.
  - assert (∃ m, k250a_init (mkM loaded true []) = Ret (0, m) ∧ tree_bound (drv m) = true) as (m & E & Ht)
      by (eexists; split; vm_compute; reflexivity).
    exists m. split; [exact E|]. destruct (module_is_reversible true 0 m E) as [_ H].
    by apply (H eq_refl Ht m).
Defined.
