(* ===== verification/AndroidShim.v ===== *)
(** [tools/gts9u-android-shim.c]: the library that is preloaded into Samsung's SPSS
    daemons in place of the parts of Android they expect: the system properties, the
    log with its formatter, the wake locks and the hypervisor's memory grants.  The
    kernel's answers to its system calls are the environment. *)
From Stdlib Require Import Ascii String.
From S2P Require Import Prelude Bus.
#[local] Open Scope Z_scope.
#[local] Open Scope list_scope.

(** A C string is the list of its bytes before the NUL; a pointer to one may be NULL.
    Buffers are lists of bytes; a store outside of one is [None]. *)
Definition text (s : string) : list Z := map (fun c => Z.of_nat (nat_of_ascii c)) (list_ascii_of_string s).
Definition cstring := option (list Z).
Definition store_at (l : list Z) (i : nat) (c : Z) : option (list Z) :=
  if (i <? length l)%nat then Some (<[i := c]> l) else None.

(** ** Strings *)

Definition slen (s : list Z) : Z := Z.of_nat (length s).
(** The difference of the first bytes that differ, or of the ends. *)
Fixpoint seq (a b : list Z) : Z :=
  match a, b with
  | x :: a, y :: b => if x =? y then seq a b else x - y
  | x :: _, [] => x
  | [], y :: _ => - y
  | [], [] => 0
  end.
Fixpoint scopy_from (dst : list Z) (i : nat) (src : list Z) : option (list Z) :=
  match src with
  | [] => store_at dst i 0
  | c :: src => dst ← store_at dst i c; scopy_from dst (S i) src
  end.
Definition scopy (dst src : list Z) : option (list Z) := scopy_from dst 0 src.

(** ** The formatter *)

Record outbuf := mkOut { mem : list Z; p : nat; end_ : nat }.
Definition oput (o : outbuf) (c : Z) : option outbuf :=
  if (p o <? end_ o)%nat then l ← store_at (mem o) (p o) c; Some (mkOut l (S (p o)) (end_ o)) else Some o.
Fixpoint oput_all (o : outbuf) (s : list Z) : option outbuf :=
  match s with [] => Some o | c :: s => o ← oput o c; oput_all o s end.
Definition oputs (o : outbuf) (s : cstring) : option outbuf := oput_all o (default (text "(null)") s).

Definition digit (d : Z) : Z := if d <? 10 then 48 + d else 97 + (d - 10).
(** [while (v)]: the digits, the lowest first; a 64-bit value has at most 64. *)
Fixpoint put_digits (n : nat) (v base : Z) (tmp : list Z) (i : nat) : option (list Z * nat) :=
  if v =? 0 then Some (tmp, i)
  else
    match n with
    | O => None
    | S n => tmp ← store_at tmp i (digit (v mod base)); put_digits n (v / base) base tmp (S i)
    end.
(** [while (i--)] *)
Fixpoint put_back (o : outbuf) (tmp : list Z) (i : nat) : option outbuf :=
  match i with O => Some o | S i => c ← tmp !! i; o ← oput o c; put_back o tmp i end.
Definition ounum (o : outbuf) (v base : Z) (neg : bool) : option outbuf :=
  o ← (if neg then oput o 45 else Some o);
  let tmp := replicate 24 0 in
  '(tmp, i) ← (if v =? 0 then tmp ← store_at tmp 0 48; Some (tmp, 1%nat) else Some (tmp, O));
  '(tmp, i) ← put_digits 64 v base tmp i;
  put_back o tmp i.

(** A variadic argument: the 64 bits of its register, or a string at an address. *)
Inductive va_arg := AInt (v : Z) | AStr (addr : Z) (s : list Z).
Definition bits (a : va_arg) : Z := match a with AInt v => v mod 2 ^ 64 | AStr addr _ => addr mod 2 ^ 64 end.
Definition s64 (v : Z) : Z := if v <? 2 ^ 63 then v else v - 2 ^ 64.
(** A string is read where there is one. *)
Definition as_string (a : va_arg) : option cstring :=
  match a with AStr _ s => Some (Some s) | AInt v => if v mod 2 ^ 64 =? 0 then Some None else None end.
Definition is_flag (c : Z) : bool :=
  (c =? 45) || (c =? 43) || (c =? 32) || (c =? 35) || (c =? 48) || ((49 <=? c) && (c <=? 57)) || (c =? 46).
Fixpoint skip_flags (fmt : list Z) : list Z :=
  match fmt with c :: fmt' => if is_flag c then skip_flags fmt' else fmt | [] => [] end.

Definition C (a : ascii) : Z := Z.of_nat (nat_of_ascii a).
(** The [switch]; the arguments that are left. *)
Definition convert (o : outbuf) (c : Z) (ap : list va_arg) : option (outbuf * list va_arg) :=
  let next (k : va_arg → option outbuf) :=
    match ap with a :: ap => o ← k a; Some (o, ap) | [] => None end in
  if c =? C "s" then next (fun a => s ← as_string a; oputs o s)
  else if (c =? C "d") || (c =? C "i") then
    next (fun a => let v := s64 (bits a) in
      if v <? 0 then ounum o ((- v) mod 2 ^ 64) 10 true else ounum o v 10 false)
  else if c =? C "u" then next (fun a => ounum o (bits a) 10 false)
  else if c =? C "x" then next (fun a => ounum o (bits a) 16 false)
  else if c =? C "p" then next (fun a => o ← oputs o (Some (text "0x")); ounum o (bits a) 16 false)
  else if c =? C "c" then next (fun a => oput o (bits a mod 256))
  else o ← oput o 37; o ← oput o c; Some (o, ap).
Fixpoint vformat_loop (n : nat) (o : outbuf) (fmt : list Z) (ap : list va_arg) : option outbuf :=
  match n with
  | O => None
  | S n =>
      match fmt with
      | [] => Some o
      | c :: fmt =>
          if negb (c =? 37) then o ← oput o c; vformat_loop n o fmt ap
          else
            match fmt with
            | 37 :: fmt => o ← oput o 37; vformat_loop n o fmt ap
            | _ =>
                match skip_flags fmt with
                | [] => Some o
                | c :: fmt => '(o, ap) ← convert o c ap; vformat_loop n o fmt ap
                end
            end
      end
  end.
(** [dst]: its [dstlen] bytes; what it holds afterwards. *)
Definition vformat (dst : list Z) (fmt : cstring) (ap : list va_arg) : option (list Z) :=
  let o := mkOut dst 0 (length dst - 1) in
  o ← match fmt with
      | None => oputs o (Some (text "(null)"))
      | Some fmt => vformat_loop (S (length fmt)) o fmt ap
      end;
  store_at (mem o) (p o) 0.
(** The string in a buffer. *)
Fixpoint cstr (l : list Z) : list Z :=
  match l with [] => [] | c :: l => if c =? 0 then [] else c :: cstr l end.

(** ** System calls *)

Inductive shim_event :=
  | SysWrite (fd : Z) (bytes : list Z) | SysOpen (path : list Z) (fd : Z) | SysClose (fd : Z) | SysExit (code : Z)
  | Callback (name value : list Z) (serial : Z).
Class ShimEnv (W : Type) := { openat : list Z → W → Z * W }.
(** [static char line[LOG_BUF]] *)
Record shim := mkShim { line : list Z }.
#[export] Instance eta_shim : Eta shim := fun r => mkShim (line r).
Definition LOG_BUF := 1024.

Section shim.
Context {W : Type} `{!ShimEnv W}.
Abbreviation M := (M (machine shim W shim_event)).
Definition checked {A} (r : option A) : M A := match r with Some a => mret a | None => fault end.

(** *** Properties *)

Definition overrides : list (list Z * list Z) := [(text "servicemanager.ready", text "true")].
Fixpoint lookup_in (l : list (list Z * list Z)) (name : list Z) : cstring :=
  match l with
  | [] => None
  | (n, v) :: l => if seq n name =? 0 then Some v else lookup_in l name
  end.
Definition lookup (name : list Z) : cstring := lookup_in overrides name.
(** The token, or NULL. *)
Definition __system_property_find (name : list Z) : bool := bool_decide (lookup name ≠ None).
(** [value]: the caller's buffer, or NULL; with the result, what it holds. *)
Definition answer (v : cstring) (value : option (list Z)) : M (Z * option (list Z)) :=
  match v with
  | None =>
      match value with
      | None => mret (0, None)
      | Some buf => buf ← checked (store_at buf 0 0); mret (0, Some buf)
      end
  | Some v =>
      match value with
      | None => fault
      | Some buf => buf ← checked (scopy buf v); mret (s32 (slen v), Some buf)
      end
  end.
Definition __system_property_get (name : list Z) (value : option (list Z)) : M (Z * option (list Z)) :=
  answer (lookup name) value.
Definition property_get (key : list Z) (value : option (list Z)) (default_value : cstring) : M (Z * option (list Z)) :=
  answer (match lookup key with Some v => Some v | None => default_value end) value.
(** [callback]: whether there is one. *)
Definition __system_property_read_callback (callback : bool) : M unit :=
  if callback then emit (Callback (text "servicemanager.ready") (text "true") 1) else skip.
Definition __system_property_serial : Z := 1.
(** The result, and [*new_serial] when there is one. *)
Definition __system_property_wait (new_serial : bool) : Z * option Z := (1, if new_serial then Some 1 else None).
Definition __system_property_wait_any (new_serial : bool) : Z * option Z := (1, if new_serial then Some 1 else None).
Definition __system_property_find_nth (n : Z) : bool := false.
Definition __system_property_foreach : M unit := skip.
Definition __system_property_area_serial : Z := 1.
Definition __system_property_area_init : Z := 0.

(** *** Wake locks *)

Definition sys_write (fd : Z) (bytes : list Z) : M unit := emit (SysWrite fd bytes).
Definition wake_open (path : list Z) : M Z := fd ← ask (openat path); emit (SysOpen path fd);; mret (s32 fd).
(** [for (p = src; *p && n < limit; p++) buf[n++] = *p;] *)
Fixpoint copy_while (buf : list Z) (n : nat) (limit : Z) (src : list Z) : option (list Z * nat) :=
  match src with
  | [] => Some (buf, n)
  | c :: src =>
      if Z.of_nat n <? limit then buf ← store_at buf n c; copy_while buf (S n) limit src else Some (buf, n)
  end.
Definition put1 (b : list Z * nat) (c : Z) : option (list Z * nat) := l ← store_at b.1 b.2 c; Some (l, S b.2).
Definition wake_line (what : list Z) (id : cstring) : option (list Z * nat) :=
  let buf := replicate 96 0 in
  '(buf, n) ← copy_while buf 0 (96 - 2) (text "[wakelock] ");
  '(buf, n) ← copy_while buf n (96 - 2) what;
  '(buf, n) ← put1 (buf, n) 32;
  '(buf, n) ← match id with Some id => copy_while buf n (96 - 2) id | None => Some (buf, n) end;
  put1 (buf, n) 10.
Definition wake_log (what : list Z) (id : cstring) : M unit :=
  '(buf, n) ← checked (wake_line what id); sys_write 2 (take n buf).
(** With a node, a NULL name is read; the written length is the name's. *)
Definition wake (path what : list Z) (id : cstring) : M Z :=
  fd ← wake_open path;
  (if 0 <=? fd then
     match id with Some id => sys_write fd id;; emit (SysClose fd) | None => fault end
   else wake_log what id);;
  mret 0.
Definition acquire_wake_lock (lock : Z) (id : cstring) : M Z := wake (text "/sys/power/wake_lock") (text "acquire") id.
Definition release_wake_lock (id : cstring) : M Z := wake (text "/sys/power/wake_unlock") (text "release") id.

(** *** The log *)

Definition log_line (buf : list Z) (tag msg : cstring) : option (list Z * nat) :=
  '(buf, n) ← put1 (buf, O) 91;
  '(buf, n) ← match tag with Some tag => copy_while buf n (LOG_BUF - 6) tag | None => Some (buf, n) end;
  '(buf, n) ← put1 (buf, n) 93;
  '(buf, n) ← put1 (buf, n) 32;
  '(buf, n) ← match msg with Some msg => copy_while buf n (LOG_BUF - 2) msg | None => Some (buf, n) end;
  put1 (buf, n) 10.
Definition emit_log (prio : Z) (tag msg : cstring) : M unit :=
  d ← get_drv;
  '(buf, n) ← checked (log_line (line d) tag msg);
  mod_drv (fun d => d <| line := buf |>);;
  sys_write 2 (take n buf).
Definition __android_log_write (prio : Z) (tag msg : cstring) : M Z := emit_log prio tag msg;; mret 1.
Definition __android_log_buf_write (bufid prio : Z) (tag msg : cstring) : M Z := __android_log_write prio tag msg.
Definition __android_log_is_loggable : Z := 1.
Definition __android_log_is_loggable_len : Z := 1.
(** [msg]: what the stack held in its place. *)
Definition formatted (msg : list Z) (fmt : cstring) (ap : list va_arg) : M cstring :=
  buf ← checked (vformat msg fmt ap); mret (Some (cstr buf)).
Definition __android_log_print (msg : list Z) (prio : Z) (tag fmt : cstring) (ap : list va_arg) : M Z :=
  s ← formatted msg fmt ap; emit_log prio tag s;; mret 1.
Definition __android_log_buf_print (msg : list Z) (bufid prio : Z) (tag fmt : cstring) (ap : list va_arg) : M Z :=
  s ← formatted msg fmt ap; emit_log prio tag s;; mret 1.
Definition __android_log_assert (msg : list Z) (cond tag fmt : cstring) (ap : list va_arg) : M unit :=
  s ← formatted msg fmt ap; emit_log 7 tag s;; emit_log 7 tag cond;; emit (SysExit 134).

(** *** The hypervisor's grants *)

Definition vm_text (msg name : cstring) (val : option Z) : option (list Z) :=
  let o := mkOut (replicate 160 0) 0 159 in
  o ← oputs o msg;
  o ← match name with Some _ => o ← oput o 32; oputs o name | None => Some o end;
  o ← match val with
      | Some v => o ← oput o 32; ounum o (Z.abs v mod 2 ^ 64) 10 (v <? 0)
      | None => Some o
      end;
  store_at (mem o) (p o) 0.
Definition vm_log (msg name : cstring) (val : option Z) : M unit :=
  buf ← checked (vm_text msg name val); emit_log 4 (Some (text "vmmem")) (Some (cstr buf)).
(** The bytes of a [std::string], or NULL: the short form is read in place. *)
Definition vm_str (b : option (list Z)) : M cstring :=
  match b with
  | None => mret (Some (text "(null)"))
  | Some [] => fault
  | Some (b0 :: b) => mret (Some (if Z.odd b0 then text "(long)" else cstr b))
  end.
Definition CreateVmMem : M Z :=
  vm_log (Some (text "CreateVmMem -> stub handle (heap already owns the transition)")) None None;; mret 1.
Definition FreeVmMem : M Z := vm_log (Some (text "FreeVmMem")) None None;; mret 0.
Definition FindVmByName (name : option (list Z)) : M Z :=
  s ← vm_str name; vm_log (Some (text "FindVmByName")) s None;; mret 1.
(** The result, and [*out] when there is one. *)
Definition ShareDmabuf (fd : Z) (out : bool) : M (Z * option Z) :=
  vm_log (Some (text "ShareDmabuf (already granted by qcom,sp-hlos)")) None (Some fd);;
  mret (0, if out then Some 0 else None).
Definition LendDmabuf (fd : Z) (out : bool) : M (Z * option Z) :=
  vm_log (Some (text "LendDmabuf")) None (Some fd);; mret (0, if out then Some 0 else None).
Definition RetrieveDmabuf (fd : Z) : M Z := vm_log (Some (text "RetrieveDmabuf")) None (Some fd);; mret 0.
Definition ReclaimDmabuf (fd : Z) : M Z := vm_log (Some (text "ReclaimDmabuf")) None (Some fd);; mret 0.
End shim.
