(* ===== verification/AndroidShimProps.v ===== *)
(** [tools/gts9u-android-shim.c]: what the formatter and the log write, in bounds, and
    that the numbers in it read back. *)
From Stdlib Require Import Ascii String.
From S2P Require Import Prelude Bus AndroidShim.
#[local] Open Scope Z_scope.
#[local] Open Scope list_scope.

(** ** What a format says *)

(** The pieces of a format: a byte, or the letter of a conversion after its flags. *)
Inductive piece := Lit (c : Z) | Conv (c : Z).
Inductive place := Plain | Percent | Flags.
Fixpoint pieces (w : place) (fmt : list Z) : list piece :=
  match fmt with
  | [] => []
  | c :: fmt =>
      match w with
      | Plain => if c =? 37 then pieces Percent fmt else Lit c :: pieces Plain fmt
      | Percent => if c =? 37 then Lit 37 :: pieces Plain fmt
                   else if is_flag c then pieces Flags fmt else Conv c :: pieces Plain fmt
      | Flags => if is_flag c then pieces Flags fmt else Conv c :: pieces Plain fmt
      end
  end.
(** The numeral of a value, the highest digit first. *)
Fixpoint numeral (n : nat) (base v : Z) : list Z :=
  match n with
  | O => []
  | S n => if v <? base then [digit v] else numeral n base (v / base) ++ [digit (v mod base)]
  end.
Definition unsigned (base v : Z) : list Z := numeral 64 base v.
Definition signed (v : Z) : list Z := if v <? 0 then 45 :: unsigned 10 (- v) else unsigned 10 v.
(** What a conversion shows; [None]: a number is taken for a string. *)
Definition shown (c : Z) (a : va_arg) : option (list Z) :=
  if c =? C "s" then default (text "(null)") <$> as_string a
  else if (c =? C "d") || (c =? C "i") then Some (signed (s64 (bits a)))
  else if c =? C "u" then Some (unsigned 10 (bits a))
  else if c =? C "x" then Some (unsigned 16 (bits a))
  else if c =? C "p" then Some (text "0x" ++ unsigned 16 (bits a))
  else Some [bits a mod 256].
Definition takes_argument (c : Z) : bool :=
  bool_decide (c ∈ [C "s"; C "d"; C "i"; C "u"; C "x"; C "p"; C "c"]).
(** The whole text; [None] also when arguments are missing. *)
Fixpoint render (l : list piece) (ap : list va_arg) : option (list Z) :=
  match l with
  | [] => Some []
  | Lit c :: l => cons c <$> render l ap
  | Conv c :: l =>
      if takes_argument c then
        match ap with [] => None | a :: ap => s ← shown c a; app s <$> render l ap end
      else app [37; c] <$> render l ap
  end.
Definition said (fmt : cstring) (ap : list va_arg) : option (list Z) :=
  match fmt with None => Some (text "(null)") | Some fmt => render (pieces Plain fmt) ap end.

(** ** The buffer *)

(** The buffer [dst] after [t] was put into it: what fits, before the last byte. *)
Record holds (dst t : list Z) (o : outbuf) : Prop := {
  h_len : length (mem o) = length dst;
  h_end : S (end_ o) = length dst;
  h_p : p o = Nat.min (length t) (end_ o);
  h_text : take (p o) (mem o) = take (end_ o) t
}.
Lemma store_at_ok l i c : (i < length l)%nat → store_at l i c = Some (<[i := c]> l).
Proof. intros H. unfold store_at. by rewrite (proj2 (Nat.ltb_lt _ _) H). Qed.
Lemma oput_holds dst t o c :
  holds dst t o → ∃ o', oput o c = Some o' ∧ holds dst (t ++ [c]) o'.
Proof.
  intros [Hl He Hp Ht]. unfold oput. destruct (Nat.ltb_spec (p o) (end_ o)) as [Hlt|Hge].
  - rewrite store_at_ok by lia. eexists. split; [reflexivity|].
    assert (length t < end_ o)%nat as Hlen by lia. assert (p o = length t) as Hpl by lia.
    split; cbn; rewrite ?length_insert, ?length_app; cbn; try lia.
    rewrite (take_ge (t ++ [c])) by (rewrite length_app; cbn; lia).
    rewrite (take_ge t) in Ht by lia. rewrite (take_S_r _ _ c) by (apply list_lookup_insert_eq; lia).
    rewrite take_insert_ge by lia. by rewrite Ht.
  - eexists. split; [reflexivity|]. assert (end_ o <= length t)%nat as Hlen by lia.
    split; try done; rewrite ?length_app; cbn; try lia. rewrite Ht. symmetry. apply take_app_le. lia.
Qed.
Lemma oput_all_holds dst t o s :
  holds dst t o → ∃ o', oput_all o s = Some o' ∧ holds dst (t ++ s) o'.
Proof.
  revert t o. induction s as [|c s IH]; intros t o H; cbn [oput_all].
  - rewrite app_nil_r. by exists o.
  - destruct (oput_holds dst t o c H) as (o1 & E & H1). rewrite E. cbn.
    destruct (IH _ _ H1) as (o2 & E2 & H2). exists o2. split; [done|]. by rewrite <- app_assoc in H2.
Qed.
Lemma oput_all_app o a b : oput_all o (a ++ b) = (o ← oput_all o a; oput_all o b).
Proof.
  revert o. induction a as [|c a IH]; intros o; cbn [app oput_all]; [done|].
  destruct (oput o c); cbn; [apply IH|done].
Qed.

Lemma oput_one o c : oput_all o [c] = oput o c.
Proof. cbn [oput_all]. by destruct (oput o c). Qed.

(** ** Numerals *)

Lemma put_back_all o tmp i :
  (i <= length tmp)%nat → put_back o tmp i = oput_all o (rev (take i tmp)).
Proof.
  revert o. induction i as [|i IH]; intros o H; cbn [put_back]; [done|].
  destruct (lookup_lt_is_Some_2 tmp i) as [c Hc]; [lia|]. rewrite Hc. cbn.
  rewrite (take_S_r _ _ c) by done. rewrite rev_app_distr. cbn. destruct (oput o c); cbn; [|done]. apply IH. lia.
Qed.
Lemma put_digits_numeral base n v tmp i :
  2 <= base → 0 < v < 2 ^ Z.of_nat n → (i + length (numeral n base v) <= length tmp)%nat →
  ∃ tmp', put_digits n v base tmp i = Some (tmp', (i + length (numeral n base v))%nat) ∧ length tmp' = length tmp
    ∧ take (i + length (numeral n base v)) tmp' = take i tmp ++ rev (numeral n base v).
Proof.
  intros Hb. revert v tmp i. induction n as [|n IH]; intros v tmp i Hv Hl; [cbn in Hv; lia|].
  cbn [put_digits numeral] in *. replace (v =? 0) with false by lia.
  destruct (Z.ltb_spec v base) as [Hlt|Hge]; cbn [length] in *.
  - rewrite store_at_ok by lia. cbn. rewrite Z.div_small, Z.mod_small by lia.
    exists (<[i:=digit v]> tmp). split_and!.
    + destruct n; cbn; by rewrite Nat.add_1_r.
    + by rewrite length_insert.
    + rewrite Nat.add_1_r. rewrite (take_S_r _ _ (digit v)) by (apply list_lookup_insert_eq; lia).
      by rewrite take_insert_ge by lia.
  - rewrite length_app in Hl. cbn [length] in Hl. rewrite store_at_ok by lia. cbn.
    assert (0 < v / base < 2 ^ Z.of_nat n) as Hd.
    { split; [apply Z.div_str_pos; lia|]. apply Z.div_lt_upper_bound; [lia|].
      rewrite Nat2Z.inj_succ, Z.pow_succ_r in Hv by lia. nia. }
    destruct (IH (v / base) (<[i:=digit (v mod base)]> tmp) (S i) Hd) as (tmp' & E & H1 & H2);
      [rewrite length_insert; lia|].
    exists tmp'. rewrite length_app. cbn [length]. rewrite E. rewrite length_insert in H1. split_and!; [|done|].
    + f_equal. f_equal. lia.
    + replace (i + (length (numeral n base (v / base)) + 1))%nat with (S i + length (numeral n base (v / base)))%nat by lia.
      rewrite H2. rewrite (take_S_r _ _ (digit (v mod base))) by (apply list_lookup_insert_eq; lia).
      rewrite take_insert_ge by lia. rewrite rev_app_distr. cbn. by rewrite <- app_assoc.
Qed.
Lemma numeral_length base k n v :
  2 <= base → 0 <= v < base ^ Z.of_nat (S k) → (length (numeral n base v) <= S k)%nat.
Proof.
  intros Hb. revert k v. induction n as [|n IH]; intros k v Hv; cbn [numeral length]; [lia|].
  destruct (Z.ltb_spec v base) as [Hlt|Hge]; cbn [length]; [lia|]. rewrite length_app. cbn [length].
  destruct k as [|k]; [cbn in Hv; lia|].
  assert (0 <= v / base < base ^ Z.of_nat (S k)) as Hd.
  { split; [apply Z.div_pos; lia|]. apply Z.div_lt_upper_bound; [lia|].
    rewrite <- Z.pow_succ_r, <- Nat2Z.inj_succ by lia. lia. }
  specialize (IH _ _ Hd). lia.
Qed.
(** In the 24 bytes of [tmp] there is room for any number the program shows. *)
Lemma unsigned_length base v : base ∈ [10; 16] → 0 <= v < 2 ^ 64 → (length (unsigned base v) <= 20)%nat.
Proof.
  intros Hb Hv. apply numeral_length; [apply list_elem_of_In in Hb as [<-|[<-|[]]]; lia|].
  apply list_elem_of_In in Hb as [<-|[<-|[]]]; split; try apply Hv; (eapply Z.lt_le_trans; [apply Hv|]); by vm_compute.
Qed.
Lemma ounum_all o base v neg :
  base ∈ [10; 16] → 0 <= v < 2 ^ 64 →
  ounum o v base neg = oput_all o ((if neg then [45] else []) ++ unsigned base v).
Proof.
  intros Hb Hv. pose proof (unsigned_length _ _ Hb Hv) as Hlen. rewrite oput_all_app. unfold ounum.
  assert (H2 : 2 <= base) by (apply list_elem_of_In in Hb as [<-|[<-|[]]]; lia).
  assert (Hsign : (if neg then oput o 45 else Some o) = oput_all o (if neg then [45] else [])).
  { destruct neg; [by rewrite oput_one|done]. }
  rewrite Hsign.
  destruct (oput_all o _) as [o1|]; cbn [mbind option_bind]; [|done].
  destruct (Z.eqb_spec v 0) as [->|Hnz].
  - unfold unsigned. cbn [numeral]. replace (0 <? base) with true by lia. reflexivity.
  - cbn [mbind option_bind].
    destruct (put_digits_numeral base 64 v (replicate 24 0) 0 H2) as (tmp & E & H1 & H3);
      [lia|cbn [length replicate]; unfold unsigned in Hlen; lia|].
    rewrite E. cbn [mbind option_bind Nat.add] in *. rewrite put_back_all; [|rewrite H1; cbn [length replicate]; unfold unsigned in Hlen; lia].
    rewrite H3. cbn [take]. by rewrite app_nil_l, rev_involutive.
Qed.

(** ** The formatter refines what a format says *)

Lemma bits_range a : 0 <= bits a < 2 ^ 64.
Proof. destruct a; cbn; apply Z.mod_pos_bound; lia. Qed.
Lemma oputs_all o s : oputs o (Some s) = oput_all o s.
Proof. reflexivity. Qed.
Lemma signed_all o v :
  - 2 ^ 63 <= v < 2 ^ 63 →
  (if v <? 0 then ounum o ((- v) mod 2 ^ 64) 10 true else ounum o v 10 false) = oput_all o (signed v).
Proof.
  intros Hv. unfold signed. destruct (Z.ltb_spec v 0).
  - rewrite Z.mod_small by lia. rewrite ounum_all; [done|by repeat constructor|lia].
  - rewrite ounum_all; [done|by repeat constructor|lia].
Qed.
Lemma s64_range v : 0 <= v < 2 ^ 64 → - 2 ^ 63 <= s64 v < 2 ^ 63.
Proof. unfold s64. destruct (Z.ltb_spec v (2 ^ 63)); lia. Qed.
Lemma convert_all o c ap :
  convert o c ap =
    if takes_argument c then
      match ap with [] => None | a :: ap => s ← shown c a; o ← oput_all o s; Some (o, ap) end
    else o ← oput_all o [37; c]; Some (o, ap).
Proof.
  unfold convert, takes_argument, shown.
  destruct (Z.eqb_spec c (C "s")) as [->|N1]; [|destruct (Z.eqb_spec c (C "d")) as [->|N2];
    [|destruct (Z.eqb_spec c (C "i")) as [->|N3]; [|destruct (Z.eqb_spec c (C "u")) as [->|N4];
    [|destruct (Z.eqb_spec c (C "x")) as [->|N5]; [|destruct (Z.eqb_spec c (C "p")) as [->|N6];
    [|destruct (Z.eqb_spec c (C "c")) as [->|N7]]]]]]]; cbn [orb].
  8: { rewrite bool_decide_eq_false_2 by (rewrite !not_elem_of_cons; split_and!; try done; apply not_elem_of_nil).
       cbn. destruct (oput o 37); cbn; [|done]. by destruct (oput _ c). }
  all: rewrite bool_decide_eq_true_2 by (apply (bool_decide_unpack _); reflexivity).
  all: destruct ap as [|a ap]; [done|]; pose proof (bits_range a) as Hr.
  - destruct (as_string a) as [s|]; reflexivity.
  - by rewrite signed_all by apply s64_range, Hr.
  - by rewrite signed_all by apply s64_range, Hr.
  - rewrite ounum_all; [done|by repeat constructor|lia].
  - rewrite ounum_all; [done|by repeat constructor|lia].
  - cbn [mbind option_bind]. rewrite oput_all_app, oputs_all. destruct (oput_all o _); [|done].
    cbn [mbind option_bind]. rewrite ounum_all; [done|by repeat constructor|lia].
  - cbn. by destruct (oput o _).
Qed.
Lemma pieces_flags fmt :
  pieces Flags fmt = match skip_flags fmt with [] => [] | c :: fmt => Conv c :: pieces Plain fmt end.
Proof. induction fmt as [|c fmt IH]; cbn; [done|]. by destruct (is_flag c). Qed.
Lemma pieces_percent fmt :
  pieces Percent fmt =
    match fmt with
    | 37 :: fmt => Lit 37 :: pieces Plain fmt
    | _ => match skip_flags fmt with [] => [] | c :: fmt => Conv c :: pieces Plain fmt end
    end.
Proof.
  destruct fmt as [|c fmt]; [done|]. destruct (Z.eqb_spec c 37) as [->|N]; [done|].
  cbn [pieces skip_flags]. rewrite (proj2 (Z.eqb_neq c 37)) by done. rewrite pieces_flags.
  destruct (is_flag c); destruct c as [|c|c]; try done; do 6 (destruct c as [c|c|]; try done).
Qed.
Lemma skip_flags_length fmt : (length (skip_flags fmt) <= length fmt)%nat.
Proof. induction fmt as [|c fmt IH]; cbn; [done|]. destruct (is_flag c); cbn; lia. Qed.
Lemma app_said o s r :
  (t ← app s <$> r; oput_all o t) = o ← oput_all o s; t ← r; oput_all o t.
Proof.
  destruct r as [t|]; cbn [mbind option_bind fmap option_fmap option_map].
  - apply oput_all_app.
  - by destruct (oput_all o s).
Qed.
Lemma cons_said o c r : (t ← cons c <$> r; oput_all o t) = o ← oput o c; t ← r; oput_all o t.
Proof. rewrite <- oput_one. apply (app_said o [c]). Qed.
(** A conversion and what follows it, when what follows is formatted as it says. *)
Lemma convert_said o c ap fmt k :
  (∀ o ap, k o ap = t ← render (pieces Plain fmt) ap; oput_all o t) →
  ('(o, ap) ← convert o c ap; k o ap) = t ← render (Conv c :: pieces Plain fmt) ap; oput_all o t.
Proof.
  intros IH. rewrite convert_all. cbn [render]. destruct (takes_argument c); [destruct ap as [|a ap]|].
  - done.
  - destruct (shown c a) as [s|]; cbn [mbind option_bind]; [|done]. rewrite app_said.
    destruct (oput_all o s); cbn [mbind option_bind]; [apply IH|done].
  - rewrite app_said. destruct (oput_all o _); cbn [mbind option_bind]; [apply IH|done].
Qed.
Lemma vformat_loop_said n o fmt ap :
  (length fmt < n)%nat →
  vformat_loop n o fmt ap = t ← render (pieces Plain fmt) ap; oput_all o t.
Proof.
  revert o fmt ap. induction n as [|n IH]; intros o fmt ap H; [lia|]. cbn [vformat_loop].
  destruct fmt as [|c fmt]; [done|]. cbn [length pieces] in *.
  destruct (Z.eqb_spec c 37) as [->|N]; cbn [negb].
  2: { cbn [render]. rewrite cons_said. destruct (oput o c); cbn [mbind option_bind]; [apply IH; lia|done]. }
  rewrite pieces_percent.
  assert (Hconv : ∀ l, (length l <= length fmt)%nat →
    match l with [] => Some o | c :: fmt => '(o, ap) ← convert o c ap; vformat_loop n o fmt ap end
    = t ← render match l with [] => [] | c :: fmt => Conv c :: pieces Plain fmt end ap; oput_all o t).
  { intros [|d l] Hl; [done|]. cbn [length] in *. apply convert_said. intros. apply IH. lia. }
  pose proof (skip_flags_length fmt) as Hs. destruct fmt as [|c fmt]; [done|].
  destruct (Z.eqb_spec c 37) as [->|N].
  - cbn [render length] in *. rewrite cons_said. destruct (oput o 37); cbn [mbind option_bind]; [apply IH; lia|done].
  - specialize (Hconv _ Hs). cbn [length] in *.
    destruct c as [|c|c]; try exact Hconv. do 6 (destruct c as [c|c|]; try exact Hconv). done.
Qed.

(** ** Buffers and the strings in them *)

Lemma cstr_store l i : (i < length l)%nat → cstr (<[i:=0]> l) = cstr (take i l).
Proof.
  revert i. induction l as [|c l IH]; intros [|i] H; cbn in *; try lia; [done|].
  destruct (c =? 0); [done|]. f_equal. apply IH. lia.
Qed.
(** The formatter keeps to its buffer, and leaves there as much as fits of what the
    format says; when an argument is missing or not what the format takes it for, it
    cannot go on. *)
Lemma vformat_said dst fmt ap :
  dst ≠ [] →
  match said fmt ap with
  | Some t => ∃ buf, vformat dst fmt ap = Some buf ∧ length buf = length dst ∧ cstr buf = cstr (take (length dst - 1) t)
  | None => vformat dst fmt ap = None
  end.
Proof.
  intros Hd. assert (Hlen : (length dst ≠ 0)%nat) by (by destruct dst). unfold vformat, said.
  assert (H0 : holds dst [] (mkOut dst 0 (length dst - 1))).
  { split; cbn; try lia. by rewrite take_nil. }
  assert (Hall : ∀ t, ∃ buf,
    (o ← oput_all (mkOut dst 0 (length dst - 1)) t; store_at (mem o) (p o) 0) = Some buf
    ∧ length buf = length dst ∧ cstr buf = cstr (take (length dst - 1) t)).
  { intros t. destruct (oput_all_holds _ _ _ t H0) as (o & E & [Hl He Hp Ht]). rewrite E. cbn [mbind option_bind].
    rewrite store_at_ok by lia. eexists. split; [reflexivity|]. rewrite length_insert. split; [done|].
    rewrite cstr_store by lia. rewrite Ht. cbn. do 2 f_equal. lia. }
  destruct fmt as [fmt|]; [|apply Hall]. rewrite vformat_loop_said by lia.
  destruct (render _ ap) as [t|]; cbn [mbind option_bind]; [apply Hall|done].
Qed.
Lemma copy_while_takes limit src buf n :
  Z.of_nat n <= limit <= Z.of_nat (length buf) →
  let k := (Z.to_nat limit - n)%nat in
  ∃ buf', copy_while buf n limit src = Some (buf', (n + length (take k src))%nat) ∧ length buf' = length buf
    ∧ take (n + length (take k src)) buf' = take n buf ++ take k src.
Proof.
  revert buf n. induction src as [|c src IH]; intros buf n H k; subst k; cbn [copy_while].
  - rewrite take_nil. cbn. rewrite Nat.add_0_r, app_nil_r. by eexists.
  - destruct (Z.ltb_spec (Z.of_nat n) limit) as [Hlt|Hge].
    + rewrite store_at_ok by lia. cbn [mbind option_bind].
      destruct (IH (<[n:=c]> buf) (S n)) as (buf' & E & H1 & H2); [rewrite length_insert; lia|].
      replace (Z.to_nat limit - n)%nat with (S (Z.to_nat limit - S n)) by lia. cbn [take length].
      rewrite Nat.add_succ_r. exists buf'. rewrite length_insert in H1. split_and!; [done..|].
      change (S (n + ?x)) with (S n + x)%nat. rewrite H2.
      rewrite (take_S_r _ _ c) by (apply list_lookup_insert_eq; lia). rewrite take_insert_ge by lia.
      by rewrite <- app_assoc.
    + replace (Z.to_nat limit - n)%nat with O by lia. cbn. rewrite Nat.add_0_r, app_nil_r. by eexists.
Qed.
Lemma put1_takes buf n c :
  (n < length buf)%nat →
  put1 (buf, n) c = Some (<[n := c]> buf, S n) ∧ take (S n) (<[n := c]> buf) = take n buf ++ [c].
Proof.
  intros H. unfold put1. cbn [fst snd]. rewrite store_at_ok by done. split; [done|].
  rewrite (take_S_r _ _ c) by (apply list_lookup_insert_eq; lia). by rewrite take_insert_ge by lia.
Qed.

(** ** The log *)

(** One line: the tag, cut so that the rest fits, and as much of the text as fits. *)
Definition log_text (tag msg : cstring) : list Z :=
  let tag := take 1017 (default [] tag) in
  [91] ++ tag ++ [93; 32] ++ take (1019 - length tag) (default [] msg) ++ [10].
Lemma copy_opt_takes limit (src : cstring) buf n :
  Z.of_nat n <= limit <= Z.of_nat (length buf) →
  let s := take (Z.to_nat limit - n) (default [] src) in
  ∃ buf', match src with Some src => copy_while buf n limit src | None => Some (buf, n) end = Some (buf', (n + length s)%nat)
    ∧ length buf' = length buf ∧ take (n + length s) buf' = take n buf ++ s.
Proof.
  intros H s. destruct src as [src|]; [by apply copy_while_takes|]. subst s. cbn. rewrite take_nil. cbn.
  rewrite Nat.add_0_r, app_nil_r. by eexists.
Qed.
Lemma log_line_says buf tag msg :
  length buf = 1024%nat →
  ∃ buf' n, log_line buf tag msg = Some (buf', n) ∧ length buf' = 1024%nat ∧ take n buf' = log_text tag msg.
Proof.
  intros H. unfold log_line, log_text. change (LOG_BUF - 6) with 1018. change (LOG_BUF - 2) with 1022.
  destruct (put1_takes buf 0 91) as [E T0]; [lia|]. rewrite E. cbn [mbind option_bind]. clear E.
  destruct (copy_opt_takes 1018 tag (<[0%nat:=91]> buf) 1) as (b1 & E & L1 & T1); [rewrite length_insert; lia|].
  rewrite E, T0 in *. clear E T0. rewrite length_insert in L1. cbn [mbind option_bind].
  set (tg := take _ (default [] tag)) in *. change (Z.to_nat 1018 - 1)%nat with 1017%nat in tg.
  pose proof (firstn_le_length 1017 (default [] tag)) as Ht. fold tg in Ht.
  destruct (put1_takes b1 (1 + length tg) 93) as [E T2]; [lia|]. rewrite E, T1 in *. clear E T1. cbn [mbind option_bind].
  destruct (put1_takes (<[(1 + length tg)%nat:=93]> b1) (S (1 + length tg)) 32) as [E T3]; [rewrite length_insert; lia|].
  rewrite E, T2 in *. clear E T2. cbn [mbind option_bind].
  edestruct (copy_opt_takes 1022 msg) as (b2 & E & L2 & T4); [|rewrite E]; [rewrite !length_insert; lia|].
  rewrite T3 in T4. clear E T3. rewrite !length_insert in L2. cbn [mbind option_bind].
  replace (Z.to_nat 1022 - S (S (1 + length tg)))%nat with (1019 - length tg)%nat in * by lia.
  set (ms := take _ (default [] msg)) in *.
  pose proof (firstn_le_length (1019 - length tg) (default [] msg)) as Hm. fold ms in Hm.
  edestruct (put1_takes b2) as [E T5]; [|rewrite E]; [lia|]. rewrite T4 in T5.
  eexists _, _. split; [reflexivity|]. rewrite length_insert. split; [lia|]. rewrite T5. cbn.
  by rewrite <- !app_assoc.
Qed.

(** C18: the log says what the daemons asked for.  [__android_log_print], with its 1024
    bytes of stack and the library's line as they may be, writes one line to the standard
    error: the tag in brackets, cut to 1017 bytes, and as much of the formatted text as
    fits, up to the first NUL in it; never more than the line's 1024 bytes and never a
    byte out of either buffer.  When the format takes an argument that is not there, or a
    number for a string, there is no such promise. *)
Theorem log_lines_say_what_was_asked {W} `{!ShimEnv W} msg prio tag fmt ap d (w : W) l :
  length msg = 1024%nat → length (line d) = 1024%nat →
  match said fmt ap with
  | Some t =>
      let s := log_text tag (Some (cstr (take 1023 t))) in
      (∃ buf, __android_log_print msg prio tag fmt ap (mkM d w l) = Ret (1, mkM (mkShim buf) w (l ++ [SysWrite 2 s]))
         ∧ length buf = 1024%nat)
      ∧ (length s <= 1023)%nat
  | None => __android_log_print msg prio tag fmt ap (mkM d w l) = Fault
  end.
Proof.
  intros Hm Hd. assert (Hne : msg ≠ []) by (by destruct msg).
  pose proof (vformat_said msg fmt ap Hne) as Hf. rewrite Hm in Hf.
  destruct (said fmt ap) as [t|].
  - destruct Hf as (buf & E & _ & Hs). change (1024 - 1)%nat with 1023%nat in Hs. intros s. split.
    + destruct (log_line_says (line d) tag (Some (cstr buf)) Hd) as (line' & n & E1 & L1 & T1).
      exists line'. split; [|done].
      unfold __android_log_print, formatted. rewrite E. unfold emit_log, sys_write, emit, mod_drv, modify, get_drv, gets, mbind, M_bind, mret, M_ret.
      cbn -[log_line log_text take]. rewrite E1. cbn -[log_text take].
      by rewrite T1, Hs.
    + subst s. unfold log_text. cbn [app length]. rewrite !length_app. cbn [length]. rewrite !length_app, !length_take.
      cbn [length default]. lia.
  - unfold __android_log_print, formatted. by rewrite Hf.
Qed.
#[local] Instance no_node_env : ShimEnv unit := {| openat _ w := (-2, w) |}.
Lemma log_lines_say_what_was_asked_witness :
  let fmt := Some (text "%-3s %d%% of %u at %p") in
  let ap := [AStr 4096 (text "nvm"); AInt (-7); AInt 12; AInt 255] in
  said fmt ap = Some (text "nvm -7% of 12 at 0xff") ∧
  (∃ buf, __android_log_print (replicate 1024 170) 4 (Some (text "spss")) fmt ap (mkM (mkShim (replicate 1024 0)) tt [])
     = Ret (1, mkM (mkShim buf) tt [SysWrite 2 (text "[spss] nvm -7% of 12 at 0xff" ++ [10])])).
Proof.
  intros fmt ap. assert (Hsaid : said fmt ap = Some (text "nvm -7% of 12 at 0xff")) by (vm_compute; reflexivity).
  split; [exact Hsaid|].
  pose proof (log_lines_say_what_was_asked (replicate 1024 170) 4 (Some (text "spss")) fmt ap
    (mkShim (replicate 1024 0)) tt [] eq_refl eq_refl) as H.
  rewrite Hsaid in H. destruct H as [(buf & E & _) _]. exists buf. rewrite E. vm_compute. reflexivity.
Defined.

(** ** Numbers read back *)

Definition digit_value (c : Z) : Z := if c <? 58 then c - 48 else c - 87.
Definition read_unsigned (base : Z) (s : list Z) : Z := foldl (fun v c => v * base + digit_value c) 0 s.
Definition read_signed (s : list Z) : Z :=
  match s with 45 :: s => - read_unsigned 10 s | _ => read_unsigned 10 s end.
Lemma digit_value_digit d : 0 <= d < 16 → digit_value (digit d) = d.
Proof.
  unfold digit_value, digit. intros H. destruct (Z.ltb_spec d 10).
  - destruct (Z.ltb_spec (48 + d) 58); lia.
  - destruct (Z.ltb_spec (97 + (d - 10)) 58); lia.
Qed.
Lemma read_numeral base n v :
  base ∈ [10; 16] → 0 <= v < 2 ^ Z.of_nat n → 0 < v ∨ (0 < n)%nat → read_unsigned base (numeral n base v) = v.
Proof.
  intros Hb. assert (H2 : 2 <= base <= 16) by (apply list_elem_of_In in Hb as [<-|[<-|[]]]; lia).
  revert v. induction n as [|n IH]; intros v Hv Hn; [cbn in Hv; lia|]. cbn [numeral].
  destruct (Z.ltb_spec v base).
  - cbn. rewrite digit_value_digit by lia. done.
  - unfold read_unsigned in *. rewrite foldl_app. cbn [foldl].
    assert (0 < v / base < 2 ^ Z.of_nat n) as Hd.
    { split; [apply Z.div_str_pos; lia|]. apply Z.div_lt_upper_bound; [lia|].
      rewrite Nat2Z.inj_succ, Z.pow_succ_r in Hv by lia. nia. }
    pose proof (Z.mod_pos_bound v base). rewrite IH, digit_value_digit by lia. pose proof (Z_div_mod_eq_full v base). lia.
Qed.
Lemma numeral_digits base n v :
  base ∈ [10; 16] → 0 <= v → Forall (fun c => 48 <= c) (numeral n base v).
Proof.
  intros Hb. assert (H2 : 2 <= base <= 16) by (apply list_elem_of_In in Hb as [<-|[<-|[]]]; lia).
  assert (Hdig : ∀ d, 0 <= d → 48 <= digit d) by (intros d H; unfold digit; destruct (Z.ltb_spec d 10); lia).
  revert v. induction n as [|n IH]; intros v Hv; cbn [numeral]; [constructor|].
  destruct (Z.ltb_spec v base); [repeat constructor; auto|].
  apply Forall_app. split; [apply IH, Z.div_pos; lia|]. repeat constructor. apply Hdig, Z.mod_pos_bound. lia.
Qed.
Lemma cstr_all l : Forall (fun c => c ≠ 0) l → cstr l = l.
Proof. induction 1 as [|c l H _ IH]; cbn; [done|]. rewrite (proj2 (Z.eqb_neq c 0)) by done. by rewrite IH. Qed.
(** What one conversion leaves in a buffer with room for it. *)
Lemma one_number dst f a s :
  (32 <= length dst)%nat → said (Some f) [a] = Some s → (length s <= 31)%nat → Forall (fun c => c ≠ 0) s →
  ∃ buf, vformat dst (Some f) [a] = Some buf ∧ cstr buf = s.
Proof.
  intros Hd Hs Hl Hz. pose proof (vformat_said dst (Some f) [a]) as H. rewrite Hs in H.
  destruct H as (buf & E & _ & Hc); [by destruct dst; cbn in Hd; [lia|]|]. exists buf. split; [done|].
  rewrite Hc, take_ge by lia. by apply cstr_all.
Qed.
Lemma said_conv (c : Z) a s :
  negb (is_flag c) && negb (c =? 37) && takes_argument c = true → shown c a = Some s → said (Some [37; c]) [a] = Some s.
Proof.
  intros H Hs. unfold said. cbn [pieces]. change (37 =? 37) with true. cbn [negb].
  destruct (is_flag c); [done|]. destruct (c =? 37); [done|]. cbn in H. cbn [render]. rewrite H, Hs. cbn. by rewrite app_nil_r.
Qed.
Lemma digits_nonzero base v : base ∈ [10; 16] → 0 <= v → Forall (fun c => c ≠ 0) (unsigned base v).
Proof. intros Hb Hv. eapply Forall_impl; [by apply numeral_digits|]. cbn. lia. Qed.
Lemma read_back_unsigned base v : base ∈ [10; 16] → 0 <= v < 2 ^ 64 → read_unsigned base (unsigned base v) = v.
Proof. intros. apply read_numeral; [done|done|lia]. Qed.
Lemma read_back_signed v : - 2 ^ 63 <= v < 2 ^ 63 → read_signed (signed v) = v.
Proof.
  intros Hv. unfold signed. destruct (Z.ltb_spec v 0).
  - cbn [read_signed]. rewrite read_back_unsigned; [lia|by repeat constructor|lia].
  - rewrite <- (read_back_unsigned 10 v) at 2; [|by repeat constructor|lia].
    pose proof (numeral_digits 10 64 v ltac:(by repeat constructor) ltac:(lia)) as Hd. unfold unsigned.
    unfold read_signed. destruct (numeral 64 10 v) as [|c s]; [done|]. inversion_clear Hd.
    destruct c as [|c|c]; try done. do 6 (destruct c as [c|c|]; try done).
Qed.
Lemma signed_fits v :
  - 2 ^ 63 <= v < 2 ^ 63 → (length (signed v) <= 31)%nat ∧ Forall (fun c => c ≠ 0) (signed v).
Proof.
  intros Hv. unfold signed. destruct (Z.ltb_spec v 0).
  - pose proof (unsigned_length 10 (- v) ltac:(by repeat constructor) ltac:(lia)).
    split; [cbn [length]; lia|]. constructor; [done|]. apply digits_nonzero; [by repeat constructor|lia].
  - pose proof (unsigned_length 10 v ltac:(by repeat constructor) ltac:(lia)).
    split; [lia|]. apply digits_nonzero; [by repeat constructor|lia].
Qed.

(** C40: the numbers in the log read back.  In a buffer of at least 32 bytes, [%u] and
    [%x] leave a numeral of the 64 bits of the argument and [%d] one of their signed
    value; but for a negative C [int], of which the caller defines the lower half of the
    register only, [%d] shows the value plus 2^32 when the upper half is clear. *)
Theorem numbers_read_back dst a :
  (32 <= length dst)%nat →
  (∃ buf, vformat dst (Some (text "%u")) [a] = Some buf ∧ read_unsigned 10 (cstr buf) = bits a) ∧
  (∃ buf, vformat dst (Some (text "%x")) [a] = Some buf ∧ read_unsigned 16 (cstr buf) = bits a) ∧
  (∃ buf, vformat dst (Some (text "%d")) [a] = Some buf ∧ read_signed (cstr buf) = s64 (bits a)) ∧
  (∀ v, - 2 ^ 31 <= v < 0 → bits a = v mod 2 ^ 32 →
     ∃ buf, vformat dst (Some (text "%d")) [a] = Some buf ∧ read_signed (cstr buf) = v + 2 ^ 32).
Proof.
  intros Hd. pose proof (bits_range a) as Hb.
  assert (H10 : 10 ∈ [10; 16]) by (by repeat constructor). assert (H16 : 16 ∈ [10; 16]) by (by repeat constructor).
  assert (Hsigned : ∃ buf, vformat dst (Some (text "%d")) [a] = Some buf ∧ read_signed (cstr buf) = s64 (bits a)).
  { pose proof (s64_range _ Hb) as Hs. destruct (signed_fits _ Hs) as [Hl Hz].
    edestruct (one_number dst (text "%d") a) as (buf & E & Hc); [done|exact (said_conv (C "d") a _ eq_refl eq_refl)|exact Hl|exact Hz|].
    exists buf. rewrite Hc. split; [done|]. by apply read_back_signed. }
  split_and!; [| |exact Hsigned|].
  - pose proof (unsigned_length 10 _ H10 Hb).
    edestruct (one_number dst (text "%u") a) as (buf & E & Hc);
      [done|exact (said_conv (C "u") a _ eq_refl eq_refl)|lia|apply digits_nonzero; [done|lia]|].
    exists buf. rewrite Hc. split; [done|]. by apply read_back_unsigned.
  - pose proof (unsigned_length 16 _ H16 Hb).
    edestruct (one_number dst (text "%x") a) as (buf & E & Hc);
      [done|exact (said_conv (C "x") a _ eq_refl eq_refl)|lia|apply digits_nonzero; [done|lia]|].
    exists buf. rewrite Hc. split; [done|]. by apply read_back_unsigned.
  - intros v Hv Ha. destruct Hsigned as (buf & E & Hr). exists buf. split; [done|]. rewrite Hr, Ha.
    rewrite <- (Z.mod_unique_pos v (2 ^ 32) (-1) (v + 2 ^ 32)) by lia.
    unfold s64. destruct (Z.ltb_spec (v + 2 ^ 32) (2 ^ 63)); lia.
Qed.
Lemma numbers_read_back_witness :
  ∃ buf, vformat (replicate 32 0) (Some (text "%d")) [AInt 4294967295] = Some buf ∧ read_signed (cstr buf) = 4294967295.
Proof.
  destruct (numbers_read_back (replicate 32 0) (AInt 4294967295)) as (_ & _ & _ & H).
  - apply (bool_decide_unpack _). vm_compute. exact I.
  - apply (H (-1)); [lia|]. vm_compute. reflexivity.
Defined.
