(* ===== verification/EseMemory.v ===== *)
(** [snvm/protocol/ese_memory.c]: the allocator that lists what it has handed out,
    which [ESE_MALLOC] and [ESE_FREE] are under CONFIG_STAR_MEMORY_LEAK.  The kernel's
    allocator is its environment.  What it keeps: the list holds exactly the blocks in
    use, so that the report at the end is the leaks, and a wild or second free does
    not reach the kernel. *)
From S2P Require Import Prelude Bus.

Definition MAX_MEMORY_ALLOC_NUM := 100.
(** What the kernel sees, and the lines of the report. *)
Inductive memory_event := Kzalloc (size ptr : Z) | Kfree (ptr : Z) | NonFree (ptr : Z).
(** Pointers are addresses, NULL is 0. *)
Class Kmalloc (W : Type) := { kzalloc : Z → W → Z * W; kfree : Z → W → unit * W }.

Section memory.
Context {W : Type} `{!Kmalloc W}.
(** [alloc_list] is the driver's structure. *)
Abbreviation M := (M (machine (list Z) W memory_event)).

(** The loops' [i]: the first entry that is [ptr]. *)
Fixpoint find_entry (ptr : Z) (l : list Z) : option nat :=
  match l with
  | [] => None
  | p :: l => if p =? ptr then Some O else S <$> find_entry ptr l
  end.
Definition ese_malloc (size : Z) : M Z :=
  alloc_list ← get_drv;
  match find_entry 0 alloc_list with
  | None => mret 0
  | Some i =>
      p ← ask (kzalloc size);
      emit (Kzalloc size p);;
      mod_drv (fun l => <[i := p]> l);;
      mret p
  end.
Definition ese_free (ptr : Z) : M unit :=
  alloc_list ← get_drv;
  match find_entry ptr alloc_list with
  | None => skip
  | Some i =>
      mod_drv (fun l => <[i := 0]> l);;
      ask (kfree ptr);;
      emit (Kfree ptr)
  end.
Fixpoint report (l : list Z) : M unit :=
  match l with
  | [] => skip
  | p :: l => (if negb (p =? 0) then emit (NonFree p) else skip);; report l
  end.
Definition ese_alloc_list : M unit := alloc_list ← get_drv; report alloc_list.
End memory.

(** ** The list is what is in use *)

(** The kernel's promise: a new block is none of those in use. *)
Class KmallocLaws (W : Type) `{!Kmalloc W} := {
  in_use : W → gset Z;
  in_use_null w : 0 ∉ in_use w;
  in_use_kzalloc n w :
    let '(p, w') := kzalloc n w in
    if p =? 0 then in_use w' = in_use w else (p ∉ in_use w) ∧ in_use w' = ({[p]} ∪ in_use w);
  in_use_kfree p w : in_use (kfree p w).2 = in_use w ∖ {[p]}
}.
Definition entries (l : list Z) : list Z := filter (fun p => p ≠ 0) l.
Record tracked (l : list Z) (s : gset Z) : Prop := {
  t_len : Z.of_nat (length l) = MAX_MEMORY_ALLOC_NUM;
  t_once : NoDup (entries l);
  t_all p : p ∈ entries l ↔ p ∈ s
}.

Lemma find_entry_some ptr l i :
  find_entry ptr l = Some i → ∃ a b, l = a ++ ptr :: b ∧ length a = i ∧ ptr ∉ a.
Proof.
  revert i. induction l as [|p l IH]; intros i H; [done|]. cbn in H.
  destruct (Z.eqb_spec p ptr) as [->|N].
  - injection H as <-. exists [], l. split_and!; [done|done|apply not_elem_of_nil].
  - destruct (find_entry ptr l) as [j|]; [|done]. injection H as <-.
    destruct (IH j eq_refl) as (a & b & -> & <- & Ha). exists (p :: a), b. split_and!; [done|done|].
    by apply not_elem_of_cons.
Qed.
Lemma find_entry_none ptr l : find_entry ptr l = None ↔ ptr ∉ l.
Proof.
  induction l as [|p l IH]; cbn; [split; [intros _; apply not_elem_of_nil|done]|]. rewrite not_elem_of_cons.
  destruct (Z.eqb_spec p ptr) as [->|N]; [split; [done|by intros []]|].
  destruct (find_entry ptr l); cbn; [split; [done|]|split; [|done]].
  - intros [_ H]. by apply IH in H.
  - intros _. split; [congruence|by apply IH].
Qed.
Lemma entries_set a b ptr p : entries (<[length a := p]> (a ++ ptr :: b)) = entries a ++ entries [p] ++ entries b.
Proof.
  rewrite <- (Nat.add_0_r (length a)), insert_app_r. unfold entries. rewrite filter_app. f_equal. cbn [insert list_insert].
  by rewrite (filter_app _ [p] b).
Qed.
Lemma entries_mid a b ptr : entries (a ++ ptr :: b) = entries a ++ entries [ptr] ++ entries b.
Proof. unfold entries. by rewrite filter_app, (filter_app _ [ptr] b). Qed.
Lemma entries_elem l p : p ∈ entries l ↔ p ≠ 0 ∧ p ∈ l.
Proof. exact (list_elem_of_filter (fun p => p ≠ 0) l p). Qed.
Lemma entries_null : entries [0] = [].
Proof. reflexivity. Qed.
Lemma entries_one p : p ≠ 0 → entries [p] = [p].
Proof. intros H. unfold entries. cbn. by rewrite decide_True. Qed.
(** An entry set to NULL, an empty entry set to a block. *)
Lemma tracked_set l s i ptr p s' :
  tracked l s → find_entry ptr l = Some i →
  (∀ x, x ∈ s' ↔ (x ∈ s ∧ x ≠ ptr) ∨ (x = p ∧ p ≠ 0)) → (p ∈ s → p = ptr ∨ p = 0) →
  tracked (<[i := p]> l) s'.
Proof.
  intros [Hl Hd Ha] Hf Hs Hp. apply find_entry_some in Hf as (a & b & -> & <- & Hn).
  assert (Hperm : entries (a ++ ptr :: b) ≡ₚ entries [ptr] ++ entries a ++ entries b).
  { rewrite entries_mid, !app_assoc. by rewrite (Permutation_app_comm (entries a)). }
  assert (Hperm' : entries (<[length a:=p]> (a ++ ptr :: b)) ≡ₚ entries [p] ++ entries a ++ entries b).
  { rewrite entries_set, !app_assoc. by rewrite (Permutation_app_comm (entries a)). }
  rewrite Hperm in Hd. apply NoDup_app in Hd as (_ & Hptr & Hd).
  assert (Hrest : ∀ x, x ∈ entries a ++ entries b ↔ x ∈ s ∧ x ≠ ptr).
  { intros x. rewrite <- Ha, Hperm. split.
    - intros Hx. split; [apply elem_of_app; by right|]. intros ->. apply (Hptr ptr); [|done].
      apply entries_elem. split; [|apply list_elem_of_here].
      apply elem_of_app in Hx as [Hx|Hx]; by apply entries_elem in Hx as [? _].
    - intros [Hx Hne]. apply elem_of_app in Hx as [Hx|]; [|done].
      apply entries_elem in Hx as [_ Hx]. by apply list_elem_of_singleton in Hx. }
  split.
  - by rewrite length_insert.
  - rewrite Hperm'. apply NoDup_app. split_and!; [|intros x Hx Hx2|done].
    + destruct (decide (p = 0)) as [->|]; [constructor|]. rewrite entries_one by done. apply NoDup_singleton.
    + apply entries_elem in Hx as [Hx0 Hx]. apply list_elem_of_singleton in Hx as ->.
      apply Hrest in Hx2 as [Hx2 Hx3]. by destruct (Hp Hx2).
  - intros x. rewrite Hperm', elem_of_app, Hrest, Hs, entries_elem, list_elem_of_singleton.
    split; [intros [[H0 ->]|]; auto|intros [|[-> H0]]; auto].
Qed.

Section tracker.
Context {W : Type} `{!Kmalloc W, !KmallocLaws W}.
Abbreviation machine := (machine (list Z) W memory_event).
Definition sound (m : machine) : Prop := tracked (drv m) (in_use (wld m)).

Lemma malloc_run (m : machine) n :
  sound m →
  ∃ p m', ese_malloc n m = Ret (p, m') ∧ sound m'
    ∧ (if p =? 0 then in_use (wld m') = in_use (wld m)
       else (p ∉ in_use (wld m)) ∧ in_use (wld m') = {[p]} ∪ in_use (wld m))
    ∧ (0 ∉ drv m → p = 0 ∧ m' = m) .
Proof.
  destruct m as [d w l]. intros H. unfold sound in *. cbn [drv wld] in *. unfold ese_malloc.
  erewrite bind_ret by reflexivity. cbn [drv].
  destruct (find_entry 0 d) as [i|] eqn:Ef; [|by eexists _, _].
  pose proof (in_use_kzalloc n w) as Hk. erewrite bind_ret by apply ask_ret.
  destruct (kzalloc n w) as [p w1]. cbn [fst snd]. eexists p, _. split; [reflexivity|]. cbn [drv wld over_field].
  assert (H0 : 0 ∉ d → find_entry 0 d = None) by apply find_entry_none.
  split_and!; [|by destruct (p =? 0)|intros Hn; specialize (H0 Hn); congruence].
  pose proof (in_use_null w) as Hw. destruct (Z.eqb_spec p 0) as [->|Hp].
  - rewrite Hk. eapply tracked_set; [done|done| |done]. intros x. split; [|by intros [[]|[]]].
    intros Hx. left. split; [done|]. by intros ->.
  - destruct Hk as [Hk ->]. eapply tracked_set; [done|done| |done]. intros x. rewrite elem_of_union, elem_of_singleton.
    split; [intros [->|Hx]; [by right|left; split; [done|by intros ->]]|intros [[]|[]]; auto].
Qed.
Lemma free_run (m : machine) p :
  sound m →
  ∃ m', ese_free p m = Ret (tt, m') ∧ sound m' ∧ in_use (wld m') = in_use (wld m) ∖ {[p]}
    ∧ (p ∉ in_use (wld m) → p ≠ 0 → m' = m).
Proof.
  destruct m as [d w l]. intros H. pose proof H as [Hl Hd Ha]. unfold sound in *. cbn [drv wld] in *.
  unfold ese_free. erewrite bind_ret by reflexivity. cbn [drv].
  assert (Hin : p ≠ 0 → p ∈ in_use w ↔ p ∈ d).
  { intros Hp. rewrite <- Ha, entries_elem. by split; [intros []|]. }
  destruct (find_entry p d) as [i|] eqn:Ef.
  - erewrite bind_ret by reflexivity. erewrite bind_ret by apply ask_ret.
    eexists. split; [reflexivity|]. cbn [drv wld over_field]. rewrite in_use_kfree.
    split_and!; [|done|].
    + eapply tracked_set; [done|done| |by right].
      intros x. rewrite elem_of_difference, elem_of_singleton. split; [by left|by intros [|[_ []]]].
    + intros Hp Hne. apply find_entry_some in Ef as (a & b & -> & _). exfalso. apply Hp, Hin; [done|].
      apply elem_of_app. right. apply list_elem_of_here.
  - apply find_entry_none in Ef. eexists. split; [reflexivity|]. cbn [drv wld]. split_and!; [done| |done].
    apply set_eq. intros x. rewrite elem_of_difference, elem_of_singleton. split; [|by intros []].
    intros Hx. split; [done|]. intros ->. apply Ef, Hin; [|done]. intros ->. by apply in_use_null in Hx.
Qed.
Lemma list_run d (w : W) l l0 :
  report l0 (mkM d w l) = Ret (tt, mkM d w (l ++ map NonFree (entries l0))).
Proof.
  revert l. induction l0 as [|p l0 IH]; intros l; cbn [report]; [by rewrite app_nil_r|].
  unfold entries. cbn. destruct (Z.eqb_spec p 0) as [->|Hp]; cbn [negb].
  - erewrite bind_ret by reflexivity. rewrite decide_False by auto. apply IH.
  - erewrite bind_ret by reflexivity. rewrite decide_True by done.
    change (report l0 (mkM d w (l ++ [NonFree p])) = Ret (tt, mkM d w (l ++ NonFree p :: map NonFree (entries l0)))).
    rewrite IH. by rewrite <- app_assoc.
Qed.
End tracker.

(** ** The property *)

Inductive memory_step {W} `{!Kmalloc W} : machine (list Z) W memory_event → machine (list Z) W memory_event → Prop :=
  | StepMalloc n p m m' : ese_malloc n m = Ret (p, m') → memory_step m m'
  | StepFree p m m' : ese_free p m = Ret (tt, m') → memory_step m m'.
(** The list starts empty, with no block of this driver in use. *)
Definition empty_list : list Z := replicate (Z.to_nat MAX_MEMORY_ALLOC_NUM) 0.

(** The tracking allocator is an allocator, of 100 blocks at most: whatever was
    allocated and freed before, and whatever was freed that should not have been, a
    block it returns was not in use, a free gives back exactly the block it names, and
    one that names no block in use reaches neither the list nor the kernel.  The list
    holds the blocks in use, each once, and the report prints exactly these. *)
Theorem tracker_knows_every_block {W} `{!Kmalloc W, !KmallocLaws W} (w : W) (m : machine (list Z) W memory_event) :
  in_use w = ∅ → rtc memory_step (mkM empty_list w []) m →
  (∀ p, p ≠ 0 → (p ∈ drv m ↔ p ∈ in_use (wld m))) ∧ Z.of_nat (size (in_use (wld m))) <= MAX_MEMORY_ALLOC_NUM
  ∧ (∀ n, ∃ p m', ese_malloc n m = Ret (p, m')
       ∧ (if p =? 0 then in_use (wld m') = in_use (wld m)
          else (p ∉ in_use (wld m)) ∧ in_use (wld m') = {[p]} ∪ in_use (wld m))
       ∧ (0 ∉ drv m → p = 0 ∧ m' = m))
  ∧ (∀ p, ∃ m', ese_free p m = Ret (tt, m') ∧ in_use (wld m') = in_use (wld m) ∖ {[p]}
       ∧ (p ∉ in_use (wld m) → p ≠ 0 → m' = m))
  ∧ ∃ leaks, ese_alloc_list m = Ret (tt, mkM (drv m) (wld m) (log m ++ map NonFree leaks))
       ∧ leaks ≡ₚ elements (in_use (wld m)).
Proof.
  intros Hw Hs.
  assert (Hm : sound m).
  { refine (rtc_keeps memory_step sound _ _ _ Hs _).
    - intros m1 m2 [n p a b H|p a b H] Hm.
      + destruct (malloc_run a n Hm) as (p' & m' & E & Hm' & _). by rewrite E in H; injection H as <- <-.
      + destruct (free_run a p Hm) as (m' & E & Hm' & _). by rewrite E in H; injection H as <-.
    - split; [done|constructor|]. cbn. rewrite Hw. intros p. split; [|by intros ?%elem_of_empty].
      unfold entries. cbn. by intros ?%not_elem_of_nil. }
  pose proof Hm as [Hl Hd Ha].
  assert (Hperm : entries (drv m) ≡ₚ elements (in_use (wld m))).
  { apply NoDup_Permutation; [done|apply NoDup_elements|]. intros p. by rewrite elem_of_elements. }
  split_and!.
  - intros p Hp. rewrite <- Ha, entries_elem. by split; [|intros []].
  - unfold size, set_size. cbn. rewrite <- Hperm, <- Hl.
    apply inj_le, (length_filter _ (drv m)).
  - intros n. destruct (malloc_run m n Hm) as (p & m' & E & _ & H1 & H2). by exists p, m'.
  - intros p. destruct (free_run m p Hm) as (m' & E & _ & H1 & H2). by exists m'.
  - exists (entries (drv m)). split; [|done]. destruct m as [d w' l]. apply list_run.
Qed.
