(* ===== verification/K250aPlatform.v ===== *)
(** [snvm/sec_k250a.c] under CONFIG_SEC_SNVM_PLATFORM_DRV and
    CONFIG_SEC_SNVM_I2C_CLOCK_CONTROL: the configuration for other boards, in which the
    module only offers a device whose open and release switch the element's supply and
    the clocks of its bus; another master talks to it.  What an open takes, its release
    gives back. *)
From Stdlib Require Import Ascii String.
From S2P Require Import Prelude Bus K250a.
#[local] Open Scope Z_scope.
#[local] Open Scope list_scope.

(** The two clocks.  A handle is NULL, an error, or a clock. *)
Inductive i2c_clk := Main | Dma.
#[export] Instance i2c_clk_eq_dec : EqDecision i2c_clk.
Proof. solve_decision. Defined.
Inductive clk_handle := ClkNull | ClkErr (err : Z) | Clk.
Definition IS_ERR_OR_NULL (h : clk_handle) : bool := match h with Clk => false | _ => true end.

(** [struct k250a_dev] with the fields of the two options: [clk] is [i2c_main_clk] and
    [i2c_dma_clk], [clk_enabled] the flags beside them. *)
Record k250a_platform := mkPlatform {
  base : k250a_dev; platform_opened : bool; clk : i2c_clk → clk_handle; main_enabled : bool; dma_enabled : bool
}.
#[export] Instance eta_platform : Eta k250a_platform := fun r =>
  mkPlatform (base r) (platform_opened r) (clk r) (main_enabled r) (dma_enabled r).
Definition clk_enabled (d : k250a_platform) (c : i2c_clk) : bool :=
  match c with Main => main_enabled d | Dma => dma_enabled d end.
Definition set_enabled (c : i2c_clk) (on : bool) (d : k250a_platform) : k250a_platform :=
  match c with Main => d <| main_enabled := on |> | Dma => d <| dma_enabled := on |> end.

Inductive platform_event :=
  | PBoard (e : k250a_event)
  | PClkOn (c : i2c_clk) (ret : Z) | PClkOff (c : i2c_clk)
  | PClockNode                                            (* a reference to the bus's node *)
  | PMisc (ret : Z) | PDriver (on : bool) (ret : Z).
Class PlatformEnv (W : Type) := {
  platform_board :: K250aEnv W;
  clk_prepare_enable : i2c_clk → W → Z * W;
  (** [i2c_node] of the device's node. *)
  of_parse_phandle : W → bool * W;
  of_clk_get_by_name : i2c_clk → W → clk_handle * W;
  devm_regulator_get_optional : W → bool * W;
  misc_register : W → Z * W;
  platform_driver_register : W → Z * W;
}.

Section platform.
Context {W : Type} `{!PlatformEnv W}.
Abbreviation M := (M (machine k250a_platform W platform_event)).

(** The functions both configurations share, on the same structure. *)
Definition board {A} (c : Prelude.M (machine k250a_dev W k250a_event) A) : M A := fun m =>
  match c (mkM (base (drv m)) (wld m) []) with
  | Ret (a, m') => Ret (a, mkM ((drv m) <| base := drv m' |>) (wld m') (log m ++ map PBoard (log m')))
  | Fault => Fault
  | NoFuel => NoFuel
  end.

(** ** Clocks *)

Definition k250a_parse_i2c_clock : M unit :=
  ok ← ask of_parse_phandle;
  if negb ok then skip
  else
    emit PClockNode;;
    m ← ask (of_clk_get_by_name Main);
    d ← ask (of_clk_get_by_name Dma);
    mod_drv (fun r => r <| clk := fun c => match c with Main => m | Dma => d end |>).
Definition clock_enable (c : i2c_clk) : M unit :=
  d ← get_drv;
  if negb (clk_enabled d c) && negb (IS_ERR_OR_NULL (clk d c)) then
    ret ← ask (clk_prepare_enable c);
    emit (PClkOn c ret);;
    if negb (ret =? 0) then skip else mod_drv (set_enabled c true)
  else skip.
Definition k250a_i2c_clock_enable : M unit := clock_enable Main;; clock_enable Dma.
Definition clock_disable (c : i2c_clk) : M unit :=
  d ← get_drv;
  if clk_enabled d c && negb (IS_ERR_OR_NULL (clk d c))
  then (emit (PClkOff c);; mod_drv (set_enabled c false)) else skip.
Definition k250a_i2c_clock_disable : M unit := clock_disable Main;; clock_disable Dma.

(** ** The device; [platform_lock] makes each of the two one step *)

Definition k250a_dev_open : M Z :=
  d ← get_drv;
  if platform_opened d then mret (- EBUSY)
  else
    board k250a_poweron ?;
    (k250a_i2c_clock_enable;;
     mod_drv (fun d => d <| platform_opened := true |>);;
     mret 0).
Definition k250a_dev_release : M Z :=
  d ← get_drv;
  if negb (platform_opened d) then mret 0
  else
    k250a_i2c_clock_disable;;
    ret ← board k250a_poweroff;
    mod_drv (fun d => d <| platform_opened := false |>);;
    mret ret.

(** ** The platform driver *)

Definition k250a_parse_dt_for_platform_device : M unit :=
  ok ← ask devm_regulator_get_optional;
  mod_drv (fun d => d <| base ::= fun b => b <| vdd := ok |> |>);;
  k250a_parse_i2c_clock.
Definition k250a_platform_probe : M Z :=
  k250a_parse_dt_for_platform_device;;
  mod_drv (fun d => d <| platform_opened := false |>);;
  ret ← ask misc_register;
  emit (PMisc ret);;
  mret 0.
(** [mutex_destroy] only. *)
Definition k250a_platform_remove : M Z := mret 0.
Definition platform_init : M Z := ret ← ask platform_driver_register; emit (PDriver true ret);; mret ret.
Definition platform_exit : M unit := emit (PDriver false 0).
End platform.

(** ** What is held *)

(** How often each clock is prepared and the supply enabled, and how many times the
    supply refused to be disabled. *)
Record books := mkBooks { main_count : Z; dma_count : Z; supply : Z; stuck : Z }.
#[export] Instance eta_books : Eta books := fun r => mkBooks (main_count r) (dma_count r) (supply r) (stuck r).
Definition book (b : books) (e : platform_event) : books :=
  match e with
  | PClkOn Main ret => if ret =? 0 then b <| main_count ::= Z.succ |> else b
  | PClkOn Dma ret => if ret =? 0 then b <| dma_count ::= Z.succ |> else b
  | PClkOff Main => b <| main_count ::= Z.pred |>
  | PClkOff Dma => b <| dma_count ::= Z.pred |>
  | PBoard (KVdd true ret) => if ret =? 0 then b <| supply ::= Z.succ |> else b
  | PBoard (KVdd false ret) => if ret =? 0 then b <| supply ::= Z.pred |> else b <| stuck ::= Z.succ |>
  | _ => b
  end.
Definition no_books : books := mkBooks 0 0 0 0.
(** A clock that is on is there, and on once. *)
Record clocks_ok (d : k250a_platform) (b : books) : Prop := {
  b_main : main_count b = Z.b2z (main_enabled d);
  b_dma : dma_count b = Z.b2z (dma_enabled d);
  b_clk c : clk_enabled d c = true → IS_ERR_OR_NULL (clk d c) = false
}.
(** A board with a regulator. *)
Record balanced (d : k250a_platform) (b : books) : Prop := {
  b_vdd : vdd (base d) = true;
  b_clocks : clocks_ok d b;
  b_supply : supply b = Z.b2z (platform_opened d) + stuck b;
  b_stuck : 0 <= stuck b
}.
Definition clocks_off (d : k250a_platform) : Prop := main_enabled d = false ∧ dma_enabled d = false.

Section balance.
Context {W : Type} `{!PlatformEnv W}.
Abbreviation vc := (vc (W := W) (E := platform_event) book no_books).

Lemma audit_log (l : list k250a_event) : audit (fun l e => l ++ [e]) [] l = l.
Proof. induction l as [|e l IH] using rev_ind; [done|]. by rewrite audit_snoc, IH. Qed.
(** What a shared function does, from what it does on the board's structure alone. *)
Lemma vc_board {A} (c : M (machine k250a_dev W k250a_event) A) Q d b :
  Bus.vc (fun l e => l ++ [e]) [] c (fun a d' l => Q a (d <| base := d' |>) (foldl book b (map PBoard l))) (base d) [] →
  vc (board c) Q d b.
Proof.
  intros H w l <-. specialize (H w [] eq_refl). unfold wp, board in *. cbn [drv wld log] in *.
  destruct (c _) as [[a m']| |]; [|done..]. cbn [drv log].
  rewrite audit_log in H. unfold audit in *. by rewrite foldl_app.
Qed.
Lemma platform_poweron_spec d b :
  vdd (base d) = true →
  vc (board k250a_poweron) (fun r d' b' => d' = d ∧
    b' = if r =? 0 then b <| supply ::= Z.succ |> else b) d b.
Proof.
  intros Hb. apply vc_board. unfold k250a_poweron. repeat vc_step. rewrite Hb. cbn [negb].
  repeat vc_step. destruct (Z.eqb_spec a 0) as [->|N]; cbn [negb].
  - repeat vc_step. destruct (nvm_on_pin _); repeat vc_step; by destruct d.
  - repeat vc_step. cbn [map foldl book app]. apply Z.eqb_neq in N. rewrite N. by destruct d.
Qed.
Lemma platform_poweroff_spec d b :
  vdd (base d) = true → vc (board k250a_poweroff) (fun r d' b' => d' = d ∧
    b' = if r =? 0 then b <| supply ::= Z.pred |> else b <| stuck ::= Z.succ |>) d b.
Proof.
  intros Hb. apply vc_board. unfold k250a_poweroff. repeat vc_step. rewrite Hb. cbn [negb].
  apply vc_bind. destruct (nvm_off_pin _); repeat vc_step.
  all: match goal with |- context [negb (?x =? 0)] => destruct (Z.eqb_spec x 0) as [->|N] end; cbn [negb].
  all: repeat vc_step; cbn [map foldl book app]; try (apply Z.eqb_neq in N; rewrite N); by destruct d.
Qed.
(** Only the clocks change. *)
Definition but_clocks (d : k250a_platform) (b : books) (d' : k250a_platform) (b' : books) : Prop :=
  base d' = base d ∧ platform_opened d' = platform_opened d ∧ supply b' = supply b ∧ stuck b' = stuck b.
Lemma clock_enable_spec c d b :
  clocks_ok d b → vc (clock_enable c) (fun _ d' b' => clocks_ok d' b' ∧ but_clocks d b d' b') d b.
Proof.
  intros H. unfold clock_enable. repeat vc_step.
  destruct (clk_enabled d c) eqn:Ee, (IS_ERR_OR_NULL (clk d c)) eqn:Ec; cbn [negb andb]; repeat vc_step; try by split.
  destruct (Z.eqb_spec a 0) as [->|N]; cbn [negb]; repeat vc_step.
  - destruct H as [H1 H2 H3], c; cbn in Ee; rewrite Ee in *;
      (split; [split; cbn; [cbn in *; lia..|]|done]); intros []; try done; first [exact (H3 Main)|exact (H3 Dma)].
  - apply Z.eqb_neq in N. destruct c; cbn [book]; rewrite N; by split.
Qed.
Lemma clock_disable_spec c d b :
  clocks_ok d b →
  vc (clock_disable c) (fun _ d' b' => clocks_ok d' b' ∧ but_clocks d b d' b'
    ∧ clk_enabled d' c = false ∧ ∀ c', clk_enabled d c' = false → clk_enabled d' c' = false) d b.
Proof.
  intros H. unfold clock_disable. repeat vc_step.
  destruct (clk_enabled d c) eqn:Ee; cbn [andb]; [|by repeat vc_step].
  rewrite (b_clk _ _ H c Ee). cbn [negb]. repeat vc_step.
  destruct H as [H1 H2 H3], c; cbn in Ee; rewrite Ee in *;
    (split; [split; cbn; [cbn in *; lia..|]|split; [done|split; [done|by intros []]]]); intros []; try done; first [exact (H3 Main)|exact (H3 Dma)].
Qed.

Inductive user_call := Open | Release.
Definition run_call (c : user_call) : M (machine k250a_platform W platform_event) Z :=
  match c with Open => k250a_dev_open | Release => k250a_dev_release end.
(** The clocks are off while the device is closed. *)
Definition settled (d : k250a_platform) (b : books) : Prop :=
  balanced d b ∧ (platform_opened d = false → clocks_off d).
Lemma open_spec d b :
  settled d b →
  vc k250a_dev_open (fun r d' b' => settled d' b' ∧
    if platform_opened d then r = - EBUSY ∧ d' = d ∧ b' = b
    else if r =? 0 then platform_opened d' = true else d' = d ∧ b' = b) d b.
Proof.
  intros [[Hv Hc Hs Ht] Ho]. unfold k250a_dev_open. repeat vc_step. destruct (platform_opened d) eqn:Eo.
  { repeat vc_step. split; [|done]. split; [split; try done; by rewrite Eo|congruence]. }
  vc_step. eapply vc_mono; [by apply platform_poweron_spec|]. intros r d1 b1 [-> ->]. cbv beta.
  destruct (Z.eqb_spec r 0) as [->|N]; cbn [Z.eqb]; cycle 1.
  { split; [|done]. split; [split; try done; by rewrite Eo|auto]. }
  unfold k250a_i2c_clock_enable.
  apply vc_bind. eapply vc_call; [by apply (clock_enable_spec Main); destruct Hc|].
  intros _ d1 b1 (H1 & E1 & E2 & E3 & E4). eapply vc_mono; [by apply (clock_enable_spec Dma)|].
  intros _ d2 b2 (H2 & F1 & F2 & F3 & F4). repeat vc_step. split; [|done]. split; [|done].
  split; cbn; [congruence|by destruct H2|cbn in *; lia|cbn in *; lia].
Qed.
Lemma platform_release_spec d b :
  settled d b →
  vc k250a_dev_release (fun r d' b' => settled d' b' ∧ platform_opened d' = false ∧ clocks_off d'
    ∧ stuck b' = stuck b + (if r =? 0 then 0 else 1)) d b.
Proof.
  intros [[Hv Hc Hs Ht] Ho]. unfold k250a_dev_release. repeat vc_step. destruct (platform_opened d) eqn:Eo; cbn [negb].
  2: { repeat vc_step. split; [|split; [done|split; [by apply Ho|cbn; lia]]]. split; [|auto]. split; try done. by rewrite Eo. }
  unfold k250a_i2c_clock_disable. apply vc_bind. eapply vc_call; [by apply (clock_disable_spec Main)|].
  intros _ d1 b1 (H1 & (E1 & E2 & E3 & E4) & E5 & E6). eapply vc_mono; [by apply (clock_disable_spec Dma)|].
  intros _ d2 b2 (H2 & (F1 & F2 & F3 & F4) & F5 & F6).
  eapply vc_call; [apply platform_poweroff_spec; congruence|]. intros r d3 b3 [-> ->]. repeat vc_step.
  assert (Hoff : clocks_off d2) by (split; [exact (F6 Main E5)|exact F5]).
  destruct H2 as [K1 K2 K3]. cbn in Hs.
  destruct (Z.eqb_spec r 0); (split; [split; [split; [cbn; congruence|by split|cbn; lia|cbn; lia]|done]|]); cbn; (split; [done|]); (split; [done|lia]).
Qed.
Inductive platform_step : machine k250a_platform W platform_event → machine k250a_platform W platform_event → Prop :=
  | StepCall c r m m' : run_call c m = Ret (r, m') → platform_step m m'.
End balance.

(** Every open that succeeds takes the supply once and each clock it can, once, and its
    release gives all of it back; a second open is refused and one that fails takes
    nothing.  Only a supply that refuses to be disabled stays on, once for each time it
    does, although the device is closed. *)
Theorem open_and_release_balance {W} `{!PlatformEnv W} d (w : W) m :
  vdd (base d) = true → platform_opened d = false → clocks_off d → rtc platform_step (mkM d w []) m →
  let d' := drv m in let b := audit book no_books (log m) in
  main_count b = Z.b2z (main_enabled d') ∧ dma_count b = Z.b2z (dma_enabled d')
  ∧ (platform_opened d' = false → main_count b = 0 ∧ dma_count b = 0)
  ∧ supply b = Z.b2z (platform_opened d') + stuck b
  ∧ (∀ r m', k250a_dev_open m = Ret (r, m') →
       if platform_opened d' then r = - EBUSY
       else if r =? 0 then platform_opened (drv m') = true else audit book no_books (log m') = b)
  ∧ ∀ r m', k250a_dev_release m = Ret (r, m') →
       platform_opened (drv m') = false ∧ stuck (audit book no_books (log m')) = stuck b + (if r =? 0 then 0 else 1).
Proof.
  intros Hv Ho Hc Hs.
  assert (H : settled (drv m) (audit book no_books (log m))).
  { refine (rtc_keeps platform_step (fun m => settled (drv m) (audit book no_books (log m))) _ _ _ Hs _).
    - intros m1 m2 [[] r a b E] H.
      + by destruct (vc_use _ _ _ _ _ _ _ (open_spec _ _ H) E).
      + by destruct (vc_use _ _ _ _ _ _ _ (platform_release_spec _ _ H) E).
    - cbn. destruct Hc as [H1 H2]. split; [|by split]. split; cbn; [done| |by rewrite Ho|done].
      split; cbn; [by rewrite H1|by rewrite H2|]. intros []; cbn; congruence. }
  pose proof H as [[_ [Hm Hd _] Hsup _] Hoff]. cbv zeta. split_and!; [done|done| |done| |].
  - intros E. destruct (Hoff E) as [E1 E2]. by rewrite Hm, Hd, E1, E2.
  - intros r m' E. destruct (vc_use _ _ _ _ _ _ _ (open_spec _ _ H) E) as [_ H1].
    destruct (platform_opened (drv m)); [by destruct H1|]. by destruct (r =? 0); [|destruct H1].
  - intros r m' E. by destruct (vc_use _ _ _ _ _ _ _ (platform_release_spec _ _ H) E) as (_ & H1 & _ & H2).
Qed.
