(* ===== verification/ChargeShare.v ===== *)
(** The two chargers together: the SM5440 pump's world is the SM5714 driver
    itself, and the property that the pump has the pack to itself while it runs. *)
From S2P Require Import Prelude Bus Sm5714Battery Sm5714Facts Sm5714Props.
From S2P Require Import Sm5440Direct Sm5440Facts Sm5440Props.

(** ** The SM5714 driver while the pack is handed over *)

Section battery.
Context {W : Type} `{!BatEnv W}.
Abbreviation bstate := (machine bat_state W bat_event).
Abbreviation M := (M bstate).

Definition direct (b : bstate) : bool := direct_charging (sm (drv b)).

(** A call that closes nothing and leaves alone what the charging decisions
    depend on. *)
Definition mild (b b' : bstate) : Prop :=
  direct b' = direct b ∧ thermal b' = thermal b ∧ never_closes b b'.
#[export] Instance mild_preorder : PreOrder mild.
Proof.
  unfold mild. split; [by intros b|]. intros b1 b2 b3 (-> & -> & H1) (-> & -> & H2).
  split_and!; [done..|by etrans].
Qed.
Lemma mild_harmless {A} (c : M A) : respects harmless c → respects mild c.
Proof.
  intros H b a b' Hr. destruct (H _ _ _ Hr) as [Hd Hl]. unfold mild, direct, thermal.
  rewrite Hd. by split_and!.
Qed.
Lemma mild_mod f :
  (∀ x, direct_charging (f x) = direct_charging x ∧ thermal_state (f x) = thermal_state x) →
  respects mild (mod_sm (W := W) f).
Proof.
  intros Hf b a b' Hr. split_and!; [injection Hr as _ <-; apply Hf..|by eapply never_mod].
Qed.
Hint Resolve mild_harmless : resp.
Ltac mild_prog :=
  repeat first
    [ solve [eauto 3 with resp] | resp_step
    | apply mild_mod; let x := fresh in intros x; by split
    | apply mild_harmless, harmless_emit; let H := fresh in intros H; exact H
    | apply mild_harmless, harmless_open_q4 ].

Lemma mild_capacity : respects mild (poll_capacity (W := W)).
Proof. unfold poll_capacity, sm5714_get_capacity. mild_prog. Qed.
Lemma mild_poll_notify st cap on ut : respects mild (poll_notify (W := W) st cap on ut).
Proof. unfold poll_notify. mild_prog. Qed.

(** Only the hand-over itself changes the flag. *)
Definition same_direct (b b' : bstate) : Prop := direct b' = direct b.
#[export] Instance same_direct_preorder : PreOrder same_direct.
Proof. unfold same_direct. split; [by intros b|]. by intros b1 b2 b3 -> ->. Qed.
Lemma same_mild {A} (c : M A) : respects mild c → respects same_direct c.
Proof. intros H b a b' Hr. by destruct (H _ _ _ Hr). Qed.
Lemma same_harmless {A} (c : M A) : respects harmless c → respects same_direct c.
Proof. intros H. by apply same_mild, mild_harmless. Qed.
Lemma same_mod f :
  (∀ x, direct_charging (f x) = direct_charging x) → respects same_direct (mod_sm (W := W) f).
Proof. intros Hf b a b' [= _ <-]. apply Hf. Qed.
Lemma same_drv : respects same_direct (get_drv (W := W)).
Proof. unfold get_drv. resp. Qed.
Lemma same_program i f : respects same_direct (program_charging (W := W) i f).
Proof.
  intros b a b' H. apply program_log in H as [Hd _]. unfold same_direct, direct. by rewrite Hd.
Qed.
Hint Resolve same_harmless same_drv same_program : resp.
Ltac same_prog :=
  repeat first
    [ solve [eauto 3 with resp] | resp_step
    | apply same_mod; let x := fresh in intros x; reflexivity
    | apply same_harmless, harmless_emit; let H := fresh in intros H; exact H
    | apply same_harmless, harmless_update; discriminate ].
Lemma same_configure : respects same_direct (sm5714_configure_charging (W := W)).
Proof. unfold sm5714_configure_charging. same_prog. Qed.
Hint Resolve same_configure : resp.

(** The calls of everybody but the pump. *)
Definition is_direct (e : bat_entry) : bool := match e with BDirect _ => true | _ => false end.
Lemma same_entry e : is_direct e = false → respects same_direct (bat_run (W := W) e).
Proof.
  destruct e as [mv ma|a|a| |on n]; intros He; try discriminate He; cbn [bat_run].
  - unfold sm5714_battery_set_pd_contract. same_prog.
  - unfold sm5714_battery_set_otg. same_prog.
  - unfold sm5714_poll_work, poll_thermal, poll_recover.
    same_prog; apply same_mild; eauto using mild_capacity, mild_poll_notify.
  - unfold fast_charge_store. same_prog.
Qed.

(** The thermal state that the poll's reading leads to: [sm5714_poll_work] up to
    the comparison with the old state. *)
Definition band_read : M sm5714_charge_thermal_state :=
  sm5714_get_status;;
  online ← sm5714_get_online;
  sm5714_get_usb_type;;
  poll_capacity;;
  s ← get_sm;
  if 0 <? online then
    '(ret, temp) ← sm5714_get_temp;
    mret (if ret =? 0 then next_thermal_state (thermal_state s) temp else thermal_state s)
  else mret (thermal_state s).

(** The calls that reprogram the charger without asking who has the pack. *)
Definition may_close (e : bat_entry) (b : bstate) : Prop :=
  match e with
  | BContract _ _ | BDirect _ => False
  | BFastCharge on _ => fast_charge (sm (drv b)) ≠ on
  | BOtg on => on = false ∧ otg_active (sm (drv b)) = true
  | BPoll => ∃ st b', band_read b = Ret (st, b') ∧ st ≠ thermal b
  end.

Lemma contract_leaves mv ma (b b' : bstate) r :
  direct b = true → bat_run (BContract mv ma) b = Ret (r, b') → never_closes b b'.
Proof.
  intros Hd H. cbn [bat_run] in H. unfold sm5714_battery_set_pd_contract in H.
  destruct (_ || _); [by injection H as _ <-|].
  apply bind_inv in H as (d & b1 & H1 & H). injection H1 as <- <-.
  destruct (negb _); [by injection H as _ <-|].
  apply bind_inv in H as ([] & b1 & H1 & H). injection H1 as <-.
  apply bind_inv in H as (ret & b2 & H1 & H). etrans.
  2:{ refine (harmless_never _ _ _ _ _ H). resp. }
  destruct (_ && _); [|injection H1 as _ <-; exists []; by rewrite app_nil_r].
  apply bind_inv in H1 as (on & b3 & H3 & H1).
  apply harmless_online in H3 as [Hd3 (l & Hl & Hq)].
  apply bind_inv in H1 as (s & b4 & H4 & H1). injection H4 as <- <-.
  rewrite Hd3 in H1. cbn [drv sm] in H1.
  change (direct_charging _) with (direct b) in H1. rewrite Hd, andb_false_r in H1.
  injection H1 as _ <-. by exists l.
Qed.

(** The poll: whatever precedes the comparison of the bands changes nothing, and
    what follows it neither, once the bands agree. *)
Lemma poll_leaves (b b' : bstate) r :
  direct b = true → (∀ st b1, band_read b = Ret (st, b1) → st = thermal b) →
  bat_run BPoll b = Ret (r, b') → never_closes b b'.
Proof.
  intros Hd Hband H. cbn [bat_run] in H. apply bind_inv in H as ([] & b9 & H & [= _ <-]).
  unfold sm5714_poll_work in H. unfold band_read in Hband.
  apply bind_inv in H as (st & b1 & H1 & H). rewrite (bind_ret _ _ _ _ _ H1) in Hband.
  apply bind_inv in H as (on & b2 & H2 & H). rewrite (bind_ret _ _ _ _ _ H2) in Hband.
  apply bind_inv in H as (ut & b3 & H3 & H). rewrite (bind_ret _ _ _ _ _ H3) in Hband.
  apply bind_inv in H as (cap & b4 & H4 & H). rewrite (bind_ret _ _ _ _ _ H4) in Hband.
  assert (mild b b4) as Hm.
  { etrans; [exact (mild_harmless _ harmless_status _ _ _ H1)|].
    etrans; [exact (mild_harmless _ harmless_online _ _ _ H2)|].
    etrans; [exact (mild_harmless _ harmless_usb_type _ _ _ H3)|by eapply mild_capacity]. }
  apply bind_inv in H as (st' & b5 & H5 & H).
  assert (mild b4 b5) as Hm5.
  { unfold poll_thermal in H5.
    rewrite (bind_ret get_sm _ b4 (sm (drv b4)) b4 eq_refl) in H5.
    rewrite (bind_ret get_sm _ b4 (sm (drv b4)) b4 eq_refl) in Hband.
    destruct (0 <? on); [|by injection H5 as _ <-].
    apply bind_inv in H5 as ([rt temp] & b6 & H6 & H5).
    rewrite (bind_ret _ _ _ _ _ H6) in Hband.
    specialize (Hband _ _ eq_refl). destruct Hm as (_ & Hth & _).
    apply mild_harmless in H6; [|apply harmless_temp].
    etrans; [exact H6|]. destruct H6 as (_ & Hth6 & _).
    apply bind_inv in H5 as ([] & b7 & H7 & H5).
    assert (thermal b7 = thermal b ∧ mild b6 b7) as [Hth7 Hm7].
    { destruct (rt =? 0); [|injection H7 as <-; split; [congruence|done]].
      injection H7 as <-. unfold thermal in *. cbn. rewrite Hth6.
      split; [exact Hband|]. split; [done|]. split; [|exists []; by rewrite app_nil_r].
      unfold thermal. cbn. rewrite Hth6. congruence. }
    etrans; [exact Hm7|].
    apply bind_inv in H5 as (s & b8 & H8 & H5). injection H8 as <- <-.
    rewrite bool_decide_true in H5; [by injection H5 as _ <-|].
    unfold thermal in *. congruence. }
  apply bind_inv in H as (st'' & b6 & H6 & H).
  assert (direct b5 = true) as Hd5.
  { destruct Hm5 as (-> & _), Hm as (-> & _). exact Hd. }
  unfold poll_recover in H6. apply bind_inv in H6 as (s & b7 & H7 & H6). injection H7 as <- <-.
  change (direct_charging (sm (drv b5))) with (direct b5) in H6.
  rewrite Hd5, andb_false_r in H6. injection H6 as _ <-.
  apply bind_inv in H as ([] & b7 & H7 & H). apply mild_poll_notify in H7.
  destruct Hm as (_ & _ & Hm), Hm5 as (_ & _ & Hm5), H7 as (_ & _ & H7).
  etrans; [exact Hm|]. etrans; [exact Hm5|]. etrans; [exact H7|].
  refine (harmless_never _ _ _ _ _ H). apply harmless_emit. by intros ?.
Qed.

(** Handed over, the pack is only connected again by the calls of [may_close]. *)
Lemma entry_leaves e (b b' : bstate) r :
  is_direct e = false → direct b = true → bat_run e b = Ret (r, b') →
  may_close e b ∨ never_closes b b'.
Proof.
  intros He Hd H. destruct e as [mv ma|a|a| |on n]; try discriminate He.
  - right. by eapply contract_leaves.
  - destruct a; [right; by eapply never_otg_on|].
    destruct (otg_active (sm (drv b))) eqn:Ho; [by left|right].
    cbn [bat_run] in H. unfold sm5714_battery_set_otg in H.
    apply bind_inv in H as (d & b1 & H1 & H). injection H1 as <- <-.
    destruct (negb _); [by injection H as _ <-|].
    rewrite Ho, bool_decide_true in H by done.
    refine (harmless_never _ _ _ _ _ H). resp.
  - destruct (band_read b) as [[st b1]| |] eqn:Hb.
    1: destruct (decide (st = thermal b)) as [He'|Hne]; [|left; by exists st, b1].
    all: right; eapply poll_leaves; [exact Hd| |exact H]; intros st' b1' Hb'; congruence.
  - destruct (decide (fast_charge (sm (drv b)) = on)) as [Hf|Hf]; [right|by left].
    cbn [bat_run] in H. unfold fast_charge_store in H.
    apply bind_inv in H as (s & b1 & H1 & H). injection H1 as <- <-.
    rewrite bool_decide_true in H by done. by injection H as _ <-.
Qed.

(** *** What the pump itself calls *)

Lemma hand_over_leaves (b b' : bstate) r :
  Sm5714Battery.sm5714_battery_set_direct_charge true b = Ret (r, b') →
  never_closes b b' ∧ (r = 0 → direct b' = true).
Proof.
  intros H. unfold Sm5714Battery.sm5714_battery_set_direct_charge in H.
  apply bind_inv in H as (d & b1 & H1 & H). injection H1 as <- <-.
  destruct (negb _); [by injection H as <- <-|].
  apply bind_inv in H as ([rt temp] & b1 & H1 & H). apply harmless_never in H1; [|apply harmless_temp].
  destruct (negb (rt =? 0)) eqn:Hrt; [injection H as <- <-; split; [done|lia]|].
  destruct (_ || _); [by injection H as <- <-|].
  apply bind_inv in H as ([] & b2 & H2 & H). apply never_mod in H2 as Hn2.
  injection H2 as Hb2.
  apply bind_inv in H as (ret & b3 & H3 & H). apply harmless_open_q4 in H3 as [Hd3 Hn3].
  apply bind_inv in H as ([] & b4 & H4 & H).
  apply bind_inv in H as ([] & b5 & H5 & H). injection H as <- <-.
  apply harmless_notify in H5 as [Hd5 Hn5]. split.
  - etrans; [exact H1|]. etrans; [exact Hn2|]. etrans; [exact Hn3|]. etrans; [|exact Hn5].
    clear -H4. destruct (negb (ret =? 0)); [by eapply never_mod|by injection H4 as <-].
  - intros ->. injection H4 as <-. unfold direct. by rewrite Hd5, Hd3, <-Hb2.
Qed.
Lemma bat_get_harmless p : respects harmless (sm5714_bat_get_property (W := W) p).
Proof.
  destruct p; cbn [sm5714_bat_get_property];
    unfold value_of, board_value, sm5714_get_voltage, sm5714_get_ocv, sm5714_get_current; resp.
Qed.
End battery.

(** *** Every call returns *)

Section total.
Context {W : Type} `{!BatEnv W}.
Ltac bat_rets :=
  repeat first
    [ solve [eauto 2 with rets] | rets_step
    | progress unfold get_sm, mod_sm, read8, write8, i2c_smbus_read_byte_data,
        i2c_smbus_write_byte_data, i2c_smbus_write_word_data, i2c_smbus_read_word_data ].
Lemma returns_bat_update r k v : returns (sm5714_chg_update_bits (W := W) r k v).
Proof. unfold sm5714_chg_update_bits. bat_rets. Qed.
Lemma returns_reading r f : returns (reading (W := W) r f).
Proof. unfold reading, sm5714_fg_read_sram. bat_rets. Qed.
Lemma returns_online : returns (sm5714_get_online (W := W)).
Proof. unfold sm5714_get_online, sm5714_get_online_raw. bat_rets. Qed.
Hint Resolve returns_bat_update returns_reading returns_online : rets.
Lemma returns_usb_type : returns (sm5714_get_usb_type (W := W)).
Proof. unfold sm5714_get_usb_type. bat_rets. Qed.
Lemma returns_temp : returns (sm5714_get_temp (W := W)).
Proof. unfold sm5714_get_temp. bat_rets. Qed.
Lemma returns_program i f : returns (program_charging (W := W) i f).
Proof. unfold program_charging, sm5714_set_float_voltage. bat_rets. Qed.
Hint Resolve returns_usb_type returns_temp returns_program : rets.
Lemma returns_configure : returns (sm5714_configure_charging (W := W)).
Proof. unfold sm5714_configure_charging. bat_rets. Qed.
Lemma returns_bat_notify : returns (power_supply_changed_both (W := W)).
Proof. unfold power_supply_changed_both. bat_rets. Qed.
Hint Resolve returns_configure returns_bat_notify : rets.

(** The calls that the pump and the port manager make. *)
Lemma bat_calls_return a p mv ma :
  returns (Sm5714Battery.sm5714_battery_set_direct_charge (W := W) a)
  ∧ returns (sm5714_bat_get_property (W := W) p)
  ∧ returns (Sm5714Battery.sm5714_battery_fast_charge_enabled (W := W))
  ∧ returns (sm5714_battery_set_pd_contract (W := W) mv ma).
Proof.
  unfold Sm5714Battery.sm5714_battery_set_direct_charge,
    Sm5714Battery.sm5714_battery_fast_charge_enabled, sm5714_battery_set_pd_contract.
  split_and!; [bat_rets| |bat_rets..].
  destruct p; cbn [sm5714_bat_get_property]; unfold value_of, board_value, sm5714_get_status,
    sm5714_get_capacity, sm5714_get_voltage, sm5714_get_ocv, sm5714_get_current; bat_rets.
Qed.
End total.

(** ** The pump on top of it *)

(** The rest of the pump's world: its registers, and the kernel's port manager,
    whose answer to a request comes with the contracts it reports to the SM5714
    driver before it answers. *)
Class PumpEnv (Wo : Type) := {
  pump_smbus :: Smbus Wo unit;
  tcpm_get_property : psy_prop → Wo → (Z * Z) * Wo;
  tcpm_set_property : psy_prop → Z → Wo → (Z * list (Z * Z)) * Wo;
}.

(** The SM5714 driver with its hardware, and the rest. *)
Record both (Wb Wo : Type) := mkBoth { bat : machine bat_state Wb bat_event; rest : Wo }.
Arguments mkBoth {Wb Wo}.
Arguments bat {Wb Wo}.
Arguments rest {Wb Wo}.
#[export] Instance eta_both Wb Wo : Eta (both Wb Wo) := fun r => mkBoth (bat r) (rest r).

(** The property of the battery supply the pump asks for. *)
Definition bat_prop (p : psy_prop) : bat_property :=
  match p with
  | PSY_ONLINE => PROP_OTHER
  | PSY_CURRENT_NOW => PROP_CURRENT_NOW
  | PSY_VOLTAGE_NOW => PROP_VOLTAGE_NOW
  | PSY_CAPACITY => PROP_CAPACITY
  | PSY_TEMP => PROP_TEMP
  end.

Section share.
Context {Wb Wo : Type} `{!BatEnv Wb, !PumpEnv Wo}.
Abbreviation bstate := (machine bat_state Wb bat_event).
Abbreviation world := (both Wb Wo).

(** A call into the SM5714 driver; all of them return ([bat_calls_return]). *)
Definition bat_call {A} (dflt : A) (c : M bstate A) (w : world) : A * world :=
  match c (bat w) with
  | Ret (a, b) => (a, w <| bat := b |>)
  | _ => (dflt, w)
  end.
Definition rest_call {A} (f : Wo → A * Wo) (w : world) : A * world :=
  let '(a, o) := f (rest w) in (a, w <| rest := o |>).
(** The contracts the port manager reports. *)
Fixpoint contracts (l : list (Z * Z)) (w : world) : world :=
  match l with
  | [] => w
  | (mv, ma) :: l' => contracts l' (bat_call 0 (bat_run (BContract mv ma)) w).2
  end.

#[export] Instance both_smbus : Smbus world unit := {|
  bus_read_byte c r := rest_call (bus_read_byte c r);
  bus_write_byte c r v := rest_call (bus_write_byte c r v);
  bus_read_word c r := rest_call (bus_read_word c r);
  bus_write_word c r v := rest_call (bus_write_word c r v) |}.
#[export] Instance both_env : DcEnv world := {|
  power_supply_get_property p q :=
    match p with
    | TCPM => rest_call (tcpm_get_property q)
    | BATTERY => bat_call (0, 0) (sm5714_bat_get_property (bat_prop q))
    end;
  power_supply_set_property q v w :=
    let '((ret, l), w) := rest_call (tcpm_set_property q v) w in (ret, contracts l w);
  set_direct_charge a := bat_call 0 (Sm5714Battery.sm5714_battery_set_direct_charge a);
  fast_charge_enabled := bat_call false Sm5714Battery.sm5714_battery_fast_charge_enabled |}.

Abbreviation M := (M (machine sm5440_direct world dc_event)).
Abbreviation state := (machine sm5440_direct world dc_event).

(** What both drivers, user space, the port manager and the hardware do: the
    pump's poll, its PM notifier (which may also set its flag on its own, while a
    poll runs) and its removal; every other call into the SM5714 driver, and any
    change of the hardware, between them.  Inside a call of the pump only the
    port manager comes in, by [contracts]. *)
Inductive share_step : state → state → Prop :=
  | share_poll m m' : sm5440_work m = Ret (tt, m') → share_step m m'
  | share_notify n m m' : sm5440_pm_notify n m = Ret (tt, m') → share_step m m'
  | share_remove m m' : sm5440_cancel_work m = Ret (tt, m') → share_step m m'
  | share_suspending m b : share_step m (m <| drv ::= fun d => d <| suspending := b |> |>)
  | share_bat e m r b :
      is_direct e = false → bat_run e (bat (wld m)) = Ret (r, b) →
      share_step m (m <| wld ::= fun w => w <| bat := b |> |>)
  | share_hardware m h o :
      share_step m (m <| wld ::= fun w => mkBoth ((bat w) <| wld := h |>) o |>).
Inductive share_reachable : state → Prop :=
  | share_probe m m' :
      log m = [] → sm5440_probe true true PsyRef true 0 m = Ret (0, m') → share_reachable m'
  | share_more m m' : share_reachable m → share_step m m' → share_reachable m'.

(** *** How the pump's calls act on the SM5714 driver *)

Definition pack (m : state) : bstate := bat (wld m).

(** Nothing closes Q4, whoever has the pack. *)
Definition aloof (m m' : state) : Prop :=
  direct (pack m') = direct (pack m) ∧ never_closes (pack m) (pack m').
#[export] Instance aloof_preorder : PreOrder aloof.
Proof.
  unfold aloof. split; [by intros m|]. intros m1 m2 m3 (-> & H1) (-> & H2).
  split; [done|by etrans].
Qed.
(** Nothing closes Q4 while the pack is handed over. *)
Definition yields (m m' : state) : Prop :=
  direct (pack m) = true → direct (pack m') = true ∧ never_closes (pack m) (pack m').
#[export] Instance yields_preorder : PreOrder yields.
Proof.
  unfold yields. split; [by intros m|]. intros m1 m2 m3 H1 H2 Hd.
  destruct (H1 Hd) as [Hd2 ?]. destruct (H2 Hd2). split; [done|by etrans].
Qed.
Lemma aloof_yields {A} (c : M A) : respects aloof c → respects yields c.
Proof. intros H m a m' Hr Hd. destruct (H _ _ _ Hr) as [-> ?]. by split. Qed.

Lemma aloof_emit e : respects aloof (emit (D := sm5440_direct) (W := world) e).
Proof. by intros m a m' [= _ <-]. Qed.
Lemma aloof_mod f :
  respects aloof (mod_drv (D := sm5440_direct) (W := world) (E := dc_event) f).
Proof. by intros m a m' [= _ <-]. Qed.
Lemma aloof_drv : respects aloof (get_drv (D := sm5440_direct) (W := world) (E := dc_event)).
Proof. unfold get_drv. resp. Qed.
Lemma aloof_rest {A} (f : Wo → A * Wo) :
  respects aloof (ask (D := sm5440_direct) (E := dc_event) (rest_call f)).
Proof. intros m a m'. unfold ask, rest_call. destruct (f _). by intros [= _ <-]. Qed.
Lemma aloof_bat {A} (dflt : A) (c : Prelude.M bstate A) :
  respects harmless c →
  respects aloof (ask (D := sm5440_direct) (E := dc_event) (bat_call dflt c)).
Proof.
  intros Hc m a m' H. unfold ask, bat_call in H.
  destruct (c (bat (wld m))) as [[x b]| |] eqn:Hb; injection H as _ <-; [|done..].
  by destruct (mild_harmless _ Hc _ _ _ Hb) as (? & _ & ?).
Qed.
Hint Resolve aloof_emit aloof_mod aloof_drv aloof_rest aloof_bat : resp.

Lemma contracts_yield l (w : world) :
  direct (bat w) = true →
  direct (bat (contracts l w)) = true ∧ never_closes (bat w) (bat (contracts l w)).
Proof.
  revert w. induction l as [|[mv ma] l IH]; intros w Hd; cbn [contracts]; [done|].
  unfold bat_call at 1 2.
  destruct (bat_run (BContract mv ma) (bat w)) as [[r b]| |] eqn:Hb; cbn [snd]; [|by apply IH..].
  pose proof (contract_leaves _ _ _ _ _ Hd Hb) as Hn.
  pose proof (same_entry (BContract mv ma) eq_refl _ _ _ Hb) as Hs. unfold same_direct in Hs.
  destruct (IH (w <| bat := b |>)) as [Hd' Hn']; [cbn; congruence|].
  split; [exact Hd'|by etrans].
Qed.
Lemma yields_psy_set q v : respects yields (sm5440_psy_set (W := world) q v).
Proof.
  unfold sm5440_psy_set. apply respects_bind; [apply _| |intros ret; apply aloof_yields; resp].
  intros m a m' H Hd. unfold ask in H. cbn [power_supply_set_property both_env] in H.
  unfold rest_call in H. destruct (tcpm_set_property q v (rest (wld m))) as [[x l] o].
  injection H as _ <-. by apply contracts_yield.
Qed.

(** **** The calls without a request to the port manager *)
Lemma aloof_read r : respects aloof (dc_read (W := world) r).
Proof. apply (aloof_rest (bus_read_byte tt r)). Qed.
Lemma aloof_write r v : respects aloof (dc_write (W := world) r v).
Proof.
  unfold dc_write, i2c_smbus_write_byte_data.
  apply respects_bind; [apply _|apply (aloof_rest (bus_write_byte tt r (u8 v)))|]. resp.
Qed.
Lemma aloof_get p q : respects aloof (sm5440_psy_get (W := world) p q).
Proof.
  unfold sm5440_psy_get. apply respects_bind; [apply _| |intros [? ?]; resp].
  destruct p; [apply (aloof_rest (tcpm_get_property q))|].
  apply (aloof_bat (0, 0)), bat_get_harmless.
Qed.
Lemma aloof_fast : respects aloof (sm5714_battery_fast_charge_enabled (W := world)).
Proof.
  apply (aloof_bat false). unfold Sm5714Battery.sm5714_battery_fast_charge_enabled, get_drv.
  resp.
Qed.
Lemma aloof_sleep n : respects aloof (msleep (W := world) n).
Proof. apply aloof_emit. Qed.
Hint Resolve aloof_read aloof_write aloof_get aloof_fast aloof_sleep : resp.
Lemma aloof_update r k v : respects aloof (sm5440_update_bits (W := world) r k v).
Proof. unfold sm5440_update_bits. resp. Qed.
Lemma aloof_adc r : respects aloof (sm5440_read_adc_pair (W := world) r).
Proof. unfold sm5440_read_adc_pair. resp. Qed.
Hint Resolve aloof_update aloof_adc : resp.
Lemma aloof_conv c f : respects aloof c → respects aloof (adc (W := world) c f).
Proof. intros Hc. unfold adc. resp. Qed.
Hint Resolve aloof_conv : resp.
Lemma aloof_eligible : respects aloof (sm5440_eligible (W := world)).
Proof. unfold sm5440_eligible. resp. Qed.
Lemma aloof_faults : respects aloof (sm5440_log_faults (W := world)).
Proof. unfold sm5440_log_faults. resp. Qed.
Lemma aloof_settled mv : respects aloof (sm5440_wait_vbus_settled (W := world) mv).
Proof. unfold sm5440_wait_vbus_settled, sm5440_adc_vbus_mv. resp. Qed.
Lemma aloof_pump_on : respects aloof (sm5440_pump_on (W := world)).
Proof. unfold sm5440_pump_on. resp. Qed.
Lemma aloof_write_all l k : respects aloof k → respects aloof (write_all (W := world) l k).
Proof. intros Hk. induction l as [|[r v] l IH]; cbn [write_all]; resp. Qed.
Lemma aloof_hw_init : respects aloof (sm5440_hw_init (W := world)).
Proof. unfold sm5440_hw_init. resp. apply aloof_write_all. resp. Qed.
Lemma aloof_freq ma : respects aloof (sm5440_select_freq (W := world) ma).
Proof. unfold sm5440_select_freq, sm5440_set_freq. resp. Qed.
Lemma aloof_limit ma : respects aloof (sm5440_set_ibus_limit (W := world) ma).
Proof. apply aloof_write. Qed.
Hint Resolve aloof_eligible aloof_faults aloof_settled aloof_pump_on aloof_hw_init aloof_freq
  aloof_limit : resp.

(** **** The calls with one *)
Hint Resolve aloof_yields yields_psy_set : resp.
Lemma yields_retry q v : respects yields (sm5440_psy_retry (W := world) q v).
Proof.
  unfold sm5440_psy_retry. generalize SM5440_PD_RETRIES, true, (- EAGAIN).
  intros n. induction n as [|n IH]; intros b ret; cbn [psy_retry]; resp.
Qed.
Hint Resolve yields_retry : resp.
Lemma yields_walk fuel ret ma : respects yields (walk_down (W := world) fuel ret ma).
Proof. revert ret ma. induction fuel as [|fuel IH]; intros ret ma; cbn [walk_down]; resp. Qed.
Hint Resolve yields_walk : resp.
Lemma yields_negotiate uv : respects yields (sm5440_negotiate_pps (W := world) uv).
Proof. unfold sm5440_negotiate_pps. resp. Qed.
Lemma yields_refresh : respects yields (sm5440_refresh_pps (W := world)).
Proof. unfold sm5440_refresh_pps. resp. Qed.
Hint Resolve yields_negotiate yields_refresh : resp.
Lemma yields_renegotiate : respects yields (sm5440_renegotiate_pps (W := world)).
Proof. unfold sm5440_renegotiate_pps, sm5440_pump_off. resp. Qed.
Hint Resolve yields_renegotiate : resp.

(** *** A poll of the pump *)

Section poll.
Context (m0 : state).
(** Since [m0] nothing has closed Q4; and the pack is handed over. *)
Definition untouched (m : state) : Prop := never_closes (pack m0) (pack m).
Definition held (m : state) : Prop := direct (pack m) = true ∧ untouched m.
Definition resting (m : state) : Prop := J false false m ∧ untouched m.
Definition running (m : state) : Prop := J true true m ∧ held m.
(** The pump only runs on with the pack. *)
Definition fine (m : state) : Prop := active (drv m) = true → held m.

Lemma step_untouched {A} (c : M A) : respects aloof c → triple untouched c (fun _ => untouched).
Proof. intros Hc m a m' Hm Hr. destruct (Hc _ _ _ Hr) as [_ ?]. unfold untouched in *. by etrans. Qed.
Lemma step_held {A} (c : M A) : respects yields c → triple held c (fun _ => held).
Proof.
  intros Hc m a m' [Hd Hm] Hr. destruct (Hc _ _ _ Hr Hd) as [Hd' ?]. split; [done|].
  unfold untouched in *. by etrans.
Qed.
Lemma step_rest {A} (c : M A) :
  respects stays c → respects aloof c → triple resting c (fun _ => resting).
Proof. intros Hs Ha m a m' [Hj Hu] Hr. split; [by apply (Hs _ _ _ Hr)|by eapply step_untouched]. Qed.
Lemma step_running {A} (c : M A) :
  respects stays_on c → respects yields c → triple running c (fun _ => running).
Proof. intros Hs Hy m a m' [Hj Hh] Hr. split; [by apply (Hs _ _ _ Hr)|by eapply step_held]. Qed.
Lemma rest_fine {A} (x : A) : triple resting (mret x) (fun _ => fine).
Proof. apply triple_ret. intros m [(_ & _ & Ha) _] Ht. congruence. Qed.
(** After handing the pack back there is nothing left to claim. *)
Lemma back_fine {A} p a (P : state → Prop) (c : M A) :
  (∀ m, P m → J p a m) → triple (J p a) c (fun _ => J false false) → triple P c (fun _ => fine).
Proof. intros HP Hc m x m' Hm Hr Ht. destruct (Hc _ _ _ (HP _ Hm) Hr) as (_ & _ & Ha). congruence. Qed.
Lemma running_J m : running m → J true true m.
Proof. by intros [? _]. Qed.

Lemma triple_pre {A} (P P' : state → Prop) (c : M A) Q :
  (∀ m, P' m → P m) → triple P c Q → triple P' c Q.
Proof. intros HP Hc m a m' Hm Hr. eapply Hc; [by apply HP|exact Hr]. Qed.
(** [0] only with the pack. *)
Definition got (r : Z) (m : state) : Prop := r = 0 → held m.
Lemma restore_got (c k : M Z) :
  respects yields c → triple held k got → triple held (or_restore c k) got.
Proof.
  intros Hc Hk. unfold or_restore. eapply triple_bind; [by apply step_held|]. intros ret.
  apply triple_if; [done|]. intros Hne m r m' _ H.
  apply bind_inv in H as (x & m1 & _ & H). injection H as <- <-. intros ->. discriminate Hne.
Qed.
Lemma hand_over_got :
  triple untouched (Sm5440Direct.sm5714_battery_set_direct_charge (W := world) true) got.
Proof.
  intros m r m' Hu H. apply bind_inv in H as (ret & m1 & H1 & H).
  apply bind_inv in H as ([] & m2 & H2 & H). injection H as <- <-. injection H2 as <-.
  unfold ask in H1. cbn [set_direct_charge both_env] in H1. unfold bat_call in H1.
  destruct (Sm5714Battery.sm5714_battery_set_direct_charge true (bat (wld m)))
    as [[x b]| |] eqn:Hb.
  - injection H1 as <- <-. apply hand_over_leaves in Hb as [Hn Hd]. intros Hr.
    split; [by apply Hd|]. unfold untouched in *. by etrans.
  - destruct (proj1 (bat_calls_return true PROP_TEMP 0 0) (bat (wld m))) as (? & ? & ?). congruence.
  - destruct (proj1 (bat_calls_return true PROP_TEMP 0 0) (bat (wld m))) as (? & ? & ?). congruence.
Qed.

Lemma start_got : triple untouched (sm5440_start (W := world)) got.
Proof.
  unfold sm5440_start, ret_if_neg, ret_if_nz.
  eapply triple_bind; [apply step_untouched, aloof_get|]. intros uv. cbv beta.
  apply triple_if; [intros Hneg; apply triple_ret; intros m _ ->; discriminate Hneg|intros _].
  eapply triple_bind; [apply hand_over_got|]. intros r. cbv beta.
  apply triple_if; intros Hr; [|by apply triple_ret].
  apply Z.eqb_eq in Hr as ->. apply triple_pre with (P := held); [by intros m Hm; apply Hm|].
  apply restore_got; [resp|].
  eapply triple_bind; [apply step_held; resp|]. intros [[ret ma] mv]. cbv beta iota.
  repeat (apply restore_got; [resp|]).
  eapply triple_bind; [apply step_held; resp|]. intros []. apply triple_ret. by intros m Hm _.
Qed.

Lemma idle_fine : triple resting (work_idle (W := world)) (fun _ => fine).
Proof.
  unfold work_idle. eapply triple_bind; [apply step_rest; [apply stays_fast|resp]|]. intros fast.
  apply triple_if; intros _; [apply rest_fine|].
  eapply triple_bind; [apply step_rest; [apply stays_eligible|resp]|]. intros ok.
  apply triple_if; intros _; [apply rest_fine|].
  eapply triple_bind with (R := fun r m => got r m ∧ started r m).
  { intros m r m' [Hj Hu] H. split; [by eapply start_got|by eapply start_ok]. }
  intros r. apply triple_if; intros Hr.
  - apply back_fine with (p := false) (a := false); [|apply triple_stays, stays_backoff].
    intros m [_ Hm]. unfold started in Hm. destruct (r =? 0); [discriminate Hr|exact Hm].
  - intros m x m' [Hm _] H. apply bind_inv in H as ([] & m1 & H1 & H).
    injection H1 as <-. injection H as _ <-. intros _. apply Hm.
    apply Z.eqb_eq. by destruct (r =? 0).
Qed.

Lemma stop_fine : triple running (work_stop (W := world)) (fun _ => fine).
Proof. apply back_fine with (p := true) (a := true); [apply running_J|apply stop_ok]. Qed.
Lemma step_quiet {A} (c : M A) :
  respects stays c → respects aloof c → triple running c (fun _ => running).
Proof. intros Hs Ha. apply step_running; [by apply stays_stays_on|by apply aloof_yields]. Qed.
Lemma check_fine : triple running (work_check (W := world)) (fun _ => fine).
Proof.
  unfold work_check, sm5440_adc_vbus_mv, sm5440_adc_ibus_ma, sm5440_adc_vbat_mv,
    sm5440_adc_die_temp.
  do 8 (eapply triple_bind; [apply step_quiet;
    [first [apply stays_psy_get | apply stays_read | apply stays_adc_conv, stays_adc
           | apply stays_adc_conv, stays_read]|resp]|intro; cbv beta]).
  apply triple_if; intros _; [apply stop_fine|].
  eapply triple_bind; [apply step_quiet; [by apply stays_update|resp]|]. intros r. cbv beta.
  apply triple_if; intros _.
  - apply back_fine with (p := true) (a := true); [apply running_J|].
    eapply triple_bind; [apply restore_ok|intro; cbv beta]. apply triple_stays, stays_backoff.
  - eapply triple_bind; [apply step_quiet; [by apply stays_mod|resp]|]. intros [].
    apply triple_ret. by intros m [_ Hm] _.
Qed.
Lemma active_fine : triple running (work_active (W := world)) (fun _ => fine).
Proof.
  unfold work_active. eapply triple_bind; [apply step_quiet; [apply stays_fast|resp]|].
  intros fast. apply triple_if; intros _.
  { apply back_fine with (p := true) (a := true); [apply running_J|].
    eapply triple_bind; [apply triple_stays, stays_faults|intro; cbv beta].
    eapply triple_bind; [apply restore_ok|intro; cbv beta]. by apply triple_ret. }
  eapply triple_bind; [apply step_quiet; [by apply stays_mod|resp]|]. intros []. cbv beta.
  eapply triple_bind; [apply step_quiet; [apply stays_drv|resp]|]. intros d. cbv beta.
  apply triple_if; intros _; [|apply check_fine].
  eapply triple_bind; [apply step_quiet; [by apply stays_mod|resp]|]. intros []. cbv beta.
  eapply triple_bind; [apply step_running; [apply renegotiate_ok|resp]|]. intros r. cbv beta.
  apply triple_if; intros _; [apply stop_fine|apply check_fine].
Qed.
End poll.

(** The pack is handed over while the pump is active. *)
Definition agree (m : state) : Prop :=
  consistent m ∧ (active (drv m) = true → direct (pack m) = true).

Lemma work_fine (m m' : state) :
  agree m → sm5440_work m = Ret (tt, m') → fine m m'.
Proof.
  intros [Hc Hd] H. unfold sm5440_work in H.
  apply bind_inv in H as (d & m1 & H1 & H). injection H1 as <- <-.
  apply bind_inv in H as (delay & m2 & H2 & H).
  assert (fine m m2) as Hf.
  { destruct Hc as (b & Hj). assert (active (drv m) = b) as Hb by apply Hj.
    assert (untouched m m) as Hu by (exists []; by rewrite app_nil_r).
    rewrite Hb in H2, Hd. destruct b; [|by eapply idle_fine].
    eapply active_fine; [|exact H2]. split; [exact Hj|]. split; [by apply Hd|exact Hu]. }
  apply bind_inv in H as (d' & m3 & H3 & H). injection H3 as <- <-.
  destruct (suspending (drv m2)); injection H as <-; exact Hf.
Qed.

Lemma consistent_world (m : state) (f : world → world) :
  consistent m → consistent (m <| wld ::= f |>).
Proof. intros (b & Hj). by exists b. Qed.

(** What a step can do to the pack: nothing closes Q4, or it is one of the calls
    of [may_close]. *)
Definition alone (m m' : state) : Prop :=
  never_closes (pack m) (pack m')
  ∨ ∃ e r, is_direct e = false ∧ bat_run e (pack m) = Ret (r, pack m') ∧ may_close e (pack m).

Lemma never_refl (b : bstate) : never_closes b b.
Proof. exists []. by rewrite app_nil_r. Qed.

Lemma pm_fine n (m m' : state) :
  agree m → sm5440_pm_notify n m = Ret (tt, m') → fine m m'.
Proof.
  intros [Hc Hd] H Ha. unfold sm5440_pm_notify in H.
  destruct (n =? PM_SUSPEND_PREPARE).
  - apply bind_inv in H as ([] & m1 & H1 & H). injection H1 as <-.
    apply bind_inv in H as ([] & m2 & H2 & H). injection H2 as <-.
    apply bind_inv in H as (d & m3 & H3 & H). injection H3 as <- <-.
    cbn in H. destruct (active (drv m)) eqn:Hm.
    + apply bind_inv in H as (r & m4 & _ & H). unfold sm5440_restore_switching in H.
      repeat (apply bind_inv in H as (? & ? & _ & H)). injection H as <-. discriminate Ha.
    + injection H as <-. cbn in Ha. congruence.
  - destruct (_ =? _); injection H as <-; (split; [by apply Hd|apply never_refl]).
Qed.
Lemma cancel_fine (m m' : state) :
  agree m → sm5440_cancel_work m = Ret (tt, m') → fine m m'.
Proof.
  intros [Hc Hd] H Ha. unfold sm5440_cancel_work in H.
  apply bind_inv in H as ([] & m1 & H1 & H). injection H1 as <-.
  apply bind_inv in H as (d & m2 & H2 & H). injection H2 as <- <-.
  cbn in H. destruct (active (drv m)) eqn:Hm.
  - unfold sm5440_restore_switching in H.
    repeat (apply bind_inv in H as (? & ? & _ & H)). injection H as <-. discriminate Ha.
  - injection H as <-. cbn in Ha. congruence.
Qed.

Lemma step_alone (m m' : state) :
  agree m → share_step m m' →
  agree m' ∧ (active (drv m') = true → alone m m').
Proof.
  intros Hag Hs. pose proof Hag as [Hc Hd].
  assert (∀ m1, consistent m1 → fine m m1 → agree m1 ∧ (active (drv m1) = true → alone m m1))
    as Hfine.
  { intros m1 Hc1 Hf. split; [split; [done|by intros Ha; apply Hf]|].
    intros Ha. left. by apply Hf. }
  destruct Hs as [m m' H|n m m' H|m m' H|m b|e m r b He H|m h o].
  - apply Hfine; [by eapply work_ok|by apply work_fine].
  - apply Hfine; [by eapply pm_ok|by eapply pm_fine].
  - apply Hfine; [by eapply cancel_ok|by apply cancel_fine].
  - apply Hfine; [by destruct Hc as (x & Hj); exists x|].
    intros Ha. split; [by apply Hd|apply never_refl].
  - pose proof (same_entry e He _ _ _ H) as Hsd. split.
    + split; [by apply consistent_world|]. intros Ha. unfold same_direct in Hsd.
      unfold pack in *. cbn. rewrite Hsd. by apply Hd.
    + intros Ha. destruct (entry_leaves e _ _ _ He (Hd Ha) H); [right|by left].
      by exists e, r.
  - apply Hfine; [by apply consistent_world|]. intros Ha.
    split; [by apply Hd|]. unfold untouched, never_closes, pack. cbn. exists [].
    by rewrite app_nil_r.
Qed.

Lemma reach_agree (m : state) : share_reachable m → agree m.
Proof.
  induction 1 as [m m' Hl H|m m' _ IH Hs]; [|by eapply step_alone].
  destruct (reach_inv _ (reach_probe m m' Hl H)) as [Hc _].
  split; [exact Hc|]. intros Ha. exfalso.
  unfold sm5440_probe in H. cbn [negb] in H.
  apply bind_inv in H as ([] & m1 & H1 & H). injection H1 as <-.
  apply bind_inv in H as (id & m2 & H2 & H).
  unfold dc_read, i2c_smbus_read_byte_data, ask in H2.
  destruct (bus_read_byte _ _ _) as [x w]. injection H2 as <- <-.
  destruct (x <? 0) eqn:Hid; [injection H as -> _; discriminate|].
  destruct (_ =? 1); [|discriminate].
  apply bind_inv in H as ([] & m3 & H3 & H). injection H3 as <-.
  apply bind_inv in H as (b & m4 & H4 & H). injection H as <-.
  unfold sm5714_battery_fast_charge_enabled, ask in H4.
  destruct (fast_charge_enabled _) as [y w']. injection H4 as _ <-. discriminate Ha.
Qed.
End share.

(** C33: from a successful probe of the pump on, whatever the two drivers, the
    port manager, user space and the hardware do in whatever order: while the
    pump is active the SM5714 driver knows it, and a step after which the pump is
    active (its own poll that hands the pack over included, and every contract
    the port manager reports meanwhile) has not closed Q4, the other path into
    the pack; unless the step is one of the three calls that reprogram the
    charger without asking who has the pack: a change of the fast-charge switch,
    the battery poll whose reading moves the thermal band, and turning an active
    boost off. *)
Theorem pump_has_the_pack_alone {Wb Wo} `{!BatEnv Wb, !PumpEnv Wo}
    (m m' : machine sm5440_direct (both Wb Wo) dc_event) :
  share_reachable m → share_step m m' → active (drv m') = true →
  direct_charging (sm (drv (bat (wld m')))) = true
  ∧ ((∃ l, log (bat (wld m')) = log (bat (wld m)) ++ l ∧ Forall leaves_q4 l)
     ∨ ∃ e r, is_direct e = false ∧ bat_run e (bat (wld m)) = Ret (r, bat (wld m'))
              ∧ may_close e (bat (wld m))).
Proof.
  intros Hr Hs Ha. destruct (step_alone m m' (reach_agree m Hr) Hs) as [[_ Hd] Hal].
  split; [by apply Hd|by apply Hal].
Qed.

(** ** The two drivers on a bench *)

(** The pump's chip and source of [Sm5440Props]; the port manager reports the
    contract when the voltage of a request is taken. *)
#[export] Instance bench_pump : PumpEnv bench := {|
  pump_smbus := dc_smbus (DcEnv := bench_env);
  tcpm_get_property q b := ((0, 1), b);
  tcpm_set_property q v b :=
    let '(ret, b) := power_supply_set_property (DcEnv := bench_env) q v b in
    ((ret, match q with
           | PSY_VOLTAGE_NOW => if ret =? 0 then [(Z.quot v 1000, 3000)] else []
           | _ => []
           end), b) |}.
Abbreviation tablets := (machine sm5440_direct (both tablet bench) dc_event).

(** A tablet on a charger with fast charging on, a half-full pack at 41.5 C,
    and the thermal band the pack was in when it was warmer. *)
Definition warm_tablet : tablet :=
  (plugged 41500) <| sram := fun r =>
    if r =? SM5714_FG_SRAM_SOC then 50 * 256
    else if r =? SM5714_FG_SRAM_VBAT then 13080 else 0 |>.
Definition warm_sm : sm5714_battery :=
  (idle_sm <| fast_charge := true |>) <| thermal_state := SM5714_THERMAL_REDUCED |>.
Definition warm : tablets :=
  mkM drv0 (mkBoth (mkM (mkBat true warm_sm) warm_tablet []) bench1) [].

Definition go {A} (c : M tablets A) (m : tablets) : tablets :=
  match c m with Ret (_, m') => m' | _ => m end.
Definition call (e : bat_entry) (m : tablets) : tablets :=
  match bat_run e (bat (wld m)) with
  | Ret (_, b) => m <| wld ::= fun w => w <| bat := b |> |>
  | _ => m
  end.
Definition warm_probed : tablets := go (sm5440_probe true true PsyRef true 0) warm.
Definition warm_pumping : tablets := go sm5440_work warm_probed.

Lemma warm_reachable : share_reachable warm_probed ∧ share_step warm_probed warm_pumping.
Proof.
  split; [|apply share_poll; vm_compute; reflexivity].
  apply share_probe with (m := warm); vm_compute; reflexivity.
Qed.

Lemma pump_has_the_pack_alone_witness :
  active (drv warm_pumping) = true
  ∧ direct_charging (sm (drv (bat (wld warm_pumping)))) = true
  ∧ ((∃ l, log (bat (wld warm_pumping)) = log (bat (wld warm_probed)) ++ l ∧ Forall leaves_q4 l)
     ∨ ∃ e r, is_direct e = false
              ∧ bat_run e (bat (wld warm_probed)) = Ret (r, bat (wld warm_pumping))
              ∧ may_close e (bat (wld warm_probed))).
Proof.
  assert (active (drv warm_pumping) = true) as Ha by (vm_compute; reflexivity).
  split; [exact Ha|].
  destruct warm_reachable as [Hr Hs].
  exact (pump_has_the_pack_alone warm_probed warm_pumping Hr Hs Ha).
Defined.

Lemma call_step e (m : tablets) r b :
  is_direct e = false → bat_run e (bat (wld m)) = Ret (r, b) → share_step m (call e m).
Proof. intros He H. unfold call. rewrite H. by eapply share_bat. Qed.

Definition q4_closed (m : tablets) : bool :=
  testm (tab_reg (wld (bat (wld m))) CHG SM5714_CHG_REG_CNTL1) Q4.
Definition pump_is_on (m : tablets) : bool :=
  testm (reg (b_regs (rest (wld m))) tt SM5440_REG_CNTL5) SM5440_CNTL5_CHG_ON.

(** Two of the three calls do close Q4 behind a running pump: switching fast
    charging off, and the one-second poll of the SM5714 driver when the reading
    brings a warm pack back to the normal band.  The latter stays: the pump's
    next poll finds nothing wrong. *)
Theorem q4_closed_behind_the_pump :
  share_reachable warm_pumping ∧ pump_is_on warm_pumping = true ∧ q4_closed warm_pumping = false
  ∧ Forall (fun e => let m := call e warm_pumping in
       share_step warm_pumping m ∧ active (drv m) = true ∧ pump_is_on m = true
       ∧ q4_closed m = true) [BPoll; BFastCharge false 2]
  ∧ let m := go sm5440_work (call BPoll warm_pumping) in
    active (drv m) = true ∧ pump_is_on m = true ∧ q4_closed m = true.
Proof.
  split; [by eapply share_more; apply warm_reachable|].
  split; [vm_compute; reflexivity|]. split; [vm_compute; reflexivity|].
  split; [|split_and!; vm_compute; reflexivity].
  repeat apply Forall_cons_2; [..|apply Forall_nil_2].
  all: split; [eapply call_step; [done|vm_compute; reflexivity]|].
  all: split_and!; vm_compute; reflexivity.
Qed.
